(* ===== verification/_CoqProject ===== *)
-Q . S2P
Prelude.v
Text.v
Domain.v
StateMachine.v
Effects.v
Sha256.v
Commands.v
Agents.v
GitPort.v
TelemetryPort.v
Validation.v
ContextPort.v
CommandPolicy.v
Unicode.v
Regex.v
Redaction.v
LocalRunner.v
LocalRunnerOutput.v
LocalRunnerSafety.v
LocalRunnerTotal.v
LocalRunnerSample.v
GitPolicy.v
GitPorcelain.v
Ownership.v
OwnershipSafety.v
LocalGit.v
LocalGitSafety.v
LocalGitSample.v
TelemetryService.v
ValidationRunner.v
ValidationExecution.v
ReviewGate.v
OrchestrationPorts.v
RepairPolicy.v
Reconciliation.v
RuntimePort.v
Tables.v
Storage.v
RunJournal.v
UsageStore.v
DurableStore.v
Coordination.v
Service.v
WriteAhead.v
ServiceOutcomes.v
ServiceSample.v
Planning.v
ContextReader.v
ContextDiscovery.v
ContextSelection.v
ContextSafety.v
ContextSelectionSample.v
Json.v
AgentOutput.v
AgentOutputSafety.v
FakeAgent.v
Providers.v
Codex.v
OpenCode.v
AdapterSafety.v
CodexGrammar.v
AdapterSample.v
Workflows.v
WorkflowSafety.v
StatusSafety.v
WorkflowSample.v
Configuration.v
ConfigurationSafety.v
RuntimeComposition.v
CompositionSafety.v
Approvals.v
CompositionSample.v
Reports.v
ReportSafety.v
ReportOutput.v
ReportCommand.v
ReportSample.v
Initialization.v
InitializationSafety.v
InitializationSample.v
