(* ===== verification/Prelude.v ===== *)
(** * Revanent: a verification development

    Revanent ([src/src/revanent/]) coordinates coding agents: a run takes one task through a
    build, a validation, a review and bounded repairs, in an owned Git worktree, under durable
    budgets, and keeps evidence of every step in an SQLite store.  This library is a shallow
    embedding of it in Rocq with the theorems that make it correct.  This file holds the
    vocabulary that every other file uses; its doc comment documents the whole.

    ** How the program and the model fit together

    A use case (start, resume, cancel, status: [application/workflows.py]) binds a run to a
    repository, asks the composition for a request, and calls the coordinator
    ([orchestration/service.py]).  The coordinator runs a loop over the durable state of the
    run: each turn looks at the state and at the records of its attempts, writes the intent of
    the next attempt, asks a collaborator (Git, the context selector, an agent adapter, the
    validation runner), writes the outcome, and moves the run along the transition table with
    [transition_run].  Everything a collaborator starts goes through the local command runner
    and its policies.

    In the model a Python method is a function from a world to a world and a value or an
    exception ([M] of Effects.v); an exception keeps the changes made before it.  What is not in
    the repository (processes, files, clocks, threads, tokens, agents) is an interface: a type
    class of effectful calls over an arbitrary environment, each of which may return anything or
    raise anything, unless a theorem states a hypothesis about it.  The world of the coordinator
    is the store, the context packages it keeps in memory, the environment, and the list of
    requests that were handed to agents.

    Data is as the code has it: records for the pydantic models and dataclasses, inductive types
    for the enumerations, [validate_M] for constructing the model [M] (field constraints, then
    model validators, in order), strings as UTF-8 byte sequences, integers as [Z] with the
    bounds of the fields, decimals as coefficient and exponent, timestamps in microseconds with
    their offset.

    ** The files

    Shared: Prelude (results, list idioms), Text (strings, patterns, paths, times, decimals),
    Effects (the monad, frames of computations), Sha256 ([hashlib]), Unicode (code points,
    decoding), Regex ([re]), Json ([json.loads]).

    Contracts ([domain/], [ports/]): Domain ([domain/models.py], [identifiers.py], [errors.py]),
    StateMachine ([domain/state_machine.py]), Commands, Agents, GitPort, TelemetryPort,
    Validation, ContextPort, OrchestrationPorts, RuntimePort (the module of [ports/] of the same
    name), Reports ([ports/reporting.py] with [application/reports.py]).

    Commands ([commands/]): CommandPolicy ([policy.py]), Redaction ([redaction.py]), LocalRunner
    ([local.py]), and about the runner LocalRunnerOutput (bounds and redaction of what is kept),
    LocalRunnerSafety (what is launched), LocalRunnerTotal (it always answers),
    LocalRunnerSample (a scripted host).

    Git ([git/]): GitPolicy ([policy.py], [parsing.py]) with GitPorcelain (round trip of the
    status format), Ownership ([ownership.py]) with OwnershipSafety, LocalGit ([local.py]) with
    LocalGitSafety and LocalGitSample.

    Context ([context/]): ContextReader ([reader.py]), ContextDiscovery ([discovery.py]),
    ContextSelection ([selection.py]) with ContextSafety and ContextSelectionSample.

    Agents ([agents/]): AgentOutput ([base.py]) with AgentOutputSafety, FakeAgent ([fake.py]),
    Providers ([providers.py]), Codex ([codex.py]), OpenCode ([opencode.py]) with AdapterSafety,
    CodexGrammar (the event loop as a step relation and its language) and AdapterSample.

    Validation and review: ValidationRunner and ValidationExecution ([validation/runner.py]),
    ReviewGate ([review/gates.py]).

    Telemetry: TelemetryService ([telemetry/service.py]).

    Storage ([storage/sqlite.py]): Tables (rows and transactions), Storage (runs, events,
    records, bindings), UsageStore (usage and budgets), with RunJournal (the abstract journal
    that the run repository refines, and the class of repositories that do) and DurableStore
    (the invariant of the whole store).

    Orchestration ([orchestration/]): RepairPolicy ([repair_policy.py]), Reconciliation
    ([reconciliation.py]), Coordination and Service ([service.py], the pure part and the
    effectful one), with Planning (properties of what is derived), WriteAhead (intents before
    side effects), ServiceOutcomes (what a call achieves) and ServiceSample (a run carried to
    approval by evaluation).

    Application ([application/], [config/], [reporting/]): Workflows ([workflows.py]) with
    WorkflowSafety, StatusSafety and WorkflowSample; Configuration ([config/models.py],
    [config/loader.py], [config/project.py], [application/configuration.py]) with
    ConfigurationSafety; RuntimeComposition ([runtime_composition.py], [runtime.py]) with
    CompositionSafety, Approvals and CompositionSample; Reports with ReportSafety; ReportOutput
    ([reporting/renderer.py], [reporting/writer.py]); ReportCommand ([report_command.py]);
    ReportSample; Initialization ([initialization.py]) with InitializationSafety and
    InitializationSample.

    A definition has the name of the Python function, method or class it translates where that
    is possible; a record that would clash with another carries a prefix on its fields.

    ** What the theorems show

    - Runs: the exact behaviour of [transition_run]; every reachable run is well formed and its
      evidence is one chain from CREATED; an approved run was built, validated and reviewed with
      a gate that passes every check; terminal runs stay so, any other run can be cancelled.
    - Store: the repository refines an abstract journal, error for error, the length checks of
      its tables included; every store reachable by any of the public writes can be read back; a
      repeated write is recognised and changes nothing, every other write from the old snapshot
      has a determined answer; a reservation is made exactly when the budget decision allows it,
      for the usage that both count alike.
    - Coordination: an intent is durable before the call it announces, and no attempt is handed
      to an agent twice, over any number of calls, crashes and restarts; the loop ends; an
      answer is a refusal or the status of a durably terminal run; recovery and cancellation
      call nothing but the clock and, for recovery, the verification of worktrees.
    - Decisions: the review gate approves exactly when nothing speaks against it, and raises only
      on a review with more than 999 findings; an approvable
      review leaves no interrupted work unreconciled; the projections kept as intents are typed.
    - Validation: a plan ends in one aggregate of its own evidence, approvable exactly when every
      outcome is one the plan accepts, unless a command ends with an exit code that its evidence
      cannot hold.
    - Processes: the runner launches only what its policies authorize, at most one process a
      call; what it keeps is bounded and redacted; it answers unless the wall clock is set back
      during the call, and its watch ends.
    - Git: every command is an inspection, or the one [worktree add] or [worktree remove] of its
      operation; a creation leaves a durable ownership record whatever fails; only verified clean
      worktrees are removed; status output, with the headers of a tracking branch and others, is
      parsed back exactly.
    - Context: selected items that are no artifacts lie in the scope of the task, artifacts are
      those the request lists; the content of items carries no configured secret and fits the
      limits; a package lacks no required entry that was considered.
    - Adapters: one authorized command an invocation, in a worktree the file system shows as an
      existing directory; a response answers for its request, and only a number that Python
      cannot read or write makes normalization raise; the Codex output is accepted by one grammar,
      from its lines up; the shape check is its recursive definition.
    - Use cases: nothing runs for a run whose repository was not verified; a run and its binding
      are durable before an agent works; a status is consistent with the journal, and the
      tokens it shows as remaining are those a decision would allow.
    - Composition: requests keep the scope of the task; with write repair authorised, the initial
      setting, no request can be made; and no run of the production composition is ever
      approved, because the evidence it collects never justifies the scope.
    - Reports: a report permits an approval only with the evidence for it; the report command
      changes nothing durable, overwrites nothing and writes whole files.
    - Initialisation: it changes nothing that was there, what it reports as done is in place, and
      doing it again changes nothing.

    Every property with hypotheses is applied to a concrete input in one of the Sample files or
    beside it, by evaluation of the model.

    ** Bounds and fuel

    - The coordination loop has the static bound of the source, 1024 turns; it is proved that it
      ends within 309 for every request, so that the bound is never the reason to stop.
    - The watch over a process takes [poll_turns] turns, as many as the timeout holds poll
      intervals; it is proved not to run out on a host whose monotonic clock does not go back.
    - The search for files ([search_turns]) and the expansion of dependencies
      ([expansion_turns]) take as many turns as the queue can receive entries within their
      limits; [search_turns_enough] is the bound of the search.
    - The JSON reader has twice the length of its text as fuel, and one more: a value or an item
      uses at most two turns and consumes a character ([loads_answers]: it never runs out); the
      shape check has a turn for each node of the document; the reader of the configuration file
      one for each byte it may keep, since every read that does not end the file returns at
      least one.
    - Every other recursion is structural.

    ** What is not modelled, and why

    - The schema layer's own parsing and printing (JSON and YAML text to and from typed models)
      and Python's [ast]: parameters, with hypotheses named where a theorem needs that printing
      and parsing agree.  The texts that the repository stores for its payloads are such a
      parameter ([PayloadTexts] of Tables.v), a field of the store: the theorems about the store
      hold for any, and its tables refuse those that are too long.
    - Opening the database, migrations and the check of the schema: the operations start on an
      initialised store.  Transactions are serialised, as [BEGIN IMMEDIATE] makes them; other
      processes act between calls, not inside one, and so do other writers of the disk that
      reports and initialisation write.
    - Clock readings inside durations are rationals; a timeout is a whole number of seconds, as
      its callers pass it; binary64 occurs in one ratio and is modelled as such.
    - Windows path syntax and reparse points, paths that begin with two slashes, and the case
      folding of characters beyond ASCII, which is a parameter; the tables of character classes
      beyond ASCII are one too.
    - Reader threads that are alive after the join: what they have read by then is asked of the
      host.
    - The command line ([cli/]), task files, environment diagnosis and provider detection, the
      certification records of the live tests, and the modules that only re-export names:
      printing, probing and parsing without state of the program. *)

From Stdlib Require Import ZArith Lia Ascii String.
From stdpp Require Import sorting strings numbers.
From stdpp Require Import base option list list_relations.

Declare Scope rev_scope.
Delimit Scope rev_scope with rev.
#[export] Set Default Goal Selector "!".

Create HintDb rev.

(** ** The result monad: a Python expression returns or raises. *)

Inductive result (E A : Type) : Type :=
| Ok (a : A)
| Err (e : E).
Arguments Ok {E A} a.
Arguments Err {E A} e.

#[export] Instance result_ret {E} : MRet (result E) := fun A => Ok.
#[export] Instance result_bind {E} : MBind (result E) :=
  fun A B f m => match m with Ok a => f a | Err e => Err e end.
#[export] Instance result_fmap {E} : FMap (result E) :=
  fun A B f m => match m with Ok a => Ok (f a) | Err e => Err e end.

Definition raise_if {E} (b : bool) (e : E) : result E unit :=
  if b then Err e else Ok tt.

Definition is_ok {E A} (r : result E A) : bool :=
  match r with Ok _ => true | Err _ => false end.

(** [for x in xs: xs'.append(f x)], stopping at the first exception. *)
Fixpoint traverse {E A B} (f : A -> result E B) (xs : list A) : result E (list B) :=
  match xs with
  | [] => Ok []
  | x :: xs => match f x with
               | Ok y => match traverse f xs with Ok ys => Ok (y :: ys) | Err e => Err e end
               | Err e => Err e
               end
  end.

Section result_lemmas.
Context {E : Type}.

Lemma bind_Ok {A B} (m : result E A) (f : A -> result E B) b :
  (m ≫= f) = Ok b <-> exists a, m = Ok a /\ f a = Ok b.
Proof.
  destruct m as [a|e]; simpl; split.
  - intros H. by exists a.
  - intros (a' & Ha & Hb). by simplify_eq.
  - done.
  - intros (a' & Ha & _). done.
Qed.

Lemma raise_if_Ok b (e : E) u : raise_if b e = Ok u <-> b = false.
Proof. destruct b, u; unfold raise_if; naive_solver. Qed.

Lemma raise_if_false b (e : E) : b = false -> raise_if b e = Ok tt.
Proof. by intros ->. Qed.

Lemma bind_raise_if {B} b (e : E) (k : result E B) :
  (raise_if b e ;; k) = if b then Err e else k.
Proof. by destruct b. Qed.

Lemma bind_raise_if_Ok {B} b (e : E) (k : result E B) x :
  (raise_if b e ;; k) = Ok x <-> b = false /\ k = Ok x.
Proof. destruct b; simpl; naive_solver. Qed.

Lemma traverse_Forall2 {A B} (f : A -> result E B) xs ys :
  traverse f xs = Ok ys <-> Forall2 (fun x y => f x = Ok y) xs ys.
Proof.
  revert ys. induction xs as [|x xs IH]; intros ys; simpl.
  - split; [intros [= <-]; constructor | inversion 1; done].
  - split.
    + destruct (f x) eqn:Hx; [|done]. destruct (traverse f xs) eqn:Ht; [|done].
      intros [= <-]. constructor; [done|]. by apply IH.
    + inversion 1 as [|? ? ? ? Hx Ht]; subst. rewrite Hx.
      apply IH in Ht. by rewrite Ht.
Qed.

Lemma traverse_fix {A} (f : A -> result E A) xs :
  Forall (fun x => f x = Ok x) xs -> traverse f xs = Ok xs.
Proof. intros H. apply traverse_Forall2. by apply Forall_Forall2_diag. Qed.

Lemma traverse_Ok_fix {A} (f : A -> result E A) xs :
  traverse f xs = Ok xs -> Forall (fun x => f x = Ok x) xs.
Proof.
  rewrite traverse_Forall2. intros H. induction xs; inversion H; subst; constructor; auto.
Qed.
End result_lemmas.

(** A validator whose results it accepts unchanged: dumping a constructed model
    and validating the dump gives the model back. *)
Class Idem {E A} (f : A -> result E A) : Prop :=
  idem : forall x y, f x = Ok y -> f y = Ok y.

#[export] Instance traverse_idem {E A} (f : A -> result E A) : Idem f -> Idem (traverse f).
Proof.
  intros Hf xs ys H%traverse_Forall2. apply traverse_fix.
  induction H; constructor; eauto.
Qed.

(** Invert every successful bind and guard of the hypotheses. *)
Ltac inv_ok1 :=
  match goal with
  | H : Ok _ = Ok _ |- _ => injection H as H; subst
  | H : mret _ = Ok _ |- _ => unfold mret, result_ret in H
  | H : Err _ = Ok _ |- _ => discriminate H
  | H : Ok _ = Err _ |- _ => discriminate H
  | H : Err _ = Err _ |- _ => injection H as H; subst
  | H : (raise_if _ _ ;; _) = Ok _ |- _ =>
      apply bind_raise_if_Ok in H; destruct H as [? H]
  | H : (mbind _ _) = Ok _ |- _ =>
      apply bind_Ok in H;
      let a := fresh "v" in let H1 := fresh "Hv" in destruct H as (a & H1 & H)
  | H : raise_if _ _ = Ok _ |- _ => apply raise_if_Ok in H
  end.
Ltac inv_ok := repeat inv_ok1.

(** Booleans of the guards as propositions. *)
Ltac bool_prop :=
  repeat match goal with
  | H : _ || _ = false |- _ => apply orb_false_iff in H; destruct H
  | H : _ && _ = true |- _ => apply andb_true_iff in H; destruct H
  | H : negb _ = false |- _ => apply negb_false_iff in H
  | H : negb _ = true |- _ => apply negb_true_iff in H
  | H : bool_decide _ = true |- _ => apply bool_decide_eq_true in H
  | H : bool_decide _ = false |- _ => apply bool_decide_eq_false in H
  | H : (_ <? _)%Z = true |- _ => apply Z.ltb_lt in H
  | H : (_ <? _)%Z = false |- _ => apply Z.ltb_ge in H
  | H : (_ <=? _)%Z = true |- _ => apply Z.leb_le in H
  | H : (_ <=? _)%Z = false |- _ => apply Z.leb_gt in H
  | H : (_ =? _)%Z = true |- _ => apply Z.eqb_eq in H
  | H : (_ =? _)%Z = false |- _ => apply Z.eqb_neq in H
  | H : _ /\ _ |- _ => destruct H
  end.

(** Evaluate the decidable tests on constructors. *)
Ltac decide_closed1 P :=
  let r := eval vm_compute in (bool_decide P) in
  lazymatch r with
  | true => change (bool_decide P) with true in *
  | false => change (bool_decide P) with false in *
  end.
Ltac decide_closed :=
  repeat match goal with
  | |- context [bool_decide ?P] => decide_closed1 P
  | H : context [bool_decide ?P] |- _ => decide_closed1 P
  end; cbn [negb andb orb] in *.

(** Memberships in literal lists as disjunctions of equations. *)
Ltac enum := rewrite ?elem_of_cons, ?elem_of_nil in *; intuition congruence.

(** ** Optional values *)

Definition is_some {A} (o : option A) : bool := match o with Some _ => true | None => false end.
Definition is_none {A} (o : option A) : bool := match o with Some _ => false | None => true end.

Lemma is_none_negb {A} (o : option A) : is_none o = negb (is_some o).
Proof. by destruct o. Qed.

Lemma bool_decide_refl {A} (x : A) `{!Decision (x = x)} : bool_decide (x = x) = true.
Proof. by apply bool_decide_eq_true. Qed.

(** ** Python list idioms *)

(** [len(xs) != len(set(xs))] *)
Definition has_duplicates {A} `{EqDecision A} (xs : list A) : bool :=
  negb (bool_decide (NoDup xs)).

Lemma has_duplicates_false {A} `{EqDecision A} (xs : list A) :
  has_duplicates xs = false <-> NoDup xs.
Proof. unfold has_duplicates. rewrite negb_false_iff. apply bool_decide_eq_true. Qed.

(** [tuple(dict.fromkeys(xs))]: the first occurrence of every value, in order. *)
Fixpoint dict_fromkeys {A} `{EqDecision A} (xs : list A) : list A :=
  match xs with
  | [] => []
  | x :: xs => x :: filter (fun y => y <> x) (dict_fromkeys xs)
  end.

Section dict_fromkeys.
Context {A : Type} `{EqDecision A}.

Lemma elem_of_dict_fromkeys (xs : list A) x : x ∈ dict_fromkeys xs <-> x ∈ xs.
Proof.
  induction xs as [|y xs IH]; simpl; [done|].
  rewrite !elem_of_cons, list_elem_of_filter, IH.
  destruct (decide (x = y)); naive_solver.
Qed.

Lemma NoDup_dict_fromkeys (xs : list A) : NoDup (dict_fromkeys xs).
Proof.
  induction xs as [|y xs IH]; simpl; constructor.
  - rewrite list_elem_of_filter. naive_solver.
  - by apply NoDup_filter.
Qed.

Lemma dict_fromkeys_nil (xs : list A) : dict_fromkeys xs = [] <-> xs = [].
Proof. by destruct xs. Qed.
End dict_fromkeys.

(** [sorted(xs)]: a stable sort for the order [le]. *)
Section py_sorted.
Context {A : Type} (le : A -> A -> bool).

Fixpoint sort_insert (x : A) (ys : list A) : list A :=
  match ys with
  | [] => [x]
  | y :: ys' => if le x y then x :: ys else y :: sort_insert x ys'
  end.

Fixpoint py_sorted (xs : list A) : list A :=
  match xs with
  | [] => []
  | x :: xs => sort_insert x (py_sorted xs)
  end.

Lemma sort_insert_perm x ys : sort_insert x ys ≡ₚ x :: ys.
Proof.
  induction ys as [|y ys IH]; simpl; [done|].
  destruct (le x y); [done|]. rewrite IH. by apply Permutation_swap.
Qed.

Lemma py_sorted_perm xs : py_sorted xs ≡ₚ xs.
Proof. induction xs as [|x xs IH]; simpl; [done|]. by rewrite sort_insert_perm, IH. Qed.

Hypothesis le_total : forall x y, le x y = true \/ le y x = true.
Hypothesis le_trans : forall x y z, le x y = true -> le y z = true -> le x z = true.

Lemma sort_insert_sorted x ys :
  StronglySorted (fun a b => le a b = true) ys ->
  StronglySorted (fun a b => le a b = true) (sort_insert x ys).
Proof.
  induction 1 as [|y ys Hs IH Hy]; simpl; [by repeat constructor|].
  destruct (le x y) eqn:Hxy.
  - constructor; [by constructor|]. constructor; [done|].
    eapply Forall_impl; [exact Hy|]. simpl. eauto.
  - constructor; [done|]. rewrite sort_insert_perm. constructor; [|done].
    destruct (le_total x y); congruence.
Qed.

Lemma py_sorted_sorted xs : StronglySorted (fun a b => le a b = true) (py_sorted xs).
Proof. induction xs; simpl; [constructor | by apply sort_insert_sorted]. Qed.

(** A list already in order is a fixed point. *)
Lemma py_sorted_id xs :
  StronglySorted (fun a b => le a b = true) xs -> py_sorted xs = xs.
Proof.
  clear le_total le_trans.
  induction 1 as [|x xs Hs IH Hx]; simpl; [done|]. rewrite IH.
  destruct xs as [|y xs]; [done|]. simpl. inversion Hx as [|? ? Hxy]; subst.
  by rewrite Hxy.
Qed.

Lemma py_sorted_idem xs : py_sorted (py_sorted xs) = py_sorted xs.
Proof. apply py_sorted_id, py_sorted_sorted. Qed.

Lemma py_sorted_fix_sorted xs :
  py_sorted xs = xs <-> StronglySorted (fun a b => le a b = true) xs.
Proof.
  split; [intros <-; apply py_sorted_sorted | apply py_sorted_id].
Qed.
End py_sorted.

(** [sorted(xs, key=key)] sorts the keys. *)
Lemma py_sorted_fmap {A B} (le : B -> B -> bool) (key : A -> B) xs :
  key <$> py_sorted (fun a b => le (key a) (key b)) xs = py_sorted le (key <$> xs).
Proof.
  induction xs as [|x xs IH]; [done|]. rewrite fmap_cons. cbn [py_sorted]. rewrite <- IH. clear IH.
  induction (py_sorted _ xs) as [|y ys IH]; [done|]. rewrite fmap_cons. cbn [sort_insert].
  destruct (le (key x) (key y)); [done|]. by rewrite <- IH.
Qed.

(** [max(xs)] and [min(xs)] of integers, as folds from the first element. *)
Definition max_list (x : Z) (xs : list Z) : Z := foldr Z.max x xs.
Definition min_list (x : Z) (xs : list Z) : Z := foldr Z.min x xs.

Lemma max_list_ge x xs : (x <= max_list x xs)%Z /\ Forall (fun y => y <= max_list x xs)%Z xs.
Proof.
  induction xs as [|y xs [IH1 IH2]]; unfold max_list in *; simpl.
  - split; [lia | constructor].
  - split; [lia|]. constructor; [lia|]. eapply Forall_impl; [exact IH2|]. simpl. lia.
Qed.

Lemma min_list_le x xs : (min_list x xs <= x)%Z /\ Forall (fun y => min_list x xs <= y)%Z xs.
Proof.
  induction xs as [|y xs [IH1 IH2]]; unfold min_list in *; simpl.
  - split; [lia | constructor].
  - split; [lia|]. constructor; [lia|]. eapply Forall_impl; [exact IH2|]. simpl. lia.
Qed.

(** [sum(xs)] *)
Definition py_sum (xs : list Z) : Z := foldr Z.add 0%Z xs.

Lemma py_sum_perm (xs ys : list Z) : xs ≡ₚ ys -> py_sum xs = py_sum ys.
Proof. unfold py_sum. induction 1; simpl; lia. Qed.

(** [sum(p(x) for x in xs)] *)
Definition count {A} (p : A -> bool) (xs : list A) : Z :=
  Z.of_nat (length (filter (fun x => p x = true) xs)).

Lemma count_nonneg {A} (p : A -> bool) xs : (0 <= count p xs)%Z.
Proof. unfold count. lia. Qed.

Lemma count_cons {A} (p : A -> bool) x xs :
  count p (x :: xs) = ((if p x then 1 else 0) + count p xs)%Z.
Proof. unfold count. rewrite filter_cons. destruct (p x); simpl; lia. Qed.

Lemma count_nil {A} (p : A -> bool) : count p [] = 0%Z.
Proof. done. Qed.

Lemma count_app {A} (p : A -> bool) xs ys : count p (xs ++ ys) = (count p xs + count p ys)%Z.
Proof. unfold count. rewrite filter_app, length_app. lia. Qed.

Lemma count_le_length {A} (p : A -> bool) xs : (count p xs <= Z.of_nat (length xs))%Z.
Proof.
  induction xs as [|x xs IH]; [done|]. rewrite count_cons. simpl length. destruct (p x); lia.
Qed.

(** [next((x for x in xs if p x), None)] *)
Fixpoint find_first {A} (p : A -> bool) (xs : list A) : option A :=
  match xs with
  | [] => None
  | x :: xs => if p x then Some x else find_first p xs
  end.

Lemma find_first_Some {A} (p : A -> bool) xs x :
  find_first p xs = Some x -> x ∈ xs /\ p x = true.
Proof.
  induction xs as [|y xs IH]; simpl; [done|]. destruct (p y) eqn:Hp.
  - intros [= ->]. split; [constructor | done].
  - intros H. destruct (IH H). split; [by constructor | done].
Qed.

Lemma find_first_None {A} (p : A -> bool) xs :
  find_first p xs = None <-> Forall (fun x => p x = false) xs.
Proof.
  induction xs as [|y xs IH]; simpl; [split; [constructor|done]|].
  destruct (p y) eqn:Hp; split.
  - done.
  - inversion 1; congruence.
  - intros. constructor; [done|]. by apply IH.
  - inversion 1; subst. by apply IH.
Qed.

Lemma find_first_app {A} (p : A -> bool) xs ys :
  find_first p (xs ++ ys) =
  match find_first p xs with Some x => Some x | None => find_first p ys end.
Proof. induction xs as [|x xs IH]; simpl; [done|]. by destruct (p x). Qed.

Lemma existsb_false {A} (p : A -> bool) xs :
  existsb p xs = false <-> Forall (fun x => p x = false) xs.
Proof.
  induction xs as [|x xs IH]; simpl; [split; [constructor|done]|].
  rewrite orb_false_iff, IH. split; [intros []; by constructor | by inversion 1].
Qed.

Lemma forallb_true {A} (p : A -> bool) xs :
  forallb p xs = true <-> Forall (fun x => p x = true) xs.
Proof.
  induction xs as [|x xs IH]; simpl; [split; [constructor|done]|].
  rewrite andb_true_iff, IH. split; [intros []; by constructor | by inversion 1].
Qed.

(** A Python [dict] filled by [d[k] = v]: the first insertion fixes the place of a
    key, the last one its value. *)
Fixpoint dict_set {K V} `{EqDecision K} (k : K) (v : V) (d : list (K * V)) : list (K * V) :=
  match d with
  | [] => [(k, v)]
  | (k', v') :: d => if decide (k = k') then (k', v) :: d else (k', v') :: dict_set k v d
  end.

Definition dict_get {K V} `{EqDecision K} (k : K) (d : list (K * V)) : option V :=
  snd <$> find_first (fun p => bool_decide (p.1 = k)) d.

Definition dict_of {K V} `{EqDecision K} (items : list (K * V)) : list (K * V) :=
  fold_left (fun d p => dict_set p.1 p.2 d) items [].

Section dict.
Context {K V : Type} `{EqDecision K}.
Implicit Types (d : list (K * V)).

Lemma dict_get_set k k' (v : V) d :
  dict_get k' (dict_set k v d) = if decide (k = k') then Some v else dict_get k' d.
Proof.
  unfold dict_get. induction d as [|[k1 v1] d IH]; cbn.
  - case_bool_decide; case_decide; congruence || done.
  - destruct (decide (k = k1)) as [<-|Hne]; cbn; repeat case_bool_decide; repeat case_decide; congruence || done.
Qed.

Lemma dict_get_set_eq k (v : V) d : dict_get k (dict_set k v d) = Some v.
Proof. rewrite dict_get_set. by rewrite decide_True. Qed.

Lemma dict_get_set_ne k k' (v : V) d : k <> k' -> dict_get k' (dict_set k v d) = dict_get k' d.
Proof. intros. rewrite dict_get_set. by rewrite decide_False. Qed.

Lemma dict_set_keys k (v : V) d :
  (dict_set k v d).*1 = if decide (k ∈ d.*1) then d.*1 else d.*1 ++ [k].
Proof.
  induction d as [|[k1 v1] d IH]; cbn; [done|]. destruct (decide (k = k1)) as [<-|Hne]; cbn.
  - rewrite decide_True; [done | by left].
  - rewrite IH. destruct (decide (k ∈ d.*1)); [rewrite decide_True by (by right); done|].
    rewrite decide_False; [done|]. by rewrite not_elem_of_cons.
Qed.

Lemma dict_set_NoDup k (v : V) d : NoDup d.*1 -> NoDup (dict_set k v d).*1.
Proof.
  intros Hd. rewrite dict_set_keys. case_decide; [done|]. apply NoDup_app. split_and!; [done| |].
  - intros x Hx. rewrite list_elem_of_singleton. by intros ->.
  - apply NoDup_singleton.
Qed.

Lemma dict_get_Some k (v : V) d : NoDup d.*1 -> dict_get k d = Some v <-> (k, v) ∈ d.
Proof.
  unfold dict_get. induction d as [|[k1 v1] d IH]; cbn; intros Hd; [split; [done|by intros ?%not_elem_of_nil]|].
  apply NoDup_cons in Hd as [Hk Hd]. rewrite elem_of_cons. case_bool_decide as Hc; cbn.
  - subst. split; [intros [= ->]; by left|]. intros [[= ->]|Hin]; [done|]. destruct Hk.
    apply list_elem_of_fmap. by exists (k, v).
  - rewrite IH by done. split; [by right|]. intros [[= -> ->]|Hin]; done.
Qed.
End dict.
