(* ===== verification/Text.v ===== *)
(** * Strings, identifier patterns, timestamps and decimals

    A Python [str] is its UTF-8 encoding, a [string] of bytes: byte order is
    code-point order, [len] counts the bytes that are not continuation bytes,
    [len(s.encode("utf-8"))] is the byte length.  [str_strip] is the
    [str_strip_whitespace] of the schema layer.  [pat] matches the regular
    expressions of the sources, all concatenations of literals and bounded
    character classes.  A [datetime] is its instant in microseconds and its
    UTC offset, absent for a naive value. *)

From Stdlib Require Import ZArith Lia Ascii String Sorted.
From S2P Require Import Prelude.
From stdpp Require Import base option strings numbers pretty sets list list_relations.

Open Scope Z_scope.

(** ** Strings *)

Definition byte_in (lo hi : N) (c : ascii) : bool :=
  ((lo <=? N_of_ascii c) && (N_of_ascii c <=? hi))%N.

Definition is_continuation : ascii -> bool := byte_in 128 191.

(** [len(s)] *)
Fixpoint py_len (s : string) : Z :=
  match s with
  | EmptyString => 0
  | String c s => (if is_continuation c then 0 else 1) + py_len s
  end.

(** [len(s.encode("utf-8"))] *)
Definition byte_len (s : string) : Z := Z.of_nat (String.length s).

Lemma py_len_nonneg s : 0 <= py_len s.
Proof. induction s as [|c s IH]; simpl; [lia|]. destruct (is_continuation c); lia. Qed.

Lemma py_len_app a b : py_len (a +:+ b) = py_len a + py_len b.
Proof. induction a as [|c a IH]; simpl; [done|]. rewrite IH. lia. Qed.

Lemma py_len_le_byte_len s : py_len s <= byte_len s.
Proof.
  unfold byte_len. induction s as [|c s IH]; [done|].
  cbn [py_len String.length]. destruct (is_continuation c); lia.
Qed.

(** The order of [<=] on [str] and on the keys given to [sorted]. *)
Definition str_le (a b : string) : bool := String.leb a b.

Lemma str_le_total a b : str_le a b = true \/ str_le b a = true.
Proof. apply String.leb_total. Qed.

Lemma ascii_compare_lt_trans a b c :
  Ascii.compare a b = Lt -> Ascii.compare b c = Lt -> Ascii.compare a c = Lt.
Proof. unfold Ascii.compare. rewrite !N.compare_lt_iff. lia. Qed.

Lemma ascii_compare_refl a : Ascii.compare a a = Eq.
Proof. apply N.compare_refl. Qed.

Lemma string_compare_refl a : String.compare a a = Eq.
Proof. induction a as [|x a IH]; simpl; [done|]. by rewrite ascii_compare_refl. Qed.

Lemma ascii_compare_eq a b : Ascii.compare a b = Eq -> a = b.
Proof. apply Ascii.compare_eq_iff. Qed.

Lemma string_compare_lt_trans a b c :
  String.compare a b = Lt -> String.compare b c = Lt -> String.compare a c = Lt.
Proof.
  revert b c. induction a as [|x a IH]; intros [|y b] [|z c]; simpl; try done.
  destruct (Ascii.compare x y) eqn:Hxy, (Ascii.compare y z) eqn:Hyz; try done.
  - apply ascii_compare_eq in Hxy, Hyz; subst. intros.
    rewrite ascii_compare_refl. eauto.
  - apply ascii_compare_eq in Hxy; subst. by rewrite Hyz.
  - apply ascii_compare_eq in Hyz; subst. by rewrite Hxy.
  - by rewrite (ascii_compare_lt_trans _ _ _ Hxy Hyz).
Qed.

Lemma str_le_trans a b c : str_le a b = true -> str_le b c = true -> str_le a c = true.
Proof.
  unfold str_le, String.leb.
  destruct (String.compare a b) eqn:Hab, (String.compare b c) eqn:Hbc; try done;
    repeat match goal with
    | H : String.compare _ _ = Eq |- _ => apply String.compare_eq_iff in H; subst
    end; rewrite ?Hab, ?Hbc; try done.
  - by rewrite string_compare_refl.
  - by rewrite (string_compare_lt_trans _ _ _ Hab Hbc).
Qed.

Lemma str_le_antisym a b : str_le a b = true -> str_le b a = true -> a = b.
Proof.
  unfold str_le, String.leb. rewrite (String.compare_antisym a b).
  destruct (String.compare b a) eqn:Hba; simpl; try done.
  intros _ _. by apply String.compare_eq_iff in Hba.
Qed.

Lemma str_le_refl a : str_le a a = true.
Proof. destruct (str_le_total a a); done. Qed.

(** The lexicographic order of pairs of strings. *)
Definition pair_le (a b : string * string) : bool :=
  if bool_decide (a.1 = b.1) then str_le a.2 b.2 else str_le a.1 b.1.

Lemma pair_le_total a b : pair_le a b = true \/ pair_le b a = true.
Proof.
  unfold pair_le. case_bool_decide as H1; case_bool_decide as H2; try congruence;
    apply str_le_total.
Qed.

Lemma pair_le_trans a b c : pair_le a b = true -> pair_le b c = true -> pair_le a c = true.
Proof.
  unfold pair_le. repeat case_bool_decide; intros; try congruence;
    eauto using str_le_trans.
  exfalso. assert (a.1 = b.1); [|done]. apply str_le_antisym; congruence.
Qed.

Definition sorted_strings (xs : list string) : list string := py_sorted str_le xs.

(** [tuple(sorted(set(xs)))] *)
Definition sorted_set (xs : list string) : list string := sorted_strings (dict_fromkeys xs).

Lemma elem_of_sorted_set xs x : x ∈ sorted_set xs <-> x ∈ xs.
Proof.
  unfold sorted_set, sorted_strings. rewrite py_sorted_perm. apply elem_of_dict_fromkeys.
Qed.

Lemma NoDup_sorted_set xs : NoDup (sorted_set xs).
Proof.
  unfold sorted_set, sorted_strings. rewrite py_sorted_perm. apply NoDup_dict_fromkeys.
Qed.

Lemma dict_fromkeys_id {A} `{EqDecision A} (xs : list A) : NoDup xs -> dict_fromkeys xs = xs.
Proof.
  induction 1 as [|x xs Hx Hnd IH]; simpl; [done|]. rewrite IH. f_equal.
  clear IH Hnd. induction xs as [|y xs IH]; [done|].
  rewrite filter_cons_True by set_solver. f_equal. apply IH. set_solver.
Qed.

Lemma sorted_set_idem xs : sorted_set (sorted_set xs) = sorted_set xs.
Proof.
  unfold sorted_set at 1. rewrite dict_fromkeys_id by apply NoDup_sorted_set.
  apply py_sorted_idem; [apply str_le_total | apply str_le_trans].
Qed.

(** Strictly increasing strings, checked on neighbours. *)
Fixpoint strictly_increasing (xs : list string) : bool :=
  match xs with
  | x :: (y :: _) as tail => str_le x y && negb (String.eqb x y) && strictly_increasing tail
  | _ => true
  end.

Lemma strictly_increasing_NoDup xs : strictly_increasing xs = true -> NoDup xs.
Proof.
  intros H.
  assert (Hs : StronglySorted (fun a b => str_le a b = true /\ a <> b) xs).
  { apply Sorted_StronglySorted.
    - intros a b c [H1 N1] [H2 N2]. split; [by eapply str_le_trans|]. intros ->.
      apply N1. by apply str_le_antisym.
    - induction xs as [|x [|y xs] IH]; [constructor|by repeat constructor|].
      cbn [strictly_increasing] in H. apply andb_true_iff in H as [H H3].
      apply andb_true_iff in H as [H1 H2]. constructor; [by apply IH|]. constructor.
      split; [done|]. by apply negb_true_iff, String.eqb_neq in H2. }
  clear H. induction Hs as [|x xs Hs IH Hx]; constructor; [|done].
  intros Hin. rewrite Forall_forall in Hx. by destruct (Hx x Hin).
Qed.

(** *** [str_strip_whitespace]: the code points with the White_Space property *)

Definition bytes (l : list N) : list ascii := ascii_of_N <$> l.

Definition whitespace : list (list ascii) :=
  bytes <$> ([ [9]; [10]; [11]; [12]; [13]; [32]; [194; 133]; [194; 160];
     [225; 154; 128];
     [226; 128; 128]; [226; 128; 129]; [226; 128; 130]; [226; 128; 131];
     [226; 128; 132]; [226; 128; 133]; [226; 128; 134]; [226; 128; 135];
     [226; 128; 136]; [226; 128; 137]; [226; 128; 138];
     [226; 128; 168]; [226; 128; 169]; [226; 128; 175];
     [226; 129; 159]; [227; 128; 128] ]%N).

(** [l] without its prefix [p]. *)
Fixpoint drop_prefix (p l : list ascii) : option (list ascii) :=
  match p, l with
  | [], _ => Some l
  | a :: p, b :: l => if Ascii.eqb a b then drop_prefix p l else None
  | _ :: _, [] => None
  end.

Fixpoint drop_one (pats : list (list ascii)) (l : list ascii) : option (list ascii) :=
  match pats with
  | [] => None
  | p :: pats => match drop_prefix p l with Some l' => Some l' | None => drop_one pats l end
  end.

(** Drop prefixes while one matches; every pattern is non-empty, so the fuel
    [length l] is enough. *)
Fixpoint trim (fuel : nat) (pats : list (list ascii)) (l : list ascii) : list ascii :=
  match fuel with
  | O => l
  | S fuel => match drop_one pats l with Some l' => trim fuel pats l' | None => l end
  end.

Definition trim_all (pats : list (list ascii)) (l : list ascii) : list ascii :=
  trim (length l) pats l.

Definition strip_bytes (l : list ascii) : list ascii :=
  rev (trim_all (map (@rev ascii) whitespace) (rev (trim_all whitespace l))).

Definition str_strip (s : string) : string :=
  String.string_of_list_ascii (strip_bytes (String.list_ascii_of_string s)).

Section trim.
Variable pats : list (list ascii).
Hypothesis pats_nonempty : Forall (fun p => p <> []) pats.

Lemma drop_prefix_Some p l l' : drop_prefix p l = Some l' <-> l = p ++ l'.
Proof.
  revert l. induction p as [|a p IH]; intros l; simpl; [naive_solver|].
  destruct l as [|b l]; [naive_solver|].
  destruct (Ascii.eqb_spec a b) as [->|Hne]; [|naive_solver].
  rewrite IH. naive_solver.
Qed.

Lemma drop_one_Some l l' : drop_one pats l = Some l' -> exists p, p ∈ pats /\ l = p ++ l'.
Proof.
  clear pats_nonempty. induction pats as [|p ps IH]; simpl; [done|].
  destruct (drop_prefix p l) eqn:Hp.
  - intros [= <-]. apply drop_prefix_Some in Hp. exists p. split; [constructor|done].
  - intros (q & Hq & ->)%IH. exists q. split; [by constructor|done].
Qed.

Lemma drop_one_None l : drop_one pats l = None <-> Forall (fun p => forall r, l <> p ++ r) pats.
Proof.
  clear pats_nonempty. induction pats as [|p ps IH]; simpl; [split; [constructor|done]|].
  destruct (drop_prefix p l) as [l'|] eqn:Hp.
  - apply drop_prefix_Some in Hp. split; [done|]. inversion 1; naive_solver.
  - rewrite IH. split; [|by inversion 1].
    intros. constructor; [|done]. intros r Hr. by apply drop_prefix_Some in Hr; simplify_eq.
Qed.

Lemma trim_suffix n l : exists pre, l = pre ++ trim n pats l.
Proof.
  revert l. induction n as [|n IH]; intros l; simpl; [by exists []|].
  destruct (drop_one pats l) as [l'|] eqn:Hl; [|by exists []].
  apply drop_one_Some in Hl as (p & _ & ->). destruct (IH l') as [pre Hpre].
  exists (p ++ pre). rewrite <- app_assoc. by f_equal.
Qed.

Lemma trim_done n l : (length l <= n)%nat -> drop_one pats (trim n pats l) = None.
Proof.
  revert l. induction n as [|n IH]; intros l Hn; simpl.
  - destruct l; [|simpl in Hn; lia]. apply drop_one_None.
    eapply Forall_impl; [exact pats_nonempty|]. intros [|a p] Hp r; naive_solver.
  - destruct (drop_one pats l) as [l'|] eqn:Hl; [|done]. apply IH.
    apply drop_one_Some in Hl as (p & Hp & ->).
    rewrite Forall_forall in pats_nonempty. specialize (pats_nonempty p Hp).
    rewrite length_app in Hn. destruct p; simpl in *; [done|lia].
Qed.

Lemma trim_fixed n l : drop_one pats l = None -> trim n pats l = l.
Proof. destruct n; simpl; [done|]. by intros ->. Qed.
End trim.

Lemma whitespace_nonempty : Forall (fun p => p <> []) whitespace.
Proof. repeat constructor; done. Qed.

Lemma rev_whitespace_nonempty : Forall (fun p => p <> []) (map (@rev ascii) whitespace).
Proof. repeat constructor; done. Qed.

Lemma strip_bytes_idem l : strip_bytes (strip_bytes l) = strip_bytes l.
Proof.
  unfold strip_bytes. set (a := trim_all whitespace l).
  set (rp := map (@rev ascii) whitespace). set (c := trim_all rp (rev a)).
  assert (Ha : drop_one whitespace a = None) by (apply trim_done, le_n; apply whitespace_nonempty).
  assert (Hc : drop_one rp c = None) by (apply trim_done, le_n; apply rev_whitespace_nonempty).
  destruct (trim_suffix rp (length (rev a)) (rev a)) as [pre Hpre].
  change (trim _ _ _) with c in Hpre.
  assert (Hb : drop_one whitespace (rev c) = None).
  { apply drop_one_None. apply drop_one_None in Ha. eapply Forall_impl; [exact Ha|].
    intros p Hp r Hr. apply (Hp (r ++ rev pre)). rewrite <- (rev_involutive a), Hpre.
    by rewrite rev_app_distr, Hr, <- app_assoc. }
  unfold trim_all at 2. rewrite (trim_fixed _ _ _ Hb), rev_involutive.
  unfold trim_all. by rewrite (trim_fixed _ _ _ Hc).
Qed.

Lemma str_strip_idem s : str_strip (str_strip s) = str_strip s.
Proof.
  unfold str_strip. rewrite String.list_ascii_of_string_of_list_ascii. by rewrite strip_bytes_idem.
Qed.

(** ** Identifier patterns ([re.fullmatch]) *)

Inductive pat : Type :=
| Lit (s : string)
| Cls (p : ascii -> bool) (lo hi : nat).

(** [k] on what remains of [l] after between [lo] and [hi] bytes of the class. *)
Fixpoint match_rep (p : ascii -> bool) (lo hi : nat) (k : list ascii -> bool)
    (l : list ascii) : bool :=
  match hi with
  | O => match lo with O => k l | S _ => false end
  | S hi' =>
      match lo with
      | S lo' => match l with c :: l' => p c && match_rep p lo' hi' k l' | [] => false end
      | O => k l || match l with c :: l' => p c && match_rep p O hi' k l' | [] => false end
      end
  end.

Fixpoint match_bytes (ps : list pat) (l : list ascii) : bool :=
  match ps with
  | [] => match l with [] => true | _ :: _ => false end
  | Lit s :: ps => match drop_prefix (String.list_ascii_of_string s) l with
                   | Some l' => match_bytes ps l'
                   | None => false
                   end
  | Cls p lo hi :: ps => match_rep p lo hi (match_bytes ps) l
  end.

Definition matches (ps : list pat) (s : string) : bool :=
  match_bytes ps (String.list_ascii_of_string s).

(** The language of a pattern, and that the matcher decides it. *)
Inductive pat_lang : list pat -> list ascii -> Prop :=
| lang_nil : pat_lang [] []
| lang_lit s ps l : pat_lang ps l -> pat_lang (Lit s :: ps) (String.list_ascii_of_string s ++ l)
| lang_cls p lo hi ps l1 l2 :
    (lo <= length l1 <= hi)%nat -> Forall (fun c => p c = true) l1 -> pat_lang ps l2 ->
    pat_lang (Cls p lo hi :: ps) (l1 ++ l2).

Lemma match_rep_spec p lo hi k l :
  match_rep p lo hi k l = true <->
  exists l1 l2, l = l1 ++ l2 /\ (lo <= length l1 <= hi)%nat /\
                Forall (fun c => p c = true) l1 /\ k l2 = true.
Proof.
  revert lo l. induction hi as [|hi IH]; intros lo l; simpl.
  - destruct lo as [|lo]; split; try done.
    + intros Hk. exists [], l. repeat split; try done; simpl; lia.
    + intros ([|? ?] & l2 & -> & ? & _ & Hk); [done | simpl in *; lia].
    + intros ([|? ?] & l2 & _ & ? & _); simpl in *; lia.
  - destruct lo as [|lo]; destruct l as [|c l];
      rewrite ?orb_true_iff, ?andb_true_iff, ?IH; split.
    + intros [Hk|?]; [|done]. exists [], []. repeat split; try done; simpl; lia.
    + intros ([|? ?] & l2 & Heq & _ & _ & Hk); simplify_eq/=; [by left].
    + intros [Hk|(Hp & l1 & l2 & -> & ? & ? & ?)].
      * exists [], (c :: l). repeat split; try done; simpl; lia.
      * exists (c :: l1), l2. repeat split; try done; simpl; try lia. by constructor.
    + intros ([|c' l1] & l2 & Heq & Hlen & Hall & Hk); simplify_eq/=; [by left|right].
      inversion Hall; subst. split; [done|]. exists l1, l2. repeat split; try done; lia.
    + done.
    + intros ([|? ?] & l2 & Heq & ? & _); simplify_eq/=; lia.
    + intros (Hp & l1 & l2 & -> & ? & ? & ?).
      exists (c :: l1), l2. repeat split; try done; simpl; try lia. by constructor.
    + intros ([|c' l1] & l2 & Heq & Hlen & Hall & Hk); simplify_eq/=; [lia|].
      inversion Hall; subst. split; [done|]. exists l1, l2. repeat split; try done; lia.
Qed.

Lemma match_bytes_spec ps l : match_bytes ps l = true <-> pat_lang ps l.
Proof.
  revert l. induction ps as [|[s|p lo hi] ps IH]; intros l; simpl.
  - destruct l; split; try done; [constructor | inversion 1].
  - destruct (drop_prefix _ l) as [l'|] eqn:Hd.
    + apply drop_prefix_Some in Hd as ->. rewrite IH. split; [by constructor|].
      inversion 1; subst.
      match goal with Heq : _ ++ _ = _ ++ _ |- _ => by apply app_inv_head in Heq as <- end.
    + split; [done|]. inversion 1 as [|? ? l0 Hl|]; subst.
      by rewrite (proj2 (drop_prefix_Some _ _ l0) eq_refl) in Hd.
  - rewrite match_rep_spec. split.
    + intros (l1 & l2 & -> & ? & ? & ?%IH). by constructor.
    + inversion 1; subst. eexists _, _. repeat split; try done; [lia..|]. by apply IH.
Qed.

Lemma matches_spec ps s : matches ps s = true <-> pat_lang ps (String.list_ascii_of_string s).
Proof. apply match_bytes_spec. Qed.

Lemma list_ascii_app s t :
  String.list_ascii_of_string (s +:+ t) =
  String.list_ascii_of_string s ++ String.list_ascii_of_string t.
Proof. induction s as [|c s IH]; simpl; [done|]. by rewrite IH. Qed.

Lemma length_list_ascii s : length (String.list_ascii_of_string s) = String.length s.
Proof. induction s; simpl; congruence. Qed.

(** Patterns compose under concatenation. *)
Lemma pat_lang_app ps qs l m : pat_lang ps l -> pat_lang qs m -> pat_lang (ps ++ qs) (l ++ m).
Proof.
  induction 1 as [|s ps l H IH|p lo hi ps l1 l2 Hlen Hall H IH]; intros Hm; simpl; [done|..].
  - rewrite <- (assoc_L (++)). constructor. by apply IH.
  - rewrite <- (assoc_L (++)). constructor; [done..|]. by apply IH.
Qed.

Lemma matches_app ps qs s t :
  matches ps s = true -> matches qs t = true -> matches (ps ++ qs) (s +:+ t) = true.
Proof. rewrite !matches_spec, list_ascii_app. apply pat_lang_app. Qed.

Lemma matches_lit s : matches [Lit s] s = true.
Proof.
  apply matches_spec. rewrite <- (app_nil_r (String.list_ascii_of_string s)).
  repeat constructor.
Qed.

(** Inclusion of a pattern in "one head character, then a bounded tail", decided
    on the pattern: every class is compared over the 256 bytes. *)
Definition all_bytes : list ascii := ascii_of_nat <$> seq 0 256.

Definition class_within (p q : ascii -> bool) : bool :=
  forallb (fun c => implb (p c) (q c)) all_bytes.

Definition pat_within (q : ascii -> bool) (ps : list pat) : bool :=
  forallb (fun x => match x with
                    | Lit s => forallb q (String.list_ascii_of_string s)
                    | Cls p _ _ => class_within p q
                    end) ps.

Definition pat_max (ps : list pat) : nat :=
  foldr (fun x n => match x with Lit s => String.length s | Cls _ _ hi => hi end + n)%nat 0%nat ps.

Definition pat_head (q : ascii -> bool) (ps : list pat) : bool :=
  match ps with
  | Lit (String c _) :: _ => q c
  | Cls p (S _) _ :: _ => class_within p q
  | _ => false
  end.

Lemma elem_of_all_bytes c : c ∈ all_bytes.
Proof.
  unfold all_bytes. apply list_elem_of_fmap. exists (nat_of_ascii c).
  split; [by rewrite ascii_nat_embedding|]. apply elem_of_seq.
  pose proof (nat_ascii_bounded c). lia.
Qed.

Lemma class_within_spec p q : class_within p q = true -> forall c, p c = true -> q c = true.
Proof.
  unfold class_within. rewrite forallb_forall. intros H c Hp.
  specialize (H c). rewrite Hp in H. apply H, list_elem_of_In, elem_of_all_bytes.
Qed.

Lemma pat_within_spec q ps l :
  pat_within q ps = true -> pat_lang ps l ->
  Forall (fun c => q c = true) l /\ (length l <= pat_max ps)%nat.
Proof.
  intros Hw. induction 1 as [|s ps l H IH|p lo hi ps l1 l2 Hlen Hall H IH]; simpl in *.
  - split; [constructor | lia].
  - apply andb_true_iff in Hw as [Hs Hw]. destruct (IH Hw). apply forallb_true in Hs.
    split; [by apply Forall_app|]. rewrite length_app, length_list_ascii. lia.
  - apply andb_true_iff in Hw as [Hs Hw]. destruct (IH Hw).
    split; [|rewrite length_app; lia]. apply Forall_app. split; [|done].
    eapply Forall_impl; [exact Hall|]. intros c. by apply class_within_spec.
Qed.

Lemma pat_head_spec q ps l :
  pat_head q ps = true -> pat_lang ps l -> exists c l', l = c :: l' /\ q c = true.
Proof.
  intros Hh H. destruct H as [|s ps l H|p lo hi ps l1 l2 Hlen Hall H]; simpl in *; [done|..].
  - destruct s; [done|]. simpl. eauto.
  - destruct lo; [done|]. destruct l1 as [|c l1]; simpl in *; [lia|].
    inversion Hall; subst. eexists _, _. split; [done|]. eapply class_within_spec; eauto.
Qed.

Lemma matches_embed ps h t n s :
  pat_head h ps = true -> pat_within t ps = true -> (pat_max ps <= S n)%nat ->
  matches ps s = true -> matches [Cls h 1 1; Cls t 0 n] s = true.
Proof.
  rewrite !matches_spec. intros Hh Hw Hn H.
  destruct (pat_head_spec _ _ _ Hh H) as (c & l & Heq & Hc).
  destruct (pat_within_spec _ _ _ Hw H) as [Hall Hlen]. rewrite Heq in *.
  inversion Hall; subst. simpl in *.
  apply (lang_cls h 1 1 _ [c] l); [simpl; lia|by repeat constructor|].
  rewrite <- (app_nil_r l). constructor; [lia|done|constructor].
Qed.

(** Text over a class that no whitespace code point starts or ends in is
    already stripped. *)
Definition unpadded (q : ascii -> bool) : bool :=
  forallb (fun p => match p with c :: _ => negb (q c) | [] => false end)
    (whitespace ++ map (@rev ascii) whitespace).

Lemma drop_one_class q pats l :
  forallb (fun p => match p with c :: _ => negb (q c) | [] => false end) pats = true ->
  Forall (fun c => q c = true) l -> drop_one pats l = None.
Proof.
  intros Hp Hl. apply drop_one_None. apply forallb_true in Hp.
  eapply Forall_impl; [exact Hp|]. intros [|c p] Hc r ->; [done|].
  inversion Hl; subst. simpl in *. by rewrite negb_true_iff in Hc; congruence.
Qed.

Lemma strip_class q s :
  unpadded q = true -> Forall (fun c => q c = true) (String.list_ascii_of_string s) ->
  str_strip s = s.
Proof.
  unfold unpadded. rewrite forallb_app, andb_true_iff. intros [H1 H2] Hs.
  unfold str_strip, strip_bytes, trim_all.
  rewrite (trim_fixed whitespace), trim_fixed.
  - by rewrite rev_involutive, String.string_of_list_ascii_of_string.
  - apply (drop_one_class q); [done|]. by apply Forall_rev.
  - by apply (drop_one_class q).
Qed.

Lemma matches_strip q ps s :
  unpadded q = true -> pat_within q ps = true -> matches ps s = true -> str_strip s = s.
Proof.
  intros Hu Hw Hm. apply (strip_class q); [done|]. apply matches_spec in Hm.
  by apply (pat_within_spec q ps).
Qed.

(** Character classes. *)
Definition is_digit : ascii -> bool := byte_in 48 57.
Definition is_upper : ascii -> bool := byte_in 65 90.
Definition is_lower : ascii -> bool := byte_in 97 122.
Definition is_alnum (c : ascii) : bool := is_digit c || is_upper c || is_lower c.
Definition is_hex (c : ascii) : bool := is_digit c || byte_in 97 102 c.

Definition in_class (extra : string) (base : ascii -> bool) (c : ascii) : bool :=
  base c || existsb (Ascii.eqb c) (String.list_ascii_of_string extra).

(** ** Timestamps *)

Record datetime := mk_datetime {
  instant : Z;            (* microseconds since the epoch, in UTC *)
  utcoffset : option Z    (* microseconds; [None] for a naive datetime *)
}.

#[export] Instance datetime_eq_dec : EqDecision datetime.
Proof. solve_decision. Defined.

Definition utc (us : Z) : datetime := mk_datetime us (Some 0).

Definition is_utc (t : datetime) : bool := bool_decide (utcoffset t = Some 0).

Definition dt_lt (a b : datetime) : bool := instant a <? instant b.

(** [max(a, b)]: the first argument when neither is larger. *)
Definition dt_max (a b : datetime) : datetime := if dt_lt a b then b else a.

(** [t + timedelta(milliseconds=n)] *)
Definition add_ms (t : datetime) (n : Z) : datetime :=
  mk_datetime (instant t + n * 1000) (utcoffset t).

Lemma dt_max_utc a b : is_utc a = true -> is_utc b = true -> is_utc (dt_max a b) = true.
Proof. unfold dt_max. by destruct (dt_lt a b). Qed.

Lemma instant_dt_max a b : instant (dt_max a b) = Z.max (instant a) (instant b).
Proof. unfold dt_max, dt_lt. destruct (Z.ltb_spec (instant a) (instant b)); lia. Qed.

Lemma is_utc_utc us : is_utc (utc us) = true.
Proof. by apply bool_decide_eq_true. Qed.

#[export] Hint Resolve dt_max_utc is_utc_utc : rev.

(** ** Decimals: coefficient and exponent of [decimal.Decimal] *)

Record decimal := mk_decimal { dec_coef : Z; dec_exp : Z }.

#[export] Instance decimal_eq_dec : EqDecision decimal.
Proof. solve_decision. Defined.

(** [str(n)] of an integer. *)
Definition str_of_Z (n : Z) : string := pretty n.

Definition digits (n : Z) : Z := Z.of_nat (String.length (str_of_Z (Z.abs n))).

Fixpoint drop_zeros (fuel : nat) (d : decimal) : decimal :=
  match fuel with
  | O => d
  | S fuel => if (dec_exp d <? 0) && (dec_coef d mod 10 =? 0)
              then drop_zeros fuel (mk_decimal (dec_coef d / 10) (dec_exp d + 1))
              else d
  end.

(** The digits the [max_digits] constraint counts: no trailing decimal zeros. *)
Definition dec_digits (d : decimal) : Z :=
  let d := drop_zeros (Z.to_nat (- dec_exp d)) d in
  if 0 <=? dec_exp d then digits (dec_coef d) + dec_exp d
  else Z.max (digits (dec_coef d)) (- dec_exp d).

(** Both decimals over the smaller exponent. *)
Definition dec_align (a b : decimal) : Z * Z * Z :=
  let e := Z.min (dec_exp a) (dec_exp b) in
  (dec_coef a * 10 ^ (dec_exp a - e), dec_coef b * 10 ^ (dec_exp b - e), e).

Definition decimal_lt (a b : decimal) : bool :=
  let '(x, y, _) := dec_align a b in x <? y.

Definition dec_add (a b : decimal) : decimal :=
  let '(x, y, e) := dec_align a b in mk_decimal (x + y) e.

Definition dec_sub (a b : decimal) : decimal :=
  let '(x, y, e) := dec_align a b in mk_decimal (x - y) e.

Example digits_ex : dec_digits (mk_decimal 12500 (-3)) = 3 /\ decimal_lt (mk_decimal 1 0) (mk_decimal 11 (-1)) = true.
Proof. vm_compute. done. Qed.

(** ** Substring tests and paths *)

(** [c in s] for a one-byte character. *)
Definition str_contains (c : ascii) (s : string) : bool :=
  existsb (Ascii.eqb c) (String.list_ascii_of_string s).

(** [s.removeprefix(p)] *)
Definition remove_prefix (p s : string) : string :=
  if String.prefix p s then String.substring (String.length p) (String.length s - String.length p) s
  else s.

(** [s.startswith(p)] and [s.endswith(p)] *)
Definition starts_with (p s : string) : bool := String.prefix p s.

Definition ends_with (p s : string) : bool :=
  (String.length p <=? String.length s)%nat
  && String.eqb (String.substring (String.length s - String.length p) (String.length p) s) p.

(** [p in s] *)
Fixpoint contains_text (p s : string) : bool :=
  starts_with p s || match s with EmptyString => false | String _ s => contains_text p s end.

Definition nul : ascii := ascii_of_N 0.

(** [not s.strip()]: only characters that [str.isspace] accepts. *)
Definition py_whitespace : list (list ascii) :=
  whitespace ++ (bytes <$> [[28]; [29]; [30]; [31]]%N).
Definition is_blank (s : string) : bool :=
  bool_decide (trim_all py_whitespace (String.list_ascii_of_string s) = []).

(** [s.split("/")] *)
Fixpoint split_on (c : ascii) (l acc : list ascii) : list string :=
  match l with
  | [] => [String.string_of_list_ascii (rev acc)]
  | a :: l => if Ascii.eqb a c
              then String.string_of_list_ascii (rev acc) :: split_on c l []
              else split_on c l (a :: acc)
  end.

Definition split_char (c : ascii) (s : string) : list string :=
  split_on c (String.list_ascii_of_string s) [].

Definition split_slash (s : string) : list string :=
  split_on "/" (String.list_ascii_of_string s) [].

(** A [pathlib.Path]: absolute or not, and its components below the root. *)
Record Path := mk_Path { path_absolute : bool; path_parts : list string }.

#[export] Instance Path_eq_dec : EqDecision Path.
Proof. solve_decision. Defined.

(** [Path(raw)] *)
Definition path_of (raw : string) : Path :=
  mk_Path (starts_with "/" raw)
    (filter (fun part => part <> "" /\ part <> ".") (split_slash raw)).

Definition join_slash (parts : list string) : string :=
  match parts with
  | [] => ""
  | p :: ps => fold_left (fun acc q => acc +:+ "/" +:+ q) ps p
  end.

(** [str(path)] *)
Definition path_str (p : Path) : string :=
  if path_absolute p then "/" +:+ join_slash (path_parts p)
  else match path_parts p with [] => "." | _ => join_slash (path_parts p) end.

(** [path.relative_to(root)]; [None] where Python raises [ValueError]. *)
Fixpoint drop_parts (root parts : list string) : option (list string) :=
  match root, parts with
  | [], _ => Some parts
  | a :: root, b :: parts => if bool_decide (a = b) then drop_parts root parts else None
  | _ :: _, [] => None
  end.

Definition relative_to (p root : Path) : option Path :=
  if bool_decide (path_absolute p = path_absolute root)
  then mk_Path false <$> drop_parts (path_parts root) (path_parts p)
  else None.

Definition joinpath (p : Path) (parts : list string) : Path :=
  mk_Path (path_absolute p) (path_parts p ++ parts).

(** [path.parent] *)
Definition path_parent (p : Path) : Path :=
  mk_Path (path_absolute p) (take (length (path_parts p) - 1) (path_parts p)).

Lemma drop_parts_Some root parts rest :
  drop_parts root parts = Some rest <-> parts = root ++ rest.
Proof.
  revert parts. induction root as [|a root IH]; intros parts; simpl; [naive_solver|].
  destruct parts as [|b parts]; [naive_solver|].
  case_bool_decide; [subst; rewrite IH; naive_solver | naive_solver].
Qed.

Lemma relative_to_Some p root q :
  relative_to p root = Some q ->
  path_absolute p = path_absolute root /\ path_parts p = path_parts root ++ path_parts q.
Proof.
  unfold relative_to. case_bool_decide as Ha; [|done].
  destruct (drop_parts _ _) as [rest|] eqn:Hd; intros; simplify_eq/=.
  apply drop_parts_Some in Hd. done.
Qed.

Example split_ex : split_slash "src//a.py" = ["src"; ""; "a.py"].
Proof. reflexivity. Qed.

(** ** Decimal arithmetic in the default context

    [decimal] results are rounded half-even to 28 significant digits. *)

Definition half_even (n p : Z) : Z :=
  let q := n / p in
  let r := n mod p in
  if (p <? 2 * r) || ((p =? 2 * r) && Z.odd q) then q + 1 else q.

Definition dec_context (d : decimal) : decimal :=
  let k := digits (dec_coef d) - 28 in
  if k <=? 0 then d
  else
    let q := half_even (Z.abs (dec_coef d)) (10 ^ k) in
    let '(q, e) := if 28 <? digits q then (q / 10, dec_exp d + k + 1) else (q, dec_exp d + k) in
    mk_decimal (Z.sgn (dec_coef d) * q) e.

Definition dec_plus (a b : decimal) : decimal := dec_context (dec_add a b).
Definition dec_minus (a b : decimal) : decimal := dec_context (dec_sub a b).

(** [sum(xs)], which starts from the integer 0. *)
Definition dec_sum (xs : list decimal) : decimal := foldl dec_plus (mk_decimal 0 0) xs.

Example dec_sum_ex :
  dec_sum [mk_decimal 15 (-1); mk_decimal 25 (-2)] = mk_decimal 175 (-2)
  /\ dec_context (mk_decimal 123456789012345678901234567850 (-2)) = mk_decimal 1234567890123456789012345678 0.
Proof. vm_compute. done. Qed.
