(* ===== verification/Domain.v ===== *)
(** * The domain models ([src/src/revanent/domain/])

    The versioned domain schemas of [domain/models.py], the identifiers of
    [domain/identifiers.py] and the exceptions of [domain/errors.py].  A model
    is a [Record]; [validate_M] is what constructing [M] runs: the field
    constraints with whitespace stripping, then the model validator, clause by
    clause in the order of the source, returning the stored value or raising.
    The lemmas at the end of each part say what a constructed value satisfies
    and that validating it again changes nothing, which the code relies on
    when it dumps a model and validates the dump. *)

From Stdlib Require Import ZArith Lia Ascii String.
From S2P Require Import Prelude Text.
From stdpp Require Import base option strings numbers gmap sets list list_relations.

Open Scope Z_scope.

Definition SCHEMA_VERSION : Z := 1.

Inductive RunState : Type :=
| CREATED | PLANNING | CONTEXT_PREPARING | WORKSPACE_PREPARING | BUILDING | VALIDATING
| REVIEWING | REPAIRING | APPROVED | FAILED | BLOCKED | CANCELLED.

#[export] Instance RunState_eq_dec : EqDecision RunState.
Proof. solve_decision. Defined.

(** The category of each subclass of [GitError] (ports/git.py). *)
Module GitErrorCategory.
Inductive t : Type :=
| GIT_UNAVAILABLE | NOT_A_REPOSITORY | UNSUPPORTED_REPOSITORY | REPOSITORY_STATE_UNSAFE
| DIRTY_STATE | PROTECTED_BRANCH | INVALID_REFERENCE | WORKTREE_COLLISION | BRANCH_COLLISION
| OWNERSHIP_RECORD_CONFLICT | OWNERSHIP_MISMATCH | UNOWNED_WORKTREE | STALE_OWNERSHIP_RECORD
| PATH_POLICY | GIT_COMMAND | PARTIAL_CREATION | CLEANUP_REFUSED | MALFORMED_OUTPUT
| MALFORMED_OWNERSHIP_RECORD.
#[export] Instance eq_dec : EqDecision t.
Proof. solve_decision. Defined.
End GitErrorCategory.

#[export] Existing Instance GitErrorCategory.eq_dec.

(** The exceptions the modelled code raises or catches.  [ValueError] stands
    for it and for its subclasses (the schema layer's [ValidationError],
    [InvalidIdentifierError], [ValidationEvidenceError]).  [GitError] is the base
    class of the Git boundary, [GitSubclassError] its subclass of a category;
    [BoundaryError] is any other exception class, by its name. *)
Inductive exn : Type :=
| TypeError (message : string)
| ValueError (message : string)
| AssertionError
| InvalidTransitionError (run_id : string) (source destination : RunState)
| ApprovalGateError (failed_gates : list string)
| ConcurrentRunUpdateError (run_id : string) (expected_revision actual_revision : Z)
| RunNotFoundError (run_id : string)
| DuplicateRunError (run_id : string)
| InvalidInitialRunStateError (run_id : string)
| DuplicateEventError (event_id : string)
| TransitionMismatchError (run_id : string)
| CorruptStorageError (message : string)
| StorageOperationError (operation : string)
| PersistedModelVersionError (record_type : string) (actual supported : Z)
| IntegrityError
| GitError (message : string)
| GitSubclassError (category : GitErrorCategory.t) (message : string)
| OSError
| BoundaryError (class message : string)
| OtherError (message : string).

Notation res := (result exn).

Definition reject {A} (message : string) : res A := Err (ValueError message).

(** A violated constraint of a schema field or validator. *)
Definition require (b : bool) (message : string) : res unit :=
  raise_if (negb b) (ValueError message).

Lemma bind_require_Ok {B} b m (k : res B) x :
  (require b m ;; k) = Ok x <-> b = true /\ k = Ok x.
Proof. unfold require. rewrite bind_raise_if_Ok, negb_false_iff. done. Qed.

Lemma require_Ok b m u : require b m = Ok u <-> b = true.
Proof. unfold require. rewrite raise_if_Ok, negb_false_iff. done. Qed.

(** Invert successful validations into the constraints they checked. *)
Ltac inv_valid :=
  repeat first
    [ match goal with
      | H : (require _ _ ;; _) = Ok _ |- _ => apply bind_require_Ok in H; destruct H as [? H]
      | H : require _ _ = Ok _ |- _ => apply require_Ok in H
      end
    | inv_ok1 ].

(** [Annotated[str, Field(min_length=lo, max_length=hi)]], stripped. *)
Definition text_field (name : string) (lo hi : Z) (s : string) : res string :=
  let s := str_strip s in
  require ((lo <=? py_len s) && (py_len s <=? hi)) name ;; mret s.

Lemma text_field_Ok name lo hi s t :
  text_field name lo hi s = Ok t <-> t = str_strip s /\ lo <= py_len t <= hi.
Proof.
  unfold text_field. rewrite bind_require_Ok, andb_true_iff, !Z.leb_le.
  unfold mret, result_ret. naive_solver.
Qed.

#[export] Instance text_field_idem name lo hi : Idem (text_field name lo hi).
Proof. intros s t. rewrite !text_field_Ok. intros [-> ?]. by rewrite str_strip_idem. Qed.

(** [Annotated[str, Field(pattern=...)]], stripped. *)
Definition pattern_field (name : string) (pattern : list pat) (s : string) : res string :=
  let s := str_strip s in
  require (matches pattern s) name ;; mret s.

Lemma pattern_field_Ok name p s t :
  pattern_field name p s = Ok t <-> t = str_strip s /\ matches p t = true.
Proof.
  unfold pattern_field. rewrite bind_require_Ok. unfold mret, result_ret. naive_solver.
Qed.

Lemma pattern_field_safe q name p s :
  unpadded q = true -> pat_within q p = true -> matches p s = true -> pattern_field name p s = Ok s.
Proof. intros Hu Hw Hm. apply pattern_field_Ok. by rewrite (matches_strip q p s Hu Hw Hm). Qed.

#[export] Instance pattern_field_idem name p : Idem (pattern_field name p).
Proof. intros s t. rewrite !pattern_field_Ok. intros [-> ?]. by rewrite str_strip_idem. Qed.

(** An optional field. *)
Definition validate_optional {A} (f : A -> res A) (o : option A) : res (option A) :=
  match o with None => mret None | Some x => y ← f x ; mret (Some y) end.

#[export] Instance validate_optional_idem {A} (f : A -> res A) :
  Idem f -> Idem (validate_optional f).
Proof.
  intros Hf o p. destruct o as [x|]; simpl; intros; inv_ok; [|done]. simpl. by rewrite (Hf _ _ Hv).
Qed.

Definition ShortText (name s : string) : res string := text_field name 1 256 s.
Definition LongText (name s : string) : res string := text_field name 1 8192 s.
Definition PathPattern (name s : string) : res string := text_field name 1 512 s.

(** A timestamp field with [_require_utc]. *)
Definition _require_utc (value : datetime) : res datetime :=
  raise_if (negb (is_utc value)) (ValueError "timestamp must be timezone-aware UTC") ;;
  mret value.

Lemma require_utc_Ok t u : _require_utc t = Ok u <-> u = t /\ is_utc t = true.
Proof.
  unfold _require_utc. rewrite bind_raise_if_Ok, negb_false_iff.
  unfold mret, result_ret. naive_solver.
Qed.

(** ** Identifiers *)

Definition RunId_pattern : list pat := [Lit "run_"; Cls is_hex 32 32].
Definition TaskId_pattern : list pat := [Lit "task_"; Cls is_hex 32 32].
Definition WorkPackageId_pattern : list pat :=
  [Cls is_upper 1 1; Cls (fun c => is_upper c || is_digit c) 0 15; Lit "-"; Cls is_digit 3 3].
Definition EventId_pattern : list pat := [Lit "event_"; Cls is_hex 32 32].
Definition AgentInvocationId_pattern : list pat := [Lit "inv_"; Cls is_hex 32 32].
Definition AgentAttemptId_pattern : list pat := [Lit "attempt_"; Cls is_hex 32 32].

Definition stable_identifier (pattern : list pat) (description s : string) : res string :=
  raise_if (negb (matches pattern s)) (ValueError ("invalid " +:+ description)) ;; mret s.

Definition RunId (s : string) : res string :=
  stable_identifier RunId_pattern
    "run identifier (expected run_ followed by 32 lowercase hex characters)" s.
Definition TaskId (s : string) : res string :=
  stable_identifier TaskId_pattern
    "task identifier (expected task_ followed by 32 lowercase hex characters)" s.
Definition WorkPackageId (s : string) : res string :=
  stable_identifier WorkPackageId_pattern
    "work-package identifier (expected an uppercase prefix and three digits)" s.
Definition EventId (s : string) : res string :=
  stable_identifier EventId_pattern
    "event identifier (expected event_ followed by 32 lowercase hex characters)" s.
Definition AgentInvocationId (s : string) : res string :=
  stable_identifier AgentInvocationId_pattern
    "agent invocation identifier (expected inv_ followed by 32 lowercase hex characters)" s.
Definition AgentAttemptId (s : string) : res string :=
  stable_identifier AgentAttemptId_pattern
    "agent attempt identifier (expected attempt_ followed by 32 lowercase hex characters)" s.

Lemma stable_identifier_Ok p d s t :
  stable_identifier p d s = Ok t <-> t = s /\ matches p s = true.
Proof.
  unfold stable_identifier. rewrite bind_raise_if_Ok, negb_false_iff.
  unfold mret, result_ret. naive_solver.
Qed.

(** ** Enumerations *)

Definition run_state_value (s : RunState) : string :=
  match s with
  | CREATED => "CREATED" | PLANNING => "PLANNING" | CONTEXT_PREPARING => "CONTEXT_PREPARING"
  | WORKSPACE_PREPARING => "WORKSPACE_PREPARING" | BUILDING => "BUILDING"
  | VALIDATING => "VALIDATING" | REVIEWING => "REVIEWING" | REPAIRING => "REPAIRING"
  | APPROVED => "APPROVED" | FAILED => "FAILED" | BLOCKED => "BLOCKED"
  | CANCELLED => "CANCELLED"
  end.

Definition is_terminal (s : RunState) : bool :=
  match s with APPROVED | FAILED | BLOCKED | CANCELLED => true | _ => false end.

Module WorkPackageStatus.
Inductive t : Type := PLANNED | IN_PROGRESS | BLOCKED | COMPLETE | SUPERSEDED.
End WorkPackageStatus.

Module ReviewVerdict.
Inductive t : Type := APPROVED | CHANGES_REQUIRED | BLOCKED.
#[export] Instance t_eq_dec : EqDecision t.
Proof. solve_decision. Defined.
End ReviewVerdict.

Module FindingSeverity.
Inductive t : Type := LOW | MEDIUM | HIGH | CRITICAL.
#[export] Instance t_eq_dec : EqDecision t.
Proof. solve_decision. Defined.
Definition value (s : t) : string :=
  match s with
  | LOW => "LOW" | MEDIUM => "MEDIUM" | HIGH => "HIGH" | CRITICAL => "CRITICAL"
  end.
(** [severity in {HIGH, CRITICAL}] *)
Definition is_severe (s : t) : bool :=
  match s with HIGH | CRITICAL => true | LOW | MEDIUM => false end.
End FindingSeverity.

#[export] Instance WorkPackageStatus_eq_dec : EqDecision WorkPackageStatus.t.
Proof. solve_decision. Defined.
#[export] Existing Instance ReviewVerdict.t_eq_dec.
#[export] Existing Instance FindingSeverity.t_eq_dec.

Module AttemptCounterKind.
Inductive t : Type := BUILD | REVIEW | REPAIR.
End AttemptCounterKind.

#[export] Instance AttemptCounterKind_eq_dec : EqDecision AttemptCounterKind.t.
Proof. solve_decision. Defined.

(** ** Tasks, work packages and budgets *)

Record TaskSpecification := mk_TaskSpecification {
  task_schema_version : Z;
  task_id : string;
  task_objective : string;
  allowed_paths : list string;
  forbidden_paths : list string;
  acceptance_criteria : list string
}.

#[export] Instance TaskSpecification_eq_dec : EqDecision TaskSpecification.
Proof. solve_decision. Defined.

Definition _validate_scope (t : TaskSpecification) : res TaskSpecification :=
  raise_if (bool_decide (allowed_paths t = []))
    (ValueError "at least one allowed path is required") ;;
  raise_if (bool_decide (acceptance_criteria t = []))
    (ValueError "at least one acceptance criterion is required") ;;
  raise_if (has_duplicates (allowed_paths t)) (ValueError "allowed paths must be unique") ;;
  raise_if (has_duplicates (forbidden_paths t)) (ValueError "forbidden paths must be unique") ;;
  raise_if (existsb (fun p => bool_decide (p ∈ forbidden_paths t)) (allowed_paths t))
    (ValueError "paths cannot be both allowed and forbidden") ;;
  mret t.

Definition validate_TaskSpecification (t : TaskSpecification) : res TaskSpecification :=
  require (task_schema_version t =? 1) "schema_version" ;;
  id ← TaskId (task_id t) ;
  objective ← LongText "objective" (task_objective t) ;
  allowed ← traverse (PathPattern "allowed_paths") (allowed_paths t) ;
  forbidden ← traverse (PathPattern "forbidden_paths") (forbidden_paths t) ;
  criteria ← traverse (ShortText "acceptance_criteria") (acceptance_criteria t) ;
  _validate_scope (mk_TaskSpecification (task_schema_version t) id objective allowed forbidden criteria).

Record WorkPackage := mk_WorkPackage {
  wp_schema_version : Z;
  wp_id : string;
  wp_title : string;
  wp_objective : string;
  wp_status : WorkPackageStatus.t
}.

#[export] Instance WorkPackage_eq_dec : EqDecision WorkPackage.
Proof. solve_decision. Defined.

Definition validate_WorkPackage (w : WorkPackage) : res WorkPackage :=
  require (wp_schema_version w =? 1) "schema_version" ;;
  id ← WorkPackageId (wp_id w) ;
  title ← ShortText "title" (wp_title w) ;
  objective ← LongText "objective" (wp_objective w) ;
  mret (mk_WorkPackage (wp_schema_version w) id title objective (wp_status w)).

Record BudgetLimits := mk_BudgetLimits {
  budget_schema_version : Z;
  max_duration_seconds : Z;
  max_build_attempts : Z;
  max_review_attempts : Z;
  max_repair_attempts : Z;
  max_remote_tokens : option Z;
  max_estimated_cost_usd : option decimal
}.

#[export] Instance BudgetLimits_eq_dec : EqDecision BudgetLimits.
Proof. solve_decision. Defined.

Definition in_range (lo hi n : Z) : bool := (lo <=? n) && (n <=? hi).

Definition validate_BudgetLimits (b : BudgetLimits) : res BudgetLimits :=
  require (budget_schema_version b =? 1) "schema_version" ;;
  require (in_range 1 604800 (max_duration_seconds b)) "max_duration_seconds" ;;
  require (in_range 1 100 (max_build_attempts b)) "max_build_attempts" ;;
  require (in_range 1 100 (max_review_attempts b)) "max_review_attempts" ;;
  require (in_range 0 100 (max_repair_attempts b)) "max_repair_attempts" ;;
  require (match max_remote_tokens b with None => true | Some n => 1 <=? n end)
    "max_remote_tokens" ;;
  require (match max_estimated_cost_usd b with
           | None => true
           | Some d => (0 <? dec_coef d) && (dec_digits d <=? 12)
           end) "max_estimated_cost_usd" ;;
  mret b.

Record AttemptCounters := mk_AttemptCounters { build : Z; review : Z; repair : Z }.

#[export] Instance AttemptCounters_eq_dec : EqDecision AttemptCounters.
Proof. solve_decision. Defined.

Definition validate_AttemptCounters (a : AttemptCounters) : res AttemptCounters :=
  require (0 <=? build a) "build" ;;
  require (0 <=? review a) "review" ;;
  require (0 <=? repair a) "repair" ;;
  mret a.

(** [attempt_data[kind.value] += 1] *)
Definition bump (kind : AttemptCounterKind.t) (a : AttemptCounters) : AttemptCounters :=
  match kind with
  | AttemptCounterKind.BUILD => mk_AttemptCounters (build a + 1) (review a) (repair a)
  | AttemptCounterKind.REVIEW => mk_AttemptCounters (build a) (review a + 1) (repair a)
  | AttemptCounterKind.REPAIR => mk_AttemptCounters (build a) (review a) (repair a + 1)
  end.

(** ** Reviews and the approval gate *)

Record ReviewFinding := mk_ReviewFinding {
  finding_severity : FindingSeverity.t;
  finding_summary : string
}.

#[export] Instance ReviewFinding_eq_dec : EqDecision ReviewFinding.
Proof. solve_decision. Defined.

Definition validate_ReviewFinding (f : ReviewFinding) : res ReviewFinding :=
  summary ← ShortText "summary" (finding_summary f) ;
  mret (mk_ReviewFinding (finding_severity f) summary).

Record ReviewResult := mk_ReviewResult {
  review_schema_version : Z;
  review_verdict : ReviewVerdict.t;
  review_summary : string;
  review_findings : list ReviewFinding
}.

#[export] Instance ReviewResult_eq_dec : EqDecision ReviewResult.
Proof. solve_decision. Defined.

Definition _validate_verdict (r : ReviewResult) : res ReviewResult :=
  let severe := existsb (fun f => FindingSeverity.is_severe (finding_severity f))
                        (review_findings r) in
  raise_if (bool_decide (review_verdict r = ReviewVerdict.APPROVED) && severe)
    (ValueError "an approved review cannot contain high or critical findings") ;;
  mret r.

Definition validate_ReviewResult (r : ReviewResult) : res ReviewResult :=
  require (review_schema_version r =? 1) "schema_version" ;;
  summary ← LongText "summary" (review_summary r) ;
  findings ← traverse validate_ReviewFinding (review_findings r) ;
  _validate_verdict (mk_ReviewResult (review_schema_version r) (review_verdict r) summary findings).

Record ApprovalGate := mk_ApprovalGate {
  gate_review : ReviewResult;
  required_validation_passed : bool;
  review_schema_parsed : bool;
  scope_justified : bool;
  generated_files_consistent : bool;
  evidence_complete : bool;
  unexplained_dirty_state : bool
}.

#[export] Instance ApprovalGate_eq_dec : EqDecision ApprovalGate.
Proof. solve_decision. Defined.

(** [if not ok: failed.append(name)] *)
Definition append_unless (ok : bool) (name : string) (failed : list string) : list string :=
  if ok then failed else failed ++ [name].

Definition failed_gates (g : ApprovalGate) : list string :=
  let failed := [] in
  let failed := append_unless
    (bool_decide (review_verdict (gate_review g) = ReviewVerdict.APPROVED)) "review_verdict" failed in
  let failed := append_unless (required_validation_passed g) "required_validation" failed in
  let failed := append_unless (review_schema_parsed g) "review_schema" failed in
  let failed := append_unless (scope_justified g) "scope" failed in
  let failed := append_unless (generated_files_consistent g) "generated_files" failed in
  let failed := append_unless (evidence_complete g) "evidence" failed in
  append_unless (negb (unexplained_dirty_state g)) "dirty_state" failed.

Definition is_satisfied (g : ApprovalGate) : bool := bool_decide (failed_gates g = []).

Definition validate_ApprovalGate (g : ApprovalGate) : res ApprovalGate :=
  review ← validate_ReviewResult (gate_review g) ;
  mret (mk_ApprovalGate review (required_validation_passed g) (review_schema_parsed g)
          (scope_justified g) (generated_files_consistent g) (evidence_complete g)
          (unexplained_dirty_state g)).

(** ** Runs *)

Record Run := mk_Run {
  run_schema_version : Z;
  run_id : string;
  run_task : TaskSpecification;
  run_work_package : WorkPackage;
  run_budgets : BudgetLimits;
  run_state : RunState;
  run_attempts : AttemptCounters;
  run_created_at : datetime;
  run_updated_at : datetime;
  run_approval_gate : option ApprovalGate
}.

#[export] Instance Run_eq_dec : EqDecision Run.
Proof. solve_decision. Defined.

Definition gate_passes (g : option ApprovalGate) : bool :=
  match g with Some g => is_satisfied g | None => false end.

Definition _validate_state (r : Run) : res Run :=
  raise_if (dt_lt (run_updated_at r) (run_created_at r))
    (ValueError "updated_at cannot be earlier than created_at") ;;
  (if bool_decide (run_state r = APPROVED)
   then raise_if (negb (gate_passes (run_approval_gate r)))
          (ValueError "APPROVED state requires complete passing approval evidence")
   else raise_if (is_some (run_approval_gate r))
          (ValueError "approval evidence is only retained on an APPROVED run")) ;;
  raise_if (max_build_attempts (run_budgets r) <? build (run_attempts r))
    (ValueError "build attempts exceed the configured limit") ;;
  raise_if (max_review_attempts (run_budgets r) <? review (run_attempts r))
    (ValueError "review attempts exceed the configured limit") ;;
  raise_if (max_repair_attempts (run_budgets r) <? repair (run_attempts r))
    (ValueError "repair attempts exceed the configured limit") ;;
  mret r.

Definition validate_Run (r : Run) : res Run :=
  require (run_schema_version r =? 1) "schema_version" ;;
  id ← RunId (run_id r) ;
  task ← validate_TaskSpecification (run_task r) ;
  work_package ← validate_WorkPackage (run_work_package r) ;
  budgets ← validate_BudgetLimits (run_budgets r) ;
  attempts ← validate_AttemptCounters (run_attempts r) ;
  created_at ← _require_utc (run_created_at r) ;
  updated_at ← _require_utc (run_updated_at r) ;
  gate ← validate_optional validate_ApprovalGate (run_approval_gate r) ;
  _validate_state (mk_Run (run_schema_version r) id task work_package budgets (run_state r)
                     attempts created_at updated_at gate).

(** [Run.model_copy]: any update is refused, a plain copy is the run. *)
Definition run_model_copy (update : gmap string string) (r : Run) : res Run :=
  raise_if (negb (bool_decide (update = ∅)))
    (TypeError "run updates must use validated domain operations") ;;
  mret r.

(** ** Transition evidence *)

Record TransitionMetadata := mk_TransitionMetadata { md_key : string; md_value : string }.

#[export] Instance TransitionMetadata_eq_dec : EqDecision TransitionMetadata.
Proof. solve_decision. Defined.

Definition metadata_key_pattern : list pat :=
  [Cls is_lower 1 1; Cls (in_class "_.-" (fun c => is_lower c || is_digit c)) 0 63].

Definition validate_TransitionMetadata (m : TransitionMetadata) : res TransitionMetadata :=
  key ← pattern_field "key" metadata_key_pattern (md_key m) ;
  value ← text_field "value" 0 1024 (md_value m) ;
  mret (mk_TransitionMetadata key value).

Record StateTransition := mk_StateTransition {
  tr_schema_version : Z;
  tr_run_id : string;
  tr_source : RunState;
  tr_destination : RunState;
  tr_occurred_at : datetime;
  tr_reason : string;
  tr_metadata : list TransitionMetadata
}.

#[export] Instance StateTransition_eq_dec : EqDecision StateTransition.
Proof. solve_decision. Defined.

Definition _validate_metadata (t : StateTransition) : res StateTransition :=
  let keys := md_key <$> tr_metadata t in
  raise_if (32 <? Z.of_nat (length keys))
    (ValueError "transition metadata is limited to 32 items") ;;
  raise_if (negb (bool_decide (keys = sorted_strings keys)))
    (ValueError "transition metadata must be sorted by key") ;;
  raise_if (has_duplicates keys) (ValueError "transition metadata keys must be unique") ;;
  mret t.

Definition validate_StateTransition (t : StateTransition) : res StateTransition :=
  require (tr_schema_version t =? 1) "schema_version" ;;
  run_id ← RunId (tr_run_id t) ;
  occurred_at ← _require_utc (tr_occurred_at t) ;
  reason ← text_field "reason" 1 2048 (tr_reason t) ;
  metadata ← traverse validate_TransitionMetadata (tr_metadata t) ;
  _validate_metadata (mk_StateTransition (tr_schema_version t) run_id (tr_source t)
                        (tr_destination t) occurred_at reason metadata).

Inductive RunEventType : Type := STATE_TRANSITION.

#[export] Instance RunEventType_eq_dec : EqDecision RunEventType.
Proof. solve_decision. Defined.

Record RunEvent := mk_RunEvent {
  ev_schema_version : Z;
  ev_id : string;
  ev_run_id : string;
  ev_sequence : Z;
  ev_event_type : RunEventType;
  ev_occurred_at : datetime;
  ev_transition : StateTransition
}.

#[export] Instance RunEvent_eq_dec : EqDecision RunEvent.
Proof. solve_decision. Defined.

Definition _validate_transition (e : RunEvent) : res RunEvent :=
  raise_if (negb (bool_decide (tr_run_id (ev_transition e) = ev_run_id e)))
    (ValueError "event run identifier does not match its transition") ;;
  raise_if (negb (bool_decide (tr_occurred_at (ev_transition e) = ev_occurred_at e)))
    (ValueError "event timestamp does not match its transition") ;;
  mret e.

Definition validate_RunEvent (e : RunEvent) : res RunEvent :=
  require (ev_schema_version e =? 1) "schema_version" ;;
  id ← EventId (ev_id e) ;
  run_id ← RunId (ev_run_id e) ;
  require (1 <=? ev_sequence e) "sequence" ;;
  occurred_at ← _require_utc (ev_occurred_at e) ;
  transition ← validate_StateTransition (ev_transition e) ;
  _validate_transition (mk_RunEvent (ev_schema_version e) id run_id (ev_sequence e)
                          (ev_event_type e) occurred_at transition).

Record TransitionResult := mk_TransitionResult {
  res_run : Run;
  res_transition : StateTransition
}.

#[export] Instance TransitionResult_eq_dec : EqDecision TransitionResult.
Proof. solve_decision. Defined.

(** The run and the transition are instances, which are not validated again. *)
Definition _validate_pair (p : TransitionResult) : res TransitionResult :=
  raise_if (negb (bool_decide (run_id (res_run p) = tr_run_id (res_transition p))))
    (ValueError "transition run identifier does not match resulting run") ;;
  raise_if (negb (bool_decide (run_state (res_run p) = tr_destination (res_transition p))))
    (ValueError "resulting run state does not match transition destination") ;;
  raise_if (negb (bool_decide (run_updated_at (res_run p) = tr_occurred_at (res_transition p))))
    (ValueError "resulting run timestamp does not match transition timestamp") ;;
  mret p.

Lemma validate_pair_Ok p q :
  _validate_pair p = Ok q <->
  q = p /\ run_id (res_run p) = tr_run_id (res_transition p) /\
  run_state (res_run p) = tr_destination (res_transition p) /\
  run_updated_at (res_run p) = tr_occurred_at (res_transition p).
Proof.
  unfold _validate_pair. rewrite !bind_raise_if_Ok, !negb_false_iff, !bool_decide_eq_true.
  unfold mret, result_ret. naive_solver.
Qed.

(** ** What constructed values satisfy *)

#[export] Instance stable_identifier_idem p d : Idem (stable_identifier p d).
Proof. intros s t. rewrite !stable_identifier_Ok. naive_solver. Qed.

#[export] Instance require_utc_idem : Idem _require_utc.
Proof. intros t u. rewrite !require_utc_Ok. naive_solver. Qed.

#[export] Instance RunId_idem : Idem RunId := stable_identifier_idem _ _.
#[export] Instance TaskId_idem : Idem TaskId := stable_identifier_idem _ _.
#[export] Instance WorkPackageId_idem : Idem WorkPackageId := stable_identifier_idem _ _.
#[export] Instance EventId_idem : Idem EventId := stable_identifier_idem _ _.
#[export] Instance AgentInvocationId_idem : Idem AgentInvocationId := stable_identifier_idem _ _.
#[export] Instance AgentAttemptId_idem : Idem AgentAttemptId := stable_identifier_idem _ _.
#[export] Instance ShortText_idem n : Idem (ShortText n) := text_field_idem _ _ _.
#[export] Instance LongText_idem n : Idem (LongText n) := text_field_idem _ _ _.
#[export] Instance PathPattern_idem n : Idem (PathPattern n) := text_field_idem _ _ _.

(** Re-run a validator on its output: each part is a fixed point of its own
    validator and each constraint was checked before. *)
Ltac idem1 :=
  match goal with
  | H : ?f _ = Ok ?t |- context [?f ?t] => rewrite (idem (f := f) _ t H)
  | H : ?m = Ok _ |- context [?m] => rewrite H
  | H : ?b = true |- context [require ?b _] => rewrite H
  | H : ?b = false |- context [raise_if ?b _] => rewrite H
  end; simpl.
Ltac idem := repeat idem1.
Ltac solve_idem := intros ? ? ?; inv_valid; simpl in *; idem; try done.

#[export] Instance validate_ReviewFinding_idem : Idem validate_ReviewFinding.
Proof. unfold validate_ReviewFinding. solve_idem. Qed.

#[export] Instance validate_TransitionMetadata_idem : Idem validate_TransitionMetadata.
Proof. unfold validate_TransitionMetadata. solve_idem. Qed.

#[export] Instance validate_TaskSpecification_idem : Idem validate_TaskSpecification.
Proof. unfold validate_TaskSpecification, _validate_scope. solve_idem. Qed.

#[export] Instance validate_WorkPackage_idem : Idem validate_WorkPackage.
Proof. unfold validate_WorkPackage. solve_idem. Qed.

Lemma validate_BudgetLimits_id b c : validate_BudgetLimits b = Ok c -> c = b.
Proof. unfold validate_BudgetLimits. intros. inv_valid. done. Qed.

#[export] Instance validate_BudgetLimits_idem : Idem validate_BudgetLimits.
Proof. intros b c H. by pose proof (validate_BudgetLimits_id _ _ H) as ->. Qed.

Lemma validate_AttemptCounters_Ok a b :
  validate_AttemptCounters a = Ok b <-> b = a /\ 0 <= build a /\ 0 <= review a /\ 0 <= repair a.
Proof.
  unfold validate_AttemptCounters. rewrite !bind_require_Ok, !Z.leb_le.
  unfold mret, result_ret. naive_solver.
Qed.

#[export] Instance validate_AttemptCounters_idem : Idem validate_AttemptCounters.
Proof. intros a b. rewrite !validate_AttemptCounters_Ok. naive_solver. Qed.

#[export] Instance validate_ReviewResult_idem : Idem validate_ReviewResult.
Proof. unfold validate_ReviewResult, _validate_verdict. solve_idem. Qed.

#[export] Instance validate_ApprovalGate_idem : Idem validate_ApprovalGate.
Proof. unfold validate_ApprovalGate. solve_idem. Qed.

#[export] Instance validate_StateTransition_idem : Idem validate_StateTransition.
Proof. unfold validate_StateTransition, _validate_metadata. solve_idem. Qed.

#[export] Instance validate_Run_idem : Idem validate_Run.
Proof. unfold validate_Run, _validate_state. solve_idem. Qed.

(** A [Run] instance: it was built by the validating constructor. *)
Definition Run_wf (r : Run) : Prop := validate_Run r = Ok r.

(** What the schema guarantees of every instance. *)
Record Run_facts (r : Run) : Prop := {
  rf_id : matches RunId_pattern (run_id r) = true;
  rf_created_utc : is_utc (run_created_at r) = true;
  rf_updated_utc : is_utc (run_updated_at r) = true;
  rf_order : instant (run_created_at r) <= instant (run_updated_at r);
  rf_approved : run_state r = APPROVED -> gate_passes (run_approval_gate r) = true;
  rf_not_approved : run_state r <> APPROVED -> run_approval_gate r = None;
  rf_build : 0 <= build (run_attempts r) <= max_build_attempts (run_budgets r);
  rf_review : 0 <= review (run_attempts r) <= max_review_attempts (run_budgets r);
  rf_repair : 0 <= repair (run_attempts r) <= max_repair_attempts (run_budgets r)
}.

Lemma validate_state_Ok r s :
  _validate_state r = Ok s <->
  s = r /\ instant (run_created_at r) <= instant (run_updated_at r) /\
  (run_state r = APPROVED -> gate_passes (run_approval_gate r) = true) /\
  (run_state r <> APPROVED -> run_approval_gate r = None) /\
  build (run_attempts r) <= max_build_attempts (run_budgets r) /\
  review (run_attempts r) <= max_review_attempts (run_budgets r) /\
  repair (run_attempts r) <= max_repair_attempts (run_budgets r).
Proof.
  unfold _validate_state, dt_lt. rewrite bind_raise_if_Ok, Z.ltb_ge.
  case_bool_decide as Hs; rewrite !bind_raise_if_Ok, !Z.ltb_ge, ?negb_false_iff;
    destruct (run_approval_gate r); unfold mret, result_ret; simpl; naive_solver.
Qed.

Lemma validate_Run_facts r s : validate_Run r = Ok s -> Run_facts s.
Proof.
  unfold validate_Run. intros. inv_valid.
  pose proof (proj1 (validate_AttemptCounters_Ok _ _) Hv3) as (-> & ?).
  pose proof (proj1 (stable_identifier_Ok _ _ _ _) Hv) as (-> & ?).
  pose proof (proj1 (require_utc_Ok _ _) Hv4) as (-> & ?).
  pose proof (proj1 (require_utc_Ok _ _) Hv5) as (-> & ?).
  apply validate_state_Ok in H as (-> & H). simpl in *.
  split; simpl; naive_solver lia.
Qed.

Lemma Run_wf_facts r : Run_wf r -> Run_facts r.
Proof. apply validate_Run_facts. Qed.

#[export] Hint Resolve validate_Run_idem Run_wf_facts : rev.

(** A gate is satisfied exactly when all seven local checks hold. *)
Lemma append_unless_nil ok name l : append_unless ok name l = [] <-> ok = true /\ l = [].
Proof. destruct ok, l; unfold append_unless; naive_solver. Qed.

Lemma is_satisfied_iff g :
  is_satisfied g = true <->
  review_verdict (gate_review g) = ReviewVerdict.APPROVED /\
  required_validation_passed g = true /\ review_schema_parsed g = true /\
  scope_justified g = true /\ generated_files_consistent g = true /\
  evidence_complete g = true /\ unexplained_dirty_state g = false.
Proof.
  unfold is_satisfied, failed_gates. rewrite bool_decide_eq_true, !append_unless_nil.
  rewrite bool_decide_eq_true, negb_true_iff. naive_solver.
Qed.

(** Constructing a run is a projection onto valid runs: whatever input the
    constructor accepts, the run it returns satisfies every constraint of the
    schema (canonical identifier, UTC timestamps in order, gate evidence
    exactly on an approved run, counters within the budgets) and constructing
    it again from its own dump returns the same run. *)
Theorem run_construction r s (H : validate_Run r = Ok s) :
  Run_facts s /\ validate_Run s = Ok s /\
  validate_TaskSpecification (run_task s) = Ok (run_task s) /\
  run_state s = run_state r /\ run_model_copy ∅ s = Ok s.
Proof.
  split; [by apply validate_Run_facts in H|]. split; [by apply validate_Run_idem in H|].
  unfold validate_Run in H. inv_valid. apply validate_state_Ok in H as [-> _]. simpl.
  split; [by apply validate_TaskSpecification_idem in Hv0|]. done.
Qed.

Lemma run_construction_witness :
  exists s, Run_facts s /\ run_state s = PLANNING.
Proof.
  pose (r := mk_Run 1 "run_0123456789abcdef0123456789abcdef"
    (mk_TaskSpecification 1 "task_0123456789abcdef0123456789abcdef" "  Fix it " ["src"] [] [" ok"])
    (mk_WorkPackage 1 "P1-001" "Title" "Goal" WorkPackageStatus.PLANNED)
    (mk_BudgetLimits 1 60 1 1 0 None (Some (mk_decimal 150 (-2)))) PLANNING
    (mk_AttemptCounters 0 0 0) (utc 5) (utc 6) None).
  assert (H : is_ok (validate_Run r) = true) by (vm_compute; reflexivity).
  destruct (validate_Run r) as [s|e] eqn:Hs; [|discriminate H].
  exists s. destruct (run_construction r s Hs) as (Hf & _ & _ & Hst & _).
  split; [exact Hf | exact Hst].
Defined.
