(* ===== verification/StateMachine.v ===== *)
(** * The run state machine ([src/src/revanent/domain/state_machine.py])

    [permitted_destinations] is the transition table and [transition_run] the
    only operation that changes the state of a run.  The theorems give its
    exact functional behaviour, the invariant it keeps, and what follows for
    every run reachable from a created one. *)

From Stdlib Require Import ZArith Lia Ascii String.
From S2P Require Import Prelude Text Domain.
From stdpp Require Import base option strings numbers gmap sets list list_relations.

Open Scope Z_scope.

Definition _TRANSITIONS (s : RunState) : list RunState :=
  match s with
  | CREATED => [PLANNING; BLOCKED] ++ [CANCELLED]
  | PLANNING => [CONTEXT_PREPARING; BLOCKED] ++ [CANCELLED]
  | CONTEXT_PREPARING => [WORKSPACE_PREPARING; BLOCKED; FAILED] ++ [CANCELLED]
  | WORKSPACE_PREPARING => [BUILDING; BLOCKED] ++ [CANCELLED]
  | BUILDING => [VALIDATING; FAILED; BLOCKED] ++ [CANCELLED]
  | VALIDATING => [REVIEWING; REPAIRING; FAILED; BLOCKED] ++ [CANCELLED]
  | REVIEWING => [APPROVED; REPAIRING; FAILED; BLOCKED] ++ [CANCELLED]
  | REPAIRING => [VALIDATING; FAILED; BLOCKED] ++ [CANCELLED]
  | APPROVED | FAILED | BLOCKED | CANCELLED => []
  end.

Definition permitted_destinations (source : RunState) : list RunState := _TRANSITIONS source.

Definition permitted (source destination : RunState) : bool :=
  bool_decide (destination ∈ permitted_destinations source).

(** [attempt_sources] *)
Definition attempt_source (kind : AttemptCounterKind.t) : RunState :=
  match kind with
  | AttemptCounterKind.BUILD => BUILDING
  | AttemptCounterKind.REVIEW => REVIEWING
  | AttemptCounterKind.REPAIR => REPAIRING
  end.

(** [sorted((metadata or {}).items())]: pairs in lexicographic order. *)
Definition sorted_items (metadata : gmap string string) : list (string * string) :=
  py_sorted pair_le (map_to_list metadata).

Definition transition_evidence (run : Run) (destination : RunState) (occurred_at : datetime)
    (reason : string) (metadata : gmap string string) : res StateTransition :=
  transition_metadata ← traverse (fun kv => validate_TransitionMetadata
                                              (mk_TransitionMetadata kv.1 kv.2))
                                 (sorted_items metadata) ;
  validate_StateTransition
    (mk_StateTransition SCHEMA_VERSION (run_id run) (run_state run) destination occurred_at
       reason transition_metadata).

Definition check_gate (destination : RunState) (approval_gate : option ApprovalGate) : res unit :=
  if bool_decide (destination = APPROVED) then
    match approval_gate with
    | None => Err (ApprovalGateError [])
    | Some g => raise_if (negb (is_satisfied g)) (ApprovalGateError (failed_gates g))
    end
  else raise_if (is_some approval_gate) (ApprovalGateError ["unexpected_approval_evidence"]).

Definition next_attempts (increment_attempt : option AttemptCounterKind.t) (a : AttemptCounters)
    : AttemptCounters :=
  match increment_attempt with None => a | Some kind => bump kind a end.

(** [next_run_data.update(...)] over the dump of the run. *)
Definition next_run (run : Run) (destination : RunState) (occurred_at : datetime)
    (approval_gate : option ApprovalGate) (attempts : AttemptCounters) : Run :=
  mk_Run (run_schema_version run) (run_id run) (run_task run) (run_work_package run)
    (run_budgets run) destination attempts (run_created_at run) occurred_at
    (if bool_decide (destination = APPROVED) then approval_gate else None).

Definition transition_run (run : Run) (destination : RunState) (occurred_at : datetime)
    (reason : string) (metadata : gmap string string) (approval_gate : option ApprovalGate)
    (increment_attempt : option AttemptCounterKind.t) : res TransitionResult :=
  raise_if (negb (permitted (run_state run) destination))
    (InvalidTransitionError (run_id run) (run_state run) destination) ;;
  raise_if (match increment_attempt with
            | None => false
            | Some kind => negb (bool_decide (run_state run = attempt_source kind))
            end)
    (ValueError "attempt counter kind does not match the source run state") ;;
  transition ← transition_evidence run destination occurred_at reason metadata ;
  raise_if (dt_lt occurred_at (run_updated_at run))
    (ValueError "transition timestamp cannot be earlier than the current run timestamp") ;;
  check_gate destination approval_gate ;;
  attempts ← match increment_attempt with
             | None => mret (run_attempts run)
             | Some kind => validate_AttemptCounters (bump kind (run_attempts run))
             end ;
  next ← validate_Run (next_run run destination occurred_at approval_gate attempts) ;
  _validate_pair (mk_TransitionResult next transition).

(** ** Lemmas *)

(** The counter the caller increments belongs to the source state. *)
Definition counter_matches (s : RunState) (inc : option AttemptCounterKind.t) : Prop :=
  match inc with None => True | Some kind => s = attempt_source kind end.

(** The gate evidence agrees with the destination. *)
Definition gate_matches (d : RunState) (g : option ApprovalGate) : Prop :=
  match g with Some g => d = APPROVED /\ is_satisfied g = true | None => d <> APPROVED end.

Definition within_budget (b : BudgetLimits) (a : AttemptCounters) : Prop :=
  build a <= max_build_attempts b /\ review a <= max_review_attempts b /\
  repair a <= max_repair_attempts b.

(** A gate argument is an instance, hence valid. *)
Definition gate_wf (g : option ApprovalGate) : Prop :=
  validate_optional validate_ApprovalGate g = Ok g.

Lemma check_gate_Ok d g u : check_gate d g = Ok u <-> gate_matches d g.
Proof.
  unfold check_gate, gate_matches.
  case_bool_decide; destruct g as [g|]; destruct u; simpl;
    rewrite ?raise_if_Ok, ?negb_false_iff; naive_solver.
Qed.

Lemma transition_evidence_Ok run d t reason md tr :
  transition_evidence run d t reason md = Ok tr ->
  tr_run_id tr = run_id run /\ tr_source tr = run_state run /\ tr_destination tr = d /\
  tr_occurred_at tr = t /\ is_utc t = true /\ validate_StateTransition tr = Ok tr.
Proof.
  unfold transition_evidence. intros. inv_ok.
  pose proof (validate_StateTransition_idem _ _ H) as Hidem.
  unfold validate_StateTransition, _validate_metadata in H. inv_valid. simpl in *.
  apply stable_identifier_Ok in Hv0 as [-> _]. apply require_utc_Ok in Hv1 as [-> ?]. done.
Qed.

Lemma bump_nonneg k a :
  0 <= build a -> 0 <= review a -> 0 <= repair a ->
  0 <= build (bump k a) /\ 0 <= review (bump k a) /\ 0 <= repair (bump k a).
Proof. destruct k; simpl; lia. Qed.

Lemma next_attempts_nonneg run inc :
  Run_facts run ->
  0 <= build (next_attempts inc (run_attempts run)) /\
  0 <= review (next_attempts inc (run_attempts run)) /\
  0 <= repair (next_attempts inc (run_attempts run)).
Proof. intros []. destruct inc as [k|]; simpl; [apply bump_nonneg|]; lia. Qed.

Lemma attempts_step_Ok run inc a :
  Run_facts run ->
  match inc with
  | None => mret (run_attempts run)
  | Some kind => validate_AttemptCounters (bump kind (run_attempts run))
  end = (Ok a : res AttemptCounters) <-> a = next_attempts inc (run_attempts run).
Proof.
  intros Hf. destruct inc as [k|]; simpl.
  - rewrite validate_AttemptCounters_Ok. split; [naive_solver|]. intros ->. split; [done|].
    destruct Hf. apply bump_nonneg; lia.
  - unfold mret, result_ret. naive_solver.
Qed.

(** Validation of the next run succeeds exactly within the budgets. *)
Lemma validate_next_run run d t g a r :
  Run_wf run -> is_utc t = true -> gate_wf g -> gate_matches d g ->
  instant (run_updated_at run) <= instant t ->
  0 <= build a -> 0 <= review a -> 0 <= repair a ->
  validate_Run (next_run run d t g a) = Ok r <->
  r = next_run run d t g a /\ within_budget (run_budgets run) a.
Proof.
  intros Hwf Hutc Hg Hd Ht Hb Hr Hp. pose proof (Run_wf_facts _ Hwf) as [].
  unfold Run_wf, validate_Run in Hwf. inv_valid. simpl in *.
  apply validate_state_Ok in Hwf as (Heq & _). rewrite Heq in *. simpl in *. clear Heq.
  unfold validate_Run, next_run. simpl.
  assert (Ha : validate_AttemptCounters a = Ok a) by (apply validate_AttemptCounters_Ok; done).
  assert (Hu : _require_utc t = Ok t) by (by apply require_utc_Ok).
  match goal with H : (_ =? 1) = true |- _ => rewrite H end.
  rewrite Hv, Hv0, Hv1, Hv2, Ha, Hv4, Hu. simpl.
  assert (Hopt : validate_optional validate_ApprovalGate (if bool_decide (d = APPROVED) then g else None)
                 = Ok (if bool_decide (d = APPROVED) then g else None)) by (by case_bool_decide).
  rewrite Hopt. simpl. rewrite validate_state_Ok. simpl. unfold within_budget.
  unfold gate_matches, gate_passes in *. case_bool_decide; destruct g; naive_solver lia.
Qed.

Lemma permitted_iff s d : permitted s d = true <-> d ∈ permitted_destinations s.
Proof. apply bool_decide_eq_true. Qed.

(** The exact condition under which a transition is accepted. *)
Definition accepts (run : Run) (destination : RunState) (occurred_at : datetime)
    (approval_gate : option ApprovalGate) (increment_attempt : option AttemptCounterKind.t) : Prop :=
  destination ∈ permitted_destinations (run_state run) /\
  counter_matches (run_state run) increment_attempt /\
  instant (run_updated_at run) <= instant occurred_at /\
  gate_matches destination approval_gate /\
  within_budget (run_budgets run) (next_attempts increment_attempt (run_attempts run)).

Lemma transition_run_iff run d t reason md g inc out :
  Run_wf run -> gate_wf g ->
  transition_run run d t reason md g inc = Ok out <->
  accepts run d t g inc /\
  exists tr, transition_evidence run d t reason md = Ok tr /\
    out = mk_TransitionResult (next_run run d t g (next_attempts inc (run_attempts run))) tr.
Proof.
  intros Hwf Hg. pose proof (Run_wf_facts _ Hwf) as Hf. unfold transition_run, accepts.
  rewrite bind_raise_if_Ok, negb_false_iff, permitted_iff, bind_raise_if_Ok.
  assert (Hc : match inc with
               | None => false
               | Some kind => negb (bool_decide (run_state run = attempt_source kind))
               end = false <-> counter_matches (run_state run) inc).
  { destruct inc; simpl; [|done]. rewrite negb_false_iff. apply bool_decide_eq_true. }
  rewrite Hc, bind_Ok. setoid_rewrite bind_raise_if_Ok. unfold dt_lt. setoid_rewrite Z.ltb_ge.
  pose proof (next_attempts_nonneg _ inc Hf) as Hnn.
  split.
  - intros (Hperm & Hcm & tr & Htr & Ht & Hrest).
    apply bind_Ok in Hrest as (u & Hgm%check_gate_Ok & Hrest).
    apply bind_Ok in Hrest as (a & Ha & Hrest). apply attempts_step_Ok in Ha as ->; [|done].
    apply bind_Ok in Hrest as (r & Hr & Hpair).
    pose proof (transition_evidence_Ok _ _ _ _ _ _ Htr) as (_ & _ & _ & _ & Hu & _).
    destruct Hnn as (? & ? & ?).
    apply (validate_next_run _ _ _ _ _ _ Hwf Hu Hg Hgm Ht) in Hr as [-> Hb]; [|done..].
    apply validate_pair_Ok in Hpair as (-> & _).
    split; [done|]. by exists tr.
  - intros ((Hperm & Hcm & Ht & Hgm & Hb) & tr & Htr & ->). repeat split; [done..|].
    exists tr. split; [done|]. split; [done|].
    apply bind_Ok. exists tt. split; [by apply check_gate_Ok|].
    apply bind_Ok. eexists. split; [by apply attempts_step_Ok|].
    pose proof (transition_evidence_Ok _ _ _ _ _ _ Htr) as (H1 & H2 & H3 & H4 & H5 & H6).
    apply bind_Ok. eexists. split; [apply validate_next_run; naive_solver|].
    apply validate_pair_Ok. simpl. naive_solver.
Qed.

(** ** Histories: the runs reachable from a created run *)

Inductive run_step : Run -> StateTransition -> Run -> Prop :=
| run_step_intro r d t reason md g inc out :
    gate_wf g -> transition_run r d t reason md g inc = Ok out ->
    run_step r (res_transition out) (res_run out).

Inductive history (r0 : Run) : list StateTransition -> Run -> Prop :=
| history_nil : Run_wf r0 -> run_state r0 = CREATED -> history r0 [] r0
| history_snoc h r tr r' :
    history r0 h r -> run_step r tr r' -> history r0 (h ++ [tr]) r'.

(** One accepted step, seen from its two runs and its evidence. *)
Record step_facts (r : Run) (tr : StateTransition) (r' : Run) : Prop := {
  sf_wf : Run_wf r';
  sf_id : run_id r' = run_id r;
  sf_task : run_task r' = run_task r;
  sf_package : run_work_package r' = run_work_package r;
  sf_budgets : run_budgets r' = run_budgets r;
  sf_created : run_created_at r' = run_created_at r;
  sf_tr_id : tr_run_id tr = run_id r;
  sf_source : tr_source tr = run_state r;
  sf_destination : tr_destination tr = run_state r';
  sf_permitted : run_state r' ∈ permitted_destinations (run_state r);
  sf_time : tr_occurred_at tr = run_updated_at r';
  sf_mono : instant (run_updated_at r) <= instant (run_updated_at r');
  sf_attempts : exists inc, counter_matches (run_state r) inc /\
                            run_attempts r' = next_attempts inc (run_attempts r);
  sf_evidence : validate_StateTransition tr = Ok tr
}.

Lemma next_run_wf run d t g inc :
  Run_wf run -> is_utc t = true -> gate_wf g -> accepts run d t g inc ->
  Run_wf (next_run run d t g (next_attempts inc (run_attempts run))).
Proof.
  intros Hwf Ht Hg (? & ? & ? & ? & ?).
  pose proof (next_attempts_nonneg _ inc (Run_wf_facts _ Hwf)) as (? & ? & ?).
  by eapply (idem (f := validate_Run)), validate_next_run.
Qed.

Lemma run_step_facts r tr r' : Run_wf r -> run_step r tr r' -> step_facts r tr r'.
Proof.
  intros Hwf Hs. revert Hwf. destruct Hs as [r d t reason md g inc out Hg Hout]. intros Hwf.
  apply (transition_run_iff _ _ _ _ _ _ _ _ Hwf Hg) in Hout as (Hacc & tr' & Htr & ->).
  pose proof (transition_evidence_Ok _ _ _ _ _ _ Htr) as (? & ? & ? & ? & ? & ?).
  split; simpl; try done.
  - by apply next_run_wf.
  - apply Hacc.
  - apply Hacc.
  - exists inc. split; [apply Hacc | done].
Qed.

Lemma history_wf r0 h r : history r0 h r -> Run_wf r.
Proof.
  induction 1 as [|h r tr r' Hh IH Hs]; [done|]. by apply (run_step_facts _ _ _ IH Hs).
Qed.

Lemma history_last r0 h r :
  history r0 h r ->
  (h = [] /\ r = r0 /\ run_state r = CREATED) \/
  exists h' r1 tr, h = h' ++ [tr] /\ history r0 h' r1 /\ step_facts r1 tr r.
Proof.
  inversion 1 as [|h' r1 tr r' Hh Hs]; subst; [left; done|right].
  exists h', r1, tr. split; [done|]. split; [done|].
  apply run_step_facts; [apply (history_wf _ _ _ Hh) | done].
Qed.

(** The only way into a state, read off the table. *)
Lemma permitted_sources s d :
  d ∈ permitted_destinations s ->
  (d = APPROVED -> s = REVIEWING) /\ (d = REVIEWING -> s = VALIDATING) /\
  (d = VALIDATING -> s = BUILDING \/ s = REPAIRING) /\
  (d = REPAIRING -> s = VALIDATING \/ s = REVIEWING) /\
  (d = BUILDING -> s = WORKSPACE_PREPARING) /\ d <> CREATED /\ is_terminal s = false.
Proof. destruct s; simpl; enum. Qed.

(** A run past its build has a transition from [BUILDING] to [VALIDATING] behind it. *)
Lemma history_built r0 h r :
  history r0 h r ->
  run_state r ∈ [VALIDATING; REVIEWING; REPAIRING; APPROVED] ->
  Exists (fun tr => tr_source tr = BUILDING /\ tr_destination tr = VALIDATING) h.
Proof.
  induction 1 as [Hwf Hc|h r tr r' Hh IH Hs]; intros Hin.
  - rewrite Hc in Hin. enum.
  - destruct (run_step_facts _ _ _ (history_wf _ _ _ Hh) Hs) as [].
    apply Exists_app.
    pose proof (permitted_sources _ _ sf_permitted0) as (HA & HR & HV & HP & _).
    destruct (decide (run_state r = BUILDING)) as [Hb|Hb].
    + right. constructor. rewrite sf_source0, sf_destination0. split; [done|].
      rewrite Hb in sf_permitted0. simpl in sf_permitted0. enum.
    + left. apply IH. enum.
Qed.

Lemma Run_wf_gate_iff r :
  Run_wf r -> run_state r = APPROVED <-> is_some (run_approval_gate r) = true.
Proof.
  intros Hwf. destruct (Run_wf_facts _ Hwf). unfold gate_passes in *.
  destruct (decide (run_state r = APPROVED)) as [Ha|Ha].
  - specialize (rf_approved Ha). by destruct (run_approval_gate r).
  - by rewrite (rf_not_approved Ha).
Qed.

Lemma approved_review_mild r s :
  validate_ReviewResult r = Ok s -> review_verdict s = ReviewVerdict.APPROVED ->
  Forall (fun f => FindingSeverity.is_severe (finding_severity f) = false) (review_findings s).
Proof.
  unfold validate_ReviewResult, _validate_verdict. intros H Hverdict. inv_valid. simpl in *.
  rewrite Hverdict in *. by apply existsb_false.
Qed.

Lemma approved_gate r :
  Run_wf r -> run_state r = APPROVED ->
  exists gate, run_approval_gate r = Some gate /\ is_satisfied gate = true /\
    Forall (fun f => FindingSeverity.is_severe (finding_severity f) = false)
           (review_findings (gate_review gate)).
Proof.
  intros Hwf Ha. pose proof (Run_wf_facts _ Hwf) as Hf. destruct Hf. specialize (rf_approved Ha).
  unfold gate_passes in rf_approved. destruct (run_approval_gate r) as [gate|] eqn:Hg; [|done].
  exists gate. split; [done|]. split; [done|].
  unfold Run_wf, validate_Run in Hwf. inv_valid. rewrite Hg in *. simpl in *. inv_valid.
  apply validate_state_Ok in Hwf as [Heq _]. rewrite Heq in Hg. simpl in Hg. simplify_eq.
  apply is_satisfied_iff in rf_approved as [Hverdict _].
  match goal with H : validate_ApprovalGate _ = Ok _ |- _ => unfold validate_ApprovalGate in H end.
  inv_valid. simplify_eq. rewrite <- Hv7 in Hverdict |- *. simpl in *.
  by eapply approved_review_mild.
Qed.

(** Evidence without metadata is valid as soon as its reason and time are. *)
Lemma plain_evidence r d t reason :
  Run_wf r -> is_utc t = true -> 1 <= py_len (str_strip reason) <= 2048 ->
  exists tr, transition_evidence r d t reason ∅ = Ok tr.
Proof.
  intros Hwf Hu Hr. destruct (Run_wf_facts _ Hwf).
  eexists. unfold transition_evidence, sorted_items, validate_StateTransition.
  rewrite map_to_list_empty. simpl.
  apply bind_Ok. eexists. split; [by apply stable_identifier_Ok|].
  apply bind_Ok. eexists. split; [by apply require_utc_Ok|].
  apply bind_Ok. eexists. split; [by apply text_field_Ok|]. reflexivity.
Qed.

Definition counter_of (k : AttemptCounterKind.t) (a : AttemptCounters) : Z :=
  match k with
  | AttemptCounterKind.BUILD => build a
  | AttemptCounterKind.REVIEW => review a
  | AttemptCounterKind.REPAIR => repair a
  end.

Lemma counter_of_next k inc a :
  counter_of k (next_attempts inc a) = counter_of k a \/
  inc = Some k /\ counter_of k (next_attempts inc a) = counter_of k a + 1.
Proof. destruct inc as [[]|], k; simpl; auto. Qed.

Lemma history_budgets r0 h r : history r0 h r -> run_budgets r = run_budgets r0.
Proof.
  induction 1 as [|h r tr r' Hh IH Hs]; [done|].
  destruct (run_step_facts _ _ _ (history_wf _ _ _ Hh) Hs). congruence.
Qed.

(** ** Properties *)

(** C11: [transition_run] on a valid run returns exactly when the destination is
    permitted, the incremented counter belongs to the source state, time does
    not go back, the approval evidence agrees with the destination, the next
    counters are within the budgets and the evidence itself is valid; it then
    returns the run with only state, timestamp, gate and counter updated,
    paired with its evidence. *)
Theorem transition_run_spec run d t reason md g inc out
  (Hwf : Run_wf run) (Hg : gate_wf g) :
  transition_run run d t reason md g inc = Ok out <->
  accepts run d t g inc /\
  exists tr, transition_evidence run d t reason md = Ok tr /\
    out = mk_TransitionResult (next_run run d t g (next_attempts inc (run_attempts run))) tr.
Proof. by apply transition_run_iff. Qed.

(** Which exception [transition_run] raises: a forbidden destination is an
    [InvalidTransitionError] whatever the other arguments; with valid,
    monotone evidence and a matching counter, approval without a gate, with a
    failing gate (which names at least one failed check) and a gate offered for
    another destination are each an [ApprovalGateError]. *)
Theorem transition_run_errors run d t reason md g inc :
  (permitted (run_state run) d = false ->
   transition_run run d t reason md g inc = Err (InvalidTransitionError (run_id run) (run_state run) d)) /\
  (permitted (run_state run) d = true -> counter_matches (run_state run) inc ->
   is_ok (transition_evidence run d t reason md) = true ->
   instant (run_updated_at run) <= instant t ->
   (d = APPROVED -> g = None ->
    transition_run run d t reason md g inc = Err (ApprovalGateError [])) /\
   (forall gate, d = APPROVED -> g = Some gate -> is_satisfied gate = false ->
    transition_run run d t reason md g inc = Err (ApprovalGateError (failed_gates gate)) /\
    failed_gates gate <> []) /\
   (d <> APPROVED -> g <> None ->
    transition_run run d t reason md g inc =
    Err (ApprovalGateError ["unexpected_approval_evidence"]))).
Proof.
  unfold transition_run. split.
  - intros ->. done.
  - intros -> Hc Hev Ht. cbn [negb]. rewrite (bind_raise_if false).
    assert (Hcb : match inc with
                  | None => false
                  | Some kind => negb (bool_decide (run_state run = attempt_source kind))
                  end = false).
    { destruct inc; simpl in *; [|done]. by rewrite bool_decide_eq_true_2. }
    rewrite Hcb, (bind_raise_if false).
    destruct (transition_evidence run d t reason md) as [tr|]; [|done].
    change (mbind ?f (Ok tr)) with (f tr). cbn beta.
    assert (Hlt : dt_lt t (run_updated_at run) = false) by (apply Z.ltb_ge; done).
    rewrite Hlt, (bind_raise_if false). unfold check_gate. repeat split.
    + intros -> ->. done.
    + subst. rewrite bool_decide_eq_true_2 by done. by rewrite H1.
    + intros Hf. unfold is_satisfied in H1. rewrite bool_decide_eq_false in H1. done.
    + intros. rewrite bool_decide_eq_false_2 by done. by destruct g.
Qed.

(** C36: every run reachable from a created run is a valid instance that keeps
    the identity, task, work package, budgets and creation time of the created
    run, whose evidence forms one chain from [CREATED] to its state, and whose
    approval evidence is present exactly when it is approved. *)
Theorem history_invariant r0 h r (Hh : history r0 h r) :
  Run_wf r /\ run_id r = run_id r0 /\ run_task r = run_task r0 /\
  run_work_package r = run_work_package r0 /\ run_budgets r = run_budgets r0 /\
  run_created_at r = run_created_at r0 /\
  instant (run_updated_at r0) <= instant (run_updated_at r) /\
  CREATED :: (tr_destination <$> h) = (tr_source <$> h) ++ [run_state r] /\
  Forall (fun tr => tr_run_id tr = run_id r0 /\
                    instant (tr_occurred_at tr) <= instant (run_updated_at r)) h /\
  (run_state r = APPROVED <-> is_some (run_approval_gate r) = true).
Proof.
  pose proof (history_wf _ _ _ Hh) as Hwf. split; [done|].
  apply Run_wf_gate_iff in Hwf. revert Hwf.
  induction Hh as [Hwf Hc|h r tr r' Hh IH Hs]; intros Hgate.
  - simpl. repeat split; try done; try lia; try apply Hgate. by rewrite Hc.
  - pose proof (history_wf _ _ _ Hh) as Hwf.
    destruct (IH (Run_wf_gate_iff _ Hwf)) as (? & ? & ? & ? & ? & ? & Hchain & Hall & _).
    destruct (run_step_facts _ _ _ Hwf Hs).
    repeat split; try congruence; try lia; try apply Hgate.
    + rewrite !fmap_app, app_comm_cons, Hchain. simpl. congruence.
    + apply Forall_app. split.
      * eapply Forall_impl; [exact Hall|]. simpl. intros ? []. split; [done|lia].
      * constructor; [|constructor]. rewrite sf_time0. split; [congruence|lia].
Qed.

(** C1: approval is earned: the last two transitions of an approved run are
    [VALIDATING] to [REVIEWING] and [REVIEWING] to [APPROVED], a build was
    handed to validation before them, the retained gate passes all its checks
    and its review carries no high or critical finding. *)
Theorem approved_history r0 h r (Hh : history r0 h r) (Ha : run_state r = APPROVED) :
  exists pre tv ta gate,
    h = pre ++ [tv; ta] /\
    tr_source tv = VALIDATING /\ tr_destination tv = REVIEWING /\
    tr_source ta = REVIEWING /\ tr_destination ta = APPROVED /\
    Exists (fun tr => tr_source tr = BUILDING /\ tr_destination tr = VALIDATING) pre /\
    run_approval_gate r = Some gate /\ is_satisfied gate = true /\
    Forall (fun f => FindingSeverity.is_severe (finding_severity f) = false)
           (review_findings (gate_review gate)).
Proof.
  pose proof (history_wf _ _ _ Hh) as Hwf.
  destruct (history_last _ _ _ Hh) as [(? & ? & ?)|(h1 & r1 & ta & -> & Hh1 & [])]; [congruence|].
  pose proof (permitted_sources _ _ sf_permitted0) as (H1 & _). specialize (H1 Ha).
  destruct (history_last _ _ _ Hh1) as [(? & ? & ?)|(h2 & r2 & tv & -> & Hh2 & F2)]; [congruence|].
  destruct F2. pose proof (permitted_sources _ _ sf_permitted1) as (_ & H2 & _). specialize (H2 H1).
  destruct (approved_gate r Hwf Ha) as (gate & Hgate & Hsat & Hsev).
  exists h2, tv, ta, gate. rewrite <- app_assoc. simpl.
  assert (Hb : Exists (fun tr => tr_source tr = BUILDING /\ tr_destination tr = VALIDATING) h2).
  { apply (history_built _ _ _ Hh2). rewrite H2. enum. }
  repeat split; congruence || done.
Qed.

(** C40: a terminal run accepts no transition, and a run that is not terminal
    can always be cancelled, at any instant not before its last update, with
    any reason of 1 to 2048 characters. *)
Theorem terminal_or_cancellable r (Hwf : Run_wf r) :
  (is_terminal (run_state r) = true ->
   forall d t reason md g inc,
     transition_run r d t reason md g inc = Err (InvalidTransitionError (run_id r) (run_state r) d)) /\
  (is_terminal (run_state r) = false ->
   forall t reason, is_utc t = true -> instant (run_updated_at r) <= instant t ->
     1 <= py_len (str_strip reason) <= 2048 ->
     exists out, transition_run r CANCELLED t reason ∅ None None = Ok out /\
                 run_state (res_run out) = CANCELLED /\
                 run_attempts (res_run out) = run_attempts r).
Proof.
  split.
  - intros Ht d t reason md g inc. unfold transition_run.
    assert (Hp : permitted (run_state r) d = false).
    { apply bool_decide_eq_false. destruct (run_state r); try done; apply not_elem_of_nil. }
    by rewrite Hp.
  - intros Ht t reason Hu Hm Hr.
    destruct (plain_evidence r CANCELLED t reason Hwf Hu Hr) as [tr Htr].
    exists (mk_TransitionResult (next_run r CANCELLED t None (run_attempts r)) tr).
    split; [|by split].
    apply (transition_run_iff _ _ _ _ _ _ _ _ Hwf); [done|]. split; [|by exists tr].
    destruct (Run_wf_facts _ Hwf).
    unfold accepts, within_budget. simpl. repeat split; try done; try lia.
    destruct (run_state r); try done; simpl; enum.
Qed.

(** A counter never exceeds its budget and never runs ahead of the
    evidence: over any history each counter grows by at most the number of
    transitions out of the state it counts. *)
Theorem attempts_accounted r0 h r (Hh : history r0 h r) :
  (build (run_attempts r) <= max_build_attempts (run_budgets r0) /\
   review (run_attempts r) <= max_review_attempts (run_budgets r0) /\
   repair (run_attempts r) <= max_repair_attempts (run_budgets r0)) /\
  forall k, counter_of k (run_attempts r0) <= counter_of k (run_attempts r)
            <= counter_of k (run_attempts r0) +
               count (fun tr => bool_decide (tr_source tr = attempt_source k)) h.
Proof.
  induction Hh as [Hwf Hc|h r tr r' Hh [IH1 IH2] Hs].
  - destruct (Run_wf_facts _ Hwf). split; [lia|]. intros k. rewrite count_nil. lia.
  - destruct (run_step_facts _ _ _ (history_wf _ _ _ Hh) Hs).
    destruct (Run_wf_facts _ sf_wf0). destruct (history_budgets _ _ _ Hh).
    split; [rewrite sf_budgets0 in *; lia|].
    intros k. specialize (IH2 k). rewrite count_app, count_cons, count_nil.
    destruct sf_attempts0 as (inc & Hm & ->). rewrite sf_source0.
    destruct (counter_of_next k inc (run_attempts r)) as [->|[-> ->]].
    + case_bool_decide; lia.
    + simpl in Hm. rewrite Hm, bool_decide_eq_true_2 by done. lia.
Qed.

(** ** Concrete runs *)

Module Sample.
Definition hex32 : string := "0123456789abcdef0123456789abcdef".

Definition task : TaskSpecification :=
  mk_TaskSpecification 1 ("task_" +:+ hex32) "Fix the parser" ["src/parser.py"] ["secrets"]
    ["tests pass"].
Definition package : WorkPackage :=
  mk_WorkPackage 1 "P4-002" "Parser" "Fix the parser" WorkPackageStatus.IN_PROGRESS.
Definition budgets : BudgetLimits := mk_BudgetLimits 1 3600 2 2 1 None None.
Definition run : Run :=
  mk_Run 1 ("run_" +:+ hex32) task package budgets CREATED (mk_AttemptCounters 0 0 0)
    (utc 0) (utc 0) None.
Definition gate : ApprovalGate :=
  mk_ApprovalGate
    (mk_ReviewResult 1 ReviewVerdict.APPROVED "Looks right"
       [mk_ReviewFinding FindingSeverity.LOW "Rename a local"])
    true true true true true false.

Lemma run_wf : Run_wf run.
Proof. vm_compute. reflexivity. Qed.

Lemma gate_valid : gate_wf (Some gate).
Proof. vm_compute. reflexivity. Qed.

(** Replay destinations, with the counter each increments, one second apart. *)
Fixpoint replay (r : Run) (steps : list (RunState * option AttemptCounterKind.t))
    : option (list StateTransition * Run) :=
  match steps with
  | [] => Some ([], r)
  | (d, inc) :: steps =>
      let g := if bool_decide (d = APPROVED) then Some gate else None in
      match transition_run r d (utc (instant (run_updated_at r) + 1000000)) "step"
              {["coordinator" := "p4-002"]} g inc with
      | Ok out => match replay (res_run out) steps with
                  | Some (h, r') => Some (res_transition out :: h, r')
                  | None => None
                  end
      | Err _ => None
      end
  end.

Lemma replay_history r0 h r steps h' r' :
  history r0 h r -> replay r steps = Some (h', r') -> history r0 (h ++ h') r'.
Proof.
  revert h r h' r'. induction steps as [|[d inc] steps IH]; intros h r h' r' Hh Hr; simpl in Hr.
  - simplify_eq. by rewrite app_nil_r.
  - destruct (transition_run _ _ _ _ _ _ _) as [out|] eqn:Hout; [|done].
    destruct (replay (res_run out) steps) as [[h1 r1]|] eqn:Hrep; [|done]. simplify_eq.
    rewrite cons_middle, app_assoc. eapply IH; [|exact Hrep].
    eapply history_snoc; [exact Hh|]. eapply run_step_intro; [|exact Hout].
    case_bool_decide; [apply gate_valid | done].
Qed.

Definition approved_path : list (RunState * option AttemptCounterKind.t) :=
  [(PLANNING, None); (CONTEXT_PREPARING, None); (WORKSPACE_PREPARING, None); (BUILDING, None);
   (VALIDATING, Some AttemptCounterKind.BUILD); (REVIEWING, None);
   (REPAIRING, Some AttemptCounterKind.REVIEW); (VALIDATING, Some AttemptCounterKind.REPAIR);
   (REVIEWING, None); (APPROVED, Some AttemptCounterKind.REVIEW)].

Definition approved : list StateTransition * Run :=
  match replay run approved_path with Some p => p | None => ([], run) end.

Lemma approved_reached : history run approved.1 approved.2.
Proof.
  assert (H : replay run approved_path = Some (approved.1, approved.2)).
  { vm_compute. reflexivity. }
  eapply (replay_history run [] run approved_path _ _ _ H).
  Unshelve. apply history_nil; [apply run_wf | reflexivity].
Qed.

Lemma approved_state : run_state approved.2 = APPROVED.
Proof. vm_compute. reflexivity. Qed.
End Sample.

Lemma transition_run_spec_witness :
  exists out, transition_run Sample.run PLANNING (utc 1) "start" ∅ None None = Ok out /\
              accepts Sample.run PLANNING (utc 1) None None.
Proof.
  destruct (transition_run Sample.run PLANNING (utc 1) "start" ∅ None None) as [out|] eqn:H.
  - exists out. split; [reflexivity|].
    by apply (proj1 (transition_run_spec Sample.run PLANNING (utc 1) "start" ∅ None None out
                       Sample.run_wf eq_refl)) in H as [? _].
  - vm_compute in H. discriminate H.
Defined.

Lemma history_invariant_witness :
  length Sample.approved.1 = 10%nat /\ Run_wf Sample.approved.2.
Proof.
  split; [vm_compute; reflexivity|].
  apply (history_invariant Sample.run Sample.approved.1 Sample.approved.2 Sample.approved_reached).
Defined.

Lemma approved_history_witness :
  exists pre tv ta, Sample.approved.1 = pre ++ [tv; ta] /\ tr_destination ta = APPROVED.
Proof.
  destruct (approved_history Sample.run Sample.approved.1 Sample.approved.2
              Sample.approved_reached Sample.approved_state) as (pre & tv & ta & gate & H & _ & _ & _ & Hd & _).
  exists pre, tv, ta. split; [exact H | exact Hd].
Defined.

Lemma terminal_or_cancellable_witness :
  transition_run Sample.approved.2 CANCELLED (utc 20000000) "stop" ∅ None None =
  Err (InvalidTransitionError (run_id Sample.run) APPROVED CANCELLED) /\
  exists out, transition_run Sample.run CANCELLED (utc 1) "stop" ∅ None None = Ok out.
Proof.
  split.
  - replace (InvalidTransitionError (run_id Sample.run) APPROVED CANCELLED)
      with (InvalidTransitionError (run_id Sample.approved.2) (run_state Sample.approved.2) CANCELLED)
      by (vm_compute; reflexivity).
    apply (proj1 (terminal_or_cancellable Sample.approved.2 (history_wf _ _ _ Sample.approved_reached))).
    vm_compute. reflexivity.
  - destruct (proj2 (terminal_or_cancellable Sample.run Sample.run_wf) eq_refl (utc 1) "stop"
                eq_refl) as (out & H & _).
    + vm_compute. discriminate.
    + vm_compute. split; discriminate.
    + exists out. exact H.
Defined.

Lemma attempts_accounted_witness :
  counter_of AttemptCounterKind.REVIEW (run_attempts Sample.approved.2) <= 2.
Proof.
  apply (attempts_accounted Sample.run Sample.approved.1 Sample.approved.2 Sample.approved_reached).
Defined.

Lemma transition_run_errors_witness :
  transition_run Sample.run APPROVED (utc 1) "go" ∅ (Some Sample.gate) None =
    Err (InvalidTransitionError (run_id Sample.run) CREATED APPROVED) /\
  transition_run Sample.run PLANNING (utc 1) "go" ∅ (Some Sample.gate) None =
    Err (ApprovalGateError ["unexpected_approval_evidence"]).
Proof.
  split.
  - apply (transition_run_errors Sample.run APPROVED (utc 1) "go" ∅ (Some Sample.gate) None).
    reflexivity.
  - refine (proj2 (proj2 (proj2 (transition_run_errors Sample.run PLANNING (utc 1) "go" ∅
      (Some Sample.gate) None) eq_refl I _ _)) _ _).
    + vm_compute. reflexivity.
    + vm_compute. discriminate.
    + discriminate.
    + discriminate.
Defined.
