(* ===== verification/Effects.v ===== *)
(** * Effectful code: a state and exception monad

    A Python method that reads and changes the world (files, processes, the
    store, clocks) is a function from the world to the new world and its
    outcome, a value or an exception.  An exception keeps the changes made
    before it was raised, as in the sources. *)

From Stdlib Require Import ZArith Lia Ascii String.
From S2P Require Import Prelude Text Domain.
From stdpp Require Import base option strings numbers list list_relations.

Definition M (W A : Type) : Type := W -> W * res A.

#[export] Instance M_ret {W} : MRet (M W) := fun A a w => (w, Ok a).
#[export] Instance M_bind {W} : MBind (M W) :=
  fun A B f m w => match m w with (w', Ok a) => f a w' | (w', Err e) => (w', Err e) end.
#[export] Instance M_fmap {W} : FMap (M W) :=
  fun A B f m w => match m w with (w', Ok a) => (w', Ok (f a)) | (w', Err e) => (w', Err e) end.

(** A computation that leaves the world alone. *)
Definition lift {W A} (r : res A) : M W A := fun w => (w, r).

(** A read of the world. *)
Definition gets {W A} (f : W -> A) : M W A := fun w => (w, Ok (f w)).

Definition raise {W A} (e : exn) : M W A := fun w => (w, Err e).

(** [try: m except caught as e: handler e] *)
Definition try_except {W A} (m : M W A) (caught : exn -> bool) (handler : exn -> M W A) : M W A :=
  fun w => match m w with
           | (w', Err e) => if caught e then handler e w' else (w', Err e)
           | r => r
           end.

(** The whole outcome as a value: the caller inspects what was raised. *)
Definition attempt {W A} (m : M W A) : M W (res A) :=
  fun w => let '(w', r) := m w in (w', Ok r).

(** [with suppress(...)] and [try: ... finally: ...] *)
Definition suppress {W} (caught : exn -> bool) (m : M W unit) : M W unit :=
  try_except m caught (fun _ => mret tt).

Definition try_finally {W A} (m : M W A) (cleanup : M W unit) : M W A :=
  outcome ← attempt m ; cleanup ;; lift outcome.

Definition is_ValueError (e : exn) : bool := match e with ValueError _ => true | _ => false end.
Definition any_exception (e : exn) : bool := true.

(** Code whose only exceptions are [ValueError]s. *)
Definition value_errors {A} (r : res A) : Prop := forall e, r = Err e -> is_ValueError e = true.

Lemma value_errors_ret {A} (a : A) : value_errors (mret a).
Proof. done. Qed.

Lemma value_errors_raise_if b m : value_errors (raise_if b (ValueError m)).
Proof. destruct b; [by intros e [= <-] | done]. Qed.

Lemma value_errors_require b m : value_errors (require b m).
Proof. apply value_errors_raise_if. Qed.

Lemma value_errors_bind {A B} (r : res A) (f : A -> res B) :
  value_errors r -> (forall a, value_errors (f a)) -> value_errors (r ≫= f).
Proof. intros Hr Hf e. destruct r as [a|e']; simpl; [apply Hf | intros [= <-]; by apply Hr]. Qed.

Lemma value_errors_traverse {A B} (f : A -> res B) xs :
  (forall x, value_errors (f x)) -> value_errors (traverse f xs).
Proof.
  intros Hf. induction xs as [|x xs IH]; simpl; [done|]. specialize (Hf x).
  destruct (f x); [|by intros e' [= <-]; apply Hf]. destruct (traverse f xs); [done|].
  intros e' [= <-]. by apply IH.
Qed.

Lemma value_errors_optional {A} (f : A -> res A) o :
  (forall x, value_errors (f x)) -> value_errors (validate_optional f o).
Proof. intros Hf. destruct o; [|done]. apply value_errors_bind; [apply Hf | done]. Qed.

#[export] Hint Resolve value_errors_ret value_errors_raise_if value_errors_require
  value_errors_bind value_errors_traverse value_errors_optional : rev.

Section M_lemmas.
Context {W : Type}.

Lemma M_bind_Ok {A B} (m : M W A) (f : A -> M W B) w w' b :
  (m ≫= f) w = (w', Ok b) <-> exists w1 a, m w = (w1, Ok a) /\ f a w1 = (w', Ok b).
Proof.
  unfold mbind, M_bind. destruct (m w) as [w1 [a|e]]; split.
  - intros H. by exists w1, a.
  - intros (? & ? & ? & ?). by simplify_eq.
  - done.
  - by intros (? & ? & ? & ?).
Qed.

Lemma M_fmap_Ok {A B} (f : A -> B) (m : M W A) w w' b :
  (f <$> m) w = (w', Ok b) <-> exists a, m w = (w', Ok a) /\ b = f a.
Proof.
  unfold fmap, M_fmap. destruct (m w) as [w1 [a|e]]; split.
  - intros [= -> <-]. eauto.
  - intros (? & ? & ->). by simplify_eq.
  - done.
  - by intros (? & ? & _).
Qed.

Lemma M_bind_run {A B} (m : M W A) (f : A -> M W B) w w1 a :
  m w = (w1, Ok a) -> (m ≫= f) w = f a w1.
Proof. unfold mbind, M_bind. by intros ->. Qed.

Lemma M_bind_err {A B} (m : M W A) (f : A -> M W B) w w1 e :
  m w = (w1, Err e) -> (m ≫= f) w = (w1, Err e).
Proof. unfold mbind, M_bind. by intros ->. Qed.

Lemma M_bind_fails {A B} (m : M W A) (f : A -> M W B) w :
  is_ok (snd (m w)) = false -> is_ok (snd ((m ≫= f) w)) = false.
Proof. unfold mbind, M_bind. by destruct (m w) as [w1 [a|e]]. Qed.

Lemma lift_Ok {A} (r : res A) w w' a : lift (W:=W) r w = (w', Ok a) <-> w' = w /\ r = Ok a.
Proof. unfold lift. split; [by intros [= -> ->] | by intros [-> ->]]. Qed.

Lemma lift_bind {A B} (r : res A) (f : A -> M W B) w :
  (lift (W:=W) r ≫= f) w = match r with Ok a => f a w | Err e => (w, Err e) end.
Proof. unfold mbind, M_bind, lift. by destruct r. Qed.
End M_lemmas.

(** Split a successful run into its steps. *)
Ltac inv_run1 :=
  match goal with
  | H : mbind _ _ _ = (_, Ok _) |- _ =>
      apply M_bind_Ok in H;
      let w := fresh "w" in let a := fresh "v" in let H1 := fresh "Hv" in
      destruct H as (w & a & H1 & H)
  | H : fmap _ _ _ = (_, Ok _) |- _ =>
      apply M_fmap_Ok in H;
      let a := fresh "v" in let H1 := fresh "Hv" in destruct H as (a & H & ?); subst
  | H : lift _ _ = (_, Ok _) |- _ => apply lift_Ok in H; destruct H as [? H]; subst
  | H : mret _ _ = (_, Ok _) |- _ => unfold mret, M_ret in H; injection H as ? ?; subst
  | H : gets _ _ = (_, Ok _) |- _ => unfold gets in H; injection H as ? ?; subst
  | H : raise _ _ = (_, Ok _) |- _ => discriminate H
  end.
Ltac inv_run := repeat inv_run1.

(** Computations that only read the world. *)
Definition reads {W A} (m : M W A) : Prop := forall w, fst (m w) = w.

Section reads.
Context {W : Type}.

Lemma reads_ret {A} (a : A) : reads (W := W) (mret a).
Proof. done. Qed.
Lemma reads_lift {A} (r : res A) : reads (W := W) (lift r).
Proof. done. Qed.
Lemma reads_gets {A} (f : W -> A) : reads (gets f).
Proof. done. Qed.
Lemma reads_raise {A} e : reads (W := W) (A := A) (raise e).
Proof. done. Qed.
Lemma reads_bind {A B} (m : M W A) (f : A -> M W B) :
  reads m -> (forall a, reads (f a)) -> reads (m ≫= f).
Proof.
  intros Hm Hf w. unfold mbind, M_bind. specialize (Hm w). destruct (m w) as [w1 [a|e]]; simpl in *; [|done].
  rewrite Hf. done.
Qed.
Lemma reads_fmap {A B} (f : A -> B) (m : M W A) : reads m -> reads (f <$> m).
Proof. intros Hm w. unfold fmap, M_fmap. specialize (Hm w). by destruct (m w) as [w1 [a|e]]. Qed.
Lemma reads_attempt {A} (m : M W A) : reads m -> reads (attempt m).
Proof. intros Hm w. unfold attempt. specialize (Hm w). by destruct (m w). Qed.
Lemma reads_run {A} (m : M W A) w w' a : reads m -> m w = (w', a) -> w' = w.
Proof. intros Hm H. specialize (Hm w). by rewrite H in Hm. Qed.
End reads.

#[export] Hint Resolve reads_ret reads_lift reads_gets reads_raise reads_bind reads_fmap
  reads_attempt : rev.

(** ** Frames: what a computation may change *)

(** Changes that can be chained. *)
Class Confined {W} (R : W -> W -> Prop) : Prop := {
  confined_refl : forall w, R w w;
  confined_trans : forall w1 w2 w3, R w1 w2 -> R w2 w3 -> R w1 w3
}.

(** Whatever the outcome, the world changed within [R]. *)
Definition only {W A} (R : W -> W -> Prop) (m : M W A) : Prop := forall w, R w (fst (m w)).

Section only.
Context {W : Type} (R : W -> W -> Prop) `{!Confined R}.

Lemma only_reads {A} (m : M W A) : reads m -> only R m.
Proof. intros H w. rewrite H. apply confined_refl. Qed.
Lemma only_bind {A B} (m : M W A) (f : A -> M W B) :
  only R m -> (forall a, only R (f a)) -> only R (m ≫= f).
Proof.
  intros Hm Hf w. unfold mbind, M_bind. specialize (Hm w). destruct (m w) as [w1 [a|e]]; [|done].
  eapply confined_trans; [exact Hm | apply Hf].
Qed.
Lemma only_fmap {A B} (f : A -> B) (m : M W A) : only R m -> only R (f <$> m).
Proof. intros Hm w. unfold fmap, M_fmap. specialize (Hm w). by destruct (m w) as [w1 [a|e]]. Qed.
Lemma only_try {A} (m : M W A) caught handler :
  only R m -> (forall e, only R (handler e)) -> only R (try_except m caught handler).
Proof.
  intros Hm Hh w. unfold try_except. specialize (Hm w). destruct (m w) as [w1 [a|e]]; [done|].
  destruct (caught e); [|done]. eapply confined_trans; [exact Hm | apply Hh].
Qed.
Lemma only_attempt {A} (m : M W A) : only R m -> only R (attempt m).
Proof. intros Hm w. unfold attempt. specialize (Hm w). by destruct (m w). Qed.
Lemma only_try_finally {A} (m : M W A) cleanup : only R m -> only R cleanup -> only R (try_finally m cleanup).
Proof.
  intros Hm Hc. apply only_bind; [by apply only_attempt | intros o].
  apply only_bind; [done | intros _]. by apply only_reads, reads_lift.
Qed.
End only.

(** What a computation changes, and what it returns when it returns. *)
Definition does {W A} (R : W -> W -> Prop) (m : M W A) (Q : A -> Prop) : Prop :=
  forall w, R w (fst (m w)) /\ forall a, snd (m w) = Ok a -> Q a.

Section does.
Context {W : Type}.

(** Sequencing, with changes that need not be of one kind. *)
Lemma does_seq {A B} (R1 R2 R3 : W -> W -> Prop) (m : M W A) (f : A -> M W B) P Q :
  does R1 m P -> (forall a, P a -> does R2 (f a) Q) ->
  (forall w1 w2, R1 w1 w2 -> R3 w1 w2) -> (forall w1 w2 w3, R1 w1 w2 -> R2 w2 w3 -> R3 w1 w3) ->
  does R3 (m ≫= f) Q.
Proof.
  intros Hm Hf H1 H12 w. unfold mbind, M_bind. destruct (Hm w) as [HR HP].
  destruct (m w) as [w1 [a|e]]; cbn in *; [|by split; [apply H1|]].
  destruct (Hf a (HP a eq_refl) w1) as [HR2 HQ]. split; [by eapply H12|done].
Qed.

Context (R : W -> W -> Prop) `{!Confined R}.

Lemma does_weaken {A} (m : M W A) (P Q : A -> Prop) : does R m P -> (forall a, P a -> Q a) -> does R m Q.
Proof. intros Hm HPQ w. destruct (Hm w). split; auto. Qed.
Lemma does_only {A} (m : M W A) : only R m -> does R m (fun _ => True).
Proof. intros Hm w. split; [apply Hm|done]. Qed.
Lemma only_does {A} (m : M W A) Q : does R m Q -> only R m.
Proof. intros Hm w. apply Hm. Qed.
Lemma does_ret {A} (a : A) (Q : A -> Prop) : Q a -> does R (mret a) Q.
Proof. intros HQ w. split; [apply confined_refl|]. by intros a' [= <-]. Qed.
Lemma does_lift {A} (r : res A) (Q : A -> Prop) : (forall a, r = Ok a -> Q a) -> does R (lift r) Q.
Proof. intros HQ w. split; [apply confined_refl|done]. Qed.
Lemma does_raise {A} e (Q : A -> Prop) : does R (raise e) Q.
Proof. intros w. split; [apply confined_refl|done]. Qed.
Lemma does_bind {A B} (m : M W A) (f : A -> M W B) P Q :
  does R m P -> (forall a, P a -> does R (f a) Q) -> does R (m ≫= f) Q.
Proof. intros Hm Hf. eapply does_seq; [exact Hm|exact Hf|done|apply confined_trans]. Qed.
Lemma does_fmap {A B} (f : A -> B) (m : M W A) Q : does R m (fun a => Q (f a)) -> does R (f <$> m) Q.
Proof.
  intros Hm w. unfold fmap, M_fmap. destruct (Hm w) as [HR HQ]. destruct (m w) as [w1 [a|e]]; cbn in *;
    (split; [done|]); [|done]. intros b [= <-]. by apply HQ.
Qed.
Lemma does_try {A} (m : M W A) caught handler Q :
  does R m Q -> (forall e, does R (handler e) Q) -> does R (try_except m caught handler) Q.
Proof.
  intros Hm Hh w. unfold try_except. destruct (Hm w) as [HR HQ]. destruct (m w) as [w1 [a|e]]; [done|].
  destruct (caught e); [|done]. destruct (Hh e w1) as [HR2 HQ2]. split; [by eapply confined_trans|done].
Qed.
Lemma does_attempt {A} (m : M W A) (Q : A -> Prop) :
  does R m Q -> does R (attempt m) (fun o => forall a, o = Ok a -> Q a).
Proof.
  intros Hm w. unfold attempt. destruct (Hm w) as [HR HQ]. destruct (m w) as [w1 o]; cbn in *.
  split; [done|]. by intros o' [= <-].
Qed.
Lemma does_finally {A} (m : M W A) cleanup (Q : A -> Prop) :
  does R m Q -> only R cleanup -> does R (try_finally m cleanup) Q.
Proof.
  intros Hm Hc. eapply does_bind; [by apply does_attempt|]. intros o Ho.
  eapply does_bind; [by apply does_only|]. intros _ _. by apply does_lift.
Qed.
End does.

(** Effectful code whose only exceptions are [ValueError]s. *)
Definition M_value_errors {W A} (m : M W A) : Prop :=
  forall w w' e, m w = (w', Err e) -> is_ValueError e = true.

Section M_value_errors.
Context {W : Type}.

Lemma mve_ret {A} (a : A) : M_value_errors (W := W) (mret a).
Proof. by intros w w' e [=]. Qed.
Lemma mve_lift {A} (r : res A) : value_errors r -> M_value_errors (W := W) (lift r).
Proof. intros Hr w w' e [= _ ->]. by apply Hr. Qed.
Lemma mve_gets {A} (f : W -> A) : M_value_errors (gets f).
Proof. by intros w w' e [=]. Qed.
Lemma mve_raise {A} m : M_value_errors (W := W) (A := A) (raise (ValueError m)).
Proof. by intros w w' e [= _ <-]. Qed.
Lemma mve_bind {A B} (m : M W A) (f : A -> M W B) :
  M_value_errors m -> (forall a, M_value_errors (f a)) -> M_value_errors (m ≫= f).
Proof.
  intros Hm Hf w w' e. unfold mbind, M_bind. destruct (m w) as [w1 [a|e1]] eqn:H1.
  - apply Hf.
  - intros [= _ <-]. by eapply Hm.
Qed.
Lemma mve_fmap {A B} (f : A -> B) (m : M W A) : M_value_errors m -> M_value_errors (f <$> m).
Proof.
  intros Hm w w' e. unfold fmap, M_fmap. destruct (m w) as [w1 [a|e1]] eqn:H1; [by intros [=]|].
  intros [= _ <-]. by eapply Hm.
Qed.
End M_value_errors.

#[export] Hint Resolve mve_ret mve_lift mve_gets mve_raise mve_bind mve_fmap : rev.
