(* ===== verification/Sha256.v ===== *)
(** * [hashlib.sha256(...).hexdigest()]

    The hash of the Python standard library the sources derive identifiers and
    digests with, executable (FIPS 180-4), with its two test vectors and the
    shape of every digest: 64 lowercase hexadecimal characters. *)

From Stdlib Require Import ZArith Lia Ascii String.
From S2P Require Import Prelude Text.
From stdpp Require Import base option strings numbers list list_relations.

Open Scope Z_scope.

Definition w32 (x : Z) : Z := Z.land x 4294967295.
Definition rotr (n x : Z) : Z := Z.lor (Z.shiftr x n) (w32 (Z.shiftl x (32 - n))).

Definition round_constants : list Z := [
  1116352408; 1899447441; 3049323471; 3921009573; 961987163; 1508970993; 2453635748; 2870763221;
  3624381080; 310598401; 607225278; 1426881987; 1925078388; 2162078206; 2614888103; 3248222580;
  3835390401; 4022224774; 264347078; 604807628; 770255983; 1249150122; 1555081692; 1996064986;
  2554220882; 2821834349; 2952996808; 3210313671; 3336571891; 3584528711; 113926993; 338241895;
  666307205; 773529912; 1294757372; 1396182291; 1695183700; 1986661051; 2177026350; 2456956037;
  2730485921; 2820302411; 3259730800; 3345764771; 3516065817; 3600352804; 4094571909; 275423344;
  430227734; 506948616; 659060556; 883997877; 958139571; 1322822218; 1537002063; 1747873779;
  1955562222; 2024104815; 2227730452; 2361852424; 2428436474; 2756734187; 3204031479; 3329325298].

(** The eight working variables. *)
Record words := mk_words { wa : Z; wb : Z; wc : Z; wd : Z; we : Z; wf : Z; wg : Z; wh : Z }.

Definition initial_words : words :=
  mk_words 1779033703 3144134277 1013904242 2773480762 1359893119 2600822924 528734635 1541459225.

(** The message schedule, latest word first. *)
Fixpoint extend (n : nat) (w : list Z) : list Z :=
  match n with
  | O => w
  | S n =>
      let at_ i := nth i w 0 in
      let s1 := Z.lxor (Z.lxor (rotr 17 (at_ 1%nat)) (rotr 19 (at_ 1%nat))) (Z.shiftr (at_ 1%nat) 10) in
      let s0 := Z.lxor (Z.lxor (rotr 7 (at_ 14%nat)) (rotr 18 (at_ 14%nat))) (Z.shiftr (at_ 14%nat) 3) in
      extend n (w32 (s1 + at_ 6%nat + s0 + at_ 15%nat) :: w)
  end.

Definition round (v : words) (kw : Z * Z) : words :=
  let s1 := Z.lxor (Z.lxor (rotr 6 (we v)) (rotr 11 (we v))) (rotr 25 (we v)) in
  let ch := Z.lxor (Z.land (we v) (wf v)) (Z.land (w32 (Z.lnot (we v))) (wg v)) in
  let t1 := wh v + s1 + ch + kw.1 + kw.2 in
  let s0 := Z.lxor (Z.lxor (rotr 2 (wa v)) (rotr 13 (wa v))) (rotr 22 (wa v)) in
  let maj := Z.lxor (Z.lxor (Z.land (wa v) (wb v)) (Z.land (wa v) (wc v))) (Z.land (wb v) (wc v)) in
  mk_words (w32 (t1 + (s0 + maj))) (wa v) (wb v) (wc v) (w32 (wd v + t1)) (we v) (wf v) (wg v).

Definition add_words (a b : words) : words :=
  mk_words (w32 (wa a + wa b)) (w32 (wb a + wb b)) (w32 (wc a + wc b)) (w32 (wd a + wd b))
    (w32 (we a + we b)) (w32 (wf a + wf b)) (w32 (wg a + wg b)) (w32 (wh a + wh b)).

Definition compress (h : words) (block : list Z) : words :=
  add_words h (fold_left round (combine round_constants (rev (extend 48 (rev block)))) h).

Definition byte_val (c : ascii) : Z := Z.of_N (N_of_ascii c).

(** Padding: the bit [1], zeros, and the bit length as a 64-bit word. *)
Definition pad (l : list Z) : list Z :=
  let n := Z.of_nat (length l) in
  l ++ [128] ++ repeat 0 (Z.to_nat ((55 - n) mod 64))
    ++ ((fun i => Z.land (Z.shiftr (8 * n) (8 * i)) 255) <$> [7; 6; 5; 4; 3; 2; 1; 0]).

Fixpoint to_words (fuel : nat) (l : list Z) : list Z :=
  match fuel, l with
  | S fuel, a :: b :: c :: d :: l =>
      (a * 16777216 + b * 65536 + c * 256 + d) :: to_words fuel l
  | _, _ => []
  end.

Fixpoint blocks (fuel : nat) (l : list Z) (h : words) : words :=
  match fuel, l with
  | S fuel, _ :: _ => blocks fuel (skipn 16 l) (compress h (firstn 16 l))
  | _, _ => h
  end.

Definition hex_digit (n : Z) : ascii :=
  nth (Z.to_nat (Z.land n 15)) (String.list_ascii_of_string "0123456789abcdef") "0"%char.

Definition hex_word (w : Z) : list ascii :=
  (fun i => hex_digit (Z.shiftr w (4 * i))) <$> [7; 6; 5; 4; 3; 2; 1; 0].

Definition hex_words (h : words) : list ascii :=
  hex_word (wa h) ++ hex_word (wb h) ++ hex_word (wc h) ++ hex_word (wd h) ++
  hex_word (we h) ++ hex_word (wf h) ++ hex_word (wg h) ++ hex_word (wh h).

Definition digest_bytes (l : list ascii) : list ascii :=
  let padded := pad (byte_val <$> l) in
  let ws := to_words (length padded) padded in
  hex_words (blocks (length ws) ws initial_words).

(** [hashlib.sha256(s.encode("utf-8")).hexdigest()] *)
Definition sha256_hex (s : string) : string :=
  String.string_of_list_ascii (digest_bytes (String.list_ascii_of_string s)).

(** [hexdigest()[:n]] *)
Definition sha256_prefix (n : nat) (s : string) : string :=
  String.string_of_list_ascii (firstn n (digest_bytes (String.list_ascii_of_string s))).

Example sha256_empty :
  sha256_hex "" = "e3b0c44298fc1c149afbf4c8996fb92427ae41e4649b934ca495991b7852b855".
Proof. vm_compute. reflexivity. Qed.

Example sha256_abc :
  sha256_hex "abc" = "ba7816bf8f01cfea414140de5dae2223b00361a396177a9cb410ff61f20015ad".
Proof. vm_compute. reflexivity. Qed.

Lemma hex_digit_hex n : is_hex (hex_digit n) = true.
Proof.
  unfold hex_digit.
  destruct (nth_in_or_default (Z.to_nat (Z.land n 15))
    (String.list_ascii_of_string "0123456789abcdef") "0"%char) as [Hin| ->]; [|reflexivity].
  revert Hin. generalize (nth (Z.to_nat (Z.land n 15))
    (String.list_ascii_of_string "0123456789abcdef") "0"%char). intros c Hin.
  cbn in Hin. repeat (destruct Hin as [<-|Hin]; [reflexivity|]). destruct Hin.
Qed.

Lemma hex_word_shape w : length (hex_word w) = 8%nat /\ Forall (fun c => is_hex c = true) (hex_word w).
Proof.
  split; [reflexivity|]. unfold hex_word.
  repeat (constructor; [apply hex_digit_hex|]). constructor.
Qed.

Lemma hex_words_shape h : length (hex_words h) = 64%nat /\ Forall (fun c => is_hex c = true) (hex_words h).
Proof.
  unfold hex_words. split; [reflexivity|].
  repeat (apply Forall_app; split; [apply hex_word_shape|]). apply hex_word_shape.
Qed.

Lemma digest_bytes_shape l :
  length (digest_bytes l) = 64%nat /\ Forall (fun c => is_hex c = true) (digest_bytes l).
Proof. apply hex_words_shape. Qed.

(** A literal followed by [n] characters of a digest matches [literal[0-9a-f]{n}]. *)
Lemma sha256_prefix_matches literal n s :
  (n <= 64)%nat ->
  matches [Lit literal; Cls is_hex n n] (literal +:+ sha256_prefix n s) = true.
Proof.
  intros Hn. apply match_bytes_spec.
  assert (Happ : forall a b, String.list_ascii_of_string (a +:+ b)
    = String.list_ascii_of_string a ++ String.list_ascii_of_string b).
  { intros a b. induction a as [|c a IH]; simpl; [done|]. by rewrite <- IH. }
  rewrite Happ. constructor. unfold sha256_prefix.
  rewrite String.list_ascii_of_string_of_list_ascii.
  rewrite <- (app_nil_r (firstn _ _)).
  destruct (digest_bytes_shape (String.list_ascii_of_string s)) as [Hl Hh].
  constructor; [|by apply Forall_take|constructor].
  rewrite length_firstn, Hl. lia.
Qed.

#[export] Hint Resolve sha256_prefix_matches : rev.
