(* ===== verification/Commands.v ===== *)
(** * The controlled-command port ([src/src/revanent/ports/commands.py])

    The contracts a command runner exchanges with its callers: requests,
    captured output, artifact references and results, each with the checks of
    its [__post_init__].  Types are checked by Rocq's types, so the
    [isinstance] clauses have no counterpart.  Timeouts are whole seconds (the
    callers modelled pass integers); a measured duration is a rational, which
    is finite by construction. *)

From Stdlib Require Import ZArith Lia Ascii String QArith_base.
From S2P Require Import Prelude Text Domain.
From stdpp Require Import base option strings numbers gmap sets list list_relations.

Open Scope Z_scope.

Definition COMMAND_SCHEMA_VERSION : Z := 1.
Definition MAX_ARGUMENTS : Z := 1024.
Definition MAX_ARGUMENT_BYTES : Z := 64 * 1024.
Definition MAX_ENVIRONMENT_ENTRIES : Z := 128.
Definition MAX_ENVIRONMENT_VALUE_BYTES : Z := 32 * 1024.
Definition MAX_STDIN_BYTES : Z := 1 * 1024 * 1024.
Definition MAX_STREAM_CAPTURE_BYTES : Z := 16 * 1024 * 1024.
Definition MAX_STREAM_ARTIFACT_BYTES : Z := 64 * 1024 * 1024.
Definition MAX_TIMEOUT_SECONDS : Z := 86400.

(** [^[A-Za-z0-9][A-Za-z0-9_.-]{0,127}$] *)
Definition correlation_pattern : list pat :=
  [Cls is_alnum 1 1; Cls (in_class "_.-" is_alnum) 0 127].

Module CommandStatus.
Inductive t : Type :=
| SUCCESS | NONZERO_EXIT | TIMEOUT | CANCELLED | LAUNCH_FAILED | POLICY_REJECTED
| OUTPUT_ARTIFACT_FAILED | INTERNAL_ERROR.
End CommandStatus.

#[export] Instance CommandStatus_eq_dec : EqDecision CommandStatus.t.
Proof. solve_decision. Defined.

Module CommandFailureCategory.
Inductive t : Type :=
| POLICY | EXECUTABLE_UNAVAILABLE | WORKING_DIRECTORY | ENVIRONMENT | LAUNCH | TIMEOUT
| CANCELLATION | OUTPUT_ARTIFACT | INTERNAL.
End CommandFailureCategory.

#[export] Instance CommandFailureCategory_eq_dec : EqDecision CommandFailureCategory.t.
Proof. solve_decision. Defined.

Module ArtifactStatus.
Inductive t : Type := COMPLETE | TRUNCATED.
End ArtifactStatus.

#[export] Instance ArtifactStatus_eq_dec : EqDecision ArtifactStatus.t.
Proof. solve_decision. Defined.

Module OutputStream.
Inductive t : Type := STDOUT | STDERR.
Definition value (s : t) : string := match s with STDOUT => "stdout" | STDERR => "stderr" end.
End OutputStream.

#[export] Instance OutputStream_eq_dec : EqDecision OutputStream.t.
Proof. solve_decision. Defined.

Record OutputLimits := mk_OutputLimits {
  stdout_bytes : Z;
  stderr_bytes : Z;
  artifact_bytes_per_stream : Z
}.

Definition validate_OutputLimits (l : OutputLimits) : res OutputLimits :=
  raise_if (negb (in_range 1 MAX_STREAM_CAPTURE_BYTES (stdout_bytes l)))
    (ValueError "stdout_bytes must be between 1 and 16777216") ;;
  raise_if (negb (in_range 1 MAX_STREAM_CAPTURE_BYTES (stderr_bytes l)))
    (ValueError "stderr_bytes must be between 1 and 16777216") ;;
  raise_if (negb (in_range 1 MAX_STREAM_ARTIFACT_BYTES (artifact_bytes_per_stream l)))
    (ValueError "artifact_bytes_per_stream must be between 1 and 67108864") ;;
  mret l.

Record EnvironmentVariable := mk_EnvironmentVariable { env_key : string; env_value : string }.

#[export] Instance EnvironmentVariable_eq_dec : EqDecision EnvironmentVariable.
Proof. solve_decision. Defined.

Definition validate_EnvironmentVariable (v : EnvironmentVariable) : res EnvironmentVariable :=
  raise_if (bool_decide (env_key v = "") || str_contains "=" (env_key v)
            || str_contains nul (env_key v) || str_contains nul (env_value v))
    (ValueError "environment keys and values must use valid process syntax") ;;
  raise_if (MAX_ENVIRONMENT_VALUE_BYTES <? byte_len (env_value v))
    (ValueError "environment values are limited to 32768 bytes") ;;
  mret v.

(** [EnvironmentOverrides] is its tuple of variables. *)
Definition EnvironmentOverrides (variables : list EnvironmentVariable)
    : res (list EnvironmentVariable) :=
  raise_if (MAX_ENVIRONMENT_ENTRIES <? Z.of_nat (length variables))
    (ValueError "environment is limited to 128 entries") ;;
  raise_if (has_duplicates (env_key <$> variables))
    (ValueError "environment override keys must be unique") ;;
  mret variables.

(** [to_mapping] *)
Definition to_mapping (variables : list EnvironmentVariable) : gmap string string :=
  list_to_map ((fun v => (env_key v, env_value v)) <$> reverse variables).

Record CommandRequest := mk_CommandRequest {
  req_executable : string;
  req_arguments : list string;
  req_working_directory : Path;
  req_correlation_id : string;
  req_environment : list EnvironmentVariable;
  req_timeout_seconds : Z;
  req_stdin : option string;
  req_output_limits : OutputLimits;
  req_cancellable : bool;                (* a cancellation token was passed *)
  req_expected_exit_codes : list Z;
  req_artifact_directory : option Path;
  req_schema_version : Z
}.

Definition validate_CommandRequest (r : CommandRequest) : res CommandRequest :=
  raise_if (negb (req_schema_version r =? COMMAND_SCHEMA_VERSION))
    (ValueError "unsupported command request schema version") ;;
  raise_if (bool_decide (req_executable r = "") || is_blank (req_executable r)
            || str_contains nul (req_executable r))
    (ValueError "executable must be a non-empty name without null bytes") ;;
  raise_if (MAX_ARGUMENTS <? Z.of_nat (length (req_arguments r)))
    (ValueError "arguments are limited to 1024 values") ;;
  raise_if (existsb (str_contains nul) (req_arguments r))
    (ValueError "arguments must be strings without null bytes") ;;
  raise_if (MAX_ARGUMENT_BYTES <? py_sum (byte_len <$> req_arguments r))
    (ValueError "argument data is limited to 65536 bytes") ;;
  raise_if (negb (matches correlation_pattern (req_correlation_id r)))
    (ValueError "correlation_id must contain only safe identifier characters") ;;
  raise_if (negb ((0 <? req_timeout_seconds r) && (req_timeout_seconds r <=? MAX_TIMEOUT_SECONDS)))
    (ValueError "timeout_seconds must be positive and at most 86400.0") ;;
  raise_if (match req_stdin r with Some b => MAX_STDIN_BYTES <? byte_len b | None => false end)
    (ValueError "stdin is limited to 1048576 bytes") ;;
  raise_if (bool_decide (req_expected_exit_codes r = [])
            || has_duplicates (req_expected_exit_codes r))
    (ValueError "expected_exit_codes must be non-empty and unique") ;;
  raise_if (negb (forallb (in_range 0 (2 ^ 32 - 1)) (req_expected_exit_codes r)))
    (ValueError "expected exit codes must be unsigned 32-bit integers") ;;
  mret r.

Record CommandFailure := mk_CommandFailure {
  cf_category : CommandFailureCategory.t;
  cf_message : string
}.

#[export] Instance CommandFailure_eq_dec : EqDecision CommandFailure.
Proof. solve_decision. Defined.

Definition validate_CommandFailure (f : CommandFailure) : res CommandFailure :=
  raise_if (bool_decide (cf_message f = "") || str_contains nul (cf_message f))
    (ValueError "command failure messages must be non-empty and contain no null bytes") ;;
  mret f.

Record ArtifactReference := mk_ArtifactReference {
  art_path : Path;
  art_stream : OutputStream.t;
  art_status : ArtifactStatus.t;
  art_observed_bytes : Z;
  art_source_bytes_retained : Z;
  art_redacted_bytes_observed : Z;
  art_stored_bytes : Z
}.

#[export] Instance ArtifactReference_eq_dec : EqDecision ArtifactReference.
Proof. solve_decision. Defined.

Definition validate_ArtifactReference (a : ArtifactReference) : res ArtifactReference :=
  raise_if (negb (path_absolute (art_path a)))
    (ValueError "artifact reference paths must be absolute") ;;
  raise_if (min_list (art_observed_bytes a)
              [art_source_bytes_retained a; art_redacted_bytes_observed a; art_stored_bytes a] <? 0)
    (ValueError "artifact byte counters cannot be negative") ;;
  raise_if (art_observed_bytes a <? art_source_bytes_retained a)
    (ValueError "artifact source bytes cannot exceed observed bytes") ;;
  raise_if (art_redacted_bytes_observed a <? art_stored_bytes a)
    (ValueError "stored artifact bytes cannot exceed redacted bytes observed") ;;
  let is_complete := (art_source_bytes_retained a =? art_observed_bytes a)
                     && (art_stored_bytes a =? art_redacted_bytes_observed a) in
  raise_if (bool_decide (art_status a = ArtifactStatus.COMPLETE) && negb is_complete)
    (ValueError "complete artifacts must retain every observed source byte") ;;
  raise_if (bool_decide (art_status a = ArtifactStatus.TRUNCATED) && is_complete)
    (ValueError "truncated artifacts must omit source or representation bytes") ;;
  mret a.

Record CapturedOutput := mk_CapturedOutput {
  out_text : string;
  out_observed_bytes : Z;
  out_retained_bytes : Z;
  out_truncated : bool;
  out_redaction_truncated : bool;
  out_artifact : option ArtifactReference
}.

#[export] Instance CapturedOutput_eq_dec : EqDecision CapturedOutput.
Proof. solve_decision. Defined.

Definition validate_CapturedOutput (o : CapturedOutput) : res CapturedOutput :=
  raise_if ((out_observed_bytes o <? 0) || (out_retained_bytes o <? 0))
    (ValueError "captured output byte counters cannot be negative") ;;
  raise_if (out_observed_bytes o <? out_retained_bytes o)
    (ValueError "retained output bytes cannot exceed observed bytes") ;;
  raise_if (negb (bool_decide (out_truncated o = (out_retained_bytes o <? out_observed_bytes o))))
    (ValueError "captured output truncation must match its byte counters") ;;
  raise_if (is_some (out_artifact o) && negb (out_truncated o || out_redaction_truncated o))
    (ValueError "an overflow artifact requires truncated source or representation") ;;
  mret o.

Record CommandResult := mk_CommandResult {
  cr_correlation_id : string;
  cr_executable : string;
  cr_resolved_executable : option Path;
  cr_status : CommandStatus.t;
  cr_started_at : datetime;
  cr_completed_at : datetime;
  cr_duration_seconds : Q;
  cr_stdout : CapturedOutput;
  cr_stderr : CapturedOutput;
  cr_exit_code : option Z;
  cr_failure : option CommandFailure;
  cr_schema_version : Z
}.

(** [status in process_statuses] *)
Definition is_process_status (s : CommandStatus.t) : bool :=
  match s with
  | CommandStatus.SUCCESS | CommandStatus.NONZERO_EXIT | CommandStatus.TIMEOUT
  | CommandStatus.CANCELLED | CommandStatus.OUTPUT_ARTIFACT_FAILED => true
  | _ => false
  end.

Definition validate_CommandResult (r : CommandResult) : res CommandResult :=
  raise_if (negb (cr_schema_version r =? COMMAND_SCHEMA_VERSION))
    (ValueError "unsupported command result schema version") ;;
  raise_if (negb (is_utc (cr_started_at r) && is_utc (cr_completed_at r)))
    (ValueError "command result timestamps must be timezone-aware UTC") ;;
  raise_if (dt_lt (cr_completed_at r) (cr_started_at r))
    (ValueError "command completion cannot precede its start") ;;
  raise_if (negb (Qle_bool 0 (cr_duration_seconds r)))
    (ValueError "command duration must be finite and non-negative") ;;
  (if match cr_status r with CommandStatus.SUCCESS | CommandStatus.NONZERO_EXIT => true | _ => false end
   then raise_if (is_none (cr_exit_code r) || is_some (cr_failure r))
          (ValueError "completed process results require an exit code and no failure")
   else raise_if (is_none (cr_failure r))
          (ValueError "failed command results require a structured failure")) ;;
  raise_if (negb (is_process_status (cr_status r)) && is_some (cr_exit_code r))
    (ValueError "prelaunch failures cannot carry an exit code") ;;
  mret r.

Definition succeeded (r : CommandResult) : bool :=
  bool_decide (cr_status r = CommandStatus.SUCCESS).
