(* ===== verification/Agents.v ===== *)
(** * The agent port ([src/src/revanent/ports/agents.py])

    Requests, responses, role payloads and capabilities exchanged with agent
    adapters, as records with validating constructors: canonical repository
    paths, sorted and unique collections, exactly one access mode, a read-only
    reviewer, and the agreement between a response's status, payload, parse
    status and failure category. *)

From Stdlib Require Import ZArith Lia Ascii String.
From S2P Require Import Prelude Text Domain Sha256.
From stdpp Require Import base option strings numbers sets list list_relations.

Open Scope Z_scope.

Definition MAX_AGENT_OUTPUT_BYTES : Z := 1 * 1024 * 1024.
Definition MAX_AGENT_TEXT_BYTES : Z := 64 * 1024.
Definition MAX_AGENT_COLLECTION_ITEMS : Z := 256.
Definition MAX_AGENT_ARTIFACT_BYTES : Z := 64 * 1024 * 1024.
Definition MAX_AGENT_TIMEOUT_SECONDS : Z := 86400.
Definition MAX_AGENT_SCOPE_ITEMS : Z := 256.
Definition MAX_AGENT_CONTEXT_ITEMS : Z := 64.
Definition MAX_AGENT_ENVIRONMENT_NAMES : Z := 64.

Definition _SAFE_ID : list pat :=
  [Cls is_lower 1 1; Cls (in_class "_.-" (fun c => is_lower c || is_digit c)) 0 63].
Definition _ENVIRONMENT_NAME : list pat :=
  [Cls (in_class "_" (fun c => is_upper c || is_lower c)) 1 1; Cls (in_class "_" is_alnum) 0 127].
Definition media_head : ascii -> bool := fun c => is_lower c || is_digit c.
Definition _CONTENT_TYPE : list pat :=
  [Cls media_head 1 1; Cls (in_class ".+-" media_head) 0 63; Lit "/";
   Cls media_head 1 1; Cls (in_class ".+-" media_head) 0 63].
Definition _SHA256 : list pat := [Cls is_hex 64 64].

(** [^[A-Za-z0-9][A-Za-z0-9_.:-]{0,127}$] *)
Definition reference_pattern : list pat :=
  [Cls is_alnum 1 1; Cls (in_class "_.:-" is_alnum) 0 127].

(** [_SafeIdentifier] and its subclasses [ProviderId], [AdapterId], [ScenarioId]. *)
Definition _SafeIdentifier (s : string) : res string :=
  raise_if (negb (matches _SAFE_ID s))
    (ValueError "identifier must use a lowercase safe spelling") ;;
  mret s.

(** *** Repository-relative paths *)

(** [value[1:2] == ":"], what gives a [PureWindowsPath] without backslashes a drive. *)
Definition has_drive (value : string) : bool :=
  let after_first :=
    match String.list_ascii_of_string value with
    | [] => []
    | _ :: l => (fix skip (l : list ascii) := match l with
                   | c :: l' => if is_continuation c then skip l' else l
                   | [] => [] end) l
    end in
  match after_first with c :: _ => Ascii.eqb c ":" | [] => false end.

Definition starts_with_slash (value : string) : bool :=
  match value with String c _ => Ascii.eqb c "/" | EmptyString => false end.

Definition _validate_relative_spelling (value : string) (allow_patterns : bool) : res unit :=
  raise_if (bool_decide (value = "") || (512 <? byte_len value) || str_contains nul value)
    (ValueError "repository-relative paths must contain 1 to 512 UTF-8 bytes") ;;
  raise_if (str_contains "\" value)
    (ValueError "repository-relative paths must use forward slashes") ;;
  raise_if (has_drive value || starts_with_slash value)
    (ValueError "repository paths must be relative") ;;
  raise_if (existsb (fun part => bool_decide (part ∈ [""; "."; ".."])) (split_slash value))
    (ValueError "repository paths must be normalized and cannot traverse") ;;
  raise_if (negb allow_patterns && existsb (fun c => str_contains c value) ["*"; "?"; "["; "]"]%char)
    (ValueError "evidence paths cannot contain glob syntax").

Definition RepositoryPath (s : string) : res string :=
  _validate_relative_spelling s false ;; mret s.
Definition ScopePath (s : string) : res string :=
  _validate_relative_spelling s true ;; mret s.

Definition _require_utf8_bytes (maximum : Z) (label value : string) : res string :=
  raise_if (bool_decide (value = "") || (maximum <? byte_len value) || str_contains nul value)
    (ValueError (label +:+ " must contain a bounded number of UTF-8 bytes and no nulls")) ;;
  mret value.

Definition _require_sorted_unique {K} `{EqDecision K} (le : K -> K -> bool) (label : string)
    (keys : list K) : res unit :=
  raise_if (negb (bool_decide (keys = py_sorted le keys)))
    (ValueError (label +:+ " must be in canonical sorted order")) ;;
  raise_if (has_duplicates keys) (ValueError (label +:+ " must be unique")).

Definition limit {A} (maximum : Z) (xs : list A) (message : string) : res unit :=
  raise_if (maximum <? Z.of_nat (length xs)) (ValueError message).

(** ** Enumerations *)

Module AgentRole.
Inductive t : Type := BUILDER | REVIEWER | REPAIRER.
#[export] Instance eq_dec : EqDecision t.
Proof. solve_decision. Defined.
Definition value (r : t) : string :=
  match r with BUILDER => "BUILDER" | REVIEWER => "REVIEWER" | REPAIRER => "REPAIRER" end.
End AgentRole.

Module AgentAvailability.
Inductive t : Type := AVAILABLE | DEGRADED | UNAVAILABLE.
#[export] Instance eq_dec : EqDecision t.
Proof. solve_decision. Defined.
End AgentAvailability.

Module AgentStatus.
Inductive t : Type :=
| COMPLETED | FAILED | BLOCKED | TIMED_OUT | CANCELLED | INVALID_OUTPUT | UNAVAILABLE.
#[export] Instance eq_dec : EqDecision t.
Proof. solve_decision. Defined.
End AgentStatus.

Module StructuredParseStatus.
Inductive t : Type := PARSED | FAILED | NOT_PROVIDED.
#[export] Instance eq_dec : EqDecision t.
Proof. solve_decision. Defined.
End StructuredParseStatus.

Module AgentFailureCategory.
Inductive t : Type :=
| UNSUPPORTED_CAPABILITY | ADAPTER_UNAVAILABLE | INVALID_REQUEST | INVOCATION_FAILURE
| PROVIDER_FAILURE | MALFORMED_OUTPUT | SCHEMA_MISMATCH | CORRELATION_MISMATCH | TIMEOUT
| CANCELLATION | EXTERNAL_BLOCKER | ARTIFACT_FAILURE | INTERNAL_ADAPTER_FAILURE.
#[export] Instance eq_dec : EqDecision t.
Proof. solve_decision. Defined.
End AgentFailureCategory.

Module RetryDisposition.
Inductive t : Type := RETRYABLE | NOT_RETRYABLE | UNKNOWN.
#[export] Instance eq_dec : EqDecision t.
Proof. solve_decision. Defined.
End RetryDisposition.

Module SideEffectState.
Inductive t : Type := NONE | POSSIBLE | CONFIRMED.
#[export] Instance eq_dec : EqDecision t.
Proof. solve_decision. Defined.
End SideEffectState.

Module AgentArtifactKind.
Inductive t : Type := PUBLIC_OUTPUT | RAW_OUTPUT | DIAGNOSTIC | CONTEXT | REVIEW | IMPLEMENTATION.
#[export] Instance eq_dec : EqDecision t.
Proof. solve_decision. Defined.
End AgentArtifactKind.

Module AgentArtifactStatus.
Inductive t : Type := COMPLETE | TRUNCATED.
#[export] Instance eq_dec : EqDecision t.
Proof. solve_decision. Defined.
End AgentArtifactStatus.

Module AgentDiagnosticSeverity.
Inductive t : Type := INFO | WARNING | ERROR.
#[export] Instance eq_dec : EqDecision t.
Proof. solve_decision. Defined.
End AgentDiagnosticSeverity.

Module WorkspaceKind.
Inductive t : Type := WORKSPACE | WORKTREE.
#[export] Instance eq_dec : EqDecision t.
Proof. solve_decision. Defined.
End WorkspaceKind.

Module AgentContextAuthority.
Inductive t : Type :=
| REVANENT_SYSTEM_POLICY | REPOSITORY_GOVERNANCE | TASK_INSTRUCTION
| LOCAL_DETERMINISTIC_EVIDENCE | REPOSITORY_CONTENT | PROVIDER_CLAIM.
#[export] Instance eq_dec : EqDecision t.
Proof. solve_decision. Defined.
End AgentContextAuthority.

Module AgentContextTrust.
Inductive t : Type :=
| TRUSTED_CONTROL | TRUSTED_LOCAL_EVIDENCE | REPOSITORY_GOVERNANCE | UNTRUSTED_REPOSITORY
| UNTRUSTED_TEST | UNTRUSTED_PROVIDER | UNTRUSTED_DIAGNOSTIC.
#[export] Instance eq_dec : EqDecision t.
Proof. solve_decision. Defined.
End AgentContextTrust.

#[export] Existing Instances AgentRole.eq_dec AgentAvailability.eq_dec AgentStatus.eq_dec
  StructuredParseStatus.eq_dec AgentFailureCategory.eq_dec RetryDisposition.eq_dec
  SideEffectState.eq_dec AgentArtifactKind.eq_dec AgentArtifactStatus.eq_dec
  AgentDiagnosticSeverity.eq_dec WorkspaceKind.eq_dec AgentContextAuthority.eq_dec
  AgentContextTrust.eq_dec.

(** ** Capabilities *)

Record CapabilityMetadata := mk_CapabilityMetadata { cm_key : string; cm_value : string }.

#[export] Instance CapabilityMetadata_eq_dec : EqDecision CapabilityMetadata.
Proof. solve_decision. Defined.

Definition validate_CapabilityMetadata (m : CapabilityMetadata) : res CapabilityMetadata :=
  key ← pattern_field "key" _SAFE_ID (cm_key m) ;
  value ← text_field "value" 1 256 (cm_value m) ;
  mret (mk_CapabilityMetadata key value).

Record AgentCapabilities := mk_AgentCapabilities {
  cap_schema_version : Z;
  cap_provider_id : string;
  cap_adapter_id : string;
  cap_adapter_version : string;
  supported_roles : list AgentRole.t;
  supports_structured_output : bool;
  supports_read_only : bool;
  supports_repository_writes : bool;
  supports_cancellation : bool;
  supports_timeout : bool;
  supports_usage_reporting : bool;
  supports_artifact_references : bool;
  supports_repair : bool;
  availability : AgentAvailability.t;
  cap_reason : option string;
  detected_model : option string;
  cap_metadata : list CapabilityMetadata
}.

Definition _validate_capabilities (c : AgentCapabilities) : res AgentCapabilities :=
  raise_if (bool_decide (supported_roles c = []))
    (ValueError "at least one supported agent role is required") ;;
  _require_sorted_unique str_le "supported roles" (AgentRole.value <$> supported_roles c) ;;
  limit 64 (cap_metadata c) "capability metadata is limited to 64 entries" ;;
  _require_sorted_unique str_le "capability metadata" (cm_key <$> cap_metadata c) ;;
  raise_if (negb (bool_decide
      (supports_repair c = bool_decide (AgentRole.REPAIRER ∈ supported_roles c))))
    (ValueError "repair capability must agree with REPAIRER role support") ;;
  raise_if (negb (supports_read_only c || supports_repository_writes c))
    (ValueError "an adapter must support read-only or repository-write operation") ;;
  raise_if (bool_decide (availability c = AgentAvailability.AVAILABLE) && is_some (cap_reason c))
    (ValueError "available capabilities cannot carry an unavailable/degraded reason") ;;
  raise_if (negb (bool_decide (availability c = AgentAvailability.AVAILABLE)) && is_none (cap_reason c))
    (ValueError "unavailable or degraded capabilities require a reason") ;;
  mret c.

Definition validate_AgentCapabilities (c : AgentCapabilities) : res AgentCapabilities :=
  require (cap_schema_version c =? 1) "schema_version" ;;
  provider_id ← _SafeIdentifier (cap_provider_id c) ;
  adapter_id ← _SafeIdentifier (cap_adapter_id c) ;
  adapter_version ← text_field "adapter_version" 1 64 (cap_adapter_version c) ;
  reason ← validate_optional (text_field "reason" 1 512) (cap_reason c) ;
  model ← validate_optional (text_field "detected_model" 1 128) (detected_model c) ;
  metadata ← traverse validate_CapabilityMetadata (cap_metadata c) ;
  _validate_capabilities
    (mk_AgentCapabilities (cap_schema_version c) provider_id adapter_id adapter_version
       (supported_roles c) (supports_structured_output c) (supports_read_only c)
       (supports_repository_writes c) (supports_cancellation c) (supports_timeout c)
       (supports_usage_reporting c) (supports_artifact_references c) (supports_repair c)
       (availability c) reason model metadata).

Record ExpectedAgentCapabilities := mk_ExpectedAgentCapabilities {
  requires_structured_output : bool;
  requires_read_only : bool;
  requires_repository_writes : bool;
  requires_cancellation : bool;
  requires_timeout : bool;
  requires_usage_reporting : bool;
  requires_artifact_references : bool;
  requires_repair : bool
}.

#[export] Instance ExpectedAgentCapabilities_eq_dec : EqDecision ExpectedAgentCapabilities.
Proof. solve_decision. Defined.

Definition validate_ExpectedAgentCapabilities (e : ExpectedAgentCapabilities)
    : res ExpectedAgentCapabilities :=
  raise_if (bool_decide (requires_read_only e = requires_repository_writes e))
    (ValueError "a request must require exactly one access mode") ;;
  mret e.

(** ** Workspace, artifacts and context references *)

Record WorkspaceReference := mk_WorkspaceReference {
  ws_kind : WorkspaceKind.t;
  ws_reference_id : string;
  ws_root : Path
}.

#[export] Instance WorkspaceReference_eq_dec : EqDecision WorkspaceReference.
Proof. solve_decision. Defined.

Definition validate_WorkspaceReference (w : WorkspaceReference) : res WorkspaceReference :=
  reference_id ← pattern_field "reference_id" reference_pattern (ws_reference_id w) ;
  raise_if (negb (path_absolute (ws_root w)) || bool_decide (".." ∈ path_parts (ws_root w))
            || str_contains nul (path_str (ws_root w)))
    (ValueError "workspace root must be an absolute normalized path") ;;
  mret (mk_WorkspaceReference (ws_kind w) reference_id (ws_root w)).

Record AgentArtifactReference := mk_AgentArtifactReference {
  aar_schema_version : Z;
  aar_root_id : string;
  aar_relative_path : string;
  aar_kind : AgentArtifactKind.t;
  aar_content_type : string;
  aar_status : AgentArtifactStatus.t;
  aar_observed_bytes : Z;
  aar_stored_bytes : Z;
  aar_redacted : bool;
  aar_sha256 : option string
}.

#[export] Instance AgentArtifactReference_eq_dec : EqDecision AgentArtifactReference.
Proof. solve_decision. Defined.

Definition _validate_artifact (a : AgentArtifactReference) : res AgentArtifactReference :=
  raise_if (negb (matches _CONTENT_TYPE (aar_content_type a)))
    (ValueError "artifact content type must be a canonical media type") ;;
  raise_if (aar_observed_bytes a <? aar_stored_bytes a)
    (ValueError "stored artifact bytes cannot exceed observed bytes") ;;
  raise_if (bool_decide (aar_status a = AgentArtifactStatus.COMPLETE)
            && negb (aar_stored_bytes a =? aar_observed_bytes a))
    (ValueError "complete artifacts must retain every observed byte") ;;
  raise_if (bool_decide (aar_status a = AgentArtifactStatus.TRUNCATED)
            && (aar_observed_bytes a <=? aar_stored_bytes a))
    (ValueError "truncated artifacts must omit observed bytes") ;;
  raise_if (match aar_sha256 a with Some h => negb (matches _SHA256 h) | None => false end)
    (ValueError "artifact integrity must be lowercase SHA-256") ;;
  raise_if (bool_decide (aar_kind a = AgentArtifactKind.RAW_OUTPUT) && negb (aar_redacted a))
    (ValueError "raw provider output references must be redacted") ;;
  mret a.

Definition validate_AgentArtifactReference (a : AgentArtifactReference)
    : res AgentArtifactReference :=
  require (aar_schema_version a =? 1) "schema_version" ;;
  root_id ← pattern_field "root_id" reference_pattern (aar_root_id a) ;
  relative_path ← RepositoryPath (aar_relative_path a) ;
  content_type ← text_field "content_type" 3 128 (aar_content_type a) ;
  require (in_range 0 MAX_AGENT_ARTIFACT_BYTES (aar_observed_bytes a)) "observed_bytes" ;;
  require (in_range 0 MAX_AGENT_ARTIFACT_BYTES (aar_stored_bytes a)) "stored_bytes" ;;
  sha256 ← validate_optional (pattern_field "sha256" _SHA256) (aar_sha256 a) ;
  _validate_artifact
    (mk_AgentArtifactReference (aar_schema_version a) root_id relative_path (aar_kind a)
       content_type (aar_status a) (aar_observed_bytes a) (aar_stored_bytes a)
       (aar_redacted a) sha256).

Record ContextReference := mk_ContextReference {
  ctx_reference_id : string;
  ctx_purpose : string;
  ctx_artifact : option AgentArtifactReference;
  ctx_content : option string;
  ctx_authority : option AgentContextAuthority.t;
  ctx_trust : option AgentContextTrust.t;
  ctx_content_sha256 : option string;
  ctx_source_bytes : option Z;
  ctx_retained_bytes : option Z;
  ctx_complete : option bool;
  ctx_redacted : option bool
}.

#[export] Instance ContextReference_eq_dec : EqDecision ContextReference.
Proof. solve_decision. Defined.

(** [[value is None for value in inline_metadata]] *)
Definition inline_metadata_missing (c : ContextReference) : list bool :=
  [is_none (ctx_authority c); is_none (ctx_trust c); is_none (ctx_content_sha256 c);
   is_none (ctx_source_bytes c); is_none (ctx_retained_bytes c); is_none (ctx_complete c);
   is_none (ctx_redacted c)].

Definition _validate_context (c : ContextReference) : res ContextReference :=
  raise_if (bool_decide (is_none (ctx_artifact c) = is_none (ctx_content c)))
    (ValueError "context references require exactly one artifact or inline content") ;;
  match ctx_content c with
  | None =>
      raise_if (existsb negb (inline_metadata_missing c))
        (ValueError "artifact context cannot carry inline-content metadata") ;;
      mret c
  | Some content =>
      raise_if (existsb (fun b => b) (inline_metadata_missing c))
        (ValueError "inline context requires complete provenance and byte metadata") ;;
      match ctx_source_bytes c, ctx_retained_bytes c, ctx_complete c with
      | Some source, Some retained, Some complete =>
          raise_if (negb (byte_len content =? retained))
            (ValueError "inline context retained byte count is inconsistent") ;;
          raise_if (negb (bool_decide (Some (sha256_hex content) = ctx_content_sha256 c)))
            (ValueError "inline context digest is inconsistent") ;;
          raise_if (complete && negb (source =? retained))
            (ValueError "complete inline context must retain all authorized bytes") ;;
          raise_if (negb complete && (source <=? retained))
            (ValueError "truncated inline context must omit authorized bytes") ;;
          mret c
      | _, _, _ => Err AssertionError
      end
  end.

Definition optional_range (lo hi : Z) (o : option Z) : bool :=
  match o with None => true | Some n => in_range lo hi n end.

(** This model does not strip its strings. *)
Definition validate_ContextReference (c : ContextReference) : res ContextReference :=
  require (matches reference_pattern (ctx_reference_id c)) "reference_id" ;;
  require (in_range 1 256 (py_len (ctx_purpose c))) "purpose" ;;
  artifact ← validate_optional validate_AgentArtifactReference (ctx_artifact c) ;
  require (match ctx_content c with Some s => py_len s <=? 262144 | None => true end) "content" ;;
  require (match ctx_content_sha256 c with Some h => matches _SHA256 h | None => true end)
    "content_sha256" ;;
  require (optional_range 0 2097152 (ctx_source_bytes c)) "source_bytes" ;;
  require (optional_range 0 262144 (ctx_retained_bytes c)) "retained_bytes" ;;
  _validate_context
    (mk_ContextReference (ctx_reference_id c) (ctx_purpose c) artifact (ctx_content c)
       (ctx_authority c) (ctx_trust c) (ctx_content_sha256 c) (ctx_source_bytes c)
       (ctx_retained_bytes c) (ctx_complete c) (ctx_redacted c)).

Record PriorFindingReference := mk_PriorFindingReference {
  pf_reference_id : string;
  pf_artifact : AgentArtifactReference
}.

#[export] Instance PriorFindingReference_eq_dec : EqDecision PriorFindingReference.
Proof. solve_decision. Defined.

Definition validate_PriorFindingReference (p : PriorFindingReference) : res PriorFindingReference :=
  reference_id ← pattern_field "reference_id" reference_pattern (pf_reference_id p) ;
  artifact ← validate_AgentArtifactReference (pf_artifact p) ;
  mret (mk_PriorFindingReference reference_id artifact).

(** ** Requests *)

Record AgentResponseContract := mk_AgentResponseContract {
  arc_schema_version : Z;
  arc_requires_structured_payload : bool;
  arc_max_public_text_bytes : Z;
  arc_max_artifacts : Z;
  arc_max_diagnostics : Z
}.

#[export] Instance AgentResponseContract_eq_dec : EqDecision AgentResponseContract.
Proof. solve_decision. Defined.

Definition validate_AgentResponseContract (c : AgentResponseContract) : res AgentResponseContract :=
  require (arc_schema_version c =? 1) "schema_version" ;;
  require (in_range 1 MAX_AGENT_TEXT_BYTES (arc_max_public_text_bytes c)) "max_public_text_bytes" ;;
  require (in_range 0 MAX_AGENT_CONTEXT_ITEMS (arc_max_artifacts c)) "max_artifacts" ;;
  require (in_range 0 MAX_AGENT_CONTEXT_ITEMS (arc_max_diagnostics c)) "max_diagnostics" ;;
  mret c.

Record AgentArtifactPolicy := mk_AgentArtifactPolicy {
  artifact_root_id : string;
  allow_artifact_references : bool;
  allow_raw_output_reference : bool;
  max_artifact_bytes : Z;
  aap_require_redaction : bool
}.

#[export] Instance AgentArtifactPolicy_eq_dec : EqDecision AgentArtifactPolicy.
Proof. solve_decision. Defined.

Definition validate_AgentArtifactPolicy (p : AgentArtifactPolicy) : res AgentArtifactPolicy :=
  root_id ← pattern_field "artifact_root_id" reference_pattern (artifact_root_id p) ;
  require (in_range 1 MAX_AGENT_ARTIFACT_BYTES (max_artifact_bytes p)) "max_artifact_bytes" ;;
  mret (mk_AgentArtifactPolicy root_id (allow_artifact_references p)
          (allow_raw_output_reference p) (max_artifact_bytes p) (aap_require_redaction p)).

Record AgentRouting := mk_AgentRouting {
  routing_provider_id : option string;
  routing_model : option string
}.

#[export] Instance AgentRouting_eq_dec : EqDecision AgentRouting.
Proof. solve_decision. Defined.

Definition validate_AgentRouting (r : AgentRouting) : res AgentRouting :=
  provider_id ← validate_optional _SafeIdentifier (routing_provider_id r) ;
  model ← validate_optional (text_field "model" 1 128) (routing_model r) ;
  mret (mk_AgentRouting provider_id model).

Record AgentRequest := mk_AgentRequest {
  ar_schema_version : Z;
  ar_invocation_id : string;
  ar_run_id : string;
  ar_work_package_id : string;
  ar_attempt_id : string;
  ar_attempt_number : Z;
  ar_role : AgentRole.t;
  ar_objective : string;
  allowed_scope : list string;
  forbidden_scope : list string;
  ar_workspace : WorkspaceReference;
  ar_context : list ContextReference;
  response_contract : AgentResponseContract;
  ar_timeout_seconds : Z;
  cancellation_reference : option string;
  artifact_policy : AgentArtifactPolicy;
  routing : AgentRouting;
  allowed_environment_names : list string;
  expected_capabilities : ExpectedAgentCapabilities;
  prior_findings : list PriorFindingReference
}.

#[export] Instance AgentRequest_eq_dec : EqDecision AgentRequest.
Proof. solve_decision. Defined.

(** The access-mode clauses of [AgentRequest._validate_request]. *)
Definition check_role_access (role : AgentRole.t) (e : ExpectedAgentCapabilities) : res unit :=
  match role with
  | AgentRole.REVIEWER =>
      raise_if (negb (requires_read_only e))
        (ValueError "reviewer requests must require read-only capability") ;;
      raise_if (requires_repository_writes e)
        (ValueError "reviewer requests cannot grant repository writes") ;;
      raise_if (requires_repair e)
        (ValueError "reviewer requests cannot require repair capability")
  | AgentRole.BUILDER =>
      raise_if (negb (requires_repository_writes e))
        (ValueError "builder requests must require repository-write capability") ;;
      raise_if (requires_repair e)
        (ValueError "builder requests cannot require repair capability")
  | AgentRole.REPAIRER =>
      raise_if (negb (requires_repository_writes e))
        (ValueError "repairer requests must require repository-write capability") ;;
      raise_if (negb (requires_repair e))
        (ValueError "repairer requests must require repair capability")
  end.

Definition _validate_request (r : AgentRequest) : res AgentRequest :=
  raise_if (bool_decide (allowed_scope r = [])
            || (MAX_AGENT_SCOPE_ITEMS <? Z.of_nat (length (allowed_scope r))))
    (ValueError "allowed scope must contain 1 to 256 entries") ;;
  limit MAX_AGENT_SCOPE_ITEMS (forbidden_scope r) "forbidden scope is limited to 256 entries" ;;
  _require_sorted_unique str_le "allowed scope" (allowed_scope r) ;;
  _require_sorted_unique str_le "forbidden scope" (forbidden_scope r) ;;
  raise_if (existsb (fun p => bool_decide (p ∈ forbidden_scope r)) (allowed_scope r))
    (ValueError "allowed and forbidden scope cannot overlap") ;;
  limit MAX_AGENT_CONTEXT_ITEMS (ar_context r) "context is limited to 64 references" ;;
  _require_sorted_unique str_le "context references" (ctx_reference_id <$> ar_context r) ;;
  raise_if (MAX_AGENT_OUTPUT_BYTES <?
            py_sum ((fun c => default 0 (ctx_retained_bytes c)) <$> ar_context r))
    (ValueError "inline context exceeds the aggregate agent request byte limit") ;;
  limit MAX_AGENT_ENVIRONMENT_NAMES (allowed_environment_names r)
    "environment-name allowlist is limited to 64 entries" ;;
  raise_if (existsb (fun n => negb (matches _ENVIRONMENT_NAME n)) (allowed_environment_names r))
    (ValueError "environment names must use portable process-variable spelling") ;;
  _require_sorted_unique str_le "environment names" (allowed_environment_names r) ;;
  _require_sorted_unique str_le "prior finding references" (pf_reference_id <$> prior_findings r) ;;
  limit MAX_AGENT_CONTEXT_ITEMS (prior_findings r) "prior findings are limited to 64 references" ;;
  raise_if (is_some (cancellation_reference r)
            && negb (requires_cancellation (expected_capabilities r)))
    (ValueError "a cancellation reference requires cancellation capability") ;;
  check_role_access (ar_role r) (expected_capabilities r) ;;
  raise_if (negb (bool_decide (ar_role r = AgentRole.REPAIRER))
            && negb (bool_decide (prior_findings r = [])))
    (ValueError "prior findings are permitted only on repairer requests") ;;
  mret r.

Definition validate_AgentRequest (r : AgentRequest) : res AgentRequest :=
  require (ar_schema_version r =? 1) "schema_version" ;;
  invocation_id ← AgentInvocationId (ar_invocation_id r) ;
  run_id ← RunId (ar_run_id r) ;
  work_package_id ← WorkPackageId (ar_work_package_id r) ;
  attempt_id ← AgentAttemptId (ar_attempt_id r) ;
  require (in_range 1 100 (ar_attempt_number r)) "attempt_number" ;;
  objective ← text_field "objective" 1 8192 (ar_objective r) ;
  objective' ← _require_utf8_bytes 8192 "objective" objective ;
  allowed ← traverse ScopePath (allowed_scope r) ;
  forbidden ← traverse ScopePath (forbidden_scope r) ;
  workspace ← validate_WorkspaceReference (ar_workspace r) ;
  context ← traverse validate_ContextReference (ar_context r) ;
  contract ← validate_AgentResponseContract (response_contract r) ;
  require (in_range 1 MAX_AGENT_TIMEOUT_SECONDS (ar_timeout_seconds r)) "timeout_seconds" ;;
  cancellation ← validate_optional (pattern_field "cancellation_reference" reference_pattern)
                   (cancellation_reference r) ;
  policy ← validate_AgentArtifactPolicy (artifact_policy r) ;
  route ← validate_AgentRouting (routing r) ;
  names ← traverse (pattern_field "allowed_environment_names" _ENVIRONMENT_NAME)
            (allowed_environment_names r) ;
  expected ← validate_ExpectedAgentCapabilities (expected_capabilities r) ;
  prior ← traverse validate_PriorFindingReference (prior_findings r) ;
  _validate_request
    (mk_AgentRequest (ar_schema_version r) invocation_id run_id work_package_id attempt_id
       (ar_attempt_number r) (ar_role r) objective' allowed forbidden workspace context contract
       (ar_timeout_seconds r) cancellation policy route names expected prior).

(** ** Responses *)

Record AgentProviderIdentity := mk_AgentProviderIdentity {
  id_provider_id : string;
  id_adapter_id : string;
  id_adapter_version : string;
  id_model : option string
}.

#[export] Instance AgentProviderIdentity_eq_dec : EqDecision AgentProviderIdentity.
Proof. solve_decision. Defined.

Definition validate_AgentProviderIdentity (i : AgentProviderIdentity) : res AgentProviderIdentity :=
  provider_id ← _SafeIdentifier (id_provider_id i) ;
  adapter_id ← _SafeIdentifier (id_adapter_id i) ;
  version ← text_field "adapter_version" 1 64 (id_adapter_version i) ;
  model ← validate_optional (text_field "model" 1 128) (id_model i) ;
  mret (mk_AgentProviderIdentity provider_id adapter_id version model).

Record AgentFailure := mk_AgentFailure {
  af_category : AgentFailureCategory.t;
  af_code : string;
  af_message : string;
  af_retry : RetryDisposition.t;
  af_side_effects : SideEffectState.t
}.

#[export] Instance AgentFailure_eq_dec : EqDecision AgentFailure.
Proof. solve_decision. Defined.

Definition _validate_retry_safety (f : AgentFailure) : res AgentFailure :=
  raise_if (bool_decide (af_retry f = RetryDisposition.RETRYABLE)
            && negb (bool_decide (af_side_effects f = SideEffectState.NONE)))
    (ValueError "retryable failures must prove that no side effect occurred") ;;
  raise_if (bool_decide (af_category f ∈ [AgentFailureCategory.UNSUPPORTED_CAPABILITY;
                                          AgentFailureCategory.ADAPTER_UNAVAILABLE;
                                          AgentFailureCategory.INVALID_REQUEST])
            && negb (bool_decide (af_side_effects f = SideEffectState.NONE)))
    (ValueError "pre-invocation failures cannot claim possible side effects") ;;
  mret f.

Definition validate_AgentFailure (f : AgentFailure) : res AgentFailure :=
  code ← pattern_field "code" _SAFE_ID (af_code f) ;
  message ← text_field "message" 1 1024 (af_message f) ;
  message' ← _require_utf8_bytes 1024 "failure message" message ;
  _validate_retry_safety
    (mk_AgentFailure (af_category f) code message' (af_retry f) (af_side_effects f)).

Record AgentDiagnostic := mk_AgentDiagnostic {
  ad_severity : AgentDiagnosticSeverity.t;
  ad_code : string;
  ad_message : string;
  ad_path : option string
}.

#[export] Instance AgentDiagnostic_eq_dec : EqDecision AgentDiagnostic.
Proof. solve_decision. Defined.

Definition validate_AgentDiagnostic (d : AgentDiagnostic) : res AgentDiagnostic :=
  code ← pattern_field "code" _SAFE_ID (ad_code d) ;
  message ← text_field "message" 1 2048 (ad_message d) ;
  path ← validate_optional RepositoryPath (ad_path d) ;
  mret (mk_AgentDiagnostic (ad_severity d) code message path).

Record ClaimedCommand := mk_ClaimedCommand { cc_capability : string; cc_outcome : string }.

#[export] Instance ClaimedCommand_eq_dec : EqDecision ClaimedCommand.
Proof. solve_decision. Defined.

Definition validate_ClaimedCommand (c : ClaimedCommand) : res ClaimedCommand :=
  capability ← pattern_field "capability" _SAFE_ID (cc_capability c) ;
  outcome ← text_field "outcome" 1 256 (cc_outcome c) ;
  mret (mk_ClaimedCommand capability outcome).

Record AgentUsage := mk_AgentUsage {
  input_tokens : option Z;
  output_tokens : option Z;
  total_tokens : option Z
}.

#[export] Instance AgentUsage_eq_dec : EqDecision AgentUsage.
Proof. solve_decision. Defined.

Definition _validate_totals (u : AgentUsage) : res AgentUsage :=
  raise_if (is_none (input_tokens u) && is_none (output_tokens u) && is_none (total_tokens u))
    (ValueError "usage must report at least one token value") ;;
  raise_if (match input_tokens u, output_tokens u, total_tokens u with
            | Some i, Some o, Some t => negb (i + o =? t)
            | _, _, _ => false
            end)
    (ValueError "reported total tokens must equal input plus output tokens") ;;
  mret u.

Definition MAX_TOKENS : Z := 1000000000000.

Definition validate_AgentUsage (u : AgentUsage) : res AgentUsage :=
  require (optional_range 0 MAX_TOKENS (input_tokens u)) "input_tokens" ;;
  require (optional_range 0 MAX_TOKENS (output_tokens u)) "output_tokens" ;;
  require (optional_range 0 MAX_TOKENS (total_tokens u)) "total_tokens" ;;
  _validate_totals u.

(** The role payloads; the constructor is the discriminator [role]. *)
Inductive AgentPayload : Type :=
| BuilderPayload (implementation_summary : string) (files_inspected files_claimed_changed : list string)
    (commands_claimed_run : list ClaimedCommand)
| ReviewerPayload (review : ReviewResult) (files_inspected : list string)
| RepairerPayload (repair_summary : string) (files_inspected files_claimed_changed : list string)
    (commands_claimed_run : list ClaimedCommand) (addressed_finding_references : list string).

#[export] Instance AgentPayload_eq_dec : EqDecision AgentPayload.
Proof. solve_decision. Defined.

Definition payload_role (p : AgentPayload) : AgentRole.t :=
  match p with
  | BuilderPayload _ _ _ _ => AgentRole.BUILDER
  | ReviewerPayload _ _ => AgentRole.REVIEWER
  | RepairerPayload _ _ _ _ _ => AgentRole.REPAIRER
  end.

Definition _validate_payload_claims (inspected changed : list string) : res unit :=
  raise_if ((MAX_AGENT_COLLECTION_ITEMS <? Z.of_nat (length inspected))
            || (MAX_AGENT_COLLECTION_ITEMS <? Z.of_nat (length changed)))
    (ValueError "file claims exceed the hard collection limit") ;;
  _require_sorted_unique str_le "files inspected" inspected ;;
  _require_sorted_unique str_le "files claimed changed" changed.

Definition validate_AgentPayload (p : AgentPayload) : res AgentPayload :=
  match p with
  | BuilderPayload summary inspected changed commands =>
      summary ← text_field "implementation_summary" 1 8192 summary ;
      inspected ← traverse RepositoryPath inspected ;
      changed ← traverse RepositoryPath changed ;
      commands ← traverse validate_ClaimedCommand commands ;
      _validate_payload_claims inspected changed ;;
      limit MAX_AGENT_COLLECTION_ITEMS commands "command claims exceed the hard collection limit" ;;
      mret (BuilderPayload summary inspected changed commands)
  | ReviewerPayload review inspected =>
      review ← validate_ReviewResult review ;
      inspected ← traverse RepositoryPath inspected ;
      limit MAX_AGENT_COLLECTION_ITEMS inspected "file claims exceed the hard collection limit" ;;
      _require_sorted_unique str_le "files inspected" inspected ;;
      mret (ReviewerPayload review inspected)
  | RepairerPayload summary inspected changed commands addressed =>
      summary ← text_field "repair_summary" 1 8192 summary ;
      inspected ← traverse RepositoryPath inspected ;
      changed ← traverse RepositoryPath changed ;
      commands ← traverse validate_ClaimedCommand commands ;
      addressed ← traverse (pattern_field "addressed_finding_references" reference_pattern) addressed ;
      _validate_payload_claims inspected changed ;;
      limit MAX_AGENT_COLLECTION_ITEMS commands "command claims exceed the hard collection limit" ;;
      limit MAX_AGENT_CONTEXT_ITEMS addressed "addressed findings exceed the hard collection limit" ;;
      _require_sorted_unique str_le "addressed finding references" addressed ;;
      mret (RepairerPayload summary inspected changed commands addressed)
  end.

Record AgentResponse := mk_AgentResponse {
  resp_schema_version : Z;
  resp_invocation_id : string;
  resp_run_id : string;
  resp_work_package_id : string;
  resp_attempt_id : string;
  resp_attempt_number : Z;
  resp_role : AgentRole.t;
  expected_response_schema_version : Z;
  resp_status : AgentStatus.t;
  resp_started_at : datetime;
  resp_completed_at : datetime;
  resp_duration_ms : Z;
  resp_summary : string;
  public_text : string;
  structured_parse_status : StructuredParseStatus.t;
  payload : option AgentPayload;
  diagnostics : list AgentDiagnostic;
  artifacts : list AgentArtifactReference;
  usage : option AgentUsage;
  identity : AgentProviderIdentity;
  resp_failure : option AgentFailure;
  raw_output_artifact : option AgentArtifactReference
}.

#[export] Instance AgentResponse_eq_dec : EqDecision AgentResponse.
Proof. solve_decision. Defined.

(** [expected_categories]; [None] for a status without an entry. *)
Definition expected_categories (s : AgentStatus.t) : option (list AgentFailureCategory.t) :=
  match s with
  | AgentStatus.BLOCKED => Some [AgentFailureCategory.EXTERNAL_BLOCKER]
  | AgentStatus.TIMED_OUT => Some [AgentFailureCategory.TIMEOUT]
  | AgentStatus.CANCELLED => Some [AgentFailureCategory.CANCELLATION]
  | AgentStatus.INVALID_OUTPUT =>
      Some [AgentFailureCategory.MALFORMED_OUTPUT; AgentFailureCategory.SCHEMA_MISMATCH;
            AgentFailureCategory.CORRELATION_MISMATCH]
  | AgentStatus.UNAVAILABLE => Some [AgentFailureCategory.ADAPTER_UNAVAILABLE]
  | AgentStatus.COMPLETED | AgentStatus.FAILED => None
  end.

Definition failed_categories : list AgentFailureCategory.t :=
  [AgentFailureCategory.UNSUPPORTED_CAPABILITY; AgentFailureCategory.INVALID_REQUEST;
   AgentFailureCategory.INVOCATION_FAILURE; AgentFailureCategory.PROVIDER_FAILURE;
   AgentFailureCategory.ARTIFACT_FAILURE; AgentFailureCategory.INTERNAL_ADAPTER_FAILURE].

Definition check_status_evidence (r : AgentResponse) : res unit :=
  if bool_decide (resp_status r = AgentStatus.COMPLETED) then
    raise_if (is_some (resp_failure r) || is_none (payload r))
      (ValueError "completed responses require payload and no failure") ;;
    raise_if (negb (bool_decide (structured_parse_status r = StructuredParseStatus.PARSED)))
      (ValueError "completed responses require successfully parsed structured output") ;;
    raise_if (negb (bool_decide (payload_role <$> payload r = Some (resp_role r))))
      (ValueError "payload role must match response role")
  else
    raise_if (is_none (resp_failure r) || is_some (payload r))
      (ValueError "non-completed responses require failure and no payload").

Definition check_failure_category (r : AgentResponse) : res unit :=
  raise_if (match resp_failure r, expected_categories (resp_status r) with
            | Some f, Some cs => negb (bool_decide (af_category f ∈ cs))
            | _, _ => false
            end)
    (ValueError "agent status and failure category do not agree") ;;
  raise_if (bool_decide (resp_status r = AgentStatus.FAILED)
            && match resp_failure r with
               | Some f => negb (bool_decide (af_category f ∈ failed_categories))
               | None => false
               end)
    (ValueError "FAILED status requires an invocation, provider, artifact, or adapter failure") ;;
  raise_if (bool_decide (resp_status r = AgentStatus.INVALID_OUTPUT)
            && negb (bool_decide (structured_parse_status r = StructuredParseStatus.FAILED)))
    (ValueError "invalid output must carry FAILED parse status").

Definition _validate_response (r : AgentResponse) : res AgentResponse :=
  raise_if (dt_lt (resp_completed_at r) (resp_started_at r))
    (ValueError "agent completion cannot precede its start") ;;
  raise_if (negb (instant (resp_completed_at r) - instant (resp_started_at r)
                  =? resp_duration_ms r * 1000))
    (ValueError "duration_ms must exactly match response timestamps") ;;
  _require_sorted_unique pair_le "diagnostics"
    ((fun d => (ad_code d, default "" (ad_path d))) <$> diagnostics r) ;;
  _require_sorted_unique pair_le "artifact references"
    ((fun a => (aar_root_id a, aar_relative_path a)) <$> artifacts r) ;;
  limit MAX_AGENT_CONTEXT_ITEMS (diagnostics r) "diagnostics exceed the hard collection limit" ;;
  limit MAX_AGENT_CONTEXT_ITEMS (artifacts r) "artifact references exceed the hard collection limit" ;;
  match raw_output_artifact r with
  | None => mret tt
  | Some a =>
      raise_if (negb (bool_decide (aar_kind a = AgentArtifactKind.RAW_OUTPUT)))
        (ValueError "raw output reference must use RAW_OUTPUT artifact kind") ;;
      raise_if (negb (aar_redacted a)) (ValueError "raw output references must be redacted")
  end ;;
  check_status_evidence r ;;
  check_failure_category r ;;
  mret r.

Definition public_text_field (s : string) : res string :=
  text ← text_field "public_text" 0 MAX_AGENT_TEXT_BYTES s ;
  raise_if (str_contains nul text || (MAX_AGENT_TEXT_BYTES <? byte_len text))
    (ValueError "public text is limited to 65536 UTF-8 bytes") ;;
  mret text.

Definition validate_AgentResponse (r : AgentResponse) : res AgentResponse :=
  require (resp_schema_version r =? 1) "schema_version" ;;
  invocation_id ← AgentInvocationId (resp_invocation_id r) ;
  run_id ← RunId (resp_run_id r) ;
  work_package_id ← WorkPackageId (resp_work_package_id r) ;
  attempt_id ← AgentAttemptId (resp_attempt_id r) ;
  require (in_range 1 100 (resp_attempt_number r)) "attempt_number" ;;
  require (expected_response_schema_version r =? 1) "expected_response_schema_version" ;;
  started_at ← _require_utc (resp_started_at r) ;
  completed_at ← _require_utc (resp_completed_at r) ;
  require (in_range 0 (MAX_AGENT_TIMEOUT_SECONDS * 1000) (resp_duration_ms r)) "duration_ms" ;;
  summary ← text_field "summary" 1 2048 (resp_summary r) ;
  summary' ← _require_utf8_bytes 2048 "response summary" summary ;
  text ← public_text_field (public_text r) ;
  payload' ← validate_optional validate_AgentPayload (payload r) ;
  diagnostics' ← traverse validate_AgentDiagnostic (diagnostics r) ;
  artifacts' ← traverse validate_AgentArtifactReference (artifacts r) ;
  usage' ← validate_optional validate_AgentUsage (usage r) ;
  identity' ← validate_AgentProviderIdentity (identity r) ;
  failure ← validate_optional validate_AgentFailure (resp_failure r) ;
  raw ← validate_optional validate_AgentArtifactReference (raw_output_artifact r) ;
  _validate_response
    (mk_AgentResponse (resp_schema_version r) invocation_id run_id work_package_id attempt_id
       (resp_attempt_number r) (resp_role r) (expected_response_schema_version r) (resp_status r)
       started_at completed_at (resp_duration_ms r) summary' text (structured_parse_status r)
       payload' diagnostics' artifacts' usage' identity' failure raw).

(** ** What constructed values satisfy *)

#[export] Instance SafeIdentifier_idem : Idem _SafeIdentifier.
Proof. unfold _SafeIdentifier. solve_idem. Qed.

#[export] Instance RepositoryPath_idem : Idem RepositoryPath.
Proof. unfold RepositoryPath. solve_idem. Qed.

#[export] Instance ScopePath_idem : Idem ScopePath.
Proof. unfold ScopePath. solve_idem. Qed.

Lemma require_utf8_bytes_Ok m l s t : _require_utf8_bytes m l s = Ok t -> t = s.
Proof. unfold _require_utf8_bytes. intros. by inv_valid. Qed.

(** The byte check keeps the text the length check produced. *)
Ltac inv_utf8 :=
  repeat match goal with
  | H : _require_utf8_bytes _ _ _ = Ok _ |- _ =>
      lazymatch type of H with
      | _ ?s = Ok ?s => fail
      | _ => pose proof (require_utf8_bytes_Ok _ _ _ _ H); subst
      end
  end.
Ltac solve_idem ::= intros ? ? ?; inv_valid; inv_utf8; simpl in *; idem; try done.

#[export] Instance validate_CapabilityMetadata_idem : Idem validate_CapabilityMetadata.
Proof. unfold validate_CapabilityMetadata. solve_idem. Qed.

#[export] Instance validate_AgentCapabilities_idem : Idem validate_AgentCapabilities.
Proof. unfold validate_AgentCapabilities, _validate_capabilities. solve_idem. Qed.

#[export] Instance validate_ExpectedAgentCapabilities_idem : Idem validate_ExpectedAgentCapabilities.
Proof. unfold validate_ExpectedAgentCapabilities. solve_idem. Qed.

#[export] Instance validate_WorkspaceReference_idem : Idem validate_WorkspaceReference.
Proof. unfold validate_WorkspaceReference. solve_idem. Qed.

#[export] Instance validate_AgentArtifactReference_idem : Idem validate_AgentArtifactReference.
Proof. unfold validate_AgentArtifactReference, _validate_artifact. solve_idem. Qed.

Lemma validate_context_id c d : _validate_context c = Ok d -> d = c.
Proof.
  unfold _validate_context. intros. inv_valid.
  repeat case_match; inv_valid; done.
Qed.

#[export] Instance validate_ContextReference_idem : Idem validate_ContextReference.
Proof.
  unfold validate_ContextReference. intros c d H. inv_valid.
  pose proof (validate_context_id _ _ H) as ->. simpl in *. idem. done.
Qed.

#[export] Instance validate_PriorFindingReference_idem : Idem validate_PriorFindingReference.
Proof. unfold validate_PriorFindingReference. solve_idem. Qed.

#[export] Instance validate_AgentResponseContract_idem : Idem validate_AgentResponseContract.
Proof. unfold validate_AgentResponseContract. solve_idem. Qed.

#[export] Instance validate_AgentArtifactPolicy_idem : Idem validate_AgentArtifactPolicy.
Proof. unfold validate_AgentArtifactPolicy. solve_idem. Qed.

#[export] Instance validate_AgentRouting_idem : Idem validate_AgentRouting.
Proof. unfold validate_AgentRouting. solve_idem. Qed.

Lemma validate_request_id r s : _validate_request r = Ok s -> s = r.
Proof. unfold _validate_request. intros. by inv_valid. Qed.

#[export] Instance validate_AgentRequest_idem : Idem validate_AgentRequest.
Proof.
  unfold validate_AgentRequest. intros r s H. inv_valid. inv_utf8.
  pose proof (validate_request_id _ _ H) as ->. simpl in *. idem. done.
Qed.

#[export] Instance validate_AgentProviderIdentity_idem : Idem validate_AgentProviderIdentity.
Proof. unfold validate_AgentProviderIdentity. solve_idem. Qed.

#[export] Instance validate_AgentFailure_idem : Idem validate_AgentFailure.
Proof. unfold validate_AgentFailure, _validate_retry_safety. solve_idem. Qed.

#[export] Instance validate_AgentDiagnostic_idem : Idem validate_AgentDiagnostic.
Proof. unfold validate_AgentDiagnostic. solve_idem. Qed.

#[export] Instance validate_ClaimedCommand_idem : Idem validate_ClaimedCommand.
Proof. unfold validate_ClaimedCommand. solve_idem. Qed.

#[export] Instance validate_AgentUsage_idem : Idem validate_AgentUsage.
Proof. unfold validate_AgentUsage, _validate_totals. solve_idem. Qed.

#[export] Instance validate_AgentPayload_idem : Idem validate_AgentPayload.
Proof. intros [] q; unfold validate_AgentPayload; intros; inv_valid; simpl in *; idem; done. Qed.

#[export] Instance public_text_field_idem : Idem public_text_field.
Proof. unfold public_text_field. solve_idem. Qed.

Lemma validate_response_id r s : _validate_response r = Ok s -> s = r.
Proof. unfold _validate_response. intros. by inv_valid. Qed.

#[export] Instance validate_AgentResponse_idem : Idem validate_AgentResponse.
Proof.
  unfold validate_AgentResponse. intros r s H. inv_valid. inv_utf8.
  pose proof (validate_response_id _ _ H) as ->. simpl in *. idem. done.
Qed.

Lemma sorted_unique_Ok {K} `{EqDecision K} (le : K -> K -> bool) label keys u :
  _require_sorted_unique le label keys = Ok u <-> keys = py_sorted le keys /\ NoDup keys.
Proof.
  unfold _require_sorted_unique. rewrite bind_raise_if_Ok, negb_false_iff, bool_decide_eq_true.
  rewrite raise_if_Ok, has_duplicates_false. done.
Qed.

Lemma limit_Ok {A} m (xs : list A) msg u : limit m xs msg = Ok u <-> Z.of_nat (length xs) <= m.
Proof. unfold limit. by rewrite raise_if_Ok, Z.ltb_ge. Qed.

(** A path of the repository names a place below any root. *)
Definition safe_parts (parts : list string) : Prop :=
  Forall (fun p => p <> "" /\ p <> "." /\ p <> "..") parts.

Lemma relative_spelling_Ok value allow u :
  _validate_relative_spelling value allow = Ok u ->
  value <> "" /\ byte_len value <= 512 /\ str_contains nul value = false /\
  safe_parts (split_slash value).
Proof.
  unfold _validate_relative_spelling. intros. inv_valid. bool_prop.
  repeat split; try done. unfold safe_parts.
  match goal with H : existsb _ (split_slash _) = false |- _ => apply existsb_false in H;
    eapply Forall_impl; [exact H|] end.
  intros p Hp. simpl in Hp. bool_prop. rewrite !not_elem_of_cons in Hp. naive_solver.
Qed.

(** A repository path or scope entry that validates stays below the root it
    is joined to: its parts are neither empty, [.] nor [..], it is bounded, and
    taking the joined path relative to the root gives the parts back. *)
Theorem repository_path_contained value root (H : RepositoryPath value = Ok value) :
  safe_parts (split_slash value) /\ byte_len value <= 512 /\
  relative_to (joinpath root (split_slash value)) root = Some (mk_Path false (split_slash value)) /\
  ScopePath value = Ok value.
Proof.
  unfold RepositoryPath in H. inv_valid.
  destruct (relative_spelling_Ok _ _ _ Hv) as (Hne & Hlen & Hnul & Hparts).
  split; [done|]. split; [done|]. split.
  - unfold relative_to, joinpath. simpl. rewrite bool_decide_eq_true_2 by done.
    assert (Hd : drop_parts (path_parts root) (path_parts root ++ split_slash value)
                 = Some (split_slash value)) by (by apply drop_parts_Some).
    by rewrite Hd.
  - unfold ScopePath, _validate_relative_spelling in *. inv_valid. idem. done.
Qed.

Lemma repository_path_contained_witness :
  relative_to (joinpath (mk_Path true ["srv"; "repo"]) (split_slash "src/a.py"))
    (mk_Path true ["srv"; "repo"]) = Some (mk_Path false ["src"; "a.py"]) /\
  is_ok (RepositoryPath "../secrets") = false /\ is_ok (RepositoryPath "C:/x") = false.
Proof.
  split; [|split; reflexivity].
  exact (proj1 (proj2 (proj2 (repository_path_contained "src/a.py" (mk_Path true ["srv"; "repo"])
           eq_refl)))).
Defined.

(** Who may write and who may repair. *)
Lemma role_access_Ok role e u :
  check_role_access role e = Ok u ->
  requires_read_only e <> requires_repository_writes e ->
  requires_read_only e = negb (requires_repository_writes e) /\
  (requires_read_only e = true <-> role = AgentRole.REVIEWER) /\
  (requires_repair e = true <-> role = AgentRole.REPAIRER).
Proof.
  destruct role; simpl; intros; inv_valid; bool_prop;
    destruct (requires_read_only e), (requires_repository_writes e), (requires_repair e);
    naive_solver.
Qed.

(** Authority in a constructed agent request: exactly one access mode is
    required; a reviewer is read-only, asks for no repair and carries no prior
    finding, a builder or repairer requires writes and only a repairer requires
    repair; the allowed and forbidden scopes are disjoint sets of contained
    paths, and the inlined context is at most one mebibyte. *)
Theorem request_authority r s (H : validate_AgentRequest r = Ok s) :
  requires_read_only (expected_capabilities s)
    = negb (requires_repository_writes (expected_capabilities s)) /\
  (requires_read_only (expected_capabilities s) = true <-> ar_role s = AgentRole.REVIEWER) /\
  (requires_repair (expected_capabilities s) = true <-> ar_role s = AgentRole.REPAIRER) /\
  (ar_role s <> AgentRole.REPAIRER -> prior_findings s = []) /\
  allowed_scope s <> [] /\ NoDup (allowed_scope s) /\
  (forall p, p ∈ allowed_scope s -> p ∉ forbidden_scope s) /\
  Forall (fun p => safe_parts (split_slash p)) (allowed_scope s ++ forbidden_scope s) /\
  py_sum ((fun c => default 0 (ctx_retained_bytes c)) <$> ar_context s) <= MAX_AGENT_OUTPUT_BYTES.
Proof.
  unfold validate_AgentRequest in H. inv_valid. inv_utf8.
  pose proof (validate_request_id _ _ H) as ->.
  unfold _validate_request in H. inv_valid. simpl in *.
  repeat match goal with
  | H : _require_sorted_unique _ _ _ = Ok _ |- _ => apply sorted_unique_Ok in H as [? ?]
  end.
  assert (Hscope : forall xs ys, traverse ScopePath xs = Ok ys ->
                   Forall (fun p => safe_parts (split_slash p)) ys).
  { intros xs ys Ht%traverse_Forall2. induction Ht as [|x y xs' ys' Hxy _ IH]; constructor; [|done].
    unfold ScopePath in Hxy. inv_valid. by eapply relative_spelling_Ok. }
  match goal with H : validate_ExpectedAgentCapabilities _ = Ok _ |- _ =>
    pose proof H as Hexp; unfold validate_ExpectedAgentCapabilities in H end.
  inv_valid. bool_prop.
  pose proof (role_access_Ok _ _ _ Hv25 ltac:(done)) as (? & ? & ?).
  split_and?; try assumption.
  - intros Hr. rewrite bool_decide_eq_false_2 in H8 by done. simpl in H8. by bool_prop.
  - intros p Hp. match goal with H : existsb _ _ = false |- _ =>
      apply existsb_false in H; rewrite Forall_forall in H; specialize (H p Hp) end. by bool_prop.
  - apply Forall_app. eauto.
Qed.

(** A retryable failure left no side effect. *)
Lemma failure_retry_safe o f :
  validate_optional validate_AgentFailure o = Ok (Some f) ->
  af_retry f = RetryDisposition.RETRYABLE -> af_side_effects f = SideEffectState.NONE.
Proof.
  destruct o as [g|]; simpl; intros H Hr; inv_valid; simplify_eq.
  unfold validate_AgentFailure, _validate_retry_safety in *. inv_valid. simpl in *.
  match goal with H : bool_decide (af_retry g = _) && _ = false |- _ =>
    rewrite bool_decide_eq_true_2 in H by done; simpl in H end.
  by bool_prop.
Qed.

Lemma check_status_Ok r u :
  check_status_evidence r = Ok u ->
  (resp_status r = AgentStatus.COMPLETED <-> is_some (payload r) = true) /\
  (resp_status r = AgentStatus.COMPLETED <-> resp_failure r = None) /\
  (resp_status r = AgentStatus.COMPLETED ->
     structured_parse_status r = StructuredParseStatus.PARSED /\
     payload_role <$> payload r = Some (resp_role r)).
Proof.
  unfold check_status_evidence. case_bool_decide; intros; inv_valid; bool_prop;
    destruct (payload r), (resp_failure r); simpl in *; intuition congruence.
Qed.

(** The evidence in a constructed agent response is coherent: it carries a
    payload exactly when it is [COMPLETED], and a failure exactly when it is
    not; a completed response was parsed and its payload has the role of the
    response; its duration is exactly the distance of its UTC timestamps; a
    failure marked retryable proves that nothing was written; a raw output
    reference is redacted. *)
Theorem response_evidence r s (H : validate_AgentResponse r = Ok s) :
  (resp_status s = AgentStatus.COMPLETED <-> is_some (payload s) = true) /\
  (resp_status s = AgentStatus.COMPLETED <-> resp_failure s = None) /\
  (resp_status s = AgentStatus.COMPLETED ->
     structured_parse_status s = StructuredParseStatus.PARSED /\
     payload_role <$> payload s = Some (resp_role s)) /\
  resp_completed_at s = add_ms (resp_started_at s) (resp_duration_ms s) /\
  (forall f, resp_failure s = Some f -> af_retry f = RetryDisposition.RETRYABLE ->
     af_side_effects f = SideEffectState.NONE) /\
  (forall a, raw_output_artifact s = Some a -> aar_redacted a = true).
Proof.
  unfold validate_AgentResponse in H. inv_valid. inv_utf8.
  pose proof (validate_response_id _ _ H) as ->.
  unfold _validate_response in H. inv_valid. simpl in *.
  match goal with H : check_status_evidence _ = Ok _ |- _ =>
    apply check_status_Ok in H as (? & ? & ?) end. simpl in *.
  split_and?; try assumption.
  - match goal with H : negb (_ =? _) = false |- _ => bool_prop end.
    repeat match goal with H : _require_utc _ = Ok _ |- _ => apply require_utc_Ok in H as [? ?] end.
    subst. unfold add_ms, is_utc in *. bool_prop.
    destruct (resp_started_at r), (resp_completed_at r); simpl in *. subst. f_equal. lia.
  - intros f ->. by eapply failure_retry_safe.
  - intros a ->. simpl in *. inv_valid. by bool_prop.
Qed.

Module AgentSample.
Definition hex32 : string := "0123456789abcdef0123456789abcdef".
Definition request : AgentRequest :=
  mk_AgentRequest 1 ("inv_" +:+ hex32) ("run_" +:+ hex32) "P4-002" ("attempt_" +:+ hex32) 1
    AgentRole.REVIEWER " Review the change " ["src/**"; "tests/**"] ["secrets"]
    (mk_WorkspaceReference WorkspaceKind.WORKTREE "wt_1" (mk_Path true ["srv"; "wt"]))
    [mk_ContextReference "ctx-1" "diff" None (Some "abc")
       (Some AgentContextAuthority.REPOSITORY_CONTENT)
       (Some AgentContextTrust.UNTRUSTED_REPOSITORY) (Some (sha256_hex "abc"))
       (Some 3) (Some 3) (Some true) (Some false)]
    (mk_AgentResponseContract 1 true 16384 32 64) 600 None
    (mk_AgentArtifactPolicy "artifacts" true false 8388608 true) (mk_AgentRouting None None) []
    (mk_ExpectedAgentCapabilities true true false false true false false false) [].

Definition response : AgentResponse :=
  mk_AgentResponse 1 ("inv_" +:+ hex32) ("run_" +:+ hex32) "P4-002" ("attempt_" +:+ hex32) 1
    AgentRole.REVIEWER 1 AgentStatus.COMPLETED (utc 1000000) (utc 1250000) 250 "Reviewed" "text"
    StructuredParseStatus.PARSED
    (Some (ReviewerPayload (mk_ReviewResult 1 ReviewVerdict.APPROVED "Fine" []) ["src/a.py"]))
    [] [] None (mk_AgentProviderIdentity "fake" "fake-reviewer" "1" None) None None.
End AgentSample.

Lemma request_authority_witness :
  exists s, validate_AgentRequest AgentSample.request = Ok s /\
            requires_read_only (expected_capabilities s) = true.
Proof.
  assert (H : is_ok (validate_AgentRequest AgentSample.request) = true) by (vm_compute; reflexivity).
  destruct (validate_AgentRequest AgentSample.request) as [s|e] eqn:Hs; [|discriminate H].
  exists s. split; [reflexivity|].
  apply (request_authority AgentSample.request s Hs).
  vm_compute in Hs. injection Hs as <-. reflexivity.
Defined.

Lemma response_evidence_witness :
  validate_AgentResponse AgentSample.response = Ok AgentSample.response /\
  resp_failure AgentSample.response = None.
Proof.
  assert (H : validate_AgentResponse AgentSample.response = Ok AgentSample.response)
    by (vm_compute; reflexivity).
  split; [exact H|].
  apply (response_evidence AgentSample.response AgentSample.response H). reflexivity.
Defined.
