(* ===== verification/GitPort.v ===== *)
(** * The Git port ([src/src/revanent/ports/git.py])

    Identities, working-tree status, worktree snapshots, creation requests,
    ownership records and operation results, with their validators.  The
    subclasses of [GitError] are told apart by their category, which [Domain.v]
    declares beside the exceptions. *)

From Stdlib Require Import ZArith Lia Ascii String.
From S2P Require Import Prelude Text Domain.
From stdpp Require Import base option strings numbers sets list list_relations.

Open Scope Z_scope.

Definition GIT_SCHEMA_VERSION : Z := 1.
Definition OWNERSHIP_SCHEMA_VERSION : Z := 1.

Definition _REPOSITORY_ID : list pat := [Lit "repo_"; Cls is_hex 64 64].
Definition _RUN_ID : list pat := [Lit "run_"; Cls is_hex 32 32].
Definition _WORKTREE_ID : list pat := [Lit "wt_"; Cls is_hex 32 32].

(** [_COMMIT_ID]: 40 or 64 hexadecimal digits. *)
Definition _COMMIT_ID (s : string) : bool :=
  matches [Cls is_hex 40 40] s || matches [Cls is_hex 64 64] s.

Definition CommitId (name s : string) : res string := require (_COMMIT_ID s) name ;; mret s.

Definition WorktreeId (s : string) : res string :=
  raise_if (negb (matches _WORKTREE_ID s)) (ValueError "invalid worktree identifier") ;; mret s.

Module GitOperationStatus.
Inductive t : Type := CREATED | VERIFIED | REMOVED | ALREADY_REMOVED.
#[export] Instance eq_dec : EqDecision t.
Proof. solve_decision. Defined.
End GitOperationStatus.

Module WorktreeLifecycleStatus.
Inductive t : Type := CREATING | ACTIVE | PARTIAL | REMOVED.
#[export] Instance eq_dec : EqDecision t.
Proof. solve_decision. Defined.
End WorktreeLifecycleStatus.

#[export] Existing Instances GitOperationStatus.eq_dec WorktreeLifecycleStatus.eq_dec.

(** A bounded string; these models do not strip. *)
Definition bounded (name : string) (lo hi : Z) (s : string) : res string :=
  require ((lo <=? py_len s) && (py_len s <=? hi)) name ;; mret s.

(** The path validators of this module, which differ in their message. *)
Definition absolute_path (message : string) (p : Path) : res Path :=
  raise_if (negb (path_absolute p) || (4096 <? py_len (path_str p))) (ValueError message) ;; mret p.

Definition optional_run_id (r : option string) : res (option string) :=
  validate_optional (fun s => require (matches _RUN_ID s) "run_id" ;; mret s) r.

Module ObjectFormat.
Inductive t : Type := sha1 | sha256.
#[export] Instance eq_dec : EqDecision t.
Proof. solve_decision. Defined.
End ObjectFormat.

#[export] Existing Instance ObjectFormat.eq_dec.

Record RepositoryIdentity := mk_RepositoryIdentity {
  repository_id : string;
  worktree_root : Path;
  git_directory : Path;
  common_git_directory : Path;
  object_format : ObjectFormat.t;
  root_commits : list string;
  ri_schema_version : Z
}.

#[export] Instance RepositoryIdentity_eq_dec : EqDecision RepositoryIdentity.
Proof. solve_decision. Defined.

Definition _roots_are_unique (value : list string) : res (list string) :=
  raise_if (bool_decide (value = []) || has_duplicates value)
    (ValueError "repository root commits must be non-empty and unique") ;;
  mret (sorted_strings value).

Definition validate_RepositoryIdentity (r : RepositoryIdentity) : res RepositoryIdentity :=
  require (matches _REPOSITORY_ID (repository_id r)) "repository_id" ;;
  root ← absolute_path "repository identity paths must be absolute" (worktree_root r) ;
  directory ← absolute_path "repository identity paths must be absolute" (git_directory r) ;
  common ← absolute_path "repository identity paths must be absolute" (common_git_directory r) ;
  commits ← traverse (CommitId "root_commits") (root_commits r) ;
  commits ← _roots_are_unique commits ;
  require (ri_schema_version r =? 1) "schema_version" ;;
  mret (mk_RepositoryIdentity (repository_id r) root directory common (object_format r) commits
          (ri_schema_version r)).

Record RepositoryStatus := mk_RepositoryStatus {
  staged_paths : list string;
  unstaged_paths : list string;
  untracked_paths : list string;
  conflicted_paths : list string;
  ignored_paths : list string;
  merge_in_progress : bool;
  rebase_in_progress : bool;
  cherry_pick_in_progress : bool;
  revert_in_progress : bool;
  bisect_in_progress : bool;
  sequencer_in_progress : bool;
  rst_schema_version : Z
}.

#[export] Instance RepositoryStatus_eq_dec : EqDecision RepositoryStatus.
Proof. solve_decision. Defined.

Definition _paths_are_canonical (value : list string) : res (list string) :=
  raise_if (existsb (fun item => bool_decide (item = "") || str_contains nul item) value)
    (ValueError "status paths must be non-empty and NUL-free") ;;
  raise_if (has_duplicates value) (ValueError "status paths must be unique") ;;
  mret (sorted_strings value).

Definition validate_RepositoryStatus (s : RepositoryStatus) : res RepositoryStatus :=
  staged ← _paths_are_canonical (staged_paths s) ;
  unstaged ← _paths_are_canonical (unstaged_paths s) ;
  untracked ← _paths_are_canonical (untracked_paths s) ;
  conflicted ← _paths_are_canonical (conflicted_paths s) ;
  ignored ← _paths_are_canonical (ignored_paths s) ;
  require (rst_schema_version s =? 1) "schema_version" ;;
  mret (mk_RepositoryStatus staged unstaged untracked conflicted ignored (merge_in_progress s)
          (rebase_in_progress s) (cherry_pick_in_progress s) (revert_in_progress s)
          (bisect_in_progress s) (sequencer_in_progress s) (rst_schema_version s)).

Definition has_changes (s : RepositoryStatus) : bool :=
  negb (bool_decide (staged_paths s = [])) || negb (bool_decide (unstaged_paths s = []))
  || negb (bool_decide (untracked_paths s = [])) || negb (bool_decide (conflicted_paths s = [])).

Definition operation_in_progress (s : RepositoryStatus) : bool :=
  existsb id [merge_in_progress s; rebase_in_progress s; cherry_pick_in_progress s;
              revert_in_progress s; bisect_in_progress s; sequencer_in_progress s].

Definition is_clean (s : RepositoryStatus) : bool :=
  negb (has_changes s) && negb (operation_in_progress s).

Record WorktreeSnapshot := mk_WorktreeSnapshot {
  wts_path : Path;
  wts_head_commit : string;
  wts_branch : option string;
  detached : bool;
  bare : bool;
  locked_reason : option string;
  prunable_reason : option string;
  wts_schema_version : Z
}.

#[export] Instance WorktreeSnapshot_eq_dec : EqDecision WorktreeSnapshot.
Proof. solve_decision. Defined.

Definition _branch_state_is_consistent (w : WorktreeSnapshot) : res WorktreeSnapshot :=
  raise_if (bool_decide (detached w = is_some (wts_branch w)))
    (ValueError "worktree must be either detached or attached to one branch") ;;
  mret w.

Definition validate_WorktreeSnapshot (w : WorktreeSnapshot) : res WorktreeSnapshot :=
  path ← absolute_path "worktree paths must be absolute" (wts_path w) ;
  head ← CommitId "head_commit" (wts_head_commit w) ;
  branch ← validate_optional (bounded "branch" 1 1024) (wts_branch w) ;
  locked ← validate_optional (bounded "locked_reason" 0 2048) (locked_reason w) ;
  prunable ← validate_optional (bounded "prunable_reason" 0 2048) (prunable_reason w) ;
  require (wts_schema_version w =? 1) "schema_version" ;;
  _branch_state_is_consistent
    (mk_WorktreeSnapshot path head branch (detached w) (bare w) locked prunable
       (wts_schema_version w)).

Record RepositorySnapshot := mk_RepositorySnapshot {
  rs_identity : RepositoryIdentity;
  rs_branch : option string;
  detached_head : bool;
  rs_head_commit : string;
  upstream : option string;
  default_branch : option string;
  rs_status : RepositoryStatus;
  rs_worktrees : list WorktreeSnapshot;
  rs_schema_version : Z
}.

#[export] Instance RepositorySnapshot_eq_dec : EqDecision RepositorySnapshot.
Proof. solve_decision. Defined.

Definition _head_state_is_consistent (r : RepositorySnapshot) : res RepositorySnapshot :=
  raise_if (bool_decide (detached_head r = is_some (rs_branch r)))
    (ValueError "repository HEAD must be either detached or attached") ;;
  mret r.

Definition validate_RepositorySnapshot (r : RepositorySnapshot) : res RepositorySnapshot :=
  identity ← validate_RepositoryIdentity (rs_identity r) ;
  branch ← validate_optional (bounded "branch" 1 1024) (rs_branch r) ;
  head ← CommitId "head_commit" (rs_head_commit r) ;
  up ← validate_optional (bounded "upstream" 1 2048) (upstream r) ;
  default_ ← validate_optional (bounded "default_branch" 1 1024) (default_branch r) ;
  status ← validate_RepositoryStatus (rs_status r) ;
  worktrees ← traverse validate_WorktreeSnapshot (rs_worktrees r) ;
  require (rs_schema_version r =? 1) "schema_version" ;;
  _head_state_is_consistent
    (mk_RepositorySnapshot identity branch (detached_head r) head up default_ status worktrees
       (rs_schema_version r)).

Record WorktreeCreationRequest := mk_WorktreeCreationRequest {
  source_path : Path;
  target_path : Path;
  wcr_worktree_id : string;
  wcr_branch_name : string;
  base_revision : string;
  wcr_run_id : option string;
  wcr_schema_version : Z
}.

#[export] Instance WorktreeCreationRequest_eq_dec : EqDecision WorktreeCreationRequest.
Proof. solve_decision. Defined.

Definition validate_WorktreeCreationRequest (r : WorktreeCreationRequest)
    : res WorktreeCreationRequest :=
  source ← absolute_path "worktree request paths must be absolute" (source_path r) ;
  target ← absolute_path "worktree request paths must be absolute" (target_path r) ;
  worktree_id ← WorktreeId (wcr_worktree_id r) ;
  branch ← bounded "branch_name" 1 255 (wcr_branch_name r) ;
  base ← bounded "base_revision" 1 1024 (base_revision r) ;
  run_id ← optional_run_id (wcr_run_id r) ;
  require (wcr_schema_version r =? 1) "schema_version" ;;
  mret (mk_WorktreeCreationRequest source target worktree_id branch base run_id
          (wcr_schema_version r)).

Record WorktreeOwnershipRecord := mk_WorktreeOwnershipRecord {
  wor_worktree_id : string;
  wor_run_id : option string;
  wor_repository : RepositoryIdentity;
  wor_worktree_path : Path;
  wor_branch_name : string;
  base_commit : string;
  created_head : string;
  wor_created_at : datetime;
  revanent_version : string;
  lifecycle_status : WorktreeLifecycleStatus.t;
  last_error_category : option GitErrorCategory.t;
  cleanup_head : option string;
  cleaned_at : option datetime;
  wor_schema_version : Z
}.

#[export] Instance WorktreeOwnershipRecord_eq_dec : EqDecision WorktreeOwnershipRecord.
Proof. solve_decision. Defined.

Definition _lifecycle_fields_are_consistent (r : WorktreeOwnershipRecord)
    : res WorktreeOwnershipRecord :=
  (if bool_decide (lifecycle_status r = WorktreeLifecycleStatus.PARTIAL)
   then raise_if (is_none (last_error_category r))
          (ValueError "partial ownership records require an error category")
   else raise_if (is_some (last_error_category r))
          (ValueError "only partial ownership records carry an error category")) ;;
  raise_if (negb (bool_decide (bool_decide (lifecycle_status r = WorktreeLifecycleStatus.REMOVED)
                               = is_some (cleaned_at r) && is_some (cleanup_head r))))
    (ValueError "removed ownership records require complete cleanup evidence") ;;
  mret r.

Definition ownership_utc (t : datetime) : res datetime :=
  raise_if (negb (is_utc t)) (ValueError "ownership timestamps must be timezone-aware UTC") ;; mret t.

Definition validate_WorktreeOwnershipRecord (r : WorktreeOwnershipRecord)
    : res WorktreeOwnershipRecord :=
  worktree_id ← WorktreeId (wor_worktree_id r) ;
  run_id ← optional_run_id (wor_run_id r) ;
  repository ← validate_RepositoryIdentity (wor_repository r) ;
  path ← absolute_path "ownership worktree paths must be absolute" (wor_worktree_path r) ;
  branch ← bounded "branch_name" 1 255 (wor_branch_name r) ;
  base ← CommitId "base_commit" (base_commit r) ;
  head ← CommitId "created_head" (created_head r) ;
  created ← ownership_utc (wor_created_at r) ;
  version ← bounded "revanent_version" 1 128 (revanent_version r) ;
  cleanup ← validate_optional (CommitId "cleanup_head") (cleanup_head r) ;
  cleaned ← validate_optional ownership_utc (cleaned_at r) ;
  require (wor_schema_version r =? 1) "schema_version" ;;
  _lifecycle_fields_are_consistent
    (mk_WorktreeOwnershipRecord worktree_id run_id repository path branch base head created version
       (lifecycle_status r) (last_error_category r) cleanup cleaned (wor_schema_version r)).

(** The results of the worktree operations; their literal statuses are implied. *)
Record WorktreeCreationResult := mk_WorktreeCreationResult {
  cres_record : WorktreeOwnershipRecord;
  cres_worktree : WorktreeSnapshot
}.

Record WorktreeVerificationResult := mk_WorktreeVerificationResult {
  vres_record : WorktreeOwnershipRecord;
  vres_worktree : WorktreeSnapshot;
  vres_repository : RepositorySnapshot
}.

#[export] Instance WorktreeVerificationResult_eq_dec : EqDecision WorktreeVerificationResult.
Proof. solve_decision. Defined.

Record WorktreeCleanupResult := mk_WorktreeCleanupResult {
  clres_status : GitOperationStatus.t;
  clres_record : WorktreeOwnershipRecord
}.

(** ** Validators accept what they return *)

#[export] Instance WorktreeId_idem : Idem WorktreeId.
Proof. unfold WorktreeId. solve_idem. Qed.
#[export] Instance CommitId_idem n : Idem (CommitId n).
Proof. unfold CommitId. solve_idem. Qed.
#[export] Instance bounded_idem n lo hi : Idem (bounded n lo hi).
Proof. unfold bounded. solve_idem. Qed.
#[export] Instance absolute_path_idem m : Idem (absolute_path m).
Proof. unfold absolute_path. solve_idem. Qed.
#[export] Instance ownership_utc_idem : Idem ownership_utc.
Proof. unfold ownership_utc. solve_idem. Qed.

#[export] Instance optional_run_id_idem : Idem optional_run_id.
Proof. unfold optional_run_id. apply validate_optional_idem. solve_idem. Qed.

Lemma sorted_strings_idem xs : sorted_strings (sorted_strings xs) = sorted_strings xs.
Proof. apply py_sorted_idem; [apply str_le_total | apply str_le_trans]. Qed.

Lemma sorted_strings_perm xs : sorted_strings xs ≡ₚ xs.
Proof. apply py_sorted_perm. Qed.

#[export] Instance roots_idem : Idem _roots_are_unique.
Proof.
  unfold _roots_are_unique. intros xs ys H. inv_valid. rewrite sorted_strings_idem.
  bool_prop. rewrite raise_if_false; [done|]. apply orb_false_iff. split.
  - apply bool_decide_eq_false. intros Hn. apply (f_equal length) in Hn.
    rewrite sorted_strings_perm in Hn. by destruct xs.
  - match goal with H : has_duplicates _ = false |- _ => apply has_duplicates_false in H as Hnd end.
    apply has_duplicates_false. by rewrite sorted_strings_perm.
Qed.

#[export] Instance paths_idem : Idem _paths_are_canonical.
Proof.
  unfold _paths_are_canonical. intros xs ys H. inv_valid. rewrite sorted_strings_idem.
  rewrite !raise_if_false; [done| |].
  - apply existsb_false. rewrite sorted_strings_perm. by apply existsb_false.
  - apply has_duplicates_false. rewrite sorted_strings_perm. by apply has_duplicates_false.
Qed.

Lemma roots_parts (f : string -> res string) xs ys zs :
  Idem (traverse f) -> traverse f xs = Ok ys -> (forall x y, f x = Ok y -> y = x) ->
  _roots_are_unique ys = Ok zs -> traverse f zs = Ok zs.
Proof.
  intros Hf Hx Hid Hy. apply idem, traverse_Ok_fix in Hx. unfold _roots_are_unique in Hy. inv_valid.
  apply traverse_fix. by rewrite sorted_strings_perm.
Qed.

Lemma CommitId_Ok n s t : CommitId n s = Ok t -> t = s.
Proof. unfold CommitId. intros. by inv_valid. Qed.

#[export] Instance validate_RepositoryIdentity_idem : Idem validate_RepositoryIdentity.
Proof.
  unfold validate_RepositoryIdentity. intros r s H. inv_valid. simpl.
  match goal with H1 : traverse _ _ = Ok ?v, H2 : _roots_are_unique ?v = Ok ?w |- _ =>
    pose proof (roots_parts _ _ _ _ _ H1 (CommitId_Ok _) H2) as Ht; apply idem in H2 end.
  rewrite Ht. idem. done.
Qed.

#[export] Instance validate_RepositoryStatus_idem : Idem validate_RepositoryStatus.
Proof. unfold validate_RepositoryStatus. solve_idem. Qed.
#[export] Instance validate_WorktreeSnapshot_idem : Idem validate_WorktreeSnapshot.
Proof. unfold validate_WorktreeSnapshot, _branch_state_is_consistent. solve_idem. Qed.
#[export] Instance validate_RepositorySnapshot_idem : Idem validate_RepositorySnapshot.
Proof. unfold validate_RepositorySnapshot, _head_state_is_consistent. solve_idem. Qed.
#[export] Instance validate_WorktreeCreationRequest_idem : Idem validate_WorktreeCreationRequest.
Proof. unfold validate_WorktreeCreationRequest. solve_idem. Qed.

Lemma lifecycle_id r s : _lifecycle_fields_are_consistent r = Ok s -> s = r.
Proof. unfold _lifecycle_fields_are_consistent. intros. by inv_valid. Qed.

#[export] Instance validate_WorktreeOwnershipRecord_idem : Idem validate_WorktreeOwnershipRecord.
Proof.
  unfold validate_WorktreeOwnershipRecord. intros r s H. inv_valid.
  pose proof (lifecycle_id _ _ H) as ->. simpl in *. idem. done.
Qed.
