(* ===== verification/TelemetryPort.v ===== *)
(** * The telemetry port ([src/src/revanent/ports/telemetry.py])

    Usage records, budget limits and policies, reservations, settlements and
    decisions, with the units each metric is counted in. *)

From Stdlib Require Import ZArith Lia Ascii String.
From S2P Require Import Prelude Text Domain Sha256 Agents.
From stdpp Require Import base option strings numbers sets list list_relations.

Open Scope Z_scope.

Definition TELEMETRY_SCHEMA_VERSION : Z := 1.
Definition MAX_USAGE_VALUE : Z := 1000000000000.

Definition _utc (t : datetime) : res datetime :=
  raise_if (negb (is_utc t)) (ValueError "telemetry timestamps must be timezone-aware UTC") ;; mret t.

Module UsageProvenance.
Inductive t : Type :=
| MEASURED | PROVIDER_REPORTED | ESTIMATED | UNAVAILABLE.
#[export] Instance eq_dec : EqDecision t.
Proof. solve_decision. Defined.
Definition value (x : t) : string :=
  match x with
  | MEASURED => "MEASURED"
  | PROVIDER_REPORTED => "PROVIDER_REPORTED"
  | ESTIMATED => "ESTIMATED"
  | UNAVAILABLE => "UNAVAILABLE"
  end.
End UsageProvenance.

Module UsageUnit.
Inductive t : Type :=
| BYTES | MILLISECONDS | TOKENS | ATTEMPTS | COMMANDS | INVOCATIONS | DECIMAL_CURRENCY.
#[export] Instance eq_dec : EqDecision t.
Proof. solve_decision. Defined.
End UsageUnit.

Module UsageMetric.
Inductive t : Type :=
| CONTEXT_BASELINE_BYTES | CONTEXT_RETAINED_BYTES | CONTEXT_EXCLUDED_BYTES
| CONTEXT_TRUNCATED_BYTES | CONTEXT_DUPLICATE_BYTES | CONTEXT_ITEM_COUNT | COMMAND_DURATION
| COMMAND_COUNT | VALIDATION_DURATION | PROVIDER_DURATION | INPUT_TOKENS | CACHED_INPUT_TOKENS
| OUTPUT_TOKENS | REASONING_TOKENS | TOTAL_TOKENS | BUILD_ATTEMPTS | REVIEW_ATTEMPTS
| REPAIR_ATTEMPTS | LOCAL_ATTEMPTS | REMOTE_ATTEMPTS | PROVIDER_INVOCATIONS | ESTIMATED_COST.
#[export] Instance eq_dec : EqDecision t.
Proof. solve_decision. Defined.
Definition value (x : t) : string :=
  match x with
  | CONTEXT_BASELINE_BYTES => "CONTEXT_BASELINE_BYTES"
  | CONTEXT_RETAINED_BYTES => "CONTEXT_RETAINED_BYTES"
  | CONTEXT_EXCLUDED_BYTES => "CONTEXT_EXCLUDED_BYTES"
  | CONTEXT_TRUNCATED_BYTES => "CONTEXT_TRUNCATED_BYTES"
  | CONTEXT_DUPLICATE_BYTES => "CONTEXT_DUPLICATE_BYTES"
  | CONTEXT_ITEM_COUNT => "CONTEXT_ITEM_COUNT"
  | COMMAND_DURATION => "COMMAND_DURATION"
  | COMMAND_COUNT => "COMMAND_COUNT"
  | VALIDATION_DURATION => "VALIDATION_DURATION"
  | PROVIDER_DURATION => "PROVIDER_DURATION"
  | INPUT_TOKENS => "INPUT_TOKENS"
  | CACHED_INPUT_TOKENS => "CACHED_INPUT_TOKENS"
  | OUTPUT_TOKENS => "OUTPUT_TOKENS"
  | REASONING_TOKENS => "REASONING_TOKENS"
  | TOTAL_TOKENS => "TOTAL_TOKENS"
  | BUILD_ATTEMPTS => "BUILD_ATTEMPTS"
  | REVIEW_ATTEMPTS => "REVIEW_ATTEMPTS"
  | REPAIR_ATTEMPTS => "REPAIR_ATTEMPTS"
  | LOCAL_ATTEMPTS => "LOCAL_ATTEMPTS"
  | REMOTE_ATTEMPTS => "REMOTE_ATTEMPTS"
  | PROVIDER_INVOCATIONS => "PROVIDER_INVOCATIONS"
  | ESTIMATED_COST => "ESTIMATED_COST"
  end.
End UsageMetric.

Module UsageSource.
Inductive t : Type :=
| CONTEXT | COMMAND | VALIDATION | AGENT | ORCHESTRATION.
#[export] Instance eq_dec : EqDecision t.
Proof. solve_decision. Defined.
End UsageSource.

Module ReservationStatus.
Inductive t : Type :=
| ACTIVE | SETTLED | UNRESOLVED.
#[export] Instance eq_dec : EqDecision t.
Proof. solve_decision. Defined.
End ReservationStatus.

Module BudgetDecisionStatus.
Inductive t : Type :=
| ALLOW | DENY_LIMIT_EXHAUSTED | DENY_USAGE_UNAVAILABLE | DENY_UNRESOLVED_RESERVATION
| DENY_INVALID_REQUEST | DENY_STALE_STATE.
#[export] Instance eq_dec : EqDecision t.
Proof. solve_decision. Defined.
End BudgetDecisionStatus.

Module BudgetMetric.
Inductive t : Type :=
| BUILD_ATTEMPTS | REVIEW_ATTEMPTS | REPAIR_ATTEMPTS | TOTAL_DURATION | REMOTE_TOKENS
| ESTIMATED_COST.
#[export] Instance eq_dec : EqDecision t.
Proof. solve_decision. Defined.
Definition value (x : t) : string :=
  match x with
  | BUILD_ATTEMPTS => "BUILD_ATTEMPTS"
  | REVIEW_ATTEMPTS => "REVIEW_ATTEMPTS"
  | REPAIR_ATTEMPTS => "REPAIR_ATTEMPTS"
  | TOTAL_DURATION => "TOTAL_DURATION"
  | REMOTE_TOKENS => "REMOTE_TOKENS"
  | ESTIMATED_COST => "ESTIMATED_COST"
  end.
End BudgetMetric.

#[export] Existing Instances UsageProvenance.eq_dec UsageUnit.eq_dec UsageMetric.eq_dec UsageSource.eq_dec ReservationStatus.eq_dec BudgetDecisionStatus.eq_dec BudgetMetric.eq_dec.

Definition _USAGE_METRIC_UNITS (m : UsageMetric.t) : UsageUnit.t :=
  match m with
  | UsageMetric.CONTEXT_BASELINE_BYTES => UsageUnit.BYTES
  | UsageMetric.CONTEXT_RETAINED_BYTES => UsageUnit.BYTES
  | UsageMetric.CONTEXT_EXCLUDED_BYTES => UsageUnit.BYTES
  | UsageMetric.CONTEXT_TRUNCATED_BYTES => UsageUnit.BYTES
  | UsageMetric.CONTEXT_DUPLICATE_BYTES => UsageUnit.BYTES
  | UsageMetric.CONTEXT_ITEM_COUNT => UsageUnit.COMMANDS
  | UsageMetric.COMMAND_DURATION => UsageUnit.MILLISECONDS
  | UsageMetric.COMMAND_COUNT => UsageUnit.COMMANDS
  | UsageMetric.VALIDATION_DURATION => UsageUnit.MILLISECONDS
  | UsageMetric.PROVIDER_DURATION => UsageUnit.MILLISECONDS
  | UsageMetric.INPUT_TOKENS => UsageUnit.TOKENS
  | UsageMetric.CACHED_INPUT_TOKENS => UsageUnit.TOKENS
  | UsageMetric.OUTPUT_TOKENS => UsageUnit.TOKENS
  | UsageMetric.REASONING_TOKENS => UsageUnit.TOKENS
  | UsageMetric.TOTAL_TOKENS => UsageUnit.TOKENS
  | UsageMetric.BUILD_ATTEMPTS => UsageUnit.ATTEMPTS
  | UsageMetric.REVIEW_ATTEMPTS => UsageUnit.ATTEMPTS
  | UsageMetric.REPAIR_ATTEMPTS => UsageUnit.ATTEMPTS
  | UsageMetric.LOCAL_ATTEMPTS => UsageUnit.ATTEMPTS
  | UsageMetric.REMOTE_ATTEMPTS => UsageUnit.ATTEMPTS
  | UsageMetric.PROVIDER_INVOCATIONS => UsageUnit.INVOCATIONS
  | UsageMetric.ESTIMATED_COST => UsageUnit.DECIMAL_CURRENCY
  end.

Definition _METRIC_UNITS (m : BudgetMetric.t) : UsageUnit.t :=
  match m with
  | BudgetMetric.BUILD_ATTEMPTS => UsageUnit.ATTEMPTS
  | BudgetMetric.REVIEW_ATTEMPTS => UsageUnit.ATTEMPTS
  | BudgetMetric.REPAIR_ATTEMPTS => UsageUnit.ATTEMPTS
  | BudgetMetric.TOTAL_DURATION => UsageUnit.MILLISECONDS
  | BudgetMetric.REMOTE_TOKENS => UsageUnit.TOKENS
  | BudgetMetric.ESTIMATED_COST => UsageUnit.DECIMAL_CURRENCY
  end.

(** The patterns of the identifiers. *)
Definition usage_id_pattern : list pat := [Lit "usage_"; Cls is_hex 64 64].
Definition reserve_id_pattern : list pat := [Lit "reserve_"; Cls is_hex 64 64].
(** [^[A-Z]{3}$] *)
Definition currency_pattern : list pat := [Cls is_upper 3 3].
(** [^[a-z][a-z0-9_-]{0,63}$] *)
Definition provider_pattern : list pat :=
  [Cls is_lower 1 1; Cls (in_class "_-" media_head) 0 63].
(** [^[a-z][a-z0-9_.-]{0,63}$] *)
Definition reason_pattern : list pat :=
  [Cls is_lower 1 1; Cls (in_class "_.-" media_head) 0 63].
(** [^[A-Z][A-Z_]{1,63}$] *)
Definition operation_pattern : list pat :=
  [Cls is_upper 1 1; Cls (in_class "_" is_upper) 1 63].

(** A decimal field: a sign constraint and at most 18 digits. *)
Definition decimal_field (positive : bool) (d : option decimal) : bool :=
  match d with
  | None => true
  | Some d => (if positive then 0 <? dec_coef d else 0 <=? dec_coef d) && (dec_digits d <=? 18)
  end.

Definition is_currency (u : UsageUnit.t) : bool := bool_decide (u = UsageUnit.DECIMAL_CURRENCY).

(** ** Limits and policies *)

Record BudgetLimit := mk_BudgetLimit {
  bl_metric : BudgetMetric.t;
  bl_unit : UsageUnit.t;
  integer_limit : option Z;
  decimal_limit : option decimal;
  bl_currency : option string
}.

#[export] Instance BudgetLimit_eq_dec : EqDecision BudgetLimit.
Proof. solve_decision. Defined.

Definition validate_BudgetLimit (l : BudgetLimit) : res BudgetLimit :=
  require (optional_range 1 MAX_USAGE_VALUE (integer_limit l)) "integer_limit" ;;
  require (decimal_field true (decimal_limit l)) "decimal_limit" ;;
  currency ← validate_optional (pattern_field "currency" currency_pattern) (bl_currency l) ;
  raise_if (negb (bool_decide (bl_unit l = _METRIC_UNITS (bl_metric l))))
    (ValueError "budget metric and unit do not match") ;;
  raise_if (bool_decide (is_none (integer_limit l) = is_none (decimal_limit l)))
    (ValueError "budget limit requires exactly one numeric value") ;;
  (if is_currency (bl_unit l) then
     raise_if (is_none (decimal_limit l) || is_none currency)
       (ValueError "currency budget requires Decimal value and currency")
   else
     raise_if (is_some currency || is_some (decimal_limit l))
       (ValueError "non-currency budget cannot carry currency or Decimal value")) ;;
  mret (mk_BudgetLimit (bl_metric l) (bl_unit l) (integer_limit l) (decimal_limit l) currency).

Record BudgetPolicy := mk_BudgetPolicy { bp_schema_version : Z; limits : list BudgetLimit }.

#[export] Instance BudgetPolicy_eq_dec : EqDecision BudgetPolicy.
Proof. solve_decision. Defined.

Definition _ordered (p : BudgetPolicy) : res BudgetPolicy :=
  let keys := (fun l => BudgetMetric.value (bl_metric l)) <$> limits p in
  raise_if (negb (bool_decide (keys = sorted_strings keys)) || has_duplicates keys)
    (ValueError "budget limits must be sorted and unique by metric") ;;
  mret p.

Definition validate_BudgetPolicy (p : BudgetPolicy) : res BudgetPolicy :=
  require (bp_schema_version p =? 1) "schema_version" ;;
  ls ← traverse validate_BudgetLimit (limits p) ;
  _ordered (mk_BudgetPolicy (bp_schema_version p) ls).

(** ** Usage *)

Record UsageRecord := mk_UsageRecord {
  ur_schema_version : Z;
  ur_id : string;
  ur_run_id : string;
  ur_work_package_id : string;
  ur_metric : UsageMetric.t;
  ur_unit : UsageUnit.t;
  ur_provenance : UsageProvenance.t;
  ur_source : UsageSource.t;
  ur_observed_at : datetime;
  ur_correlation_key : string;
  integer_value : option Z;
  decimal_value : option decimal;
  ur_currency : option string;
  ur_attempt_id : option string;
  ur_invocation_id : option string;
  ur_provider_id : option string;
  ur_adapter_id : option string;
  ur_model : option string;
  estimator_id : option string;
  ur_reason_code : option string
}.

#[export] Instance UsageRecord_eq_dec : EqDecision UsageRecord.
Proof. solve_decision. Defined.

Definition is_unavailable (r : UsageRecord) : bool :=
  bool_decide (ur_provenance r = UsageProvenance.UNAVAILABLE).

Definition _valid_usage (r : UsageRecord) : res UsageRecord :=
  raise_if (negb (bool_decide (ur_unit r = _USAGE_METRIC_UNITS (ur_metric r))))
    (ValueError "usage metric and unit do not match") ;;
  if is_unavailable r then
    raise_if (is_some (integer_value r) || is_some (decimal_value r) || is_none (ur_reason_code r))
      (ValueError "unavailable usage requires a reason and no numeric value") ;;
    raise_if (is_some (ur_currency r) || is_some (estimator_id r))
      (ValueError "unavailable usage cannot claim currency or an estimator") ;;
    mret r
  else
    raise_if (bool_decide (is_none (integer_value r) = is_none (decimal_value r)))
      (ValueError "available usage requires exactly one numeric value") ;;
    (if is_currency (ur_unit r) then
       raise_if (is_none (decimal_value r) || is_none (ur_currency r))
         (ValueError "currency usage requires Decimal value and currency") ;;
       raise_if (negb (bool_decide (ur_provenance r = UsageProvenance.ESTIMATED)))
         (ValueError "currency usage must be explicitly estimated") ;;
       raise_if (is_none (estimator_id r))
         (ValueError "estimated currency requires an estimator identity")
     else
       raise_if (is_some (decimal_value r) || is_some (ur_currency r) || is_some (estimator_id r))
         (ValueError "non-currency usage cannot carry decimal, currency, or estimator")) ;;
    raise_if (bool_decide (ur_provenance r = UsageProvenance.PROVIDER_REPORTED)
              && negb (bool_decide (ur_source r = UsageSource.AGENT)))
      (ValueError "provider-reported usage must originate from an agent response") ;;
    mret r.

Definition validate_UsageRecord (r : UsageRecord) : res UsageRecord :=
  require (ur_schema_version r =? 1) "schema_version" ;;
  id ← pattern_field "id" usage_id_pattern (ur_id r) ;
  run_id ← RunId (ur_run_id r) ;
  work_package_id ← WorkPackageId (ur_work_package_id r) ;
  observed ← _utc (ur_observed_at r) ;
  key ← pattern_field "correlation_key" reference_pattern (ur_correlation_key r) ;
  require (optional_range 0 MAX_USAGE_VALUE (integer_value r)) "integer_value" ;;
  require (decimal_field false (decimal_value r)) "decimal_value" ;;
  currency ← validate_optional (pattern_field "currency" currency_pattern) (ur_currency r) ;
  attempt_id ← validate_optional AgentAttemptId (ur_attempt_id r) ;
  invocation_id ← validate_optional AgentInvocationId (ur_invocation_id r) ;
  provider_id ← validate_optional (pattern_field "provider_id" provider_pattern) (ur_provider_id r) ;
  adapter_id ← validate_optional (pattern_field "adapter_id" reference_pattern) (ur_adapter_id r) ;
  model ← validate_optional (text_field "model" 1 128) (ur_model r) ;
  estimator ← validate_optional (pattern_field "estimator_id" reference_pattern) (estimator_id r) ;
  reason ← validate_optional (pattern_field "reason_code" reason_pattern) (ur_reason_code r) ;
  _valid_usage
    (mk_UsageRecord (ur_schema_version r) id run_id work_package_id (ur_metric r) (ur_unit r)
       (ur_provenance r) (ur_source r) observed key (integer_value r) (decimal_value r) currency
       attempt_id invocation_id provider_id adapter_id model estimator reason).

(** ** Reservations, settlements and decisions *)

Record BudgetReservation := mk_BudgetReservation {
  br_schema_version : Z;
  br_id : string;
  br_run_id : string;
  br_work_package_id : string;
  br_metric : BudgetMetric.t;
  br_unit : UsageUnit.t;
  br_operation : string;
  br_idempotency_key : string;
  br_created_at : datetime;
  integer_reserved : option Z;
  decimal_reserved : option decimal;
  br_currency : option string;
  br_attempt_id : option string;
  br_invocation_id : option string;
  br_status : ReservationStatus.t
}.

#[export] Instance BudgetReservation_eq_dec : EqDecision BudgetReservation.
Proof. solve_decision. Defined.

Definition _valid_reservation (r : BudgetReservation) : res BudgetReservation :=
  raise_if (negb (bool_decide (br_unit r = _METRIC_UNITS (br_metric r))))
    (ValueError "reservation metric and unit do not match") ;;
  raise_if (bool_decide (is_none (integer_reserved r) = is_none (decimal_reserved r)))
    (ValueError "reservation requires exactly one numeric value") ;;
  (if is_currency (br_unit r) then
     raise_if (is_none (decimal_reserved r) || is_none (br_currency r))
       (ValueError "currency reservation requires Decimal value and currency")
   else
     raise_if (is_some (decimal_reserved r) || is_some (br_currency r))
       (ValueError "non-currency reservation cannot carry Decimal value or currency")) ;;
  mret r.

Definition validate_BudgetReservation (r : BudgetReservation) : res BudgetReservation :=
  require (br_schema_version r =? 1) "schema_version" ;;
  id ← pattern_field "id" reserve_id_pattern (br_id r) ;
  run_id ← RunId (br_run_id r) ;
  work_package_id ← WorkPackageId (br_work_package_id r) ;
  operation ← pattern_field "operation" operation_pattern (br_operation r) ;
  key ← pattern_field "idempotency_key" reference_pattern (br_idempotency_key r) ;
  created ← _utc (br_created_at r) ;
  require (optional_range 1 MAX_USAGE_VALUE (integer_reserved r)) "integer_reserved" ;;
  require (decimal_field true (decimal_reserved r)) "decimal_reserved" ;;
  currency ← validate_optional (pattern_field "currency" currency_pattern) (br_currency r) ;
  attempt_id ← validate_optional AgentAttemptId (br_attempt_id r) ;
  invocation_id ← validate_optional AgentInvocationId (br_invocation_id r) ;
  _valid_reservation
    (mk_BudgetReservation (br_schema_version r) id run_id work_package_id (br_metric r) (br_unit r)
       operation key created (integer_reserved r) (decimal_reserved r) currency attempt_id
       invocation_id (br_status r)).

Record BudgetSettlement := mk_BudgetSettlement {
  bs_schema_version : Z;
  bs_reservation_id : string;
  bs_settled_at : datetime;
  integer_consumed : option Z;
  decimal_consumed : option decimal;
  bs_currency : option string;
  bs_status : ReservationStatus.t;
  bs_reason_code : option string
}.

#[export] Instance BudgetSettlement_eq_dec : EqDecision BudgetSettlement.
Proof. solve_decision. Defined.

Definition _valid_settlement (s : BudgetSettlement) : res BudgetSettlement :=
  (if bool_decide (bs_status s = ReservationStatus.UNRESOLVED) then
     raise_if (is_some (integer_consumed s) || is_some (decimal_consumed s)
               || is_some (bs_currency s) || is_none (bs_reason_code s))
       (ValueError "unresolved settlement requires a reason and no consumption")
   else
     raise_if (bool_decide (is_none (integer_consumed s) = is_none (decimal_consumed s)))
       (ValueError "settled reservation requires exactly one consumed value")) ;;
  (if is_some (decimal_consumed s) then
     raise_if (is_none (bs_currency s)) (ValueError "Decimal settlement requires a currency")
   else
     raise_if (is_some (bs_currency s)) (ValueError "integer settlement cannot carry a currency")) ;;
  mret s.

Definition validate_BudgetSettlement (s : BudgetSettlement) : res BudgetSettlement :=
  require (bs_schema_version s =? 1) "schema_version" ;;
  id ← pattern_field "reservation_id" reserve_id_pattern (bs_reservation_id s) ;
  settled ← _utc (bs_settled_at s) ;
  require (optional_range 0 MAX_USAGE_VALUE (integer_consumed s)) "integer_consumed" ;;
  require (decimal_field false (decimal_consumed s)) "decimal_consumed" ;;
  currency ← validate_optional (pattern_field "currency" currency_pattern) (bs_currency s) ;
  require (bool_decide (bs_status s ∈ [ReservationStatus.SETTLED; ReservationStatus.UNRESOLVED]))
    "status" ;;
  reason ← validate_optional (pattern_field "reason_code" reason_pattern) (bs_reason_code s) ;
  _valid_settlement
    (mk_BudgetSettlement (bs_schema_version s) id settled (integer_consumed s) (decimal_consumed s)
       currency (bs_status s) reason).

Record BudgetDecision := mk_BudgetDecision {
  bd_schema_version : Z;
  bd_status : BudgetDecisionStatus.t;
  bd_metric : BudgetMetric.t;
  bd_unit : UsageUnit.t;
  remaining_integer : option Z;
  remaining_decimal : option decimal;
  bd_reason_code : option string
}.

#[export] Instance BudgetDecision_eq_dec : EqDecision BudgetDecision.
Proof. solve_decision. Defined.

Definition validate_BudgetDecision (d : BudgetDecision) : res BudgetDecision :=
  require (bd_schema_version d =? 1) "schema_version" ;;
  require (optional_range 0 MAX_USAGE_VALUE (remaining_integer d)) "remaining_integer" ;;
  require (decimal_field false (remaining_decimal d)) "remaining_decimal" ;;
  reason ← validate_optional (pattern_field "reason_code" reason_pattern) (bd_reason_code d) ;
  mret (mk_BudgetDecision (bd_schema_version d) (bd_status d) (bd_metric d) (bd_unit d)
          (remaining_integer d) (remaining_decimal d) reason).

Definition usage_record_id (run_id correlation_key : string) (metric : UsageMetric.t) : string :=
  "usage_" +:+ sha256_hex (run_id +:+ ":" +:+ correlation_key +:+ ":" +:+ UsageMetric.value metric).

Definition reservation_id (run_id idempotency_key : string) (metric : BudgetMetric.t) : string :=
  "reserve_" +:+ sha256_hex (run_id +:+ ":" +:+ idempotency_key +:+ ":" +:+ BudgetMetric.value metric).

(** ** Constructed values validate to themselves *)

#[export] Instance telemetry_utc_idem : Idem _utc.
Proof. unfold _utc. solve_idem. Qed.
#[export] Instance validate_BudgetLimit_idem : Idem validate_BudgetLimit.
Proof. unfold validate_BudgetLimit. solve_idem. Qed.
#[export] Instance validate_BudgetPolicy_idem : Idem validate_BudgetPolicy.
Proof. unfold validate_BudgetPolicy, _ordered. solve_idem. Qed.

Lemma valid_usage_id r s : _valid_usage r = Ok s -> s = r.
Proof. unfold _valid_usage. intros H. inv_valid. destruct (is_unavailable r); by inv_valid. Qed.
#[export] Instance validate_UsageRecord_idem : Idem validate_UsageRecord.
Proof.
  unfold validate_UsageRecord. intros r s H. inv_valid.
  pose proof (valid_usage_id _ _ H) as ->. cbn in *. idem. done.
Qed.

Lemma valid_reservation_id r s : _valid_reservation r = Ok s -> s = r.
Proof. unfold _valid_reservation. intros H. by inv_valid. Qed.
#[export] Instance validate_BudgetReservation_idem : Idem validate_BudgetReservation.
Proof.
  unfold validate_BudgetReservation. intros r s H. inv_valid.
  pose proof (valid_reservation_id _ _ H) as ->. cbn in *. idem. done.
Qed.

Lemma valid_settlement_id r s : _valid_settlement r = Ok s -> s = r.
Proof. unfold _valid_settlement. intros H. by inv_valid. Qed.
#[export] Instance validate_BudgetSettlement_idem : Idem validate_BudgetSettlement.
Proof.
  unfold validate_BudgetSettlement. intros r s H. inv_valid.
  pose proof (valid_settlement_id _ _ H) as ->. cbn in *. idem. done.
Qed.

#[export] Instance validate_BudgetDecision_idem : Idem validate_BudgetDecision.
Proof. unfold validate_BudgetDecision. solve_idem. Qed.
