(* ===== verification/Validation.v ===== *)
(** * The validation port ([src/src/revanent/ports/validation.py])

    Plans, commands, captured output, command results and the aggregate of a
    plan, as records with validating constructors. *)

From Stdlib Require Import ZArith Lia Ascii String.
From S2P Require Import Prelude Text Domain Commands Agents.
From stdpp Require Import base option strings numbers sets list list_relations.

Open Scope Z_scope.

Definition VALIDATION_SCHEMA_VERSION : Z := 1.
Definition MAX_VALIDATION_COMMANDS : Z := 64.
Definition MAX_VALIDATION_ARGUMENTS : Z := 256.
Definition MAX_VALIDATION_ARGUMENT_BYTES : Z := 32 * 1024.
Definition MAX_VALIDATION_OUTPUT_BYTES : Z := 1 * 1024 * 1024.
Definition MAX_VALIDATION_ARTIFACT_BYTES : Z := 64 * 1024 * 1024.

Definition _PLAN_ID : list pat := [Lit "vplan_"; Cls is_hex 32 32].
Definition _COMMAND_ID : list pat :=
  [Lit "vcmd_"; Cls media_head 1 1; Cls (in_class "_.-" media_head) 0 57].
Definition _EXECUTABLE : list pat := [Cls is_alnum 1 1; Cls (in_class "_.+-" is_alnum) 0 127].
Definition _SAFE_NAME : list pat :=
  [Cls is_alnum 1 1; Cls (in_class " _.,:+()/-" is_alnum) 0 127].

(** *** Credential assignments in arguments

    [re.search] for one of the keywords, then whitespace, then [:] or [=],
    ignoring case: besides the ASCII letters, the code points U+0130 and U+0131
    match [i], U+017F matches [s] and U+212A matches [k]. *)

Definition lower_ascii (c : ascii) : ascii :=
  if is_upper c then ascii_of_N (N_of_ascii c + 32) else c.

Fixpoint fold_case (fuel : nat) (l : list ascii) : list ascii :=
  match fuel with
  | O => []
  | S fuel =>
      match drop_prefix (bytes [196; 176]%N) l with Some l' => "i"%char :: fold_case fuel l' | None =>
      match drop_prefix (bytes [196; 177]%N) l with Some l' => "i"%char :: fold_case fuel l' | None =>
      match drop_prefix (bytes [197; 191]%N) l with Some l' => "s"%char :: fold_case fuel l' | None =>
      match drop_prefix (bytes [226; 132; 170]%N) l with Some l' => "k"%char :: fold_case fuel l' | None =>
      match l with [] => [] | c :: l' => lower_ascii c :: fold_case fuel l' end end end end end
  end.

Definition credential_keywords : list string :=
  ["api_key"; "api-key"; "apikey"; "authorization"; "credential"; "password"; "passwd"; "secret";
   "token"].

Definition assignment_follows (l : list ascii) : bool :=
  match trim_all py_whitespace l with
  | c :: _ => Ascii.eqb c ":" || Ascii.eqb c "="
  | [] => false
  end.

Fixpoint search_credential (l : list ascii) : bool :=
  existsb (fun k => match drop_prefix (String.list_ascii_of_string k) l with
                    | Some l' => assignment_follows l'
                    | None => false
                    end) credential_keywords
  || match l with [] => false | _ :: l => search_credential l end.

Definition _CREDENTIAL_ARGUMENT (s : string) : bool :=
  let l := String.list_ascii_of_string s in search_credential (fold_case (length l) l).

Example credential_ex :
  _CREDENTIAL_ARGUMENT "--API_Key = x" = true /\ _CREDENTIAL_ARGUMENT "tokenize" = false.
Proof. vm_compute. done. Qed.

(** ** Identifiers and enumerations *)

Definition ValidationPlanId (s : string) : res string :=
  raise_if (negb (matches _PLAN_ID s))
    (ValueError "validation plan ID must use vplan_ plus 32 lowercase hex characters") ;; mret s.
Definition ValidationCommandId (s : string) : res string :=
  raise_if (negb (matches _COMMAND_ID s))
    (ValueError "validation command ID must use the canonical vcmd_ spelling") ;; mret s.

Module ValidationCommandClass.
Inductive t : Type := REQUIRED | ADVISORY.
#[export] Instance eq_dec : EqDecision t.
Proof. solve_decision. Defined.
End ValidationCommandClass.

Module ValidationStatus.
Inductive t : Type :=
| PASSED | PASSED_WITH_ADVISORIES | FAILED | TIMED_OUT | CANCELLED | BLOCKED | UNAVAILABLE
| INVALID | NOT_RUN.
#[export] Instance eq_dec : EqDecision t.
Proof. solve_decision. Defined.
End ValidationStatus.

Module ValidationFailureCategory.
Inductive t : Type :=
| COMMAND_FAILED | TIMEOUT | CANCELLATION | EXECUTABLE_UNAVAILABLE | POLICY_BLOCKED
| LAUNCH_BLOCKED | ARTIFACT | INTERNAL | INVALID_EVIDENCE | NOT_RUN.
#[export] Instance eq_dec : EqDecision t.
Proof. solve_decision. Defined.
End ValidationFailureCategory.

#[export] Existing Instances ValidationCommandClass.eq_dec ValidationStatus.eq_dec
  ValidationFailureCategory.eq_dec.

(** ** Plans *)

Record ValidationExecutionPolicy := mk_ValidationExecutionPolicy {
  fail_fast : bool;
  allow_advisory_failures : bool
}.

#[export] Instance ValidationExecutionPolicy_eq_dec : EqDecision ValidationExecutionPolicy.
Proof. solve_decision. Defined.

Record ValidationOutputPolicy := mk_ValidationOutputPolicy {
  vo_stdout_bytes : Z;
  vo_stderr_bytes : Z;
  vo_artifact_bytes_per_stream : Z;
  capture_artifacts : bool;
  require_complete_stdout : bool;
  require_complete_stderr : bool
}.

#[export] Instance ValidationOutputPolicy_eq_dec : EqDecision ValidationOutputPolicy.
Proof. solve_decision. Defined.

Definition validate_ValidationOutputPolicy (o : ValidationOutputPolicy) : res ValidationOutputPolicy :=
  require (in_range 1 MAX_VALIDATION_OUTPUT_BYTES (vo_stdout_bytes o)) "stdout_bytes" ;;
  require (in_range 1 MAX_VALIDATION_OUTPUT_BYTES (vo_stderr_bytes o)) "stderr_bytes" ;;
  require (in_range 1 MAX_VALIDATION_ARTIFACT_BYTES (vo_artifact_bytes_per_stream o))
    "artifact_bytes_per_stream" ;;
  mret o.

Record ValidationArtifactPolicy := mk_ValidationArtifactPolicy {
  vap_root_id : string;
  vap_directory : option Path;
  allow_artifacts : bool;
  vap_require_redaction : bool
}.

#[export] Instance ValidationArtifactPolicy_eq_dec : EqDecision ValidationArtifactPolicy.
Proof. solve_decision. Defined.

Definition validate_ValidationArtifactPolicy (p : ValidationArtifactPolicy)
    : res ValidationArtifactPolicy :=
  root_id ← pattern_field "root_id" reference_pattern (vap_root_id p) ;
  raise_if (negb (bool_decide (allow_artifacts p = is_some (vap_directory p))))
    (ValueError "artifact allowance requires exactly one explicit artifact directory") ;;
  raise_if (match vap_directory p with
            | Some d => negb (path_absolute d) || bool_decide (".." ∈ path_parts d)
            | None => false
            end)
    (ValueError "validation artifact directory must be an absolute normalized path") ;;
  raise_if (negb (vap_require_redaction p))
    (ValueError "validation artifacts must require redaction") ;;
  mret (mk_ValidationArtifactPolicy root_id (vap_directory p) (allow_artifacts p)
          (vap_require_redaction p)).

Record ValidationCommand := mk_ValidationCommand {
  vc_id : string;
  vc_name : string;
  vc_executable : string;
  vc_arguments : list string;
  relative_working_directory : option string;
  classification : ValidationCommandClass.t;
  security_critical : bool;
  expected_exit_codes : list Z;
  timeout_seconds : Z;
  vc_output : ValidationOutputPolicy;
  vc_allowed_environment_names : list string
}.

#[export] Instance ValidationCommand_eq_dec : EqDecision ValidationCommand.
Proof. solve_decision. Defined.

(** [tuple(sorted(xs)) == xs and len(set(xs)) == len(xs)] for integers. *)
Definition sorted_unique_ints (xs : list Z) : bool :=
  bool_decide (py_sorted Z.leb xs = xs) && negb (has_duplicates xs).

Definition sorted_unique_strings (xs : list string) : bool :=
  bool_decide (sorted_strings xs = xs) && negb (has_duplicates xs).

Definition _validate_command (c : ValidationCommand) : res ValidationCommand :=
  raise_if (MAX_VALIDATION_ARGUMENTS <? Z.of_nat (length (vc_arguments c)))
    (ValueError "validation command has too many arguments") ;;
  raise_if (existsb (fun a => str_contains nul a || _CREDENTIAL_ARGUMENT a) (vc_arguments c))
    (ValueError "validation arguments cannot contain nulls or credential assignments") ;;
  raise_if (MAX_VALIDATION_ARGUMENT_BYTES <? py_sum (byte_len <$> vc_arguments c))
    (ValueError "validation argument bytes exceed the hard limit") ;;
  raise_if (bool_decide (expected_exit_codes c = [])
            || negb (sorted_unique_ints (expected_exit_codes c))
            || negb (forallb (in_range 0 (2 ^ 31 - 1)) (expected_exit_codes c)))
    (ValueError "expected exit codes must be sorted, unique, and non-negative") ;;
  raise_if (negb (sorted_unique_strings (vc_allowed_environment_names c))
            || existsb (fun n => negb (matches _ENVIRONMENT_NAME n)) (vc_allowed_environment_names c))
    (ValueError "validation environment names must be sorted, unique, and portable") ;;
  raise_if (security_critical c
            && negb (bool_decide (classification c = ValidationCommandClass.REQUIRED)))
    (ValueError "security-critical validation commands must be required") ;;
  mret c.

Definition validate_ValidationCommand (c : ValidationCommand) : res ValidationCommand :=
  id ← ValidationCommandId (vc_id c) ;
  name ← text_field "name" 1 128 (vc_name c) ;
  require (matches _SAFE_NAME name && negb (str_contains nul name))
    "validation command name uses unsupported characters" ;;
  executable ← text_field "executable" 1 128 (vc_executable c) ;
  require (matches _EXECUTABLE executable
           && negb (str_contains "/" executable || str_contains "\" executable))
    "validation executable must be an approved simple capability name" ;;
  directory ← validate_optional RepositoryPath (relative_working_directory c) ;
  require (in_range 1 86400 (timeout_seconds c)) "timeout_seconds" ;;
  output ← validate_ValidationOutputPolicy (vc_output c) ;
  _validate_command
    (mk_ValidationCommand id name executable (str_strip <$> vc_arguments c) directory
       (classification c) (security_critical c) (expected_exit_codes c) (timeout_seconds c)
       output (str_strip <$> vc_allowed_environment_names c)).

Record ValidationPlan := mk_ValidationPlan {
  plan_schema_version : Z;
  plan_id : string;
  plan_run_id : string;
  plan_work_package_id : string;
  plan_created_at : datetime;
  plan_workspace : WorkspaceReference;
  plan_commands : list ValidationCommand;
  plan_execution : ValidationExecutionPolicy;
  plan_artifacts : ValidationArtifactPolicy
}.

#[export] Instance ValidationPlan_eq_dec : EqDecision ValidationPlan.
Proof. solve_decision. Defined.

Definition command_signature (c : ValidationCommand) : string * list string * string :=
  (vc_executable c, vc_arguments c, default "" (relative_working_directory c)).

Definition is_required (c : ValidationCommand) : bool :=
  bool_decide (classification c = ValidationCommandClass.REQUIRED).

Definition _validate_plan (p : ValidationPlan) : res ValidationPlan :=
  raise_if (negb (in_range 1 MAX_VALIDATION_COMMANDS (Z.of_nat (length (plan_commands p)))))
    (ValueError "validation plan must contain 1 to 64 commands") ;;
  raise_if (has_duplicates (vc_id <$> plan_commands p))
    (ValueError "validation command IDs must be unique") ;;
  raise_if (has_duplicates (vc_name <$> plan_commands p))
    (ValueError "validation command names must be unique") ;;
  raise_if (has_duplicates (command_signature <$> plan_commands p))
    (ValueError "duplicate validation command signatures are not permitted") ;;
  raise_if (existsb (fun c => capture_artifacts (vc_output c)) (plan_commands p)
            && negb (allow_artifacts (plan_artifacts p)))
    (ValueError "command artifact capture requires plan artifact authorization") ;;
  raise_if (negb (existsb is_required (plan_commands p)))
    (ValueError "validation plan must contain at least one required command") ;;
  mret p.

Definition validate_ValidationPlan (p : ValidationPlan) : res ValidationPlan :=
  require (plan_schema_version p =? 1) "schema_version" ;;
  id ← ValidationPlanId (plan_id p) ;
  run_id ← RunId (plan_run_id p) ;
  work_package_id ← WorkPackageId (plan_work_package_id p) ;
  created_at ← _require_utc (plan_created_at p) ;
  workspace ← validate_WorkspaceReference (plan_workspace p) ;
  commands ← traverse validate_ValidationCommand (plan_commands p) ;
  artifacts ← validate_ValidationArtifactPolicy (plan_artifacts p) ;
  _validate_plan (mk_ValidationPlan (plan_schema_version p) id run_id work_package_id created_at
                    workspace commands (plan_execution p) artifacts).

(** ** Evidence of one command *)

Record ValidationFailure := mk_ValidationFailure {
  vf_category : ValidationFailureCategory.t;
  vf_code : string;
  vf_message : string;
  vf_command_failure_category : option CommandFailureCategory.t
}.

#[export] Instance ValidationFailure_eq_dec : EqDecision ValidationFailure.
Proof. solve_decision. Defined.

(** [^[a-z][a-z0-9_.-]{0,63}$] *)
Definition failure_code_pattern : list pat :=
  [Cls is_lower 1 1; Cls (in_class "_.-" media_head) 0 63].

Definition validate_ValidationFailure (f : ValidationFailure) : res ValidationFailure :=
  code ← pattern_field "code" failure_code_pattern (vf_code f) ;
  message ← text_field "message" 1 1024 (vf_message f) ;
  mret (mk_ValidationFailure (vf_category f) code message (vf_command_failure_category f)).

Record ValidationArtifactReference := mk_ValidationArtifactReference {
  va_schema_version : Z;
  va_root_id : string;
  va_relative_path : string;
  va_stream : OutputStream.t;
  va_status : ArtifactStatus.t;
  va_correlation_id : string;
  va_observed_source_bytes : Z;
  va_source_bytes_retained : Z;
  va_redacted_bytes_observed : Z;
  va_stored_bytes : Z;
  va_redacted : bool
}.

#[export] Instance ValidationArtifactReference_eq_dec : EqDecision ValidationArtifactReference.
Proof. solve_decision. Defined.

Definition _validate_artifact (a : ValidationArtifactReference) : res ValidationArtifactReference :=
  raise_if (va_observed_source_bytes a <? va_source_bytes_retained a)
    (ValueError "artifact source retention exceeds observed source bytes") ;;
  raise_if (va_redacted_bytes_observed a <? va_stored_bytes a)
    (ValueError "artifact stored bytes exceed the redacted representation") ;;
  let complete := (va_source_bytes_retained a =? va_observed_source_bytes a)
                  && (va_stored_bytes a =? va_redacted_bytes_observed a) in
  raise_if (bool_decide (va_status a = ArtifactStatus.COMPLETE) && negb complete)
    (ValueError "complete validation artifacts must retain complete evidence") ;;
  raise_if (bool_decide (va_status a = ArtifactStatus.TRUNCATED) && complete)
    (ValueError "truncated validation artifacts must omit evidence bytes") ;;
  mret a.

Definition validate_ValidationArtifactReference (a : ValidationArtifactReference)
    : res ValidationArtifactReference :=
  require (va_schema_version a =? 1) "schema_version" ;;
  root_id ← pattern_field "root_id" reference_pattern (va_root_id a) ;
  path ← RepositoryPath (va_relative_path a) ;
  correlation ← pattern_field "correlation_id" correlation_pattern (va_correlation_id a) ;
  require (in_range 0 MAX_VALIDATION_ARTIFACT_BYTES (va_observed_source_bytes a))
    "observed_source_bytes" ;;
  require (in_range 0 MAX_VALIDATION_ARTIFACT_BYTES (va_source_bytes_retained a))
    "source_bytes_retained" ;;
  require (in_range 0 MAX_VALIDATION_ARTIFACT_BYTES (va_redacted_bytes_observed a))
    "redacted_bytes_observed" ;;
  require (in_range 0 MAX_VALIDATION_ARTIFACT_BYTES (va_stored_bytes a)) "stored_bytes" ;;
  require (va_redacted a) "redacted" ;;
  _validate_artifact
    (mk_ValidationArtifactReference (va_schema_version a) root_id path (va_stream a) (va_status a)
       correlation (va_observed_source_bytes a) (va_source_bytes_retained a)
       (va_redacted_bytes_observed a) (va_stored_bytes a) (va_redacted a)).

Record ValidationCapturedOutput := mk_ValidationCapturedOutput {
  vco_text : string;
  vco_observed_bytes : Z;
  vco_retained_bytes : Z;
  vco_truncated : bool;
  vco_redaction_truncated : bool;
  vco_artifact : option ValidationArtifactReference
}.

#[export] Instance ValidationCapturedOutput_eq_dec : EqDecision ValidationCapturedOutput.
Proof. solve_decision. Defined.

Definition _validate_output (o : ValidationCapturedOutput) : res ValidationCapturedOutput :=
  raise_if (vco_observed_bytes o <? vco_retained_bytes o)
    (ValueError "retained validation output exceeds observed bytes") ;;
  raise_if (negb (bool_decide (vco_truncated o = (vco_retained_bytes o <? vco_observed_bytes o))))
    (ValueError "validation output truncation counters disagree") ;;
  raise_if (is_some (vco_artifact o) && negb (vco_truncated o || vco_redaction_truncated o))
    (ValueError "validation artifact requires truncated source or representation") ;;
  mret o.

Definition validate_ValidationCapturedOutput (o : ValidationCapturedOutput)
    : res ValidationCapturedOutput :=
  text ← text_field "text" 0 MAX_VALIDATION_OUTPUT_BYTES (vco_text o) ;
  require (negb (str_contains nul text || (MAX_VALIDATION_OUTPUT_BYTES <? byte_len text)))
    "validation output exceeds the bounded UTF-8 representation" ;;
  require (in_range 0 MAX_VALIDATION_ARTIFACT_BYTES (vco_observed_bytes o)) "observed_bytes" ;;
  require (in_range 0 MAX_VALIDATION_OUTPUT_BYTES (vco_retained_bytes o)) "retained_bytes" ;;
  artifact ← validate_optional validate_ValidationArtifactReference (vco_artifact o) ;
  _validate_output (mk_ValidationCapturedOutput text (vco_observed_bytes o) (vco_retained_bytes o)
                      (vco_truncated o) (vco_redaction_truncated o) artifact).

Record ValidationCommandResult := mk_ValidationCommandResult {
  vr_schema_version : Z;
  vr_plan_id : string;
  vr_run_id : string;
  vr_work_package_id : string;
  vr_command_id : string;
  vr_sequence : Z;
  vr_classification : ValidationCommandClass.t;
  vr_status : ValidationStatus.t;
  vr_command_status : option CommandStatus.t;
  vr_started_at : datetime;
  vr_completed_at : datetime;
  vr_duration_ms : Z;
  vr_executable : string;
  vr_resolved_executable : option Path;
  vr_correlation_id : string;
  vr_exit_code : option Z;
  vr_expected_exit_codes : list Z;
  vr_stdout : ValidationCapturedOutput;
  vr_stderr : ValidationCapturedOutput;
  vr_failure : option ValidationFailure
}.

#[export] Instance ValidationCommandResult_eq_dec : EqDecision ValidationCommandResult.
Proof. solve_decision. Defined.

(** [exit_code in expected_exit_codes] *)
Definition exit_code_expected (code : option Z) (expected : list Z) : bool :=
  match code with Some c => bool_decide (c ∈ expected) | None => false end.

Definition correlation_matches (correlation : string) (o : ValidationCapturedOutput) : bool :=
  match vco_artifact o with
  | Some a => bool_decide (va_correlation_id a = correlation)
  | None => true
  end.

Definition _validate_result (r : ValidationCommandResult) : res ValidationCommandResult :=
  raise_if (dt_lt (vr_completed_at r) (vr_started_at r))
    (ValueError "validation command completion precedes its start") ;;
  raise_if (negb (instant (vr_completed_at r) - instant (vr_started_at r) =? vr_duration_ms r * 1000))
    (ValueError "validation command duration must match timestamps exactly") ;;
  (match vr_status r with
   | ValidationStatus.PASSED | ValidationStatus.PASSED_WITH_ADVISORIES =>
       raise_if (negb (bool_decide (vr_status r = ValidationStatus.PASSED))
                 || negb (bool_decide (vr_command_status r = Some CommandStatus.SUCCESS))
                 || negb (exit_code_expected (vr_exit_code r) (vr_expected_exit_codes r))
                 || is_some (vr_failure r))
         (ValueError "passed command evidence is internally inconsistent")
   | _ => raise_if (is_none (vr_failure r))
            (ValueError "non-passing validation command evidence requires a failure")
   end) ;;
  (match vr_status r, vr_command_status r with
   | ValidationStatus.NOT_RUN, command_status =>
       raise_if (is_some command_status || is_some (vr_exit_code r) || negb (vr_duration_ms r =? 0))
         (ValueError "not-run evidence cannot claim process execution")
   | ValidationStatus.CANCELLED, None =>
       raise_if (is_some (vr_exit_code r) || negb (vr_duration_ms r =? 0))
         (ValueError "prelaunch cancellation cannot claim process execution")
   | ValidationStatus.INVALID, None =>
       raise_if (is_some (vr_exit_code r) || negb (vr_duration_ms r =? 0))
         (ValueError "prelaunch invalid evidence cannot claim process execution")
   | _, None => raise_if true (ValueError "attempted validation evidence requires a command status")
   | _, Some _ => mret tt
   end) ;;
  raise_if (negb (correlation_matches (vr_correlation_id r) (vr_stdout r)
                  && correlation_matches (vr_correlation_id r) (vr_stderr r)))
    (ValueError "validation artifact correlation does not match its command") ;;
  mret r.

Definition validate_ValidationCommandResult (r : ValidationCommandResult)
    : res ValidationCommandResult :=
  require (vr_schema_version r =? 1) "schema_version" ;;
  plan_id ← ValidationPlanId (vr_plan_id r) ;
  run_id ← RunId (vr_run_id r) ;
  work_package_id ← WorkPackageId (vr_work_package_id r) ;
  command_id ← ValidationCommandId (vr_command_id r) ;
  require (in_range 1 MAX_VALIDATION_COMMANDS (vr_sequence r)) "sequence" ;;
  started ← _require_utc (vr_started_at r) ;
  completed ← _require_utc (vr_completed_at r) ;
  require (in_range 0 86400000 (vr_duration_ms r)) "duration_ms" ;;
  executable ← text_field "executable" 1 128 (vr_executable r) ;
  require (match vr_resolved_executable r with Some p => path_absolute p | None => true end)
    "resolved validation executable identity must be absolute" ;;
  correlation ← pattern_field "correlation_id" correlation_pattern (vr_correlation_id r) ;
  require (optional_range 0 (2 ^ 32 - 1) (vr_exit_code r)) "exit_code" ;;
  stdout ← validate_ValidationCapturedOutput (vr_stdout r) ;
  stderr ← validate_ValidationCapturedOutput (vr_stderr r) ;
  failure ← validate_optional validate_ValidationFailure (vr_failure r) ;
  _validate_result
    (mk_ValidationCommandResult (vr_schema_version r) plan_id run_id work_package_id command_id
       (vr_sequence r) (vr_classification r) (vr_status r) (vr_command_status r) started completed
       (vr_duration_ms r) executable (vr_resolved_executable r) correlation (vr_exit_code r)
       (vr_expected_exit_codes r) stdout stderr failure).

(** ** The aggregate of a plan *)

Record ValidationSummary := mk_ValidationSummary {
  vs_total : Z;
  vs_passed : Z;
  vs_failed : Z;
  vs_timed_out : Z;
  vs_cancelled : Z;
  vs_blocked : Z;
  vs_unavailable : Z;
  vs_invalid : Z;
  vs_not_run : Z
}.

#[export] Instance ValidationSummary_eq_dec : EqDecision ValidationSummary.
Proof. solve_decision. Defined.

Definition _validate_total (s : ValidationSummary) : res ValidationSummary :=
  raise_if (negb (vs_passed s + vs_failed s + vs_timed_out s + vs_cancelled s + vs_blocked s
                  + vs_unavailable s + vs_invalid s + vs_not_run s =? vs_total s))
    (ValueError "validation summary counters must equal total commands") ;;
  mret s.

Definition validate_ValidationSummary (s : ValidationSummary) : res ValidationSummary :=
  require (in_range 1 MAX_VALIDATION_COMMANDS (vs_total s)) "total" ;;
  require (forallb (in_range 0 MAX_VALIDATION_COMMANDS)
             [vs_passed s; vs_failed s; vs_timed_out s; vs_cancelled s; vs_blocked s;
              vs_unavailable s; vs_invalid s; vs_not_run s]) "counters" ;;
  _validate_total s.

Definition has_status (s : ValidationStatus.t) (r : ValidationCommandResult) : bool :=
  bool_decide (vr_status r = s).

Definition validation_summary (results : list ValidationCommandResult) : res ValidationSummary :=
  validate_ValidationSummary
    (mk_ValidationSummary (Z.of_nat (length results))
       (count (has_status ValidationStatus.PASSED) results)
       (count (has_status ValidationStatus.FAILED) results)
       (count (has_status ValidationStatus.TIMED_OUT) results)
       (count (has_status ValidationStatus.CANCELLED) results)
       (count (has_status ValidationStatus.BLOCKED) results)
       (count (has_status ValidationStatus.UNAVAILABLE) results)
       (count (has_status ValidationStatus.INVALID) results)
       (count (has_status ValidationStatus.NOT_RUN) results)).

Record ValidationPlanResult := mk_ValidationPlanResult {
  pr_schema_version : Z;
  pr_plan_schema_version : Z;
  pr_plan_id : string;
  pr_run_id : string;
  pr_work_package_id : string;
  pr_started_at : datetime;
  pr_completed_at : datetime;
  pr_status : ValidationStatus.t;
  pr_commands : list ValidationCommandResult;
  pr_summary : ValidationSummary;
  required_commands_passed : bool;
  all_evidence_complete : bool;
  advisory_failures_accepted : bool;
  pr_cancelled : bool
}.

#[export] Instance ValidationPlanResult_eq_dec : EqDecision ValidationPlanResult.
Proof. solve_decision. Defined.

(** [range(1, n + 1)] *)
Definition sequence_numbers (n : nat) : list Z := Z.of_nat <$> seq 1 n.

Definition is_passing (s : ValidationStatus.t) : bool :=
  match s with
  | ValidationStatus.PASSED | ValidationStatus.PASSED_WITH_ADVISORIES => true
  | _ => false
  end.

Definition _validate_aggregate (p : ValidationPlanResult) : res ValidationPlanResult :=
  raise_if (dt_lt (pr_completed_at p) (pr_started_at p) || bool_decide (pr_commands p = []))
    (ValueError "validation aggregate requires ordered command evidence") ;;
  raise_if (negb (bool_decide (vr_sequence <$> pr_commands p
                               = sequence_numbers (length (pr_commands p)))))
    (ValueError "validation aggregate command sequence is not canonical") ;;
  raise_if (has_duplicates (vr_command_id <$> pr_commands p))
    (ValueError "validation aggregate command IDs must be unique") ;;
  raise_if (existsb (fun r => negb (bool_decide (vr_plan_id r = pr_plan_id p))
                              || negb (bool_decide (vr_run_id r = pr_run_id p))
                              || negb (bool_decide (vr_work_package_id r = pr_work_package_id p)))
              (pr_commands p))
    (ValueError "validation command correlation differs from its aggregate") ;;
  expected ← validation_summary (pr_commands p) ;
  raise_if (negb (bool_decide (pr_summary p = expected)))
    (ValueError "validation summary does not match command evidence") ;;
  raise_if (negb (bool_decide (pr_cancelled p
                               = existsb (has_status ValidationStatus.CANCELLED) (pr_commands p))))
    (ValueError "validation cancellation flag does not match command evidence") ;;
  raise_if (bool_decide (pr_status p = ValidationStatus.PASSED)
            && negb (required_commands_passed p && all_evidence_complete p
                     && (vs_passed (pr_summary p) =? vs_total (pr_summary p))
                     && negb (advisory_failures_accepted p)))
    (ValueError "passed validation aggregate is internally inconsistent") ;;
  raise_if (bool_decide (pr_status p = ValidationStatus.PASSED_WITH_ADVISORIES)
            && negb (required_commands_passed p && all_evidence_complete p
                     && (0 <? vs_failed (pr_summary p))
                     && advisory_failures_accepted p))
    (ValueError "advisory validation aggregate is internally inconsistent") ;;
  raise_if (is_passing (pr_status p)
            && (negb (required_commands_passed p) || negb (all_evidence_complete p)))
    (ValueError "approvable validation requires complete required evidence") ;;
  mret p.

Definition validate_ValidationPlanResult (p : ValidationPlanResult) : res ValidationPlanResult :=
  require (pr_schema_version p =? 1) "schema_version" ;;
  require (pr_plan_schema_version p =? 1) "plan_schema_version" ;;
  plan_id ← ValidationPlanId (pr_plan_id p) ;
  run_id ← RunId (pr_run_id p) ;
  work_package_id ← WorkPackageId (pr_work_package_id p) ;
  started ← _require_utc (pr_started_at p) ;
  completed ← _require_utc (pr_completed_at p) ;
  commands ← traverse validate_ValidationCommandResult (pr_commands p) ;
  summary ← validate_ValidationSummary (pr_summary p) ;
  _validate_aggregate
    (mk_ValidationPlanResult (pr_schema_version p) (pr_plan_schema_version p) plan_id run_id
       work_package_id started completed (pr_status p) commands summary
       (required_commands_passed p) (all_evidence_complete p) (advisory_failures_accepted p)
       (pr_cancelled p)).

Definition approvable (p : ValidationPlanResult) : bool :=
  is_passing (pr_status p) && required_commands_passed p && all_evidence_complete p.

Definition validation_correlation_id (plan_id command_id : string) : res string :=
  let value := plan_id +:+ "." +:+ command_id in
  raise_if (negb (matches correlation_pattern value))
    (ValueError "validation correlation identifier is not command-safe") ;;
  mret value.

(** ** Validators accept what they return *)

#[export] Instance ValidationPlanId_idem : Idem ValidationPlanId.
Proof. unfold ValidationPlanId. solve_idem. Qed.
#[export] Instance ValidationCommandId_idem : Idem ValidationCommandId.
Proof. unfold ValidationCommandId. solve_idem. Qed.
#[export] Instance validate_ValidationOutputPolicy_idem : Idem validate_ValidationOutputPolicy.
Proof. unfold validate_ValidationOutputPolicy. solve_idem. Qed.
#[export] Instance validate_ValidationArtifactPolicy_idem : Idem validate_ValidationArtifactPolicy.
Proof. unfold validate_ValidationArtifactPolicy. solve_idem. Qed.

Lemma strip_list_idem (l : list string) : str_strip <$> (str_strip <$> l) = str_strip <$> l.
Proof. induction l as [|s l IH]; [done|]. cbn. f_equal; [apply str_strip_idem | exact IH]. Qed.

Lemma validate_command_id c d : _validate_command c = Ok d -> d = c.
Proof. unfold _validate_command. intros. by inv_valid. Qed.

#[export] Instance validate_ValidationCommand_idem : Idem validate_ValidationCommand.
Proof.
  unfold validate_ValidationCommand. intros c d H. inv_valid.
  pose proof (validate_command_id _ _ H) as ->. simpl in *.
  rewrite !strip_list_idem. idem. done.
Qed.

#[export] Instance validate_ValidationPlan_idem : Idem validate_ValidationPlan.
Proof. unfold validate_ValidationPlan, _validate_plan. solve_idem. Qed.
#[export] Instance validate_ValidationFailure_idem : Idem validate_ValidationFailure.
Proof. unfold validate_ValidationFailure. solve_idem. Qed.
#[export] Instance validate_ValidationArtifactReference_idem : Idem validate_ValidationArtifactReference.
Proof. unfold validate_ValidationArtifactReference, _validate_artifact. solve_idem. Qed.
#[export] Instance validate_ValidationCapturedOutput_idem : Idem validate_ValidationCapturedOutput.
Proof. unfold validate_ValidationCapturedOutput, _validate_output. solve_idem. Qed.

Lemma validate_result_id r s : _validate_result r = Ok s -> s = r.
Proof. unfold _validate_result. intros. by inv_valid. Qed.

#[export] Instance validate_ValidationCommandResult_idem : Idem validate_ValidationCommandResult.
Proof.
  unfold validate_ValidationCommandResult. intros r s H. inv_valid.
  pose proof (validate_result_id _ _ H) as ->. simpl in *. idem. done.
Qed.
#[export] Instance validate_ValidationSummary_idem : Idem validate_ValidationSummary.
Proof. unfold validate_ValidationSummary, _validate_total. solve_idem. Qed.

Lemma validate_aggregate_id p q : _validate_aggregate p = Ok q -> q = p.
Proof. unfold _validate_aggregate. intros. by inv_valid. Qed.

#[export] Instance validate_ValidationPlanResult_idem : Idem validate_ValidationPlanResult.
Proof.
  unfold validate_ValidationPlanResult. intros p q H. inv_valid.
  pose proof (validate_aggregate_id _ _ H) as ->. simpl in *. idem. done.
Qed.

(** ** What constructed values satisfy *)

Lemma correlation_safe plan_id command_id :
  matches _PLAN_ID plan_id = true -> matches _COMMAND_ID command_id = true ->
  validation_correlation_id plan_id command_id = Ok (plan_id +:+ "." +:+ command_id).
Proof.
  intros Hp Hc. unfold validation_correlation_id. rewrite raise_if_false; [done|].
  apply negb_false_iff.
  eapply (matches_embed (_PLAN_ID ++ [Lit "."] ++ _COMMAND_ID)); [vm_compute; done..| |].
  - apply Nat.leb_le. vm_compute. done.
  - apply matches_app; [done|]. apply matches_app; [apply matches_lit | done].
Qed.

Lemma correlation_Ok p c s :
  validation_correlation_id p c = Ok s ->
  s = p +:+ "." +:+ c /\ matches correlation_pattern s = true.
Proof. unfold validation_correlation_id. intros. inv_valid. by rewrite negb_false_iff in *. Qed.

Definition Command_wf (c : ValidationCommand) : Prop := validate_ValidationCommand c = Ok c.
Definition Plan_wf (p : ValidationPlan) : Prop := validate_ValidationPlan p = Ok p.
Definition Result_wf (r : ValidationCommandResult) : Prop := validate_ValidationCommandResult r = Ok r.
Definition Failure_wf (f : ValidationFailure) : Prop := validate_ValidationFailure f = Ok f.

(** What the schema guarantees of every command of a plan. *)
Record Command_facts (c : ValidationCommand) : Prop := {
  cf_id : matches _COMMAND_ID (vc_id c) = true;
  cf_executable : text_field "executable" 1 128 (vc_executable c) = Ok (vc_executable c);
  cf_codes : Forall (fun n => 0 <= n <= 2 ^ 31 - 1) (expected_exit_codes c);
  cf_critical : security_critical c = true -> classification c = ValidationCommandClass.REQUIRED
}.

Lemma Command_wf_facts c : Command_wf c -> Command_facts c.
Proof.
  unfold Command_wf, validate_ValidationCommand, ValidationCommandId. intros. inv_valid.
  pose proof (validate_command_id _ _ H) as Hc. unfold _validate_command in H. inv_valid.
  destruct c; simpl in *; injection Hc as ? ? ? ? ? ?; subst. split; simpl in *.
  - by rewrite negb_false_iff in *.
  - congruence.
  - bool_prop. repeat match goal with H : _ || _ = false |- _ => apply orb_false_iff in H as [? ?] end.
    bool_prop. match goal with H : forallb _ _ = true |- _ => apply forallb_true in H; rename H into Hall end.
    eapply Forall_impl; [exact Hall|]. unfold in_range. intros n Hn. bool_prop. lia.
  - intros Hs. rewrite Hs in *. simpl in *. bool_prop. done.
Qed.

(** What the schema guarantees of every plan. *)
Record Plan_facts (p : ValidationPlan) : Prop := {
  pf_id : matches _PLAN_ID (plan_id p) = true;
  pf_run : matches RunId_pattern (plan_run_id p) = true;
  pf_work_package : matches WorkPackageId_pattern (plan_work_package_id p) = true;
  pf_created : is_utc (plan_created_at p) = true;
  pf_length : 1 <= Z.of_nat (length (plan_commands p)) <= MAX_VALIDATION_COMMANDS;
  pf_ids : NoDup (vc_id <$> plan_commands p);
  pf_commands : Forall Command_wf (plan_commands p);
  pf_required : exists c, c ∈ plan_commands p /\ classification c = ValidationCommandClass.REQUIRED
}.

Lemma Plan_wf_facts p : Plan_wf p -> Plan_facts p.
Proof.
  unfold Plan_wf, validate_ValidationPlan, ValidationPlanId, RunId, WorkPackageId, _validate_plan.
  intros H. inv_valid.
  repeat match goal with
  | H : stable_identifier _ _ _ = Ok _ |- _ => apply stable_identifier_Ok in H as [-> ?]
  | H : _require_utc _ = Ok _ |- _ => apply require_utc_Ok in H as [-> ?]
  end. simpl in *.
  match goal with H : mk_ValidationPlan _ _ _ _ _ _ _ _ _ = _ |- _ => rename H into Heq end.
  destruct p; simpl in *; injection Heq as; subst.
  repeat match goal with H : has_duplicates _ = false |- _ => apply has_duplicates_false in H end.
  split; simpl; try done.
  - by apply negb_false_iff.
  - unfold in_range in *. bool_prop. lia.
  - match goal with H : traverse validate_ValidationCommand _ = Ok _ |- _ => rename H into Ht end.
    pose proof (idem (f := traverse validate_ValidationCommand) _ _ Ht) as Hi. by apply traverse_Ok_fix.
  - match goal with H : negb (existsb is_required _) = false |- _ => apply negb_false_iff, existsb_exists in H as (c & Hc & Hr) end.
    exists c. split; [by apply list_elem_of_In|]. unfold is_required in Hr. by bool_prop.
Qed.
