(* ===== verification/ContextPort.v ===== *)
(** * The context port ([src/src/revanent/ports/context.py])

    Candidates and evidence offered for an agent's context, the selected items
    with their byte accounting, the manifest and the package handed to an agent,
    and the selection request and result.  These models do not strip their
    strings.  The retained-to-baseline ratio is a binary64 number. *)

From Stdlib Require Import ZArith Lia Ascii String SpecFloat.
From S2P Require Import Prelude Text Domain Sha256 Commands Agents Validation.
From stdpp Require Import base option strings numbers sets list list_relations.

Open Scope Z_scope.

Definition CONTEXT_SCHEMA_VERSION : Z := 1.
Definition CONTEXT_SELECTION_POLICY_VERSION : string := "p5-001-v1".

(** ** Enumerations *)

Module ContextCandidateKind.
Inductive t : Type :=
| REPOSITORY_FILE | LOCAL_EVIDENCE | ARTIFACT.
#[export] Instance eq_dec : EqDecision t.
Proof. solve_decision. Defined.
End ContextCandidateKind.

Module ContextSource.
Inductive t : Type :=
| GOVERNING | TASK_PATH | CHANGED_PATH | DIFF | VALIDATION | REVIEW | PRIOR_ATTEMPT
| REPAIR_DECISION | DEPENDENCY | TEST | ARTIFACT.
#[export] Instance eq_dec : EqDecision t.
Proof. solve_decision. Defined.
Definition value (x : t) : string :=
  match x with
  | GOVERNING => "GOVERNING"
  | TASK_PATH => "TASK_PATH"
  | CHANGED_PATH => "CHANGED_PATH"
  | DIFF => "DIFF"
  | VALIDATION => "VALIDATION"
  | REVIEW => "REVIEW"
  | PRIOR_ATTEMPT => "PRIOR_ATTEMPT"
  | REPAIR_DECISION => "REPAIR_DECISION"
  | DEPENDENCY => "DEPENDENCY"
  | TEST => "TEST"
  | ARTIFACT => "ARTIFACT"
  end.
End ContextSource.

Module ContextImportance.
Inductive t : Type :=
| REQUIRED | PREFERRED | OPTIONAL.
#[export] Instance eq_dec : EqDecision t.
Proof. solve_decision. Defined.
Definition value (x : t) : string :=
  match x with
  | REQUIRED => "REQUIRED"
  | PREFERRED => "PREFERRED"
  | OPTIONAL => "OPTIONAL"
  end.
End ContextImportance.

Module InclusionReason.
Inductive t : Type :=
| GOVERNING_INSTRUCTION | EXPLICIT_TASK_PATH | CHANGED_PATH | DIFF_PATH
| VALIDATION_FAILURE | REVIEW_FINDING | PRIOR_ATTEMPT | UNRESOLVED_DECISION
| DIRECT_DEPENDENCY | CORRESPONDING_TEST | APPROVED_ARTIFACT.
#[export] Instance eq_dec : EqDecision t.
Proof. solve_decision. Defined.
Definition value (x : t) : string :=
  match x with
  | GOVERNING_INSTRUCTION => "GOVERNING_INSTRUCTION"
  | EXPLICIT_TASK_PATH => "EXPLICIT_TASK_PATH"
  | CHANGED_PATH => "CHANGED_PATH"
  | DIFF_PATH => "DIFF_PATH"
  | VALIDATION_FAILURE => "VALIDATION_FAILURE"
  | REVIEW_FINDING => "REVIEW_FINDING"
  | PRIOR_ATTEMPT => "PRIOR_ATTEMPT"
  | UNRESOLVED_DECISION => "UNRESOLVED_DECISION"
  | DIRECT_DEPENDENCY => "DIRECT_DEPENDENCY"
  | CORRESPONDING_TEST => "CORRESPONDING_TEST"
  | APPROVED_ARTIFACT => "APPROVED_ARTIFACT"
  end.
End InclusionReason.

Module ExclusionReason.
Inductive t : Type :=
| FORBIDDEN_SCOPE | SCOPE_CONFLICT | UNSAFE_PATH | MISSING | SYMLINK_ESCAPE
| ROOT_MISMATCH | SPECIAL_FILE | FILE_CHANGED | BINARY | SECRET | UNSUPPORTED_ENCODING
| EXCLUDED_DIRECTORY | OVERSIZED | INCOMPLETE | INVALID_ARTIFACT | AGGREGATE_LIMIT
| ITEM_LIMIT | DUPLICATE_CONTENT | UNSUPPORTED_LANGUAGE | DISCOVERY_LIMIT | ROLE_MISMATCH.
#[export] Instance eq_dec : EqDecision t.
Proof. solve_decision. Defined.
Definition value (x : t) : string :=
  match x with
  | FORBIDDEN_SCOPE => "FORBIDDEN_SCOPE"
  | SCOPE_CONFLICT => "SCOPE_CONFLICT"
  | UNSAFE_PATH => "UNSAFE_PATH"
  | MISSING => "MISSING"
  | SYMLINK_ESCAPE => "SYMLINK_ESCAPE"
  | ROOT_MISMATCH => "ROOT_MISMATCH"
  | SPECIAL_FILE => "SPECIAL_FILE"
  | FILE_CHANGED => "FILE_CHANGED"
  | BINARY => "BINARY"
  | SECRET => "SECRET"
  | UNSUPPORTED_ENCODING => "UNSUPPORTED_ENCODING"
  | EXCLUDED_DIRECTORY => "EXCLUDED_DIRECTORY"
  | OVERSIZED => "OVERSIZED"
  | INCOMPLETE => "INCOMPLETE"
  | INVALID_ARTIFACT => "INVALID_ARTIFACT"
  | AGGREGATE_LIMIT => "AGGREGATE_LIMIT"
  | ITEM_LIMIT => "ITEM_LIMIT"
  | DUPLICATE_CONTENT => "DUPLICATE_CONTENT"
  | UNSUPPORTED_LANGUAGE => "UNSUPPORTED_LANGUAGE"
  | DISCOVERY_LIMIT => "DISCOVERY_LIMIT"
  | ROLE_MISMATCH => "ROLE_MISMATCH"
  end.
End ExclusionReason.

Module ContextAuthority.
Inductive t : Type :=
| REVANENT_SYSTEM_POLICY | REPOSITORY_GOVERNANCE | TASK_INSTRUCTION
| LOCAL_DETERMINISTIC_EVIDENCE | REPOSITORY_CONTENT | PROVIDER_CLAIM.
#[export] Instance eq_dec : EqDecision t.
Proof. solve_decision. Defined.
Definition value (x : t) : string :=
  match x with
  | REVANENT_SYSTEM_POLICY => "REVANENT_SYSTEM_POLICY"
  | REPOSITORY_GOVERNANCE => "REPOSITORY_GOVERNANCE"
  | TASK_INSTRUCTION => "TASK_INSTRUCTION"
  | LOCAL_DETERMINISTIC_EVIDENCE => "LOCAL_DETERMINISTIC_EVIDENCE"
  | REPOSITORY_CONTENT => "REPOSITORY_CONTENT"
  | PROVIDER_CLAIM => "PROVIDER_CLAIM"
  end.
End ContextAuthority.

Module ContextTrust.
Inductive t : Type :=
| TRUSTED_CONTROL | TRUSTED_LOCAL_EVIDENCE | REPOSITORY_GOVERNANCE | UNTRUSTED_REPOSITORY
| UNTRUSTED_TEST | UNTRUSTED_PROVIDER | UNTRUSTED_DIAGNOSTIC.
#[export] Instance eq_dec : EqDecision t.
Proof. solve_decision. Defined.
Definition value (x : t) : string :=
  match x with
  | TRUSTED_CONTROL => "TRUSTED_CONTROL"
  | TRUSTED_LOCAL_EVIDENCE => "TRUSTED_LOCAL_EVIDENCE"
  | REPOSITORY_GOVERNANCE => "REPOSITORY_GOVERNANCE"
  | UNTRUSTED_REPOSITORY => "UNTRUSTED_REPOSITORY"
  | UNTRUSTED_TEST => "UNTRUSTED_TEST"
  | UNTRUSTED_PROVIDER => "UNTRUSTED_PROVIDER"
  | UNTRUSTED_DIAGNOSTIC => "UNTRUSTED_DIAGNOSTIC"
  end.
End ContextTrust.

Module ContextContentState.
Inductive t : Type :=
| COMPLETE | TRUNCATED | REFERENCED.
#[export] Instance eq_dec : EqDecision t.
Proof. solve_decision. Defined.
End ContextContentState.

Module RedactionState.
Inductive t : Type :=
| NOT_NEEDED | REDACTED.
#[export] Instance eq_dec : EqDecision t.
Proof. solve_decision. Defined.
End RedactionState.

Module ContextSelectionStatus.
Inductive t : Type :=
| COMPLETE | COMPLETE_WITH_EXCLUSIONS.
#[export] Instance eq_dec : EqDecision t.
Proof. solve_decision. Defined.
End ContextSelectionStatus.

Module BaselineKind.
Inductive t : Type :=
| AUTHORIZED_CANDIDATES | INJECTED_REPOSITORY.
#[export] Instance eq_dec : EqDecision t.
Proof. solve_decision. Defined.
End BaselineKind.

#[export] Existing Instances ContextCandidateKind.eq_dec ContextSource.eq_dec ContextImportance.eq_dec InclusionReason.eq_dec ExclusionReason.eq_dec ContextAuthority.eq_dec ContextTrust.eq_dec ContextContentState.eq_dec RedactionState.eq_dec ContextSelectionStatus.eq_dec BaselineKind.eq_dec.

(** [_sorted_unique] on the keys of the values. *)
Definition _sorted_unique (keys : list string) (label : string) : res unit :=
  raise_if (negb (bool_decide (keys = sorted_strings keys)) || has_duplicates keys)
    (ValueError (label +:+ " must be sorted and unique")).

Definition context_utc (label : string) (t : datetime) : res datetime :=
  raise_if (negb (is_utc t)) (ValueError (label +:+ " must be timezone-aware UTC")) ;; mret t.

(** A string field with length bounds. *)
Definition sized (name : string) (lo hi : Z) (s : string) : res string :=
  require (in_range lo hi (py_len s)) name ;; mret s.

(** ** Limits, candidates and evidence *)

Record ContextLimits := mk_ContextLimits {
  max_candidates : Z;
  max_items : Z;
  max_exclusions : Z;
  max_source_bytes : Z;
  max_item_bytes : Z;
  max_total_bytes : Z;
  max_artifact_bytes : Z;
  max_artifact_total_bytes : Z;
  max_dependency_depth : Z;
  max_dependencies : Z;
  max_tests : Z;
  max_test_scan_entries : Z;
  max_read_retries : Z
}.

#[export] Instance ContextLimits_eq_dec : EqDecision ContextLimits.
Proof. solve_decision. Defined.

Definition validate_ContextLimits (l : ContextLimits) : res ContextLimits :=
  require (in_range 1 1024 (max_candidates l)) "max_candidates" ;;
  require (in_range 1 256 (max_items l)) "max_items" ;;
  require (in_range 1 512 (max_exclusions l)) "max_exclusions" ;;
  require (in_range 1 2097152 (max_source_bytes l)) "max_source_bytes" ;;
  require (in_range 32 262144 (max_item_bytes l)) "max_item_bytes" ;;
  require (in_range 32 2097152 (max_total_bytes l)) "max_total_bytes" ;;
  require (in_range 32 2097152 (max_artifact_bytes l)) "max_artifact_bytes" ;;
  require (in_range 32 2097152 (max_artifact_total_bytes l)) "max_artifact_total_bytes" ;;
  require (in_range 0 4 (max_dependency_depth l)) "max_dependency_depth" ;;
  require (in_range 0 128 (max_dependencies l)) "max_dependencies" ;;
  require (in_range 0 128 (max_tests l)) "max_tests" ;;
  require (in_range 1 16384 (max_test_scan_entries l)) "max_test_scan_entries" ;;
  require (in_range 0 2 (max_read_retries l)) "max_read_retries" ;;
  mret l.

Record ContextCandidate := mk_ContextCandidate {
  cand_schema_version : Z;
  cand_path : string;
  cand_source : ContextSource.t;
  cand_importance : ContextImportance.t;
  cand_authority : ContextAuthority.t;
  cand_trust : ContextTrust.t;
  cand_reasons : list InclusionReason.t;
  cand_priority : Z;
  cand_roles : list AgentRole.t;
  cand_correlation_ids : list string;
  cand_parent_path : option string;
  cand_requires_complete : bool
}.

#[export] Instance ContextCandidate_eq_dec : EqDecision ContextCandidate.
Proof. solve_decision. Defined.

Definition validate_ContextCandidate (c : ContextCandidate) : res ContextCandidate :=
  require (cand_schema_version c =? 1) "schema_version" ;;
  path ← RepositoryPath (cand_path c) ;
  require (in_range 0 1000 (cand_priority c)) "priority" ;;
  ids ← traverse (sized "correlation_ids" 1 128) (cand_correlation_ids c) ;
  parent ← validate_optional RepositoryPath (cand_parent_path c) ;
  _sorted_unique (InclusionReason.value <$> cand_reasons c) "context candidate reasons" ;;
  _sorted_unique (AgentRole.value <$> cand_roles c) "context candidate roles" ;;
  _sorted_unique ids "context correlations" ;;
  mret (mk_ContextCandidate (cand_schema_version c) path (cand_source c) (cand_importance c)
          (cand_authority c) (cand_trust c) (cand_reasons c) (cand_priority c) (cand_roles c) ids
          parent (cand_requires_complete c)).

Record InlineContextEvidence := mk_InlineContextEvidence {
  ie_schema_version : Z;
  ie_evidence_id : string;
  ie_source : ContextSource.t;
  ie_importance : ContextImportance.t;
  ie_authority : ContextAuthority.t;
  ie_trust : ContextTrust.t;
  ie_reasons : list InclusionReason.t;
  ie_priority : Z;
  ie_content : string;
  ie_path : option string;
  ie_roles : list AgentRole.t;
  ie_correlation_ids : list string;
  ie_requires_complete : bool
}.

#[export] Instance InlineContextEvidence_eq_dec : EqDecision InlineContextEvidence.
Proof. solve_decision. Defined.

Definition validate_InlineContextEvidence (e : InlineContextEvidence) : res InlineContextEvidence :=
  require (ie_schema_version e =? 1) "schema_version" ;;
  require (matches reference_pattern (ie_evidence_id e)) "evidence_id" ;;
  require (in_range 0 1000 (ie_priority e)) "priority" ;;
  content ← sized "content" 1 262144 (ie_content e) ;
  path ← validate_optional RepositoryPath (ie_path e) ;
  ids ← traverse (sized "correlation_ids" 1 128) (ie_correlation_ids e) ;
  _sorted_unique (InclusionReason.value <$> ie_reasons e) "inline evidence reasons" ;;
  _sorted_unique (AgentRole.value <$> ie_roles e) "inline evidence roles" ;;
  _sorted_unique ids "inline evidence correlations" ;;
  mret (mk_InlineContextEvidence (ie_schema_version e) (ie_evidence_id e) (ie_source e)
          (ie_importance e) (ie_authority e) (ie_trust e) (ie_reasons e) (ie_priority e) content
          path (ie_roles e) ids (ie_requires_complete e)).

Record ValidationContextEvidence := mk_ValidationContextEvidence {
  ve_result : ValidationPlanResult;
  ve_affected_paths : list string;
  ve_attempt_id : string
}.

#[export] Instance ValidationContextEvidence_eq_dec : EqDecision ValidationContextEvidence.
Proof. solve_decision. Defined.

Definition validate_ValidationContextEvidence (e : ValidationContextEvidence)
    : res ValidationContextEvidence :=
  result ← validate_ValidationPlanResult (ve_result e) ;
  paths ← traverse RepositoryPath (ve_affected_paths e) ;
  attempt ← sized "attempt_id" 1 128 (ve_attempt_id e) ;
  _sorted_unique paths "validation affected paths" ;;
  mret (mk_ValidationContextEvidence result paths attempt).

Record ReviewContextEvidence := mk_ReviewContextEvidence {
  re_run_id : string;
  re_work_package_id : string;
  re_finding_id : string;
  re_severity : FindingSeverity.t;
  re_summary : string;
  re_required_change : string;
  re_unresolved : bool;
  re_path : option string;
  re_correlation_ids : list string
}.

#[export] Instance ReviewContextEvidence_eq_dec : EqDecision ReviewContextEvidence.
Proof. solve_decision. Defined.

Definition validate_ReviewContextEvidence (e : ReviewContextEvidence) : res ReviewContextEvidence :=
  run_id ← RunId (re_run_id e) ;
  work_package_id ← WorkPackageId (re_work_package_id e) ;
  finding ← sized "finding_id" 1 128 (re_finding_id e) ;
  summary ← sized "summary" 1 256 (re_summary e) ;
  change ← sized "required_change" 1 2048 (re_required_change e) ;
  path ← validate_optional RepositoryPath (re_path e) ;
  ids ← traverse (sized "correlation_ids" 1 128) (re_correlation_ids e) ;
  _sorted_unique ids "review correlations" ;;
  mret (mk_ReviewContextEvidence run_id work_package_id finding (re_severity e) summary change
          (re_unresolved e) path ids).

Record PriorAttemptContextEvidence := mk_PriorAttemptContextEvidence {
  pa_run_id : string;
  pa_work_package_id : string;
  pa_attempt_id : string;
  pa_summary : string;
  pa_unresolved : bool;
  pa_path : option string;
  pa_correlation_ids : list string
}.

#[export] Instance PriorAttemptContextEvidence_eq_dec : EqDecision PriorAttemptContextEvidence.
Proof. solve_decision. Defined.

Definition validate_PriorAttemptContextEvidence (e : PriorAttemptContextEvidence)
    : res PriorAttemptContextEvidence :=
  run_id ← RunId (pa_run_id e) ;
  work_package_id ← WorkPackageId (pa_work_package_id e) ;
  attempt ← sized "attempt_id" 1 128 (pa_attempt_id e) ;
  summary ← sized "summary" 1 2048 (pa_summary e) ;
  path ← validate_optional RepositoryPath (pa_path e) ;
  ids ← traverse (sized "correlation_ids" 1 128) (pa_correlation_ids e) ;
  mret (mk_PriorAttemptContextEvidence run_id work_package_id attempt summary (pa_unresolved e)
          path ids).

Record RepairDecisionContextEvidence := mk_RepairDecisionContextEvidence {
  rd_run_id : string;
  rd_work_package_id : string;
  rd_decision_id : string;
  rd_summary : string;
  rd_unresolved : bool;
  rd_correlation_ids : list string
}.

#[export] Instance RepairDecisionContextEvidence_eq_dec : EqDecision RepairDecisionContextEvidence.
Proof. solve_decision. Defined.

Definition validate_RepairDecisionContextEvidence (e : RepairDecisionContextEvidence)
    : res RepairDecisionContextEvidence :=
  run_id ← RunId (rd_run_id e) ;
  work_package_id ← WorkPackageId (rd_work_package_id e) ;
  decision ← sized "decision_id" 1 128 (rd_decision_id e) ;
  summary ← sized "summary" 1 2048 (rd_summary e) ;
  ids ← traverse (sized "correlation_ids" 1 128) (rd_correlation_ids e) ;
  mret (mk_RepairDecisionContextEvidence run_id work_package_id decision summary (rd_unresolved e) ids).

Record GoverningContext := mk_GoverningContext {
  active_work_package : string;
  include_agents : bool;
  include_architecture : bool;
  include_requirements : bool;
  include_security : bool;
  include_workflow : bool;
  adrs : list string
}.

#[export] Instance GoverningContext_eq_dec : EqDecision GoverningContext.
Proof. solve_decision. Defined.

Definition validate_GoverningContext (g : GoverningContext) : res GoverningContext :=
  package ← RepositoryPath (active_work_package g) ;
  records ← traverse RepositoryPath (adrs g) ;
  _sorted_unique records "governing ADRs" ;;
  mret (mk_GoverningContext package (include_agents g) (include_architecture g)
          (include_requirements g) (include_security g) (include_workflow g) records).

Record ApprovedContextArtifact := mk_ApprovedContextArtifact {
  aca_reference : AgentArtifactReference;
  aca_root : Path;
  aca_run_id : string;
  aca_work_package_id : string;
  aca_correlation_id : string;
  aca_importance : ContextImportance.t;
  aca_authority : ContextAuthority.t;
  aca_trust : ContextTrust.t;
  aca_requires_complete : bool
}.

#[export] Instance ApprovedContextArtifact_eq_dec : EqDecision ApprovedContextArtifact.
Proof. solve_decision. Defined.

Definition validate_ApprovedContextArtifact (a : ApprovedContextArtifact) : res ApprovedContextArtifact :=
  reference ← validate_AgentArtifactReference (aca_reference a) ;
  raise_if (negb (path_absolute (aca_root a))) (ValueError "artifact root must be absolute") ;;
  run_id ← RunId (aca_run_id a) ;
  work_package_id ← WorkPackageId (aca_work_package_id a) ;
  correlation ← sized "correlation_id" 1 128 (aca_correlation_id a) ;
  mret (mk_ApprovedContextArtifact reference (aca_root a) run_id work_package_id correlation
          (aca_importance a) (aca_authority a) (aca_trust a) (aca_requires_complete a)).

Record ContextDiscoveryInput := mk_ContextDiscoveryInput {
  explicit_paths : list string;
  changed_paths : list string;
  diff_paths : list string;
  governing : option GoverningContext;
  cd_validation : list ValidationContextEvidence;
  cd_review : list ReviewContextEvidence;
  prior_attempts : list PriorAttemptContextEvidence;
  repair_decisions : list RepairDecisionContextEvidence;
  inline_evidence : list InlineContextEvidence;
  cd_artifacts : list ApprovedContextArtifact
}.

#[export] Instance ContextDiscoveryInput_eq_dec : EqDecision ContextDiscoveryInput.
Proof. solve_decision. Defined.

Definition artifact_key (a : AgentArtifactReference) : string :=
  aar_root_id a +:+ ":" +:+ aar_relative_path a.

(** The dictionary loop: a key seen before must carry the same item. *)
Fixpoint conflicting {A} `{EqDecision A} (key : A -> string) (seen : list (string * A)) (items : list A)
    : bool :=
  match items with
  | [] => false
  | x :: items =>
      match find_first (fun p => String.eqb p.1 (key x)) seen with
      | Some (_, y) => if bool_decide (y = x) then conflicting key ((key x, x) :: seen) items else true
      | None => conflicting key ((key x, x) :: seen) items
      end
  end.

Definition _identities_are_unambiguous (d : ContextDiscoveryInput) : res ContextDiscoveryInput :=
  raise_if (conflicting ie_evidence_id [] (inline_evidence d))
    (ValueError "inline evidence identities cannot conflict") ;;
  raise_if (conflicting (fun a => artifact_key (aca_reference a)) [] (cd_artifacts d))
    (ValueError "artifact identities cannot conflict") ;;
  mret d.

Definition validate_ContextDiscoveryInput (d : ContextDiscoveryInput) : res ContextDiscoveryInput :=
  explicit ← traverse RepositoryPath (explicit_paths d) ;
  changed ← traverse RepositoryPath (changed_paths d) ;
  diff ← traverse RepositoryPath (diff_paths d) ;
  gov ← validate_optional validate_GoverningContext (governing d) ;
  validation ← traverse validate_ValidationContextEvidence (cd_validation d) ;
  review ← traverse validate_ReviewContextEvidence (cd_review d) ;
  prior ← traverse validate_PriorAttemptContextEvidence (prior_attempts d) ;
  repair ← traverse validate_RepairDecisionContextEvidence (repair_decisions d) ;
  inline ← traverse validate_InlineContextEvidence (inline_evidence d) ;
  arts ← traverse validate_ApprovedContextArtifact (cd_artifacts d) ;
  _identities_are_unambiguous
    (mk_ContextDiscoveryInput explicit changed diff gov validation review prior repair inline arts).

(** ** Selected items *)

Definition patterned (name : string) (p : list pat) (s : string) : res string :=
  require (matches p s) name ;; mret s.

Definition ctx_id_pattern : list pat := [Lit "ctx_"; Cls is_hex 32 32].
Definition manifest_id_pattern : list pat := [Lit "ctxmanifest_"; Cls is_hex 64 64].
Definition failure_code_pattern : list pat :=
  [Cls is_lower 1 1; Cls (in_class "_.-" (fun c => is_lower c || is_digit c)) 0 63].

Record ContextItem := mk_ContextItem {
  ci_schema_version : Z;
  ci_id : string;
  ci_run_id : string;
  ci_work_package_id : string;
  ci_path : option string;
  ci_reference : string;
  ci_kind : ContextCandidateKind.t;
  ci_source : ContextSource.t;
  ci_importance : ContextImportance.t;
  ci_authority : ContextAuthority.t;
  ci_trust : ContextTrust.t;
  ci_role : AgentRole.t;
  ci_reasons : list InclusionReason.t;
  ci_priority : Z;
  ci_correlation_ids : list string;
  ci_source_bytes : Z;
  ci_retained_bytes : Z;
  ci_truncated_bytes : Z;
  ci_state : ContextContentState.t;
  ci_source_digest_sha256 : string;
  ci_retained_digest_sha256 : string;
  ci_redaction : RedactionState.t;
  ci_duplicate_of : option string;
  ci_content : string;
  ci_artifact : option AgentArtifactReference
}.

#[export] Instance ContextItem_eq_dec : EqDecision ContextItem.
Proof. solve_decision. Defined.

Definition _content_accounting (i : ContextItem) : res ContextItem :=
  raise_if (negb (byte_len (ci_content i) =? ci_retained_bytes i))
    (ValueError "retained context byte count does not match content") ;;
  raise_if (negb (bool_decide (ci_state i = ContextContentState.REFERENCED))
            && negb (ci_truncated_bytes i =? ci_source_bytes i - ci_retained_bytes i))
    (ValueError "truncated byte count must match source minus retained bytes") ;;
  raise_if (bool_decide (ci_state i = ContextContentState.COMPLETE)
            && negb (ci_truncated_bytes i =? 0))
    (ValueError "complete context cannot omit bytes") ;;
  raise_if (bool_decide (ci_state i = ContextContentState.TRUNCATED) && (ci_truncated_bytes i =? 0))
    (ValueError "truncated context must omit bytes") ;;
  (if bool_decide (ci_state i = ContextContentState.REFERENCED) then
     raise_if (is_none (ci_duplicate_of i) || negb (ci_retained_bytes i =? 0)
               || negb (ci_truncated_bytes i =? 0))
       (ValueError "referenced duplicates require a target and retain no bytes")
   else
     raise_if (is_some (ci_duplicate_of i))
       (ValueError "only referenced duplicate items may name a duplicate target")) ;;
  raise_if (negb (String.eqb (sha256_hex (ci_content i)) (ci_retained_digest_sha256 i)))
    (ValueError "retained digest does not match public context content") ;;
  mret i.

Definition validate_ContextItem (i : ContextItem) : res ContextItem :=
  require (ci_schema_version i =? 1) "schema_version" ;;
  id ← patterned "id" ctx_id_pattern (ci_id i) ;
  run_id ← RunId (ci_run_id i) ;
  work_package_id ← WorkPackageId (ci_work_package_id i) ;
  path ← validate_optional RepositoryPath (ci_path i) ;
  reference ← sized "reference" 1 512 (ci_reference i) ;
  require (in_range 0 1000 (ci_priority i)) "priority" ;;
  require (in_range 0 2097152 (ci_source_bytes i)) "source_bytes" ;;
  require (in_range 0 262144 (ci_retained_bytes i)) "retained_bytes" ;;
  require (in_range 0 2097152 (ci_truncated_bytes i)) "truncated_bytes" ;;
  source_digest ← patterned "source_digest_sha256" _SHA256 (ci_source_digest_sha256 i) ;
  retained_digest ← patterned "retained_digest_sha256" _SHA256 (ci_retained_digest_sha256 i) ;
  duplicate_of ← validate_optional (patterned "duplicate_of" ctx_id_pattern) (ci_duplicate_of i) ;
  content ← sized "content" 0 262144 (ci_content i) ;
  artifact ← validate_optional validate_AgentArtifactReference (ci_artifact i) ;
  _content_accounting
    (mk_ContextItem (ci_schema_version i) id run_id work_package_id path reference (ci_kind i)
       (ci_source i) (ci_importance i) (ci_authority i) (ci_trust i) (ci_role i) (ci_reasons i)
       (ci_priority i) (ci_correlation_ids i) (ci_source_bytes i) (ci_retained_bytes i)
       (ci_truncated_bytes i) (ci_state i) source_digest retained_digest (ci_redaction i)
       duplicate_of content artifact).

Record ContextManifestItem := mk_ContextManifestItem {
  mi_schema_version : Z;
  mi_sequence : Z;
  mi_id : string;
  mi_path : option string;
  mi_reference : string;
  mi_kind : ContextCandidateKind.t;
  mi_source : ContextSource.t;
  mi_importance : ContextImportance.t;
  mi_authority : ContextAuthority.t;
  mi_trust : ContextTrust.t;
  mi_role : AgentRole.t;
  mi_reasons : list InclusionReason.t;
  mi_priority : Z;
  mi_correlation_ids : list string;
  mi_source_bytes : Z;
  mi_retained_bytes : Z;
  mi_truncated_bytes : Z;
  mi_state : ContextContentState.t;
  mi_source_digest_sha256 : string;
  mi_retained_digest_sha256 : string;
  mi_redaction : RedactionState.t;
  mi_duplicate_of : option string;
  mi_artifact : option AgentArtifactReference
}.

#[export] Instance ContextManifestItem_eq_dec : EqDecision ContextManifestItem.
Proof. solve_decision. Defined.

Definition validate_ContextManifestItem (i : ContextManifestItem) : res ContextManifestItem :=
  require (mi_schema_version i =? 1) "schema_version" ;;
  require (in_range 1 256 (mi_sequence i)) "sequence" ;;
  id ← patterned "id" ctx_id_pattern (mi_id i) ;
  path ← validate_optional RepositoryPath (mi_path i) ;
  reference ← sized "reference" 1 512 (mi_reference i) ;
  require (in_range 0 1000 (mi_priority i)) "priority" ;;
  require (in_range 0 2097152 (mi_source_bytes i)) "source_bytes" ;;
  require (in_range 0 262144 (mi_retained_bytes i)) "retained_bytes" ;;
  require (in_range 0 2097152 (mi_truncated_bytes i)) "truncated_bytes" ;;
  source_digest ← patterned "source_digest_sha256" _SHA256 (mi_source_digest_sha256 i) ;
  retained_digest ← patterned "retained_digest_sha256" _SHA256 (mi_retained_digest_sha256 i) ;
  duplicate_of ← validate_optional (patterned "duplicate_of" ctx_id_pattern) (mi_duplicate_of i) ;
  artifact ← validate_optional validate_AgentArtifactReference (mi_artifact i) ;
  mret (mk_ContextManifestItem (mi_schema_version i) (mi_sequence i) id path reference (mi_kind i)
          (mi_source i) (mi_importance i) (mi_authority i) (mi_trust i) (mi_role i) (mi_reasons i)
          (mi_priority i) (mi_correlation_ids i) (mi_source_bytes i) (mi_retained_bytes i)
          (mi_truncated_bytes i) (mi_state i) source_digest retained_digest (mi_redaction i)
          duplicate_of artifact).

(** The item's fields without content, run and work package. *)
Definition manifest_fields (i : ContextItem) (sequence : Z) : ContextManifestItem :=
  mk_ContextManifestItem (ci_schema_version i) sequence (ci_id i) (ci_path i) (ci_reference i)
    (ci_kind i) (ci_source i) (ci_importance i) (ci_authority i) (ci_trust i) (ci_role i)
    (ci_reasons i) (ci_priority i) (ci_correlation_ids i) (ci_source_bytes i)
    (ci_retained_bytes i) (ci_truncated_bytes i) (ci_state i) (ci_source_digest_sha256 i)
    (ci_retained_digest_sha256 i) (ci_redaction i) (ci_duplicate_of i) (ci_artifact i).

Definition _manifest_item (i : ContextItem) (sequence : Z) : res ContextManifestItem :=
  validate_ContextManifestItem (manifest_fields i sequence).

Record ContextExclusion := mk_ContextExclusion {
  ce_schema_version : Z;
  ce_reference : string;
  ce_path : option string;
  ce_reason : ExclusionReason.t;
  ce_importance : ContextImportance.t;
  ce_source : ContextSource.t;
  ce_authority : ContextAuthority.t;
  ce_trust : ContextTrust.t;
  ce_source_bytes : option Z
}.

#[export] Instance ContextExclusion_eq_dec : EqDecision ContextExclusion.
Proof. solve_decision. Defined.

Definition validate_ContextExclusion (e : ContextExclusion) : res ContextExclusion :=
  require (ce_schema_version e =? 1) "schema_version" ;;
  reference ← sized "reference" 1 512 (ce_reference e) ;
  path ← validate_optional RepositoryPath (ce_path e) ;
  require (optional_range 0 2097152 (ce_source_bytes e)) "source_bytes" ;;
  mret (mk_ContextExclusion (ce_schema_version e) reference path (ce_reason e) (ce_importance e)
          (ce_source e) (ce_authority e) (ce_trust e) (ce_source_bytes e)).

(** ** The manifest *)

#[export] Instance spec_float_eq_dec : EqDecision spec_float.
Proof. solve_decision. Defined.

(** A float is an IEEE binary64 number.  [a / b] of two integers is correctly rounded. *)
Definition float_of_Z (n : Z) : spec_float :=
  binary_normalize 53 1024 n 0 false.
Definition true_division (a b : Z) : spec_float :=
  SFdiv 53 1024 (match a with Z0 => S754_zero false | Zpos p => S754_finite false p 0
                              | Zneg p => S754_finite true p 0 end)
                (match b with Z0 => S754_zero false | Zpos p => S754_finite false p 0
                              | Zneg p => S754_finite true p 0 end).
(** [1e-12], the binary64 number closest to it. *)
Definition ratio_tolerance : spec_float := true_division 1 1000000000000.

Record ContextManifest := mk_ContextManifest {
  cm_schema_version : Z;
  cm_manifest_id : string;
  cm_run_id : string;
  cm_work_package_id : string;
  cm_task_id : string;
  cm_role : AgentRole.t;
  cm_repository_reference : string;
  cm_worktree_reference : string;
  cm_selection_policy_version : string;
  cm_created_at : datetime;
  cm_limits : ContextLimits;
  cm_items : list ContextManifestItem;
  cm_exclusions : list ContextExclusion;
  cm_exclusion_overflow_count : Z;
  cm_candidate_count : Z;
  cm_included_count : Z;
  cm_excluded_count : Z;
  cm_required_count : Z;
  cm_preferred_count : Z;
  cm_optional_count : Z;
  cm_total_source_bytes_considered : Z;
  cm_retained_bytes : Z;
  cm_excluded_bytes : Z;
  cm_truncated_bytes : Z;
  cm_duplicate_bytes_avoided : Z;
  cm_baseline_kind : BaselineKind.t;
  cm_baseline_bytes : Z;
  cm_retained_to_baseline_ratio : spec_float;
  cm_required_evidence_complete : bool;
  cm_warnings : list string;
  cm_status : ContextSelectionStatus.t
}.

#[export] Instance ContextManifest_eq_dec : EqDecision ContextManifest.
Proof. solve_decision. Defined.

Definition expected_ratio (m : ContextManifest) : spec_float :=
  if cm_baseline_bytes m =? 0 then S754_zero false
  else true_division (cm_retained_bytes m) (cm_baseline_bytes m).

Definition _canonical (m : ContextManifest) : res ContextManifest :=
  raise_if (negb (cm_included_count m =? Z.of_nat (length (cm_items m))))
    (ValueError "manifest included count does not match items") ;;
  raise_if (negb (cm_excluded_count m
                  =? Z.of_nat (length (cm_exclusions m)) + cm_exclusion_overflow_count m))
    (ValueError "manifest excluded count does not match exclusion ledger") ;;
  raise_if (negb (cm_candidate_count m =? cm_included_count m + cm_excluded_count m))
    (ValueError "manifest candidate accounting is incomplete") ;;
  raise_if (negb (cm_retained_bytes m =? py_sum (mi_retained_bytes <$> cm_items m)))
    (ValueError "manifest retained bytes do not match items") ;;
  raise_if (negb (cm_truncated_bytes m =? py_sum (mi_truncated_bytes <$> cm_items m)))
    (ValueError "manifest truncated bytes do not match items") ;;
  raise_if (negb (bool_decide (mi_sequence <$> cm_items m = seqZ 1 (Z.of_nat (length (cm_items m))))))
    (ValueError "context item sequences must be contiguous") ;;
  raise_if (has_duplicates (mi_id <$> cm_items m))
    (ValueError "context item IDs must be unique") ;;
  raise_if ((max_items (cm_limits m) <? Z.of_nat (length (cm_items m)))
            || (max_exclusions (cm_limits m) <? Z.of_nat (length (cm_exclusions m))))
    (ValueError "manifest exceeds item or exclusion limits") ;;
  raise_if (max_total_bytes (cm_limits m) <? cm_retained_bytes m)
    (ValueError "manifest exceeds total retained byte limit") ;;
  raise_if (SFltb ratio_tolerance
              (SFabs (SFsub 53 1024 (cm_retained_to_baseline_ratio m) (expected_ratio m))))
    (ValueError "manifest retained-to-baseline ratio is inconsistent") ;;
  _sorted_unique (cm_warnings m) "manifest warnings" ;;
  mret m.

Definition validate_ContextManifest (m : ContextManifest) : res ContextManifest :=
  require (cm_schema_version m =? 1) "schema_version" ;;
  id ← patterned "manifest_id" manifest_id_pattern (cm_manifest_id m) ;
  run_id ← RunId (cm_run_id m) ;
  work_package_id ← WorkPackageId (cm_work_package_id m) ;
  task_id ← sized "task_id" 1 128 (cm_task_id m) ;
  repository ← sized "repository_reference" 1 128 (cm_repository_reference m) ;
  worktree ← sized "worktree_reference" 1 128 (cm_worktree_reference m) ;
  require (String.eqb (cm_selection_policy_version m) CONTEXT_SELECTION_POLICY_VERSION)
    "selection_policy_version" ;;
  created ← context_utc "context creation timestamp" (cm_created_at m) ;
  limits ← validate_ContextLimits (cm_limits m) ;
  items ← traverse validate_ContextManifestItem (cm_items m) ;
  exclusions ← traverse validate_ContextExclusion (cm_exclusions m) ;
  require (in_range 0 1024 (cm_exclusion_overflow_count m)) "exclusion_overflow_count" ;;
  require (in_range 0 1024 (cm_candidate_count m)) "candidate_count" ;;
  require (in_range 0 256 (cm_included_count m)) "included_count" ;;
  require (in_range 0 1024 (cm_excluded_count m)) "excluded_count" ;;
  require (in_range 0 1024 (cm_required_count m)) "required_count" ;;
  require (in_range 0 1024 (cm_preferred_count m)) "preferred_count" ;;
  require (in_range 0 1024 (cm_optional_count m)) "optional_count" ;;
  require (0 <=? cm_total_source_bytes_considered m) "total_source_bytes_considered" ;;
  require (0 <=? cm_retained_bytes m) "retained_bytes" ;;
  require (0 <=? cm_excluded_bytes m) "excluded_bytes" ;;
  require (0 <=? cm_truncated_bytes m) "truncated_bytes" ;;
  require (0 <=? cm_duplicate_bytes_avoided m) "duplicate_bytes_avoided" ;;
  require (0 <=? cm_baseline_bytes m) "baseline_bytes" ;;
  require (SFleb (S754_zero false) (cm_retained_to_baseline_ratio m)
           && SFleb (cm_retained_to_baseline_ratio m) (float_of_Z 1)) "retained_to_baseline_ratio" ;;
  warnings ← traverse (sized "warnings" 1 256) (cm_warnings m) ;
  _canonical
    (mk_ContextManifest (cm_schema_version m) id run_id work_package_id task_id (cm_role m)
       repository worktree (cm_selection_policy_version m) created limits items exclusions
       (cm_exclusion_overflow_count m) (cm_candidate_count m) (cm_included_count m)
       (cm_excluded_count m) (cm_required_count m) (cm_preferred_count m) (cm_optional_count m)
       (cm_total_source_bytes_considered m) (cm_retained_bytes m) (cm_excluded_bytes m)
       (cm_truncated_bytes m) (cm_duplicate_bytes_avoided m) (cm_baseline_kind m)
       (cm_baseline_bytes m) (cm_retained_to_baseline_ratio m) (cm_required_evidence_complete m)
       warnings (cm_status m)).

(** ** The package *)

(** [value.lower()] on the ASCII values of the enumerations. *)
Fixpoint ascii_lower (s : string) : string :=
  match s with
  | EmptyString => EmptyString
  | String c s => String (if is_upper c then ascii_of_N (N_of_ascii c + 32) else c) (ascii_lower s)
  end.

(** [needle in s] *)
Fixpoint str_infix (needle s : string) : bool :=
  String.prefix needle s || match s with EmptyString => false | String _ s => str_infix needle s end.

Fixpoint str_join (separator : string) (parts : list string) : string :=
  match parts with
  | [] => ""
  | [p] => p
  | p :: parts => p +:+ separator +:+ str_join separator parts
  end.

Definition blank_line : string :=
  String (ascii_of_N 10) (String (ascii_of_N 10) EmptyString).

(** [AgentContextAuthority(item.authority.value)]: the members have the same values. *)
Definition agent_authority (a : ContextAuthority.t) : AgentContextAuthority.t :=
  match a with
  | ContextAuthority.REVANENT_SYSTEM_POLICY => AgentContextAuthority.REVANENT_SYSTEM_POLICY
  | ContextAuthority.REPOSITORY_GOVERNANCE => AgentContextAuthority.REPOSITORY_GOVERNANCE
  | ContextAuthority.TASK_INSTRUCTION => AgentContextAuthority.TASK_INSTRUCTION
  | ContextAuthority.LOCAL_DETERMINISTIC_EVIDENCE => AgentContextAuthority.LOCAL_DETERMINISTIC_EVIDENCE
  | ContextAuthority.REPOSITORY_CONTENT => AgentContextAuthority.REPOSITORY_CONTENT
  | ContextAuthority.PROVIDER_CLAIM => AgentContextAuthority.PROVIDER_CLAIM
  end.

Definition agent_trust (t : ContextTrust.t) : AgentContextTrust.t :=
  match t with
  | ContextTrust.TRUSTED_CONTROL => AgentContextTrust.TRUSTED_CONTROL
  | ContextTrust.TRUSTED_LOCAL_EVIDENCE => AgentContextTrust.TRUSTED_LOCAL_EVIDENCE
  | ContextTrust.REPOSITORY_GOVERNANCE => AgentContextTrust.REPOSITORY_GOVERNANCE
  | ContextTrust.UNTRUSTED_REPOSITORY => AgentContextTrust.UNTRUSTED_REPOSITORY
  | ContextTrust.UNTRUSTED_TEST => AgentContextTrust.UNTRUSTED_TEST
  | ContextTrust.UNTRUSTED_PROVIDER => AgentContextTrust.UNTRUSTED_PROVIDER
  | ContextTrust.UNTRUSTED_DIAGNOSTIC => AgentContextTrust.UNTRUSTED_DIAGNOSTIC
  end.

Record ContextPackage := mk_ContextPackage {
  cp_schema_version : Z;
  cp_manifest : ContextManifest;
  cp_trusted_controls : list string;
  cp_untrusted_items : list ContextItem;
  cp_artifact_references : list AgentArtifactReference
}.

#[export] Instance ContextPackage_eq_dec : EqDecision ContextPackage.
Proof. solve_decision. Defined.

Definition control_reference (controls : string) : ContextReference :=
  mk_ContextReference "control.001" "trusted Revanent controls" None (Some controls)
    (Some AgentContextAuthority.REVANENT_SYSTEM_POLICY) (Some AgentContextTrust.TRUSTED_CONTROL)
    (Some (sha256_hex controls)) (Some (byte_len controls)) (Some (byte_len controls))
    (Some true) (Some (str_infix "[REDACTED]" controls)).

Definition reference_purpose (i : ContextItem) : string :=
  ascii_lower (ContextSource.value (ci_source i)) +:+ " context: " +:+ ci_reference i.

Definition item_reference (i : ContextItem) : ContextReference :=
  mk_ContextReference (ci_id i) (reference_purpose i) None (Some (ci_content i))
    (Some (agent_authority (ci_authority i))) (Some (agent_trust (ci_trust i)))
    (Some (ci_retained_digest_sha256 i)) (Some (ci_source_bytes i)) (Some (ci_retained_bytes i))
    (Some (bool_decide (ci_state i = ContextContentState.COMPLETE)))
    (Some (bool_decide (ci_redaction i = RedactionState.REDACTED))).

Definition is_referenced (i : ContextItem) : bool :=
  bool_decide (ci_state i = ContextContentState.REFERENCED).

(** The items whose content is handed over: a referenced duplicate is skipped. *)
Definition inline_items (items : list ContextItem) : list ContextItem :=
  filter (fun i => is_referenced i = false) items.

Definition reference_le (a b : ContextReference) : bool :=
  str_le (ctx_reference_id a) (ctx_reference_id b).

Definition agent_references (controls : list string) (items : list ContextItem)
    : res (list ContextReference) :=
  control ← validate_ContextReference (control_reference (str_join blank_line controls)) ;
  references ← traverse (fun i => validate_ContextReference (item_reference i)) (inline_items items) ;
  mret (py_sorted reference_le (control :: references)).

(** [item.retained_bytes or 0] *)
Definition reference_bytes (c : ContextReference) : Z := default 0 (ctx_retained_bytes c).

(** [enumerate(items, 1)] mapped through [_manifest_item]. *)
Definition manifest_items (items : list ContextItem) : res (list ContextManifestItem) :=
  traverse (fun p => _manifest_item p.1 p.2) (combine items (seqZ 1 (Z.of_nat (length items)))).

Definition _matches_manifest (p : ContextPackage) : res ContextPackage :=
  items ← manifest_items (cp_untrusted_items p) ;
  raise_if (negb (bool_decide (items = cm_items (cp_manifest p))))
    (ValueError "context package items must match manifest metadata") ;;
  _sorted_unique (artifact_key <$> cp_artifact_references p) "context package artifact references" ;;
  references ← agent_references (cp_trusted_controls p) (cp_untrusted_items p) ;
  raise_if (MAX_AGENT_OUTPUT_BYTES <? py_sum (reference_bytes <$> references))
    (ValueError "context package exceeds the aggregate agent request byte limit") ;;
  mret p.

Definition validate_ContextPackage (p : ContextPackage) : res ContextPackage :=
  require (cp_schema_version p =? 1) "schema_version" ;;
  manifest ← validate_ContextManifest (cp_manifest p) ;
  controls ← traverse (sized "trusted_controls" 1 8192) (cp_trusted_controls p) ;
  items ← traverse validate_ContextItem (cp_untrusted_items p) ;
  artifacts ← traverse validate_AgentArtifactReference (cp_artifact_references p) ;
  _matches_manifest (mk_ContextPackage (cp_schema_version p) manifest controls items artifacts).

(** ** Selection requests and results *)

Record ContextSelectionFailure := mk_ContextSelectionFailure {
  csf_code : string;
  csf_category : option ExclusionReason.t;
  csf_path : option string;
  csf_message : string;
  csf_blocking : bool
}.

#[export] Instance ContextSelectionFailure_eq_dec : EqDecision ContextSelectionFailure.
Proof. solve_decision. Defined.

Definition validate_ContextSelectionFailure (f : ContextSelectionFailure)
    : res ContextSelectionFailure :=
  code ← patterned "code" failure_code_pattern (csf_code f) ;
  path ← validate_optional RepositoryPath (csf_path f) ;
  message ← sized "message" 1 512 (csf_message f) ;
  mret (mk_ContextSelectionFailure code (csf_category f) path message (csf_blocking f)).

Record ContextSelectionResult := mk_ContextSelectionResult {
  csr_schema_version : Z;
  csr_package : option ContextPackage;
  csr_failure : option ContextSelectionFailure
}.

#[export] Instance ContextSelectionResult_eq_dec : EqDecision ContextSelectionResult.
Proof. solve_decision. Defined.

Definition _one_outcome (r : ContextSelectionResult) : res ContextSelectionResult :=
  raise_if (bool_decide (is_none (csr_package r) = is_none (csr_failure r)))
    (ValueError "context selection result requires exactly one outcome") ;;
  mret r.

Definition validate_ContextSelectionResult (r : ContextSelectionResult) : res ContextSelectionResult :=
  require (csr_schema_version r =? 1) "schema_version" ;;
  package ← validate_optional validate_ContextPackage (csr_package r) ;
  failure ← validate_optional validate_ContextSelectionFailure (csr_failure r) ;
  _one_outcome (mk_ContextSelectionResult (csr_schema_version r) package failure).

Record ContextSelectionRequest := mk_ContextSelectionRequest {
  csq_schema_version : Z;
  csq_request_id : string;
  csq_run_id : string;
  csq_work_package_id : string;
  csq_task : TaskSpecification;
  csq_role : AgentRole.t;
  csq_root : Path;
  csq_repository_reference : string;
  csq_worktree_reference : string;
  csq_candidates : list ContextCandidate;
  csq_discovery : ContextDiscoveryInput;
  csq_limits : ContextLimits;
  csq_trusted_controls : list string;
  csq_created_at : datetime;
  csq_baseline_bytes : option Z
}.

#[export] Instance ContextSelectionRequest_eq_dec : EqDecision ContextSelectionRequest.
Proof. solve_decision. Defined.

Definition _bounded (r : ContextSelectionRequest) : res ContextSelectionRequest :=
  raise_if (bool_decide (csq_trusted_controls r = []))
    (ValueError "context selection requires trusted controls") ;;
  raise_if (max_candidates (csq_limits r) <? Z.of_nat (length (csq_candidates r)))
    (ValueError "explicit context candidate count exceeds configured limit") ;;
  raise_if (String.eqb (csq_work_package_id r) "")
    (ValueError "work package identity is required") ;;
  mret r.

Definition validate_ContextSelectionRequest (r : ContextSelectionRequest)
    : res ContextSelectionRequest :=
  require (csq_schema_version r =? 1) "schema_version" ;;
  id ← patterned "request_id" reference_pattern (csq_request_id r) ;
  run_id ← RunId (csq_run_id r) ;
  work_package_id ← WorkPackageId (csq_work_package_id r) ;
  task ← validate_TaskSpecification (csq_task r) ;
  raise_if (negb (path_absolute (csq_root r))) (ValueError "context root must be absolute") ;;
  repository ← sized "repository_reference" 1 128 (csq_repository_reference r) ;
  worktree ← sized "worktree_reference" 1 128 (csq_worktree_reference r) ;
  candidates ← traverse validate_ContextCandidate (csq_candidates r) ;
  discovery ← validate_ContextDiscoveryInput (csq_discovery r) ;
  limits ← validate_ContextLimits (csq_limits r) ;
  controls ← traverse (sized "trusted_controls" 1 8192) (csq_trusted_controls r) ;
  created ← context_utc "context request timestamp" (csq_created_at r) ;
  require (match csq_baseline_bytes r with Some n => 0 <=? n | None => true end) "baseline_bytes" ;;
  _bounded
    (mk_ContextSelectionRequest (csq_schema_version r) id run_id work_package_id task (csq_role r)
       (csq_root r) repository worktree candidates discovery limits controls created
       (csq_baseline_bytes r)).

Definition context_item_id (run_id reference : string) (authority : ContextAuthority.t)
    (trust : ContextTrust.t) : string :=
  "ctx_" +:+ sha256_prefix 32
    (run_id +:+ ":" +:+ reference +:+ ":" +:+ ContextAuthority.value authority +:+ ":"
     +:+ ContextTrust.value trust).

(** ** Constructed values validate to themselves *)

Lemma sized_Ok name lo hi s t : sized name lo hi s = Ok t <-> t = s /\ in_range lo hi (py_len s) = true.
Proof. unfold sized. rewrite bind_require_Ok. unfold mret, result_ret. naive_solver. Qed.

Lemma patterned_Ok name p s t : patterned name p s = Ok t <-> t = s /\ matches p s = true.
Proof. unfold patterned. rewrite bind_require_Ok. unfold mret, result_ret. naive_solver. Qed.

Lemma context_utc_Ok label t u : context_utc label t = Ok u <-> u = t /\ is_utc t = true.
Proof.
  unfold context_utc. rewrite bind_raise_if_Ok, negb_false_iff. unfold mret, result_ret. naive_solver.
Qed.

#[export] Instance sized_idem n lo hi : Idem (sized n lo hi).
Proof. intros s t. rewrite !sized_Ok. naive_solver. Qed.
#[export] Instance patterned_idem n p : Idem (patterned n p).
Proof. intros s t. rewrite !patterned_Ok. naive_solver. Qed.
#[export] Instance context_utc_idem l : Idem (context_utc l).
Proof. intros s t. rewrite !context_utc_Ok. naive_solver. Qed.

Lemma validate_ContextLimits_id l m : validate_ContextLimits l = Ok m -> m = l.
Proof. unfold validate_ContextLimits. intros. by inv_valid. Qed.

#[export] Instance validate_ContextLimits_idem : Idem validate_ContextLimits.
Proof. intros l m H. by pose proof (validate_ContextLimits_id _ _ H) as ->. Qed.

#[export] Instance validate_ContextCandidate_idem : Idem validate_ContextCandidate.
Proof. unfold validate_ContextCandidate. solve_idem. Qed.
#[export] Instance validate_InlineContextEvidence_idem : Idem validate_InlineContextEvidence.
Proof. unfold validate_InlineContextEvidence. solve_idem. Qed.
#[export] Instance validate_ValidationContextEvidence_idem : Idem validate_ValidationContextEvidence.
Proof. unfold validate_ValidationContextEvidence. solve_idem. Qed.
#[export] Instance validate_ReviewContextEvidence_idem : Idem validate_ReviewContextEvidence.
Proof. unfold validate_ReviewContextEvidence. solve_idem. Qed.
#[export] Instance validate_PriorAttemptContextEvidence_idem : Idem validate_PriorAttemptContextEvidence.
Proof. unfold validate_PriorAttemptContextEvidence. solve_idem. Qed.
#[export] Instance validate_RepairDecisionContextEvidence_idem :
  Idem validate_RepairDecisionContextEvidence.
Proof. unfold validate_RepairDecisionContextEvidence. solve_idem. Qed.
#[export] Instance validate_GoverningContext_idem : Idem validate_GoverningContext.
Proof. unfold validate_GoverningContext. solve_idem. Qed.
#[export] Instance validate_ApprovedContextArtifact_idem : Idem validate_ApprovedContextArtifact.
Proof. unfold validate_ApprovedContextArtifact. solve_idem. Qed.

Lemma identities_id d e : _identities_are_unambiguous d = Ok e -> e = d.
Proof. unfold _identities_are_unambiguous. intros. by inv_valid. Qed.

#[export] Instance validate_ContextDiscoveryInput_idem : Idem validate_ContextDiscoveryInput.
Proof.
  unfold validate_ContextDiscoveryInput. intros d e H. inv_valid.
  pose proof (identities_id _ _ H) as ->. simpl in *. idem. done.
Qed.

Lemma content_accounting_id i j : _content_accounting i = Ok j -> j = i.
Proof. unfold _content_accounting. intros. by inv_valid. Qed.

#[export] Instance validate_ContextItem_idem : Idem validate_ContextItem.
Proof.
  unfold validate_ContextItem. intros i j H. inv_valid.
  pose proof (content_accounting_id _ _ H) as ->. simpl in *. idem. done.
Qed.

#[export] Instance validate_ContextManifestItem_idem : Idem validate_ContextManifestItem.
Proof. unfold validate_ContextManifestItem. solve_idem. Qed.
#[export] Instance validate_ContextExclusion_idem : Idem validate_ContextExclusion.
Proof. unfold validate_ContextExclusion. solve_idem. Qed.

Lemma canonical_id m n : _canonical m = Ok n -> n = m.
Proof. unfold _canonical. intros. by inv_valid. Qed.

#[export] Instance validate_ContextManifest_idem : Idem validate_ContextManifest.
Proof.
  unfold validate_ContextManifest. intros m n H. inv_valid.
  pose proof (canonical_id _ _ H) as ->. simpl in *. idem. done.
Qed.

Lemma matches_manifest_id p q : _matches_manifest p = Ok q -> q = p.
Proof. unfold _matches_manifest. intros. by inv_valid. Qed.

#[export] Instance validate_ContextPackage_idem : Idem validate_ContextPackage.
Proof.
  unfold validate_ContextPackage. intros p q H. inv_valid.
  pose proof (matches_manifest_id _ _ H) as ->. simpl in *. idem. done.
Qed.

#[export] Instance validate_ContextSelectionFailure_idem : Idem validate_ContextSelectionFailure.
Proof. unfold validate_ContextSelectionFailure. solve_idem. Qed.

#[export] Instance validate_ContextSelectionResult_idem : Idem validate_ContextSelectionResult.
Proof. unfold validate_ContextSelectionResult, _one_outcome. solve_idem. Qed.

Lemma bounded_id r s : _bounded r = Ok s -> s = r.
Proof. unfold _bounded. intros. by inv_valid. Qed.

#[export] Instance validate_ContextSelectionRequest_idem : Idem validate_ContextSelectionRequest.
Proof.
  unfold validate_ContextSelectionRequest. intros r s H. inv_valid.
  pose proof (bounded_id _ _ H) as ->. simpl in *. idem. done.
Qed.

(** ** When a package is accepted *)

#[local] Arguments sha256_hex : simpl never.
#[local] Arguments byte_len : simpl never.
#[local] Arguments py_len : simpl never.
#[local] Arguments matches : simpl never.

Lemma sha256_hex_matches s : matches _SHA256 (sha256_hex s) = true.
Proof.
  apply matches_spec. unfold sha256_hex. rewrite String.list_ascii_of_string_of_list_ascii.
  destruct (digest_bytes_shape (String.list_ascii_of_string s)) as [Hl Hh].
  rewrite <- (app_nil_r (digest_bytes _)). constructor; [lia|done|constructor].
Qed.

(** What the accounting rules give of a constructed item. *)
Record ContextItem_facts (i : ContextItem) : Prop := {
  cif_id : matches ctx_id_pattern (ci_id i) = true;
  cif_bytes : byte_len (ci_content i) = ci_retained_bytes i;
  cif_digest : sha256_hex (ci_content i) = ci_retained_digest_sha256 i;
  cif_source : 0 <= ci_source_bytes i <= 2097152;
  cif_retained : 0 <= ci_retained_bytes i <= 262144;
  cif_truncated : 0 <= ci_truncated_bytes i;
  cif_state : match ci_state i with
              | ContextContentState.COMPLETE =>
                  ci_source_bytes i = ci_retained_bytes i /\ ci_duplicate_of i = None
              | ContextContentState.TRUNCATED =>
                  ci_retained_bytes i < ci_source_bytes i /\ ci_duplicate_of i = None
              | ContextContentState.REFERENCED =>
                  ci_retained_bytes i = 0 /\ is_some (ci_duplicate_of i) = true
              end
}.

Lemma content_accounting_facts i j :
  _content_accounting i = Ok j -> 0 <= ci_truncated_bytes i ->
  match ci_state i with
  | ContextContentState.COMPLETE =>
      ci_source_bytes i = ci_retained_bytes i /\ ci_duplicate_of i = None
  | ContextContentState.TRUNCATED =>
      ci_retained_bytes i < ci_source_bytes i /\ ci_duplicate_of i = None
  | ContextContentState.REFERENCED =>
      ci_retained_bytes i = 0 /\ is_some (ci_duplicate_of i) = true
  end.
Proof.
  unfold _content_accounting. intros H Ht. inv_valid.
  destruct (ci_state j), (ci_duplicate_of j); decide_closed; inv_valid;
    cbn [is_none is_some negb andb orb] in *; bool_prop; try done; split; try done; lia.
Qed.

Lemma validate_ContextItem_facts i j : validate_ContextItem i = Ok j -> ContextItem_facts j.
Proof.
  unfold validate_ContextItem. intros H. inv_valid.
  pose proof (content_accounting_id _ _ H) as ->.
  pose proof (content_accounting_facts _ _ H) as Hs.
  unfold _content_accounting in H. inv_valid.
  repeat match goal with
  | H : patterned _ _ _ = Ok _ |- _ => apply patterned_Ok in H; destruct H as [-> ?]
  | H : in_range _ _ _ = true |- _ => unfold in_range in H
  end. bool_prop.
  cbn [ci_id ci_content ci_retained_bytes ci_retained_digest_sha256 ci_source_bytes
    ci_truncated_bytes ci_state ci_duplicate_of] in *.
  split; cbn [ci_id ci_content ci_retained_bytes ci_retained_digest_sha256 ci_source_bytes
    ci_truncated_bytes ci_state ci_duplicate_of]; try assumption; try lia.
  - by apply String.eqb_eq.
  - apply Hs. assumption.
Qed.

(** An inline reference carries no artifact: nothing of it is rewritten. *)
Lemma validate_ContextReference_inline c d :
  ctx_artifact c = None -> validate_ContextReference c = Ok d -> d = c.
Proof.
  unfold validate_ContextReference. intros Ha H. rewrite Ha in H. inv_valid.
  match goal with H : validate_optional _ None = Ok _ |- _ => injection H as <- end.
  rewrite (validate_context_id _ _ H), <- Ha. by destruct c.
Qed.

Lemma ctx_id_reference id : matches ctx_id_pattern id = true -> matches reference_pattern id = true.
Proof. apply matches_embed; [reflexivity|reflexivity|cbn; lia]. Qed.

Lemma reference_purpose_nonempty i : 1 <= py_len (reference_purpose i).
Proof.
  unfold reference_purpose. rewrite !py_len_app.
  pose proof (py_len_nonneg (ci_reference i)).
  destruct (ci_source i); vm_compute (py_len (ascii_lower _)); vm_compute (py_len " context: "); lia.
Qed.

(** The reference of an inline item is accepted exactly when its purpose fits. *)
Lemma item_reference_valid i :
  ContextItem_facts i -> is_referenced i = false ->
  validate_ContextReference (item_reference i)
  = if py_len (reference_purpose i) <=? 256 then Ok (item_reference i)
    else Err (ValueError "purpose").
Proof.
  intros [Hid Hb Hd Hs Hr Ht Hst] Href.
  pose proof (reference_purpose_nonempty i) as Hp.
  pose proof (py_len_le_byte_len (ci_content i)) as Hc.
  assert (Hc1 : (py_len (ci_content i) <=? 262144) = true) by (apply Z.leb_le; lia).
  assert (Hp1 : in_range 1 256 (py_len (reference_purpose i)) = (py_len (reference_purpose i) <=? 256)).
  { unfold in_range. by replace (1 <=? py_len (reference_purpose i)) with true by (symmetry; apply Z.leb_le; lia). }
  unfold validate_ContextReference, item_reference.
  cbn [ctx_reference_id ctx_purpose ctx_artifact ctx_content ctx_content_sha256 ctx_source_bytes
    ctx_retained_bytes ctx_authority ctx_trust ctx_complete ctx_redacted validate_optional].
  rewrite (ctx_id_reference _ Hid), Hp1, Hc1, <- Hd, sha256_hex_matches.
  unfold optional_range, in_range.
  replace (0 <=? ci_source_bytes i) with true by (symmetry; apply Z.leb_le; lia).
  replace (ci_source_bytes i <=? 2097152) with true by (symmetry; apply Z.leb_le; lia).
  replace (0 <=? ci_retained_bytes i) with true by (symmetry; apply Z.leb_le; lia).
  replace (ci_retained_bytes i <=? 262144) with true by (symmetry; apply Z.leb_le; lia).
  destruct (py_len (reference_purpose i) <=? 256); [|done].
  unfold _validate_context, inline_metadata_missing.
  cbn [ctx_reference_id ctx_purpose ctx_artifact ctx_content ctx_content_sha256 ctx_source_bytes
    ctx_retained_bytes ctx_authority ctx_trust ctx_complete ctx_redacted is_none is_some existsb
    mbind result_bind require raise_if negb andb orb].
  rewrite Hb, Z.eqb_refl, (bool_decide_refl (Some _)).
  unfold is_referenced in Href.
  destruct (ci_state i); decide_closed; try discriminate Href; destruct Hst as [Hst _].
  - rewrite Hst, Z.eqb_refl. reflexivity.
  - replace (ci_source_bytes i <=? ci_retained_bytes i) with false by (symmetry; apply Z.leb_gt; lia).
    reflexivity.
Qed.

(** The controls are accepted exactly when they fit in one reference. *)
Lemma control_reference_valid controls :
  validate_ContextReference (control_reference controls) = Ok (control_reference controls)
  <-> byte_len controls <= 262144.
Proof.
  pose proof (py_len_le_byte_len controls) as Hc.
  unfold validate_ContextReference, control_reference.
  cbn [ctx_reference_id ctx_purpose ctx_artifact ctx_content ctx_content_sha256 ctx_source_bytes
    ctx_retained_bytes ctx_authority ctx_trust ctx_complete ctx_redacted validate_optional].
  rewrite !bind_require_Ok, bind_Ok. rewrite sha256_hex_matches.
  unfold optional_range, in_range.
  assert (H0 : 0 <= byte_len controls) by (unfold byte_len; lia).
  split.
  - intros (_ & _ & ? & _ & Hrest). rewrite !bind_require_Ok in Hrest. bool_prop. lia.
  - intros Hle. split; [reflexivity|]. split; [reflexivity|]. eexists. split; [reflexivity|].
    replace (py_len controls <=? 262144) with true by (symmetry; apply Z.leb_le; lia).
    replace (0 <=? byte_len controls) with true by (symmetry; apply Z.leb_le; lia).
    replace (byte_len controls <=? 2097152) with true by (symmetry; apply Z.leb_le; lia).
    replace (byte_len controls <=? 262144) with true by (symmetry; apply Z.leb_le; lia).
    unfold _validate_context, inline_metadata_missing.
    cbn [ctx_reference_id ctx_purpose ctx_artifact ctx_content ctx_content_sha256 ctx_source_bytes
      ctx_retained_bytes ctx_authority ctx_trust ctx_complete ctx_redacted is_none is_some existsb
      mbind result_bind require raise_if negb andb orb].
    rewrite Z.eqb_refl, (bool_decide_refl (Some _)). reflexivity.
Qed.

Lemma manifest_item_valid i k :
  validate_ContextItem i = Ok i ->
  _manifest_item i k
  = if in_range 1 256 k then Ok (manifest_fields i k) else Err (ValueError "sequence").
Proof.
  destruct i. unfold validate_ContextItem. intros H. inv_valid.
  cbn [ci_schema_version ci_id ci_run_id ci_work_package_id ci_path ci_reference ci_kind ci_source
    ci_importance ci_authority ci_trust ci_role ci_reasons ci_priority ci_correlation_ids
    ci_source_bytes ci_retained_bytes ci_truncated_bytes ci_state ci_source_digest_sha256
    ci_retained_digest_sha256 ci_redaction ci_duplicate_of ci_content ci_artifact] in *.
  apply content_accounting_id in H. injection H as; subst.
  unfold _manifest_item, validate_ContextManifestItem, manifest_fields.
  cbn [ci_schema_version ci_id ci_run_id ci_work_package_id ci_path ci_reference ci_kind ci_source
    ci_importance ci_authority ci_trust ci_role ci_reasons ci_priority ci_correlation_ids
    ci_source_bytes ci_retained_bytes ci_truncated_bytes ci_state ci_source_digest_sha256
    ci_retained_digest_sha256 ci_redaction ci_duplicate_of ci_content ci_artifact
    mi_schema_version mi_sequence mi_id mi_path mi_reference mi_kind mi_source mi_importance
    mi_authority mi_trust mi_role mi_reasons mi_priority mi_correlation_ids mi_source_bytes
    mi_retained_bytes mi_truncated_bytes mi_state mi_source_digest_sha256
    mi_retained_digest_sha256 mi_redaction mi_duplicate_of mi_artifact].
  repeat match goal with H : require _ _ = Ok _ |- _ => apply require_Ok in H end.
  repeat match goal with H : ?b = true |- context [require ?b _] => rewrite H end.
  destruct (in_range 1 256 k); [|reflexivity].
  repeat match goal with H : ?m = Ok _ |- context [?m] => rewrite H end. reflexivity.
Qed.

Lemma enumerate_valid items k :
  Forall (fun i => validate_ContextItem i = Ok i) items -> 1 <= k ->
  k + Z.of_nat (length items) <= 257 ->
  traverse (fun p => _manifest_item p.1 p.2) (combine items (seqZ k (Z.of_nat (length items))))
  = Ok (zip_with manifest_fields items (seqZ k (Z.of_nat (length items)))).
Proof.
  intros Hv. revert k. induction Hv as [|i items Hi Hv IH]; intros k Hk Hn; [done|].
  cbn [length] in *. rewrite Nat2Z.inj_succ, seqZ_cons by lia. cbn [combine zip_with traverse fst snd].
  rewrite (manifest_item_valid i k Hi).
  replace (in_range 1 256 k) with true by (symmetry; unfold in_range; apply andb_true_iff; lia).
  rewrite Z.pred_succ, IH by lia. done.
Qed.

Lemma enumerate_Ok items k l :
  Forall (fun i => validate_ContextItem i = Ok i) items ->
  traverse (fun p => _manifest_item p.1 p.2) (combine items (seqZ k (Z.of_nat (length items)))) = Ok l ->
  l = zip_with manifest_fields items (seqZ k (Z.of_nat (length items))).
Proof.
  intros Hv. revert k l. induction Hv as [|i items Hi Hv IH]; intros k l.
  - by intros [= <-].
  - cbn [length]. rewrite Nat2Z.inj_succ, seqZ_cons by lia. cbn [combine zip_with traverse fst snd].
    rewrite (manifest_item_valid i k Hi). rewrite Z.pred_succ.
    destruct (in_range 1 256 k); [|done].
    destruct (traverse _ _) as [l'|] eqn:Ht; [|done]. intros [= <-]. f_equal. by apply IH.
Qed.

Lemma inline_references_valid items :
  Forall ContextItem_facts items ->
  Forall (fun i => is_referenced i = false -> py_len (reference_purpose i) <= 256) items ->
  traverse (fun i => validate_ContextReference (item_reference i)) (inline_items items)
  = Ok (item_reference <$> inline_items items).
Proof.
  intros Hf. induction Hf as [|i items Hi Hf IH]; intros Hp; [done|].
  inversion Hp as [|? ? Hpi Hps]; subst. unfold inline_items. rewrite filter_cons.
  destruct (decide (is_referenced i = false)) as [Hr|]; [|by apply IH].
  cbn [traverse fmap list_fmap]. rewrite (item_reference_valid i Hi Hr).
  replace (py_len (reference_purpose i) <=? 256) with true by (symmetry; apply Z.leb_le; auto).
  specialize (IH Hps). unfold inline_items in IH. setoid_rewrite IH. done.
Qed.

Lemma inline_references_Ok items l :
  Forall ContextItem_facts items ->
  traverse (fun i => validate_ContextReference (item_reference i)) (inline_items items) = Ok l ->
  Forall (fun i => is_referenced i = false -> py_len (reference_purpose i) <= 256) items.
Proof.
  intros Hf. revert l. induction Hf as [|i items Hi Hf IH]; intros l; [constructor|].
  unfold inline_items. rewrite filter_cons.
  destruct (decide (is_referenced i = false)) as [Hr|Hr].
  - cbn [traverse]. rewrite (item_reference_valid i Hi Hr).
    destruct (py_len (reference_purpose i) <=? 256) eqn:Hp; [|done].
    destruct (traverse _ _) as [l'|] eqn:Ht; [|done]. intros _. apply Z.leb_le in Hp.
    constructor; [done|]. by eapply IH.
  - intros Ht. constructor; [done|]. by eapply IH.
Qed.

Lemma inline_bytes items :
  Forall ContextItem_facts items ->
  py_sum (reference_bytes <$> (item_reference <$> inline_items items))
  = py_sum (ci_retained_bytes <$> items).
Proof.
  induction 1 as [|i items Hi Hf IH]; [done|]. unfold inline_items in *. rewrite filter_cons.
  destruct (decide (is_referenced i = false)) as [Hr|Hr].
  - cbn. unfold reference_bytes at 1. cbn. f_equal. exact IH.
  - etransitivity; [exact IH|]. apply not_false_is_true in Hr. unfold is_referenced in Hr.
    apply bool_decide_eq_true in Hr. pose proof (cif_state _ Hi) as Hs. rewrite Hr in Hs.
    cbn. destruct Hs as [-> _]. done.
Qed.

Lemma manifest_retained items k :
  mi_retained_bytes <$> zip_with manifest_fields items (seqZ k (Z.of_nat (length items)))
  = ci_retained_bytes <$> items.
Proof.
  revert k. induction items as [|i items IH]; intros k; [done|].
  cbn [length]. rewrite Nat2Z.inj_succ, seqZ_cons by lia. rewrite Z.pred_succ.
  cbn [zip_with fmap list_fmap]. f_equal. apply IH.
Qed.

Lemma manifest_ids items k :
  mi_id <$> zip_with manifest_fields items (seqZ k (Z.of_nat (length items))) = ci_id <$> items.
Proof.
  revert k. induction items as [|i items IH]; intros k; [done|].
  cbn [length]. rewrite Nat2Z.inj_succ, seqZ_cons by lia. rewrite Z.pred_succ.
  cbn [zip_with fmap list_fmap]. f_equal. apply IH.
Qed.

(** What the manifest's own rules give. *)
Record ContextManifest_facts (m : ContextManifest) : Prop := {
  cmf_included : cm_included_count m = Z.of_nat (length (cm_items m));
  cmf_candidates : cm_candidate_count m
    = Z.of_nat (length (cm_items m)) + Z.of_nat (length (cm_exclusions m))
      + cm_exclusion_overflow_count m;
  cmf_retained : cm_retained_bytes m = py_sum (mi_retained_bytes <$> cm_items m);
  cmf_budget : cm_retained_bytes m <= max_total_bytes (cm_limits m);
  cmf_count : Z.of_nat (length (cm_items m)) <= max_items (cm_limits m) <= 256;
  cmf_unique : NoDup (mi_id <$> cm_items m)
}.

Lemma manifest_facts m : validate_ContextManifest m = Ok m -> ContextManifest_facts m.
Proof.
  unfold validate_ContextManifest. intros H. inv_valid.
  pose proof (canonical_id _ _ H) as Hm. rewrite <- Hm in H. clear Hm.
  match goal with Hl : validate_ContextLimits _ = Ok _ |- _ =>
    assert (Hitems : max_items (cm_limits m) <= 256)
      by (unfold validate_ContextLimits, in_range in Hl; inv_valid; bool_prop; lia) end.
  unfold _canonical in H. inv_valid. bool_prop.
  split; try done; try lia. by apply has_duplicates_false.
Qed.

(** The parts of a package are constructed values. *)
Record package_parts (p : ContextPackage) : Prop := {
  pp_version : cp_schema_version p = 1;
  pp_manifest : validate_ContextManifest (cp_manifest p) = Ok (cp_manifest p);
  pp_controls : Forall (fun c => in_range 1 8192 (py_len c) = true) (cp_trusted_controls p);
  pp_items : Forall (fun i => validate_ContextItem i = Ok i) (cp_untrusted_items p);
  pp_artifacts : Forall (fun a => validate_AgentArtifactReference a = Ok a) (cp_artifact_references p)
}.

Lemma package_parts_Ok p q : validate_ContextPackage p = Ok q -> package_parts q.
Proof.
  intros H%idem. unfold validate_ContextPackage in H. inv_valid.
  pose proof (matches_manifest_id _ _ H) as Hq. destruct q. cbn in *. injection Hq as; subst.
  split; cbn; try done; try (by apply traverse_Ok_fix).
  - by apply Z.eqb_eq.
  - match goal with Hc : traverse (sized _ _ _) _ = Ok _ |- _ => apply traverse_Ok_fix in Hc;
      eapply Forall_impl; [exact Hc|] end.
    intros c Hs. exact (proj2 (proj1 (sized_Ok _ _ _ _ _) Hs)).
Qed.

Lemma package_item_facts p : package_parts p -> Forall ContextItem_facts (cp_untrusted_items p).
Proof.
  intros Hp. eapply Forall_impl; [apply (pp_items _ Hp)|].
  intros i. apply validate_ContextItem_facts.
Qed.

Lemma package_validates p :
  package_parts p -> validate_ContextPackage p = Ok p <-> _matches_manifest p = Ok p.
Proof.
  intros [Hv Hm Hc Hi Ha]. unfold validate_ContextPackage. rewrite Hv, Hm. cbn [mbind result_bind].
  rewrite (traverse_fix _ _ Hi), (traverse_fix _ _ Ha).
  rewrite (traverse_fix (sized "trusted_controls" 1 8192) (cp_trusted_controls p)).
  - destruct p; cbn in *. by subst.
  - eapply Forall_impl; [exact Hc|]. intros c Hs. by apply sized_Ok.
Qed.

Lemma agent_references_Ok controls items refs :
  Forall ContextItem_facts items ->
  agent_references controls items = Ok refs ->
  refs = py_sorted reference_le (control_reference (str_join blank_line controls)
                                 :: (item_reference <$> inline_items items))
  /\ byte_len (str_join blank_line controls) <= 262144
  /\ Forall (fun i => is_referenced i = false -> py_len (reference_purpose i) <= 256) items.
Proof.
  intros Hf H. unfold agent_references in H. inv_valid.
  pose proof Hv as Hc. apply validate_ContextReference_inline in Hc as ->; [|done].
  apply control_reference_valid in Hv. pose proof (inline_references_Ok _ _ Hf Hv0) as Hp.
  rewrite (inline_references_valid _ Hf Hp) in Hv0. injection Hv0 as <-. done.
Qed.

Lemma agent_references_valid controls items :
  Forall ContextItem_facts items ->
  byte_len (str_join blank_line controls) <= 262144 ->
  Forall (fun i => is_referenced i = false -> py_len (reference_purpose i) <= 256) items ->
  agent_references controls items
  = Ok (py_sorted reference_le (control_reference (str_join blank_line controls)
                                :: (item_reference <$> inline_items items))).
Proof.
  intros Hf Hc Hp. unfold agent_references. rewrite (proj2 (control_reference_valid _) Hc).
  by rewrite (inline_references_valid _ Hf Hp).
Qed.

Lemma references_bytes controls items :
  Forall ContextItem_facts items ->
  py_sum (reference_bytes <$> py_sorted reference_le
    (control_reference controls :: (item_reference <$> inline_items items)))
  = byte_len controls + py_sum (ci_retained_bytes <$> items).
Proof.
  intros Hf. rewrite (py_sum_perm _ (reference_bytes <$> (control_reference controls
    :: (item_reference <$> inline_items items)))) by (by rewrite py_sorted_perm).
  rewrite fmap_cons. cbn [py_sum foldr]. f_equal. apply inline_bytes, Hf.
Qed.

(** Given constructed parts, a context package is accepted exactly when its
    manifest lists the metadata of its items in order, the artifact references
    are sorted and unique, the trusted controls fit one agent reference, every
    inline item's purpose line fits its field, and controls and retained bytes
    together stay within what an agent request may carry. *)
Theorem package_accepted p (Hp : package_parts p) :
  let items := cp_untrusted_items p in
  let controls := str_join blank_line (cp_trusted_controls p) in
  validate_ContextPackage p = Ok p
  <-> cm_items (cp_manifest p) = zip_with manifest_fields items (seqZ 1 (Z.of_nat (length items)))
      /\ artifact_key <$> cp_artifact_references p
         = sorted_strings (artifact_key <$> cp_artifact_references p)
      /\ NoDup (artifact_key <$> cp_artifact_references p)
      /\ byte_len controls <= 262144
      /\ Forall (fun i => is_referenced i = false -> py_len (reference_purpose i) <= 256) items
      /\ byte_len controls + cm_retained_bytes (cp_manifest p) <= MAX_AGENT_OUTPUT_BYTES.
Proof.
  intros items controls. rewrite (package_validates p Hp).
  pose proof (package_item_facts p Hp) as Hf. pose proof (manifest_facts _ (pp_manifest _ Hp)) as Hm.
  unfold _matches_manifest, manifest_items. fold items. split.
  - intros H. inv_valid. bool_prop.
    apply (enumerate_Ok _ _ _ (pp_items _ Hp)) in Hv as ->. unfold _sorted_unique in *. inv_valid.
    bool_prop. apply (agent_references_Ok _ _ _ Hf) in Hv1 as (-> & Hc & Hpur).
    rewrite (references_bytes _ _ Hf) in *.
    rewrite (cmf_retained _ Hm), <- H0, manifest_retained.
    split_and!; try done. by apply has_duplicates_false.
  - intros (Hi & Hs & Hn & Hc & Hpur & Hb).
    assert (Hlen : Z.of_nat (length items) <= 256).
    { pose proof (cmf_count _ Hm) as Hcount. rewrite Hi, length_zip_with, length_seqZ in Hcount. lia. }
    rewrite (enumerate_valid _ _ (pp_items _ Hp)) by (fold items; lia). fold items.
    cbn [mbind result_bind]. rewrite <- Hi, bool_decide_refl. cbn [negb raise_if].
    unfold _sorted_unique. rewrite (bool_decide_eq_true_2 _ Hs).
    apply has_duplicates_false in Hn. rewrite Hn. cbn [negb orb raise_if].
    pose proof (agent_references_valid _ _ Hf Hc Hpur) as Hrefs. fold items in Hrefs.
    rewrite Hrefs. cbn [mbind result_bind].
    pose proof (references_bytes controls _ Hf) as Hbytes. fold items in Hbytes.
    fold controls. rewrite Hbytes.
    rewrite (cmf_retained _ Hm), Hi in Hb. unfold items in Hb. rewrite manifest_retained in Hb.
    replace (MAX_AGENT_OUTPUT_BYTES <? _) with false by (symmetry; apply Z.ltb_ge; exact Hb).
    done.
Qed.

Lemma inline_items_ids items : NoDup (ci_id <$> items) -> NoDup (ci_id <$> inline_items items).
Proof.
  unfold inline_items. induction items as [|i items IH]; [done|].
  rewrite fmap_cons. intros [Hi Hn]%NoDup_cons. rewrite filter_cons.
  destruct (decide (is_referenced i = false)); [|by apply IH].
  rewrite fmap_cons. apply NoDup_cons. split; [|by apply IH].
  rewrite list_elem_of_fmap in *. intros (j & Hj & Hin%list_elem_of_filter). apply Hi.
  exists j. naive_solver.
Qed.

Lemma control_id_fresh items :
  Forall ContextItem_facts items -> "control.001" ∉ (ci_id <$> items).
Proof.
  intros Hf. rewrite list_elem_of_fmap. intros (i & Hi & Hin).
  rewrite Forall_forall in Hf. pose proof (cif_id _ (Hf i Hin)) as Hid. rewrite <- Hi in Hid.
  vm_compute in Hid. discriminate Hid.
Qed.

(** Sorted distinct keys are canonical. *)
Lemma sorted_keys_canonical label keys :
  NoDup keys -> _require_sorted_unique str_le label (py_sorted str_le keys) = Ok tt.
Proof.
  intros Hn. unfold _require_sorted_unique.
  rewrite (py_sorted_idem str_le str_le_total str_le_trans), bool_decide_refl.
  apply raise_if_false, has_duplicates_false. by rewrite py_sorted_perm.
Qed.

(** An accepted package projects to valid agent references: the trusted
    controls and one reference per inline item, each with the digest and byte
    count of its content, sorted by distinct identifiers and within the
    aggregate byte limit, as an agent request demands. *)
Theorem package_references p q (H : validate_ContextPackage p = Ok q) :
  exists refs,
    agent_references (cp_trusted_controls q) (cp_untrusted_items q) = Ok refs
    /\ refs ≡ₚ control_reference (str_join blank_line (cp_trusted_controls q))
               :: (item_reference <$> inline_items (cp_untrusted_items q))
    /\ Forall (fun c => validate_ContextReference c = Ok c) refs
    /\ _require_sorted_unique str_le "context references" (ctx_reference_id <$> refs) = Ok tt
    /\ py_sum (reference_bytes <$> refs) <= MAX_AGENT_OUTPUT_BYTES.
Proof.
  pose proof (package_parts_Ok _ _ H) as Hp. pose proof (package_item_facts q Hp) as Hf.
  pose proof (manifest_facts _ (pp_manifest _ Hp)) as Hm.
  pose proof (idem _ _ H) as Hq. apply (package_validates q Hp) in Hq.
  unfold _matches_manifest in Hq. inv_valid. bool_prop.
  apply (enumerate_Ok _ _ _ (pp_items _ Hp)) in Hv as ->.
  pose proof (agent_references_Ok _ _ _ Hf Hv1) as (Hrefs & Hc & Hpur).
  exists v1. split; [done|]. split; [by rewrite Hrefs, py_sorted_perm|]. split; [|split; [|done]].
  - rewrite Hrefs, py_sorted_perm. constructor; [by apply control_reference_valid|].
    apply Forall_fmap, Forall_forall. intros i Hin. unfold inline_items in Hin.
    apply list_elem_of_filter in Hin as [Hr Hin]. rewrite Forall_forall in Hf, Hpur. cbn.
    rewrite (item_reference_valid i (Hf i Hin) Hr), (proj2 (Z.leb_le _ _) (Hpur i Hin Hr)). done.
  - rewrite Hrefs. unfold reference_le.
    rewrite (py_sorted_fmap str_le ctx_reference_id). apply sorted_keys_canonical.
    rewrite fmap_cons. apply NoDup_cons. rewrite <- list_fmap_compose.
    pose proof (cmf_unique _ Hm) as Hn. rewrite <- H0, manifest_ids in Hn.
    split; [|by apply (inline_items_ids _ Hn)].
    intros Hin. apply (control_id_fresh _ Hf). unfold inline_items in Hin.
    apply list_elem_of_fmap in Hin as (i & Heq & Hi%list_elem_of_filter).
    apply list_elem_of_fmap. exists i. split; [exact Heq|apply Hi].
Qed.

(** An item whose reference is too long for the purpose line of an agent
    reference, although a context item may carry it, makes the package
    constructor raise. *)
Theorem overlong_reference_refused p i
    (Hi : i ∈ cp_untrusted_items p) (Hv : validate_ContextItem i = Ok i)
    (Hr : is_referenced i = false) (Hlen : 256 < py_len (reference_purpose i)) :
  is_ok (validate_ContextPackage p) = false.
Proof.
  destruct (validate_ContextPackage p) as [q|e] eqn:H; [|done]. exfalso.
  pose proof (package_parts_Ok _ _ H) as Hp. pose proof (package_item_facts q Hp) as Hf.
  pose proof (idem _ _ H) as Hq. pose proof Hq as Hq'. apply (package_validates q Hp) in Hq.
  unfold _matches_manifest in Hq. inv_valid.
  pose proof (agent_references_Ok _ _ _ Hf Hv2) as (_ & _ & Hpur).
  assert (Hin : i ∈ cp_untrusted_items q).
  { unfold validate_ContextPackage in H. inv_valid. apply matches_manifest_id in H. subst q. cbn.
    match goal with Ht : traverse validate_ContextItem _ = Ok _ |- _ =>
      apply traverse_Forall2 in Ht; rename Ht into Hall end.
    apply list_elem_of_lookup in Hi as [n Hn].
    destruct (Forall2_lookup_l _ _ _ _ _ Hall Hn) as (j & Hj & Hij).
    rewrite Hv in Hij. injection Hij as <-. by eapply list_elem_of_lookup_2. }
  rewrite Forall_forall in Hpur. specialize (Hpur i Hin Hr). lia.
Qed.

(** ** A concrete package *)

Module ContextSample.
Definition digest_abc := "ba7816bf8f01cfea414140de5dae2223b00361a396177a9cb410ff61f20015ad".
Definition run_id := "run_00000000000000000000000000000001".
Definition item (reference : string) : ContextItem :=
  mk_ContextItem 1
    (context_item_id run_id reference ContextAuthority.REPOSITORY_CONTENT
       ContextTrust.UNTRUSTED_REPOSITORY)
    run_id "P5-001" (Some reference) reference ContextCandidateKind.REPOSITORY_FILE
    ContextSource.TASK_PATH ContextImportance.REQUIRED ContextAuthority.REPOSITORY_CONTENT
    ContextTrust.UNTRUSTED_REPOSITORY AgentRole.BUILDER [InclusionReason.EXPLICIT_TASK_PATH] 10 []
    3 3 0 ContextContentState.COMPLETE digest_abc digest_abc RedactionState.NOT_NEEDED None "abc"
    None.
Definition limits := mk_ContextLimits 128 64 128 262144 32768 262144 65536 131072 1 32 32 2048 1.
Definition manifest (i : ContextItem) : ContextManifest :=
  mk_ContextManifest 1
    ("ctxmanifest_" +:+ digest_abc) run_id "P5-001" "task" AgentRole.BUILDER "repository"
    "worktree" CONTEXT_SELECTION_POLICY_VERSION (utc 0) limits [manifest_fields i 1] [] 0 1 1 0 1 0 0
    3 3 0 0 0 BaselineKind.AUTHORIZED_CANDIDATES 3 (float_of_Z 1) true []
    ContextSelectionStatus.COMPLETE.
Definition package (i : ContextItem) : ContextPackage :=
  mk_ContextPackage 1 (manifest i) ["Stay within the task."] [i] [].
Definition short := item "src/a.py".
(** A path of 250 bytes is a repository path and a reference of at most 512 characters. *)
Definition long := item ("src/" +:+ String.string_of_list_ascii (replicate 246 "a"%char)).
End ContextSample.

Example sample_package_Ok :
  validate_ContextPackage (ContextSample.package ContextSample.short)
  = Ok (ContextSample.package ContextSample.short).
Proof. vm_compute. reflexivity. Qed.

Lemma package_accepted_witness :
  let p := ContextSample.package ContextSample.short in
  package_parts p /\
  (byte_len (str_join blank_line (cp_trusted_controls p)) <= 262144).
Proof.
  split; [apply (package_parts_Ok _ _ sample_package_Ok)|].
  apply (package_accepted (ContextSample.package ContextSample.short)).
  - apply (package_parts_Ok _ _ sample_package_Ok).
  - vm_compute. reflexivity.
Defined.

Lemma package_references_witness :
  exists refs,
    agent_references ["Stay within the task."] [ContextSample.short] = Ok refs
    /\ py_sum (reference_bytes <$> refs) <= MAX_AGENT_OUTPUT_BYTES.
Proof.
  destruct (package_references (ContextSample.package ContextSample.short) _
    ltac:(vm_compute; reflexivity)) as (refs & Hrefs & _ & _ & _ & Hb).
  exists refs. split; [exact Hrefs|exact Hb].
Defined.

Lemma overlong_reference_refused_witness :
  validate_ContextItem ContextSample.long = Ok ContextSample.long
  /\ is_ok (validate_ContextPackage (ContextSample.package ContextSample.long)) = false.
Proof.
  split; [vm_compute; reflexivity|].
  apply (overlong_reference_refused _ ContextSample.long).
  - constructor.
  - vm_compute. reflexivity.
  - vm_compute. reflexivity.
  - vm_compute. reflexivity.
Defined.
