(* ===== verification/CommandPolicy.v ===== *)
(** * Command policies ([src/src/revanent/commands/policy.py])

    What a controlled command may run, where, and with which environment: the
    resource ceilings, the executable allowlist with its ordered candidates, the
    containment of working directories and artifacts, and the child environment.
    The file system is an interface of effectful questions. *)

From Stdlib Require Import ZArith Lia Ascii String.
From S2P Require Import Prelude Text Domain Effects Commands.
From stdpp Require Import base option strings numbers gmap sets list list_relations.

Open Scope Z_scope.

(** ** The file system *)

(** The methods of [pathlib.Path] and [os] that look at the file system; each may
    also change the world or raise. *)
Class FileSystem (E : Type) := {
  fs_resolve : bool -> Path -> M E Path;     (* [path.resolve(strict=...)] *)
  fs_is_dir : Path -> M E bool;
  fs_is_file : Path -> M E bool;
  fs_executable : Path -> M E bool;          (* [os.access(path, os.X_OK)] *)
  fs_exists : Path -> M E bool;
  fs_is_symlink : Path -> M E bool;
  fs_lexists : Path -> M E bool              (* [os.path.lexists(path)] *)
}.

(** The exceptions of the command boundary. *)
Definition CommandPolicyError : string -> exn := BoundaryError "CommandPolicyError".
Definition ExecutablePolicyError : string -> exn := BoundaryError "ExecutablePolicyError".
Definition ExecutableUnavailableError : string -> exn := BoundaryError "ExecutableUnavailableError".
Definition WorkingDirectoryPolicyError : string -> exn := BoundaryError "WorkingDirectoryPolicyError".
Definition EnvironmentPolicyError : string -> exn := BoundaryError "EnvironmentPolicyError".
Definition OutputArtifactPolicyError : string -> exn := BoundaryError "OutputArtifactPolicyError".

Definition is_class (class : string) (e : exn) : bool :=
  match e with BoundaryError c _ => String.eqb c class | _ => false end.

(** [except (OSError, RuntimeError)] *)
Definition is_os_error (e : exn) : bool := match e with OSError => true | _ => false end.

(** ** Spellings *)

(** [_EXECUTABLE_NAME]: [^[A-Za-z0-9][A-Za-z0-9_.+-]{0,127}$] *)
Definition _EXECUTABLE_NAME : list pat := [Cls is_alnum 1 1; Cls (in_class "_.+-" is_alnum) 0 127].

Definition is_alpha (c : ascii) : bool := is_upper c || is_lower c.

(** [_ENVIRONMENT_KEY]: [^[A-Za-z_][A-Za-z0-9_]*$] *)
Definition _ENVIRONMENT_KEY (s : string) : bool :=
  match s with
  | EmptyString => false
  | String c s => in_class "_" is_alpha c
                  && forallb (in_class "_" is_alnum) (String.list_ascii_of_string s)
  end.

(** [casefold] and [upper] of the one-byte characters; the spellings they are
    applied to hold no others. *)
Definition ascii_lower (c : ascii) : ascii :=
  if is_upper c then ascii_of_N (N_of_ascii c + 32) else c.
Definition ascii_upper (c : ascii) : ascii :=
  if is_lower c then ascii_of_N (N_of_ascii c - 32) else c.
Definition map_string (f : ascii -> ascii) (s : string) : string :=
  String.string_of_list_ascii (f <$> String.list_ascii_of_string s).
Definition casefold : string -> string := map_string ascii_lower.
Definition upper : string -> string := map_string ascii_upper.

Definition sensitive_words : list (list ascii) :=
  String.list_ascii_of_string <$>
    ["api_key"; "apikey"; "auth"; "authorization"; "credential"; "password"; "passwd"; "secret"; "token"].

(** The word is here and ends at an underscore or at the end. *)
Definition word_at (l word : list ascii) : bool :=
  match drop_prefix word l with
  | Some [] => true
  | Some (c :: _) => Ascii.eqb c "_"
  | None => false
  end.

(** [_SENSITIVE_KEY.search]: a word begins at the start or after an underscore. *)
Fixpoint sensitive_from (boundary : bool) (l : list ascii) : bool :=
  boundary && existsb (word_at l) sensitive_words
  || match l with [] => false | c :: l => sensitive_from (Ascii.eqb c "_") l end.

Definition _SENSITIVE_KEY (key : string) : bool :=
  sensitive_from true (String.list_ascii_of_string (casefold key)).

Definition replace_char (a b : ascii) (s : string) : string :=
  map_string (fun c => if Ascii.eqb c a then b else c) s.

Definition backslash : ascii := "\".

Definition _is_unc (path : Path) : bool :=
  starts_with "\\" (replace_char "/" backslash (path_str path)).

(** What follows a drive: any one character and a colon. *)
Fixpoint skip_continuation (s : string) : string :=
  match s with String c s' => if is_continuation c then skip_continuation s' else s | EmptyString => s end.

Definition drive_rest (s : string) : option string :=
  match s with
  | String _ s => match skip_continuation s with String c rest => if Ascii.eqb c ":" then Some rest else None | EmptyString => None end
  | EmptyString => None
  end.

(** [PureWindowsPath(s).is_absolute()]: a drive with a root, or two separators. *)
Definition windows_absolute (s : string) : bool :=
  let s := replace_char "/" backslash s in
  starts_with "\\" s || match drive_rest s with Some rest => starts_with "\" rest | None => false end.

Definition _is_absolute_on_any_supported_platform (path : Path) : bool :=
  path_absolute path || windows_absolute (path_str path) || starts_with "/" (path_str path).

Definition _contains (root candidate : Path) : bool := is_some (relative_to candidate root).

(** [path.name] and [path.suffix] *)
Definition path_name (p : Path) : string := default "" (last (path_parts p)).

Fixpoint last_dot (l : list ascii) : option (list ascii) :=
  match l with
  | [] => None
  | c :: l =>
      match last_dot l with
      | Some suffix => Some suffix
      | None => if Ascii.eqb c "." then Some (c :: l) else None
      end
  end.

(** From the last dot, unless it is the first or the last character. *)
Definition name_suffix (name : string) : string :=
  match String.list_ascii_of_string name with
  | [] => ""
  | _ :: rest =>
      match last_dot rest with
      | Some (c :: d :: suffix) => String.string_of_list_ascii (c :: d :: suffix)
      | _ => ""
      end
  end.

Definition suffix (p : Path) : string := name_suffix (path_name p).

(** ** Resource ceilings *)

Record CommandPolicy := mk_CommandPolicy {
  max_timeout_seconds : Z;
  max_stdout_bytes : Z;
  max_stderr_bytes : Z;
  max_artifact_bytes_per_stream : Z;
  max_stdin_bytes : Z;
  allow_stdin : bool;
  allow_artifacts : bool
}.

Definition within_ceiling (lo value maximum : Z) : bool := in_range lo maximum value.

Definition validate_CommandPolicy (p : CommandPolicy) : res CommandPolicy :=
  raise_if (negb (within_ceiling 1 (max_timeout_seconds p) MAX_TIMEOUT_SECONDS))
    (ValueError "command policy timeout ceiling is invalid") ;;
  raise_if (negb (within_ceiling 1 (max_stdout_bytes p) MAX_STREAM_CAPTURE_BYTES))
    (ValueError "command policy stdout ceiling is invalid") ;;
  raise_if (negb (within_ceiling 1 (max_stderr_bytes p) MAX_STREAM_CAPTURE_BYTES))
    (ValueError "command policy stderr ceiling is invalid") ;;
  raise_if (negb (within_ceiling 1 (max_artifact_bytes_per_stream p) MAX_STREAM_ARTIFACT_BYTES))
    (ValueError "command policy artifact ceiling is invalid") ;;
  raise_if (negb (within_ceiling 0 (max_stdin_bytes p) MAX_STDIN_BYTES))
    (ValueError "command policy stdin ceiling is invalid") ;;
  mret p.

(** [CommandPolicy.validate] *)
Definition authorize_command (p : CommandPolicy) (request : CommandRequest) : res unit :=
  let output := req_output_limits request in
  raise_if (max_timeout_seconds p <? req_timeout_seconds request)
    (CommandPolicyError "command timeout exceeds runner policy") ;;
  raise_if (max_stdout_bytes p <? stdout_bytes output)
    (CommandPolicyError "stdout capture exceeds runner policy") ;;
  raise_if (max_stderr_bytes p <? stderr_bytes output)
    (CommandPolicyError "stderr capture exceeds runner policy") ;;
  raise_if (max_artifact_bytes_per_stream p <? artifact_bytes_per_stream output)
    (CommandPolicyError "artifact capture exceeds runner policy") ;;
  raise_if (match req_stdin request with
            | Some stdin => negb (allow_stdin p) || (max_stdin_bytes p <? byte_len stdin)
            | None => false
            end)
    (CommandPolicyError "standard input is not authorized by runner policy") ;;
  raise_if (is_some (req_artifact_directory request) && negb (allow_artifacts p))
    (CommandPolicyError "output artifacts are not authorized by runner policy").

(** ** Executables *)

Record ExecutableRule := mk_ExecutableRule {
  rule_name : string;
  candidates : list Path;
  allowed_extensions : list string
}.

(** [name.casefold()] with a leading dot. *)
Definition normalized_extension (extension : string) : string :=
  if starts_with "." extension then casefold extension else "." +:+ casefold extension.

Definition simple_suffix : list pat :=
  [Lit "."; Cls (fun c => is_lower c || is_digit c) 1 15].

Definition has_separator (s : string) : bool := str_contains "/" s || str_contains backslash s.

Definition is_simple_name (name : string) : bool :=
  matches _EXECUTABLE_NAME name && negb (has_separator name).

Definition check_candidate (extensions : list string) (candidate : Path) : res Path :=
  raise_if (negb (path_absolute candidate))
    (ValueError "executable candidates must be absolute pathlib paths") ;;
  raise_if (str_contains nul (path_str candidate))
    (ValueError "executable candidates cannot contain null bytes") ;;
  raise_if (negb (bool_decide (extensions = []))
            && negb (bool_decide (casefold (suffix candidate) ∈ extensions)))
    (ValueError "executable candidate extension is not explicitly authorized") ;;
  mret candidate.

(** [ExecutableRule.__post_init__] *)
Definition validate_ExecutableRule (r : ExecutableRule) : res ExecutableRule :=
  raise_if (negb (is_simple_name (rule_name r)))
    (ValueError "executable rule names must be simple names") ;;
  raise_if (bool_decide (candidates r = []))
    (ValueError "an executable rule requires at least one candidate") ;;
  let extensions := normalized_extension <$> allowed_extensions r in
  raise_if (has_duplicates extensions || existsb (fun e => negb (matches simple_suffix e)) extensions)
    (ValueError "authorized executable extensions must be unique simple suffixes") ;;
  traverse (check_candidate extensions) (candidates r) ;;
  mret (mk_ExecutableRule (rule_name r) (candidates r) extensions).

Record ExecutablePolicy := mk_ExecutablePolicy {
  rules : list ExecutableRule;
  ep_windows : bool;
  _rules_by_name : list (string * ExecutableRule)
}.

Definition rule_key (windows : bool) (name : string) : string :=
  if windows then casefold name else name.

Fixpoint index_rules (windows : bool) (rules : list ExecutableRule)
    (by_name : list (string * ExecutableRule)) : res (list (string * ExecutableRule)) :=
  match rules with
  | [] => mret by_name
  | rule :: rules =>
      let key := rule_key windows (rule_name rule) in
      raise_if (is_some (dict_get key by_name)) (ValueError "executable rule names must be unique") ;;
      index_rules windows rules (dict_set key rule by_name)
  end.

Definition make_ExecutablePolicy (rules : list ExecutableRule) (windows : bool) : res ExecutablePolicy :=
  by_name ← index_rules windows rules [] ;
  raise_if (bool_decide (by_name = [])) (ValueError "executable policy requires at least one rule") ;;
  mret (mk_ExecutablePolicy rules windows by_name).

(** [PureWindowsPath(executable).drive] is not empty. *)
Definition has_drive (s : string) : bool := is_some (drive_rest s).

(** The candidate names of one executable and the extensions that go with them. *)
Definition candidate_names (windows : bool) (extensions : list string) (name : string)
    : res (list string * list string) :=
  raise_if (negb (is_simple_name name)) (ValueError "executable names must be simple names") ;;
  let suffix := casefold (name_suffix name) in
  if windows then
    if negb (String.eqb suffix "") then
      raise_if (negb (bool_decide (suffix ∈ extensions)))
        (ValueError "requested executable extension is not authorized") ;;
      mret ([name], [suffix])
    else mret ((fun extension => name +:+ extension) <$> extensions, extensions)
  else mret ([name], []).

Definition rule_of (windows : bool) (extensions : list string) (directories : list Path) (name : string)
    : res ExecutableRule :=
  found ← candidate_names windows extensions name ;
  validate_ExecutableRule
    (mk_ExecutableRule name
       (mjoin ((fun directory => (fun candidate => joinpath directory [candidate]) <$> found.1)
                 <$> directories))
       found.2).

Section FileSystem.
Context {E : Type} `{!FileSystem E}.

(** The value of a question that answers false when the file system raises. *)
Definition resolved_or_none (strict : bool) (path : Path) : M E (option Path) :=
  try_except (Some <$> fs_resolve strict path) is_os_error (fun _ => mret None).

(** The directories of a search path, in order. *)
Fixpoint search_directories (excluded : list Path) (raw : list string) (directories : list Path)
    : M E (list Path) :=
  match raw with
  | [] => mret directories
  | r :: raw =>
      let directory := path_of r in
      if String.eqb r "" || negb (path_absolute directory) || _is_unc directory
      then search_directories excluded raw directories
      else
        resolved ← fs_resolve false directory ;
        if existsb (fun root => _contains root resolved) excluded || bool_decide (directory ∈ directories)
        then search_directories excluded raw directories
        else search_directories excluded raw (directories ++ [directory])
  end.

Fixpoint resolve_all (strict : bool) (paths : list Path) : M E (list Path) :=
  match paths with
  | [] => mret []
  | p :: paths => q ← fs_resolve strict p ; qs ← resolve_all strict paths ; mret (q :: qs)
  end.

Definition from_search_path (names : list string) (search_path : string) (windows : bool)
    (windows_extensions : list string) (excluded_roots : list Path) : M E ExecutablePolicy :=
  lift (raise_if (existsb (fun root => negb (path_absolute root)) excluded_roots)
          (ValueError "excluded executable roots must be absolute pathlib paths")) ;;
  excluded ← resolve_all false excluded_roots ;
  directories ← search_directories excluded
                  (split_char (if windows then ";" else ":") search_path) [] ;
  lift (
    raise_if (bool_decide (directories = []))
      (ValueError "search path has no absolute local directories") ;;
    let extensions := normalized_extension <$> windows_extensions in
    rules ← traverse (rule_of windows extensions directories) names ;
    make_ExecutablePolicy rules windows).

(** Whether a resolved candidate can be used. *)
Definition usable (policy : ExecutablePolicy) (rule : ExecutableRule) (candidate resolved : Path)
    : M E bool :=
  file ← fs_is_file resolved ;
  if negb file then mret false
  else if negb (bool_decide (allowed_extensions rule = []))
          && (negb (bool_decide (casefold (suffix candidate) ∈ allowed_extensions rule))
              || negb (bool_decide (casefold (suffix resolved) ∈ allowed_extensions rule)))
  then mret false
  else if ep_windows policy then mret true
  else fs_executable resolved.

Fixpoint first_usable (policy : ExecutablePolicy) (rule : ExecutableRule) (paths : list Path)
    : M E Path :=
  match paths with
  | [] => raise (ExecutableUnavailableError "authorized executable is unavailable")
  | candidate :: paths =>
      resolved ← resolved_or_none true candidate ;
      match resolved with
      | None => first_usable policy rule paths
      | Some resolved =>
          ok ← usable policy rule candidate resolved ;
          if (ok : bool) then mret resolved else first_usable policy rule paths
      end
  end.

(** [ExecutablePolicy.resolve] *)
Definition resolve_executable (policy : ExecutablePolicy) (executable : string) : M E Path :=
  lift (raise_if (negb (is_simple_name executable))
          (ExecutablePolicyError "executable must be an authorized simple name")) ;;
  lift (raise_if (has_drive executable) (ExecutablePolicyError "executable paths are not accepted")) ;;
  match dict_get (rule_key (ep_windows policy) executable) (_rules_by_name policy) with
  | None => raise (ExecutablePolicyError "executable is not authorized by policy")
  | Some rule => first_usable policy rule (candidates rule)
  end.

(** ** Paths *)

Record PathPolicy := mk_PathPolicy {
  approved_roots : list Path;
  artifact_roots : list Path;
  allow_unc : bool;
  allow_filesystem_root : bool
}.

Definition resolve_root (unc filesystem_root : bool) (label : string) (root : Path) : M E Path :=
  lift (raise_if (_is_unc root && negb unc)
          (ValueError (label +:+ " UNC roots require explicit authorization"))) ;;
  lift (raise_if (negb (path_absolute root))
          (ValueError (label +:+ " roots must be absolute pathlib paths"))) ;;
  let missing := ValueError (label +:+ " root must be an existing directory") in
  resolved ← try_except (fs_resolve true root) is_os_error (fun _ => raise missing) ;
  directory ← fs_is_dir resolved ;
  lift (raise_if (negb directory) missing) ;;
  lift (raise_if (bool_decide (path_parts resolved = []) && negb filesystem_root)
          (ValueError "filesystem roots require explicit authorization")) ;;
  mret resolved.

Fixpoint _resolve_roots (unc filesystem_root : bool) (label : string) (roots resolved_roots : list Path)
    : M E (list Path) :=
  match roots with
  | [] => mret resolved_roots
  | root :: roots =>
      resolved ← resolve_root unc filesystem_root label root ;
      _resolve_roots unc filesystem_root label roots
        (if bool_decide (resolved ∈ resolved_roots) then resolved_roots else resolved_roots ++ [resolved])
  end.

(** [PathPolicy.__post_init__] *)
Definition make_PathPolicy (p : PathPolicy) : M E PathPolicy :=
  approved ← _resolve_roots (allow_unc p) (allow_filesystem_root p) "approved" (approved_roots p) [] ;
  artifacts ← _resolve_roots (allow_unc p) (allow_filesystem_root p) "artifact" (artifact_roots p) [] ;
  lift (raise_if (bool_decide (approved = []))
          (ValueError "path policy requires at least one approved root")) ;;
  mret (mk_PathPolicy approved artifacts (allow_unc p) (allow_filesystem_root p)).

(** An existing directory inside one of the roots; [error] builds the refusal. *)
Definition contained_directory (p : PathPolicy) (roots : list Path) (path : Path)
    (error : string -> exn) (absolute unc unavailable not_directory outside : string) : M E Path :=
  lift (raise_if (negb (path_absolute path)) (error absolute)) ;;
  lift (raise_if (_is_unc path && negb (allow_unc p)) (error unc)) ;;
  resolved ← try_except (fs_resolve true path) is_os_error (fun _ => raise (error unavailable)) ;
  directory ← fs_is_dir resolved ;
  lift (raise_if (negb directory) (error not_directory)) ;;
  lift (raise_if (negb (existsb (fun root => _contains root resolved) roots)) (error outside)) ;;
  mret resolved.

Definition resolve_working_directory (p : PathPolicy) (path : Path) : M E Path :=
  contained_directory p (approved_roots p) path WorkingDirectoryPolicyError
    "working directory must be an absolute pathlib path" "UNC working directories are not authorized"
    "working directory is unavailable" "working directory is not a directory"
    "working directory is outside approved roots".

Definition resolve_relative (p : PathPolicy) (root relative_path : Path) (must_exist : bool) : M E Path :=
  canonical_root ← resolve_working_directory p root ;
  lift (raise_if (_is_absolute_on_any_supported_platform relative_path)
          (WorkingDirectoryPolicyError "path must be relative to its approved root")) ;;
  lift (raise_if (bool_decide (".." ∈ path_parts (path_of (replace_char backslash "/" (path_str relative_path)))))
          (WorkingDirectoryPolicyError "relative path cannot contain parent traversal")) ;;
  resolved ← try_except (fs_resolve must_exist (joinpath canonical_root (path_parts relative_path)))
               is_os_error (fun _ => raise (WorkingDirectoryPolicyError "relative path is unavailable")) ;
  lift (raise_if (negb (_contains canonical_root resolved))
          (WorkingDirectoryPolicyError "relative path escapes its approved root")) ;;
  mret resolved.

Definition resolve_artifact_directory (p : PathPolicy) (path : Path) : M E Path :=
  lift (raise_if (bool_decide (artifact_roots p = []))
          (OutputArtifactPolicyError "command artifacts are not enabled")) ;;
  contained_directory p (artifact_roots p) path OutputArtifactPolicyError
    "artifact directory must be an absolute pathlib path" "UNC artifact directories are not authorized"
    "artifact directory is unavailable" "artifact directory is not a directory"
    "artifact directory is outside artifact roots".

Definition artifact_path (p : PathPolicy) (directory : Path) (filename : string) : M E Path :=
  canonical_directory ← resolve_artifact_directory p directory ;
  lift (raise_if (String.eqb filename "" || negb (String.eqb (path_name (path_of filename)) filename)
                  || has_separator filename || str_contains nul filename)
          (OutputArtifactPolicyError "artifact filename is invalid")) ;;
  target ← fs_resolve false (joinpath canonical_directory (path_parts (path_of filename))) ;
  lift (raise_if (negb (_contains canonical_directory target))
          (OutputArtifactPolicyError "artifact target escapes its directory")) ;;
  mret target.
End FileSystem.

(** ** Environments *)

Record EnvironmentPolicy := mk_EnvironmentPolicy {
  baseline : list (string * string);
  allowed_override_keys : gset string;
  forbidden_keys : gset string;
  allowed_sensitive_keys : gset string;
  env_windows : bool;
  (* derived, under normalized keys *)
  _baseline : list (string * string);
  _allowed : gset string;
  _forbidden : gset string;
  _sensitive : gset string
}.

Definition _key (windows : bool) (key : string) : string := if windows then upper key else key.

Definition _validate_pair (windows : bool) (key value : string) : res string :=
  raise_if (negb (_ENVIRONMENT_KEY key) || str_contains nul key || str_contains nul value)
    (ValueError "environment keys and values use invalid process syntax") ;;
  raise_if (MAX_ENVIRONMENT_VALUE_BYTES <? byte_len value)
    (ValueError "environment values are limited to 32768 bytes") ;;
  mret (_key windows key).

(** The loop over [baseline.items()]. *)
Fixpoint normalize_baseline (windows : bool) (forbidden sensitive : gset string)
    (items normalized : list (string * string)) : res (list (string * string)) :=
  match items with
  | [] => mret normalized
  | (key, value) :: items =>
      name ← _validate_pair windows key value ;
      raise_if (bool_decide (name ∈ forbidden))
        (ValueError "baseline contains a forbidden environment key") ;;
      raise_if (_SENSITIVE_KEY name && negb (bool_decide (name ∈ sensitive)))
        (ValueError "baseline contains an unauthorized sensitive environment key") ;;
      raise_if (is_some (dict_get name normalized))
        (ValueError "baseline environment keys collide after normalization") ;;
      normalize_baseline windows forbidden sensitive items (dict_set name value normalized)
  end.

(** [EnvironmentPolicy.__post_init__] *)
Definition make_EnvironmentPolicy (items : list (string * string))
    (allowed_keys forbidden_keys sensitive_keys : gset string) (windows : bool) : res EnvironmentPolicy :=
  raise_if (MAX_ENVIRONMENT_ENTRIES <? Z.of_nat (length items))
    (ValueError "baseline environment is limited to 128 entries") ;;
  raise_if (MAX_ENVIRONMENT_ENTRIES * 3
            <? Z.of_nat (size (allowed_keys ∪ forbidden_keys ∪ sensitive_keys)))
    (ValueError "environment policy key sets are unreasonably large") ;;
  let allowed := set_map (_key windows) allowed_keys : gset string in
  let forbidden := set_map (_key windows) forbidden_keys : gset string in
  let sensitive := set_map (_key windows) sensitive_keys : gset string in
  raise_if (negb (bool_decide (forbidden ∩ sensitive = ∅)))
    (ValueError "environment keys cannot be both forbidden and sensitive-allowed") ;;
  normalized ← normalize_baseline windows forbidden sensitive items [] ;
  mret (mk_EnvironmentPolicy items allowed_keys forbidden_keys sensitive_keys windows
          normalized allowed forbidden sensitive).

(** The loop of [build] over the overrides, with the keys seen. *)
Fixpoint apply_overrides (p : EnvironmentPolicy) (items : list (string * string)) (seen : list string)
    (result : list (string * string)) : res (list (string * string)) :=
  match items with
  | [] => mret result
  | (key, value) :: items =>
      name ← (match _validate_pair (env_windows p) key value with
              | Ok name => Ok name
              | Err e => Err (if is_ValueError e
                              then EnvironmentPolicyError "environment override is malformed" else e)
              end) ;
      raise_if (bool_decide (name ∈ seen))
        (EnvironmentPolicyError "environment keys collide after normalization") ;;
      raise_if (bool_decide (name ∈ _forbidden p))
        (EnvironmentPolicyError "environment key is forbidden") ;;
      raise_if (negb (bool_decide (name ∈ _allowed p)))
        (EnvironmentPolicyError "environment key is not authorized") ;;
      raise_if (_SENSITIVE_KEY name && negb (bool_decide (name ∈ _sensitive p)))
        (EnvironmentPolicyError "sensitive environment key is not authorized") ;;
      apply_overrides p items (name :: seen) (dict_set name value result)
  end.

(** [EnvironmentPolicy.build] *)
Definition build_environment (p : EnvironmentPolicy) (overrides : list (string * string))
    : res (list (string * string)) :=
  result ← apply_overrides p overrides [] (_baseline p) ;
  raise_if (MAX_ENVIRONMENT_ENTRIES <? Z.of_nat (length result))
    (EnvironmentPolicyError "constructed child environment has too many entries") ;;
  mret result.

(** [EnvironmentPolicy.sensitive_values] *)
Definition sensitive_values (p : EnvironmentPolicy) (environment : list (string * string)) : list string :=
  omap (fun pair : string * string =>
          let '(key, value) := pair in
          let name := _key (env_windows p) key in
          if (bool_decide (name ∈ _sensitive p) || _SENSITIVE_KEY name) && negb (String.eqb value "")
          then Some value else None) environment.

Example sensitive_keys :
  _SENSITIVE_KEY <$> ["API_KEY"; "MY_TOKEN"; "TOKENIZER"; "AUTHOR"; "X_AUTH_Y"; "apikey"; "PATH"]
  = [true; true; false; false; true; true; false].
Proof. reflexivity. Qed.

(** ** The child environment is confined *)

(** The pairs of a mapping under their normalized keys. *)
Definition normalized (windows : bool) (items : list (string * string)) : list (string * string) :=
  prod_map (_key windows) id <$> items.

(** A normalized key the two sets let through. *)
Definition admitted (forbidden sensitive : gset string) (name : string) : Prop :=
  name ∉ forbidden /\ (_SENSITIVE_KEY name = true -> name ∈ sensitive).

Lemma environment_pair_Ok windows key value name :
  _validate_pair windows key value = Ok name -> name = _key windows key.
Proof. unfold _validate_pair. intros. by inv_valid. Qed.

Lemma admitted_checks forbidden sensitive name :
  name ∉ forbidden ->
  _SENSITIVE_KEY name && negb (bool_decide (name ∈ sensitive)) = false ->
  admitted forbidden sensitive name.
Proof.
  intros Hf Hs. split; [done|]. intros Hk. rewrite Hk in Hs. cbn in Hs.
  by apply negb_false_iff, bool_decide_eq_true in Hs.
Qed.

Lemma dict_get_None (d : list (string * string)) k : dict_get k d = None <-> k ∉ d.*1.
Proof.
  unfold dict_get. induction d as [|[k1 v1] d IH]; cbn; [split; [intros _; apply not_elem_of_nil|done]|].
  rewrite not_elem_of_cons. case_bool_decide as Hc; cbn; [|rewrite IH]; naive_solver.
Qed.

Lemma dict_set_fresh k (v : string) (d : list (string * string)) : k ∉ d.*1 -> dict_set k v d = d ++ [(k, v)].
Proof.
  induction d as [|[k1 v1] d IH]; cbn; [done|]. rewrite not_elem_of_cons. intros [Hne Hk].
  rewrite decide_False by done. by rewrite IH.
Qed.

Lemma normalize_baseline_Ok windows forbidden sensitive items d r :
  NoDup d.*1 -> Forall (admitted forbidden sensitive) d.*1 ->
  normalize_baseline windows forbidden sensitive items d = Ok r ->
  r = d ++ normalized windows items /\ NoDup r.*1 /\ Forall (admitted forbidden sensitive) r.*1.
Proof.
  revert d. induction items as [|[key value] items IH]; cbn [normalize_baseline]; intros d Hd Ha H.
  - injection H as <-. by rewrite app_nil_r.
  - inv_valid. match goal with H : _validate_pair _ _ _ = Ok _ |- _ => apply environment_pair_Ok in H; subst end.
    assert (Hfresh : dict_get (_key windows key) d = None).
    { destruct (dict_get (_key windows key) d); [discriminate | done]. }
    apply dict_get_None in Hfresh. rewrite dict_set_fresh in H by done.
    apply IH in H as (-> & Hnd & Hall).
    + split_and!; [|done|done]. by rewrite <- app_assoc.
    + rewrite fmap_app. apply NoDup_app. split_and!; [done| |apply NoDup_singleton].
      intros x Hx. cbn. rewrite list_elem_of_singleton. by intros ->.
    + rewrite fmap_app. apply Forall_app. split; [done|].
      bool_prop. apply Forall_singleton. by apply admitted_checks.
Qed.

Lemma dict_get_cons (k name value : string) d :
  dict_get k ((name, value) :: d) = if decide (name = k) then Some value else dict_get k d.
Proof. unfold dict_get. cbn. case_bool_decide; case_decide; done. Qed.

Lemma apply_overrides_Ok p items seen d r :
  NoDup d.*1 -> apply_overrides p items seen d = Ok r ->
  let new := normalized (env_windows p) items in
  NoDup r.*1 /\ NoDup new.*1 /\ Forall (fun name => name ∉ seen) new.*1 /\
  Forall (fun name => name ∈ _allowed p /\ admitted (_forbidden p) (_sensitive p) name) new.*1 /\
  forall k, dict_get k r = match dict_get k new with Some v => Some v | None => dict_get k d end.
Proof.
  revert seen d. induction items as [|[key value] items IH]; cbn [apply_overrides]; intros seen d Hd H.
  - injection H as <-. split_and!; try done; constructor.
  - destruct (_validate_pair _ _ _) as [name|e] eqn:Hv; [|done]. apply environment_pair_Ok in Hv as ->.
    cbn [mbind result_bind] in H. inv_valid. apply IH in H as (Hr & Hnew & Hseen & Hall & Hget); [|by apply dict_set_NoDup].
    set (name := _key (env_windows p) key) in *. set (rest := normalized (env_windows p) items) in *.
    change (normalized (env_windows p) ((key, value) :: items)) with ((name, value) :: rest).
    assert (Hout : name ∉ rest.*1).
    { intros Hin. rewrite Forall_forall in Hseen. apply (Hseen _ Hin). by left. }
    bool_prop. split_and!.
    + done.
    + by constructor.
    + constructor; [done|]. eapply Forall_impl; [exact Hseen|].
      cbn. intros x Hx. by apply not_elem_of_cons in Hx as [_ ?].
    + constructor; [|done]. cbn. split; [done | by apply admitted_checks].
    + intros k. rewrite Hget, dict_get_cons, dict_get_set. destruct (decide (name = k)) as [<-|]; [|done].
      by apply dict_get_None in Hout as ->.
Qed.

(** The environment of a child process is the baseline with the overrides laid
    over it, and nothing else: its keys are unique and at most 128; an override's
    key is in the allowed set; no key is in the forbidden set, and a key that looks
    sensitive is in the sensitive set, whether it comes from the baseline or from
    an override.  On Windows all of this holds of the upper-case keys. *)
Theorem environment_confined items allowed forbidden sensitive windows p overrides environment :
  make_EnvironmentPolicy items allowed forbidden sensitive windows = Ok p ->
  build_environment p overrides = Ok environment ->
  let keys (s : gset string) : gset string := set_map (_key windows) s in
  let over := normalized windows overrides in
  NoDup environment.*1 /\ Z.of_nat (length environment) <= MAX_ENVIRONMENT_ENTRIES /\
  Forall (admitted (keys forbidden) (keys sensitive)) environment.*1 /\
  Forall (fun name => name ∈ keys allowed) over.*1 /\
  forall k v, (k, v) ∈ environment <->
    (k, v) ∈ over \/ k ∉ over.*1 /\ (k, v) ∈ normalized windows items.
Proof.
  unfold make_EnvironmentPolicy, build_environment. intros Hp Hb. inv_valid.
  match goal with H : normalize_baseline _ _ _ _ _ = _ |- _ =>
    apply normalize_baseline_Ok in H as (-> & Hbd & Hba); [|constructor|constructor] end.
  match goal with H : apply_overrides _ _ _ _ = _ |- _ =>
    apply apply_overrides_Ok in H as (Hnd & Hover & _ & Hall & Hget); [|done] end.
  cbn [env_windows _allowed _forbidden _sensitive _baseline app] in *.
  set (over := normalized windows overrides) in *. set (base := normalized windows items) in *.
  assert (Hmem : forall k v, (k, v) ∈ environment <-> (k, v) ∈ over \/ k ∉ over.*1 /\ (k, v) ∈ base).
  { intros k v. rewrite <- !dict_get_Some, Hget, <- dict_get_None by done.
    destruct (dict_get k over); naive_solver. }
  split_and!; [done | | | | exact Hmem].
  - apply Z.ltb_ge. done.
  - apply Forall_forall. intros k Hk. apply list_elem_of_fmap in Hk as ([k' v] & -> & Hkv).
    apply Hmem in Hkv as [Hin|[_ Hin]].
    + rewrite Forall_forall in Hall. apply Hall, list_elem_of_fmap. by exists (k', v).
    + rewrite Forall_forall in Hba. apply Hba, list_elem_of_fmap. by exists (k', v).
  - eapply Forall_impl; [exact Hall|]. by intros x [? _].
Qed.

Lemma environment_confined_witness :
  exists p environment,
    make_EnvironmentPolicy [("Path", "C:"); ("Temp", "T")] {[ "git_dir"; "Path" ]} {[ "api_key" ]} ∅ true = Ok p /\
    build_environment p [("path", "D:")] = Ok environment /\
    ("PATH", "D:") ∈ environment /\ "API_KEY" ∉ environment.*1.
Proof.
  set (policy := make_EnvironmentPolicy [("Path", "C:"); ("Temp", "T")] {[ "git_dir"; "Path" ]}
                   {[ "api_key" ]} ∅ true).
  assert (Hok : is_ok (p ← policy ; build_environment p [("path", "D:")]) = true) by (vm_compute; reflexivity).
  destruct policy as [p|] eqn:Hp; [|done]. cbn [mbind result_bind] in Hok.
  destruct (build_environment p [("path", "D:")]) as [environment|] eqn:Hb; [|done].
  destruct (environment_confined _ _ _ _ _ p _ environment Hp Hb) as (_ & _ & Hadm & _ & Hmem).
  exists p, environment. split_and!; [done|done| |].
  - apply Hmem. left. by left.
  - intros Hin. rewrite Forall_forall in Hadm. apply (Hadm _ Hin).
    apply elem_of_map. exists "api_key". split; [reflexivity|]. set_solver.
Defined.
