(* ===== verification/Unicode.v ===== *)
(** * UTF-8 and code points

    The strings of the development are UTF-8 byte sequences; where a source looks at
    characters beyond ASCII (regular expressions, JSON escapes, decoding of process
    output) it works on their code points.  The decoder follows
    [bytes.decode("utf-8", errors=...)]: a maximal ill-formed prefix is replaced by
    U+FFFD or dropped. *)

From Stdlib Require Import ZArith Lia Ascii String.
From S2P Require Import Prelude Text Domain.
From stdpp Require Import base option strings numbers list list_relations.

Open Scope Z_scope.

Definition byte_value (c : ascii) : Z := Z.of_N (N_of_ascii c).
Definition byte_of (n : Z) : ascii := ascii_of_N (Z.to_N n).

(** ** Decoding *)

(** What the first byte of a sequence asks for: the value of its own bits, how many
    continuation bytes follow, and the range of the first of them. *)
Definition lead (n : Z) : option (Z * nat * Z * Z) :=
  if n <? 128 then Some (n, 0%nat, 128, 191)
  else if in_range 194 223 n then Some (n - 192, 1%nat, 128, 191)
  else if n =? 224 then Some (0, 2%nat, 160, 191)
  else if n =? 237 then Some (13, 2%nat, 128, 159)
  else if in_range 225 239 n then Some (n - 224, 2%nat, 128, 191)
  else if n =? 240 then Some (0, 3%nat, 144, 191)
  else if n =? 244 then Some (4, 3%nat, 128, 143)
  else if in_range 241 243 n then Some (n - 240, 3%nat, 128, 191)
  else None.

(** The continuation bytes: the code point, or nothing, and the rest of the bytes. *)
Fixpoint continuation (count : nat) (lo hi acc : Z) (l : list ascii) : option Z * list ascii :=
  match count with
  | O => (Some acc, l)
  | S count =>
      match l with
      | [] => (None, [])
      | c :: rest =>
          if in_range lo hi (byte_value c)
          then continuation count 128 191 (acc * 64 + (byte_value c - 128)) rest
          else (None, l)
      end
  end.

(** One step of the decoder on a non-empty input. *)
Definition decode_one (c : ascii) (l : list ascii) : option Z * list ascii :=
  match lead (byte_value c) with
  | None => (None, l)
  | Some (acc, count, lo, hi) => continuation count lo hi acc l
  end.

(** The decoder with the handler of errors; every step consumes a byte. *)
Fixpoint decode_with (on_error : list Z) (fuel : nat) (l : list ascii) : list Z :=
  match fuel, l with
  | S fuel, c :: l =>
      let '(point, rest) := decode_one c l in
      match point with Some n => [n] | None => on_error end ++ decode_with on_error fuel rest
  | _, _ => []
  end.

Definition decode_bytes (on_error : list Z) (l : list ascii) : list Z :=
  decode_with on_error (length l) l.

(** [errors="replace"] and [errors="ignore"] *)
Definition decode_replace (s : string) : list Z := decode_bytes [65533] (String.list_ascii_of_string s).
Definition decode_ignore (s : string) : list Z := decode_bytes [] (String.list_ascii_of_string s).

(** [bytes.decode("utf-8")] raises for anything but well-formed UTF-8. *)
Definition utf8_text (data : string) : bool :=
  forallb (fun n => 0 <=? n) (decode_bytes [-1] (String.list_ascii_of_string data)).

(** The characters of a [str]. *)
Definition code_points : string -> list Z := decode_replace.

(** ** Encoding *)

Definition encode_one (n : Z) : list ascii :=
  byte_of <$>
    if n <? 128 then [n]
    else if n <? 2048 then [192 + n / 64; 128 + n mod 64]
    else if n <? 65536 then [224 + n / 4096; 128 + n / 64 mod 64; 128 + n mod 64]
    else [240 + n / 262144; 128 + n / 4096 mod 64; 128 + n / 64 mod 64; 128 + n mod 64].

Definition encode_bytes (points : list Z) : list ascii := mjoin (encode_one <$> points).
Definition text_of (points : list Z) : string := String.string_of_list_ascii (encode_bytes points).

(** Unicode scalar values: no surrogates. *)
Definition scalar (n : Z) : bool := in_range 0 55295 n || in_range 57344 1114111 n.

(** ** The round trip *)

Lemma byte_value_of n : 0 <= n < 256 -> byte_value (byte_of n) = n.
Proof.
  intros Hn. unfold byte_value, byte_of. rewrite N_ascii_embedding by lia. lia.
Qed.

Lemma in_range_spec lo hi n : in_range lo hi n = true <-> lo <= n <= hi.
Proof. unfold in_range. lia. Qed.

Lemma in_range_false lo hi n : in_range lo hi n = false <-> ~ (lo <= n <= hi).
Proof. unfold in_range. lia. Qed.

Lemma continuation_step count lo hi acc n l :
  lo <= n <= hi -> 0 <= n < 256 ->
  continuation (S count) lo hi acc (byte_of n :: l) = continuation count 128 191 (acc * 64 + (n - 128)) l.
Proof.
  intros Hr Hb. cbn [continuation]. rewrite byte_value_of by done.
  by rewrite (proj2 (in_range_spec lo hi n)).
Qed.

Ltac decide_in_range :=
  repeat match goal with
  | |- context [in_range ?lo ?hi ?n] =>
      first [ rewrite (proj2 (in_range_spec lo hi n)) by lia
            | rewrite (proj2 (in_range_false lo hi n)) by lia ]
  | |- context [?a <? ?b] => first [ rewrite (proj2 (Z.ltb_lt a b)) by lia | rewrite (proj2 (Z.ltb_ge a b)) by lia ]
  | |- context [?a =? ?b] => first [ rewrite (proj2 (Z.eqb_eq a b)) by lia | rewrite (proj2 (Z.eqb_neq a b)) by lia ]
  end.

(** The four lengths of an encoded character. *)
Lemma lead_two a : 2 <= a < 32 -> lead (192 + a) = Some (a, 1%nat, 128, 191).
Proof. intros H. unfold lead. decide_in_range. f_equal. f_equal. f_equal. f_equal. lia. Qed.

Lemma lead_three a b :
  0 <= a < 16 -> 0 <= b < 64 -> 2048 <= a * 4096 + b * 64 + 63 ->
  (a * 4096 + b * 64 < 55296 \/ 57344 <= a * 4096 + b * 64) ->
  exists lo hi, lead (224 + a) = Some (a, 2%nat, lo, hi) /\ lo <= 128 + b <= hi.
Proof.
  intros Ha Hb Hlow Hs. unfold lead.
  destruct (decide (a = 0)) as [->|]; [exists 160, 191; split; [reflexivity | lia]|].
  destruct (decide (a = 13)) as [->|]; [exists 128, 159; split; [reflexivity | lia]|].
  exists 128, 191. split; [|lia]. decide_in_range. do 4 f_equal. lia.
Qed.

Lemma lead_four a b :
  0 <= a < 5 -> 0 <= b < 64 -> 16 <= a * 64 + b <= 271 ->
  exists lo hi, lead (240 + a) = Some (a, 3%nat, lo, hi) /\ lo <= 128 + b <= hi.
Proof.
  intros Ha Hb Hr. unfold lead.
  destruct (decide (a = 0)) as [->|]; [exists 144, 191; split; [reflexivity | lia]|].
  destruct (decide (a = 4)) as [->|]; [exists 128, 143; split; [reflexivity | lia]|].
  exists 128, 191. split; [|lia]. decide_in_range. do 4 f_equal. lia.
Qed.

Lemma decode_encode_one n l :
  scalar n = true ->
  exists c t, encode_one n = c :: t /\ decode_one c (t ++ l) = (Some n, l).
Proof.
  intros Hn. assert (Hr : 0 <= n <= 55295 \/ 57344 <= n <= 1114111).
  { unfold scalar in Hn. apply orb_true_iff in Hn. by rewrite !in_range_spec in Hn. }
  clear Hn. unfold encode_one.
  destruct (Z.ltb_spec n 128).
  { exists (byte_of n), []. split; [done|]. unfold decode_one. rewrite byte_value_of by lia.
    unfold lead. by decide_in_range. }
  destruct (Z.ltb_spec n 2048).
  { pose proof (Z.div_mod n 64 ltac:(lia)). pose proof (Z.mod_pos_bound n 64 ltac:(lia)).
    eexists _, _. split; [reflexivity|]. unfold decode_one.
    rewrite byte_value_of, lead_two by lia. cbn [fmap list_fmap app]. rewrite continuation_step by lia.
    cbn [continuation]. f_equal. f_equal. lia. }
  destruct (Z.ltb_spec n 65536).
  { pose proof (Z.div_mod n 64 ltac:(lia)). pose proof (Z.mod_pos_bound n 64 ltac:(lia)).
    pose proof (Z.div_mod (n / 64) 64 ltac:(lia)) as Hq. pose proof (Z.mod_pos_bound (n / 64) 64 ltac:(lia)).
    rewrite Z.div_div in Hq by lia. change (64 * 64) with 4096 in Hq.
    eexists _, _. split; [reflexivity|]. unfold decode_one. rewrite byte_value_of by lia.
    destruct (lead_three (n / 4096) (n / 64 mod 64)) as (lo & hi & -> & ?); [lia..|].
    cbn [fmap list_fmap app]. rewrite !continuation_step by lia.
    cbn [continuation]. f_equal. f_equal. lia. }
  pose proof (Z.div_mod n 64 ltac:(lia)). pose proof (Z.mod_pos_bound n 64 ltac:(lia)).
  pose proof (Z.div_mod (n / 64) 64 ltac:(lia)) as Hq. pose proof (Z.mod_pos_bound (n / 64) 64 ltac:(lia)).
  pose proof (Z.div_mod (n / 64 / 64) 64 ltac:(lia)) as Hq2.
  pose proof (Z.mod_pos_bound (n / 64 / 64) 64 ltac:(lia)).
  rewrite !Z.div_div in * by lia. change (64 * 64) with 4096 in *. change (4096 * 64) with 262144 in *.
  eexists _, _. split; [reflexivity|]. unfold decode_one. rewrite byte_value_of by lia.
  destruct (lead_four (n / 262144) (n / 4096 mod 64)) as (lo & hi & -> & ?); [lia..|].
  cbn [fmap list_fmap app]. rewrite !continuation_step by lia.
  cbn [continuation]. f_equal. f_equal. lia.
Qed.

Lemma encode_bytes_cons n points : encode_bytes (n :: points) = encode_one n ++ encode_bytes points.
Proof. reflexivity. Qed.

(** Decoding what was encoded, with whatever handler of errors. *)
Lemma decode_encode on_error points fuel :
  Forall (fun n => scalar n = true) points -> (length (encode_bytes points) <= fuel)%nat ->
  decode_with on_error fuel (encode_bytes points) = points.
Proof.
  intros Hp. revert fuel. induction Hp as [|n points Hn Hp IH]; intros fuel Hf; [by destruct fuel|].
  rewrite encode_bytes_cons in *. destruct (decode_encode_one n (encode_bytes points) Hn) as (c & t & Ht & Hd).
  rewrite Ht in *. destruct fuel as [|fuel]; [cbn in Hf; lia|]. cbn [app decode_with].
  rewrite Hd. cbn [app]. f_equal. apply IH. cbn in Hf. rewrite length_app in Hf. lia.
Qed.

Lemma code_points_text_of points :
  Forall (fun n => scalar n = true) points -> code_points (text_of points) = points.
Proof.
  intros Hp. unfold code_points, decode_replace, decode_bytes, text_of.
  rewrite String.list_ascii_of_string_of_list_ascii. by apply decode_encode.
Qed.

(** What the decoder yields is always encodable. *)
Lemma continuation_bounds count lo hi acc l n rest :
  continuation count lo hi acc l = (Some n, rest) ->
  (count = 0%nat /\ n = acc /\ rest = l)
  \/ (exists b l', (count = S (pred count)) /\ l = b :: l' /\ lo <= byte_value b <= hi
      /\ continuation (pred count) 128 191 (acc * 64 + (byte_value b - 128)) l' = (Some n, rest)).
Proof.
  destruct count as [|count]; cbn [continuation]; [intros [= <- <-]; by left|].
  destruct l as [|b l]; [done|]. destruct (in_range lo hi (byte_value b)) eqn:Hb; [|done].
  intros H. right. exists b, l. by rewrite <- in_range_spec.
Qed.

Lemma lead_spec n acc count lo hi :
  lead n = Some (acc, count, lo, hi) -> 0 <= n ->
  match count with
  | 0%nat => acc = n /\ n < 128
  | 1%nat => 2 <= acc < 32 /\ lo = 128 /\ hi = 191
  | 2%nat => (acc = 0 /\ lo = 160 \/ acc = 13 /\ hi = 159 \/ 1 <= acc <= 15 /\ acc <> 13)
             /\ 128 <= lo /\ hi <= 191
  | _ => count = 3%nat /\ (acc = 0 /\ lo = 144 \/ 1 <= acc <= 3 \/ acc = 4 /\ hi = 143) /\ 128 <= lo /\ hi <= 191
  end.
Proof.
  unfold lead. intros H Hn.
  repeat match type of H with
  | (if ?b then _ else _) = _ => let Hb := fresh "Hb" in destruct b eqn:Hb
  end; simplify_eq; rewrite ?in_range_spec in *; rewrite ?in_range_false in *; lia.
Qed.

Lemma decode_one_scalar c l n rest : decode_one c l = (Some n, rest) -> scalar n = true.
Proof.
  unfold decode_one. destruct (lead (byte_value c)) as [[[[acc count] lo] hi]|] eqn:Hl; [|done].
  apply lead_spec in Hl; [|unfold byte_value; lia]. intros H.
  assert (Hgoal : 0 <= n <= 55295 \/ 57344 <= n <= 1114111 -> scalar n = true).
  { intros. unfold scalar. apply orb_true_iff. by rewrite !in_range_spec. }
  apply Hgoal. unfold byte_value in *. pose proof (N2Z.is_nonneg (N_of_ascii c)).
  destruct count as [|[|[|[|count]]]].
  - apply continuation_bounds in H as [(_ & -> & _)|(? & ? & ? & _)]; lia.
  - apply continuation_bounds in H as [(? & _)|(b1 & l1 & _ & _ & Hb1 & H)]; [lia|]. cbn [pred] in H.
    apply continuation_bounds in H as [(_ & -> & _)|(? & ? & ? & _)]; unfold byte_value in *; lia.
  - apply continuation_bounds in H as [(? & _)|(b1 & l1 & _ & _ & Hb1 & H)]; [lia|]. cbn [pred] in H.
    apply continuation_bounds in H as [(? & _)|(b2 & l2 & _ & _ & Hb2 & H)]; [lia|]. cbn [pred] in H.
    apply continuation_bounds in H as [(_ & -> & _)|(? & ? & ? & _)]; unfold byte_value in *; lia.
  - apply continuation_bounds in H as [(? & _)|(b1 & l1 & _ & _ & Hb1 & H)]; [lia|]. cbn [pred] in H.
    apply continuation_bounds in H as [(? & _)|(b2 & l2 & _ & _ & Hb2 & H)]; [lia|]. cbn [pred] in H.
    apply continuation_bounds in H as [(? & _)|(b3 & l3 & _ & _ & Hb3 & H)]; [lia|]. cbn [pred] in H.
    apply continuation_bounds in H as [(_ & -> & _)|(? & ? & ? & _)]; unfold byte_value in *; lia.
  - lia.
Qed.

Lemma decode_scalar on_error fuel l :
  Forall (fun n => scalar n = true) on_error -> Forall (fun n => scalar n = true) (decode_with on_error fuel l).
Proof.
  intros He. revert l. induction fuel as [|fuel IH]; intros [|c l]; cbn [decode_with]; try constructor.
  destruct (decode_one c l) as [[n|] rest] eqn:Hd; apply Forall_app; (split; [|apply IH]); [|done].
  repeat constructor. by eapply decode_one_scalar.
Qed.

Lemma code_points_scalar s : Forall (fun n => scalar n = true) (code_points s).
Proof. apply decode_scalar. by repeat constructor. Qed.

(** ** Cutting an encoded text *)

Lemma continuation_consumes count lo hi acc l n rest :
  continuation count lo hi acc l = (Some n, rest) -> exists u, l = u ++ rest /\ length u = count.
Proof.
  revert lo hi acc l. induction count as [|count IH]; intros lo hi acc l; cbn [continuation].
  - intros [= _ ->]. by exists [].
  - destruct l as [|c l]; [done|]. destruct (in_range lo hi (byte_value c)); [|done].
    intros (u & -> & Hu)%IH. exists (c :: u). split; [done|]. cbn. by rewrite Hu.
Qed.

(** A sequence that ends early yields nothing. *)
Lemma continuation_cut count lo hi acc u l n j :
  continuation count lo hi acc (u ++ l) = (Some n, l) -> length u = count -> (j < count)%nat ->
  continuation count lo hi acc (take j u) = (None, []).
Proof.
  revert lo hi acc u j. induction count as [|count IH]; intros lo hi acc u j H Hu Hj; [lia|].
  destruct u as [|c u]; [done|]. cbn [continuation app] in H.
  destruct (in_range lo hi (byte_value c)) eqn:Hc; [|done].
  destruct j as [|j]; cbn [take continuation]; [done|]. rewrite Hc.
  eapply IH; [done|by injection Hu|lia].
Qed.

Lemma decode_one_cut n c t j :
  scalar n = true -> encode_one n = c :: t -> (j < length t)%nat -> decode_one c (take j t) = (None, []).
Proof.
  intros Hn He Hj. destruct (decode_encode_one n [] Hn) as (c' & t' & He' & Hd). rewrite He in He'.
  injection He' as <- <-. unfold decode_one in *.
  destruct (lead (byte_value c)) as [[[[acc count] lo] hi]|]; [|done].
  apply continuation_consumes in Hd as Hu. destruct Hu as (u & Hu & Hlen).
  apply app_inv_tail in Hu as ->. eapply continuation_cut; [done|done|lia].
Qed.

(** The first bytes of an encoded text decode to its first characters. *)
Lemma decode_cut points k fuel :
  Forall (fun n => scalar n = true) points -> (length (take k (encode_bytes points)) <= fuel)%nat ->
  exists j, decode_with [] fuel (take k (encode_bytes points)) = take j points
            /\ (length (encode_bytes (take j points)) <= k)%nat.
Proof.
  intros Hp. revert k fuel. induction Hp as [|n points Hn Hp IH]; intros k fuel Hf.
  - exists 0%nat. cbn [encode_bytes fmap list_fmap mjoin list_join]. rewrite take_nil. split; [by destruct fuel|cbn; lia].
  - rewrite encode_bytes_cons in *. destruct k as [|k]; [exists 0%nat; split; [by destruct fuel|cbn; lia]|].
    assert (Hc : exists c t, encode_one n = c :: t).
    { destruct (decode_encode_one n [] Hn) as (c & t & Ht & _). eauto. }
    destruct Hc as (c & t & Ht). rewrite Ht in *. cbn [app take] in *.
    destruct fuel as [|fuel]; [cbn in Hf; lia|]. cbn [decode_with].
    destruct (decide (length t <= k)%nat) as [Hle|Hgt].
    + rewrite take_app_ge in * by done.
      destruct (decode_encode_one n (take (k - length t) (encode_bytes points)) Hn) as (c' & t' & Ht' & Hd).
      rewrite Ht in Ht'. injection Ht' as <- <-. rewrite Hd.
      destruct (IH (k - length t)%nat fuel) as (j & Hj & Hlen).
      { cbn [length] in Hf. rewrite length_app in Hf. lia. }
      exists (S j). cbn [take app]. rewrite Hj. split; [done|]. rewrite encode_bytes_cons, Ht.
      cbn [app length]. rewrite length_app. lia.
    + rewrite take_app_le by lia. rewrite (decode_one_cut n c t k Hn Ht) by lia.
      exists 0%nat. split; [by destruct fuel|cbn; lia].
Qed.

(** ** Zero bytes *)

Lemma continuation_suffix count lo hi acc l o rest :
  continuation count lo hi acc l = (o, rest) -> rest `suffix_of` l.
Proof.
  revert lo hi acc l. induction count as [|count IH]; intros lo hi acc l; cbn [continuation].
  - by intros [= _ ->].
  - destruct l as [|c l]; [by intros [= _ <-]|]. destruct (in_range lo hi (byte_value c)); [|by intros [= _ <-]].
    intros H%IH. by apply suffix_cons_r.
Qed.

Lemma decode_one_suffix c l o rest : decode_one c l = (o, rest) -> rest `suffix_of` l.
Proof.
  unfold decode_one. destruct (lead (byte_value c)) as [[[[acc count] lo] hi]|]; [|by intros [= _ <-]].
  apply continuation_suffix.
Qed.

Lemma decode_one_zero c l rest : decode_one c l = (Some 0, rest) -> byte_value c = 0.
Proof.
  unfold decode_one. destruct (lead (byte_value c)) as [[[[acc count] lo] hi]|] eqn:Hl; [|done].
  apply lead_spec in Hl; [|unfold byte_value; lia]. intros H.
  unfold byte_value in *. pose proof (N2Z.is_nonneg (N_of_ascii c)).
  destruct count as [|[|[|[|count]]]].
  - apply continuation_bounds in H as [(_ & -> & _)|(? & ? & ? & _)]; lia.
  - apply continuation_bounds in H as [(? & _)|(b1 & l1 & _ & _ & Hb1 & H)]; [lia|]. cbn [pred] in H.
    apply continuation_bounds in H as [(_ & ? & _)|(? & ? & ? & _)]; unfold byte_value in *; lia.
  - apply continuation_bounds in H as [(? & _)|(b1 & l1 & _ & _ & Hb1 & H)]; [lia|]. cbn [pred] in H.
    apply continuation_bounds in H as [(? & _)|(b2 & l2 & _ & _ & Hb2 & H)]; [lia|]. cbn [pred] in H.
    apply continuation_bounds in H as [(_ & ? & _)|(? & ? & ? & _)]; unfold byte_value in *; lia.
  - apply continuation_bounds in H as [(? & _)|(b1 & l1 & _ & _ & Hb1 & H)]; [lia|]. cbn [pred] in H.
    apply continuation_bounds in H as [(? & _)|(b2 & l2 & _ & _ & Hb2 & H)]; [lia|]. cbn [pred] in H.
    apply continuation_bounds in H as [(? & _)|(b3 & l3 & _ & _ & Hb3 & H)]; [lia|]. cbn [pred] in H.
    apply continuation_bounds in H as [(_ & ? & _)|(? & ? & ? & _)]; unfold byte_value in *; lia.
  - lia.
Qed.

(** The zero character comes from the zero byte, and goes to it. *)
Lemma decode_nonzero on_error fuel l :
  Forall (fun n => n <> 0) on_error -> Forall (fun c => byte_value c <> 0) l ->
  Forall (fun n => n <> 0) (decode_with on_error fuel l).
Proof.
  intros He. revert l. induction fuel as [|fuel IH]; intros [|c l] Hl; cbn [decode_with]; try constructor.
  apply Forall_cons in Hl as [Hc Hl]. destruct (decode_one c l) as [o rest] eqn:Hd.
  apply Forall_app. split.
  - destruct o as [n|]; [|done]. constructor; [|constructor]. intros ->. by apply decode_one_zero in Hd.
  - apply IH. apply decode_one_suffix in Hd as [u ->]. by apply Forall_app in Hl as [_ ?].
Qed.

Lemma encode_nonzero n :
  scalar n = true -> n <> 0 -> encode_one n <> [] /\ Forall (fun c => byte_value c <> 0) (encode_one n).
Proof.
  intros Hs Hn. assert (Hr : 0 < n <= 1114111).
  { unfold scalar in Hs. apply orb_true_iff in Hs. rewrite !in_range_spec in Hs. lia. }
  pose proof (Z.mod_pos_bound n 64 ltac:(lia)). pose proof (Z.mod_pos_bound (n / 64) 64 ltac:(lia)).
  pose proof (Z.mod_pos_bound (n / 4096) 64 ltac:(lia)).
  assert (0 <= n / 64 /\ 64 * (n / 64) <= n) by (split; [apply Z.div_pos; lia|apply Z.mul_div_le; lia]).
  assert (0 <= n / 4096 /\ 4096 * (n / 4096) <= n) by (split; [apply Z.div_pos; lia|apply Z.mul_div_le; lia]).
  assert (0 <= n / 262144 /\ 262144 * (n / 262144) <= n) by (split; [apply Z.div_pos; lia|apply Z.mul_div_le; lia]).
  unfold encode_one. destruct (Z.ltb_spec n 128); [|destruct (Z.ltb_spec n 2048); [|destruct (Z.ltb_spec n 65536)]];
    (split; [done|]); cbn [fmap list_fmap]; repeat constructor; rewrite byte_value_of by lia; lia.
Qed.

Lemma encode_all_nonzero points :
  Forall (fun n => scalar n = true) points -> Forall (fun n => n <> 0) points ->
  Forall (fun c => byte_value c <> 0) (encode_bytes points) /\ (points <> [] -> encode_bytes points <> []).
Proof.
  intros Hs Hn. induction Hs as [|n points Hs1 Hs IH]; [done|]. apply Forall_cons in Hn as [Hn1 Hn].
  destruct (encode_nonzero n Hs1 Hn1) as [He Hb]. rewrite encode_bytes_cons. split.
  - apply Forall_app. split; [done|by apply IH].
  - intros _ Happ. by apply app_eq_nil in Happ as [? _].
Qed.
