(* ===== verification/Regex.v ===== *)
(** * Regular expressions ([re])

    A backtracking matcher with the semantics of Python's [re] for the constructs
    of the sources: characters, ordered alternatives, greedy repetition of a
    character, word boundaries and the start of a line.  Texts are lists of code
    points.  A pattern is a prefix and a rest: the substitutions of the sources keep
    the first group, the prefix, and replace the rest. *)

From Stdlib Require Import ZArith Lia Ascii String.
From S2P Require Import Prelude Text Domain Unicode.
From stdpp Require Import base option strings numbers list list_relations.

Open Scope Z_scope.

(** What the standard library's tables say of the characters beyond ASCII. *)
Class UnicodeTables := { unicode_alnum : Z -> bool   (* [str.isalnum], 128 and above *) }.

Inductive re : Type :=
| Nothing
| Char (p : Z -> bool)
| Many (p : Z -> bool) (lo : nat)    (* greedy, at least [lo] *)
| Boundary                           (* [\b] *)
| LineStart                          (* [^] with [re.MULTILINE] *)
| Then (a b : re)
| Or (a b : re).

Definition of_ascii (c : ascii) : Z := byte_value c.
Definition is_char (c : ascii) (n : Z) : bool := n =? of_ascii c.
Definition one_of (cs : string) (n : Z) : bool := existsb (fun c => is_char c n) (String.list_ascii_of_string cs).

(** [\s] and [\w] *)
Definition is_space (n : Z) : bool :=
  in_range 9 13 n || in_range 28 32 n || (n =? 133) || (n =? 160) || (n =? 5760)
  || in_range 8192 8202 n || (n =? 8232) || (n =? 8233) || (n =? 8239) || (n =? 8287) || (n =? 12288).

Definition ascii_digit (n : Z) : bool := in_range 48 57 n.
Definition ascii_upper_case (n : Z) : bool := in_range 65 90 n.
Definition ascii_lower_case (n : Z) : bool := in_range 97 122 n.

Section Match.
Context `{!UnicodeTables}.

Definition is_word (n : Z) : bool :=
  (n =? 95) || ascii_digit n || ascii_upper_case n || ascii_lower_case n
  || (128 <=? n) && unicode_alnum n.

Definition word_before (prev : option Z) : bool := match prev with Some n => is_word n | None => false end.
Definition word_after (l : list Z) : bool := match l with n :: _ => is_word n | [] => false end.

(** Greedy repetition with backtracking; [k] continues after the previous character. *)
Fixpoint many {X} (p : Z -> bool) (lo : nat) (prev : option Z) (l : list Z)
    (k : option Z -> list Z -> option X) : option X :=
  match l with
  | n :: rest =>
      if p n then
        match many p (pred lo) (Some n) rest k with
        | Some x => Some x
        | None => if (lo =? 0)%nat then k prev l else None
        end
      else if (lo =? 0)%nat then k prev l else None
  | [] => if (lo =? 0)%nat then k prev [] else None
  end.

Fixpoint match_re {X} (r : re) (prev : option Z) (l : list Z) (k : option Z -> list Z -> option X) : option X :=
  match r with
  | Nothing => k prev l
  | Char p => match l with n :: rest => if p n then k (Some n) rest else None | [] => None end
  | Many p lo => many p lo prev l k
  | Boundary => if Bool.eqb (word_before prev) (word_after l) then None else k prev l
  | LineStart => if match prev with None => true | Some n => n =? 10 end then k prev l else None
  | Then a b => match_re a prev l (fun prev l => match_re b prev l k)
  | Or a b => match match_re a prev l k with Some x => Some x | None => match_re b prev l k end
  end.

(** A match of the prefix and the rest at this place: what follows each of them. *)
Definition match_here (prefix rest : re) (prev : option Z) (l : list Z) : option (list Z * list Z) :=
  match_re prefix prev l (fun prev l1 => match_re rest prev l1 (fun _ l2 => Some (l1, l2))).

(** [pattern.search(text) is not None] *)
Fixpoint search_from (r : re) (prev : option Z) (l : list Z) : bool :=
  is_some (match_re r prev l (fun _ _ => Some tt))
  || match l with [] => false | n :: l => search_from r (Some n) l end.

Definition search (r : re) (l : list Z) : bool := search_from r None l.

(** What was consumed between a text and what follows in it. *)
Definition consumed (l rest : list Z) : list Z := take (length l - length rest) l.

(** [pattern.sub(lambda match: match.group(1) + marker, text)]; every match of the
    patterns of the sources is non-empty, and the scan goes on after it. *)
Fixpoint sub_from (prefix rest : re) (marker : list Z) (fuel : nat) (prev : option Z) (l : list Z) : list Z :=
  match fuel, l with
  | S fuel, n :: tail =>
      match match_here prefix rest prev l with
      | Some (l1, l2) =>
          if (length l2 <? length l)%nat then
            consumed l l1 ++ marker ++ sub_from prefix rest marker fuel (last (consumed l l2)) l2
          else n :: sub_from prefix rest marker fuel (Some n) tail
      | None => n :: sub_from prefix rest marker fuel (Some n) tail
      end
  | _, _ => []
  end.

Definition sub (prefix rest : re) (marker : list Z) (l : list Z) : list Z :=
  sub_from prefix rest marker (length l) None l.
End Match.

(** ** Building patterns *)

(** A letter under [re.IGNORECASE]: both cases, and the four characters beyond ASCII
    that fold to [i], [k] and [s]. *)
Definition letter (c : ascii) (n : Z) : bool :=
  let v := of_ascii c in
  (n =? v) || (if ascii_lower_case v then n =? v - 32 else false)
  || (if v =? 105 then (n =? 304) || (n =? 305) else false)
  || (if v =? 107 then n =? 8490 else false)
  || (if v =? 115 then n =? 383 else false).

Fixpoint word_of (l : list ascii) : re :=
  match l with [] => Nothing | c :: l => Then (Char (letter c)) (word_of l) end.
Definition word (s : string) : re := word_of (String.list_ascii_of_string s).
Definition optional_re (r : re) : re := Or r Nothing.
Definition one (p : Z -> bool) : re := Char p.

Fixpoint sequence (rs : list re) : re :=
  match rs with [] => Nothing | r :: rs => Then r (sequence rs) end.
(** Alternatives in order; there is at least one. *)
Fixpoint either (r : re) (rs : list re) : re :=
  match rs with [] => r | r' :: rs => Or r (either r' rs) end.

Definition not_in (cs : string) (n : Z) : bool := negb (one_of cs n).
