(* ===== verification/Redaction.v ===== *)
(** * Redaction ([src/src/revanent/commands/redaction.py])

    The redactor of command results, errors, artifacts and context: configured
    secrets, the common spellings of credentials, and the edge of a truncated text.
    The theorem: a configured secret that cannot overlap the marker never appears in
    what the redactor returns. *)

From Stdlib Require Import ZArith Lia Ascii String.
From S2P Require Import Prelude Text Domain Unicode Regex.
From stdpp Require Import base option strings numbers gmap sets list list_relations.

Open Scope Z_scope.

Definition REDACTION_MARKER : string := "[REDACTED]".
Definition MAX_REDACTION_SECRETS : Z := 128.
Definition MAX_REDACTION_SECRET_LENGTH : Z := 8 * 1024.
Definition MAX_REDACTION_SECRET_BYTES : Z := 256 * 1024.

Definition quotes : string := String (ascii_of_N 34) "'".
Definition spaces : re := Many is_space 0.
Definition line_ends : string := String (ascii_of_N 13) (String (ascii_of_N 10) "").

(** [_AUTHORIZATION]: group 1 and the credential. *)
Definition _AUTHORIZATION : re * re :=
  (sequence [Boundary; word "authorization"; spaces; one (is_char ":"); spaces;
             either (word "bearer") [word "basic"]; Many is_space 1],
   Many (fun n => negb (is_space n) && not_in ",;" n) 1).

Definition _key : re := sequence [optional_re (one (one_of "_-")); word "key"].

(** [_CREDENTIAL_ASSIGNMENT]: group 1 and the value. *)
Definition _CREDENTIAL_ASSIGNMENT : re * re :=
  (sequence [optional_re (one (one_of quotes)); Boundary;
             either (Then (word "api") _key)
               [Then (word "access") _key;
                sequence [word "client"; optional_re (one (one_of "_-")); word "secret"];
                word "credential"; word "password"; word "passwd"; Then (word "private") _key;
                word "secret"; word "token"];
             Boundary; optional_re (one (one_of quotes)); spaces; one (one_of ":="); spaces],
   either (sequence [one (is_char (ascii_of_N 34)); Many (not_in (String (ascii_of_N 34) line_ends)) 0;
                     one (is_char (ascii_of_N 34))])
     [sequence [one (is_char "'"); Many (not_in ("'" +:+ line_ends)) 0; one (is_char "'")];
      Many (fun n => negb (is_space n) && not_in ",;" n) 1]).

(** [_TOKEN_URL_PARAMETER]: group 1 and the value. *)
Definition _TOKEN_URL_PARAMETER : re * re :=
  (sequence [one (one_of "?&");
             either (sequence [word "access"; optional_re (one (one_of "_-")); word "token"])
               [Then (word "api") _key; word "auth"; word "credential"; word "password"; word "secret";
                word "token"];
             one (is_char "=")],
   Many (fun n => negb (is_space n) && not_in "&#" n) 1).

(** ** Texts *)

Definition marker : list Z := code_points REDACTION_MARKER.

(** [secret] is a prefix of the text: what follows it. *)
Fixpoint after_prefix (secret l : list Z) : option (list Z) :=
  match secret, l with
  | [], _ => Some l
  | a :: secret, b :: l => if a =? b then after_prefix secret l else None
  | _ :: _, [] => None
  end.

(** [text.replace(secret, marker)] for a non-empty secret. *)
Fixpoint replace_from (secret : list Z) (fuel : nat) (l : list Z) : list Z :=
  match fuel, l with
  | S fuel, n :: tail =>
      match after_prefix secret l with
      | Some rest => marker ++ replace_from secret fuel rest
      | None => n :: replace_from secret fuel tail
      end
  | _, _ => []
  end.

Definition replace_secret (secret l : list Z) : list Z := replace_from secret (length l) l.

(** [text.endswith(part)] *)
Definition ends_in (part l : list Z) : bool :=
  (length part <=? length l)%nat && bool_decide (drop (length l - length part) l = part).

(** The longest proper prefix of one secret that ends the text, from [length] down. *)
Fixpoint edge_length (secret l : list Z) (length : nat) : nat :=
  match length with
  | O => O
  | S shorter => if ends_in (take length secret) l then length else edge_length secret l shorter
  end.

Definition longest_edge (secrets : list (list Z)) (l : list Z) : nat :=
  fold_left (fun longest secret =>
      Nat.max longest (edge_length secret l (Nat.min (length secret - 1) (length l)))) secrets 0%nat.

Definition cut_edge (secrets : list (list Z)) (l : list Z) : list Z :=
  match longest_edge secrets l with
  | O => l
  | n => take (length l - n) l ++ marker
  end.

(** ** The redactor *)

Record Redactor := mk_Redactor { secrets : list string }.

Definition secret_le (a b : string) : bool :=
  (py_len b <? py_len a) || (py_len a =? py_len b) && str_le a b.

(** [Redactor.__post_init__] *)
Definition make_Redactor (values : list string) : res Redactor :=
  let unique := dict_fromkeys (filter (fun s => s <> "") values) in
  raise_if (MAX_REDACTION_SECRETS <? Z.of_nat (length unique))
    (ValueError "redaction is limited to 128 secrets") ;;
  raise_if (existsb (fun s => MAX_REDACTION_SECRET_LENGTH <? py_len s) unique)
    (ValueError "redaction secrets are limited to 8192 characters") ;;
  raise_if (MAX_REDACTION_SECRET_BYTES <? py_sum (byte_len <$> unique))
    (ValueError "redaction secret data is limited to 262144 bytes") ;;
  mret (mk_Redactor (py_sorted secret_le unique)).

Definition with_secrets (r : Redactor) (values : list string) : res Redactor :=
  make_Redactor (secrets r ++ values).

Section Redact.
Context `{!UnicodeTables}.

Definition sub_pattern (pattern : re * re) (l : list Z) : list Z := sub pattern.1 pattern.2 marker l.

(** [redact] on code points. *)
Definition redact_points (r : Redactor) (truncated : bool) (l : list Z) : list Z :=
  let values := code_points <$> secrets r in
  let replaced := fold_left (fun l secret => replace_secret secret l) values l in
  let redacted := sub_pattern _TOKEN_URL_PARAMETER
                    (sub_pattern _CREDENTIAL_ASSIGNMENT (sub_pattern _AUTHORIZATION replaced)) in
  if truncated then cut_edge values redacted else redacted.

Definition redact (r : Redactor) (value : string) (truncated : bool) : string :=
  text_of (redact_points r truncated (code_points value)).

(** The bytes are decoded with [errors="replace"]. *)
Definition decode_and_redact (r : Redactor) (value : string) (truncated : bool) : string :=
  text_of (redact_points r truncated (decode_replace value)).
End Redact.

(** ** Secrets do not survive *)

Section clear.
Context (m s : list Z).

(** Laid over each other with [i] over [j], the secret and the marker differ
    somewhere; so no occurrence of the secret can touch a marker. *)
Definition differ_at (i j : nat) : bool :=
  existsb (fun i' => (i <=? i' + j)%nat && (i' + j - i <? length m)%nat
                     && negb (bool_decide (s !! i' = m !! (i' + j - i)%nat)))
    (seq 0 (length s)).

Definition clear_of : bool :=
  negb (bool_decide (s = []))
  && forallb (fun i => forallb (differ_at i) (seq 0 (length m))) (seq 0 (length s)).

Lemma clear_of_spec i j :
  clear_of = true -> (i < length s)%nat -> (j < length m)%nat ->
  exists i' j' x y, (i' + j = i + j')%nat /\ s !! i' = Some x /\ m !! j' = Some y /\ x <> y.
Proof.
  intros Hc Hi Hj. unfold clear_of in Hc. apply andb_true_iff in Hc as [_ Hc].
  rewrite forallb_true, Forall_forall in Hc. specialize (Hc i). rewrite elem_of_seq in Hc.
  specialize (Hc ltac:(lia)). rewrite forallb_true, Forall_forall in Hc. specialize (Hc j).
  rewrite elem_of_seq in Hc. specialize (Hc ltac:(lia)). unfold differ_at in Hc.
  apply existsb_exists in Hc as (i' & Hin & Hd). apply in_seq in Hin.
  rewrite !andb_true_iff, Nat.leb_le, Nat.ltb_lt, negb_true_iff, bool_decide_eq_false in Hd.
  destruct Hd as [[Hle Hlt] Hd].
  destruct (lookup_lt_is_Some_2 s i' ltac:(lia)) as [x Hx].
  destruct (lookup_lt_is_Some_2 m (i' + j - i)%nat Hlt) as [y Hy].
  exists i', (i' + j - i)%nat, x, y. split_and!; [lia|done|done|congruence].
Qed.

(** [out] is the text with some of its infixes replaced by the marker. *)
Inductive masked : list Z -> list Z -> Prop :=
| masked_nil : masked [] []
| masked_keep n l o : masked l o -> masked (n :: l) (n :: o)
| masked_mark u l o : masked l o -> masked (u ++ l) (m ++ o).

Lemma masked_refl l : masked l l.
Proof. induction l; by constructor. Qed.

Lemma masked_app a b x y : masked a x -> masked b y -> masked (a ++ b) (x ++ y).
Proof.
  induction 1 as [|n l o H IH|u l o H IH]; intros Hb; cbn [app]; [done|constructor; auto|].
  rewrite <- !app_assoc. constructor. auto.
Qed.

Context (Hclear : clear_of = true).

Lemma clear_nonempty : s <> [].
Proof. unfold clear_of in Hclear. by apply andb_true_iff, proj1, negb_true_iff, bool_decide_eq_false in Hclear. Qed.

Context (Hmarker : m <> []).

(** An occurrence cannot start inside a marker ... *)
Lemma clear_start o a b : m ++ o = a ++ s ++ b -> exists a', a = m ++ a' /\ o = a' ++ s ++ b.
Proof.
  intros E. destruct (decide (length a < length m)%nat) as [Hlt|Hge].
  - destruct (clear_of_spec 0 (length a) Hclear) as (i & j & x & y & Hij & Hx & Hy & Hne).
    { pose proof clear_nonempty. destruct s; [done|cbn; lia]. }
    { done. }
    exfalso. apply Hne. assert (Ho : (m ++ o) !! j = Some y) by (by apply lookup_app_l_Some).
    rewrite E, lookup_app_r in Ho by lia. replace (j - length a)%nat with i in Ho by lia.
    rewrite (lookup_app_l_Some _ _ _ _ Hx) in Ho. congruence.
  - exists (drop (length m) a).
    assert (Ha : take (length m) a = m).
    { assert (Ht : take (length m) (m ++ o) = take (length m) (a ++ s ++ b)) by by rewrite E.
      rewrite take_app_length, take_app_le in Ht by lia. done. }
    assert (Hd : a = m ++ drop (length m) a) by (by rewrite <- Ha at 1; rewrite take_drop).
    split; [done|]. rewrite Hd, <- !app_assoc in E. by apply app_inv_head in E.
Qed.

(** ... and a partial one never runs into it. *)
Lemma masked_prefix p q l o rest :
  masked l o -> s = p ++ q -> o = q ++ rest -> exists rest', l = q ++ rest'.
Proof.
  intros H. revert p q rest. induction H as [|n l o H IH|u l o H IH]; intros p q rest Hs Ho.
  - symmetry in Ho. apply app_eq_nil in Ho as [-> _]. by exists [].
  - destruct q as [|c q]; [by eexists|]. cbn in Ho. injection Ho as -> ->.
    destruct (IH (p ++ [c]) q rest) as [rest' ->]; [by rewrite <- app_assoc|done|]. by exists rest'.
  - destruct q as [|c q]; [by eexists|]. exfalso.
    destruct (clear_of_spec (length p) 0 Hclear) as (i & j & x & y & Hij & Hx & Hy & Hne).
    { rewrite Hs, length_app. cbn. lia. }
    { destruct m; [done|cbn; lia]. }
    apply Hne. rewrite Hs, lookup_app_r in Hx by lia. replace (i - length p)%nat with j in Hx by lia.
    apply (lookup_app_l_Some _ o) in Hy. rewrite Ho in Hy.
    apply (lookup_app_l_Some _ rest) in Hx. congruence.
Qed.

Definition occurs (l : list Z) : Prop := exists a b, l = a ++ s ++ b.

(** Masking never makes the secret appear. *)
Lemma masked_occurs l o : masked l o -> occurs o -> occurs l.
Proof.
  intros H. induction H as [|n l o H IH|u l o H IH]; intros (a & b & E).
  - by exists a, b.
  - destruct a as [|c a].
    + destruct (masked_prefix [] s (n :: l) (n :: o) b) as [rest ->]; [by constructor|done|done|].
      by exists [], rest.
    + cbn in E. injection E as -> ->. destruct IH as (a' & b' & ->); [by exists a, b|].
      by exists (c :: a'), b'.
  - apply clear_start in E as (a' & _ & ->). destruct IH as (a2 & b2 & ->); [by exists a', b|].
    exists (u ++ a2), b2. by rewrite <- app_assoc.
Qed.
End clear.

Arguments masked m _ _ : assert.

(** ** The operations mask *)

Lemma after_prefix_Some secret l rest : after_prefix secret l = Some rest -> l = secret ++ rest.
Proof.
  revert l. induction secret as [|a secret IH]; intros [|b l]; cbn; try by intros [= ->].
  destruct (Z.eqb_spec a b) as [->|]; [|done]. intros ->%IH. done.
Qed.

Lemma after_prefix_app secret rest : after_prefix secret (secret ++ rest) = Some rest.
Proof. induction secret as [|a secret IH]; cbn; [by destruct rest|]. by rewrite Z.eqb_refl. Qed.

Lemma replace_masked secret fuel l :
  secret <> [] -> (length l <= fuel)%nat -> masked marker l (replace_from secret fuel l).
Proof.
  intros Hs. revert l. induction fuel as [|fuel IH]; intros [|n l] Hf; cbn [length] in Hf; try lia;
    cbn [replace_from]; [constructor..|].
  destruct (after_prefix secret (n :: l)) as [rest|] eqn:Hp; [|constructor; apply IH; lia].
  apply after_prefix_Some in Hp as Hl. rewrite Hl. constructor. apply IH.
  assert (Hlen : length (n :: l) = (length secret + length rest)%nat) by by rewrite Hl, length_app.
  destruct secret; [done|]. cbn in Hlen. lia.
Qed.

(** Once a secret has been replaced, it is nowhere. *)
Lemma replace_removes s fuel l :
  clear_of marker s = true -> (length l <= fuel)%nat -> ~ occurs s (replace_from s fuel l).
Proof.
  intros Hc. assert (Hs : s <> []) by by eapply clear_nonempty.
  revert l. induction fuel as [|fuel IH]; intros [|n l] Hf (a & b & E); cbn [length] in Hf; try lia.
  1-2: cbn in E; symmetry in E; apply app_eq_nil in E as [_ E]; apply app_eq_nil in E as [E _]; done.
  pose proof (replace_masked s (S fuel) (n :: l) Hs ltac:(cbn [length]; lia)) as Hm. cbn [replace_from] in *.
  destruct (after_prefix s (n :: l)) as [rest|] eqn:Hp.
  - apply after_prefix_Some in Hp. apply clear_start in E as (a' & _ & E); [|done..].
    eapply (IH rest); [|by exists a', b].
    assert (Hlen : length (n :: l) = (length s + length rest)%nat) by by rewrite Hp, length_app.
    destruct s; [done|]. cbn in Hlen. lia.
  - destruct a as [|c a].
    + destruct (masked_prefix marker s Hc ltac:(done) [] s _ _ b Hm) as [rest Hl]; [done|done|].
      rewrite Hl, after_prefix_app in Hp. done.
    + cbn in E. injection E as -> E. eapply (IH l); [lia|by exists a, b].
Qed.

(** A match continues on a suffix of the text. *)
Lemma many_suffix {X} p lo prev l (k : option Z -> list Z -> option X) x :
  many p lo prev l k = Some x -> exists prev' l', l' `suffix_of` l /\ k prev' l' = Some x.
Proof.
  revert lo prev. induction l as [|n l IH]; intros lo prev; cbn [many].
  - destruct (lo =? 0)%nat; [|done]. intros. by exists prev, [].
  - destruct (p n).
    + destruct (many p (pred lo) (Some n) l k) as [y|] eqn:Hm.
      * intros [= <-]. destruct (IH _ _ Hm) as (prev' & l' & Hl & Hk). exists prev', l'.
        split; [by apply suffix_cons_r|done].
      * destruct (lo =? 0)%nat; [|done]. intros. by exists prev, (n :: l).
    + destruct (lo =? 0)%nat; [|done]. intros. by exists prev, (n :: l).
Qed.

Lemma match_suffix `{!UnicodeTables} {X} r prev l (k : option Z -> list Z -> option X) x :
  match_re r prev l k = Some x -> exists prev' l', l' `suffix_of` l /\ k prev' l' = Some x.
Proof.
  revert prev l k. induction r as [|p|p lo| | |a IHa b IHb|a IHa b IHb]; intros prev l k; cbn [match_re].
  - intros. by exists prev, l.
  - destruct l as [|n l]; [done|]. destruct (p n); [|done]. intros. exists (Some n), l.
    split; [by exists [n]|done].
  - apply many_suffix.
  - destruct (Bool.eqb _ _); [done|]. intros. by exists prev, l.
  - destruct (match prev with None => _ | Some _ => _ end); [|done]. intros. by exists prev, l.
  - intros (prev1 & l1 & H1 & Hk)%IHa. apply IHb in Hk as (prev2 & l2 & H2 & Hk).
    exists prev2, l2. split; [by etrans|done].
  - destruct (match_re a prev l k) eqn:Ha; [|apply IHb]. intros [= <-]. by apply IHa in Ha.
Qed.

Lemma consumed_app l l1 : l1 `suffix_of` l -> consumed l l1 ++ l1 = l.
Proof.
  intros [u ->]. unfold consumed. rewrite length_app, Nat.add_sub. by rewrite take_app_length.
Qed.

Lemma match_here_splits `{!UnicodeTables} prefix rest prev l l1 l2 :
  match_here prefix rest prev l = Some (l1, l2) -> exists u, l = consumed l l1 ++ u ++ l2.
Proof.
  unfold match_here. intros (prev1 & k1 & H1 & Hk)%match_suffix.
  apply match_suffix in Hk as (prev2 & k2 & H2 & [= -> ->]).
  destruct H2 as [u Hu]. exists u. rewrite <- Hu. by rewrite consumed_app.
Qed.

Lemma sub_masked `{!UnicodeTables} prefix rest m fuel prev l :
  (length l <= fuel)%nat -> masked m l (sub_from prefix rest m fuel prev l).
Proof.
  revert prev l. induction fuel as [|fuel IH]; intros prev [|n l] Hf; cbn [length] in Hf; try lia;
    cbn [sub_from]; [constructor..|].
  destruct (match_here prefix rest prev (n :: l)) as [[l1 l2]|] eqn:Hm; [|constructor; apply IH; lia].
  destruct (Nat.ltb_spec (length l2) (length (n :: l))) as [Hlt|]; [|constructor; apply IH; lia].
  apply match_here_splits in Hm as [u Hu]. rewrite Hu at 1.
  apply masked_app; [apply masked_refl|]. constructor. apply IH. cbn [length] in Hlt. lia.
Qed.

Lemma cut_edge_masked values l : masked marker l (cut_edge values l).
Proof.
  unfold cut_edge. destruct (longest_edge values l) as [|n] eqn:Hn; [apply masked_refl|]. rewrite <- Hn.
  rewrite <- (take_drop (length l - longest_edge values l) l) at 1.
  apply masked_app; [apply masked_refl|].
  rewrite <- (app_nil_r (drop _ l)), <- (app_nil_r marker). constructor. constructor.
Qed.

Lemma fold_replace_masks s values l :
  clear_of marker s = true -> (forall v, v ∈ values -> v <> []) ->
  occurs s (fold_left (fun l secret => replace_secret secret l) values l) -> occurs s l.
Proof.
  intros Hc. revert l. induction values as [|v values IH]; intros l Hv; cbn [fold_left]; [done|].
  intros H%IH; [|intros; apply Hv; by right]. eapply masked_occurs; [done| |by apply replace_masked; [apply Hv; left|]|done].
  done.
Qed.

Lemma fold_replace_removes s values l :
  clear_of marker s = true -> (forall v, v ∈ values -> v <> []) -> s ∈ values ->
  ~ occurs s (fold_left (fun l secret => replace_secret secret l) values l).
Proof.
  intros Hc Hv (before & after & ->)%list_elem_of_split. rewrite fold_left_app. cbn [fold_left].
  intros H%fold_replace_masks; [|done|intros; apply Hv; apply elem_of_app; by right; right].
  by apply replace_removes in H.
Qed.

Lemma redact_points_clear `{!UnicodeTables} r truncated l s :
  (forall v, v ∈ secrets r -> code_points v <> []) -> s ∈ secrets r ->
  clear_of marker (code_points s) = true -> ~ occurs (code_points s) (redact_points r truncated l).
Proof.
  intros Hv Hs Hc Ho. unfold redact_points in Ho.
  set (values := code_points <$> secrets r) in Ho.
  assert (Hr : occurs (code_points s) (fold_left (fun l secret => replace_secret secret l) values l)).
  { assert (Hstep : forall l l', masked marker l l' -> occurs (code_points s) l' -> occurs (code_points s) l).
    { intros. by eapply (masked_occurs marker). }
    destruct truncated; [apply (Hstep _ _ (cut_edge_masked _ _)) in Ho|];
      do 3 apply (Hstep _ _ (sub_masked _ _ _ _ _ _ (le_n _))) in Ho; exact Ho. }
  apply fold_replace_removes in Hr; [done|done| |].
  - intros v (v' & -> & Hin)%list_elem_of_fmap. by apply Hv.
  - apply list_elem_of_fmap. by exists s.
Qed.

Lemma masked_forall (P : Z -> Prop) m l o : Forall P m -> masked m l o -> Forall P l -> Forall P o.
Proof.
  intros Hm. induction 1 as [|n l o H IH|u l o H IH]; intros Hl; [constructor| |].
  - inversion Hl; subst. constructor; auto.
  - apply Forall_app in Hl as [_ Hl]. apply Forall_app. auto.
Qed.

(** ** Messages stay messages *)

(** A non-empty text without zero bytes: what the contracts ask of a message. *)
Definition plain (s : string) : bool := negb (String.eqb s "") && negb (str_contains nul s).

Lemma masked_nonempty l o : masked marker l o -> l <> [] -> o <> [].
Proof. by induction 1. Qed.

Lemma plain_points s :
  plain s = true <-> s <> "" /\ Forall (fun c => byte_value c <> 0) (String.list_ascii_of_string s).
Proof.
  unfold plain. rewrite andb_true_iff, !negb_true_iff, String.eqb_neq. unfold str_contains. f_equiv.
  rewrite existsb_false. split; intros H; (eapply Forall_impl; [exact H|]); intros c; cbv beta.
  - intros Hc H0. apply Ascii.eqb_neq in Hc. apply Hc. unfold nul, byte_value in *.
    rewrite <- (ascii_N_embedding c). f_equal. lia.
  - intros Hc. apply Ascii.eqb_neq. by intros <-.
Qed.

Lemma plain_app a b : plain a = true -> plain b = true -> plain (a +:+ b) = true.
Proof.
  intros [Ha Hza]%plain_points [Hb Hzb]%plain_points. apply plain_points. split; [by destruct a|].
  clear Ha Hb. induction a as [|c a IH]; [done|]. apply Forall_cons in Hza as [Hc Hza].
  change (String c a +:+ b) with (String c (a +:+ b)). cbn. constructor; [done|by apply IH].
Qed.

(** Steps of the redactor, each of which masks. *)
Lemma redact_points_steps `{!UnicodeTables} (P : list Z -> Prop) r truncated l :
  (forall v, v ∈ secrets r -> code_points v <> []) ->
  (forall l l', masked marker l l' -> P l -> P l') -> P l -> P (redact_points r truncated l).
Proof.
  intros Hv Hstep Hl.
  assert (Hfold : forall vs l, (forall v, v ∈ vs -> v <> []) -> P l ->
    P (fold_left (fun l secret => replace_secret secret l) vs l)).
  { intros vs. induction vs as [|v vs IH]; intros l' Hvs Hl'; [done|]. cbn [fold_left].
    apply IH; [intros; apply Hvs; by right|]. eapply Hstep; [|exact Hl'].
    apply replace_masked; [apply Hvs; left|done]. }
  assert (Hr : P (fold_left (fun l secret => replace_secret secret l) (code_points <$> secrets r) l)).
  { apply Hfold; [|done]. intros v (v' & -> & Hin)%list_elem_of_fmap. by apply Hv. }
  unfold redact_points, sub_pattern.
  destruct truncated; [eapply Hstep; [apply cut_edge_masked|]|];
    do 3 (eapply Hstep; [by apply sub_masked|]); exact Hr.
Qed.

Lemma redact_points_forall `{!UnicodeTables} (P : Z -> Prop) r truncated l :
  (forall v, v ∈ secrets r -> code_points v <> []) -> Forall P marker ->
  Forall P l -> Forall P (redact_points r truncated l).
Proof. intros Hv Hm. apply redact_points_steps; [done|]. intros ? ? Hmask. by apply (masked_forall _ _ _ _ Hm). Qed.

Lemma redact_points_scalar `{!UnicodeTables} r truncated l :
  (forall v, v ∈ secrets r -> code_points v <> []) ->
  Forall (fun n => scalar n = true) l -> Forall (fun n => scalar n = true) (redact_points r truncated l).
Proof. intros Hv. apply redact_points_forall; [done|]. by repeat constructor. Qed.

(** Where no proper prefix of a secret was found, none ends the text. *)
Lemma edge_length_zero secret l n :
  edge_length secret l n = 0%nat -> forall k, (0 < k <= n)%nat -> ends_in (take k secret) l = false.
Proof.
  induction n as [|n IH]; cbn [edge_length]; [lia|]. destruct (ends_in (take (S n) secret) l) eqn:He; [done|].
  intros H k Hk. destruct (decide (k = S n)) as [->|]; [done|]. apply IH; [done|lia].
Qed.

Lemma fold_max_zero {A} (f : A -> nat) xs n :
  fold_left (fun longest x => Nat.max longest (f x)) xs n = 0%nat -> n = 0%nat /\ forall x, x ∈ xs -> f x = 0%nat.
Proof.
  revert n. induction xs as [|y xs IH]; intros n; cbn [fold_left].
  - intros ->. split; [done|]. intros x Hx. inversion Hx.
  - intros [Hm Hf]%IH. split; [lia|]. intros x [->|Hx]%elem_of_cons; [lia|by apply Hf].
Qed.

Lemma longest_edge_zero values l secret :
  longest_edge values l = 0%nat -> secret ∈ values ->
  edge_length secret l (Nat.min (length secret - 1) (length l)) = 0%nat.
Proof. intros [_ H]%fold_max_zero. apply H. Qed.

Lemma cut_edge_ends values l secret k :
  secret ∈ values -> (0 < k < length secret)%nat ->
  ends_in marker (cut_edge values l) = true \/ ends_in (take k secret) (cut_edge values l) = false.
Proof.
  intros Hin Hk. unfold cut_edge. destruct (longest_edge values l) as [|n] eqn:Hn.
  - right. pose proof (longest_edge_zero _ _ _ Hn Hin) as Hz.
    destruct (decide (k <= length l)%nat) as [Hle|Hgt].
    + apply (edge_length_zero _ _ _ Hz). lia.
    + unfold ends_in. rewrite length_take. apply andb_false_iff. left. apply Nat.leb_gt. lia.
  - left. unfold ends_in. rewrite length_app, andb_true_iff, Nat.leb_le, bool_decide_eq_true.
    split; [lia|]. rewrite Nat.add_sub. by rewrite drop_app_length.
Qed.

Lemma decode_with_nonempty n fuel c l : decode_with [n] (S fuel) (c :: l) <> [].
Proof. cbn [decode_with]. destruct (decode_one c l) as [[m|] rest]; discriminate. Qed.

Lemma code_points_nonempty s : s <> "" -> code_points s <> [].
Proof. destruct s; [done|]. intros _. apply decode_with_nonempty. Qed.

Lemma make_Redactor_secrets configured r s :
  make_Redactor configured = Ok r -> s ∈ secrets r <-> s ∈ configured /\ s <> "".
Proof.
  unfold make_Redactor. intros H. repeat (apply bind_raise_if_Ok in H as [_ H]). injection H as <-. cbn [secrets].
  rewrite py_sorted_perm, elem_of_dict_fromkeys, list_elem_of_filter. tauto.
Qed.

Lemma secrets_nonempty configured r :
  make_Redactor configured = Ok r -> forall v, v ∈ secrets r -> code_points v <> [].
Proof.
  intros Hr v Hv. apply code_points_nonempty. exact (proj2 (proj1 (make_Redactor_secrets _ _ _ Hr) Hv)).
Qed.

Lemma redact_plain `{!UnicodeTables} configured r s truncated :
  make_Redactor configured = Ok r -> plain s = true -> plain (redact r s truncated) = true.
Proof.
  intros Hr [Hne Hb]%plain_points. pose proof (secrets_nonempty _ _ Hr) as Hv. apply plain_points.
  unfold redact, text_of. rewrite String.list_ascii_of_string_of_list_ascii.
  assert (Hz : Forall (fun n => n <> 0) (redact_points r truncated (code_points s))).
  { apply redact_points_forall; [done|by repeat constructor|]. apply decode_nonzero; [by repeat constructor|done]. }
  assert (Hs : Forall (fun n => scalar n = true) (redact_points r truncated (code_points s))).
  { apply redact_points_scalar; [done|]. apply code_points_scalar. }
  destruct (encode_all_nonzero _ Hs Hz) as [Hbytes Hnonempty]. split; [|done].
  assert (Hp : redact_points r truncated (code_points s) <> []).
  { apply (redact_points_steps (fun l => l <> [])); [done|apply masked_nonempty|by apply code_points_nonempty]. }
  specialize (Hnonempty Hp). by destruct (encode_bytes _).
Qed.

(** Whatever text is redacted, from characters or from bytes, a configured secret
    which cannot overlap the marker does not occur in the result; and a truncated
    text ends with the marker or with no proper prefix of the secret. *)
Theorem redaction_hides `{!UnicodeTables} configured r s value truncated :
  make_Redactor configured = Ok r -> s ∈ configured -> clear_of marker (code_points s) = true ->
  ~ occurs (code_points s) (code_points (redact r value truncated))
  /\ ~ occurs (code_points s) (code_points (decode_and_redact r value truncated))
  /\ forall k, (0 < k < length (code_points s))%nat ->
     ends_in marker (code_points (redact r value true)) = true
     \/ ends_in (take k (code_points s)) (code_points (redact r value true)) = false.
Proof.
  intros Hr Hs Hc. assert (Hne : s <> "") by (by intros ->).
  assert (Hin : s ∈ secrets r) by exact (proj2 (make_Redactor_secrets _ _ _ Hr) (conj Hs Hne)).
  pose proof (secrets_nonempty _ _ Hr) as Hv. pose proof (code_points_scalar value) as Hscalar. unfold redact, decode_and_redact.
  rewrite !code_points_text_of by (apply redact_points_scalar; [done|]; first [exact Hscalar|apply decode_scalar; by repeat constructor]).
  split_and!; try by apply redact_points_clear.
  intros k Hk. unfold redact_points. apply cut_edge_ends; [|done]. apply list_elem_of_fmap. by exists s.
Qed.

#[local] Instance ascii_tables : UnicodeTables := {| unicode_alnum _ := false |}.

Lemma redaction_hides_witness :
  is_ok (make_Redactor ["sk-live-4242"; "hunter2"]) = true
  /\ exists r, make_Redactor ["sk-live-4242"; "hunter2"] = Ok r
     /\ redact r "key sk-live-4242x, sk-li" true = "key [REDACTED]x, [REDACTED]"
     /\ ~ occurs (code_points "sk-live-4242") (code_points (redact r "key sk-live-4242x, sk-li" true)).
Proof.
  split; [by vm_compute|]. eexists. split; [by vm_compute|]. split; [by vm_compute|].
  refine (proj1 (redaction_hides ["sk-live-4242"; "hunter2"] _ "sk-live-4242" "key sk-live-4242x, sk-li" true _ _ _));
    [by vm_compute|left|by vm_compute].
Defined.
