(* ===== verification/LocalRunner.v ===== *)
(** * The local command runner ([src/src/revanent/commands/local.py])

    The one place where processes are launched: the checks before a launch, the
    watch over a running process, its termination, and the bounded and redacted
    output.  The host (clocks, processes, threads, files) is an interface of
    effectful calls that may raise.  [LocalWorld] adds what the theorems speak of:
    the processes launched, the threads started, the artifact bytes written.

    Times of the monotonic clock are rationals.  What a reader thread has read when
    the streams are finished is asked of the host ([chunks]). *)

From Stdlib Require Import ZArith Lia Ascii String QArith_base Qround.
From S2P Require Import Prelude Text Domain Unicode Regex Redaction Effects Commands CommandPolicy.
From stdpp Require Import base option strings numbers gmap sets list list_relations.

Open Scope Z_scope.

Definition _READ_SIZE : Z := 64 * 1024.

(** ** Cancellation ([commands/cancellation.py]) *)

Module CancellationSource.
Record t := mk { _event : bool }.
Definition init : t := mk false.
Definition cancel (s : t) : t := mk true.
Definition is_cancelled (s : t) : bool := _event s.
End CancellationSource.

(** ** Collecting a stream *)

(** [data[:n]] for a non-negative [n] *)
Definition take_bytes (n : Z) (data : string) : string :=
  String.substring 0 (Z.to_nat (Z.min n (byte_len data))) data.

Record _StreamCollector := mk_StreamCollector {
  capture_limit : Z;
  artifact_limit : Z;
  captured : string;
  artifact : string;
  observed : Z
}.

Definition new_collector (capture artifact : Z) : _StreamCollector :=
  mk_StreamCollector capture artifact "" "" 0.

(** [buffer.extend(chunk[:remaining])] while something remains of the limit. *)
Definition extend_bounded (limit : Z) (buffer chunk : string) : string :=
  let remaining := limit - byte_len buffer in
  if 0 <? remaining then buffer +:+ take_bytes remaining chunk else buffer.

Definition add (c : _StreamCollector) (chunk : string) : _StreamCollector :=
  mk_StreamCollector (capture_limit c) (artifact_limit c)
    (extend_bounded (capture_limit c) (captured c) chunk)
    (extend_bounded (artifact_limit c) (artifact c) chunk)
    (observed c + byte_len chunk).

(** The chunks a reader thread was given. *)
Definition collect (c : _StreamCollector) (chunks : list string) : _StreamCollector := foldl add c chunks.

(** ** Bounded representations *)

Definition _bounded_text (value : string) (limit : Z) : string * bool :=
  if byte_len value <=? limit then (value, false)
  else (text_of (decode_ignore (take_bytes limit value)), true).

Definition line_feed : string := String (ascii_of_N 10) "".

Definition byte_limit_marker : string := line_feed +:+ "[revanent: redacted artifact byte limit reached]".

Definition _bounded_utf8 (value : string) (limit : Z) : string :=
  if byte_len value <=? limit then value
  else if limit <=? byte_len byte_limit_marker then take_bytes limit byte_limit_marker
  else text_of (decode_ignore (take_bytes (limit - byte_len byte_limit_marker) value)) +:+ byte_limit_marker.

(** ** The host *)

Definition Process : Type := Z.

Inductive Worker : Type := ReadStdout | ReadStderr | WriteStdin.

#[export] Instance Worker_eq_dec : EqDecision Worker.
Proof. solve_decision. Defined.

Inductive Signal : Type :=
| GroupTerminate        (* [os.kill(-pid, SIGTERM)] *)
| GroupKill             (* [os.kill(-pid, SIGKILL)] *)
| Terminate             (* [process.terminate()] *)
| Kill.                 (* [process.kill()] *)

(** What [Popen] is given. *)
Record Launch := mk_Launch {
  argv : list string;
  launch_directory : Path;
  child_environment : list (string * string);
  piped_stdin : option string
}.

Class ProcessHost (E : Type) := {
  ph_files : FileSystem E;
  posix : bool;                                      (* [os.name == "posix"] *)
  wall_clock : M E datetime;                         (* [datetime.now(UTC)] *)
  monotonic : M E Q;                                 (* [time.monotonic()] *)
  sleep : Q -> M E unit;
  token_cancelled : M E bool;                        (* [request.cancellation.is_cancelled()] *)
  popen : Launch -> M E Process;
  poll : Process -> M E (option Z);
  wait : Process -> Q -> M E unit;                   (* raises [TimeoutExpired] *)
  returncode : Process -> M E (option Z);
  send_signal : Process -> Signal -> M E unit;
  start_thread : Process -> Worker -> M E unit;
  join_thread : Process -> Worker -> Q -> M E unit;
  is_alive : Process -> Worker -> M E bool;
  close_stream : Process -> Worker -> M E unit;
  chunks : Process -> OutputStream.t -> M E (list string);
  make_temporary : Path -> string -> M E Path;       (* [tempfile.mkstemp(dir=, prefix=, suffix=".tmp")] *)
  file_call : string -> Path -> M E unit;            (* [os.chmod], [os.fsync], [os.close], [unlink] *)
  write_file : Path -> string -> M E unit;
  replace_path : Path -> Path -> M E unit;           (* [os.replace] *)
  exception_name : exn -> string                     (* [type(error).__name__] *)
}.

#[export] Existing Instance ph_files.

Record LocalWorld (E : Type) := mk_LocalWorld {
  local_host : E;
  launched : list Launch;
  workers : list Worker;
  written : list (Path * string)
}.
Arguments mk_LocalWorld {E}.
Arguments local_host {E}.
Arguments launched {E}.
Arguments workers {E}.
Arguments written {E}.

(** [except CommandPolicyError]: the category of the subclass. *)
Definition policy_category (e : exn) : option CommandFailureCategory.t :=
  match e with
  | BoundaryError class _ =>
      dict_get class
        [("CommandPolicyError", CommandFailureCategory.POLICY);
         ("ExecutablePolicyError", CommandFailureCategory.POLICY);
         ("ExecutableUnavailableError", CommandFailureCategory.EXECUTABLE_UNAVAILABLE);
         ("WorkingDirectoryPolicyError", CommandFailureCategory.WORKING_DIRECTORY);
         ("EnvironmentPolicyError", CommandFailureCategory.ENVIRONMENT);
         ("OutputArtifactPolicyError", CommandFailureCategory.OUTPUT_ARTIFACT)]
  | _ => None
  end.

Definition policy_message (e : exn) : string := match e with BoundaryError _ message => message | _ => "" end.

(** [except (OSError, ValueError, subprocess.SubprocessError)] *)
Definition is_launch_error (e : exn) : bool :=
  is_os_error e || is_ValueError e || is_class "SubprocessError" e || is_class "TimeoutExpired" e.

Definition is_timeout (e : exn) : bool := is_class "TimeoutExpired" e.

(** [except (OSError, CommandPolicyError)] *)
Definition is_artifact_error (e : exn) : bool := is_os_error e || is_some (policy_category e).

Record LocalCommandRunner := mk_LocalCommandRunner {
  _executables : ExecutablePolicy;
  _paths : PathPolicy;
  _environment : EnvironmentPolicy;
  _command_policy : CommandPolicy;
  _redactor : Redactor;
  _poll_interval : Q;
  _termination_grace : Q
}.

(** [CommandPolicy()] *)
Definition default_CommandPolicy : CommandPolicy :=
  mk_CommandPolicy MAX_TIMEOUT_SECONDS MAX_STREAM_CAPTURE_BYTES MAX_STREAM_CAPTURE_BYTES
    MAX_STREAM_ARTIFACT_BYTES MAX_STDIN_BYTES false true.

Definition Qlt_bool (a b : Q) : bool := negb (Qle_bool b a).

Definition make_LocalCommandRunner (executables : ExecutablePolicy) (paths : PathPolicy)
    (environment : EnvironmentPolicy) (command_policy : option CommandPolicy) (redactor : option Redactor)
    (poll_interval termination_grace : Q) : res LocalCommandRunner :=
  raise_if (negb (Qlt_bool 0 poll_interval && Qle_bool poll_interval 1))
    (ValueError "poll interval must be positive and at most one second") ;;
  raise_if (negb (Qlt_bool 0 termination_grace && Qle_bool termination_grace 10))
    (ValueError "termination grace must be positive and at most ten seconds") ;;
  mret (mk_LocalCommandRunner executables paths environment
          (default default_CommandPolicy command_policy) (default (mk_Redactor []) redactor)
          poll_interval termination_grace).

Definition _empty_output : CapturedOutput := mk_CapturedOutput "" 0 0 false false None.

(** The text of a captured stream with its notices. *)
Definition truncation_notice (stream : OutputStream.t) (observed : Z) : string :=
  line_feed +:+ "[revanent: " +:+ OutputStream.value stream +:+ " truncated; observed "
  +:+ str_of_Z observed +:+ " bytes]".
Definition representation_notice (stream : OutputStream.t) : string :=
  line_feed +:+ "[revanent: redacted " +:+ OutputStream.value stream +:+ " representation truncated]".
Definition artifact_notice (stream : OutputStream.t) (observed : Z) : string :=
  line_feed +:+ "[revanent: " +:+ OutputStream.value stream +:+ " artifact truncated; observed "
  +:+ str_of_Z observed +:+ " bytes]".

(** How the watch over a process ended. *)
Inductive watched : Type :=
| Exited
| Interrupted (status : CommandStatus.t) (failure : CommandFailureCategory.t) (message : string)
| Watching.                                          (* the fuel ran out *)

(** Enough turns to see the timeout pass. *)
Definition poll_turns (timeout : Z) (interval : Q) : nat :=
  (Z.to_nat (Qceiling (inject_Z timeout / interval)) + 1)%nat.

Section Runner.
Context {E : Type} `{!ProcessHost E} `{!UnicodeTables}.
Abbreviation W := (LocalWorld E).

Definition at_host {A} (m : M E A) : M W A := fun w =>
  let '(e, r) := m (local_host w) in (mk_LocalWorld e (launched w) (workers w) (written w), r).

Definition record_launch (l : Launch) : M W unit := fun w =>
  (mk_LocalWorld (local_host w) (launched w ++ [l]) [] (written w), Ok tt).
Definition record_worker (worker : Worker) : M W unit := fun w =>
  (mk_LocalWorld (local_host w) (launched w) (workers w ++ [worker]) (written w), Ok tt).
Definition record_written (path : Path) (data : string) : M W unit := fun w =>
  (mk_LocalWorld (local_host w) (launched w) (workers w) (written w ++ [(path, data)]), Ok tt).

Variable runner : LocalCommandRunner.

(** ** Results without a process *)

Definition duration_since (started : Q) : M W Q :=
  now ← at_host monotonic ;
  mret (if Qle_bool 0 (now - started) then (now - started)%Q else 0%Q).

Definition _failure_result (request : CommandRequest) (status : CommandStatus.t)
    (failure : CommandFailureCategory.t) (message : string) (resolved_executable : option Path)
    (started_at : datetime) (started_monotonic : Q) : M W CommandResult :=
  completed_at ← at_host wall_clock ;
  duration ← duration_since started_monotonic ;
  lift (
    empty ← validate_CapturedOutput _empty_output ;
    reason ← validate_CommandFailure (mk_CommandFailure failure (redact (_redactor runner) message false)) ;
    validate_CommandResult
      (mk_CommandResult (req_correlation_id request) (req_executable request) resolved_executable status
         started_at completed_at duration empty empty None (Some reason) COMMAND_SCHEMA_VERSION)).

(** ** Artifacts *)

Definition _atomic_write (target : Path) (data : string) : M W unit :=
  temporary ← at_host (make_temporary (path_parent target) ("." +:+ path_name target +:+ ".")) ;
  outcome ← attempt (
    suppress is_os_error (at_host (file_call "chmod" temporary)) ;;
    at_host (file_call "fdopen" temporary) ;;
    at_host (write_file temporary data) ;;
    at_host (file_call "fsync" temporary) ;;
    at_host (file_call "close" temporary) ;;
    at_host (replace_path temporary target) ;;
    record_written target data) ;
  match outcome with
  | Ok _ => mret tt
  | Err e =>
      suppress is_os_error (at_host (file_call "close" temporary)) ;;
      suppress is_os_error (at_host (file_call "unlink" temporary)) ;;
      raise e
  end.

(** [request.output_limits] of the artifact, when the request asks for one. *)
Definition artifact_text (redactor : Redactor) (c : _StreamCollector) (stream : OutputStream.t) : string :=
  let truncated := byte_len (artifact c) <? observed c in
  decode_and_redact redactor (artifact c) truncated
  +:+ (if truncated then artifact_notice stream (observed c) else "").

(** The overflow artifact: its reference, or the failure to write it. *)
Definition write_artifact (c : _StreamCollector) (stream : OutputStream.t) (request : CommandRequest)
    (directory : Path) (redactor : Redactor) : M W (option ArtifactReference * bool) :=
  let artifact_truncated := byte_len (artifact c) <? observed c in
  let text := artifact_text redactor c stream in
  let redacted_bytes_observed := byte_len text in
  let data := _bounded_utf8 text (artifact_bytes_per_stream (req_output_limits request)) in
  let representation_truncated := byte_len data <? redacted_bytes_observed in
  stored ← attempt (
    target ← at_host (artifact_path (_paths runner) directory
                        (req_correlation_id request +:+ "." +:+ OutputStream.value stream +:+ ".log")) ;
    _atomic_write target data ;;
    mret target) ;
  match stored with
  | Err e => if is_artifact_error e then mret (None, true) else raise e
  | Ok target =>
      reference ← lift (validate_ArtifactReference
        (mk_ArtifactReference target stream
           (if artifact_truncated || representation_truncated then ArtifactStatus.TRUNCATED
            else ArtifactStatus.COMPLETE)
           (observed c) (byte_len (artifact c)) redacted_bytes_observed (byte_len data))) ;
      mret (Some reference, false)
  end.

Definition _finalize_stream (c : _StreamCollector) (stream : OutputStream.t) (request : CommandRequest)
    (artifact_directory : option Path) (redactor : Redactor) : M W (CapturedOutput * bool) :=
  let truncated := capture_limit c <? observed c in
  let bounded := _bounded_text (decode_and_redact redactor (captured c) truncated) (capture_limit c) in
  let redaction_truncated := bounded.2 in
  let text := bounded.1 +:+ (if truncated then truncation_notice stream (observed c) else "")
              +:+ (if redaction_truncated then representation_notice stream else "") in
  stored ← (if truncated || redaction_truncated then
              match artifact_directory with
              | Some directory => write_artifact c stream request directory redactor
              | None => mret (None, false)
              end
            else mret (None, false)) ;
  output ← lift (validate_CapturedOutput
    (mk_CapturedOutput text (observed c) (byte_len (captured c)) truncated redaction_truncated stored.1)) ;
  mret (output, stored.2).

(** ** A running process *)

Definition launch (executable : Path) (request : CommandRequest) (working_directory : Path)
    (environment : list (string * string)) : M W Process :=
  let l := mk_Launch (path_str executable :: req_arguments request) working_directory environment
             (req_stdin request) in
  record_launch l ;;
  at_host (popen l).

Definition start_worker (process : Process) (worker : Worker) : M W unit :=
  at_host (start_thread process worker) ;; record_worker worker.

(** [request.cancellation is not None and request.cancellation.is_cancelled()] *)
Definition cancelled (request : CommandRequest) : M W bool :=
  if req_cancellable request then at_host token_cancelled else mret false.

(** The [while True] loop; every turn sleeps for the poll interval. *)
Fixpoint watch (fuel : nat) (process : Process) (request : CommandRequest) (timeout_started : Q)
    : M W watched :=
  match fuel with
  | O => mret Watching
  | S fuel =>
      code ← at_host (poll process) ;
      if is_some code then mret Exited else
      stop ← cancelled request ;
      if (stop : bool) then
        mret (Interrupted CommandStatus.CANCELLED CommandFailureCategory.CANCELLATION
                "command was cancelled during execution") else
      now ← at_host monotonic ;
      if Qle_bool (inject_Z (req_timeout_seconds request)) (now - timeout_started) then
        mret (Interrupted CommandStatus.TIMEOUT CommandFailureCategory.TIMEOUT
                "command exceeded its configured timeout") else
      at_host (sleep (_poll_interval runner)) ;;
      watch fuel process request timeout_started
  end.

(** [process.wait(timeout=grace)]: whether the process ended in time. *)
Definition ended_in_time (process : Process) : M W bool :=
  try_except (at_host (wait process (_termination_grace runner)) ;; mret true) is_timeout (fun _ => mret false).

Definition _terminate (process : Process) : M W unit :=
  code ← at_host (poll process) ;
  if is_some code then mret tt else
  suppress is_os_error (at_host (send_signal process (if posix then GroupTerminate else Terminate))) ;;
  ended ← ended_in_time process ;
  if (ended : bool) then mret tt else
  suppress is_os_error (at_host (send_signal process (if posix then GroupKill else Kill))) ;;
  killed ← ended_in_time process ;
  if (killed : bool) then mret tt else
  at_host (send_signal process Kill) ;;
  at_host (wait process (_termination_grace runner)).

Fixpoint for_each {A} (f : A -> M W unit) (xs : list A) : M W unit :=
  match xs with [] => mret tt | x :: xs => f x ;; for_each f xs end.

(** [_finish_streams]: the standard input is a stream when it is piped. *)
Definition _finish_streams (process : Process) (request : CommandRequest) : M W unit :=
  started ← gets workers ;
  for_each (fun worker => at_host (join_thread process worker (_termination_grace runner))) started ;;
  for_each (fun worker => suppress is_os_error (at_host (close_stream process worker)))
    ((if is_some (req_stdin request) then [WriteStdin] else []) ++ [ReadStdout; ReadStderr]) ;;
  for_each (fun worker =>
      alive ← at_host (is_alive process worker) ;
      if (alive : bool) then at_host (join_thread process worker (_termination_grace runner)) else mret tt)
    started.

(** The threads, the loop and the termination, and the [finally] around them. *)
Definition supervise (process : Process) (request : CommandRequest) (timeout_started : Q) : M W watched :=
  try_finally
    (start_worker process ReadStdout ;;
     start_worker process ReadStderr ;;
     (if is_some (req_stdin request) then start_worker process WriteStdin else mret tt) ;;
     ending ← watch (poll_turns (req_timeout_seconds request) (_poll_interval runner))
                process request timeout_started ;
     match ending with
     | Interrupted _ _ _ => _terminate process
     | _ => at_host (wait process (_termination_grace runner))
     end ;;
     mret ending)
    (try_finally
       (code ← at_host (poll process) ; if is_some code then mret tt else _terminate process)
       (_finish_streams process request)).

(** The status and failure of a process that ran. *)
Definition settle_status (request : CommandRequest) (ending : watched) (artifact_failed : bool)
    (exit_code : option Z) : res (CommandStatus.t * option CommandFailure) :=
  match ending with
  | Interrupted status failure message =>
      reason ← validate_CommandFailure (mk_CommandFailure failure message) ;
      mret (status, Some reason)
  | _ =>
      if artifact_failed then
        reason ← validate_CommandFailure (mk_CommandFailure CommandFailureCategory.OUTPUT_ARTIFACT
                                            "redacted overflow artifact could not be written") ;
        mret (CommandStatus.OUTPUT_ARTIFACT_FAILED, Some reason)
      else if match exit_code with Some n => bool_decide (n ∈ req_expected_exit_codes request) | None => false end
      then mret (CommandStatus.SUCCESS, None)
      else mret (CommandStatus.NONZERO_EXIT, None)
  end.

Definition _complete_process (process : Process) (request : CommandRequest)
    (artifact_directory : option Path) (resolved_executable : Path) (request_redactor : Redactor)
    (timeout_started : Q) (started_at : datetime) (started_monotonic : Q) : M W CommandResult :=
  let limits := req_output_limits request in
  let artifact_limit := if is_some artifact_directory then artifact_bytes_per_stream limits else 0 in
  ending ← supervise process request timeout_started ;
  out_chunks ← at_host (chunks process OutputStream.STDOUT) ;
  err_chunks ← at_host (chunks process OutputStream.STDERR) ;
  stdout ← _finalize_stream (collect (new_collector (stdout_bytes limits) artifact_limit) out_chunks)
             OutputStream.STDOUT request artifact_directory request_redactor ;
  stderr ← _finalize_stream (collect (new_collector (stderr_bytes limits) artifact_limit) err_chunks)
             OutputStream.STDERR request artifact_directory request_redactor ;
  exit_code ← at_host (returncode process) ;
  settled ← lift (settle_status request ending (stdout.2 || stderr.2) exit_code) ;
  completed_at ← at_host wall_clock ;
  duration ← duration_since started_monotonic ;
  lift (validate_CommandResult
    (mk_CommandResult (req_correlation_id request) (req_executable request) (Some resolved_executable)
       settled.1 started_at completed_at duration stdout.1 stderr.1 exit_code settled.2
       COMMAND_SCHEMA_VERSION)).

(** ** [run] *)

(** What the checks before a launch establish. *)
Record Prepared := mk_Prepared {
  prep_executable : Path;
  prep_directory : Path;
  prep_artifacts : option Path;
  prep_environment : list (string * string)
}.

(** [request.environment.to_mapping()], in order *)
Definition override_items (request : CommandRequest) : list (string * string) :=
  dict_of ((fun v => (env_key v, env_value v)) <$> req_environment request).

(** The first [try] block, with the value of [resolved_executable] it leaves. *)
Definition prepare (request : CommandRequest) : M W (option Path * res Prepared) :=
  authorized ← attempt (lift (authorize_command (_command_policy runner) request)) ;
  match authorized with
  | Err e => mret (None, Err e)
  | Ok _ =>
      resolved ← attempt (at_host (resolve_executable (_executables runner) (req_executable request))) ;
      match resolved with
      | Err e => mret (None, Err e)
      | Ok executable =>
          prepared ← attempt (
            directory ← at_host (resolve_working_directory (_paths runner) (req_working_directory request)) ;
            artifacts ← match req_artifact_directory request with
                        | Some path => Some <$> at_host (resolve_artifact_directory (_paths runner) path)
                        | None => mret None
                        end ;
            environment ← lift (build_environment (_environment runner) (override_items request)) ;
            mret (mk_Prepared executable directory artifacts environment)) ;
          mret (Some executable, prepared)
      end
  end.

(** The launch and what follows it. *)
Definition run_prepared (request : CommandRequest) (p : Prepared) (request_redactor : Redactor)
    (started_at : datetime) (started_monotonic : Q) : M W CommandResult :=
  let executable := Some (prep_executable p) in
  let internal e := _failure_result request CommandStatus.INTERNAL_ERROR CommandFailureCategory.INTERNAL
                      ("internal command runner failure: " +:+ exception_name e) executable
                      started_at started_monotonic in
  stop ← attempt (cancelled request) ;
  match stop with
  | Err e => internal e
  | Ok true => _failure_result request CommandStatus.CANCELLED CommandFailureCategory.CANCELLATION
                 "command was cancelled before launch" executable started_at started_monotonic
  | Ok false =>
      timeout_started ← at_host monotonic ;
      process ← attempt (launch (prep_executable p) request (prep_directory p) (prep_environment p)) ;
      match process with
      | Err e =>
          if is_launch_error e then
            _failure_result request CommandStatus.LAUNCH_FAILED CommandFailureCategory.LAUNCH
              ("process launch failed: " +:+ exception_name e) executable started_at started_monotonic
          else internal e
      | Ok process =>
          try_except
            (_complete_process process request (prep_artifacts p) (prep_executable p) request_redactor
               timeout_started started_at started_monotonic)
            any_exception internal
      end
  end.

Definition run (request : CommandRequest) : M W CommandResult :=
  started_at ← at_host wall_clock ;
  started_monotonic ← at_host monotonic ;
  prepared ← prepare request ;
  match prepared with
  | (resolved, Err e) =>
      match policy_category e with
      | Some failure => _failure_result request CommandStatus.POLICY_REJECTED failure (policy_message e)
                          resolved started_at started_monotonic
      | None => _failure_result request CommandStatus.INTERNAL_ERROR CommandFailureCategory.INTERNAL
                  ("internal command runner failure: " +:+ exception_name e) resolved
                  started_at started_monotonic
      end
  | (resolved, Ok p) =>
      match with_secrets (_redactor runner) (sensitive_values (_environment runner) (prep_environment p)) with
      | Err _ => _failure_result request CommandStatus.POLICY_REJECTED CommandFailureCategory.ENVIRONMENT
                   "sensitive environment exceeds redaction policy bounds" resolved
                   started_at started_monotonic
      | Ok request_redactor => run_prepared request p request_redactor started_at started_monotonic
      end
  end.
End Runner.
