(* ===== verification/LocalRunnerOutput.v ===== *)
(** * The output of controlled commands: bounds and redaction

    What the local runner keeps of a stream: the collectors are the prefixes of the
    stream, whatever the chunks; the captured text and the artifacts are bounded and
    redacted. *)

From Stdlib Require Import ZArith Lia Ascii String QArith_base Qround.
From S2P Require Import Prelude Text Domain Unicode Regex Redaction Effects Commands CommandPolicy LocalRunner.
From stdpp Require Import base option strings numbers gmap sets list list_relations.

Open Scope Z_scope.

Abbreviation bytes_of := String.list_ascii_of_string.

(** ** Byte strings as lists *)

Lemma bytes_of_inj a b : bytes_of a = bytes_of b -> a = b.
Proof.
  intros H. rewrite <- (String.string_of_list_ascii_of_string a), H.
  apply String.string_of_list_ascii_of_string.
Qed.

Lemma bytes_of_app a b : bytes_of (a +:+ b) = bytes_of a ++ bytes_of b.
Proof. induction a as [|c a IH]; [done|]. change (String c a +:+ b) with (String c (a +:+ b)). cbn. by rewrite IH. Qed.

Lemma length_bytes s : length (bytes_of s) = String.length s.
Proof. induction s; cbn; congruence. Qed.

Lemma byte_len_bytes s : byte_len s = Z.of_nat (length (bytes_of s)).
Proof. unfold byte_len. by rewrite length_bytes. Qed.

Lemma byte_len_app a b : byte_len (a +:+ b) = byte_len a + byte_len b.
Proof. rewrite !byte_len_bytes, bytes_of_app, length_app. lia. Qed.

Lemma bytes_of_substring n s : bytes_of (String.substring 0 n s) = take n (bytes_of s).
Proof. revert s. induction n as [|n IH]; intros [|c s]; cbn; try done. by rewrite IH. Qed.

Lemma bytes_of_take n s : 0 <= n -> bytes_of (take_bytes n s) = take (Z.to_nat n) (bytes_of s).
Proof.
  intros Hn. unfold take_bytes. rewrite bytes_of_substring.
  destruct (Z.le_ge_cases n (byte_len s)); [by rewrite Z.min_l|].
  rewrite Z.min_r by done. rewrite byte_len_bytes in *.
  rewrite !take_ge by lia. done.
Qed.

Lemma byte_len_take n s : 0 <= n -> byte_len (take_bytes n s) = Z.min n (byte_len s).
Proof. intros Hn. rewrite !byte_len_bytes, bytes_of_take, length_take by done. lia. Qed.

Lemma take_bytes_app n a b :
  0 <= n -> take_bytes n a +:+ take_bytes (n - Z.min n (byte_len a)) b = take_bytes n (a +:+ b).
Proof.
  intros Hn. apply bytes_of_inj. rewrite bytes_of_app, !bytes_of_take, bytes_of_app by lia.
  rewrite take_app. f_equal. rewrite byte_len_bytes. f_equal. lia.
Qed.

Lemma take_bytes_0 s : take_bytes 0 s = "".
Proof. apply bytes_of_inj. by rewrite bytes_of_take by done. Qed.

Lemma take_bytes_empty n : 0 <= n -> take_bytes n "" = "".
Proof. intros Hn. apply bytes_of_inj. rewrite bytes_of_take by done. apply take_nil. Qed.

(** ** Collectors *)

Lemma append_nil_r s : s +:+ "" = s.
Proof. apply bytes_of_inj. by rewrite bytes_of_app, app_nil_r. Qed.

Lemma append_assoc_bytes a b c : (a +:+ b) +:+ c = a +:+ (b +:+ c).
Proof. apply bytes_of_inj. by rewrite !bytes_of_app, app_assoc. Qed.

Lemma extend_bounded_take limit seen chunk :
  0 <= limit ->
  extend_bounded limit (take_bytes limit seen) chunk = take_bytes limit (seen +:+ chunk).
Proof.
  intros Hl. unfold extend_bounded. rewrite byte_len_take by done. rewrite <- take_bytes_app by done.
  destruct (Z.ltb_spec 0 (limit - Z.min limit (byte_len seen))); [done|].
  replace (limit - Z.min limit (byte_len seen)) with 0 by lia.
  by rewrite take_bytes_0, append_nil_r.
Qed.

(** The whole of a stream. *)
Definition joined (chunks : list string) : string := foldr String.append "" chunks.

Lemma collect_from c seen chunks :
  0 <= capture_limit c -> 0 <= artifact_limit c ->
  captured c = take_bytes (capture_limit c) seen -> artifact c = take_bytes (artifact_limit c) seen ->
  observed c = byte_len seen ->
  collect c chunks = mk_StreamCollector (capture_limit c) (artifact_limit c)
    (take_bytes (capture_limit c) (seen +:+ joined chunks))
    (take_bytes (artifact_limit c) (seen +:+ joined chunks)) (byte_len (seen +:+ joined chunks)).
Proof.
  intros Hc Ha. revert c seen Hc Ha. induction chunks as [|chunk chunks IH]; intros c seen Hc Ha H1 H2 H3.
  - cbn [joined foldr]. rewrite append_nil_r, <- H1, <- H2, <- H3. by destruct c.
  - cbn [collect foldl]. change (foldl add (add c chunk) chunks) with (collect (add c chunk) chunks).
    rewrite (IH (add c chunk) (seen +:+ chunk)); cbn [add capture_limit artifact_limit captured artifact observed];
      try done.
    + by rewrite append_assoc_bytes.
    + by rewrite H1, extend_bounded_take.
    + by rewrite H2, extend_bounded_take.
    + by rewrite H3, byte_len_app.
Qed.

(** However a stream is split into chunks, the collector holds the first bytes of
    it, up to each limit, and counts all of them. *)
Lemma collect_spec capture artifact_bytes chunks :
  0 <= capture -> 0 <= artifact_bytes ->
  collect (new_collector capture artifact_bytes) chunks
  = mk_StreamCollector capture artifact_bytes (take_bytes capture (joined chunks))
      (take_bytes artifact_bytes (joined chunks)) (byte_len (joined chunks)).
Proof.
  intros Hc Ha. unfold new_collector. rewrite (collect_from _ "" chunks); try done; cbn [capture_limit artifact_limit captured artifact observed].
  - by rewrite take_bytes_empty.
  - by rewrite take_bytes_empty.
Qed.

(** ** Bounded and redacted texts *)

(** The characters of the secret do not occur in the text. *)
Definition hides (secret text : string) : Prop := ~ occurs (code_points secret) (code_points text).

(** Secrets that cannot overlap the marker are hidden. *)
Definition hides_all (configured : list string) (text : string) : Prop :=
  forall s, s ∈ configured -> clear_of marker (code_points s) = true -> hides s text.

Lemma bytes_of_text_of points : bytes_of (text_of points) = encode_bytes points.
Proof. apply String.list_ascii_of_string_of_list_ascii. Qed.

Lemma byte_len_text_of points : byte_len (text_of points) = Z.of_nat (length (encode_bytes points)).
Proof. by rewrite byte_len_bytes, bytes_of_text_of. Qed.

Lemma occurs_take s n l : occurs s (take n l) -> occurs s l.
Proof.
  intros (a & b & H). exists a, (b ++ drop n l). rewrite <- (take_drop n l) at 1. by rewrite H, <- !app_assoc.
Qed.

(** A text, of whose characters the first are kept. *)
Definition cut_of (text body : string) : Prop :=
  exists j, code_points body = take j (code_points text).

Lemma cut_hides configured text body : cut_of text body -> hides_all configured text -> hides_all configured body.
Proof. intros [j Hj] H s Hs Hc Ho. apply (H s Hs Hc). rewrite Hj in Ho. by eapply occurs_take. Qed.

Lemma cut_bytes points k :
  Forall (fun n => scalar n = true) points -> 0 <= k ->
  exists j, text_of (decode_ignore (take_bytes k (text_of points))) = text_of (take j points)
            /\ byte_len (text_of (take j points)) <= k.
Proof.
  intros Hp Hk. unfold decode_ignore, decode_bytes. rewrite bytes_of_take, bytes_of_text_of by done.
  destruct (decode_cut points (Z.to_nat k) _ Hp (le_n _)) as (j & -> & Hlen).
  exists j. split; [done|]. rewrite byte_len_text_of. lia.
Qed.

Lemma bounded_text_cut points limit :
  Forall (fun n => scalar n = true) points -> 0 <= limit ->
  cut_of (text_of points) (_bounded_text (text_of points) limit).1
  /\ byte_len (_bounded_text (text_of points) limit).1 <= limit.
Proof.
  intros Hp Hl. unfold _bounded_text, cut_of.
  destruct (Z.leb_spec (byte_len (text_of points)) limit); cbn [fst].
  - split; [|done]. exists (length (code_points (text_of points))). by rewrite take_ge.
  - destruct (cut_bytes points limit Hp Hl) as (j & -> & Hj). split; [|done]. exists j.
    rewrite !code_points_text_of; [done|done|]. by apply Forall_take.
Qed.

(** The texts of a redactor. *)
Lemma redacted_text `{!UnicodeTables} configured r data truncated :
  make_Redactor configured = Ok r ->
  exists points, decode_and_redact r data truncated = text_of points
    /\ Forall (fun n => scalar n = true) points
    /\ hides_all configured (text_of points).
Proof.
  intros Hr. exists (redact_points r truncated (decode_replace data)). split; [done|].
  pose proof (secrets_nonempty _ _ Hr) as Hv.
  assert (Hs : Forall (fun n => scalar n = true) (redact_points r truncated (decode_replace data))).
  { apply redact_points_scalar; [done|]. apply decode_scalar. by repeat constructor. }
  split; [done|]. intros s Hin Hc. unfold hides. rewrite code_points_text_of by done.
  apply redact_points_clear; [done| |done]. apply (make_Redactor_secrets _ _ _ Hr). split; [done|]. by intros ->.
Qed.

Lemma text_of_app a b : text_of (a ++ b) = text_of a +:+ text_of b.
Proof.
  apply bytes_of_inj. rewrite bytes_of_app, !bytes_of_text_of. unfold encode_bytes. by rewrite fmap_app, join_app.
Qed.

(** ** The runner's own words are ASCII *)

Definition ascii_text (s : string) : bool := forallb (fun c => byte_value c <? 128) (bytes_of s).

Lemma ascii_text_app a b : ascii_text (a +:+ b) = ascii_text a && ascii_text b.
Proof. unfold ascii_text. by rewrite bytes_of_app, forallb_app. Qed.

Lemma decode_ascii on_error l fuel :
  forallb (fun c => byte_value c <? 128) l = true -> (length l <= fuel)%nat ->
  decode_with on_error fuel l = byte_value <$> l /\ encode_bytes (byte_value <$> l) = l
  /\ Forall (fun n => scalar n = true) (byte_value <$> l).
Proof.
  revert fuel. induction l as [|c l IH]; intros fuel; cbn [forallb]; [by destruct fuel|].
  rewrite andb_true_iff, Z.ltb_lt. intros [Hc Hl] Hf. destruct fuel as [|fuel]; [cbn in Hf; lia|].
  destruct (IH fuel Hl) as (H1 & H2 & H3); [cbn in Hf; lia|]. cbn [decode_with fmap list_fmap].
  assert (H0 : 0 <= byte_value c) by (unfold byte_value; lia).
  unfold decode_one, lead. rewrite (proj2 (Z.ltb_lt _ _) Hc). cbn [continuation app].
  split_and!; [by rewrite H1| |].
  - rewrite encode_bytes_cons, H2. unfold encode_one. rewrite (proj2 (Z.ltb_lt _ _) Hc).
    cbn [fmap list_fmap app]. f_equal. unfold byte_of, byte_value. rewrite N2Z.id. apply ascii_N_embedding.
  - constructor; [|done]. unfold scalar, in_range. lia.
Qed.

Lemma ascii_text_of s :
  ascii_text s = true ->
  text_of (code_points s) = s /\ Forall (fun n => scalar n = true) (code_points s)
  /\ length (code_points s) = String.length s.
Proof.
  intros Hs. unfold code_points, decode_replace, decode_bytes.
  destruct (decode_ascii [65533] (bytes_of s) (length (bytes_of s)) Hs (le_n _)) as (-> & He & Hp).
  split_and!; [|done|by rewrite length_fmap, length_bytes].
  apply bytes_of_inj. by rewrite bytes_of_text_of.
Qed.

Lemma pretty_go_ascii x s : ascii_text s = true -> ascii_text (pretty.pretty_N_go x s) = true.
Proof.
  revert s. induction (N.lt_wf_0 x) as [x _ IH]. intros s Hs.
  destruct (decide (x = 0)%N) as [->|Hx]; [by rewrite pretty.pretty_N_go_0|].
  rewrite pretty.pretty_N_go_step by lia. apply IH; [apply N.div_lt; lia|].
  unfold ascii_text in *. cbn [String.list_ascii_of_string forallb]. rewrite Hs, andb_true_r.
  unfold pretty.pretty_N_char. by repeat case_match.
Qed.

Lemma str_of_Z_ascii n : ascii_text (str_of_Z n) = true.
Proof.
  assert (HN : forall x : N, ascii_text (pretty.pretty x) = true).
  { intros x. unfold pretty.pretty, pretty.pretty_N. case_decide; [done|]. by apply pretty_go_ascii. }
  unfold str_of_Z, pretty.pretty, pretty.pretty_Z. destruct n; [done|apply HN|].
  change ("-" +:+ _) with (String "-" (pretty.pretty (N.pos p))).
  specialize (HN (N.pos p)). unfold ascii_text in *. cbn [String.list_ascii_of_string forallb]. by rewrite HN.
Qed.

Lemma notices_ascii stream n :
  ascii_text (truncation_notice stream n) = true /\ ascii_text (representation_notice stream) = true
  /\ ascii_text (artifact_notice stream n) = true.
Proof.
  unfold truncation_notice, representation_notice, artifact_notice.
  rewrite !ascii_text_app, str_of_Z_ascii. by destruct stream.
Qed.

(** ** What is captured and what is stored *)

(** A captured stream: a bounded body that hides the secrets, and the runner's notices. *)
Definition clean_output (configured : list string) (limit : Z) (stream : OutputStream.t) (o : CapturedOutput) : Prop :=
  exists body, byte_len body <= limit /\ hides_all configured body
    /\ out_text o = body +:+ (if out_truncated o then truncation_notice stream (out_observed_bytes o) else "")
                    +:+ (if out_redaction_truncated o then representation_notice stream else "").

(** The runner's words at the end of an artifact. *)
Definition artifact_tail (stream : OutputStream.t) (tail : string) : Prop :=
  exists observed i m,
    tail = text_of (take i (code_points (artifact_notice stream observed))) +:+ take_bytes m byte_limit_marker.

Definition clean_artifact (configured : list string) (limit : Z) (data : string) : Prop :=
  byte_len data <= limit /\
  exists stream body tail, data = body +:+ tail /\ hides_all configured body /\ artifact_tail stream tail.

Lemma hides_all_nil configured : hides_all configured "".
Proof.
  intros s _ Hc (a & b & H). apply clear_nonempty in Hc. change (code_points "") with (@nil Z) in H.
  symmetry in H. apply app_eq_nil in H as [_ H]. by apply app_eq_nil in H as [H _].
Qed.

Lemma artifact_tail_whole stream observed m :
  artifact_tail stream (artifact_notice stream observed +:+ take_bytes m byte_limit_marker).
Proof.
  exists observed, (length (code_points (artifact_notice stream observed))), m.
  rewrite take_ge by done. by rewrite (proj1 (ascii_text_of _ (proj2 (proj2 (notices_ascii stream observed))))).
Qed.

Lemma marker_tail stream m : artifact_tail stream (take_bytes m byte_limit_marker).
Proof. exists 0, 0%nat, m. cbn [take]. by change (text_of []) with "". Qed.

(** The bounded form of a redacted text with or without its notice. *)
Lemma bounded_utf8_clean configured points stream (notice : option Z) limit :
  Forall (fun n => scalar n = true) points -> hides_all configured (text_of points) -> 0 <= limit ->
  clean_artifact configured limit
    (_bounded_utf8 (text_of points +:+ match notice with Some n => artifact_notice stream n | None => "" end) limit).
Proof.
  intros Hp Hh Hl. set (text := match notice with Some n => _ | None => _ end).
  assert (Hascii : ascii_text text = true) by (destruct notice; [apply notices_ascii|done]).
  apply ascii_text_of in Hascii as (Ht & Hs & _).
  unfold _bounded_utf8, clean_artifact. destruct (Z.leb_spec (byte_len (text_of points +:+ text)) limit) as [|Hover].
  - split; [done|]. exists stream, (text_of points), text. split_and!; [done|done|]. destruct notice as [n|].
    + subst text. rewrite <- (append_nil_r (artifact_notice _ _)), <- (take_bytes_0 byte_limit_marker).
      apply artifact_tail_whole.
    + subst text. rewrite <- (take_bytes_0 byte_limit_marker). apply marker_tail.
  - destruct (Z.leb_spec limit (byte_len byte_limit_marker)) as [|Hroom].
    + split; [rewrite byte_len_take by done; lia|]. exists stream, "", (take_bytes limit byte_limit_marker).
      split_and!; [done|apply hides_all_nil|apply marker_tail].
    + rewrite <- Ht, <- text_of_app. destruct (cut_bytes (points ++ code_points text) (limit - byte_len byte_limit_marker))
        as (j & -> & Hj); [by apply Forall_app|lia|].
      split; [rewrite byte_len_app; lia|].
      exists stream, (text_of (take j points)), (text_of (take (j - length points) (code_points text)) +:+ byte_limit_marker).
      rewrite take_app, text_of_app, append_assoc_bytes. split_and!; [done| |].
      * eapply cut_hides; [|exact Hh]. exists j. rewrite !code_points_text_of; [done|done|by apply Forall_take].
      * exists (default 0 notice), (match notice with Some _ => (j - length points)%nat | None => 0%nat end), (byte_len byte_limit_marker).
        replace (take_bytes (byte_len byte_limit_marker) byte_limit_marker) with byte_limit_marker by (vm_compute; reflexivity).
        subst text. destruct notice; [done|]. change (code_points "") with (@nil Z). by rewrite take_nil.
Qed.
