(* ===== verification/LocalRunnerSafety.v ===== *)
(** * What the local runner launches, stores and returns

    Every process launched by [run] is an authorized one, at most one per call;
    every artifact stored lies under an artifact root and is bounded and redacted;
    every captured text is bounded and redacted. *)

From Stdlib Require Import ZArith Lia Ascii String QArith_base Qround.
From S2P Require Import Prelude Text Domain Unicode Regex Redaction Effects Commands CommandPolicy LocalRunner LocalRunnerOutput.
From stdpp Require Import base option strings numbers gmap sets list list_relations.

Open Scope Z_scope.

(** The computation may give this answer. *)
Definition answered {W A} (m : M W A) (a : A) : Prop := exists w w', m w = (w', Ok a).

Definition anywhere {W} (w w' : W) : Prop := True.
#[export] Instance anywhere_confined {W} : Confined (W := W) anywhere.
Proof. by split. Qed.

Lemma only_anywhere {W A} (m : M W A) : only anywhere m.
Proof. done. Qed.

Lemma does_answered {W A} (m : M W A) : does anywhere m (answered m).
Proof. intros w. split; [done|]. intros a Ha. destruct (m w) as [w' r] eqn:H. cbn in Ha. subst. by exists w, w'. Qed.

Section Policies.
Context {E : Type} `{!FileSystem E}.

(** A file an executable policy lets through. *)
Definition authorized_executable (policy : ExecutablePolicy) (name : string) (executable : Path) : Prop :=
  exists rule candidate,
    dict_get (rule_key (ep_windows policy) name) (_rules_by_name policy) = Some rule
    /\ candidate ∈ candidates rule
    /\ answered (fs_resolve (E := E) true candidate) executable
    /\ answered (fs_is_file (E := E) executable) true.

Lemma usable_file policy rule candidate resolved :
  does anywhere (usable (E := E) policy rule candidate resolved)
    (fun ok => ok = true -> answered (fs_is_file (E := E) resolved) true).
Proof.
  unfold usable. eapply does_bind; [exact _|apply does_answered|intros file Hfile].
  destruct file; cbn [negb]; [|by apply does_ret].
  destruct (_ && _); [by apply does_ret|]. destruct (ep_windows policy); [by apply does_ret|].
  eapply does_weaken; [apply does_only, only_anywhere|done].
Qed.

Lemma first_usable_candidate policy rule paths :
  does anywhere (first_usable (E := E) policy rule paths)
    (fun executable => exists candidate, candidate ∈ paths
       /\ answered (fs_resolve (E := E) true candidate) executable
       /\ answered (fs_is_file (E := E) executable) true).
Proof.
  induction paths as [|candidate paths IH]; cbn [first_usable]; [by apply does_raise|].
  assert (Hlater : does anywhere (first_usable (E := E) policy rule paths)
    (fun executable => exists c, c ∈ candidate :: paths
       /\ answered (fs_resolve (E := E) true c) executable
       /\ answered (fs_is_file (E := E) executable) true)).
  { eapply does_weaken; [exact IH|]. intros executable (c & Hc & H). exists c. split; [by right|done]. }
  eapply does_bind with (P := fun o => match o with Some r => answered (fs_resolve (E := E) true candidate) r | None => True end);
    [exact _| |].
  { apply does_try; [exact _| |intros; by apply does_ret]. apply does_fmap. apply does_answered. }
  intros [resolved|] Hr; [|done].
  eapply does_bind; [exact _|apply usable_file|]. intros [] Hok; [|done].
  apply does_ret; [exact _|]. exists candidate. split; [left|]. by split; [|apply Hok].
Qed.

Lemma resolve_executable_authorized policy name :
  does anywhere (resolve_executable (E := E) policy name) (authorized_executable policy name).
Proof.
  unfold resolve_executable. do 2 (eapply does_bind; [exact _|by apply does_only|intros _ _]).
  destruct (dict_get _ _) as [rule|] eqn:Hrule; [|by apply does_raise].
  eapply does_weaken; [apply first_usable_candidate|]. intros executable (candidate & Hc & Hr & Hf).
  by exists rule, candidate.
Qed.

(** An existing directory inside one of the roots. *)
Definition within (roots : list Path) (directory : Path) : Prop :=
  (exists root, root ∈ roots /\ _contains root directory = true)
  /\ answered (fs_is_dir (E := E) directory) true.

Lemma contained_directory_within p roots path error a b c d e :
  does anywhere (contained_directory (E := E) p roots path error a b c d e) (within roots).
Proof.
  unfold contained_directory. do 2 (eapply does_bind; [exact _|by apply does_only|intros _ _]).
  eapply does_bind; [exact _|by apply does_only|intros resolved _].
  eapply does_bind; [exact _|apply does_answered|intros directory Hd].
  eapply does_bind with (P := fun _ => directory = true);
    [exact _| apply does_lift; [exact _|]; intros u H; apply raise_if_Ok in H; by apply negb_false_iff |intros _ ->].
  eapply does_bind with (P := fun _ => existsb (fun root => _contains root resolved) roots = true);
    [exact _| apply does_lift; [exact _|]; intros u H; apply raise_if_Ok in H; by apply negb_false_iff |].
  intros _ (root & Hin & Hroot)%existsb_exists. apply does_ret; [exact _|]. split; [|done].
  exists root. split; [by apply list_elem_of_In|done].
Qed.

(** A file inside an artifact directory. *)
Definition stored_within (roots : list Path) (path : Path) : Prop :=
  exists directory, within roots directory /\ _contains directory path = true.

Lemma artifact_path_within p directory filename :
  does anywhere (artifact_path (E := E) p directory filename) (stored_within (artifact_roots p)).
Proof.
  unfold artifact_path, resolve_artifact_directory.
  eapply does_bind with (P := within (artifact_roots p)).
  { exact _. }
  { eapply does_bind; [exact _|by apply does_only|intros _ _]. apply contained_directory_within. }
  intros canonical Hc. eapply does_bind; [exact _|by apply does_only|intros _ _].
  eapply does_bind; [exact _|by apply does_only|intros target _].
  eapply does_bind with (P := fun _ => _contains canonical target = true);
    [exact _| apply does_lift; [exact _|]; intros u H; apply raise_if_Ok in H; by apply negb_false_iff |].
  intros _ Ht. apply does_ret; [exact _|]. by exists canonical.
Qed.
End Policies.

Section Traces.
Context {E : Type} `{!ProcessHost E} `{!UnicodeTables}.
Abbreviation W := (LocalWorld E).

(** Launches with [P] and stored artifacts with [D]. *)
Definition traces (P : Launch -> Prop) (D : Path * string -> Prop) (w w' : W) : Prop :=
  exists ls ds, launched w' = launched w ++ ls /\ written w' = written w ++ ds /\ Forall P ls /\ Forall D ds.

#[export] Instance traces_confined P D : Confined (traces P D).
Proof.
  split.
  - intros w. exists [], []. by rewrite !app_nil_r.
  - intros w1 w2 w3 (l1 & d1 & Hl1 & Hd1 & ? & ?) (l2 & d2 & Hl2 & Hd2 & ? & ?).
    exists (l1 ++ l2), (d1 ++ d2). rewrite Hl2, Hl1, Hd2, Hd1, !app_assoc. split_and!; try done; by apply Forall_app.
Qed.

(** No process is launched. *)
Definition no_launch (w w' : W) : Prop := launched w' = launched w.
#[export] Instance no_launch_confined : Confined no_launch.
Proof. split; [done|]. intros w1 w2 w3. unfold no_launch. congruence. Qed.

(** At most one is. *)
Definition one_launch (w w' : W) : Prop := exists ls, launched w' = launched w ++ ls /\ (length ls <= 1)%nat.

Section quiet.
Context (R : W -> W -> Prop) `{!Confined R}.
Context (Rhost : forall (e : E) (w : W), R w (mk_LocalWorld e (launched w) (workers w) (written w))).

Lemma at_host_does {A} (m : M E A) (Q : A -> Prop) : does anywhere m Q -> does R (at_host m) Q.
Proof.
  intros Hm w. unfold at_host. destruct (Hm (local_host w)) as [_ HQ].
  destruct (m (local_host w)) as [e r]. cbn in *. split; [apply Rhost|done].
Qed.

Lemma at_host_only {A} (m : M E A) : only R (at_host m).
Proof. intros w. unfold at_host. destruct (m (local_host w)) as [e r]. apply Rhost. Qed.
End quiet.

Lemma traces_host P D (e : E) (w : W) : traces P D w (mk_LocalWorld e (launched w) (workers w) (written w)).
Proof. exists [], []. by rewrite !app_nil_r. Qed.
Lemma no_launch_host (e : E) (w : W) : no_launch w (mk_LocalWorld e (launched w) (workers w) (written w)).
Proof. done. Qed.

(** Both frames let every call on the host through. *)
Lemma traces_at_host {A} P D (m : M E A) : only (traces P D) (at_host m).
Proof. apply at_host_only. apply traces_host. Qed.

Variable runner : LocalCommandRunner.

(** What happens to a running process: only calls on the host and the list of threads. *)
Section running.
Context (R : W -> W -> Prop) `{!Confined R}.
Context (Rhost : forall (e : E) ws (w : W), R w (mk_LocalWorld e (launched w) ws (written w))).

Lemma host_step {A} (m : M E A) : only R (at_host m).
Proof. intros w. unfold at_host. destruct (m (local_host w)) as [e r]. apply Rhost. Qed.

Lemma gets_step {A} (f : W -> A) : only R (gets f).
Proof. apply only_reads; [exact _|]. apply reads_gets. Qed.
Lemma ret_step {A} (a : A) : only R (mret a).
Proof. apply only_reads; [exact _|]. apply reads_ret. Qed.
Lemma lift_step {A} (r : res A) : only R (lift r).
Proof. apply only_reads; [exact _|]. apply reads_lift. Qed.
Lemma raise_step {A} e : only (A := A) R (raise e).
Proof. apply only_reads; [exact _|]. apply reads_raise. Qed.

Lemma record_worker_step worker : only R (record_worker worker).
Proof. intros w. apply Rhost. Qed.

Ltac step := repeat first
  [ apply host_step | apply record_worker_step | apply ret_step | apply gets_step | apply lift_step | apply raise_step | assumption
  | apply only_attempt | apply only_try_finally; [exact _| |]
  | (unfold suppress; apply only_try; [exact _| |intros ?])
  | apply only_bind; [exact _| |intros ?]
  | apply only_fmap
  | match goal with
    | |- only _ (if ?b then _ else _) => destruct b
    | |- only _ (match ?o with _ => _ end) => destruct o
    end ].

Lemma for_each_only {A} (f : A -> M W unit) xs : (forall x, only R (f x)) -> only R (for_each f xs).
Proof. intros Hf. induction xs as [|x xs IH]; cbn [for_each]; step. apply Hf. Qed.

Lemma cancelled_only request : only R (cancelled request).
Proof. unfold cancelled. step. Qed.

Lemma watch_only fuel process request started : only R (watch runner fuel process request started).
Proof. induction fuel as [|fuel IH]; cbn [watch]; step. apply cancelled_only. Qed.

Lemma ended_only process : only R (ended_in_time runner process).
Proof. unfold ended_in_time. apply only_try; [exact _| |intros ?]; step. Qed.

Lemma terminate_only process : only R (_terminate runner process).
Proof. unfold _terminate. step; apply ended_only. Qed.

Lemma finish_only process request : only R (_finish_streams runner process request).
Proof. unfold _finish_streams. step; apply for_each_only; intros; step. Qed.

Lemma start_worker_only process worker : only R (start_worker process worker).
Proof. unfold start_worker. step. Qed.

Lemma supervise_only process request started : only R (supervise runner process request started).
Proof.
  unfold supervise. step; first [apply watch_only | apply for_each_only; intros ?; step].
Qed.

Lemma duration_only started : only R (duration_since started).
Proof. unfold duration_since. step. Qed.

Lemma failure_only request status failure message resolved started_at started :
  only R (_failure_result runner request status failure message resolved started_at started).
Proof. unfold _failure_result. step. Qed.

Lemma prepare_only request : only R (prepare runner request).
Proof. unfold prepare. step. Qed.

Context (Rwritten : forall (ws : list (Path * string)) (w : W), R w (mk_LocalWorld (local_host w) (launched w) (workers w) ws)).

Lemma complete_only process request directory executable redactor timeout_started started_at started :
  only R (_complete_process runner process request directory executable redactor timeout_started started_at started).
Proof.
  unfold _complete_process, _finalize_stream, write_artifact, _atomic_write.
  step; first [apply watch_only | apply for_each_only; intros ?; step | intros w; apply Rwritten].
Qed.
End running.

(** ** One call of [run] *)

Variable request : CommandRequest.

(** The values the redactor of this call removes. *)
Definition run_secrets (environment : list (string * string)) : list string :=
  secrets (_redactor runner) ++ sensitive_values (_environment runner) environment.

Definition built (environment : list (string * string)) : Prop :=
  build_environment (_environment runner) (override_items request) = Ok environment.

(** A launch the policies of the runner let through. *)
Definition authorized_launch (l : Launch) : Prop :=
  authorize_command (_command_policy runner) request = Ok tt
  /\ (exists executable, authorized_executable (E := E) (_executables runner) (req_executable request) executable
      /\ argv l = path_str executable :: req_arguments request)
  /\ within (E := E) (approved_roots (_paths runner)) (launch_directory l)
  /\ built (child_environment l)
  /\ piped_stdin l = req_stdin request
  /\ (req_cancellable request = true -> answered (token_cancelled (E := E)) false).

(** An artifact inside an artifact root, bounded and redacted. *)
Definition proper_artifact (stored : Path * string) : Prop :=
  stored_within (E := E) (artifact_roots (_paths runner)) stored.1
  /\ exists environment, built environment
     /\ clean_artifact (run_secrets environment) (artifact_bytes_per_stream (req_output_limits request)) stored.2.

(** The outputs of a result: empty without a process, else bounded and redacted. *)
Definition proper_outputs (r : CommandResult) : Prop :=
  cr_stdout r = _empty_output /\ cr_stderr r = _empty_output
  \/ exists environment, built environment
     /\ clean_output (run_secrets environment) (stdout_bytes (req_output_limits request)) OutputStream.STDOUT (cr_stdout r)
     /\ clean_output (run_secrets environment) (stderr_bytes (req_output_limits request)) OutputStream.STDERR (cr_stderr r).

Abbreviation R := (traces authorized_launch proper_artifact).

Lemma R_host (e : E) ws (w : W) : R w (mk_LocalWorld e (launched w) ws (written w)).
Proof. exists [], []. by rewrite !app_nil_r. Qed.

Hint Resolve R_host : core.

Lemma R_at_host {A} (m : M E A) Q : does anywhere m Q -> does R (at_host m) Q.
Proof. apply at_host_does. apply traces_host. Qed.

Ltac host := eapply does_bind; [exact _|apply does_only, host_step; apply R_host|intros ? _].

Lemma validated_output o o' : validate_CapturedOutput o = Ok o' -> o' = o.
Proof. unfold validate_CapturedOutput. intros. by inv_valid. Qed.

Lemma validated_result r r' : validate_CommandResult r = Ok r' -> r' = r.
Proof.
  unfold validate_CommandResult. intros Hr. do 4 apply bind_raise_if_Ok in Hr as [_ Hr].
  apply bind_Ok in Hr as (u & _ & Hr). by inv_valid.
Qed.

Lemma failure_empty status failure message resolved started_at started :
  does R (_failure_result runner request status failure message resolved started_at started)
    (fun r => cr_stdout r = _empty_output /\ cr_stderr r = _empty_output).
Proof.
  unfold _failure_result. host. eapply does_bind; [exact _|apply does_only, duration_only; [exact _|apply R_host]|intros duration _].
  apply does_lift; [exact _|]. intros r Hr. apply bind_Ok in Hr as (empty & ->%validated_output & Hr).
  apply bind_Ok in Hr as (reason & _ & ->%validated_result). done.
Qed.

Lemma failure_proper status failure message resolved started_at started :
  does R (_failure_result runner request status failure message resolved started_at started) proper_outputs.
Proof. eapply does_weaken; [apply failure_empty|]. by left. Qed.

Lemma atomic_write_stores target data :
  proper_artifact (target, data) -> only R (_atomic_write target data).
Proof.
  intros Hd. unfold _atomic_write. apply only_bind; [exact _|apply host_step; apply R_host|intros temporary].
  apply only_bind; [exact _| |].
  - apply only_attempt.
    apply only_bind; [exact _|unfold suppress; apply only_try; [exact _|apply host_step; apply R_host|intros; apply ret_step; exact _]|intros _].
    do 5 (apply only_bind; [exact _|apply host_step; apply R_host|intros _]).
    intros w. exists [], [(target, data)]. cbn. rewrite app_nil_r. split_and!; try done. by constructor.
  - intros [u|e]; [apply ret_step; exact _|].
    do 2 (apply only_bind; [exact _|unfold suppress; apply only_try; [exact _|apply host_step; apply R_host|intros; apply ret_step; exact _]|intros _]).
    apply raise_step. exact _.
Qed.

Section limits.
Context (Hlimits : is_ok (validate_OutputLimits (req_output_limits request)) = true).

Lemma limits_positive :
  1 <= stdout_bytes (req_output_limits request) /\ 1 <= stderr_bytes (req_output_limits request)
  /\ 1 <= artifact_bytes_per_stream (req_output_limits request).
Proof.
  destruct (validate_OutputLimits _) as [l|] eqn:Hl; [|done]. unfold validate_OutputLimits in Hl. inv_valid.
  repeat match goal with H : negb (in_range _ _ _) = false |- _ => apply negb_false_iff, in_range_spec in H end. lia.
Qed.

Section redactor.
Context (environment : list (string * string)) (redactor : Redactor).
Context (Hbuilt : built environment) (Hredactor : make_Redactor (run_secrets environment) = Ok redactor).

Lemma artifact_text_clean c stream limit :
  0 <= limit -> clean_artifact (run_secrets environment) limit (_bounded_utf8 (artifact_text redactor c stream) limit).
Proof.
  intros Hl. unfold artifact_text.
  destruct (redacted_text _ _ (artifact c) (byte_len (artifact c) <? observed c) Hredactor) as (points & -> & Hp & Hh).
  destruct (byte_len (artifact c) <? observed c).
  - by apply (bounded_utf8_clean _ points stream (Some (observed c))).
  - by apply (bounded_utf8_clean _ points stream None).
Qed.

Lemma write_artifact_proper c stream directory :
  only R (write_artifact runner c stream request directory redactor).
Proof.
  unfold write_artifact. apply only_bind; [exact _| |].
  - apply only_attempt. eapply only_does. eapply does_bind; [exact _| |].
    + apply R_at_host. apply artifact_path_within.
    + intros target Ht. apply does_only. apply only_bind; [exact _| |intros _; apply ret_step; exact _].
      apply atomic_write_stores. split; [done|]. exists environment. split; [done|].
      apply artifact_text_clean. pose proof limits_positive. lia.
  - intros [target|e]; [|destruct (is_artifact_error e); [apply ret_step|apply raise_step]; exact _].
    apply only_bind; [exact _|apply lift_step; exact _|intros reference; apply ret_step; exact _].
Qed.

Lemma finalize_clean c stream directory :
  0 <= capture_limit c ->
  does R (_finalize_stream runner c stream request directory redactor)
    (fun x => clean_output (run_secrets environment) (capture_limit c) stream x.1).
Proof.
  intros Hl. unfold _finalize_stream.
  destruct (redacted_text _ _ (captured c) (capture_limit c <? observed c) Hredactor) as (points & -> & Hp & Hh).
  destruct (bounded_text_cut points (capture_limit c) Hp Hl) as [Hcut Hlen].
  eapply does_bind with (P := fun _ => True); [exact _| |intros stored _].
  - apply does_only. destruct (_ || _); [|apply ret_step; exact _].
    destruct directory as [d|]; [apply write_artifact_proper|apply ret_step; exact _].
  - eapply does_bind; [exact _|apply does_lift; [exact _|intros o Ho; exact (validated_output _ _ Ho)]|].
    intros output ->. apply does_ret; [exact _|].
    exists (_bounded_text (text_of points) (capture_limit c)).1. split; [done|]. split; [|done].
    by eapply cut_hides.
Qed.

Lemma complete_proper process directory executable timeout_started started_at started :
  does R (_complete_process runner process request directory executable redactor timeout_started started_at started)
    proper_outputs.
Proof.
  unfold _complete_process. pose proof limits_positive as (Ho & He & _).
  eapply does_bind; [exact _|apply does_only, supervise_only; [exact _|apply R_host]|intros ending _].
  host. host. rename a into out_chunks, a0 into err_chunks.
  set (limit := if is_some directory then _ else 0).
  assert (Hcap : forall limit' c chunks, capture_limit (collect (new_collector c limit') chunks) = c).
  { intros limit' c chunks. unfold collect. assert (forall k, capture_limit (foldl add k chunks) = capture_limit k) as ->; [|done].
    clear. induction chunks as [|x chunks IH]; intros k; [done|]. cbn [foldl]. by rewrite IH. }
  eapply does_bind; [exact _|apply finalize_clean; rewrite Hcap; lia|intros stdout Hout].
  eapply does_bind; [exact _|apply finalize_clean; rewrite Hcap; lia|intros stderr Herr].
  rewrite Hcap in Hout, Herr. host.
  eapply does_bind; [exact _|apply does_only, lift_step; exact _|intros settled _]. host.
  eapply does_bind; [exact _|apply does_only, duration_only; [exact _|apply R_host]|intros duration _].
  apply does_lift; [exact _|]. intros r ->%validated_result. right. by exists environment.
Qed.
End redactor.

Lemma prepare_checked :
  does R (prepare runner request)
    (fun x => forall p, x.2 = Ok p ->
       authorize_command (_command_policy runner) request = Ok tt
       /\ authorized_executable (E := E) (_executables runner) (req_executable request) (prep_executable p)
       /\ within (E := E) (approved_roots (_paths runner)) (prep_directory p) /\ built (prep_environment p)).
Proof.
  unfold prepare. eapply does_bind; [exact _|apply (does_attempt _ _ (fun u => authorize_command (_command_policy runner) request = Ok u)), does_lift; [exact _|intros u Ha; exact Ha]|].
  intros [u|e] Ha; [|apply does_ret; [exact _|]; by intros p [=]]. specialize (Ha u eq_refl). destruct u.
  eapply does_bind; [exact _|apply does_attempt, R_at_host, resolve_executable_authorized|].
  intros [executable|e] He; [|apply does_ret; [exact _|]; by intros p [=]]. specialize (He executable eq_refl).
  eapply does_bind with (P := fun o => forall p, o = Ok p ->
    prep_executable p = executable /\ within (E := E) (approved_roots (_paths runner)) (prep_directory p)
    /\ built (prep_environment p)); [exact _| |].
  - apply does_attempt. eapply does_bind; [exact _|apply R_at_host, contained_directory_within|intros directory Hd].
    eapply does_bind with (P := fun _ => True); [exact _| |intros artifacts _].
    { apply does_only. destruct (req_artifact_directory request); [|apply ret_step; exact _].
      apply only_fmap, host_step, R_host. }
    eapply does_bind; [exact _|apply (does_lift _ _ built); intros environment Henv; exact Henv|intros environment Henv].
    apply does_ret; [exact _|done].
  - intros prepared Hp. apply does_ret; [exact _|]. cbn. intros p ->. destruct (Hp p eq_refl) as (-> & Hd & Hb). done.
Qed.

Lemma launch_authorized_step p :
  authorize_command (_command_policy runner) request = Ok tt ->
  authorized_executable (E := E) (_executables runner) (req_executable request) (prep_executable p) ->
  within (E := E) (approved_roots (_paths runner)) (prep_directory p) -> built (prep_environment p) ->
  (req_cancellable request = true -> answered (token_cancelled (E := E)) false) ->
  only R (launch (prep_executable p) request (prep_directory p) (prep_environment p)).
Proof.
  intros Ha He Hd Hb Hc. unfold launch. set (l := mk_Launch _ _ _ _).
  apply only_bind; [exact _| |intros _; apply host_step, R_host].
  intros w. exists [l], []. cbn. rewrite app_nil_r. split_and!; try done. constructor; [|done].
  unfold authorized_launch. split_and!; try done. by exists (prep_executable p).
Qed.

Lemma cancelled_answer :
  does R (cancelled request) (fun stop => stop = false -> req_cancellable request = true ->
    answered (token_cancelled (E := E)) false).
Proof.
  unfold cancelled. destruct (req_cancellable request); [|apply does_ret; [exact _|]; by intros _ [=]].
  eapply does_weaken; [apply R_at_host, does_answered|]. by intros stop Hs ->.
Qed.

Lemma run_does : does R (run runner request) proper_outputs.
Proof.
  unfold run. host. rename a into started_at. host. rename a into started.
  eapply does_bind; [exact _|apply prepare_checked|]. intros [resolved [p|e]] Hp; cbn in Hp.
  - specialize (Hp p eq_refl) as (Ha & He & Hd & Hb). cbn beta iota.
    destruct (with_secrets _ _) as [redactor|e] eqn:Hr; [|apply failure_proper]. unfold with_secrets in Hr.
    unfold run_prepared. eapply does_bind; [exact _|apply does_attempt, cancelled_answer|].
    intros [[]|e] Hc; [apply failure_proper| |apply failure_proper].
    specialize (Hc false eq_refl eq_refl). host.
    eapply does_bind; [exact _|apply does_only, only_attempt, (launch_authorized_step p); assumption|].
    intros [process|e] _; [|destruct (is_launch_error e); apply failure_proper].
    apply does_try; [exact _|by eapply complete_proper|]. intros e. apply failure_proper.
  - destruct (policy_category e); apply failure_proper.
Qed.
End limits.

Lemma run_launches_once : does one_launch (run runner request) (fun _ => True).
Proof.
  assert (Hh : forall (e : E) ws (w : W), no_launch w (mk_LocalWorld e (launched w) ws (written w))) by done.
  assert (Hq : forall A (m : M W A), only no_launch m -> does one_launch m (fun _ => True)).
  { intros A m Hm w. split; [|done]. exists []. rewrite app_nil_r. split; [apply Hm|cbn; lia]. }
  assert (Hpre : forall A B (m : M W A) (f : A -> M W B),
    only no_launch m -> (forall a, does one_launch (f a) (fun _ => True)) -> does one_launch (m ≫= f) (fun _ => True)).
  { intros A B m f Hm Hf. eapply (does_seq no_launch one_launch); [by apply does_only|intros a _; apply Hf| |].
    - intros w1 w2 Hw. exists []. rewrite app_nil_r. split; [done|cbn; lia].
    - intros w1 w2 w3 Hw (ls & Hls & ?). exists ls. unfold no_launch in Hw. by rewrite Hls, Hw. }
  assert (Hfail : forall status failure message resolved started_at started,
    only no_launch (_failure_result runner request status failure message resolved started_at started)).
  { intros. apply failure_only; [exact _|exact Hh]. }
  unfold run. apply Hpre; [by apply host_step|intros started_at]. apply Hpre; [by apply host_step|intros started].
  apply Hpre; [by apply prepare_only; [exact _|]|]. intros [resolved [p|e]].
  - destruct (with_secrets _ _); [|by apply Hq]. unfold run_prepared.
    apply Hpre; [by apply only_attempt, cancelled_only; [exact _|]|]. intros [[]|e]; [by apply Hq| |by apply Hq].
    apply Hpre; [by apply host_step|intros timeout_started].
    eapply (does_seq one_launch no_launch) with (P := fun _ => True).
    + intros w. split; [|done]. unfold attempt, launch, record_launch, mbind, M_bind.
      set (l := mk_Launch _ _ _ _). exists [l]. unfold at_host. cbn.
      destruct (popen l (local_host w)) as [e r]. cbn. split; [done|lia].
    + intros [process|e] _; apply does_only; [|destruct (is_launch_error e); apply Hfail].
      apply only_try; [exact _| |intros e; apply Hfail]. by apply complete_only; [exact _| |].
    + done.
    + intros w1 w2 w3 (ls & Hls & ?) Hw. exists ls. unfold no_launch in Hw. by rewrite Hw.
  - destruct (policy_category e); by apply Hq.
Qed.
End Traces.

(** C25: one call of [run] launches at most one process, and only one the policies let
    through: within the ceilings, an allowlisted executable that the file system
    resolved to a file, followed by the arguments of the request, in a directory
    inside an approved root, with the environment the policy builds, and not when
    the cancellation token was set. *)
Theorem launch_authorized {E} `{!ProcessHost E} `{!UnicodeTables} runner request (w : LocalWorld E) :
  is_ok (validate_OutputLimits (req_output_limits request)) = true ->
  exists launches, launched (fst (run runner request w)) = launched w ++ launches
    /\ (length launches <= 1)%nat /\ Forall (authorized_launch runner request) launches.
Proof.
  intros Hl. destruct (run_does runner request Hl w) as [(ls & _ & Hls & _ & Hall & _) _].
  destruct (run_launches_once runner request w) as [(ls' & Hls' & Hone) _].
  exists ls. split_and!; [done| |done]. rewrite Hls in Hls'. by apply app_inv_head in Hls' as ->.
Qed.

(** C26: whatever the process writes, the result of [run] holds of each stream a bounded
    body in which no configured secret and no sensitive value of the environment
    occurs (unless it can overlap the marker), followed by the runner's own notices;
    and every artifact it stores lies inside an artifact root, is bounded, and hides
    the same values. *)
Theorem outputs_bounded_and_redacted {E} `{!ProcessHost E} `{!UnicodeTables} runner request (w w' : LocalWorld E) o :
  is_ok (validate_OutputLimits (req_output_limits request)) = true ->
  run runner request w = (w', o) ->
  (exists artifacts, written w' = written w ++ artifacts /\ Forall (proper_artifact runner request) artifacts)
  /\ forall r, o = Ok r -> proper_outputs runner request r.
Proof.
  intros Hl Hrun. destruct (run_does runner request Hl w) as [(ls & ds & _ & Hds & _ & Hall) HQ].
  rewrite Hrun in *. split; [by exists ds|done].
Qed.
