(* ===== verification/LocalRunnerTotal.v ===== *)
(** * The local runner always answers

    Under a host whose monotonic clock does not run backwards, the watch over a
    process ends within its turns, and [run] returns a result for every request,
    whatever the policies, the processes and the file system do, unless the wall
    clock was set back while it ran. *)

From Stdlib Require Import ZArith Lia Ascii String QArith Qround Lqa.
From S2P Require Import Prelude Text Domain Unicode Regex Redaction Effects Commands CommandPolicy LocalRunner LocalRunnerOutput LocalRunnerSafety.
From stdpp Require Import base option strings numbers gmap sets list list_relations.

Open Scope Z_scope.

Create HintDb calm.

(** A policy error, when it is one, has a proper message. *)
Definition tidy (e : exn) : Prop := policy_category e <> None -> plain (policy_message e) = true.

Section Calm.
Context {W : Type}.

(** Every error is tidy. *)
Definition tidy_errors {A} (m : M W A) : Prop := forall w e, snd (m w) = Err e -> tidy e.

Lemma tidy_ret {A} (a : A) : tidy_errors (mret a).
Proof. by intros w e [=]. Qed.
Lemma tidy_raise {A} e : tidy e -> tidy_errors (A := A) (raise e).
Proof. by intros He w e' [= <-]. Qed.
Lemma tidy_lift {A} (r : res A) : (forall e, r = Err e -> tidy e) -> tidy_errors (lift r).
Proof. intros Hr w e. apply Hr. Qed.
Lemma tidy_bind {A B} (m : M W A) (f : A -> M W B) :
  tidy_errors m -> (forall a, tidy_errors (f a)) -> tidy_errors (m ≫= f).
Proof.
  intros Hm Hf w e. unfold mbind, M_bind. specialize (Hm w). destruct (m w) as [w1 [a|e1]]; [apply Hf|].
  intros [= <-]. by apply Hm.
Qed.
Lemma tidy_fmap {A B} (f : A -> B) (m : M W A) : tidy_errors m -> tidy_errors (f <$> m).
Proof.
  intros Hm w e. unfold fmap, M_fmap. specialize (Hm w). destruct (m w) as [w1 [a|e1]]; [done|].
  intros [= <-]. by apply Hm.
Qed.
Lemma tidy_try {A} (m : M W A) caught handler :
  tidy_errors m -> (forall e, tidy_errors (handler e)) -> tidy_errors (try_except m caught handler).
Proof.
  intros Hm Hh w e. unfold try_except. specialize (Hm w). destruct (m w) as [w1 [a|e1]]; [done|].
  destruct (caught e1); [apply Hh|]. apply Hm.
Qed.
End Calm.

Lemma tidy_raise_if b e x : tidy e -> raise_if b e = Err x -> tidy x.
Proof. destruct b; [by intros He [= <-]|done]. Qed.

Lemma tidy_value_error message : tidy (ValueError message).
Proof. by intros ?. Qed.

Ltac tidy_leaf :=
  first [ done | apply tidy_value_error | (intros _; vm_compute; reflexivity) ].

Lemma tidy_bind_res {A B} (r : res A) (f : A -> res B) x :
  (forall e, r = Err e -> tidy e) -> (forall a e, f a = Err e -> tidy e) -> (r ≫= f) = Err x -> tidy x.
Proof. intros Hr Hf. destruct r as [a|e]; cbn; [apply Hf|]. intros [= <-]. by apply Hr. Qed.

(** One check of a policy, and what follows it. *)
Ltac tidy_check :=
  apply tidy_bind_res; [intros ? H; apply tidy_raise_if in H; [done|tidy_leaf]|intros _ ?].

Lemma authorize_tidy policy request e : authorize_command policy request = Err e -> tidy e.
Proof.
  unfold authorize_command.
  do 5 tidy_check.
  intros H. by apply tidy_raise_if in H; [|tidy_leaf].
Qed.

Lemma overrides_tidy p items seen result e : apply_overrides p items seen result = Err e -> tidy e.
Proof.
  revert seen result e. induction items as [|[key value] items IH]; intros seen result e; cbn [apply_overrides]; [done|].
  apply tidy_bind_res.
  - intros x. destruct (_validate_pair (env_windows p) key value) as [name|x'] eqn:Hv; [done|]. intros [= <-].
    assert (Hve : is_ValueError x' = true).
    { revert x' Hv. change (value_errors (_validate_pair (env_windows p) key value)). unfold _validate_pair. auto with rev. }
    rewrite Hve. tidy_leaf.
  - intros name x. do 4 tidy_check.
    apply IH.
Qed.

Lemma build_tidy p overrides e : build_environment p overrides = Err e -> tidy e.
Proof.
  unfold build_environment. apply tidy_bind_res; [apply overrides_tidy|]. intros result x.
  apply tidy_bind_res; [intros ? H; apply tidy_raise_if in H; [done|tidy_leaf]|done].
Qed.

(** ** A host with proper clocks *)

(** The host has an uptime, which never goes back and which the monotonic clock reads; a
    sleep lasts at least as long as asked, the wall clock shows some UTC instant, not
    necessarily a later one than before, and no call of the host raises one of the program's
    own policy errors. *)
Class Clocks (E : Type) := { uptime : E -> Q }.

Section Laws.
Context {E : Type} `{!ProcessHost E} `{!Clocks E} `{!UnicodeTables}.

Definition later (e e' : E) : Prop := (uptime e <= uptime e')%Q.

#[export] Instance later_confined : Confined later.
Proof.
  unfold later. split; [intros e; lra|]. intros e1 e2 e3 H1 H2. lra.
Qed.

Definition calm {A} (m : M E A) : Prop := only later m /\ tidy_errors m.

Class CalmHost : Prop := {
  calm_resolve strict path : calm (fs_resolve strict path);
  calm_is_dir path : calm (fs_is_dir path);
  calm_is_file path : calm (fs_is_file path);
  calm_executable path : calm (fs_executable path);
  calm_token : calm token_cancelled;
  calm_popen l : calm (popen l);
  calm_poll process : calm (poll process);
  calm_wait process grace : calm (wait process grace);
  calm_returncode process : calm (returncode process);
  calm_signal process signal : calm (send_signal process signal);
  calm_start process worker : calm (start_thread process worker);
  calm_join process worker grace : calm (join_thread process worker grace);
  calm_alive process worker : calm (is_alive process worker);
  calm_close process worker : calm (close_stream process worker);
  calm_chunks process stream : calm (chunks process stream);
  calm_temporary directory prefix : calm (make_temporary directory prefix);
  calm_file name path : calm (file_call name path);
  calm_write path data : calm (write_file path data);
  calm_replace source target : calm (replace_path source target);
  wall_reads : calm wall_clock /\ forall e, exists instant, snd (wall_clock e) = Ok (utc instant);
  monotonic_reads : calm monotonic /\ forall e, snd (monotonic e) = Ok (uptime (fst (monotonic e)));
  sleep_lasts d : calm (sleep d) /\ forall e, snd (sleep d e) = Ok tt -> (uptime e + d <= uptime (fst (sleep d e)))%Q;
  names_plain e : plain (exception_name e) = true
}.

Context `{!CalmHost}.

Lemma calm_bind {A B} (m : M E A) (f : A -> M E B) : calm m -> (forall a, calm (f a)) -> calm (m ≫= f).
Proof.
  intros Hm Hf. split.
  - apply only_bind; [exact _|apply Hm|intros a; apply Hf].
  - apply tidy_bind; [apply Hm|intros a; apply Hf].
Qed.
Lemma calm_ret {A} (a : A) : calm (mret a).
Proof. split; [apply only_reads; [exact _|apply reads_ret]|apply tidy_ret]. Qed.
Lemma calm_lift {A} (r : res A) : (forall e, r = Err e -> tidy e) -> calm (lift r).
Proof. intros Hr. split; [apply only_reads; [exact _|apply reads_lift]|by apply tidy_lift]. Qed.
Lemma calm_raise {A} e : tidy e -> calm (A := A) (raise e).
Proof. intros He. split; [apply only_reads; [exact _|apply reads_raise]|by apply tidy_raise]. Qed.
Lemma calm_fmap {A B} (f : A -> B) (m : M E A) : calm m -> calm (f <$> m).
Proof. intros Hm. split; [apply only_fmap, Hm|apply tidy_fmap, Hm]. Qed.
Lemma calm_try {A} (m : M E A) caught handler : calm m -> (forall e, calm (handler e)) -> calm (try_except m caught handler).
Proof.
  intros Hm Hh. split; [apply only_try; [exact _|apply Hm|intros e; apply Hh]|].
  apply tidy_try; [apply Hm|intros e; apply Hh].
Qed.

Hint Resolve calm_resolve calm_is_dir calm_is_file calm_executable calm_ret : calm.

(** A check that raises with a literal message. *)
Ltac calm_step := repeat first
  [ solve [auto with calm]
  | apply calm_fmap
  | apply calm_bind; [|intros ?]
  | apply calm_try; [|intros ?]
  | apply calm_raise; tidy_leaf
  | apply calm_lift; intros ? H'; (apply tidy_raise_if in H'; [exact H'|tidy_leaf])
  | match goal with
    | |- calm (if ?b then _ else _) => destruct b
    | |- calm (match ?o with _ => _ end) => destruct o
    end ].

Lemma calm_first_usable policy rule paths : calm (first_usable policy rule paths).
Proof. induction paths as [|p paths IH]; cbn [first_usable]; unfold resolved_or_none, usable; calm_step. Qed.

Lemma calm_resolve_executable policy name : calm (resolve_executable policy name).
Proof. unfold resolve_executable. calm_step. apply calm_first_usable. Qed.

Lemma calm_working_directory p path : calm (resolve_working_directory p path).
Proof. unfold resolve_working_directory, contained_directory. calm_step. Qed.

Lemma calm_artifact_directory p path : calm (resolve_artifact_directory p path).
Proof. unfold resolve_artifact_directory, contained_directory. calm_step. Qed.

Lemma calm_artifact_path p directory filename : calm (artifact_path p directory filename).
Proof. unfold artifact_path. calm_step. Qed.

(** ** Running on such a host *)

Abbreviation W := (LocalWorld E).

Definition forward (w w' : W) : Prop := later (local_host w) (local_host w').
#[export] Instance forward_confined : Confined forward.
Proof. split; unfold forward; [intros w; apply later_confined|intros w1 w2 w3; apply later_confined]. Qed.

Lemma forward_host {A} (m : M E A) : calm m -> only forward (at_host m).
Proof.
  intros [Hm _] w. unfold at_host. specialize (Hm (local_host w)). by destruct (m (local_host w)).
Qed.

Lemma forward_reads {A} (m : M W A) : reads m -> only forward m.
Proof. apply only_reads. exact _. Qed.

Hint Resolve calm_token calm_popen calm_poll calm_wait calm_returncode calm_signal calm_start calm_join
  calm_alive calm_close calm_chunks calm_temporary calm_file calm_write calm_replace calm_resolve_executable
  calm_working_directory calm_artifact_directory calm_artifact_path : calm.

Lemma calm_wall : calm wall_clock.
Proof. apply wall_reads. Qed.
Lemma calm_monotonic : calm monotonic.
Proof. apply monotonic_reads. Qed.
Lemma calm_sleep d : calm (sleep d).
Proof. apply sleep_lasts. Qed.
Hint Resolve calm_wall calm_monotonic calm_sleep : calm.

Variable runner : LocalCommandRunner.

Ltac go := repeat first
  [ assumption
  | apply forward_host; solve [auto with calm]
  | solve [apply forward_reads; auto with rev]
  | solve [intros ?; apply later_confined]
  | apply only_attempt
  | apply only_try_finally; [exact _| |]
  | (unfold suppress; apply only_try; [exact _| |intros ?])
  | apply only_fmap
  | apply only_bind; [exact _| |intros ?]
  | match goal with
    | |- only _ (if ?b then _ else _) => destruct b
    | |- only _ (match ?o with _ => _ end) => destruct o
    end ].

Lemma for_each_forward {A} (f : A -> M W unit) xs : (forall x, only forward (f x)) -> only forward (for_each f xs).
Proof. intros Hf. induction xs as [|x xs IH]; cbn [for_each]; go. apply Hf. Qed.

Lemma watch_forward fuel process request started : only forward (watch runner fuel process request started).
Proof. induction fuel as [|fuel IH]; cbn [watch]; unfold cancelled; go. Qed.

Lemma complete_forward process request directory executable redactor timeout_started started_at started :
  only forward (_complete_process runner process request directory executable redactor timeout_started started_at started).
Proof.
  unfold _complete_process, _finalize_stream, write_artifact, _atomic_write, supervise, _terminate,
    _finish_streams, ended_in_time, start_worker, duration_since.
  go; first [apply watch_forward | apply for_each_forward; intros ?; go].
Qed.

(** ** The watch ends *)

Lemma Qle_bool_false a b : Qle_bool a b = false -> (b < a)%Q.
Proof. intros Hf. apply Qnot_le_lt. intros Hle. apply Qle_bool_iff in Hle. congruence. Qed.

Lemma watch_eq fuel process request started :
  watch (E := E) runner (S fuel) process request started =
  (code ← at_host (poll process) ;
   if is_some code then mret Exited else
   stop ← cancelled request ;
   if (stop : bool) then
     mret (Interrupted CommandStatus.CANCELLED CommandFailureCategory.CANCELLATION
             "command was cancelled during execution") else
   now ← at_host monotonic ;
   if Qle_bool (inject_Z (req_timeout_seconds request)) (now - started) then
     mret (Interrupted CommandStatus.TIMEOUT CommandFailureCategory.TIMEOUT
             "command exceeded its configured timeout") else
   at_host (sleep (_poll_interval runner)) ;;
   watch runner fuel process request started).
Proof. reflexivity. Qed.

Lemma watch_ends fuel process request started (w : W) :
  (0 < _poll_interval runner)%Q ->
  (inject_Z (req_timeout_seconds request) - (uptime (local_host w) - started)
   <= inject_Z (Z.of_nat fuel) * _poll_interval runner)%Q ->
  snd (watch runner (S fuel) process request started w) <> Ok Watching.
Proof.
  intros Hi. revert w. induction fuel as [|fuel IH]; intros w Hleft.
  all: rewrite watch_eq; unfold mbind, M_bind.
  all: pose proof (forward_host (poll process) (calm_poll process) w) as H1.
  all: destruct (at_host (poll process) w) as [w1 [code|e]]; [|done]; cbn [fst] in H1.
  all: destruct (is_some code); [done|].
  all: assert (H2 : (uptime (local_host w1) <= uptime (local_host (fst (cancelled request w1))))%Q)
         by (unfold cancelled; destruct (req_cancellable request); [apply (forward_host _ calm_token)|cbn; lra]).
  all: destruct (cancelled request w1) as [w2 [[]|e]]; [done| |done]; cbn [fst] in H2.
  all: pose proof (forward_host monotonic calm_monotonic w2) as H3.
  all: unfold forward, later in *; unfold at_host at 1; unfold at_host at 1 in H3.
  all: pose proof (proj2 monotonic_reads (local_host w2)) as Hnow.
  all: destruct (monotonic (local_host w2)) as [e3 r3]; cbn in Hnow, H3; subst r3; cbn [fst].
  - destruct (Qle_bool _ _) eqn:Hle; [done|]. exfalso. apply Qle_bool_false in Hle.
    change (inject_Z (Z.of_nat 0)) with 0%Q in Hleft. lra.
  - destruct (Qle_bool _ _) eqn:Hle; [done|].
    set (w3 := mk_LocalWorld e3 _ _ _).
    pose proof (proj2 (sleep_lasts (_poll_interval runner)) e3) as Hs.
    destruct (at_host (sleep (_poll_interval runner)) w3) as [w4 [[]|e]] eqn:Hsleep; [|done].
    apply IH. unfold at_host in Hsleep. subst w3. cbn in Hsleep.
    destruct (sleep (_poll_interval runner) e3) as [e4 r4]. cbn in Hs. injection Hsleep as <- ->.
    specialize (Hs eq_refl). cbn. rewrite Nat2Z.inj_succ, <- Z.add_1_r, inject_Z_plus in Hleft.
    change (inject_Z 1) with 1%Q in Hleft. lra.
Qed.
Lemma enough_turns timeout :
  (0 < _poll_interval runner)%Q ->
  (inject_Z timeout <= inject_Z (Z.of_nat (poll_turns timeout (_poll_interval runner) - 1)) * _poll_interval runner)%Q.
Proof.
  intros Hi. unfold poll_turns. rewrite Nat.add_sub.
  set (c := Qceiling (inject_Z timeout / _poll_interval runner)).
  assert (Hc : (inject_Z timeout / _poll_interval runner <= inject_Z c)%Q) by apply Qle_ceiling.
  assert (Hz : (inject_Z c <= inject_Z (Z.of_nat (Z.to_nat c)))%Q) by (rewrite <- Zle_Qle; lia).
  apply Qle_trans with (inject_Z timeout / _poll_interval runner * _poll_interval runner)%Q.
  { apply Qle_lteq. right. field. lra. }
  apply Qmult_le_compat_r; lra.
Qed.

Lemma make_runner_interval executables paths environment policy redactor interval grace :
  make_LocalCommandRunner executables paths environment policy redactor interval grace = Ok runner ->
  (0 < _poll_interval runner)%Q.
Proof.
  unfold make_LocalCommandRunner. intros Hm. apply bind_raise_if_Ok in Hm as [Hi Hm].
  apply bind_raise_if_Ok in Hm as [_ Hm]. injection Hm as <-. cbn.
  apply negb_false_iff, andb_true_iff in Hi as [Hi _]. unfold Qlt_bool in Hi.
  apply negb_true_iff in Hi. by apply Qle_bool_false in Hi.
Qed.

Lemma supervise_ends process request started (w : W) :
  (0 < _poll_interval runner)%Q -> (started <= uptime (local_host w))%Q ->
  snd (supervise runner process request started w) <> Ok Watching.
Proof.
  intros Hi Hs. unfold supervise. set (body := mbind _ _).
  assert (Hbody : snd (body w) <> Ok Watching).
  { subst body.
    assert (Hstep : forall A (m : M W A) (f : A -> M W watched) (w : W), only forward m ->
      (started <= uptime (local_host w))%Q ->
      (forall a w, (started <= uptime (local_host w))%Q -> snd (f a w) <> Ok Watching) -> snd ((m ≫= f) w) <> Ok Watching).
    { intros A m f w0 Hm Hw0 Hf. unfold mbind, M_bind. specialize (Hm w0). unfold forward, later in Hm.
      destruct (m w0) as [w1 [a|e]]; [|done]. apply Hf. cbn in Hm. lra. }
    apply Hstep; [unfold start_worker; go|done|intros _ w1 H1].
    apply Hstep; [unfold start_worker; go|done|intros _ w2 H2].
    apply Hstep; [unfold start_worker; go|done|intros _ w3 H3].
    pose proof (watch_ends (poll_turns (req_timeout_seconds request) (_poll_interval runner) - 1) process request started w3 Hi) as Hw.
    unfold poll_turns in Hw at 2. rewrite Nat.add_1_r in Hw. cbn [Nat.sub] in Hw. rewrite Nat.sub_0_r in Hw.
    unfold mbind, M_bind. unfold poll_turns. rewrite Nat.add_1_r.
    destruct (watch runner _ process request started w3) as [w4 [ending|e]]; [|done].
    assert (ending <> Watching).
    { intros ->. apply Hw; [|done]. pose proof (enough_turns (req_timeout_seconds request) Hi) as He.
      unfold poll_turns in He |- *. lra. }
    match goal with |- context [match ending with _ => _ end ?x] => destruct (match ending with _ => _ end x) as [w5 [u|e]] end;
      [|done]. cbn. congruence. }
  unfold try_finally, attempt, mbind, M_bind, lift.
  destruct (body w) as [w1 o]. cbn in Hbody |- *.
  match goal with |- context [match ?x with _ => _ end] => destruct x as [w2 [u|e]] end; done.
Qed.

(** ** [run] answers *)

Variable request : CommandRequest.

(** What a caller is told of its request, in a result that meets its contract. *)
Definition answers (r : CommandResult) : Prop :=
  cr_correlation_id r = req_correlation_id request /\ cr_executable r = req_executable request
  /\ is_ok (validate_CommandResult r) = true
  /\ (cr_status r = CommandStatus.SUCCESS -> exists n, cr_exit_code r = Some n /\ n ∈ req_expected_exit_codes request).

(** The wall clock was set back: read after [h], at or before [h'], it showed an instant
    before [t]. *)
Definition set_back (t : Z) (h h' : E) : Prop :=
  exists h1 t', later h h1 /\ later h1 h' /\ snd (wall_clock h1) = Ok (utc t') /\ t' < t.

(** The result, or the error of a result that would have ended before its start. *)
Definition completion_error : exn := ValueError "command completion cannot precede its start".

(** In any world, a result, unless the clock shows an instant before [t]. *)
Definition settles (t : Z) (m : M W CommandResult) : Prop :=
  forall w, exists w' o, m w = (w', o) /\
    match o with
    | Ok r => answers r
    | Err e => e = completion_error /\ set_back t (local_host w) (local_host w')
    end.

Lemma set_back_earlier t h1 h2 h3 : later h1 h2 -> set_back t h2 h3 -> set_back t h1 h3.
Proof. intros Hl (x & t' & H1 & H2 & H3). exists x, t'. split; [by eapply confined_trans|done]. Qed.

Context (configured : list string) (Hredactor : make_Redactor configured = Ok (_redactor runner)).

(** A status of a call that has no process. *)
Definition processless (status : CommandStatus.t) : bool :=
  match status with CommandStatus.SUCCESS | CommandStatus.NONZERO_EXIT => false | _ => true end.

Lemma settles_bind {A} t (m : M W A) f (Q : A -> Prop) :
  only forward m -> (forall w, exists a, snd (m w) = Ok a /\ Q a) -> (forall a, Q a -> settles t (f a)) -> settles t (m ≫= f).
Proof.
  intros Hm Hok Hf w. unfold mbind, M_bind. specialize (Hm w). destruct (Hok w) as (a & Ha & HQ).
  destruct (m w) as [w1 r]. cbn in Ha, Hm. subst r. destruct (Hf a HQ w1) as (w' & o & Ho & Hr).
  exists w', o. split; [done|]. destruct o; [done|]. destruct Hr as [-> Hr]. split; [done|].
  by eapply set_back_earlier.
Qed.

Lemma duration_nonneg started w :
  exists d, snd (duration_since (E := E) started w) = Ok d /\ Qle_bool 0 d = true.
Proof.
  unfold duration_since, mbind, M_bind, at_host. pose proof (proj2 monotonic_reads (local_host w)) as Hm.
  destruct (monotonic (local_host w)) as [e r]. cbn in Hm. subst r. cbn. eexists. split; [done|].
  by destruct (Qle_bool 0 (uptime e - started)) eqn:Hq.
Qed.

Lemma failure_settles status failure message resolved t started :
  processless status = true -> plain message = true ->
  settles t (_failure_result runner request status failure message resolved (utc t) started).
Proof.
  intros Hs Hp w. unfold _failure_result, mbind at 1, M_bind at 1, at_host at 1.
  pose proof (proj2 wall_reads (local_host w)) as [n Hclock].
  pose proof (proj1 calm_wall (local_host w)) as Hlater.
  destruct (wall_clock (local_host w)) as [e1 r1] eqn:Hwall. cbn in Hclock, Hlater. subst r1.
  set (w1 := mk_LocalWorld e1 _ _ _).
  destruct (duration_nonneg started w1) as (d & Hd & Hpos).
  assert (Hforward : forward w1 (fst (duration_since (E := E) started w1))).
  { assert (Ho : only forward (duration_since (E := E) started)) by (unfold duration_since; go). apply Ho. }
  unfold mbind at 1, M_bind at 1. destruct (duration_since started w1) as [w2 r2]. cbn in Hd, Hforward. subst r2.
  unfold validate_CommandFailure. cbn [cf_message].
  pose proof (redact_plain _ _ message false Hredactor Hp) as Hr. unfold plain in Hr.
  apply andb_true_iff in Hr as [Hne Hnul]. apply negb_true_iff, String.eqb_neq in Hne.
  apply negb_true_iff in Hnul.
  rewrite (bool_decide_eq_false_2 _ Hne), Hnul. cbn [orb raise_if].
  assert (Hvalid : forall x, cr_schema_version x = COMMAND_SCHEMA_VERSION -> cr_started_at x = utc t ->
    cr_completed_at x = utc n -> cr_duration_seconds x = d -> cr_status x = status -> cr_exit_code x = None ->
    is_some (cr_failure x) = true -> validate_CommandResult x = if n <? t then Err completion_error else Ok x).
  { intros x Hx1 Hx2 Hx3 Hx4 Hx5 Hx6 Hx7. unfold validate_CommandResult.
    rewrite Hx1, Hx2, Hx3, Hx4, Hx5, Hx6, Hpos. destruct (cr_failure x); [|done].
    unfold dt_lt. cbn. destruct (n <? t); [done|]. by destruct status. }
  unfold lift. cbn -[validate_CommandResult]. eexists w2, _. split; [reflexivity|].
  rewrite bool_decide_eq_true_2 by done. cbn [negb raise_if mbind result_bind mret result_ret].
  rewrite Hvalid by done.
  destruct (n <? t) eqn:Hback.
  - split; [done|]. exists (local_host w), n. apply Z.ltb_lt in Hback.
    split; [apply confined_refl|]. split; [|by rewrite Hwall].
    unfold forward, later in *. cbn in Hforward. lra.
  - split_and!; [done|done|by rewrite Hvalid|]. cbn. by intros ->.
Qed.

Lemma internal_plain e : plain ("internal command runner failure: " +:+ exception_name e) = true.
Proof. apply plain_app; [done|apply names_plain]. Qed.

(** An interruption is not a success. *)
Definition interrupted_properly (ending : watched) : Prop :=
  match ending with Interrupted status _ _ => processless status = true | _ => True end.

Lemma watch_interrupts fuel process started :
  does anywhere (watch (E := E) runner fuel process request started) interrupted_properly.
Proof.
  induction fuel as [|fuel IH]; [by apply does_ret|]. rewrite watch_eq.
  eapply does_bind; [exact _|by apply does_only|intros code _]. destruct (is_some code); [by apply does_ret|].
  eapply does_bind; [exact _|by apply does_only|intros [] _]; [by apply does_ret|].
  eapply does_bind; [exact _|by apply does_only|intros now _]. destruct (Qle_bool _ _); [by apply does_ret|].
  eapply does_bind; [exact _|by apply does_only|intros _ _]. exact IH.
Qed.

Lemma supervise_interrupts process started :
  does anywhere (supervise (E := E) runner process request started) interrupted_properly.
Proof.
  unfold supervise. apply does_finally; [exact _| |done].
  do 3 (eapply does_bind; [exact _|by apply does_only|intros _ _]).
  eapply does_bind; [exact _|apply watch_interrupts|intros ending He].
  eapply does_bind; [exact _|by apply does_only|intros _ _]. by apply does_ret.
Qed.

(** The result of a process that ran. *)
Lemma complete_answers process directory executable redactor timeout_started started_at started :
  does anywhere (_complete_process runner process request directory executable redactor timeout_started started_at started)
    answers.
Proof.
  unfold _complete_process. eapply does_bind; [exact _|apply supervise_interrupts|intros ending Hending].
  do 4 (eapply does_bind; [exact _|by apply does_only|intros ? _]).
  eapply does_bind; [exact _|by apply does_only|intros exit_code _].
  eapply does_bind with (P := fun settled => settled.1 = CommandStatus.SUCCESS ->
    exists n, exit_code = Some n /\ n ∈ req_expected_exit_codes request); [exact _| |intros settled Hsettled].
  { apply does_lift; [exact _|]. intros settled Hs. unfold settle_status in Hs.
    destruct ending as [|status failure message|].
    2: { apply bind_Ok in Hs as (reason & _ & [= <-]). cbn in *. by intros ->. }
    all: destruct (_ || _); [apply bind_Ok in Hs as (reason & _ & [= <-]); by intros [=]|].
    all: destruct exit_code as [n|]; [|by injection Hs as <-; intros [=]].
    all: destruct (bool_decide _) eqn:Hin; injection Hs as <-; [|by intros [=]].
    all: intros _; exists n; split; [done|]; by apply bool_decide_eq_true in Hin. }
  do 2 (eapply does_bind; [exact _|by apply does_only|intros ? _]).
  apply does_lift; [exact _|]. intros r Hr. apply validated_result in Hr as Heq. subst r. split_and!; try done.
  by rewrite Hr.
Qed.

Lemma stage_settles {A} t (m : M W A) f :
  only forward m -> (forall o, settles t (f o)) -> settles t (attempt m ≫= f).
Proof.
  intros Hm Hf. apply (settles_bind t (attempt m) f (fun _ => True)); [by apply only_attempt| |done].
  intros w. unfold attempt. destruct (m w) as [w1 o]. by exists o.
Qed.

Lemma prepared_settles p request_redactor t started :
  settles t (run_prepared runner request p request_redactor (utc t) started).
Proof.
  assert (Hint : forall e resolved, settles t (_failure_result runner request CommandStatus.INTERNAL_ERROR
    CommandFailureCategory.INTERNAL ("internal command runner failure: " +:+ exception_name e) resolved (utc t) started)).
  { intros. apply failure_settles; [done|apply internal_plain]. }
  unfold run_prepared. apply stage_settles; [unfold cancelled; go|]. intros [[]|e]; [by apply failure_settles| |apply Hint].
  apply (settles_bind _ _ _ (fun _ => True)); [go| |intros timeout_started _].
  { intros w. unfold at_host. pose proof (proj2 monotonic_reads (local_host w)) as Hm.
    destruct (monotonic (local_host w)) as [e r]. cbn in *. eauto. }
  apply stage_settles; [unfold launch; go|]. intros [process|e].
  - intros w. unfold try_except.
    pose proof (complete_forward process request (prep_artifacts p) (prep_executable p) request_redactor timeout_started (utc t) started w) as Hl.
    destruct (complete_answers process (prep_artifacts p) (prep_executable p) request_redactor timeout_started (utc t) started w) as [_ Ha].
    destruct (_complete_process _ _ _ _ _ _ _ _ _ w) as [w1 [r|e]]; cbn in *.
    + exists w1, (Ok r). split; [done|by apply Ha].
    + destruct (Hint e (Some (prep_executable p)) w1) as (w2 & o & Ho & Hr). exists w2, o. split; [exact Ho|].
      destruct o; [done|]. destruct Hr as [-> Hr]. split; [done|]. by eapply set_back_earlier.
  - destruct (is_launch_error e); [|apply Hint]. apply failure_settles; [done|].
    apply plain_app; [done|apply names_plain].
Qed.

(** What the first block raises is tidy. *)
Lemma prepare_errors w : exists x, snd (prepare (E := E) runner request w) = Ok x /\ forall e, x.2 = Err e -> tidy e.
Proof.
  unfold prepare, mbind at 1, M_bind at 1, attempt at 1, lift at 1.
  destruct (authorize_command (_command_policy runner) request) as [u|e] eqn:Ha.
  2: { eexists. split; [done|]. intros e' [= <-]. by apply authorize_tidy in Ha. }
  unfold mbind at 1, M_bind at 1, attempt at 1.
  pose proof (proj2 (calm_resolve_executable (_executables runner) (req_executable request)) (local_host w)) as Ht.
  unfold at_host at 1. destruct (resolve_executable _ _ (local_host w)) as [e1 [executable|e]].
  2: { eexists. split; [done|]. intros e' [= <-]. by apply Ht. }
  unfold mbind at 1, M_bind at 1, attempt at 1. set (w1 := mk_LocalWorld _ _ _ _).
  set (rest := mbind _ _).
  assert (Hrest : tidy_errors rest).
  { assert (Hhost : forall A (m : M E A), calm m -> tidy_errors (W := W) (at_host m)).
    { intros A m [_ Hm] w2 x. unfold at_host. specialize (Hm (local_host w2)). destruct (m (local_host w2)). apply Hm. }
    subst rest. apply tidy_bind; [apply Hhost, calm_working_directory|intros directory].
    apply tidy_bind; [destruct (req_artifact_directory request); [apply tidy_fmap, Hhost, calm_artifact_directory|apply tidy_ret]|].
    intros artifacts. apply tidy_bind; [apply tidy_lift, build_tidy|intros environment; apply tidy_ret]. }
  specialize (Hrest w1). destruct (rest w1) as [w2 o]. eexists. split; [done|]. intros e' He. by apply Hrest.
Qed.

Lemma run_settles w :
  exists t w' o, snd (wall_clock (local_host w)) = Ok (utc t) /\ run runner request w = (w', o) /\
    match o with
    | Ok r => answers r
    | Err e => e = completion_error /\ set_back t (local_host w) (local_host w')
    end.
Proof.
  unfold run, mbind at 1, M_bind at 1, at_host at 1. pose proof (proj2 wall_reads (local_host w)) as [t Hclock].
  pose proof (proj1 calm_wall (local_host w)) as Hlater. exists t.
  destruct (wall_clock (local_host w)) as [e1 r1]. cbn in Hclock, Hlater. subst r1. cbn [snd].
  set (w1 := mk_LocalWorld e1 _ _ _). set (rest := mbind _ _).
  assert (Hrest : settles t rest).
  2: { destruct (Hrest w1) as (w' & o & Ho & Hr). exists w', o. split; [done|]. split; [exact Ho|].
       destruct o; [done|]. destruct Hr as [-> Hr]. split; [done|]. by eapply set_back_earlier. }
  subst rest. clear w1.
  apply (settles_bind t _ _ (fun _ => True)); [go| |intros started _].
  { intros w1. unfold at_host. pose proof (proj2 monotonic_reads (local_host w1)) as Hm.
    destruct (monotonic (local_host w1)) as [e r]. cbn in *. eauto. }
  apply (settles_bind t _ _ (fun x : option Path * res Prepared => forall e, x.2 = Err e -> tidy e)).
  { unfold prepare. go. }
  { apply prepare_errors. }
  intros [resolved [p|e]] Ht.
  - destruct (with_secrets _ _); [apply prepared_settles|by apply failure_settles].
  - specialize (Ht e eq_refl). unfold tidy in Ht. destruct (policy_category e) as [failure|].
    + apply failure_settles; [done|by apply Ht].
    + apply failure_settles; [done|apply internal_plain].
Qed.
End Laws.

(** C28: on a host whose monotonic clock does not go back, the watch over a process ends within the
    turns the poll interval allows: the supervision of a process ends with its exit,
    an interruption or an exception, and never by running out of turns. *)
Theorem polling_terminates {E} `{!ProcessHost E} `{!Clocks E} `{!UnicodeTables} `{!CalmHost (E := E)}
    executables paths environment policy redactor interval grace runner process request started (w : LocalWorld E) :
  make_LocalCommandRunner executables paths environment policy redactor interval grace = Ok runner ->
  (started <= uptime (local_host w))%Q ->
  snd (supervise runner process request started w) <> Ok Watching.
Proof. intros Hm Hs. apply supervise_ends; [by eapply make_runner_interval|done]. Qed.

(** C27: on such a host [run] answers: whatever the policies refuse, the file system,
    the processes and the threads raise, it returns a result that carries the
    correlation identifier and the executable of the request, meets the contract of
    [CommandResult], and says SUCCESS only of an expected exit code.  The one thing it can
    raise is the result's own complaint that it ended before it started, and then the wall
    clock, read during the call, showed an instant before the one it showed at its start. *)
Theorem run_always_answers {E} `{!ProcessHost E} `{!Clocks E} `{!UnicodeTables} `{!CalmHost (E := E)}
    configured runner request (w : LocalWorld E) :
  make_Redactor configured = Ok (_redactor runner) ->
  exists t w' o, snd (wall_clock (local_host w)) = Ok (utc t) /\ run runner request w = (w', o) /\
    match o with
    | Ok r => answers request r
    | Err e => e = completion_error /\ set_back t (local_host w) (local_host w')
    end.
Proof. intros Hr. by eapply run_settles. Qed.
