(* ===== verification/LocalRunnerSample.v ===== *)
(** * A host for the local runner

    A scripted host on which the theorems about the local runner are applied: a clock
    that a sleep advances, and a process that writes a secret and exits after three
    seconds. *)

From Stdlib Require Import ZArith Lia Ascii String QArith Qround Lqa.
From S2P Require Import Prelude Text Domain Unicode Regex Redaction Effects Commands CommandPolicy LocalRunner LocalRunnerOutput LocalRunnerSafety LocalRunnerTotal.
From stdpp Require Import base option strings numbers gmap sets list list_relations.

Open Scope Z_scope.

Module RunnerSample.
(** The state of the host is its clock, in seconds. *)
Definition files : FileSystem Z := {|
  fs_resolve _ p := mret p;
  fs_is_dir _ := mret true;
  fs_is_file _ := mret true;
  fs_executable _ := mret true;
  fs_exists _ := mret true;
  fs_is_symlink _ := mret false;
  fs_lexists _ := mret true
|}.

Definition secret : string := "sk-live-4242".

#[export] Instance process_host : ProcessHost Z := {|
  ph_files := files;
  posix := true;
  wall_clock := gets utc;
  monotonic := gets inject_Z;
  sleep d := fun t => (t + Z.max 1 (Qceiling d), Ok tt);
  token_cancelled := mret false;
  popen _ := mret 1;
  poll _ := gets (fun t => if 3 <=? t then Some 0 else None);
  wait _ _ := mret tt;
  returncode _ := mret (Some 0);
  send_signal _ _ := mret tt;
  start_thread _ _ := mret tt;
  join_thread _ _ _ := mret tt;
  is_alive _ _ := mret false;
  close_stream _ _ := mret tt;
  chunks _ stream := mret (match stream with
                           | OutputStream.STDOUT => ["key sk-live-"; "4242"; " used by the tool"]
                           | OutputStream.STDERR => []
                           end);
  make_temporary directory prefix := mret (joinpath directory [prefix +:+ "tmp"]);
  file_call _ _ := mret tt;
  write_file _ _ := mret tt;
  replace_path _ _ := mret tt;
  exception_name _ := "OSError"
|}.

#[export] Instance clocks : Clocks Z := {| uptime := inject_Z |}.
#[export] Instance tables : UnicodeTables := {| unicode_alnum _ := false |}.

Lemma quiet_calm {A} (f : Z -> A) : calm (gets f).
Proof. split; [|by intros e x [=]]. intros e. apply Qle_refl. Qed.

Lemma sleep_calm d : calm (E := Z) (sleep d).
Proof.
  split; [|by intros e x [=]]. intros e. unfold later. cbn. rewrite <- Zle_Qle. lia.
Qed.

#[export] Instance calm_host : CalmHost (E := Z).
Proof.
  assert (Hret : forall A (a : A), calm (E := Z) (mret a)) by (intros A a; exact (quiet_calm (fun _ => a))).
  split; intros; try apply Hret; try apply quiet_calm; try done.
  - split; [apply quiet_calm|]. intros e. by exists e.
  - split; [apply quiet_calm|done].
  - split; [apply sleep_calm|]. intros e _. change (inject_Z e + d <= inject_Z (e + Z.max 1 (Qceiling d)))%Q. rewrite inject_Z_plus.
    apply Qplus_le_r. apply Qle_trans with (inject_Z (Qceiling d)); [apply Qle_ceiling|]. rewrite <- Zle_Qle. lia.
Qed.

Definition directory : Path := path_of "/srv/repo".
Definition artifacts : Path := path_of "/srv/artifacts".

Definition executables : ExecutablePolicy :=
  let rule := mk_ExecutableRule "tool" [path_of "/usr/bin/tool"] [] in
  mk_ExecutablePolicy [rule] false [("tool", rule)].

Definition environment : EnvironmentPolicy :=
  mk_EnvironmentPolicy [("API_TOKEN", secret)] ∅ ∅ {["API_TOKEN"]} false [("API_TOKEN", secret)] ∅ ∅ {["API_TOKEN"]}.

Definition runner : LocalCommandRunner :=
  mk_LocalCommandRunner executables (mk_PathPolicy [directory] [artifacts] false false) environment
    default_CommandPolicy (mk_Redactor []) (1 # 2) (1 # 2).

Definition request : CommandRequest :=
  mk_CommandRequest "tool" ["--check"] directory "call-1" [] 10 None (mk_OutputLimits 20 20 30) true [0]
    (Some artifacts) COMMAND_SCHEMA_VERSION.

Definition world : LocalWorld Z := mk_LocalWorld 0 [] [] [].
End RunnerSample.

#[export] Existing Instance RunnerSample.process_host.
#[export] Existing Instance RunnerSample.clocks.
#[export] Existing Instance RunnerSample.tables.
#[export] Existing Instance RunnerSample.calm_host.

Import RunnerSample.

(** The secret of the environment is cut out of the capture and of the artifact. *)
Example sample_result :
  let '(w, r) := run runner request world in
  launched w = [mk_Launch ["/usr/bin/tool"; "--check"] directory [("API_TOKEN", secret)] None]
  /\ match r with
     | Ok r => cr_status r = CommandStatus.SUCCESS
         /\ out_text (cr_stdout r) = "key [REDACTED] use" +:+ truncation_notice OutputStream.STDOUT 33
     | Err _ => False
     end
  /\ length (written w) = 1%nat.
Proof. vm_compute. by split_and!. Qed.

Lemma launch_authorized_witness :
  is_ok (validate_OutputLimits (req_output_limits request)) = true
  /\ exists l, launched (fst (run runner request world)) = [l] /\ authorized_launch runner request l.
Proof.
  split; [by vm_compute|].
  assert (H1 : length (launched (fst (run runner request world))) = 1%nat) by (vm_compute; reflexivity).
  assert (Hl : is_ok (validate_OutputLimits (req_output_limits request)) = true) by (vm_compute; reflexivity).
  destruct (launch_authorized runner request world Hl) as (ls & Hls & _ & Hall). cbn [launched world app] in Hls.
  rewrite Hls in H1 |- *. destruct ls as [|l [|]]; try discriminate H1. exists l. split; [done|].
  by apply Forall_cons in Hall as [? _].
Defined.

Lemma outputs_bounded_and_redacted_witness :
  is_ok (snd (run runner request world)) = true /\ length (written (fst (run runner request world))) = 1%nat
  /\ exists r, snd (run runner request world) = Ok r /\ proper_outputs runner request r.
Proof.
  assert (H1 : is_ok (snd (run runner request world)) = true) by (vm_compute; reflexivity).
  split; [done|]. split; [by vm_compute|].
  destruct (run runner request world) as [w' o] eqn:Hrun. cbn [snd] in *. destruct o as [r|e]; [|done].
  exists r. split; [done|].
  exact (proj2 (outputs_bounded_and_redacted runner request world w' (Ok r) eq_refl Hrun) r eq_refl).
Defined.

Lemma collect_spec_witness :
  0 <= 4 /\ 0 <= 6 /\ collect (new_collector 4 6) ["abc"; "de"; "fgh"] = mk_StreamCollector 4 6 "abcd" "abcdef" 8.
Proof. split; [lia|]. split; [lia|]. exact (collect_spec 4 6 ["abc"; "de"; "fgh"] ltac:(lia) ltac:(lia)). Defined.

Lemma polling_terminates_witness :
  make_LocalCommandRunner executables (mk_PathPolicy [directory] [artifacts] false false) environment None None
    (1 # 2) (1 # 2) = Ok runner
  /\ (0 <= uptime (local_host world))%Q /\ snd (supervise runner 1 request 0 world) <> Ok Watching.
Proof.
  split; [reflexivity|]. split; [apply Qle_refl|].
  exact (polling_terminates executables (mk_PathPolicy [directory] [artifacts] false false) environment None None
           (1 # 2) (1 # 2) runner 1 request 0 world eq_refl (Qle_refl 0)).
Defined.

Lemma run_always_answers_witness :
  make_Redactor [] = Ok (_redactor runner)
  /\ exists w' r, run runner request world = (w', Ok r) /\ answers request r.
Proof.
  assert (Hred : make_Redactor [] = Ok (_redactor runner)) by reflexivity. split; [exact Hred|].
  assert (H1 : is_ok (snd (run runner request world)) = true) by (vm_compute; reflexivity).
  revert H1. generalize (run_always_answers [] runner request world Hred).
  generalize (run runner request world). intros [w0 o0] (t & w' & o & _ & [= <- <-] & Hr) H1.
  destruct o0 as [r|e]; [by exists w0, r|discriminate H1].
Defined.
