(* ===== verification/GitPolicy.v ===== *)
(** * Git policies and parsers
      ([src/src/revanent/git/policy.py], [src/src/revanent/git/parsing.py])

    Which branch names and revisions may reach Git, which branches are protected,
    and the parsers of Git's NUL-delimited porcelain formats. *)

From Stdlib Require Import ZArith Lia Ascii String.
From S2P Require Import Prelude Text Domain Effects Commands GitPort CommandPolicy.
From stdpp Require Import base option strings numbers gmap sets list list_relations.

Open Scope Z_scope.

(** ** The subclasses of [GitError] by name *)

Definition InvalidGitReferenceError : string -> exn := GitSubclassError GitErrorCategory.INVALID_REFERENCE.
Definition ProtectedBranchError : string -> exn := GitSubclassError GitErrorCategory.PROTECTED_BRANCH.
Definition MalformedGitOutputError : string -> exn := GitSubclassError GitErrorCategory.MALFORMED_OUTPUT.

(** ** Strings *)

(** [s.split(c, n)] *)
Fixpoint split_max (c : ascii) (n : nat) (l acc : list ascii) : list string :=
  match l with
  | [] => [String.string_of_list_ascii (rev acc)]
  | a :: l =>
      match n with
      | O => [String.string_of_list_ascii (rev acc ++ a :: l)]
      | S n' => if Ascii.eqb a c
                then String.string_of_list_ascii (rev acc) :: split_max c n' l []
                else split_max c n l (a :: acc)
      end
  end.

Definition split_fields (n : nat) (s : string) : list string :=
  split_max " " n (String.list_ascii_of_string s) [].

(** [s.partition(" ")]: the separator is present or not. *)
Fixpoint partition_space (l acc : list ascii) : string * bool * string :=
  match l with
  | [] => (String.string_of_list_ascii (rev acc), false, "")
  | a :: l => if Ascii.eqb a " "
              then (String.string_of_list_ascii (rev acc), true, String.string_of_list_ascii l)
              else partition_space l (a :: acc)
  end.

(** ** Branch names and revisions *)

(** [_REF_COMPONENT]: [^[A-Za-z0-9][A-Za-z0-9._-]*$] *)
Definition _REF_COMPONENT (s : string) : bool :=
  match s with
  | EmptyString => false
  | String c s => is_alnum c && forallb (in_class "._-" is_alnum) (String.list_ascii_of_string s)
  end.

Definition is_any_hex (c : ascii) : bool := is_digit c || byte_in 97 102 c || byte_in 65 70 c.
Definition _FULL_COMMIT (s : string) : bool :=
  matches [Cls is_any_hex 40 40] s || matches [Cls is_any_hex 64 64] s.
Definition _SHORT_COMMIT (s : string) : bool := matches [Cls is_any_hex 7 39] s.

Definition _FORBIDDEN_BRANCH_PARTS : list string := ["."; ".."; "@"].

Definition is_control (c : ascii) : bool := byte_in 0 31 c || byte_in 127 127 c.

Definition unsafe_spelling (branch : string) : bool :=
  String.eqb branch "" || (255 <? py_len branch)
  || starts_with "-" branch || starts_with "/" branch
  || ends_with "/" branch || ends_with "." branch || ends_with ".lock" branch
  || contains_text "//" branch || contains_text ".." branch || contains_text "@{" branch
  || contains_text "\" branch || existsb is_control (String.list_ascii_of_string branch).

Definition bad_component (component : string) : bool :=
  bool_decide (component ∈ _FORBIDDEN_BRANCH_PARTS) || negb (_REF_COMPONENT component).

Definition unsafe_branch : exn := InvalidGitReferenceError "branch name is not a safe literal reference".

Definition validate_branch_name (branch required_namespace : string) : res string :=
  raise_if (unsafe_spelling branch) unsafe_branch ;;
  raise_if (existsb bad_component (split_slash branch)) unsafe_branch ;;
  raise_if (negb (String.eqb required_namespace "") && negb (starts_with required_namespace branch))
    (InvalidGitReferenceError "branch is outside the Revanent-owned namespace") ;;
  mret branch.

Definition validate_revision (revision : string) : res string :=
  raise_if (String.eqb revision "" || (1024 <? py_len revision))
    (InvalidGitReferenceError "base revision is invalid") ;;
  if String.eqb revision "HEAD" || _FULL_COMMIT revision || _SHORT_COMMIT revision then mret revision
  else if starts_with "refs/heads/" revision then
    validate_branch_name (remove_prefix "refs/heads/" revision) "" ;; mret revision
  else if starts_with "refs/tags/" revision then
    validate_branch_name (remove_prefix "refs/tags/" revision) "" ;; mret revision
  else
    Err (InvalidGitReferenceError "base revision must be HEAD, a commit ID, or a full local ref").

(** ** Protected branches *)

(** [fnmatch.fnmatchcase] for the patterns that [ProtectedBranchPolicy] accepts:
    literal text and [*]. *)
Fixpoint glob (pattern : list ascii) : list ascii -> bool :=
  match pattern with
  | [] => fun s => bool_decide (s = [])
  | p :: pattern =>
      if Ascii.eqb p "*" then
        fix star s := glob pattern s || match s with [] => false | _ :: s => star s end
      else
        fun s => match s with [] => false | c :: s => Ascii.eqb p c && glob pattern s end
  end.

Definition fnmatchcase (name pattern : string) : bool :=
  glob (String.list_ascii_of_string pattern) (String.list_ascii_of_string name).

Record ProtectedBranchPolicy := mk_ProtectedBranchPolicy {
  exact_names : list string;
  namespace_patterns : list string;
  owned_namespace : string
}.

(** The defaults of the class. *)
Definition default_branch_policy : ProtectedBranchPolicy :=
  mk_ProtectedBranchPolicy ["main"; "master"] ["release/*"; "protected/*"] "revanent/".

Definition is_protected (p : ProtectedBranchPolicy) (branch : string) (default_branch : option string)
    : bool :=
  bool_decide (branch ∈ exact_names p) || bool_decide (Some branch = default_branch)
  || existsb (fnmatchcase branch) (namespace_patterns p).

Definition bad_pattern (pattern : string) : bool :=
  String.eqb pattern "" || starts_with "-" pattern || starts_with "/" pattern
  || contains_text "\" pattern || contains_text ".." pattern || contains_text "@{" pattern
  || contains_text "[" pattern || contains_text "]" pattern || contains_text "?" pattern.

Definition validate_ProtectedBranchPolicy (p : ProtectedBranchPolicy) : res ProtectedBranchPolicy :=
  raise_if (String.eqb (owned_namespace p) "" || negb (ends_with "/" (owned_namespace p)))
    (ValueError "owned branch namespace must be a non-empty prefix ending in '/'") ;;
  traverse (fun name => validate_branch_name name "") (exact_names p) ;;
  raise_if (existsb bad_pattern (namespace_patterns p))
    (ValueError "protected branch patterns may use only literal text and '*'") ;;
  raise_if (is_protected p (owned_namespace p +:+ "probe") None)
    (ValueError "owned branch namespace cannot overlap protected-branch rules") ;;
  mret p.

Definition require_mutable_owned_branch (p : ProtectedBranchPolicy) (branch : string)
    (default_branch : option string) : res string :=
  raise_if (is_protected p branch default_branch)
    (ProtectedBranchError "protected branches cannot be used for task mutation") ;;
  validate_branch_name branch (owned_namespace p).

(** ** The status parser *)

(** U+FFFD as UTF-8, what undecodable bytes were replaced with. *)
Definition replacement_character : string :=
  String.string_of_list_ascii (bytes [239; 191; 189]%N).

Definition chomp (s : string) : string := String.substring 0 (String.length s - 1) s.

Definition _records (text label : string) : res (list string) :=
  raise_if (contains_text replacement_character text)
    (MalformedGitOutputError (label +:+ " contains undecodable path data")) ;;
  raise_if (negb (ends_with (String nul "") text))
    (MalformedGitOutputError (label +:+ " is incomplete")) ;;
  mret (split_char nul (chomp text)).

Record ParsedStatus := mk_ParsedStatus {
  ps_branch : option string;
  ps_detached : bool;
  ps_head_commit : string;
  ps_upstream : option string;
  ps_status : RepositoryStatus
}.

(** The local variables of [parse_status_porcelain_v2]; a set is the list of
    what was added to it. *)
Record StatusState := mk_StatusState {
  staged : list string;
  unstaged : list string;
  untracked : list string;
  conflicted : list string;
  ignored : list string;
  st_branch : option string;
  st_detached : bool;
  st_head_commit : option string;
  st_upstream : option string
}.

Definition no_status : StatusState := mk_StatusState [] [] [] [] [] None false None None.

Definition malformed {A} (message : string) : res A := Err (MalformedGitOutputError message).

(** [xy[0] == "."] and [xy[1] == "."] for a string of two characters. *)
Definition _record_xy (xy path : string) (st : StatusState) : res StatusState :=
  raise_if (negb (py_len xy =? 2) || String.eqb path "")
    (MalformedGitOutputError "Git status change record is malformed") ;;
  mret (mk_StatusState
    (staged st ++ (if starts_with "." xy then [] else [path]))
    (unstaged st ++ (if ends_with "." xy then [] else [path]))
    (untracked st) (conflicted st) (ignored st) (st_branch st) (st_detached st) (st_head_commit st)
    (st_upstream st)).

Definition add_untracked (path : string) (st : StatusState) : StatusState :=
  mk_StatusState (staged st) (unstaged st) (untracked st ++ [path]) (conflicted st) (ignored st)
    (st_branch st) (st_detached st) (st_head_commit st) (st_upstream st).
Definition add_conflicted (path : string) (st : StatusState) : StatusState :=
  mk_StatusState (staged st) (unstaged st) (untracked st) (conflicted st ++ [path]) (ignored st)
    (st_branch st) (st_detached st) (st_head_commit st) (st_upstream st).
Definition add_ignored (path : string) (st : StatusState) : StatusState :=
  mk_StatusState (staged st) (unstaged st) (untracked st) (conflicted st) (ignored st ++ [path])
    (st_branch st) (st_detached st) (st_head_commit st) (st_upstream st).
Definition set_branch (branch : option string) (detached : bool) (st : StatusState) : StatusState :=
  mk_StatusState (staged st) (unstaged st) (untracked st) (conflicted st) (ignored st)
    branch detached (st_head_commit st) (st_upstream st).
Definition set_head (head : string) (st : StatusState) : StatusState :=
  mk_StatusState (staged st) (unstaged st) (untracked st) (conflicted st) (ignored st)
    (st_branch st) (st_detached st) (Some head) (st_upstream st).
Definition set_upstream (upstream : option string) (st : StatusState) : StatusState :=
  mk_StatusState (staged st) (unstaged st) (untracked st) (conflicted st) (ignored st)
    (st_branch st) (st_detached st) (st_head_commit st) upstream.

(** [fields[n]] of a record split into a checked number of fields. *)
Definition field (n : nat) (fields : list string) : string := default "" (fields !! n).

(** A record of a kind other than a rename. *)
Definition status_record (record : string) (st : StatusState) : res StatusState :=
  if starts_with "# branch.oid " record then
    let value := remove_prefix "# branch.oid " record in
    if String.eqb value "(initial)" then malformed "unborn repositories are not supported"
    else mret (set_head value st)
  else if starts_with "# branch.head " record then
    let value := remove_prefix "# branch.head " record in
    if String.eqb value "(detached)" then mret (set_branch None true st)
    else if String.eqb value "" || starts_with "(" value
    then malformed "Git status reported an unsupported HEAD state"
    else mret (set_branch (Some value) (st_detached st) st)
  else if starts_with "# branch.upstream " record then
    let value := remove_prefix "# branch.upstream " record in
    mret (set_upstream (if String.eqb value "" then None else Some value) st)
  else if starts_with "# " record then mret st
  else if starts_with "1 " record then
    let fields := split_fields 8 record in
    if negb (length fields =? 9)%nat then malformed "ordinary Git status record is malformed"
    else _record_xy (field 1 fields) (field 8 fields) st
  else if starts_with "u " record then
    let fields := split_fields 10 record in
    if negb (length fields =? 11)%nat || String.eqb (field 10 fields) ""
    then malformed "unmerged Git status record is malformed"
    else mret (add_conflicted (field 10 fields) st)
  else if starts_with "? " record then
    let path := remove_prefix "? " record in
    if String.eqb path "" then malformed "untracked Git status path is empty"
    else mret (add_untracked path st)
  else if starts_with "! " record then
    let path := remove_prefix "! " record in
    if String.eqb path "" then malformed "ignored Git status path is empty"
    else mret (add_ignored path st)
  else malformed "Git status output contains an unknown record type".

(** The loop over the records; a rename takes the next record as its source. *)
Fixpoint status_loop (records : list string) (st : StatusState) : res StatusState :=
  match records with
  | [] => mret st
  | record :: records =>
      if String.eqb record "" then malformed "Git status output contains an empty record"
      else if starts_with "2 " record then
        let fields := split_fields 9 record in
        if negb (length fields =? 10)%nat then malformed "renamed Git status record is malformed"
        else
          match records with
          | [] => malformed "renamed Git status record is malformed"
          | original_path :: records =>
              if String.eqb original_path "" then malformed "renamed Git status record lacks its source path"
              else
                st ← _record_xy (field 1 fields) (field 9 fields) st ;
                status_loop records st
          end
      else
        st ← status_record record st ;
        status_loop records st
  end.

Definition status_of (st : StatusState) : RepositoryStatus :=
  mk_RepositoryStatus (sorted_set (staged st)) (sorted_set (unstaged st)) (sorted_set (untracked st))
    (sorted_set (conflicted st)) (sorted_set (ignored st)) false false false false false false 1.

Definition parse_status_porcelain_v2 (text : string) : res ParsedStatus :=
  records ← _records text "Git status output" ;
  st ← status_loop records no_status ;
  match st_head_commit st with
  | None => malformed "Git status output lacks a consistent branch header"
  | Some head =>
      if Bool.eqb (is_none (st_branch st)) (negb (st_detached st))
      then malformed "Git status output lacks a consistent branch header"
      else
        status ← validate_RepositoryStatus (status_of st) ;
        mret (mk_ParsedStatus (st_branch st) (st_detached st) head (st_upstream st) status)
  end.

(** ** The worktree parser *)

(** A value of the dictionary that collects the fields of an entry. *)
Inductive wt_value : Type := Text (s : string) | Flag.

Definition wt_text (key : string) (values : gmap string wt_value) : option string :=
  match values !! key with Some (Text s) => Some s | _ => None end.

Definition wt_flag (key : string) (values : gmap string wt_value) : bool :=
  match values !! key with
  | Some Flag => true
  | Some (Text s) => negb (String.eqb s "")
  | None => false
  end.

Definition malformed_entry : string -> exn := MalformedGitOutputError.

(** One field of an entry that is open. *)
Definition worktree_field (key : string) (separator : bool) (value : string)
    (current : gmap string wt_value) : res (gmap string wt_value) :=
  raise_if (is_some (current !! key)) (malformed_entry "Git worktree entry repeats a field") ;;
  if bool_decide (key ∈ ["bare"; "detached"]) then
    raise_if separator (malformed_entry "Git worktree boolean field is malformed") ;;
    mret (<[key := Flag]> current)
  else if bool_decide (key ∈ ["HEAD"; "branch"]) then
    raise_if (negb separator || String.eqb value "")
      (malformed_entry "Git worktree required field is malformed") ;;
    mret (<[key := Text value]> current)
  else if bool_decide (key ∈ ["locked"; "prunable"]) then
    mret (<[key := Text (if separator && negb (String.eqb value "") then value
                         else "registered without a reason")]> current)
  else Err (malformed_entry "Git worktree output contains an unknown field").

Section Worktrees.
(** [path.resolve(strict=False)] *)
Context {W : Type} (resolve_path : Path -> M W Path).

Definition _finish_worktree (values : gmap string wt_value) : M W WorktreeSnapshot :=
  match wt_text "path" values, wt_text "HEAD" values with
  | Some raw_path, Some raw_head =>
      path ← try_except (resolve_path (path_of raw_path)) is_os_error
               (fun _ => raise (malformed_entry "Git worktree path cannot be resolved")) ;
      let raw_branch := wt_text "branch" values in
      let detached := wt_flag "detached" values in
      let bare := wt_flag "bare" values in
      lift (
        raise_if (match raw_branch with Some b => negb (starts_with "refs/heads/" b) | None => false end)
          (malformed_entry "Git worktree branch is not a local head") ;;
        let branch := remove_prefix "refs/heads/" <$> raw_branch in
        raise_if bare (malformed_entry "bare worktree entries are unsupported") ;;
        raise_if (Bool.eqb detached (is_some branch))
          (malformed_entry "Git worktree branch state is inconsistent") ;;
        validate_WorktreeSnapshot
          (mk_WorktreeSnapshot path raw_head branch detached bare (wt_text "locked" values)
             (wt_text "prunable" values) 1))
  | _, _ => raise (malformed_entry "Git worktree entry lacks path or HEAD")
  end.

(** The loop over the records, with the open entry and what was finished. *)
Fixpoint worktree_loop (records : list string) (current : option (gmap string wt_value))
    (worktrees : list WorktreeSnapshot) : M W (list WorktreeSnapshot) :=
  match records with
  | [] =>
      match current with
      | Some values => w ← _finish_worktree values ; mret (worktrees ++ [w])
      | None => mret worktrees
      end
  | record :: records =>
      if String.eqb record "" then
        match current with
        | Some values => w ← _finish_worktree values ; worktree_loop records None (worktrees ++ [w])
        | None => worktree_loop records None worktrees
        end
      else
        let '(key, separator, value) := partition_space (String.list_ascii_of_string record) [] in
        if String.eqb key "worktree" then
          if negb separator || String.eqb value "" || is_some current
          then raise (malformed_entry "Git worktree entry boundary is malformed")
          else worktree_loop records (Some {[ "path" := Text value ]}) worktrees
        else
          match current with
          | None => raise (malformed_entry "Git worktree field appears outside an entry")
          | Some values =>
              values ← lift (worktree_field key separator value values) ;
              worktree_loop records (Some values) worktrees
          end
  end.

Definition parse_worktree_porcelain (text : string) : M W (list WorktreeSnapshot) :=
  records ← lift (_records text "Git worktree output") ;
  worktrees ← worktree_loop records None [] ;
  lift (
    raise_if (bool_decide (worktrees = []))
      (malformed_entry "Git worktree output contains no entries") ;;
    raise_if (has_duplicates (wts_path <$> worktrees))
      (malformed_entry "Git worktree output repeats a canonical path") ;;
    mret (py_sorted (fun a b => str_le (path_str (wts_path a)) (path_str (wts_path b))) worktrees)).
End Worktrees.
