(* ===== verification/GitPorcelain.v ===== *)
(** * What the Git policies and parsers guarantee

    A reference printer of Git's porcelain status format, the round trip through
    the parser for arbitrary paths, and the shape of the branch names that may
    be mutated. *)

From Stdlib Require Import ZArith Lia Ascii String.
From S2P Require Import Prelude Text Domain Effects GitPort GitPolicy.
From stdpp Require Import base option strings numbers gmap sets list list_relations.

Open Scope Z_scope.

Abbreviation chars := String.list_ascii_of_string.

(** ** Splitting what was joined *)

Definition free_of (c : ascii) (s : string) : Prop := c ∉ chars s.

Lemma append_cons a s t : String a s +:+ t = String a (s +:+ t).
Proof. reflexivity. Qed.

Lemma append_nil s : s +:+ "" = s.
Proof. induction s as [|a s IH]; [done|]. by rewrite append_cons, IH. Qed.

Lemma string_of_snoc l a s :
  String.string_of_list_ascii (l ++ [a]) +:+ s = String.string_of_list_ascii l +:+ String a s.
Proof.
  induction l as [|b l IH]; cbn [app String.string_of_list_ascii]; [done|]. by rewrite !append_cons, IH.
Qed.

Lemma split_on_field c s rest acc :
  free_of c s ->
  split_on c (chars s ++ c :: rest) acc
  = (String.string_of_list_ascii (rev acc) +:+ s) :: split_on c rest [].
Proof.
  unfold free_of. revert acc. induction s as [|a s IH]; intros acc Hs; cbn.
  - rewrite Ascii.eqb_refl. f_equal. by rewrite append_nil.
  - cbn in Hs. apply not_elem_of_cons in Hs as [Ha Hs].
    destruct (Ascii.eqb_spec a c) as [->|Hne]; [done|]. rewrite IH by done. f_equal.
    cbn [rev]. by rewrite string_of_snoc.
Qed.

Lemma split_on_last c s acc :
  free_of c s -> split_on c (chars s) acc = [String.string_of_list_ascii (rev acc) +:+ s].
Proof.
  unfold free_of. revert acc. induction s as [|a s IH]; intros acc Hs; cbn.
  - by rewrite append_nil.
  - cbn in Hs. apply not_elem_of_cons in Hs as [Ha Hs].
    destruct (Ascii.eqb_spec a c) as [->|Hne]; [done|]. rewrite IH by done. f_equal.
    cbn [rev]. by rewrite string_of_snoc.
Qed.

(** Each record followed by a NUL. *)
Definition nul_terminated (records : list string) : string :=
  foldr (fun r text => r +:+ String nul text) "" records.

Lemma substring_all s : String.substring 0 (String.length s) s = s.
Proof. induction s as [|a s IH]; cbn; [done|]. by rewrite IH. Qed.

Lemma length_append s t : String.length (s +:+ t) = (String.length s + String.length t)%nat.
Proof. induction s as [|a s IH]; [done|]. rewrite append_cons. cbn. by rewrite IH. Qed.

Lemma substring_append s t n :
  n = String.length s -> String.substring 0 n (s +:+ t) = s.
Proof.
  intros ->. induction s as [|a s IH]; [by destruct t|]. rewrite append_cons. cbn. by rewrite IH.
Qed.

Lemma substring_tail s t : String.substring (String.length s) (String.length t) (s +:+ t) = t.
Proof. induction s as [|a s IH]; [apply substring_all|]. rewrite append_cons. cbn. exact IH. Qed.

Lemma append_assoc a b c : (a +:+ b) +:+ c = a +:+ b +:+ c.
Proof. induction a as [|x a IH]; [done|]. by rewrite !append_cons, IH. Qed.

(** The records before the last one end where the text is cut. *)
Lemma nul_terminated_snoc r records :
  exists s, nul_terminated (r :: records) = s +:+ String nul ""
    /\ (Forall (free_of nul) (r :: records) -> forall acc,
         split_on nul (chars s) acc
         = (String.string_of_list_ascii (rev acc) +:+ r) :: records).
Proof.
  revert r. induction records as [|q records IH]; intros r.
  - exists r. split; [done|]. intros Hr acc. apply split_on_last. by inversion Hr.
  - destruct (IH q) as (s & Hs & Hsplit). exists (r +:+ String nul s). split.
    + cbn [nul_terminated foldr] in *. rewrite Hs, append_assoc. by rewrite append_cons.
    + intros Hr acc. inversion Hr as [|? ? Hr1 Hr2]; subst.
      rewrite list_ascii_app. cbn [chars]. rewrite split_on_field by done. f_equal. by apply (Hsplit Hr2 []).
Qed.

Lemma records_nul_terminated records label :
  records <> [] -> Forall (free_of nul) records ->
  contains_text replacement_character (nul_terminated records) = false ->
  _records (nul_terminated records) label = Ok records.
Proof.
  intros Hne Hfree Hdec. unfold _records. rewrite Hdec. destruct records as [|r records]; [done|].
  destruct (nul_terminated_snoc r records) as (s & -> & Hsplit).
  cbn [raise_if mbind result_bind].
  assert (He : ends_with (String nul "") (s +:+ String nul "") = true).
  { unfold ends_with. rewrite length_append. cbn [String.length].
    replace (String.length s + 1 - 1)%nat with (String.length s) by lia.
    assert (1 <=? String.length s + 1 = true)%nat as -> by (apply Nat.leb_le; lia).
    apply String.eqb_eq. exact (substring_tail s (String nul "")). }
  rewrite He. cbn [negb raise_if mbind result_bind]. unfold chomp, split_char.
  rewrite length_append. cbn [String.length]. rewrite substring_append by lia.
  unfold mret, result_ret. f_equal. by apply (Hsplit Hfree []).
Qed.

Lemma split_max_field c n s rest acc :
  free_of c s ->
  split_max c (S n) (chars s ++ c :: rest) acc
  = (String.string_of_list_ascii (rev acc) +:+ s) :: split_max c n rest [].
Proof.
  unfold free_of. revert acc. induction s as [|a s IH]; intros acc Hs; cbn.
  - rewrite Ascii.eqb_refl. f_equal. by rewrite append_nil.
  - cbn in Hs. apply not_elem_of_cons in Hs as [Ha Hs].
    destruct (Ascii.eqb_spec a c) as [->|Hne]; [done|]. specialize (IH (a :: acc) Hs). cbn in IH.
    rewrite IH. f_equal. cbn [rev]. by rewrite string_of_snoc.
Qed.

Lemma split_max_last c s : split_max c 0 (chars s) [] = [s].
Proof. destruct s as [|a s]; cbn; [done|]. by rewrite String.string_of_list_ascii_of_string. Qed.

(** Fields separated by spaces; the last one may hold spaces. *)
Definition spaced (fields : list string) (last : string) : string :=
  foldr (fun f text => f +:+ String " " text) last fields.

Lemma split_spaced fields last :
  Forall (free_of " ") fields -> split_fields (length fields) (spaced fields last) = fields ++ [last].
Proof.
  unfold split_fields. induction 1 as [|f fields Hf _ IH]; cbn [spaced foldr length].
  - apply split_max_last.
  - rewrite list_ascii_app. cbn [chars]. rewrite split_max_field by done. cbn [rev].
    change (String.string_of_list_ascii [] +:+ f) with f. cbn [app]. f_equal. exact IH.
Qed.

(** ** The reference printer *)

(** The changes that [git status --porcelain=v2 -z] reports.  [fields] are the
    submodule state, the modes, the object names and, of a rename, the score. *)
Inductive change : Type :=
| Ordinary (x y : ascii) (fields : list string) (path : string)
| Renamed (x y : ascii) (fields : list string) (path original : string)
| Unmerged (fields : list string) (path : string)
| Untracked (path : string)
| Ignored (path : string).

Definition xy (x y : ascii) : string := String x (String y "").

Definition change_records (c : change) : list string :=
  match c with
  | Ordinary x y fields path => [spaced ("1" :: xy x y :: fields) path]
  | Renamed x y fields path original => [spaced ("2" :: xy x y :: fields) path; original]
  | Unmerged fields path => [spaced ("u" :: fields) path]
  | Untracked path => ["? " +:+ path]
  | Ignored path => ["! " +:+ path]
  end.

(** The headers of a report: the object name, the branch unless the head is detached, the
    branch it tracks with the commits ahead of it and behind it when that branch exists,
    and the other headers, such as [stash]. *)
Record headers := mk_headers {
  h_head : string;
  h_branch : option string;
  h_tracking : option (string * option (string * string));
  h_others : list string
}.

Definition branch_records (h : headers) : list string :=
  ["# branch.oid " +:+ h_head h; "# branch.head " +:+ default "(detached)" (h_branch h)].

Definition tracking_records (h : headers) : list string :=
  match h_tracking h with
  | None => []
  | Some (upstream, counts) =>
      ("# branch.upstream " +:+ upstream)
      :: match counts with
         | Some (ahead, behind) => ["# branch.ab +" +:+ ahead +:+ " -" +:+ behind]
         | None => []
         end
  end.

Definition other_records (h : headers) : list string := (fun text => "# " +:+ text) <$> h_others h.

Definition header_records (h : headers) : list string := branch_records h ++ tracking_records h ++ other_records h.

Definition print_status (h : headers) (changes : list change) : string :=
  nul_terminated (header_records h ++ mjoin (change_records <$> changes)).

(** What Git guarantees of a report: fields without separators, paths that are
    not empty, and no NUL anywhere. *)
Definition path_wf (path : string) : Prop := path <> "" /\ free_of nul path.
Definition field_wf (f : string) : Prop := free_of " " f /\ free_of nul f.
Definition code_wf (x : ascii) : Prop := is_continuation x = false /\ x <> " "%char /\ x <> nul.

Definition change_wf (c : change) : Prop :=
  match c with
  | Ordinary x y fields path =>
      code_wf x /\ code_wf y /\ length fields = 6%nat /\ Forall field_wf fields /\ path_wf path
  | Renamed x y fields path original =>
      code_wf x /\ code_wf y /\ length fields = 7%nat /\ Forall field_wf fields /\ path_wf path
      /\ path_wf original
  | Unmerged fields path => length fields = 9%nat /\ Forall field_wf fields /\ path_wf path
  | Untracked path | Ignored path => path_wf path
  end.

(** A header that is none of the branch headers the parser reads. *)
Definition other_wf (text : string) : Prop :=
  starts_with "branch.oid " text = false /\ starts_with "branch.head " text = false
  /\ starts_with "branch.upstream " text = false /\ free_of nul text.

Definition tracking_wf (t : string * option (string * string)) : Prop :=
  t.1 <> "" /\ free_of nul t.1
  /\ match t.2 with Some (ahead, behind) => free_of nul ahead /\ free_of nul behind | None => True end.

Record header_wf (h : headers) : Prop := {
  hw_head : h_head h <> "(initial)" /\ free_of nul (h_head h);
  hw_branch : match h_branch h with Some b => b <> "" /\ starts_with "(" b = false /\ free_of nul b | None => True end;
  hw_tracking : match h_tracking h with Some t => tracking_wf t | None => True end;
  hw_others : Forall other_wf (h_others h)
}.

(** What a report says of the five sets of paths. *)
Definition staged_by (c : change) : list string :=
  match c with
  | Ordinary x _ _ path | Renamed x _ _ path _ => if Ascii.eqb x "." then [] else [path]
  | _ => []
  end.
Definition unstaged_by (c : change) : list string :=
  match c with
  | Ordinary _ y _ path | Renamed _ y _ path _ => if Ascii.eqb y "." then [] else [path]
  | _ => []
  end.
Definition untracked_by (c : change) : list string := match c with Untracked path => [path] | _ => [] end.
Definition conflicted_by (c : change) : list string := match c with Unmerged _ path => [path] | _ => [] end.
Definition ignored_by (c : change) : list string := match c with Ignored path => [path] | _ => [] end.

Definition reported (f : change -> list string) (changes : list change) : list string :=
  sorted_set (mjoin (f <$> changes)).

Definition after_change (c : change) (st : StatusState) : StatusState :=
  mk_StatusState (staged st ++ staged_by c) (unstaged st ++ unstaged_by c)
    (untracked st ++ untracked_by c) (conflicted st ++ conflicted_by c) (ignored st ++ ignored_by c)
    (st_branch st) (st_detached st) (st_head_commit st) (st_upstream st).

Lemma code_starts x y : starts_with "." (xy x y) = Ascii.eqb x ".".
Proof.
  unfold starts_with, xy. cbn [String.prefix].
  destruct (Ascii.eqb_spec x "."), (ascii_dec "." x); congruence.
Qed.

Lemma code_ends x y : ends_with "." (xy x y) = Ascii.eqb y ".".
Proof. unfold ends_with, xy. cbn. by destruct (Ascii.eqb y "."). Qed.

Lemma record_code x y path st :
  code_wf x -> code_wf y -> path <> "" ->
  _record_xy (xy x y) path st
  = Ok (mk_StatusState (staged st ++ (if Ascii.eqb x "." then [] else [path]))
          (unstaged st ++ (if Ascii.eqb y "." then [] else [path])) (untracked st) (conflicted st)
          (ignored st) (st_branch st) (st_detached st) (st_head_commit st) (st_upstream st)).
Proof.
  intros (Hx & _) (Hy & _) Hp. unfold _record_xy.
  assert (py_len (xy x y) = 2) as -> by (unfold xy; cbn [py_len]; by rewrite Hx, Hy).
  apply String.eqb_neq in Hp. rewrite Hp, code_starts, code_ends. reflexivity.
Qed.

Lemma starts_with_cons a p b s : starts_with (String a p) (String b s) = Ascii.eqb a b && starts_with p s.
Proof.
  unfold starts_with. cbn [String.prefix].
  destruct (ascii_dec a b) as [->|Hne]; [by rewrite Ascii.eqb_refl|].
  by apply Ascii.eqb_neq in Hne as ->.
Qed.

Lemma starts_with_app p s : starts_with p (p +:+ s) = true.
Proof.
  induction p as [|a p IH]; [by destruct s|]. rewrite append_cons, starts_with_cons, Ascii.eqb_refl. exact IH.
Qed.

Lemma remove_prefix_app p s : remove_prefix p (p +:+ s) = s.
Proof.
  unfold remove_prefix. pose proof (starts_with_app p s) as H. unfold starts_with in H. rewrite H, length_append.
  replace (String.length p + String.length s - String.length p)%nat with (String.length s) by lia.
  apply substring_tail.
Qed.

Lemma xy_field x y : code_wf x -> code_wf y -> free_of " " (xy x y) /\ free_of nul (xy x y).
Proof.
  intros (_ & Hx & Hx0) (_ & Hy & Hy0). unfold free_of, xy. cbn.
  split; (apply not_elem_of_cons; split; [done|]); (apply not_elem_of_cons; split; [done|]); apply not_elem_of_nil.
Qed.

Lemma fields_free c fields :
  Forall field_wf fields -> free_of " " c -> Forall (free_of " ") (c :: fields).
Proof. intros Hf Hc. constructor; [done|]. eapply Forall_impl; [exact Hf|]. by intros f []. Qed.

Lemma literal_free (c : ascii) s : bool_decide (c ∉ chars s) = true -> free_of c s.
Proof. apply bool_decide_eq_true. Qed.

(** The literal tests of a record whose first characters are known. *)
Ltac decide_record := repeat (rewrite starts_with_cons; cbn [Ascii.eqb Bool.eqb andb]).

Lemma starts_with_nil s : starts_with "" s = true.
Proof. by destruct s. Qed.

(** The last of the fields of a record. *)
Lemma field_last fields last n : length fields = n -> field n (fields ++ [last]) = last.
Proof. intros <-. unfold field. by rewrite list_lookup_middle. Qed.

Ltac same_state :=
  cbn [mbind result_bind]; unfold after_change, add_untracked, add_conflicted, add_ignored;
  cbn [staged_by unstaged_by untracked_by conflicted_by ignored_by]; by rewrite ?app_nil_r.

Lemma status_change c rest st :
  change_wf c -> status_loop (change_records c ++ rest) st = status_loop rest (after_change c st).
Proof.
  destruct c as [x y fields path|x y fields path original|fields path|path|path];
    cbn [change_wf change_records app].
  - intros (Hx & Hy & Hlen & Hf & Hp & _). destruct (xy_field x y Hx Hy) as [Hxy _].
    assert (Hs : split_fields 8 (spaced ("1" :: xy x y :: fields) path) = ("1" :: xy x y :: fields) ++ [path]).
    { rewrite <- split_spaced; [cbn [length]; by rewrite Hlen|].
      constructor; [by apply literal_free|]. by apply fields_free. }
    cbn [status_loop]. unfold status_record.
    rewrite Hs, (field_last _ path 8), length_app by (cbn [length]; lia). cbn [length]. rewrite Hlen.
    change (spaced ("1" :: xy x y :: fields) path) with (String "1" (String " " (spaced (xy x y :: fields) path))).
    decide_record. rewrite starts_with_nil. cbn [String.eqb Nat.add Nat.eqb negb].
    change (field 1 _) with (xy x y). rewrite record_code by done. same_state.
  - intros (Hx & Hy & Hlen & Hf & [Hp _] & [Ho _]). destruct (xy_field x y Hx Hy) as [Hxy _].
    assert (Hs : split_fields 9 (spaced ("2" :: xy x y :: fields) path) = ("2" :: xy x y :: fields) ++ [path]).
    { rewrite <- split_spaced; [cbn [length]; by rewrite Hlen|].
      constructor; [by apply literal_free|]. by apply fields_free. }
    cbn [status_loop]. rewrite Hs, (field_last _ path 9), length_app by (cbn [length]; lia). cbn [length]. rewrite Hlen.
    change (spaced ("2" :: xy x y :: fields) path) with (String "2" (String " " (spaced (xy x y :: fields) path))).
    decide_record. rewrite starts_with_nil. cbn [String.eqb Nat.add Nat.eqb negb].
    change (field 1 _) with (xy x y). apply String.eqb_neq in Ho. rewrite Ho. rewrite record_code by done. same_state.
  - intros (Hlen & Hf & Hp & _).
    assert (Hs : split_fields 10 (spaced ("u" :: fields) path) = ("u" :: fields) ++ [path]).
    { rewrite <- split_spaced; [cbn [length]; by rewrite Hlen|]. apply fields_free; [done|]. by apply literal_free. }
    cbn [status_loop]. unfold status_record.
    rewrite Hs, (field_last _ path 10), length_app by (cbn [length]; lia). cbn [length]. rewrite Hlen.
    change (spaced ("u" :: fields) path) with (String "u" (String " " (spaced fields path))).
    decide_record. rewrite starts_with_nil. cbn [String.eqb Nat.add Nat.eqb negb].
    apply String.eqb_neq in Hp. rewrite Hp. cbn [orb]. same_state.
  - intros [Hp _]. cbn [status_loop]. unfold status_record. rewrite remove_prefix_app. rewrite !append_cons.
    decide_record. rewrite starts_with_nil. cbn [String.eqb]. apply String.eqb_neq in Hp. rewrite Hp. same_state.
  - intros [Hp _]. cbn [status_loop]. unfold status_record. rewrite remove_prefix_app. rewrite !append_cons.
    decide_record. rewrite starts_with_nil. cbn [String.eqb]. apply String.eqb_neq in Hp. rewrite Hp. same_state.
Qed.

(** ** The round trip *)

Lemma free_of_app c s t : free_of c s -> free_of c t -> free_of c (s +:+ t).
Proof. unfold free_of. rewrite list_ascii_app, not_elem_of_app. done. Qed.

Lemma free_of_cons c a s : c <> a -> free_of c s -> free_of c (String a s).
Proof. unfold free_of. cbn. rewrite not_elem_of_cons. done. Qed.

Lemma free_of_spaced c fields last :
  c <> " "%char -> Forall (free_of c) fields -> free_of c last -> free_of c (spaced fields last).
Proof.
  intros Hc Hf Hl. induction Hf as [|f fields Hf _ IH]; [done|]. cbn [spaced foldr].
  apply free_of_app; [done|]. by apply free_of_cons.
Qed.

Lemma fields_nul_free fields : Forall field_wf fields -> Forall (free_of nul) fields.
Proof. intros Hf. eapply Forall_impl; [exact Hf|]. by intros f []. Qed.

Lemma change_records_free c : change_wf c -> Forall (free_of nul) (change_records c).
Proof.
  assert (Hone : forall s, bool_decide (nul ∉ chars s) = true -> free_of nul s) by (intros s; apply literal_free).
  destruct c; cbn [change_wf change_records].
  - intros (Hx & Hy & _ & Hf & _ & Hp). constructor; [|done]. apply free_of_spaced; [done| |done].
    constructor; [by apply Hone|]. constructor; [by apply xy_field | by apply fields_nul_free].
  - intros (Hx & Hy & _ & Hf & [_ Hp] & [_ Ho]). repeat constructor; [|done].
    apply free_of_spaced; [done| |done].
    constructor; [by apply Hone|]. constructor; [by apply xy_field | by apply fields_nul_free].
  - intros (_ & Hf & _ & Hp). constructor; [|done]. apply free_of_spaced; [done| |done].
    constructor; [by apply Hone | by apply fields_nul_free].
  - intros [_ Hp]. constructor; [|done]. apply free_of_app; [by apply Hone | done].
  - intros [_ Hp]. constructor; [|done]. apply free_of_app; [by apply Hone | done].
Qed.

Definition after_changes (changes : list change) (st : StatusState) : StatusState :=
  foldl (fun st c => after_change c st) st changes.

Lemma status_changes changes st :
  Forall change_wf changes ->
  status_loop (mjoin (change_records <$> changes)) st = Ok (after_changes changes st).
Proof.
  intros Hc. revert st. induction Hc as [|c changes Hc _ IH]; intros st; [done|].
  rewrite fmap_cons. cbn [mjoin list_join after_changes foldl]. rewrite status_change by done. apply IH.
Qed.

(** The sets after a report, and the headers before it. *)
Lemma after_changes_sets changes st :
  after_changes changes st
  = mk_StatusState (staged st ++ mjoin (staged_by <$> changes)) (unstaged st ++ mjoin (unstaged_by <$> changes))
      (untracked st ++ mjoin (untracked_by <$> changes)) (conflicted st ++ mjoin (conflicted_by <$> changes))
      (ignored st ++ mjoin (ignored_by <$> changes)) (st_branch st) (st_detached st) (st_head_commit st)
      (st_upstream st).
Proof.
  revert st. induction changes as [|c changes IH]; intros st; [destruct st; cbn; by rewrite !app_nil_r|].
  cbn [after_changes foldl]. fold (after_changes changes (after_change c st)). rewrite IH, !fmap_cons.
  cbn [mjoin list_join after_change staged unstaged untracked conflicted ignored st_branch st_detached
    st_head_commit st_upstream]. by rewrite <- !app_assoc.
Qed.

Lemma status_branch h rest :
  header_wf h ->
  status_loop (branch_records h ++ rest) no_status
  = status_loop rest (mk_StatusState [] [] [] [] [] (h_branch h) (is_none (h_branch h)) (Some (h_head h)) None).
Proof.
  intros [[Hh _] Hb _ _]. unfold branch_records. cbn [app status_loop]. unfold status_record.
  rewrite !starts_with_app, !remove_prefix_app, !append_cons. decide_record. cbn [String.eqb].
  apply String.eqb_neq in Hh. rewrite Hh. cbn [mbind result_bind].
  destruct (h_branch h) as [b|]; cbn [default]; [|reflexivity].
  destruct Hb as (Hne & Hp & _). apply String.eqb_neq in Hne.
  change (id b) with b. assert (String.eqb b "(detached)" = false) as ->.
  { destruct (String.eqb_spec b "(detached)") as [->|_]; [discriminate Hp | done]. }
  cbv zeta. rewrite Hne, Hp. reflexivity.
Qed.

(** A header the parser skips. *)
Lemma status_other text rest st :
  other_wf text -> status_loop (("# " +:+ text) :: rest) st = status_loop rest st.
Proof.
  intros (Ho & Hd & Hu & _). cbn [status_loop]. unfold status_record. rewrite !append_cons. decide_record.
  change ("" +:+ text) with text. cbn [String.eqb]. by rewrite Ho, Hd, Hu, starts_with_nil.
Qed.

Lemma status_others texts rest st :
  Forall other_wf texts -> status_loop (((fun text => "# " +:+ text) <$> texts) ++ rest) st = status_loop rest st.
Proof. induction 1 as [|text texts Ht _ IH]; [done|]. rewrite fmap_cons. cbn [app]. by rewrite status_other. Qed.

Lemma status_tracking h rest st :
  header_wf h -> st_upstream st = None ->
  status_loop (tracking_records h ++ rest) st = status_loop rest (set_upstream (fst <$> h_tracking h) st).
Proof.
  intros [_ _ Ht _] Hnone. unfold tracking_records. destruct (h_tracking h) as [[upstream counts]|]; [|by destruct st; cbn in *; subst].
  destruct Ht as (Hu & _ & _). cbn [fst] in Hu. cbn [app status_loop]. unfold status_record at 1.
  rewrite starts_with_app, remove_prefix_app, !append_cons. decide_record. cbn [String.eqb].
  apply String.eqb_neq in Hu. rewrite Hu. cbn [mbind result_bind].
  destruct counts as [[ahead behind]|]; [|done]. cbn [app].
  change ("# branch.ab +" +:+ ahead +:+ " -" +:+ behind) with ("# " +:+ ("branch.ab +" +:+ ahead +:+ " -" +:+ behind)).
  cbn [status_loop]. unfold status_record. rewrite !append_cons. decide_record. cbn [String.eqb]. by rewrite starts_with_nil.
Qed.

Lemma status_headers h rest :
  header_wf h ->
  status_loop (header_records h ++ rest) no_status
  = status_loop rest (mk_StatusState [] [] [] [] [] (h_branch h) (is_none (h_branch h)) (Some (h_head h)) (fst <$> h_tracking h)).
Proof.
  intros Hh. unfold header_records. rewrite <- !app_assoc, status_branch, status_tracking by done.
  unfold other_records. by rewrite status_others by apply Hh.
Qed.

Lemma header_records_free h : header_wf h -> Forall (free_of nul) (header_records h).
Proof.
  intros [[_ Hh] Hb Ht Ho]. unfold header_records, branch_records, tracking_records, other_records.
  assert (Hlit : forall s t, bool_decide (nul ∉ chars s) = true -> free_of nul t -> free_of nul (s +:+ t)).
  { intros s t Hs Hfree. apply free_of_app; [by apply literal_free|done]. }
  repeat apply Forall_app_2.
  - repeat constructor; apply Hlit; try done. destruct (h_branch h); [naive_solver|by apply literal_free].
  - destruct (h_tracking h) as [[upstream [[ahead behind]|]]|]; [| |done]; destruct Ht as (_ & Hu & Hc); cbn in Hu, Hc;
      repeat (apply Forall_cons; split); try apply Forall_nil_2.
    + by apply Hlit.
    + apply Hlit; [done|]. apply free_of_app; [apply Hc|]. apply Hlit; [done|apply Hc].
    + by apply Hlit.
  - apply Forall_fmap. eapply Forall_impl; [exact Ho|]. intros text (_ & _ & _ & Hf). by apply Hlit.
Qed.

Lemma reported_canonical f changes :
  (forall c, c ∈ changes -> Forall path_wf (f c)) ->
  _paths_are_canonical (reported f changes) = Ok (reported f changes).
Proof.
  intros Hf. unfold _paths_are_canonical, reported.
  assert (Hall : forall p, p ∈ sorted_set (mjoin (f <$> changes)) -> path_wf p).
  { intros p Hp. apply elem_of_sorted_set, list_elem_of_join in Hp as (ps & Hp & Hps).
    apply list_elem_of_fmap in Hps as (c & -> & Hc). specialize (Hf c Hc). rewrite Forall_forall in Hf. auto. }
  assert (He : existsb (fun item => bool_decide (item = "") || str_contains nul item)
                 (sorted_set (mjoin (f <$> changes))) = false).
  { apply existsb_false, Forall_forall. intros p Hp. destruct (Hall p Hp) as [Hne Hfree].
    rewrite bool_decide_eq_false_2 by done. unfold str_contains. apply existsb_false, Forall_forall.
    intros a Ha. destruct (Ascii.eqb_spec nul a) as [<-|]; [by destruct Hfree | done]. }
  rewrite He. cbn [raise_if mbind result_bind].
  assert (Hd : has_duplicates (sorted_set (mjoin (f <$> changes))) = false)
    by apply has_duplicates_false, NoDup_sorted_set.
  rewrite Hd. cbn [raise_if mbind result_bind].
  unfold sorted_set at 1 2, mret, result_ret. by rewrite sorted_strings_idem.
Qed.

Lemma reported_paths_wf c :
  change_wf c -> Forall path_wf (staged_by c) /\ Forall path_wf (unstaged_by c)
  /\ Forall path_wf (untracked_by c) /\ Forall path_wf (conflicted_by c) /\ Forall path_wf (ignored_by c).
Proof.
  destruct c; cbn [change_wf staged_by unstaged_by untracked_by conflicted_by ignored_by]; intros H;
    destruct_and?; repeat case_match; refine (conj _ (conj _ (conj _ (conj _ _))));
    first [apply Forall_nil_2 | by apply Forall_singleton].
Qed.

(** C39: Git's status report survives the round trip through the parser.  For a
    decodable report printed as [git status --porcelain=v2 -z --branch] prints
    it - of a repository with a commit, on no branch or on one whose name does
    not start with a parenthesis, tracking another branch or not, with further
    headers or without - with paths that may hold spaces, quotes and line
    breaks, the parser accepts the text and returns the printed branch, head,
    tracked branch and the five sets of paths, each sorted and without
    duplicates: the index column decides the staged paths, the working tree
    column the unstaged ones, and a renamed path is reported by its new name
    only. *)
Theorem status_roundtrip h changes
    (Hh : header_wf h) (Hc : Forall change_wf changes)
    (Hd : contains_text replacement_character (print_status h changes) = false) :
  parse_status_porcelain_v2 (print_status h changes)
  = Ok (mk_ParsedStatus (h_branch h) (is_none (h_branch h)) (h_head h) (fst <$> h_tracking h)
      (mk_RepositoryStatus (reported staged_by changes) (reported unstaged_by changes)
         (reported untracked_by changes) (reported conflicted_by changes) (reported ignored_by changes)
         false false false false false false 1)).
Proof.
  unfold parse_status_porcelain_v2, print_status in *.
  rewrite records_nul_terminated; [| done | | exact Hd].
  - cbn [mbind result_bind]. rewrite status_headers by done. rewrite status_changes by done.
    rewrite after_changes_sets. cbn [staged unstaged untracked conflicted ignored st_branch st_detached
      st_head_commit st_upstream app mbind result_bind].
    assert (Bool.eqb (is_none (h_branch h)) (negb (is_none (h_branch h))) = false) as -> by (by destruct (h_branch h)).
    assert (Hcanon : forall f, (forall c, change_wf c -> Forall path_wf (f c)) ->
              _paths_are_canonical (reported f changes) = Ok (reported f changes)).
    { intros f Hf. apply reported_canonical. intros c Hin. rewrite Forall_forall in Hc. auto. }
    unfold validate_RepositoryStatus, status_of. cbn [staged_paths unstaged_paths untracked_paths
      conflicted_paths ignored_paths rst_schema_version staged unstaged untracked conflicted ignored].
    fold (reported staged_by changes) (reported unstaged_by changes) (reported untracked_by changes)
      (reported conflicted_by changes) (reported ignored_by changes).
    rewrite !Hcanon by (intros c ?; by apply reported_paths_wf). reflexivity.
  - apply Forall_app. split.
    + by apply header_records_free.
    + apply Forall_forall. intros r Hr. apply list_elem_of_join in Hr as (rs & Hr & Hrs).
      apply list_elem_of_fmap in Hrs as (c & -> & Hin). rewrite Forall_forall in Hc.
      specialize (Hc c Hin). apply change_records_free in Hc. rewrite Forall_forall in Hc. auto.
Qed.

(** A report of a branch that tracks another one, with a stash, a staged rename, an
    edited file with a space in its name, a conflict, an untracked file with a line break
    and an ignored directory. *)
Module PorcelainSample.
Definition head : string := "0123456789abcdef0123456789abcdef01234567".
Definition report : headers := mk_headers head (Some "revanent/task") (Some ("origin/main", Some ("2", "0"))) ["stash 1"].
Definition six : list string := ["N..."; "100644"; "100644"; "100644"; head; head].
Definition changes : list change :=
  [Renamed "R" "." (six ++ ["R100"]) "new.py" "old.py";
   Ordinary "M" "M" six "read me.md";
   Unmerged (six ++ ["100644"; head; head]) "both.py";
   Untracked (String "a" (String (ascii_of_N 10) "b"));
   Ignored "target/"].
End PorcelainSample.

Lemma status_roundtrip_witness :
  parse_status_porcelain_v2 (print_status PorcelainSample.report PorcelainSample.changes)
  = Ok (mk_ParsedStatus (Some "revanent/task") false PorcelainSample.head (Some "origin/main")
      (mk_RepositoryStatus ["new.py"; "read me.md"] ["read me.md"]
         [String "a" (String (ascii_of_N 10) "b")] ["both.py"] ["target/"]
         false false false false false false 1)).
Proof.
  apply (status_roundtrip PorcelainSample.report PorcelainSample.changes).
  - constructor; repeat constructor; first [discriminate | apply literal_free; vm_compute; reflexivity].
  - repeat constructor; first [discriminate | apply literal_free; vm_compute; reflexivity].
  - vm_compute. reflexivity.
Defined.
