(* ===== verification/Ownership.v ===== *)
(** * Worktree ownership records ([src/src/revanent/git/ownership.py])

    The directory of bounded JSON records that says which worktrees belong to the
    program: exclusive leases held by a lock file, atomic replacement through a
    temporary file, bounded and validated reads.  The directory is part of the
    world of the Git adapter, [GitWorld]; its files are indexed by their name.

    Writing and reading a record as JSON is the schema layer's ([record_json],
    [parse_record]); each system call on the directory may raise ([system_call]).
    A write that raises half-way leaves the temporary file as it was. *)

From Stdlib Require Import ZArith Lia Ascii String.
From S2P Require Import Prelude Text Domain Effects Commands GitPort CommandPolicy GitPolicy.
From stdpp Require Import base option strings numbers gmap sets list list_relations.

Open Scope Z_scope.

Definition MAX_OWNERSHIP_RECORD_BYTES : Z := 128 * 1024.

Definition OwnershipRecordConflictError : string -> exn :=
  GitSubclassError GitErrorCategory.OWNERSHIP_RECORD_CONFLICT.
Definition MalformedOwnershipRecordError : string -> exn :=
  GitSubclassError GitErrorCategory.MALFORMED_OWNERSHIP_RECORD.
Definition UnownedWorktreeError : string -> exn :=
  GitSubclassError GitErrorCategory.UNOWNED_WORKTREE.

(** ** The host and the world *)

(** What the Git adapter is given: the file system, the command runner, random
    bytes, the clock, the system calls on the ownership directory, the schema
    layer's JSON. *)
Class GitHost (E : Type) := {
  gh_files : FileSystem E;
  run_command : CommandRequest -> M E CommandResult;   (* [CommandRunner.run] *)
  random_hex : M E string;                             (* [os.urandom(8).hex()] *)
  random_name : M E string;                            (* the random part of [mkstemp] *)
  utc_now : M E datetime;                              (* [datetime.now(UTC)] *)
  system_call : string -> string -> M E unit;          (* a call on a named file: it may raise *)
  record_json : WorktreeOwnershipRecord -> string;     (* [json.dumps(record.model_dump(mode="json"), ...)] *)
  parse_record : string -> res WorktreeOwnershipRecord; (* [model_validate_json] *)
  package_version : string                             (* [revanent.__version__] *)
}.

#[export] Existing Instance gh_files.

(** A directory entry: a regular file with its bytes, a symbolic link, or something else. *)
Inductive entry : Type := Regular (data : string) | Link | Special.

#[export] Instance entry_eq_dec : EqDecision entry.
Proof. solve_decision. Defined.

(** The environment, the commands handed to the runner, and the files of the
    ownership directory. *)
Record GitWorld (E : Type) := mk_GitWorld {
  host : E;
  issued : list CommandRequest;
  own_files : gmap string entry
}.
Arguments mk_GitWorld {E}.
Arguments host {E}.
Arguments issued {E}.
Arguments own_files {E}.

Definition newline : ascii := ascii_of_N 10.

Section Ownership.
Context {E : Type} `{!GitHost E}.
Abbreviation W := (GitWorld E).

Definition on_host {A} (m : M E A) : M W A := fun w =>
  let '(e, r) := m (host w) in (mk_GitWorld e (issued w) (own_files w), r).

Definition call (name file : string) : M W unit := on_host (system_call name file).

Definition set_file (file : string) (e : entry) : M W unit := fun w =>
  (mk_GitWorld (host w) (issued w) (<[file := e]> (own_files w)), Ok tt).

Definition delete_file (file : string) : M W unit := fun w =>
  (mk_GitWorld (host w) (issued w) (delete file (own_files w)), Ok tt).

(** [os.path.lexists] of a file of the directory *)
Definition present (file : string) : M W bool := gets (fun w => is_some (own_files w !! file)).

(** [WorktreeOwnershipStore.__init__]: the directory. *)
Definition make_WorktreeOwnershipStore (state_directory : Path) (unc : bool) : M W Path :=
  lift (raise_if (negb (path_absolute state_directory))
          (ValueError "ownership state directory must be an absolute pathlib path")) ;;
  lift (raise_if (_is_unc state_directory && negb unc)
          (ValueError "ownership state on UNC paths requires explicit authorization")) ;;
  root ← try_except (on_host (fs_resolve true state_directory)) is_os_error
           (fun _ => raise (ValueError "ownership state directory must already exist")) ;
  directory ← on_host (fs_is_dir root) ;
  lift (raise_if (negb directory || bool_decide (path_parts root = []))
          (ValueError "ownership state must be a non-root directory")) ;;
  mret root.

Variable root : Path.

Definition disabled_hooks_path : Path := joinpath root ["disabled-hooks"].

Definition _contained_filename (filename : string) : res Path :=
  raise_if (negb (String.eqb (path_name (path_of filename)) filename) || has_separator filename)
    (ValueError "ownership filename is invalid") ;;
  let target := joinpath root (path_parts (path_of filename)) in
  raise_if (negb (bool_decide (path_parent target = root)))
    (ValueError "ownership filename escapes the state directory") ;;
  mret target.

Definition record_file (worktree_id : string) : string := worktree_id +:+ ".json".
Definition lock_file (worktree_id : string) : string := worktree_id +:+ ".lock".

Definition _record_path (worktree_id : string) : res Path := _contained_filename (record_file worktree_id).
Definition _lock_path (worktree_id : string) : res Path := _contained_filename (lock_file worktree_id).

(** [record_path], and [os.path.lexists] of it. *)
Definition record_exists (worktree_id : string) : M W bool :=
  lift (_record_path worktree_id) ;; present (record_file worktree_id).

(** ** Reading *)

Definition _read_bounded (file : string) : M W string :=
  call "open" file ;;
  try_finally
    (call "fstat" file ;;
     e ← gets (fun w => own_files w !! file) ;
     match e with
     | Some (Regular data) =>
         lift (raise_if (MAX_OWNERSHIP_RECORD_BYTES <? byte_len data)
                 (MalformedOwnershipRecordError "ownership record is not a bounded file")) ;;
         call "read" file ;;
         lift (raise_if (MAX_OWNERSHIP_RECORD_BYTES <? byte_len data)
                 (MalformedOwnershipRecordError "ownership record exceeds its size limit")) ;;
         mret data
     | _ => raise (MalformedOwnershipRecordError "ownership record is not a bounded file")
     end)
    (call "close" file).

Definition has_category (category : GitErrorCategory.t) (e : exn) : bool :=
  match e with GitSubclassError c _ => bool_decide (c = category) | _ => false end.

(** [except (OSError, UnicodeError, JSONDecodeError, ValidationError, ValueError)] *)
Definition unreadable (e : exn) : bool := is_os_error e || is_ValueError e.

Definition _load_unlocked (worktree_id : string) : M W WorktreeOwnershipRecord :=
  lift (_record_path worktree_id) ;;
  let file := record_file worktree_id in
  exists_ ← present file ;
  lift (raise_if (negb exists_) (UnownedWorktreeError "no Revanent ownership record exists for the worktree")) ;;
  record ← try_except
    (e ← gets (fun w => own_files w !! file) ;
     lift (raise_if (bool_decide (e = Some Link))
             (MalformedOwnershipRecordError
                "ownership record path does not resolve to the owned state directory")) ;;
     call "resolve" file ;;
     data ← _read_bounded file ;
     lift (parse_record data)) unreadable
    (fun _ => raise (MalformedOwnershipRecordError "ownership record is malformed or unsupported")) ;
  lift (raise_if (negb (String.eqb (wor_worktree_id record) worktree_id))
          (MalformedOwnershipRecordError "ownership record identifier does not match its filename")) ;;
  mret record.

(** ** Writing *)

(** [_remove_owned_file]: every file named here lies in the directory. *)
Definition _remove_owned_file (file expected_suffix : string) : M W unit :=
  lift (raise_if (negb (String.eqb (path_name (path_of file)) file)
                  || negb (String.eqb (name_suffix file) expected_suffix))
          (OtherError "refusing to remove a file outside the ownership state directory")) ;;
  exists_ ← present file ;
  if (exists_ : bool) then call "unlink" file ;; delete_file file else mret tt.

Definition temporary_prefix (worktree_id : string) : string := "." +:+ worktree_id +:+ ".".

(** [tempfile.mkstemp] *)
Definition mkstemp (worktree_id : string) : M W string :=
  middle ← on_host random_name ;
  let file := temporary_prefix worktree_id +:+ middle +:+ ".tmp" in
  exists_ ← present file ;
  lift (raise_if exists_ OSError) ;;
  call "open" file ;;
  set_file file (Regular "") ;;
  mret file.

Definition _write_and_sync (file payload : string) : M W unit :=
  call "write" file ;;
  set_file file (Regular payload) ;;
  call "flush" file ;;
  call "fsync" file.

(** [_sync_directory], not on Windows. *)
Definition _sync_directory : M W unit :=
  call "open" "." ;;
  try_finally (call "fsync" ".") (call "close" ".").

(** [os.replace(temporary, target)] *)
Definition replace_file (temporary target : string) : M W unit :=
  call "replace" target ;;
  e ← gets (fun w => own_files w !! temporary) ;
  match e with
  | Some e => delete_file temporary ;; set_file target e
  | None => raise OSError
  end.

Definition record_payload (record : WorktreeOwnershipRecord) : string :=
  record_json record +:+ String newline "".

(** What is done under [try] once the temporary file exists, and the removal of
    that file under [finally]. *)
Definition write_steps (temporary target payload : string) (replace : bool) : M W unit :=
  _write_and_sync temporary payload ;;
  exists_ ← present target ;
  lift (raise_if (negb (Bool.eqb exists_ replace))
          (OwnershipRecordConflictError "ownership record changed concurrently")) ;;
  replace_file temporary target ;;
  _sync_directory.

Definition discard_temporary (temporary : string) : M W unit :=
  left ← present temporary ;
  if (left : bool) then _remove_owned_file temporary ".tmp" else mret tt.

Definition _write_unlocked (record : WorktreeOwnershipRecord) (replace : bool) : M W unit :=
  let worktree_id := wor_worktree_id record in
  lift (_record_path worktree_id) ;;
  let target := record_file worktree_id in
  exists_ ← present target ;
  lift (raise_if (negb (Bool.eqb exists_ replace))
          (OwnershipRecordConflictError
             "ownership record existence does not match the requested lifecycle update")) ;;
  let payload := record_payload record in
  lift (raise_if (MAX_OWNERSHIP_RECORD_BYTES <? byte_len payload)
          (MalformedOwnershipRecordError "ownership record exceeds its size limit")) ;;
  temporary ← mkstemp worktree_id ;
  try_finally (write_steps temporary target payload replace) (discard_temporary temporary).

(** ** Leases *)

(** [OwnershipLease.write] *)
Definition lease_write (worktree_id : string) (record : WorktreeOwnershipRecord) (replace : bool) : M W unit :=
  lift (raise_if (negb (String.eqb (wor_worktree_id record) worktree_id))
          (OwnershipRecordConflictError "ownership lease and record identifiers do not match")) ;;
  _write_unlocked record replace.

(** [with store.acquire(worktree_id) as lease: body] *)
Definition acquire {A} (worktree_id : string) (body : M W A) : M W A :=
  lift (_lock_path worktree_id) ;;
  let lock := lock_file worktree_id in
  call "open" lock ;;
  locked ← present lock ;
  lift (raise_if locked
          (OwnershipRecordConflictError "ownership record is locked by another or interrupted operation")) ;;
  set_file lock (Regular "") ;;
  try_finally
    (_write_and_sync lock (worktree_id +:+ String newline "") ;; body)
    (_remove_owned_file lock ".lock").
End Ownership.
