(* ===== verification/OwnershipSafety.v ===== *)
(** * What the ownership store guarantees

    A write of a record is atomic: whatever system call raises, the record file
    holds the old record or the whole new one, and a write that returns changed
    nothing else.  A lease excludes every other lease of the same worktree and
    runs its body at most once.  What was written is read back. *)

From Stdlib Require Import ZArith Lia Ascii String.
From S2P Require Import Prelude Text Domain Effects Commands GitPort CommandPolicy GitPolicy GitPorcelain Ownership.
From stdpp Require Import base option strings numbers gmap sets list list_relations.

Open Scope Z_scope.

(** ** File names *)

Lemma append_inj_l p a b : p +:+ a = p +:+ b -> a = b.
Proof. induction p as [|c p IH]; [done|]. rewrite !append_cons. intros [= H]. auto. Qed.

Lemma append_eq a b c d :
  String.length a = String.length b -> a +:+ c = b +:+ d -> a = b /\ c = d.
Proof.
  revert b. induction a as [|x a IH]; intros [|y b]; cbn [String.length]; intros Hl; try lia; [done|].
  rewrite !append_cons. intros [= -> H]. destruct (IH b) as [-> ->]; [lia|done|done].
Qed.

Lemma worktree_id_shape id : matches _WORKTREE_ID id = true -> exists rest, id = String "w" rest.
Proof.
  intros H%matches_spec. inversion H as [|lit ps l Hl Heq|]; subst.
  destruct id as [|c id]; [discriminate|]. cbn in *. simplify_eq. by exists id.
Qed.

(** A name that [mkstemp] may pick for the worktree. *)
Definition is_temporary (id file : string) : Prop :=
  exists middle, file = temporary_prefix id +:+ middle +:+ ".tmp".

Lemma temporary_not_record id other file :
  matches _WORKTREE_ID other = true -> is_temporary id file -> file <> record_file other.
Proof. intros (rest & ->)%worktree_id_shape (middle & ->). discriminate. Qed.

Lemma lock_not_record id : lock_file id <> record_file id.
Proof. unfold lock_file, record_file. by intros H%append_inj_l. Qed.

Section Safety.
Context {E : Type} `{!GitHost E} (root : Path).
Abbreviation W := (GitWorld E).
Implicit Types (w : W) (m : M W unit).

(** ** Frames *)

(** No command is issued and no file of the directory changes. *)
Definition same_disk (w w' : W) : Prop := issued w' = issued w /\ own_files w' = own_files w.

#[export] Instance same_disk_confined : Confined same_disk.
Proof. unfold same_disk. split; [done|]. intros ??? [] []. split; congruence. Qed.

Lemma on_host_disk {A} (m : M E A) : only same_disk (on_host m).
Proof. intros w. unfold on_host. by destruct (m (host w)). Qed.

Lemma call_disk name file : only same_disk (call name file).
Proof. apply on_host_disk. Qed.

(** A computation that leaves the directory alone, seen from its result. *)
Lemma only_run {A} (R : W -> W -> Prop) (m : M W A) w w' r : only R m -> m w = (w', r) -> R w w'.
Proof. intros Hm H. specialize (Hm w). by rewrite H in Hm. Qed.

(** ** Writing a record *)

(** The files a write of [payload] may leave, and its outcome. *)
Inductive write_outcome (id payload : string) (F : gmap string entry) : gmap string entry -> res unit -> Prop :=
| outcome_written r : write_outcome id payload F (<[record_file id := Regular payload]> F) r
| outcome_refused e : write_outcome id payload F F (Err e)
| outcome_orphaned file x e :
    is_temporary id file -> F !! file = None -> write_outcome id payload F (<[file := x]> F) (Err e).

Lemma mkstemp_effect id w w' r :
  mkstemp id w = (w', r) ->
  issued w' = issued w /\
  match r with
  | Ok file => is_temporary id file /\ own_files w !! file = None
               /\ own_files w' = <[file := Regular ""]> (own_files w)
  | Err _ => own_files w' = own_files w
  end.
Proof.
  unfold mkstemp, mbind, M_bind. destruct (on_host random_name w) as [w1 [middle|e]] eqn:H1;
    apply (only_run _ _ _ _ _ (on_host_disk _)) in H1 as [Hi Hf]; [|by intros [= <- <-]].
  unfold present, gets, lift. destruct (own_files w1 !! _) as [x|] eqn:Hx; cbn [is_some raise_if];
    [by intros [= <- <-]|].
  destruct (call "open" _ w1) as [w2 [[]|e]] eqn:H2;
    apply (only_run _ _ _ _ _ (call_disk _ _)) in H2 as [Hi2 Hf2]; [|intros [= <- <-]; split; congruence].
  unfold set_file. intros [= <- <-]. cbn [issued own_files]. rewrite Hf2, Hf. split; [congruence|].
  split_and!; [by eexists | by rewrite <- Hf | done].
Qed.

Lemma write_and_sync_effect file payload w w' r :
  _write_and_sync file payload w = (w', r) ->
  issued w' = issued w /\
  (own_files w' = own_files w /\ r <> Ok tt \/ own_files w' = <[file := Regular payload]> (own_files w)).
Proof.
  unfold _write_and_sync, mbind, M_bind. destruct (call "write" file w) as [w1 [[]|e]] eqn:H1;
    apply (only_run _ _ _ _ _ (call_disk _ _)) in H1 as [Hi Hf]; [|intros [= <- <-]; auto].
  unfold set_file. destruct (call "flush" file _) as [w2 [[]|e]] eqn:H2;
    apply (only_run _ _ _ _ _ (call_disk _ _)) in H2 as [Hi2 Hf2]; cbn [issued own_files] in *.
  - intros H3. apply (only_run _ _ _ _ _ (call_disk _ _)) in H3 as [Hi3 Hf3]. split; [congruence|]. right. congruence.
  - intros [= <- <-]. split; [congruence|]. right. congruence.
Qed.

(** The part of a write under [try]: the temporary file is there or was moved. *)
Lemma replace_effect temporary target w w' r :
  temporary <> target -> is_some (own_files w !! temporary) = true ->
  replace_file temporary target w = (w', r) ->
  issued w' = issued w /\
  (own_files w' = own_files w /\ r <> Ok tt
   \/ exists x, own_files w !! temporary = Some x
        /\ own_files w' = <[target := x]> (delete temporary (own_files w))).
Proof.
  intros Hne Hx. unfold replace_file, mbind, M_bind. destruct (call "replace" target w) as [w1 [[]|e]] eqn:H1;
    apply (only_run _ _ _ _ _ (call_disk _ _)) in H1 as [Hi Hf]; [|intros [= <- <-]; auto].
  unfold gets. rewrite Hf. destruct (own_files w !! temporary) as [x|]; [|done].
  unfold delete_file, set_file. intros [= <- <-]. cbn [issued own_files]. rewrite Hf. eauto.
Qed.

Lemma sync_directory_disk : only same_disk _sync_directory.
Proof.
  apply only_bind; [exact _ | apply call_disk | intros _].
  apply only_try_finally; [exact _ | apply call_disk..].
Qed.

Lemma write_steps_effect temporary target payload replace F w w' r :
  temporary <> target -> F !! temporary = None -> own_files w = <[temporary := Regular ""]> F ->
  write_steps temporary target payload replace w = (w', r) ->
  issued w' = issued w /\
  ((exists x, own_files w' = <[temporary := x]> F) /\ r <> Ok tt
   \/ own_files w' = <[target := Regular payload]> F).
Proof.
  intros Hne Hfree Hw. unfold write_steps, mbind, M_bind.
  destruct (_write_and_sync temporary payload w) as [w1 [[]|e]] eqn:H1;
    apply write_and_sync_effect in H1 as [Hi1 H1]; rewrite Hw, insert_insert_eq in H1.
  2: { intros [= <- <-]. split; [done|]. left. split; [|done]. destruct H1 as [[H1 _]|H1]; eauto. }
  destruct H1 as [[_ []]|Hf1]; [done|]. unfold present, gets, lift, raise_if.
  destruct (negb _); [intros [= <- <-]; eauto 10|].
  destruct (replace_file temporary target w1) as [w2 o] eqn:H2.
  apply replace_effect in H2 as [Hi2 H2]; [|done|by rewrite Hf1, lookup_insert_eq].
  rewrite Hf1, lookup_insert_eq, delete_insert_id in H2 by done. destruct o as [[]|e].
  - intros H3. apply (only_run _ _ _ _ _ sync_directory_disk) in H3 as [Hi3 Hf3].
    split; [congruence|]. right. destruct H2 as [[_ []]|(x & [= <-] & H2)]; [done|]. congruence.
  - intros [= <- <-]. split; [congruence|]. destruct H2 as [[H2 _]|(x & [= <-] & H2)]; [left|right; done].
    split; [eauto|done].
Qed.

Lemma remove_owned_effect file suffix w w' r :
  _remove_owned_file file suffix w = (w', r) ->
  issued w' = issued w /\
  (own_files w' = own_files w /\ (r = Ok tt -> own_files w !! file = None) \/ own_files w' = delete file (own_files w)).
Proof.
  unfold _remove_owned_file, mbind, M_bind, lift, raise_if. destruct (_ || _); [intros [= <- <-]; split; [done|]; left; split; [done|discriminate]|].
  unfold present, gets. destruct (own_files w !! file) as [x|] eqn:Hx; cbn [is_some].
  - destruct (call "unlink" file w) as [w1 [[]|e]] eqn:H1;
      apply (only_run _ _ _ _ _ (call_disk _ _)) in H1 as [Hi Hf].
    + unfold delete_file. intros [= <- <-]. cbn. rewrite Hf. auto.
    + intros [= <- <-]. split; [done|]. left. split; [done|discriminate].
  - intros [= <- <-]. auto.
Qed.

Lemma discard_effect file w w' r :
  discard_temporary file w = (w', r) ->
  issued w' = issued w /\
  (own_files w' = own_files w /\ (r = Ok tt -> own_files w !! file = None) \/ own_files w' = delete file (own_files w)).
Proof.
  unfold discard_temporary, mbind, M_bind, present, gets. destruct (own_files w !! file) as [x|] eqn:Hx; cbn [is_some].
  - intros H%remove_owned_effect. by rewrite Hx in H.
  - intros [= <- <-]. auto.
Qed.

(** A write of a record, whatever its outcome. *)
Lemma write_effect record replace w w' r :
  matches _WORKTREE_ID (wor_worktree_id record) = true ->
  _write_unlocked root record replace w = (w', r) ->
  issued w' = issued w /\
  write_outcome (wor_worktree_id record) (record_payload record) (own_files w) (own_files w') r.
Proof.
  intros Hid. unfold _write_unlocked, mbind, M_bind, lift. set (id := wor_worktree_id record) in *.
  destruct (_record_path root id) as [?|]; [|by intros [= <- <-]; split; [done|constructor]].
  unfold present, gets, raise_if.
  destruct (negb _) eqn:Hex; [by intros [= <- <-]; split; [done|constructor]|].
  destruct (_ <? _); [by intros [= <- <-]; split; [done|constructor]|].
  destruct (mkstemp id w) as [w1 [t|e]] eqn:H1; apply mkstemp_effect in H1 as [Hi1 H1];
    [|intros [= <- <-]; split; [done|rewrite H1; constructor]].
  destruct H1 as (Ht & Hfree & Hf1). pose proof (temporary_not_record id id t Hid Ht) as Hne.
  unfold try_finally, attempt, mbind, M_bind.
  destruct (write_steps t (record_file id) (record_payload record) replace w1) as [w2 o] eqn:H2.
  eapply write_steps_effect in H2 as [Hi2 H2]; [|exact Hne|exact Hfree|exact Hf1].
  destruct (discard_temporary t w2) as [w3 d] eqn:H3.
  apply discard_effect in H3 as [Hi3 H3]. intros Hend.
  assert (Hissued : issued w3 = issued w) by congruence.
  destruct H2 as [((x & Hf2) & Ho)|Hf2]; rewrite Hf2 in H3.
  - rewrite lookup_insert_eq, delete_insert_id in H3 by done.
    destruct o as [[]|e]; [done|]. destruct d as [[]|e']; injection Hend as <- <-; (split; [done|]).
    all: destruct H3 as [[-> _]| ->]; constructor; done.
  - rewrite lookup_insert_ne, delete_id in H3 by (congruence || by rewrite lookup_insert_ne).
    assert (own_files w3 = <[record_file id := Regular (record_payload record)]> (own_files w)) as Hf3
      by (by destruct H3 as [[-> _]| ->]).
    destruct d as [[]|e']; [destruct o as [[]|e]|]; injection Hend as <- <-; (split; [done|]);
      rewrite Hf3; constructor.
Qed.

(** What a write that returned had checked. *)
Lemma write_checked record replace w w' :
  _write_unlocked root record replace w = (w', Ok tt) ->
  let id := wor_worktree_id record in
  is_ok (_record_path root id) = true
  /\ (is_some (own_files w !! record_file id)) = replace
  /\ byte_len (record_payload record) <= MAX_OWNERSHIP_RECORD_BYTES.
Proof.
  unfold _write_unlocked, mbind, M_bind, lift. destruct (_record_path _ _) as [p|]; [|done].
  unfold present, gets, raise_if. destruct (negb _) eqn:Hex; [done|].
  destruct (_ <? _) eqn:Hlen; [done|]. intros _.
  apply negb_false_iff, Bool.eqb_prop in Hex. apply Z.ltb_ge in Hlen. done.
Qed.

(** A write of an ownership record is atomic.  Whatever the system calls
    answer, no command is issued, and the directory holds either its old files, or
    the old files with the record file now holding the whole new record, or the
    old files and one leftover temporary file; only the second is possible when the
    write returns, and then the record existed before exactly when the caller said
    so. *)
Theorem ownership_write_atomic id record replace w w' r
    (Hid : matches _WORKTREE_ID id = true)
    (Hrun : lease_write root id record replace w = (w', r)) :
  issued w' = issued w
  /\ write_outcome id (record_payload record) (own_files w) (own_files w') r
  /\ (r = Ok tt ->
        own_files w' = <[record_file id := Regular (record_payload record)]> (own_files w)
        /\ (is_some (own_files w !! record_file id)) = replace
        /\ byte_len (record_payload record) <= MAX_OWNERSHIP_RECORD_BYTES).
Proof.
  revert Hrun. unfold lease_write, mbind, M_bind, lift, raise_if.
  destruct (String.eqb_spec (wor_worktree_id record) id) as [<-|]; cbn [negb];
    [|intros [= <- <-]; split_and!; [done|constructor|done]].
  intros Hrun. destruct (write_effect _ _ _ _ _ Hid Hrun) as [Hi Ho]. split_and!; [done|done|].
  intros ->. destruct (write_checked _ _ _ _ Hrun) as (_ & He & Hl). split_and!; [|done|done].
  by inversion Ho.
Qed.

(** ** Reading a record *)

(** The system calls on the directory succeed. *)
Definition quiet : Prop := forall name file e, exists e', system_call name file e = (e', Ok tt).

Lemma call_quiet name file w :
  quiet -> exists w', call name file w = (w', Ok tt) /\ same_disk w w'.
Proof.
  intros Hq. unfold call, on_host. destruct (Hq name file (host w)) as [e' ->]. by eexists.
Qed.

Lemma read_bounded_quiet file data w :
  quiet -> own_files w !! file = Some (Regular data) -> byte_len data <= MAX_OWNERSHIP_RECORD_BYTES ->
  exists w', _read_bounded file w = (w', Ok data) /\ same_disk w w'.
Proof.
  intros Hq Hd Hl. unfold _read_bounded, try_finally, attempt, mbind, M_bind, gets, lift.
  destruct (call_quiet "open" file w Hq) as (w1 & -> & Hi1 & Hf1).
  destruct (call_quiet "fstat" file w1 Hq) as (w2 & -> & Hi2 & Hf2).
  rewrite Hf2, Hf1, Hd. unfold raise_if. assert ((_ <? _) = false) as -> by (by apply Z.ltb_ge).
  destruct (call_quiet "read" file w2 Hq) as (w3 & -> & Hi3 & Hf3). unfold mret, M_ret.
  destruct (call_quiet "close" file w3 Hq) as (w4 & -> & Hi4 & Hf4).
  exists w4. split; [done|]. unfold same_disk. split; congruence.
Qed.

(** What was written is read back.  After a write that returned, when the
    schema layer parses what it printed and the system calls succeed, loading the
    worktree's record returns the record itself and changes nothing. *)
Theorem ownership_roundtrip id record replace w w'
    (Hid : matches _WORKTREE_ID id = true) (Hquiet : quiet)
    (Hlaw : parse_record (record_payload record) = Ok record)
    (Hrun : lease_write root id record replace w = (w', Ok tt)) :
  exists w'', _load_unlocked root id w' = (w'', Ok record)
    /\ issued w'' = issued w /\ own_files w'' = own_files w'.
Proof.
  revert Hrun. unfold lease_write, mbind, M_bind, lift, raise_if.
  destruct (String.eqb_spec (wor_worktree_id record) id) as [<-|]; cbn [negb]; [|done].
  intros Hrun. destruct (write_effect _ _ _ _ _ Hid Hrun) as [Hi Ho].
  destruct (write_checked _ _ _ _ Hrun) as (Hpath & _ & Hlen).
  assert (Hw : own_files w' !! record_file (wor_worktree_id record) = Some (Regular (record_payload record))).
  { inversion Ho as [? Hf|?|???]. apply lookup_insert_eq. }
  unfold _load_unlocked, mbind, M_bind, lift. destruct (_record_path _ _); [|done].
  unfold present, gets, try_except, raise_if. rewrite Hw. cbn [is_some negb bool_decide].
  rewrite bool_decide_eq_false_2 by done.
  destruct (call_quiet "resolve" (record_file (wor_worktree_id record)) w' Hquiet) as (w1 & -> & Hi1 & Hf1).
  destruct (read_bounded_quiet (record_file (wor_worktree_id record)) (record_payload record) w1)
    as (w2 & -> & Hi2 & Hf2); [done|by rewrite Hf1|done|].
  rewrite Hlaw, String.eqb_refl. exists w2. split; [done|]. split; congruence.
Qed.

(** Loading only reads; what it returns is stored under the identifier. *)
Definition stored (id : string) (record : WorktreeOwnershipRecord) w : Prop :=
  wor_worktree_id record = id
  /\ exists data, own_files w !! record_file id = Some (Regular data) /\ parse_record data = Ok record.

Lemma read_bounded_effect file w w' r :
  _read_bounded file w = (w', r) ->
  same_disk w w' /\ match r with Ok data => own_files w !! file = Some (Regular data) | Err _ => True end.
Proof.
  unfold _read_bounded, try_finally, attempt, mbind, M_bind, gets, lift, raise, raise_if, mret, M_ret.
  destruct (call "open" file w) as [w1 [[]|e]] eqn:H1; apply (only_run _ _ _ _ _ (call_disk _ _)) in H1;
    [|by intros [= <- <-]].
  destruct (call "fstat" file w1) as [w2 [[]|e]] eqn:H2; apply (only_run _ _ _ _ _ (call_disk _ _)) in H2.
  - assert (own_files w2 !! file = own_files w !! file) as ->
      by (destruct H2 as [_ ->], H1 as [_ ->]; done).
    assert (H12 : same_disk w w2) by (by eapply confined_trans). clear H1 H2.
    destruct (own_files w !! file) as [[data| |]|]; try destruct (_ <? _).
    2: destruct (call "read" file w2) as [w3 [[]|e]] eqn:H3; apply (only_run _ _ _ _ _ (call_disk _ _)) in H3.
    all: destruct (call "close" file _) as [w4 [[]|e']] eqn:H4; apply (only_run _ _ _ _ _ (call_disk _ _)) in H4;
      intros [= <- <-]; (split; [|done]); repeat (eapply confined_trans; [eassumption|]); done.
  - destruct (call "close" file _) as [w4 [[]|e']] eqn:H4; apply (only_run _ _ _ _ _ (call_disk _ _)) in H4;
      intros [= <- <-]; (split; [|done]); repeat (eapply confined_trans; [eassumption|]); done.
Qed.

Lemma load_effect id w w' r :
  _load_unlocked root id w = (w', r) ->
  same_disk w w' /\ match r with Ok record => stored id record w | Err _ => True end.
Proof.
  unfold _load_unlocked, mbind, M_bind, lift. destruct (_record_path _ _); [|by intros [= <- <-]].
  unfold present, gets, try_except, raise_if, mret, M_ret, raise.
  destruct (negb _); [by intros [= <- <-]|]. destruct (bool_decide _); [by intros [= <- <-]|].
  destruct (call "resolve" _ w) as [w1 [[]|e]] eqn:H1; apply (only_run _ _ _ _ _ (call_disk _ _)) in H1.
  2: by destruct (unreadable e); intros [= <- <-].
  destruct (_read_bounded _ w1) as [w2 [data|e]] eqn:H2; apply read_bounded_effect in H2 as [H2 Hd].
  - assert (H12 : same_disk w w2) by (by eapply confined_trans).
    destruct (parse_record data) as [record|e] eqn:Hp; [|by destruct (unreadable e); intros [= <- <-]].
    destruct (String.eqb_spec (wor_worktree_id record) id) as [<-|]; intros [= <- <-]; [|done].
    split; [done|]. split; [done|]. exists data. destruct H1 as [_ <-]. done.
  - assert (H12 : same_disk w w2) by (by eapply confined_trans).
    by destruct (unreadable e); intros [= <- <-].
Qed.

(** ** Leases *)

(** A lease excludes every other.  While the lock file of a worktree exists,
    acquiring its lease raises, runs nothing of the body and changes nothing,
    whatever the body is. *)
Theorem lease_exclusive {A} id (body : M W A) w w' r
    (Hlocked : is_some (own_files w !! lock_file id) = true)
    (Hrun : acquire root id body w = (w', r)) :
  is_ok r = false /\ issued w' = issued w /\ own_files w' = own_files w.
Proof.
  revert Hrun. unfold acquire, mbind, M_bind, lift. destruct (_lock_path _ _); [|by intros [= <- <-]].
  destruct (call "open" (lock_file id) w) as [w1 [[]|e]] eqn:H1;
    apply (only_run _ _ _ _ _ (call_disk _ _)) in H1 as [Hi Hf]; [|by intros [= <- <-]].
  unfold present, gets. rewrite Hf, Hlocked. cbn. by intros [= <- <-].
Qed.

(** A lease that was entered: the body ran once, from a world with the lock file, and
    its outcome stands unless releasing the lock raised. *)
Definition lease_ran {A} (id : string) (body : M W A) w w' (r : res A) : Prop :=
  exists w1 w2 r2,
    issued w1 = issued w
    /\ own_files w1 = <[lock_file id := Regular (id +:+ String newline "")]> (own_files w)
    /\ body w1 = (w2, r2)
    /\ issued w' = issued w2
    /\ (own_files w' = own_files w2 \/ own_files w' = delete (lock_file id) (own_files w2))
    /\ (r = r2 /\ own_files w' !! lock_file id = None \/ is_ok r = false).

(** A lease that was not: an exception before the body. *)
Definition lease_refused {A} (id : string) w w' (r : res A) : Prop :=
  is_ok r = false /\ issued w' = issued w
  /\ forall file, file <> lock_file id -> own_files w' !! file = own_files w !! file.

Lemma acquire_effect {A} id (body : M W A) w w' r :
  acquire root id body w = (w', r) -> lease_ran id body w w' r \/ lease_refused id w w' r.
Proof.
  unfold acquire, mbind, M_bind, lift. set (lock := lock_file id).
  destruct (_lock_path _ _); [|by intros [= <- <-]; right; split_and!].
  destruct (call "open" lock w) as [w1 [[]|e]] eqn:H1;
    apply (only_run _ _ _ _ _ (call_disk _ _)) in H1 as [Hi1 Hf1];
    [|intros [= <- <-]; right; split_and!; [done|done|by intros; rewrite Hf1]].
  unfold present, gets, raise_if. destruct (is_some _);
    [intros [= <- <-]; right; split_and!; [done|done|by intros; rewrite Hf1]|].
  unfold set_file, try_finally, attempt, mbind, M_bind.
  destruct (_write_and_sync lock _ _) as [w2 [[]|e]] eqn:H2;
    apply write_and_sync_effect in H2 as [Hi2 H2]; cbn [issued own_files] in Hi2, H2;
    rewrite Hf1, insert_insert_eq in H2.
  - destruct H2 as [[_ []]|Hf2]; [done|]. destruct (body w2) as [w3 r2] eqn:H3.
    destruct (_remove_owned_file lock ".lock" w3) as [w4 d] eqn:H4.
    apply remove_owned_effect in H4 as [Hi4 H4]. intros Hend. left. exists w2, w3, r2.
    assert (w' = w4) as -> by (by destruct d as [[]|]; injection Hend).
    split_and!; [congruence|done|done|done|destruct H4 as [[? _]|?]; auto|].
    destruct d as [[]|e]; injection Hend as <-; [left|by right]. split; [done|].
    destruct H4 as [[-> H4]| ->]; [by apply H4|apply lookup_delete_eq].
  - destruct (_remove_owned_file lock ".lock" w2) as [w4 d] eqn:H4.
    apply remove_owned_effect in H4 as [Hi4 H4]. intros Hend. right.
    assert (w' = w4) as -> by (by destruct d as [[]|]; injection Hend).
    split_and!; [by destruct d as [[]|]; injection Hend as <-|congruence|].
    intros file Hne. assert (own_files w2 !! file = own_files w !! file) as <-.
    { destruct H2 as [[-> _]| ->]; by rewrite lookup_insert_ne. }
    destruct H4 as [[-> _]| ->]; [done|by rewrite lookup_delete_ne].
Qed.
End Safety.
