(* ===== verification/LocalGit.v ===== *)
(** * The local Git adapter ([src/src/revanent/git/local.py])

    Repository discovery and inspection through a frozen command surface, and the
    creation, verification and removal of owned worktrees.  A record of the
    adapter's configuration stands for the object; every method that runs a
    command is a computation over [GitWorld], which keeps the requests handed to
    the command runner. *)

From Stdlib Require Import ZArith Lia Ascii String.
From S2P Require Import Prelude Text Domain Unicode Sha256 Effects Commands GitPort CommandPolicy GitPolicy Ownership.
From stdpp Require Import base option strings numbers gmap sets list list_relations.

Open Scope Z_scope.

Definition _GIT_OUTPUT_LIMIT : Z := 8 * 1024 * 1024.
Definition _GIT_TIMEOUT_SECONDS : Z := 60.
Definition _UNSAFE_FILTER_PATTERN : string := "^filter\..*\.(clean|smudge|process)$".

Definition _ALLOWED_SUBCOMMANDS : list string :=
  ["check-ignore"; "check-ref-format"; "config"; "merge-base"; "rev-list"; "rev-parse"; "show-ref";
   "status"; "symbolic-ref"; "worktree"].
Definition _FORBIDDEN_ARGUMENTS : list string :=
  ["--delete"; "--force"; "--hard"; "--prune"; "-D"; "-f"].

(** The other subclasses of [GitError]. *)
Definition GitUnavailableError : string -> exn := GitSubclassError GitErrorCategory.GIT_UNAVAILABLE.
Definition NotGitRepositoryError : string -> exn := GitSubclassError GitErrorCategory.NOT_A_REPOSITORY.
Definition UnsupportedGitRepositoryError : string -> exn :=
  GitSubclassError GitErrorCategory.UNSUPPORTED_REPOSITORY.
Definition UnsafeRepositoryStateError : string -> exn :=
  GitSubclassError GitErrorCategory.REPOSITORY_STATE_UNSAFE.
Definition DirtyRepositoryError : string -> exn := GitSubclassError GitErrorCategory.DIRTY_STATE.
Definition WorktreeCollisionError : string -> exn := GitSubclassError GitErrorCategory.WORKTREE_COLLISION.
Definition BranchCollisionError : string -> exn := GitSubclassError GitErrorCategory.BRANCH_COLLISION.
Definition OwnershipMismatchError : string -> exn := GitSubclassError GitErrorCategory.OWNERSHIP_MISMATCH.
Definition StaleOwnershipRecordError : string -> exn :=
  GitSubclassError GitErrorCategory.STALE_OWNERSHIP_RECORD.
Definition GitPathPolicyError : string -> exn := GitSubclassError GitErrorCategory.PATH_POLICY.
Definition GitCommandError : string -> exn := GitSubclassError GitErrorCategory.GIT_COMMAND.
Definition PartialWorktreeCreationError : string -> exn :=
  GitSubclassError GitErrorCategory.PARTIAL_CREATION.
Definition WorktreeCleanupRefusedError : string -> exn :=
  GitSubclassError GitErrorCategory.CLEANUP_REFUSED.

(** [except GitError]: the category of the error that was raised. *)
Definition git_category (e : exn) : option GitErrorCategory.t :=
  match e with
  | GitError _ => Some GitErrorCategory.GIT_COMMAND
  | GitSubclassError category _ => Some category
  | _ => None
  end.
Definition is_git_error (e : exn) : bool := is_some (git_category e).

(** ** JSON text ([json.dumps] with [ensure_ascii]) *)

Definition hex_digit (n : Z) : ascii :=
  ascii_of_N (Z.to_N (if n <? 10 then 48 + n else 87 + n)).
Definition hex4 (n : Z) : string :=
  String.string_of_list_ascii (hex_digit <$> [n / 4096 mod 16; n / 256 mod 16; n / 16 mod 16; n mod 16]).
Definition quote : ascii := ascii_of_N 34.

(** One code point inside a JSON string. *)
Definition json_char (n : Z) : string :=
  if n =? 34 then String "\" (String quote "")
  else if n =? 92 then "\\"
  else if n =? 10 then "\n"
  else if n =? 13 then "\r"
  else if n =? 9 then "\t"
  else if n =? 12 then "\f"
  else if n =? 8 then "\b"
  else if (32 <=? n) && (n <=? 126) then String (ascii_of_N (Z.to_N n)) ""
  else if n <? 65536 then "\u" +:+ hex4 n
  else let v := n - 65536 in
       "\u" +:+ hex4 (55296 + v / 1024) +:+ "\u" +:+ hex4 (56320 + v mod 1024).

Definition json_string (s : string) : string :=
  String quote (String.concat "" (json_char <$> code_points s) +:+ String quote "").

Definition json_list (items : list string) : string := "[" +:+ String.concat "," items +:+ "]".

Definition json_field (key value : string) : string := json_string key +:+ ":" +:+ value.

Definition object_format_text (f : ObjectFormat.t) : string :=
  match f with ObjectFormat.sha1 => "sha1" | ObjectFormat.sha256 => "sha256" end.

(** The material [discover] hashes; its keys are in sorted order. *)
Definition identity_material (common : Path) (format : ObjectFormat.t) (roots : list string) : string :=
  "{" +:+ String.concat ","
    [json_field "common_git_directory" (json_string (replace_char backslash "/" (path_str common)));
     json_field "object_format" (json_string (object_format_text format));
     json_field "root_commits" (json_list (json_string <$> sorted_strings roots))] +:+ "}".

(** ** Text of results *)

Definition carriage_return : ascii := ascii_of_N 13.
Definition crlf : string := String carriage_return (String newline "").

Definition drop_last (n : nat) (s : string) : string := String.substring 0 (String.length s - n) s.

Definition malformed_output (label what : string) : exn :=
  MalformedGitOutputError ("Git " +:+ label +:+ what).

Definition _single_value (result : CommandResult) (label : string) : res string :=
  let text := out_text (cr_stdout result) in
  let value := if ends_with crlf text then drop_last 2 text
               else if ends_with (String newline "") text then drop_last 1 text else text in
  raise_if (String.eqb value "" || str_contains carriage_return value || str_contains newline value
            || str_contains nul value || contains_text replacement_character value)
    (malformed_output label " output is malformed") ;;
  mret value.

Definition remove_suffix (suffix s : string) : string :=
  if negb (String.eqb suffix "") && ends_with suffix s then drop_last (String.length suffix) s else s.

Definition _line_values (result : CommandResult) (label : string) : res (list string) :=
  let text := out_text (cr_stdout result) in
  raise_if (negb (ends_with (String newline "") text) || str_contains nul text
            || contains_text replacement_character text)
    (malformed_output label " output is incomplete") ;;
  let values := remove_suffix (String carriage_return "") <$> split_char newline (drop_last 1 text) in
  raise_if (existsb (fun value => String.eqb value "" || str_contains carriage_return value) values)
    (malformed_output label " output is malformed") ;;
  mret values.

(** [_is_commit] with an object format, and without. *)
Definition _is_commit (value : string) (format : option ObjectFormat.t) : bool :=
  forallb is_hex (String.list_ascii_of_string value)
  && match format with
     | Some ObjectFormat.sha256 => byte_len value =? 64
     | Some ObjectFormat.sha1 => byte_len value =? 40
     | None => (byte_len value =? 40) || (byte_len value =? 64)
     end.

(** ** The command surface *)

Definition _validate_command_surface (arguments : list string) : res unit :=
  let subcommand := head arguments in
  raise_if (negb (match subcommand with Some s => bool_decide (s ∈ _ALLOWED_SUBCOMMANDS) | None => false end))
    (GitCommandError "Git subcommand is outside the frozen P2-002 command surface") ;;
  raise_if (existsb (fun argument => bool_decide (argument ∈ _FORBIDDEN_ARGUMENTS)) arguments)
    (GitCommandError "destructive Git argument is forbidden") ;;
  raise_if (bool_decide (subcommand = Some "worktree")
            && negb (match arguments !! 1%nat with
                     | Some operation => bool_decide (operation ∈ ["list"; "add"; "remove"])
                     | None => false
                     end))
    (GitCommandError "Git worktree operation is not authorized") ;;
  raise_if (bool_decide (subcommand = Some "config")
            && negb (forallb (fun option => bool_decide (option ∈ arguments))
                       ["--local"; "--name-only"; "--get-regexp"]))
    (GitCommandError "only bounded local Git configuration inspection is authorized").

(** The adapter's attributes. *)
Record LocalGitRepository := mk_LocalGitRepository {
  _paths : PathPolicy;
  _worktree_root : Path;
  _ownership_root : Path;
  _protected : ProtectedBranchPolicy;
  _git_executable : string;
  _timeout : Z;
  _allow_unc : bool
}.

Definition _git_environment (hooks : Path) : res (list EnvironmentVariable) :=
  variables ← traverse (fun pair : string * string =>
                          validate_EnvironmentVariable (mk_EnvironmentVariable pair.1 pair.2))
    [("GIT_CONFIG_NOSYSTEM", "1"); ("GIT_CONFIG_GLOBAL", "/dev/null"); ("GIT_CONFIG_COUNT", "2");
     ("GIT_CONFIG_KEY_0", "core.hooksPath"); ("GIT_CONFIG_VALUE_0", path_str hooks);
     ("GIT_CONFIG_KEY_1", "core.fsmonitor"); ("GIT_CONFIG_VALUE_1", "false"); ("GIT_ATTR_NOSYSTEM", "1");
     ("GIT_TERMINAL_PROMPT", "0"); ("GCM_INTERACTIVE", "Never"); ("GIT_PAGER", "cat"); ("PAGER", "cat");
     ("GIT_EDITOR", "true"); ("GIT_SEQUENCE_EDITOR", "true"); ("LC_ALL", "C"); ("LANG", "C")] ;
  EnvironmentOverrides variables.

Definition git_request (g : LocalGitRepository) (directory : Path) (arguments : list string)
    (expected : list Z) (hex : string) : res CommandRequest :=
  environment ← _git_environment (disabled_hooks_path (_ownership_root g)) ;
  limits ← validate_OutputLimits (mk_OutputLimits _GIT_OUTPUT_LIMIT _GIT_OUTPUT_LIMIT 1) ;
  validate_CommandRequest
    (mk_CommandRequest (_git_executable g) arguments directory
       ("git-" +:+ default "" (head arguments) +:+ "-" +:+ hex) environment (_timeout g) None limits
       false expected None COMMAND_SCHEMA_VERSION).

(** What [_run] makes of a result. *)
Definition check_result (result : CommandResult) : res CommandResult :=
  if negb (bool_decide (cr_status result = CommandStatus.SUCCESS)) then
    match cf_category <$> cr_failure result with
    | Some CommandFailureCategory.EXECUTABLE_UNAVAILABLE =>
        Err (GitUnavailableError "configured Git executable is unavailable")
    | Some CommandFailureCategory.WORKING_DIRECTORY =>
        Err (GitPathPolicyError "Git working directory was rejected by command policy")
    | _ => Err (GitCommandError "controlled Git command did not complete successfully")
    end
  else
    raise_if (existsb (fun stream => out_truncated stream || out_redaction_truncated stream)
                [cr_stdout result; cr_stderr result])
      (MalformedGitOutputError "controlled Git output exceeded its bounded capture") ;;
    mret result.

Section LocalGit.
Context {E : Type} `{!GitHost E}.
Abbreviation W := (GitWorld E).

(** Hand a request to the runner. *)
Definition issue (request : CommandRequest) : M W CommandResult := fun w =>
  on_host (run_command request)
    (mk_GitWorld (host w) (issued w ++ [request]) (own_files w)).

(** [LocalGitRepository.__init__] *)
Definition make_LocalGitRepository (paths : PathPolicy) (worktrees ownership_root : Path)
    (protected : option ProtectedBranchPolicy) (git_executable : string) (timeout_seconds : Z)
    (unc : bool) : M W LocalGitRepository :=
  lift (raise_if (String.eqb git_executable "" || has_separator git_executable)
          (ValueError "Git executable must be a configured simple capability name")) ;;
  lift (raise_if (negb ((0 <? timeout_seconds) && (timeout_seconds <=? _GIT_TIMEOUT_SECONDS)))
          (ValueError "Git timeout must be positive and at most 60 seconds")) ;;
  resolved ← try_except (on_host (resolve_working_directory paths worktrees))
               (is_class "WorkingDirectoryPolicyError")
               (fun _ => raise (ValueError "worktree root is not approved by the command path policy")) ;
  lift (raise_if (_is_unc resolved && negb unc)
          (ValueError "UNC worktree roots require explicit authorization")) ;;
  mret (mk_LocalGitRepository paths resolved ownership_root (default default_branch_policy protected)
          git_executable timeout_seconds unc).

(** [_same_path] *)
Definition _same_path (left right : Path) : M W bool :=
  try_except
    (l ← on_host (fs_resolve false left) ;
     r ← on_host (fs_resolve false right) ;
     mret (String.eqb (path_str l) (path_str r))) is_os_error (fun _ => mret false).

Definition and_then (a b : M W bool) : M W bool := x ← a ; if (x : bool) then b else mret false.
Definition or_else (a b : M W bool) : M W bool := x ← a ; if (x : bool) then mret true else b.

(** [_same_repository] *)
Definition _same_repository (left right : RepositoryIdentity) : M W bool :=
  if negb (String.eqb (repository_id left) (repository_id right)) then mret false
  else and_then (_same_path (common_git_directory left) (common_git_directory right))
         (mret (bool_decide (object_format left = object_format right)
                && bool_decide (root_commits left = root_commits right))).

(** [any(test(item) for item in items)] and [[item for item in items if test(item)]] *)
Fixpoint any_item {A} (test : A -> M W bool) (items : list A) : M W bool :=
  match items with
  | [] => mret false
  | item :: items => or_else (test item) (any_item test items)
  end.

Fixpoint filter_items {A} (test : A -> M W bool) (items : list A) : M W (list A) :=
  match items with
  | [] => mret []
  | item :: items =>
      keep ← test item ;
      rest ← filter_items test items ;
      mret (if (keep : bool) then item :: rest else rest)
  end.

Variable g : LocalGitRepository.

Definition _run (directory : Path) (arguments : list string) (expected : list Z) : M W CommandResult :=
  lift (_validate_command_surface arguments) ;;
  hex ← on_host random_hex ;
  request ← lift (git_request g directory arguments expected hex) ;
  result ← issue request ;
  lift (check_result result).

(** A probe of a value on one line. *)
Definition probe (directory : Path) (arguments : list string) (label : string) : M W string :=
  result ← _run directory arguments [0] ;
  lift (_single_value result label).

Definition exited (code : Z) (result : CommandResult) : bool := bool_decide (cr_exit_code result = Some code).

Definition _approved_directory (path : Path) : M W Path :=
  lift (raise_if (_is_unc path && negb (_allow_unc g))
          (GitPathPolicyError "UNC repositories are not authorized")) ;;
  try_except (on_host (resolve_working_directory (_paths g) path)) (is_class "WorkingDirectoryPolicyError")
    (fun _ => raise (GitPathPolicyError "repository path is outside approved roots")).

Definition _git_path (directory : Path) (arguments : list string) (label : string) : M W Path :=
  raw_path ← probe directory arguments label ;
  path ← try_except (on_host (fs_resolve true (path_of raw_path))) is_os_error
           (fun _ => raise (MalformedGitOutputError ("Git " +:+ label +:+ " is unavailable"))) ;
  lift (raise_if (negb (path_absolute path) || _is_unc path && negb (_allow_unc g))
          (GitPathPolicyError ("Git " +:+ label +:+ " is outside the authorized filesystem form"))) ;;
  mret path.

Definition _resolve_commit (directory : Path) (revision : string) : M W string :=
  lift (validate_revision revision) ;;
  result ← _run directory ["rev-parse"; "--verify"; "--end-of-options"; revision +:+ "^{commit}"] [0; 128] ;
  lift (
    raise_if (negb (exited 0 result))
      (InvalidGitReferenceError "base revision does not resolve to a local commit") ;;
    value ← _single_value result "resolved commit" ;
    let commit := casefold value in
    raise_if (negb (_is_commit commit None)) (MalformedGitOutputError "Git returned a malformed commit identifier") ;;
    mret commit).

Definition parse_object_format (value : string) : res ObjectFormat.t :=
  if String.eqb value "sha1" then Ok ObjectFormat.sha1
  else if String.eqb value "sha256" then Ok ObjectFormat.sha256
  else Err (UnsupportedGitRepositoryError "Git object format is unsupported").

Definition discover (path : Path) : M W RepositoryIdentity :=
  directory ← _approved_directory path ;
  bare_result ← _run directory ["rev-parse"; "--is-bare-repository"] [0; 128] ;
  lift (raise_if (exited 128 bare_result) (NotGitRepositoryError "path is not inside a Git repository")) ;;
  bare ← lift (_single_value bare_result "bare-repository probe") ;
  lift (raise_if (String.eqb bare "true")
          (UnsupportedGitRepositoryError "bare Git repositories are not supported")) ;;
  inside_result ← _run directory ["rev-parse"; "--is-inside-work-tree"] [0; 128] ;
  let outside := NotGitRepositoryError "path is not inside a Git working tree" in
  lift (raise_if (exited 128 inside_result) outside) ;;
  inside ← lift (_single_value inside_result "working-tree probe") ;
  lift (raise_if (negb (String.eqb inside "true")) outside) ;;
  root ← _git_path directory ["rev-parse"; "--path-format=absolute"; "--show-toplevel"] "working-tree root" ;
  git_directory ← _git_path root ["rev-parse"; "--path-format=absolute"; "--git-dir"] "Git directory" ;
  common ← _git_path root ["rev-parse"; "--path-format=absolute"; "--git-common-dir"] "common Git directory" ;
  lift (raise_if (negb (_contains common git_directory))
          (UnsupportedGitRepositoryError "Git directory is outside its common repository")) ;;
  format_text ← probe root ["rev-parse"; "--show-object-format"] "object format" ;
  format ← lift (parse_object_format format_text) ;
  head ← _resolve_commit root "HEAD" ;
  roots_result ← _run root ["rev-list"; "--max-parents=0"; head] [0] ;
  lift (
    roots ← _line_values roots_result "root commits" ;
    raise_if (bool_decide (roots = []) || existsb (fun value => negb (_is_commit value (Some format))) roots)
      (MalformedGitOutputError "Git root-commit output is malformed") ;;
    validate_RepositoryIdentity
      (mk_RepositoryIdentity ("repo_" +:+ sha256_hex (identity_material common format roots))
         root git_directory common format (sorted_strings roots) GIT_SCHEMA_VERSION)).

Definition _default_branch (directory : Path) : M W (option string) :=
  result ← _run directory ["symbolic-ref"; "--quiet"; "--short"; "refs/remotes/origin/HEAD"] [0; 1; 128] ;
  if negb (exited 0 result) then mret None
  else
    value ← lift (_single_value result "default branch") ;
    mret (Some (if starts_with "origin/" value then remove_prefix "origin/" value else value)).

(** The flags of an operation in progress, in the order of [RepositoryStatus]. *)
Record Operations := mk_Operations {
  op_merge : bool; op_rebase : bool; op_cherry_pick : bool; op_revert : bool; op_bisect : bool;
  op_sequencer : bool
}.

Definition _operation_status (identity : RepositoryIdentity) : M W Operations :=
  let there name := on_host (fs_exists (joinpath (git_directory identity) [name])) in
  merge ← there "MERGE_HEAD" ;
  rebase ← or_else (there "rebase-apply") (there "rebase-merge") ;
  cherry_pick ← there "CHERRY_PICK_HEAD" ;
  revert ← there "REVERT_HEAD" ;
  bisect ← there "BISECT_START" ;
  sequencer ← there "sequencer" ;
  mret (mk_Operations merge rebase cherry_pick revert bisect sequencer).

Definition with_operations (s : RepositoryStatus) (o : Operations) : RepositoryStatus :=
  mk_RepositoryStatus (staged_paths s) (unstaged_paths s) (untracked_paths s) (conflicted_paths s)
    (ignored_paths s) (op_merge o) (op_rebase o) (op_cherry_pick o) (op_revert o) (op_bisect o)
    (op_sequencer o) GIT_SCHEMA_VERSION.

Definition inspect (path : Path) : M W RepositorySnapshot :=
  identity ← discover path ;
  let root := worktree_root identity in
  status_result ← _run root ["status"; "--porcelain=v2"; "-z"; "--branch"; "--untracked-files=all";
                             "--ignored=matching"] [0] ;
  parsed ← lift (parse_status_porcelain_v2 (out_text (cr_stdout status_result))) ;
  lift (raise_if (negb (_is_commit (ps_head_commit parsed) (Some (object_format identity))))
          (MalformedGitOutputError "Git status HEAD is malformed")) ;;
  head_commit ← _resolve_commit root "HEAD" ;
  lift (raise_if (negb (String.eqb (ps_head_commit parsed) head_commit))
          (UnsafeRepositoryStateError "repository HEAD changed during inspection")) ;;
  listing ← _run root ["worktree"; "list"; "--porcelain"; "-z"] [0] ;
  worktrees ← parse_worktree_porcelain (fun p => on_host (fs_resolve false p)) (out_text (cr_stdout listing)) ;
  default_branch ← _default_branch root ;
  operations ← _operation_status identity ;
  lift (
    status ← validate_RepositoryStatus (with_operations (ps_status parsed) operations) ;
    validate_RepositorySnapshot
      (mk_RepositorySnapshot identity (ps_branch parsed) (ps_detached parsed) head_commit
         (ps_upstream parsed) default_branch status worktrees GIT_SCHEMA_VERSION)).

Definition check_ignore (directory candidate : Path) : M W CommandResult :=
  _run directory ["check-ignore"; "--quiet"; "--no-index"; "--"; path_str candidate] [0; 1].

Definition is_path_ignored (repository_root relative_path : Path) : M W bool :=
  identity ← discover repository_root ;
  try_except (on_host (resolve_relative (_paths g) (worktree_root identity) relative_path false))
    (is_class "WorkingDirectoryPolicyError")
    (fun _ => raise (GitPathPolicyError "ignored-path candidate is outside the repository")) ;;
  result ← check_ignore (worktree_root identity) (joinpath relative_path [".revanent-ignore-probe"]) ;
  mret (exited 0 result).

(** ** Preconditions of a creation *)

Definition _require_safe_source (snapshot : RepositorySnapshot) : res unit :=
  let status := rs_status snapshot in
  raise_if (negb (bool_decide (conflicted_paths status = [])) || operation_in_progress status)
    (UnsafeRepositoryStateError "repository has conflicts or an in-progress Git operation") ;;
  raise_if (has_changes status)
    (DirtyRepositoryError "repository contains unexplained staged, unstaged, or untracked work").

Definition _require_no_collisions (snapshot : RepositorySnapshot) (target : Path) (branch : string)
    : M W unit :=
  taken ← on_host (fs_lexists target) ;
  lift (raise_if taken (WorktreeCollisionError "worktree target already exists")) ;;
  registered ← any_item (fun item => _same_path (wts_path item) target) (rs_worktrees snapshot) ;
  lift (raise_if registered (WorktreeCollisionError "worktree target is already registered")) ;;
  lift (raise_if (existsb (fun item => bool_decide (wts_branch item = Some branch)) (rs_worktrees snapshot))
          (BranchCollisionError "worktree branch is checked out elsewhere")) ;;
  result ← _run (worktree_root (rs_identity snapshot))
             ["show-ref"; "--verify"; "--quiet"; "refs/heads/" +:+ branch] [0; 1] ;
  lift (raise_if (exited 0 result) (BranchCollisionError "worktree branch already exists")).

Definition _check_branch_with_git (directory : Path) (branch : string) : M W unit :=
  result ← _run directory ["check-ref-format"; "--branch"; branch] [0; 1; 128] ;
  lift (raise_if (negb (exited 0 result))
          (InvalidGitReferenceError "Git rejected the dedicated branch name")).

Definition _ensure_checkout_configuration_safe (directory : Path) : M W unit :=
  result ← _run directory ["config"; "--local"; "--includes"; "--name-only"; "--null"; "--get-regexp";
                           _UNSAFE_FILTER_PATTERN] [0; 1] ;
  lift (raise_if (exited 0 result && negb (String.eqb (out_text (cr_stdout result)) ""))
          (UnsafeRepositoryStateError
             "repository-configured checkout filters are not allowed for worktree creation")).

Definition ensure_root_ignored (source : RepositorySnapshot) (root : Path) : M W unit :=
  let directory := worktree_root (rs_identity source) in
  if negb (_contains directory root) then mret tt
  else
    result ← check_ignore directory root ;
    lift (raise_if (negb (exited 0 result))
            (UnsafeRepositoryStateError
               "Revanent state inside the source worktree must already be ignored")).

Definition _ensure_internal_roots_do_not_dirty_source (source : RepositorySnapshot) : M W unit :=
  ensure_root_ignored source (_worktree_root g) ;;
  ensure_root_ignored source (_ownership_root g).

Definition path_outside : exn := GitPathPolicyError "worktree target is outside the approved root".

Definition _validate_target (path : Path) (must_exist : bool) : M W Path :=
  lift (raise_if (negb (path_absolute path))
          (GitPathPolicyError "worktree target must be an absolute pathlib path")) ;;
  lift (raise_if (_is_unc path && negb (_allow_unc g))
          (GitPathPolicyError "UNC worktree targets are not authorized")) ;;
  resolved ← try_except
    (relative ← lift (match relative_to path (_worktree_root g) with
                      | Some relative => Ok relative
                      | None => reject "path is not in the subpath"
                      end) ;
     lift (raise_if (bool_decide (path_parts relative = []))
             (GitPathPolicyError "worktree target cannot replace the worktree root")) ;;
     on_host (resolve_relative (_paths g) (_worktree_root g) relative must_exist))
    (fun e => is_ValueError e || is_class "WorkingDirectoryPolicyError" e)
    (fun _ => raise path_outside) ;
  if must_exist then mret resolved
  else
    parent ← try_except (on_host (fs_resolve true (path_parent resolved))) is_os_error
               (fun _ => raise (GitPathPolicyError "worktree target parent must already exist")) ;
    lift (raise_if (negb (_contains (_worktree_root g) parent))
            (GitPathPolicyError "worktree target parent escapes the approved root")) ;;
    mret resolved.

(** ** Verification *)

(** The live target of a record: it exists, resolved strictly. *)
Definition live_target (record : WorktreeOwnershipRecord) : M W Path :=
  target ← _validate_target (wor_worktree_path record) false ;
  there ← on_host (fs_exists target) ;
  link ← (if (there : bool) then mret true else on_host (fs_is_symlink target)) ;
  lift (raise_if (negb link) (StaleOwnershipRecordError "owned worktree path no longer exists")) ;;
  _validate_target (wor_worktree_path record) true.

Definition _verify_record (record : WorktreeOwnershipRecord) (require_active : bool)
    : M W WorktreeVerificationResult :=
  lift (raise_if (require_active
                  && negb (bool_decide (lifecycle_status record = WorktreeLifecycleStatus.ACTIVE)))
          (StaleOwnershipRecordError "ownership record is not active")) ;;
  target ← live_target record ;
  snapshots ← try_except
    (source ← inspect (worktree_root (wor_repository record)) ;
     live ← inspect target ;
     mret (source, live)) is_git_error
    (fun _ => raise (OwnershipMismatchError "recorded repository or worktree cannot be verified")) ;
  let '(source, live) := snapshots in
  same ← and_then (_same_repository (wor_repository record) (rs_identity source))
           (_same_repository (wor_repository record) (rs_identity live)) ;
  lift (raise_if (negb same)
          (OwnershipMismatchError "live repository identity does not match ownership evidence")) ;;
  rooted ← _same_path (worktree_root (rs_identity live)) target ;
  lift (raise_if (negb rooted)
          (OwnershipMismatchError "live worktree root does not match ownership evidence")) ;;
  matching ← filter_items (fun item => _same_path (wts_path item) target) (rs_worktrees source) ;
  match matching with
  | [worktree] =>
      lift (raise_if (negb (bool_decide (wts_branch worktree = Some (wor_branch_name record)))
                      || negb (bool_decide (rs_branch live = Some (wor_branch_name record)))
                      || negb (String.eqb (wts_head_commit worktree) (rs_head_commit live)))
              (OwnershipMismatchError "live branch or HEAD does not match ownership evidence")) ;;
      lift (require_mutable_owned_branch (_protected g) (wor_branch_name record) (default_branch source)) ;;
      ancestry ← _run target ["merge-base"; "--is-ancestor"; base_commit record; rs_head_commit live] [0; 1] ;
      lift (raise_if (negb (exited 0 ancestry))
              (OwnershipMismatchError "owned worktree HEAD is not descended from its recorded base")) ;;
      mret (mk_WorktreeVerificationResult record worktree live)
  | _ => raise (StaleOwnershipRecordError "owned worktree is not uniquely registered by Git")
  end.

Definition verify_owned_worktree (worktree_id : string) : M W WorktreeVerificationResult :=
  record ← _load_unlocked (_ownership_root g) worktree_id ;
  _verify_record record true.

Definition _verify_removed_record (record : WorktreeOwnershipRecord) : M W unit :=
  source ← try_except (inspect (worktree_root (wor_repository record))) is_git_error
             (fun _ => raise (OwnershipMismatchError
                                "cleaned ownership record no longer matches a live repository")) ;
  same ← _same_repository (wor_repository record) (rs_identity source) ;
  lift (raise_if (negb same)
          (OwnershipMismatchError "cleaned ownership record repository identity changed")) ;;
  registered ← any_item (fun item => _same_path (wts_path item) (wor_worktree_path record))
                 (rs_worktrees source) ;
  lift (raise_if registered
          (StaleOwnershipRecordError "cleaned ownership record path is registered again")).

(** ** Creation *)

Definition _replace_lifecycle (r : WorktreeOwnershipRecord) (status : WorktreeLifecycleStatus.t)
    (category : option GitErrorCategory.t) (head : option string) (cleaned : option datetime)
    : res WorktreeOwnershipRecord :=
  validate_WorktreeOwnershipRecord
    (mk_WorktreeOwnershipRecord (wor_worktree_id r) (wor_run_id r) (wor_repository r)
       (wor_worktree_path r) (wor_branch_name r) (base_commit r) (created_head r) (wor_created_at r)
       (revanent_version r) status category head cleaned (wor_schema_version r)).

(** [_preserve_partial]: the record with the category, written if it can be. *)
Definition _preserve_partial (record : WorktreeOwnershipRecord) (category : GitErrorCategory.t) : M W unit :=
  partial ← lift (_replace_lifecycle record WorktreeLifecycleStatus.PARTIAL (Some category)
                    (cleanup_head record) (cleaned_at record)) ;
  suppress any_exception
    (lease_write (_ownership_root g) (wor_worktree_id record) partial true).

(** What is done under the lease once the creating record is written. *)
Definition create_leased (record : WorktreeOwnershipRecord) (revision : string) : M W WorktreeCreationResult :=
  let source := wor_repository record in
  current ← inspect (worktree_root source) ;
  lift (_require_safe_source current) ;;
  same ← _same_repository source (rs_identity current) ;
  lift (raise_if (negb same) (UnsafeRepositoryStateError "repository identity changed before creation")) ;;
  let directory := worktree_root (rs_identity current) in
  commit ← _resolve_commit directory revision ;
  lift (raise_if (negb (String.eqb commit (base_commit record)))
          (UnsafeRepositoryStateError "base revision changed before creation")) ;;
  _require_no_collisions current (wor_worktree_path record) (wor_branch_name record) ;;
  _run directory ["worktree"; "add"; "-b"; wor_branch_name record; "--";
                  path_str (wor_worktree_path record); base_commit record] [0] ;;
  verified ← _verify_record record false ;
  lift (raise_if (negb (String.eqb (wts_head_commit (vres_worktree verified)) (base_commit record)))
          (OwnershipMismatchError "created worktree HEAD does not match its immutable base")) ;;
  active ← lift (_replace_lifecycle record WorktreeLifecycleStatus.ACTIVE (last_error_category record)
                   (cleanup_head record) (cleaned_at record)) ;
  lease_write (_ownership_root g) (wor_worktree_id record) active true ;;
  mret (mk_WorktreeCreationResult active (vres_worktree verified)).

Definition record_conflict : exn :=
  OwnershipRecordConflictError "an ownership record already exists for the requested worktree".
Definition partial_creation : exn :=
  PartialWorktreeCreationError "worktree creation was incomplete; ownership evidence was preserved".

(** The handlers of a failed creation. *)
Definition creation_failed (record : WorktreeOwnershipRecord) (e : exn) : M W WorktreeCreationResult :=
  _preserve_partial record (default GitErrorCategory.GIT_COMMAND (git_category e)) ;;
  raise partial_creation.

(** The body of the lease. *)
Definition create_under_lease (record : WorktreeOwnershipRecord) (revision : string)
    : M W WorktreeCreationResult :=
  let id := wor_worktree_id record in
  exists_ ← record_exists (_ownership_root g) id ;
  lift (raise_if exists_ record_conflict) ;;
  lease_write (_ownership_root g) id record false ;;
  try_except (create_leased record revision) any_exception (creation_failed record).

(** Everything before the lease: the record to write and the revision it resolves. *)
Definition prepare_creation (request : WorktreeCreationRequest) : M W (WorktreeOwnershipRecord * string) :=
  source ← inspect (source_path request) ;
  lift (_require_safe_source source) ;;
  branch ← lift (require_mutable_owned_branch (_protected g) (wcr_branch_name request)
                   (default_branch source)) ;
  let directory := worktree_root (rs_identity source) in
  _check_branch_with_git directory branch ;;
  revision ← lift (validate_revision (base_revision request)) ;
  commit ← _resolve_commit directory revision ;
  target ← _validate_target (target_path request) false ;
  _ensure_internal_roots_do_not_dirty_source source ;;
  _ensure_checkout_configuration_safe directory ;;
  let id := wcr_worktree_id request in
  exists_ ← record_exists (_ownership_root g) id ;
  lift (raise_if exists_ record_conflict) ;;
  _require_no_collisions source target branch ;;
  now ← on_host utc_now ;
  creating ← lift (validate_WorktreeOwnershipRecord
                     (mk_WorktreeOwnershipRecord id (wcr_run_id request) (rs_identity source) target
                        branch commit commit now package_version WorktreeLifecycleStatus.CREATING
                        None None None OWNERSHIP_SCHEMA_VERSION)) ;
  mret (creating, revision).

Definition create_worktree (request : WorktreeCreationRequest) : M W WorktreeCreationResult :=
  prepared ← prepare_creation request ;
  acquire (_ownership_root g) (wcr_worktree_id request) (create_under_lease prepared.1 prepared.2).

(** ** Removal *)

(** Why normal cleanup refuses a verified worktree. *)
Definition require_removable (verified : WorktreeVerificationResult) : res unit :=
  let status := rs_status (vres_repository verified) in
  raise_if (negb (is_clean status))
    (WorktreeCleanupRefusedError "owned worktree has changes or an in-progress Git operation") ;;
  raise_if (negb (bool_decide (ignored_paths status = [])))
    (WorktreeCleanupRefusedError
       "owned worktree contains ignored files that normal cleanup could destroy") ;;
  raise_if (is_some (locked_reason (vres_worktree verified)))
    (WorktreeCleanupRefusedError "owned worktree is locked in the Git registry").

(** What follows a verification that allows the removal. *)
Definition remove_verified (worktree_id : string) (record : WorktreeOwnershipRecord)
    (verified : WorktreeVerificationResult) : M W WorktreeCleanupResult :=
  let directory := worktree_root (wor_repository record) in
  try_except (_run directory ["worktree"; "remove"; "--"; path_str (wor_worktree_path record)] [0])
    (has_category GitErrorCategory.GIT_COMMAND)
    (fun _ => raise (WorktreeCleanupRefusedError
                       "normal Git worktree removal was refused; no force retry was attempted")) ;;
  source_after ← inspect directory ;
  registered ← any_item (fun item => _same_path (wts_path item) (wor_worktree_path record))
                 (rs_worktrees source_after) ;
  lift (raise_if registered
          (WorktreeCleanupRefusedError "Git still registers the worktree after normal removal")) ;;
  now ← on_host utc_now ;
  removed ← lift (_replace_lifecycle record WorktreeLifecycleStatus.REMOVED (last_error_category record)
                    (Some (wts_head_commit (vres_worktree verified))) (Some now)) ;
  lease_write (_ownership_root g) worktree_id removed true ;;
  mret (mk_WorktreeCleanupResult GitOperationStatus.REMOVED removed).

(** The removal of an active worktree, under its lease. *)
Definition remove_active (worktree_id : string) (record : WorktreeOwnershipRecord) : M W WorktreeCleanupResult :=
  verified ← _verify_record record true ;
  lift (require_removable verified) ;;
  remove_verified worktree_id record verified.

Definition cleanup_under_lease (worktree_id : string) : M W WorktreeCleanupResult :=
  record ← _load_unlocked (_ownership_root g) worktree_id ;
  match lifecycle_status record with
  | WorktreeLifecycleStatus.REMOVED =>
      _verify_removed_record record ;;
      mret (mk_WorktreeCleanupResult GitOperationStatus.ALREADY_REMOVED record)
  | WorktreeLifecycleStatus.ACTIVE => remove_active worktree_id record
  | _ => raise (StaleOwnershipRecordError "partial or creating ownership records require manual recovery")
  end.

Definition cleanup_worktree (worktree_id : string) : M W WorktreeCleanupResult :=
  acquire (_ownership_root g) worktree_id (cleanup_under_lease worktree_id).
End LocalGit.
