(* ===== verification/LocalGitSafety.v ===== *)
(** * What the Git adapter may do

    Every command of the adapter belongs to a short list of inspections, apart from
    one [worktree add] per creation and one [worktree remove] per cleanup.  A
    creation leaves a durable ownership record of the worktree it asked Git for,
    whatever fails; a cleanup removes only what was verified clean, and keeps its
    record. *)

From Stdlib Require Import ZArith Lia Ascii String.
From S2P Require Import Prelude Text Domain Effects Commands GitPort CommandPolicy GitPolicy GitPorcelain Ownership OwnershipSafety LocalGit.
From stdpp Require Import base option strings numbers gmap sets list list_relations.

Open Scope Z_scope.

(** ** The commands that only look *)

Inductive inspection : list string -> Prop :=
| probe_bare : inspection ["rev-parse"; "--is-bare-repository"]
| probe_inside : inspection ["rev-parse"; "--is-inside-work-tree"]
| probe_root : inspection ["rev-parse"; "--path-format=absolute"; "--show-toplevel"]
| probe_directory : inspection ["rev-parse"; "--path-format=absolute"; "--git-dir"]
| probe_common : inspection ["rev-parse"; "--path-format=absolute"; "--git-common-dir"]
| probe_format : inspection ["rev-parse"; "--show-object-format"]
| probe_commit revision : inspection ["rev-parse"; "--verify"; "--end-of-options"; revision +:+ "^{commit}"]
| list_roots head : inspection ["rev-list"; "--max-parents=0"; head]
| read_status : inspection ["status"; "--porcelain=v2"; "-z"; "--branch"; "--untracked-files=all";
                            "--ignored=matching"]
| list_worktrees : inspection ["worktree"; "list"; "--porcelain"; "-z"]
| read_default : inspection ["symbolic-ref"; "--quiet"; "--short"; "refs/remotes/origin/HEAD"]
| probe_ignored path : inspection ["check-ignore"; "--quiet"; "--no-index"; "--"; path]
| probe_branch branch : inspection ["show-ref"; "--verify"; "--quiet"; "refs/heads/" +:+ branch]
| check_format branch : inspection ["check-ref-format"; "--branch"; branch]
| read_filters : inspection ["config"; "--local"; "--includes"; "--name-only"; "--null"; "--get-regexp";
                             _UNSAFE_FILTER_PATTERN]
| probe_ancestor base head : inspection ["merge-base"; "--is-ancestor"; base; head].

(** The two commands that change a repository. *)
Definition add_arguments (record : WorktreeOwnershipRecord) : list string :=
  ["worktree"; "add"; "-b"; wor_branch_name record; "--"; path_str (wor_worktree_path record);
   base_commit record].
Definition remove_arguments (record : WorktreeOwnershipRecord) : list string :=
  ["worktree"; "remove"; "--"; path_str (wor_worktree_path record)].

(** The environment every command runs with. *)
Definition frozen_environment (hooks : Path) : list EnvironmentVariable :=
  (fun p : string * string => mk_EnvironmentVariable p.1 p.2) <$>
    [("GIT_CONFIG_NOSYSTEM", "1"); ("GIT_CONFIG_GLOBAL", "/dev/null"); ("GIT_CONFIG_COUNT", "2");
     ("GIT_CONFIG_KEY_0", "core.hooksPath"); ("GIT_CONFIG_VALUE_0", path_str hooks);
     ("GIT_CONFIG_KEY_1", "core.fsmonitor"); ("GIT_CONFIG_VALUE_1", "false"); ("GIT_ATTR_NOSYSTEM", "1");
     ("GIT_TERMINAL_PROMPT", "0"); ("GCM_INTERACTIVE", "Never"); ("GIT_PAGER", "cat"); ("PAGER", "cat");
     ("GIT_EDITOR", "true"); ("GIT_SEQUENCE_EDITOR", "true"); ("LC_ALL", "C"); ("LANG", "C")].

Lemma git_environment_Ok hooks variables :
  _git_environment hooks = Ok variables -> variables = frozen_environment hooks.
Proof.
  unfold _git_environment. set (pairs := [("GIT_CONFIG_NOSYSTEM", "1"); _; _; _; _; _; _; _; _; _; _; _; _; _; _; _]).
  intros H. apply bind_Ok in H as (vs & Hvs & H). unfold EnvironmentOverrides in H. inv_valid.
  assert (Hall : forall ps ws, traverse (fun pair : string * string =>
              validate_EnvironmentVariable (mk_EnvironmentVariable pair.1 pair.2)) ps = Ok ws ->
            ws = (fun p : string * string => mk_EnvironmentVariable p.1 p.2) <$> ps).
  { clear. induction ps as [|p ps IH]; cbn [traverse]; intros ws H; [by injection H as <-|].
    destruct (validate_EnvironmentVariable _) as [v|] eqn:Hv; [|done].
    unfold validate_EnvironmentVariable in Hv. inv_valid.
    destruct (traverse _ ps) as [ws'|]; [|done]. injection H as <-. cbn. by rewrite (IH ws'). }
  apply (Hall _ _ Hvs).
Qed.

Section Safety.
Context {E : Type} `{!GitHost E} (g : LocalGitRepository).
Abbreviation W := (GitWorld E).
Implicit Types (w : W).

(** A request of the adapter whose arguments satisfy [P]: the configured program,
    the fixed environment and no destructive option. *)
Definition frozen (P : list string -> Prop) (request : CommandRequest) : Prop :=
  P (req_arguments request)
  /\ req_executable request = _git_executable g
  /\ req_environment request = frozen_environment (disabled_hooks_path (_ownership_root g))
  /\ req_timeout_seconds request = _timeout g
  /\ req_stdin request = None /\ req_artifact_directory request = None
  /\ Forall (fun argument => argument ∉ _FORBIDDEN_ARGUMENTS) (req_arguments request).

Lemma frozen_mono (P Q : list string -> Prop) request :
  (forall arguments, P arguments -> Q arguments) -> frozen P request -> frozen Q request.
Proof. unfold frozen. intros HPQ (H & ?). split; [by apply HPQ | done]. Qed.

Lemma git_request_frozen (P : list string -> Prop) directory arguments expected hex request :
  P arguments -> _validate_command_surface arguments = Ok tt ->
  git_request g directory arguments expected hex = Ok request -> frozen P request.
Proof.
  intros HP Hs. unfold git_request. intros H. apply bind_Ok in H as (environment & He & H).
  apply git_environment_Ok in He as ->. unfold validate_CommandRequest in H. inv_valid.
  unfold frozen. cbn. split_and!; try done.
  unfold _validate_command_surface in Hs. inv_valid.
  match goal with H : existsb _ arguments = false |- _ => apply existsb_false in H; rename H into Hf end.
  eapply Forall_impl; [exact Hf|]. cbn. intros a Ha. by apply bool_decide_eq_false in Ha.
Qed.

(** Only commands with [P], and no change of the ownership directory. *)
Definition issues (P : list string -> Prop) w w' : Prop :=
  own_files w' = own_files w /\ exists new, issued w' = issued w ++ new /\ Forall (frozen P) new.

#[export] Instance issues_confined P : Confined (issues P).
Proof.
  split.
  - intros w. split; [done|]. exists []. rewrite app_nil_r. done.
  - intros w1 w2 w3 [Hf1 (n1 & Hn1 & H1)] [Hf2 (n2 & Hn2 & H2)]. split; [congruence|].
    exists (n1 ++ n2). rewrite Hn2, Hn1, app_assoc. split; [done|]. by apply Forall_app.
Qed.

Lemma disk_issues P {A} (m : M W A) : only same_disk m -> only (issues P) m.
Proof. intros Hm w. destruct (Hm w) as [Hi Hf]. split; [done|]. exists []. by rewrite app_nil_r. Qed.

Lemma on_host_issues P {A} (m : M E A) : only (issues P) (on_host m).
Proof. apply disk_issues, on_host_disk. Qed.

Lemma run_issues (P : list string -> Prop) directory arguments expected :
  P arguments -> only (issues P) (_run g directory arguments expected).
Proof.
  intros HP. unfold _run. intros w. unfold mbind, M_bind, lift.
  destruct (_validate_command_surface arguments) as [[]|e] eqn:Hs; [|apply confined_refl].
  destruct (on_host random_hex w) as [w1 [hex|e]] eqn:H1;
    apply (only_run _ _ _ _ _ (on_host_issues P _)) in H1; [|done].
  destruct (git_request _ _ _ _ _) as [request|e] eqn:Hr; [|done].
  apply (git_request_frozen P) in Hr; [|done|done]. eapply confined_trans; [exact H1|].
  unfold issue. set (w2 := mk_GitWorld _ _ _). destruct (on_host (run_command request) w2) as [w3 r] eqn:H3.
  apply (only_run _ _ _ _ _ (on_host_disk _)) in H3 as [Hi Hf].
  assert (issues P w1 w3).
  { split; [done|]. exists [request]. split; [done|]. by constructor. }
  by destruct r.
Qed.

(** ** Inspections *)

Abbreviation looks := (only (issues inspection)).

Lemma lift_issues P {A} (r : res A) : only (issues P) (lift r).
Proof. apply only_reads; [exact _ | apply reads_lift]. Qed.

(** Walk through a method that only inspects. *)
Ltac look_step :=
  match goal with
  | |- only _ (mbind _ _) => apply only_bind; [exact _| |intros ?]
  | |- only _ (fmap _ _) => apply only_fmap
  | |- only _ (try_except _ _ _) => apply only_try; [exact _| |intros ?]
  | |- only _ (lift _) => apply lift_issues
  | |- only _ (mret _) => apply only_reads; [exact _ | apply reads_ret]
  | |- only _ (raise _) => apply only_reads; [exact _ | apply reads_raise]
  | |- only _ (gets _) => apply only_reads; [exact _ | apply reads_gets]
  | |- only _ (on_host _) => apply on_host_issues
  | |- only _ (call _ _) => apply on_host_issues
  | |- only _ (_run _ _ _ _) => apply run_issues; constructor
  | |- only _ (let '(_, _) := ?x in _) => destruct x
  | |- only _ (match ?x with _ => _ end) => destruct x
  | |- only _ _ => solve [auto with git]
  end.
Ltac solve_looks := repeat look_step.

Create HintDb git.

Lemma resolve_commit_looks directory revision : looks (_resolve_commit g directory revision).
Proof. unfold _resolve_commit. solve_looks. Qed.
Lemma git_path_looks directory arguments label :
  inspection arguments -> looks (_git_path g directory arguments label).
Proof. intros H. unfold _git_path, probe. solve_looks. by apply run_issues. Qed.
Hint Resolve resolve_commit_looks : git.
Hint Extern 1 (only _ (_git_path _ _ _ _)) => apply git_path_looks; constructor : git.

Lemma discover_looks path : looks (discover g path).
Proof. unfold discover, _approved_directory, probe. solve_looks. Qed.
Hint Resolve discover_looks : git.

Lemma finish_looks values : looks (_finish_worktree (fun p => on_host (fs_resolve false p)) values).
Proof. unfold _finish_worktree. solve_looks. Qed.
Hint Resolve finish_looks : git.

Lemma worktree_loop_looks records current found :
  looks (worktree_loop (fun p => on_host (fs_resolve false p)) records current found).
Proof.
  revert current found. induction records as [|r records IH]; intros current found; cbn [worktree_loop];
    solve_looks; auto.
Qed.
Hint Resolve worktree_loop_looks : git.

Lemma or_else_looks (a b : M W bool) : looks a -> looks b -> looks (or_else a b).
Proof. intros. unfold or_else. by solve_looks. Qed.
Lemma and_then_looks (a b : M W bool) : looks a -> looks b -> looks (and_then a b).
Proof. intros. unfold and_then. by solve_looks. Qed.
Hint Resolve or_else_looks and_then_looks : git.

Lemma same_path_looks a b : looks (_same_path a b).
Proof. unfold _same_path. solve_looks. Qed.
Hint Resolve same_path_looks : git.

Lemma same_repository_looks a b : looks (_same_repository a b).
Proof. unfold _same_repository. solve_looks. apply and_then_looks; solve_looks. Qed.

Lemma any_item_looks {A} (test : A -> M W bool) items : (forall a, looks (test a)) -> looks (any_item test items).
Proof.
  intros Ht. induction items as [|a items IH]; cbn [any_item]; [solve_looks|]. by apply or_else_looks.
Qed.
Lemma filter_items_looks {A} (test : A -> M W bool) items :
  (forall a, looks (test a)) -> looks (filter_items test items).
Proof. intros Ht. induction items as [|a items IH]; cbn [filter_items]; solve_looks; auto. Qed.
Hint Resolve same_repository_looks any_item_looks filter_items_looks : git.

Lemma operations_looks identity : looks (_operation_status identity).
Proof. unfold _operation_status. solve_looks. apply or_else_looks; solve_looks. Qed.
Hint Resolve operations_looks : git.

Lemma inspect_looks path : looks (inspect g path).
Proof. unfold inspect, parse_worktree_porcelain, _default_branch. solve_looks. Qed.
Hint Resolve inspect_looks : git.

Lemma is_path_ignored_looks root path : looks (is_path_ignored g root path).
Proof. unfold is_path_ignored, check_ignore. solve_looks. Qed.

Lemma validate_target_looks path must_exist : looks (_validate_target g path must_exist).
Proof. unfold _validate_target. solve_looks. Qed.
Hint Resolve validate_target_looks : git.

Lemma verify_record_looks record active : looks (_verify_record g record active).
Proof. unfold _verify_record, live_target. solve_looks. Qed.
Hint Resolve verify_record_looks : git.

Lemma no_collisions_looks snapshot target branch : looks (_require_no_collisions g snapshot target branch).
Proof. unfold _require_no_collisions. solve_looks. Qed.
Hint Resolve no_collisions_looks : git.

Lemma load_looks id : looks (_load_unlocked (_ownership_root g) id).
Proof. apply disk_issues. intros w. destruct (_load_unlocked _ _ _) as [w' r] eqn:H. by apply load_effect in H as []. Qed.
Hint Resolve load_looks : git.

Lemma verify_looks id : looks (verify_owned_worktree g id).
Proof. unfold verify_owned_worktree. solve_looks. Qed.

(** Looking at a repository changes nothing.  Whatever the host answers,
    [discover], [inspect], [is_path_ignored] and [verify_owned_worktree] leave the
    ownership directory as it is and run only inspections: commands of the list above,
    with the configured program, the fixed environment that disables hooks, prompts,
    pagers and the user's configuration, without standard input and without any
    destructive option. *)
Theorem inspections_only path root relative id :
  only (issues inspection) (discover g path)
  /\ only (issues inspection) (inspect g path)
  /\ only (issues inspection) (is_path_ignored g root relative)
  /\ only (issues inspection) (verify_owned_worktree g id).
Proof.
  split_and!; [apply discover_looks | apply inspect_looks | apply is_path_ignored_looks | apply verify_looks].
Qed.

(** ** Evidence of a creation *)

(** The same worktree in another stage of its life. *)
Definition same_worktree (record kept : WorktreeOwnershipRecord) : Prop :=
  exists status category head cleaned,
    kept = mk_WorktreeOwnershipRecord (wor_worktree_id record) (wor_run_id record) (wor_repository record)
      (wor_worktree_path record) (wor_branch_name record) (base_commit record) (created_head record)
      (wor_created_at record) (revanent_version record) status category head cleaned
      (wor_schema_version record).

Definition holds (kept : WorktreeOwnershipRecord) w : Prop :=
  own_files w !! record_file (wor_worktree_id kept) = Some (Regular (record_payload kept)).

Definition evidence (record : WorktreeOwnershipRecord) w : Prop :=
  exists kept, same_worktree record kept /\ holds kept w.

Lemma same_worktree_refl record : same_worktree record record.
Proof. destruct record. by repeat eexists. Qed.

Lemma same_worktree_id record kept : same_worktree record kept -> wor_worktree_id kept = wor_worktree_id record.
Proof. by intros (?&?&?&?&->). Qed.

(** One computation has one result. *)
Ltac join_results :=
  repeat match goal with
  | H1 : ?a = Ok ?x, H2 : ?a = Ok ?y |- _ => rewrite H1 in H2; injection H2 as H2; subst
  end.

(** A valid record in another stage keeps its other fields. *)
Lemma replace_lifecycle_same record status category head cleaned kept :
  validate_WorktreeOwnershipRecord record = Ok record ->
  _replace_lifecycle record status category head cleaned = Ok kept ->
  same_worktree record kept /\ lifecycle_status kept = status.
Proof.
  unfold _replace_lifecycle. intros Hv Hr. destruct record. unfold validate_WorktreeOwnershipRecord in *.
  cbn in Hv, Hr. inv_valid. apply lifecycle_id in Hv, Hr. injection Hv; clear Hv; intros; simplify_eq. join_results.
  split; [|done]. by repeat eexists.
Qed.

(** The commands of one creation, with its evidence once it is there. *)
Definition creates (record : WorktreeOwnershipRecord) (arguments : list string) : Prop :=
  inspection arguments \/ arguments = add_arguments record.

Definition evolves record w w' : Prop :=
  (exists new, issued w' = issued w ++ new /\ Forall (frozen (creates record)) new)
  /\ (evidence record w -> evidence record w').

#[export] Instance evolves_confined record : Confined (evolves record).
Proof.
  split.
  - intros w. split; [|done]. exists []. by rewrite app_nil_r.
  - intros w1 w2 w3 [(n1 & Hn1 & H1) He1] [(n2 & Hn2 & H2) He2]. split; [|auto].
    exists (n1 ++ n2). rewrite Hn2, Hn1, app_assoc. split; [done|]. by apply Forall_app.
Qed.

Lemma issues_evolves record (P : list string -> Prop) w w' :
  (forall arguments, P arguments -> creates record arguments) -> issues P w w' -> evolves record w w'.
Proof.
  intros HP (Hf & new & Hn & Hall). split.
  - exists new. split; [done|]. eapply Forall_impl; [exact Hall|]. intros r. by apply frozen_mono.
  - unfold evidence, holds. by rewrite Hf.
Qed.

Lemma looks_evolve record {A} (m : M W A) : looks m -> only (evolves record) m.
Proof. intros Hm w. eapply issues_evolves; [|apply Hm]. by left. Qed.

(** Writing a record of the same worktree. *)
Lemma lease_write_cases id kept replace w w' r :
  matches _WORKTREE_ID id = true ->
  lease_write (_ownership_root g) id kept replace w = (w', r) ->
  issued w' = issued w
  /\ (own_files w' !! record_file id = own_files w !! record_file id /\ r <> Ok tt
      \/ wor_worktree_id kept = id /\ holds kept w').
Proof.
  intros Hid. unfold lease_write, mbind, M_bind, lift, raise_if.
  destruct (String.eqb_spec (wor_worktree_id kept) id) as [<-|]; cbn [negb];
    [|intros [= <- <-]; split; [done|]; by left].
  intros Hrun. apply write_effect in Hrun as [Hi Ho]; [|done]. split; [done|]. unfold holds.
  inversion Ho as [? Hf|? Hf|file x e Htmp Hfree Hf]; subst.
  - right. split; [done|]. apply lookup_insert_eq.
  - by left.
  - left. split; [|done]. apply lookup_insert_ne. by eapply temporary_not_record.
Qed.

Lemma lease_write_evolves record kept replace :
  matches _WORKTREE_ID (wor_worktree_id record) = true -> same_worktree record kept ->
  only (evolves record) (lease_write (_ownership_root g) (wor_worktree_id record) kept replace).
Proof.
  intros Hid Hkept w. destruct (lease_write _ _ _ _ _) as [w' r] eqn:H. cbn.
  apply lease_write_cases in H as [Hi H]; [|done]. split; [exists []; by rewrite app_nil_r|].
  intros (k & Hk & Hh). destruct H as [[Hf _]|[_ Hf]]; [|by exists kept].
  exists k. split; [done|]. unfold holds in *. by rewrite (same_worktree_id _ _ Hk), Hf, <- (same_worktree_id _ _ Hk).
Qed.

Lemma preserve_partial_evolves record category :
  matches _WORKTREE_ID (wor_worktree_id record) = true ->
  validate_WorktreeOwnershipRecord record = Ok record ->
  only (evolves record) (_preserve_partial g record category).
Proof.
  intros Hid Hv. unfold _preserve_partial. intros w. unfold mbind at 1, M_bind at 1, lift.
  destruct (_replace_lifecycle _ _ _ _ _) as [partial|e] eqn:Hp; [|apply confined_refl].
  apply replace_lifecycle_same in Hp as [Hsame _]; [|done]. revert w. unfold suppress.
  change (only (evolves record) (try_except (lease_write (_ownership_root g) (wor_worktree_id record) partial true)
    any_exception (fun _ => mret tt))).
  apply only_try; [exact _ | by apply lease_write_evolves | intros e].
  apply only_reads; [exact _ | apply reads_ret].
Qed.

Lemma add_evolves record directory expected :
  only (evolves record) (_run g directory (add_arguments record) expected).
Proof.
  intros w. apply (issues_evolves _ (eq (add_arguments record))); [intros a <-; by right|].
  by apply run_issues.
Qed.

(** The rest of a computation that needs a value of the schema layer. *)
Lemma only_bind_lift {A B} (R : W -> W -> Prop) `{!Confined R} (v : res A) (k : A -> M W B) :
  (forall a, v = Ok a -> only R (k a)) -> only R (lift v ≫= k).
Proof. intros Hk w. rewrite lift_bind. destruct v; [by apply Hk | apply confined_refl]. Qed.

Ltac look_bind := apply only_bind; [exact _ | apply looks_evolve; solve_looks | intros ?].

Lemma create_leased_evolves record revision :
  matches _WORKTREE_ID (wor_worktree_id record) = true ->
  validate_WorktreeOwnershipRecord record = Ok record ->
  only (evolves record) (create_leased g record revision).
Proof.
  intros Hid Hv. unfold create_leased. do 7 look_bind.
  apply only_bind; [exact _ | apply add_evolves | intros _]. do 2 look_bind.
  apply only_bind_lift; [exact _|]. intros active [Hsame _]%replace_lifecycle_same; [|done].
  apply only_bind; [exact _ | by apply lease_write_evolves | intros _].
  apply only_reads; [exact _ | apply reads_ret].
Qed.

(** A creation that returned: its record is active and on disk. *)
Definition created record (result : WorktreeCreationResult) w : Prop :=
  let kept := cres_record result in
  same_worktree record kept /\ lifecycle_status kept = WorktreeLifecycleStatus.ACTIVE /\ holds kept w.

Lemma create_leased_Ok record revision w w' result :
  matches _WORKTREE_ID (wor_worktree_id record) = true ->
  validate_WorktreeOwnershipRecord record = Ok record ->
  create_leased g record revision w = (w', Ok result) -> created record result w'.
Proof.
  intros Hid Hv H. unfold create_leased in H. inv_run.
  match goal with Hr : _replace_lifecycle _ _ _ _ _ = Ok _ |- _ =>
    apply replace_lifecycle_same in Hr as [Hsame Hactive]; [|done] end.
  match goal with Hw : lease_write _ _ _ _ _ = (_, Ok ?u) |- _ =>
    destruct u; apply lease_write_cases in Hw as [_ [[_ Hw]|[_ Hholds]]]; [done| |done] end.
  by split_and!.
Qed.

Lemma creation_failed_evolves record e :
  matches _WORKTREE_ID (wor_worktree_id record) = true ->
  validate_WorktreeOwnershipRecord record = Ok record ->
  only (evolves record) (creation_failed g record e).
Proof.
  intros. apply only_bind; [exact _ | by apply preserve_partial_evolves | intros _].
  apply only_reads; [exact _ | apply reads_raise].
Qed.

Lemma creation_failed_raises record e w w' a : creation_failed g record e w <> (w', Ok a).
Proof. unfold creation_failed. intros H. inv_run. Qed.

(** The body of the lease, whatever its outcome. *)
Lemma create_under_lease_effect record revision w w' r :
  matches _WORKTREE_ID (wor_worktree_id record) = true ->
  validate_WorktreeOwnershipRecord record = Ok record ->
  create_under_lease g record revision w = (w', r) ->
  is_ok r = false /\ issued w' = issued w
  \/ (exists new, issued w' = issued w ++ new /\ Forall (frozen (creates record)) new)
     /\ evidence record w' /\ forall result, r = Ok result -> created record result w'.
Proof.
  intros Hid Hv. unfold create_under_lease, record_exists, mbind, M_bind, lift, present, gets.
  destruct (_record_path _ _); [|by intros [= <- <-]; left].
  unfold raise_if. destruct (is_some _); [by intros [= <- <-]; left|].
  destruct (lease_write _ _ record false w) as [w1 [[]|e]] eqn:H1;
    apply lease_write_cases in H1 as [Hi1 H1]; try done; [|by intros [= <- <-]; left].
  destruct H1 as [[_ []]|[_ Hholds]]; [done|]. intros H2. right.
  assert (He1 : evidence record w1) by (exists record; split; [apply same_worktree_refl | done]).
  match type of H2 with ?m _ = _ => assert (Hm : only (evolves record) m) end.
  { apply only_try; [exact _ | by apply create_leased_evolves | intros e].
    by apply creation_failed_evolves. }
  pose proof (only_run _ _ _ _ _ Hm H2) as [(new & Hnew & Hall) He]. split_and!.
  - exists new. by rewrite <- Hi1.
  - auto.
  - intros result ->. unfold try_except in H2.
    destruct (create_leased _ _ _ w1) as [w2 [result0|e]] eqn:H3.
    + injection H2 as <- <-. by eapply create_leased_Ok.
    + by apply creation_failed_raises in H2.
Qed.

Lemma prepare_looks request : looks (prepare_creation g request).
Proof.
  unfold prepare_creation, _check_branch_with_git, _ensure_internal_roots_do_not_dirty_source,
    ensure_root_ignored, check_ignore, _ensure_checkout_configuration_safe, record_exists, present.
  solve_looks.
Qed.

(** The record a creation is about. *)
Definition creation_record (request : WorktreeCreationRequest) (record : WorktreeOwnershipRecord) : Prop :=
  validate_WorktreeOwnershipRecord record = Ok record
  /\ lifecycle_status record = WorktreeLifecycleStatus.CREATING
  /\ wor_worktree_id record = wcr_worktree_id request
  /\ wor_branch_name record = wcr_branch_name request
  /\ (exists default, is_protected (_protected g) (wor_branch_name record) default = false)
  /\ validate_branch_name (wor_branch_name record) (owned_namespace (_protected g))
     = Ok (wor_branch_name record).

Lemma validate_branch_name_Ok branch namespace name :
  validate_branch_name branch namespace = Ok name -> name = branch.
Proof. unfold validate_branch_name. intros. by inv_valid. Qed.

Lemma require_mutable_Ok policy branch default name :
  require_mutable_owned_branch policy branch default = Ok name ->
  name = branch /\ is_protected policy branch default = false
  /\ validate_branch_name branch (owned_namespace policy) = Ok branch.
Proof.
  unfold require_mutable_owned_branch. intros H. apply bind_raise_if_Ok in H as [Hp H].
  pose proof (validate_branch_name_Ok _ _ _ H) as ->. done.
Qed.

Lemma validate_ownership_fields r s :
  validate_WorktreeOwnershipRecord r = Ok s ->
  validate_WorktreeOwnershipRecord s = Ok s /\ matches _WORKTREE_ID (wor_worktree_id s) = true
  /\ wor_worktree_id s = wor_worktree_id r /\ wor_branch_name s = wor_branch_name r
  /\ lifecycle_status s = lifecycle_status r /\ cleanup_head s = cleanup_head r.
Proof.
  intros H. split; [by eapply idem|]. unfold validate_WorktreeOwnershipRecord in H. inv_valid.
  apply lifecycle_id in H as ->. cbn. unfold WorktreeId, bounded, CommitId in *.
  destruct (cleanup_head r); cbn [validate_optional] in *; inv_valid; split_and!; try done; by apply negb_false_iff.
Qed.

Lemma prepare_Ok request w w' record revision :
  prepare_creation g request w = (w', Ok (record, revision)) ->
  creation_record request record /\ matches _WORKTREE_ID (wor_worktree_id record) = true.
Proof.
  unfold prepare_creation. intros H. inv_run. simplify_eq.
  match goal with Hb : require_mutable_owned_branch _ _ _ = Ok _ |- _ =>
    apply require_mutable_Ok in Hb as (-> & Hp & Hn) end.
  match goal with Hr : validate_WorktreeOwnershipRecord _ = Ok _ |- _ =>
    apply validate_ownership_fields in Hr as (Hvalid & Hm & Hid & Hbr & Hl & _) end.
  cbn in *. split; [|done]. unfold creation_record. rewrite Hbr. split_and!; eauto.
Qed.

Lemma evidence_release id record w w' :
  wor_worktree_id record = id ->
  own_files w' = own_files w \/ own_files w' = delete (lock_file id) (own_files w) ->
  (forall kept, wor_worktree_id kept = id -> holds kept w -> holds kept w').
Proof.
  intros Hid [Hf|Hf] kept Hk; unfold holds; rewrite Hf; [done|].
  rewrite lookup_delete_ne; [done|]. rewrite Hk. apply lock_not_record.
Qed.

(** C17: a creation leaves evidence.  However [create_worktree] ends, every command it
    ran is an inspection, or it is the one [worktree add] of the record it prepared,
    whose branch is the requested one, in the owned namespace and not protected.  If
    it may have run that command, the ownership directory now holds a record of this
    worktree (the creating, the partial or the active one), whichever call failed;
    and when it returns, that record is active, is the one it returns, and the lease
    is released. *)
Theorem creation_keeps_evidence request w w' r
    (Hrun : create_worktree g request w = (w', r)) :
  exists new, issued w' = issued w ++ new /\
    (Forall (frozen inspection) new /\ is_ok r = false
     \/ exists record, creation_record request record
         /\ Forall (frozen (creates record)) new
         /\ evidence record w'
         /\ forall result, r = Ok result ->
              created record result w' /\ own_files w' !! lock_file (wcr_worktree_id request) = None).
Proof.
  revert Hrun. unfold create_worktree, mbind, M_bind.
  destruct (prepare_creation g request w) as [w1 [[record revision]|e]] eqn:H1;
    pose proof (only_run _ _ _ _ _ (prepare_looks request) H1) as [_ (n1 & Hn1 & Hall1)];
    [|intros [= <- <-]; exists n1; auto].
  apply prepare_Ok in H1 as [Hrecord Hid]. pose proof Hrecord as (Hv & _ & Heq & _). cbn [fst snd].
  rewrite <- Heq. set (id := wor_worktree_id record) in *.
  intros [(w2 & w3 & r3 & Hi2 & _ & Hbody & Hi3 & Hrel & Hend)|(Hr & Hi & _)]%acquire_effect.
  - apply create_under_lease_effect in Hbody as [[Hr3 Hi]|((n2 & Hn2 & Hall2) & He & Hok)]; [| |done|done].
    + exists n1. split; [congruence|]. left. split; [done|]. by destruct Hend as [[-> _]|?].
    + exists (n1 ++ n2). split; [rewrite Hi3, Hn2, Hi2, Hn1; by rewrite app_assoc|]. right. exists record.
      pose proof (evidence_release id record w3 w' eq_refl Hrel) as Hkeep. split_and!; [done| | |].
      * apply Forall_app. split; [|done]. eapply Forall_impl; [exact Hall1|]. intros q. apply frozen_mono. by left.
      * destruct He as (kept & Hsame & Hh). exists kept. split; [done|]. apply Hkeep; [by apply same_worktree_id|done].
      * intros result ->. destruct Hend as [[<- Hlock]|?]; [|done].
        destruct (Hok result eq_refl) as (Hsame & Hact & Hh). split; [|done]. split_and!; [done|done|].
        apply Hkeep; [by apply same_worktree_id|done].
  - exists n1. split; [congruence|]. left. done.
Qed.

(** ** Cleanup *)

(** What the live repository said of a worktree that passed verification. *)
Definition verified_live (record : WorktreeOwnershipRecord) (verified : WorktreeVerificationResult) : Prop :=
  wts_branch (vres_worktree verified) = Some (wor_branch_name record)
  /\ rs_branch (vres_repository verified) = Some (wor_branch_name record)
  /\ wts_head_commit (vres_worktree verified) = rs_head_commit (vres_repository verified)
  /\ (exists default, is_protected (_protected g) (wor_branch_name record) default = false)
  /\ validate_branch_name (wor_branch_name record) (owned_namespace (_protected g))
     = Ok (wor_branch_name record).

Lemma verify_record_Ok record active w w' verified :
  _verify_record g record active w = (w', Ok verified) -> verified_live record verified.
Proof.
  unfold _verify_record. intros H. inv_run. destruct v1 as [source live]. inv_run.
  match goal with H : match ?m with _ => _ end _ = _ |- _ => destruct m as [|worktree [|]]; [done| |done] end.
  inv_run.
  match goal with Hb : require_mutable_owned_branch _ _ _ = Ok _ |- _ =>
    apply require_mutable_Ok in Hb as (_ & Hp & Hn) end.
  match goal with Hb : raise_if (_ || _ || _) _ = Ok _ |- _ =>
    apply raise_if_Ok in Hb; rewrite !orb_false_iff, !negb_false_iff, !bool_decide_eq_true, String.eqb_eq in Hb;
    destruct Hb as [[Hwb Hlb] Hheads] end.
  unfold verified_live. cbn. split_and!; try done. by exists (default_branch source).
Qed.

(** A worktree that normal removal cannot damage. *)
Definition removable (verified : WorktreeVerificationResult) : Prop :=
  is_clean (rs_status (vres_repository verified)) = true
  /\ ignored_paths (rs_status (vres_repository verified)) = []
  /\ locked_reason (vres_worktree verified) = None.

Lemma require_removable_Ok verified u : require_removable verified = Ok u -> removable verified.
Proof.
  unfold require_removable, removable. intros H. inv_valid. bool_prop. split_and!; try done.
  by destruct (locked_reason _).
Qed.

Definition removes (record : WorktreeOwnershipRecord) (arguments : list string) : Prop :=
  inspection arguments \/ arguments = remove_arguments record.

(** Commands of one removal; a record file that exists is kept. *)
Definition cleans record w w' : Prop :=
  (exists new, issued w' = issued w ++ new /\ Forall (frozen (removes record)) new)
  /\ let file := record_file (wor_worktree_id record) in
     (is_some (own_files w !! file) = true -> is_some (own_files w' !! file) = true).

#[export] Instance cleans_confined record : Confined (cleans record).
Proof.
  split.
  - intros w. split; [|done]. exists []. by rewrite app_nil_r.
  - intros w1 w2 w3 [(n1 & Hn1 & H1) He1] [(n2 & Hn2 & H2) He2]. split; [|cbn in *; auto].
    exists (n1 ++ n2). rewrite Hn2, Hn1, app_assoc. split; [done|]. by apply Forall_app.
Qed.

Lemma issues_cleans record (P : list string -> Prop) w w' :
  (forall arguments, P arguments -> removes record arguments) -> issues P w w' -> cleans record w w'.
Proof.
  intros HP (Hf & new & Hn & Hall). split.
  - exists new. split; [done|]. eapply Forall_impl; [exact Hall|]. intros r. by apply frozen_mono.
  - cbn. by rewrite Hf.
Qed.

Lemma looks_clean record {A} (m : M W A) : looks m -> only (cleans record) m.
Proof. intros Hm w. eapply issues_cleans; [|apply Hm]. by left. Qed.

Lemma remove_cleans record directory expected :
  only (cleans record) (_run g directory (remove_arguments record) expected).
Proof.
  intros w. apply (issues_cleans _ (eq (remove_arguments record))); [intros a <-; by right|].
  by apply run_issues.
Qed.

Lemma lease_write_cleans record kept replace :
  matches _WORKTREE_ID (wor_worktree_id record) = true ->
  only (cleans record) (lease_write (_ownership_root g) (wor_worktree_id record) kept replace).
Proof.
  intros Hid w. destruct (lease_write _ _ _ _ _) as [w' r] eqn:H. cbn.
  apply lease_write_cases in H as [Hi H]; [|done]. split; [exists []; by rewrite app_nil_r|]. cbn.
  destruct H as [[-> _]|[Heq Hf]]; [done|]. unfold holds in Hf. by rewrite <- Heq, Hf.
Qed.

(** Split a computation after a part of it that only looks. *)
Lemma looks_then {A B} (m : M W A) (k : A -> M W B) w w' r :
  looks m -> (m ≫= k) w = (w', r) ->
  is_ok r = false /\ issues inspection w w'
  \/ exists w1 a, m w = (w1, Ok a) /\ issues inspection w w1 /\ k a w1 = (w', r).
Proof.
  intros Hm. unfold mbind, M_bind. destruct (m w) as [w1 [a|e]] eqn:H1; pose proof (only_run _ _ _ _ _ Hm H1).
  - intros Hk. right. eauto.
  - intros [= <- <-]. by left.
Qed.

(** A removal that returned: the record says so and is on disk. *)
Definition removed record (result : WorktreeCleanupResult) w : Prop :=
  clres_status result = GitOperationStatus.REMOVED
  /\ lifecycle_status (clres_record result) = WorktreeLifecycleStatus.REMOVED
  /\ wor_worktree_id (clres_record result) = wor_worktree_id record
  /\ wor_branch_name (clres_record result) = wor_branch_name record
  /\ is_some (cleanup_head (clres_record result)) = true
  /\ holds (clres_record result) w.

Lemma remove_verified_cleans record verified :
  matches _WORKTREE_ID (wor_worktree_id record) = true ->
  only (cleans record) (remove_verified g (wor_worktree_id record) record verified).
Proof.
  intros Hid. unfold remove_verified. apply only_bind; [exact _ | | intros _].
  { apply only_try; [exact _ | apply remove_cleans | intros e]. apply looks_clean. solve_looks. }
  do 4 (apply only_bind; [exact _ | apply looks_clean; solve_looks | intros ?]).
  apply only_bind_lift; [exact _|]. intros kept _.
  apply only_bind; [exact _ | by apply lease_write_cleans | intros _].
  apply only_reads; [exact _ | apply reads_ret].
Qed.

Lemma remove_verified_Ok record verified w w' result :
  matches _WORKTREE_ID (wor_worktree_id record) = true ->
  remove_verified g (wor_worktree_id record) record verified w = (w', Ok result) -> removed record result w'.
Proof.
  intros Hid H. unfold remove_verified in H. inv_run.
  match goal with Hr : _replace_lifecycle _ _ _ _ _ = Ok _ |- _ =>
    apply validate_ownership_fields in Hr as (_ & _ & Hi & Hb & Hl & Hc) end.
  match goal with Hw : lease_write _ _ _ _ _ = (_, Ok ?u) |- _ =>
    destruct u; apply lease_write_cases in Hw as [_ [[_ Hw]|[_ Hholds]]]; [done| |done] end.
  unfold removed. cbn in *. split_and!; try done. by rewrite Hc.
Qed.

(** The body of the lease, whatever its outcome. *)
Definition cleanup_cases id w w' (r : res WorktreeCleanupResult) : Prop :=
  issues inspection w w'
  /\ (forall result, r = Ok result ->
        clres_status result = GitOperationStatus.ALREADY_REMOVED /\ stored id (clres_record result) w
        /\ lifecycle_status (clres_record result) = WorktreeLifecycleStatus.REMOVED)
  \/ exists record verified, stored id record w
      /\ lifecycle_status record = WorktreeLifecycleStatus.ACTIVE
      /\ (exists w1 w2, _verify_record g record true w1 = (w2, Ok verified)) /\ verified_live record verified
      /\ removable verified
      /\ cleans record w w' /\ forall result, r = Ok result -> removed record result w'.

Lemma cleanup_under_lease_effect id w w' r :
  matches _WORKTREE_ID id = true -> cleanup_under_lease g id w = (w', r) -> cleanup_cases id w w' r.
Proof.
  intros Hid. unfold cleanup_under_lease. intros H.
  apply looks_then in H as [[Hr Hi]|(w1 & record & Hl & Hi1 & H)]; [|  |apply load_looks].
  { left. split; [done|]. by intros result ->. }
  apply load_effect in Hl as [_ Hstored]. pose proof (proj1 Hstored) as Heq.
  assert (Hfail : forall e, issues inspection w w' -> r = Err e -> cleanup_cases id w w' r).
  { intros e ? ->. left. split; [done|]. by intros. }
  destruct (lifecycle_status record) eqn:Hlife.
  - injection H as <- <-. by eapply Hfail.
  - unfold remove_active in H.
    apply looks_then in H as [[Hr Hi2]|(w2 & verified & Hverified & Hi2 & H)]; [| |apply verify_record_looks].
    { left. split; [by eapply confined_trans|]. by intros result ->. }
    rewrite lift_bind in H. destruct (require_removable verified) as [u|e] eqn:Hrem.
    2: { injection H as <- <-. eapply Hfail; [by eapply confined_trans|done]. }
    right. exists record, verified. apply require_removable_Ok in Hrem.
    change (remove_verified g id record verified w2 = (w', r)) in H. rewrite <- Heq in Hid, H.
    split_and!; [done|done|by eauto|by eapply verify_record_Ok|done| |].
    + eapply confined_trans; [apply (issues_cleans record inspection); [by left|by eapply confined_trans]|].
      by apply (only_run _ _ _ _ _ (remove_verified_cleans record verified Hid) H).
    + intros result ->. by eapply remove_verified_Ok.
  - injection H as <- <-. by eapply Hfail.
  - apply looks_then in H as [[Hr Hi2]|(w2 & u & _ & Hi2 & H)]; [| |].
    + left. split; [by eapply confined_trans|]. by intros result ->.
    + injection H as <- <-. left. split; [by eapply confined_trans|]. by intros result [= <-].
    + unfold _verify_removed_record. solve_looks.
Qed.

(** C18: a cleanup removes only what it verified, and keeps the record.  However
    [cleanup_worktree] ends, every command it ran is an inspection, or it is the
    normal [worktree remove] of the stored record's path, and then that record is
    active, its branch, head and identity were verified against the live repository,
    and the worktree has no changes, no operation in progress, no ignored files and no
    lock.  A record file that exists is never deleted; when the call returns, the
    lease is released and the record on disk says the worktree is removed. *)
Theorem cleanup_removes_verified id w w' r
    (Hid : matches _WORKTREE_ID id = true)
    (Hrun : cleanup_worktree g id w = (w', r)) :
  exists new, issued w' = issued w ++ new /\
    (Forall (frozen inspection) new
     \/ exists record verified, stored id record w
         /\ lifecycle_status record = WorktreeLifecycleStatus.ACTIVE
         /\ (exists w1 w2, _verify_record g record true w1 = (w2, Ok verified))
         /\ verified_live record verified /\ removable verified
         /\ Forall (frozen (removes record)) new)
    /\ (is_some (own_files w !! record_file id) = true -> is_some (own_files w' !! record_file id) = true)
    /\ forall result, r = Ok result ->
         own_files w' !! lock_file id = None
         /\ lifecycle_status (clres_record result) = WorktreeLifecycleStatus.REMOVED
         /\ (clres_status result = GitOperationStatus.ALREADY_REMOVED /\ stored id (clres_record result) w'
             \/ clres_status result = GitOperationStatus.REMOVED /\ holds (clres_record result) w').
Proof.
  unfold cleanup_worktree in Hrun. pose proof (lock_not_record id) as Hlr.
  apply acquire_effect in Hrun as [(w1 & w2 & r2 & Hi1 & Hf1 & Hbody & Hi2 & Hrel & Hend)|(Hr & Hi & Hf)].
  2: { exists []. rewrite app_nil_r. split_and!; [done|by left|by rewrite Hf|by intros ? ->]. }
  assert (Hw1 : own_files w1 !! record_file id = own_files w !! record_file id)
    by (rewrite Hf1; by apply lookup_insert_ne).
  assert (Hw' : own_files w' !! record_file id = own_files w2 !! record_file id)
    by (destruct Hrel as [->| ->]; [done | by apply lookup_delete_ne]).
  assert (Hst : forall record, stored id record w1 -> stored id record w) by (unfold stored; by rewrite Hw1).
  apply cleanup_under_lease_effect in Hbody as [[(Hf2 & new & Hn & Hall) Hres]|(record & verified & Hs & Ha &
    Hv & Hlive & Hrem & [(new & Hn & Hall) Hkeep] & Hres)]; [| |done]; exists new; (split; [congruence|]).
  - split_and!; [by left|by rewrite Hw', Hf2, Hw1|]. intros result ->. destruct Hend as [[<- Hlock]|?]; [|done].
    destruct (Hres result eq_refl) as (? & Hs & ?). split_and!; [done|done|]. left. split; [done|].
    unfold stored in *. by rewrite Hw', Hf2.
  - pose proof (proj1 Hs) as Heq. rewrite Heq in Hkeep. cbn in Hkeep. split_and!.
    + right. exists record, verified. split_and!; auto.
    + rewrite Hw', <- Hw1. exact Hkeep.
    + intros result ->. destruct Hend as [[<- Hlock]|?]; [|done].
      destruct (Hres result eq_refl) as (? & ? & Hi & _ & _ & Hh). split_and!; [done|done|]. right. split; [done|].
      unfold holds in *. rewrite Hi, Heq in *. by rewrite Hw'.
Qed.
End Safety.
