(* ===== verification/LocalGitSample.v ===== *)
(** * A host for the Git adapter

    A scripted host with one repository, on which the theorems about the Git adapter
    are applied: a worktree is created, verified and removed. *)

From Stdlib Require Import ZArith Lia Ascii String QArith_base.
From S2P Require Import Prelude Text Sha256 Domain Effects Commands GitPort CommandPolicy GitPolicy GitPorcelain Ownership OwnershipSafety LocalGit LocalGitSafety.
From stdpp Require Import base option strings numbers gmap sets list list_relations.

Open Scope Z_scope.

Module GitSample.
Definition commit : string := "0123456789abcdef0123456789abcdef01234567".
Definition id : string := "wt_0123456789abcdef0123456789abcdef".
Definition line (s : string) : string := s +:+ String newline "".
Definition repository : Path := path_of "/srv/repo".
Definition worktrees : Path := path_of "/srv/trees".
Definition target : Path := path_of "/srv/trees/task".
Definition state : Path := path_of "/srv/state".
Definition branch : string := "revanent/task".

(** The environment: whether the worktree is registered. *)
Definition files : FileSystem bool := {|
  fs_resolve _ p := mret p;
  fs_is_dir _ := mret true;
  fs_is_file _ := mret true;
  fs_executable _ := mret true;
  fs_exists p := gets (fun added : bool => bool_decide (p = target) && added);
  fs_is_symlink _ := mret false;
  fs_lexists p := gets (fun added : bool => bool_decide (p = target) && added)
|}.

Definition listing (added : bool) : string :=
  nul_terminated (["worktree /srv/repo"; "HEAD " +:+ commit; "branch refs/heads/main"; ""]
    ++ if added then ["worktree /srv/trees/task"; "HEAD " +:+ commit; "branch refs/heads/revanent/task"; ""] else []).

Definition contains (argument : string) (arguments : list string) : bool := bool_decide (argument ∈ arguments).

(** Exit code and standard output of a command. *)
Definition answer (added : bool) (directory : Path) (arguments : list string) : Z * string :=
  let in_tree := bool_decide (directory = target) in
  if contains "--is-bare-repository" arguments then (0, line "false")
  else if contains "--is-inside-work-tree" arguments then (0, line "true")
  else if contains "--show-toplevel" arguments then (0, line (path_str directory))
  else if contains "--git-dir" arguments
  then (0, line (if in_tree then "/srv/repo/.git/worktrees/task" else "/srv/repo/.git"))
  else if contains "--git-common-dir" arguments then (0, line "/srv/repo/.git")
  else if contains "--show-object-format" arguments then (0, line "sha1")
  else if contains "--verify" arguments && contains "rev-parse" arguments then (0, line commit)
  else if contains "rev-list" arguments then (0, line commit)
  else if contains "status" arguments
  then (0, print_status (mk_headers commit (Some (if in_tree then branch else "main")) None []) [])
  else if contains "list" arguments then (0, listing added)
  else if contains "check-ref-format" arguments || contains "merge-base" arguments
          || contains "worktree" arguments then (0, "")
  else (1, "").

Definition output (text : string) : CapturedOutput := mk_CapturedOutput text 0 0 false false None.

Definition run (request : CommandRequest) : M bool CommandResult := fun added =>
  let '(code, text) := answer added (req_working_directory request) (req_arguments request) in
  (if contains "add" (req_arguments request) then true
   else if contains "remove" (req_arguments request) then false else added,
   Ok (mk_CommandResult (req_correlation_id request) (req_executable request) None CommandStatus.SUCCESS
         (utc 0) (utc 0) 0%Q (output text) (output "") (Some code) None COMMAND_SCHEMA_VERSION)).

(** The schema layer's text of a record is the name of its stage here. *)
Definition stage (r : WorktreeOwnershipRecord) : string :=
  match lifecycle_status r with
  | WorktreeLifecycleStatus.CREATING => "creating"
  | WorktreeLifecycleStatus.ACTIVE => "active"
  | WorktreeLifecycleStatus.PARTIAL => "partial"
  | WorktreeLifecycleStatus.REMOVED => "removed"
  end.

Definition common : Path := path_of "/srv/repo/.git".
Definition identity : RepositoryIdentity :=
  mk_RepositoryIdentity ("repo_" +:+ sha256_hex (identity_material common ObjectFormat.sha1 [commit]))
    repository common common ObjectFormat.sha1 [commit] 1.
Definition active : WorktreeOwnershipRecord :=
  mk_WorktreeOwnershipRecord id None identity target branch commit commit (utc 0) "0.1.0"
    WorktreeLifecycleStatus.ACTIVE None None None 1.

Definition host_of : GitHost bool := {|
  gh_files := files;
  run_command := run;
  random_hex := mret "00112233445566ff";
  random_name := mret "abcdefgh";
  utc_now := mret (utc 0);
  system_call _ _ := mret tt;
  record_json := stage;
  parse_record text := if String.eqb text (line "active") then Ok active else reject "not a record";
  package_version := "0.1.0"
|}.
#[export] Existing Instance host_of.

Definition adapter : LocalGitRepository :=
  mk_LocalGitRepository (mk_PathPolicy [path_of "/srv"] [] false false) worktrees state
    default_branch_policy "git" 60 false.
Definition request : WorktreeCreationRequest :=
  mk_WorktreeCreationRequest repository target id branch "HEAD" None 1.
Definition before : GitWorld bool := mk_GitWorld false [] ∅.
Definition owned : GitWorld bool :=
  mk_GitWorld true [] {[ record_file id := Regular (line "active") ]}.

Lemma creation_succeeds : is_ok ((create_worktree adapter request before).2) = true.
Proof. vm_compute. reflexivity. Qed.
Lemma cleanup_succeeds : is_ok ((cleanup_worktree adapter id owned).2) = true.
Proof. vm_compute. reflexivity. Qed.
End GitSample.

#[export] Existing Instance GitSample.host_of.

Import GitSample.

Lemma creation_keeps_evidence_witness :
  exists w result, create_worktree adapter request before = (w, Ok result)
    /\ holds (cres_record result) w /\ own_files w !! lock_file id = None.
Proof.
  pose proof creation_succeeds as Hok.
  destruct (create_worktree adapter request before) as [w r] eqn:Hrun.
  destruct r as [result|]; [|discriminate Hok].
  destruct (creation_keeps_evidence adapter request before w (Ok result) Hrun) as (new & _ & Hcases).
  destruct Hcases as [[_ Hf]|(record & _ & _ & _ & Hres)]; [discriminate Hf|].
  destruct (Hres result eq_refl) as [(_ & _ & Hholds) Hlock].
  exists w, result. split; [reflexivity|]. split; [exact Hholds | exact Hlock].
Defined.

Lemma cleanup_removes_verified_witness :
  exists w result, cleanup_worktree adapter id owned = (w, Ok result)
    /\ is_some (own_files w !! record_file id) = true
    /\ lifecycle_status (clres_record result) = WorktreeLifecycleStatus.REMOVED.
Proof.
  pose proof cleanup_succeeds as Hok.
  destruct (cleanup_worktree adapter id owned) as [w r] eqn:Hrun.
  destruct r as [result|]; [|discriminate Hok].
  assert (Hid : matches _WORKTREE_ID id = true) by (vm_compute; reflexivity).
  destruct (cleanup_removes_verified adapter id owned w (Ok result) Hid Hrun) as (new & _ & _ & Hkept & Hres).
  destruct (Hres result eq_refl) as (_ & Hlife & _).
  exists w, result. split; [reflexivity|]. split; [|exact Hlife].
  apply Hkept. unfold owned. cbn [own_files]. by rewrite lookup_singleton_eq.
Defined.

Lemma ownership_write_atomic_witness :
  exists w, lease_write state id active false before = (w, Ok tt)
    /\ own_files w = {[ record_file id := Regular (line "active") ]}.
Proof.
  assert (Hok : is_ok ((lease_write state id active false before).2) = true) by (vm_compute; reflexivity).
  destruct (lease_write state id active false before) as [w r] eqn:Hrun.
  destruct r as [[]|]; [|discriminate Hok].
  assert (Hid : matches _WORKTREE_ID id = true) by (vm_compute; reflexivity).
  destruct (ownership_write_atomic state id active false before w (Ok tt) Hid Hrun) as (_ & _ & Hres).
  exists w. split; [reflexivity|]. exact (proj1 (Hres eq_refl)).
Defined.

Lemma ownership_roundtrip_witness :
  exists w w'', lease_write state id active false before = (w, Ok tt)
    /\ _load_unlocked state id w = (w'', Ok active).
Proof.
  assert (Hok : is_ok ((lease_write state id active false before).2) = true) by (vm_compute; reflexivity).
  destruct (lease_write state id active false before) as [w r] eqn:Hrun.
  destruct r as [[]|]; [|discriminate Hok].
  assert (Hid : matches _WORKTREE_ID id = true) by (vm_compute; reflexivity).
  assert (Hquiet : quiet (E := bool)) by (intros name file e; exists e; reflexivity).
  assert (Hlaw : parse_record (record_payload active) = Ok active) by reflexivity.
  destruct (ownership_roundtrip state id active false before w Hid Hquiet Hlaw Hrun) as (w'' & Hload & _ & _).
  exists w, w''. split; [reflexivity | exact Hload].
Defined.

Lemma lease_exclusive_witness :
  let held : GitWorld bool := mk_GitWorld true [] {[ lock_file id := Regular (line id) ]} in
  is_ok ((acquire state id (cleanup_under_lease adapter id) held).2) = false
  /\ issued (acquire state id (cleanup_under_lease adapter id) held).1 = [].
Proof.
  intros held. destruct (acquire state id (cleanup_under_lease adapter id) held) as [w r] eqn:Hrun.
  assert (Hlocked : is_some (own_files held !! lock_file id) = true).
  { unfold held. cbn [own_files]. by rewrite lookup_singleton_eq. }
  destruct (lease_exclusive state id (cleanup_under_lease adapter id) held w r Hlocked Hrun) as (Hr & Hi & _).
  split; [exact Hr | exact Hi].
Defined.
