(* ===== verification/TelemetryService.v ===== *)
(** * The telemetry service ([src/src/revanent/telemetry/service.py])

    Budget decisions over the durable usage and reservations of a run, and the
    usage records derived from a context manifest and from an agent response. *)

From Stdlib Require Import ZArith Lia Ascii String.
From S2P Require Import Prelude Text Domain Effects Sha256 Agents TelemetryPort Validation ContextPort.
From stdpp Require Import base option strings numbers sets list list_relations.

Open Scope Z_scope.

Definition _unit (m : BudgetMetric.t) : UsageUnit.t :=
  match m with
  | BudgetMetric.BUILD_ATTEMPTS => UsageUnit.ATTEMPTS
  | BudgetMetric.REVIEW_ATTEMPTS => UsageUnit.ATTEMPTS
  | BudgetMetric.REPAIR_ATTEMPTS => UsageUnit.ATTEMPTS
  | BudgetMetric.TOTAL_DURATION => UsageUnit.MILLISECONDS
  | BudgetMetric.REMOTE_TOKENS => UsageUnit.TOKENS
  | BudgetMetric.ESTIMATED_COST => UsageUnit.DECIMAL_CURRENCY
  end.

Definition _budget_metric_for_usage (m : UsageMetric.t) : option BudgetMetric.t :=
  match m with
  | UsageMetric.BUILD_ATTEMPTS => Some BudgetMetric.BUILD_ATTEMPTS
  | UsageMetric.REVIEW_ATTEMPTS => Some BudgetMetric.REVIEW_ATTEMPTS
  | UsageMetric.REPAIR_ATTEMPTS => Some BudgetMetric.REPAIR_ATTEMPTS
  | UsageMetric.LOCAL_ATTEMPTS => Some BudgetMetric.BUILD_ATTEMPTS
  | UsageMetric.REMOTE_ATTEMPTS => Some BudgetMetric.BUILD_ATTEMPTS
  | UsageMetric.PROVIDER_DURATION => Some BudgetMetric.TOTAL_DURATION
  | UsageMetric.COMMAND_DURATION => Some BudgetMetric.TOTAL_DURATION
  | UsageMetric.VALIDATION_DURATION => Some BudgetMetric.TOTAL_DURATION
  | UsageMetric.TOTAL_TOKENS => Some BudgetMetric.REMOTE_TOKENS
  | UsageMetric.ESTIMATED_COST => Some BudgetMetric.ESTIMATED_COST
  | _ => None
  end.

(** ** Decisions *)

(** [BudgetDecision(...)] with the fields its callers give. *)
Definition budget_decision (status : BudgetDecisionStatus.t) (metric : BudgetMetric.t)
    (unit : UsageUnit.t) (remaining : option Z) (remaining_dec : option decimal)
    (reason : option string) : res BudgetDecision :=
  validate_BudgetDecision
    (mk_BudgetDecision TELEMETRY_SCHEMA_VERSION status metric unit remaining remaining_dec reason).

Definition counts_for (metric : BudgetMetric.t) (r : UsageRecord) : bool :=
  bool_decide (_budget_metric_for_usage (ur_metric r) = Some metric).

Definition has_reservation_status (s : ReservationStatus.t) (metric : BudgetMetric.t)
    (r : BudgetReservation) : bool :=
  bool_decide (br_status r = s) && bool_decide (br_metric r = metric).

Definition is_overage (r : UsageRecord) : bool :=
  bool_decide (ur_reason_code r = Some "validation_duration_overage").

Definition measured_for (metric : BudgetMetric.t) (records : list UsageRecord) : list UsageRecord :=
  filter (fun r => counts_for metric r && negb (is_unavailable r) = true) records.

Definition active_for (metric : BudgetMetric.t) (reservations : list BudgetReservation)
    : list BudgetReservation :=
  filter (fun r => has_reservation_status ReservationStatus.ACTIVE metric r = true) reservations.

(** [sum(item.integer_value or 0 ...)] and [sum(item.integer_reserved or 0 ...)]. *)
Definition consumed_integer (metric : BudgetMetric.t) (records : list UsageRecord) : Z :=
  py_sum ((fun r => default 0 (integer_value r)) <$> measured_for metric records).
Definition reserved_integer (metric : BudgetMetric.t) (reservations : list BudgetReservation) : Z :=
  py_sum ((fun r => default 0 (integer_reserved r)) <$> active_for metric reservations).

Definition dec_zero : decimal := mk_decimal 0 0.

(** [d or Decimal("0")] *)
Definition dec_or_zero (o : option decimal) : decimal :=
  match o with
  | Some d => if dec_coef d =? 0 then dec_zero else d
  | None => dec_zero
  end.

(** [max(Decimal("0"), d)] *)
Definition dec_floor (d : decimal) : decimal := if decimal_lt dec_zero d then d else dec_zero.

Definition decimal_decision (metric : BudgetMetric.t) (limit : decimal) (requested : option decimal)
    (records : list UsageRecord) (reservations : list BudgetReservation) : res BudgetDecision :=
  let consumed := dec_sum ((fun r => dec_or_zero (decimal_value r)) <$> measured_for metric records) in
  let reserved := dec_sum ((fun r => dec_or_zero (decimal_reserved r)) <$> active_for metric reservations) in
  let remaining := dec_minus (dec_minus limit consumed) reserved in
  if match requested with None => true | Some d => decimal_lt remaining d end then
    budget_decision BudgetDecisionStatus.DENY_LIMIT_EXHAUSTED metric (_unit metric) None
      (Some (dec_floor remaining)) (Some "limit_exhausted")
  else budget_decision BudgetDecisionStatus.ALLOW metric (_unit metric) None (Some remaining) None.

(** The body of [decision] over the listed records and reservations. *)
Definition decide_budget (records : list UsageRecord) (reservations : list BudgetReservation)
    (metric : BudgetMetric.t) (limit : BudgetLimit) (requested_integer : option Z)
    (requested_decimal : option decimal) (require_known : bool) : res BudgetDecision :=
  let unit := _unit metric in
  if existsb (has_reservation_status ReservationStatus.UNRESOLVED metric) reservations then
    budget_decision BudgetDecisionStatus.DENY_UNRESOLVED_RESERVATION metric unit None None
      (Some "unresolved_reservation")
  else if require_known && existsb (fun r => is_unavailable r && counts_for metric r) records then
    budget_decision BudgetDecisionStatus.DENY_USAGE_UNAVAILABLE metric unit None None
      (Some "usage_unavailable")
  else if existsb (fun r => is_overage r && counts_for metric r) records then
    budget_decision BudgetDecisionStatus.DENY_LIMIT_EXHAUSTED metric unit None None
      (Some "validation_duration_overage")
  else
    match integer_limit limit with
    | Some bound =>
        let remaining := bound - consumed_integer metric records - reserved_integer metric reservations in
        if match requested_integer with None => true | Some n => remaining <? n end then
          budget_decision BudgetDecisionStatus.DENY_LIMIT_EXHAUSTED metric unit
            (Some (Z.max 0 remaining)) None (Some "limit_exhausted")
        else budget_decision BudgetDecisionStatus.ALLOW metric unit (Some remaining) None None
    | None =>
        match decimal_limit limit with
        | None => Err AssertionError
        | Some bound => decimal_decision metric bound requested_decimal records reservations
        end
    end.

(** [TelemetryRepository] of [ports/telemetry.py], as far as the service calls it. *)
Class TelemetryRepository (W : Type) := {
  repo_list_usage_records : string -> M W (list UsageRecord);
  repo_list_reservations : string -> M W (list BudgetReservation);
  repo_record_usage : UsageRecord -> M W bool;
  repo_reserve_if_allowed : BudgetReservation -> BudgetPolicy -> option Z -> bool -> M W BudgetDecision;
  repo_settle_reservation : BudgetReservation -> BudgetSettlement -> list UsageRecord -> M W bool
}.

Section Service.
Context {W : Type} `{!TelemetryRepository W}.

Definition decision (run_id : string) (policy : BudgetPolicy) (metric : BudgetMetric.t)
    (requested_integer : option Z) (requested_decimal : option decimal) (currency : option string)
    (require_known : bool) : M W BudgetDecision :=
  let unit := _unit metric in
  match find_first (fun l => bool_decide (bl_metric l = metric)) (limits policy) with
  | None => lift (budget_decision BudgetDecisionStatus.ALLOW metric unit None None None)
  | Some limit =>
      if bool_decide (is_none requested_integer = is_none requested_decimal) then
        lift (budget_decision BudgetDecisionStatus.DENY_INVALID_REQUEST metric unit None None
                (Some "invalid_reservation_value"))
      else if negb (bool_decide (bl_currency limit = currency)) then
        lift (budget_decision BudgetDecisionStatus.DENY_INVALID_REQUEST metric unit None None
                (Some "currency_mismatch"))
      else
        records ← repo_list_usage_records run_id ;
        reservations ← repo_list_reservations run_id ;
        lift (decide_budget records reservations metric limit requested_integer requested_decimal
                require_known)
  end.

Definition service_reserve (reservation : BudgetReservation) (policy : BudgetPolicy)
    (expected_revision : option Z) (require_known : bool) : M W BudgetDecision :=
  repo_reserve_if_allowed reservation policy expected_revision require_known.

Definition service_settle (reservation : BudgetReservation) (settlement : BudgetSettlement)
    (usage_records : list UsageRecord) : M W bool :=
  repo_settle_reservation reservation settlement usage_records.

(** [record]: how many of the records were new. *)
Fixpoint record (usage_records : list UsageRecord) : M W Z :=
  match usage_records with
  | [] => mret 0
  | r :: rs => b ← repo_record_usage r ; n ← record rs ; mret ((if b : bool then 1 else 0) + n)
  end.

Definition service_usage_records (run_id : string) : M W (list UsageRecord) :=
  repo_list_usage_records run_id.

Definition service_reservations (run_id : string) : M W (list BudgetReservation) :=
  repo_list_reservations run_id.

(** Keep the capacity when launch or completion cannot be proven. *)
Definition mark_unresolved (reservation : BudgetReservation) (observed_at : datetime)
    (reason_code : string) : M W bool :=
  settlement ← lift (validate_BudgetSettlement
                       (mk_BudgetSettlement TELEMETRY_SCHEMA_VERSION (br_id reservation) observed_at
                          None None None ReservationStatus.UNRESOLVED (Some reason_code))) ;
  repo_settle_reservation reservation settlement [].
End Service.

(** ** Derived usage records *)

Definition context_values (m : ContextManifest) : list (UsageMetric.t * Z) :=
  [(UsageMetric.CONTEXT_BASELINE_BYTES, cm_baseline_bytes m);
   (UsageMetric.CONTEXT_RETAINED_BYTES, cm_retained_bytes m);
   (UsageMetric.CONTEXT_EXCLUDED_BYTES, cm_excluded_bytes m);
   (UsageMetric.CONTEXT_TRUNCATED_BYTES, cm_truncated_bytes m);
   (UsageMetric.CONTEXT_DUPLICATE_BYTES, cm_duplicate_bytes_avoided m);
   (UsageMetric.CONTEXT_ITEM_COUNT, cm_included_count m)].

Definition context_usage_record (m : ContextManifest) (observed_at : datetime) (p : UsageMetric.t * Z)
    : UsageRecord :=
  let key := cm_manifest_id m +:+ ":" +:+ UsageMetric.value p.1 in
  mk_UsageRecord TELEMETRY_SCHEMA_VERSION (usage_record_id (cm_run_id m) key p.1) (cm_run_id m)
    (cm_work_package_id m) p.1
    (if bool_decide (p.1 = UsageMetric.CONTEXT_ITEM_COUNT) then UsageUnit.COMMANDS else UsageUnit.BYTES)
    UsageProvenance.MEASURED UsageSource.CONTEXT observed_at key (Some p.2) None None None None None
    None None None None.

Definition context_usage_records (m : ContextManifest) (observed_at : datetime) : res (list UsageRecord) :=
  traverse (fun p => validate_UsageRecord (context_usage_record m observed_at p)) (context_values m).

Definition provider_values (r : AgentResponse) : list (UsageMetric.t * option Z) :=
  match usage r with
  | None => [(UsageMetric.INPUT_TOKENS, None); (UsageMetric.OUTPUT_TOKENS, None);
             (UsageMetric.TOTAL_TOKENS, None)]
  | Some u => [(UsageMetric.INPUT_TOKENS, input_tokens u); (UsageMetric.OUTPUT_TOKENS, output_tokens u);
               (UsageMetric.TOTAL_TOKENS, total_tokens u)]
  end.

(** A record with the base fields of the response. *)
Definition provider_record (r : AgentResponse) (metric : UsageMetric.t) (unit : UsageUnit.t)
    (provenance : UsageProvenance.t) (value : option Z) (reason : option string) : UsageRecord :=
  let key := resp_invocation_id r +:+ ":" +:+ UsageMetric.value metric in
  mk_UsageRecord TELEMETRY_SCHEMA_VERSION (usage_record_id (resp_run_id r) key metric) (resp_run_id r)
    (resp_work_package_id r) metric unit provenance UsageSource.AGENT (resp_completed_at r) key value
    None None (Some (resp_attempt_id r)) (Some (resp_invocation_id r))
    (Some (id_provider_id (identity r))) (Some (id_adapter_id (identity r))) (id_model (identity r))
    None reason.

Definition token_record (r : AgentResponse) (p : UsageMetric.t * option Z) : UsageRecord :=
  provider_record r p.1 UsageUnit.TOKENS
    (if is_some p.2 then UsageProvenance.PROVIDER_REPORTED else UsageProvenance.UNAVAILABLE) p.2
    (if is_some p.2 then None else Some "provider_usage_missing").

Definition cost_record (r : AgentResponse) : UsageRecord :=
  provider_record r UsageMetric.ESTIMATED_COST UsageUnit.DECIMAL_CURRENCY UsageProvenance.UNAVAILABLE
    None (Some "cost_estimator_unavailable").

Definition provider_usage_records (r : AgentResponse) : res (list UsageRecord) :=
  tokens ← traverse (fun p => validate_UsageRecord (token_record r p)) (provider_values r) ;
  cost ← validate_UsageRecord (cost_record r) ;
  mret (tokens ++ [cost]).

(** ** Lemmas *)

Lemma optional_identifier p d o o' :
  validate_optional (stable_identifier p d) o = Ok o' -> o' = o.
Proof.
  destruct o as [x|]; cbn; intros H; inv_ok; [|done]. by apply stable_identifier_Ok in Hv as [-> _].
Qed.

Lemma usage_record_fields r s :
  validate_UsageRecord r = Ok s ->
  ur_metric s = ur_metric r /\ integer_value s = integer_value r /\ ur_run_id s = ur_run_id r /\
  ur_invocation_id s = ur_invocation_id r /\ ur_provenance s = ur_provenance r /\
  0 <= default 0 (integer_value s) <= MAX_USAGE_VALUE.
Proof.
  unfold validate_UsageRecord. intros H. inv_valid. apply valid_usage_id in H as ->. cbn in *.
  match goal with H : RunId _ = Ok _ |- _ => apply stable_identifier_Ok in H as [-> _] end.
  match goal with H : validate_optional AgentInvocationId _ = Ok _ |- _ =>
    apply optional_identifier in H as -> end.
  repeat split; try done; unfold optional_range, in_range, MAX_USAGE_VALUE in *;
    destruct (integer_value r); cbn in *; bool_prop; lia.
Qed.

Lemma usage_record_provider r s :
  validate_UsageRecord r = Ok s ->
  forall provider, ur_provider_id r = Some provider -> matches provider_pattern (str_strip provider) = true.
Proof.
  unfold validate_UsageRecord. intros H provider Hp. inv_valid. rewrite Hp in *. cbn in *. inv_ok.
  match goal with H : pattern_field _ provider_pattern _ = Ok _ |- _ =>
    apply pattern_field_Ok in H as [-> ?] end. done.
Qed.

Lemma safe_id_strip s : matches _SAFE_ID s = true -> str_strip s = s.
Proof. apply (matches_strip (in_class "_.-" is_alnum)); vm_compute; reflexivity. Qed.

Lemma identity_provider i j :
  validate_AgentProviderIdentity i = Ok j -> matches _SAFE_ID (id_provider_id j) = true.
Proof.
  unfold validate_AgentProviderIdentity. intros H. inv_valid. cbn.
  unfold _SafeIdentifier in Hv. inv_ok. by bool_prop.
Qed.

Lemma response_provider r :
  validate_AgentResponse r = Ok r -> matches _SAFE_ID (id_provider_id (identity r)) = true.
Proof.
  unfold validate_AgentResponse. intros H. inv_valid.
  pose proof (validate_response_id _ _ H) as Heq. apply (f_equal identity) in Heq. cbn in Heq.
  rewrite Heq. eapply identity_provider. eassumption.
Qed.

Lemma traverse_usage_fields rs ss :
  traverse validate_UsageRecord rs = Ok ss ->
  (ur_metric <$> ss) = (ur_metric <$> rs) /\ (integer_value <$> ss) = (integer_value <$> rs) /\
  Forall2 (fun r s => validate_UsageRecord r = Ok s) rs ss.
Proof.
  intros H%traverse_Forall2. split; [|split; [|done]]; induction H as [|r s rs ss Hr H IH];
    rewrite ?fmap_cons; try done;
    destruct (usage_record_fields _ _ Hr) as (H1 & H2 & _); congruence.
Qed.

Lemma measured_nonneg metric rs :
  Forall (fun r => validate_UsageRecord r = Ok r) rs -> 0 <= consumed_integer metric rs.
Proof.
  unfold consumed_integer, measured_for. induction 1 as [|r rs Hr Hrs IH]; [done|].
  rewrite filter_cons. case_decide; [|done]. rewrite fmap_cons. unfold py_sum in *. cbn [foldr].
  pose proof (usage_record_fields _ _ Hr) as (_ & _ & _ & _ & _ & ?). lia.
Qed.

Lemma reservation_nonneg r : validate_BudgetReservation r = Ok r -> 0 <= default 0 (integer_reserved r).
Proof.
  unfold validate_BudgetReservation. intros H. inv_valid.
  match goal with H : optional_range 1 _ (integer_reserved r) = true |- _ =>
    unfold optional_range, in_range in H; destruct (integer_reserved r); cbn in *; bool_prop; lia end.
Qed.

Lemma active_nonneg metric rs :
  Forall (fun r => validate_BudgetReservation r = Ok r) rs -> 0 <= reserved_integer metric rs.
Proof.
  unfold reserved_integer, active_for. induction 1 as [|r rs Hr Hrs IH]; [done|].
  rewrite filter_cons. case_decide; [|done]. rewrite fmap_cons. unfold py_sum in *. cbn [foldr].
  pose proof (reservation_nonneg _ Hr). lia.
Qed.

(** An answer without a decimal value is always constructible. *)
Lemma budget_decision_integer status metric unit remaining reason :
  optional_range 0 MAX_USAGE_VALUE remaining = true ->
  (forall s, reason = Some s -> pattern_field "reason_code" reason_pattern s = Ok s) ->
  budget_decision status metric unit remaining None reason =
  Ok (mk_BudgetDecision TELEMETRY_SCHEMA_VERSION status metric unit remaining None reason).
Proof.
  intros Hr Hs. unfold budget_decision, validate_BudgetDecision. cbn [bd_schema_version remaining_integer
    remaining_decimal bd_reason_code bd_status bd_metric bd_unit].
  rewrite Hr. cbn. destruct reason as [s|]; cbn; [|done]. by rewrite (Hs s eq_refl).
Qed.

(** What a budget check refuses for, apart from the amount. *)
Definition blocked_budget (records : list UsageRecord) (reservations : list BudgetReservation)
    (metric : BudgetMetric.t) (known : bool) : bool :=
  existsb (has_reservation_status ReservationStatus.UNRESOLVED metric) reservations
  || (known && existsb (fun r => is_unavailable r && counts_for metric r) records)
  || existsb (fun r => is_overage r && counts_for metric r) records.

(** ** Properties *)

(** An integer budget always gets a decision: over valid evidence the
    decision is computed without an exception, and it allows a request exactly
    when no reservation of the metric is unresolved, no required usage is
    unavailable, no validation overran, and consumption plus active
    reservations plus the request stay within the limit; it then reports what
    remains before the request. *)
Theorem integer_decision_spec records reservations metric limit bound n known
  (Hl : integer_limit limit = Some bound) (Hbound : 1 <= bound <= MAX_USAGE_VALUE) (Hn : 0 <= n)
  (Hrec : Forall (fun r => validate_UsageRecord r = Ok r) records)
  (Hres : Forall (fun r => validate_BudgetReservation r = Ok r) reservations) :
  exists b, decide_budget records reservations metric limit (Some n) None known = Ok b /\
    (bd_status b = BudgetDecisionStatus.ALLOW <->
     blocked_budget records reservations metric known = false /\
     consumed_integer metric records + reserved_integer metric reservations + n <= bound) /\
    (bd_status b = BudgetDecisionStatus.ALLOW ->
     remaining_integer b =
       Some (bound - consumed_integer metric records - reserved_integer metric reservations)).
Proof.
  pose proof (measured_nonneg metric _ Hrec). pose proof (active_nonneg metric _ Hres).
  unfold decide_budget, blocked_budget. rewrite Hl.
  destruct (existsb (has_reservation_status _ _) _).
  { rewrite budget_decision_integer by (done || (intros s [= <-]; vm_compute; done)).
    eexists. split; [done|]. cbn. naive_solver. }
  destruct (known && _).
  { rewrite budget_decision_integer by (done || (intros s [= <-]; vm_compute; done)).
    eexists. split; [done|]. cbn. naive_solver. }
  destruct (existsb (fun r => is_overage r && _) _).
  { rewrite budget_decision_integer by (done || (intros s [= <-]; vm_compute; done)).
    eexists. split; [done|]. cbn. naive_solver. }
  cbv zeta. destruct (_ <? n) eqn:Hlt; [apply Z.ltb_lt in Hlt | apply Z.ltb_ge in Hlt].
  - rewrite budget_decision_integer.
    + eexists. split; [done|]. cbn. split; [|done]. split; [done|]. intros [_ ?]. lia.
    + unfold optional_range, in_range. apply andb_true_iff. rewrite !Z.leb_le. lia.
    + intros s [= <-]. vm_compute. done.
  - rewrite budget_decision_integer.
    + eexists. split; [done|]. cbn. split; [|done]. split; [|done]. intros _. split; [done|lia].
    + unfold optional_range, in_range. apply andb_true_iff. rewrite !Z.leb_le. lia.
    + done.
Qed.

(** Usage derived from an agent response is attributed to it: when the
    conversion succeeds there is one record per token metric, carrying the
    reported value or marked unavailable, and one unavailable cost record, all
    of the response's run and invocation, and the provider's identifier fits
    the narrower spelling of usage records; a provider identifier with a dot,
    which the agent port admits, therefore makes the conversion raise. *)
Theorem provider_usage_attributed r rs
  (Hr : validate_AgentResponse r = Ok r) (Hrs : provider_usage_records r = Ok rs) :
  matches provider_pattern (id_provider_id (identity r)) = true /\
  (ur_metric <$> rs) = [UsageMetric.INPUT_TOKENS; UsageMetric.OUTPUT_TOKENS; UsageMetric.TOTAL_TOKENS;
                        UsageMetric.ESTIMATED_COST] /\
  (integer_value <$> rs) = (snd <$> provider_values r) ++ [None] /\
  Forall (fun u => ur_run_id u = resp_run_id r /\ ur_invocation_id u = Some (resp_invocation_id r) /\
                   is_unavailable u = is_none (integer_value u)) rs.
Proof.
  unfold provider_usage_records in Hrs. inv_ok.
  rewrite <- (safe_id_strip _ (response_provider _ Hr)).
  assert (Htraverse : traverse validate_UsageRecord ((token_record r <$> provider_values r) ++ [cost_record r])
                      = Ok (v ++ [v0])).
  { apply traverse_Forall2, Forall2_app; [|by repeat constructor].
    apply traverse_Forall2 in Hv. clear -Hv. induction Hv; constructor; done. }
  destruct (traverse_usage_fields _ _ Htraverse) as (Hm & Hi & Hall).
  split; [eapply usage_record_provider; [exact Hv0|done]|].
  rewrite Hm, Hi. split; [|split].
  - unfold provider_values. by destruct (usage r).
  - unfold provider_values. by destruct (usage r).
  - clear Hm Hi Htraverse Hv Hv0.
    assert (Hsrc : Forall (fun u => ur_run_id u = resp_run_id r /\
        ur_invocation_id u = Some (resp_invocation_id r) /\ is_unavailable u = is_none (integer_value u))
        ((token_record r <$> provider_values r) ++ [cost_record r])).
    { apply Forall_app. split; [|by repeat constructor]. apply Forall_fmap, Forall_forall.
      intros [m o] _. cbn. split; [done|]. split; [done|]. unfold is_unavailable. cbn. by destruct o. }
    induction Hall as [|x y xs ys Hxy Hall IH]; [constructor|].
    inversion_clear Hsrc as [|? ? (H1 & H2 & H3) Hs]. constructor; [|by apply IH].
    destruct (usage_record_fields _ _ Hxy) as (_ & Hi & Hrun & Hinv & Hp & _).
    unfold is_unavailable in *. rewrite Hrun, Hinv, Hp, Hi. done.
Qed.

(** ** Concrete evidence *)

Module TelemetrySample.
Definition with_provider (provider : string) : AgentResponse :=
  let r := AgentSample.response in
  mk_AgentResponse (resp_schema_version r) (resp_invocation_id r) (resp_run_id r)
    (resp_work_package_id r) (resp_attempt_id r) (resp_attempt_number r) (resp_role r)
    (expected_response_schema_version r) (resp_status r) (resp_started_at r) (resp_completed_at r)
    (resp_duration_ms r) (resp_summary r) (public_text r) (structured_parse_status r) (payload r)
    (diagnostics r) (artifacts r) (Some (mk_AgentUsage (Some 10) None None))
    (mk_AgentProviderIdentity provider "adapter" "1" None) (resp_failure r) (raw_output_artifact r).

Definition minutes : BudgetLimit :=
  mk_BudgetLimit BudgetMetric.TOTAL_DURATION UsageUnit.MILLISECONDS (Some 60000) None None.

Definition command (ms : Z) : UsageRecord :=
  mk_UsageRecord 1 (usage_record_id (resp_run_id AgentSample.response) "c" UsageMetric.COMMAND_DURATION)
    (resp_run_id AgentSample.response) "P4-002" UsageMetric.COMMAND_DURATION UsageUnit.MILLISECONDS
    UsageProvenance.MEASURED UsageSource.COMMAND (utc 1) "c" (Some ms) None None None None None None
    None None None.
End TelemetrySample.

(** A provider identifier with a dot is a valid response and no valid usage. *)
Example dotted_provider_raises :
  is_ok (validate_AgentResponse (TelemetrySample.with_provider "vendor.codex")) = true /\
  provider_usage_records (TelemetrySample.with_provider "vendor.codex")
  = Err (ValueError "provider_id").
Proof. vm_compute. split; reflexivity. Qed.

(** The remainder of a decimal budget can need more digits than a decision holds:
    the decision then raises instead of answering. *)
Example decimal_remaining_raises :
  decimal_decision BudgetMetric.ESTIMATED_COST (mk_decimal 1000000 0) (Some (mk_decimal 1 0))
    [mk_UsageRecord 1 "" "" "" UsageMetric.ESTIMATED_COST UsageUnit.DECIMAL_CURRENCY
       UsageProvenance.ESTIMATED UsageSource.AGENT (utc 0) "" None (Some (mk_decimal 1 (-13)))
       (Some "USD") None None None None None (Some "e") None] []
  = Err (ValueError "remaining_decimal").
Proof. vm_compute. reflexivity. Qed.

Lemma integer_decision_spec_witness :
  exists b, decide_budget [TelemetrySample.command 45000] [] BudgetMetric.TOTAL_DURATION
              TelemetrySample.minutes (Some 15001) None true = Ok b /\
            bd_status b <> BudgetDecisionStatus.ALLOW.
Proof.
  destruct (integer_decision_spec [TelemetrySample.command 45000] [] BudgetMetric.TOTAL_DURATION
              TelemetrySample.minutes 60000 15001 true eq_refl) as (b & Hb & Hs & _).
  - split; vm_compute; discriminate.
  - lia.
  - repeat constructor; vm_compute; reflexivity.
  - constructor.
  - exists b. split; [exact Hb|]. rewrite Hs. intros [_ H]. vm_compute in H. apply H. reflexivity.
Defined.

Lemma provider_usage_attributed_witness :
  exists rs, provider_usage_records (TelemetrySample.with_provider "codex") = Ok rs /\
             (integer_value <$> rs) = [Some 10; None; None; None].
Proof.
  assert (Hr : validate_AgentResponse (TelemetrySample.with_provider "codex")
               = Ok (TelemetrySample.with_provider "codex")) by (vm_compute; reflexivity).
  destruct (provider_usage_records (TelemetrySample.with_provider "codex")) as [rs|e] eqn:H.
  - exists rs. split; [reflexivity|].
    apply (proj1 (proj2 (proj2 (provider_usage_attributed _ rs Hr H)))).
  - vm_compute in H. discriminate H.
Defined.
