(* ===== verification/ValidationRunner.v ===== *)
(** * The validation runner ([src/src/revanent/validation/runner.py])

    [ValidationRunner] executes the commands of a plan in order through a
    command runner and aggregates their evidence.  The command runner, the
    file system and the cancellation token are code the runner only calls:
    they are the [Variable]s of the section, over an abstract world. *)

From Stdlib Require Import ZArith Lia Ascii String QArith_base.
From S2P Require Import Prelude Text Domain Effects Commands Agents Validation.
From stdpp Require Import base option strings numbers sets list list_relations.

Open Scope Z_scope.

(** ** Constant evidence *)

Definition _empty_output : res ValidationCapturedOutput :=
  validate_ValidationCapturedOutput (mk_ValidationCapturedOutput "" 0 0 false false None).

Definition _failure (category : ValidationFailureCategory.t) (code message : string)
    (result : option CommandResult) : res ValidationFailure :=
  validate_ValidationFailure
    (mk_ValidationFailure category code message
       (match result with Some r => cf_category <$> cr_failure r | None => None end)).

Definition MS_PER_DAY : Z := 86400000.

(** [(completed_at - started_at) // timedelta(milliseconds=1)], clipped to a day. *)
Definition _duration_ms (started_at completed_at : datetime) : Z :=
  Z.max 0 (Z.min MS_PER_DAY ((instant completed_at - instant started_at) / 1000)).

Definition _prelaunch_result (plan : ValidationPlan) (command : ValidationCommand) (sequence : Z)
    (occurred_at : datetime) (status : ValidationStatus.t) (failure : ValidationFailure)
    : res ValidationCommandResult :=
  correlation ← validation_correlation_id (plan_id plan) (vc_id command) ;
  stdout ← _empty_output ;
  stderr ← _empty_output ;
  validate_ValidationCommandResult
    (mk_ValidationCommandResult VALIDATION_SCHEMA_VERSION (plan_id plan) (plan_run_id plan)
       (plan_work_package_id plan) (vc_id command) sequence (classification command) status None
       occurred_at occurred_at 0 (vc_executable command) None correlation None
       (expected_exit_codes command) stdout stderr (Some failure)).

Definition _invalid_result_from_command (plan : ValidationPlan) (command : ValidationCommand)
    (sequence : Z) (result : CommandResult) (code message : string) (occurred_at : option datetime)
    : res ValidationCommandResult :=
  let started_at := default (cr_started_at result) occurred_at in
  let duration_ms :=
    match occurred_at with
    | Some _ => 0
    | None => _duration_ms (cr_started_at result) (cr_completed_at result)
    end in
  correlation ← validation_correlation_id (plan_id plan) (vc_id command) ;
  stdout ← _empty_output ;
  stderr ← _empty_output ;
  failure ← _failure ValidationFailureCategory.INVALID_EVIDENCE code message None ;
  validate_ValidationCommandResult
    (mk_ValidationCommandResult VALIDATION_SCHEMA_VERSION (plan_id plan) (plan_run_id plan)
       (plan_work_package_id plan) (vc_id command) sequence (classification command)
       ValidationStatus.INVALID (Some (cr_status result)) started_at
       (add_ms started_at duration_ms) duration_ms (vc_executable command)
       (match cr_resolved_executable result with
        | Some p => if path_absolute p then Some p else None
        | None => None
        end)
       correlation (cr_exit_code result) (expected_exit_codes command) stdout stderr (Some failure)).

(** [enumerate(plan.commands[start_sequence - 1:], start=start_sequence)]; the
    start sequences of the callers are at least 1. *)
Section enumerate.
Context {A : Type}.

Fixpoint enumerate (start : Z) (xs : list A) : list (Z * A) :=
  match xs with [] => [] | x :: xs => (start, x) :: enumerate (start + 1) xs end.
End enumerate.

Definition _not_run_results (plan : ValidationPlan) (start_sequence : Z) (occurred_at : datetime)
    (code message : string) : res (list ValidationCommandResult) :=
  traverse (fun '(sequence, command) =>
              failure ← _failure ValidationFailureCategory.NOT_RUN code message None ;
              _prelaunch_result plan command sequence occurred_at ValidationStatus.NOT_RUN failure)
    (enumerate start_sequence (drop (Z.to_nat (start_sequence - 1)) (plan_commands plan))).

Definition _should_stop (plan : ValidationPlan) (result : ValidationCommandResult) : bool :=
  if bool_decide (vr_status result = ValidationStatus.CANCELLED) then true
  else if negb (fail_fast (plan_execution plan))
          || bool_decide (vr_status result = ValidationStatus.PASSED) then false
  else negb (bool_decide (vr_classification result = ValidationCommandClass.ADVISORY)
             && bool_decide (vr_status result = ValidationStatus.FAILED)
             && allow_advisory_failures (plan_execution plan)).

(** ** Aggregation *)

Definition _aggregate_failure_status (results : list ValidationCommandResult) : ValidationStatus.t :=
  default ValidationStatus.INVALID
    (find_first (fun s => existsb (has_status s) results)
       [ValidationStatus.CANCELLED; ValidationStatus.TIMED_OUT; ValidationStatus.INVALID;
        ValidationStatus.UNAVAILABLE; ValidationStatus.BLOCKED; ValidationStatus.FAILED]).

(** The evidence of one command, as the plan declares it. *)
Definition result_matches (plan : ValidationPlan) (sequence : Z) (command : ValidationCommand)
    (result : ValidationCommandResult) (expected_correlation : string) : bool :=
  (vr_sequence result =? sequence)
  && bool_decide (vr_command_id result = vc_id command)
  && bool_decide (vr_plan_id result = plan_id plan)
  && bool_decide (vr_run_id result = plan_run_id plan)
  && bool_decide (vr_work_package_id result = plan_work_package_id plan)
  && bool_decide (vr_classification result = classification command)
  && bool_decide (vr_executable result = vc_executable command)
  && bool_decide (vr_expected_exit_codes result = expected_exit_codes command)
  && bool_decide (vr_correlation_id result = expected_correlation).

Fixpoint check_evidence (plan : ValidationPlan) (sequence : Z) (previous_completed : option datetime)
    (pairs : list (ValidationCommand * ValidationCommandResult)) : res unit :=
  match pairs with
  | [] => mret tt
  | (command, result) :: pairs =>
      correlation ← validation_correlation_id (plan_id plan) (vc_id command) ;
      raise_if (negb (result_matches plan sequence command result correlation))
        (ValueError "validation command evidence does not match plan order") ;;
      raise_if (dt_lt (vr_started_at result) (plan_created_at plan))
        (ValueError "validation command evidence predates its plan") ;;
      raise_if (match previous_completed with
                | Some p => dt_lt (vr_started_at result) p
                | None => false
                end)
        (ValueError "validation command evidence overlaps or is out of order") ;;
      check_evidence plan (sequence + 1) (Some (vr_completed_at result)) pairs
  end.

Definition is_incomplete (s : ValidationStatus.t) : bool :=
  match s with
  | ValidationStatus.TIMED_OUT | ValidationStatus.CANCELLED | ValidationStatus.BLOCKED
  | ValidationStatus.UNAVAILABLE | ValidationStatus.INVALID | ValidationStatus.NOT_RUN => true
  | _ => false
  end.

Definition accepted_advisory_failure (plan : ValidationPlan)
    (p : ValidationCommand * ValidationCommandResult) : bool :=
  negb (is_required p.1) && has_status ValidationStatus.FAILED p.2
  && allow_advisory_failures (plan_execution plan).

(** [min] and [max] of timestamps; the first of equal ones. *)
Definition dt_min_list (t : datetime) (ts : list datetime) : datetime :=
  fold_left (fun a b => if dt_lt b a then b else a) ts t.
Definition dt_max_list (t : datetime) (ts : list datetime) : datetime := fold_left dt_max ts t.

(** The local variables of [aggregate_validation_results] that decide the status. *)
Definition required_passed (pairs : list (ValidationCommand * ValidationCommandResult)) : bool :=
  forallb (fun p => negb (is_required p.1) || has_status ValidationStatus.PASSED p.2) pairs.

Definition all_complete (results : list ValidationCommandResult) : bool :=
  forallb (fun r => negb (is_incomplete (vr_status r))) results.

Definition only_allowed_outcomes (plan : ValidationPlan)
    (pairs : list (ValidationCommand * ValidationCommandResult)) : bool :=
  forallb (fun p => has_status ValidationStatus.PASSED p.2 || accepted_advisory_failure plan p) pairs.

Definition advisory_accepted (plan : ValidationPlan)
    (pairs : list (ValidationCommand * ValidationCommandResult))
    (results : list ValidationCommandResult) : bool :=
  existsb (fun p => negb (is_required p.1) && has_status ValidationStatus.FAILED p.2) pairs
  && (allow_advisory_failures (plan_execution plan) && required_passed pairs
      && all_complete results && only_allowed_outcomes plan pairs).

Definition aggregate_status (plan : ValidationPlan)
    (pairs : list (ValidationCommand * ValidationCommandResult))
    (results : list ValidationCommandResult) : ValidationStatus.t :=
  if required_passed pairs && all_complete results && only_allowed_outcomes plan pairs
  then if advisory_accepted plan pairs results then ValidationStatus.PASSED_WITH_ADVISORIES
       else ValidationStatus.PASSED
  else _aggregate_failure_status results.

Definition aggregate_validation_results (plan : ValidationPlan)
    (results : list ValidationCommandResult) : res ValidationPlanResult :=
  raise_if (negb (length results =? length (plan_commands plan))%nat)
    (ValueError "validation result count does not match the plan") ;;
  let pairs := combine (plan_commands plan) results in
  check_evidence plan 1 None pairs ;;
  match results with
  | [] => Err (ValueError "min() iterable argument is empty")
  | first :: rest =>
      summary ← validation_summary results ;
      validate_ValidationPlanResult
        (mk_ValidationPlanResult VALIDATION_SCHEMA_VERSION VALIDATION_SCHEMA_VERSION
           (plan_id plan) (plan_run_id plan) (plan_work_package_id plan)
           (dt_min_list (vr_started_at first) (vr_started_at <$> rest))
           (dt_max_list (vr_completed_at first) (vr_completed_at <$> rest))
           (aggregate_status plan pairs results) results summary (required_passed pairs)
           (all_complete results) (advisory_accepted plan pairs results)
           (existsb (has_status ValidationStatus.CANCELLED) results))
  end.

(** ** From a command result to validation evidence *)

Definition _map_command_status (command : ValidationCommand) (result : CommandResult)
    : res (ValidationStatus.t * option ValidationFailure) :=
  let fail status category code message result :=
    f ← _failure category code message result ; mret (status, Some f) in
  match cr_status result with
  | CommandStatus.SUCCESS =>
      if negb (exit_code_expected (cr_exit_code result) (expected_exit_codes command))
      then fail ValidationStatus.INVALID ValidationFailureCategory.INVALID_EVIDENCE
             "expected_exit_mismatch" "successful command result carried an unexpected exit code" None
      else mret (ValidationStatus.PASSED, None)
  | CommandStatus.NONZERO_EXIT =>
      fail ValidationStatus.FAILED ValidationFailureCategory.COMMAND_FAILED
        "unexpected_exit_code" "validation command returned an unexpected exit code" None
  | CommandStatus.TIMEOUT =>
      fail ValidationStatus.TIMED_OUT ValidationFailureCategory.TIMEOUT
        "command_timeout" "validation command exceeded its timeout" (Some result)
  | CommandStatus.CANCELLED =>
      fail ValidationStatus.CANCELLED ValidationFailureCategory.CANCELLATION
        "command_cancelled" "validation command was cancelled" (Some result)
  | CommandStatus.POLICY_REJECTED =>
      if bool_decide (cf_category <$> cr_failure result
                      = Some CommandFailureCategory.EXECUTABLE_UNAVAILABLE)
      then fail ValidationStatus.UNAVAILABLE ValidationFailureCategory.EXECUTABLE_UNAVAILABLE
             "executable_unavailable" "validation executable is unavailable under command policy"
             (Some result)
      else fail ValidationStatus.BLOCKED ValidationFailureCategory.POLICY_BLOCKED
             "command_policy_blocked" "validation command was blocked by controlled-command policy"
             (Some result)
  | CommandStatus.LAUNCH_FAILED =>
      fail ValidationStatus.BLOCKED ValidationFailureCategory.LAUNCH_BLOCKED
        "command_launch_failed" "validation command could not be launched" (Some result)
  | CommandStatus.OUTPUT_ARTIFACT_FAILED =>
      fail ValidationStatus.INVALID ValidationFailureCategory.ARTIFACT
        "command_artifact_failed" "validation command artifact evidence could not be retained"
        (Some result)
  | CommandStatus.INTERNAL_ERROR =>
      fail ValidationStatus.INVALID ValidationFailureCategory.INTERNAL
        "command_internal_error" "controlled validation command failed internally" (Some result)
  end.

Definition _require_output_completeness (command : ValidationCommand)
    (stdout stderr : ValidationCapturedOutput) : res unit :=
  let incomplete (required : bool) (output : ValidationCapturedOutput) :=
    required && (vco_truncated output || vco_redaction_truncated output)
    && negb (bool_decide (va_status <$> vco_artifact output = Some ArtifactStatus.COMPLETE)) in
  raise_if (incomplete (require_complete_stdout (vc_output command)) stdout)
    (ValueError "required complete stdout evidence was truncated without a complete artifact") ;;
  raise_if (incomplete (require_complete_stderr (vc_output command)) stderr)
    (ValueError "required complete stderr evidence was truncated without a complete artifact").

(** [identity_required] *)
Definition identity_required (s : CommandStatus.t) : bool :=
  match s with
  | CommandStatus.SUCCESS | CommandStatus.NONZERO_EXIT | CommandStatus.TIMEOUT
  | CommandStatus.CANCELLED | CommandStatus.LAUNCH_FAILED
  | CommandStatus.OUTPUT_ARTIFACT_FAILED => true
  | CommandStatus.POLICY_REJECTED | CommandStatus.INTERNAL_ERROR => false
  end.

(** ** Execution in a world *)

Section Runner.
Variable W : Type.
(** [path.resolve(strict=True)]; [None] when it raises [OSError]. *)
Variable fs_resolve : W -> Path -> option Path.
Variable fs_is_dir : W -> Path -> bool.
Variable fs_is_file : W -> Path -> bool.
(** [path.stat().st_size]; [None] when it raises [OSError]. *)
Variable fs_size : W -> Path -> option Z.
(** [cancellation.is_cancelled()] *)
Variable is_cancelled : M W bool.
(** [CommandRunner.run] *)
Variable run : CommandRequest -> M W CommandResult.

(** A resolved path; the failure of the system call is a Python exception. *)
Definition resolve (p : Path) : M W Path :=
  fun w => (w, match fs_resolve w p with Some q => Ok q | None => Err OSError end).

Definition _resolve_working_directory (root : Path) (command : ValidationCommand)
    : M W (option Path * option ValidationFailure) :=
  let outside :=
    f ← lift (_failure ValidationFailureCategory.INVALID_EVIDENCE
                "working_directory_outside_workspace"
                "validation working directory is unavailable or outside the approved workspace" None) ;
    mret (None, Some f) in
  let candidate := match relative_working_directory command with
                   | Some d => joinpath root (split_slash d)
                   | None => root
                   end in
  resolved ← gets (fun w => fs_resolve w candidate) ;
  match resolved with
  | None => outside
  | Some resolved =>
      if is_none (relative_to resolved root) then outside
      else
        directory ← gets (fun w => fs_is_dir w resolved) ;
        if negb directory
        then f ← lift (_failure ValidationFailureCategory.INVALID_EVIDENCE
                         "working_directory_not_directory"
                         "validation working directory must be an existing directory" None) ;
             mret (None, Some f)
        else mret (Some resolved, None)
  end.

(** [for command in plan.commands: ...] of [_preflight]. *)
Fixpoint preflight_directories (root : Path) (commands : list ValidationCommand)
    : M W (option ValidationFailure) :=
  match commands with
  | [] => mret None
  | command :: commands =>
      r ← _resolve_working_directory root command ;
      match r.2 with
      | Some failure => mret (Some failure)
      | None => preflight_directories root commands
      end
  end.

Definition _preflight (plan : ValidationPlan) (environment : list EnvironmentVariable)
    : M W (option ValidationFailure) :=
  let invalid code message : M W (option ValidationFailure) :=
    Some <$> lift (_failure ValidationFailureCategory.INVALID_EVIDENCE code message None) in
  resolved ← gets (fun w => fs_resolve w (ws_root (plan_workspace plan))) ;
  match resolved with
  | None => invalid "workspace_unavailable" "validation workspace does not exist or cannot be resolved"
  | Some root =>
      directory ← gets (fun w => fs_is_dir w root) ;
      if negb directory
      then invalid "workspace_invalid" "validation workspace must be an existing directory"
      else
        let allowed_names := plan_commands plan ≫= vc_allowed_environment_names in
        if existsb (fun v => negb (bool_decide (env_key v ∈ allowed_names))) environment
        then invalid "environment_not_authorized"
               "validation environment contains a name not authorized by the plan"
        else
          match vap_directory (plan_artifacts plan) with
          | None => preflight_directories root (plan_commands plan)
          | Some artifacts =>
              artifact_directory ← gets (fun w => fs_resolve w artifacts) ;
              match artifact_directory with
              | None => invalid "artifact_directory_unavailable"
                          "validation artifact directory does not exist or cannot be resolved"
              | Some artifact_directory =>
                  directory ← gets (fun w => fs_is_dir w artifact_directory) ;
                  if negb directory
                  then invalid "artifact_directory_invalid"
                         "validation artifact directory must be an existing directory"
                  else preflight_directories root (plan_commands plan)
              end
          end
  end.

Definition _translate_artifact (plan : ValidationPlan) (artifact : ArtifactReference)
    (correlation_id : string) : M W ValidationArtifactReference :=
  match vap_directory (plan_artifacts plan) with
  | None => raise AssertionError
  | Some directory =>
      root ← resolve directory ;
      path ← gets (fun w => fs_resolve w (art_path artifact)) ;
      match path ≫= (fun path => (fun relative => (path, relative)) <$> relative_to path root) with
      | None => raise (ValueError
                         "command artifact path escaped the approved validation artifact root")
      | Some (path, relative) =>
          let rendered := path_str relative in
          let expected_name :=
            correlation_id +:+ "." +:+ OutputStream.value (art_stream artifact) +:+ ".log" in
          stored_size ← gets (fun w => fs_size w path) ;
          match stored_size with
          | None => raise (ValueError "command artifact could not be inspected")
          | Some stored_size =>
              is_file ← gets (fun w => fs_is_file w path) ;
              if negb is_file || negb (bool_decide (rendered = expected_name))
                 || negb (stored_size =? art_stored_bytes artifact)
              then raise (ValueError "command artifact identity or byte accounting did not match the validation request")
              else
                relative_path ← lift (RepositoryPath rendered) ;
                lift (validate_ValidationArtifactReference
                        (mk_ValidationArtifactReference VALIDATION_SCHEMA_VERSION
                           (vap_root_id (plan_artifacts plan)) relative_path (art_stream artifact)
                           (art_status artifact) correlation_id (art_observed_bytes artifact)
                           (art_source_bytes_retained artifact)
                           (art_redacted_bytes_observed artifact) (art_stored_bytes artifact) true))
          end
      end
  end.

Definition _translate_output (plan : ValidationPlan) (command : ValidationCommand)
    (output : CapturedOutput) (stream : OutputStream.t) (correlation_id : string)
    : M W ValidationCapturedOutput :=
  let limit := match stream with
               | OutputStream.STDOUT => vo_stdout_bytes (vc_output command)
               | OutputStream.STDERR => vo_stderr_bytes (vc_output command)
               end in
  lift (raise_if ((limit <? out_retained_bytes output) || (limit + 256 <? byte_len (out_text output)))
          (ValueError "captured command output exceeded the validation limit")) ;;
  lift (raise_if (str_contains nul (out_text output))
          (ValueError "captured command output contained a null byte")) ;;
  artifact ← (match out_artifact output with
              | None => mret None
              | Some artifact =>
                  lift (raise_if (negb (capture_artifacts (vc_output command))
                                  || is_none (vap_directory (plan_artifacts plan)))
                          (ValueError "unexpected command artifact reference")) ;;
                  lift (raise_if (negb (bool_decide (art_stream artifact = stream)))
                          (ValueError "command artifact stream did not match captured output")) ;;
                  Some <$> _translate_artifact plan artifact correlation_id
              end) ;
  lift (validate_ValidationCapturedOutput
          (mk_ValidationCapturedOutput (out_text output) (out_observed_bytes output)
             (out_retained_bytes output) (out_truncated output) (out_redaction_truncated output)
             artifact)).

(** The [try] block of [_normalize_command_result]. *)
Definition translate_outputs (plan : ValidationPlan) (command : ValidationCommand)
    (result : CommandResult) (correlation_id : string)
    : M W (ValidationCapturedOutput * ValidationCapturedOutput) :=
  stdout ← _translate_output plan command (cr_stdout result) OutputStream.STDOUT correlation_id ;
  stderr ← _translate_output plan command (cr_stderr result) OutputStream.STDERR correlation_id ;
  lift (_require_output_completeness command stdout stderr) ;;
  mret (stdout, stderr).

Definition _normalize_command_result (plan : ValidationPlan) (command : ValidationCommand)
    (sequence : Z) (result : CommandResult) (earliest_start : datetime)
    : M W ValidationCommandResult :=
  correlation_id ← lift (validation_correlation_id (plan_id plan) (vc_id command)) ;
  if dt_lt (cr_started_at result) earliest_start
  then lift (_invalid_result_from_command plan command sequence result "command_chronology_invalid"
               "command result chronology did not follow validation plan order"
               (Some earliest_start))
  else
  let duration_ms := _duration_ms (cr_started_at result) (cr_completed_at result) in
  let completed_at := add_ms (cr_started_at result) duration_ms in
  if negb (bool_decide (cr_correlation_id result = correlation_id))
     || negb (bool_decide (cr_executable result = vc_executable command))
  then lift (_invalid_result_from_command plan command sequence result
               "command_correlation_mismatch"
               "command result correlation did not match the validation plan" None)
  else if identity_required (cr_status result)
          && negb (match cr_resolved_executable result with
                   | Some p => path_absolute p
                   | None => false
                   end)
  then lift (_invalid_result_from_command plan command sequence result
               "executable_identity_missing"
               "attempted validation command omitted a trusted executable identity" None)
  else
  outputs ← attempt (translate_outputs plan command result correlation_id) ;
  match outputs with
  | Err e =>
      if is_ValueError e
      then lift (_invalid_result_from_command plan command sequence result
                   "invalid_command_output_evidence"
                   "command output or artifact evidence failed strict validation" None)
      else raise e
  | Ok (stdout, stderr) =>
      mapped ← lift (_map_command_status command result) ;
      let '(status, failure) := mapped in
      lift (validate_ValidationCommandResult
              (mk_ValidationCommandResult VALIDATION_SCHEMA_VERSION (plan_id plan)
                 (plan_run_id plan) (plan_work_package_id plan) (vc_id command) sequence
                 (classification command) status (Some (cr_status result)) (cr_started_at result)
                 completed_at duration_ms (vc_executable command) (cr_resolved_executable result)
                 correlation_id (cr_exit_code result) (expected_exit_codes command) stdout stderr
                 failure))
  end.

(** The request built for a command. *)
Definition command_request (plan : ValidationPlan) (command : ValidationCommand)
    (working_directory : Path) (correlation_id : string)
    (environment : list EnvironmentVariable) (cancellable : bool) : res CommandRequest :=
  limits ← validate_OutputLimits
             (mk_OutputLimits (vo_stdout_bytes (vc_output command))
                (vo_stderr_bytes (vc_output command))
                (vo_artifact_bytes_per_stream (vc_output command))) ;
  validate_CommandRequest
    (mk_CommandRequest (vc_executable command) (vc_arguments command) working_directory
       correlation_id environment (timeout_seconds command) None limits cancellable
       (expected_exit_codes command)
       (if capture_artifacts (vc_output command) then vap_directory (plan_artifacts plan) else None)
       COMMAND_SCHEMA_VERSION).

Definition _execute_command (plan : ValidationPlan) (command : ValidationCommand) (sequence : Z)
    (cancellable : bool) (environment : list EnvironmentVariable) (fallback_time : datetime)
    : M W ValidationCommandResult :=
  root ← resolve (ws_root (plan_workspace plan)) ;
  r ← _resolve_working_directory root command ;
  match r with
  | (Some working_directory, None) =>
      command_environment ← lift (EnvironmentOverrides
        (filter (fun v => env_key v ∈ vc_allowed_environment_names command) environment)) ;
      correlation_id ← lift (validation_correlation_id (plan_id plan) (vc_id command)) ;
      outcome ← attempt (
        request ← lift (command_request plan command working_directory correlation_id
                          command_environment cancellable) ;
        run request) ;
      match outcome with
      | Err _ =>
          failure ← lift (_failure ValidationFailureCategory.INTERNAL "command_boundary_exception"
                            "validation command boundary raised an unexpected exception" None) ;
          lift (_prelaunch_result plan command sequence fallback_time ValidationStatus.INVALID failure)
      | Ok result => _normalize_command_result plan command sequence result fallback_time
      end
  | (_, path_failure) =>
      failure ← lift (match path_failure with
                      | Some f => mret f
                      | None => _failure ValidationFailureCategory.INVALID_EVIDENCE
                                  "working_directory_invalid"
                                  "validation working directory could not be resolved" None
                      end) ;
      lift (_prelaunch_result plan command sequence fallback_time ValidationStatus.INVALID failure)
  end.

(** [cancellation is not None and cancellation.is_cancelled()] *)
Definition cancelled_now (cancellable : bool) : M W bool :=
  if cancellable then is_cancelled else mret false.

(** [for sequence, command in enumerate(plan.commands, start=1): ...] *)
Fixpoint execute_commands (plan : ValidationPlan) (cancellable : bool)
    (environment : list EnvironmentVariable) (commands : list ValidationCommand) (sequence : Z)
    (cursor : datetime) : M W (list ValidationCommandResult) :=
  match commands with
  | [] => mret []
  | command :: commands =>
      stop ← cancelled_now cancellable ;
      if (stop : bool)
      then
        failure ← lift (_failure ValidationFailureCategory.CANCELLATION "cancelled_before_command"
                          "validation was cancelled before command launch" None) ;
        result ← lift (_prelaunch_result plan command sequence cursor ValidationStatus.CANCELLED
                         failure) ;
        skipped ← lift (_not_run_results plan (sequence + 1) cursor "plan_cancelled"
                          "validation command was not run after cancellation") ;
        mret (result :: skipped)
      else
        result ← _execute_command plan command sequence cancellable environment cursor ;
        let cursor := vr_completed_at result in
        if _should_stop plan result
        then
          let cancelled := bool_decide (vr_status result = ValidationStatus.CANCELLED) in
          skipped ← lift (_not_run_results plan (sequence + 1) cursor
                            (if cancelled then "plan_cancelled" else "fail_fast")
                            (if cancelled then "validation command was not run after cancellation"
                             else "validation command was not run because fail-fast stopped the plan")) ;
          mret (result :: skipped)
        else
          results ← execute_commands plan cancellable environment commands (sequence + 1) cursor ;
          mret (result :: results)
  end.

Definition execute (plan : ValidationPlan) (started_at : datetime) (cancellable : bool)
    (environment : list EnvironmentVariable) : M W ValidationPlanResult :=
  lift (raise_if (negb (is_utc started_at))
          (ValueError "validation execution start must be timezone-aware UTC")) ;;
  preflight ← _preflight plan environment ;
  results ← (match preflight with
             | Some failure =>
                 first ← (match plan_commands plan with
                          | command :: _ => lift (_prelaunch_result plan command 1 started_at
                                                    ValidationStatus.INVALID failure)
                          | [] => raise (OtherError "IndexError")
                          end) ;
                 skipped ← lift (_not_run_results plan 2 started_at "plan_preflight_failed"
                                   "validation command was not run after plan preflight failed") ;
                 mret (first :: skipped)
             | None => execute_commands plan cancellable environment (plan_commands plan) 1 started_at
             end) ;
  lift (aggregate_validation_results plan results).
End Runner.

(** ** Aggregation computes the declared outcome *)

(** The evidence of a plan, command by command and in time order. *)
Inductive ordered_evidence (plan : ValidationPlan)
    : Z -> datetime -> list ValidationCommand -> list ValidationCommandResult -> Prop :=
| oe_nil n t : ordered_evidence plan n t [] []
| oe_cons n t command commands result results :
    result_matches plan n command result (plan_id plan +:+ "." +:+ vc_id command) = true ->
    instant t <= instant (vr_started_at result) ->
    ordered_evidence plan (n + 1) (vr_completed_at result) commands results ->
    ordered_evidence plan n t (command :: commands) (result :: results).

(** An outcome the plan accepts. *)
Definition accepted (plan : ValidationPlan) (command : ValidationCommand)
    (result : ValidationCommandResult) : Prop :=
  vr_status result = ValidationStatus.PASSED \/
  (classification command = ValidationCommandClass.ADVISORY /\
   vr_status result = ValidationStatus.FAILED /\
   allow_advisory_failures (plan_execution plan) = true).

(** What the schema guarantees of a command result. *)
Record Result_facts (r : ValidationCommandResult) : Prop := {
  rs_started : is_utc (vr_started_at r) = true;
  rs_completed : is_utc (vr_completed_at r) = true;
  rs_order : instant (vr_started_at r) <= instant (vr_completed_at r);
  rs_status : vr_status r <> ValidationStatus.PASSED_WITH_ADVISORIES;
  rs_passed : vr_status r = ValidationStatus.PASSED ->
              vr_command_status r = Some CommandStatus.SUCCESS /\
              exit_code_expected (vr_exit_code r) (vr_expected_exit_codes r) = true
}.

Lemma validate_result_facts r s :
  _validate_result r = Ok s ->
  instant (vr_started_at r) <= instant (vr_completed_at r) /\
  vr_status r <> ValidationStatus.PASSED_WITH_ADVISORIES /\
  (vr_status r = ValidationStatus.PASSED ->
   vr_command_status r = Some CommandStatus.SUCCESS /\
   exit_code_expected (vr_exit_code r) (vr_expected_exit_codes r) = true).
Proof.
  intros H. pose proof (validate_result_id _ _ H) as ->.
  unfold _validate_result in H. inv_valid.
  assert (vr_status r <> ValidationStatus.PASSED_WITH_ADVISORIES).
  { intros Hs. rewrite Hs in *. inv_valid. bool_prop. done. }
  unfold dt_lt in *. bool_prop. split; [lia|]. split; [done|].
  intros Hs. rewrite Hs in *. inv_valid.
  repeat match goal with H : _ || _ = false |- _ => apply orb_false_iff in H as [? ?] end.
  bool_prop. done.
Qed.

Lemma Result_wf_facts r : Result_wf r -> Result_facts r.
Proof.
  unfold Result_wf, validate_ValidationCommandResult. intros H. inv_valid.
  pose proof (validate_result_id _ _ H) as Heq.
  destruct (validate_result_facts _ _ H) as (Ho & Hs & Hp). rewrite <- Heq in *.
  repeat match goal with
  | H : _require_utc _ = Ok _ |- _ => apply require_utc_Ok in H as [-> ?]
  end.
  by split.
Qed.

Lemma accepted_iff plan p :
  has_status ValidationStatus.PASSED p.2 || accepted_advisory_failure plan p = true <->
  accepted plan p.1 p.2.
Proof.
  unfold accepted, accepted_advisory_failure, has_status, is_required.
  rewrite orb_true_iff, !andb_true_iff, negb_true_iff, !bool_decide_eq_true, bool_decide_eq_false.
  destruct (classification p.1); intuition congruence.
Qed.

Lemma check_evidence_Ok plan n t previous commands results u :
  matches _PLAN_ID (plan_id plan) = true -> Forall Command_wf commands ->
  length results = length commands -> Forall Result_wf results ->
  (match previous with
   | Some p => instant t = instant p /\ instant (plan_created_at plan) <= instant p
   | None => t = plan_created_at plan
   end) ->
  check_evidence plan n previous (combine commands results) = Ok u <->
  ordered_evidence plan n t commands results.
Proof.
  intros Hid Hc. revert n t previous results.
  induction Hc as [|c commands Hc Hcs IH]; intros n t previous results Hlen Hr Ht.
  - destruct results; [|done]. simpl. destruct u. split; [constructor | done].
  - destruct results as [|r results]; [done|]. inversion Hr as [|? ? Hr1 Hr2]; subst. simpl.
    rewrite correlation_safe by (done || apply Command_wf_facts, Hc). simpl.
    rewrite !bind_raise_if_Ok, negb_false_iff.
    pose proof (rs_order _ (Result_wf_facts _ Hr1)) as Ho.
    unfold dt_lt. split.
    + intros (Hm & Hcr & Hp & Hrest). rewrite Z.ltb_ge in Hcr. constructor; [done| |].
      * destruct previous; [|by subst]. destruct Ht as [-> ?]. by apply Z.ltb_ge in Hp.
      * apply (IH (n + 1) (vr_completed_at r) (Some (vr_completed_at r)) results) in Hrest;
          [done | simpl in Hlen; lia | done | split; [done | lia]].
    + inversion 1 as [|? ? ? ? ? ? Hm Hle Hrest]; subst. split; [done|].
      split; [apply Z.ltb_ge; destruct previous as [p|]; [lia | by subst]|].
      split; [destruct previous as [p|]; [apply Z.ltb_ge; lia | done]|].
      apply (IH (n + 1) (vr_completed_at r) (Some (vr_completed_at r)) results);
        [simpl in Hlen; lia | done | split; [done|] | done].
      destruct previous; [lia | subst; lia].
Qed.

Lemma ordered_evidence_length plan n t cs rs : ordered_evidence plan n t cs rs -> length rs = length cs.
Proof. induction 1; simpl; congruence. Qed.

Lemma result_matches_facts plan n c r e :
  result_matches plan n c r e = true <->
  vr_sequence r = n /\ vr_command_id r = vc_id c /\ vr_plan_id r = plan_id plan /\
  vr_run_id r = plan_run_id plan /\ vr_work_package_id r = plan_work_package_id plan /\
  vr_classification r = classification c /\ vr_executable r = vc_executable c /\
  vr_expected_exit_codes r = expected_exit_codes c /\ vr_correlation_id r = e.
Proof.
  unfold result_matches. rewrite !andb_true_iff, Z.eqb_eq, !bool_decide_eq_true. tauto.
Qed.

Lemma ordered_evidence_fields plan n t cs rs :
  ordered_evidence plan n t cs rs ->
  vr_command_id <$> rs = vc_id <$> cs /\
  (vr_sequence <$> rs) = (fun i => n + Z.of_nat i) <$> seq 0 (length rs) /\
  Forall (fun r => vr_plan_id r = plan_id plan /\ vr_run_id r = plan_run_id plan /\
                   vr_work_package_id r = plan_work_package_id plan) rs.
Proof.
  induction 1 as [|n t c cs r rs Hm Hle H (IH1 & IH2 & IH3)]; [by repeat constructor|].
  apply result_matches_facts in Hm as (Hn & Hid & ? & ? & ? & _).
  rewrite !fmap_cons, IH1, Hid, IH2, Hn. split; [done|]. split; [|by constructor].
  simpl length. rewrite <- cons_seq, fmap_cons, <- (fmap_S_seq 0), <- list_fmap_compose.
  f_equal; [lia|]. apply list_fmap_ext. intros. simpl. lia.
Qed.

Definition status_counts (results : list ValidationCommandResult) : ValidationSummary :=
  mk_ValidationSummary (Z.of_nat (length results))
    (count (has_status ValidationStatus.PASSED) results)
    (count (has_status ValidationStatus.FAILED) results)
    (count (has_status ValidationStatus.TIMED_OUT) results)
    (count (has_status ValidationStatus.CANCELLED) results)
    (count (has_status ValidationStatus.BLOCKED) results)
    (count (has_status ValidationStatus.UNAVAILABLE) results)
    (count (has_status ValidationStatus.INVALID) results)
    (count (has_status ValidationStatus.NOT_RUN) results).

Lemma status_counts_total results :
  Forall Result_wf results ->
  let s := status_counts results in
  vs_passed s + vs_failed s + vs_timed_out s + vs_cancelled s + vs_blocked s + vs_unavailable s
  + vs_invalid s + vs_not_run s = vs_total s.
Proof.
  induction 1 as [|r results Hr H IH]; [done|]. simpl in *. rewrite !count_cons.
  pose proof (rs_status _ (Result_wf_facts _ Hr)). unfold has_status in *.
  destruct (vr_status r); simpl in *; try congruence; lia.
Qed.

Lemma validation_summary_total results :
  Forall Result_wf results -> 1 <= Z.of_nat (length results) <= MAX_VALIDATION_COMMANDS ->
  validation_summary results = Ok (status_counts results).
Proof.
  intros Hr Hlen. pose proof (status_counts_total _ Hr) as Ht.
  assert (Hc : forall p, in_range 0 MAX_VALIDATION_COMMANDS (count p results) = true).
  { intros p. unfold in_range. pose proof (count_nonneg p results).
    pose proof (count_le_length p results). apply andb_true_iff. rewrite !Z.leb_le. lia. }
  unfold validation_summary. fold (status_counts results).
  unfold validate_ValidationSummary, _validate_total, require.
  rewrite !bind_raise_if. simpl vs_total. simpl forallb. rewrite !Hc. simpl.
  replace (in_range 1 _ _) with true
    by (symmetry; unfold in_range; rewrite andb_true_iff, !Z.leb_le; lia).
  simpl. simpl in Ht. rewrite (proj2 (Z.eqb_eq _ _) Ht). done.
Qed.

(** The outcome flags follow from the acceptance of every command. *)
Lemma only_allowed_iff plan commands results :
  length results = length commands ->
  only_allowed_outcomes plan (combine commands results) = true <->
  Forall2 (accepted plan) commands results.
Proof.
  unfold only_allowed_outcomes. revert results. induction commands as [|c cs IH]; intros results Hlen.
  - destruct results; [|done]. simpl. split; [constructor | done].
  - destruct results as [|r rs]; [done|]. injection Hlen as Hlen.
    change (combine (c :: cs) (r :: rs)) with ((c, r) :: combine cs rs).
    cbn [forallb]. rewrite andb_true_iff, accepted_iff, (IH _ Hlen). simpl.
    split; [intros []; by constructor | by inversion 1].
Qed.

Lemma accepted_required plan commands results :
  Forall2 (accepted plan) commands results ->
  required_passed (combine commands results) = true /\ all_complete results = true.
Proof.
  induction 1 as [|c r cs rs Ha H [IH1 IH2]]; [done|].
  unfold required_passed, all_complete in *. simpl. rewrite IH1, IH2, !andb_true_r.
  unfold has_status, is_required. destruct Ha as [->|(-> & -> & _)]; simpl; [|done].
  by rewrite orb_true_r.
Qed.

Lemma advisory_accepted_iff plan commands results :
  length results = length commands -> Forall2 (accepted plan) commands results ->
  advisory_accepted plan (combine commands results) results = true <->
  Exists (fun r => vr_status r = ValidationStatus.FAILED) results.
Proof.
  intros Hlen Ha. unfold advisory_accepted.
  destruct (accepted_required _ _ _ Ha) as [-> ->].
  rewrite (proj2 (only_allowed_iff plan _ _ Hlen) Ha), !andb_true_r. clear Hlen.
  induction Ha as [|c r cs rs Hacc H IH]; simpl.
  - split; [done | inversion 1].
  - rewrite Exists_cons. unfold has_status, is_required, accepted in *.
    destruct (classification c), (vr_status r), (allow_advisory_failures (plan_execution plan));
      simpl in *; intuition (try congruence);
      repeat match goal with H : _ && false = true |- _ => rewrite andb_false_r in H end;
      intuition congruence.
Qed.

Lemma failure_status_not_passing results : is_passing (_aggregate_failure_status results) = false.
Proof.
  unfold _aggregate_failure_status. destruct (find_first _ _) as [s|] eqn:Hf; [|done].
  apply find_first_Some in Hf as [Hf _]. simpl. revert Hf. rewrite !elem_of_cons, elem_of_nil.
  by intros [->|[->|[->|[->|[->|[->|[]]]]]]].
Qed.

(** The status in terms of the accepted outcomes. *)
Lemma aggregate_status_spec plan commands results :
  length results = length commands ->
  let status := aggregate_status plan (combine commands results) results in
  (Forall2 (accepted plan) commands results ->
   status = if advisory_accepted plan (combine commands results) results
            then ValidationStatus.PASSED_WITH_ADVISORIES else ValidationStatus.PASSED) /\
  (~ Forall2 (accepted plan) commands results -> is_passing status = false).
Proof.
  intros Hlen. unfold aggregate_status. split.
  - intros Ha. destruct (accepted_required _ _ _ Ha) as [-> ->].
    by rewrite (proj2 (only_allowed_iff plan _ _ Hlen) Ha).
  - intros Ha. destruct (only_allowed_outcomes _ _) eqn:Ho.
    + by apply only_allowed_iff in Ho.
    + rewrite andb_false_r. apply failure_status_not_passing.
Qed.

Lemma dt_min_list_le t ts :
  is_utc t = true -> Forall (fun u => is_utc u = true) ts ->
  is_utc (dt_min_list t ts) = true /\ instant (dt_min_list t ts) <= instant t.
Proof.
  intros Ht Hts. revert t Ht. induction Hts as [|u ts Hu Hts IH]; intros t Ht; simpl; [split; [done|lia]|].
  unfold dt_min_list in *. simpl. unfold dt_lt in *. destruct (Z.ltb_spec (instant u) (instant t)).
  - destruct (IH u Hu). split; [done | lia].
  - by apply IH.
Qed.

Lemma dt_max_list_ge t ts :
  is_utc t = true -> Forall (fun u => is_utc u = true) ts ->
  is_utc (dt_max_list t ts) = true /\ instant t <= instant (dt_max_list t ts).
Proof.
  intros Ht Hts. revert t Ht. induction Hts as [|u ts Hu Hts IH]; intros t Ht; simpl; [split; [done|lia]|].
  unfold dt_max_list in *. simpl. destruct (IH (dt_max t u)) as [H1 H2]; [eauto with rev|].
  split; [done|]. rewrite instant_dt_max in H2. lia.
Qed.

Lemma id_validators_Ok plan :
  Plan_facts plan ->
  ValidationPlanId (plan_id plan) = Ok (plan_id plan) /\
  RunId (plan_run_id plan) = Ok (plan_run_id plan) /\
  WorkPackageId (plan_work_package_id plan) = Ok (plan_work_package_id plan).
Proof.
  intros [H1 H2 H3 _ _ _ _ _]. unfold ValidationPlanId, RunId, WorkPackageId.
  rewrite H1. split; [done|]. split; by apply stable_identifier_Ok.
Qed.

Definition aggregate_value (plan : ValidationPlan) (first : ValidationCommandResult)
    (rest : list ValidationCommandResult) : ValidationPlanResult :=
  let results := first :: rest in
  let pairs := combine (plan_commands plan) results in
  mk_ValidationPlanResult VALIDATION_SCHEMA_VERSION VALIDATION_SCHEMA_VERSION (plan_id plan) (plan_run_id plan) (plan_work_package_id plan)
    (dt_min_list (vr_started_at first) (vr_started_at <$> rest))
    (dt_max_list (vr_completed_at first) (vr_completed_at <$> rest))
    (aggregate_status plan pairs results) results (status_counts results) (required_passed pairs)
    (all_complete results) (advisory_accepted plan pairs results)
    (existsb (has_status ValidationStatus.CANCELLED) results).

Lemma count_all {A} (p : A -> bool) xs : Forall (fun x => p x = true) xs -> count p xs = Z.of_nat (length xs).
Proof. induction 1 as [|x xs Hx H IH]; [done|]. rewrite count_cons, Hx, IH. simpl. lia. Qed.

Lemma count_pos {A} (p : A -> bool) xs : Exists (fun x => p x = true) xs -> 0 < count p xs.
Proof.
  induction 1 as [x xs Hx|x xs H IH]; rewrite count_cons.
  - rewrite Hx. pose proof (count_nonneg p xs). lia.
  - destruct (p x); lia.
Qed.

(** Accepted evidence without an advisory failure is all passed. *)
Lemma accepted_all_passed plan cs rs :
  Forall2 (accepted plan) cs rs -> ~ Exists (fun r => vr_status r = ValidationStatus.FAILED) rs ->
  Forall (fun r => vr_status r = ValidationStatus.PASSED) rs.
Proof.
  induction 1 as [|c r cs rs Ha H IH]; [constructor|]. rewrite Exists_cons. intros Hn.
  constructor; [destruct Ha as [?|(_ & ? & _)]; tauto | tauto].
Qed.

(** The consistency clauses of the aggregate hold of the computed flags. *)
Lemma aggregate_flags plan first rest :
  let results := first :: rest in
  let p := aggregate_value plan first rest in
  length results = length (plan_commands plan) ->
  bool_decide (pr_status p = ValidationStatus.PASSED)
    && negb (required_commands_passed p && all_evidence_complete p
             && (vs_passed (pr_summary p) =? vs_total (pr_summary p))
             && negb (advisory_failures_accepted p)) = false /\
  bool_decide (pr_status p = ValidationStatus.PASSED_WITH_ADVISORIES)
    && negb (required_commands_passed p && all_evidence_complete p
             && (0 <? vs_failed (pr_summary p)) && advisory_failures_accepted p) = false /\
  is_passing (pr_status p)
    && (negb (required_commands_passed p) || negb (all_evidence_complete p)) = false.
Proof.
  intros results p Hlen. subst p. unfold aggregate_value. fold results. cbn [pr_status required_commands_passed
    all_evidence_complete pr_summary advisory_failures_accepted].
  pose proof (only_allowed_iff plan _ _ Hlen) as Hoa.
  destruct (aggregate_status_spec plan _ _ Hlen) as [Hs1 Hs2].
  destruct (only_allowed_outcomes _ _) eqn:Ho.
  - pose proof (proj1 Hoa eq_refl) as Ha.
    destruct (accepted_required _ _ _ Ha) as [-> ->]. rewrite (Hs1 Ha).
    pose proof (advisory_accepted_iff _ _ _ Hlen Ha) as Hadv.
    destruct (advisory_accepted _ _ _); simpl.
    + split; [done|]. split; [|done].
      rewrite (proj2 (Z.ltb_lt _ _)); [done|]. apply count_pos.
      eapply Exists_impl; [exact (proj1 Hadv eq_refl)|]. intros r Hr. by apply bool_decide_eq_true.
    + split; [|done]. unfold status_counts. cbn [vs_passed vs_total].
      rewrite count_all, Z.eqb_refl; [done|].
      eapply Forall_impl; [apply (accepted_all_passed _ _ _ Ha); intros He; by apply Hadv in He|].
      intros r Hr. by apply bool_decide_eq_true.
  - assert (Hn : is_passing (aggregate_status plan (combine (plan_commands plan) results) results) = false)
      by (apply Hs2; intros Ha; by apply Hoa in Ha).
    destruct (aggregate_status _ _ _); done.
Qed.

Lemma sequence_numbers_eq n : sequence_numbers n = (fun i => 1 + Z.of_nat i) <$> seq 0 n.
Proof.
  unfold sequence_numbers. rewrite <- (fmap_S_seq 0), <- list_fmap_compose.
  apply list_fmap_ext. intros. simpl. lia.
Qed.

(** When the aggregate constructor accepts. *)
Lemma plan_result_intro p :
  pr_schema_version p = 1 -> pr_plan_schema_version p = 1 ->
  ValidationPlanId (pr_plan_id p) = Ok (pr_plan_id p) ->
  RunId (pr_run_id p) = Ok (pr_run_id p) ->
  WorkPackageId (pr_work_package_id p) = Ok (pr_work_package_id p) ->
  is_utc (pr_started_at p) = true -> is_utc (pr_completed_at p) = true ->
  instant (pr_started_at p) <= instant (pr_completed_at p) ->
  Forall Result_wf (pr_commands p) -> pr_commands p <> [] ->
  vr_sequence <$> pr_commands p = sequence_numbers (length (pr_commands p)) ->
  NoDup (vr_command_id <$> pr_commands p) ->
  Forall (fun r => vr_plan_id r = pr_plan_id p /\ vr_run_id r = pr_run_id p /\
                   vr_work_package_id r = pr_work_package_id p) (pr_commands p) ->
  validation_summary (pr_commands p) = Ok (pr_summary p) ->
  pr_cancelled p = existsb (has_status ValidationStatus.CANCELLED) (pr_commands p) ->
  bool_decide (pr_status p = ValidationStatus.PASSED)
    && negb (required_commands_passed p && all_evidence_complete p
             && (vs_passed (pr_summary p) =? vs_total (pr_summary p))
             && negb (advisory_failures_accepted p)) = false ->
  bool_decide (pr_status p = ValidationStatus.PASSED_WITH_ADVISORIES)
    && negb (required_commands_passed p && all_evidence_complete p
             && (0 <? vs_failed (pr_summary p)) && advisory_failures_accepted p) = false ->
  is_passing (pr_status p)
    && (negb (required_commands_passed p) || negb (all_evidence_complete p)) = false ->
  validate_ValidationPlanResult p = Ok p.
Proof.
  destruct p. simpl. intros -> -> H1 H2 H3 Hs Hc Ho Hw Hne Hseq Hnd Hcorr Hsum -> Hf1 Hf2 Hf3.
  unfold validate_ValidationPlanResult. simpl.
  rewrite H1, H2, H3, (proj2 (require_utc_Ok _ _) (conj eq_refl Hs)),
    (proj2 (require_utc_Ok _ _) (conj eq_refl Hc)), (traverse_fix _ _ Hw).
  unfold validation_summary in Hsum. pose proof (idem _ _ Hsum) as Hsum'. rewrite Hsum'.
  unfold _validate_aggregate. simpl. unfold validation_summary. rewrite Hsum.
  rewrite (bool_decide_eq_false_2 _ Hne), (bool_decide_eq_true_2 _ Hseq).
  unfold dt_lt. rewrite (proj2 (Z.ltb_ge _ _) Ho). simpl.
  unfold has_duplicates. rewrite (bool_decide_eq_true_2 _ Hnd). simpl.
  match goal with |- context [existsb (fun r => _ || _) ?xs] =>
    rewrite (proj2 (existsb_false (fun r => _ || _) xs)) end.
  - simpl. rewrite !bool_decide_refl. simpl. by rewrite Hf1, Hf2, Hf3.
  - eapply Forall_impl; [exact Hcorr|]. intros r (E1 & E2 & E3). by rewrite !bool_decide_eq_true_2.
Qed.

Lemma validate_aggregate_value plan first rest :
  Plan_wf plan -> Forall Result_wf (first :: rest) ->
  ordered_evidence plan 1 (plan_created_at plan) (plan_commands plan) (first :: rest) ->
  validate_ValidationPlanResult (aggregate_value plan first rest) = Ok (aggregate_value plan first rest).
Proof.
  intros Hp Hr He. pose proof (Plan_wf_facts _ Hp) as Hf.
  pose proof (ordered_evidence_length _ _ _ _ _ He) as Hlen.
  destruct (ordered_evidence_fields _ _ _ _ _ He) as (Hids & Hseq & Hcorr).
  destruct (id_validators_Ok _ Hf) as (Hi1 & Hi2 & Hi3).
  assert (Hst : Forall (fun u => is_utc u = true) (vr_started_at <$> first :: rest))
    by (apply Forall_fmap; eapply Forall_impl; [exact Hr|]; intros r Hw; apply (rs_started _ (Result_wf_facts _ Hw))).
  assert (Hco : Forall (fun u => is_utc u = true) (vr_completed_at <$> first :: rest))
    by (apply Forall_fmap; eapply Forall_impl; [exact Hr|]; intros r Hw; apply (rs_completed _ (Result_wf_facts _ Hw))).
  rewrite fmap_cons in Hst, Hco.
  destruct (dt_min_list_le _ _ (Forall_inv Hst) (Forall_inv_tail Hst)) as [Hmin1 Hmin2].
  destruct (dt_max_list_ge _ _ (Forall_inv Hco) (Forall_inv_tail Hco)) as [Hmax1 Hmax2].
  pose proof (rs_order _ (Result_wf_facts _ (Forall_inv Hr))) as Hord.
  destruct (aggregate_flags plan first rest Hlen) as (Hf1 & Hf2 & Hf3).
  apply plan_result_intro; try done.
  - cbn -[dt_min_list dt_max_list]. lia.
  - change (pr_commands _) with (first :: rest). rewrite Hseq. by rewrite sequence_numbers_eq.
  - change (pr_commands _) with (first :: rest). rewrite Hids. apply Hf.
  - change (pr_commands _) with (first :: rest). change (pr_summary _) with (status_counts (first :: rest)).
    apply validation_summary_total; [done|]. rewrite Hlen. apply Hf.
Qed.

(** Aggregation succeeds exactly on the plan's own ordered evidence. *)
Lemma aggregate_Ok plan results r :
  Plan_wf plan -> Forall Result_wf results ->
  aggregate_validation_results plan results = Ok r <->
  exists first rest, results = first :: rest /\ r = aggregate_value plan first rest /\
    ordered_evidence plan 1 (plan_created_at plan) (plan_commands plan) results.
Proof.
  intros Hp Hr. pose proof (Plan_wf_facts _ Hp) as Hf.
  unfold aggregate_validation_results. rewrite bind_raise_if_Ok, negb_false_iff, Nat.eqb_eq.
  assert (Hce : length results = length (plan_commands plan) -> forall u,
    check_evidence plan 1 None (combine (plan_commands plan) results) = Ok u <->
    ordered_evidence plan 1 (plan_created_at plan) (plan_commands plan) results).
  { intros Hlen u. apply check_evidence_Ok; try done; apply Hf. }
  split.
  - intros [Hlen H]. inv_valid. apply (Hce Hlen) in Hv. destruct results as [|first rest]; [done|].
    exists first, rest. split; [done|]. split; [|done]. inv_valid.
    match goal with H : validation_summary _ = Ok _ |- _ => rename H into Hsum end.
    rewrite validation_summary_total in Hsum; [|done|rewrite Hlen; apply Hf]. simplify_eq.
    pose proof (validate_aggregate_value _ _ _ Hp Hr Hv) as Hval.
    assert (Heq : Ok (E := exn) r = Ok (aggregate_value plan first rest)) by (rewrite <- H; exact Hval).
    by injection Heq.
  - intros (first & rest & -> & -> & He). pose proof (ordered_evidence_length _ _ _ _ _ He) as Hlen.
    split; [done|]. rewrite (proj2 (Hce Hlen tt) He). simpl.
    rewrite validation_summary_total; [|done|rewrite Hlen; apply Hf]. simpl.
    by apply validate_aggregate_value.
Qed.

Lemma aggregate_outcome plan first rest :
  let results := first :: rest in
  let p := aggregate_value plan first rest in
  length results = length (plan_commands plan) ->
  (approvable p = true <-> Forall2 (accepted plan) (plan_commands plan) results) /\
  (pr_status p = ValidationStatus.PASSED <->
   Forall (fun c => vr_status c = ValidationStatus.PASSED) results) /\
  (pr_status p = ValidationStatus.PASSED_WITH_ADVISORIES <->
   Forall2 (accepted plan) (plan_commands plan) results /\
   Exists (fun c => vr_status c = ValidationStatus.FAILED) results).
Proof.
  intros results p Hlen. subst p. unfold approvable, aggregate_value. fold results. cbn [pr_status
    required_commands_passed all_evidence_complete].
  pose proof (only_allowed_iff plan _ _ Hlen) as Hoa.
  destruct (aggregate_status_spec plan _ _ Hlen) as [Hs1 Hs2].
  destruct (only_allowed_outcomes _ _) eqn:Ho.
  - pose proof (proj1 Hoa eq_refl) as Ha.
    destruct (accepted_required _ _ _ Ha) as [-> ->]. rewrite (Hs1 Ha).
    pose proof (advisory_accepted_iff _ _ _ Hlen Ha) as Hadv.
    pose proof (accepted_all_passed _ _ _ Ha) as Hall.
    destruct (advisory_accepted _ _ _); simpl; split_and!; try tauto; try (split; [done|]).
    + intros Hpass. destruct (proj1 (Exists_exists _ _) (proj1 Hadv eq_refl)) as (r & Hr & Hrs).
      rewrite Forall_forall in Hpass. rewrite (Hpass r Hr) in Hrs. done.
    + split; [|done]. intros _. apply Hall. intros He. by apply Hadv in He.
    + intros [_ He]. by apply Hadv in He.
  - assert (Hna : ~ Forall2 (accepted plan) (plan_commands plan) results)
      by (intros Ha; by apply Hoa in Ha).
    pose proof (Hs2 Hna) as Hn. rewrite Hn. split_and!; [naive_solver| |].
    + split; [intros Heq; by rewrite Heq in Hn|]. intros Hall. destruct Hna.
      apply Forall2_same_length_lookup_2; [done|]. intros i c r _ Hr. left.
      by rewrite Forall_lookup in Hall; eapply Hall.
    + split; [intros Heq; by rewrite Heq in Hn | tauto].
Qed.

Lemma correlation_raises p c : value_errors (validation_correlation_id p c).
Proof. unfold validation_correlation_id. eauto with rev. Qed.
#[local] Hint Resolve correlation_raises : rev.

Lemma check_evidence_raises plan n previous pairs : value_errors (check_evidence plan n previous pairs).
Proof.
  revert n previous. induction pairs as [|[c r] pairs IH]; intros n previous; simpl; eauto 10 with rev.
Qed.

Lemma aggregate_raises plan results e :
  Plan_wf plan -> Forall Result_wf results ->
  aggregate_validation_results plan results = Err e -> is_ValueError e = true.
Proof.
  intros Hp Hr. pose proof (aggregate_Ok plan results) as Hok.
  pose proof (Plan_wf_facts _ Hp) as Hf. revert Hok. unfold aggregate_validation_results.
  destruct (length results =? _)%nat eqn:Hlen; simpl; [|by intros _ [= <-]].
  apply Nat.eqb_eq in Hlen.
  destruct (check_evidence _ _ _ _) eqn:Hc; simpl; [|intros _ [= <-]; by eapply check_evidence_raises; exact Hc].
  apply (check_evidence_Ok _ _ (plan_created_at plan)) in Hc; try done; try apply Hf.
  intros Hok. destruct results as [|first rest]; [by intros [= <-]|].
  rewrite (proj2 (Hok (aggregate_value plan first rest) Hp Hr)); [done|]. by exists first, rest.
Qed.

(** Aggregation succeeds exactly on the plan's own evidence in time order,
    keeps it, and its outcome is approvable exactly when every command passed or
    is an advisory failure the plan allows; otherwise it raises [ValueError]. *)
Theorem aggregate_spec plan results (Hp : Plan_wf plan) (Hr : Forall Result_wf results) :
  match aggregate_validation_results plan results with
  | Ok r =>
      ordered_evidence plan 1 (plan_created_at plan) (plan_commands plan) results /\
      pr_commands r = results /\ pr_plan_id r = plan_id plan /\
      validate_ValidationPlanResult r = Ok r /\
      (approvable r = true <-> Forall2 (accepted plan) (plan_commands plan) results) /\
      (pr_status r = ValidationStatus.PASSED <->
       Forall (fun c => vr_status c = ValidationStatus.PASSED) results) /\
      (pr_status r = ValidationStatus.PASSED_WITH_ADVISORIES <->
       Forall2 (accepted plan) (plan_commands plan) results /\
       Exists (fun c => vr_status c = ValidationStatus.FAILED) results)
  | Err e =>
      is_ValueError e = true /\
      ~ ordered_evidence plan 1 (plan_created_at plan) (plan_commands plan) results
  end.
Proof.
  destruct (aggregate_validation_results plan results) as [r|e] eqn:He.
  - apply aggregate_Ok in He as (first & rest & -> & -> & Ho); [|done..].
    pose proof (ordered_evidence_length _ _ _ _ _ Ho) as Hlen.
    destruct (aggregate_outcome plan first rest Hlen) as (H1 & H2 & H3).
    do 3 (split; [done|]). split; [by apply validate_aggregate_value|]. done.
  - split; [by eapply aggregate_raises|]. intros Ho. destruct results as [|first rest].
    + apply ordered_evidence_length in Ho. destruct (Plan_wf_facts _ Hp) as [_ _ _ _ Hl _ _ _].
      simpl in Ho. rewrite <- Ho in Hl. lia.
    + assert (Hk : aggregate_validation_results plan (first :: rest) = Ok (aggregate_value plan first rest))
        by (apply aggregate_Ok; eauto). congruence.
Qed.

(** ** Evidence built by the runner is valid evidence *)

Definition Output_wf (o : ValidationCapturedOutput) : Prop := validate_ValidationCapturedOutput o = Ok o.

(** A result carrying the plan's correlation fields. *)
Definition result_of (plan : ValidationPlan) (command : ValidationCommand) (sequence : Z)
    (status : ValidationStatus.t) (command_status : option CommandStatus.t) (started_at : datetime)
    (duration_ms : Z) (resolved : option Path) (exit_code : option Z)
    (stdout stderr : ValidationCapturedOutput) (failure : option ValidationFailure)
    : ValidationCommandResult :=
  mk_ValidationCommandResult VALIDATION_SCHEMA_VERSION (plan_id plan) (plan_run_id plan)
    (plan_work_package_id plan) (vc_id command) sequence (classification command) status
    command_status started_at (add_ms started_at duration_ms) duration_ms (vc_executable command)
    resolved (plan_id plan +:+ "." +:+ vc_id command) exit_code (expected_exit_codes command)
    stdout stderr failure.

Lemma result_of_matches plan c n s cs t d p x o1 o2 f :
  result_matches plan n c (result_of plan c n s cs t d p x o1 o2 f)
    (plan_id plan +:+ "." +:+ vc_id c) = true.
Proof. apply result_matches_facts. done. Qed.

Lemma correlation_field plan c :
  Plan_facts plan -> Command_facts c ->
  pattern_field "correlation_id" correlation_pattern (plan_id plan +:+ "." +:+ vc_id c)
  = Ok (plan_id plan +:+ "." +:+ vc_id c).
Proof.
  intros Hp Hc. destruct (correlation_Ok _ _ _ (correlation_safe _ _ (pf_id _ Hp) (cf_id _ Hc))) as [_ Hm].
  apply (pattern_field_safe (in_class "_.-" is_alnum)); [vm_compute; done..|done].
Qed.

Lemma result_of_intro plan c n s cs t d p x o1 o2 f :
  Plan_facts plan -> Command_facts c -> 1 <= n <= MAX_VALIDATION_COMMANDS -> is_utc t = true ->
  0 <= d <= MS_PER_DAY ->
  (match p with Some p => path_absolute p | None => true end) = true ->
  optional_range 0 (2 ^ 32 - 1) x = true -> Output_wf o1 -> Output_wf o2 ->
  validate_optional validate_ValidationFailure f = Ok f ->
  let r := result_of plan c n s cs t d p x o1 o2 f in
  validate_ValidationCommandResult r = _validate_result r.
Proof.
  intros Hp Hc Hn Ht Hd Hres Hx Ho1 Ho2 Hf r. subst r.
  destruct (id_validators_Ok _ Hp) as (H1 & H2 & H3).
  unfold validate_ValidationCommandResult, result_of.
  cbn [vr_schema_version vr_plan_id vr_run_id vr_work_package_id vr_command_id vr_sequence
       vr_started_at vr_completed_at vr_duration_ms vr_executable vr_resolved_executable
       vr_correlation_id vr_exit_code vr_stdout vr_stderr vr_failure vr_classification vr_status
       vr_command_status vr_expected_exit_codes].
  rewrite H1, H2, H3, (cf_executable _ Hc), (correlation_field _ _ Hp Hc), Ho1, Ho2, Hf, Hx, Hres.
  unfold ValidationCommandId. rewrite (cf_id _ Hc).
  assert (Ht2 : is_utc (add_ms t d) = true) by done.
  rewrite (proj2 (require_utc_Ok t t) (conj eq_refl Ht)).
  rewrite (proj2 (require_utc_Ok _ _) (conj eq_refl Ht2)).
  replace (in_range 1 MAX_VALIDATION_COMMANDS n) with true
    by (symmetry; unfold in_range; rewrite andb_true_iff, !Z.leb_le; lia).
  replace (in_range 0 86400000 d) with true
    by (symmetry; unfold in_range; rewrite andb_true_iff, !Z.leb_le; unfold MS_PER_DAY in Hd; lia).
  done.
Qed.

Definition empty_output : ValidationCapturedOutput := mk_ValidationCapturedOutput "" 0 0 false false None.

Lemma empty_output_Ok : _empty_output = Ok empty_output /\ Output_wf empty_output.
Proof. split; vm_compute; done. Qed.

Lemma result_duration plan c n s cs t d p x o1 o2 f :
  0 <= d ->
  let r := result_of plan c n s cs t d p x o1 o2 f in
  dt_lt (vr_completed_at r) (vr_started_at r) = false /\
  (instant (vr_completed_at r) - instant (vr_started_at r) =? vr_duration_ms r * 1000) = true.
Proof.
  intros Hd r. subst r. unfold dt_lt. simpl. rewrite Z.ltb_ge, Z.eqb_eq. lia.
Qed.

(** Evidence that claims no process. *)
Lemma prelaunch_Ok plan c n t status f :
  Plan_facts plan -> Command_facts c -> 1 <= n <= MAX_VALIDATION_COMMANDS -> is_utc t = true ->
  status ∈ [ValidationStatus.CANCELLED; ValidationStatus.INVALID; ValidationStatus.NOT_RUN] ->
  Failure_wf f ->
  let r := result_of plan c n status None t 0 None None empty_output empty_output (Some f) in
  _prelaunch_result plan c n t status f = Ok r /\ Result_wf r.
Proof.
  intros Hp Hc Hn Ht Hs Hf r.
  assert (Hv : validate_ValidationCommandResult r = Ok r).
  { subst r. rewrite result_of_intro; try done.
    - destruct (result_duration plan c n status None t 0 None None empty_output empty_output (Some f))
        as [E1 E2]; [done|].
      unfold _validate_result. rewrite E1, E2. simpl. rewrite !elem_of_cons, elem_of_nil in Hs.
      by destruct Hs as [->|[->|[->|[]]]].
    - simpl. by rewrite Hf. }
  split; [|done]. unfold _prelaunch_result. destruct empty_output_Ok as [-> _].
  rewrite (correlation_safe _ _ (pf_id _ Hp) (cf_id _ Hc)). simpl.
  replace t with (add_ms t 0) at 2 by (destruct t; unfold add_ms; simpl; f_equal; lia).
  exact Hv.
Qed.

(** The constant failures of the runner are well formed. *)
Definition failure_text (code message : string) : bool :=
  bool_decide (str_strip code = code) && matches failure_code_pattern code
  && bool_decide (str_strip message = message) && (1 <=? py_len message) && (py_len message <=? 1024).

Lemma failure_Ok category code message result :
  failure_text code message = true ->
  exists f, _failure category code message result = Ok f /\ Failure_wf f.
Proof.
  unfold failure_text. rewrite !andb_true_iff, !bool_decide_eq_true, !Z.leb_le.
  intros ((((H1 & H2) & H3) & H4) & H5).
  assert (Hv : forall k, validate_ValidationFailure (mk_ValidationFailure category code message k)
                         = Ok (mk_ValidationFailure category code message k)).
  { intros k. unfold validate_ValidationFailure. simpl.
    rewrite (proj2 (pattern_field_Ok "code" failure_code_pattern code code)) by done.
    rewrite (proj2 (text_field_Ok "message" 1 1024 message message)) by done. done. }
  unfold _failure. eexists. split; [apply Hv | apply Hv].
Qed.

Ltac constant_failure :=
  match goal with
  | |- context [_failure ?cat ?code ?message ?result] =>
      let f := fresh "f" in let Hf := fresh "Hf" in let Hw := fresh "Hw" in
      destruct (failure_Ok cat code message result ltac:(vm_compute; reflexivity)) as (f & Hf & Hw);
      rewrite Hf
  end.

Lemma duration_ms_range a b : 0 <= _duration_ms a b <= MS_PER_DAY.
Proof. unfold _duration_ms, MS_PER_DAY. lia. Qed.

(** Outcomes of one command: valid evidence of that command, after [t]. *)
Definition evidence_of (plan : ValidationPlan) (command : ValidationCommand) (sequence : Z)
    (t : datetime) (r : ValidationCommandResult) : Prop :=
  Result_wf r /\
  result_matches plan sequence command r (plan_id plan +:+ "." +:+ vc_id command) = true /\
  instant t <= instant (vr_started_at r).

Lemma evidence_completed plan c n t r :
  evidence_of plan c n t r ->
  is_utc (vr_completed_at r) = true /\ instant t <= instant (vr_completed_at r).
Proof. intros (Hw & _ & Ht). destruct (Result_wf_facts _ Hw). split; [done|lia]. Qed.

Lemma prelaunch_evidence plan c n t status f :
  Plan_facts plan -> Command_facts c -> 1 <= n <= MAX_VALIDATION_COMMANDS -> is_utc t = true ->
  status ∈ [ValidationStatus.CANCELLED; ValidationStatus.INVALID; ValidationStatus.NOT_RUN] ->
  Failure_wf f ->
  exists r, _prelaunch_result plan c n t status f = Ok r /\ evidence_of plan c n t r /\
            vr_status r = status /\ vr_completed_at r = t.
Proof.
  intros Hp Hc Hn Ht Hs Hf. destruct (prelaunch_Ok plan c n t status f) as [H1 H2]; try done.
  eexists. split; [exact H1|]. split; [|split; [done|destruct t; unfold result_of, add_ms; simpl; f_equal; lia]].
  split; [done|]. split; [apply result_of_matches | simpl; lia].
Qed.

(** The evidence a command result may carry through. *)
Definition exit_code_representable (result : CommandResult) : Prop :=
  optional_range 0 (2 ^ 32 - 1) (cr_exit_code result) = true.

Lemma invalid_evidence plan c n result code message occurred t :
  Plan_facts plan -> Command_facts c -> 1 <= n <= MAX_VALIDATION_COMMANDS ->
  is_utc (cr_started_at result) = true -> is_utc t = true ->
  exit_code_representable result -> failure_text code message = true ->
  (match occurred with Some u => u = t | None => instant t <= instant (cr_started_at result) end) ->
  exists r, _invalid_result_from_command plan c n result code message occurred = Ok r /\
            evidence_of plan c n t r /\ vr_status r = ValidationStatus.INVALID.
Proof.
  intros Hp Hc Hn Hst Ht Hx Htext Hocc.
  destruct (failure_Ok ValidationFailureCategory.INVALID_EVIDENCE code message None Htext) as (f & Hf & Hw).
  set (s := default (cr_started_at result) occurred).
  set (d := match occurred with Some _ => 0 | None => _duration_ms (cr_started_at result) (cr_completed_at result) end).
  set (p := match cr_resolved_executable result with Some p => if path_absolute p then Some p else None | None => None end).
  set (r := result_of plan c n ValidationStatus.INVALID (Some (cr_status result)) s d p
              (cr_exit_code result) empty_output empty_output (Some f)).
  assert (Hd : 0 <= d <= MS_PER_DAY).
  { subst d. destruct occurred; [unfold MS_PER_DAY; lia | apply duration_ms_range]. }
  assert (Hv : validate_ValidationCommandResult r = Ok r).
  { subst r. rewrite result_of_intro; try done.
    - destruct (result_duration plan c n ValidationStatus.INVALID (Some (cr_status result)) s d p
                  (cr_exit_code result) empty_output empty_output (Some f)) as [E1 E2]; [lia|].
      unfold _validate_result. by rewrite E1, E2.
    - subst s. destruct occurred; simpl; congruence.
    - subst p. destruct (cr_resolved_executable result) as [q|]; [|done]. by destruct (path_absolute q) eqn:?.
    - simpl. by rewrite Hw. }
  exists r. split.
  - unfold _invalid_result_from_command. destruct empty_output_Ok as [-> _].
    rewrite (correlation_safe _ _ (pf_id _ Hp) (cf_id _ Hc)), Hf. exact Hv.
  - split; [|done]. split; [done|]. split; [apply result_of_matches|]. simpl. subst s.
    destruct occurred; simpl; [subst; lia | done].
Qed.

(** A process killed by a signal has a negative return code on POSIX, which
    this evidence cannot hold. *)
Lemma validate_result_exit_code r s :
  validate_ValidationCommandResult r = Ok s -> optional_range 0 (2 ^ 32 - 1) (vr_exit_code r) = true.
Proof. unfold validate_ValidationCommandResult. intros. by inv_valid. Qed.

Ltac case_reads := repeat first
  [ apply reads_lift | apply reads_ret | apply reads_gets | apply reads_raise
  | apply reads_attempt | apply reads_fmap | apply reads_bind; [|intros ?] | case_match ].

Section RunnerFacts.
Context {W : Type}.
Variable fs_resolve : W -> Path -> option Path.
Variable fs_is_dir : W -> Path -> bool.
Variable fs_is_file : W -> Path -> bool.
Variable fs_size : W -> Path -> option Z.

Local Abbreviation resolve_directory := (_resolve_working_directory W fs_resolve fs_is_dir).
Local Abbreviation translate := (_translate_output W fs_resolve fs_is_file fs_size).
Local Abbreviation normalize := (_normalize_command_result W fs_resolve fs_is_file fs_size).

Lemma reads_resolve p : reads (resolve W fs_resolve p).
Proof. done. Qed.

Lemma reads_resolve_directory root c : reads (resolve_directory root c).
Proof. unfold _resolve_working_directory. case_reads. Qed.

Lemma reads_preflight plan env : reads (_preflight W fs_resolve fs_is_dir plan env).
Proof.
  assert (Hd : forall root cs, reads (preflight_directories W fs_resolve fs_is_dir root cs)).
  { intros root cs. induction cs as [|c cs IH]; simpl; [done|].
    apply reads_bind; [apply reads_resolve_directory|]. intros a. case_match; [done|apply IH]. }
  unfold _preflight. case_reads; try done; apply Hd.
Qed.

Lemma reads_translate plan c o s corr : reads (translate plan c o s corr).
Proof.
  unfold _translate_output, _translate_artifact. case_reads; done.
Qed.

Lemma reads_translate_outputs plan c r corr :
  reads (translate_outputs W fs_resolve fs_is_file fs_size plan c r corr).
Proof.
  unfold translate_outputs. do 2 (apply reads_bind; [apply reads_translate | intros ?]). case_reads.
Qed.

Lemma reads_normalize plan c n r t : reads (normalize plan c n r t).
Proof.
  unfold _normalize_command_result. apply reads_bind; [done|]. intros corr.
  repeat (case_match; [done|]). apply reads_bind; [|intros [[??]|?]; case_reads].
  apply reads_attempt, reads_translate_outputs.
Qed.

(** Translated output is valid and carries the correlation of its command. *)
Lemma artifact_correlation a b :
  validate_ValidationArtifactReference a = Ok b ->
  pattern_field "correlation_id" correlation_pattern (va_correlation_id a) = Ok (va_correlation_id b).
Proof.
  unfold validate_ValidationArtifactReference, _validate_artifact. intros. by inv_valid.
Qed.

Lemma translate_artifact_Ok plan a corr w w' b :
  pattern_field "correlation_id" correlation_pattern corr = Ok corr ->
  _translate_artifact W fs_resolve fs_is_file fs_size plan a corr w = (w', Ok b) ->
  va_correlation_id b = corr.
Proof.
  intros Hcorr. unfold _translate_artifact. destruct (vap_directory _); [|done]. intros H. inv_run.
  repeat first [progress inv_run | case_match; try done].
  match goal with H : validate_ValidationArtifactReference _ = Ok _ |- _ =>
    apply artifact_correlation in H; simpl in H end. congruence.
Qed.

Lemma captured_output_artifact o p :
  validate_ValidationCapturedOutput o = Ok p ->
  validate_optional validate_ValidationArtifactReference (vco_artifact o) = Ok (vco_artifact p).
Proof. unfold validate_ValidationCapturedOutput, _validate_output. intros. by inv_valid. Qed.

Lemma translate_output_Ok plan c o s corr w w' out :
  pattern_field "correlation_id" correlation_pattern corr = Ok corr ->
  translate plan c o s corr w = (w', Ok out) -> Output_wf out /\ correlation_matches corr out = true.
Proof.
  intros Hcorr. unfold _translate_output. intros H. inv_run.
  match goal with H : validate_ValidationCapturedOutput _ = Ok _ |- _ => rename H into Hout end.
  split; [by eapply idem|]. apply captured_output_artifact in Hout. simpl in Hout.
  unfold correlation_matches. destruct (out_artifact o) as [a|]; inv_run.
  - simpl in Hout. inv_valid. rewrite <- Hout. apply bool_decide_eq_true.
    match goal with H : _translate_artifact _ _ _ _ _ _ _ _ = _ |- _ =>
      pose proof (translate_artifact_Ok _ _ _ _ _ _ Hcorr H) as E end.
    match goal with H : validate_ValidationArtifactReference _ = Ok _ |- _ =>
      apply artifact_correlation in H; rewrite E, Hcorr in H; by injection H end.
  - simpl in Hout. by injection Hout as <-.
Qed.

(** With a resolvable artifact root the translation raises only [ValueError]s,
    which [_normalize_command_result] catches. *)
Lemma captured_output_raises o : value_errors (validate_ValidationCapturedOutput o).
Proof.
  unfold validate_ValidationCapturedOutput, _validate_output, text_field,
    validate_ValidationArtifactReference, _validate_artifact, pattern_field, RepositoryPath,
    _validate_relative_spelling.
  eauto 40 with rev.
Qed.

Definition artifact_root_resolves (plan : ValidationPlan) : Prop :=
  forall w d, vap_directory (plan_artifacts plan) = Some d -> is_some (fs_resolve w d) = true.

Lemma translate_output_raises plan c o s corr :
  artifact_root_resolves plan -> M_value_errors (translate plan c o s corr).
Proof.
  intros Hroot. unfold _translate_output. apply mve_bind; [eauto with rev|]. intros _.
  apply mve_bind; [eauto with rev|]. intros _.
  apply mve_bind; [|intros; apply mve_lift, captured_output_raises].
  destruct (out_artifact o) as [a|]; [|eauto with rev].
  unfold _translate_artifact. destruct (vap_directory (plan_artifacts plan)) as [d|] eqn:Hd.
  - apply mve_bind; [eauto with rev|]. intros _. apply mve_bind; [eauto with rev|]. intros _.
    apply mve_fmap, mve_bind.
    + intros w w' e. unfold resolve. specialize (Hroot w d Hd). by destruct (fs_resolve w d).
    + intros root. apply mve_bind; [eauto with rev|]. intros path.
      destruct (path ≫= _) as [[q rel]|]; [|eauto with rev].
      apply mve_bind; [eauto with rev|]. intros [size|]; [|eauto with rev].
      apply mve_bind; [eauto with rev|]. intros file. destruct (_ || _); [eauto with rev|].
      apply mve_bind; [|intros; apply mve_lift]; unfold RepositoryPath, _validate_relative_spelling,
        validate_ValidationArtifactReference, _validate_artifact, pattern_field; eauto 40 with rev.
  - intros w w' e. simpl. rewrite orb_true_r. by intros [= _ <-].
Qed.

Lemma translate_outputs_raises plan c r corr :
  artifact_root_resolves plan ->
  M_value_errors (translate_outputs W fs_resolve fs_is_file fs_size plan c r corr).
Proof.
  intros Hroot. unfold translate_outputs.
  do 2 (apply mve_bind; [by apply translate_output_raises | intros ?]).
  unfold _require_output_completeness. eauto with rev.
Qed.

(** The mapped status agrees with the rest of the evidence. *)
Lemma map_command_status_Ok plan c n result o1 o2 :
  Command_facts c -> exit_code_representable result ->
  correlation_matches (plan_id plan +:+ "." +:+ vc_id c) o1 = true ->
  correlation_matches (plan_id plan +:+ "." +:+ vc_id c) o2 = true ->
  exists s f, _map_command_status c result = Ok (s, f) /\
    validate_optional validate_ValidationFailure f = Ok f /\ s <> ValidationStatus.NOT_RUN /\
    forall t d p, 0 <= d ->
      let r := result_of plan c n s (Some (cr_status result)) t d p (cr_exit_code result) o1 o2 f in
      _validate_result r = Ok r.
Proof.
  intros Hc Hx Ho1 Ho2.
  assert (Hval : forall s f t d p, 0 <= d -> s <> ValidationStatus.NOT_RUN ->
    match s with
    | ValidationStatus.PASSED =>
        cr_status result = CommandStatus.SUCCESS /\
        exit_code_expected (cr_exit_code result) (expected_exit_codes c) = true /\ f = None
    | ValidationStatus.PASSED_WITH_ADVISORIES => False
    | _ => is_some f = true
    end ->
    let r := result_of plan c n s (Some (cr_status result)) t d p (cr_exit_code result) o1 o2 f in
    _validate_result r = Ok r).
  { intros s f t d p Hd Hs Hsf r. subst r.
    destruct (result_duration plan c n s (Some (cr_status result)) t d p (cr_exit_code result) o1 o2 f Hd)
      as [E1 E2].
    unfold _validate_result. rewrite E1, E2. simpl. rewrite Ho1, Ho2.
    destruct s; simpl; try done; try (destruct f; [done|discriminate]).
    destruct Hsf as (-> & -> & ->). done. }
  unfold _map_command_status.
  destruct (cr_status result) eqn:Hst; cbv beta iota zeta; try (case_match; [|]);
    try (constant_failure; eexists _, _; split; [reflexivity|]; split;
         [simpl; by rewrite Hw|]; split; [done|]; intros; apply Hval; done).
  eexists _, _. split; [reflexivity|]. split; [done|]. split; [done|]. intros. apply Hval; try done.
  split; [done|]. split; [|done]. by rewrite negb_false_iff in *.
Qed.

Definition identity_absolute (result : CommandResult) : Prop :=
  match cr_resolved_executable result with Some p => path_absolute p | None => true end = true.

Lemma normalize_invalid plan c n result code message occurred t w :
  Plan_facts plan -> Command_facts c -> 1 <= n <= MAX_VALIDATION_COMMANDS ->
  is_utc (cr_started_at result) = true -> is_utc t = true ->
  exit_code_representable result -> failure_text code message = true ->
  (match occurred with Some u => u = t | None => instant t <= instant (cr_started_at result) end) ->
  exists r, lift (W := W) (_invalid_result_from_command plan c n result code message occurred) w
              = (w, Ok r) /\
            evidence_of plan c n t r /\ vr_status r <> ValidationStatus.NOT_RUN.
Proof.
  intros. destruct (invalid_evidence plan c n result code message occurred t) as (r & Hr & He & Hs);
    try done. exists r. unfold lift. rewrite Hr, Hs. done.
Qed.

(** A command result whose exit code the evidence can hold becomes evidence. *)
Lemma normalize_evidence plan c n result t w :
  Plan_facts plan -> Command_facts c -> 1 <= n <= MAX_VALIDATION_COMMANDS ->
  is_utc (cr_started_at result) = true -> is_utc t = true ->
  exit_code_representable result -> identity_absolute result -> artifact_root_resolves plan ->
  exists r, normalize plan c n result t w = (w, Ok r) /\ evidence_of plan c n t r /\
            vr_status r <> ValidationStatus.NOT_RUN.
Proof.
  intros Hp Hc Hn Hst Ht Hx Hid Hroot. unfold _normalize_command_result.
  rewrite (correlation_safe _ _ (pf_id _ Hp) (cf_id _ Hc)), lift_bind.
  destruct (dt_lt _ _) eqn:Hlt; [by apply normalize_invalid|].
  unfold dt_lt in Hlt. apply Z.ltb_ge in Hlt.
  destruct (_ || _); [by apply normalize_invalid|].
  destruct (_ && _); [by apply normalize_invalid|].
  set (corr := plan_id plan +:+ "." +:+ vc_id c).
  destruct (translate_outputs W fs_resolve fs_is_file fs_size plan c result corr w) as [w1 out] eqn:Htr.
  pose proof (reads_run _ _ _ _ (reads_translate_outputs plan c result corr) Htr) as ->.
  rewrite (M_bind_run _ _ w w out) by (unfold attempt; by rewrite Htr).
  destruct out as [[o1 o2]|e].
  - unfold translate_outputs in Htr. inv_run.
    pose proof (correlation_field _ _ Hp Hc) as Hcf.
    match goal with H1 : translate _ _ _ OutputStream.STDOUT _ _ = _,
                    H2 : translate _ _ _ OutputStream.STDERR _ _ = _ |- _ =>
      destruct (translate_output_Ok _ _ _ _ _ _ _ _ Hcf H1) as [Hw1 Hm1];
      destruct (translate_output_Ok _ _ _ _ _ _ _ _ Hcf H2) as [Hw2 Hm2] end.
    destruct (map_command_status_Ok plan c n result o1 o2 Hc Hx Hm1 Hm2)
      as (s & f & Hmap & Hf & Hs & Hval).
    rewrite Hmap, lift_bind.
    pose proof (duration_ms_range (cr_started_at result) (cr_completed_at result)) as Hd.
    eexists (result_of plan c n s (Some (cr_status result)) (cr_started_at result)
      (_duration_ms (cr_started_at result) (cr_completed_at result)) (cr_resolved_executable result)
      (cr_exit_code result) o1 o2 f).
    assert (Hwf : Result_wf (result_of plan c n s (Some (cr_status result)) (cr_started_at result)
      (_duration_ms (cr_started_at result) (cr_completed_at result)) (cr_resolved_executable result)
      (cr_exit_code result) o1 o2 f)).
    { unfold Result_wf. rewrite result_of_intro by done. apply Hval. lia. }
    split; [unfold lift; f_equal; exact Hwf|]. split; [|done].
    split; [done|]. split; [apply result_of_matches | done].
  - rewrite (translate_outputs_raises _ _ _ _ Hroot _ _ _ Htr). by apply normalize_invalid.
Qed.

(** Otherwise no evidence is built at all. *)
Lemma normalize_unrepresentable plan c n result t w :
  ~ exit_code_representable result -> is_ok (snd (normalize plan c n result t w)) = false.
Proof.
  intros Hx. destruct (normalize plan c n result t w) as [w' [r|e]] eqn:Hr; [|done].
  destruct Hx. unfold exit_code_representable, _normalize_command_result in *. inv_run.
  assert (Hinv : forall code message occurred s,
    _invalid_result_from_command plan c n result code message occurred = Ok s ->
    optional_range 0 (2 ^ 32 - 1) (cr_exit_code result) = true).
  { intros code message occurred s. unfold _invalid_result_from_command. intros. inv_ok.
    by match goal with H : validate_ValidationCommandResult _ = Ok _ |- _ =>
      apply validate_result_exit_code in H end. }
  repeat (case_match; [inv_run; by eapply Hinv|]). inv_run.
  repeat first [progress inv_run | case_match]; try (by eapply Hinv); try done;
    match goal with H : validate_ValidationCommandResult _ = Ok _ |- _ =>
      by apply validate_result_exit_code in H end.
Qed.
End RunnerFacts.
