(* ===== verification/ValidationExecution.v ===== *)
(** * Executing validation plans

    Theorems on [ValidationRunner.execute]: every plan ends in an aggregate of
    its own evidence, the command runner is asked for the plan's commands only,
    in order and at most once each, and what stops a plan stops it.  The last
    section shows the one result the runner cannot report. *)

From Stdlib Require Import ZArith Lia Ascii String QArith_base.
From S2P Require Import Prelude Text Domain Effects Commands Agents Validation ValidationRunner.
From stdpp Require Import base option strings numbers sets list list_relations.

Open Scope Z_scope.

(** ** Executing a plan *)

(** After a result that stops the plan every later command is not run; and a
    command is not run only after such a result. *)
Inductive run_shape (plan : ValidationPlan) : list ValidationCommandResult -> Prop :=
| shape_nil : run_shape plan []
| shape_stop x post :
    _should_stop plan x = true -> vr_status x <> ValidationStatus.NOT_RUN ->
    Forall (fun r => vr_status r = ValidationStatus.NOT_RUN) post -> run_shape plan (x :: post)
| shape_go x rest :
    _should_stop plan x = false -> vr_status x <> ValidationStatus.NOT_RUN ->
    run_shape plan rest -> run_shape plan (x :: rest).

(** The evidence of a plan whose preflight failed. *)
Definition preflight_shape (results : list ValidationCommandResult) : Prop :=
  exists x post, results = x :: post /\ vr_status x = ValidationStatus.INVALID /\
    vr_command_status x = None /\
    Forall (fun r => vr_status r = ValidationStatus.NOT_RUN) post.

Lemma ordered_evidence_cons plan n t c r cs rs :
  evidence_of plan c n t r -> ordered_evidence plan (n + 1) (vr_completed_at r) cs rs ->
  ordered_evidence plan n t (c :: cs) (r :: rs).
Proof. intros (_ & Hm & Ht) H. by constructor. Qed.

(** The part of the plan that is not run. *)
Lemma not_run_evidence plan n t done_ cs code message :
  Plan_wf plan -> plan_commands plan = done_ ++ cs -> n = Z.of_nat (length done_) + 1 ->
  is_utc t = true -> failure_text code message = true ->
  exists rs, _not_run_results plan n t code message = Ok rs /\ ordered_evidence plan n t cs rs /\
    Forall Result_wf rs /\ Forall (fun r => vr_status r = ValidationStatus.NOT_RUN) rs.
Proof.
  intros Hp Hcs Hn Ht Htext. pose proof (Plan_wf_facts _ Hp) as Hf.
  destruct (failure_Ok ValidationFailureCategory.NOT_RUN code message None Htext) as (f & Hfl & Hfw).
  unfold _not_run_results. rewrite Hcs, drop_app_length' by lia.
  assert (Hall : Forall Command_wf cs).
  { pose proof (pf_commands _ Hf) as H. rewrite Hcs in H. by apply Forall_app in H as [_ H]. }
  assert (Hlen : n + Z.of_nat (length cs) - 1 <= MAX_VALIDATION_COMMANDS).
  { pose proof (pf_length _ Hf) as H. rewrite Hcs, length_app in H. lia. }
  assert (Hlow : 1 <= n) by lia. clear Hcs Hn. unfold enumerate.
  revert n Hlen Hlow. induction Hall as [|c cs Hc Hcs IH]; intros n Hlen Hlow.
  - exists []. repeat constructor.
  - destruct (prelaunch_evidence plan c n t ValidationStatus.NOT_RUN f Hf (Command_wf_facts _ Hc))
      as (r & Hr & He & Hs & Hcomp); try done.
    + simpl in Hlen. lia.
    + rewrite !elem_of_cons. tauto.
    + destruct (IH (n + 1)) as (rs & Hrs & Ho & Hw & Hst); [simpl in Hlen; lia | lia |].
      exists (r :: rs). split; [|split; [apply ordered_evidence_cons; [done | by rewrite Hcomp]|]].
      * rewrite Hfl in Hrs |- *. simpl in Hrs |- *. by rewrite Hr, Hrs.
      * split; constructor; try done. apply He.
Qed.

Section ExecuteFacts.
Context {W : Type}.
Variable fs_resolve : W -> Path -> option Path.
Variable fs_is_dir : W -> Path -> bool.
Variable fs_is_file : W -> Path -> bool.
Variable fs_size : W -> Path -> option Z.
Variable is_cancelled : M W bool.
Variable run : CommandRequest -> M W CommandResult.

Local Abbreviation execute_command :=
  (_execute_command W fs_resolve fs_is_dir fs_is_file fs_size run).
Local Abbreviation execute_plan_commands :=
  (execute_commands W fs_resolve fs_is_dir fs_is_file fs_size is_cancelled run).
Local Abbreviation run_plan := (execute W fs_resolve fs_is_dir fs_is_file fs_size is_cancelled run).
Local Abbreviation preflight := (_preflight W fs_resolve fs_is_dir).

(** A command runner returns constructed results that name absolute
    executables. *)
Definition runner_contract : Prop :=
  forall q w w' r, run q w = (w', Ok r) -> validate_CommandResult r = Ok r /\ identity_absolute r.

(** The last thing that happened was a command of the plan whose exit code the
    evidence cannot hold: it is not an unsigned 32-bit number. *)
Definition ended_unrepresentable (plan : ValidationPlan) (w' : W) : Prop :=
  exists c q w1 result, c ∈ plan_commands plan /\
    req_executable q = vc_executable c /\ req_arguments q = vc_arguments c /\
    run q w1 = (w', Ok result) /\ ~ exit_code_representable result.

(** Polling the token succeeds. *)
Definition token_contract : Prop := forall w, is_ok (snd (is_cancelled w)) = true.

(** The plan's directories stay where they were resolved. *)
Definition stable_directories (plan : ValidationPlan) : Prop :=
  (forall w, is_some (fs_resolve w (ws_root (plan_workspace plan))) = true) /\
  artifact_root_resolves fs_resolve plan.

Lemma command_result_utc r : validate_CommandResult r = Ok r -> is_utc (cr_started_at r) = true.
Proof. unfold validate_CommandResult. intros. inv_ok. bool_prop. done. Qed.

Lemma resolve_directory_Ok root c w :
  (exists d, _resolve_working_directory W fs_resolve fs_is_dir root c w = (w, Ok (Some d, None)) /\
             is_some (relative_to d root) = true) \/
  (exists f, _resolve_working_directory W fs_resolve fs_is_dir root c w = (w, Ok (None, Some f)) /\
             Failure_wf f).
Proof.
  unfold _resolve_working_directory.
  destruct (failure_Ok ValidationFailureCategory.INVALID_EVIDENCE "working_directory_outside_workspace"
    "validation working directory is unavailable or outside the approved workspace" None
    ltac:(vm_compute; reflexivity)) as (f & Hf & Hw). rewrite Hf.
  unfold gets, mbind, M_bind, lift, mret, M_ret.
  destruct (fs_resolve w _) as [d|]; [|right; eauto].
  destruct (relative_to d root) eqn:Hr; cbn [is_none]; [|right; eauto].
  destruct (fs_is_dir w d); cbn [negb].
  - left. exists d. split; [done | by rewrite Hr].
  - constant_failure. right. eauto.
Qed.

Lemma filter_environment (P : EnvironmentVariable -> Prop) `{!forall x, Decision (P x)} environment :
  EnvironmentOverrides environment = Ok environment ->
  EnvironmentOverrides (filter P environment) = Ok (filter P environment).
Proof.
  unfold EnvironmentOverrides. rewrite !bind_raise_if_Ok, !Z.ltb_ge, !has_duplicates_false.
  intros (Hlen & Hnd & _). split; [|split; [|done]].
  - pose proof (length_filter P environment). lia.
  - clear Hlen. induction environment as [|v environment IH]; [constructor|].
    rewrite fmap_cons in Hnd. inversion Hnd as [|? ? Hv Hrest]; subst. rewrite filter_cons.
    destruct (decide (P v)); [|by apply IH]. rewrite fmap_cons. constructor; [|by apply IH].
    intros Hin. apply Hv. apply list_elem_of_fmap in Hin as (y & -> & Hy).
    apply list_elem_of_filter in Hy as [_ Hy]. apply list_elem_of_fmap. eauto.
Qed.

Lemma command_request_program plan command d corr e cancellable q :
  command_request plan command d corr e cancellable = Ok q ->
  req_executable q = vc_executable command /\ req_arguments q = vc_arguments command.
Proof. unfold command_request, validate_CommandRequest. intros H. by inv_ok. Qed.

Lemma execute_command_Ok plan c n cancellable environment t w :
  c ∈ plan_commands plan -> runner_contract -> stable_directories plan -> Plan_facts plan -> Command_facts c ->
  1 <= n <= MAX_VALIDATION_COMMANDS -> is_utc t = true ->
  EnvironmentOverrides environment = Ok environment ->
  exists w' o, execute_command plan c n cancellable environment t w = (w', o) /\
    match o with
    | Ok r => evidence_of plan c n t r /\ vr_status r <> ValidationStatus.NOT_RUN
    | Err _ => ended_unrepresentable plan w'
    end.
Proof.
  intros Hin Hrun [Hroot Hart] Hp Hc Hn Ht Henv. unfold _execute_command. specialize (Hroot w). destruct (fs_resolve w _) as [root|] eqn:Hr; [|done].
  rewrite (M_bind_run _ _ w w root) by (unfold resolve; by rewrite Hr).
  assert (Hpre : forall w f, Failure_wf f -> exists o,
    lift (W := W) (_prelaunch_result plan c n t ValidationStatus.INVALID f) w = (w, o) /\
    match o with
    | Ok r => evidence_of plan c n t r /\ vr_status r <> ValidationStatus.NOT_RUN
    | Err _ => ended_unrepresentable plan w
    end).
  { intros w0 f Hf. destruct (prelaunch_evidence plan c n t ValidationStatus.INVALID f) as (r & Hpr & He & Hs & _);
      try done; [rewrite !elem_of_cons; tauto|]. exists (Ok r). unfold lift. rewrite Hpr, Hs. done. }
  destruct (resolve_directory_Ok root c w) as [(d & Hd & _)|(f & Hd & Hf)].
  - rewrite (M_bind_run _ _ w w (Some d, None)) by done.
    rewrite filter_environment, lift_bind by done.
    rewrite (correlation_safe _ _ (pf_id _ Hp) (cf_id _ Hc)), lift_bind.
    match goal with |- context [attempt ?m] => destruct (m w) as [w1 out] eqn:Hout end.
    rewrite (M_bind_run _ _ w w1 out) by (unfold attempt; by rewrite Hout).
    destruct out as [result|e].
    + inv_run. match goal with H : run _ _ = _ |- _ => rename H into Hran end.
      destruct (Hrun _ _ _ _ Hran) as [Hcr Hid]. exists w1.
      destruct (decide (optional_range 0 (2 ^ 32 - 1) (cr_exit_code result) = true)) as [Hx|Hx].
      * destruct (normalize_evidence fs_resolve fs_is_file fs_size plan c n result t w1) as (r & Hnr & Hev & Hst);
          try done; [by apply command_result_utc|]. by exists (Ok r).
      * pose proof (normalize_unrepresentable fs_resolve fs_is_file fs_size plan c n result t w1 Hx) as Hno.
        pose proof (reads_normalize fs_resolve fs_is_file fs_size plan c n result t w1) as Hsame.
        destruct (_normalize_command_result _ _ _ _ _ _ _ _ _ w1) as [w2 [r|e]]; [done|].
        cbn in Hsame. subst w2. exists (Err e). split; [done|].
        match goal with H : command_request _ _ _ _ _ _ = Ok _ |- _ =>
          destruct (command_request_program _ _ _ _ _ _ _ H) end.
        by eexists c, _, _, result.
    + destruct (failure_Ok ValidationFailureCategory.INTERNAL "command_boundary_exception"
        "validation command boundary raised an unexpected exception" None
        ltac:(vm_compute; reflexivity)) as (f & Hf & Hw).
      rewrite Hf, lift_bind. exists w1. by apply Hpre.
  - rewrite (M_bind_run _ _ w w (None, Some f)) by done.
    rewrite lift_bind. exists w. by apply Hpre.
Qed.

Lemma execute_commands_Ok plan cancellable environment done_ cs n t w :
  runner_contract -> token_contract -> stable_directories plan -> Plan_wf plan ->
  EnvironmentOverrides environment = Ok environment ->
  plan_commands plan = done_ ++ cs -> n = Z.of_nat (length done_) + 1 -> is_utc t = true ->
  exists w' o, execute_plan_commands plan cancellable environment cs n t w = (w', o) /\
    match o with
    | Ok rs => ordered_evidence plan n t cs rs /\ Forall Result_wf rs /\ run_shape plan rs
    | Err _ => ended_unrepresentable plan w'
    end.
Proof.
  intros Hrun Htok Hdir Hp Henv. pose proof (Plan_wf_facts _ Hp) as Hf.
  revert done_ n t w. induction cs as [|c cs IH]; intros done_ n t w Hcs Hn Ht.
  - exists w, (Ok []). repeat constructor.
  - assert (Hc : Command_wf c).
    { pose proof (pf_commands _ Hf) as H. rewrite Hcs in H. apply Forall_app in H as [_ H].
      by inversion H. }
    assert (Hrange : 1 <= n <= MAX_VALIDATION_COMMANDS).
    { pose proof (pf_length _ Hf) as H. rewrite Hcs, length_app in H. simpl in H. lia. }
    assert (Hcs' : plan_commands plan = (done_ ++ [c]) ++ cs) by by rewrite Hcs, <- app_assoc.
    assert (Hn' : n + 1 = Z.of_nat (length (done_ ++ [c])) + 1) by (rewrite length_app; simpl; lia).
    pose proof (Command_wf_facts _ Hc) as Hcf. simpl.
    assert (Hpoll : exists w1 b, cancelled_now W is_cancelled cancellable w = (w1, Ok b)).
    { unfold cancelled_now. destruct cancellable; [|by exists w, false]. specialize (Htok w).
      destruct (is_cancelled w) as [w1 [b|e]]; [eauto | done]. }
    destruct Hpoll as (w1 & [] & Hpoll); rewrite (M_bind_run _ _ _ _ _ Hpoll).
    + constant_failure. rewrite lift_bind.
      destruct (prelaunch_evidence plan c n t ValidationStatus.CANCELLED f) as (r & Hr & He & Hs & Hcomp);
        try done; [rewrite elem_of_cons; tauto|]. rewrite Hr, lift_bind.
      destruct (not_run_evidence plan (n + 1) t (done_ ++ [c]) cs "plan_cancelled"
        "validation command was not run after cancellation") as (rs & Hrs & Ho & Hw' & Hst); try done.
      rewrite Hrs, lift_bind. exists w1, (Ok (r :: rs)). split; [done|].
      split; [apply ordered_evidence_cons; [done | by rewrite Hcomp]|].
      split; [constructor; [apply He | done]|].
      apply shape_stop; [unfold _should_stop; by rewrite Hs | by rewrite Hs | done].
    + destruct (execute_command_Ok plan c n cancellable environment t w1) as (w2 & o & Hr & Ho); try done.
      { rewrite Hcs. set_solver. }
      destruct o as [r|e]; [|rewrite (M_bind_err _ _ _ _ _ Hr); by exists w2, (Err e)].
      destruct Ho as [He Hs]. rewrite (M_bind_run _ _ _ _ _ Hr). destruct (evidence_completed _ _ _ _ _ He) as [Hcu _].
      destruct (_should_stop plan r) eqn:Hstop.
      * destruct (not_run_evidence plan (n + 1) (vr_completed_at r) (done_ ++ [c]) cs
          (if bool_decide (vr_status r = ValidationStatus.CANCELLED) then "plan_cancelled" else "fail_fast")
          (if bool_decide (vr_status r = ValidationStatus.CANCELLED)
           then "validation command was not run after cancellation"
           else "validation command was not run because fail-fast stopped the plan"))
          as (rs & Hrs & Ho & Hw' & Hst); try done.
        { by destruct (bool_decide _); vm_compute. }
        rewrite Hrs, lift_bind. exists w2, (Ok (r :: rs)). split; [done|].
        split; [by apply ordered_evidence_cons|]. split; [constructor; [apply He | done]|].
        by apply shape_stop.
      * destruct (IH (done_ ++ [c]) (n + 1) (vr_completed_at r) w2 Hcs' Hn' Hcu)
          as (w3 & o & Hrs & Hout).
        destruct o as [rs|e]; [|rewrite (M_bind_err _ _ _ _ _ Hrs); by exists w3, (Err e)].
        destruct Hout as (Ho & Hw' & Hsh).
        rewrite (M_bind_run _ _ _ _ _ Hrs). exists w3, (Ok (r :: rs)). split; [done|].
        split; [by apply ordered_evidence_cons|]. split; [constructor; [apply He | done]|].
        by apply shape_go.
Qed.

Lemma preflight_directories_Ok root cs w :
  exists o, preflight_directories W fs_resolve fs_is_dir root cs w = (w, Ok o) /\
            match o with Some f => Failure_wf f | None => True end.
Proof.
  induction cs as [|c cs IH]; simpl; [by exists None|].
  destruct (resolve_directory_Ok root c w) as [(d & Hd & _)|(f & Hd & Hf)];
    rewrite (M_bind_run _ _ _ _ _ Hd); simpl; [done|]. by exists (Some f).
Qed.

Lemma preflight_Ok plan environment w :
  exists o, preflight plan environment w = (w, Ok o) /\
            match o with Some f => Failure_wf f | None => True end.
Proof.
  assert (Hinv : forall code message, failure_text code message = true -> exists o,
    (Some <$> lift (W := W) (_failure ValidationFailureCategory.INVALID_EVIDENCE code message None)) w
    = (w, Ok o) /\ match o with Some f => Failure_wf f | None => True end).
  { intros code message Ht.
    destruct (failure_Ok ValidationFailureCategory.INVALID_EVIDENCE code message None Ht) as (f & Hf & Hw).
    exists (Some f). rewrite Hf. done. }
  unfold _preflight, gets, mbind, M_bind.
  destruct (fs_resolve w _) as [root|]; [|by apply Hinv].
  destruct (negb (fs_is_dir w root)); [by apply Hinv|].
  destruct (existsb _ environment); [by apply Hinv|].
  destruct (vap_directory _) as [d|]; [|apply preflight_directories_Ok].
  destruct (fs_resolve w d) as [ad|]; [|by apply Hinv].
  destruct (negb (fs_is_dir w ad)); [by apply Hinv|]. apply preflight_directories_Ok.
Qed.

Lemma ordered_evidence_earlier plan n t u cs rs :
  instant u <= instant t -> ordered_evidence plan n t cs rs -> ordered_evidence plan n u cs rs.
Proof. intros Hu H. destruct H; constructor; try done. lia. Qed.

(** The results of [execute] before aggregation. *)
Lemma execute_results_Ok plan started cancellable environment w :
  runner_contract -> token_contract -> stable_directories plan -> Plan_wf plan ->
  EnvironmentOverrides environment = Ok environment -> is_utc started = true ->
  instant (plan_created_at plan) <= instant started ->
  (exists w' rs, run_plan plan started cancellable environment w
      = lift (aggregate_validation_results plan rs) w' /\
    ordered_evidence plan 1 (plan_created_at plan) (plan_commands plan) rs /\
    Forall Result_wf rs /\ (run_shape plan rs \/ preflight_shape rs)) \/
  exists w' e, run_plan plan started cancellable environment w = (w', Err e) /\
    ended_unrepresentable plan w'.
Proof.
  intros Hrun Htok Hdir Hp Henv Ht Hcr. unfold execute. rewrite Ht. rewrite lift_bind. simpl.
  destruct (preflight_Ok plan environment w) as (o & Hpre & Ho). rewrite (M_bind_run _ _ _ _ _ Hpre).
  pose proof (Plan_wf_facts _ Hp) as Hf. destruct o as [f|].
  - destruct (plan_commands plan) as [|c cs] eqn:Hcs.
    { pose proof (pf_length _ Hf) as H. rewrite Hcs in H. simpl in H. lia. }
    pose proof (pf_commands _ Hf) as Hcw. rewrite Hcs in Hcw. inversion Hcw as [|? ? Hc _]; subst.
    destruct (prelaunch_evidence plan c 1 started ValidationStatus.INVALID f) as (r & Hr & He & Hs & Hcomp);
      try done; [by apply Command_wf_facts|rewrite !elem_of_cons; tauto|].
    destruct (not_run_evidence plan 2 started [c] cs "plan_preflight_failed"
      "validation command was not run after plan preflight failed") as (rs & Hrs & Hor & Hw & Hst); try done.
    rewrite Hr, Hrs. left. exists w, (r :: rs). split; [done|]. split.
    { apply (ordered_evidence_earlier _ _ started); [done|].
      apply ordered_evidence_cons; [done | by rewrite Hcomp]. }
    split; [constructor; [apply He | done]|]. right. exists r, rs. repeat split; try done.
    unfold _prelaunch_result in Hr. inv_ok. unfold validate_ValidationCommandResult in Hr. inv_valid.
    by match goal with H : _validate_result _ = Ok _ |- _ => apply validate_result_id in H as -> end.
  - destruct (execute_commands_Ok plan cancellable environment [] (plan_commands plan) 1 started w)
      as (w' & o & Hrs & Hout); try done.
    destruct o as [rs|e]; [|rewrite (M_bind_err _ _ _ _ _ Hrs); right; by exists w', e].
    left. destruct Hout as (Hor & Hw & Hsh).
    rewrite (M_bind_run _ _ _ _ _ Hrs). exists w', rs. split; [done|].
    split; [by apply (ordered_evidence_earlier _ _ started)|]. split; [done|]. by left.
Qed.

(** C10: for a constructed plan started no earlier than it was created, against a
    command runner that returns constructed results naming absolute executables,
    a token that can be polled and directories that stay resolvable, [execute]
    returns one valid aggregate with the evidence of every command of the plan in
    order, approvable exactly when every outcome is one the plan accepts, and
    with nothing run after a result that stops the plan; the one way it can
    raise instead is that it has just run a command of the plan whose exit code
    is not an unsigned 32-bit number, which no evidence can hold. *)
Theorem execute_returns_evidence plan started cancellable environment w
    (Hrun : runner_contract) (Htoken : token_contract) (Hdirs : stable_directories plan)
    (Hplan : Plan_wf plan) (Henv : EnvironmentOverrides environment = Ok environment)
    (Hutc : is_utc started = true) (Hstart : instant (plan_created_at plan) <= instant started) :
  exists w' o, run_plan plan started cancellable environment w = (w', o) /\
    match o with
    | Ok r =>
        validate_ValidationPlanResult r = Ok r /\
        vr_command_id <$> pr_commands r = vc_id <$> plan_commands plan /\
        (run_shape plan (pr_commands r) \/ preflight_shape (pr_commands r)) /\
        (approvable r = true <-> Forall2 (accepted plan) (plan_commands plan) (pr_commands r))
    | Err _ => ended_unrepresentable plan w'
    end.
Proof.
  destruct (execute_results_Ok plan started cancellable environment w)
    as [(w' & rs & Hexec & Hor & Hw & Hsh)|(w' & e & Hexec & Hend)]; try done; [|by exists w', (Err e)].
  pose proof (ordered_evidence_length _ _ _ _ _ Hor) as Hlen.
  destruct rs as [|first rest].
  { pose proof (pf_length _ (Plan_wf_facts _ Hplan)) as H. simpl in Hlen. rewrite <- Hlen in H. lia. }
  assert (Hagg : aggregate_validation_results plan (first :: rest) = Ok (aggregate_value plan first rest))
    by (apply aggregate_Ok; eauto).
  exists w', (Ok (aggregate_value plan first rest)). rewrite Hexec, Hagg. split; [done|].
  split; [by apply validate_aggregate_value|]. split; [by apply (ordered_evidence_fields _ _ _ _ _ Hor)|].
  split; [done|]. by apply (aggregate_outcome plan first rest Hlen).
Qed.
End ExecuteFacts.

(** ** What reaches the command runner *)

Section Requests.
Context {W : Type}.
Variable fs_resolve : W -> Path -> option Path.
Variable fs_is_dir : W -> Path -> bool.
Variable fs_is_file : W -> Path -> bool.
Variable fs_size : W -> Path -> option Z.
Variable is_cancelled : M W bool.
Variable run : CommandRequest -> M W CommandResult.
(** The requests the command runner has received. *)
Variable log : W -> list CommandRequest.

Definition logging : Prop :=
  (forall q w, log (fst (run q w)) = log w ++ [q]) /\
  (forall w, log (fst (is_cancelled w)) = log w).

(** A request made for a command of the plan, and for nothing else. *)
Definition request_for (plan : ValidationPlan) (environment : list EnvironmentVariable)
    (command : ValidationCommand) (q : CommandRequest) : Prop :=
  req_executable q = vc_executable command /\ req_arguments q = vc_arguments command /\
  req_timeout_seconds q = timeout_seconds command /\
  req_expected_exit_codes q = expected_exit_codes command /\
  req_correlation_id q = plan_id plan +:+ "." +:+ vc_id command /\
  Forall (fun v => v ∈ environment /\ env_key v ∈ vc_allowed_environment_names command)
    (req_environment q) /\
  (is_some (req_artifact_directory q) = true -> capture_artifacts (vc_output command) = true) /\
  exists w root, fs_resolve w (ws_root (plan_workspace plan)) = Some root /\
                 is_some (relative_to (req_working_directory q) root) = true.

(** At most one request per command, in the order of the plan. *)
Inductive issued (plan : ValidationPlan) (environment : list EnvironmentVariable)
    : list ValidationCommand -> list CommandRequest -> Prop :=
| issued_nil : issued plan environment [] []
| issued_skip c cs qs : issued plan environment cs qs -> issued plan environment (c :: cs) qs
| issued_one c cs q qs :
    request_for plan environment c q -> issued plan environment cs qs ->
    issued plan environment (c :: cs) (q :: qs).

Lemma issued_none plan environment cs : issued plan environment cs [].
Proof. induction cs; by constructor. Qed.

Lemma bind_fst {A B} (m : M W A) (f : A -> M W B) w :
  fst ((m ≫= f) w) = match m w with (w1, Ok a) => fst (f a w1) | (w1, Err _) => w1 end.
Proof. unfold mbind, M_bind. by destruct (m w) as [w1 [a|e]]. Qed.

(** A step that only reads leaves the rest of a computation to be considered. *)
Lemma bind_reads {A B} (m : M W A) (f : A -> M W B) w (P : W -> Prop) :
  reads m -> P w -> (forall a, m w = (w, Ok a) -> P (fst (f a w))) -> P (fst ((m ≫= f) w)).
Proof.
  intros Hm Hw Hf. rewrite bind_fst. specialize (Hm w). destruct (m w) as [w1 [a|e]]; simpl in *; subst; auto.
Qed.

Lemma command_request_for plan command d environment e cancellable q w root :
  command_request plan command d (plan_id plan +:+ "." +:+ vc_id command) e cancellable = Ok q ->
  Forall (fun v => v ∈ environment /\ env_key v ∈ vc_allowed_environment_names command) e ->
  fs_resolve w (ws_root (plan_workspace plan)) = Some root ->
  is_some (relative_to d root) = true -> request_for plan environment command q.
Proof.
  unfold command_request, validate_CommandRequest. intros H He Hr Hd. inv_ok.
  unfold request_for. simpl. repeat (split; [done|]). split; [|by exists w, root].
  by destruct (capture_artifacts _).
Qed.

Lemma execute_command_requests plan c n cancellable environment t w :
  logging ->
  exists qs, log (fst (_execute_command W fs_resolve fs_is_dir fs_is_file fs_size run plan c n
                         cancellable environment t w)) = log w ++ qs /\
    (qs = [] \/ exists q, qs = [q] /\ request_for plan environment c q).
Proof.
  intros [Hrun _]. unfold _execute_command.
  assert (Hnil : exists qs, log w = log w ++ qs /\
    (qs = [] \/ exists q, qs = [q] /\ request_for plan environment c q))
    by (exists []; rewrite app_nil_r; auto).
  apply (bind_reads _ _ w (fun w' => exists qs, log w' = log w ++ qs /\ _)); [apply reads_resolve|done|].
  intros root Hroot. unfold resolve in Hroot.
  destruct (fs_resolve w (ws_root _)) as [root'|] eqn:Hr; [|done]. injection Hroot as ->.
  destruct (resolve_directory_Ok fs_resolve fs_is_dir root c w) as [(d & Hd & Hrel)|(f & Hd & _)];
    rewrite bind_fst, Hd.
  2: { by apply (bind_reads _ _ w (fun w' => exists qs, log w' = log w ++ qs /\ _)). }
  apply (bind_reads _ _ w (fun w' => exists qs, log w' = log w ++ qs /\ _)); [done|done|].
  intros e He. apply lift_Ok in He as [_ He]. unfold EnvironmentOverrides in He. inv_ok.
  apply (bind_reads _ _ w (fun w' => exists qs, log w' = log w ++ qs /\ _)); [done|done|].
  intros corr Hcorr. apply lift_Ok in Hcorr as [_ Hcorr]. apply correlation_Ok in Hcorr as [-> _].
  rewrite bind_fst. unfold attempt.
  destruct (command_request _ _ _ _ _ _) as [q|e] eqn:Hq; rewrite lift_bind.
  - specialize (Hrun q w). assert (Hfor : request_for plan environment c q).
    { eapply command_request_for; [exact Hq| |exact Hr|exact Hrel].
      apply Forall_forall. intros v. rewrite list_elem_of_filter. tauto. }
    destruct (run q w) as [w1 [result|e]]; simpl in Hrun.
    + rewrite reads_normalize. rewrite Hrun. exists [q]. eauto.
    + apply (bind_reads _ _ w1 (fun w' => exists qs, log w' = log w ++ qs /\ _)); [done| |].
      * rewrite Hrun. exists [q]. eauto.
      * intros f _. simpl. rewrite Hrun. exists [q]. eauto.
  - by apply (bind_reads _ _ w (fun w' => exists qs, log w' = log w ++ qs /\ _)).
Qed.

Lemma execute_commands_requests plan cancellable environment cs n t w :
  logging ->
  exists qs, log (fst (execute_commands W fs_resolve fs_is_dir fs_is_file fs_size is_cancelled run
                         plan cancellable environment cs n t w)) = log w ++ qs /\
    issued plan environment cs qs.
Proof.
  intros Hlog. revert n t w. induction cs as [|c cs IH]; intros n t w.
  - exists []. rewrite app_nil_r. split; [done | constructor].
  - assert (Hsame : forall w, exists qs, log w = log w ++ qs /\ issued plan environment (c :: cs) qs).
    { intros w0. exists []. rewrite app_nil_r. split; [done | apply issued_none]. }
    simpl. rewrite bind_fst.
    assert (Hpoll : log (fst (cancelled_now W is_cancelled cancellable w)) = log w).
    { unfold cancelled_now. destruct cancellable; [apply Hlog | done]. }
    destruct (cancelled_now _ _ _ w) as [w1 [b|e]]; simpl in Hpoll; rewrite <- Hpoll; [|done].
    destruct b.
    { match goal with |- context [fst (?m w1)] => assert (Hm : reads m) by case_reads; rewrite (Hm w1) end.
      done. }
    rewrite bind_fst.
    destruct (execute_command_requests plan c n cancellable environment t w1 Hlog) as (q1 & Hq1 & Hone).
    destruct (_execute_command _ _ _ _ _ _ _ _ _ _ _ _ w1) as [w2 [r|e]]; simpl in Hq1.
    + destruct (_should_stop plan r).
      * match goal with |- context [fst (?m w2)] => assert (Hm : reads m) by case_reads; rewrite (Hm w2) end.
        exists q1. split; [done|]. destruct Hone as [->|(q & -> & Hq)];
          [apply issued_none | constructor; [done | apply issued_none]].
      * rewrite bind_fst. destruct (IH (n + 1) (vr_completed_at r) w2) as (q2 & Hq2 & Hi).
        exists (q1 ++ q2). split.
        { destruct (execute_commands _ _ _ _ _ _ _ _ _ _ _ _ _ w2) as [w3 [rs|e]]; simpl in *;
            by rewrite Hq2, Hq1, (assoc_L (++)). }
        destruct Hone as [->|(q & -> & Hq)]; simpl; by constructor.
    + exists q1. split; [done|]. destruct Hone as [->|(q & -> & Hq)];
        [apply issued_none | constructor; [done | apply issued_none]].
Qed.

(** Whatever [execute] returns or raises, the command runner received at most
    one request for each command, in the order of the plan, each with exactly the
    program, arguments, timeout and correlation the plan declares, in a directory
    of the workspace, with no environment variable the command does not allow. *)
Theorem execute_requests_in_order plan started cancellable environment w (Hlog : logging) :
  exists qs, log (fst (execute W fs_resolve fs_is_dir fs_is_file fs_size is_cancelled run
                         plan started cancellable environment w)) = log w ++ qs /\
    issued plan environment (plan_commands plan) qs.
Proof.
  unfold execute.
  assert (Hsame : exists qs, log w = log w ++ qs /\ issued plan environment (plan_commands plan) qs).
  { exists []. rewrite app_nil_r. split; [done | apply issued_none]. }
  apply (bind_reads _ _ w (fun w' => exists qs, log w' = log w ++ qs /\ _)); [done|done|]. intros _ _.
  apply (bind_reads _ _ w (fun w' => exists qs, log w' = log w ++ qs /\ _));
    [apply reads_preflight|done|]. intros [f|] _; rewrite bind_fst.
  - match goal with |- context [match ?m w with _ => _ end] =>
      assert (Hm : reads m) by case_reads; specialize (Hm w); destruct (m w) as [w1 [rs|e]] end;
      simpl in *; by subst.
  - destruct (execute_commands_requests plan cancellable environment (plan_commands plan) 1 started w Hlog)
      as (qs & Hq & Hi).
    exists qs. by destruct (execute_commands _ _ _ _ _ _ _ _ _ _ _ _ _ w) as [w1 [rs|e]].
Qed.

(** The directory of the first command was resolved by the preflight. *)
Lemma preflight_first_directory plan command rest environment w :
  plan_commands plan = command :: rest ->
  _preflight W fs_resolve fs_is_dir plan environment w = (w, Ok None) ->
  exists root d, fs_resolve w (ws_root (plan_workspace plan)) = Some root /\
    _resolve_working_directory W fs_resolve fs_is_dir root command w = (w, Ok (Some d, None)).
Proof.
  intros Hcs. unfold _preflight. rewrite Hcs.
  assert (Hinv : forall code message,
    (Some <$> lift (W := W) (_failure ValidationFailureCategory.INVALID_EVIDENCE code message None)) w
    <> (w, Ok None)).
  { intros code message. unfold fmap, M_fmap, lift. by destruct (_failure _ _ _ _). }
  assert (Hdir : forall root,
    preflight_directories W fs_resolve fs_is_dir root (command :: rest) w = (w, Ok None) ->
    exists d, _resolve_working_directory W fs_resolve fs_is_dir root command w = (w, Ok (Some d, None))).
  { intros root. simpl. destruct (resolve_directory_Ok fs_resolve fs_is_dir root command w)
      as [(d & Hd & _)|(f & Hd & _)]; rewrite (M_bind_run _ _ _ _ _ Hd); [eauto|by intros [=]]. }
  unfold gets, mbind, M_bind.
  destruct (fs_resolve w (ws_root _)) as [root|]; [|intros H; by apply Hinv in H].
  destruct (negb (fs_is_dir w root)); [intros H; by apply Hinv in H|].
  destruct (existsb _ environment); [intros H; by apply Hinv in H|].
  assert (Hroot : preflight_directories W fs_resolve fs_is_dir root (command :: rest) w = (w, Ok None) ->
    exists root' d, Some root = Some root' /\
      _resolve_working_directory W fs_resolve fs_is_dir root' command w = (w, Ok (Some d, None))).
  { intros H. destruct (Hdir _ H) as [d Hd]. eauto. }
  destruct (vap_directory _) as [a|]; [|exact Hroot].
  destruct (fs_resolve w a) as [ad|]; [|intros H; by apply Hinv in H].
  destruct (negb (fs_is_dir w ad)); [intros H; by apply Hinv in H | exact Hroot].
Qed.

(** When the command runner reports an exit code that is not an unsigned
    32-bit number, [execute] raises instead of recording the command; on POSIX
    the return code of a process killed by a signal is negative, which is how a
    timeout or a cancellation ends. *)
Theorem unrepresentable_exit_code_raises plan command rest started environment w
    (Hplan : plan_commands plan = command :: rest)
    (Hpre : snd (_preflight W fs_resolve fs_is_dir plan environment w) = Ok None)
    (Hrun : forall q w w' r, run q w = (w', Ok r) -> ~ exit_code_representable r)
    (Hreturns : forall q w, is_ok (snd (run q w)) = true)
    (Hrequest : forall d e, is_ok (command_request plan command d
                  (plan_id plan +:+ "." +:+ vc_id command) e false) = true) :
  is_ok (snd (execute W fs_resolve fs_is_dir fs_is_file fs_size is_cancelled run
                plan started false environment w)) = false.
Proof.
  unfold execute.
  destruct (raise_if _ _) as [[]|e]; rewrite lift_bind; [|done].
  destruct (_preflight _ _ _ plan environment w) as [w' o] eqn:Hp.
  pose proof (reads_run _ _ _ _ (reads_preflight fs_resolve fs_is_dir plan environment) Hp) as ->.
  simpl in Hpre. subst o. rewrite (M_bind_run _ _ _ _ _ Hp).
  destruct (preflight_first_directory _ _ _ _ _ Hplan Hp) as (root & d & Hroot & Hd).
  rewrite Hplan. simpl. unfold cancelled_now.
  apply M_bind_fails. rewrite (M_bind_run _ _ w w false) by done. apply M_bind_fails.
  unfold _execute_command.
  rewrite (M_bind_run _ _ w w root) by (unfold resolve; by rewrite Hroot).
  rewrite (M_bind_run _ _ _ _ _ Hd), lift_bind.
  destruct (EnvironmentOverrides _) as [e|e]; [|done].
  rewrite lift_bind. destruct (validation_correlation_id _ _) as [corr|] eqn:Hcorr; [|done].
  apply correlation_Ok in Hcorr as [-> _]. specialize (Hrequest d e).
  destruct (command_request plan command d _ e false) as [q|] eqn:Hq; [|done].
  specialize (Hreturns q w). destruct (run q w) as [w1 [result|]] eqn:Hr; [|done].
  rewrite (M_bind_run _ _ w w1 (Ok result))
    by (unfold attempt; by rewrite lift_bind, Hr).
  apply normalize_unrepresentable. by eapply Hrun.
Qed.
End Requests.

(** ** A concrete plan and world *)

Module ValidationSample.
Definition output : ValidationOutputPolicy := mk_ValidationOutputPolicy 4096 4096 65536 false false false.

Definition command (id name : string) (arguments : list string) (class : ValidationCommandClass.t)
    : ValidationCommand :=
  mk_ValidationCommand id name "python" arguments None class false [0] 60 output ["CI"].

Definition tests : ValidationCommand :=
  command "vcmd_tests" "unit tests" ["-m"; "pytest"] ValidationCommandClass.REQUIRED.
Definition lint : ValidationCommand :=
  command "vcmd_lint" "lint" ["-m"; "ruff"] ValidationCommandClass.ADVISORY.

Definition plan : ValidationPlan :=
  mk_ValidationPlan 1 "vplan_00000000000000000000000000000001" "run_0123456789abcdef0123456789abcdef"
    "P4-002" (utc 0) (mk_WorkspaceReference WorkspaceKind.WORKSPACE "ws-1" (mk_Path true ["srv"; "repo"]))
    [tests; lint] (mk_ValidationExecutionPolicy false true)
    (mk_ValidationArtifactPolicy "artifacts" None false true).

Definition stream : CapturedOutput := mk_CapturedOutput "" 0 0 false false None.

(** The world is the list of requests received; every path resolves to itself. *)
Definition world : Type := list CommandRequest.
Definition resolve_any (w : world) (p : Path) : option Path := Some p.
Definition any (w : world) (p : Path) : bool := true.
Definition no_size (w : world) (p : Path) : option Z := None.
Definition never_cancelled : M world bool := mret false.

(** A runner that answers every request the same way. *)
Definition answer (status : CommandStatus.t) (exit_code : option Z) (failure : option CommandFailure)
    (q : CommandRequest) : CommandResult :=
  mk_CommandResult (req_correlation_id q) (req_executable q) (Some (mk_Path true ["usr"; "bin"; "python"]))
    status (utc 3000) (utc 8000) 0 stream stream exit_code failure 1.

Definition runner (status : CommandStatus.t) (exit_code : option Z) (failure : option CommandFailure)
    : CommandRequest -> M world CommandResult :=
  fun q w => (w ++ [q], Ok (answer status exit_code failure q)).

Definition ok_runner := runner CommandStatus.SUCCESS (Some 0) None.
Definition killed_runner :=
  runner CommandStatus.TIMEOUT (Some (-9))
    (Some (mk_CommandFailure CommandFailureCategory.TIMEOUT "command exceeded its timeout")).

Lemma plan_wf : Plan_wf plan.
Proof. vm_compute. reflexivity. Qed.

Definition passed (n : Z) (c : ValidationCommand) : ValidationCommandResult :=
  result_of plan c n ValidationStatus.PASSED (Some CommandStatus.SUCCESS) (utc 3000) 5
    (Some (mk_Path true ["usr"; "bin"; "python"])) (Some 0) empty_output empty_output None.
Definition failed (n : Z) (c : ValidationCommand) : ValidationCommandResult :=
  result_of plan c n ValidationStatus.FAILED (Some CommandStatus.NONZERO_EXIT) (utc 8000) 5
    (Some (mk_Path true ["usr"; "bin"; "python"])) (Some 1) empty_output empty_output
    (Some (mk_ValidationFailure ValidationFailureCategory.COMMAND_FAILED "unexpected_exit_code"
             "validation command returned an unexpected exit code" None)).

Lemma evidence_wf : Forall Result_wf [passed 1 tests; failed 2 lint].
Proof. repeat constructor; vm_compute; reflexivity. Qed.

Lemma ok_contract : runner_contract ok_runner.
Proof. intros q w w' r [= <- <-]. split; reflexivity. Qed.
End ValidationSample.

Lemma aggregate_spec_witness :
  exists r, aggregate_validation_results ValidationSample.plan
      [ValidationSample.passed 1 ValidationSample.tests; ValidationSample.failed 2 ValidationSample.lint]
      = Ok r /\ (approvable r = true <-> Forall2 (accepted ValidationSample.plan)
         [ValidationSample.tests; ValidationSample.lint]
         [ValidationSample.passed 1 ValidationSample.tests; ValidationSample.failed 2 ValidationSample.lint])
    /\ pr_status r = ValidationStatus.PASSED_WITH_ADVISORIES.
Proof.
  pose proof (aggregate_spec ValidationSample.plan
    [ValidationSample.passed 1 ValidationSample.tests; ValidationSample.failed 2 ValidationSample.lint]
    ValidationSample.plan_wf ValidationSample.evidence_wf) as H.
  destruct (aggregate_validation_results _ _) as [r|e] eqn:He.
  - exists r. split; [reflexivity|]. split; [apply H|]. revert He. vm_compute. by intros [= <-].
  - exfalso. revert He. vm_compute. discriminate.
Defined.

Lemma execute_returns_evidence_witness :
  exists w' r, execute ValidationSample.world ValidationSample.resolve_any ValidationSample.any
      ValidationSample.any ValidationSample.no_size ValidationSample.never_cancelled
      ValidationSample.ok_runner ValidationSample.plan (utc 1000) true
      [mk_EnvironmentVariable "CI" "1"] [] = (w', Ok r) /\ length w' = 2%nat /\
    vr_command_id <$> pr_commands r = ["vcmd_tests"; "vcmd_lint"].
Proof.
  destruct (execute_returns_evidence (W := ValidationSample.world) ValidationSample.resolve_any
    ValidationSample.any ValidationSample.any ValidationSample.no_size ValidationSample.never_cancelled
    ValidationSample.ok_runner ValidationSample.plan (utc 1000) true
    [mk_EnvironmentVariable "CI" "1"] [] ValidationSample.ok_contract)
    as (w' & o & Hexec & Ho).
  - intros w. reflexivity.
  - split; [intros w; reflexivity | intros w d; discriminate].
  - apply ValidationSample.plan_wf.
  - reflexivity.
  - reflexivity.
  - vm_compute. discriminate.
  - destruct o as [r|e].
    + destruct Ho as (_ & Hids & _). exists w', r. split; [exact Hexec|]. split; [|exact Hids].
      revert Hexec. vm_compute. by intros [= <- _].
    + exfalso. revert Hexec. vm_compute. discriminate.
Defined.

Lemma execute_requests_in_order_witness :
  exists qs, fst (execute ValidationSample.world ValidationSample.resolve_any ValidationSample.any
      ValidationSample.any ValidationSample.no_size ValidationSample.never_cancelled
      ValidationSample.ok_runner ValidationSample.plan (utc 1000) true
      [mk_EnvironmentVariable "CI" "1"] []) = qs /\ length qs = 2%nat /\
    issued ValidationSample.resolve_any ValidationSample.plan [mk_EnvironmentVariable "CI" "1"]
      [ValidationSample.tests; ValidationSample.lint] qs.
Proof.
  destruct (execute_requests_in_order (W := ValidationSample.world) ValidationSample.resolve_any
    ValidationSample.any ValidationSample.any ValidationSample.no_size ValidationSample.never_cancelled
    ValidationSample.ok_runner (fun w => w) ValidationSample.plan (utc 1000) true
    [mk_EnvironmentVariable "CI" "1"] []) as (qs & Hq & Hi).
  - split; intros; reflexivity.
  - exists qs. split; [exact Hq|]. split; [|exact Hi].
    rewrite app_nil_l in Hq. rewrite <- Hq. vm_compute. reflexivity.
Defined.

Lemma unrepresentable_exit_code_raises_witness :
  (forall q, is_ok (validate_CommandResult (ValidationSample.answer CommandStatus.TIMEOUT (Some (-9))
     (Some (mk_CommandFailure CommandFailureCategory.TIMEOUT "command exceeded its timeout")) q)) = true) /\
  is_ok (snd (execute ValidationSample.world ValidationSample.resolve_any ValidationSample.any
      ValidationSample.any ValidationSample.no_size ValidationSample.never_cancelled
      ValidationSample.killed_runner ValidationSample.plan (utc 1000) false [] [])) = false.
Proof.
  split; [reflexivity|].
  apply (unrepresentable_exit_code_raises (W := ValidationSample.world) ValidationSample.resolve_any
    ValidationSample.any ValidationSample.any ValidationSample.no_size ValidationSample.never_cancelled
    ValidationSample.killed_runner ValidationSample.plan ValidationSample.tests
    [ValidationSample.lint]).
  - reflexivity.
  - vm_compute. reflexivity.
  - intros q w w' r [= <- <-]. discriminate.
  - reflexivity.
  - intros d e. vm_compute. reflexivity.
Defined.
