(* ===== verification/ReviewGate.v ===== *)
(** * The review gate ([src/src/revanent/review/gates.py])

    The pure decision whether a run may be approved: validation evidence, the
    reviewer's response and locally verified facts in, one decision out, with
    an [ApprovalGate] exactly when nothing speaks against approval. *)

From Stdlib Require Import ZArith Lia Ascii String.
From S2P Require Import Prelude Text Domain StateMachine Effects Commands Agents Validation.
From S2P Require Import ValidationRunner ValidationExecution.
From stdpp Require Import base option strings numbers sets list list_relations.

Open Scope Z_scope.

Definition REVIEW_GATE_SCHEMA_VERSION : Z := 1.

Module ReviewGateStatus.
Inductive t : Type := APPROVABLE | CHANGES_REQUIRED | BLOCKED | INVALID_EVIDENCE.
#[export] Instance eq_dec : EqDecision t.
Proof. solve_decision. Defined.
End ReviewGateStatus.

Module ReviewGateReason.
Inductive t : Type :=
| VALIDATION_CORRELATION | VALIDATION_RESULT_INVALID | VALIDATION_NOT_APPROVABLE
| VALIDATION_INCOMPLETE | REVIEW_CORRELATION | REVIEW_ROLE | REVIEW_NOT_COMPLETED | REVIEW_SCHEMA
| REVIEW_PAYLOAD | REVIEW_CHRONOLOGY | REVIEW_ARTIFACT_INCOMPLETE | REVIEW_NOT_READ_ONLY
| REVIEW_AUTHORITY_CORRELATION | REVIEW_FINDING_DUPLICATE | REVIEW_HIGH_FINDING | REVIEW_VERDICT
| LOCAL_EVIDENCE_CORRELATION | SCOPE_NOT_JUSTIFIED | GENERATED_FILES_INCONSISTENT
| LOCKFILES_INCONSISTENT | EVIDENCE_INCOMPLETE | REQUIRED_ARTIFACTS_INCOMPLETE | REPOSITORY_DIRTY
| SIDE_EFFECTS_AMBIGUOUS.
#[export] Instance eq_dec : EqDecision t.
Proof. solve_decision. Defined.
End ReviewGateReason.

#[export] Existing Instances ReviewGateStatus.eq_dec ReviewGateReason.eq_dec.

(** [_require_utc] of this module and the UTC check of its timestamp fields. *)
Definition utc_field (t : datetime) : res datetime :=
  raise_if (negb (is_utc t)) (ValueError "review-gate timestamp must be timezone-aware UTC") ;; mret t.

Record LocalApprovalEvidence := mk_LocalApprovalEvidence {
  le_schema_version : Z;
  le_run_id : string;
  le_work_package_id : string;
  le_validation_plan_id : string;
  le_review_invocation_id : string;
  le_review_adapter_id : string;
  le_observed_at : datetime;
  le_scope_justified : bool;
  le_generated_files_consistent : bool;
  le_lockfiles_consistent : bool;
  le_evidence_complete : bool;
  le_required_artifacts_complete : bool;
  le_repository_clean : bool;
  le_review_read_only_verified : bool;
  le_side_effects_reconciled : bool
}.

#[export] Instance LocalApprovalEvidence_eq_dec : EqDecision LocalApprovalEvidence.
Proof. solve_decision. Defined.

Definition validate_LocalApprovalEvidence (l : LocalApprovalEvidence) : res LocalApprovalEvidence :=
  require (le_schema_version l =? 1) "schema_version" ;;
  run_id ← RunId (le_run_id l) ;
  work_package_id ← WorkPackageId (le_work_package_id l) ;
  plan_id ← ValidationPlanId (le_validation_plan_id l) ;
  invocation_id ← AgentInvocationId (le_review_invocation_id l) ;
  adapter_id ← _SafeIdentifier (le_review_adapter_id l) ;
  observed_at ← utc_field (le_observed_at l) ;
  mret (mk_LocalApprovalEvidence (le_schema_version l) run_id work_package_id plan_id invocation_id
          adapter_id observed_at (le_scope_justified l) (le_generated_files_consistent l)
          (le_lockfiles_consistent l) (le_evidence_complete l) (le_required_artifacts_complete l)
          (le_repository_clean l) (le_review_read_only_verified l) (le_side_effects_reconciled l)).

Record ReviewFindingEvidence := mk_ReviewFindingEvidence {
  fe_finding_id : string;
  fe_severity : FindingSeverity.t;
  fe_summary : string
}.

#[export] Instance ReviewFindingEvidence_eq_dec : EqDecision ReviewFindingEvidence.
Proof. solve_decision. Defined.

(** [^finding-[0-9]{3}$] *)
Definition finding_id_pattern : list pat := [Lit "finding-"; Cls is_digit 3 3].

Definition validate_ReviewFindingEvidence (f : ReviewFindingEvidence) : res ReviewFindingEvidence :=
  id ← pattern_field "finding_id" finding_id_pattern (fe_finding_id f) ;
  summary ← text_field "summary" 1 256 (fe_summary f) ;
  mret (mk_ReviewFindingEvidence id (fe_severity f) summary).

Record ReviewGateInput := mk_ReviewGateInput {
  gi_schema_version : Z;
  expected_run_id : string;
  expected_work_package_id : string;
  expected_review_invocation_id : string;
  gi_validation_plan : ValidationPlan;
  gi_validation_result : ValidationPlanResult;
  reviewer_response : AgentResponse;
  gi_local_evidence : LocalApprovalEvidence;
  gi_evaluated_at : datetime
}.

Definition validate_ReviewGateInput (g : ReviewGateInput) : res ReviewGateInput :=
  require (gi_schema_version g =? 1) "schema_version" ;;
  run_id ← RunId (expected_run_id g) ;
  work_package_id ← WorkPackageId (expected_work_package_id g) ;
  invocation_id ← AgentInvocationId (expected_review_invocation_id g) ;
  plan ← validate_ValidationPlan (gi_validation_plan g) ;
  result ← validate_ValidationPlanResult (gi_validation_result g) ;
  response ← validate_AgentResponse (reviewer_response g) ;
  local_evidence ← validate_LocalApprovalEvidence (gi_local_evidence g) ;
  evaluated_at ← utc_field (gi_evaluated_at g) ;
  mret (mk_ReviewGateInput (gi_schema_version g) run_id work_package_id invocation_id plan result
          response local_evidence evaluated_at).

Record ReviewGateDecision := mk_ReviewGateDecision {
  gd_schema_version : Z;
  gd_status : ReviewGateStatus.t;
  gd_summary : string;
  gd_reasons : list ReviewGateReason.t;
  gd_run_id : string;
  gd_work_package_id : string;
  gd_validation_plan_id : string;
  gd_review_invocation_id : string;
  gd_validation_schema_version : Z;
  gd_review_response_schema_version : Z;
  gd_finding_evidence : list ReviewFindingEvidence;
  gd_relevant_finding_ids : list string;
  gd_evaluated_at : datetime;
  gd_approval_gate : option ApprovalGate
}.

#[export] Instance ReviewGateDecision_eq_dec : EqDecision ReviewGateDecision.
Proof. solve_decision. Defined.

Definition _validate_decision (d : ReviewGateDecision) : res ReviewGateDecision :=
  raise_if (has_duplicates (gd_reasons d)) (ValueError "review-gate reasons must be unique") ;;
  raise_if (negb (sorted_unique_strings (gd_relevant_finding_ids d)))
    (ValueError "relevant finding IDs must be sorted and unique") ;;
  raise_if (existsb (fun i => negb (bool_decide (i ∈ fe_finding_id <$> gd_finding_evidence d)))
              (gd_relevant_finding_ids d))
    (ValueError "relevant finding IDs must reference normalized findings") ;;
  (if bool_decide (gd_status d = ReviewGateStatus.APPROVABLE)
   then raise_if (negb (bool_decide (gd_reasons d = [])) || negb (gate_passes (gd_approval_gate d)))
          (ValueError "approvable decision requires one complete local ApprovalGate")
   else raise_if (is_some (gd_approval_gate d) || bool_decide (gd_reasons d = []))
          (ValueError "refused review-gate decisions require reasons and no ApprovalGate")) ;;
  mret d.

Definition validate_ReviewGateDecision (d : ReviewGateDecision) : res ReviewGateDecision :=
  require (gd_schema_version d =? 1) "schema_version" ;;
  summary ← text_field "summary" 1 1024 (gd_summary d) ;
  run_id ← RunId (gd_run_id d) ;
  work_package_id ← WorkPackageId (gd_work_package_id d) ;
  plan_id ← ValidationPlanId (gd_validation_plan_id d) ;
  invocation_id ← AgentInvocationId (gd_review_invocation_id d) ;
  require (gd_validation_schema_version d =? 1) "validation_schema_version" ;;
  require (gd_review_response_schema_version d =? 1) "review_response_schema_version" ;;
  findings ← traverse validate_ReviewFindingEvidence (gd_finding_evidence d) ;
  evaluated_at ← utc_field (gd_evaluated_at d) ;
  gate ← validate_optional validate_ApprovalGate (gd_approval_gate d) ;
  _validate_decision
    (mk_ReviewGateDecision (gd_schema_version d) (gd_status d) summary (gd_reasons d) run_id
       work_package_id plan_id invocation_id (gd_validation_schema_version d)
       (gd_review_response_schema_version d) findings (str_strip <$> gd_relevant_finding_ids d)
       evaluated_at gate).

(** ** Findings in canonical order *)

(** [f"{n:03d}"] of a natural number. *)
Definition pad3 (n : Z) : string :=
  let s := str_of_Z n in
  String.concat "" (replicate (3 - String.length s) "0") +:+ s.

Definition severity_order (s : FindingSeverity.t) : Z :=
  match s with
  | FindingSeverity.CRITICAL => 0
  | FindingSeverity.HIGH => 1
  | FindingSeverity.MEDIUM => 2
  | FindingSeverity.LOW => 3
  end.

(** The order of the keys [(severity_order[item.severity], item.summary)]. *)
Definition finding_le (a b : ReviewFinding) : bool :=
  let x := severity_order (finding_severity a) in
  let y := severity_order (finding_severity b) in
  (x <? y) || ((x =? y) && str_le (finding_summary a) (finding_summary b)).

Definition finding_key (f : ReviewFinding) : string * string :=
  (FindingSeverity.value (finding_severity f), finding_summary f).

Definition _normalize_findings (review : option ReviewResult)
    : res (list ReviewFindingEvidence * bool) :=
  match review with
  | None => mret ([], false)
  | Some review =>
      let duplicate := has_duplicates (finding_key <$> review_findings review) in
      let ordered := py_sorted finding_le (review_findings review) in
      evidence ← traverse (fun '(index, finding) =>
                             validate_ReviewFindingEvidence
                               (mk_ReviewFindingEvidence ("finding-" +:+ pad3 index)
                                  (finding_severity finding) (finding_summary finding)))
                   (enumerate 1 ordered) ;
      mret (evidence, duplicate)
  end.

(** ** The decision *)

Definition is_invalid_reason (r : ReviewGateReason.t) : bool :=
  match r with
  | ReviewGateReason.VALIDATION_CORRELATION | ReviewGateReason.VALIDATION_RESULT_INVALID
  | ReviewGateReason.REVIEW_CORRELATION | ReviewGateReason.REVIEW_ROLE
  | ReviewGateReason.REVIEW_SCHEMA | ReviewGateReason.REVIEW_PAYLOAD
  | ReviewGateReason.REVIEW_CHRONOLOGY | ReviewGateReason.REVIEW_FINDING_DUPLICATE
  | ReviewGateReason.REVIEW_AUTHORITY_CORRELATION
  | ReviewGateReason.LOCAL_EVIDENCE_CORRELATION => true
  | _ => false
  end.

Definition _refusal_status (response_status : AgentStatus.t) (validation_status : ValidationStatus.t)
    (reasons : list ReviewGateReason.t) : ReviewGateStatus.t :=
  if existsb is_invalid_reason reasons
     || match response_status with
        | AgentStatus.FAILED | AgentStatus.INVALID_OUTPUT => true
        | _ => false
        end
  then ReviewGateStatus.INVALID_EVIDENCE
  else if match response_status with
          | AgentStatus.BLOCKED | AgentStatus.TIMED_OUT | AgentStatus.CANCELLED
          | AgentStatus.UNAVAILABLE => true
          | _ => false
          end
          || match validation_status with
             | ValidationStatus.TIMED_OUT | ValidationStatus.CANCELLED | ValidationStatus.BLOCKED
             | ValidationStatus.UNAVAILABLE => true
             | _ => false
             end
  then ReviewGateStatus.BLOCKED
  else ReviewGateStatus.CHANGES_REQUIRED.

(** [if condition: reasons.append(reason)] *)
Definition reason_if (condition : bool) (reason : ReviewGateReason.t) : list ReviewGateReason.t :=
  if condition then [reason] else [].

Definition differs (a b : string) : bool := negb (bool_decide (a = b)).

(** The [try] block that replays the aggregation.  The canonical JSON of two
    models is equal exactly when the models are. *)
Definition replay_reasons (plan : ValidationPlan) (validation : ValidationPlanResult)
    : res (list ReviewGateReason.t) :=
  match aggregate_validation_results plan (pr_commands validation) with
  | Ok replay => mret (reason_if (negb (bool_decide (replay = validation)))
                         ReviewGateReason.VALIDATION_RESULT_INVALID)
  | Err e => if is_ValueError e then mret [ReviewGateReason.VALIDATION_RESULT_INVALID] else Err e
  end.

Definition reviewer_payload (p : option AgentPayload) : option ReviewResult :=
  match p with Some (ReviewerPayload review _) => Some review | _ => None end.

(** [review] of a completed response with a reviewer payload. *)
Definition selected_review (response : AgentResponse) : option ReviewResult :=
  if bool_decide (resp_status response = AgentStatus.COMPLETED)
  then reviewer_payload (payload response) else None.

Definition local_checks (l : LocalApprovalEvidence) : list (bool * ReviewGateReason.t) :=
  [(le_scope_justified l, ReviewGateReason.SCOPE_NOT_JUSTIFIED);
   (le_generated_files_consistent l, ReviewGateReason.GENERATED_FILES_INCONSISTENT);
   (le_lockfiles_consistent l, ReviewGateReason.LOCKFILES_INCONSISTENT);
   (le_evidence_complete l, ReviewGateReason.EVIDENCE_INCOMPLETE);
   (le_required_artifacts_complete l, ReviewGateReason.REQUIRED_ARTIFACTS_INCOMPLETE);
   (le_repository_clean l, ReviewGateReason.REPOSITORY_DIRTY);
   (le_side_effects_reconciled l, ReviewGateReason.SIDE_EFFECTS_AMBIGUOUS)].

Definition severe_ids (findings : list ReviewFindingEvidence) : list string :=
  fe_finding_id <$> filter (fun f => FindingSeverity.is_severe (fe_severity f) = true) findings.

(** Everything appended to [reasons] before the findings are looked at. *)
Definition evidence_reasons (g : ReviewGateInput) (replay : list ReviewGateReason.t)
    : list ReviewGateReason.t :=
  let plan := gi_validation_plan g in
  let validation := gi_validation_result g in
  let response := reviewer_response g in
  let l := gi_local_evidence g in
  let completed := bool_decide (resp_status response = AgentStatus.COMPLETED) in
  let review := selected_review response in
  reason_if (differs (plan_run_id plan) (expected_run_id g)
             || differs (plan_work_package_id plan) (expected_work_package_id g)
             || differs (pr_plan_id validation) (plan_id plan)
             || differs (pr_run_id validation) (expected_run_id g)
             || differs (pr_work_package_id validation) (expected_work_package_id g))
    ReviewGateReason.VALIDATION_CORRELATION
  ++ replay
  ++ reason_if (negb (approvable validation)) ReviewGateReason.VALIDATION_NOT_APPROVABLE
  ++ reason_if (negb (all_evidence_complete validation)) ReviewGateReason.VALIDATION_INCOMPLETE
  ++ reason_if (differs (resp_run_id response) (expected_run_id g)
                || differs (resp_work_package_id response) (expected_work_package_id g)
                || differs (resp_invocation_id response) (expected_review_invocation_id g))
       ReviewGateReason.REVIEW_CORRELATION
  ++ reason_if (negb (bool_decide (resp_role response = AgentRole.REVIEWER)))
       ReviewGateReason.REVIEW_ROLE
  ++ reason_if (negb completed) ReviewGateReason.REVIEW_NOT_COMPLETED
  ++ reason_if (completed && negb (bool_decide (structured_parse_status response
                                                = StructuredParseStatus.PARSED)))
       ReviewGateReason.REVIEW_SCHEMA
  ++ reason_if (completed && is_none (reviewer_payload (payload response)))
       ReviewGateReason.REVIEW_PAYLOAD
  ++ reason_if (match review with Some r => negb (review_schema_version r =? 1) | None => false end)
       ReviewGateReason.REVIEW_SCHEMA
  ++ reason_if (dt_lt (resp_started_at response) (pr_completed_at validation))
       ReviewGateReason.REVIEW_CHRONOLOGY
  ++ reason_if (is_some (raw_output_artifact response)
                || existsb (fun a => bool_decide (aar_status a = AgentArtifactStatus.TRUNCATED))
                     (artifacts response))
       ReviewGateReason.REVIEW_ARTIFACT_INCOMPLETE
  ++ reason_if (negb (le_review_read_only_verified l)) ReviewGateReason.REVIEW_NOT_READ_ONLY
  ++ reason_if (differs (le_review_adapter_id l) (id_adapter_id (identity response)))
       ReviewGateReason.REVIEW_AUTHORITY_CORRELATION
  ++ reason_if (differs (le_run_id l) (expected_run_id g)
                || differs (le_work_package_id l) (expected_work_package_id g)
                || differs (le_validation_plan_id l) (plan_id plan)
                || differs (le_review_invocation_id l) (expected_review_invocation_id g)
                || dt_lt (le_observed_at l) (pr_completed_at validation)
                || dt_lt (le_observed_at l) (resp_completed_at response)
                || dt_lt (gi_evaluated_at g) (le_observed_at l)
                || dt_lt (gi_evaluated_at g) (resp_completed_at response)
                || dt_lt (gi_evaluated_at g) (pr_completed_at validation))
       ReviewGateReason.LOCAL_EVIDENCE_CORRELATION.

(** Those appended from the findings and the local checks. *)
Definition review_reasons (g : ReviewGateInput) (review : option ReviewResult)
    (findings : list ReviewFindingEvidence) (duplicate_findings : bool) : list ReviewGateReason.t :=
  reason_if duplicate_findings ReviewGateReason.REVIEW_FINDING_DUPLICATE
  ++ reason_if (negb (bool_decide (severe_ids findings = []))) ReviewGateReason.REVIEW_HIGH_FINDING
  ++ reason_if (match review with
                | Some r => negb (bool_decide (review_verdict r = ReviewVerdict.APPROVED))
                | None => false
                end) ReviewGateReason.REVIEW_VERDICT
  ++ (snd <$> filter (fun p => p.1 = false) (local_checks (gi_local_evidence g))).

Definition evaluate (g : ReviewGateInput) : res ReviewGateDecision :=
  let validation := gi_validation_result g in
  let response := reviewer_response g in
  let review := selected_review response in
  replay ← replay_reasons (gi_validation_plan g) validation ;
  normalized ← _normalize_findings review ;
  let '(findings, duplicate_findings) := normalized in
  let canonical_reasons :=
    dict_fromkeys (evidence_reasons g replay ++ review_reasons g review findings duplicate_findings) in
  outcome ← match canonical_reasons, review with
            | [], Some review =>
                approval ← validate_ApprovalGate
                             (mk_ApprovalGate review true true true true true false) ;
                mret (ReviewGateStatus.APPROVABLE, Some approval,
                      "All local validation and structured review gates passed")
            | _, _ =>
                mret (_refusal_status (resp_status response) (pr_status validation) canonical_reasons,
                      None, "Local approval was refused by one or more evidence gates")
            end ;
  let '(status, approval, summary) := outcome in
  let relevant_ids :=
    match review with
    | Some r => if bool_decide (review_verdict r = ReviewVerdict.APPROVED) then severe_ids findings
                else fe_finding_id <$> findings
    | None => severe_ids findings
    end in
  validate_ReviewGateDecision
    (mk_ReviewGateDecision REVIEW_GATE_SCHEMA_VERSION status summary canonical_reasons
       (expected_run_id g) (expected_work_package_id g) (plan_id (gi_validation_plan g))
       (expected_review_invocation_id g) VALIDATION_SCHEMA_VERSION 1 findings
       (sorted_strings relevant_ids) (gi_evaluated_at g) approval).

(** ** Finding identifiers *)

Definition finding_id (n : Z) : string := "finding-" +:+ pad3 n.

(** The identifiers of [k] findings, in order; the pattern has room for 999. *)
Definition finding_ids (k : nat) : list string := (fun n => finding_id (Z.of_nat n)) <$> seq 1 k.

Lemma finding_ids_checked :
  forallb (matches finding_id_pattern) (finding_ids 999) = true
  /\ strictly_increasing (finding_ids 999) = true.
Proof. vm_compute. done. Qed.

Lemma finding_ids_prefix k : Z.of_nat k <= 999 -> exists rest, finding_ids 999 = finding_ids k ++ rest.
Proof.
  intros Hk. exists ((fun n => finding_id (Z.of_nat n)) <$> seq (1 + k) (999 - k)).
  unfold finding_ids. rewrite <- fmap_app, <- seq_app. do 2 f_equal. lia.
Qed.

Lemma finding_ids_NoDup k : Z.of_nat k <= 999 -> NoDup (finding_ids k).
Proof.
  intros Hk. destruct finding_ids_checked as [_ H]. apply strictly_increasing_NoDup in H.
  destruct (finding_ids_prefix k Hk) as [rest Heq]. rewrite Heq in H. by apply NoDup_app in H as [? _].
Qed.

Lemma finding_ids_matches k x :
  Z.of_nat k <= 999 -> x ∈ finding_ids k -> matches finding_id_pattern x = true.
Proof.
  intros Hk Hx. destruct finding_ids_checked as [H _]. apply forallb_true in H.
  rewrite Forall_forall in H. apply H. destruct (finding_ids_prefix k Hk) as [rest ->].
  apply elem_of_app. by left.
Qed.

Lemma finding_id_matches n : 1 <= n <= 999 -> matches finding_id_pattern (finding_id n) = true.
Proof.
  intros Hn. apply (finding_ids_matches (Z.to_nat n)); [lia|]. apply list_elem_of_fmap.
  exists (Z.to_nat n). rewrite Z2Nat.id by lia. split; [done|]. apply elem_of_seq. lia.
Qed.

Lemma finding_id_strip s : matches finding_id_pattern s = true -> str_strip s = s.
Proof. apply (matches_strip (in_class "-" is_alnum)); vm_compute; done. Qed.

Definition Finding_wf (f : ReviewFindingEvidence) : Prop := validate_ReviewFindingEvidence f = Ok f.

Lemma normalized_one n f :
  1 <= n <= 999 -> validate_ReviewFinding f = Ok f ->
  Finding_wf (mk_ReviewFindingEvidence (finding_id n) (finding_severity f) (finding_summary f)).
Proof.
  intros Hn Hf. unfold validate_ReviewFinding, ShortText in Hf. inv_valid.
  match goal with H : text_field _ _ _ _ = Ok _ |- _ => apply text_field_Ok in H as [Hs Hl] end.
  destruct f as [sev summary]; cbn [finding_severity finding_summary] in *. injection Hf as Hv.
  pose proof (finding_id_matches n Hn) as Hm.
  unfold Finding_wf, validate_ReviewFindingEvidence. cbn [fe_finding_id fe_severity fe_summary].
  rewrite (proj2 (pattern_field_Ok _ _ _ (finding_id n)))
    by (split; [by rewrite finding_id_strip | done]).
  rewrite (proj2 (text_field_Ok _ _ _ _ summary)); [done|]. split; congruence.
Qed.

Definition evidence_of_findings (start : Z) (fs : list ReviewFinding) : list ReviewFindingEvidence :=
  (fun '(n, f) => mk_ReviewFindingEvidence (finding_id n) (finding_severity f) (finding_summary f))
    <$> enumerate start fs.

Lemma normalize_list start ys :
  Forall (fun f => validate_ReviewFinding f = Ok f) ys -> 1 <= start ->
  start + Z.of_nat (length ys) <= 1000 ->
  traverse (fun '(index, finding) =>
    validate_ReviewFindingEvidence (mk_ReviewFindingEvidence ("finding-" +:+ pad3 index)
      (finding_severity finding) (finding_summary finding))) (enumerate start ys)
  = Ok (evidence_of_findings start ys) /\ Forall Finding_wf (evidence_of_findings start ys).
Proof.
  intros Hys. revert start.
  induction Hys as [|f ys Hf Hys IH]; intros start Hs Hle; [split; [done|constructor]|].
  rewrite length_cons, Nat2Z.inj_succ in Hle.
  destruct (IH (start + 1)) as [E H2]; [lia..|].
  assert (H1 : Finding_wf (mk_ReviewFindingEvidence (finding_id start) (finding_severity f)
                             (finding_summary f))) by (apply normalized_one; [lia|done]).
  unfold evidence_of_findings in *. cbn [enumerate traverse]. rewrite fmap_cons.
  split; [|by constructor]. fold (finding_id start). rewrite H1, E. done.
Qed.

Lemma review_findings_wf review :
  validate_ReviewResult review = Ok review ->
  Forall (fun f => validate_ReviewFinding f = Ok f) (review_findings review).
Proof.
  intros Hr. unfold validate_ReviewResult, _validate_verdict in Hr. inv_valid. destruct review; simpl in *.
  match goal with H : mk_ReviewResult _ _ _ _ = _ |- _ => injection H as; subst end.
  match goal with H : traverse validate_ReviewFinding _ = Ok _ |- _ =>
    apply (idem (f := traverse validate_ReviewFinding)), traverse_Ok_fix in H; exact H end.
Qed.

Lemma normalize_findings_Ok review :
  validate_ReviewResult review = Ok review -> Z.of_nat (length (review_findings review)) <= 999 ->
  let fs := evidence_of_findings 1 (py_sorted finding_le (review_findings review)) in
  _normalize_findings (Some review)
    = Ok (fs, has_duplicates (finding_key <$> review_findings review)) /\ Forall Finding_wf fs.
Proof.
  intros Hr Hlen fs. pose proof (review_findings_wf _ Hr) as Hw.
  destruct (normalize_list 1 (py_sorted finding_le (review_findings review))) as [E H].
  - by rewrite py_sorted_perm.
  - lia.
  - rewrite py_sorted_perm. lia.
  - split; [|exact H]. unfold _normalize_findings. rewrite E. done.
Qed.

Lemma evidence_ids start fs :
  fe_finding_id <$> evidence_of_findings start fs
  = (fun i => finding_id (start + Z.of_nat i)) <$> seq 0 (length fs).
Proof.
  unfold evidence_of_findings. revert start. induction fs as [|f fs IH]; intros start; [done|].
  cbn [enumerate]. rewrite !fmap_cons, IH, length_cons, <- cons_seq, fmap_cons, <- (fmap_S_seq 0),
    <- list_fmap_compose. cbn [fe_finding_id]. f_equal; [f_equal; lia|].
  apply list_fmap_ext. intros i x _. cbn. f_equal. lia.
Qed.

Lemma evidence_ids_1 fs : fe_finding_id <$> evidence_of_findings 1 fs = finding_ids (length fs).
Proof.
  rewrite evidence_ids. unfold finding_ids. rewrite <- (fmap_S_seq 0), <- list_fmap_compose.
  apply list_fmap_ext. intros i x _. cbn. f_equal. lia.
Qed.

(** ** What approval requires *)

Record approval_conditions (g : ReviewGateInput) (review : ReviewResult) : Prop := {
  (* validation *)
  ac_plan : plan_run_id (gi_validation_plan g) = expected_run_id g /\
            plan_work_package_id (gi_validation_plan g) = expected_work_package_id g;
  ac_result : pr_plan_id (gi_validation_result g) = plan_id (gi_validation_plan g) /\
              pr_run_id (gi_validation_result g) = expected_run_id g /\
              pr_work_package_id (gi_validation_result g) = expected_work_package_id g;
  ac_replay : aggregate_validation_results (gi_validation_plan g) (pr_commands (gi_validation_result g))
              = Ok (gi_validation_result g);
  ac_approvable : approvable (gi_validation_result g) = true;
  (* the reviewer *)
  ac_response : resp_run_id (reviewer_response g) = expected_run_id g /\
                resp_work_package_id (reviewer_response g) = expected_work_package_id g /\
                resp_invocation_id (reviewer_response g) = expected_review_invocation_id g;
  ac_role : resp_role (reviewer_response g) = AgentRole.REVIEWER;
  ac_completed : resp_status (reviewer_response g) = AgentStatus.COMPLETED;
  ac_parsed : structured_parse_status (reviewer_response g) = StructuredParseStatus.PARSED;
  ac_payload : exists files, payload (reviewer_response g) = Some (ReviewerPayload review files);
  ac_artifacts : raw_output_artifact (reviewer_response g) = None /\
                 Forall (fun a => aar_status a <> AgentArtifactStatus.TRUNCATED)
                   (artifacts (reviewer_response g));
  ac_adapter : le_review_adapter_id (gi_local_evidence g) = id_adapter_id (identity (reviewer_response g));
  (* the review *)
  ac_schema : review_schema_version review = 1;
  ac_verdict : review_verdict review = ReviewVerdict.APPROVED;
  ac_severity : Forall (fun f => FindingSeverity.is_severe (finding_severity f) = false)
                  (review_findings review);
  ac_unique : NoDup (finding_key <$> review_findings review);
  (* local evidence *)
  ac_local : le_run_id (gi_local_evidence g) = expected_run_id g /\
             le_work_package_id (gi_local_evidence g) = expected_work_package_id g /\
             le_validation_plan_id (gi_local_evidence g) = plan_id (gi_validation_plan g) /\
             le_review_invocation_id (gi_local_evidence g) = expected_review_invocation_id g;
  ac_checks : Forall (fun p => p.1 = true) (local_checks (gi_local_evidence g)) /\
              le_review_read_only_verified (gi_local_evidence g) = true;
  (* in time order *)
  ac_order : instant (pr_completed_at (gi_validation_result g)) <= instant (resp_started_at (reviewer_response g)) /\
             instant (pr_completed_at (gi_validation_result g)) <= instant (le_observed_at (gi_local_evidence g)) /\
             instant (resp_completed_at (reviewer_response g)) <= instant (le_observed_at (gi_local_evidence g)) /\
             instant (le_observed_at (gi_local_evidence g)) <= instant (gi_evaluated_at g)
}.

Lemma reason_if_nil c r : reason_if c r = [] <-> c = false.
Proof. by destruct c. Qed.

Lemma differs_false a b : differs a b = false <-> a = b.
Proof. unfold differs. by rewrite negb_false_iff, bool_decide_eq_true. Qed.

Lemma dt_lt_false a b : dt_lt a b = false <-> instant b <= instant a.
Proof. unfold dt_lt. apply Z.ltb_ge. Qed.

(** The replay adds a reason unless it gives the submitted result back. *)
Lemma replay_reasons_Ok g :
  validate_ReviewGateInput g = Ok g ->
  exists rs, replay_reasons (gi_validation_plan g) (gi_validation_result g) = Ok rs /\
    (rs = [] <-> aggregate_validation_results (gi_validation_plan g)
                   (pr_commands (gi_validation_result g)) = Ok (gi_validation_result g)).
Proof.
  intros Hg. unfold replay_reasons.
  destruct (aggregate_validation_results _ _) as [r|e] eqn:Ha.
  - eexists. split; [done|]. rewrite reason_if_nil, negb_false_iff, bool_decide_eq_true.
    split; [by intros -> | by intros [= ->]].
  - assert (Hv : is_ValueError e = true).
    { unfold validate_ReviewGateInput in Hg. inv_valid. destruct g; simpl in *.
      match goal with H : mk_ReviewGateInput _ _ _ _ _ _ _ _ _ = _ |- _ => injection H as; subst end.
      match goal with
      | H1 : validate_ValidationPlan _ = Ok ?p, H2 : validate_ValidationPlanResult _ = Ok ?r |- _ =>
          apply (aggregate_raises p (pr_commands r)); [by apply idem in H1| |exact Ha];
          apply idem in H2; unfold validate_ValidationPlanResult in H2; inv_valid;
          apply validate_aggregate_id in H2
      end.
      match goal with H1 : traverse validate_ValidationCommandResult (pr_commands ?p) = Ok ?cs,
                      H2 : ?p = mk_ValidationPlanResult _ _ _ _ _ _ _ _ _ _ _ _ _ _ |- _ =>
        rewrite H2; simpl; by apply idem, traverse_Ok_fix in H1 end. }
    rewrite Hv. eexists. split; [done|]. done.
Qed.

Lemma severe_ids_nil review :
  severe_ids (evidence_of_findings 1 (py_sorted finding_le (review_findings review))) = [] <->
  Forall (fun f => FindingSeverity.is_severe (finding_severity f) = false) (review_findings review).
Proof.
  rewrite <- (py_sorted_perm finding_le (review_findings review)) at 2.
  generalize (py_sorted finding_le (review_findings review)) as fs. intros fs.
  unfold severe_ids, evidence_of_findings. generalize 1 as n. induction fs as [|f fs IH]; intros n.
  - split; [constructor | done].
  - cbn [enumerate]. rewrite fmap_cons, filter_cons. cbn [fe_severity].
    destruct (FindingSeverity.is_severe (finding_severity f)) eqn:Hs; simpl decide.
    + split; [done|]. inversion 1; congruence.
    + rewrite (decide_False (P := false = true)) by done. rewrite IH. split.
      * intros H. by constructor.
      * by inversion 1.
Qed.

Lemma selected_review_Some response review :
  selected_review response = Some review <->
  resp_status response = AgentStatus.COMPLETED /\
  exists files, payload response = Some (ReviewerPayload review files).
Proof.
  unfold selected_review, reviewer_payload. case_bool_decide; [|naive_solver].
  destruct (payload response) as [[]|]; naive_solver.
Qed.

Lemma checks_nil (l : list (bool * ReviewGateReason.t)) :
  snd <$> filter (fun p => p.1 = false) l = [] <-> Forall (fun p => p.1 = true) l.
Proof.
  induction l as [|[[] r] l IH].
  - split; [constructor | done].
  - rewrite filter_cons_False by done. rewrite IH. split; [by constructor | by inversion 1].
  - rewrite filter_cons_True by done. split; [done | by inversion 1].
Qed.

(** No reason is given exactly when every condition of approval holds. *)
Lemma no_reasons g review replay :
  let fs := evidence_of_findings 1 (py_sorted finding_le (review_findings review)) in
  (replay = [] <-> aggregate_validation_results (gi_validation_plan g)
                     (pr_commands (gi_validation_result g)) = Ok (gi_validation_result g)) ->
  selected_review (reviewer_response g) = Some review ->
  evidence_reasons g replay ++
    review_reasons g (Some review) fs (has_duplicates (finding_key <$> review_findings review)) = [] <->
  approval_conditions g review.
Proof.
  intros fs Hreplay Hrev. pose proof (proj1 (selected_review_Some _ _) Hrev) as [Hst Hpay].
  unfold evidence_reasons, review_reasons. rewrite Hrev, Hst.
  rewrite (bool_decide_eq_true_2 (AgentStatus.COMPLETED = _)) by done. simpl andb.
  split.
  - intros H. repeat (apply app_nil in H; destruct H as [? H]).
    repeat match goal with
    | H : _ ++ _ = [] |- _ => apply app_nil in H; destruct H
    | H : reason_if _ _ = [] |- _ => apply reason_if_nil in H
    | H : _ || _ = false |- _ => apply orb_false_iff in H; destruct H
    | H : differs _ _ = false |- _ => apply differs_false in H
    | H : dt_lt _ _ = false |- _ => apply dt_lt_false in H
    end.
    bool_prop. split; try done; try (by apply Hreplay).
    + split; [by destruct (raw_output_artifact _)|].
      match goal with H : existsb _ _ = false |- _ => apply existsb_false in H;
        eapply Forall_impl; [exact H|] end.
      intros a Ha. simpl in Ha. by apply bool_decide_eq_false in Ha.
    + by apply severe_ids_nil.
    + by apply has_duplicates_false.
    + split; [by apply checks_nil | done].
  - intros []. destruct_and!.
    assert (Hd : forall a b, a = b -> differs a b = false) by (intros; by apply differs_false).
    assert (Ht : forall a b, instant b <= instant a -> dt_lt a b = false) by (intros; by apply dt_lt_false).
    repeat (apply app_nil; split); repeat (apply app_nil; split); try (apply reason_if_nil);
      repeat (apply orb_false_iff; split); try (by apply Hd); try (apply Ht; lia);
      try (apply negb_false_iff; try done; by apply bool_decide_eq_true); try tauto.
    + apply negb_false_iff. match goal with H : approvable _ = true |- _ =>
        by apply andb_true_iff in H as [_ H] end.
    + match goal with H : exists files, payload _ = _ |- _ => destruct H as [files ->] end. done.
    + apply negb_false_iff. by apply Z.eqb_eq.
    + match goal with H : raw_output_artifact _ = None |- _ => by rewrite H end.
    + apply existsb_false. match goal with H : Forall (fun a => aar_status a <> _) _ |- _ =>
        eapply Forall_impl; [exact H|] end. intros a Ha. by apply bool_decide_eq_false.
    + apply negb_false_iff, bool_decide_eq_true. by apply severe_ids_nil.
    + by apply checks_nil.
Qed.

(** What a constructed gate input holds. *)
Record Input_facts (g : ReviewGateInput) : Prop := {
  gf_run : RunId (expected_run_id g) = Ok (expected_run_id g);
  gf_work_package : WorkPackageId (expected_work_package_id g) = Ok (expected_work_package_id g);
  gf_invocation : AgentInvocationId (expected_review_invocation_id g) = Ok (expected_review_invocation_id g);
  gf_plan : Plan_wf (gi_validation_plan g);
  gf_response : validate_AgentResponse (reviewer_response g) = Ok (reviewer_response g);
  gf_evaluated : utc_field (gi_evaluated_at g) = Ok (gi_evaluated_at g)
}.

#[export] Instance utc_field_idem : Idem utc_field.
Proof. unfold utc_field. solve_idem. Qed.
#[export] Instance validate_LocalApprovalEvidence_idem : Idem validate_LocalApprovalEvidence.
Proof. unfold validate_LocalApprovalEvidence. solve_idem. Qed.
#[export] Instance validate_ReviewFindingEvidence_idem : Idem validate_ReviewFindingEvidence.
Proof. unfold validate_ReviewFindingEvidence. solve_idem. Qed.
#[export] Instance validate_ReviewGateInput_idem : Idem validate_ReviewGateInput.
Proof. unfold validate_ReviewGateInput. solve_idem. Qed.

Lemma validate_decision_id d e : _validate_decision d = Ok e -> e = d.
Proof. unfold _validate_decision. intros. by inv_valid. Qed.

#[export] Instance validate_ReviewGateDecision_idem : Idem validate_ReviewGateDecision.
Proof.
  unfold validate_ReviewGateDecision. intros d e H. inv_valid.
  pose proof (validate_decision_id _ _ H) as ->. simpl in *. rewrite strip_list_idem. idem. done.
Qed.

Lemma Input_wf_facts g : validate_ReviewGateInput g = Ok g -> Input_facts g.
Proof.
  intros Hg. unfold validate_ReviewGateInput in Hg. inv_valid. destruct g; simpl in *.
  match goal with H : mk_ReviewGateInput _ _ _ _ _ _ _ _ _ = _ |- _ => injection H as; subst end.
  split; simpl; first [ by eapply (idem (f := RunId)) | by eapply (idem (f := WorkPackageId))
    | by eapply (idem (f := AgentInvocationId)) | by eapply (idem (f := validate_ValidationPlan))
    | by eapply (idem (f := validate_AgentResponse)) | by eapply (idem (f := utc_field)) ].
Qed.

Lemma payload_review r fs p :
  validate_AgentPayload (ReviewerPayload r fs) = Ok p ->
  exists r' fs', p = ReviewerPayload r' fs' /\ validate_ReviewResult r = Ok r'.
Proof. unfold validate_AgentPayload. intros. inv_valid. eauto. Qed.

(** The review of a constructed response is a constructed review. *)
Lemma selected_review_wf response review :
  validate_AgentResponse response = Ok response -> selected_review response = Some review ->
  validate_ReviewResult review = Ok review.
Proof.
  intros Hr (_ & files & Hp)%selected_review_Some.
  unfold validate_AgentResponse in Hr. inv_valid. inv_utf8.
  match goal with H : _validate_response _ = Ok _ |- _ => pose proof (validate_response_id _ _ H) as E end.
  match goal with H : validate_optional validate_AgentPayload _ = Ok ?q |- _ =>
    pose proof (idem (f := validate_optional validate_AgentPayload) _ _ H) as Hi;
    assert (Hq : q = payload response) by (by rewrite E) end.
  rewrite Hq, Hp in Hi. unfold validate_optional in Hi. inv_valid.
  match goal with H : validate_AgentPayload _ = Ok _ |- _ =>
    apply payload_review in H as (r' & fs' & ? & Hrw) end. by simplify_eq.
Qed.

(** Relevant identifiers are among those of the findings. *)
Lemma relevant_ids_Ok fs ids :
  sublist ids (finding_ids fs) -> Z.of_nat fs <= 999 ->
  str_strip <$> sorted_strings ids = sorted_strings ids /\
  sorted_unique_strings (sorted_strings ids) = true /\
  (forall i, i ∈ sorted_strings ids -> i ∈ finding_ids fs).
Proof.
  intros Hsub Hk. assert (Hp : sorted_strings ids ≡ₚ ids) by apply py_sorted_perm.
  assert (Hin : forall i, i ∈ sorted_strings ids -> i ∈ finding_ids fs).
  { intros i. rewrite Hp. intros Hi. by eapply elem_of_sublist. }
  split; [|split; [|done]].
  - rewrite <- (list_fmap_id (sorted_strings ids)) at 2. apply list_fmap_ext. intros n i Hi.
    apply finding_id_strip. eapply finding_ids_matches; [exact Hk|]. apply Hin.
    by eapply list_elem_of_lookup_2.
  - unfold sorted_unique_strings, sorted_strings.
    rewrite py_sorted_idem by (apply str_le_total || apply str_le_trans).
    rewrite bool_decide_refl. simpl. apply negb_true_iff, has_duplicates_false.
    rewrite (py_sorted_perm str_le ids). eapply sublist_NoDup; [|exact Hsub]. by apply finding_ids_NoDup.
Qed.

Lemma severe_ids_sublist fs : sublist (severe_ids fs) (fe_finding_id <$> fs).
Proof.
  unfold severe_ids. induction fs as [|f fs IH]; [constructor|].
  rewrite filter_cons. destruct (decide _); rewrite ?fmap_cons; by constructor.
Qed.

Lemma evaluate_shape g rs fs dup :
  Input_facts g -> replay_reasons (gi_validation_plan g) (gi_validation_result g) = Ok rs ->
  (forall review, selected_review (reviewer_response g) = Some review -> validate_ReviewResult review = Ok review) ->
  _normalize_findings (selected_review (reviewer_response g)) = Ok (fs, dup) ->
  Forall Finding_wf fs -> (exists k, fe_finding_id <$> fs = finding_ids k /\ Z.of_nat k <= 999) ->
  let reasons := dict_fromkeys (evidence_reasons g rs
                   ++ review_reasons g (selected_review (reviewer_response g)) fs dup) in
  (reasons = [] -> exists review, selected_review (reviewer_response g) = Some review /\
                     review_verdict review = ReviewVerdict.APPROVED) ->
  exists d, evaluate g = Ok d /\ validate_ReviewGateDecision d = Ok d /\ gd_reasons d = reasons /\
    gd_run_id d = expected_run_id g /\ gd_evaluated_at d = gi_evaluated_at g /\
    (gd_status d = ReviewGateStatus.APPROVABLE <-> reasons = []) /\
    gd_approval_gate d =
      match reasons, selected_review (reviewer_response g) with
      | [], Some review => Some (mk_ApprovalGate review true true true true true false)
      | _, _ => None
      end.
Proof.
  intros Hg Hrs Hrev Hnf Hfs (k & Hids & Hk) reasons Hnil.
  unfold evaluate. rewrite Hrs. cbn [mbind result_bind]. rewrite Hnf. cbn [mbind result_bind].
  fold reasons.
  set (relevant := match selected_review (reviewer_response g) with
    | Some r => if bool_decide (review_verdict r = ReviewVerdict.APPROVED) then severe_ids fs
                else fe_finding_id <$> fs
    | None => severe_ids fs end).
  assert (Hsub : sublist relevant (finding_ids k)).
  { rewrite <- Hids. subst relevant. destruct (selected_review _); [case_bool_decide|];
      first [apply severe_ids_sublist | done]. }
  destruct (relevant_ids_Ok k relevant Hsub Hk) as (Hstrip & Hsu & Hin).
  assert (Hdec : forall status gate summary,
    text_field "summary" 1 1024 summary = Ok summary ->
    validate_optional validate_ApprovalGate gate = Ok gate ->
    (if bool_decide (status = ReviewGateStatus.APPROVABLE)
     then reasons = [] /\ gate_passes gate = true else gate = None /\ reasons <> []) ->
    let d := mk_ReviewGateDecision REVIEW_GATE_SCHEMA_VERSION status summary reasons
       (expected_run_id g) (expected_work_package_id g) (plan_id (gi_validation_plan g))
       (expected_review_invocation_id g) VALIDATION_SCHEMA_VERSION 1 fs
       (sorted_strings relevant) (gi_evaluated_at g) gate in
    validate_ReviewGateDecision d = Ok d).
  { intros status gate summary Hsum Hgate Hst d. destruct Hg as [H1 H2 H3 H4 H5 H6].
    pose proof (id_validators_Ok _ (Plan_wf_facts _ H4)) as (H7 & _ & _).
    subst d. unfold validate_ReviewGateDecision.
    cbn [gd_schema_version gd_status gd_summary gd_reasons gd_run_id gd_work_package_id
      gd_validation_plan_id gd_review_invocation_id gd_validation_schema_version
      gd_review_response_schema_version gd_finding_evidence gd_relevant_finding_ids gd_evaluated_at
      gd_approval_gate].
    rewrite Hsum, H1, H2, H3, H6, H7, Hgate, (traverse_fix _ _ Hfs), Hstrip.
    unfold REVIEW_GATE_SCHEMA_VERSION, VALIDATION_SCHEMA_VERSION, require, _validate_decision.
    rewrite Z.eqb_refl. cbn [negb raise_if mbind result_bind].
    cbn [gd_schema_version gd_status gd_summary gd_reasons gd_run_id gd_work_package_id
      gd_validation_plan_id gd_review_invocation_id gd_validation_schema_version
      gd_review_response_schema_version gd_finding_evidence gd_relevant_finding_ids gd_evaluated_at
      gd_approval_gate].
    rewrite Hsu. replace (has_duplicates reasons) with false
      by (symmetry; apply has_duplicates_false, NoDup_dict_fromkeys).
    assert (Hex : existsb (fun i => negb (bool_decide (i ∈ fe_finding_id <$> fs)))
                    (sorted_strings relevant) = false).
    { apply existsb_false, Forall_forall. intros i Hi. apply negb_false_iff, bool_decide_eq_true.
      rewrite Hids. by apply Hin. }
    rewrite Hex.
    destruct (bool_decide _).
    - destruct Hst as [-> ->]. done.
    - destruct Hst as [-> Hne]. by rewrite (bool_decide_eq_false_2 _ Hne). }
  assert (Hrefuse : _refusal_status (resp_status (reviewer_response g))
                      (pr_status (gi_validation_result g)) reasons <> ReviewGateStatus.APPROVABLE).
  { unfold _refusal_status. by repeat case_match. }
  destruct reasons as [|r0 reasons0] eqn:Er.
  - destruct (Hnil eq_refl) as (review & Hsel & Happ). rewrite Hsel in *.
    assert (Hga : validate_ApprovalGate (mk_ApprovalGate review true true true true true false)
                  = Ok (mk_ApprovalGate review true true true true true false)).
    { unfold validate_ApprovalGate. simpl. by rewrite (Hrev review eq_refl). }
    assert (Hsat : is_satisfied (mk_ApprovalGate review true true true true true false) = true).
    { unfold is_satisfied, failed_gates. simpl. by rewrite Happ. }
    eexists. split; [|split; [eapply (Hdec ReviewGateStatus.APPROVABLE (Some _))|]].
    + simpl. rewrite Hga. simpl.
      apply (Hdec ReviewGateStatus.APPROVABLE (Some (mk_ApprovalGate review true true true true true false)));
        [vm_compute; done | simpl; by rewrite Hga | simpl; done].
    + vm_compute. done.
    + simpl. by rewrite Hga.
    + simpl. done.
    + done.
  - eexists. split; [|split].
    + simpl. apply Hdec; [vm_compute; done | done |]. by rewrite (bool_decide_eq_false_2 _ Hrefuse).
    + apply Hdec; [vm_compute; done | done |]. by rewrite (bool_decide_eq_false_2 _ Hrefuse).
    + done.
Qed.

(** The reasons of a constructed input, from its normalized findings. *)
Lemma evaluate_normalized g :
  validate_ReviewGateInput g = Ok g ->
  (forall review, selected_review (reviewer_response g) = Some review ->
                  Z.of_nat (length (review_findings review)) <= 999) ->
  exists rs fs dup,
    replay_reasons (gi_validation_plan g) (gi_validation_result g) = Ok rs /\
    _normalize_findings (selected_review (reviewer_response g)) = Ok (fs, dup) /\
    Forall Finding_wf fs /\ (exists k, fe_finding_id <$> fs = finding_ids k /\ Z.of_nat k <= 999) /\
    let reasons := dict_fromkeys (evidence_reasons g rs
                     ++ review_reasons g (selected_review (reviewer_response g)) fs dup) in
    (reasons = [] -> exists review, selected_review (reviewer_response g) = Some review /\
                     review_verdict review = ReviewVerdict.APPROVED) /\
    (reasons = [] <-> exists review, approval_conditions g review).
Proof.
  intros Hg Hlen. pose proof (Input_wf_facts _ Hg) as Hf.
  destruct (replay_reasons_Ok g Hg) as (rs & Hrs & Hiff).
  destruct (selected_review (reviewer_response g)) as [review|] eqn:Hsel.
  - pose proof (selected_review_wf _ _ (gf_response _ Hf) Hsel) as Hrw.
    destruct (normalize_findings_Ok review Hrw (Hlen review eq_refl)) as [Hn Hw].
    exists rs. eexists _, _. split; [done|]. split; [exact Hn|]. split; [exact Hw|].
    split; [eexists; split; [apply evidence_ids_1 | rewrite py_sorted_perm; by apply Hlen]|].
    cbv zeta. rewrite dict_fromkeys_nil. pose proof (no_reasons g review rs Hiff Hsel) as Hno. split.
    + intros Hnil. apply Hno in Hnil. exists review. split; [done | apply Hnil].
    + rewrite Hno. split; [eauto|]. intros (r & Hr).
      assert (r = review) as ->; [|done].
      destruct (ac_payload _ _ Hr) as (files & Hp). apply selected_review_Some in Hsel as (_ & fs' & Hp').
      rewrite Hp in Hp'. by simplify_eq.
  - exists rs, [], false. split; [done|]. split; [done|]. split; [constructor|].
    split; [by exists 0%nat|]. cbv zeta. rewrite dict_fromkeys_nil.
    assert (Hne : evidence_reasons g rs ++ review_reasons g None [] false <> []).
    { intros Hnil. apply app_nil in Hnil as [Hnil _]. unfold evidence_reasons in Hnil.
      repeat match goal with
      | H : _ ++ _ = [] |- _ => apply app_nil in H; destruct H
      | H : reason_if _ _ = [] |- _ => apply reason_if_nil in H
      end.
      unfold selected_review in Hsel. case_bool_decide; simpl in *; [|done].
      match goal with H : reviewer_payload _ = None, H2 : is_none _ = false |- _ => by rewrite H in H2 end. }
    split; [done|]. split; [done|]. intros (review & Hr).
    assert (Hs : selected_review (reviewer_response g) = Some review)
      by (apply selected_review_Some; split; apply Hr). congruence.
Qed.

(** The pattern of the identifiers has three digits: the 1000th finding has none. *)
Definition too_many_findings (g : ReviewGateInput) : bool :=
  match selected_review (reviewer_response g) with
  | Some review => 999 <? Z.of_nat (length (review_findings review))
  | None => false
  end.

Lemma enumerate_lookup {A} start (xs : list A) i x :
  xs !! i = Some x -> enumerate start xs !! i = Some (start + Z.of_nat i, x).
Proof.
  revert start i. induction xs as [|y xs IH]; intros start i; [done|].
  destruct i as [|i]; cbn; [intros [= ->]; by rewrite Z.add_0_r|]. intros H. rewrite (IH _ _ H).
  do 2 f_equal. lia.
Qed.

Lemma normalize_too_many review :
  999 < Z.of_nat (length (review_findings review)) ->
  exists field, _normalize_findings (Some review) = Err (ValueError field).
Proof.
  intros Hlen. unfold _normalize_findings.
  match goal with |- context [traverse ?f ?l] => set (check := f); set (rows := l) end.
  assert (Hv : value_errors (traverse check rows)).
  { apply value_errors_traverse. intros [i f]. unfold check, validate_ReviewFindingEvidence, pattern_field, text_field.
    auto 10 with rev. }
  destruct (traverse check rows) as [es|e] eqn:He.
  - exfalso. apply traverse_Forall2 in He.
    assert (Hl : (999 < length (py_sorted finding_le (review_findings review)))%nat).
    { rewrite (Permutation_length (py_sorted_perm _ _)). lia. }
    destruct (lookup_lt_is_Some_2 _ _ Hl) as [f Hf].
    apply (enumerate_lookup 1) in Hf. fold rows in Hf.
    destruct (Forall2_lookup_l _ _ _ _ _ He Hf) as (y & _ & Hy).
    replace (1 + Z.of_nat 999) with 1000 in Hy by lia. unfold check, validate_ReviewFindingEvidence in Hy.
    cbn [fe_finding_id] in Hy.
    apply bind_Ok in Hy as (z & Hz & _). vm_compute in Hz. done.
  - specialize (Hv e eq_refl). destruct e; try done. by eexists.
Qed.

Lemma evaluate_too_many g :
  validate_ReviewGateInput g = Ok g -> too_many_findings g = true ->
  exists field, evaluate g = Err (ValueError field).
Proof.
  intros Hg. unfold too_many_findings. destruct (selected_review _) as [review|] eqn:Hsel; [|done].
  intros Hlen%Z.ltb_lt. destruct (replay_reasons_Ok g Hg) as (rs & Hrs & _).
  destruct (normalize_too_many review Hlen) as [field Hn]. exists field.
  unfold evaluate. rewrite Hrs, Hsel. cbn [mbind result_bind]. by rewrite Hn.
Qed.

(** C9: the gate decides on every constructed input whose review has at most 999
    findings, and raises the decision model's error on one with more: the
    1000th finding has no identifier.  Where it decides, it returns a valid
    decision for the expected run, and the decision is approvable exactly when
    the validation replays to the submitted result and is approvable, the
    reviewer's parsed verdict approves without high findings, and every
    correlation, chronology and local check holds; a refusal gives a reason. *)
Theorem evaluate_decides g (Hg : validate_ReviewGateInput g = Ok g) :
  if too_many_findings g then exists field, evaluate g = Err (ValueError field) else
  exists d, evaluate g = Ok d /\ validate_ReviewGateDecision d = Ok d /\
    gd_run_id d = expected_run_id g /\
    (gd_status d = ReviewGateStatus.APPROVABLE <-> exists review, approval_conditions g review) /\
    (gd_status d <> ReviewGateStatus.APPROVABLE -> gd_reasons d <> []).
Proof.
  destruct (too_many_findings g) eqn:Hmany; [by apply evaluate_too_many|].
  assert (Hlen : forall review, selected_review (reviewer_response g) = Some review ->
                   Z.of_nat (length (review_findings review)) <= 999).
  { unfold too_many_findings in Hmany. intros review Hr. rewrite Hr in Hmany. by apply Z.ltb_ge in Hmany. }
  destruct (evaluate_normalized g Hg Hlen) as (rs & fs & dup & Hrs & Hn & Hw & Hk & Hnil & Hiff).
  pose proof (Input_wf_facts _ Hg) as Hf.
  destruct (evaluate_shape g rs fs dup Hf Hrs (fun r => selected_review_wf _ r (gf_response _ Hf))
              Hn Hw Hk Hnil) as (d & Hd & Hwf & Hre & Hrun & _ & Hst & _).
  exists d. rewrite Hst, Hre. auto.
Qed.

(** The approval evidence of a decision is accepted by the state machine as
    the gate of an approval exactly when the decision is approvable, and it then
    carries the reviewer's own review. *)
Theorem decision_gates_approval g d (Hg : validate_ReviewGateInput g = Ok g)
    (Hlen : forall review, selected_review (reviewer_response g) = Some review ->
                           Z.of_nat (length (review_findings review)) <= 999)
    (Hd : evaluate g = Ok d) :
  (check_gate APPROVED (gd_approval_gate d) = Ok tt <-> gd_status d = ReviewGateStatus.APPROVABLE) /\
  (forall gate, gd_approval_gate d = Some gate ->
     selected_review (reviewer_response g) = Some (gate_review gate) /\ is_satisfied gate = true).
Proof.
  destruct (evaluate_normalized g Hg Hlen) as (rs & fs & dup & Hrs & Hn & Hw & Hk & Hnil & Hiff).
  pose proof (Input_wf_facts _ Hg) as Hf.
  destruct (evaluate_shape g rs fs dup Hf Hrs (fun r => selected_review_wf _ r (gf_response _ Hf))
              Hn Hw Hk Hnil) as (d' & Hd' & _ & _ & _ & _ & Hst & Hgate).
  rewrite Hd in Hd'. injection Hd' as <-.
  assert (Hsat : forall review, review_verdict review = ReviewVerdict.APPROVED ->
    is_satisfied (mk_ApprovalGate review true true true true true false) = true)
    by (intros review Hr; unfold is_satisfied, failed_gates; simpl; by rewrite Hr).
  rewrite Hst. destruct (dict_fromkeys _) as [|r0 rest].
  - destruct (Hnil eq_refl) as (review & Hsel & Happ). rewrite Hsel in Hgate |- *.
    rewrite Hgate. specialize (Hsat review Happ). split.
    + unfold check_gate. simpl. rewrite Hsat. done.
    + intros gate [= <-]. done.
  - rewrite Hgate. split; [|done]. split; done.
Qed.

(** A review with more than 999 findings cannot be decided: the 1000th finding
    has no identifier of three digits. *)
Example finding_1000 : finding_id 1000 = "finding-1000" /\
  validate_ReviewFindingEvidence (mk_ReviewFindingEvidence (finding_id 1000) FindingSeverity.LOW "x")
  = Err (ValueError "finding_id").
Proof. vm_compute. done. Qed.

(** ** A concrete decision *)

Module GateSample.
Definition validation : ValidationPlanResult :=
  aggregate_value ValidationSample.plan (ValidationSample.passed 1 ValidationSample.tests)
    [ValidationSample.failed 2 ValidationSample.lint].

Definition local_evidence : LocalApprovalEvidence :=
  mk_LocalApprovalEvidence 1 ("run_" +:+ AgentSample.hex32) "P4-002"
    "vplan_00000000000000000000000000000001" ("inv_" +:+ AgentSample.hex32) "fake-reviewer"
    (utc 1300000) true true true true true true true true.

Definition input : ReviewGateInput :=
  mk_ReviewGateInput 1 ("run_" +:+ AgentSample.hex32) "P4-002" ("inv_" +:+ AgentSample.hex32)
    ValidationSample.plan validation AgentSample.response local_evidence (utc 1400000).

Lemma input_wf : validate_ReviewGateInput input = Ok input.
Proof. vm_compute. reflexivity. Qed.

Lemma findings_bounded review :
  selected_review (reviewer_response input) = Some review ->
  Z.of_nat (length (review_findings review)) <= 999.
Proof. intros H. vm_compute in H. injection H as <-. vm_compute. discriminate. Qed.
End GateSample.

Lemma evaluate_decides_witness :
  exists d, evaluate GateSample.input = Ok d /\ gd_status d = ReviewGateStatus.APPROVABLE /\
    exists review, approval_conditions GateSample.input review.
Proof.
  pose proof (evaluate_decides GateSample.input GateSample.input_wf) as H.
  assert (Hm : too_many_findings GateSample.input = false) by (vm_compute; reflexivity).
  rewrite Hm in H. destruct H as (d & Hd & _ & _ & Hst & _).
  exists d. split; [exact Hd|].
  assert (Ha : gd_status d = ReviewGateStatus.APPROVABLE).
  { revert Hd. vm_compute. intros H. injection H as <-. reflexivity. }
  split; [exact Ha|]. apply Hst. exact Ha.
Defined.

Lemma decision_gates_approval_witness :
  exists d, evaluate GateSample.input = Ok d /\ check_gate APPROVED (gd_approval_gate d) = Ok tt.
Proof.
  destruct (evaluate GateSample.input) as [d|e] eqn:Hd.
  - exists d. split; [reflexivity|].
    apply (decision_gates_approval GateSample.input d GateSample.input_wf GateSample.findings_bounded Hd).
    revert Hd. vm_compute. intros H. injection H as <-. reflexivity.
  - exfalso. revert Hd. vm_compute. discriminate.
Defined.
