(* ===== verification/OrchestrationPorts.v ===== *)
(** * The orchestration port ([src/src/revanent/ports/orchestration.py])

    The durable records of a run's coordination: one record per stage of an
    attempt (intent, outcome, reconciliation), the six kinds of attempt with the
    evidence each status requires, the request and the result of the service,
    and the evidence and decision of the repair policy. *)

From Stdlib Require Import ZArith Lia Ascii String.
From S2P Require Import Prelude Text Domain Sha256 Commands Agents GitPort Validation ContextPort ReviewGate.
From stdpp Require Import base option strings numbers sets list list_relations.

Open Scope Z_scope.

Definition ORCHESTRATION_SCHEMA_VERSION : Z := 1.
Definition MAX_ORCHESTRATION_RECORDS : Z := 1024.
Definition MAX_ORCHESTRATION_PLANS : Z := 101.

Definition _ATTEMPT_ID : list pat := [Lit "oattempt_"; Cls is_hex 32 32].
Definition _RECORD_ID : list pat := [Lit "orec_"; Cls is_hex 64 64].

Definition OrchestrationAttemptId (s : string) : res string :=
  raise_if (negb (matches _ATTEMPT_ID s))
    (ValueError "orchestration attempt ID must use oattempt_ plus 32 hex characters") ;; mret s.

Definition OrchestrationRecordId (s : string) : res string :=
  raise_if (negb (matches _RECORD_ID s))
    (ValueError "orchestration record ID must use orec_ plus 64 hex characters") ;; mret s.

Definition orchestration_utc (t : datetime) : res datetime :=
  raise_if (negb (is_utc t)) (ValueError "orchestration timestamps must be timezone-aware UTC") ;;
  mret t.

Module OrchestrationStep.
Inductive t : Type :=
| CONTEXT | WORKSPACE | BUILD | VALIDATION | REVIEW | REPAIR.
#[export] Instance eq_dec : EqDecision t.
Proof. solve_decision. Defined.
Definition value (x : t) : string :=
  match x with
  | CONTEXT => "CONTEXT"
  | WORKSPACE => "WORKSPACE"
  | BUILD => "BUILD"
  | VALIDATION => "VALIDATION"
  | REVIEW => "REVIEW"
  | REPAIR => "REPAIR"
  end.
End OrchestrationStep.

Module OrchestrationRecordStage.
Inductive t : Type :=
| INTENT | OUTCOME | RECONCILIATION.
#[export] Instance eq_dec : EqDecision t.
Proof. solve_decision. Defined.
Definition value (x : t) : string :=
  match x with
  | INTENT => "INTENT"
  | OUTCOME => "OUTCOME"
  | RECONCILIATION => "RECONCILIATION"
  end.
End OrchestrationRecordStage.

Module AttemptStatus.
Inductive t : Type :=
| INTENDED | COMPLETED | FAILED | BLOCKED | CANCELLED | INVALID | AMBIGUOUS.
#[export] Instance eq_dec : EqDecision t.
Proof. solve_decision. Defined.
End AttemptStatus.

Module ReconciliationState.
Inductive t : Type :=
| KNOWN_NONE | KNOWN_PRESENT | AMBIGUOUS | INCOMPATIBLE.
#[export] Instance eq_dec : EqDecision t.
Proof. solve_decision. Defined.
End ReconciliationState.

Module OrchestrationStatus.
Inductive t : Type :=
| IN_PROGRESS | APPROVED | FAILED | BLOCKED | CANCELLED | STALE.
#[export] Instance eq_dec : EqDecision t.
Proof. solve_decision. Defined.
End OrchestrationStatus.

Module LimitOutcome.
Inductive t : Type :=
| NONE | BUILD_ATTEMPTS_EXHAUSTED | REVIEW_ATTEMPTS_EXHAUSTED | REPAIR_ATTEMPTS_EXHAUSTED | RUN_DURATION_EXHAUSTED.
#[export] Instance eq_dec : EqDecision t.
Proof. solve_decision. Defined.
Definition value (x : t) : string :=
  match x with
  | NONE => "NONE"
  | BUILD_ATTEMPTS_EXHAUSTED => "BUILD_ATTEMPTS_EXHAUSTED"
  | REVIEW_ATTEMPTS_EXHAUSTED => "REVIEW_ATTEMPTS_EXHAUSTED"
  | REPAIR_ATTEMPTS_EXHAUSTED => "REPAIR_ATTEMPTS_EXHAUSTED"
  | RUN_DURATION_EXHAUSTED => "RUN_DURATION_EXHAUSTED"
  end.
End LimitOutcome.

Module RepairStrategy.
Inductive t : Type :=
| LOCAL_BUILDER | CODEX_REPAIR | NO_REPAIR | BLOCKED.
#[export] Instance eq_dec : EqDecision t.
Proof. solve_decision. Defined.
Definition value (x : t) : string :=
  match x with
  | LOCAL_BUILDER => "LOCAL_BUILDER"
  | CODEX_REPAIR => "CODEX_REPAIR"
  | NO_REPAIR => "NO_REPAIR"
  | BLOCKED => "BLOCKED"
  end.
End RepairStrategy.

Module RepairReason.
Inductive t : Type :=
| MECHANICAL_FIRST_FAILURE | REPEATED_DEFECT | HIGH_RISK_DEFECT | LOCAL_REPAIR_UNAVAILABLE | CODEX_REPAIR_UNAVAILABLE | CODEX_REPAIR_NOT_AUTHORIZED | LIMIT_EXHAUSTED | CANCELLED | SIDE_EFFECTS_UNRESOLVED | SCOPE_VIOLATION | INVALID_EVIDENCE | EXTERNAL_REQUIREMENT.
#[export] Instance eq_dec : EqDecision t.
Proof. solve_decision. Defined.
Definition value (x : t) : string :=
  match x with
  | MECHANICAL_FIRST_FAILURE => "mechanical_first_failure"
  | REPEATED_DEFECT => "repeated_defect"
  | HIGH_RISK_DEFECT => "high_risk_defect"
  | LOCAL_REPAIR_UNAVAILABLE => "local_repair_unavailable"
  | CODEX_REPAIR_UNAVAILABLE => "codex_repair_unavailable"
  | CODEX_REPAIR_NOT_AUTHORIZED => "codex_repair_not_authorized"
  | LIMIT_EXHAUSTED => "limit_exhausted"
  | CANCELLED => "cancelled"
  | SIDE_EFFECTS_UNRESOLVED => "side_effects_unresolved"
  | SCOPE_VIOLATION => "scope_violation"
  | INVALID_EVIDENCE => "invalid_evidence"
  | EXTERNAL_REQUIREMENT => "external_requirement"
  end.
End RepairReason.

#[export] Existing Instances OrchestrationStep.eq_dec OrchestrationRecordStage.eq_dec AttemptStatus.eq_dec ReconciliationState.eq_dec OrchestrationStatus.eq_dec LimitOutcome.eq_dec RepairStrategy.eq_dec RepairReason.eq_dec.

Record OrchestrationFailure := mk_OrchestrationFailure { of_code : string; of_message : string }.

#[export] Instance OrchestrationFailure_eq_dec : EqDecision OrchestrationFailure.
Proof. solve_decision. Defined.

Definition validate_OrchestrationFailure (f : OrchestrationFailure) : res OrchestrationFailure :=
  code ← pattern_field "code" Validation.failure_code_pattern (of_code f) ;
  message ← text_field "message" 1 1024 (of_message f) ;
  mret (mk_OrchestrationFailure code message).

Record WorkspaceEvidence := mk_WorkspaceEvidence {
  we_worktree_id : string;
  we_lifecycle : WorktreeLifecycleStatus.t;
  we_path : string;
  we_branch : string;
  we_repository_id : string
}.

#[export] Instance WorkspaceEvidence_eq_dec : EqDecision WorkspaceEvidence.
Proof. solve_decision. Defined.

Definition validate_WorkspaceEvidence (e : WorkspaceEvidence) : res WorkspaceEvidence :=
  id ← WorktreeId (we_worktree_id e) ;
  path ← text_field "path" 1 4096 (we_path e) ;
  branch ← text_field "branch" 1 255 (we_branch e) ;
  repository ← pattern_field "repository_id" _REPOSITORY_ID (we_repository_id e) ;
  mret (mk_WorkspaceEvidence id (we_lifecycle e) path branch repository).

(** ** Repair policy evidence and decision *)

(** [^[a-z0-9][a-z0-9_.:-]{0,127}$] *)
Definition fingerprint_pattern : list pat :=
  [Cls media_head 1 1; Cls (in_class "_.:-" media_head) 0 127].

Record RepairPolicyInput := mk_RepairPolicyInput {
  defect_fingerprints : list string;
  repeated_defect_count : Z;
  high_risk : bool;
  malformed_builder_repeated : bool;
  local_builder_available : bool;
  codex_repair_available : bool;
  rpi_codex_repair_authorized : bool;
  repairs_remaining : Z;
  rpi_cancelled : bool;
  side_effects_reconciled : bool;
  scope_valid : bool;
  evidence_valid : bool;
  external_requirement : bool
}.

#[export] Instance RepairPolicyInput_eq_dec : EqDecision RepairPolicyInput.
Proof. solve_decision. Defined.

Definition sorted_fingerprints (fingerprints : list string) (message : string) : res unit :=
  raise_if (negb (bool_decide (sorted_set fingerprints = fingerprints))) (ValueError message).

Definition validate_RepairPolicyInput (e : RepairPolicyInput) : res RepairPolicyInput :=
  fingerprints ← traverse (pattern_field "defect_fingerprints" fingerprint_pattern)
                   (defect_fingerprints e) ;
  require (Z.of_nat (length fingerprints) <=? 64) "defect_fingerprints" ;;
  require (in_range 0 100 (repeated_defect_count e)) "repeated_defect_count" ;;
  require (in_range 0 100 (repairs_remaining e)) "repairs_remaining" ;;
  sorted_fingerprints fingerprints "defect fingerprints must be sorted and unique" ;;
  mret (mk_RepairPolicyInput fingerprints (repeated_defect_count e) (high_risk e)
          (malformed_builder_repeated e) (local_builder_available e) (codex_repair_available e)
          (rpi_codex_repair_authorized e) (repairs_remaining e) (rpi_cancelled e)
          (side_effects_reconciled e) (scope_valid e) (evidence_valid e) (external_requirement e)).

Record RepairDecision := mk_RepairDecision {
  dec_schema_version : Z;
  dec_strategy : RepairStrategy.t;
  dec_reasons : list RepairReason.t;
  dec_defect_fingerprints : list string;
  dec_repair_sequence : Z
}.

#[export] Instance RepairDecision_eq_dec : EqDecision RepairDecision.
Proof. solve_decision. Defined.

Definition validate_RepairDecision (d : RepairDecision) : res RepairDecision :=
  require (dec_schema_version d =? 1) "schema_version" ;;
  fingerprints ← traverse (fun s => Ok (str_strip s)) (dec_defect_fingerprints d) ;
  require (Z.of_nat (length fingerprints) <=? 64) "defect_fingerprints" ;;
  require (in_range 1 100 (dec_repair_sequence d)) "repair_sequence" ;;
  raise_if (bool_decide (dec_reasons d = []) || has_duplicates (dec_reasons d))
    (ValueError "repair decisions require unique deterministic reasons") ;;
  sorted_fingerprints fingerprints "repair-decision fingerprints must be sorted and unique" ;;
  mret (mk_RepairDecision (dec_schema_version d) (dec_strategy d) (dec_reasons d) fingerprints
          (dec_repair_sequence d)).

(** ** Attempts *)

(** The fields every kind of attempt inherits from [_AttemptBase]. *)
Record _AttemptBase := mk_AttemptBase {
  at_schema_version : Z;
  at_attempt_id : string;
  at_run_id : string;
  at_work_package_id : string;
  at_sequence : Z;
  at_status : AttemptStatus.t;
  at_started_at : datetime;
  at_completed_at : option datetime;
  at_side_effects : ReconciliationState.t;
  at_failure : option OrchestrationFailure
}.

#[export] Instance AttemptBase_eq_dec : EqDecision _AttemptBase.
Proof. solve_decision. Defined.

Definition has_attempt_status (s : AttemptStatus.t) (a : _AttemptBase) : bool :=
  bool_decide (at_status a = s).

Definition base_fields (a : _AttemptBase) : res _AttemptBase :=
  require (at_schema_version a =? 1) "schema_version" ;;
  id ← OrchestrationAttemptId (at_attempt_id a) ;
  run_id ← RunId (at_run_id a) ;
  work_package_id ← WorkPackageId (at_work_package_id a) ;
  require (in_range 1 100 (at_sequence a)) "sequence" ;;
  started ← orchestration_utc (at_started_at a) ;
  completed ← validate_optional orchestration_utc (at_completed_at a) ;
  failure ← validate_optional validate_OrchestrationFailure (at_failure a) ;
  mret (mk_AttemptBase (at_schema_version a) id run_id work_package_id (at_sequence a) (at_status a)
          started completed (at_side_effects a) failure).

Definition _validate_common (a : _AttemptBase) : res unit :=
  if has_attempt_status AttemptStatus.INTENDED a then
    raise_if (is_some (at_completed_at a) || is_some (at_failure a))
      (ValueError "intended attempts cannot carry terminal evidence")
  else
    match at_completed_at a with
    | None => Err (ValueError "terminal attempts require a completion timestamp")
    | Some completed =>
        raise_if (dt_lt completed (at_started_at a))
          (ValueError "attempt completion cannot precede start") ;;
        raise_if (has_attempt_status AttemptStatus.COMPLETED a && is_some (at_failure a))
          (ValueError "completed attempts cannot carry failures") ;;
        raise_if (negb (has_attempt_status AttemptStatus.COMPLETED a) && is_none (at_failure a))
          (ValueError "non-completed terminal attempts require a failure")
    end.

Record WorkspaceAttempt := mk_WorkspaceAttempt {
  wa_base : _AttemptBase;
  wa_request : WorktreeCreationRequest;
  wa_evidence : option WorkspaceEvidence
}.

#[export] Instance WorkspaceAttempt_eq_dec : EqDecision WorkspaceAttempt.
Proof. solve_decision. Defined.

Definition _validate_workspace (a : WorkspaceAttempt) : res WorkspaceAttempt :=
  raise_if (negb (String.eqb (wcr_worktree_id (wa_request a))
                    (match wa_evidence a with
                     | Some e => we_worktree_id e
                     | None => wcr_worktree_id (wa_request a)
                     end)))
    (ValueError "workspace evidence does not match its request") ;;
  raise_if (has_attempt_status AttemptStatus.COMPLETED (wa_base a) && is_none (wa_evidence a))
    (ValueError "completed workspace attempts require ownership evidence") ;;
  raise_if (has_attempt_status AttemptStatus.INTENDED (wa_base a) && is_some (wa_evidence a))
    (ValueError "workspace intent cannot carry outcome evidence") ;;
  mret a.

Definition validate_WorkspaceAttempt (a : WorkspaceAttempt) : res WorkspaceAttempt :=
  base ← base_fields (wa_base a) ;
  request ← validate_WorktreeCreationRequest (wa_request a) ;
  evidence ← validate_optional validate_WorkspaceEvidence (wa_evidence a) ;
  _validate_common base ;;
  _validate_workspace (mk_WorkspaceAttempt base request evidence).

Record ContextAttempt := mk_ContextAttempt {
  ca_base : _AttemptBase;
  ca_request_id : string;
  ca_role : AgentRole.t;
  ca_manifest : option ContextManifest
}.

#[export] Instance ContextAttempt_eq_dec : EqDecision ContextAttempt.
Proof. solve_decision. Defined.

Definition _validate_context_attempt (a : ContextAttempt) : res ContextAttempt :=
  if has_attempt_status AttemptStatus.COMPLETED (ca_base a) then
    match ca_manifest a with
    | None => Err (ValueError "completed context attempts require a manifest")
    | Some m =>
        raise_if (negb (String.eqb (cm_run_id m) (at_run_id (ca_base a)))
                  || negb (String.eqb (cm_work_package_id m) (at_work_package_id (ca_base a)))
                  || negb (bool_decide (cm_role m = ca_role a))
                  || negb (cm_required_evidence_complete m))
          (ValueError "context manifest correlation or completeness mismatch") ;;
        mret a
    end
  else
    raise_if (is_some (ca_manifest a))
      (ValueError "non-completed context attempts cannot carry a manifest") ;;
    mret a.

Definition validate_ContextAttempt (a : ContextAttempt) : res ContextAttempt :=
  base ← base_fields (ca_base a) ;
  request_id ← pattern_field "request_id" reference_pattern (ca_request_id a) ;
  manifest ← validate_optional validate_ContextManifest (ca_manifest a) ;
  _validate_common base ;;
  _validate_context_attempt (mk_ContextAttempt base request_id (ca_role a) manifest).

(** The agent fields shared by build, review and repair attempts. *)
Record AgentFields := mk_AgentFields {
  ag_role : AgentRole.t;
  ag_agent_attempt_id : string;
  ag_invocation_id : string;
  ag_adapter_id : string;
  ag_request : AgentRequest;
  ag_response : option AgentResponse
}.

#[export] Instance AgentFields_eq_dec : EqDecision AgentFields.
Proof. solve_decision. Defined.

Definition agent_fields (g : AgentFields) : res AgentFields :=
  attempt_id ← AgentAttemptId (ag_agent_attempt_id g) ;
  invocation_id ← AgentInvocationId (ag_invocation_id g) ;
  adapter_id ← _SafeIdentifier (ag_adapter_id g) ;
  request ← validate_AgentRequest (ag_request g) ;
  response ← validate_optional validate_AgentResponse (ag_response g) ;
  mret (mk_AgentFields (ag_role g) attempt_id invocation_id adapter_id request response).

Definition _validate_agent_attempt (a : _AttemptBase) (g : AgentFields) (role : AgentRole.t) : res unit :=
  let request := ag_request g in
  raise_if (negb (String.eqb (ar_run_id request) (at_run_id a))
            || negb (String.eqb (ar_work_package_id request) (at_work_package_id a))
            || negb (bool_decide (ar_role request = role))
            || negb (String.eqb (ar_attempt_id request) (ag_agent_attempt_id g))
            || negb (String.eqb (ar_invocation_id request) (ag_invocation_id g)))
    (ValueError "agent attempt request correlation mismatch") ;;
  raise_if (negb (ar_attempt_number request =? at_sequence a) || String.eqb (ag_adapter_id g) "")
    (ValueError "agent attempt sequence or adapter identity mismatch") ;;
  raise_if (has_attempt_status AttemptStatus.INTENDED a && is_some (ag_response g))
    (ValueError "agent intent cannot carry a response") ;;
  match ag_response g with
  | None => mret tt
  | Some response =>
      raise_if (negb (String.eqb (resp_run_id response) (ar_run_id request))
                || negb (String.eqb (resp_work_package_id response) (ar_work_package_id request))
                || negb (bool_decide (resp_role response = role))
                || negb (String.eqb (resp_attempt_id response) (ar_attempt_id request))
                || negb (String.eqb (resp_invocation_id response) (ar_invocation_id request))
                || negb (String.eqb (id_adapter_id (identity response)) (ag_adapter_id g)))
        (ValueError "agent response correlation mismatch")
  end ;;
  raise_if (has_attempt_status AttemptStatus.COMPLETED a
            && match ag_response g with
               | None => true
               | Some response => negb (bool_decide (resp_status response = AgentStatus.COMPLETED))
               end)
    (ValueError "completed agent attempt requires completed response").

Record BuildAttempt := mk_BuildAttempt { ba_base : _AttemptBase; ba_agent : AgentFields }.

#[export] Instance BuildAttempt_eq_dec : EqDecision BuildAttempt.
Proof. solve_decision. Defined.

Definition validate_BuildAttempt (a : BuildAttempt) : res BuildAttempt :=
  base ← base_fields (ba_base a) ;
  require (bool_decide (ag_role (ba_agent a) = AgentRole.BUILDER)) "role" ;;
  agent ← agent_fields (ba_agent a) ;
  _validate_common base ;;
  _validate_agent_attempt base agent AgentRole.BUILDER ;;
  mret (mk_BuildAttempt base agent).

Record ValidationAttempt := mk_ValidationAttempt {
  va_base : _AttemptBase;
  va_plan : ValidationPlan;
  va_result : option ValidationPlanResult
}.

#[export] Instance ValidationAttempt_eq_dec : EqDecision ValidationAttempt.
Proof. solve_decision. Defined.

Definition _validate_validation (a : ValidationAttempt) : res ValidationAttempt :=
  raise_if (negb (String.eqb (plan_run_id (va_plan a)) (at_run_id (va_base a)))
            || negb (String.eqb (plan_work_package_id (va_plan a)) (at_work_package_id (va_base a))))
    (ValueError "validation attempt plan correlation mismatch") ;;
  raise_if (has_attempt_status AttemptStatus.COMPLETED (va_base a) && is_none (va_result a))
    (ValueError "completed validation attempt requires a result") ;;
  raise_if (match va_result a with
            | Some r => negb (String.eqb (pr_plan_id r) (plan_id (va_plan a)))
                        || negb (String.eqb (pr_run_id r) (at_run_id (va_base a)))
                        || negb (String.eqb (pr_work_package_id r) (at_work_package_id (va_base a)))
            | None => false
            end)
    (ValueError "validation attempt result correlation mismatch") ;;
  raise_if (has_attempt_status AttemptStatus.INTENDED (va_base a) && is_some (va_result a))
    (ValueError "validation intent cannot carry a result") ;;
  mret a.

Definition validate_ValidationAttempt (a : ValidationAttempt) : res ValidationAttempt :=
  base ← base_fields (va_base a) ;
  plan ← validate_ValidationPlan (va_plan a) ;
  result ← validate_optional validate_ValidationPlanResult (va_result a) ;
  _validate_common base ;;
  _validate_validation (mk_ValidationAttempt base plan result).

Record ReviewAttempt := mk_ReviewAttempt {
  rv_base : _AttemptBase;
  rv_agent : AgentFields;
  rv_validation_plan : ValidationPlan;
  rv_validation_result : ValidationPlanResult;
  rv_local_evidence : option LocalApprovalEvidence;
  rv_gate_decision : option ReviewGateDecision
}.

#[export] Instance ReviewAttempt_eq_dec : EqDecision ReviewAttempt.
Proof. solve_decision. Defined.

Definition _validate_review (a : ReviewAttempt) : res ReviewAttempt :=
  _validate_agent_attempt (rv_base a) (rv_agent a) AgentRole.REVIEWER ;;
  if has_attempt_status AttemptStatus.BLOCKED (rv_base a)
     && (is_none (ag_response (rv_agent a)) && is_none (rv_local_evidence a)
         && is_none (rv_gate_decision a)) then mret a
  else
    raise_if (negb (bool_decide
                (negb (has_attempt_status AttemptStatus.INTENDED (rv_base a))
                 = is_some (ag_response (rv_agent a)) && is_some (rv_local_evidence a)
                   && is_some (rv_gate_decision a))))
      (ValueError "terminal review attempts require response, local evidence, and gate") ;;
    mret a.

Definition validate_ReviewAttempt (a : ReviewAttempt) : res ReviewAttempt :=
  base ← base_fields (rv_base a) ;
  require (bool_decide (ag_role (rv_agent a) = AgentRole.REVIEWER)) "role" ;;
  agent ← agent_fields (rv_agent a) ;
  plan ← validate_ValidationPlan (rv_validation_plan a) ;
  result ← validate_ValidationPlanResult (rv_validation_result a) ;
  local_evidence ← validate_optional validate_LocalApprovalEvidence (rv_local_evidence a) ;
  decision ← validate_optional validate_ReviewGateDecision (rv_gate_decision a) ;
  _validate_common base ;;
  _validate_review (mk_ReviewAttempt base agent plan result local_evidence decision).

Record RepairAttempt := mk_RepairAttempt {
  ra_base : _AttemptBase;
  ra_agent : AgentFields;
  ra_decision : RepairDecision;
  ra_write_authorized : bool
}.

#[export] Instance RepairAttempt_eq_dec : EqDecision RepairAttempt.
Proof. solve_decision. Defined.

Definition _validate_repair (a : RepairAttempt) : res RepairAttempt :=
  let role := ag_role (ra_agent a) in
  raise_if (negb (bool_decide (role ∈ [AgentRole.BUILDER; AgentRole.REPAIRER])))
    (ValueError "repair attempt role must be BUILDER or REPAIRER") ;;
  _validate_agent_attempt (ra_base a) (ra_agent a) role ;;
  raise_if (bool_decide (dec_strategy (ra_decision a) = RepairStrategy.LOCAL_BUILDER)
            && negb (bool_decide (role = AgentRole.BUILDER)))
    (ValueError "local-builder repair requires BUILDER role") ;;
  raise_if (bool_decide (dec_strategy (ra_decision a) = RepairStrategy.CODEX_REPAIR)
            && (negb (bool_decide (role = AgentRole.REPAIRER)) || negb (ra_write_authorized a)))
    (ValueError "Codex repair requires REPAIRER role and explicit write authority") ;;
  raise_if (has_attempt_status AttemptStatus.INTENDED (ra_base a) && is_some (ag_response (ra_agent a)))
    (ValueError "repair intent cannot carry a response") ;;
  mret a.

Definition validate_RepairAttempt (a : RepairAttempt) : res RepairAttempt :=
  base ← base_fields (ra_base a) ;
  agent ← agent_fields (ra_agent a) ;
  decision ← validate_RepairDecision (ra_decision a) ;
  _validate_common base ;;
  _validate_repair (mk_RepairAttempt base agent decision (ra_write_authorized a)).

(** The union discriminated by [kind]. *)
Inductive AttemptEvidence : Type :=
| Context (a : ContextAttempt)
| Workspace (a : WorkspaceAttempt)
| Build (a : BuildAttempt)
| Validation_ (a : ValidationAttempt)
| Review (a : ReviewAttempt)
| Repair (a : RepairAttempt).

#[export] Instance AttemptEvidence_eq_dec : EqDecision AttemptEvidence.
Proof. solve_decision. Defined.

Definition base_of (a : AttemptEvidence) : _AttemptBase :=
  match a with
  | Context a => ca_base a
  | Workspace a => wa_base a
  | Build a => ba_base a
  | Validation_ a => va_base a
  | Review a => rv_base a
  | Repair a => ra_base a
  end.

Definition kind_of (a : AttemptEvidence) : OrchestrationStep.t :=
  match a with
  | Context _ => OrchestrationStep.CONTEXT
  | Workspace _ => OrchestrationStep.WORKSPACE
  | Build _ => OrchestrationStep.BUILD
  | Validation_ _ => OrchestrationStep.VALIDATION
  | Review _ => OrchestrationStep.REVIEW
  | Repair _ => OrchestrationStep.REPAIR
  end.

Definition validate_AttemptEvidence (a : AttemptEvidence) : res AttemptEvidence :=
  match a with
  | Context a => Context <$> validate_ContextAttempt a
  | Workspace a => Workspace <$> validate_WorkspaceAttempt a
  | Build a => Build <$> validate_BuildAttempt a
  | Validation_ a => Validation_ <$> validate_ValidationAttempt a
  | Review a => Review <$> validate_ReviewAttempt a
  | Repair a => Repair <$> validate_RepairAttempt a
  end.

(** ** Records *)

Record ReconciliationResult := mk_ReconciliationResult {
  rr_schema_version : Z;
  rr_attempt_id : string;
  rr_state : ReconciliationState.t;
  safe_to_continue : bool;
  rr_reason : string;
  rr_observed_at : datetime
}.

#[export] Instance ReconciliationResult_eq_dec : EqDecision ReconciliationResult.
Proof. solve_decision. Defined.

Definition _validate_safety (r : ReconciliationResult) : res ReconciliationResult :=
  raise_if (safe_to_continue r
            && negb (bool_decide (rr_state r ∈ [ReconciliationState.KNOWN_NONE;
                                                ReconciliationState.KNOWN_PRESENT])))
    (ValueError "ambiguous or incompatible reconciliation cannot continue") ;;
  mret r.

Definition validate_ReconciliationResult (r : ReconciliationResult) : res ReconciliationResult :=
  require (rr_schema_version r =? 1) "schema_version" ;;
  id ← OrchestrationAttemptId (rr_attempt_id r) ;
  reason ← text_field "reason" 1 1024 (rr_reason r) ;
  observed ← orchestration_utc (rr_observed_at r) ;
  _validate_safety (mk_ReconciliationResult (rr_schema_version r) id (rr_state r)
                      (safe_to_continue r) reason observed).

Record OrchestrationRecord := mk_OrchestrationRecord {
  rec_schema_version : Z;
  rec_id : string;
  rec_run_id : string;
  rec_work_package_id : string;
  rec_sequence : Z;
  rec_run_revision : Z;
  rec_expected_state : RunState;
  rec_stage : OrchestrationRecordStage.t;
  rec_occurred_at : datetime;
  rec_attempt : AttemptEvidence;
  rec_reconciliation : option ReconciliationResult
}.

#[export] Instance OrchestrationRecord_eq_dec : EqDecision OrchestrationRecord.
Proof. solve_decision. Defined.

Definition has_stage (s : OrchestrationRecordStage.t) (r : OrchestrationRecord) : bool :=
  bool_decide (rec_stage r = s).

Definition rec_attempt_id (r : OrchestrationRecord) : string := at_attempt_id (base_of (rec_attempt r)).

Definition _validate_record (r : OrchestrationRecord) : res OrchestrationRecord :=
  let a := base_of (rec_attempt r) in
  raise_if (negb (String.eqb (at_run_id a) (rec_run_id r))
            || negb (String.eqb (at_work_package_id a) (rec_work_package_id r)))
    (ValueError "orchestration record correlation mismatch") ;;
  match rec_stage r with
  | OrchestrationRecordStage.INTENT =>
      raise_if (negb (has_attempt_status AttemptStatus.INTENDED a) || is_some (rec_reconciliation r))
        (ValueError "intent records require only intended attempt evidence")
  | OrchestrationRecordStage.OUTCOME =>
      raise_if (has_attempt_status AttemptStatus.INTENDED a || is_some (rec_reconciliation r))
        (ValueError "outcome records require terminal attempt evidence")
  | OrchestrationRecordStage.RECONCILIATION =>
      raise_if (match rec_reconciliation r with
                | None => true
                | Some c => negb (String.eqb (rr_attempt_id c) (at_attempt_id a))
                end)
        (ValueError "reconciliation records require matching reconciliation evidence")
  end ;;
  mret r.

Definition validate_OrchestrationRecord (r : OrchestrationRecord) : res OrchestrationRecord :=
  require (rec_schema_version r =? 1) "schema_version" ;;
  id ← OrchestrationRecordId (rec_id r) ;
  run_id ← RunId (rec_run_id r) ;
  work_package_id ← WorkPackageId (rec_work_package_id r) ;
  require (in_range 1 MAX_ORCHESTRATION_RECORDS (rec_sequence r)) "sequence" ;;
  require (0 <=? rec_run_revision r) "run_revision" ;;
  occurred ← orchestration_utc (rec_occurred_at r) ;
  attempt ← validate_AttemptEvidence (rec_attempt r) ;
  reconciliation ← validate_optional validate_ReconciliationResult (rec_reconciliation r) ;
  _validate_record
    (mk_OrchestrationRecord (rec_schema_version r) id run_id work_package_id (rec_sequence r)
       (rec_run_revision r) (rec_expected_state r) (rec_stage r) occurred attempt reconciliation).

(** ** The service's request and result *)

Record OrchestrationRequest := mk_OrchestrationRequest {
  oreq_schema_version : Z;
  oreq_run_id : string;
  oreq_expected_revision : option Z;
  context_requests : list ContextSelectionRequest;
  worktree : WorktreeCreationRequest;
  builder_request : AgentRequest;
  reviewer_request : AgentRequest;
  local_repair_request : AgentRequest;
  codex_repair_request : option AgentRequest;
  validation_plans : list ValidationPlan;
  codex_repair_authorized : bool
}.

#[export] Instance OrchestrationRequest_eq_dec : EqDecision OrchestrationRequest.
Proof. solve_decision. Defined.

(** [required_roles] *)
Definition required_roles (r : OrchestrationRequest) : list AgentRole.t :=
  [AgentRole.BUILDER; AgentRole.REVIEWER]
  ++ (if is_some (codex_repair_request r) then [AgentRole.REPAIRER] else []).

(** The equality of two sets given by lists. *)
Definition same_set {A} `{EqDecision A} (xs ys : list A) : bool :=
  forallb (fun x => bool_decide (x ∈ ys)) xs && forallb (fun y => bool_decide (y ∈ xs)) ys.

Definition prototype_mismatch (r : OrchestrationRequest) (role : AgentRole.t) (q : AgentRequest) : bool :=
  negb (String.eqb (ar_run_id q) (oreq_run_id r))
  || negb (String.eqb (ar_work_package_id q) (ar_work_package_id (builder_request r)))
  || negb (bool_decide (ar_role q = role))
  || negb (String.eqb (ws_reference_id (ar_workspace q)) (wcr_worktree_id (worktree r))).

Definition _validate_orchestration_request (r : OrchestrationRequest) : res OrchestrationRequest :=
  let work_package := ar_work_package_id (builder_request r) in
  let context_roles := csq_role <$> context_requests r in
  raise_if (bool_decide (context_requests r = []))
    (ValueError "orchestration requires deterministic context requests") ;;
  raise_if (negb (in_range 1 MAX_ORCHESTRATION_PLANS (Z.of_nat (length (validation_plans r)))))
    (ValueError "orchestration requires 1 to 101 validation plans") ;;
  raise_if (negb (same_set context_roles (required_roles r))
            || negb (bool_decide
                 (py_sorted (fun a b => str_le (AgentRole.value a) (AgentRole.value b)) context_roles
                  = context_roles)))
    (ValueError "context requests must be sorted and cover every agent role") ;;
  raise_if (existsb (fun c => negb (String.eqb (csq_run_id c) (oreq_run_id r))
                              || negb (String.eqb (csq_work_package_id c) work_package)
                              || negb (bool_decide (csq_root c = source_path (worktree r))))
              (context_requests r))
    (ValueError "context requests must match run, package, and source worktree") ;;
  raise_if (existsb (fun p => prototype_mismatch r p.1 p.2)
              [(AgentRole.BUILDER, builder_request r); (AgentRole.REVIEWER, reviewer_request r);
               (AgentRole.BUILDER, local_repair_request r)])
    (ValueError "agent request prototype correlation, role, or workspace mismatch") ;;
  raise_if (match codex_repair_request r with
            | Some q => prototype_mismatch r AgentRole.REPAIRER q
            | None => false
            end)
    (ValueError "Codex repair prototype correlation or role mismatch") ;;
  raise_if (codex_repair_authorized r && is_none (codex_repair_request r))
    (ValueError "Codex repair authorization requires a REPAIRER prototype") ;;
  raise_if (negb (bool_decide (wcr_run_id (worktree r) = Some (oreq_run_id r))))
    (ValueError "worktree request does not belong to the orchestration run") ;;
  raise_if (existsb (fun p => negb (String.eqb (plan_run_id p) (oreq_run_id r))
                              || negb (String.eqb (plan_work_package_id p) work_package)
                              || negb (bool_decide (ws_root (plan_workspace p) = target_path (worktree r))))
              (validation_plans r))
    (ValueError "validation plans must match run, work package, and worktree") ;;
  raise_if (has_duplicates (plan_id <$> validation_plans r))
    (ValueError "validation plan IDs must be unique across attempts") ;;
  mret r.

Definition validate_OrchestrationRequest (r : OrchestrationRequest) : res OrchestrationRequest :=
  require (oreq_schema_version r =? 1) "schema_version" ;;
  run_id ← RunId (oreq_run_id r) ;
  require (match oreq_expected_revision r with Some n => 0 <=? n | None => true end)
    "expected_revision" ;;
  contexts ← traverse validate_ContextSelectionRequest (context_requests r) ;
  tree ← validate_WorktreeCreationRequest (worktree r) ;
  builder ← validate_AgentRequest (builder_request r) ;
  reviewer ← validate_AgentRequest (reviewer_request r) ;
  local_repair ← validate_AgentRequest (local_repair_request r) ;
  codex_repair ← validate_optional validate_AgentRequest (codex_repair_request r) ;
  plans ← traverse validate_ValidationPlan (validation_plans r) ;
  _validate_orchestration_request
    (mk_OrchestrationRequest (oreq_schema_version r) run_id (oreq_expected_revision r) contexts tree
       builder reviewer local_repair codex_repair plans (codex_repair_authorized r)).

Record OrchestrationResult := mk_OrchestrationResult {
  ores_schema_version : Z;
  ores_status : OrchestrationStatus.t;
  ores_run : Run;
  ores_revision : Z;
  ores_records : list OrchestrationRecord;
  limit_outcome : LimitOutcome.t;
  ores_reason : string
}.

(** The status of a terminal run; [None] where the mapping has no entry. *)
Definition terminal_status (s : RunState) : option OrchestrationStatus.t :=
  match s with
  | APPROVED => Some OrchestrationStatus.APPROVED
  | FAILED => Some OrchestrationStatus.FAILED
  | BLOCKED => Some OrchestrationStatus.BLOCKED
  | CANCELLED => Some OrchestrationStatus.CANCELLED
  | _ => None
  end.

Definition _validate_orchestration_result (r : OrchestrationResult) : res OrchestrationResult :=
  raise_if (is_terminal (run_state (ores_run r))
            && negb (bool_decide (terminal_status (run_state (ores_run r)) = Some (ores_status r))))
    (ValueError "orchestration status does not match terminal run state") ;;
  raise_if (MAX_ORCHESTRATION_RECORDS <? Z.of_nat (length (ores_records r)))
    (ValueError "orchestration result contains too many records") ;;
  mret r.

Definition validate_OrchestrationResult (r : OrchestrationResult) : res OrchestrationResult :=
  require (ores_schema_version r =? 1) "schema_version" ;;
  run ← validate_Run (ores_run r) ;
  require (0 <=? ores_revision r) "revision" ;;
  records ← traverse validate_OrchestrationRecord (ores_records r) ;
  reason ← text_field "reason" 1 1024 (ores_reason r) ;
  _validate_orchestration_result
    (mk_OrchestrationResult (ores_schema_version r) (ores_status r) run (ores_revision r) records
       (limit_outcome r) reason).

(** ** Derived values *)

Definition agent_side_effect_state (s : SideEffectState.t) : ReconciliationState.t :=
  match s with
  | SideEffectState.NONE => ReconciliationState.KNOWN_NONE
  | SideEffectState.CONFIRMED => ReconciliationState.KNOWN_PRESENT
  | SideEffectState.POSSIBLE => ReconciliationState.AMBIGUOUS
  end.

Definition validation_attempt_status (r : ValidationPlanResult) : AttemptStatus.t :=
  match pr_status r with
  | ValidationStatus.PASSED | ValidationStatus.PASSED_WITH_ADVISORIES => AttemptStatus.COMPLETED
  | ValidationStatus.CANCELLED => AttemptStatus.CANCELLED
  | ValidationStatus.BLOCKED | ValidationStatus.UNAVAILABLE => AttemptStatus.BLOCKED
  | ValidationStatus.INVALID => AttemptStatus.INVALID
  | _ => AttemptStatus.FAILED
  end.

Record RecordWriteResult := mk_RecordWriteResult { rwr_record : OrchestrationRecord; created : bool }.

(** ** Constructed values validate to themselves *)

#[export] Instance OrchestrationAttemptId_idem : Idem OrchestrationAttemptId.
Proof. unfold OrchestrationAttemptId. solve_idem. Qed.
#[export] Instance OrchestrationRecordId_idem : Idem OrchestrationRecordId.
Proof. unfold OrchestrationRecordId. solve_idem. Qed.
#[export] Instance orchestration_utc_idem : Idem orchestration_utc.
Proof. unfold orchestration_utc. solve_idem. Qed.
#[export] Instance validate_OrchestrationFailure_idem : Idem validate_OrchestrationFailure.
Proof. unfold validate_OrchestrationFailure. solve_idem. Qed.
#[export] Instance validate_WorkspaceEvidence_idem : Idem validate_WorkspaceEvidence.
Proof. unfold validate_WorkspaceEvidence. solve_idem. Qed.
#[export] Instance validate_RepairPolicyInput_idem : Idem validate_RepairPolicyInput.
Proof. unfold validate_RepairPolicyInput. solve_idem. Qed.
#[export] Instance strip_idem : Idem (fun s : string => Ok (E := exn) (str_strip s)).
Proof. intros s t [= <-]. by rewrite str_strip_idem. Qed.
#[export] Instance validate_RepairDecision_idem : Idem validate_RepairDecision.
Proof. unfold validate_RepairDecision. solve_idem. Qed.
#[export] Instance base_fields_idem : Idem base_fields.
Proof. unfold base_fields. solve_idem. Qed.
#[export] Instance agent_fields_idem : Idem agent_fields.
Proof. unfold agent_fields. solve_idem. Qed.

Lemma validate_workspace_id a b : _validate_workspace a = Ok b -> b = a.
Proof. unfold _validate_workspace. intros. by inv_valid. Qed.
#[export] Instance validate_WorkspaceAttempt_idem : Idem validate_WorkspaceAttempt.
Proof.
  unfold validate_WorkspaceAttempt. intros a b H. inv_valid.
  pose proof (validate_workspace_id _ _ H) as ->. cbn in *. idem. done.
Qed.

Lemma validate_context_attempt_id a b : _validate_context_attempt a = Ok b -> b = a.
Proof.
  unfold _validate_context_attempt. destruct (has_attempt_status _ _), (ca_manifest a);
    intros; by inv_valid.
Qed.
#[export] Instance validate_ContextAttempt_idem : Idem validate_ContextAttempt.
Proof.
  unfold validate_ContextAttempt. intros a b H. inv_valid.
  pose proof (validate_context_attempt_id _ _ H) as ->. cbn in *. idem. done.
Qed.

Lemma agent_fields_role g h : agent_fields g = Ok h -> ag_role h = ag_role g.
Proof. unfold agent_fields. intros. by inv_valid. Qed.

#[export] Instance validate_BuildAttempt_idem : Idem validate_BuildAttempt.
Proof.
  unfold validate_BuildAttempt. intros a b H. inv_valid. cbn [ba_base ba_agent].
  rewrite (agent_fields_role _ _ Hv0). idem. done.
Qed.

Lemma validate_validation_id a b : _validate_validation a = Ok b -> b = a.
Proof. unfold _validate_validation. intros. by inv_valid. Qed.
#[export] Instance validate_ValidationAttempt_idem : Idem validate_ValidationAttempt.
Proof.
  unfold validate_ValidationAttempt. intros a b H. inv_valid.
  pose proof (validate_validation_id _ _ H) as ->. cbn in *. idem. done.
Qed.

Lemma validate_review_id a b : _validate_review a = Ok b -> b = a.
Proof.
  unfold _validate_review. intros H. inv_valid.
  destruct (has_attempt_status AttemptStatus.BLOCKED _ && _); by inv_valid.
Qed.
#[export] Instance validate_ReviewAttempt_idem : Idem validate_ReviewAttempt.
Proof.
  unfold validate_ReviewAttempt. intros a b H. inv_valid.
  pose proof (validate_review_id _ _ H) as ->.
  cbn [rv_base rv_agent rv_validation_plan rv_validation_result rv_local_evidence rv_gate_decision].
  rewrite (agent_fields_role _ _ Hv0). idem. done.
Qed.

Lemma validate_repair_id a b : _validate_repair a = Ok b -> b = a.
Proof. unfold _validate_repair. intros H. by inv_valid. Qed.
#[export] Instance validate_RepairAttempt_idem : Idem validate_RepairAttempt.
Proof.
  unfold validate_RepairAttempt. intros a b H. inv_valid.
  pose proof (validate_repair_id _ _ H) as ->. cbn [ra_base ra_agent ra_decision ra_write_authorized].
  idem. done.
Qed.

#[export] Instance validate_AttemptEvidence_idem : Idem validate_AttemptEvidence.
Proof.
  intros [a|a|a|a|a|a] b; unfold validate_AttemptEvidence;
    match goal with |- _ <$> ?r = _ -> _ => destruct r eqn:Hr; intros [= <-] end; by idem.
Qed.

#[export] Instance validate_ReconciliationResult_idem : Idem validate_ReconciliationResult.
Proof. unfold validate_ReconciliationResult, _validate_safety. solve_idem. Qed.

Lemma validate_record_id r s : _validate_record r = Ok s -> s = r.
Proof. unfold _validate_record. intros H. inv_valid. done. Qed.
#[export] Instance validate_OrchestrationRecord_idem : Idem validate_OrchestrationRecord.
Proof.
  unfold validate_OrchestrationRecord. intros r s H. inv_valid.
  pose proof (validate_record_id _ _ H) as ->.
  cbn [rec_schema_version rec_id rec_run_id rec_work_package_id rec_sequence rec_run_revision
    rec_expected_state rec_stage rec_occurred_at rec_attempt rec_reconciliation]. idem. done.
Qed.

Lemma orchestration_request_id r s : _validate_orchestration_request r = Ok s -> s = r.
Proof. unfold _validate_orchestration_request. intros H. by inv_valid. Qed.
#[export] Instance validate_OrchestrationRequest_idem : Idem validate_OrchestrationRequest.
Proof.
  unfold validate_OrchestrationRequest. intros r s H. inv_valid.
  pose proof (orchestration_request_id _ _ H) as ->. cbn in *. idem. done.
Qed.

Lemma orchestration_result_id r s : _validate_orchestration_result r = Ok s -> s = r.
Proof. unfold _validate_orchestration_result. intros H. by inv_valid. Qed.
#[export] Instance validate_OrchestrationResult_idem : Idem validate_OrchestrationResult.
Proof.
  unfold validate_OrchestrationResult. intros r s H. inv_valid.
  pose proof (orchestration_result_id _ _ H) as ->. cbn in *. idem. done.
Qed.
