(* ===== verification/RepairPolicy.v ===== *)
(** * The repair policy ([src/src/revanent/orchestration/repair_policy.py])

    [RepairPolicy.decide] selects one repair strategy from typed local evidence:
    a refusal, a block, the local builder or the privileged Codex repairer. *)

From Stdlib Require Import ZArith Lia Ascii String.
From S2P Require Import Prelude Text Domain Agents OrchestrationPorts.
From stdpp Require Import base option strings numbers sets list list_relations.

Open Scope Z_scope.

(** The chain of conditions of [decide]. *)
Definition select_strategy (e : RepairPolicyInput) : RepairStrategy.t * list RepairReason.t :=
  if rpi_cancelled e then (RepairStrategy.NO_REPAIR, [RepairReason.CANCELLED])
  else if negb (side_effects_reconciled e) then
    (RepairStrategy.NO_REPAIR, [RepairReason.SIDE_EFFECTS_UNRESOLVED])
  else if negb (scope_valid e) then (RepairStrategy.NO_REPAIR, [RepairReason.SCOPE_VIOLATION])
  else if negb (evidence_valid e) then (RepairStrategy.NO_REPAIR, [RepairReason.INVALID_EVIDENCE])
  else if external_requirement e then
    (RepairStrategy.BLOCKED, [RepairReason.EXTERNAL_REQUIREMENT])
  else if repairs_remaining e =? 0 then
    (RepairStrategy.NO_REPAIR, [RepairReason.LIMIT_EXHAUSTED])
  else if high_risk e || (0 <? repeated_defect_count e) || malformed_builder_repeated e then
    if codex_repair_available e && rpi_codex_repair_authorized e then
      (RepairStrategy.CODEX_REPAIR,
       [if high_risk e then RepairReason.HIGH_RISK_DEFECT else RepairReason.REPEATED_DEFECT])
    else if codex_repair_available e then
      (RepairStrategy.BLOCKED, [RepairReason.CODEX_REPAIR_NOT_AUTHORIZED])
    else (RepairStrategy.BLOCKED, [RepairReason.CODEX_REPAIR_UNAVAILABLE])
  else if local_builder_available e then
    (RepairStrategy.LOCAL_BUILDER, [RepairReason.MECHANICAL_FIRST_FAILURE])
  else if codex_repair_available e && rpi_codex_repair_authorized e then
    (RepairStrategy.CODEX_REPAIR, [RepairReason.LOCAL_REPAIR_UNAVAILABLE])
  else if codex_repair_available e then
    (RepairStrategy.BLOCKED, [RepairReason.CODEX_REPAIR_NOT_AUTHORIZED])
  else
    (RepairStrategy.BLOCKED,
     [RepairReason.LOCAL_REPAIR_UNAVAILABLE; RepairReason.CODEX_REPAIR_UNAVAILABLE]).

Definition decide (e : RepairPolicyInput) (repair_sequence : Z) : res RepairDecision :=
  let '(strategy, reasons) := select_strategy e in
  validate_RepairDecision
    (mk_RepairDecision ORCHESTRATION_SCHEMA_VERSION strategy reasons (defect_fingerprints e)
       repair_sequence).

(** What every automatic repair presupposes. *)
Definition repair_permitted (e : RepairPolicyInput) : bool :=
  negb (rpi_cancelled e) && side_effects_reconciled e && scope_valid e && evidence_valid e
  && negb (external_requirement e) && negb (repairs_remaining e =? 0).

(** The evidence asks for more than a mechanical repair. *)
Definition escalated (e : RepairPolicyInput) : bool :=
  high_risk e || (0 <? repeated_defect_count e) || malformed_builder_repeated e.

Definition codex_usable (e : RepairPolicyInput) : bool :=
  codex_repair_available e && rpi_codex_repair_authorized e.

(** The guards refuse before any authority is looked at. *)
Definition repair_refused (e : RepairPolicyInput) : bool :=
  rpi_cancelled e || negb (side_effects_reconciled e) || negb (scope_valid e)
  || negb (evidence_valid e) || (negb (external_requirement e) && (repairs_remaining e =? 0)).

Lemma select_strategy_spec e :
  (select_strategy e).1 =
  if repair_refused e then RepairStrategy.NO_REPAIR
  else if repair_permitted e && negb (escalated e) && local_builder_available e
  then RepairStrategy.LOCAL_BUILDER
  else if repair_permitted e && codex_usable e then RepairStrategy.CODEX_REPAIR
  else RepairStrategy.BLOCKED.
Proof.
  unfold select_strategy, repair_refused, repair_permitted, escalated, codex_usable.
  destruct (rpi_cancelled e), (side_effects_reconciled e), (scope_valid e), (evidence_valid e),
    (external_requirement e), (repairs_remaining e =? 0); try reflexivity.
  destruct (high_risk e || (0 <? repeated_defect_count e) || malformed_builder_repeated e),
    (local_builder_available e), (codex_repair_available e), (rpi_codex_repair_authorized e);
    reflexivity.
Qed.

Lemma select_reasons e :
  (select_strategy e).2 <> [] /\ NoDup (select_strategy e).2.
Proof.
  unfold select_strategy. repeat case_match; cbn;
    (split; [discriminate|]); repeat constructor; enum.
Qed.

Lemma fingerprints_stripped xs ys :
  traverse (pattern_field "defect_fingerprints" fingerprint_pattern) xs = Ok ys ->
  traverse (fun s : string => Ok (E := exn) (str_strip s)) ys = Ok ys.
Proof.
  rewrite traverse_Forall2. intros H. apply traverse_fix. induction H as [|x y xs ys Hxy H IH].
  - constructor.
  - constructor; [|done]. apply pattern_field_Ok in Hxy as [-> _]. by rewrite str_strip_idem.
Qed.

Lemma input_fingerprints e :
  validate_RepairPolicyInput e = Ok e ->
  traverse (fun s : string => Ok (E := exn) (str_strip s)) (defect_fingerprints e)
    = Ok (defect_fingerprints e)
  /\ (Z.of_nat (length (defect_fingerprints e)) <=? 64) = true
  /\ sorted_fingerprints (defect_fingerprints e)
       "repair-decision fingerprints must be sorted and unique" = Ok tt.
Proof.
  destruct e as [fs0]. unfold validate_RepairPolicyInput. cbn [defect_fingerprints]. intros H.
  apply bind_Ok in H as (fs & Hf & H). inv_valid.
  split; [by eapply fingerprints_stripped|]. split; [done|].
  unfold sorted_fingerprints in *. inv_valid. by apply raise_if_false.
Qed.

(** Evidence that was constructed always gets a decision. *)
Lemma decide_Ok e n :
  validate_RepairPolicyInput e = Ok e -> 1 <= n <= 100 ->
  decide e n = Ok (mk_RepairDecision 1 (select_strategy e).1 (select_strategy e).2
                     (defect_fingerprints e) n).
Proof.
  intros He Hn. unfold decide. destruct (select_strategy e) as [strategy reasons] eqn:Hs.
  destruct (select_reasons e) as [Hne Hnd]. rewrite Hs in *. cbn [fst snd] in *.
  destruct (input_fingerprints _ He) as (Hf & Hlen & Hsorted).
  unfold validate_RepairDecision. cbn [dec_schema_version dec_strategy dec_reasons
    dec_defect_fingerprints dec_repair_sequence].
  rewrite Hf. cbn [mbind result_bind].
  apply has_duplicates_false in Hnd.
  assert (Hrange : in_range 1 100 n = true) by (unfold in_range; apply andb_true_iff; lia).
  rewrite Hlen, Hrange, (bool_decide_eq_false_2 _ Hne), Hnd. cbn. rewrite Hsorted. done.
Qed.

(** The repair policy always decides; it repairs only when nothing was
    cancelled, side effects are reconciled, scope and evidence are valid, nothing
    external is required and the repair budget is not spent; the local builder is
    chosen exactly for a first mechanical failure, the privileged repairer only
    when it is available and explicitly authorized, and the decision cites at
    least one reason and the defects it was given. *)
Theorem decide_spec e n
    (He : validate_RepairPolicyInput e = Ok e) (Hn : 1 <= n <= 100) :
  exists d, decide e n = Ok d
    /\ validate_RepairDecision d = Ok d
    /\ dec_defect_fingerprints d = defect_fingerprints e /\ dec_repair_sequence d = n
    /\ dec_reasons d <> []
    /\ (dec_strategy d = RepairStrategy.NO_REPAIR <-> repair_refused e = true)
    /\ (dec_strategy d = RepairStrategy.LOCAL_BUILDER
        <-> repair_permitted e = true /\ escalated e = false /\ local_builder_available e = true)
    /\ (dec_strategy d = RepairStrategy.CODEX_REPAIR
        <-> repair_permitted e = true /\ codex_usable e = true
            /\ (escalated e = true \/ local_builder_available e = false))
    /\ (dec_strategy d = RepairStrategy.BLOCKED -> codex_usable e = false
        \/ external_requirement e = true).
Proof.
  pose proof (decide_Ok e n He Hn) as Hd. eexists. split; [exact Hd|].
  assert (Hvalid := Hd). unfold decide in Hvalid. destruct (select_strategy e) eqn:Hs.
  apply idem in Hvalid. rewrite <- Hs in *. split; [exact Hvalid|].
  cbn [dec_strategy dec_reasons dec_defect_fingerprints dec_repair_sequence].
  split; [done|]. split; [done|]. split; [apply select_reasons|].
  rewrite select_strategy_spec. clear.
  unfold repair_refused, repair_permitted.
  destruct (rpi_cancelled e), (side_effects_reconciled e), (scope_valid e), (evidence_valid e),
    (external_requirement e), (repairs_remaining e =? 0), (escalated e),
    (local_builder_available e), (codex_usable e); cbn; naive_solver.
Qed.

Lemma decide_spec_witness :
  let e := mk_RepairPolicyInput ["validation:vcmd_unit:command_failed"] 1 false false true true true 2
             false true true true false in
  exists d, decide e 2 = Ok d /\ dec_strategy d = RepairStrategy.CODEX_REPAIR.
Proof.
  intros e. destruct (decide_spec e 2 ltac:(vm_compute; reflexivity) ltac:(lia))
    as (d & Hd & _ & _ & _ & _ & _ & _ & Hc & _).
  exists d. split; [exact Hd|]. apply Hc. vm_compute. repeat split. by left.
Defined.
