(* ===== verification/Reconciliation.v ===== *)
(** * Reconciliation of intents without outcomes
      ([src/src/revanent/orchestration/reconciliation.py])

    [SideEffectReconciler.reconcile] looks at the live worktree of an interrupted
    worktree creation and at nothing else: an interrupted build, repair,
    validation, review or context selection is never replayed. *)

From Stdlib Require Import ZArith Lia Ascii String.
From S2P Require Import Prelude Text Domain Effects Agents GitPort OrchestrationPorts.
From stdpp Require Import base option strings numbers sets list list_relations.

Open Scope Z_scope.

Definition is_GitError (e : exn) : bool :=
  match e with GitError _ | GitSubclassError _ _ => true | _ => false end.

(** The live worktree is the one the intent asked for. *)
Definition matches_intent (request : WorktreeCreationRequest) (v : WorktreeVerificationResult) : bool :=
  bool_decide (lifecycle_status (vres_record v) = WorktreeLifecycleStatus.ACTIVE)
  && String.eqb (wor_worktree_id (vres_record v)) (wcr_worktree_id request)
  && bool_decide (wor_run_id (vres_record v) = wcr_run_id request)
  && bool_decide (worktree_root (wor_repository (vres_record v)) = source_path request)
  && bool_decide (wor_worktree_path (vres_record v) = target_path request)
  && String.eqb (wor_branch_name (vres_record v)) (wcr_branch_name request)
  && bool_decide (wts_path (vres_worktree v) = target_path request)
  && bool_decide (wts_branch (vres_worktree v) = Some (wcr_branch_name request))
  && String.eqb (repository_id (rs_identity (vres_repository v)))
       (repository_id (wor_repository (vres_record v))).

Section Reconciler.
Context {W : Type}.
(** [GitRepository.verify_owned_worktree] *)
Context (verify_owned_worktree : string -> M W WorktreeVerificationResult).

Definition reconciliation (attempt_id : string) (state : ReconciliationState.t) (safe : bool)
    (reason : string) (observed_at : datetime) : M W ReconciliationResult :=
  lift (validate_ReconciliationResult
          (mk_ReconciliationResult ORCHESTRATION_SCHEMA_VERSION attempt_id state safe reason observed_at)).

Definition reconcile (intent : OrchestrationRecord) (observed_at : datetime)
    : M W ReconciliationResult :=
  match rec_attempt intent with
  | Workspace a =>
      let request := wa_request a in
      let attempt_id := at_attempt_id (wa_base a) in
      verification ← attempt (verify_owned_worktree (wcr_worktree_id request)) ;
      match verification with
      | Err e =>
          if is_GitError e then
            reconciliation attempt_id ReconciliationState.AMBIGUOUS false
              "worktree creation intent could not be reconciled safely" observed_at
          else raise e
      | Ok v =>
          let matched := matches_intent request v in
          reconciliation attempt_id
            (if matched then ReconciliationState.KNOWN_PRESENT else ReconciliationState.INCOMPATIBLE)
            matched
            (if matched then "owned worktree exists and matches durable creation intent"
             else "live worktree ownership does not match durable creation intent")
            observed_at
      end
  | a =>
      let review := bool_decide (kind_of a = OrchestrationStep.REVIEW) in
      reconciliation (at_attempt_id (base_of a))
        (if review then ReconciliationState.KNOWN_NONE else ReconciliationState.AMBIGUOUS) false
        (if review then "read-only review intent has no durable terminal response"
         else "mutating attempt intent has no durable terminal outcome")
        observed_at
  end.

Lemma reconciliation_run id state safe reason t w :
  OrchestrationAttemptId id = Ok id -> is_utc t = true ->
  text_field "reason" 1 1024 reason = Ok reason ->
  (safe = true -> state = ReconciliationState.KNOWN_PRESENT) ->
  exists r, reconciliation id state safe reason t w = (w, Ok r)
    /\ validate_ReconciliationResult r = Ok r /\ rr_attempt_id r = id /\ safe_to_continue r = safe.
Proof.
  intros Hid Ht Hr Hs. exists (mk_ReconciliationResult 1 id state safe reason t).
  assert (Hv : validate_ReconciliationResult (mk_ReconciliationResult 1 id state safe reason t)
    = Ok (mk_ReconciliationResult 1 id state safe reason t)).
  { unfold validate_ReconciliationResult, orchestration_utc. cbn [rr_schema_version rr_attempt_id
      rr_state safe_to_continue rr_reason rr_observed_at]. rewrite Hid, Hr, Ht.
    destruct safe; [|reflexivity]. by rewrite (Hs eq_refl). }
  split; [|done]. unfold reconciliation, lift. f_equal. exact Hv.
Qed.

(** Reconciliation fails closed: it always returns a valid result for the
    intent's attempt, inspects nothing but the worktree of a workspace intent,
    and allows continuation exactly when that worktree verifies as active and as
    the one the intent asked for; provided only Git errors come from Git. *)
Theorem reconcile_fails_closed intent observed_at w
    (Hgit : forall id w w' e, verify_owned_worktree id w = (w', Err e) -> is_GitError e = true)
    (Hid : OrchestrationAttemptId (rec_attempt_id intent) = Ok (rec_attempt_id intent))
    (Hutc : is_utc observed_at = true) :
  exists w' r, reconcile intent observed_at w = (w', Ok r)
    /\ validate_ReconciliationResult r = Ok r
    /\ rr_attempt_id r = rec_attempt_id intent
    /\ (kind_of (rec_attempt intent) <> OrchestrationStep.WORKSPACE -> w' = w)
    /\ (safe_to_continue r = true
        <-> exists a v, rec_attempt intent = Workspace a
              /\ verify_owned_worktree (wcr_worktree_id (wa_request a)) w = (w', Ok v)
              /\ matches_intent (wa_request a) v = true).
Proof.
  unfold rec_attempt_id in *.
  assert (Hno : forall state reason, text_field "reason" 1 1024 reason = Ok reason ->
    (forall a, rec_attempt intent <> Workspace a) ->
    reconcile intent observed_at w
      = reconciliation (at_attempt_id (base_of (rec_attempt intent))) state false reason observed_at w ->
    exists w' r, reconcile intent observed_at w = (w', Ok r)
      /\ validate_ReconciliationResult r = Ok r
      /\ rr_attempt_id r = at_attempt_id (base_of (rec_attempt intent))
      /\ (kind_of (rec_attempt intent) <> OrchestrationStep.WORKSPACE -> w' = w)
      /\ (safe_to_continue r = true
        <-> exists a v, rec_attempt intent = Workspace a
              /\ verify_owned_worktree (wcr_worktree_id (wa_request a)) w = (w', Ok v)
              /\ matches_intent (wa_request a) v = true)).
  { intros state reason Hreason Hnw Heq.
    destruct (reconciliation_run _ state false reason observed_at w Hid Hutc Hreason ltac:(done))
      as (r & Hrun & Hvalid & Hra & Hsafe).
    exists w, r. rewrite Heq. do 4 (split; [done|]). rewrite Hsafe. split; [done|].
    intros (a & v & Ha & _). by destruct (Hnw a). }
  unfold reconcile in *. destruct (rec_attempt intent) as [a|a|a|a|a|a] eqn:Ha; cbn [base_of kind_of] in *;
    try (eapply Hno; [|by intros|reflexivity]; vm_compute; reflexivity).
  clear Hno. unfold attempt, mbind, M_bind.
  destruct (verify_owned_worktree (wcr_worktree_id (wa_request a)) w) as [w1 [v|e]] eqn:Hv.
  - destruct (reconciliation_run (at_attempt_id (wa_base a))
      (if matches_intent (wa_request a) v then ReconciliationState.KNOWN_PRESENT
       else ReconciliationState.INCOMPATIBLE) (matches_intent (wa_request a) v)
      (if matches_intent (wa_request a) v
       then "owned worktree exists and matches durable creation intent"
       else "live worktree ownership does not match durable creation intent")
      observed_at w1 Hid Hutc) as (r & Hrun & Hvalid & Hra & Hsafe).
    { destruct (matches_intent (wa_request a) v); vm_compute; reflexivity. }
    { by intros ->. }
    exists w1, r. do 4 (split; [done|]). rewrite Hsafe. split; [by eauto|].
    intros (a' & v' & [= <-] & Hv' & Hm). congruence.
  - rewrite (Hgit _ _ _ _ Hv).
    destruct (reconciliation_run (at_attempt_id (wa_base a)) ReconciliationState.AMBIGUOUS false
      "worktree creation intent could not be reconciled safely" observed_at w1 Hid Hutc
      ltac:(vm_compute; reflexivity) ltac:(done)) as (r & Hrun & Hvalid & Hra & Hsafe).
    exists w1, r. do 4 (split; [done|]). rewrite Hsafe. split; [done|].
    intros (a' & v' & [= <-] & Hv' & _). congruence.
Qed.
End Reconciler.

(** ** A concrete reconciliation *)

Module ReconciliationSample.
Definition hex32 := "00000000000000000000000000000001".
Definition commit := "0000000000000000000000000000000000000000".
Definition source := mk_Path true ["srv"; "repo"].
Definition target := mk_Path true ["srv"; "wt"].
Definition request : WorktreeCreationRequest :=
  mk_WorktreeCreationRequest source target ("wt_" +:+ hex32) "revanent/p4" "main"
    (Some ("run_" +:+ hex32)) 1.
Definition identity : RepositoryIdentity :=
  mk_RepositoryIdentity ("repo_" +:+ hex32 +:+ hex32) source source source ObjectFormat.sha1 [commit] 1.
Definition ownership (branch : string) : WorktreeOwnershipRecord :=
  mk_WorktreeOwnershipRecord ("wt_" +:+ hex32) (Some ("run_" +:+ hex32)) identity target branch commit
    commit (utc 0) "0.1.0" WorktreeLifecycleStatus.ACTIVE None None None 1.
Definition live : WorktreeSnapshot :=
  mk_WorktreeSnapshot target commit (Some "revanent/p4") false false None None 1.
Definition status : RepositoryStatus :=
  mk_RepositoryStatus [] [] [] [] [] false false false false false false 1.
Definition snapshot : RepositorySnapshot :=
  mk_RepositorySnapshot identity (Some "revanent/p4") false commit None None status [live] 1.
Definition verification (branch : string) : WorktreeVerificationResult :=
  mk_WorktreeVerificationResult (ownership branch) live snapshot.
(** A repository whose worktree verifies, and which fails on any other. *)
Definition verify (branch id : string) : M unit WorktreeVerificationResult :=
  if String.eqb id ("wt_" +:+ hex32) then mret (verification branch) else raise (GitError "unowned").
Definition attempt : _AttemptBase :=
  mk_AttemptBase 1 ("oattempt_" +:+ hex32) ("run_" +:+ hex32) "P4-002" 1 AttemptStatus.INTENDED (utc 0)
    None ReconciliationState.KNOWN_NONE None.
Definition intent : OrchestrationRecord :=
  mk_OrchestrationRecord 1 ("orec_" +:+ hex32 +:+ hex32) ("run_" +:+ hex32) "P4-002" 1 3
    WORKSPACE_PREPARING OrchestrationRecordStage.INTENT (utc 0)
    (Workspace (mk_WorkspaceAttempt attempt request None)) None.
End ReconciliationSample.

Lemma reconcile_fails_closed_witness :
  validate_OrchestrationRecord ReconciliationSample.intent = Ok ReconciliationSample.intent /\
  exists r, reconcile (ReconciliationSample.verify "revanent/p4") ReconciliationSample.intent (utc 5) tt
            = (tt, Ok r) /\ safe_to_continue r = true.
Proof.
  split; [vm_compute; reflexivity|].
  destruct (reconcile_fails_closed (ReconciliationSample.verify "revanent/p4")
    ReconciliationSample.intent (utc 5) tt) as ([] & r & Hrun & _ & _ & _ & Hsafe).
  - intros id w w' e. unfold ReconciliationSample.verify. destruct (String.eqb _ _).
    + intros [=].
    + intros [= _ <-]. reflexivity.
  - vm_compute. reflexivity.
  - reflexivity.
  - exists r. split; [exact Hrun|]. apply Hsafe.
    eexists _, _. split; [reflexivity|]. split; [reflexivity|]. vm_compute. reflexivity.
Defined.
