(* ===== verification/RuntimePort.v ===== *)
(** * The runtime port ([src/src/revanent/ports/runtime.py])

    The repository and worktree identity persisted with a new run. *)

From Stdlib Require Import ZArith Lia Ascii String.
From S2P Require Import Prelude Text Domain Agents GitPort.
From stdpp Require Import base option strings numbers sets list list_relations.

Open Scope Z_scope.

Record RuntimeBinding := mk_RuntimeBinding {
  rb_schema_version : Z;
  rb_run_id : string;
  rb_repository : RepositoryIdentity;
  rb_worktree_id : string;
  worktree_relative_path : string;
  rb_branch_name : string;
  rb_created_at : datetime
}.

#[export] Instance RuntimeBinding_eq_dec : EqDecision RuntimeBinding.
Proof. solve_decision. Defined.

(** [^[A-Za-z0-9.][A-Za-z0-9._/-]{0,511}$] *)
Definition relative_path_pattern : list pat :=
  [Cls (in_class "." is_alnum) 1 1; Cls (in_class "._/-" is_alnum) 0 511].

Definition binding_utc (value : datetime) : res datetime :=
  raise_if (negb (is_utc value)) (ValueError "runtime binding timestamp must be UTC") ;; mret value.

(** [Path(value).parts] of a text that does not start with a slash. *)
Definition relative_parts (value : string) : list string :=
  filter (fun part => part <> "" /\ part <> ".") (split_slash value).

Definition _safe_relative_worktree (b : RuntimeBinding) : res RuntimeBinding :=
  let path := worktree_relative_path b in
  raise_if (starts_with_slash path || bool_decide (".." ∈ relative_parts path)
            || str_contains "\" path)
    (ValueError "runtime worktree reference must be normalized and relative") ;;
  raise_if (negb (String.eqb (rb_worktree_id b) ("wt_" +:+ remove_prefix "run_" (rb_run_id b))))
    (ValueError "runtime worktree identity must derive from the Run ID") ;;
  mret b.

Definition validate_RuntimeBinding (b : RuntimeBinding) : res RuntimeBinding :=
  require (rb_schema_version b =? 1) "schema_version" ;;
  run_id ← RunId (rb_run_id b) ;
  repository ← validate_RepositoryIdentity (rb_repository b) ;
  worktree_id ← WorktreeId (rb_worktree_id b) ;
  path ← pattern_field "worktree_relative_path" relative_path_pattern (worktree_relative_path b) ;
  branch ← text_field "branch_name" 1 255 (rb_branch_name b) ;
  created ← binding_utc (rb_created_at b) ;
  _safe_relative_worktree
    (mk_RuntimeBinding (rb_schema_version b) run_id repository worktree_id path branch created).
