(* ===== verification/Tables.v ===== *)
(** * The tables of the store ([src/src/revanent/storage/sqlite.py])

    The rows of the SQLite tables, the store they form and what a transaction
    is.  Tables are lists of rows in the order of insertion; [runs], whose rows
    are updated in place, is a map from its primary key.  A row keeps its
    normalised columns and its payload; the payload column holds JSON text
    written by [model_dump_json] and read by [model_validate_json], and is
    represented by the document it encodes: writing stores the document,
    reading validates it again.  A [CHECK] that compares a column with a field
    of the payload holds because both are computed from one value.  A [CHECK] on
    the length of a payload is on the text itself: that text is written by the
    schema layer, so it is a parameter ([PayloadTexts]) that a store carries
    from its creation on, and the checks are evaluated on it.

    Opening the database, migrations and the schema check that precedes each
    operation belong to the environment: the operations start on an initialised
    store.  The write transactions are serialised ([BEGIN IMMEDIATE]) and an
    exception rolls them back. *)

From Stdlib Require Import ZArith Lia Ascii String.
From Stdlib Require Import Sorted.
From S2P Require Import Prelude Text Domain Effects GitPort OrchestrationPorts TelemetryPort RuntimePort.
From stdpp Require Import base option strings numbers gmap sets list list_relations sorting.

Open Scope Z_scope.

(** ** Timestamps *)

(** [str(n).zfill(width)] of a non-negative number. *)
Definition zfill (width : nat) (n : Z) : string :=
  let s := str_of_Z n in
  String.string_of_list_ascii (repeat "0"%char (width - String.length s)) +:+ s.

(** The proleptic Gregorian date of a day counted from 1970-01-01. *)
Definition civil_from_days (days : Z) : Z * Z * Z :=
  let z := days + 719468 in
  let era := z / 146097 in
  let doe := z mod 146097 in
  let yoe := (doe - doe / 1460 + doe / 36524 - doe / 146096) / 365 in
  let doy := doe - (365 * yoe + yoe / 4 - yoe / 100) in
  let mp := (5 * doy + 2) / 153 in
  let day := doy - (153 * mp + 2) / 5 + 1 in
  let month := if mp <? 10 then mp + 3 else mp - 9 in
  (yoe + era * 400 + (if month <=? 2 then 1 else 0), month, day).

Definition time_text (us : Z) : string :=
  let seconds := us / 1000000 in
  zfill 2 (seconds / 3600) +:+ ":" +:+ zfill 2 (seconds / 60 mod 60) +:+ ":" +:+
  zfill 2 (seconds mod 60) +:+
  (if us mod 1000000 =? 0 then "" else "." +:+ zfill 6 (us mod 1000000)).

Definition day_us : Z := 86400000000.

(** The date and time of [value.isoformat()]. *)
Definition local_text (us : Z) : string :=
  let '(year, month, day) := civil_from_days (us / day_us) in
  zfill 4 year +:+ "-" +:+ zfill 2 month +:+ "-" +:+ zfill 2 day +:+ "T" +:+ time_text (us mod day_us).

(** The offset: hours and minutes, then seconds only when there are some. *)
Definition offset_text (offset : Z) : string :=
  let a := Z.abs offset in
  (if offset <? 0 then "-" else "+") +:+
  zfill 2 (a / 3600000000) +:+ ":" +:+ zfill 2 (a / 60000000 mod 60) +:+
  (if a mod 60000000 =? 0 then ""
   else ":" +:+ zfill 2 (a / 1000000 mod 60) +:+
        (if a mod 1000000 =? 0 then "" else "." +:+ zfill 6 (a mod 1000000))).

(** [.replace("+00:00", "Z")]: the sign occurs in no other part of the text. *)
Definition zulu (offset : string) : string :=
  if String.prefix "+00:00" offset then "Z" +:+ remove_prefix "+00:00" offset else offset.

Definition _timestamp (value : datetime) : string :=
  match utcoffset value with
  | None => local_text (instant value)
  | Some offset => local_text (instant value + offset) +:+ zulu (offset_text offset)
  end.

Example timestamp_ex :
  _timestamp (utc 1704067199000001) = "2023-12-31T23:59:59.000001Z"
  /\ _timestamp (utc (-1)) = "1969-12-31T23:59:59.999999Z"
  /\ _timestamp (utc 951782400000000) = "2000-02-29T00:00:00Z"
  /\ _timestamp (mk_datetime 0 (Some (-19800000000))) = "1969-12-31T18:30:00-05:30".
Proof. vm_compute. done. Qed.

(** ** Rows *)

Record run_row := mk_run_row {
  rr_run_id : string;
  rr_revision : Z;
  rr_model_version : Z;
  rr_current_state : string;
  rr_created_at : string;
  rr_updated_at : string;
  rr_payload : Run
}.

Record event_row := mk_event_row {
  er_event_id : string;
  er_run_id : string;
  er_sequence : Z;
  er_event_type : RunEventType;
  er_payload_version : Z;
  er_occurred_at : string;
  er_source_state : string;
  er_destination_state : string;
  er_reason : string;
  er_metadata : list TransitionMetadata;
  er_payload : RunEvent
}.

Record record_row := mk_record_row {
  or_record_id : string;
  or_run_id : string;
  or_sequence : Z;
  or_run_revision : Z;
  or_expected_state : string;
  or_record_stage : string;
  or_attempt_id : string;
  or_attempt_kind : string;
  or_occurred_at : string;
  or_payload_version : Z;
  or_payload : OrchestrationRecord
}.

Record usage_row := mk_usage_row {
  us_usage_id : string;
  us_run_id : string;
  us_correlation_key : string;
  us_metric : string;
  us_provenance : string;
  us_payload_version : Z;
  us_payload : UsageRecord
}.

Record reservation_row := mk_reservation_row {
  rs_reservation_id : string;
  rs_run_id : string;
  rs_idempotency_key : string;
  rs_metric : string;
  rs_payload_version : Z;
  rs_payload : BudgetReservation
}.

Record settlement_row := mk_settlement_row {
  ss_reservation_id : string;
  ss_payload_version : Z;
  ss_payload : BudgetSettlement
}.

Record binding_row := mk_binding_row {
  bn_run_id : string;
  bn_repository_id : string;
  bn_worktree_id : string;
  bn_payload_version : Z;
  bn_payload : RuntimeBinding
}.

(** ** The text of a payload *)

(** What lies outside the repository: the text that [model_dump_json] writes for
    each kind of payload, and what [json_extract] finds where such a text holds
    a string. *)
Record PayloadTexts := mk_PayloadTexts {
  run_text : Run -> string;
  event_text : RunEvent -> string;
  record_text : OrchestrationRecord -> string;
  usage_text : UsageRecord -> string;
  reservation_text : BudgetReservation -> string;
  settlement_text : BudgetSettlement -> string;
  binding_text : RuntimeBinding -> string;
  extracted_text : string -> string
}.

(** SQLite's [length]: the characters before the first NUL. *)
Fixpoint sql_length (s : string) : Z :=
  match s with
  | EmptyString => 0
  | String c s => if Ascii.eqb c "000"%char then 0
                  else (if is_continuation c then 0 else 1) + sql_length s
  end.

(** [CHECK (length(column) BETWEEN low AND high)] *)
Definition length_between (low high : Z) (text : string) : bool := in_range low high (sql_length text).

(** [json.dumps] of a string with [ensure_ascii=False]. *)
Definition hex_lower (n : N) : ascii :=
  ascii_of_N (if (n <? 10)%N then 48 + n else 87 + n).

Definition json_char (c : ascii) : string :=
  let n := N_of_ascii c in
  match n with
  | 34%N => "\" +:+ String c ""
  | 92%N => "\\"
  | 8%N => "\b"
  | 9%N => "\t"
  | 10%N => "\n"
  | 12%N => "\f"
  | 13%N => "\r"
  | _ => if (n <? 32)%N
         then "\u00" +:+ String (hex_lower (n / 16)) (String (hex_lower (n mod 16)) "")
         else String c ""
  end.

Fixpoint json_chars (s : string) : string :=
  match s with
  | EmptyString => ""
  | String c s => json_char c +:+ json_chars s
  end.

Definition quote : string := String (ascii_of_N 34) "".

Definition json_string (s : string) : string := quote +:+ json_chars s +:+ quote.

(** A list of objects with the sorted keys [key] and [value], without spaces. *)
Definition _metadata_json (metadata : list TransitionMetadata) : string :=
  "[" +:+
  String.concat ","
    ((fun m => "{" +:+ json_string "key" +:+ ":" +:+ json_string (md_key m) +:+ "," +:+
               json_string "value" +:+ ":" +:+ json_string (md_value m) +:+ "}") <$> metadata) +:+
  "]".

Example metadata_json_ex :
  json_chars (String "031"%char (String "010"%char "a\")) = "\u001f\na\\"
  /\ sql_length (_metadata_json []) = 2
  /\ sql_length (_metadata_json [mk_TransitionMetadata "actor" "cli"]) = 31.
Proof. vm_compute. done. Qed.

Section checks.
Context (t : PayloadTexts).

(** The length checks of each table; [run_events] also compares its [reason]
    column with the text in the payload. *)
Definition run_fits (run : Run) : bool := length_between 2 1048576 (run_text t run).

Definition event_fits (event : RunEvent) : bool :=
  let reason := tr_reason (ev_transition event) in
  length_between 1 2048 reason
  && length_between 2 65536 (_metadata_json (tr_metadata (ev_transition event)))
  && length_between 2 262144 (event_text t event)
  && String.eqb (extracted_text t reason) reason.

Definition record_fits (record : OrchestrationRecord) : bool :=
  length_between 2 1048576 (record_text t record).

Definition usage_fits (record : UsageRecord) : bool := length_between 2 65536 (usage_text t record).

Definition reservation_fits (reservation : BudgetReservation) : bool :=
  length_between 2 65536 (reservation_text t reservation).

Definition settlement_fits (settlement : BudgetSettlement) : bool :=
  length_between 2 65536 (settlement_text t settlement).

Definition binding_fits (binding : RuntimeBinding) : bool :=
  length_between 2 262144 (binding_text t binding).
End checks.

(** ** The store *)

Record Store := mk_Store {
  st_texts : PayloadTexts;
  st_runs : gmap string run_row;
  st_events : list event_row;
  st_records : list record_row;
  st_usage : list usage_row;
  st_reservations : list reservation_row;
  st_settlements : list settlement_row;
  st_bindings : list binding_row
}.

(** An empty database under any schema layer. *)
Definition new_store (t : PayloadTexts) : Store := mk_Store t ∅ [] [] [] [] [] [].

(** A schema layer for examples: every payload is a short text. *)
Definition short_texts : PayloadTexts :=
  mk_PayloadTexts (fun _ => "{}") (fun _ => "{}") (fun _ => "{}") (fun _ => "{}") (fun _ => "{}")
    (fun _ => "{}") (fun _ => "{}") id.

Definition empty_store : Store := new_store short_texts.

Definition set_runs (f : gmap string run_row -> gmap string run_row) (w : Store) : Store :=
  mk_Store (st_texts w) (f (st_runs w)) (st_events w) (st_records w) (st_usage w) (st_reservations w)
    (st_settlements w) (st_bindings w).
Definition add_event (row : event_row) (w : Store) : Store :=
  mk_Store (st_texts w) (st_runs w) (st_events w ++ [row]) (st_records w) (st_usage w) (st_reservations w)
    (st_settlements w) (st_bindings w).
Definition add_record (row : record_row) (w : Store) : Store :=
  mk_Store (st_texts w) (st_runs w) (st_events w) (st_records w ++ [row]) (st_usage w) (st_reservations w)
    (st_settlements w) (st_bindings w).
Definition add_usage (row : usage_row) (w : Store) : Store :=
  mk_Store (st_texts w) (st_runs w) (st_events w) (st_records w) (st_usage w ++ [row]) (st_reservations w)
    (st_settlements w) (st_bindings w).
Definition add_reservation (row : reservation_row) (w : Store) : Store :=
  mk_Store (st_texts w) (st_runs w) (st_events w) (st_records w) (st_usage w) (st_reservations w ++ [row])
    (st_settlements w) (st_bindings w).
Definition add_settlement (row : settlement_row) (w : Store) : Store :=
  mk_Store (st_texts w) (st_runs w) (st_events w) (st_records w) (st_usage w) (st_reservations w)
    (st_settlements w ++ [row]) (st_bindings w).
Definition add_binding (row : binding_row) (w : Store) : Store :=
  mk_Store (st_texts w) (st_runs w) (st_events w) (st_records w) (st_usage w) (st_reservations w)
    (st_settlements w) (st_bindings w ++ [row]).

(** The values bound by [INSERT INTO runs]. *)
Definition row_of_run (run : Run) (revision : Z) : run_row :=
  mk_run_row (run_id run) revision (run_schema_version run) (run_state_value (run_state run))
    (_timestamp (run_created_at run)) (_timestamp (run_updated_at run)) run.

Definition row_of_event (event : RunEvent) : event_row :=
  let transition := ev_transition event in
  mk_event_row (ev_id event) (ev_run_id event) (ev_sequence event) (ev_event_type event)
    (ev_schema_version event) (_timestamp (ev_occurred_at event))
    (run_state_value (tr_source transition)) (run_state_value (tr_destination transition))
    (tr_reason transition) (tr_metadata transition) event.

Definition row_of_record (record : OrchestrationRecord) : record_row :=
  mk_record_row (rec_id record) (rec_run_id record) (rec_sequence record) (rec_run_revision record)
    (run_state_value (rec_expected_state record)) (OrchestrationRecordStage.value (rec_stage record))
    (rec_attempt_id record) (OrchestrationStep.value (kind_of (rec_attempt record)))
    (_timestamp (rec_occurred_at record)) (rec_schema_version record) record.

Definition row_of_usage (record : UsageRecord) : usage_row :=
  mk_usage_row (ur_id record) (ur_run_id record) (ur_correlation_key record)
    (UsageMetric.value (ur_metric record)) (UsageProvenance.value (ur_provenance record))
    (ur_schema_version record) record.

Definition row_of_reservation (reservation : BudgetReservation) : reservation_row :=
  mk_reservation_row (br_id reservation) (br_run_id reservation) (br_idempotency_key reservation)
    (BudgetMetric.value (br_metric reservation)) (br_schema_version reservation) reservation.

Definition row_of_settlement (settlement : BudgetSettlement) : settlement_row :=
  mk_settlement_row (bs_reservation_id settlement) (bs_schema_version settlement) settlement.

Definition row_of_binding (id : string) (binding : RuntimeBinding) : binding_row :=
  mk_binding_row id (repository_id (rb_repository binding)) (rb_worktree_id binding)
    (rb_schema_version binding) binding.

(** [except ValidationError: raise CorruptStorageError(message)] *)
Definition corrupt_on_error {A} (r : res A) (message : string) : res A :=
  match r with
  | Err (ValueError _) => Err (CorruptStorageError message)
  | _ => r
  end.

(** ** Transactions and constraints *)

(** [with self._transaction(connection, write=True)]: an exception rolls back. *)
Definition transaction {W A} (m : M W A) : M W A :=
  fun w => match m w with (_, Err e) => (w, Err e) | r => r end.

Definition is_IntegrityError (e : exn) : bool :=
  match e with IntegrityError => true | _ => false end.

(** A write with its constraints. *)
Definition write (ok : Store -> bool) (change : Store -> Store) : M Store unit :=
  fun w => if ok w then (change w, Ok tt) else (w, Err IntegrityError).

Definition has_run (id : string) (w : Store) : bool := bool_decide (is_Some (st_runs w !! id)).

(** ** Lemmas on sequences *)

(** [ORDER BY sequence ASC] *)
Definition by_sequence {A} (sequence : A -> Z) : list A -> list A :=
  py_sorted (fun a b => sequence a <=? sequence b).

(** [tuple(range(1, n + 1))] *)
Definition one_to (n : nat) : list Z := Z.of_nat <$> seq 1 n.

Section sequences.
Context {A : Type} (sequence : A -> Z).

(** The rows' sequences are 1, 2, ... in the order of the list. *)
Definition contiguous (xs : list A) : Prop := (sequence <$> xs) = one_to (length xs).

Lemma one_to_S n : one_to (S n) = one_to n ++ [Z.of_nat (S n)].
Proof. unfold one_to. rewrite seq_S, fmap_app. done. Qed.

Lemma length_one_to n : length (one_to n) = n.
Proof. unfold one_to. by rewrite length_fmap, length_seq. Qed.

Lemma elem_of_one_to n z : z ∈ one_to n <-> 1 <= z <= Z.of_nat n.
Proof.
  unfold one_to. rewrite list_elem_of_fmap. split.
  - intros (i & -> & Hi%elem_of_seq). lia.
  - intros Hz. exists (Z.to_nat z). rewrite elem_of_seq. lia.
Qed.

Lemma contiguous_app xs x :
  contiguous xs -> sequence x = Z.of_nat (length xs) + 1 -> contiguous (xs ++ [x]).
Proof.
  unfold contiguous. intros Hxs Hx. rewrite fmap_app, length_app, Hxs. simpl.
  replace (length xs + 1)%nat with (S (length xs)) by lia. rewrite one_to_S, Hx.
  do 2 f_equal. lia.
Qed.

Lemma contiguous_elem xs x : contiguous xs -> x ∈ xs -> 1 <= sequence x <= Z.of_nat (length xs).
Proof.
  intros Hxs Hx. apply elem_of_one_to. rewrite <- Hxs. by apply list_elem_of_fmap_2.
Qed.

Lemma contiguous_max xs :
  contiguous xs -> foldr Z.max 0 (sequence <$> xs) + 1 = Z.of_nat (length xs) + 1.
Proof.
  intros ->. f_equal. induction (length xs) as [|n IH]; [done|].
  rewrite one_to_S, foldr_app. simpl foldr at 2.
  assert (H : forall l z, foldr Z.max z l = Z.max z (foldr Z.max z l)).
  { intros l z. induction l as [|y l IHl]; simpl; lia. }
  assert (Hz : forall l a, 0 <= a -> foldr Z.max a l = Z.max a (foldr Z.max 0 l)).
  { intros l a Ha. induction l as [|y l IHl]; simpl; lia. }
  rewrite Hz by lia. rewrite IH. lia.
Qed.

Lemma contiguous_fresh xs : contiguous xs -> Forall (fun x => sequence x <> Z.of_nat (length xs) + 1) xs.
Proof. intros Hxs. apply Forall_forall. intros x Hx. pose proof (contiguous_elem _ _ Hxs Hx). lia. Qed.

Lemma one_to_sorted n : StronglySorted (fun a b => (a <=? b) = true) (one_to n).
Proof.
  induction n as [|n IH]; [constructor|]. rewrite one_to_S. apply StronglySorted_app_2; [|done|repeat constructor].
  intros a b Ha%elem_of_one_to Hb%list_elem_of_singleton. subst. apply Z.leb_le. lia.
Qed.

Lemma contiguous_by_sequence xs : contiguous xs -> by_sequence sequence xs = xs.
Proof.
  intros Hxs. apply py_sorted_id. pose proof (one_to_sorted (length xs)) as Hs.
  rewrite <- Hxs in Hs. clear Hxs. induction xs as [|x xs IH]; simpl in *; [constructor|].
  inversion_clear Hs. constructor; [auto|]. by apply Forall_fmap in H0.
Qed.
End sequences.

(** ** Lemmas *)

Lemma traverse_rows {A B} (f : A -> res B) (row : B -> A) xs :
  Forall (fun x => f (row x) = Ok x) xs -> traverse f (row <$> xs) = Ok xs.
Proof. intros H. apply traverse_Forall2. induction H; constructor; done. Qed.

(** A failed transaction leaves the store as it was. *)
Lemma transaction_err {W A} (m : M W A) w w' e : transaction m w = (w', Err e) -> w' = w.
Proof. unfold transaction. destruct (m w) as [w1 [a|e1]]; [done|]. by intros [= <- _]. Qed.

Lemma transaction_reads {W A} (m : M W A) : reads m -> reads (transaction m).
Proof. intros Hm w. unfold transaction. specialize (Hm w). by destruct (m w) as [w1 [a|e]]. Qed.
