(* ===== verification/Storage.v ===== *)
(** * Durable runs ([src/src/revanent/storage/sqlite.py], [ports/storage.py])

    The operations of the SQLite repository on runs, events, orchestration
    records and runtime bindings, each a transaction over the tables, and the
    deserialisation of rows with its corruption checks. *)

From Stdlib Require Import ZArith Lia Ascii String.
From S2P Require Import Prelude Text Domain StateMachine Effects GitPort OrchestrationPorts RuntimePort Tables.
From stdpp Require Import base option strings numbers gmap sets list list_relations.

Open Scope Z_scope.

(** ** Stored runs and deserialisation *)

Definition DOMAIN_MODEL_VERSION : Z := 1.

(** [StoredRun] of [ports/storage.py]. *)
Record StoredRun := mk_StoredRun { stored_run : Run; revision : Z }.

#[export] Instance StoredRun_eq_dec : EqDecision StoredRun.
Proof. solve_decision. Defined.

Definition __post_init__ (s : StoredRun) : res StoredRun :=
  raise_if (revision s <? 0) (ValueError "stored run revision cannot be negative") ;; mret s.

Definition _deserialize_run (row : run_row) : res StoredRun :=
  raise_if (negb (rr_model_version row =? DOMAIN_MODEL_VERSION))
    (PersistedModelVersionError "run" (rr_model_version row) DOMAIN_MODEL_VERSION) ;;
  run ← corrupt_on_error (validate_Run (rr_payload row)) "run payload failed domain validation" ;
  raise_if (negb (run_schema_version run =? rr_model_version row)
            || negb (String.eqb (run_id run) (rr_run_id row))
            || negb (String.eqb (run_state_value (run_state run)) (rr_current_state row))
            || negb (String.eqb (_timestamp (run_created_at run)) (rr_created_at row))
            || negb (String.eqb (_timestamp (run_updated_at run)) (rr_updated_at row)))
    (CorruptStorageError "run normalized fields do not match its payload") ;;
  corrupt_on_error (__post_init__ (mk_StoredRun run (rr_revision row))) "run revision is invalid".

Definition _deserialize_event (row : event_row) : res RunEvent :=
  raise_if (negb (er_payload_version row =? DOMAIN_MODEL_VERSION))
    (PersistedModelVersionError "event" (er_payload_version row) DOMAIN_MODEL_VERSION) ;;
  event ← corrupt_on_error (validate_RunEvent (er_payload row))
            "event payload failed domain validation" ;
  let transition := ev_transition event in
  raise_if (negb (ev_schema_version event =? er_payload_version row)
            || negb (String.eqb (ev_id event) (er_event_id row))
            || negb (String.eqb (ev_run_id event) (er_run_id row))
            || negb (ev_sequence event =? er_sequence row)
            || negb (bool_decide (ev_event_type event = er_event_type row))
            || negb (String.eqb (_timestamp (ev_occurred_at event)) (er_occurred_at row))
            || negb (String.eqb (run_state_value (tr_source transition)) (er_source_state row))
            || negb (String.eqb (run_state_value (tr_destination transition)) (er_destination_state row))
            || negb (String.eqb (tr_reason transition) (er_reason row))
            || negb (bool_decide (er_metadata row = tr_metadata transition)))
    (CorruptStorageError "event normalized fields do not match its payload") ;;
  mret event.

Definition _deserialize_orchestration_record (row : record_row) : res OrchestrationRecord :=
  raise_if (negb (or_payload_version row =? ORCHESTRATION_SCHEMA_VERSION))
    (PersistedModelVersionError "orchestration record" (or_payload_version row)
       ORCHESTRATION_SCHEMA_VERSION) ;;
  record ← corrupt_on_error (validate_OrchestrationRecord (or_payload row))
             "orchestration record payload failed contract validation" ;
  raise_if (negb (rec_schema_version record =? or_payload_version row)
            || negb (String.eqb (rec_id record) (or_record_id row))
            || negb (String.eqb (rec_run_id record) (or_run_id row))
            || negb (rec_sequence record =? or_sequence row)
            || negb (rec_run_revision record =? or_run_revision row)
            || negb (String.eqb (run_state_value (rec_expected_state record)) (or_expected_state row))
            || negb (String.eqb (OrchestrationRecordStage.value (rec_stage record)) (or_record_stage row))
            || negb (String.eqb (rec_attempt_id record) (or_attempt_id row))
            || negb (String.eqb (OrchestrationStep.value (kind_of (rec_attempt record))) (or_attempt_kind row))
            || negb (String.eqb (_timestamp (rec_occurred_at record)) (or_occurred_at row)))
    (CorruptStorageError "orchestration normalized fields do not match its payload") ;;
  mret record.

(** ** Inserts and their constraints *)

(** The primary key of [runs] and the length of its payload. *)
Definition insert_run (row : run_row) : M Store unit :=
  write (fun w => negb (has_run (rr_run_id row) w) && run_fits (st_texts w) (rr_payload row))
        (set_runs <[rr_run_id row := row]>).

(** The primary key, the unique worktree, the foreign key and the length of the
    payload of [runtime_bindings]. *)
Definition insert_binding (row : binding_row) : M Store unit :=
  write (fun w => negb (existsb (fun b => String.eqb (bn_run_id b) (bn_run_id row)) (st_bindings w)) &&
                  negb (existsb (fun b => String.eqb (bn_worktree_id b) (bn_worktree_id row))
                          (st_bindings w)) &&
                  has_run (bn_run_id row) w && binding_fits (st_texts w) (bn_payload row))
        (add_binding row).

(** The primary key, [uq_run_event_sequence], [fk_run_events_run] and the
    column checks of [run_events]. *)
Definition event_key_free (row : event_row) (w : Store) : bool :=
  negb (existsb (fun e => String.eqb (er_event_id e) (er_event_id row)) (st_events w)) &&
  negb (existsb (fun e => String.eqb (er_run_id e) (er_run_id row)
                          && (er_sequence e =? er_sequence row)) (st_events w)) &&
  has_run (er_run_id row) w.

Definition _insert_event (event : RunEvent) : M Store unit :=
  let row := row_of_event event in
  write (fun w => event_key_free row w && (1 <=? er_sequence row) && event_fits (st_texts w) event)
        (add_event row).

(** The primary key, [uq_orchestration_sequence], [uq_orchestration_stage],
    [fk_orchestration_run] and the range of [sequence]. *)
Definition record_key_free (row : record_row) (w : Store) : bool :=
  negb (existsb (fun r => String.eqb (or_record_id r) (or_record_id row)) (st_records w)) &&
  negb (existsb (fun r => String.eqb (or_run_id r) (or_run_id row)
                          && (or_sequence r =? or_sequence row)) (st_records w)) &&
  negb (existsb (fun r => String.eqb (or_run_id r) (or_run_id row)
                          && String.eqb (or_attempt_id r) (or_attempt_id row)
                          && String.eqb (or_record_stage r) (or_record_stage row)) (st_records w)) &&
  has_run (or_run_id row) w.

Definition _insert_orchestration_record (record : OrchestrationRecord) : M Store unit :=
  let row := row_of_record record in
  write (fun w => record_key_free row w && in_range 1 MAX_ORCHESTRATION_RECORDS (or_sequence row)
                  && (0 <=? or_run_revision row) && record_fits (st_texts w) record)
        (add_record row).

(** ** Runs *)

(** [SELECT * FROM runs WHERE run_id = ?], deserialised. *)
Definition select_run (id : string) : M Store StoredRun :=
  row ← gets (fun w => st_runs w !! id) ;
  match row with
  | None => raise (RunNotFoundError id)
  | Some row => lift (_deserialize_run row)
  end.

Definition get_run (id : string) : M Store StoredRun := transaction (select_run id).

Definition run_exists (id : string) : M Store bool := gets (has_run id).

Definition create_run (run : Run) : M Store StoredRun :=
  lift (raise_if (negb (bool_decide (run_state run = CREATED)))
          (InvalidInitialRunStateError (run_id run))) ;;
  try_except (transaction (insert_run (row_of_run run 0))) is_IntegrityError
    (fun _ => duplicate ← gets (has_run (run_id run)) ;
              raise (if duplicate : bool then DuplicateRunError (run_id run)
                     else StorageOperationError "create run")) ;;
  lift (__post_init__ (mk_StoredRun run 0)).

(** The run and its repository binding in one transaction. *)
Definition create_bound_run (run : Run) (binding : RuntimeBinding) : M Store StoredRun :=
  lift (raise_if (negb (bool_decide (run_state run = CREATED)))
          (InvalidInitialRunStateError (run_id run))) ;;
  lift (raise_if (negb (String.eqb (rb_run_id binding) (run_id run)))
          (StorageOperationError "runtime binding correlation mismatch")) ;;
  try_except
    (transaction (insert_run (row_of_run run 0) ;; insert_binding (row_of_binding (run_id run) binding)))
    is_IntegrityError
    (fun _ => raise (StorageOperationError "create bound run")) ;;
  lift (__post_init__ (mk_StoredRun run 0)).

Definition get_runtime_binding (id : string) : M Store RuntimeBinding :=
  transaction
    (row ← gets (fun w => find_first (fun b => String.eqb (bn_run_id b) id) (st_bindings w)) ;
     match row with
     | None =>
         exists_ ← gets (has_run id) ;
         raise (if exists_ : bool then CorruptStorageError "run has no runtime repository binding"
                else RunNotFoundError id)
     | Some row =>
         binding ← lift (corrupt_on_error (validate_RuntimeBinding (bn_payload row))
                           "runtime repository binding failed validation") ;
         lift (raise_if (negb (String.eqb (rb_run_id binding) id))
                 (CorruptStorageError "runtime repository binding correlation mismatch")) ;;
         mret binding
     end).

(** ** Events *)

Definition events_of (id : string) (w : Store) : list event_row :=
  filter (fun e => String.eqb (er_run_id e) id = true) (st_events w).

Definition list_events (id : string) : M Store (list RunEvent) :=
  exists_ ← run_exists id ;
  if negb exists_ then raise (RunNotFoundError id) else
  rows ← gets (fun w => by_sequence er_sequence (events_of id w)) ;
  events ← lift (traverse _deserialize_event rows) ;
  lift (raise_if (negb (bool_decide ((ev_sequence <$> events) = one_to (length events))))
          (CorruptStorageError "run event sequence is not contiguous")) ;;
  mret events.

Definition select_event (event_id : string) : M Store (option event_row) :=
  gets (fun w => find_first (fun e => String.eqb (er_event_id e) event_id) (st_events w)).

(** [SELECT COALESCE(MAX(sequence), 0) + 1 FROM run_events WHERE run_id = ?] *)
Definition next_event_sequence (id : string) : M Store Z :=
  gets (fun w => foldr Z.max 0 (er_sequence <$> events_of id w) + 1).

(** ** Transitions *)

(** [{item.key: item.value for item in metadata}]: a later item wins. *)
Definition metadata_dict (items : list TransitionMetadata) : gmap string string :=
  foldl (fun d m => <[md_key m := md_value m]> d) ∅ items.

Definition attempt_kinds : list AttemptCounterKind.t :=
  [AttemptCounterKind.BUILD; AttemptCounterKind.REVIEW; AttemptCounterKind.REPAIR].

Definition is_DomainError (e : exn) : bool :=
  match e with
  | InvalidTransitionError _ _ _ | ApprovalGateError _ | ValueError _ => true
  | _ => false
  end.

Definition _validate_transition_snapshot (expected : StoredRun) (result : TransitionResult) : res unit :=
  let before := stored_run expected in
  let after := res_run result in
  let transition := res_transition result in
  let mismatch := TransitionMismatchError (run_id before) in
  raise_if (negb (String.eqb (run_id before) (run_id after))
            || negb (String.eqb (tr_run_id transition) (run_id before))) mismatch ;;
  let delta kind := counter_of kind (run_attempts after) - counter_of kind (run_attempts before) in
  let incremented := filter (fun kind => delta kind = 1) attempt_kinds in
  raise_if (existsb (fun kind => negb (bool_decide (delta kind ∈ [0; 1]))) attempt_kinds
            || (1 <? Z.of_nat (length incremented))) mismatch ;;
  match transition_run before (tr_destination transition) (tr_occurred_at transition)
          (tr_reason transition) (metadata_dict (tr_metadata transition))
          (run_approval_gate after) (head incremented) with
  | Err e => if is_DomainError e then Err mismatch else Err e
  | Ok canonical => raise_if (negb (bool_decide (canonical = result))) mismatch
  end.

(** The constructor call: its fields are instances, the model validator runs. *)
Definition new_event (event_id : string) (sequence : Z) (result : TransitionResult) : res RunEvent :=
  require (1 <=? sequence) "sequence" ;;
  occurred_at ← _require_utc (tr_occurred_at (res_transition result)) ;
  _validate_transition
    (mk_RunEvent SCHEMA_VERSION event_id (run_id (res_run result)) sequence STATE_TRANSITION
       occurred_at (res_transition result)).

(** [UPDATE runs SET ... WHERE run_id = ? AND revision = ? AND current_state = ?]:
    the number of rows changed; the new payload has to pass the check too. *)
Definition update_run (expected : StoredRun) (result : TransitionResult) : M Store Z :=
  fun w =>
    let id := run_id (stored_run expected) in
    match st_runs w !! id with
    | None => (w, Ok 0)
    | Some row =>
        if (rr_revision row =? revision expected)
           && String.eqb (rr_current_state row) (run_state_value (run_state (stored_run expected)))
        then
          let run := res_run result in
          if run_fits (st_texts w) run then
            (set_runs <[id := mk_run_row (rr_run_id row) (revision expected + 1)
                                (run_schema_version run) (run_state_value (run_state run))
                                (rr_created_at row) (_timestamp (run_updated_at run)) run]> w, Ok 1)
          else (w, Err IntegrityError)
        else (w, Ok 0)
    end.

(** The stored revision is not the expected one: an exact replay of the write
    that produced it is accepted, anything else is refused. *)
Definition replayed (expected current : StoredRun) (result : TransitionResult) (event_id : string)
    : M Store StoredRun :=
  let stale := ConcurrentRunUpdateError (run_id (stored_run expected)) (revision expected)
                 (revision current) in
  replay ← select_event event_id ;
  match replay with
  | None => raise stale
  | Some row =>
      if (revision current =? revision expected + 1)
         && bool_decide (stored_run current = res_run result) then
        event ← lift (_deserialize_event row) ;
        if bool_decide (ev_transition event = res_transition result) then mret current
        else raise (DuplicateEventError event_id)
      else raise (DuplicateEventError event_id)
  end.

Definition apply_transition (expected current : StoredRun) (result : TransitionResult)
    (event_id : string) : M Store StoredRun :=
  let stale := ConcurrentRunUpdateError (run_id (stored_run expected)) (revision expected)
                 (revision current) in
  if negb (bool_decide (stored_run current = stored_run expected)) then raise stale else
  updated ← update_run expected result ;
  if negb (updated =? 1) then raise stale else
  sequence ← next_event_sequence (run_id (stored_run expected)) ;
  event ← lift (new_event event_id sequence result) ;
  _insert_event event ;;
  lift (__post_init__ (mk_StoredRun (res_run result) (revision expected + 1))).

Definition persist_transition (expected : StoredRun) (result : TransitionResult) (event_id : string)
    : M Store StoredRun :=
  lift (_validate_transition_snapshot expected result) ;;
  try_except
    (transaction
       (current ← select_run (run_id (stored_run expected)) ;
        if negb (revision current =? revision expected)
        then replayed expected current result event_id
        else apply_transition expected current result event_id))
    is_IntegrityError
    (fun _ => duplicate ← select_event event_id ;
              raise (if is_some duplicate then DuplicateEventError event_id
                     else StorageOperationError "persist transition event")).

(** ** Orchestration records *)

Definition records_of (id : string) (w : Store) : list record_row :=
  filter (fun r => String.eqb (or_run_id r) id = true) (st_records w).

Definition list_orchestration_records (id : string) : M Store (list OrchestrationRecord) :=
  exists_ ← run_exists id ;
  if negb exists_ then raise (RunNotFoundError id) else
  rows ← gets (fun w => by_sequence or_sequence (records_of id w)) ;
  records ← lift (traverse _deserialize_orchestration_record rows) ;
  lift (raise_if (negb (bool_decide ((rec_sequence <$> records) = one_to (length records))))
          (CorruptStorageError "orchestration record sequence is not contiguous")) ;;
  mret records.

Definition map_base (f : _AttemptBase -> _AttemptBase) (a : AttemptEvidence) : AttemptEvidence :=
  match a with
  | Context a => Context (mk_ContextAttempt (f (ca_base a)) (ca_request_id a) (ca_role a) (ca_manifest a))
  | Workspace a => Workspace (mk_WorkspaceAttempt (f (wa_base a)) (wa_request a) (wa_evidence a))
  | Build a => Build (mk_BuildAttempt (f (ba_base a)) (ba_agent a))
  | Validation_ a => Validation_ (mk_ValidationAttempt (f (va_base a)) (va_plan a) (va_result a))
  | Review a =>
      Review (mk_ReviewAttempt (f (rv_base a)) (rv_agent a) (rv_validation_plan a)
                (rv_validation_result a) (rv_local_evidence a) (rv_gate_decision a))
  | Repair a =>
      Repair (mk_RepairAttempt (f (ra_base a)) (ra_agent a) (ra_decision a) (ra_write_authorized a))
  end.

(** The entries popped from the dumps: the sequence and the clock values of the
    record, of its attempt and of its reconciliation.  A popped entry is the
    same constant on both sides. *)
Definition popped : datetime := utc 0.

Definition pop_base (a : _AttemptBase) : _AttemptBase :=
  mk_AttemptBase (at_schema_version a) (at_attempt_id a) (at_run_id a) (at_work_package_id a)
    (at_sequence a) (at_status a) popped None (at_side_effects a) (at_failure a).

Definition pop_reconciliation (c : ReconciliationResult) : ReconciliationResult :=
  mk_ReconciliationResult (rr_schema_version c) (rr_attempt_id c) (rr_state c) (safe_to_continue c)
    (rr_reason c) popped.

Definition boundary (r : OrchestrationRecord) : OrchestrationRecord :=
  mk_OrchestrationRecord (rec_schema_version r) (rec_id r) (rec_run_id r) (rec_work_package_id r) 0
    (rec_run_revision r) (rec_expected_state r) (rec_stage r) popped
    (map_base pop_base (rec_attempt r)) (pop_reconciliation <$> rec_reconciliation r).

Definition _same_orchestration_boundary (persisted candidate : OrchestrationRecord) : bool :=
  bool_decide (boundary persisted = boundary candidate).

Definition next_record_sequence (id : string) : M Store Z :=
  gets (fun w => foldr Z.max 0 (or_sequence <$> records_of id w) + 1).

Definition persist_orchestration_record (expected : StoredRun) (record : OrchestrationRecord)
    : M Store RecordWriteResult :=
  let run := stored_run expected in
  lift (raise_if (negb (String.eqb (rec_run_id record) (run_id run))
                  || negb (String.eqb (rec_work_package_id record) (wp_id (run_work_package run)))
                  || negb (rec_run_revision record =? revision expected)
                  || negb (bool_decide (rec_expected_state record = run_state run)))
          (TransitionMismatchError (run_id run))) ;;
  try_except
    (transaction
       (current ← select_run (run_id run) ;
        let stale := ConcurrentRunUpdateError (run_id run) (revision expected) (revision current) in
        if negb (bool_decide (current = expected)) then raise stale else
        existing ← gets (fun w => find_first (fun r => String.eqb (or_record_id r) (rec_id record))
                                    (st_records w)) ;
        match existing with
        | Some row =>
            persisted ← lift (_deserialize_orchestration_record row) ;
            if bool_decide (persisted = record) || _same_orchestration_boundary persisted record
            then mret (mk_RecordWriteResult persisted false)
            else raise (StorageOperationError "orchestration record identifier conflict")
        | None =>
            next ← next_record_sequence (rec_run_id record) ;
            if negb (next =? rec_sequence record) then raise stale else
            _insert_orchestration_record record ;;
            mret (mk_RecordWriteResult record true)
        end))
    is_IntegrityError
    (fun _ => raise (StorageOperationError "persist orchestration record")).

(** ** Lemmas on rows *)

Lemma deserialize_run_row r n :
  Run_wf r -> 0 <= n -> _deserialize_run (row_of_run r n) = Ok (mk_StoredRun r n).
Proof.
  intros Hwf Hn. unfold _deserialize_run, row_of_run, __post_init__. cbn [rr_model_version rr_payload rr_run_id
    rr_current_state rr_created_at rr_updated_at rr_revision].
  assert (Hv : run_schema_version r =? DOMAIN_MODEL_VERSION = true).
  { pose proof Hwf as H. unfold Run_wf, validate_Run in H. by inv_valid. }
  rewrite Hv. unfold Run_wf in Hwf. rewrite Hwf. cbn [negb corrupt_on_error].
  rewrite (bind_raise_if false). cbn [mbind result_bind]. rewrite Z.eqb_refl, !String.eqb_refl.
  cbn [negb orb]. rewrite (bind_raise_if false). cbn [revision].
  by replace (n <? 0) with false by (symmetry; apply Z.ltb_ge; lia).
Qed.

Lemma deserialize_event_row ev :
  validate_RunEvent ev = Ok ev -> _deserialize_event (row_of_event ev) = Ok ev.
Proof.
  intros Hwf. unfold _deserialize_event, row_of_event.
  cbn [er_payload_version er_payload er_event_id er_run_id er_sequence er_event_type er_occurred_at
       er_source_state er_destination_state er_reason er_metadata].
  assert (Hv : ev_schema_version ev =? DOMAIN_MODEL_VERSION = true).
  { pose proof Hwf as H. unfold validate_RunEvent in H. by inv_valid. }
  rewrite Hv, Hwf. cbn [negb corrupt_on_error]. rewrite (bind_raise_if false).
  cbn [mbind result_bind]. rewrite !Z.eqb_refl, !String.eqb_refl, !bool_decide_refl.
  cbn [negb orb]. by rewrite (bind_raise_if false).
Qed.

Lemma deserialize_record_row r :
  validate_OrchestrationRecord r = Ok r ->
  _deserialize_orchestration_record (row_of_record r) = Ok r.
Proof.
  intros Hwf. unfold _deserialize_orchestration_record, row_of_record.
  cbn [or_payload_version or_payload or_record_id or_run_id or_sequence or_run_revision
       or_expected_state or_record_stage or_attempt_id or_attempt_kind or_occurred_at].
  assert (Hv : rec_schema_version r =? ORCHESTRATION_SCHEMA_VERSION = true).
  { pose proof Hwf as H. unfold validate_OrchestrationRecord in H. by inv_valid. }
  rewrite Hv, Hwf. cbn [negb corrupt_on_error]. rewrite (bind_raise_if false).
  cbn [mbind result_bind]. rewrite !Z.eqb_refl, !String.eqb_refl. cbn [negb orb].
  by rewrite (bind_raise_if false).
Qed.

