(* ===== verification/RunJournal.v ===== *)
(** * The run journal: what the run repository promises

    An abstract journal holds, for every run, its current value and the log of
    the transitions it went through, and who owns each event identifier.  The
    class [RunRepository] states the port of [ports/storage.py]: four operations
    that simulate the journal, error for error.  The SQLite repository of
    [Storage] is an instance; clients of the port can be verified against the
    class. *)

From Stdlib Require Import ZArith Lia Ascii String.
From S2P Require Import Prelude Text Domain StateMachine Effects OrchestrationPorts Tables Storage.
From stdpp Require Import base option strings numbers gmap sets list list_relations.

Open Scope Z_scope.

(** ** The journal *)

Record entry := mk_entry { en_run : Run; en_log : list (string * StateTransition) }.

(** The texts are the schema layer's: an entry is accepted when its text is of a
    length the schema allows. *)
Record journal := mk_journal {
  j_texts : PayloadTexts;
  j_runs : gmap string entry;
  j_owner : gmap string StateTransition
}.

Definition new_journal (t : PayloadTexts) : journal := mk_journal t ∅ ∅.

Definition empty_journal : journal := new_journal short_texts.

Definition en_revision (e : entry) : Z := Z.of_nat (length (en_log e)).

Definition stored_of (e : entry) : StoredRun := mk_StoredRun (en_run e) (en_revision e).

Definition event_of (id : string) (sequence : Z) (p : string * StateTransition) : RunEvent :=
  mk_RunEvent SCHEMA_VERSION p.1 id sequence STATE_TRANSITION (tr_occurred_at p.2) p.2.

Definition log_events (id : string) (log : list (string * StateTransition)) : list RunEvent :=
  imap (fun i p => event_of id (Z.of_nat (S i)) p) log.

Definition spec_create (run : Run) (j : journal) : journal * res StoredRun :=
  if negb (bool_decide (run_state run = CREATED)) then (j, Err (InvalidInitialRunStateError (run_id run)))
  else match j_runs j !! run_id run with
       | Some _ => (j, Err (DuplicateRunError (run_id run)))
       | None =>
           if run_fits (j_texts j) run then
             (mk_journal (j_texts j) (<[run_id run := mk_entry run []]> (j_runs j)) (j_owner j),
              Ok (mk_StoredRun run 0))
           else (j, Err (StorageOperationError "create run"))
       end.

Definition spec_get (id : string) (j : journal) : journal * res StoredRun :=
  (j, match j_runs j !! id with
      | None => Err (RunNotFoundError id)
      | Some e => Ok (stored_of e)
      end).

Definition spec_events (id : string) (j : journal) : journal * res (list RunEvent) :=
  (j, match j_runs j !! id with
      | None => Err (RunNotFoundError id)
      | Some e => Ok (log_events id (en_log e))
      end).

(** Compare and append: the caller's snapshot must be the current entry, and the
    new run and its event must be of a length the schema allows.  A caller one revision behind that repeats the very write is answered again. *)
Definition spec_persist (expected : StoredRun) (result : TransitionResult) (event_id : string)
    (j : journal) : journal * res StoredRun :=
  let id := run_id (stored_run expected) in
  match _validate_transition_snapshot expected result with
  | Err x => (j, Err x)
  | Ok _ =>
      match j_runs j !! id with
      | None => (j, Err (RunNotFoundError id))
      | Some e =>
          let stale := ConcurrentRunUpdateError id (revision expected) (en_revision e) in
          if en_revision e =? revision expected then
            if negb (bool_decide (en_run e = stored_run expected)) then (j, Err stale)
            else if is_some (j_owner j !! event_id) then (j, Err (DuplicateEventError event_id))
            else if negb (run_fits (j_texts j) (res_run result)
                          && event_fits (j_texts j)
                               (event_of id (en_revision e + 1) (event_id, res_transition result)))
            then (j, Err (StorageOperationError "persist transition event"))
            else (mk_journal (j_texts j)
                    (<[id := mk_entry (res_run result) (en_log e ++ [(event_id, res_transition result)])]>
                       (j_runs j))
                    (<[event_id := res_transition result]> (j_owner j)),
                  Ok (mk_StoredRun (res_run result) (revision expected + 1)))
          else
            match j_owner j !! event_id with
            | None => (j, Err stale)
            | Some owned =>
                if (en_revision e =? revision expected + 1)
                   && bool_decide (en_run e = res_run result)
                   && bool_decide (owned = res_transition result)
                then (j, Ok (stored_of e)) else (j, Err (DuplicateEventError event_id))
            end
      end
  end.

(** ** The port *)

(** A concrete operation that follows its specification step for step. *)
Definition simulates {W A} (R : W -> journal -> Prop) (op : M W A)
    (spec : journal -> journal * res A) : Prop :=
  forall w j, R w j -> exists w', op w = (w', (spec j).2) /\ R w' (spec j).1.

Class RunRepository (W : Type) := {
  rr_represents : W -> journal -> Prop;
  rr_create_run : Run -> M W StoredRun;
  rr_get_run : string -> M W StoredRun;
  rr_list_events : string -> M W (list RunEvent);
  rr_persist_transition : StoredRun -> TransitionResult -> string -> M W StoredRun;
  rr_create_run_ok run :
    Run_wf run -> simulates rr_represents (rr_create_run run) (spec_create run);
  rr_get_run_ok id : simulates rr_represents (rr_get_run id) (spec_get id);
  rr_list_events_ok id : simulates rr_represents (rr_list_events id) (spec_events id);
  rr_persist_transition_ok expected result event_id :
    EventId event_id = Ok event_id ->
    simulates rr_represents (rr_persist_transition expected result event_id)
      (spec_persist expected result event_id)
}.

(** ** The snapshot check *)

Lemma Run_wf_gate r : Run_wf r -> gate_wf (run_approval_gate r).
Proof.
  unfold Run_wf, validate_Run. intros H. inv_valid. apply validate_state_Ok in H as [Heq _].
  apply (f_equal run_approval_gate) in Heq. simpl in Heq. unfold gate_wf. rewrite Hv6. by rewrite Heq.
Qed.

Lemma transition_run_result_wf run d t reason md g inc out :
  transition_run run d t reason md g inc = Ok out -> Run_wf (res_run out).
Proof.
  unfold transition_run. intros H. inv_ok. apply validate_pair_Ok in H as [-> _].
  eapply validate_Run_idem. eassumption.
Qed.

(** An accepted snapshot is one step of the state machine. *)
Lemma snapshot_step expected result u :
  _validate_transition_snapshot expected result = Ok u ->
  run_step (stored_run expected) (res_transition result) (res_run result).
Proof.
  unfold _validate_transition_snapshot. rewrite !bind_raise_if_Ok. intros (_ & _ & H).
  destruct (transition_run _ _ _ _ _ _ _) as [canonical|e] eqn:Hc; [|by destruct (is_DomainError e)].
  rewrite raise_if_Ok, negb_false_iff, bool_decide_eq_true in H. subst canonical.
  econstructor; [|exact Hc]. eapply Run_wf_gate, transition_run_result_wf. exact Hc.
Qed.

(** ** Logs *)

Lemma log_events_snoc id log p :
  log_events id (log ++ [p]) = log_events id log ++ [event_of id (Z.of_nat (length log) + 1) p].
Proof.
  unfold log_events. rewrite imap_app. simpl. do 3 f_equal. lia.
Qed.

Lemma length_log_events id log : length (log_events id log) = length log.
Proof. apply length_imap. Qed.

Lemma log_contiguous id log : contiguous ev_sequence (log_events id log).
Proof.
  induction log as [|p log IH] using rev_ind; [done|]. rewrite log_events_snoc.
  apply contiguous_app; [done|]. by rewrite length_log_events.
Qed.

Lemma log_transitions id log : ev_transition <$> log_events id log = snd <$> log.
Proof.
  induction log as [|p log IH] using rev_ind; [done|]. by rewrite log_events_snoc, !fmap_app, IH.
Qed.

Definition log_ok (id : string) (log : list (string * StateTransition)) : Prop :=
  RunId id = Ok id /\
  Forall (fun p => EventId p.1 = Ok p.1 /\ validate_StateTransition p.2 = Ok p.2 /\
                   tr_run_id p.2 = id) log.

Lemma log_events_valid id log :
  log_ok id log -> Forall (fun ev => validate_RunEvent ev = Ok ev) (log_events id log).
Proof.
  intros [Hid Hlog]. induction log as [|p log IH] using rev_ind; [constructor|].
  apply Forall_app in Hlog as [Hlog (He & Ht & Hr)%Forall_singleton].
  rewrite log_events_snoc. apply Forall_app. split; [auto|]. constructor; [|constructor].
  unfold validate_RunEvent, event_of. cbn [ev_schema_version ev_id ev_run_id ev_sequence
    ev_event_type ev_occurred_at ev_transition].
  rewrite He. cbn. rewrite Hid. cbn.
  replace (1 <=? Z.of_nat (length log) + 1) with true by (symmetry; apply Z.leb_le; lia). cbn.
  assert (Hu : _require_utc (tr_occurred_at p.2) = Ok (tr_occurred_at p.2)).
  { unfold validate_StateTransition in Ht. inv_valid. apply require_utc_Ok.
    apply require_utc_Ok in Hv0 as [-> ?]. done. }
  rewrite Hu. cbn. rewrite Ht. cbn. unfold _validate_transition. cbn.
  by rewrite Hr, !bool_decide_refl.
Qed.

(** ** What the tables represent *)

Definition is_event (event_id : string) (row : event_row) : bool := String.eqb (er_event_id row) event_id.

Definition owned_transition (row : event_row) : StateTransition := ev_transition (er_payload row).

Record entry_ok (id : string) (e : entry) : Prop := {
  eo_id : run_id (en_run e) = id;
  eo_history : exists r0, history r0 (snd <$> en_log e) (en_run e);
  eo_log : log_ok id (en_log e)
}.

Record represents (w : Store) (j : journal) : Prop := {
  rep_texts : st_texts w = j_texts j;
  rep_runs id : st_runs w !! id = (fun e => row_of_run (en_run e) (en_revision e)) <$> j_runs j !! id;
  rep_entry id e : j_runs j !! id = Some e -> entry_ok id e;
  rep_events id e : j_runs j !! id = Some e ->
                    events_of id w = row_of_event <$> log_events id (en_log e);
  rep_known row : row ∈ st_events w -> is_some (j_runs j !! er_run_id row) = true;
  rep_owner event_id : j_owner j !! event_id =
                       owned_transition <$> find_first (is_event event_id) (st_events w)
}.

Lemma represents_empty t : represents (new_store t) (new_journal t).
Proof. split; simpl; intros; rewrite ?lookup_empty in *; try done. by apply elem_of_nil in H. Qed.

Lemma entry_wf id e : entry_ok id e -> Run_wf (en_run e).
Proof. intros [_ [r0 Hh] _]. by eapply history_wf. Qed.

Lemma en_revision_nonneg e : 0 <= en_revision e.
Proof. unfold en_revision. lia. Qed.

Section represented.
Context (w : Store) (j : journal) (HR : represents w j).

Lemma represents_has_run id : has_run id w = is_some (j_runs j !! id).
Proof.
  unfold has_run. case_bool_decide as H; rewrite (rep_runs _ _ HR) in H;
    destruct (j_runs j !! id); simpl in *; [done | by destruct H | by destruct H | done].
Qed.

Lemma select_run_None id : j_runs j !! id = None -> select_run id w = (w, Err (RunNotFoundError id)).
Proof. intros Hj. unfold select_run, mbind, M_bind, gets. by rewrite (rep_runs _ _ HR), Hj. Qed.

Lemma select_run_Some id e : j_runs j !! id = Some e -> select_run id w = (w, Ok (stored_of e)).
Proof.
  intros Hj. unfold select_run, mbind, M_bind, gets. rewrite (rep_runs _ _ HR), Hj.
  cbn [fmap option_fmap option_map]. unfold lift.
  rewrite deserialize_run_row; [done| |apply en_revision_nonneg].
  eapply entry_wf, (rep_entry _ _ HR). exact Hj.
Qed.

(** Every stored event is one of its run's log. *)
Lemma stored_event row :
  row ∈ st_events w ->
  exists e ev, j_runs j !! er_run_id row = Some e /\ ev ∈ log_events (er_run_id row) (en_log e) /\
    row = row_of_event ev /\ validate_RunEvent ev = Ok ev.
Proof.
  intros Hrow. pose proof (rep_known _ _ HR _ Hrow) as Hk.
  destruct (j_runs j !! er_run_id row) as [e|] eqn:Hj; [|done].
  assert (Hin : row ∈ events_of (er_run_id row) w).
  { apply list_elem_of_filter. by rewrite String.eqb_refl. }
  rewrite (rep_events _ _ HR _ _ Hj) in Hin. apply list_elem_of_fmap in Hin as (ev & -> & Hev).
  exists e, ev. split; [done|]. split; [done|]. split; [done|].
  pose proof (log_events_valid _ _ (eo_log _ _ (rep_entry _ _ HR _ _ Hj))) as Hv.
  rewrite Forall_forall in Hv. by apply Hv.
Qed.

Lemma select_event_owner event_id :
  exists o, select_event event_id w = (w, Ok o) /\
    match o with
    | None => j_owner j !! event_id = None
    | Some row => exists ev, _deserialize_event row = Ok ev /\
                             j_owner j !! event_id = Some (ev_transition ev)
    end.
Proof.
  unfold select_event, gets. eexists. split; [reflexivity|]. rewrite (rep_owner _ _ HR).
  change (fun e => String.eqb (er_event_id e) event_id) with (is_event event_id).
  destruct (find_first _ _) as [row|] eqn:Hf; [|done].
  apply find_first_Some in Hf as [Hrow _].
  destruct (stored_event _ Hrow) as (e & ev & _ & _ & -> & Hv). exists ev.
  by rewrite deserialize_event_row.
Qed.

Lemma next_sequence id e f :
  j_runs j !! id = Some e ->
  next_event_sequence id (set_runs f w) = (set_runs f w, Ok (en_revision e + 1)).
Proof.
  intros Hj. unfold next_event_sequence, gets.
  change (events_of id (set_runs f w)) with (events_of id w). rewrite (rep_events _ _ HR _ _ Hj).
  rewrite <- list_fmap_compose. change (er_sequence ∘ row_of_event) with ev_sequence.
  rewrite contiguous_max by apply log_contiguous. by rewrite length_log_events.
Qed.
End represented.

(** ** Reads *)

Lemma get_run_simulates id : simulates represents (get_run id) (spec_get id).
Proof.
  intros w j HR. exists w. split; [|done]. unfold get_run, transaction, spec_get. simpl.
  destruct (j_runs j !! id) as [e|] eqn:Hj.
  - by rewrite (select_run_Some _ _ HR _ _ Hj).
  - by rewrite (select_run_None _ _ HR _ Hj).
Qed.

Lemma list_events_simulates id : simulates represents (list_events id) (spec_events id).
Proof.
  intros w j HR. exists w. split; [|done]. unfold list_events, run_exists, spec_events.
  rewrite (M_bind_run _ _ w w (has_run id w)) by done.
  rewrite (represents_has_run _ _ HR). simpl.
  destruct (j_runs j !! id) as [e|] eqn:Hj; simpl; [|done].
  rewrite (M_bind_run _ _ w w (row_of_event <$> log_events id (en_log e))).
  2:{ unfold gets. rewrite (rep_events _ _ HR _ _ Hj), contiguous_by_sequence; [done|].
      unfold contiguous. rewrite <- list_fmap_compose, length_fmap. apply log_contiguous. }
  rewrite lift_bind, traverse_rows.
  - rewrite lift_bind, raise_if_false; [done|]. rewrite negb_false_iff. apply bool_decide_eq_true.
    apply log_contiguous.
  - eapply Forall_impl; [apply log_events_valid, (eo_log _ _ (rep_entry _ _ HR _ _ Hj))|].
    intros ev. apply deserialize_event_row.
Qed.

(** ** Writes *)

Lemma unknown_run_no_events w j id :
  represents w j -> j_runs j !! id = None -> events_of id w = [].
Proof.
  intros HR Hj. apply elem_of_nil_inv. intros row (Hid%String.eqb_eq & Hrow)%list_elem_of_filter.
  pose proof (rep_known _ _ HR _ Hrow) as Hk. by rewrite Hid, Hj in Hk.
Qed.

Lemma represents_create w j run :
  represents w j -> Run_wf run -> run_state run = CREATED -> j_runs j !! run_id run = None ->
  represents (set_runs <[run_id run := row_of_run run 0]> w)
    (mk_journal (j_texts j) (<[run_id run := mk_entry run []]> (j_runs j)) (j_owner j)).
Proof.
  intros HR Hwf Hc Hj. split; simpl.
  - apply (rep_texts _ _ HR).
  - intros id. destruct (decide (id = run_id run)) as [->|Hne].
    + by rewrite !lookup_insert_eq.
    + rewrite !lookup_insert_ne by done. apply (rep_runs _ _ HR).
  - intros id e. rewrite lookup_insert_Some. intros [[<- <-]|[_ He]].
    + split; simpl; [done|exists run; by apply history_nil|]. split; [|constructor].
      apply stable_identifier_Ok. split; [done|]. by destruct (Run_wf_facts _ Hwf).
    + by apply (rep_entry _ _ HR).
  - intros id e. rewrite lookup_insert_Some. intros [[<- <-]|[_ He]]; simpl.
    + exact (unknown_run_no_events w j _ HR Hj).
    + exact (rep_events _ _ HR _ _ He).
  - intros row Hrow. destruct (decide (er_run_id row = run_id run)) as [->|Hne].
    + by rewrite lookup_insert_eq.
    + rewrite lookup_insert_ne by done. by apply (rep_known _ _ HR).
  - apply (rep_owner _ _ HR).
Qed.

Lemma create_run_simulates run :
  Run_wf run -> simulates represents (create_run run) (spec_create run).
Proof.
  intros Hwf w j HR. unfold create_run, spec_create. rewrite lift_bind. unfold raise_if.
  destruct (negb (bool_decide (run_state run = CREATED))) eqn:Hs; [by exists w|].
  rewrite negb_false_iff, bool_decide_eq_true in Hs.
  unfold try_except, transaction, insert_run, write, mbind, M_bind, gets, raise, lift. simpl.
  rewrite (represents_has_run _ _ HR), (rep_texts _ _ HR). destruct (j_runs j !! run_id run) eqn:Hj; simpl.
  - rewrite (represents_has_run _ _ HR), Hj. simpl. by exists w.
  - destruct (run_fits (j_texts j) run); simpl.
    + eexists. split; [reflexivity|]. by apply represents_create.
    + rewrite (represents_has_run _ _ HR), Hj. simpl. by exists w.
Qed.

Lemma represents_append w j id e event_id tr run' :
  represents w j -> j_runs j !! id = Some e -> run_step (en_run e) tr run' ->
  EventId event_id = Ok event_id -> j_owner j !! event_id = None ->
  represents
    (add_event (row_of_event (event_of id (en_revision e + 1) (event_id, tr)))
       (set_runs <[id := row_of_run run' (en_revision e + 1)]> w))
    (mk_journal (j_texts j) (<[id := mk_entry run' (en_log e ++ [(event_id, tr)])]> (j_runs j))
       (<[event_id := tr]> (j_owner j))).
Proof.
  intros HR Hj Hstep Heid Hfree. pose proof (rep_entry _ _ HR _ _ Hj) as He.
  destruct He as [Hid [r0 Hh] [Hrid Hlog]]. pose proof (run_step_facts _ _ _ (history_wf _ _ _ Hh) Hstep) as [].
  set (p := (event_id, tr)). split; simpl.
  - apply (rep_texts _ _ HR).
  - intros id'. destruct (decide (id' = id)) as [->|Hne].
    + rewrite !lookup_insert_eq. simpl. do 2 f_equal. unfold en_revision. simpl. rewrite length_app. simpl. lia.
    + rewrite !lookup_insert_ne by done. apply (rep_runs _ _ HR).
  - intros id' e'. rewrite lookup_insert_Some. intros [[<- <-]|[_ He']]; [|by apply (rep_entry _ _ HR)].
    split; simpl; [congruence| |].
    + exists r0. rewrite fmap_app. by eapply history_snoc.
    + split; [done|]. apply Forall_app. split; [done|]. constructor; [|constructor]. simpl. 
      split; [done|]. split; [done|]. congruence.
  - intros id' e'. unfold events_of. simpl. rewrite filter_app.
    rewrite lookup_insert_Some. intros [[<- <-]|[Hne He']]; simpl.
    + change (filter _ (st_events w)) with (events_of id w). rewrite (rep_events _ _ HR _ _ Hj).
      rewrite log_events_snoc, fmap_app. f_equal. rewrite filter_cons_True; [done|]. apply String.eqb_refl.
    + change (filter _ (st_events w)) with (events_of id' w). rewrite (rep_events _ _ HR _ _ He').
      rewrite filter_cons_False; [apply app_nil_r|]. simpl. by intros ?%String.eqb_eq.
  - intros row. rewrite elem_of_app, list_elem_of_singleton. intros [Hrow| ->]; simpl.
    + destruct (decide (er_run_id row = id)) as [->|Hne]; [by rewrite lookup_insert_eq|].
      rewrite lookup_insert_ne by done. by apply (rep_known _ _ HR).
    + by rewrite lookup_insert_eq.
  - intros event_id'. rewrite find_first_app. pose proof (rep_owner _ _ HR event_id') as Ho.
    destruct (decide (event_id' = event_id)) as [->|Hne].
    + rewrite lookup_insert_eq. rewrite Hfree in Ho. destruct (find_first _ _); [done|]. simpl.
      unfold is_event. simpl. by rewrite String.eqb_refl.
    + rewrite lookup_insert_ne by done. rewrite Ho. destruct (find_first _ _); [done|]. simpl.
      unfold is_event. simpl. rewrite (proj2 (String.eqb_neq event_id event_id')); done.
Qed.

(** The insertion of the next event is refused exactly for an owned identifier
    and for a text of a length that is not allowed. *)
Lemma insert_next_event w j id e event_id tr rows :
  represents w j -> j_runs j !! id = Some e ->
  let ev := event_of id (en_revision e + 1) (event_id, tr) in
  let w1 := set_runs <[id := rows]> w in
  _insert_event ev w1 =
  if is_none (j_owner j !! event_id) && event_fits (j_texts j) ev
  then (add_event (row_of_event ev) w1, Ok tt) else (w1, Err IntegrityError).
Proof.
  intros HR Hj ev w1. unfold _insert_event, write, event_key_free. simpl.
  assert (Hrun : has_run id w1 = true).
  { unfold has_run, w1. simpl. rewrite lookup_insert_eq. apply bool_decide_eq_true. eauto. }
  assert (Hseq : existsb (fun x => String.eqb (er_run_id x) id && (er_sequence x =? en_revision e + 1))
                   (st_events w) = false).
  { apply existsb_false, Forall_forall. intros x Hx.
    destruct (String.eqb (er_run_id x) id) eqn:Hid; [|done]. simpl. apply Z.eqb_neq.
    assert (Hin : x ∈ events_of id w) by (by apply list_elem_of_filter).
    rewrite (rep_events _ _ HR _ _ Hj) in Hin. apply list_elem_of_fmap in Hin as (y & -> & Hy).
    pose proof (contiguous_elem _ _ _ (log_contiguous id (en_log e)) Hy) as Hb.
    rewrite length_log_events in Hb. unfold en_revision. simpl. lia. }
  rewrite Hseq, Hrun. pose proof (rep_owner _ _ HR event_id) as Ho.
  assert (Hid : existsb (fun x => String.eqb (er_event_id x) event_id) (st_events w)
                = is_some (j_owner j !! event_id)).
  { rewrite Ho. destruct (find_first _ _) as [row|] eqn:Hf; simpl.
    - apply find_first_Some in Hf as [Hrow Hp]. apply existsb_exists. exists row.
      split; [by apply list_elem_of_In | done].
    - apply find_first_None in Hf. by apply existsb_false. }
  rewrite Hid. replace (1 <=? en_revision e + 1) with true
    by (symmetry; apply Z.leb_le; pose proof (en_revision_nonneg e); lia).
  rewrite (rep_texts _ _ HR). by destruct (j_owner j !! event_id), (event_fits _ _).
Qed.

Lemma new_event_Ok run tr result event_id n :
  Run_wf run -> run_step run tr (res_run result) -> tr = res_transition result -> 0 <= n ->
  new_event event_id (n + 1) result = Ok (event_of (run_id run) (n + 1) (event_id, tr)).
Proof.
  intros Hwf Hstep -> Hn. pose proof (run_step_facts _ _ _ Hwf Hstep) as F.
  pose proof (sf_evidence _ _ _ F) as Hev. unfold new_event.
  replace (1 <=? n + 1) with true by (symmetry; apply Z.leb_le; lia). cbn.
  assert (Hu : _require_utc (tr_occurred_at (res_transition result)) = Ok (tr_occurred_at (res_transition result))).
  { unfold validate_StateTransition in Hev. inv_valid.
    apply require_utc_Ok in Hv0 as [-> ?]. by apply require_utc_Ok. }
  rewrite Hu. cbn. unfold _validate_transition. cbn [ev_transition ev_run_id ev_occurred_at].
  rewrite bool_decide_refl, (bool_decide_eq_true_2 _ (eq_trans (sf_tr_id _ _ _ F) (eq_sym (sf_id _ _ _ F)))).
  cbn. by rewrite (sf_id _ _ _ F).
Qed.

Section apply.
Context (w : Store) (j : journal) (HR : represents w j) (expected : StoredRun)
        (result : TransitionResult) (event_id : string) (e : entry).
Let id := run_id (stored_run expected).
Context (Hj : j_runs j !! id = Some e) (Hrev : en_revision e = revision expected)
        (Hrun : en_run e = stored_run expected)
        (Hstep : run_step (stored_run expected) (res_transition result) (res_run result)).

Lemma update_current :
  update_run expected result w =
  if run_fits (j_texts j) (res_run result)
  then (set_runs <[id := row_of_run (res_run result) (en_revision e + 1)]> w, Ok 1)
  else (w, Err IntegrityError).
Proof.
  pose proof (entry_wf _ _ (rep_entry _ _ HR _ _ Hj)) as Hwf. rewrite Hrun in Hwf.
  pose proof (run_step_facts _ _ _ Hwf Hstep) as F.
  unfold update_run. fold id. rewrite (rep_runs _ _ HR), Hj. cbn.
  rewrite <- Hrev, Z.eqb_refl, Hrun, String.eqb_refl, (rep_texts _ _ HR). cbn. unfold row_of_run.
  by rewrite (sf_id _ _ _ F), (sf_created _ _ _ F).
Qed.

Lemma apply_current :
  let ev := event_of id (en_revision e + 1) (event_id, res_transition result) in
  let w1 := set_runs <[id := row_of_run (res_run result) (en_revision e + 1)]> w in
  if run_fits (j_texts j) (res_run result) && (is_none (j_owner j !! event_id) && event_fits (j_texts j) ev)
  then apply_transition expected (stored_of e) result event_id w =
       (add_event (row_of_event ev) w1, Ok (mk_StoredRun (res_run result) (revision expected + 1)))
  else exists w2, apply_transition expected (stored_of e) result event_id w = (w2, Err IntegrityError).
Proof.
  pose proof (entry_wf _ _ (rep_entry _ _ HR _ _ Hj)) as Hwf. rewrite Hrun in Hwf.
  pose proof (en_revision_nonneg e). unfold apply_transition. cbn [stored_of stored_run].
  rewrite bool_decide_eq_true_2 by done. cbn [negb]. pose proof update_current as Hup.
  destruct (run_fits _ _); cbn [andb];
    [|exists w; by rewrite (M_bind_err _ _ _ _ _ Hup)].
  rewrite (M_bind_run _ _ _ _ _ Hup). cbn [negb]. rewrite Z.eqb_refl. cbn [negb]. fold id.
  rewrite (M_bind_run _ _ _ _ _ (next_sequence w j HR _ _ _ Hj)).
  rewrite (new_event_Ok _ _ _ _ _ Hwf Hstep eq_refl) by done. fold id. rewrite lift_bind. 
  rewrite <- Hrev. cbv zeta.
  pose proof (insert_next_event w j id e event_id (res_transition result)
                (row_of_run (res_run result) (en_revision e + 1)) HR Hj) as Hi. cbv zeta in Hi.
  rewrite Hrev in Hi |- *.
  destruct (is_none (j_owner j !! event_id) && _).
  2:{ eexists. by rewrite (M_bind_err _ _ _ _ _ Hi). }
  - rewrite (M_bind_run _ _ _ _ _ Hi). unfold __post_init__, lift. cbn [revision].
    by replace (revision expected + 1 <? 0) with false by (symmetry; apply Z.ltb_ge; lia).
Qed.
End apply.

Lemma persist_transition_simulates expected result event_id :
  EventId event_id = Ok event_id ->
  simulates represents (persist_transition expected result event_id)
    (spec_persist expected result event_id).
Proof.
  intros Heid w j HR. unfold persist_transition, spec_persist. rewrite lift_bind.
  destruct (_validate_transition_snapshot expected result) as [u|x] eqn:Hsnap; [|by exists w].
  apply snapshot_step in Hsnap. set (id := run_id (stored_run expected)).
  unfold try_except, transaction.
  destruct (select_event_owner w j HR event_id) as (o & Hsel & Ho).
  destruct (j_runs j !! id) as [e|] eqn:Hj.
  2:{ rewrite (M_bind_err _ _ _ _ _ (select_run_None w j HR _ Hj)). by exists w. }
  rewrite (M_bind_run _ _ _ _ _ (select_run_Some w j HR _ _ Hj)). cbn [stored_of revision stored_run].
  destruct (en_revision e =? revision expected) eqn:Hrev; cbn [negb].
  - apply Z.eqb_eq in Hrev. case_bool_decide as Hrun; cbn [negb].
    + change (mk_StoredRun (en_run e) (en_revision e)) with (stored_of e).
      pose proof (apply_current w j HR expected result event_id e Hj Hrev Hrun Hsnap) as Hap.
      cbv zeta in Hap. fold id in Hap. fold id.
      destruct (j_owner j !! event_id) as [owned|] eqn:Hown; cbn [is_some is_none andb] in *.
      * rewrite andb_false_r in Hap. destruct Hap as [w2 ->]. cbn [is_IntegrityError].
        rewrite (M_bind_run _ _ _ _ _ Hsel). destruct o; [|congruence]. by exists w.
      * destruct (run_fits _ _ && _); cbn [negb].
        -- rewrite Hap. eexists. split; [reflexivity|]. rewrite <- Hrun in Hsnap. by apply represents_append.
        -- destruct Hap as [w2 ->]. cbn [is_IntegrityError]. rewrite (M_bind_run _ _ _ _ _ Hsel).
           destruct o; [destruct Ho as (? & _ & ?); congruence|]. by exists w.
    + unfold apply_transition. cbn. rewrite bool_decide_eq_false_2 by done. by exists w.
  - unfold replayed. rewrite (M_bind_run _ _ _ _ _ Hsel). cbn [revision stored_run stored_of].
    destruct o as [row|]; [|rewrite Ho; by exists w]. destruct Ho as (ev & Hev & ->).
    exists w. split; [|by case_match].
    destruct (_ =? revision expected + 1); cbn; [|done].
    case_bool_decide; cbn; [|done]. rewrite Hev, lift_bind. by case_bool_decide.
Qed.

#[export] Instance sqlite_repository : RunRepository Store := {|
  rr_represents := represents;
  rr_create_run := create_run;
  rr_get_run := get_run;
  rr_list_events := list_events;
  rr_persist_transition := persist_transition;
  rr_create_run_ok := create_run_simulates;
  rr_get_run_ok := get_run_simulates;
  rr_list_events_ok := list_events_simulates;
  rr_persist_transition_ok := persist_transition_simulates
|}.

(** ** Clients of the port *)

Inductive call : Type :=
| CreateRun (run : Run)
| GetRun (id : string)
| ListEvents (id : string)
| PersistTransition (expected : StoredRun) (result : TransitionResult) (event_id : string).

Inductive reply : Type :=
| RunReply (r : res StoredRun)
| EventsReply (r : res (list RunEvent)).

(** The arguments are instances of their classes. *)
Definition call_wf (c : call) : Prop :=
  match c with
  | CreateRun run => Run_wf run
  | PersistTransition _ _ event_id => EventId event_id = Ok event_id
  | GetRun _ | ListEvents _ => True
  end.

Definition exec {W} `{!RunRepository W} (c : call) (w : W) : W * reply :=
  match c with
  | CreateRun run => let '(w, r) := rr_create_run run w in (w, RunReply r)
  | GetRun id => let '(w, r) := rr_get_run id w in (w, RunReply r)
  | ListEvents id => let '(w, r) := rr_list_events id w in (w, EventsReply r)
  | PersistTransition expected result event_id =>
      let '(w, r) := rr_persist_transition expected result event_id w in (w, RunReply r)
  end.

Definition spec_exec (c : call) (j : journal) : journal * reply :=
  match c with
  | CreateRun run => let '(j, r) := spec_create run j in (j, RunReply r)
  | GetRun id => let '(j, r) := spec_get id j in (j, RunReply r)
  | ListEvents id => let '(j, r) := spec_events id j in (j, EventsReply r)
  | PersistTransition expected result event_id =>
      let '(j, r) := spec_persist expected result event_id j in (j, RunReply r)
  end.

(** A sequence of calls, by whichever clients, with its replies. *)
Fixpoint run_calls {S} (step : call -> S -> S * reply) (cs : list call) (s : S) : S * list reply :=
  match cs with
  | [] => (s, [])
  | c :: cs => let '(s, r) := step c s in let '(s, rs) := run_calls step cs s in (s, r :: rs)
  end.

Section clients.
Context {W : Type} `{!RunRepository W}.

Lemma simulates_pair {A} (op : M W A) spec w j :
  simulates rr_represents op spec -> rr_represents w j ->
  (op w).2 = (spec j).2 /\ rr_represents (op w).1 (spec j).1.
Proof. intros Hs HR. destruct (Hs _ _ HR) as (w' & -> & HR'). done. Qed.

Lemma exec_refines c w j :
  call_wf c -> rr_represents w j ->
  (exec c w).2 = (spec_exec c j).2 /\ rr_represents (exec c w).1 (spec_exec c j).1.
Proof.
  intros Hc HR. destruct c as [run|id|id|expected result event_id]; simpl.
  - destruct (simulates_pair _ _ _ _ (rr_create_run_ok run Hc) HR).
    destruct (rr_create_run run w), (spec_create run j); simpl in *; by subst.
  - destruct (simulates_pair _ _ _ _ (rr_get_run_ok id) HR).
    destruct (rr_get_run id w); simpl in *; by subst.
  - destruct (simulates_pair _ _ _ _ (rr_list_events_ok id) HR).
    destruct (rr_list_events id w); simpl in *; by subst.
  - destruct (simulates_pair _ _ _ _ (rr_persist_transition_ok expected result event_id Hc) HR).
    destruct (rr_persist_transition expected result event_id w), (spec_persist expected result event_id j);
      simpl in *; by subst.
Qed.

Lemma run_calls_refine cs w j :
  Forall call_wf cs -> rr_represents w j ->
  (run_calls exec cs w).2 = (run_calls spec_exec cs j).2 /\
  rr_represents (run_calls exec cs w).1 (run_calls spec_exec cs j).1.
Proof.
  intros Hcs. revert w j. induction Hcs as [|c cs Hc Hcs IH]; intros w j HR; [done|].
  destruct (exec_refines c w j Hc HR) as [Hr HR1]. cbn [run_calls].
  destruct (exec c w) as [w1 r1], (spec_exec c j) as [j1 r1']. simpl in Hr, HR1. subst r1'.
  destruct (IH w1 j1 HR1) as [Hrs HR2].
  destruct (run_calls exec cs w1), (run_calls spec_exec cs j1). simpl in *. by subst.
Qed.
End clients.

(** The store after a sequence of calls on an empty one. *)
Definition store_after (t : PayloadTexts) (cs : list call) : Store := (run_calls exec cs (new_store t)).1.
Definition journal_after (t : PayloadTexts) (cs : list call) : journal :=
  (run_calls spec_exec cs (new_journal t)).1.

Lemma store_after_represents t cs :
  Forall call_wf cs -> represents (store_after t cs) (journal_after t cs).
Proof.
  intros Hcs.
  exact (proj2 (run_calls_refine (W := Store) cs (new_store t) (new_journal t) Hcs (represents_empty t))).
Qed.

(** Reads leave the store alone, and so does a call that finds another revision. *)
Lemma get_run_reads id : reads (get_run id).
Proof.
  apply transaction_reads. unfold select_run. apply reads_bind; [apply reads_gets|].
  intros [row|]; [apply reads_lift | apply reads_raise].
Qed.

Lemma list_events_reads id : reads (list_events id).
Proof.
  unfold list_events, run_exists. apply reads_bind; [apply reads_gets|]. intros [|]; cbn; [|apply reads_raise].
  repeat (apply reads_bind; [auto with rev|intros ?]). apply reads_ret.
Qed.

Lemma replayed_reads expected current result event_id : reads (replayed expected current result event_id).
Proof.
  unfold replayed, select_event. apply reads_bind; [apply reads_gets|]. intros [row|]; [|apply reads_raise].
  destruct (_ && _); [|apply reads_raise]. apply reads_bind; [apply reads_lift|]. intros ev.
  case_bool_decide; [apply reads_ret | apply reads_raise].
Qed.

Lemma persist_other_revision w j expected result event_id e :
  represents w j -> j_runs j !! run_id (stored_run expected) = Some e ->
  en_revision e <> revision expected ->
  fst (persist_transition expected result event_id w) = w.
Proof.
  intros HR Hj Hrev. unfold persist_transition. rewrite lift_bind.
  destruct (_validate_transition_snapshot expected result); [|done].
  unfold try_except, transaction. rewrite (M_bind_run _ _ _ _ _ (select_run_Some w j HR _ _ Hj)).
  cbn [stored_of revision]. rewrite (proj2 (Z.eqb_neq _ _) Hrev). cbn [negb].
  pose proof (replayed_reads expected (stored_of e) result event_id w) as Hr.
  change (mk_StoredRun (en_run e) (en_revision e)) with (stored_of e).
  destruct (replayed _ _ _ _ w) as [w1 [s|x]]; cbn in Hr; subst; [done|].
  destruct (is_IntegrityError x); [|done]. unfold select_event, mbind, M_bind, gets, raise. done.
Qed.

(** After a successful write the run is at the next revision. *)
Lemma persist_advances expected result event_id j s :
  (spec_persist expected result event_id j).2 = Ok s ->
  exists e, j_runs (spec_persist expected result event_id j).1 !! run_id (stored_run expected) = Some e /\
    en_revision e = revision expected + 1 /\ s = stored_of e /\ en_run e = res_run result /\
    j_owner (spec_persist expected result event_id j).1 !! event_id = Some (res_transition result).
Proof.
  unfold spec_persist. destruct (_validate_transition_snapshot expected result); [|done].
  set (id := run_id (stored_run expected)).
  destruct (j_runs j !! id) as [e|] eqn:Hj; [|done].
  destruct (en_revision e =? revision expected) eqn:Hrev.
  - case_bool_decide as Hrun; [|done]. cbn [negb]. destruct (j_owner j !! event_id) as [o|]; [done|].
    cbn [is_some]. destruct (negb (run_fits _ _ && _)); [done|]. cbn [fst snd j_runs j_owner]. intros [= <-]. apply Z.eqb_eq in Hrev.
    rewrite !lookup_insert_eq. eexists. split; [reflexivity|].
    unfold stored_of, en_revision in *. cbn. rewrite length_app. cbn.
    split; [lia|]. split; [f_equal; lia|done].
  - destruct (j_owner j !! event_id) as [owned|] eqn:Ho; [|done].
    destruct (_ && _) eqn:Hb; [|done]. cbn [fst snd]. intros [= <-]. rewrite Hj. exists e.
    apply andb_true_iff in Hb as [[Hn%Z.eqb_eq Hr%bool_decide_eq_true]%andb_true_iff Ht%bool_decide_eq_true].
    by rewrite Ho, Ht.
Qed.

Lemma persist_snapshot expected result event_id j s :
  (spec_persist expected result event_id j).2 = Ok s ->
  _validate_transition_snapshot expected result = Ok tt.
Proof. unfold spec_persist. destruct (_validate_transition_snapshot expected result) as [[]|]; done. Qed.

(** The write that succeeded, and every later one against the same snapshot. *)
Lemma written_once t cs expected result event_id w s :
  Forall call_wf cs -> EventId event_id = Ok event_id ->
  persist_transition expected result event_id (store_after t cs) = (w, Ok s) ->
  _validate_transition_snapshot expected result = Ok tt /\
  owned_transition <$> find_first (is_event event_id) (st_events w) = Some (res_transition result) /\
  get_run (run_id (stored_run expected)) w = (w, Ok s) /\
  forall other event_id', EventId event_id' = Ok event_id' ->
    persist_transition expected other event_id' w =
      (w, match _validate_transition_snapshot expected other,
                owned_transition <$> find_first (is_event event_id') (st_events w) with
          | Err x, _ => Err x
          | Ok _, None => Err (ConcurrentRunUpdateError (run_id (stored_run expected)) (revision expected)
                                 (revision expected + 1))
          | Ok _, Some owned =>
              if bool_decide (res_run other = res_run result) && bool_decide (owned = res_transition other)
              then Ok s else Err (DuplicateEventError event_id')
          end).
Proof.
  intros Hcs Heid Hok.
  pose proof (store_after_represents t cs Hcs) as HR. set (j := journal_after t cs) in *.
  destruct (persist_transition_simulates expected result event_id Heid _ _ HR) as (w1 & Hw1 & HR1).
  rewrite Hok in Hw1. injection Hw1 as <- Hs. symmetry in Hs.
  destruct (persist_advances _ _ _ _ _ Hs) as (e & Hj & Hrev & -> & Hrun & Hown).
  pose proof (persist_snapshot _ _ _ _ _ Hs) as Hsnap.
  set (j1 := (spec_persist expected result event_id j).1) in *.
  assert (Hne : en_revision e <> revision expected) by lia.
  split; [done|]. split; [by rewrite <- (rep_owner _ _ HR1)|]. split.
  - destruct (get_run_simulates (run_id (stored_run expected)) _ _ HR1) as (w2 & H2 & _).
    rewrite (reads_run _ _ _ _ (get_run_reads _) H2) in H2. cbn in H2. by rewrite Hj in H2.
  - intros other event_id' He'.
    destruct (persist_transition_simulates expected other event_id' He' _ _ HR1) as (w2 & H2 & _).
    pose proof (persist_other_revision w j1 expected other event_id' e HR1 Hj Hne) as Hfix.
    rewrite H2 in Hfix. cbn in Hfix. subst w2. rewrite H2. f_equal. unfold spec_persist.
    destruct (_validate_transition_snapshot expected other); [|done].
    rewrite Hj, (proj2 (Z.eqb_neq _ _) Hne), <- (rep_owner _ _ HR1), Hrev, Z.eqb_refl.
    destruct (j_owner j1 !! event_id') as [owned|]; [|done]. cbn [andb].
    rewrite Hrun. rewrite (bool_decide_ext (res_run result = res_run other) (res_run other = res_run result)); [|done].
    by destruct (_ && _).
Qed.

(** ** Properties *)

(** C3: the SQLite repository implements the journal: whatever calls its
    clients make, in whatever order, starting from an empty database and
    whatever text the schema layer writes for a payload, every reply is the one
    the journal gives, value for value and exception for exception, the refusal
    of a text longer than its column allows included. *)
Theorem storage_refines_journal t cs (Hcs : Forall call_wf cs) :
  (run_calls exec cs (new_store t)).2 = (run_calls spec_exec cs (new_journal t)).2.
Proof.
  exact (proj1 (run_calls_refine (W := Store) cs _ _ Hcs (represents_empty t))).
Qed.

(** The durable state is the replay of its evidence: after any calls, a run
    that can be read has a readable event list, numbered 1, 2, ... without a
    gap, as long as its revision, whose transitions are a history of the state
    machine from a created run to exactly the stored run. *)
Theorem durable_history t cs id s w (Hcs : Forall call_wf cs)
  (Hget : get_run id (store_after t cs) = (w, Ok s)) :
  w = store_after t cs /\
  exists events r0,
    list_events id w = (w, Ok events) /\
    history r0 (ev_transition <$> events) (stored_run s) /\
    run_id (stored_run s) = id /\
    revision s = Z.of_nat (length events) /\
    (ev_sequence <$> events) = one_to (length events).
Proof.
  pose proof (store_after_represents t cs Hcs) as HR.
  pose proof (reads_run _ _ _ _ (get_run_reads id) Hget) as ->. split; [done|].
  destruct (get_run_simulates id _ _ HR) as (w1 & Hget1 & _). rewrite Hget in Hget1. cbn in Hget1.
  destruct (list_events_simulates id _ _ HR) as (w2 & Hl & _). cbn in Hl.
  pose proof (reads_run _ _ _ _ (list_events_reads id) Hl) as ->.
  destruct (j_runs (journal_after t cs) !! id) as [e|] eqn:Hj; [|done]. injection Hget1 as <- ->.
  destruct (rep_entry _ _ HR _ _ Hj) as [Hid [r0 Hh] _].
  exists (log_events id (en_log e)), r0. split; [done|].
  rewrite log_transitions.
  split; [done|]. split; [done|]. split; [by rewrite length_log_events|]. apply log_contiguous.
Qed.

(** Who owns an event identifier, as the table of events says. *)
Definition event_owner (event_id : string) (w : Store) : option StateTransition :=
  owned_transition <$> find_first (is_event event_id) (st_events w).

(** C15: no update is lost and none is applied twice: after a successful write,
    the same call again gives the same answer and changes nothing, so a client
    that lost the reply may retry; every other write against the old snapshot
    changes nothing either, and its answer is determined: an invalid snapshot
    and a concurrent update are refused as such, an identifier that is taken is
    refused as a duplicate, and it is answered again only when it asks for the
    stored run with the very transition its event records.  In particular the
    identifier just used is refused for any other result. *)
Theorem persist_exactly_once t cs expected result event_id w s (Hcs : Forall call_wf cs)
  (Heid : EventId event_id = Ok event_id)
  (Hok : persist_transition expected result event_id (store_after t cs) = (w, Ok s)) :
  persist_transition expected result event_id w = (w, Ok s) /\
  get_run (run_id (stored_run expected)) w = (w, Ok s) /\
  (forall other event_id', EventId event_id' = Ok event_id' ->
    persist_transition expected other event_id' w =
      (w, match _validate_transition_snapshot expected other, event_owner event_id' w with
          | Err x, _ => Err x
          | Ok _, None => Err (ConcurrentRunUpdateError (run_id (stored_run expected)) (revision expected)
                                 (revision expected + 1))
          | Ok _, Some owned =>
              if bool_decide (res_run other = res_run result) && bool_decide (owned = res_transition other)
              then Ok s else Err (DuplicateEventError event_id')
          end)) /\
  (forall other, _validate_transition_snapshot expected other = Ok tt -> other <> result ->
    persist_transition expected other event_id w = (w, Err (DuplicateEventError event_id))).
Proof.
  destruct (written_once t cs expected result event_id w s Hcs Heid Hok) as (Hsnap & Hown & Hget & Hall).
  split; [|split; [done|split; [exact Hall|]]].
  - by rewrite Hall, Hsnap, Hown, !bool_decide_eq_true_2.
  - intros other Hother Hne. rewrite Hall, Hother, Hown by done.
    destruct other as [run tr], result as [run' tr']. cbn in *.
    repeat case_bool_decide; cbn; try done. subst. done.
Qed.

(** ** Concrete clients *)

Module JournalSample.
Import StateMachine.Sample.

Definition started : TransitionResult :=
  match transition_run run PLANNING (utc 1000000) "start" {["actor" := "cli"]} None None with
  | Ok out => out
  | Err _ => mk_TransitionResult run (mk_StateTransition 1 "" CREATED CREATED (utc 0) "" [])
  end.

Definition cancelled : TransitionResult :=
  match transition_run run CANCELLED (utc 2000000) "stop" ∅ None None with
  | Ok out => out
  | Err _ => started
  end.

Definition event_1 : string := "event_" +:+ hex32.
Definition event_2 : string := "event_fedcba9876543210fedcba9876543210".
Definition fresh_run : StoredRun := mk_StoredRun run 0.

Definition calls : list call :=
  [GetRun (run_id run); CreateRun run; CreateRun run; PersistTransition fresh_run started event_1].

Lemma calls_wf : Forall call_wf calls.
Proof. repeat constructor; apply run_wf. Qed.

(** Two clients: the second, which read the run before the first wrote, loses. *)
Definition race : list call :=
  calls ++ [PersistTransition fresh_run cancelled event_2; PersistTransition fresh_run started event_1;
            GetRun (run_id run)].

Lemma race_wf : Forall call_wf race.
Proof. apply Forall_app. split; [apply calls_wf|]. repeat constructor. Qed.

Example race_replies :
  (run_calls exec race empty_store).2 =
  [RunReply (Err (RunNotFoundError (run_id run))); RunReply (Ok fresh_run);
   RunReply (Err (DuplicateRunError (run_id run))); RunReply (Ok (mk_StoredRun (res_run started) 1));
   RunReply (Err (ConcurrentRunUpdateError (run_id run) 0 1));
   RunReply (Ok (mk_StoredRun (res_run started) 1)); RunReply (Ok (mk_StoredRun (res_run started) 1))].
Proof. vm_compute. reflexivity. Qed.
End JournalSample.

Lemma storage_refines_journal_witness :
  last (run_calls spec_exec JournalSample.race (new_journal short_texts)).2 =
  Some (RunReply (Ok (mk_StoredRun (res_run JournalSample.started) 1))).
Proof.
  rewrite <- (storage_refines_journal short_texts JournalSample.race JournalSample.race_wf).
  change (new_store short_texts) with empty_store. rewrite JournalSample.race_replies. reflexivity.
Defined.

Lemma durable_history_witness :
  exists events, list_events (run_id Sample.run) (store_after short_texts JournalSample.race) =
                   (store_after short_texts JournalSample.race, Ok events) /\
                 (ev_sequence <$> events) = [1].
Proof.
  destruct (get_run (run_id Sample.run) (store_after short_texts JournalSample.race)) as [w [s|e]] eqn:H.
  - destruct (durable_history short_texts JournalSample.race (run_id Sample.run) s w JournalSample.race_wf H)
      as (-> & events & r0 & Hl & _ & _ & Hrev & Hseq).
    exists events. split; [exact Hl|]. rewrite Hseq.
    assert (Hs : revision s = 1).
    { assert (Hr : (get_run (run_id Sample.run) (store_after short_texts JournalSample.race)).2
                   = Ok (mk_StoredRun (res_run JournalSample.started) 1)) by (vm_compute; reflexivity).
      rewrite H in Hr. injection Hr as ->. reflexivity. }
    rewrite Hs in Hrev. apply (f_equal Z.to_nat) in Hrev. rewrite Nat2Z.id in Hrev.
    rewrite <- Hrev. reflexivity.
  - exfalso. apply (f_equal snd) in H. vm_compute in H. discriminate H.
Defined.

Lemma persist_exactly_once_witness :
  exists w s,
    persist_transition JournalSample.fresh_run JournalSample.started JournalSample.event_1
      (store_after short_texts [CreateRun Sample.run]) = (w, Ok s) /\
    persist_transition JournalSample.fresh_run JournalSample.started JournalSample.event_1 w = (w, Ok s) /\
    persist_transition JournalSample.fresh_run JournalSample.cancelled JournalSample.event_2 w =
      (w, Err (ConcurrentRunUpdateError (run_id Sample.run) 0 1)) /\
    persist_transition JournalSample.fresh_run JournalSample.cancelled JournalSample.event_1 w =
      (w, Err (DuplicateEventError JournalSample.event_1)).
Proof.
  set (cs := [CreateRun Sample.run]).
  assert (Hcs : Forall call_wf cs) by (repeat constructor; apply Sample.run_wf).
  destruct (persist_transition JournalSample.fresh_run JournalSample.started JournalSample.event_1
              (store_after short_texts cs)) as [w [s|e]] eqn:H.
  - exists w, s. split; [reflexivity|].
    destruct (persist_exactly_once short_texts cs JournalSample.fresh_run JournalSample.started
                JournalSample.event_1 w s Hcs eq_refl H) as (Hagain & _ & Hother & Hsame).
    split; [exact Hagain|]. split.
    + rewrite (Hother JournalSample.cancelled JournalSample.event_2) by reflexivity.
      apply (f_equal fst) in H. vm_compute in H. subst w. vm_compute. reflexivity.
    + apply Hsame; [vm_compute; reflexivity|]. intros Heq.
      apply (f_equal (fun r => run_state (res_run r))) in Heq. vm_compute in Heq. discriminate Heq.
  - exfalso. apply (f_equal snd) in H. vm_compute in H. discriminate H.
Defined.

(** A run whose text is longer than its column allows is refused. *)
Example long_run_refused :
  let t := mk_PayloadTexts (fun _ => String.string_of_list_ascii (repeat "x"%char 1048577)) (fun _ => "{}")
             (fun _ => "{}") (fun _ => "{}") (fun _ => "{}") (fun _ => "{}") (fun _ => "{}") id in
  (create_run Sample.run (new_store t)).2 = Err (StorageOperationError "create run").
Proof. vm_compute. reflexivity. Qed.
