(* ===== verification/UsageStore.v ===== *)
(** * Durable usage and budgets ([src/src/revanent/storage/sqlite.py])

    The telemetry operations of the SQLite repository: usage records,
    reservations and settlements are append-only rows whose retries are
    recognised by their identifier, and [reserve_if_allowed] decides and
    appends in one transaction.  The theorems relate that decision to the
    service's ([TelemetryService.decide_budget]) and bound what can be
    reserved. *)

From Stdlib Require Import ZArith Lia Ascii String.
From S2P Require Import Prelude Text Domain StateMachine Effects TelemetryPort TelemetryService Tables Storage.
From stdpp Require Import base option strings numbers gmap sets list list_relations sorting.

Open Scope Z_scope.

(** ** Deserialisation *)

Definition _deserialize_usage_record (row : usage_row) : res UsageRecord :=
  value ← corrupt_on_error (validate_UsageRecord (us_payload row))
            "usage payload failed telemetry validation" ;
  raise_if (negb (String.eqb (ur_id value) (us_usage_id row))
            || negb (String.eqb (ur_run_id value) (us_run_id row))
            || negb (String.eqb (ur_correlation_key value) (us_correlation_key row))
            || negb (String.eqb (UsageMetric.value (ur_metric value)) (us_metric row))
            || negb (String.eqb (UsageProvenance.value (ur_provenance value)) (us_provenance row))
            || negb (ur_schema_version value =? us_payload_version row))
    (CorruptStorageError "usage normalized fields do not match its payload") ;;
  mret value.

Definition _deserialize_reservation (row : reservation_row) : res BudgetReservation :=
  value ← corrupt_on_error (validate_BudgetReservation (rs_payload row))
            "reservation payload failed telemetry validation" ;
  raise_if (negb (String.eqb (br_id value) (rs_reservation_id row))
            || negb (String.eqb (br_run_id value) (rs_run_id row))
            || negb (String.eqb (br_idempotency_key value) (rs_idempotency_key row))
            || negb (String.eqb (BudgetMetric.value (br_metric value)) (rs_metric row))
            || negb (br_schema_version value =? rs_payload_version row))
    (CorruptStorageError "reservation normalized fields do not match its payload") ;;
  mret value.

Definition _deserialize_settlement (payload : BudgetSettlement) : res BudgetSettlement :=
  corrupt_on_error (validate_BudgetSettlement payload) "settlement payload failed telemetry validation".

(** Python's [==] on models compares decimals by value. *)
Fixpoint strip_zeros (fuel : nat) (d : decimal) : decimal :=
  match fuel with
  | O => d
  | S fuel => if negb (dec_coef d =? 0) && (dec_coef d mod 10 =? 0)
              then strip_zeros fuel (mk_decimal (dec_coef d / 10) (dec_exp d + 1)) else d
  end.

Definition dec_norm (d : decimal) : decimal :=
  if dec_coef d =? 0 then mk_decimal 0 0 else strip_zeros (Z.to_nat (digits (dec_coef d))) d.

Definition reservation_key (r : BudgetReservation) : BudgetReservation :=
  mk_BudgetReservation (br_schema_version r) (br_id r) (br_run_id r) (br_work_package_id r)
    (br_metric r) (br_unit r) (br_operation r) (br_idempotency_key r) (br_created_at r)
    (integer_reserved r) (dec_norm <$> decimal_reserved r) (br_currency r) (br_attempt_id r)
    (br_invocation_id r) (br_status r).

Definition settlement_key (s : BudgetSettlement) : BudgetSettlement :=
  mk_BudgetSettlement (bs_schema_version s) (bs_reservation_id s) (bs_settled_at s)
    (integer_consumed s) (dec_norm <$> decimal_consumed s) (bs_currency s) (bs_status s)
    (bs_reason_code s).

Definition reservation_eqb (a b : BudgetReservation) : bool :=
  bool_decide (reservation_key a = reservation_key b).
Definition settlement_eqb (a b : BudgetSettlement) : bool :=
  bool_decide (settlement_key a = settlement_key b).

Example dec_norm_ex : dec_norm (mk_decimal 1500 (-3)) = dec_norm (mk_decimal 15 (-1)).
Proof. vm_compute. done. Qed.

(** ** Inserts and their constraints *)

Definition same_key (a b : string * string * string) : bool := bool_decide (a = b).

Definition usage_key (row : usage_row) : string * string * string :=
  (us_run_id row, us_correlation_key row, us_metric row).
Definition reservation_boundary (row : reservation_row) : string * string * string :=
  (rs_run_id row, rs_idempotency_key row, rs_metric row).

(** The primary key, [uq_usage_correlation], [fk_usage_run] and the payload's length. *)
Definition insert_usage (row : usage_row) : M Store unit :=
  write (fun w => negb (existsb (fun u => String.eqb (us_usage_id u) (us_usage_id row)) (st_usage w)) &&
                  negb (existsb (fun u => same_key (usage_key u) (usage_key row)) (st_usage w)) &&
                  has_run (us_run_id row) w && usage_fits (st_texts w) (us_payload row))
        (add_usage row).

(** The primary key, [uq_reservation_boundary], [fk_reservation_run] and the
    payload's length. *)
Definition reservation_free (row : reservation_row) (w : Store) : bool :=
  negb (existsb (fun r => String.eqb (rs_reservation_id r) (rs_reservation_id row)) (st_reservations w)) &&
  negb (existsb (fun r => same_key (reservation_boundary r) (reservation_boundary row))
          (st_reservations w)) &&
  has_run (rs_run_id row) w && reservation_fits (st_texts w) (rs_payload row).

Definition _insert_reservation (reservation : BudgetReservation) : M Store unit :=
  let row := row_of_reservation reservation in write (reservation_free row) (add_reservation row).

(** The primary key, [fk_settlement_reservation] and the payload's length. *)
Definition insert_settlement (row : settlement_row) : M Store unit :=
  write (fun w => negb (existsb (fun s => String.eqb (ss_reservation_id s) (ss_reservation_id row))
                          (st_settlements w)) &&
                  existsb (fun r => String.eqb (rs_reservation_id r) (ss_reservation_id row))
                    (st_reservations w) && settlement_fits (st_texts w) (ss_payload row))
        (add_settlement row).

(** [except sqlite3.DatabaseError: raise StorageOperationError(operation)] around
    the transaction. *)
Definition database {A} (operation : string) (m : M Store A) : M Store A :=
  try_except (transaction m) is_IntegrityError (fun _ => raise (StorageOperationError operation)).

(** ** Reads *)

Definition select_usage (id : string) (w : Store) : option usage_row :=
  find_first (fun u => String.eqb (us_usage_id u) id) (st_usage w).
Definition select_reservation (id : string) (w : Store) : option reservation_row :=
  find_first (fun r => String.eqb (rs_reservation_id r) id) (st_reservations w).
Definition select_settlement (id : string) (w : Store) : option settlement_row :=
  find_first (fun s => String.eqb (ss_reservation_id s) id) (st_settlements w).

Definition usage_of (id : string) (w : Store) : list usage_row :=
  filter (fun u => String.eqb (us_run_id u) id = true) (st_usage w).
Definition reservations_of (id : string) (w : Store) : list reservation_row :=
  filter (fun r => String.eqb (rs_run_id r) id = true) (st_reservations w).

(** [ORDER BY a, b] on text columns. *)
Definition order_by {A} (key : A -> string * string) : list A -> list A :=
  py_sorted (fun a b => pair_le (key a) (key b)).

Definition list_usage_records (id : string) : M Store (list UsageRecord) :=
  rows ← gets (fun w => order_by (fun u => (us_metric u, us_correlation_key u)) (usage_of id w)) ;
  lift (traverse _deserialize_usage_record rows).

(** [{**reservation.model_dump(), "status": status}], validated. *)
Definition with_status (s : ReservationStatus.t) (r : BudgetReservation) : BudgetReservation :=
  mk_BudgetReservation (br_schema_version r) (br_id r) (br_run_id r) (br_work_package_id r)
    (br_metric r) (br_unit r) (br_operation r) (br_idempotency_key r) (br_created_at r)
    (integer_reserved r) (decimal_reserved r) (br_currency r) (br_attempt_id r)
    (br_invocation_id r) s.

(** A reservation with the status of its settlement. *)
Definition project_reservation (w : Store) (row : reservation_row) : res BudgetReservation :=
  reservation ← _deserialize_reservation row ;
  match select_settlement (rs_reservation_id row) w with
  | None => mret reservation
  | Some s =>
      settlement ← _deserialize_settlement (ss_payload s) ;
      validate_BudgetReservation (with_status (bs_status settlement) reservation)
  end.

Definition list_reservations (id : string) : M Store (list BudgetReservation) :=
  rows ← gets (fun w => (w, order_by (fun r => (rs_metric r, rs_idempotency_key r)) (reservations_of id w))) ;
  lift (traverse (project_reservation rows.1) rows.2).

(** ** Appends *)

Definition conflict (message : string) : exn := StorageOperationError message.

(** [_append_telemetry] on the usage table. *)
Definition record_usage (record : UsageRecord) : M Store bool :=
  database "append telemetry"
    (existing ← gets (select_usage (ur_id record)) ;
     match existing with
     | Some row => if bool_decide (us_payload row = record) then mret false
                   else raise (conflict "telemetry identifier conflict")
     | None => insert_usage (row_of_usage record) ;; mret true
     end).

(** [_append_telemetry] on the reservations table. *)
Definition reserve (reservation : BudgetReservation) : M Store bool :=
  database "append telemetry"
    (existing ← gets (select_reservation (br_id reservation)) ;
     match existing with
     | Some row => if bool_decide (rs_payload row = reservation) then mret false
                   else raise (conflict "telemetry identifier conflict")
     | None => _insert_reservation reservation ;; mret true
     end).

Definition settle (settlement : BudgetSettlement) : M Store bool :=
  database "settle budget reservation"
    (reservation ← gets (select_reservation (bs_reservation_id settlement)) ;
     match reservation with
     | None => raise (conflict "settle unknown reservation")
     | Some _ =>
         existing ← gets (select_settlement (bs_reservation_id settlement)) ;
         match existing with
         | Some row =>
             persisted ← lift (_deserialize_settlement (ss_payload row)) ;
             if settlement_eqb persisted settlement then mret false
             else raise (conflict "budget settlement identifier conflict")
         | None => insert_settlement (row_of_settlement settlement) ;; mret true
         end
     end).

(** ** The atomic reservation *)

Definition _USAGE_METRICS_BY_BUDGET (m : BudgetMetric.t) : list UsageMetric.t :=
  match m with
  | BudgetMetric.BUILD_ATTEMPTS => [UsageMetric.BUILD_ATTEMPTS]
  | BudgetMetric.REVIEW_ATTEMPTS => [UsageMetric.REVIEW_ATTEMPTS]
  | BudgetMetric.REPAIR_ATTEMPTS => [UsageMetric.REPAIR_ATTEMPTS]
  | BudgetMetric.TOTAL_DURATION =>
      [UsageMetric.COMMAND_DURATION; UsageMetric.VALIDATION_DURATION; UsageMetric.PROVIDER_DURATION]
  | BudgetMetric.REMOTE_TOKENS => [UsageMetric.TOTAL_TOKENS]
  | BudgetMetric.ESTIMATED_COST => [UsageMetric.ESTIMATED_COST]
  end.

(** [run_id = ? AND metric IN (...)] *)
Definition metric_usage (id : string) (m : BudgetMetric.t) (w : Store) : list usage_row :=
  filter (fun u => us_metric u ∈ UsageMetric.value <$> _USAGE_METRICS_BY_BUDGET m) (usage_of id w).

Definition row_unavailable (u : usage_row) : bool := String.eqb (us_provenance u) "UNAVAILABLE".

(** [run_id = ? AND metric = ?] on reservations. *)
Definition metric_reservations (id : string) (m : BudgetMetric.t) (w : Store) : list reservation_row :=
  filter (fun r => rs_metric r = BudgetMetric.value m) (reservations_of id w).

(** A joined settlement whose payload says [UNRESOLVED]. *)
Definition row_unresolved (w : Store) (r : reservation_row) : bool :=
  match select_settlement (rs_reservation_id r) w with
  | None => false
  | Some s => bool_decide (bs_status (ss_payload s) = ReservationStatus.UNRESOLVED)
  end.

Definition row_open (w : Store) (r : reservation_row) : bool :=
  is_none (select_settlement (rs_reservation_id r) w).

(** A validation duration that outran its reservation. *)
Definition row_overage (u : usage_row) : bool :=
  String.eqb (us_metric u) "VALIDATION_DURATION"
  && bool_decide (ur_reason_code (us_payload u) = Some "validation_duration_overage").

(** The sums of the aggregate queries; absent values count nothing. *)
Definition used_integer (id : string) (m : BudgetMetric.t) (w : Store) : Z :=
  py_sum ((fun u => default 0 (integer_value (us_payload u)))
          <$> filter (fun u => row_unavailable u = false) (metric_usage id m w)).
Definition open_integer (id : string) (m : BudgetMetric.t) (w : Store) : Z :=
  py_sum ((fun r => default 0 (integer_reserved (rs_payload r)))
          <$> filter (fun r => row_open w r = true) (metric_reservations id m w)).

Section reserving.
Context (reservation : BudgetReservation).
Let id := br_run_id reservation.
Let metric := br_metric reservation.
Let unit := br_unit reservation.

Definition deny (status : BudgetDecisionStatus.t) (reason : string) : M Store BudgetDecision :=
  lift (budget_decision status metric unit None None (Some reason)).

(** Append the reservation, then answer. *)
Definition allow (remaining : option Z) (remaining_dec : option decimal) : M Store BudgetDecision :=
  _insert_reservation reservation ;;
  lift (budget_decision BudgetDecisionStatus.ALLOW metric unit remaining remaining_dec None).

Definition reserve_integer (bound : Z) : M Store BudgetDecision :=
  remaining ← gets (fun w => bound - used_integer id metric w - open_integer id metric w) ;
  if match integer_reserved reservation with None => true | Some n => remaining <? n end then
    lift (budget_decision BudgetDecisionStatus.DENY_LIMIT_EXHAUSTED metric unit
            (Some (Z.max 0 remaining)) None (Some "limit_exhausted"))
  else allow (Some remaining) None.

Definition reserve_decimal (bound : decimal) : M Store BudgetDecision :=
  usage_rows ← gets (fun w => filter (fun u => row_unavailable u = false) (metric_usage id metric w)) ;
  reservation_rows ← gets (fun w => filter (fun r => row_open w r = true) (metric_reservations id metric w)) ;
  used ← lift (traverse _deserialize_usage_record usage_rows) ;
  open ← lift (traverse _deserialize_reservation reservation_rows) ;
  let consumed := dec_sum ((fun r => dec_or_zero (decimal_value r)) <$> used) in
  let active := dec_sum ((fun r => dec_or_zero (decimal_reserved r)) <$> open) in
  let remaining := dec_minus (dec_minus bound consumed) active in
  if match decimal_reserved reservation with None => true | Some d => decimal_lt remaining d end then
    lift (budget_decision BudgetDecisionStatus.DENY_LIMIT_EXHAUSTED metric unit None
            (Some (dec_floor remaining)) (Some "limit_exhausted"))
  else allow None (Some remaining).

(** The reservation is not there yet. *)
Definition reserve_new (policy : BudgetPolicy) (require_known : bool) : M Store BudgetDecision :=
  match find_first (fun l => bool_decide (bl_metric l = metric)) (limits policy) with
  | None => allow None None
  | Some limit =>
      if negb (bool_decide (bl_currency limit = br_currency reservation)) then
        deny BudgetDecisionStatus.DENY_INVALID_REQUEST "currency_mismatch" else
      unavailable ← gets (fun w => existsb row_unavailable (metric_usage id metric w)) ;
      unresolved ← gets (fun w => existsb (row_unresolved w) (metric_reservations id metric w)) ;
      if unresolved : bool then
        deny BudgetDecisionStatus.DENY_UNRESOLVED_RESERVATION "unresolved_reservation"
      else if require_known && unavailable then
        deny BudgetDecisionStatus.DENY_USAGE_UNAVAILABLE "usage_unavailable"
      else
        overage ← gets (fun w => bool_decide (metric = BudgetMetric.TOTAL_DURATION)
                                 && existsb row_overage (usage_of id w)) ;
        if overage : bool then
          deny BudgetDecisionStatus.DENY_LIMIT_EXHAUSTED "validation_duration_overage"
        else
          match integer_limit limit, decimal_limit limit with
          | Some bound, _ => reserve_integer bound
          | None, Some bound => reserve_decimal bound
          | None, None => raise AssertionError
          end
  end.

Definition reserve_if_allowed (policy : BudgetPolicy) (expected_revision : option Z)
    (require_known : bool) : M Store BudgetDecision :=
  database "atomically reserve budget"
    (row ← gets (fun w => st_runs w !! id) ;
     match row with
     | None => raise (RunNotFoundError id)
     | Some row =>
         if match expected_revision with None => false | Some n => negb (rr_revision row =? n) end then
           deny BudgetDecisionStatus.DENY_STALE_STATE "stale_run_revision" else
         existing ← gets (select_reservation (br_id reservation)) ;
         match existing with
         | Some row =>
             persisted ← lift (validate_BudgetReservation (rs_payload row)) ;
             if reservation_eqb persisted reservation
             then lift (budget_decision BudgetDecisionStatus.ALLOW metric unit None None None)
             else raise (conflict "telemetry reservation identifier conflict")
         | None => reserve_new policy require_known
         end
     end).
End reserving.

(** ** Settlement *)

(** The checks before the transaction. *)
Definition settlement_mismatch (reservation : BudgetReservation) (settlement : BudgetSettlement)
    (usage_records : list UsageRecord) : res unit :=
  let settled := bool_decide (bs_status settlement = ReservationStatus.SETTLED) in
  raise_if (negb (String.eqb (bs_reservation_id settlement) (br_id reservation)))
    (conflict "settlement reservation correlation mismatch") ;;
  raise_if (dt_lt (bs_settled_at settlement) (br_created_at reservation))
    (conflict "settlement timestamp precedes reservation") ;;
  (if is_some (integer_reserved reservation) then
     raise_if (settled && (is_none (integer_consumed settlement) || is_some (decimal_consumed settlement)
                           || is_some (bs_currency settlement)))
       (conflict "integer settlement unit mismatch")
   else
     raise_if (settled && (is_none (decimal_consumed settlement) || is_some (integer_consumed settlement)
                           || negb (bool_decide (bs_currency settlement = br_currency reservation))))
       (conflict "Decimal settlement unit mismatch")) ;;
  raise_if (existsb (fun u => negb (String.eqb (ur_run_id u) (br_run_id reservation))
                              || negb (String.eqb (ur_work_package_id u) (br_work_package_id reservation))
                              || negb (bool_decide (ur_attempt_id u = br_attempt_id reservation))
                              || negb (bool_decide (ur_invocation_id u = br_invocation_id reservation)))
              usage_records)
    (conflict "settlement usage correlation mismatch").

(** The loop over the records of a settlement that is already there. *)
Fixpoint usage_retried (usage_records : list UsageRecord) : M Store unit :=
  match usage_records with
  | [] => mret tt
  | r :: rs =>
      row ← gets (select_usage (ur_id r)) ;
      if match row with Some u => negb (bool_decide (us_payload u = r)) | None => true end
      then raise (conflict "settlement usage retry conflict") else usage_retried rs
  end.

(** The loop that appends the records that are not there yet. *)
Fixpoint append_usage (usage_records : list UsageRecord) : M Store unit :=
  match usage_records with
  | [] => mret tt
  | r :: rs =>
      existing ← gets (select_usage (ur_id r)) ;
      match existing with
      | Some u => if negb (bool_decide (us_payload u = r)) then raise (conflict "usage identifier conflict")
                  else append_usage rs
      | None => insert_usage (row_of_usage r) ;; append_usage rs
      end
  end.

Definition settle_reservation (reservation : BudgetReservation) (settlement : BudgetSettlement)
    (usage_records : list UsageRecord) : M Store bool :=
  lift (settlement_mismatch reservation settlement usage_records) ;;
  database "atomically settle reservation"
    (row ← gets (select_reservation (br_id reservation)) ;
     match row with
     | None => raise (conflict "settle unknown reservation")
     | Some row =>
         persisted ← lift (_deserialize_reservation row) ;
         if negb (reservation_eqb persisted reservation) then
           raise (conflict "settlement reservation payload conflict") else
         existing ← gets (select_settlement (br_id reservation)) ;
         match existing with
         | Some s =>
             settled ← lift (_deserialize_settlement (ss_payload s)) ;
             if negb (settlement_eqb settled settlement) then
               raise (conflict "budget settlement identifier conflict") else
             usage_retried usage_records ;;
             mret false
         | None =>
             append_usage usage_records ;;
             insert_settlement (row_of_settlement settlement) ;;
             mret true
         end
     end).

#[export] Instance sqlite_telemetry : TelemetryRepository Store := {|
  repo_list_usage_records := list_usage_records;
  repo_list_reservations := list_reservations;
  repo_record_usage := record_usage;
  repo_reserve_if_allowed := reserve_if_allowed;
  repo_settle_reservation := settle_reservation
|}.

(** ** What the tables hold *)

Record telemetry_wf (w : Store) : Prop := {
  tw_usage : Forall (fun u => exists r, u = row_of_usage r /\ validate_UsageRecord r = Ok r) (st_usage w);
  tw_reservations : Forall (fun v => exists r, v = row_of_reservation r /\
                                     validate_BudgetReservation r = Ok r) (st_reservations w);
  tw_settlements : Forall (fun v => exists s, v = row_of_settlement s /\ validate_BudgetSettlement s = Ok s /\
                                    is_some (select_reservation (bs_reservation_id s) w) = true)
                          (st_settlements w)
}.

Lemma telemetry_wf_empty t : telemetry_wf (new_store t).
Proof. split; constructor. Qed.

Lemma deserialize_usage_row r :
  validate_UsageRecord r = Ok r -> _deserialize_usage_record (row_of_usage r) = Ok r.
Proof.
  intros Hr. unfold _deserialize_usage_record, row_of_usage.
  cbn [us_payload us_usage_id us_run_id us_correlation_key us_metric us_provenance us_payload_version].
  rewrite Hr. cbn [corrupt_on_error mbind result_bind]. rewrite !String.eqb_refl, Z.eqb_refl. done.
Qed.

Lemma deserialize_reservation_row r :
  validate_BudgetReservation r = Ok r -> _deserialize_reservation (row_of_reservation r) = Ok r.
Proof.
  intros Hr. unfold _deserialize_reservation, row_of_reservation.
  cbn [rs_payload rs_reservation_id rs_run_id rs_idempotency_key rs_metric rs_payload_version].
  rewrite Hr. cbn [corrupt_on_error mbind result_bind]. rewrite !String.eqb_refl, Z.eqb_refl. done.
Qed.

Lemma valid_reservation_eq r s : _valid_reservation r = Ok s -> s = r.
Proof. unfold _valid_reservation. intros H. inv_ok. done. Qed.

(** The status is no part of what is validated. *)
Lemma with_status_valid s r :
  validate_BudgetReservation r = Ok r ->
  validate_BudgetReservation (with_status s r) = Ok (with_status s r).
Proof.
  unfold validate_BudgetReservation. intros H. inv_valid.
  pose proof (valid_reservation_eq _ _ H) as Heq. cbn in *.
  idem. unfold _valid_reservation in *. cbn in *. destruct r; cbn in *; injection Heq as <- <- <- <- <- <- <- <- <-.
  unfold with_status. cbn. inv_ok. idem. done.
Qed.

(** ** Aggregates over rows *)

Section aggregates.
Context {A B : Type}.

Lemma existsb_perm (p : A -> bool) xs ys : xs ≡ₚ ys -> existsb p xs = existsb p ys.
Proof.
  induction 1 as [|x xs ys H IH|x y xs|xs ys zs H1 IH1 H2 IH2]; simpl; [done|by rewrite IH| |congruence].
  by destruct (p x), (p y).
Qed.

Lemma existsb_fmap (p : B -> bool) (f : A -> B) xs : existsb p (f <$> xs) = existsb (fun x => p (f x)) xs.
Proof. induction xs as [|x xs IH]; [done|]. cbn. by rewrite <- IH. Qed.

Lemma existsb_filter (p : A -> bool) (P : A -> Prop) `{forall x, Decision (P x)} xs :
  existsb p (filter P xs) = existsb (fun x => bool_decide (P x) && p x) xs.
Proof.
  induction xs as [|x xs IH]; [done|]. cbn [existsb]. rewrite filter_cons, <- IH.
  case_decide as Hx; [rewrite bool_decide_eq_true_2 by done | rewrite bool_decide_eq_false_2 by done]; done.
Qed.

Lemma py_sum_filter (f : A -> Z) (P : A -> Prop) `{forall x, Decision (P x)} xs :
  py_sum (f <$> filter P xs) = py_sum ((fun x => if bool_decide (P x) then f x else 0) <$> xs).
Proof.
  induction xs as [|x xs IH]; [done|]. rewrite filter_cons, fmap_cons. cbn [py_sum foldr].
  change (foldr Z.add 0 ?l) with (py_sum l). rewrite <- IH. case_decide as Hx.
  - by rewrite bool_decide_eq_true_2.
  - by rewrite bool_decide_eq_false_2.
Qed.

Lemma existsb_ext (p q : A -> bool) xs : Forall (fun x => p x = q x) xs -> existsb p xs = existsb q xs.
Proof. induction 1 as [|x xs Hx Hxs IH]; simpl; congruence. Qed.

Lemma Forall_of_filter (Q P : A -> Prop) `{forall x, Decision (P x)} xs :
  Forall Q xs -> Forall Q (filter P xs).
Proof. rewrite !Forall_forall. intros HQ x (_ & Hx)%list_elem_of_filter. by apply HQ. Qed.

Lemma fmap_ext (f g : A -> B) xs : Forall (fun x => f x = g x) xs -> f <$> xs = g <$> xs.
Proof. induction 1 as [|x xs Hx Hxs IH]; [done|]. rewrite !fmap_cons. congruence. Qed.
End aggregates.

Lemma order_by_perm {A} (key : A -> string * string) xs : order_by key xs ≡ₚ xs.
Proof. apply py_sorted_perm. Qed.

Lemma traverse_total {A B} (f : A -> res B) (g : A -> B) xs :
  Forall (fun x => f x = Ok (g x)) xs -> traverse f xs = Ok (g <$> xs).
Proof. intros H. apply traverse_Forall2. induction H; constructor; done. Qed.

Lemma budget_metric_value_inj m n : BudgetMetric.value m = BudgetMetric.value n -> m = n.
Proof. by destruct m, n. Qed.
Lemma usage_metric_value_inj m n : UsageMetric.value m = UsageMetric.value n -> m = n.
Proof. by destruct m, n. Qed.

Section tables.
Context (w : Store) (Hwf : telemetry_wf w) (id : string).

Lemma usage_rows_wf : Forall (fun u => exists r, u = row_of_usage r /\ validate_UsageRecord r = Ok r)
                        (usage_of id w).
Proof. apply Forall_of_filter, (tw_usage _ Hwf). Qed.

Lemma reservation_rows_wf :
  Forall (fun v => exists r, v = row_of_reservation r /\ validate_BudgetReservation r = Ok r)
    (reservations_of id w).
Proof. apply Forall_of_filter, (tw_reservations _ Hwf). Qed.

Lemma list_usage_records_ok :
  exists records, list_usage_records id w = (w, Ok records) /\ records ≡ₚ us_payload <$> usage_of id w.
Proof.
  unfold list_usage_records, mbind, M_bind, gets, lift.
  rewrite (traverse_total _ us_payload).
  - eexists. split; [reflexivity|]. apply fmap_Permutation, order_by_perm.
  - rewrite order_by_perm. eapply Forall_impl; [apply usage_rows_wf|].
    intros u (r & -> & Hr). by apply deserialize_usage_row.
Qed.

(** The reservation as [list_reservations] shows it. *)
Definition shown (v : reservation_row) : BudgetReservation :=
  match select_settlement (rs_reservation_id v) w with
  | None => rs_payload v
  | Some s => with_status (bs_status (ss_payload s)) (rs_payload v)
  end.

Lemma select_settlement_wf rid s :
  select_settlement rid w = Some s -> validate_BudgetSettlement (ss_payload s) = Ok (ss_payload s).
Proof.
  intros [Hs _]%find_first_Some. pose proof (tw_settlements _ Hwf) as H. rewrite Forall_forall in H.
  destruct (H _ Hs) as (x & -> & Hx & _). done.
Qed.

Lemma list_reservations_ok :
  exists reservations, list_reservations id w = (w, Ok reservations) /\
    reservations ≡ₚ shown <$> reservations_of id w.
Proof.
  unfold list_reservations, mbind, M_bind, gets, lift. cbn [fst snd].
  rewrite (traverse_total _ shown).
  - eexists. split; [reflexivity|]. apply fmap_Permutation, order_by_perm.
  - rewrite order_by_perm. eapply Forall_impl; [apply reservation_rows_wf|].
    intros v (r & -> & Hr). unfold project_reservation, shown.
    rewrite deserialize_reservation_row by done. cbn [mbind result_bind].
    destruct (select_settlement _ w) as [s|] eqn:Hs; [|done].
    unfold _deserialize_settlement. rewrite (select_settlement_wf _ _ Hs). cbn.
    by apply with_status_valid.
Qed.
End tables.

(** The usage both decisions count: no [LOCAL_ATTEMPTS] or [REMOTE_ATTEMPTS],
    which only the service counts as build attempts, and overages only on
    validation durations. *)
Definition counted (u : usage_row) : Prop :=
  ur_metric (us_payload u) <> UsageMetric.LOCAL_ATTEMPTS /\
  ur_metric (us_payload u) <> UsageMetric.REMOTE_ATTEMPTS /\
  (ur_reason_code (us_payload u) = Some "validation_duration_overage" ->
   ur_metric (us_payload u) = UsageMetric.VALIDATION_DURATION).

Lemma row_unavailable_usage r : row_unavailable (row_of_usage r) = is_unavailable r.
Proof. unfold row_unavailable, is_unavailable. cbn. by destruct (ur_provenance r). Qed.

Lemma metric_counts r m :
  counted (row_of_usage r) ->
  bool_decide (us_metric (row_of_usage r) ∈ UsageMetric.value <$> _USAGE_METRICS_BY_BUDGET m) = counts_for m r.
Proof.
  intros (Hl & Hr & _). cbn in *. unfold counts_for.
  destruct (ur_metric r); try done; destruct m; reflexivity.
Qed.

Lemma overage_row r :
  counted (row_of_usage r) -> forall m,
  bool_decide (m = BudgetMetric.TOTAL_DURATION) && row_overage (row_of_usage r) =
  is_overage r && counts_for m r.
Proof.
  intros (_ & _ & Ho) m. cbn in Ho. unfold row_overage, is_overage, counts_for. cbn.
  destruct (bool_decide (ur_reason_code r = Some _)) eqn:Hb.
  - apply bool_decide_eq_true in Hb. rewrite (Ho Hb). by destruct m.
  - rewrite !andb_false_r. done.
Qed.

(** The rows of the reservations were written as active ones. *)
Definition active_rows (w : Store) : Prop :=
  Forall (fun v => br_status (rs_payload v) = ReservationStatus.ACTIVE) (st_reservations w).

Section decisions.
Context (w : Store) (Hwf : telemetry_wf w) (Hc : Forall counted (st_usage w)) (Ha : active_rows w)
        (id : string) (m : BudgetMetric.t).
Context (records : list UsageRecord) (Hrecords : records ≡ₚ us_payload <$> usage_of id w)
        (reservations : list BudgetReservation)
        (Hreservations : reservations ≡ₚ shown w <$> reservations_of id w).

Lemma usage_pointwise : Forall (fun u => exists r, u = row_of_usage r /\ counted u) (usage_of id w).
Proof.
  apply Forall_of_filter. pose proof (tw_usage _ Hwf) as H. rewrite Forall_forall in *.
  intros u Hu. destruct (H u Hu) as (r & -> & _). eauto.
Qed.

Lemma consumed_used : consumed_integer m records = used_integer id m w.
Proof.
  unfold consumed_integer, measured_for, used_integer, metric_usage.
  rewrite list_filter_filter, !py_sum_filter.
  rewrite (py_sum_perm _ _ (fmap_Permutation _ _ _ Hrecords)), <- list_fmap_compose.
  f_equal. apply fmap_ext. eapply Forall_impl; [apply usage_pointwise|].
  intros u (r & -> & Hu). cbn [compose]. pose proof (metric_counts r m Hu) as Hm.
  pose proof (row_unavailable_usage r) as Hun. cbn [us_payload row_of_usage] in *.
  unfold compose. cbn [us_payload row_of_usage].
  replace (bool_decide (counts_for m r && negb (is_unavailable r) = true))
    with (bool_decide (row_unavailable (row_of_usage r) = false /\
            us_metric (row_of_usage r) ∈ UsageMetric.value <$> _USAGE_METRICS_BY_BUDGET m)); [done|].
  apply bool_decide_ext. rewrite Hun, <- Hm. cbn. rewrite andb_true_iff, negb_true_iff, bool_decide_eq_true. tauto.
Qed.

Lemma unavailable_rows :
  existsb (fun r => is_unavailable r && counts_for m r) records =
  existsb row_unavailable (metric_usage id m w).
Proof.
  unfold metric_usage. rewrite (existsb_perm _ _ _ Hrecords), existsb_fmap, existsb_filter.
  apply existsb_ext. eapply Forall_impl; [apply usage_pointwise|]. intros u (r & -> & Hu).
  rewrite (metric_counts r m Hu), row_unavailable_usage. cbn. apply andb_comm.
Qed.

Lemma overage_rows :
  existsb (fun r => is_overage r && counts_for m r) records =
  bool_decide (m = BudgetMetric.TOTAL_DURATION) && existsb row_overage (usage_of id w).
Proof.
  rewrite (existsb_perm _ _ _ Hrecords), existsb_fmap.
  transitivity (existsb (fun u => bool_decide (m = BudgetMetric.TOTAL_DURATION) && row_overage u) (usage_of id w)).
  - apply existsb_ext. eapply Forall_impl; [apply usage_pointwise|]. intros u (r & -> & Hu).
    by rewrite (overage_row r Hu).
  - destruct (bool_decide _); [done|]. cbn [andb].
    generalize (usage_of id w) as l. intros l. by induction l.
Qed.

Lemma reservation_pointwise :
  Forall (fun v => exists r, v = row_of_reservation r /\ br_status r = ReservationStatus.ACTIVE)
    (reservations_of id w).
Proof.
  pose proof (reservation_rows_wf w Hwf id) as Hrows.
  pose proof (Forall_of_filter _ (fun r => String.eqb (rs_run_id r) id = true) _ Ha) as Hact.
  fold (reservations_of id w) in Hact. rewrite Forall_forall in *. intros v Hv.
  destruct (Hrows v Hv) as (r & -> & _). exists r. split; [done|]. exact (Hact _ Hv).
Qed.

Lemma settlement_status rid s :
  select_settlement rid w = Some s -> bs_status (ss_payload s) <> ReservationStatus.ACTIVE.
Proof.
  intros Hs%(select_settlement_wf w Hwf). unfold validate_BudgetSettlement in Hs. inv_valid.
  match goal with H : bool_decide (_ ∈ _) = true |- _ => apply bool_decide_eq_true in H; rename H into Hin end.
  intros Heq. rewrite Heq in Hin. enum.
Qed.

Lemma metric_matches_iff r :
  rs_metric (row_of_reservation r) = BudgetMetric.value m <-> br_metric r = m.
Proof. cbn. split; [apply budget_metric_value_inj | by intros ->]. Qed.

Lemma metric_matches r :
  bool_decide (rs_metric (row_of_reservation r) = BudgetMetric.value m) = bool_decide (br_metric r = m).
Proof. apply bool_decide_ext, metric_matches_iff. Qed.

Lemma shown_metric v : br_metric (shown w v) = br_metric (rs_payload v).
Proof. unfold shown. by destruct (select_settlement _ _). Qed.

Lemma unresolved_rows :
  existsb (has_reservation_status ReservationStatus.UNRESOLVED m) reservations =
  existsb (row_unresolved w) (metric_reservations id m w).
Proof.
  unfold metric_reservations. rewrite (existsb_perm _ _ _ Hreservations), existsb_fmap, existsb_filter.
  apply existsb_ext. eapply Forall_impl; [apply reservation_pointwise|]. intros v (r & -> & Hr).
  rewrite metric_matches. unfold has_reservation_status. rewrite shown_metric, andb_comm. f_equal.
  unfold shown, row_unresolved. destruct (select_settlement _ w); cbn; [done|]. by rewrite Hr.
Qed.

Lemma reserved_open : reserved_integer m reservations = open_integer id m w.
Proof.
  unfold reserved_integer, active_for, open_integer, metric_reservations.
  rewrite list_filter_filter, !py_sum_filter.
  rewrite (py_sum_perm _ _ (fmap_Permutation _ _ _ Hreservations)), <- list_fmap_compose.
  f_equal. apply fmap_ext. eapply Forall_impl; [apply reservation_pointwise|]. intros v (r & -> & Hr).
  unfold compose. 
  assert (Hd : bool_decide (has_reservation_status ReservationStatus.ACTIVE m (shown w (row_of_reservation r)) = true)
    = bool_decide (row_open w (row_of_reservation r) = true /\
         rs_metric (row_of_reservation r) = BudgetMetric.value m)).
  { apply bool_decide_ext. unfold has_reservation_status. rewrite shown_metric, andb_true_iff, !bool_decide_eq_true.
    rewrite metric_matches_iff.
    unfold shown, row_open. destruct (select_settlement _ w) as [s|] eqn:Hs; cbn; [|naive_solver].
    pose proof (settlement_status _ _ Hs). naive_solver. }
  rewrite Hd. unfold shown. by destruct (select_settlement _ w).
Qed.
End decisions.

(** ** Invariant *)

Lemma database_Ok {A} operation (m : M Store A) w w' a :
  database operation m w = (w', Ok a) <-> m w = (w', Ok a).
Proof.
  unfold database, try_except, transaction. destruct (m w) as [w1 [b|e]] eqn:Hm; [done|].
  split; [|done]. by destruct (is_IntegrityError e).
Qed.

(** A refused operation changes nothing. *)
Lemma database_err {A} operation (m : M Store A) w w' e :
  database operation m w = (w', Err e) -> w' = w.
Proof.
  unfold database, try_except, transaction. destruct (m w) as [w1 [b|e1]]; [done|].
  destruct (is_IntegrityError e1); unfold raise; congruence.
Qed.

Lemma write_Ok ok change w w' u : write ok change w = (w', Ok u) <-> ok w = true /\ w' = change w.
Proof. unfold write. destruct (ok w), u; naive_solver. Qed.

Lemma reservation_known_mono rid row w :
  is_some (select_reservation rid w) = true -> is_some (select_reservation rid (add_reservation row w)) = true.
Proof. unfold select_reservation. cbn. rewrite find_first_app. by destruct (find_first _ _). Qed.

Lemma wf_add_usage w r :
  telemetry_wf w -> validate_UsageRecord r = Ok r -> telemetry_wf (add_usage (row_of_usage r) w).
Proof.
  intros [Hu Hr Hs] H. split; [|done|done]. apply Forall_app. split; [done|]. repeat constructor. eauto.
Qed.

Lemma wf_add_reservation w r :
  telemetry_wf w -> validate_BudgetReservation r = Ok r ->
  telemetry_wf (add_reservation (row_of_reservation r) w).
Proof.
  intros [Hu Hr Hs] H. split; [done| |].
  - apply Forall_app. split; [done|]. repeat constructor. eauto.
  - eapply Forall_impl; [exact Hs|]. intros v (s & -> & Hv & Hk). exists s. split; [done|]. split; [done|].
    by apply reservation_known_mono.
Qed.

Lemma wf_add_settlement w s :
  telemetry_wf w -> validate_BudgetSettlement s = Ok s ->
  is_some (select_reservation (bs_reservation_id s) w) = true ->
  telemetry_wf (add_settlement (row_of_settlement s) w).
Proof.
  intros [Hu Hr Hs] H Hk. split; [done|done|]. apply Forall_app. split; [exact Hs|]. repeat constructor. eauto.
Qed.

Lemma append_usage_wf rs w w' u :
  Forall (fun r => validate_UsageRecord r = Ok r) rs -> telemetry_wf w ->
  append_usage rs w = (w', Ok u) ->
  telemetry_wf w' /\ st_reservations w' = st_reservations w /\ st_settlements w' = st_settlements w.
Proof.
  intros Hrs. revert w. induction Hrs as [|r rs Hr Hrs IH]; intros w Hwf H; cbn in H; inv_run; [done|].
  destruct (select_usage (ur_id r) w0) as [v|].
  - destruct (negb _); [inv_run|]. by apply (IH w0).
  - inv_run. unfold insert_usage in Hv. apply write_Ok in Hv as [_ ->].
    apply IH in H; [|by apply wf_add_usage]. done.
Qed.

(** The telemetry operations, whichever component calls them. *)
Inductive telemetry_call : Type :=
| RecordUsage (record : UsageRecord)
| Reserve (reservation : BudgetReservation)
| ReserveIfAllowed (reservation : BudgetReservation) (policy : BudgetPolicy)
    (expected_revision : option Z) (require_known : bool)
| Settle (settlement : BudgetSettlement)
| SettleReservation (reservation : BudgetReservation) (settlement : BudgetSettlement)
    (usage_records : list UsageRecord).

(** The arguments are instances of their classes. *)
Definition telemetry_call_wf (c : telemetry_call) : Prop :=
  match c with
  | RecordUsage r => validate_UsageRecord r = Ok r
  | Reserve r | ReserveIfAllowed r _ _ _ => validate_BudgetReservation r = Ok r
  | Settle s => validate_BudgetSettlement s = Ok s
  | SettleReservation r s rs =>
      validate_BudgetSettlement s = Ok s /\ Forall (fun r => validate_UsageRecord r = Ok r) rs
  end.

Definition telemetry_exec (c : telemetry_call) (w : Store) : Store :=
  match c with
  | RecordUsage r => fst (record_usage r w)
  | Reserve r => fst (reserve r w)
  | Settle s => fst (settle s w)
  | ReserveIfAllowed r policy revision known => fst (reserve_if_allowed r policy revision known w)
  | SettleReservation r s rs => fst (settle_reservation r s rs w)
  end.

(** What a reservation attempt does to the store: nothing, or one new row. *)
Lemma allow_step r remaining remaining_dec w w' b :
  allow r remaining remaining_dec w = (w', Ok b) ->
  reservation_free (row_of_reservation r) w = true /\ w' = add_reservation (row_of_reservation r) w /\
  budget_decision BudgetDecisionStatus.ALLOW (br_metric r) (br_unit r) remaining remaining_dec None = Ok b.
Proof. unfold allow, _insert_reservation. intros H. inv_run. apply write_Ok in Hv as [? ->]. done. Qed.

Lemma budget_decision_status status metric unit remaining remaining_dec reason b :
  budget_decision status metric unit remaining remaining_dec reason = Ok b ->
  bd_status b = status /\ remaining_integer b = remaining /\ bd_metric b = metric.
Proof. unfold budget_decision, validate_BudgetDecision. intros H. inv_valid. done. Qed.

Inductive reserve_outcome (r : BudgetReservation) (policy : BudgetPolicy) (w w' : Store)
    (b : BudgetDecision) : Prop :=
| reserve_denied :
    w' = w -> bd_status b <> BudgetDecisionStatus.ALLOW -> reserve_outcome r policy w w' b
| reserve_retried v :
    w' = w -> bd_status b = BudgetDecisionStatus.ALLOW -> select_reservation (br_id r) w = Some v ->
    reserve_outcome r policy w w' b
| reserve_added :
    w' = add_reservation (row_of_reservation r) w -> bd_status b = BudgetDecisionStatus.ALLOW ->
    select_reservation (br_id r) w = None ->
    (forall limit bound,
       find_first (fun l => bool_decide (bl_metric l = br_metric r)) (limits policy) = Some limit ->
       integer_limit limit = Some bound ->
       exists n, integer_reserved r = Some n /\
         n <= bound - used_integer (br_run_id r) (br_metric r) w - open_integer (br_run_id r) (br_metric r) w /\
         remaining_integer b =
           Some (bound - used_integer (br_run_id r) (br_metric r) w - open_integer (br_run_id r) (br_metric r) w)) ->
    reserve_outcome r policy w w' b.

Lemma deny_step r status reason w w' b :
  deny r status reason w = (w', Ok b) -> w' = w /\ bd_status b = status.
Proof. unfold deny. intros H. inv_run. split; [done|]. by apply budget_decision_status in H as (? & _). Qed.

Lemma reserve_new_step r policy known w w' b :
  select_reservation (br_id r) w = None ->
  reserve_new r policy known w = (w', Ok b) -> reserve_outcome r policy w w' b.
Proof.
  intros Hnew. unfold reserve_new. destruct (find_first _ _) as [limit|] eqn:Hl.
  2:{ intros (? & -> & Hb)%allow_step. apply budget_decision_status in Hb as (? & _).
      apply reserve_added; try done. by rewrite Hl. }
  destruct (negb _).
  { intros [-> Hs]%deny_step. apply reserve_denied; [done|by rewrite Hs]. }
  intros H. inv_run. destruct (existsb (row_unresolved _) _).
  { apply deny_step in H as [-> Hs]. apply reserve_denied; [done|by rewrite Hs]. }
  destruct (known && _).
  { apply deny_step in H as [-> Hs]. apply reserve_denied; [done|by rewrite Hs]. }
  inv_run. destruct (_ && existsb row_overage _).
  { apply deny_step in H as [-> Hs]. apply reserve_denied; [done|by rewrite Hs]. }
  destruct (integer_limit limit) as [bound|] eqn:Hi; [|destruct (decimal_limit limit) as [bound|]; [|done]].
  - unfold reserve_integer in H. inv_run. destruct (integer_reserved r) as [n|] eqn:Hn.
    2:{ inv_run. apply budget_decision_status in H as (Hs & _). apply reserve_denied; [done|by rewrite Hs]. }
    destruct (_ <? n) eqn:Hlt.
    { inv_run. apply budget_decision_status in H as (Hs & _). apply reserve_denied; [done|by rewrite Hs]. }
    apply allow_step in H as (? & -> & Hb). apply budget_decision_status in Hb as (? & Hrem & _).
    apply reserve_added; try done. intros limit' bound'. rewrite Hl. intros [= <-]. rewrite Hi. intros [= <-].
    exists n. apply Z.ltb_ge in Hlt. done.
  - unfold reserve_decimal in H. inv_run.
    match type of H with (if ?c then _ else _) _ = _ => destruct c end.
    { inv_run. apply budget_decision_status in H as (Hs & _). apply reserve_denied; [done|by rewrite Hs]. }
    apply allow_step in H as (? & -> & Hb). apply budget_decision_status in Hb as (? & _).
    apply reserve_added; try done. intros limit' bound'. rewrite Hl. intros [= <-]. by rewrite Hi.
Qed.

Lemma reserve_if_allowed_step r policy revision known w w' b :
  reserve_if_allowed r policy revision known w = (w', Ok b) -> reserve_outcome r policy w w' b.
Proof.
  unfold reserve_if_allowed. intros H%database_Ok. inv_run.
  destruct (st_runs _ !! _) as [row|]; [|done].
  match type of H with (if ?c then _ else _) _ = _ => destruct c end.
  { apply deny_step in H as [-> Hs]. apply reserve_denied; [done|by rewrite Hs]. }
  inv_run. destruct (select_reservation (br_id r) _) as [v|] eqn:Hsel; [|by eapply reserve_new_step].
  inv_run. destruct (reservation_eqb _ r); [|done]. inv_run.
  apply budget_decision_status in H as (Hs & _). by eapply reserve_retried.
Qed.

Lemma database_cases {A} operation (m : M Store A) w (P : Store -> Prop) :
  P w -> (forall w' a, m w = (w', Ok a) -> P w') -> P (fst (database operation m w)).
Proof.
  intros Hw Hok. destruct (database operation m w) as [w' [a|e]] eqn:H.
  - apply database_Ok in H. by apply (Hok _ a).
  - apply database_err in H. by subst.
Qed.

Lemma usage_retried_reads rs : reads (usage_retried rs).
Proof.
  induction rs as [|r rs IH]; cbn; [apply reads_ret|]. apply reads_bind; [apply reads_gets|].
  intros [u|]; [destruct (negb _)|]; [apply reads_raise | apply IH | apply reads_raise].
Qed.

Lemma telemetry_exec_wf c w : telemetry_call_wf c -> telemetry_wf w -> telemetry_wf (telemetry_exec c w).
Proof.
  intros Hc Hwf. destruct c as [r|r|r policy revision known|s|r s rs]; cbn [telemetry_exec].
  - unfold record_usage. apply database_cases; [done|]. intros w' b H. inv_run.
    destruct (select_usage _ _) as [v|]; [destruct (bool_decide _); by inv_run|].
    inv_run. unfold insert_usage in Hv. apply write_Ok in Hv as [_ ->]. by apply wf_add_usage.
  - unfold reserve. apply database_cases; [done|]. intros w' b H. inv_run.
    destruct (select_reservation _ _) as [v|]; [destruct (bool_decide _); by inv_run|].
    inv_run. unfold _insert_reservation in Hv. apply write_Ok in Hv as [_ ->]. by apply wf_add_reservation.
  - destruct (reserve_if_allowed r policy revision known w) as [w' [b|e]] eqn:H; cbn [fst].
    + destruct (reserve_if_allowed_step _ _ _ _ _ _ _ H); subst; [done|done|]. by apply wf_add_reservation.
    + apply database_err in H. by subst.
  - unfold settle. apply database_cases; [done|]. intros w' b H. inv_run.
    destruct (select_reservation _ _) as [v|] eqn:Hr; [|done]. inv_run.
    destruct (select_settlement _ _) as [x|]; [inv_run; destruct (settlement_eqb _ _); by inv_run|].
    inv_run. unfold insert_settlement in Hv. apply write_Ok in Hv as [_ ->].
    apply wf_add_settlement; [done|done|]. by rewrite Hr.
  - destruct Hc as [Hs Hrs]. unfold settle_reservation. rewrite lift_bind.
    destruct (settlement_mismatch r s rs) as [u|e] eqn:Hm; [|done].
    apply database_cases; [done|]. intros w' b H. inv_run.
    destruct (select_reservation _ _) as [v|] eqn:Hv0; [|done]. inv_run. destruct (negb _); [inv_run|].
    inv_run. destruct (select_settlement _ _) as [t|] eqn:Ht.
    + inv_run. destruct (negb _); [inv_run|]. inv_run.
      match goal with H : usage_retried _ _ = _ |- _ =>
        by rewrite (reads_run _ _ _ _ (usage_retried_reads rs) H) end.
    + inv_run. destruct (append_usage_wf _ _ _ _ Hrs Hwf Hv1) as (Hwf1 & Heq & _).
      unfold insert_settlement in Hv2. apply write_Ok in Hv2 as [_ ->].
      unfold settlement_mismatch in Hm. apply bind_raise_if_Ok in Hm as [Hid _].
      rewrite negb_false_iff in Hid. apply String.eqb_eq in Hid.
      apply wf_add_settlement; [done|done|]. unfold select_reservation in *. by rewrite Heq, Hid, Hv0.
Qed.

Definition telemetry_after (cs : list telemetry_call) (w : Store) : Store :=
  foldl (fun w c => telemetry_exec c w) w cs.

Lemma telemetry_after_wf cs w :
  Forall telemetry_call_wf cs -> telemetry_wf w -> telemetry_wf (telemetry_after cs w).
Proof.
  intros Hcs. revert w. induction Hcs as [|c cs Hc Hcs IH]; intros w Hwf; [done|].
  apply IH. by apply telemetry_exec_wf.
Qed.

(** ** Capacity *)

(** A new row of the metric is open: no settlement knows its identifier. *)
Lemma open_integer_add w r id m :
  telemetry_wf w -> select_reservation (br_id r) w = None ->
  open_integer id m (add_reservation (row_of_reservation r) w) =
  open_integer id m w +
  (if bool_decide (br_run_id r = id) && bool_decide (br_metric r = m)
   then default 0 (integer_reserved r) else 0).
Proof.
  intros Hwf Hnew. unfold open_integer, metric_reservations, reservations_of.
  change (row_open (add_reservation (row_of_reservation r) w)) with (row_open w).
  cbn [st_reservations add_reservation]. rewrite !filter_app, fmap_app.
  assert (Happ : forall xs ys, py_sum (xs ++ ys) = py_sum xs + py_sum ys).
  { intros xs ys. induction xs as [|x xs IH]; simpl; [done|]. unfold py_sum in *. simpl. lia. }
  rewrite Happ. f_equal.
  assert (Hopen : row_open w (row_of_reservation r) = true).
  { unfold row_open. destruct (select_settlement _ w) as [s|] eqn:Hs; [|done]. exfalso.
    apply find_first_Some in Hs as [Hs Hid%String.eqb_eq].
    pose proof (tw_settlements _ Hwf) as H. rewrite Forall_forall in H.
    destruct (H _ Hs) as (x & -> & _ & Hk). cbn in Hid. rewrite Hid in Hk. by rewrite Hnew in Hk. }
  rewrite filter_cons. cbn [rs_run_id row_of_reservation].
  case_bool_decide as Hid.
  - rewrite decide_True by (by apply String.eqb_eq). rewrite filter_nil, filter_cons.
    destruct (decide (br_metric r = m)) as [Hm|Hm].
    + rewrite decide_True by (by apply metric_matches_iff). rewrite filter_nil, filter_cons_True by done.
      rewrite bool_decide_eq_true_2 by done. cbn. lia.
    + rewrite decide_False by (by rewrite metric_matches_iff). by rewrite bool_decide_eq_false_2.
  - rewrite decide_False; [done|]. by intros ?%String.eqb_eq.
Qed.

Lemma used_integer_add w row id m : used_integer id m (add_reservation row w) = used_integer id m w.
Proof. done. Qed.

(** ** Properties *)

(** An integer budget is never over-committed: whatever reservations are
    requested, by however many coordinators and in whatever order, as long as
    they use a policy with the limit, the recorded usage and the open
    reservations of the run stay within the limit. *)
Theorem never_overcommitted cs w id m bound
  (Hwf : telemetry_wf w) (Hcs : Forall telemetry_call_wf cs)
  (Hreserve : Forall (fun c => exists r policy revision known limit,
      c = ReserveIfAllowed r policy revision known /\
      find_first (fun l => bool_decide (bl_metric l = m)) (limits policy) = Some limit /\
      integer_limit limit = Some bound) cs)
  (Hw : used_integer id m w + open_integer id m w <= bound) :
  used_integer id m (telemetry_after cs w) + open_integer id m (telemetry_after cs w) <= bound.
Proof.
  revert w Hwf Hw. induction cs as [|c cs IH]; intros w Hwf Hw; [done|].
  inversion_clear Hcs as [|? ? Hc Hcs']. inversion_clear Hreserve as [|? ? Hr Hrs].
  apply (IH Hcs' Hrs); [by apply telemetry_exec_wf|].
  destruct Hr as (r & policy & revision & known & limit & -> & Hl & Hi). cbn [telemetry_exec].
  destruct (reserve_if_allowed r policy revision known w) as [w' [b|e]] eqn:H; cbn [fst].
  2:{ apply database_err in H. by subst. }
  destruct (reserve_if_allowed_step _ _ _ _ _ _ _ H) as [Hw1|? Hw1|Hw1 _ Hnew Hadd]; rewrite Hw1; [done|done|].
  rewrite used_integer_add, open_integer_add by done.
  destruct (decide (br_run_id r = id)) as [<-|Hid]; [|rewrite (bool_decide_eq_false_2 (br_run_id r = id)) by done; cbn; lia].
  destruct (decide (br_metric r = m)) as [<-|Hm]; [|rewrite (bool_decide_eq_false_2 (br_metric r = m)) by done; rewrite andb_false_r; lia].
  rewrite !bool_decide_eq_true_2 by done. destruct (Hadd _ _ Hl Hi) as (n & -> & Hn & _). cbn. lia.
Qed.

Lemma unit_metric m : _unit m = _METRIC_UNITS m.
Proof. by destruct m. Qed.

Lemma valid_reservation_facts r :
  validate_BudgetReservation r = Ok r ->
  br_unit r = _unit (br_metric r) /\ is_none (integer_reserved r) <> is_none (decimal_reserved r).
Proof.
  unfold validate_BudgetReservation. intros H. inv_valid. clear -H.
  pose proof (valid_reservation_eq _ _ H) as Heq. unfold _valid_reservation in H. cbn in H.
  apply bind_raise_if_Ok in H as [Hu H]. apply bind_raise_if_Ok in H as [Hx _].
  rewrite negb_false_iff, bool_decide_eq_true in Hu. rewrite bool_decide_eq_false in Hx.
  by rewrite unit_metric.
Qed.

Lemma allow_run r remaining w :
  reservation_free (row_of_reservation r) w = true ->
  allow r remaining None w =
  (add_reservation (row_of_reservation r) w,
   budget_decision BudgetDecisionStatus.ALLOW (br_metric r) (br_unit r) remaining None None).
Proof. intros Hf. unfold allow, _insert_reservation, write, mbind, M_bind. by rewrite Hf. Qed.

Lemma reservation_free_new r w :
  reservation_free (row_of_reservation r) w = true ->
  select_reservation (br_id r) w = None.
Proof.
  unfold reservation_free. rewrite !andb_true_iff, negb_true_iff. intros [[[H _] _] _].
  apply find_first_None. by apply existsb_false in H.
Qed.

(** The outcome of the transaction for a decision: the row is kept exactly when
    the decision allows it. *)
Definition reserved_if_allowed (r : BudgetReservation) (w : Store) (d : res BudgetDecision)
    : Store * res BudgetDecision :=
  (match d with
   | Ok b => if bool_decide (bd_status b = BudgetDecisionStatus.ALLOW)
             then add_reservation (row_of_reservation r) w else w
   | Err _ => w
   end, d).

Lemma budget_decision_errors status metric unit remaining remaining_dec reason e :
  budget_decision status metric unit remaining remaining_dec reason = Err e -> is_IntegrityError e = false.
Proof.
  intros H. assert (Hv : value_errors (budget_decision status metric unit remaining remaining_dec reason)).
  { unfold budget_decision, validate_BudgetDecision. repeat (apply value_errors_bind; [|intros ?]);
      try apply value_errors_require; try apply value_errors_ret.
    apply value_errors_optional. intros x. unfold pattern_field.
    apply value_errors_bind; [apply value_errors_require | intros; apply value_errors_ret]. }
  specialize (Hv _ H). by destruct e.
Qed.

(** A refusal, or an acceptance with its row, as the outcome of the transaction. *)
Lemma database_lift operation r w status metric unit remaining remaining_dec reason :
  status <> BudgetDecisionStatus.ALLOW ->
  let d := budget_decision status metric unit remaining remaining_dec reason in
  database operation (lift d) w = reserved_if_allowed r w d.
Proof.
  intros Hs d. unfold database, try_except, transaction, lift, reserved_if_allowed.
  destruct d as [b|e] eqn:Hd.
  - apply budget_decision_status in Hd as (-> & _). by rewrite bool_decide_eq_false_2.
  - by rewrite (budget_decision_errors _ _ _ _ _ _ _ Hd).
Qed.

Lemma database_allow operation r w remaining :
  reservation_free (row_of_reservation r) w = true ->
  database operation (allow r remaining None) w =
  reserved_if_allowed r w
    (budget_decision BudgetDecisionStatus.ALLOW (br_metric r) (br_unit r) remaining None None).
Proof.
  intros Hf. unfold database, try_except, transaction, reserved_if_allowed. rewrite allow_run by done.
  destruct (budget_decision _ _ _ _ _ _) as [b|e] eqn:Hd.
  - apply budget_decision_status in Hd as (-> & _). by rewrite bool_decide_eq_true_2.
  - by rewrite (budget_decision_errors _ _ _ _ _ _ _ Hd).
Qed.

Lemma database_ext {A} operation (m m' : M Store A) w :
  m w = m' w -> database operation m w = database operation m' w.
Proof. unfold database, try_except, transaction. by intros ->. Qed.

Lemma decide_errors_None {A B} (o : option A) (p : option B) :
  is_none o <> is_none p -> bool_decide (is_none o = is_none p) = false.
Proof. intros. by apply bool_decide_eq_false. Qed.

Lemma reserve_new_equivalent w r policy known :
  telemetry_wf w -> Forall counted (st_usage w) -> active_rows w -> validate_BudgetReservation r = Ok r ->
  reservation_free (row_of_reservation r) w = true ->
  (forall limit, find_first (fun l => bool_decide (bl_metric l = br_metric r)) (limits policy) = Some limit ->
                 is_some (integer_limit limit) = true) ->
  database "atomically reserve budget" (reserve_new r policy known) w =
  reserved_if_allowed r w
    (decision (br_run_id r) policy (br_metric r) (integer_reserved r) (decimal_reserved r)
       (br_currency r) known w).2.
Proof.
  intros Hwf Hc Ha Hr Hfree Hint. destruct (valid_reservation_facts r Hr) as [Hunit Hone].
  unfold decision. destruct (find_first _ _) as [limit|] eqn:Hl.
  2:{ rewrite (database_ext _ _ (allow r None None)).
      - rewrite database_allow by done. by rewrite Hunit.
      - unfold reserve_new. by rewrite Hl. }
  rewrite (decide_errors_None _ _ Hone). specialize (Hint _ eq_refl).
  destruct (integer_limit limit) as [bound|] eqn:Hi; [|done]. clear Hint.
  destruct (negb (bool_decide (bl_currency limit = br_currency r))) eqn:Hcur.
  { rewrite (database_ext _ _ (deny r BudgetDecisionStatus.DENY_INVALID_REQUEST "currency_mismatch")).
    - unfold deny. rewrite (database_lift _ r) by done. cbn. by rewrite Hunit.
    - unfold reserve_new. by rewrite Hl, Hcur. }
  destruct (list_usage_records_ok w Hwf (br_run_id r)) as (records & Hrec & Hrecp).
  destruct (list_reservations_ok w Hwf (br_run_id r)) as (reservations & Hres & Hresp).
  cbn [repo_list_usage_records repo_list_reservations sqlite_telemetry].
  rewrite (M_bind_run _ _ _ _ _ Hrec), (M_bind_run _ _ _ _ _ Hres). cbn [lift snd].
  unfold decide_budget. rewrite Hi.
  rewrite (unresolved_rows w Hwf Ha (br_run_id r) (br_metric r) reservations Hresp).
  rewrite (unavailable_rows w Hwf Hc (br_run_id r) (br_metric r) records Hrecp).
  rewrite (overage_rows w Hwf Hc (br_run_id r) (br_metric r) records Hrecp).
  rewrite (consumed_used w Hwf Hc (br_run_id r) (br_metric r) records Hrecp).
  rewrite (reserved_open w Hwf Ha (br_run_id r) (br_metric r) reservations Hresp).
  assert (Hnew : reserve_new r policy known w =
    (if existsb (row_unresolved w) (metric_reservations (br_run_id r) (br_metric r) w)
     then deny r BudgetDecisionStatus.DENY_UNRESOLVED_RESERVATION "unresolved_reservation"
     else if known && existsb row_unavailable (metric_usage (br_run_id r) (br_metric r) w)
     then deny r BudgetDecisionStatus.DENY_USAGE_UNAVAILABLE "usage_unavailable"
     else if bool_decide (br_metric r = BudgetMetric.TOTAL_DURATION)
             && existsb row_overage (usage_of (br_run_id r) w)
     then deny r BudgetDecisionStatus.DENY_LIMIT_EXHAUSTED "validation_duration_overage"
     else reserve_integer r bound) w).
  { unfold reserve_new. rewrite Hl, Hcur, Hi. unfold mbind, M_bind, gets.
    repeat (case_match; [done|]). done. }
  rewrite (database_ext _ _ _ _ Hnew). rewrite <- Hunit. unfold deny.
  repeat (case_match; [by apply database_lift|]).
  unfold reserve_integer. cbv zeta.
  set (remaining := bound - _ - _).
  destruct (match integer_reserved r with Some n => remaining <? n | None => true end) eqn:Hd.
  - rewrite (database_ext _ _ (lift (budget_decision BudgetDecisionStatus.DENY_LIMIT_EXHAUSTED (br_metric r)
      (br_unit r) (Some (Z.max 0 remaining)) None (Some "limit_exhausted")))).
    + by apply database_lift.
    + unfold mbind, M_bind, gets. fold remaining. by rewrite Hd.
  - rewrite (database_ext _ _ (allow r (Some remaining) None)); [by apply database_allow|].
    unfold mbind, M_bind, gets. fold remaining. by rewrite Hd.
Qed.

(** C12: asking first and reserving give the same answer, where the two count the
    same records: in a well-formed store whose usage holds no [LOCAL_ATTEMPTS] or
    [REMOTE_ATTEMPTS] record (which only the service counts) and marks no metric
    but validation durations as overages, and whose reservations were written
    as active ones, for a reservation that may be inserted (its identifier and
    boundary are free, its run exists and its text fits the column), made at
    the run's revision or without one, against an integer limit or none, the
    atomic [reserve_if_allowed] answers exactly what [TelemetryService.decision]
    computes from the listed records and reservations, and it appends the
    reservation exactly when that answer is [ALLOW]. *)
Theorem reserve_matches_decision w r policy revision known row
  (Hwf : telemetry_wf w) (Hc : Forall counted (st_usage w)) (Ha : active_rows w)
  (Hrun : st_runs w !! br_run_id r = Some row)
  (Hrev : forall n, revision = Some n -> rr_revision row = n)
  (Hr : validate_BudgetReservation r = Ok r)
  (Hfree : reservation_free (row_of_reservation r) w = true)
  (Hint : forall limit,
     find_first (fun l => bool_decide (bl_metric l = br_metric r)) (limits policy) = Some limit ->
     is_some (integer_limit limit) = true) :
  reserve_if_allowed r policy revision known w =
  reserved_if_allowed r w
    (decision (br_run_id r) policy (br_metric r) (integer_reserved r) (decimal_reserved r)
       (br_currency r) known w).2.
Proof.
  rewrite <- (reserve_new_equivalent w r policy known Hwf Hc Ha Hr Hfree Hint).
  unfold reserve_if_allowed. apply database_ext. unfold mbind, M_bind, gets. rewrite Hrun.
  replace (match revision with None => false | Some n => negb (rr_revision row =? n) end) with false.
  2:{ destruct revision as [n|]; [|done]. by rewrite (Hrev n eq_refl), Z.eqb_refl. }
  by rewrite (reservation_free_new _ _ Hfree).
Qed.

(** ** Settling *)

(** What a successful append leaves: every record is there as given. *)
Lemma append_usage_present rs w w' u :
  append_usage rs w = (w', Ok u) ->
  Forall (fun r => (fun v => us_payload v) <$> select_usage (ur_id r) w' = Some r) rs /\
  (forall id v, select_usage id w = Some v -> select_usage id w' = Some v) /\
  st_reservations w' = st_reservations w /\ st_settlements w' = st_settlements w.
Proof.
  revert w. induction rs as [|r rs IH]; intros w H; cbn in H; inv_run; [done|].
  destruct (select_usage (ur_id r) w0) as [v|] eqn:Hsel.
  - destruct (negb (bool_decide (us_payload v = r))) eqn:Hb; [inv_run|].
    rewrite negb_false_iff, bool_decide_eq_true in Hb.
    destruct (IH _ H) as (Hrs & Hmono & ? & ?). split; [|done]. constructor; [|done].
    rewrite (Hmono _ _ Hsel). cbn. by rewrite Hb.
  - inv_run. unfold insert_usage in Hv. apply write_Ok in Hv as [_ ->].
    destruct (IH _ H) as (Hrs & Hmono & Hres & Hset). split.
    + constructor; [|done]. rewrite (Hmono (ur_id r) (row_of_usage r)); [done|].
      unfold select_usage in *. cbn. rewrite find_first_app, Hsel. cbn. by rewrite String.eqb_refl.
    + split; [|done]. intros id x Hx. apply Hmono. unfold select_usage in *. cbn.
      by rewrite find_first_app, Hx.
Qed.

Lemma usage_retried_run rs w :
  Forall (fun r => (fun v => us_payload v) <$> select_usage (ur_id r) w = Some r) rs ->
  usage_retried rs w = (w, Ok tt).
Proof.
  induction 1 as [|r rs Hr Hrs IH]; [done|]. cbn. unfold mbind, M_bind, gets.
  destruct (select_usage (ur_id r) w) as [v|]; cbn in Hr; [|done]. injection Hr as ->.
  by rewrite bool_decide_refl.
Qed.

Lemma settlement_eqb_refl s : settlement_eqb s s = true.
Proof. apply bool_decide_refl. Qed.

(** The transaction once the settlement is there. *)
Lemma settled_again r s rs v t w :
  settlement_mismatch r s rs = Ok tt ->
  select_reservation (br_id r) w = Some v -> (exists p, _deserialize_reservation v = Ok p /\ reservation_eqb p r = true) ->
  select_settlement (br_id r) w = Some (row_of_settlement t) -> validate_BudgetSettlement t = Ok t ->
  settle_reservation r s rs w =
  if settlement_eqb t s then
    let '(w', o) := usage_retried rs w in
    match o with Ok _ => (w, Ok false) | Err e => (w, Err e) end
  else (w, Err (conflict "budget settlement identifier conflict")).
Proof.
  intros Hm Hv (p & Hp & Heq) Ht Hvalid. unfold settle_reservation. rewrite Hm, lift_bind.
  unfold database, try_except, transaction. unfold mbind at 1, M_bind at 1, gets at 1. rewrite Hv.
  rewrite Hp, lift_bind, Heq. cbn [negb]. unfold mbind at 1, M_bind at 1, gets at 1. rewrite Ht.
  unfold _deserialize_settlement. cbn [ss_payload row_of_settlement]. rewrite Hvalid. cbn [corrupt_on_error].
  rewrite lift_bind. destruct (settlement_eqb t s); cbn [negb]; [|done].
  unfold mbind at 1, M_bind at 1. pose proof (usage_retried_reads rs w) as Hreads.
  assert (Hexn : forall e, (usage_retried rs w).2 = Err e -> is_IntegrityError e = false).
  { clear. induction rs as [|x rs IH]; cbn; [done|]. unfold mbind, M_bind, gets.
    intros e. destruct (select_usage _ _) as [y|]; [destruct (negb _)|]; cbn;
      [by intros [= <-] | apply IH | by intros [= <-]]. }
  destruct (usage_retried rs w) as [w1 [o|e]]; cbn in *; subst; [done|]. by rewrite (Hexn e).
Qed.

(** A reservation is settled exactly once: after a successful settlement its
    capacity is released, repeating the same settlement answers [False] and
    changes nothing, and any different settlement of it is refused and
    changes nothing. *)
Theorem settlement_exactly_once r s rs w w'
  (Hwf : telemetry_wf w) (Hs : validate_BudgetSettlement s = Ok s)
  (Hok : settle_reservation r s rs w = (w', Ok true)) :
  (fun v => ss_payload v) <$> select_settlement (br_id r) w' = Some s /\
  (forall v, rs_reservation_id v = br_id r -> row_open w' v = false) /\
  settle_reservation r s rs w' = (w', Ok false) /\
  forall other records,
    settlement_mismatch r other records = Ok tt -> settlement_eqb s other = false ->
    settle_reservation r other records w' =
      (w', Err (conflict "budget settlement identifier conflict")).
Proof.
  unfold settle_reservation in Hok. rewrite lift_bind in Hok.
  destruct (settlement_mismatch r s rs) as [u|] eqn:Hm; [|done]. destruct u.
  apply database_Ok in Hok. inv_run.
  destruct (select_reservation (br_id r) _) as [v|] eqn:Hv0; [|done]. inv_run.
  destruct (reservation_eqb v0 r) eqn:Heq; cbn [negb] in Hok; [|discriminate Hok]. inv_run.
  destruct (select_settlement (br_id r) w) as [t|] eqn:Ht; [inv_run; destruct (negb _); by inv_run|].
  inv_run. destruct (append_usage_present _ _ _ _ Hv1) as (Hpresent & _ & Hres & Hset).
  unfold insert_settlement in Hv2. apply write_Ok in Hv2 as [_ ->].
  injection Hok as <-.
  assert (Hid : bs_reservation_id s = br_id r).
  { unfold settlement_mismatch in Hm. apply bind_raise_if_Ok in Hm as [Hid _].
    rewrite negb_false_iff in Hid. by apply String.eqb_eq. }
  set (w1 := add_settlement (row_of_settlement s) w0).
  assert (Hsel : select_settlement (br_id r) w1 = Some (row_of_settlement s)).
  { unfold select_settlement in *. cbn. rewrite find_first_app, Hset, Ht. cbn.
    by rewrite Hid, String.eqb_refl. }
  assert (Hres1 : select_reservation (br_id r) w1 = Some v).
  { unfold select_reservation in *. cbn. by rewrite Hres. }
  split; [by rewrite Hsel|]. split; [|split].
  - intros x Hx. unfold row_open. by rewrite Hx, Hsel.
  - rewrite (settled_again r s rs v s w1 Hm Hres1) by eauto. rewrite settlement_eqb_refl.
    by rewrite (usage_retried_run rs w1 Hpresent).
  - intros other records Hm' Hne. rewrite (settled_again r other records v s w1 Hm' Hres1) by eauto.
    by rewrite Hne.
Qed.

(** ** Concrete budgets *)

Module BudgetSample.
Import StateMachine.Sample.

Definition id : string := run_id run.

Definition reservation (key : string) (n : Z) : BudgetReservation :=
  mk_BudgetReservation 1 (reservation_id id key BudgetMetric.BUILD_ATTEMPTS) id "P4-002"
    BudgetMetric.BUILD_ATTEMPTS UsageUnit.ATTEMPTS "BUILD" key (utc 1) (Some n) None None None None
    ReservationStatus.ACTIVE.

Definition policy : BudgetPolicy :=
  mk_BudgetPolicy 1 [mk_BudgetLimit BudgetMetric.BUILD_ATTEMPTS UsageUnit.ATTEMPTS (Some 2) None None].

Definition usage (metric : UsageMetric.t) (key : string) : UsageRecord :=
  mk_UsageRecord 1 (usage_record_id id key metric) id "P4-002" metric UsageUnit.ATTEMPTS
    UsageProvenance.MEASURED UsageSource.ORCHESTRATION (utc 2) key (Some 1) None None None None None
    None None None None.

Definition settlement (key : string) (n : Z) : BudgetSettlement :=
  mk_BudgetSettlement 1 (reservation_id id key BudgetMetric.BUILD_ATTEMPTS) (utc 3) (Some n) None None
    ReservationStatus.SETTLED None.

Definition start : Store := set_runs <[id := row_of_run run 0]> empty_store.

(** Three racing coordinators ask for one attempt each: two get it. *)
Definition race : list telemetry_call :=
  (fun key => ReserveIfAllowed (reservation key 1) policy (Some 0) true) <$> ["a"; "b"; "c"].

Lemma reserve_race_wf : Forall telemetry_call_wf race.
Proof. repeat constructor; vm_compute; reflexivity. Qed.

Lemma start_wf : telemetry_wf start.
Proof. split; constructor. Qed.

Example race_reserves :
  (rs_idempotency_key <$> st_reservations (telemetry_after race start)) = ["a"; "b"].
Proof. vm_compute. reflexivity. Qed.

Definition used : Store :=
  telemetry_after [RecordUsage (usage UsageMetric.BUILD_ATTEMPTS "first");
                   ReserveIfAllowed (reservation "a" 1) policy None true] start.

Lemma used_wf : telemetry_wf used.
Proof. apply telemetry_after_wf; [repeat constructor; vm_compute; reflexivity | apply start_wf]. Qed.

Lemma used_active : active_rows used.
Proof. vm_compute. repeat constructor. Qed.

Lemma used_counted : Forall counted (st_usage used).
Proof. vm_compute. repeat constructor; discriminate. Qed.
End BudgetSample.

(** The two decisions differ on attempts recorded as local: the service counts
    them as build attempts, the atomic reservation does not. *)
Example local_attempts_divergence :
  let w := telemetry_after
             ((fun key => RecordUsage (BudgetSample.usage UsageMetric.LOCAL_ATTEMPTS key)) <$> ["a"; "b"])
             BudgetSample.start in
  let r := BudgetSample.reservation "c" 1 in
  (bd_status <$> (reserve_if_allowed r BudgetSample.policy None false w).2) = Ok BudgetDecisionStatus.ALLOW /\
  (bd_status <$> (decision (br_run_id r) BudgetSample.policy (br_metric r) (integer_reserved r)
                    (decimal_reserved r) (br_currency r) false w).2)
  = Ok BudgetDecisionStatus.DENY_LIMIT_EXHAUSTED.
Proof. vm_compute. split; reflexivity. Qed.

Lemma never_overcommitted_witness :
  let w := telemetry_after BudgetSample.race BudgetSample.start in
  used_integer BudgetSample.id BudgetMetric.BUILD_ATTEMPTS w
  + open_integer BudgetSample.id BudgetMetric.BUILD_ATTEMPTS w <= 2.
Proof.
  apply (never_overcommitted BudgetSample.race BudgetSample.start BudgetSample.id
           BudgetMetric.BUILD_ATTEMPTS 2 BudgetSample.start_wf BudgetSample.reserve_race_wf).
  - repeat constructor; eexists _, _, _, _, _; repeat split; reflexivity.
  - vm_compute. discriminate.
Defined.

Lemma reserve_matches_decision_witness :
  reserve_if_allowed (BudgetSample.reservation "b" 1) BudgetSample.policy (Some 0) true BudgetSample.used =
  (BudgetSample.used,
   budget_decision BudgetDecisionStatus.DENY_LIMIT_EXHAUSTED BudgetMetric.BUILD_ATTEMPTS
     UsageUnit.ATTEMPTS (Some 0) None (Some "limit_exhausted")).
Proof.
  rewrite (reserve_matches_decision BudgetSample.used (BudgetSample.reservation "b" 1) BudgetSample.policy
             (Some 0) true (row_of_run StateMachine.Sample.run 0) BudgetSample.used_wf
             BudgetSample.used_counted BudgetSample.used_active).
  - vm_compute. reflexivity.
  - vm_compute. reflexivity.
  - intros n [= <-]. reflexivity.
  - vm_compute. reflexivity.
  - vm_compute. reflexivity.
  - intros limit H. vm_compute in H. injection H as <-. reflexivity.
Defined.

Lemma settlement_exactly_once_witness :
  exists w', settle_reservation (BudgetSample.reservation "a" 1) (BudgetSample.settlement "a" 1) []
               BudgetSample.used = (w', Ok true) /\
             settle_reservation (BudgetSample.reservation "a" 1) (BudgetSample.settlement "a" 1) [] w'
             = (w', Ok false) /\
             settle_reservation (BudgetSample.reservation "a" 1) (BudgetSample.settlement "a" 2) [] w'
             = (w', Err (conflict "budget settlement identifier conflict")).
Proof.
  destruct (settle_reservation (BudgetSample.reservation "a" 1) (BudgetSample.settlement "a" 1) []
              BudgetSample.used) as [w' o] eqn:H.
  assert (Ho : o = Ok true).
  { apply (f_equal snd) in H. vm_compute in H. symmetry. exact H. }
  subst o. exists w'. split; [reflexivity|].
  assert (Hs : validate_BudgetSettlement (BudgetSample.settlement "a" 1)
               = Ok (BudgetSample.settlement "a" 1)) by (vm_compute; reflexivity).
  destruct (settlement_exactly_once _ _ _ _ w' BudgetSample.used_wf Hs H) as (_ & _ & Hagain & Hother).
  split; [exact Hagain|]. apply Hother; vm_compute; reflexivity.
Defined.
