(* ===== verification/DurableStore.v ===== *)
(** * The durable store as a whole

    The journal of orchestration records, the bound runs, and the invariant
    that every operation of the repository keeps: the runs represent a journal,
    the records of a run are numbered without gaps and unique per stage of an
    attempt, and the telemetry tables are well formed. *)

From Stdlib Require Import ZArith Lia Ascii String.
From S2P Require Import Prelude Text Domain StateMachine Effects GitPort OrchestrationPorts TelemetryPort RuntimePort Tables Storage RunJournal UsageStore Reconciliation.
From stdpp Require Import base option strings numbers gmap sets list list_relations.

Open Scope Z_scope.

(** ** Records *)

Definition record_boundary (row : record_row) : string * string * string :=
  (or_run_id row, or_attempt_id row, or_record_stage row).

Record records_wf (w : Store) : Prop := {
  rw_rows : Forall (fun row => exists r, row = row_of_record r /\ validate_OrchestrationRecord r = Ok r)
              (st_records w);
  rw_contiguous id : contiguous or_sequence (records_of id w);
  rw_unique : NoDup (record_boundary <$> st_records w)
}.

Lemma records_wf_empty t : records_wf (new_store t).
Proof. split; [constructor|intros; done|constructor]. Qed.

Lemma record_rows_wf w id :
  records_wf w ->
  exists rs, records_of id w = row_of_record <$> rs /\
             Forall (fun r => validate_OrchestrationRecord r = Ok r) rs.
Proof.
  intros Hwf. pose proof (rw_rows _ Hwf) as Hrows.
  assert (Hrs : Forall (fun row => exists r, row = row_of_record r /\ validate_OrchestrationRecord r = Ok r)
                  (records_of id w)) by (by apply Forall_of_filter).
  revert Hrs. generalize (records_of id w) as rows. induction 1 as [|row rows (r & -> & Hr) _ (rs & -> & IH)].
  - by exists [].
  - exists (r :: rs). split; [done|]. by constructor.
Qed.

Lemma payload_rows (rs : list OrchestrationRecord) : or_payload <$> (row_of_record <$> rs) = rs.
Proof. induction rs as [|r rs IH]; [done|]. rewrite !fmap_cons, IH. done. Qed.

Definition stored_records (id : string) (w : Store) : list OrchestrationRecord :=
  or_payload <$> records_of id w.

Lemma list_records_ok w id :
  records_wf w -> has_run id w = true ->
  list_orchestration_records id w = (w, Ok (stored_records id w)).
Proof.
  intros Hwf Hrun. destruct (record_rows_wf w id Hwf) as (rs & Hrs & Hvalid).
  pose proof (rw_contiguous _ Hwf id) as Hc.
  unfold list_orchestration_records, run_exists, stored_records.
  rewrite (M_bind_run _ _ w w true) by (unfold gets; by rewrite Hrun). cbn [negb].
  rewrite (M_bind_run _ _ w w (row_of_record <$> rs)).
  2:{ unfold gets. rewrite contiguous_by_sequence by done. by rewrite Hrs. }
  assert (Hpay : or_payload <$> records_of id w = rs).
  { by rewrite Hrs, payload_rows. }
  rewrite lift_bind, traverse_rows.
  - rewrite lift_bind, raise_if_false; [by rewrite Hpay|]. rewrite negb_false_iff. apply bool_decide_eq_true.
    unfold contiguous in Hc. rewrite Hrs, <- list_fmap_compose, length_fmap in Hc. exact Hc.
  - eapply Forall_impl; [exact Hvalid|]. intros r. apply deserialize_record_row.
Qed.

(** What a successful write of a record did. *)
Inductive record_outcome (expected : StoredRun) (record : OrchestrationRecord) (w w' : Store)
    (res : RecordWriteResult) : Prop :=
| record_added :
    w' = add_record (row_of_record record) w -> res = mk_RecordWriteResult record true ->
    record_key_free (row_of_record record) w = true ->
    rec_sequence record = foldr Z.max 0 (or_sequence <$> records_of (rec_run_id record) w) + 1 ->
    record_outcome expected record w w' res
| record_found row :
    w' = w -> row ∈ st_records w -> or_record_id row = rec_id record -> created res = false ->
    _deserialize_orchestration_record row = Ok (rwr_record res) ->
    boundary (rwr_record res) = boundary record ->
    record_outcome expected record w w' res.

Lemma persist_record_step expected record w w' res :
  persist_orchestration_record expected record w = (w', Ok res) ->
  rec_run_id record = run_id (stored_run expected) /\
  (exists row, st_runs w !! run_id (stored_run expected) = Some row /\ _deserialize_run row = Ok expected) /\
  record_outcome expected record w w' res.
Proof.
  unfold persist_orchestration_record. rewrite lift_bind. unfold raise_if.
  destruct (_ || _) eqn:Hm; [done|]. rewrite !orb_false_iff, !negb_false_iff in Hm.
  destruct Hm as [[[Hid%String.eqb_eq _] _] _]. intros H. split; [done|].
  unfold try_except, transaction in H.
  match type of H with context [match ?m ?w0 with _ => _ end] => destruct (m w0) as [w1 [r1|e1]] eqn:Hrun end;
    [|by destruct (is_IntegrityError e1)].
  injection H as -> ->. inv_run. unfold select_run in Hv. inv_run.
  destruct (st_runs _ !! _) as [row|] eqn:Hrow; [|done]. inv_run.
  destruct (negb (bool_decide (v = expected))) eqn:Hcur; [by inv_run|].
  rewrite negb_false_iff, bool_decide_eq_true in Hcur. subst v.
  split; [by exists row|]. inv_run.
  destruct (find_first _ _) as [found|] eqn:Hf.
  - inv_run. destruct (_ || _) eqn:Hsame; [|by inv_run]. inv_run.
    apply find_first_Some in Hf as [Hin Hk%String.eqb_eq].
    eapply record_found; try done. cbn. apply orb_true_iff in Hsame as [Heq|Heq].
    + apply bool_decide_eq_true in Heq. by rewrite Heq.
    + by apply bool_decide_eq_true in Heq.
  - unfold next_record_sequence in Hrun. inv_run.
    destruct (negb _) eqn:Hs; [by inv_run|]. rewrite negb_false_iff, Z.eqb_eq in Hs. inv_run.
    match goal with H : _insert_orchestration_record _ _ = _ |- _ =>
      unfold _insert_orchestration_record in H; apply write_Ok in H as [Hok ->] end.
    rewrite !andb_true_iff in Hok. destruct Hok as [[[Hfree _] _] _]. by apply record_added.
Qed.

Lemma records_of_add row w id :
  records_of id (add_record row w) =
  records_of id w ++ (if String.eqb (or_run_id row) id then [row] else []).
Proof.
  unfold records_of. cbn. rewrite filter_app, filter_cons, filter_nil.
  destruct (String.eqb (or_run_id row) id) eqn:H; [by rewrite decide_True|by rewrite decide_False].
Qed.

Lemma records_wf_add w record :
  records_wf w -> validate_OrchestrationRecord record = Ok record ->
  record_key_free (row_of_record record) w = true ->
  rec_sequence record = foldr Z.max 0 (or_sequence <$> records_of (rec_run_id record) w) + 1 ->
  records_wf (add_record (row_of_record record) w).
Proof.
  intros Hwf Hr Hfree Hseq. destruct Hwf as [Hrows Hc Hu]. split.
  - apply Forall_app. split; [done|]. repeat constructor. eauto.
  - intros id. rewrite records_of_add. cbn.
    destruct (String.eqb (rec_run_id record) id) eqn:Hid; [|by rewrite app_nil_r].
    apply String.eqb_eq in Hid as <-. apply contiguous_app; [done|]. cbn.
    rewrite Hseq. by apply contiguous_max.
  - cbn. rewrite fmap_app. apply NoDup_app. split; [done|]. split; [|apply NoDup_singleton].
    intros b (row & -> & Hrow)%list_elem_of_fmap Hb%list_elem_of_singleton.
    unfold record_key_free in Hfree. rewrite !andb_true_iff, !negb_true_iff in Hfree.
    destruct Hfree as [[_ Hst] _]. apply existsb_false in Hst. rewrite Forall_forall in Hst.
    specialize (Hst _ Hrow). unfold record_boundary in Hb. injection Hb as H1 H2 H3.
    by rewrite H1, H2, H3, !String.eqb_refl in Hst.
Qed.

(** ** Every operation *)

Inductive store_call : Type :=
| RunCall (c : call)
| BoundRun (run : Run) (binding : RuntimeBinding)
| PersistRecord (expected : StoredRun) (record : OrchestrationRecord)
| ListRecords (id : string)
| TelemetryCall (c : telemetry_call).

Definition store_call_wf (c : store_call) : Prop :=
  match c with
  | RunCall c => call_wf c
  | BoundRun run binding => Run_wf run /\ validate_RuntimeBinding binding = Ok binding
  | PersistRecord _ record => validate_OrchestrationRecord record = Ok record
  | ListRecords _ => True
  | TelemetryCall c => telemetry_call_wf c
  end.

Definition store_exec (c : store_call) (w : Store) : Store :=
  match c with
  | RunCall c => fst (exec c w)
  | BoundRun run binding => fst (create_bound_run run binding w)
  | PersistRecord expected record => fst (persist_orchestration_record expected record w)
  | ListRecords id => fst (list_orchestration_records id w)
  | TelemetryCall c => telemetry_exec c w
  end.

Inductive reachable : Store -> Prop :=
| reachable_new t : reachable (new_store t)
| reachable_call c w : reachable w -> store_call_wf c -> reachable (store_exec c w).

Lemma reachable_empty : reachable empty_store.
Proof. apply reachable_new. Qed.

Record store_wf (w : Store) : Prop := {
  sw_journal : exists j, represents w j;
  sw_records : records_wf w;
  sw_telemetry : telemetry_wf w
}.

(** The runs and their events are all that [represents] reads. *)
Lemma represents_same w w' j :
  st_texts w' = st_texts w -> st_runs w' = st_runs w -> st_events w' = st_events w -> represents w j -> represents w' j.
Proof.
  intros Ht Hr He [H0 H1 H2 H3 H4 H5]. split; unfold events_of in *; rewrite ?Ht, ?Hr, ?He; auto.
Qed.

Definition same_records (w w' : Store) : Prop := st_records w' = st_records w.
Definition same_telemetry (w w' : Store) : Prop :=
  st_usage w' = st_usage w /\ st_reservations w' = st_reservations w /\
  st_settlements w' = st_settlements w.
Definition same_runs (w w' : Store) : Prop :=
  st_texts w' = st_texts w /\ st_runs w' = st_runs w /\ st_events w' = st_events w.

Lemma records_wf_same w w' : same_records w w' -> records_wf w -> records_wf w'.
Proof.
  unfold same_records. intros He [H1 H2 H3]. split; unfold records_of in *; rewrite He; auto.
Qed.

Lemma telemetry_wf_same w w' : same_telemetry w w' -> telemetry_wf w -> telemetry_wf w'.
Proof.
  intros (Hu & Hr & Hs) [H1 H2 H3]. split; unfold select_reservation in *; rewrite ?Hu, ?Hr, ?Hs; auto.
Qed.

(** Computations that touch only part of the store. *)
Section only_store.
Context (R : Store -> Store -> Prop) `{!Confined R}.

Lemma only_transaction {A} (m : M Store A) : only R m -> only R (transaction m).
Proof.
  intros Hm w. unfold transaction. specialize (Hm w).
  destruct (m w) as [w1 [a|e]]; [done | apply confined_refl].
Qed.
Lemma only_write ok change : (forall w, R w (change w)) -> only R (write ok change).
Proof. intros Hc w. unfold write. destruct (ok w); [apply Hc | apply confined_refl]. Qed.
Lemma only_database {A} operation (m : M Store A) : only R m -> only R (database operation m).
Proof.
  intros Hm. unfold database. apply only_try; [done|by apply only_transaction|]. intros e. apply only_reads; [exact _|apply reads_raise].
Qed.
End only_store.

#[export] Instance same_records_confined : Confined same_records.
Proof. unfold same_records. split; congruence. Qed.
#[export] Instance same_telemetry_confined : Confined same_telemetry.
Proof. unfold same_telemetry. split; [done|]. intros ??? (?&?&?) (?&?&?). split_and!; congruence. Qed.
#[export] Instance same_runs_confined : Confined same_runs.
Proof. unfold same_runs. split; [done|]. intros ??? (?&?&?) (?&?&?). split_and!; congruence. Qed.

(** Walk through a computation whose only changes are writes elsewhere. *)
Ltac only_step :=
  match goal with
  | |- only _ (mbind _ _) => apply only_bind; [exact _| |intros ?]
  | |- only _ (transaction _) => apply only_transaction; [exact _|]
  | |- only _ (database _ _) => apply only_database; [exact _|]
  | |- only _ (try_except _ _ _) => apply only_try; [exact _| |intros ?]
  | |- only _ (write _ _) => apply only_write; [exact _|intros ?; by repeat split]
  | |- only _ (gets _) => apply only_reads; [exact _|apply reads_gets]
  | |- only _ (lift _) => apply only_reads; [exact _|apply reads_lift]
  | |- only _ (raise _) => apply only_reads; [exact _|apply reads_raise]
  | |- only _ (mret _) => apply only_reads; [exact _|apply reads_ret]
  | |- only _ (match ?x with _ => _ end) => destruct x
  end.
Ltac solve_only := repeat only_step.

Lemma update_run_only (R : Store -> Store -> Prop) `{!Confined R} expected result :
  (forall f w, R w (set_runs f w)) -> only R (update_run expected result).
Proof.
  intros Hset w. unfold update_run. destruct (st_runs w !! _); [|apply confined_refl].
  destruct (_ && _); [|apply confined_refl].
  destruct (run_fits _ _); [apply Hset | apply confined_refl].
Qed.

Lemma run_call_only (R : Store -> Store -> Prop) `{!Confined R} c :
  (forall f w, R w (set_runs f w)) -> (forall row w, R w (add_event row w)) ->
  forall w, R w (fst (exec c w)).
Proof.
  intros Hset Hadd w.
  assert (Hpair : forall A (m : M Store A) (g : res A -> reply), only R m ->
            R w (fst (let '(w', r) := m w in (w', g r)))).
  { intros A m g Hm. specialize (Hm w). by destruct (m w). }
  destruct c as [run|id|id|expected result event_id]; cbn; apply Hpair.
  - unfold create_run, insert_run. solve_only.
  - unfold get_run, select_run. solve_only.
  - unfold list_events, run_exists. solve_only.
  - unfold persist_transition, select_run, replayed, apply_transition, select_event, next_event_sequence,
      _insert_event. solve_only. by apply update_run_only.
Qed.

Lemma bound_run_only (R : Store -> Store -> Prop) `{!Confined R} run binding :
  (forall f w, R w (set_runs f w)) -> (forall row w, R w (add_binding row w)) ->
  only R (create_bound_run run binding).
Proof.
  intros Hset Hadd. unfold create_bound_run, insert_run, insert_binding.
  solve_only.
Qed.

Lemma persist_record_only (R : Store -> Store -> Prop) `{!Confined R} expected record :
  (forall row w, R w (add_record row w)) -> only R (persist_orchestration_record expected record).
Proof.
  intros Hadd. unfold persist_orchestration_record, select_run, next_record_sequence,
    _insert_orchestration_record. solve_only.
Qed.

Lemma append_usage_only (R : Store -> Store -> Prop) `{!Confined R} rs :
  (forall row w, R w (add_usage row w)) -> only R (append_usage rs).
Proof.
  intros Hadd. induction rs as [|r rs IH]; cbn; [solve_only|]. unfold insert_usage.
  solve_only; done.
Qed.

Lemma usage_retried_only (R : Store -> Store -> Prop) `{!Confined R} rs : only R (usage_retried rs).
Proof. apply only_reads; [exact _|apply usage_retried_reads]. Qed.

Lemma telemetry_only (R : Store -> Store -> Prop) `{!Confined R} c w :
  (forall row w, R w (add_usage row w)) -> (forall row w, R w (add_reservation row w)) ->
  (forall row w, R w (add_settlement row w)) -> R w (telemetry_exec c w).
Proof.
  intros Hu Hr Hs.
  destruct c as [r|r|r policy revision known|s|r s rs]; cbn [telemetry_exec].
  - revert w. change (only R (record_usage r)). unfold record_usage, insert_usage. solve_only.
  - revert w. change (only R (reserve r)). unfold reserve, _insert_reservation. solve_only.
  - revert w. change (only R (reserve_if_allowed r policy revision known)).
    unfold reserve_if_allowed, reserve_new, deny, reserve_integer, reserve_decimal, allow, _insert_reservation.
    solve_only.
  - revert w. change (only R (settle s)). unfold settle, insert_settlement. solve_only.
  - revert w. change (only R (settle_reservation r s rs)). unfold settle_reservation, insert_settlement.
    solve_only; [by apply usage_retried_only | by apply append_usage_only].
Qed.

(** A bound run is a created run as far as the journal is concerned. *)
Lemma bound_run_represents run binding w j :
  Run_wf run -> represents w j -> exists j', represents (fst (create_bound_run run binding w)) j'.
Proof.
  intros Hwf HR. unfold create_bound_run. rewrite lift_bind. unfold raise_if.
  destruct (negb (bool_decide (run_state run = CREATED))) eqn:Hc; [by exists j|].
  rewrite negb_false_iff, bool_decide_eq_true in Hc. rewrite lift_bind.
  destruct (negb (String.eqb _ _)); [by exists j|].
  unfold try_except, transaction, insert_run, write, mbind, M_bind. cbn [rr_run_id row_of_run].
  rewrite (represents_has_run _ _ HR). destruct (j_runs j !! run_id run) eqn:Hj; cbn [is_some negb andb is_IntegrityError];
    [by exists j|].
  destruct (run_fits _ _); cbn [is_IntegrityError]; [|by exists j].
  unfold insert_binding, write. destruct (_ && _) eqn:Hb; cbn [is_IntegrityError]; [|by exists j].
  unfold lift. cbn. eexists. eapply represents_same; [| | |by apply represents_create]; done.
Qed.

Lemma store_exec_wf c w : store_call_wf c -> store_wf w -> store_wf (store_exec c w).
Proof.
  intros Hc [[j Hj] Hr Ht]. destruct c as [c|run binding|expected record|id|c]; cbn [store_exec store_call_wf] in *.
  - split.
    + exists (spec_exec c j).1. exact (proj2 (exec_refines (W := Store) c w j Hc Hj)).
    + eapply records_wf_same, Hr. by apply (run_call_only same_records).
    + eapply telemetry_wf_same, Ht. by apply (run_call_only same_telemetry).
  - destruct Hc as [Hrun _]. split.
    + by eapply bound_run_represents.
    + eapply records_wf_same, Hr. by apply (bound_run_only same_records).
    + eapply telemetry_wf_same, Ht. by apply (bound_run_only same_telemetry).
  - split.
    + exists j. destruct (persist_record_only same_runs expected record (fun _ _ => conj eq_refl (conj eq_refl eq_refl)) w) as (? & ? & ?).
      by eapply represents_same.
    + destruct (persist_orchestration_record expected record w) as [w' [res|e]] eqn:H; cbn [fst].
      * destruct (persist_record_step _ _ _ _ _ H) as (_ & _ & [-> _ Hf Hs|row -> _ _ _ _ _]); [|done].
        by apply records_wf_add.
      * unfold persist_orchestration_record in H. rewrite lift_bind in H.
        destruct (raise_if _ _); [|by injection H as <- _].
        unfold try_except, transaction in H.
        match type of H with context [match ?m ?w0 with _ => _ end] => destruct (m w0) as [w1 [r1|e1]] end; [done|].
        destruct (is_IntegrityError e1); unfold raise in H; by injection H as <- _.
    + eapply telemetry_wf_same, Ht. by apply (persist_record_only same_telemetry).
  - replace (fst (list_orchestration_records id w)) with w; [split; eauto|].
    assert (H : reads (list_orchestration_records id)); [|by rewrite H].
    unfold list_orchestration_records, run_exists. apply reads_bind; [apply reads_gets|].
    intros [|]; cbn; [|apply reads_raise].
    repeat (apply reads_bind; [auto with rev|intros ?]). apply reads_ret.
  - split.
    + exists j. destruct (telemetry_only same_runs c w) as (? & ? & ?); try done. by eapply represents_same.
    + eapply records_wf_same, Hr. by apply (telemetry_only same_records).
    + by apply telemetry_exec_wf.
Qed.

Lemma store_wf_new t : store_wf (new_store t).
Proof.
  split; [exists (new_journal t); apply represents_empty | apply records_wf_empty | apply telemetry_wf_empty].
Qed.

Lemma reachable_wf w : reachable w -> store_wf w.
Proof. induction 1 as [t|c w _ IH Hc]; [apply store_wf_new | by apply store_exec_wf]. Qed.

Lemma has_run_row id w : has_run id w = true -> exists row, st_runs w !! id = Some row.
Proof. unfold has_run. intros [row Hrow]%bool_decide_eq_true. by exists row. Qed.

Lemma known_run_entry w j id : represents w j -> has_run id w = true -> exists e, j_runs j !! id = Some e.
Proof. intros HR Hrun. rewrite (represents_has_run _ _ HR) in Hrun. destruct (j_runs j !! id); [eauto|done]. Qed.

Lemma get_run_entry w j id e :
  represents w j -> j_runs j !! id = Some e -> get_run id w = (w, Ok (stored_of e)).
Proof. intros HR He. unfold get_run, transaction. by rewrite (select_run_Some w j HR _ _ He). Qed.

Lemma stored_records_valid w id :
  records_wf w -> Forall (fun r => validate_OrchestrationRecord r = Ok r) (stored_records id w).
Proof.
  intros Hwf. destruct (record_rows_wf w id Hwf) as (rs & Hrs & Hv). unfold stored_records.
  by rewrite Hrs, payload_rows.
Qed.

Definition stage_key (r : OrchestrationRecord) : string * OrchestrationRecordStage.t :=
  (rec_attempt_id r, rec_stage r).

Lemma stage_value_inj a b : OrchestrationRecordStage.value a = OrchestrationRecordStage.value b -> a = b.
Proof. by destruct a, b. Qed.

Lemma NoDup_fmap_filter {A B} (f : A -> B) (P : A -> Prop) `{forall x, Decision (P x)} xs :
  NoDup (f <$> xs) -> NoDup (f <$> filter P xs).
Proof.
  induction xs as [|x xs IH]; [done|]. rewrite fmap_cons, NoDup_cons, filter_cons. intros [Hx Hxs].
  case_decide; [|auto]. rewrite fmap_cons. apply NoDup_cons. split; [|auto].
  intros (y & Hy & [_ Hin]%list_elem_of_filter)%list_elem_of_fmap. apply Hx. rewrite Hy.
  by apply list_elem_of_fmap_2.
Qed.

Lemma stages_unique w id : records_wf w -> NoDup (stage_key <$> stored_records id w).
Proof.
  intros Hwf. destruct (record_rows_wf w id Hwf) as (rs & Hrs & _). unfold stored_records.
  rewrite Hrs, payload_rows.
  assert (Hu : NoDup (record_boundary <$> records_of id w)).
  { apply NoDup_fmap_filter, (rw_unique _ Hwf). }
  assert (Hid : Forall (fun r => rec_run_id r = id) rs).
  { assert (Forall (fun row => or_run_id row = id) (records_of id w)).
    { apply Forall_forall. intros row (H%String.eqb_eq & _)%list_elem_of_filter. done. }
    rewrite Hrs in H. by apply Forall_fmap in H. }
  rewrite Hrs in Hu. clear Hrs. induction Hid as [|r rs Hr Hid IH]; [constructor|].
  rewrite !fmap_cons in *. apply NoDup_cons in Hu as [Hnew Hu]. apply NoDup_cons. split; [|by apply IH].
  intros (x & Hk & Hx)%list_elem_of_fmap. apply Hnew.
  apply list_elem_of_fmap. exists (row_of_record x). split; [|by apply list_elem_of_fmap_2].
  unfold stage_key in Hk. injection Hk as H1 H2. unfold record_boundary. cbn.
  rewrite H1, H2, Hr. by rewrite (proj1 (Forall_forall _ _) Hid x Hx).
Qed.

(** ** Properties *)

(** C14: no sequence of operations corrupts the store: in every store reachable
    from an empty one, by any interleaving of every public write of the
    repository (runs, bound runs, transitions, orchestration records, usage,
    reservations asked for or made outright, settlements with or without their
    usage) with arguments that are valid instances of their classes, each persisted run can be read back in full without
    an exception; its events are numbered 1 to its revision and replay to its
    state, its orchestration records are valid, numbered 1 to at most 1024, and
    no stage of an attempt is recorded twice. *)
Theorem reachable_store_readable w id (Hw : reachable w) (Hrun : has_run id w = true) :
  exists s events records usage reservations r0,
    get_run id w = (w, Ok s) /\
    list_events id w = (w, Ok events) /\
    list_orchestration_records id w = (w, Ok records) /\
    list_usage_records id w = (w, Ok usage) /\
    list_reservations id w = (w, Ok reservations) /\
    history r0 (ev_transition <$> events) (stored_run s) /\
    (ev_sequence <$> events) = one_to (Z.to_nat (revision s)) /\
    (rec_sequence <$> records) = one_to (length records) /\
    Z.of_nat (length records) <= MAX_ORCHESTRATION_RECORDS /\
    NoDup (stage_key <$> records).
Proof.
  destruct (reachable_wf w Hw) as [[j Hj] Hr Ht].
  destruct (known_run_entry w j id Hj Hrun) as (e & He).
  destruct (list_usage_records_ok w Ht id) as (usage & Hu & _).
  destruct (list_reservations_ok w Ht id) as (reservations & Hres & _).
  destruct (list_events_simulates id _ _ Hj) as (w2 & Hl & _). cbn in Hl. rewrite He in Hl.
  rewrite (reads_run _ _ _ _ (list_events_reads id) Hl) in Hl.
  destruct (rep_entry _ _ Hj _ _ He) as [_ [r0 Hh] _].
  pose proof (rw_contiguous _ Hr id) as Hc.
  assert (Hseq : (rec_sequence <$> stored_records id w) = one_to (length (stored_records id w))).
  { unfold stored_records. rewrite length_fmap, <- Hc.
    destruct (record_rows_wf w id Hr) as (rs & Hrs & _). by rewrite Hrs, <- !list_fmap_compose. }
  exists (stored_of e), (log_events id (en_log e)), (stored_records id w), usage, reservations, r0.
  split; [by eapply get_run_entry|]. split; [done|]. split; [by apply list_records_ok|].
  split; [done|]. split; [done|]. split; [by rewrite log_transitions|].
  split; [|split; [done|split; [|by apply stages_unique]]].
  - cbn. unfold en_revision. rewrite Nat2Z.id, log_contiguous. by rewrite length_log_events.
  - destruct (decide (stored_records id w = [])) as [->|Hne]; [cbn; unfold MAX_ORCHESTRATION_RECORDS; lia|].
    assert (Hmem : Z.of_nat (length (stored_records id w)) ∈ rec_sequence <$> stored_records id w).
    { rewrite Hseq. apply elem_of_one_to. destruct (stored_records id w); [done|]. cbn. lia. }
    apply list_elem_of_fmap in Hmem as (r & -> & Hin).
    pose proof (proj1 (Forall_forall _ _) (stored_records_valid w id Hr) r Hin) as Hv.
    unfold validate_OrchestrationRecord in Hv. inv_valid. unfold in_range in *. bool_prop. lia.
Qed.

(** Writing a record appends it or finds it: a successful write is made
    against exactly the stored run; either the record is new, gets the next
    number and is appended to the run's journal and nowhere else, or nothing
    changes and the answer is the record that is already there, equal but for
    its number and clock values. *)
Theorem record_write_spec w w' expected record res
  (Hw : reachable w) (Hr : validate_OrchestrationRecord record = Ok record)
  (Hok : persist_orchestration_record expected record w = (w', Ok res)) :
  let id := run_id (stored_run expected) in
  get_run id w = (w, Ok expected) /\
  exists records,
    list_orchestration_records id w = (w, Ok records) /\
    (created res = true /\ rwr_record res = record /\
     rec_sequence record = Z.of_nat (length records) + 1 /\
     list_orchestration_records id w' = (w', Ok (records ++ [record])) /\
     (forall other, other <> id -> stored_records other w' = stored_records other w)
     \/
     created res = false /\ w' = w /\ boundary (rwr_record res) = boundary record).
Proof.
  intros id. destruct (reachable_wf w Hw) as [[j Hj] Hrec _].
  destruct (persist_record_step _ _ _ _ _ Hok) as (Hid & (row & Hrow & Hd) & Hout).
  assert (Hrun : has_run id w = true).
  { unfold has_run. apply bool_decide_eq_true. by exists row. }
  split. { unfold get_run, transaction, select_run, mbind, M_bind, gets, lift. fold id in Hrow. by rewrite Hrow, Hd. }
  exists (stored_records id w). split; [by apply list_records_ok|].
  destruct Hout as [-> -> Hfree Hseq|found -> _ _ Hc _ Hb]; [left|right; done].
  pose proof (records_wf_add w record Hrec Hr Hfree Hseq) as Hrec'.
  assert (Heq : stored_records id (add_record (row_of_record record) w) = stored_records id w ++ [record]).
  { unfold stored_records. rewrite records_of_add. cbn. rewrite Hid. fold id. rewrite String.eqb_refl.
    by rewrite fmap_app. }
  split; [done|]. split; [done|]. split; [|split].
  - rewrite Hseq, Hid. fold id. rewrite contiguous_max by apply (rw_contiguous _ Hrec).
    unfold stored_records. by rewrite length_fmap.
  - rewrite list_records_ok, Heq; done.
  - intros other Hne. unfold stored_records. rewrite records_of_add. cbn. rewrite Hid. fold id.
    rewrite (proj2 (String.eqb_neq id other)) by done. by rewrite app_nil_r.
Qed.

(** A run and its repository binding are created together: on success both
    can be read back as given, from a store where the run did not exist, and a
    binding is never left without its run; on failure nothing changes. *)
Theorem bound_run_atomic w run binding w' out
  (Hw : reachable w) (Hrun : Run_wf run) (Hb : validate_RuntimeBinding binding = Ok binding)
  (Hcreate : create_bound_run run binding w = (w', out)) :
  match out with
  | Ok s => s = mk_StoredRun run 0 /\ has_run (run_id run) w = false /\
            get_run (run_id run) w' = (w', Ok s) /\ get_runtime_binding (run_id run) w' = (w', Ok binding) /\
            list_events (run_id run) w' = (w', Ok [])
  | Err _ => w' = w
  end.
Proof.
  destruct (reachable_wf w Hw) as [[j Hj] _ _].
  unfold create_bound_run in Hcreate. rewrite lift_bind in Hcreate. unfold raise_if in Hcreate.
  destruct (negb (bool_decide (run_state run = CREATED))) eqn:Hc; [by simplify_eq|].
  rewrite negb_false_iff, bool_decide_eq_true in Hc. rewrite lift_bind in Hcreate.
  destruct (negb (String.eqb _ _)) eqn:Hid; [by simplify_eq|].
  rewrite negb_false_iff, String.eqb_eq in Hid.
  unfold try_except, transaction, insert_run, write, mbind, M_bind in Hcreate.
  cbn [rr_run_id row_of_run] in Hcreate.
  destruct (has_run (run_id run) w) eqn:Hnew; cbn in Hcreate; [by simplify_eq|].
  destruct (run_fits _ _); cbn in Hcreate; [|by simplify_eq].
  unfold insert_binding, write in Hcreate. destruct (_ && _) eqn:Hfree; cbn in Hcreate; [|by simplify_eq].
  injection Hcreate as <- <-. split; [done|]. split; [done|].
  assert (Hnone : j_runs j !! run_id run = None).
  { rewrite (represents_has_run _ _ Hj) in Hnew. by destruct (j_runs j !! run_id run). }
  pose proof (represents_create w j run Hj Hrun Hc Hnone) as HR.
  set (w1 := add_binding _ _). eapply (represents_same _ w1) in HR; [|done|done|done].
  assert (He : j_runs (mk_journal (j_texts j) (<[run_id run := mk_entry run []]> (j_runs j)) (j_owner j)) !! run_id run
               = Some (mk_entry run [])) by apply lookup_insert_eq.
  split; [exact (get_run_entry _ _ _ _ HR He)|]. split.
  - rewrite !andb_true_iff, !negb_true_iff in Hfree. destruct Hfree as [[[Hfree _] _] _].
    apply existsb_false, find_first_None in Hfree.
    unfold get_runtime_binding, transaction, mbind, M_bind, gets, lift.
    change (st_bindings w1) with (st_bindings w ++ [row_of_binding (run_id run) binding]).
    rewrite find_first_app. cbn [bn_run_id row_of_binding set_runs st_bindings] in Hfree. rewrite Hfree.
    cbn [find_first bn_run_id row_of_binding bn_payload]. rewrite String.eqb_refl.
    cbn [bn_payload row_of_binding]. rewrite Hb. cbn [corrupt_on_error]. by rewrite Hid, String.eqb_refl.
  - destruct (list_events_simulates (run_id run) _ _ HR) as (w2 & Hl & _). cbn in Hl. rewrite lookup_insert_eq in Hl.
    by rewrite (reads_run _ _ _ _ (list_events_reads _) Hl) in Hl.
Qed.

(** ** A concrete store *)

Module DurableSample.
Import ReconciliationSample.

Definition run : Run :=
  let r := StateMachine.Sample.run in
  mk_Run 1 ("run_" +:+ hex32) (run_task r) (run_work_package r) (run_budgets r) CREATED
    (run_attempts r) (run_created_at r) (run_updated_at r) None.

Definition binding : RuntimeBinding :=
  mk_RuntimeBinding 1 ("run_" +:+ hex32) identity ("wt_" +:+ hex32) "worktrees/run" "revanent/p4" (utc 0).

Definition record : OrchestrationRecord :=
  mk_OrchestrationRecord 1 ("orec_" +:+ hex32 +:+ hex32) ("run_" +:+ hex32) "P4-002" 1 0
    CREATED OrchestrationRecordStage.INTENT (utc 0)
    (Workspace (mk_WorkspaceAttempt attempt request None)) None.

(** The same boundary observed later. *)
Definition later : OrchestrationRecord :=
  mk_OrchestrationRecord 1 ("orec_" +:+ hex32 +:+ hex32) ("run_" +:+ hex32) "P4-002" 1 0
    CREATED OrchestrationRecordStage.INTENT (utc 7)
    (Workspace (mk_WorkspaceAttempt attempt request None)) None.

Definition created_store : Store := store_exec (BoundRun run binding) empty_store.
Definition journal_store : Store := store_exec (PersistRecord (mk_StoredRun run 0) record) created_store.

Lemma run_ok : Run_wf run.
Proof. vm_compute. reflexivity. Qed.
Lemma binding_ok : validate_RuntimeBinding binding = Ok binding.
Proof. vm_compute. reflexivity. Qed.
Lemma record_ok : validate_OrchestrationRecord record = Ok record.
Proof. vm_compute. reflexivity. Qed.
Lemma later_ok : validate_OrchestrationRecord later = Ok later.
Proof. vm_compute. reflexivity. Qed.

Lemma created_reachable : reachable created_store.
Proof. apply reachable_call; [apply reachable_empty|]. split; [apply run_ok | apply binding_ok]. Qed.
Lemma journal_reachable : reachable journal_store.
Proof. apply reachable_call; [apply created_reachable | apply record_ok]. Qed.
End DurableSample.

Lemma reachable_store_readable_witness :
  exists records, list_orchestration_records (run_id DurableSample.run) DurableSample.journal_store
                  = (DurableSample.journal_store, Ok records) /\ length records = 1%nat.
Proof.
  destruct (reachable_store_readable DurableSample.journal_store (run_id DurableSample.run)
              DurableSample.journal_reachable) as (s & events & records & usage & res & r0 & _ & _ & Hl & _).
  - vm_compute. reflexivity.
  - exists records. split; [exact Hl|]. apply (f_equal snd) in Hl. vm_compute in Hl.
    injection Hl as <-. reflexivity.
Defined.

Lemma record_write_spec_witness :
  exists res, (persist_orchestration_record (mk_StoredRun DurableSample.run 0) DurableSample.later
                 DurableSample.journal_store).2 = Ok res /\
              created res = false /\ boundary (rwr_record res) = boundary DurableSample.later.
Proof.
  destruct (persist_orchestration_record (mk_StoredRun DurableSample.run 0) DurableSample.later
              DurableSample.journal_store) as [w' [res|e]] eqn:H.
  - exists res. split; [reflexivity|].
    destruct (record_write_spec DurableSample.journal_store w' (mk_StoredRun DurableSample.run 0)
                DurableSample.later res DurableSample.journal_reachable DurableSample.later_ok H)
      as (_ & records & _ & [(Hc & _)|(Hc & _ & Hb)]).
    + exfalso. apply (f_equal snd) in H. vm_compute in H. injection H as <-. discriminate Hc.
    + split; [exact Hc | exact Hb].
  - exfalso. apply (f_equal snd) in H. vm_compute in H. discriminate H.
Defined.

Lemma bound_run_atomic_witness :
  exists w', create_bound_run DurableSample.run DurableSample.binding empty_store
             = (w', Ok (mk_StoredRun DurableSample.run 0)) /\
             get_runtime_binding (run_id DurableSample.run) w' = (w', Ok DurableSample.binding).
Proof.
  destruct (create_bound_run DurableSample.run DurableSample.binding empty_store) as [w' [s|e]] eqn:H.
  - destruct (bound_run_atomic empty_store DurableSample.run DurableSample.binding w' (Ok s)
                reachable_empty DurableSample.run_ok DurableSample.binding_ok H) as (-> & _ & _ & Hg & _).
    exists w'. split; [reflexivity | exact Hg].
  - exfalso. apply (f_equal snd) in H. vm_compute in H. discriminate H.
Defined.
