(* ===== verification/Coordination.v ===== *)
(** * What the coordinator derives from durable evidence
      ([src/src/revanent/orchestration/service.py], the pure part)

    The identifiers of attempts and records, the questions the service asks of a
    run's records (which attempt is current, which side effects are unresolved,
    what a repair may do), the budget policy of a run with its reservations and
    settlements, the cap of a validation plan, and the projections that keep
    untrusted output out of the durable records. *)

From Stdlib Require Import ZArith Lia Ascii String.
From S2P Require Import Prelude Text Domain StateMachine Sha256 Commands Agents GitPort TelemetryPort Validation ContextPort TelemetryService ReviewGate OrchestrationPorts RepairPolicy Storage.
From stdpp Require Import base option strings numbers gmap sets list list_relations.

Open Scope Z_scope.

(** [MAX_COORDINATION_STEPS] *)
Definition MAX_COORDINATION_STEPS : Z := 1024.

(** ** Identifiers ([DeterministicOrchestrationIds]) *)

Definition _hex (value : string) (length : nat) : string := sha256_prefix length value.

Definition ids_attempt_id (run_id : string) (step : OrchestrationStep.t) (sequence : Z) : res string :=
  OrchestrationAttemptId
    ("oattempt_" +:+ _hex (run_id +:+ ":" +:+ OrchestrationStep.value step +:+ ":" +:+ str_of_Z sequence) 32).

Definition ids_agent_attempt_id (attempt_id : string) : res string :=
  AgentAttemptId ("attempt_" +:+ _hex (attempt_id +:+ ":agent") 32).

Definition ids_invocation_id (attempt_id : string) : res string :=
  AgentInvocationId ("inv_" +:+ _hex (attempt_id +:+ ":invocation") 32).

Definition ids_record_id (attempt_id : string) (stage : OrchestrationRecordStage.t) : res string :=
  OrchestrationRecordId
    ("orec_" +:+ _hex (attempt_id +:+ ":" +:+ OrchestrationRecordStage.value stage) 64).

Definition transition_event_id (s : StoredRun) (destination : RunState) : res string :=
  EventId ("event_" +:+ _hex (run_id (stored_run s) +:+ ":" +:+ str_of_Z (revision s) +:+ ":"
                              +:+ run_state_value destination) 32).

(** ** Durations and plans *)

Definition _elapsed_milliseconds (started_at completed_at : datetime) : res Z :=
  let microseconds := instant completed_at - instant started_at in
  raise_if (microseconds <? 0) (ValueError "duration completion precedes its start") ;;
  mret ((microseconds + 999) / 1000).

(** [total_seconds() >= max_duration_seconds]: the quotient of the microseconds
    is exact enough for bounds below [2 ^ 30] seconds. *)
Definition duration_exhausted (now : datetime) (run : Run) : bool :=
  max_duration_seconds (run_budgets run) * 1000000 <=? instant now - instant (run_created_at run).

Definition with_timeout (seconds : Z) (c : ValidationCommand) : ValidationCommand :=
  mk_ValidationCommand (vc_id c) (vc_name c) (vc_executable c) (vc_arguments c)
    (relative_working_directory c) (classification c) (security_critical c) (expected_exit_codes c)
    seconds (vc_output c) (vc_allowed_environment_names c).

(** The loop of [_cap_validation_plan] over the commands that are left. *)
Fixpoint cap_commands (remaining : Z) (commands : list ValidationCommand)
    : res (list ValidationCommand) :=
  match commands with
  | [] => mret []
  | c :: cs =>
      let commands_after := Z.of_nat (length cs) in
      let seconds := Z.min (timeout_seconds c) (remaining - commands_after) in
      capped ← validate_ValidationCommand (with_timeout seconds c) ;
      rest ← cap_commands (remaining - seconds) cs ;
      mret (capped :: rest)
  end.

Definition total_timeout (p : ValidationPlan) : Z := py_sum (timeout_seconds <$> plan_commands p).

Definition with_commands (commands : list ValidationCommand) (p : ValidationPlan) : ValidationPlan :=
  mk_ValidationPlan (plan_schema_version p) (plan_id p) (plan_run_id p) (plan_work_package_id p)
    (plan_created_at p) (plan_workspace p) commands (plan_execution p) (plan_artifacts p).

Definition _cap_validation_plan (p : ValidationPlan) (allowance_ms : Z) : res (option ValidationPlan) :=
  let available_seconds := Z.min (allowance_ms / 1000) (total_timeout p) in
  if available_seconds <? Z.of_nat (length (plan_commands p)) then mret None
  else
    commands ← cap_commands available_seconds (plan_commands p) ;
    capped ← validate_ValidationPlan (with_commands commands p) ;
    mret (Some capped).

(** ** Projections of untrusted evidence *)

Definition without_text (r : AgentResponse) : AgentResponse :=
  mk_AgentResponse (resp_schema_version r) (resp_invocation_id r) (resp_run_id r)
    (resp_work_package_id r) (resp_attempt_id r) (resp_attempt_number r) (resp_role r)
    (expected_response_schema_version r) (resp_status r) (resp_started_at r) (resp_completed_at r)
    (resp_duration_ms r) (resp_summary r) "" (structured_parse_status r) (payload r) []
    (artifacts r) (usage r) (identity r) (resp_failure r) (raw_output_artifact r).

Definition _project_agent_response (r : AgentResponse) : res AgentResponse :=
  validate_AgentResponse (without_text r).

Definition without_output (o : ValidationCapturedOutput) : ValidationCapturedOutput :=
  mk_ValidationCapturedOutput "" (vco_observed_bytes o) (vco_retained_bytes o) (vco_truncated o)
    (vco_redaction_truncated o) (vco_artifact o).

Definition without_streams (c : ValidationCommandResult) : ValidationCommandResult :=
  mk_ValidationCommandResult (vr_schema_version c) (vr_plan_id c) (vr_run_id c)
    (vr_work_package_id c) (vr_command_id c) (vr_sequence c) (vr_classification c) (vr_status c)
    (vr_command_status c) (vr_started_at c) (vr_completed_at c) (vr_duration_ms c)
    (vr_executable c) (vr_resolved_executable c) (vr_correlation_id c) (vr_exit_code c)
    (vr_expected_exit_codes c) (without_output (vr_stdout c)) (without_output (vr_stderr c))
    (vr_failure c).

Definition _project_validation_result (r : ValidationPlanResult) : res ValidationPlanResult :=
  validate_ValidationPlanResult
    (mk_ValidationPlanResult (pr_schema_version r) (pr_plan_schema_version r) (pr_plan_id r)
       (pr_run_id r) (pr_work_package_id r) (pr_started_at r) (pr_completed_at r) (pr_status r)
       (without_streams <$> pr_commands r) (pr_summary r) (required_commands_passed r)
       (all_evidence_complete r) (advisory_failures_accepted r) (pr_cancelled r)).

Definition _agent_attempt_status (r : AgentResponse) : AttemptStatus.t :=
  match resp_status r with
  | AgentStatus.COMPLETED => AttemptStatus.COMPLETED
  | AgentStatus.BLOCKED => AttemptStatus.BLOCKED
  | AgentStatus.UNAVAILABLE => AttemptStatus.BLOCKED
  | AgentStatus.CANCELLED => AttemptStatus.CANCELLED
  | AgentStatus.INVALID_OUTPUT => AttemptStatus.INVALID
  | AgentStatus.TIMED_OUT => AttemptStatus.FAILED
  | AgentStatus.FAILED => AttemptStatus.FAILED
  end.

(** A missing key of the dictionary raises [KeyError]. *)
Definition _status_for_state (s : RunState) : res OrchestrationStatus.t :=
  match s with
  | APPROVED => Ok OrchestrationStatus.APPROVED
  | FAILED => Ok OrchestrationStatus.FAILED
  | BLOCKED => Ok OrchestrationStatus.BLOCKED
  | CANCELLED => Ok OrchestrationStatus.CANCELLED
  | _ => Err (OtherError "KeyError")
  end.

Definition _failure (code message : string) : res OrchestrationFailure :=
  validate_OrchestrationFailure (mk_OrchestrationFailure code message).

(** ** Questions about a run's records *)

Definition is_intent (r : OrchestrationRecord) : bool := has_stage OrchestrationRecordStage.INTENT r.
Definition is_outcome (r : OrchestrationRecord) : bool := has_stage OrchestrationRecordStage.OUTCOME r.
Definition is_reconciliation (r : OrchestrationRecord) : bool :=
  has_stage OrchestrationRecordStage.RECONCILIATION r.

Definition of_step (step : OrchestrationStep.t) (r : OrchestrationRecord) : bool :=
  bool_decide (kind_of (rec_attempt r) = step).

Definition rec_attempt_sequence (r : OrchestrationRecord) : Z := at_sequence (base_of (rec_attempt r)).

(** [{record.attempt.attempt_id for record in records if p record}] as a list. *)
Definition attempt_ids (p : OrchestrationRecord -> bool) (records : list OrchestrationRecord)
    : list string :=
  rec_attempt_id <$> filter (fun r => p r = true) records.

Definition in_ids (id : string) (ids : list string) : bool := bool_decide (id ∈ ids).

Record _AttemptRecords := mk_AttemptRecords {
  ex_intent : option OrchestrationRecord;
  ex_outcome : option OrchestrationRecord
}.

Definition attempt_records (step : OrchestrationStep.t) (sequence : Z)
    (records : list OrchestrationRecord) : _AttemptRecords :=
  let find_stage stage :=
    find_first (fun r => of_step step r && (rec_attempt_sequence r =? sequence) && has_stage stage r)
      records in
  mk_AttemptRecords (find_stage OrchestrationRecordStage.INTENT)
    (find_stage OrchestrationRecordStage.OUTCOME).

(** The sequence number of the attempt that the current revision is about. *)
Definition current_boundary (s : StoredRun) (step : OrchestrationStep.t)
    (records : list OrchestrationRecord) : option Z :=
  rec_attempt_sequence <$>
    find_first (fun r => of_step step r && (rec_run_revision r =? revision s)
                         && bool_decide (rec_expected_state r = run_state (stored_run s))
                         && (is_intent r || is_outcome r)) (reverse records).

Definition pending_sequence (step : OrchestrationStep.t) (records : list OrchestrationRecord)
    : option Z :=
  let outcomes := attempt_ids is_outcome records in
  rec_attempt_sequence <$>
    find_first (fun r => is_intent r && of_step step r && negb (in_ids (rec_attempt_id r) outcomes))
      records.

Definition intents_of (step : OrchestrationStep.t) (records : list OrchestrationRecord) : Z :=
  count (fun r => is_intent r && of_step step r) records.

Definition next_attempt_sequence (s : StoredRun) (step : OrchestrationStep.t)
    (records : list OrchestrationRecord) : Z :=
  match current_boundary s step records with
  | Some n => n
  | None =>
      match pending_sequence step records with
      | Some n => n
      | None => 1 + intents_of step records
      end
  end.

Definition repair_count (records : list OrchestrationRecord) : Z :=
  intents_of OrchestrationStep.REPAIR records.

Definition latest_validation (records : list OrchestrationRecord) : option ValidationAttempt :=
  match find_first (fun r => is_outcome r && of_step OrchestrationStep.VALIDATION r) (reverse records) with
  | Some r => match rec_attempt r with Validation_ a => Some a | _ => None end
  | None => None
  end.

Definition is_mutating (step : OrchestrationStep.t) : bool :=
  bool_decide (step ∈ [OrchestrationStep.WORKSPACE; OrchestrationStep.BUILD; OrchestrationStep.REPAIR]).

Definition mutating (r : OrchestrationRecord) : bool := is_mutating (kind_of (rec_attempt r)).

Definition continuable (r : OrchestrationRecord) : bool :=
  is_reconciliation r
  && match rec_reconciliation r with Some c => safe_to_continue c | None => false end.

Definition _has_pending_mutating_intent (records : list OrchestrationRecord) : bool :=
  let resolved := attempt_ids (fun r => is_outcome r || continuable r) records in
  existsb (fun r => is_intent r && mutating r && negb (in_ids (rec_attempt_id r) resolved)) records.

Definition unresolved_effects (r : OrchestrationRecord) : bool :=
  bool_decide (at_side_effects (base_of (rec_attempt r))
               ∈ [ReconciliationState.AMBIGUOUS; ReconciliationState.INCOMPATIBLE]).

Definition _has_unresolved_mutating_side_effects (records : list OrchestrationRecord) : bool :=
  if _has_pending_mutating_intent records then true
  else
    let reconciled := attempt_ids continuable records in
    existsb (fun r => is_outcome r && mutating r && unresolved_effects r
                      && negb (in_ids (rec_attempt_id r) reconciled)) records.

(** The first intent with neither an outcome nor a reconciliation. *)
Definition incomplete_intent (records : list OrchestrationRecord) : option OrchestrationRecord :=
  let outcomes := attempt_ids is_outcome records in
  let reconciled := attempt_ids is_reconciliation records in
  find_first (fun r => is_intent r && negb (in_ids (rec_attempt_id r) outcomes)
                       && negb (in_ids (rec_attempt_id r) reconciled)) records.

(** ** The evidence of a repair decision *)

Definition gate_reason_value (r : ReviewGateReason.t) : string :=
  match r with
  | ReviewGateReason.VALIDATION_CORRELATION => "validation_correlation"
  | ReviewGateReason.VALIDATION_RESULT_INVALID => "validation_result_invalid"
  | ReviewGateReason.VALIDATION_NOT_APPROVABLE => "validation_not_approvable"
  | ReviewGateReason.VALIDATION_INCOMPLETE => "validation_incomplete"
  | ReviewGateReason.REVIEW_CORRELATION => "review_correlation"
  | ReviewGateReason.REVIEW_ROLE => "review_role"
  | ReviewGateReason.REVIEW_NOT_COMPLETED => "review_not_completed"
  | ReviewGateReason.REVIEW_SCHEMA => "review_schema"
  | ReviewGateReason.REVIEW_PAYLOAD => "review_payload"
  | ReviewGateReason.REVIEW_CHRONOLOGY => "review_chronology"
  | ReviewGateReason.REVIEW_ARTIFACT_INCOMPLETE => "review_artifact_incomplete"
  | ReviewGateReason.REVIEW_NOT_READ_ONLY => "review_not_read_only"
  | ReviewGateReason.REVIEW_AUTHORITY_CORRELATION => "review_authority_correlation"
  | ReviewGateReason.REVIEW_FINDING_DUPLICATE => "review_finding_duplicate"
  | ReviewGateReason.REVIEW_HIGH_FINDING => "review_high_finding"
  | ReviewGateReason.REVIEW_VERDICT => "review_verdict"
  | ReviewGateReason.LOCAL_EVIDENCE_CORRELATION => "local_evidence_correlation"
  | ReviewGateReason.SCOPE_NOT_JUSTIFIED => "scope_not_justified"
  | ReviewGateReason.GENERATED_FILES_INCONSISTENT => "generated_files_inconsistent"
  | ReviewGateReason.LOCKFILES_INCONSISTENT => "lockfiles_inconsistent"
  | ReviewGateReason.EVIDENCE_INCOMPLETE => "evidence_incomplete"
  | ReviewGateReason.REQUIRED_ARTIFACTS_INCOMPLETE => "required_artifacts_incomplete"
  | ReviewGateReason.REPOSITORY_DIRTY => "repository_dirty"
  | ReviewGateReason.SIDE_EFFECTS_AMBIGUOUS => "side_effects_ambiguous"
  end.

Definition not_passed (c : ValidationCommandResult) : bool :=
  negb (bool_decide (vr_status c = ValidationStatus.PASSED)).

Definition validation_fingerprint (c : ValidationCommandResult) : string :=
  "validation:" +:+ vr_command_id c +:+ ":"
  +:+ match vr_failure c with Some f => vf_code f | None => "unknown" end.

Definition validation_fingerprints (r : ValidationPlanResult) : list string :=
  sorted_set (validation_fingerprint <$> filter (fun c => not_passed c = true) (pr_commands r)).

Definition review_fingerprints (d : ReviewGateDecision) : list string :=
  sorted_set ((fun reason => "review:" +:+ gate_reason_value reason) <$> gd_reasons d).

(** [any(... for spec, result in zip(specs, results, strict=True))]: the first
    critical failure answers before the lengths are compared. *)
Fixpoint critical_failure (specs : list ValidationCommand) (results : list ValidationCommandResult)
    : res bool :=
  match specs, results with
  | [], [] => mret false
  | spec :: specs, result :: results =>
      if security_critical spec && not_passed result then mret true
      else critical_failure specs results
  | _, _ => Err (ValueError "zip() arguments have different lengths")
  end.

Definition append_fingerprints (fingerprints : list string) (sets : list (list string))
    : list (list string) :=
  if bool_decide (fingerprints = []) then sets else sets ++ [fingerprints].

(** The loop over the records: the fingerprint sets and the risk so far. *)
Fixpoint defect_history (records : list OrchestrationRecord) (sets : list (list string)) (risk : bool)
    : res (list (list string) * bool) :=
  match records with
  | [] => mret (sets, risk)
  | r :: records =>
      if negb (is_outcome r) then defect_history records sets risk
      else
        match rec_attempt r with
        | Validation_ a =>
            match va_result a with
            | Some result =>
                let sets := append_fingerprints (validation_fingerprints result) sets in
                critical ← (if risk then mret true
                            else critical_failure (plan_commands (va_plan a)) (pr_commands result)) ;
                defect_history records sets critical
            | None => defect_history records sets risk
            end
        | Review a =>
            match rv_gate_decision a with
            | Some d =>
                defect_history records (append_fingerprints (review_fingerprints d) sets)
                  (risk || existsb (fun reason => String.eqb (gate_reason_value reason) "review_high_finding")
                             (gd_reasons d))
            | None => defect_history records sets risk
            end
        | _ => defect_history records sets risk
        end
  end.

Definition agent_of (a : AttemptEvidence) : option AgentFields :=
  match a with
  | Build a => Some (ba_agent a)
  | Review a => Some (rv_agent a)
  | Repair a => Some (ra_agent a)
  | _ => None
  end.

Definition malformed_output (r : OrchestrationRecord) : bool :=
  match rec_attempt r with
  | Build _ | Repair _ =>
      is_outcome r
      && match agent_of (rec_attempt r) ≫= ag_response with
         | Some response => bool_decide (resp_status response = AgentStatus.INVALID_OUTPUT)
         | None => false
         end
  | _ => false
  end.

Definition latest_review (records : list OrchestrationRecord) : option ReviewAttempt :=
  match find_first (fun r => of_step OrchestrationStep.REVIEW r && is_outcome r) (reverse records) with
  | Some r => match rec_attempt r with Review a => Some a | _ => None end
  | None => None
  end.

Definition scope_evidence (records : list OrchestrationRecord) : bool :=
  match latest_review records ≫= rv_local_evidence with
  | Some e => le_scope_justified e
  | None => true
  end.

(** The conjuncts of [local_available] and [codex_available], in order. *)
Definition can_build : list (AgentCapabilities -> bool) :=
  [(fun c => bool_decide (availability c = AgentAvailability.AVAILABLE));
   (fun c => bool_decide (AgentRole.BUILDER ∈ supported_roles c));
   supports_repository_writes].

Definition can_repair : list (AgentCapabilities -> bool) :=
  [(fun c => bool_decide (availability c = AgentAvailability.AVAILABLE));
   (fun c => bool_decide (AgentRole.REPAIRER ∈ supported_roles c));
   supports_repository_writes; supports_repair].

(** [history] is the result of [defect_history] on the records. *)
Definition repair_input (records : list OrchestrationRecord) (history : list (list string) * bool)
    (s : StoredRun) (local codex authorized : bool) : res RepairPolicyInput :=
  let sets := history.1 in
  let latest := default [] (last sets) in
  validate_RepairPolicyInput
    (mk_RepairPolicyInput latest
       (count (fun item => bool_decide (item = latest)) (removelast sets)) history.2
       (1 <? count malformed_output records) local codex authorized
       (max_repair_attempts (run_budgets (stored_run s)) - repair_count records) false
       (negb (_has_unresolved_mutating_side_effects records)) (scope_evidence records) true false).

Definition _repair_decision_metadata (d : RepairDecision) : gmap string string :=
  <["repair_strategy" := RepairStrategy.value (dec_strategy d)]>
    (<["repair_reasons" := str_join "," (RepairReason.value <$> dec_reasons d)]>
       (<["repair_sequence" := str_of_Z (dec_repair_sequence d)]> ∅)).

(** ** Budgets *)

Definition attempts_limit (metric : BudgetMetric.t) (n : Z) : BudgetLimit :=
  mk_BudgetLimit metric UsageUnit.ATTEMPTS (Some n) None None.

Definition policy_limits (b : BudgetLimits) : list BudgetLimit :=
  [attempts_limit BudgetMetric.BUILD_ATTEMPTS (max_build_attempts b);
   attempts_limit BudgetMetric.REVIEW_ATTEMPTS (max_review_attempts b);
   mk_BudgetLimit BudgetMetric.TOTAL_DURATION UsageUnit.MILLISECONDS
     (Some (max_duration_seconds b * 1000)) None None]
  ++ (if 0 <? max_repair_attempts b
      then [attempts_limit BudgetMetric.REPAIR_ATTEMPTS (max_repair_attempts b)] else [])
  ++ match max_remote_tokens b with
     | Some n => [mk_BudgetLimit BudgetMetric.REMOTE_TOKENS UsageUnit.TOKENS (Some n) None None]
     | None => []
     end
  ++ match max_estimated_cost_usd b with
     | Some d => [mk_BudgetLimit BudgetMetric.ESTIMATED_COST UsageUnit.DECIMAL_CURRENCY None (Some d)
                    (Some "USD")]
     | None => []
     end.

Definition metric_le (a b : BudgetLimit) : bool :=
  str_le (BudgetMetric.value (bl_metric a)) (BudgetMetric.value (bl_metric b)).

Definition _budget_policy (s : StoredRun) : res BudgetPolicy :=
  values ← traverse validate_BudgetLimit (policy_limits (run_budgets (stored_run s))) ;
  validate_BudgetPolicy (mk_BudgetPolicy TELEMETRY_SCHEMA_VERSION (py_sorted metric_le values)).

Definition _external_budget_denial (s : StoredRun) : res (option BudgetDecision) :=
  let b := run_budgets (stored_run s) in
  if is_some (max_remote_tokens b) then
    Some <$> budget_decision BudgetDecisionStatus.DENY_USAGE_UNAVAILABLE BudgetMetric.REMOTE_TOKENS
               UsageUnit.TOKENS None None (Some "remote_token_ceiling_unavailable")
  else if is_some (max_estimated_cost_usd b) then
    Some <$> budget_decision BudgetDecisionStatus.DENY_USAGE_UNAVAILABLE BudgetMetric.ESTIMATED_COST
               UsageUnit.DECIMAL_CURRENCY None None (Some "estimated_cost_ceiling_unavailable")
  else mret None.

(** The dictionaries from steps to metrics; other steps raise [KeyError]. *)
Definition step_budget_metric (step : OrchestrationStep.t) : res BudgetMetric.t :=
  match step with
  | OrchestrationStep.BUILD => Ok BudgetMetric.BUILD_ATTEMPTS
  | OrchestrationStep.REPAIR => Ok BudgetMetric.REPAIR_ATTEMPTS
  | OrchestrationStep.REVIEW => Ok BudgetMetric.REVIEW_ATTEMPTS
  | _ => Err (OtherError "KeyError")
  end.

Definition step_usage_metric (step : OrchestrationStep.t) : res UsageMetric.t :=
  match step with
  | OrchestrationStep.BUILD => Ok UsageMetric.BUILD_ATTEMPTS
  | OrchestrationStep.REPAIR => Ok UsageMetric.REPAIR_ATTEMPTS
  | OrchestrationStep.REVIEW => Ok UsageMetric.REVIEW_ATTEMPTS
  | _ => Err (OtherError "KeyError")
  end.

(** [step.value.lower()] *)
Definition step_lower (step : OrchestrationStep.t) : string :=
  match step with
  | OrchestrationStep.CONTEXT => "context"
  | OrchestrationStep.WORKSPACE => "workspace"
  | OrchestrationStep.BUILD => "build"
  | OrchestrationStep.VALIDATION => "validation"
  | OrchestrationStep.REVIEW => "review"
  | OrchestrationStep.REPAIR => "repair"
  end.

Definition run_identity (s : StoredRun) : string * string :=
  (run_id (stored_run s), wp_id (run_work_package (stored_run s))).

Definition _agent_reservation (s : StoredRun) (request : AgentRequest) (step : OrchestrationStep.t)
    (now : datetime) : res BudgetReservation :=
  metric ← step_budget_metric step ;
  let key := ar_invocation_id request +:+ ":" +:+ step_lower step +:+ ":attempt" in
  let '(run_id, work_package_id) := run_identity s in
  validate_BudgetReservation
    (mk_BudgetReservation TELEMETRY_SCHEMA_VERSION (reservation_id run_id key metric) run_id
       work_package_id metric UsageUnit.ATTEMPTS (OrchestrationStep.value step) key now (Some 1) None
       None (Some (ar_attempt_id request)) (Some (ar_invocation_id request)) ReservationStatus.ACTIVE).

Definition attempt_usage (r : AgentResponse) (metric : UsageMetric.t) : UsageRecord :=
  let correlation := resp_invocation_id r +:+ ":attempt" in
  mk_UsageRecord TELEMETRY_SCHEMA_VERSION (usage_record_id (resp_run_id r) correlation metric)
    (resp_run_id r) (resp_work_package_id r) metric UsageUnit.ATTEMPTS UsageProvenance.MEASURED
    UsageSource.ORCHESTRATION (resp_completed_at r) correlation (Some 1) None None
    (Some (resp_attempt_id r)) (Some (resp_invocation_id r)) None None None None None.

(** What settles the reservation of an agent attempt: one measured attempt and
    the usage its provider reported. *)
Definition agent_settlement (reservation : BudgetReservation) (r : AgentResponse)
    (step : OrchestrationStep.t) : res (BudgetSettlement * list UsageRecord) :=
  metric ← step_usage_metric step ;
  usage ← validate_UsageRecord (attempt_usage r metric) ;
  settlement ← validate_BudgetSettlement
    (mk_BudgetSettlement TELEMETRY_SCHEMA_VERSION (br_id reservation) (resp_completed_at r) (Some 1)
       None None ReservationStatus.SETTLED None) ;
  provider ← provider_usage_records r ;
  mret (settlement, usage :: provider).

Definition duration_key (attempt_id : string) : string := attempt_id +:+ ":validation_duration".

Definition _validation_reservation (s : StoredRun) (attempt_id : string) (reserved_ms : Z)
    (created_at : datetime) : res BudgetReservation :=
  let key := duration_key attempt_id in
  let '(run_id, work_package_id) := run_identity s in
  validate_BudgetReservation
    (mk_BudgetReservation TELEMETRY_SCHEMA_VERSION
       (reservation_id run_id key BudgetMetric.TOTAL_DURATION) run_id work_package_id
       BudgetMetric.TOTAL_DURATION UsageUnit.MILLISECONDS
       (OrchestrationStep.value OrchestrationStep.VALIDATION) key created_at (Some reserved_ms) None
       None None None ReservationStatus.ACTIVE).

Definition overage_reason (elapsed_ms : Z) (reservation : BudgetReservation) : option string :=
  if default 0 (integer_reserved reservation) <? elapsed_ms then Some "validation_duration_overage"
  else None.

Definition validation_settlement (reservation : BudgetReservation) (r : ValidationPlanResult)
    (attempt_id : string) : res (BudgetSettlement * list UsageRecord) :=
  elapsed_ms ← _elapsed_milliseconds (pr_started_at r) (pr_completed_at r) ;
  let correlation := duration_key attempt_id in
  usage ← validate_UsageRecord
    (mk_UsageRecord TELEMETRY_SCHEMA_VERSION
       (usage_record_id (pr_run_id r) correlation UsageMetric.VALIDATION_DURATION) (pr_run_id r)
       (pr_work_package_id r) UsageMetric.VALIDATION_DURATION UsageUnit.MILLISECONDS
       UsageProvenance.MEASURED UsageSource.VALIDATION (pr_completed_at r) correlation
       (Some elapsed_ms) None None None None None None None None
       (overage_reason elapsed_ms reservation)) ;
  settlement ← validate_BudgetSettlement
    (mk_BudgetSettlement TELEMETRY_SCHEMA_VERSION (br_id reservation) (pr_completed_at r)
       (Some elapsed_ms) None None ReservationStatus.SETTLED (overage_reason elapsed_ms reservation)) ;
  mret (settlement, [usage]).

(** The outcome that a pending reservation belongs to. *)
Definition reservation_matches (run_id : string) (reservation : BudgetReservation)
    (a : AttemptEvidence) : bool :=
  match a with
  | Build _ | Repair _ | Review _ =>
      match br_invocation_id reservation, agent_of a with
      | Some invocation, Some g => String.eqb (ag_invocation_id g) invocation
      | _, _ => false
      end
  | Validation_ v =>
      String.eqb (br_id reservation)
        (reservation_id run_id (duration_key (at_attempt_id (va_base v))) BudgetMetric.TOTAL_DURATION)
  | _ => false
  end.

Definition outcome_attempts (records : list OrchestrationRecord) : list AttemptEvidence :=
  snd <$> dict_of ((fun r => (rec_attempt_id r, rec_attempt r))
                     <$> filter (fun r => is_outcome r = true) records).

(** What [_reconcile_telemetry] settles a matched reservation with. *)
Definition reconciled_settlement (reservation : BudgetReservation) (matched : option AttemptEvidence)
    : res (option (BudgetSettlement * list UsageRecord)) :=
  match matched with
  | Some (Validation_ a) =>
      match va_result a with
      | Some result => Some <$> validation_settlement reservation result (at_attempt_id (va_base a))
      | None => mret None
      end
  | Some a =>
      match agent_of a ≫= ag_response with
      | Some response => Some <$> agent_settlement reservation response (kind_of a)
      | None => mret None
      end
  | None => mret None
  end.
