(* ===== verification/Service.v ===== *)
(** * The durable coordinator
      ([src/src/revanent/orchestration/service.py], [OrchestrationService])

    The service reads and changes a world of three parts: the durable store (the
    repository of [Storage.v] and [UsageStore.v]), the dictionary of context
    packages it keeps in memory, and everything else (agents, Git, the
    validation executor, the clock), an environment about which nothing is
    assumed: every call may return any value or raise any exception.  The world
    also lists the requests handed to an agent adapter, in order, so that
    theorems can speak of them. *)

From Stdlib Require Import ZArith Lia Ascii String.
From S2P Require Import Prelude Text Domain StateMachine Effects Sha256 Commands Agents GitPort TelemetryPort Validation ContextPort TelemetryService ReviewGate OrchestrationPorts RepairPolicy Reconciliation Tables Storage RunJournal UsageStore Coordination.
From stdpp Require Import base option strings numbers gmap sets list list_relations.

Open Scope Z_scope.

(** ** The collaborators *)

Record AgentAdapter (E Token : Type) := mk_AgentAdapter {
  capabilities : M E AgentCapabilities;
  invoke : AgentRequest -> option Token -> M E AgentResponse
}.
Arguments capabilities {E Token}.
Arguments invoke {E Token}.

Record OrchestrationAdapters (E Token : Type) := mk_OrchestrationAdapters {
  builder : AgentAdapter E Token;
  reviewer : AgentAdapter E Token;
  local_repair : AgentAdapter E Token;
  codex_repair : option (AgentAdapter E Token)
}.
Arguments builder {E Token}.
Arguments reviewer {E Token}.
Arguments local_repair {E Token}.
Arguments codex_repair {E Token}.

(** The protocols the service is constructed with; [Token] is [CancellationToken]. *)
Class Collaborators (E Token : Type) := {
  now : M E datetime;
  is_cancelled : Token -> M E bool;
  create_worktree : WorktreeCreationRequest -> M E WorktreeCreationResult;
  verify_owned_worktree : string -> M E WorktreeVerificationResult;
  execute_validation : ValidationPlan -> datetime -> option Token -> M E ValidationPlanResult;
  collect : ValidationPlan -> ValidationPlanResult -> AgentResponse -> datetime -> M E LocalApprovalEvidence;
  select_context : ContextSelectionRequest -> M E ContextSelectionResult;
  adapters : OrchestrationAdapters E Token
}.

Record World (E : Type) := mk_World {
  w_store : Store;
  w_packages : list ((string * AgentRole.t) * ContextPackage);
  w_env : E;
  w_invoked : list AgentRequest
}.
Arguments mk_World {E}.
Arguments w_store {E}.
Arguments w_packages {E}.
Arguments w_env {E}.
Arguments w_invoked {E}.

Section Service.
Context {E Token : Type} `{!Collaborators E Token}.

Definition in_store {A} (m : M Store A) : M (World E) A := fun w =>
  let '(s, r) := m (w_store w) in (mk_World s (w_packages w) (w_env w) (w_invoked w), r).

Definition in_env {A} (m : M E A) : M (World E) A := fun w =>
  let '(e, r) := m (w_env w) in (mk_World (w_store w) (w_packages w) e (w_invoked w), r).

(** [self._context_packages.get(key)] and [self._context_packages[key] = package] *)
Definition get_package (key : string * AgentRole.t) : M (World E) (option ContextPackage) :=
  gets (fun w => dict_get key (w_packages w)).

Definition set_package (key : string * AgentRole.t) (p : ContextPackage) : M (World E) unit := fun w =>
  (mk_World (w_store w) (dict_set key p (w_packages w)) (w_env w) (w_invoked w), Ok tt).

(** [adapter.invoke(request, cancellation=cancellation)] *)
Definition invoke_adapter (adapter : AgentAdapter E Token) (request : AgentRequest)
    (cancellation : option Token) : M (World E) AgentResponse := fun w =>
  in_env (invoke adapter request cancellation)
    (mk_World (w_store w) (w_packages w) (w_env w) (w_invoked w ++ [request])).

Definition clock_now : M (World E) datetime := in_env now.
Definition list_records (run_id : string) : M (World E) (list OrchestrationRecord) :=
  in_store (list_orchestration_records run_id).

Abbreviation W := (World E).
Abbreviation outcome := (option OrchestrationResult).

(** ** Results and transitions *)

Definition _result (s : StoredRun) (status : OrchestrationStatus.t) (reason : string)
    (limit : LimitOutcome.t) : M W OrchestrationResult :=
  records ← list_records (run_id (stored_run s)) ;
  lift (validate_OrchestrationResult
          (mk_OrchestrationResult ORCHESTRATION_SCHEMA_VERSION status (stored_run s) (revision s) records
             limit reason)).

Definition stale_result (s : StoredRun) (reason : string) : M W OrchestrationResult :=
  _result s OrchestrationStatus.STALE reason LimitOutcome.NONE.

Definition transition_metadata (s : StoredRun) (metadata : gmap string string) : gmap string string :=
  metadata ∪ <["coordinator" := "p4-002"]> (<["revision" := str_of_Z (revision s)]> ∅).

Definition _transition (s : StoredRun) (destination : RunState) (reason : string)
    (approval_gate : option ApprovalGate) (increment_attempt : option AttemptCounterKind.t)
    (metadata : gmap string string) : M W StoredRun :=
  t ← clock_now ;
  result ← lift (transition_run (stored_run s) destination (dt_max t (run_updated_at (stored_run s))) reason
                   (transition_metadata s metadata) approval_gate increment_attempt) ;
  event_id ← lift (transition_event_id s destination) ;
  in_store (persist_transition s result event_id).

(** The transitions without gate, attempt and metadata. *)
Definition move (s : StoredRun) (destination : RunState) (reason : string) : M W StoredRun :=
  _transition s destination reason None None ∅.

Definition limit_metadata (limit : LimitOutcome.t) (metadata : gmap string string) : gmap string string :=
  if bool_decide (limit = LimitOutcome.NONE) then metadata
  else <["limit_outcome" := LimitOutcome.value limit]> metadata.

Definition _terminate_with (s : StoredRun) (state : RunState) (reason : string) (limit : LimitOutcome.t)
    (increment_attempt : option AttemptCounterKind.t) (metadata : gmap string string)
    : M W OrchestrationResult :=
  updated ← _transition s state reason None increment_attempt (limit_metadata limit metadata) ;
  status ← lift (_status_for_state state) ;
  _result updated status reason limit.

(** [self._terminate(stored, state, reason)] *)
Definition _terminate (s : StoredRun) (state : RunState) (reason : string) : M W OrchestrationResult :=
  _terminate_with s state reason LimitOutcome.NONE None ∅.

(** [self._terminate(stored, FAILED, reason, limit=limit)] *)
Definition exhausted (s : StoredRun) (reason : string) (limit : LimitOutcome.t) : M W OrchestrationResult :=
  _terminate_with s FAILED reason limit None ∅.

Definition stop {A} (m : M W A) : M W (option A) := Some <$> m.

Definition _cancel (s : StoredRun) (increment_attempt : option AttemptCounterKind.t)
    : M W OrchestrationResult :=
  records ← list_records (run_id (stored_run s)) ;
  let reason :=
    if _has_unresolved_mutating_side_effects records
    then "cancellation preserved an unresolved mutating attempt for human recovery"
    else "cancellation was observed before the next side effect" in
  updated ← _transition s CANCELLED reason None increment_attempt ∅ ;
  _result updated OrchestrationStatus.CANCELLED reason LimitOutcome.NONE.

(** [LimitOutcome(value)] *)
Definition limit_of_value (value : string) : res LimitOutcome.t :=
  match find_first (fun l => String.eqb (LimitOutcome.value l) value)
          [LimitOutcome.NONE; LimitOutcome.BUILD_ATTEMPTS_EXHAUSTED; LimitOutcome.REVIEW_ATTEMPTS_EXHAUSTED;
           LimitOutcome.REPAIR_ATTEMPTS_EXHAUSTED; LimitOutcome.RUN_DURATION_EXHAUSTED] with
  | Some l => Ok l
  | None => Err (ValueError "limit_outcome")
  end.

(** The limit that the last event of a run recorded. *)
Definition persisted_limit (events : list RunEvent) : res LimitOutcome.t :=
  match last events with
  | None => mret LimitOutcome.NONE
  | Some event =>
      match metadata_dict (tr_metadata (ev_transition event)) !! "limit_outcome" with
      | Some value => limit_of_value value
      | None => mret LimitOutcome.NONE
      end
  end.

Definition _terminal_result (s : StoredRun) : M W OrchestrationResult :=
  events ← in_store (list_events (run_id (stored_run s))) ;
  limit ← lift (persisted_limit events) ;
  status ← lift (_status_for_state (run_state (stored_run s))) ;
  _result s status ("run is terminal in " +:+ run_state_value (run_state (stored_run s))) limit.

(** ** Durable records *)

Definition _persist (s : StoredRun) (a : AttemptEvidence) (stage : OrchestrationRecordStage.t)
    : M W RecordWriteResult :=
  records ← list_records (run_id (stored_run s)) ;
  id ← lift (ids_record_id (at_attempt_id (base_of a)) stage) ;
  t ← clock_now ;
  record ← lift (validate_OrchestrationRecord
    (mk_OrchestrationRecord ORCHESTRATION_SCHEMA_VERSION id (run_id (stored_run s))
       (wp_id (run_work_package (stored_run s))) (Z.of_nat (length records) + 1) (revision s)
       (run_state (stored_run s)) stage t a None)) ;
  in_store (persist_orchestration_record s record).

Definition _persist_reconciliation (s : StoredRun) (intent : OrchestrationRecord)
    (reconciliation : ReconciliationResult) : M W RecordWriteResult :=
  records ← list_records (run_id (stored_run s)) ;
  id ← lift (ids_record_id (rec_attempt_id intent) OrchestrationRecordStage.RECONCILIATION) ;
  record ← lift (validate_OrchestrationRecord
    (mk_OrchestrationRecord ORCHESTRATION_SCHEMA_VERSION id (run_id (stored_run s))
       (wp_id (run_work_package (stored_run s))) (Z.of_nat (length records) + 1) (revision s)
       (run_state (stored_run s)) OrchestrationRecordStage.RECONCILIATION (rr_observed_at reconciliation)
       (rec_attempt intent) (Some reconciliation))) ;
  in_store (persist_orchestration_record s record).

Definition _require_current (s : StoredRun) : M W unit :=
  current ← in_store (get_run (run_id (stored_run s))) ;
  lift (raise_if (negb (bool_decide (current = s)))
          (ConcurrentRunUpdateError (run_id (stored_run s)) (revision s) (revision current))).

Definition _attempt_records (s : StoredRun) (step : OrchestrationStep.t) (sequence : Z)
    : M W _AttemptRecords :=
  attempt_records step sequence <$> list_records (run_id (stored_run s)).

Definition _next_attempt_sequence (s : StoredRun) (step : OrchestrationStep.t) : M W Z :=
  next_attempt_sequence s step <$> list_records (run_id (stored_run s)).

Definition _repair_count (run_id : string) : M W Z := repair_count <$> list_records run_id.

Definition _latest_validation (run_id : string) : M W (option ValidationAttempt) :=
  latest_validation <$> list_records run_id.

(** The evidence of a new attempt, before its side effect. *)
Definition intended (s : StoredRun) (attempt_id : string) (sequence : Z) (started : datetime)
    : _AttemptBase :=
  mk_AttemptBase ORCHESTRATION_SCHEMA_VERSION attempt_id (run_id (stored_run s))
    (wp_id (run_work_package (stored_run s))) sequence AttemptStatus.INTENDED started None
    ReconciliationState.KNOWN_NONE None.

(** The evidence of an attempt that ended. *)
Definition concluded (status : AttemptStatus.t) (completed_at : datetime)
    (side_effects : ReconciliationState.t) (failure : option OrchestrationFailure) (b : _AttemptBase)
    : _AttemptBase :=
  mk_AttemptBase (at_schema_version b) (at_attempt_id b) (at_run_id b) (at_work_package_id b)
    (at_sequence b) status (at_started_at b) (Some completed_at) side_effects failure.

(** ** Worktree and duration *)

Definition _verify_worktree (s : StoredRun) (request : OrchestrationRequest) : M W unit :=
  let expected := worktree request in
  verified ← in_env (verify_owned_worktree (wcr_worktree_id expected)) ;
  let record := vres_record verified in
  lift (raise_if
    (negb (bool_decide (lifecycle_status record = WorktreeLifecycleStatus.ACTIVE))
     || negb (bool_decide (wor_run_id record = Some (run_id (stored_run s))))
     || negb (bool_decide (wor_worktree_path record = target_path expected))
     || negb (String.eqb (wor_branch_name record) (wcr_branch_name expected)))
    (GitError "owned worktree verification did not match orchestration request")).

Definition _duration_exhausted (s : StoredRun) : M W bool :=
  t ← clock_now ; mret (duration_exhausted t (stored_run s)).

Definition _duration_budget_decision (s : StoredRun) : M W BudgetDecision :=
  policy ← lift (_budget_policy s) ;
  in_store (decision (run_id (stored_run s)) policy BudgetMetric.TOTAL_DURATION (Some 1) None None false).

Definition _has_unresolved_reservation (s : StoredRun) : M W bool :=
  reservations ← in_store (service_reservations (run_id (stored_run s))) ;
  mret (existsb (fun r => bool_decide (br_status r = ReservationStatus.UNRESOLVED)) reservations).

Definition allows (d : BudgetDecision) : bool := bool_decide (bd_status d = BudgetDecisionStatus.ALLOW).

Definition _validation_allowance_ms (s : StoredRun) (started_at : datetime) : M W Z :=
  d ← _duration_budget_decision s ;
  if negb (allows d) then mret 0
  else
    elapsed ← lift (_elapsed_milliseconds (run_created_at (stored_run s)) started_at) ;
    let wall_remaining := max_duration_seconds (run_budgets (stored_run s)) * 1000 - elapsed in
    mret (Z.max 0 (Z.min wall_remaining (default 0 (remaining_integer d)))).

Definition reserve (s : StoredRun) (reservation : BudgetReservation) : M W BudgetDecision :=
  policy ← lift (_budget_policy s) ;
  in_store (service_reserve reservation policy (Some (revision s)) false).

Definition settle (reservation : BudgetReservation) (settled : BudgetSettlement * list UsageRecord)
    : M W unit :=
  in_store (service_settle reservation settled.1 settled.2) ;; mret tt.

Definition record_context_usage (manifest : ContextManifest) (observed_at : datetime) : M W unit :=
  records ← lift (context_usage_records manifest observed_at) ;
  in_store (record records) ;; mret tt.

(** ** Workspace and context *)

Definition workspace_evidence (created : WorktreeCreationResult) : WorkspaceEvidence :=
  let record := cres_record created in
  mk_WorkspaceEvidence (wor_worktree_id record) (lifecycle_status record)
    (path_str (wor_worktree_path record)) (wor_branch_name record)
    (repository_id (wor_repository record)).

(** The [try] block that creates and verifies the worktree, and its handler. *)
Definition workspace_outcome (s : StoredRun) (request : OrchestrationRequest) (intent : WorkspaceAttempt)
    : M W WorkspaceAttempt :=
  try_except
    (created ← in_env (create_worktree (worktree request)) ;
     _verify_worktree s request ;;
     evidence ← lift (validate_WorkspaceEvidence (workspace_evidence created)) ;
     t ← clock_now ;
     lift (validate_WorkspaceAttempt
       (mk_WorkspaceAttempt
          (concluded AttemptStatus.COMPLETED t ReconciliationState.KNOWN_PRESENT
             (at_failure (wa_base intent)) (wa_base intent))
          (wa_request intent) (Some evidence))))
    is_GitError
    (fun _ =>
       t ← clock_now ;
       failure ← lift (_failure "worktree_creation_blocked" "owned worktree creation failed safely") ;
       lift (validate_WorkspaceAttempt
         (mk_WorkspaceAttempt
            (concluded AttemptStatus.BLOCKED t ReconciliationState.AMBIGUOUS (Some failure) (wa_base intent))
            (wa_request intent) (wa_evidence intent)))).

Definition _workspace (s : StoredRun) (request : OrchestrationRequest) : M W outcome :=
  existing ← _attempt_records s OrchestrationStep.WORKSPACE 1 ;
  match ex_outcome existing, ex_intent existing with
  | Some _, _ =>
      _verify_worktree s request ;;
      move s BUILDING "owned worktree is active and verified" ;; mret None
  | None, Some _ =>
      stop (stale_result s "workspace intent is already owned; explicit reconciliation is required")
  | None, None =>
      attempt_id ← lift (ids_attempt_id (run_id (stored_run s)) OrchestrationStep.WORKSPACE 1) ;
      started ← clock_now ;
      intent ← lift (validate_WorkspaceAttempt
        (mk_WorkspaceAttempt (intended s attempt_id 1 started) (worktree request) None)) ;
      written ← _persist s (Workspace intent) OrchestrationRecordStage.INTENT ;
      if negb (created written) then stop (stale_result s "workspace intent is owned elsewhere")
      else
        _require_current s ;;
        terminal ← workspace_outcome s request intent ;
        _persist s (Workspace terminal) OrchestrationRecordStage.OUTCOME ;;
        if negb (has_attempt_status AttemptStatus.COMPLETED (wa_base terminal))
        then stop (_terminate s BLOCKED "owned worktree could not be prepared")
        else move s BUILDING "owned worktree created and verified" ;; mret None
  end.

Definition context_key (request : ContextSelectionRequest) : string * AgentRole.t :=
  (csq_run_id request, csq_role request).

Definition _restore_context_package (request : ContextSelectionRequest) (a : ContextAttempt) : M W bool :=
  cached ← get_package (context_key request) ;
  match cached with
  | Some package => mret (bool_decide (Some (cp_manifest package) = ca_manifest a))
  | None =>
      selected ← in_env (select_context request) ;
      match csr_package selected with
      | Some package =>
          if bool_decide (Some (cp_manifest package) = ca_manifest a)
          then set_package (context_key request) package ;; mret true
          else mret false
      | None => mret false
      end
  end.

(** The completed context outcomes of a run, by role; the last one counts. *)
Definition context_outcomes (records : list OrchestrationRecord) : list (AgentRole.t * ContextAttempt) :=
  dict_of (omap (fun r => match rec_attempt r with
                          | Context a =>
                              if is_outcome r && has_attempt_status AttemptStatus.COMPLETED (ca_base a)
                              then Some (ca_role a, a) else None
                          | _ => None
                          end) records).

(** [all(...)]: stops at the first request that cannot be restored. *)
Fixpoint restore_requests (outcomes : list (AgentRole.t * ContextAttempt))
    (requests : list ContextSelectionRequest) : M W bool :=
  match requests with
  | [] => mret true
  | request :: requests =>
      match dict_get (csq_role request) outcomes with
      | None => mret false
      | Some a =>
          restored ← _restore_context_package request a ;
          if (restored : bool) then restore_requests outcomes requests else mret false
      end
  end.

Definition _restore_all_context (s : StoredRun) (request : OrchestrationRequest) : M W bool :=
  records ← list_records (run_id (stored_run s)) ;
  restore_requests (context_outcomes records) (context_requests request).

(** A context request whose outcome is already durable. *)
Definition replay_context (s : StoredRun) (request : ContextSelectionRequest) (a : AttemptEvidence)
    : M W outcome :=
  match a with
  | Context a =>
      if negb (has_attempt_status AttemptStatus.COMPLETED (ca_base a)) then
        stop (_terminate s BLOCKED "persisted context evidence is incomplete or invalid")
      else
        restored ← _restore_context_package request a ;
        if negb restored then
          stop (_terminate s BLOCKED "current context no longer matches the durable manifest")
        else
          match at_completed_at (ca_base a), ca_manifest a with
          | Some completed, Some manifest => record_context_usage manifest completed ;; mret None
          | _, _ => raise AssertionError
          end
  | _ => raise AssertionError
  end.

(** [max(self._clock.now(), intent.started_at)] *)
Definition completion_time (b : _AttemptBase) : M W datetime :=
  t ← clock_now ; mret (dt_max t (at_started_at b)).

(** Select the context of an intent and persist the outcome. *)
Definition perform_context (s : StoredRun) (request : ContextSelectionRequest) (intent : ContextAttempt)
    : M W outcome :=
  _require_current s ;;
  selected ← in_env (select_context request) ;
  let base := ca_base intent in
  match csr_failure selected, csr_package selected with
  | Some f, _ =>
      completed ← completion_time base ;
      failure ← lift (_failure (csf_code f) "deterministic context selection did not complete safely") ;
      terminal ← lift (validate_ContextAttempt
        (mk_ContextAttempt
           (concluded (if csf_blocking f then AttemptStatus.BLOCKED else AttemptStatus.INVALID) completed
              (at_side_effects base) (Some failure) base)
           (ca_request_id intent) (ca_role intent) None)) ;
      _persist s (Context terminal) OrchestrationRecordStage.OUTCOME ;;
      stop (_terminate s (if csf_blocking f then BLOCKED else FAILED)
              "required context is incomplete, unsafe, or unavailable")
  | None, None => raise AssertionError
  | None, Some package =>
      completed ← completion_time base ;
      terminal ← lift (validate_ContextAttempt
        (mk_ContextAttempt
           (concluded AttemptStatus.COMPLETED completed (at_side_effects base) None base)
           (ca_request_id intent) (ca_role intent) (Some (cp_manifest package)))) ;
      written ← _persist s (Context terminal) OrchestrationRecordStage.OUTCOME ;
      match rec_attempt (rwr_record written) with
      | Context a =>
          match ca_manifest a, at_completed_at (ca_base a) with
          | Some manifest, Some at_ =>
              record_context_usage manifest at_ ;;
              set_package (run_id (stored_run s), csq_role request) package ;; mret None
          | _, _ => raise AssertionError
          end
      | _ => raise AssertionError
      end
  end.

(** One turn of the loop over the context requests. *)
Definition context_request (s : StoredRun) (sequence : Z) (request : ContextSelectionRequest)
    : M W outcome :=
  existing ← _attempt_records s OrchestrationStep.CONTEXT sequence ;
  match ex_outcome existing, ex_intent existing with
  | Some r, _ => replay_context s request (rec_attempt r)
  | None, found =>
      attempt_id ← lift (ids_attempt_id (run_id (stored_run s)) OrchestrationStep.CONTEXT sequence) ;
      started ← clock_now ;
      match found with
      | None =>
          intent ← lift (validate_ContextAttempt
            (mk_ContextAttempt (intended s attempt_id sequence started) (csq_request_id request)
               (csq_role request) None)) ;
          written ← _persist s (Context intent) OrchestrationRecordStage.INTENT ;
          if negb (created written) then stop (stale_result s "context intent is owned elsewhere")
          else perform_context s request intent
      | Some r =>
          match rec_attempt r with
          | Context intent =>
              if negb (String.eqb (ca_request_id intent) (csq_request_id request))
                 || negb (bool_decide (ca_role intent = csq_role request)) then
                stop (_terminate s BLOCKED "context intent conflicts with the current request")
              else perform_context s request intent
          | _ => raise AssertionError
          end
      end
  end.

(** [for sequence, context_request in enumerate(requests, sequence)] *)
Fixpoint context_loop (s : StoredRun) (sequence : Z) (requests : list ContextSelectionRequest)
    : M W outcome :=
  match requests with
  | [] => mret None
  | request :: requests =>
      early ← context_request s sequence request ;
      match early with
      | Some r => mret (Some r)
      | None => context_loop s (sequence + 1) requests
      end
  end.

Definition _context (s : StoredRun) (request : OrchestrationRequest) : M W outcome :=
  if existsb (fun item => negb (bool_decide (csq_task item = run_task (stored_run s))))
       (context_requests request) then
    stop (_terminate s BLOCKED "context task identity or scope conflicts with the durable run")
  else
    early ← context_loop s 1 (context_requests request) ;
    match early with
    | Some r => mret (Some r)
    | None =>
        move s WORKSPACE_PREPARING "deterministic context manifests are complete" ;; mret None
    end.

(** ** Agent attempts *)

Definition _agent_request (prototype : AgentRequest) (attempt_id : string) (sequence : Z)
    : M W AgentRequest :=
  found ← get_package (ar_run_id prototype, ar_role prototype) ;
  match found with
  | None => raise (ValueError "validated context package is unavailable for agent invocation")
  | Some package =>
      agent_attempt ← lift (ids_agent_attempt_id attempt_id) ;
      invocation ← lift (ids_invocation_id attempt_id) ;
      references ← lift (agent_references (cp_trusted_controls package) (cp_untrusted_items package)) ;
      lift (validate_AgentRequest
        (mk_AgentRequest (ar_schema_version prototype) invocation (ar_run_id prototype)
           (ar_work_package_id prototype) agent_attempt sequence (ar_role prototype)
           (ar_objective prototype) (allowed_scope prototype) (forbidden_scope prototype)
           (ar_workspace prototype) references (response_contract prototype)
           (ar_timeout_seconds prototype) (cancellation_reference prototype)
           (artifact_policy prototype) (routing prototype) (allowed_environment_names prototype)
           (expected_capabilities prototype) (prior_findings prototype)))
  end.

(** [BuildAttempt.model_validate] or [RepairAttempt.model_validate], by step. *)
Definition agent_evidence (step : OrchestrationStep.t) (base : _AttemptBase) (request : AgentRequest)
    (adapter_id : string) (decision : option RepairDecision) (write_authorized : bool)
    : res AttemptEvidence :=
  let fields role :=
    mk_AgentFields role (ar_attempt_id request) (ar_invocation_id request) adapter_id request None in
  if bool_decide (step = OrchestrationStep.BUILD) then
    Build <$> validate_BuildAttempt (mk_BuildAttempt base (fields AgentRole.BUILDER))
  else
    match decision with
    | None => Err AssertionError
    | Some d =>
        Repair <$> validate_RepairAttempt
                     (mk_RepairAttempt base (fields (ar_role request)) d write_authorized)
    end.

Definition set_response (response : option AgentResponse) (g : AgentFields) : AgentFields :=
  mk_AgentFields (ag_role g) (ag_agent_attempt_id g) (ag_invocation_id g) (ag_adapter_id g)
    (ag_request g) response.

(** The dump of an agent attempt with another conclusion and response. *)
Definition conclude_agent (conclude : _AttemptBase -> _AttemptBase) (response : option AgentResponse)
    (a : AttemptEvidence) : AttemptEvidence :=
  match a with
  | Build a => Build (mk_BuildAttempt (conclude (ba_base a)) (set_response response (ba_agent a)))
  | Repair a =>
      Repair (mk_RepairAttempt (conclude (ra_base a)) (set_response response (ra_agent a))
                (ra_decision a) (ra_write_authorized a))
  | a => a
  end.

Definition _agent_side_effects (response : AgentResponse) (role : AgentRole.t) (request : AgentRequest)
    : M W ReconciliationState.t :=
  if bool_decide (role = AgentRole.REVIEWER) then mret ReconciliationState.KNOWN_NONE
  else
    match resp_failure response with
    | Some f => mret (agent_side_effect_state (af_side_effects f))
    | None =>
        verified ← attempt
          (id ← lift (WorktreeId (ws_reference_id (ar_workspace request))) ;
           in_env (verify_owned_worktree id)) ;
        match verified with
        | Err e => if is_GitError e || is_ValueError e then mret ReconciliationState.AMBIGUOUS else raise e
        | Ok v =>
            if has_changes (rs_status (vres_repository v))
               || negb (String.eqb (wts_head_commit (vres_worktree v)) (created_head (vres_record v)))
            then mret ReconciliationState.KNOWN_PRESENT
            else mret ReconciliationState.KNOWN_NONE
        end
    end.

(** The decision that lets an agent start, and the reservation it holds. *)
Definition agent_budget (s : StoredRun) (request : AgentRequest) (step : OrchestrationStep.t)
    : M W (BudgetDecision * option BudgetReservation) :=
  denial ← lift (_external_budget_denial s) ;
  match denial with
  | Some d => mret (d, None)
  | None =>
      t ← clock_now ;
      reservation ← lift (_agent_reservation s request step t) ;
      d ← reserve s reservation ;
      mret (d, Some reservation)
  end.

Definition budget_reason (d : BudgetDecision) : string :=
  match bd_reason_code d with
  | Some reason => if String.eqb reason "" then "budget denied" else reason
  | None => "budget denied"
  end.

Definition denied_failure (code : string) (d : BudgetDecision) : res OrchestrationFailure :=
  _failure code (budget_reason d).

(** Refuse an agent attempt before it starts: an intent and a blocked outcome. *)
Definition _record_prelaunch_blocked_agent (s : StoredRun) (step : OrchestrationStep.t) (sequence : Z)
    (prototype : AgentRequest) (adapter : AgentAdapter E Token) (decision : option RepairDecision)
    (write_authorized : bool) : M W AttemptEvidence :=
  attempt_id ← lift (ids_attempt_id (run_id (stored_run s)) step sequence) ;
  request ← _agent_request prototype attempt_id sequence ;
  t ← clock_now ;
  failure ← lift (_failure "adapter_unavailable" "required agent adapter is unavailable") ;
  c ← in_env (capabilities adapter) ;
  terminal ← lift (agent_evidence step
    (concluded AttemptStatus.BLOCKED t ReconciliationState.KNOWN_NONE (Some failure)
       (intended s attempt_id sequence t)) request (cap_adapter_id c) decision write_authorized) ;
  intent ← lift (validate_AttemptEvidence
    (conclude_agent
       (fun b => mk_AttemptBase (at_schema_version b) (at_attempt_id b) (at_run_id b)
                   (at_work_package_id b) (at_sequence b) AttemptStatus.INTENDED t None
                   ReconciliationState.KNOWN_NONE None) None terminal)) ;
  _persist s intent OrchestrationRecordStage.INTENT ;;
  _persist s terminal OrchestrationRecordStage.OUTCOME ;;
  mret terminal.

Definition response_failure (status : AttemptStatus.t) (r : AgentResponse)
    : res (option OrchestrationFailure) :=
  if bool_decide (status = AttemptStatus.COMPLETED) then mret None
  else
    Some <$> _failure (match resp_failure r with Some f => af_code f | None => "agent_failed" end)
               "agent attempt did not complete successfully".

Definition settle_agent (reservation : BudgetReservation) (r : AgentResponse) (step : OrchestrationStep.t)
    : M W unit :=
  settled ← lift (agent_settlement reservation r step) ; settle reservation settled.

(** What follows the durable intent: the budget, the agent, the outcome. *)
Definition launch_agent (s : StoredRun) (step : OrchestrationStep.t) (intent : AttemptEvidence)
    (request : AgentRequest) (adapter : AgentAdapter E Token) (cancellation : option Token)
    : M W AttemptEvidence :=
  _require_current s ;;
  budget ← agent_budget s request step ;
  if negb (allows (fst budget)) then
    t ← clock_now ;
    failure ← lift (denied_failure "budget_denied" (fst budget)) ;
    terminal ← lift (validate_AttemptEvidence
      (conclude_agent (fun b => concluded AttemptStatus.BLOCKED t (at_side_effects b) (Some failure) b)
         None intent)) ;
    _persist s terminal OrchestrationRecordStage.OUTCOME ;;
    mret terminal
  else
    match snd budget with
    | None => raise AssertionError
    | Some reservation =>
        response ← invoke_adapter adapter request cancellation ;
        projected ← lift (_project_agent_response response) ;
        let status := _agent_attempt_status projected in
        side_effects ← _agent_side_effects projected (ar_role request) request ;
        failure ← lift (response_failure status projected) ;
        terminal ← lift (validate_AttemptEvidence
          (conclude_agent (concluded status (resp_completed_at projected) side_effects failure)
             (Some projected) intent)) ;
        _persist s terminal OrchestrationRecordStage.OUTCOME ;;
        settle_agent reservation projected step ;;
        mret terminal
    end.

(** Start a new attempt: the intent is durable before anything else happens. *)
Definition start_agent (s : StoredRun) (step : OrchestrationStep.t) (sequence : Z)
    (prototype : AgentRequest) (adapter : AgentAdapter E Token) (adapter_id : string)
    (cancellation : option Token) (decision : option RepairDecision) (write_authorized : bool)
    : M W (option AttemptEvidence) :=
  attempt_id ← lift (ids_attempt_id (run_id (stored_run s)) step sequence) ;
  request ← _agent_request prototype attempt_id sequence ;
  started ← clock_now ;
  intent ← lift (agent_evidence step (intended s attempt_id sequence started) request adapter_id decision
                   write_authorized) ;
  written ← _persist s intent OrchestrationRecordStage.INTENT ;
  if negb (created written) then mret None
  else Some <$> launch_agent s step intent request adapter cancellation.

Definition supports_role (c : AgentCapabilities) (role : AgentRole.t) : bool :=
  bool_decide (availability c = AgentAvailability.AVAILABLE)
  && bool_decide (role ∈ supported_roles c).

Definition _agent_attempt (s : StoredRun) (step : OrchestrationStep.t) (sequence : Z)
    (prototype : AgentRequest) (adapter : AgentAdapter E Token) (cancellation : option Token)
    (decision : option RepairDecision) (write_authorized : bool) : M W (option AttemptEvidence) :=
  existing ← _attempt_records s step sequence ;
  match ex_outcome existing, ex_intent existing with
  | Some r, _ =>
      match rec_attempt r with
      | Build _ | Repair _ => mret (Some (rec_attempt r))
      | _ => raise AssertionError
      end
  | None, Some _ => mret None
  | None, None =>
      c ← in_env (capabilities adapter) ;
      if negb (supports_role c (ar_role prototype)) then
        Some <$> _record_prelaunch_blocked_agent s step sequence prototype adapter decision
                   write_authorized
      else
        start_agent s step sequence prototype adapter (cap_adapter_id c) cancellation decision
          write_authorized
  end.

Definition _build (s : StoredRun) (request : OrchestrationRequest) (cancellation : option Token)
    : M W outcome :=
  sequence ← _next_attempt_sequence s OrchestrationStep.BUILD ;
  let bound := max_build_attempts (run_budgets (stored_run s)) in
  if (bound <=? build (run_attempts (stored_run s))) || (bound <? sequence) then
    stop (exhausted s "builder attempt limit exhausted" LimitOutcome.BUILD_ATTEMPTS_EXHAUSTED)
  else
    _verify_worktree s request ;;
    terminal ← _agent_attempt s OrchestrationStep.BUILD sequence (builder_request request)
                 (builder adapters) cancellation None false ;
    let counted := Some AttemptCounterKind.BUILD in
    match terminal with
    | None => stop (stale_result s "builder intent is already owned; explicit reconciliation is required")
    | Some (Build a) =>
        let base := ba_base a in
        if has_attempt_status AttemptStatus.BLOCKED base then
          stop (_terminate_with s BLOCKED "builder is unavailable or blocked" LimitOutcome.NONE counted ∅)
        else if has_attempt_status AttemptStatus.CANCELLED base then stop (_cancel s counted)
        else if has_attempt_status AttemptStatus.COMPLETED base
                || bool_decide (at_side_effects base ∈ [ReconciliationState.KNOWN_PRESENT;
                                                        ReconciliationState.AMBIGUOUS]) then
          _transition s VALIDATING "builder attempt requires validation" None counted ∅ ;; mret None
        else
          stop (_terminate_with s FAILED "builder failed without repository writes" LimitOutcome.NONE
                  counted ∅)
    | Some _ => raise AssertionError
    end.

(** ** Validation *)

Definition with_result (base : _AttemptBase) (result : option ValidationPlanResult)
    (a : ValidationAttempt) : ValidationAttempt :=
  mk_ValidationAttempt base (va_plan a) result.

Definition validation_failure (projected : ValidationPlanResult) : res (option OrchestrationFailure) :=
  if approvable projected then mret None
  else Some <$> _failure "validation_not_approvable"
                  "validation did not produce complete passing required evidence".

(** The plan's commands run under a reservation; either an early answer or the
    terminal attempt. *)
Definition run_validation (s : StoredRun) (attempt_id : string) (plan : ValidationPlan)
    (started : datetime) (intent : ValidationAttempt) (cancellation : option Token)
    : M W (OrchestrationResult + ValidationAttempt) :=
  let base := va_base intent in
  reservation ← lift (_validation_reservation s attempt_id (total_timeout plan * 1000) started) ;
  budget ← reserve s reservation ;
  if negb (allows budget) then
    t ← clock_now ;
    failure ← lift (denied_failure "validation_budget_denied" budget) ;
    blocked ← lift (validate_ValidationAttempt
      (with_result (concluded AttemptStatus.BLOCKED t (at_side_effects base) (Some failure) base)
         (va_result intent) intent)) ;
    _persist s (Validation_ blocked) OrchestrationRecordStage.OUTCOME ;;
    inl <$> (if bool_decide (bd_status budget = BudgetDecisionStatus.DENY_UNRESOLVED_RESERVATION)
             then _terminate s BLOCKED "unresolved duration reservation prevents validation"
             else exhausted s "validation duration reservation was denied"
                    LimitOutcome.RUN_DURATION_EXHAUSTED)
  else
    result ← in_env (execute_validation plan started cancellation) ;
    projected ← lift (_project_validation_result result) ;
    failure ← lift (validation_failure projected) ;
    terminal ← lift (validate_ValidationAttempt
      (with_result (concluded (validation_attempt_status projected) (pr_completed_at projected)
                      ReconciliationState.KNOWN_NONE failure base) (Some projected) intent)) ;
    _persist s (Validation_ terminal) OrchestrationRecordStage.OUTCOME ;;
    settled ← lift (validation_settlement reservation projected attempt_id) ;
    settle reservation settled ;;
    mret (inr terminal).

(** Start a new validation attempt; [sequence] is within the request's plans. *)
Definition start_validation (s : StoredRun) (declared_plan : ValidationPlan) (sequence : Z)
    (cancellation : option Token) : M W (OrchestrationResult + ValidationAttempt) :=
  started ← clock_now ;
  allowance ← _validation_allowance_ms s started ;
  capped ← lift (_cap_validation_plan declared_plan allowance) ;
  match capped with
  | None => inl <$> exhausted s "remaining run duration cannot launch mandatory validation"
                      LimitOutcome.RUN_DURATION_EXHAUSTED
  | Some plan =>
      attempt_id ← lift (ids_attempt_id (run_id (stored_run s)) OrchestrationStep.VALIDATION sequence) ;
      intent ← lift (validate_ValidationAttempt
        (mk_ValidationAttempt (intended s attempt_id sequence started) plan None)) ;
      written ← _persist s (Validation_ intent) OrchestrationRecordStage.INTENT ;
      if negb (created written) then inl <$> stale_result s "validation intent is owned elsewhere"
      else
        _require_current s ;;
        run_validation s attempt_id plan started intent cancellation
  end.

(** What a terminal validation means for the run. *)
Definition validation_verdict (s : StoredRun) (terminal : ValidationAttempt) : M W outcome :=
  match va_result terminal with
  | None => raise AssertionError
  | Some result =>
      if approvable result then move s REVIEWING "required validation passed" ;; mret None
      else
        match pr_status result with
        | ValidationStatus.CANCELLED => stop (_cancel s None)
        | ValidationStatus.BLOCKED | ValidationStatus.UNAVAILABLE =>
            stop (_terminate s BLOCKED "required validation tooling is blocked")
        | ValidationStatus.INVALID | ValidationStatus.TIMED_OUT =>
            stop (_terminate s FAILED "validation evidence is invalid or timed out")
        | _ =>
            repairs ← _repair_count (run_id (stored_run s)) ;
            if max_repair_attempts (run_budgets (stored_run s)) <=? repairs then
              stop (exhausted s "repair limit exhausted after validation failure"
                      LimitOutcome.REPAIR_ATTEMPTS_EXHAUSTED)
            else move s REPAIRING "validation failure requires repair policy" ;; mret None
        end
  end.

Definition _validate (s : StoredRun) (request : OrchestrationRequest) (cancellation : option Token)
    : M W outcome :=
  _verify_worktree s request ;;
  sequence ← _next_attempt_sequence s OrchestrationStep.VALIDATION ;
  let plans := validation_plans request in
  if Z.of_nat (length plans) <? sequence then stop (_terminate s FAILED "no validation plan remains")
  else
    existing ← _attempt_records s OrchestrationStep.VALIDATION sequence ;
    match ex_outcome existing, ex_intent existing with
    | Some r, _ =>
        match rec_attempt r with
        | Validation_ a => validation_verdict s a
        | _ => raise AssertionError
        end
    | None, Some _ =>
        stop (stale_result s "validation intent is already owned; explicit reconciliation is required")
    | None, None =>
        match plans !! Z.to_nat (sequence - 1) with
        | None => raise (OtherError "IndexError")
        | Some declared_plan =>
            started ← start_validation s declared_plan sequence cancellation ;
            match started with
            | inl r => mret (Some r)
            | inr terminal => validation_verdict s terminal
            end
        end
    end.

(** ** Review *)

(** The local evidence, with unresolved side effects written over it. *)
Definition reconciled_evidence (records : list OrchestrationRecord) (local : LocalApprovalEvidence)
    : res LocalApprovalEvidence :=
  if _has_unresolved_mutating_side_effects records then
    validate_LocalApprovalEvidence
      (mk_LocalApprovalEvidence (le_schema_version local) (le_run_id local) (le_work_package_id local)
         (le_validation_plan_id local) (le_review_invocation_id local) (le_review_adapter_id local)
         (le_observed_at local) (le_scope_justified local) (le_generated_files_consistent local)
         (le_lockfiles_consistent local) (le_evidence_complete local)
         (le_required_artifacts_complete local) (le_repository_clean local)
         (le_review_read_only_verified local) false)
  else mret local.

Definition review_with (base : _AttemptBase) (response : option AgentResponse)
    (local : option LocalApprovalEvidence) (decision : option ReviewGateDecision) (a : ReviewAttempt)
    : ReviewAttempt :=
  mk_ReviewAttempt base (set_response response (rv_agent a)) (rv_validation_plan a)
    (rv_validation_result a) local decision.

Definition review_failure (status : AttemptStatus.t) : res (option OrchestrationFailure) :=
  if bool_decide (status = AttemptStatus.COMPLETED) then mret None
  else Some <$> _failure "review_failed" "reviewer did not complete".

(** The reviewer's response, gated: what a terminal review records. *)
Definition perform_review (s : StoredRun) (request : AgentRequest) (plan : ValidationPlan)
    (result : ValidationPlanResult) (intent : ReviewAttempt) (cancellation : option Token)
    : M W (ReviewAttempt * AgentResponse) :=
  raw ← invoke_adapter (reviewer adapters) request cancellation ;
  response ← lift (_project_agent_response raw) ;
  t ← clock_now ;
  let evaluated_at := dt_max (dt_max t (resp_completed_at response)) (pr_completed_at result) in
  collected ← in_env (collect plan result response evaluated_at) ;
  records ← list_records (run_id (stored_run s)) ;
  local ← lift (reconciled_evidence records collected) ;
  gate_input ← lift (validate_ReviewGateInput
    (mk_ReviewGateInput REVIEW_GATE_SCHEMA_VERSION (run_id (stored_run s))
       (wp_id (run_work_package (stored_run s))) (ar_invocation_id request) plan result response local
       evaluated_at)) ;
  decision ← lift (evaluate gate_input) ;
  let status := _agent_attempt_status response in
  failure ← lift (review_failure status) ;
  terminal ← lift (validate_ReviewAttempt
    (review_with (concluded status evaluated_at ReconciliationState.KNOWN_NONE failure (rv_base intent))
       (Some response) (Some local) (Some decision) intent)) ;
  mret (terminal, response).

Definition launch_review (s : StoredRun) (request : AgentRequest) (plan : ValidationPlan)
    (result : ValidationPlanResult) (intent : ReviewAttempt) (cancellation : option Token)
    : M W ReviewAttempt :=
  _require_current s ;;
  budget ← agent_budget s request OrchestrationStep.REVIEW ;
  if negb (allows (fst budget)) then
    t ← clock_now ;
    failure ← lift (denied_failure "budget_denied" (fst budget)) ;
    terminal ← lift (validate_ReviewAttempt
      (review_with (concluded AttemptStatus.BLOCKED t ReconciliationState.KNOWN_NONE (Some failure)
                      (rv_base intent)) None (rv_local_evidence intent) (rv_gate_decision intent) intent)) ;
    _persist s (Review terminal) OrchestrationRecordStage.OUTCOME ;;
    mret terminal
  else
    match snd budget with
    | None => raise AssertionError
    | Some reservation =>
        reviewed ← perform_review s request plan result intent cancellation ;
        _persist s (Review (fst reviewed)) OrchestrationRecordStage.OUTCOME ;;
        settle_agent reservation (snd reviewed) OrchestrationStep.REVIEW ;;
        mret (fst reviewed)
    end.

Definition _review_once (s : StoredRun) (request : OrchestrationRequest) (validation : ValidationAttempt)
    (sequence : Z) (cancellation : option Token) : M W (option ReviewAttempt) :=
  c ← in_env (capabilities (reviewer adapters)) ;
  attempt_id ← lift (ids_attempt_id (run_id (stored_run s)) OrchestrationStep.REVIEW sequence) ;
  agent_request ← _agent_request (reviewer_request request) attempt_id sequence ;
  started ← clock_now ;
  match va_result validation with
  | None => raise AssertionError
  | Some result =>
      intent ← lift (validate_ReviewAttempt
        (mk_ReviewAttempt (intended s attempt_id sequence started)
           (mk_AgentFields AgentRole.REVIEWER (ar_attempt_id agent_request)
              (ar_invocation_id agent_request) (cap_adapter_id c) agent_request None)
           (va_plan validation) result None None)) ;
      written ← _persist s (Review intent) OrchestrationRecordStage.INTENT ;
      if negb (created written) then mret None
      else Some <$> launch_review s agent_request (va_plan validation) result intent cancellation
  end.

(** What a terminal review means for the run. *)
Definition review_verdict (s : StoredRun) (terminal : ReviewAttempt) : M W outcome :=
  let base := rv_base terminal in
  let counted := Some AttemptCounterKind.REVIEW in
  match rv_gate_decision terminal with
  | None =>
      if has_attempt_status AttemptStatus.BLOCKED base
      then stop (_terminate s BLOCKED "review budget reservation was denied")
      else raise AssertionError
  | Some d =>
      if has_attempt_status AttemptStatus.CANCELLED base then stop (_cancel s counted)
      else
        match gd_status d with
        | ReviewGateStatus.APPROVABLE =>
            match gd_approval_gate d with
            | None => raise AssertionError
            | Some gate =>
                _transition s APPROVED "local validation and structured review gates passed" (Some gate)
                  counted ∅ ;; mret None
            end
        | ReviewGateStatus.BLOCKED =>
            stop (_terminate_with s BLOCKED "structured review is blocked" LimitOutcome.NONE counted ∅)
        | ReviewGateStatus.INVALID_EVIDENCE =>
            stop (_terminate_with s FAILED "structured review evidence is invalid" LimitOutcome.NONE
                    counted ∅)
        | _ =>
            repairs ← _repair_count (run_id (stored_run s)) ;
            if max_repair_attempts (run_budgets (stored_run s)) <=? repairs then
              stop (exhausted s "repair limit exhausted after review"
                      LimitOutcome.REPAIR_ATTEMPTS_EXHAUSTED)
            else
              _transition s REPAIRING "review changes require repair policy" None counted ∅ ;; mret None
        end
  end.

Definition reviewer_usable (c : AgentCapabilities) : bool :=
  supports_role c AgentRole.REVIEWER && supports_read_only c.

Definition _review (s : StoredRun) (request : OrchestrationRequest) (cancellation : option Token)
    : M W outcome :=
  _verify_worktree s request ;;
  c ← in_env (capabilities (reviewer adapters)) ;
  if negb (reviewer_usable c) then stop (_terminate s BLOCKED "read-only reviewer is unavailable")
  else
    sequence ← _next_attempt_sequence s OrchestrationStep.REVIEW ;
    let bound := max_review_attempts (run_budgets (stored_run s)) in
    if (bound <=? review (run_attempts (stored_run s))) || (bound <? sequence) then
      stop (exhausted s "review attempt limit exhausted" LimitOutcome.REVIEW_ATTEMPTS_EXHAUSTED)
    else
      found ← _latest_validation (run_id (stored_run s)) ;
      match found with
      | Some validation =>
          if negb (match va_result validation with Some r => approvable r | None => false end) then
            stop (_terminate s FAILED "review lacks passing validation evidence")
          else
            existing ← _attempt_records s OrchestrationStep.REVIEW sequence ;
            match ex_outcome existing, ex_intent existing with
            | Some r, _ =>
                match rec_attempt r with
                | Review a => review_verdict s a
                | _ => raise AssertionError
                end
            | None, Some _ =>
                stop (stale_result s "review intent is already owned; explicit reconciliation is required")
            | None, None =>
                candidate ← _review_once s request validation sequence cancellation ;
                match candidate with
                | None => stop (stale_result s "review intent is owned elsewhere")
                | Some terminal => review_verdict s terminal
                end
            end
      | None => stop (_terminate s FAILED "review lacks passing validation evidence")
      end.

(** ** Repair *)

(** [adapter.capabilities] is read again for every conjunct of an [and]. *)
Fixpoint offers_all (adapter : AgentAdapter E Token) (conjuncts : list (AgentCapabilities -> bool))
    : M W bool :=
  match conjuncts with
  | [] => mret true
  | p :: conjuncts =>
      c ← in_env (capabilities adapter) ;
      if (p c : bool) then offers_all adapter conjuncts else mret false
  end.

Definition _repair_input (s : StoredRun) (request : OrchestrationRequest) : M W RepairPolicyInput :=
  records ← list_records (run_id (stored_run s)) ;
  history ← lift (defect_history records [] false) ;
  local ← offers_all (local_repair adapters) can_build ;
  codex ← match codex_repair adapters with
          | Some adapter => offers_all adapter can_repair
          | None => mret false
          end ;
  lift (repair_input records history s local codex (codex_repair_authorized request)).

Definition is_strategy (strategy : RepairStrategy.t) (d : RepairDecision) : bool :=
  bool_decide (dec_strategy d = strategy).

(** The prototype and the adapter of the selected strategy. *)
Definition repair_agent (request : OrchestrationRequest) (d : RepairDecision)
    : option AgentRequest * option (AgentAdapter E Token) :=
  if is_strategy RepairStrategy.LOCAL_BUILDER d
  then (Some (local_repair_request request), Some (local_repair adapters))
  else (codex_repair_request request, codex_repair adapters).

(** What a terminal repair means for the run. *)
Definition repair_verdict (s : StoredRun) (terminal : RepairAttempt) : M W outcome :=
  let base := ra_base terminal in
  let counted := Some AttemptCounterKind.REPAIR in
  if has_attempt_status AttemptStatus.BLOCKED base then
    stop (_terminate_with s BLOCKED "repair adapter is unavailable or blocked" LimitOutcome.NONE counted ∅)
  else if has_attempt_status AttemptStatus.CANCELLED base then stop (_cancel s counted)
  else if has_attempt_status AttemptStatus.COMPLETED base
          || negb (bool_decide (at_side_effects base = ReconciliationState.KNOWN_NONE)) then
    _transition s VALIDATING "repair attempt requires complete revalidation" None counted ∅ ;; mret None
  else
    stop (_terminate_with s FAILED "repair failed without repository writes" LimitOutcome.NONE counted ∅).

Definition _repair (s : StoredRun) (request : OrchestrationRequest) (cancellation : option Token)
    : M W outcome :=
  _verify_worktree s request ;;
  sequence ← _next_attempt_sequence s OrchestrationStep.REPAIR ;
  let bound := max_repair_attempts (run_budgets (stored_run s)) in
  if (bound <=? repair (run_attempts (stored_run s))) || (bound <? sequence) then
    stop (exhausted s "repair attempt limit exhausted" LimitOutcome.REPAIR_ATTEMPTS_EXHAUSTED)
  else
    policy_input ← _repair_input s request ;
    d ← lift (RepairPolicy.decide policy_input sequence) ;
    let refuse state reason :=
      stop (_terminate_with s state reason LimitOutcome.NONE None (_repair_decision_metadata d)) in
    if is_strategy RepairStrategy.NO_REPAIR d then
      refuse FAILED "repair policy refused automatic repair"
    else if is_strategy RepairStrategy.BLOCKED d then
      refuse BLOCKED "repair requires unavailable authority"
    else if is_strategy RepairStrategy.CODEX_REPAIR d && negb (codex_repair_authorized request) then
      stop (_terminate s BLOCKED "Codex repair lacks explicit authorization")
    else
      match repair_agent request d with
      | (Some prototype, Some adapter) =>
          terminal ← _agent_attempt s OrchestrationStep.REPAIR sequence prototype adapter cancellation
                       (Some d) (is_strategy RepairStrategy.CODEX_REPAIR d) ;
          match terminal with
          | None => stop (stale_result s "repair intent is already owned; explicit reconciliation is required")
          | Some (Repair a) => repair_verdict s a
          | Some _ => raise AssertionError
          end
      | _ => stop (_terminate s BLOCKED "selected repair adapter is unavailable")
      end.

(** ** Telemetry left over from an interrupted run *)

Definition reconcile_reservation (s : StoredRun) (attempts : list AttemptEvidence)
    (reservation : BudgetReservation) : M W unit :=
  if negb (bool_decide (br_status reservation = ReservationStatus.ACTIVE)) then mret tt
  else
    let matched := find_first (reservation_matches (run_id (stored_run s)) reservation) attempts in
    settled ← lift (reconciled_settlement reservation matched) ;
    match settled with
    | Some settled => settle reservation settled
    | None =>
        t ← clock_now ;
        in_store (mark_unresolved reservation (dt_max t (br_created_at reservation))
                    "trusted_outcome_missing") ;; mret tt
    end.

Fixpoint reconcile_reservations (s : StoredRun) (attempts : list AttemptEvidence)
    (reservations : list BudgetReservation) : M W unit :=
  match reservations with
  | [] => mret tt
  | r :: rs => reconcile_reservation s attempts r ;; reconcile_reservations s attempts rs
  end.

Definition _reconcile_telemetry (s : StoredRun) : M W unit :=
  records ← list_records (run_id (stored_run s)) ;
  reservations ← in_store (service_reservations (run_id (stored_run s))) ;
  reconcile_reservations s (outcome_attempts records) reservations.

(** ** The public operations *)

(** [except GitError: return self._terminate(...)] around a stage. *)
Definition guarded (s : StoredRun) (stage : M W outcome) : M W outcome :=
  try_except stage is_GitError (fun _ => stop (_terminate s BLOCKED "owned worktree verification failed")).

(** The stage of the loop that the state selects. *)
Definition run_stage (s : StoredRun) (request : OrchestrationRequest) (cancellation : option Token)
    : M W outcome :=
  match run_state (stored_run s) with
  | CREATED => move s PLANNING "orchestration planning started" ;; mret None
  | PLANNING => move s CONTEXT_PREPARING "deterministic context preparation started" ;; mret None
  | CONTEXT_PREPARING => _context s request
  | WORKSPACE_PREPARING => guarded s (_workspace s request)
  | BUILDING => guarded s (_build s request cancellation)
  | VALIDATING => guarded s (_validate s request cancellation)
  | REVIEWING => guarded s (_review s request cancellation)
  | REPAIRING => guarded s (_repair s request cancellation)
  | _ => mret None
  end.

Definition cancelled (cancellation : option Token) : M W bool :=
  match cancellation with Some token => in_env (is_cancelled token) | None => mret false end.

(** [FAILED] where the table permits it, else [BLOCKED]. *)
Definition failing_state (source : RunState) : RunState :=
  if bool_decide (FAILED ∈ permitted_destinations source) then FAILED else BLOCKED.

(** One turn of the coordination loop. *)
Definition coordinate (request : OrchestrationRequest) (cancellation : option Token) : M W outcome :=
  s ← in_store (get_run (oreq_run_id request)) ;
  if is_terminal (run_state (stored_run s)) then stop (_terminal_result s)
  else
    overdue ← _duration_exhausted s ;
    if (overdue : bool) then
      stop (_terminate_with s (failing_state (run_state (stored_run s)))
              "maximum run duration was exhausted" LimitOutcome.RUN_DURATION_EXHAUSTED None ∅)
    else
      budget ← _duration_budget_decision s ;
      if negb (allows budget) then
        stop (if bool_decide (bd_status budget = BudgetDecisionStatus.DENY_UNRESOLVED_RESERVATION)
              then _terminate s BLOCKED "unresolved duration reservation prevents safe continuation"
              else exhausted s "measured validation duration exhausted the run budget"
                     LimitOutcome.RUN_DURATION_EXHAUSTED)
      else
        stopped ← cancelled cancellation ;
        if (stopped : bool) then stop (_cancel s None)
        else run_stage s request cancellation.

(** [for _ in range(steps)], then the bound is reported. *)
Fixpoint coordination_loop (steps : nat) (request : OrchestrationRequest) (cancellation : option Token)
    : M W OrchestrationResult :=
  match steps with
  | O =>
      s ← in_store (get_run (oreq_run_id request)) ;
      _terminate s FAILED "static orchestration step bound was exhausted"
  | S steps =>
      early ← coordinate request cancellation ;
      match early with
      | Some r => mret r
      | None => coordination_loop steps request cancellation
      end
  end.

(** The caller's expectation fails. *)
Definition revision_differs (request : OrchestrationRequest) (s : StoredRun) : bool :=
  match oreq_expected_revision request with Some n => negb (revision s =? n) | None => false end.

Definition caller_stale : string := "persisted run revision differs from the caller expectation".

(** States before the context is complete. *)
Definition before_context (state : RunState) : bool :=
  bool_decide (state ∈ [CREATED; PLANNING; CONTEXT_PREPARING]).

Definition execute (request : OrchestrationRequest) (cancellation : option Token)
    : M W OrchestrationResult :=
  initial ← in_store (get_run (oreq_run_id request)) ;
  let state := run_state (stored_run initial) in
  if is_terminal state then
    (if revision_differs request initial then mret tt else _reconcile_telemetry initial) ;;
    _terminal_result initial
  else if revision_differs request initial then stale_result initial caller_stale
  else
    _reconcile_telemetry initial ;;
    unresolved ← _has_unresolved_reservation initial ;
    if (unresolved : bool) then
      _terminate initial BLOCKED "unresolved reservation prevents safe continuation"
    else
      restored ← (if before_context state then mret true else _restore_all_context initial request) ;
      if negb restored then
        _terminate initial BLOCKED "durable context evidence cannot be safely materialized"
      else coordination_loop (Z.to_nat MAX_COORDINATION_STEPS) request cancellation.

Definition reconcile_run (request : OrchestrationRequest) : M W OrchestrationResult :=
  s ← in_store (get_run (oreq_run_id request)) ;
  if is_terminal (run_state (stored_run s)) then _terminal_result s
  else
    records ← list_records (run_id (stored_run s)) ;
    match incomplete_intent records with
    | None =>
        _result s OrchestrationStatus.IN_PROGRESS
          "no incomplete orchestration boundary requires reconciliation" LimitOutcome.NONE
    | Some intent =>
        if negb (bool_decide (rec_expected_state intent = run_state (stored_run s)))
           || negb (rec_run_revision intent =? revision s) then
          _terminate s BLOCKED "persisted attempt stage conflicts with the current durable run"
        else
          t ← clock_now ;
          reconciliation ← in_env (Reconciliation.reconcile verify_owned_worktree intent t) ;
          _persist_reconciliation s intent reconciliation ;;
          if of_step OrchestrationStep.WORKSPACE intent && safe_to_continue reconciliation then
            updated ← move s BUILDING "worktree creation was reconciled from live ownership evidence" ;
            _result updated OrchestrationStatus.IN_PROGRESS
              "worktree creation reconciliation permits bounded continuation" LimitOutcome.NONE
          else if mutating intent then
            _terminate s BLOCKED "mutating attempt outcome is unresolved and requires human recovery"
          else _terminate s FAILED "non-mutating attempt has incomplete durable evidence"
    end.

Definition cancel (request : OrchestrationRequest) : M W OrchestrationResult :=
  s ← in_store (get_run (oreq_run_id request)) ;
  if is_terminal (run_state (stored_run s)) then _terminal_result s
  else if revision_differs request s then stale_result s caller_stale
  else _cancel s None.
End Service.
