(* ===== verification/WriteAhead.v ===== *)
(** * Intents before side effects

    The invariant that every operation of the coordinator keeps, whatever its
    collaborators do: the store stays well formed, records are only added, and
    every request handed to an agent adapter has a durable intent of its own,
    written before the call.  An exception at any call, and so a crash between
    two calls, leaves the invariant in place. *)

From Stdlib Require Import ZArith Lia Ascii String.
From S2P Require Import Prelude Text Domain StateMachine Effects Agents GitPort TelemetryPort Validation ContextPort TelemetryService ReviewGate OrchestrationPorts RepairPolicy Reconciliation RuntimePort Tables Storage RunJournal UsageStore DurableStore Coordination Service.
From stdpp Require Import base option strings numbers gmap sets list list_relations.

Open Scope Z_scope.

(** ** Records are only added *)

Definition records_grow (s s' : Store) : Prop := st_records s `prefix_of` st_records s'.

#[export] Instance records_grow_confined : Confined records_grow.
Proof. unfold records_grow. split; [done|]. intros ???. apply transitivity. Qed.

(** The agent requests of the durable intents. *)
Definition intended_request (r : OrchestrationRecord) : option AgentRequest :=
  if is_intent r then ag_request <$> agent_of (rec_attempt r) else None.

Definition intended_requests (s : Store) : list AgentRequest :=
  omap intended_request (or_payload <$> st_records s).

Lemma intended_requests_grow s s' :
  records_grow s s' -> intended_requests s `sublist_of` intended_requests s'.
Proof.
  intros [rows Hrows]. unfold intended_requests. rewrite Hrows, fmap_app, omap_app.
  by apply sublist_inserts_r.
Qed.

(** A store operation that keeps the invariant of the store and only adds records. *)
Definition sound {A} (m : M Store A) : Prop := forall s,
  store_wf s -> store_wf (fst (m s)) /\ records_grow s (fst (m s)).

Lemma sound_call {A} (m : M Store A) c :
  store_call_wf c -> (forall s, store_exec c s = fst (m s)) -> only records_grow m -> sound m.
Proof. intros Hc Hm Hg s Hs. split; [rewrite <- Hm; by apply store_exec_wf | apply Hg]. Qed.

Lemma sound_reads {A} (m : M Store A) : reads m -> sound m.
Proof. intros Hm s Hs. rewrite Hm. split; [done | apply confined_refl]. Qed.

Lemma sound_bind {A B} (m : M Store A) (f : A -> M Store B) :
  sound m -> (forall a, sound (f a)) -> sound (m ≫= f).
Proof.
  intros Hm Hf s Hs. destruct (Hm s Hs) as [Hwf Hg]. unfold mbind, M_bind.
  destruct (m s) as [s1 [a|e]]; [|done]. destruct (Hf a s1 Hwf) as [? ?].
  split; [done|]. by eapply confined_trans.
Qed.

Ltac solve_grow := unfold records_grow; cbn; intros; by apply prefix_app_r.

Lemma sound_persist_transition s result event_id :
  EventId event_id = Ok event_id -> sound (persist_transition s result event_id).
Proof.
  intros Hid. apply (sound_call _ (RunCall (PersistTransition s result event_id))); [done| |].
  - intros w. cbn. by destruct (persist_transition s result event_id w).
  - intros w.
    pose proof (run_call_only records_grow (PersistTransition s result event_id)
      (fun f w => confined_refl w) (fun row w => confined_refl w) w) as H.
    cbn in H. by destruct (persist_transition s result event_id w).
Qed.

Lemma sound_persist_record s record :
  validate_OrchestrationRecord record = Ok record -> sound (persist_orchestration_record s record).
Proof.
  intros Hr. apply (sound_call _ (PersistRecord s record)); [done|done|].
  apply (persist_record_only _). intros row w. exists [row]. reflexivity.
Qed.

Lemma telemetry_grow c w : records_grow w (telemetry_exec c w).
Proof. apply (telemetry_only records_grow); intros; unfold records_grow; cbn; reflexivity. Qed.

Lemma sound_reserve r policy n known :
  validate_BudgetReservation r = Ok r -> br_status r = ReservationStatus.ACTIVE ->
  sound (service_reserve r policy n known).
Proof.
  intros Hr Ha. apply (sound_call _ (TelemetryCall (ReserveIfAllowed r policy n known))); [done|done|].
  intros w. apply (telemetry_grow (ReserveIfAllowed r policy n known)).
Qed.

Lemma sound_settle r s rs :
  validate_BudgetSettlement s = Ok s -> Forall (fun r => validate_UsageRecord r = Ok r) rs ->
  sound (service_settle r s rs).
Proof.
  intros Hs Hrs. apply (sound_call _ (TelemetryCall (SettleReservation r s rs))); [done|done|].
  intros w. apply (telemetry_grow (SettleReservation r s rs)).
Qed.

Lemma sound_record rs : Forall (fun r => validate_UsageRecord r = Ok r) rs -> sound (record rs).
Proof.
  induction 1 as [|r rs Hr _ IH]; cbn [record]; [by apply sound_reads, reads_ret|].
  apply sound_bind.
  - apply (sound_call _ (TelemetryCall (RecordUsage r))); [done|done|].
    intros w. apply (telemetry_grow (RecordUsage r)).
  - intros b. apply sound_bind; [exact IH|]. intros n. by apply sound_reads, reads_ret.
Qed.

Lemma sound_mark_unresolved r t reason : sound (mark_unresolved r t reason).
Proof.
  intros s Hs. unfold mark_unresolved. rewrite lift_bind.
  destruct (validate_BudgetSettlement _) as [settlement|e] eqn:Hv; [|by split; [|apply confined_refl]].
  apply (sound_settle r settlement []); [by eapply idem, Hv | constructor | done].
Qed.

Lemma list_records_reads id : reads (list_orchestration_records id).
Proof.
  unfold list_orchestration_records, run_exists. apply reads_bind; [apply reads_gets|].
  intros b. destruct (negb b); [apply reads_raise|].
  repeat (apply reads_bind; [auto with rev|intros ?]). apply reads_ret.
Qed.

Lemma usage_records_reads id : reads (list_usage_records id).
Proof. unfold list_usage_records. apply reads_bind; auto with rev. Qed.

Lemma reservations_reads id : reads (list_reservations id).
Proof. unfold list_reservations. apply reads_bind; auto with rev. Qed.

Lemma decision_reads id policy metric n d c known :
  reads (W := Store) (decision id policy metric n d c known).
Proof.
  unfold decision. destruct (find_first _ _); [|apply reads_lift].
  destruct (bool_decide _); [apply reads_lift|]. destruct (negb _); [apply reads_lift|].
  apply reads_bind; [apply usage_records_reads|]. intros ?.
  apply reads_bind; [apply reservations_reads|]. intros ?. apply reads_lift.
Qed.

Create HintDb sound.
#[export] Hint Resolve sound_persist_transition sound_persist_record sound_reserve sound_settle
  sound_record sound_mark_unresolved sound_reads list_records_reads get_run_reads list_events_reads
  decision_reads reservations_reads : sound.

(** ** The invariant of the world *)

Section invariant.
Context {E Token : Type} `{!Collaborators E Token}.
Abbreviation W := (World E).

(** The store is well formed, and its intents cover the requests handed to the
    adapters together with the requests [l] that may still be handed over. *)
Definition write_ahead (l : list AgentRequest) (w : W) : Prop :=
  store_wf (w_store w) /\ w_invoked w ++ l ⊆+ intended_requests (w_store w).

Definition stable {A} (P : W -> Prop) (m : M W A) : Prop := forall w, P w -> P (fst (m w)).

(** No request is handed to an adapter. *)
Definition keeps {A} (m : M W A) : Prop := forall l, stable (write_ahead l) m.

Lemma write_ahead_weaken l w : write_ahead l w -> write_ahead [] w.
Proof.
  intros [Hwf Hl]. split; [done|]. rewrite app_nil_r. etrans; [|exact Hl]. apply submseteq_inserts_r. done.
Qed.

(** *** Closure *)

Lemma stable_ret {A} P (a : A) : stable P (mret a).
Proof. by intros w. Qed.
Lemma stable_raise {A} P e : stable P (raise (A := A) e).
Proof. by intros w. Qed.
Lemma stable_gets {A} P (f : W -> A) : stable P (gets f).
Proof. by intros w. Qed.
Lemma stable_lift {A} P (r : res A) : stable P (lift r).
Proof. by intros w. Qed.
Lemma stable_bind {A B} P (m : M W A) (f : A -> M W B) :
  stable P m -> (forall a, stable P (f a)) -> stable P (m ≫= f).
Proof.
  intros Hm Hf w Hw. unfold mbind, M_bind. specialize (Hm w Hw). destruct (m w) as [w1 [a|e]]; [|done].
  by apply Hf.
Qed.
Lemma stable_bind_lift {A B} P (r : res A) (f : A -> M W B) :
  (forall a, r = Ok a -> stable P (f a)) -> stable P (lift r ≫= f).
Proof. intros Hf w Hw. rewrite lift_bind. destruct r as [a|e]; [by apply Hf | done]. Qed.
Lemma stable_fmap {A B} P (f : A -> B) (m : M W A) : stable P m -> stable P (f <$> m).
Proof. intros Hm w Hw. unfold fmap, M_fmap. specialize (Hm w Hw). by destruct (m w) as [w1 [a|e]]. Qed.
Lemma stable_try {A} P (m : M W A) caught handler :
  stable P m -> (forall e, stable P (handler e)) -> stable P (try_except m caught handler).
Proof.
  intros Hm Hh w Hw. unfold try_except. specialize (Hm w Hw). destruct (m w) as [w1 [a|e]]; [done|].
  destruct (caught e); [by apply Hh | done].
Qed.
Lemma stable_attempt {A} P (m : M W A) : stable P m -> stable P (attempt m).
Proof. intros Hm w Hw. unfold attempt. specialize (Hm w Hw). by destruct (m w). Qed.

(** *** The primitives *)

Lemma keeps_env {A} (m : M E A) : keeps (in_env m).
Proof. intros l w Hw. unfold in_env. by destruct (m (w_env w)). Qed.

Lemma keeps_store {A} (m : M Store A) : sound m -> keeps (in_store m).
Proof.
  intros Hm l w [Hwf Hl]. unfold in_store. destruct (Hm _ Hwf) as [Hwf' Hg].
  destruct (m (w_store w)) as [s r]. split; [done|]. cbn. etrans; [exact Hl|].
  by apply sublist_submseteq, intended_requests_grow.
Qed.

Lemma keeps_set_package key p : keeps (set_package key p).
Proof. by intros l w Hw. Qed.
End invariant.

Create HintDb keeps.
#[export] Hint Resolve keeps_env keeps_store keeps_set_package stable_ret stable_raise stable_gets
  stable_lift : keeps.
#[export] Hint Extern 2 (sound _) => auto with sound : keeps.

(** Walk through a computation; the results of [lift] are remembered. *)
Ltac keeps_step :=
  match goal with
  | |- keeps _ => intros ?l
  | |- stable _ (mbind _ (lift _)) => apply stable_bind_lift; intros ? ?
  | |- stable _ (mbind _ _) => apply stable_bind; [|intros ?]
  | |- stable _ (fmap _ _) => apply stable_fmap
  | |- stable _ (stop _) => apply stable_fmap
  | |- stable _ (try_except _ _ _) => apply stable_try; [|intros ?]
  | |- stable _ (attempt _) => apply stable_attempt
  | |- stable _ (match ?x with _ => _ end) => destruct x eqn:?
  | |- stable _ _ => solve [auto with keeps | apply_keeps]
  end
with apply_keeps := match goal with |- stable (write_ahead ?l) ?m =>
    let H := fresh in assert (H : keeps m) by auto with keeps; exact (H l) end.
Ltac solve_keeps := repeat keeps_step.

Section operations.
Context {E Token : Type} `{!Collaborators E Token}.
Abbreviation W := (World E).

(** *** What the constructed values satisfy *)

Lemma event_id_valid s d id : transition_event_id s d = Ok id -> EventId id = Ok id.
Proof. unfold transition_event_id. intros H. by eapply idem, H. Qed.

Lemma reservation_status r r' :
  validate_BudgetReservation r = Ok r' -> br_status r' = br_status r.
Proof.
  unfold validate_BudgetReservation. intros H. inv_valid.
  by pose proof (valid_reservation_id _ _ H) as ->.
Qed.

Lemma agent_reservation_valid s request step t r :
  _agent_reservation s request step t = Ok r ->
  validate_BudgetReservation r = Ok r /\ br_status r = ReservationStatus.ACTIVE.
Proof.
  unfold _agent_reservation. intros H. apply bind_Ok in H as (metric & _ & H).
  unfold run_identity in H. split; [by eapply idem, H | by apply reservation_status in H].
Qed.

Lemma validation_reservation_valid s id n t r :
  _validation_reservation s id n t = Ok r ->
  validate_BudgetReservation r = Ok r /\ br_status r = ReservationStatus.ACTIVE.
Proof.
  unfold _validation_reservation, run_identity. intros H.
  split; [by eapply idem, H | by apply reservation_status in H].
Qed.

(** A settlement and its usage records, ready for the repository. *)
Definition settled_wf (x : BudgetSettlement * list UsageRecord) : Prop :=
  validate_BudgetSettlement x.1 = Ok x.1 /\ Forall (fun r => validate_UsageRecord r = Ok r) x.2.

Lemma traverse_valid {A} (f : A -> UsageRecord) xs rs :
  traverse (fun x => validate_UsageRecord (f x)) xs = Ok rs ->
  Forall (fun r => validate_UsageRecord r = Ok r) rs.
Proof.
  intros H%traverse_Forall2. induction H as [|x r xs rs Hr _ IH]; constructor; [by eapply idem, Hr | done].
Qed.

Lemma agent_settlement_wf r response step x : agent_settlement r response step = Ok x -> settled_wf x.
Proof.
  unfold agent_settlement, provider_usage_records. intros H. inv_ok. split; [by eapply idem|].
  cbn. constructor; [by eapply idem|]. apply Forall_app. split; [by eapply traverse_valid|].
  constructor; [by eapply idem | constructor].
Qed.

Lemma validation_settlement_wf r result id x : validation_settlement r result id = Ok x -> settled_wf x.
Proof.
  unfold validation_settlement. intros H. inv_ok. split; [by eapply idem|].
  constructor; [by eapply idem | constructor].
Qed.

Lemma reconciled_settlement_wf r matched x : reconciled_settlement r matched = Ok (Some x) -> settled_wf x.
Proof.
  unfold reconciled_settlement. intros H.
  assert (Ha : forall response k, Some <$> agent_settlement r response k = Ok (Some x) -> settled_wf x).
  { intros response k Hx. destruct (agent_settlement r response k) eqn:Heq; [|done].
    injection Hx as ->. by eapply agent_settlement_wf. }
  destruct matched as [[a|a|a|a|a|a]|]; try done; cbn [agent_of mbind option_bind] in H.
  1,3,4: destruct (ag_response _); [by eapply Ha|done].
  destruct (va_result a) as [result|]; [|done].
  destruct (validation_settlement _ _ _) eqn:Heq; [|done]. injection H as ->.
  by eapply validation_settlement_wf.
Qed.
End operations.
#[export] Hint Extern 2 (settled_wf _) => eauto with sound : keeps.
#[export] Hint Resolve event_id_valid agent_reservation_valid validation_reservation_valid
  agent_settlement_wf validation_settlement_wf : sound.

Section components.
Context {E Token : Type} `{!Collaborators E Token}.
Abbreviation W := (World E).

(** *** The operations that reach no agent *)

Lemma keeps_now : keeps clock_now.
Proof. apply keeps_env. Qed.
Lemma keeps_list id : keeps (list_records (E := E) id).
Proof. unfold list_records. auto with keeps. Qed.
Hint Resolve keeps_now keeps_list : keeps.

Lemma keeps_result s status reason limit : keeps (_result (E := E) s status reason limit).
Proof. unfold _result. solve_keeps. Qed.
Lemma keeps_stale s reason : keeps (stale_result (E := E) s reason).
Proof. apply keeps_result. Qed.
Hint Resolve keeps_result keeps_stale : keeps.

Lemma keeps_transition s d reason gate counted metadata :
  keeps (_transition s d reason gate counted metadata).
Proof.
  unfold _transition. intros l. apply stable_bind; [apply keeps_now|]. intros t.
  apply stable_bind_lift. intros result _. apply stable_bind_lift. intros id Hid.
  apply keeps_store. by eapply sound_persist_transition, event_id_valid.
Qed.
Hint Resolve keeps_transition : keeps.

Lemma keeps_move s d reason : keeps (move s d reason).
Proof. apply keeps_transition. Qed.
Lemma keeps_terminate_with s state reason limit counted metadata :
  keeps (_terminate_with s state reason limit counted metadata).
Proof. unfold _terminate_with. solve_keeps. Qed.
Lemma keeps_terminate s state reason : keeps (_terminate s state reason).
Proof. apply keeps_terminate_with. Qed.
Lemma keeps_exhausted s reason limit : keeps (exhausted s reason limit).
Proof. apply keeps_terminate_with. Qed.
Hint Resolve keeps_move keeps_terminate_with keeps_terminate keeps_exhausted : keeps.

Lemma keeps_cancel s counted : keeps (_cancel s counted).
Proof. unfold _cancel. solve_keeps. Qed.
Lemma keeps_terminal_result s : keeps (_terminal_result (E := E) s).
Proof. unfold _terminal_result. solve_keeps. Qed.
Hint Resolve keeps_cancel keeps_terminal_result : keeps.

Lemma keeps_store_record s record :
  validate_OrchestrationRecord record = Ok record ->
  keeps (in_store (E := E) (persist_orchestration_record s record)).
Proof. intros Hr. by apply keeps_store, sound_persist_record. Qed.

Lemma keeps_persist s a stage : keeps (_persist s a stage).
Proof.
  unfold _persist. intros l. apply stable_bind; [apply keeps_list|]. intros records.
  apply stable_bind_lift. intros id _. apply stable_bind; [apply keeps_now|]. intros t.
  apply stable_bind_lift. intros record Hr. apply keeps_store_record. by eapply idem.
Qed.
Lemma keeps_persist_reconciliation s intent r : keeps (_persist_reconciliation (E := E) s intent r).
Proof.
  unfold _persist_reconciliation. intros l. apply stable_bind; [apply keeps_list|]. intros records.
  apply stable_bind_lift. intros id _. apply stable_bind_lift. intros record Hr.
  apply keeps_store_record. by eapply idem.
Qed.
Hint Resolve keeps_persist keeps_persist_reconciliation : keeps.

Lemma keeps_require_current s : keeps (_require_current (E := E) s).
Proof. unfold _require_current. solve_keeps. Qed.
Lemma keeps_attempt_records s step n : keeps (_attempt_records (E := E) s step n).
Proof. unfold _attempt_records. solve_keeps. Qed.
Lemma keeps_next_sequence s step : keeps (_next_attempt_sequence (E := E) s step).
Proof. unfold _next_attempt_sequence. solve_keeps. Qed.
Lemma keeps_repair_count id : keeps (_repair_count (E := E) id).
Proof. unfold _repair_count. solve_keeps. Qed.
Lemma keeps_latest_validation id : keeps (_latest_validation (E := E) id).
Proof. unfold _latest_validation. solve_keeps. Qed.
Lemma keeps_verify s request : keeps (_verify_worktree s request).
Proof. unfold _verify_worktree. solve_keeps. Qed.
Hint Resolve keeps_require_current keeps_attempt_records keeps_next_sequence keeps_repair_count
  keeps_latest_validation keeps_verify : keeps.

Lemma keeps_duration s : keeps (_duration_exhausted s).
Proof. unfold _duration_exhausted. solve_keeps. Qed.
Lemma keeps_duration_budget s : keeps (_duration_budget_decision (E := E) s).
Proof. unfold _duration_budget_decision. solve_keeps. Qed.
Lemma keeps_unresolved s : keeps (_has_unresolved_reservation (E := E) s).
Proof. unfold _has_unresolved_reservation. solve_keeps. Qed.
Hint Resolve keeps_duration keeps_duration_budget keeps_unresolved : keeps.
Lemma keeps_allowance s t : keeps (_validation_allowance_ms (E := E) s t).
Proof. unfold _validation_allowance_ms. solve_keeps. Qed.

Lemma keeps_reserve s r :
  validate_BudgetReservation r = Ok r -> br_status r = ReservationStatus.ACTIVE ->
  keeps (reserve (E := E) s r).
Proof. intros Hr Ha. unfold reserve. solve_keeps. Qed.
Lemma keeps_settle r x : settled_wf x -> keeps (settle (E := E) r x).
Proof. intros [Hs Hrs]. unfold settle. solve_keeps. Qed.
Lemma keeps_context_usage m t : keeps (record_context_usage (E := E) m t).
Proof.
  unfold record_context_usage. intros l. apply stable_bind_lift. intros rs Hrs.
  apply stable_bind; [|intros; apply stable_ret]. apply keeps_store, sound_record.
  by eapply traverse_valid.
Qed.
Hint Resolve keeps_allowance keeps_settle keeps_context_usage : keeps.
End components.

#[export] Hint Resolve keeps_now keeps_list keeps_result keeps_stale keeps_transition keeps_move
  keeps_terminate_with keeps_terminate keeps_exhausted keeps_cancel keeps_terminal_result keeps_persist
  keeps_persist_reconciliation keeps_require_current keeps_attempt_records keeps_next_sequence
  keeps_repair_count keeps_latest_validation keeps_verify keeps_duration keeps_duration_budget
  keeps_unresolved keeps_allowance keeps_settle keeps_context_usage : keeps.

Section stages.
Context {E Token : Type} `{!Collaborators E Token}.
Abbreviation W := (World E).

Lemma keeps_workspace_outcome s request intent : keeps (workspace_outcome s request intent).
Proof. unfold workspace_outcome. solve_keeps. Qed.
Hint Resolve keeps_workspace_outcome : keeps.

Lemma keeps_workspace s request : keeps (_workspace s request).
Proof. unfold _workspace. solve_keeps. Qed.

Lemma keeps_get_package key : keeps (get_package (E := E) key).
Proof. unfold get_package. solve_keeps. Qed.
Hint Resolve keeps_get_package : keeps.

Lemma keeps_restore request a : keeps (_restore_context_package request a).
Proof. unfold _restore_context_package. solve_keeps. Qed.
Hint Resolve keeps_restore : keeps.

Lemma keeps_restore_requests outcomes requests : keeps (restore_requests outcomes requests).
Proof. induction requests as [|request requests IH]; cbn [restore_requests]; solve_keeps. Qed.
Hint Resolve keeps_restore_requests : keeps.

Lemma keeps_restore_all s request : keeps (_restore_all_context s request).
Proof. unfold _restore_all_context. solve_keeps. Qed.

Lemma keeps_completion b : keeps (completion_time b).
Proof. unfold completion_time. solve_keeps. Qed.
Hint Resolve keeps_completion : keeps.

Lemma keeps_perform_context s request intent : keeps (perform_context s request intent).
Proof. unfold perform_context. solve_keeps. Qed.
Lemma keeps_replay_context s request a : keeps (replay_context s request a).
Proof. unfold replay_context. solve_keeps. Qed.
Hint Resolve keeps_perform_context keeps_replay_context : keeps.

Lemma keeps_context_request s n request : keeps (context_request s n request).
Proof. unfold context_request. solve_keeps. Qed.
Hint Resolve keeps_context_request : keeps.

Lemma keeps_context_loop s n requests : keeps (context_loop s n requests).
Proof.
  revert n. induction requests as [|request requests IH]; intros n; cbn [context_loop]; solve_keeps.
Qed.
Hint Resolve keeps_context_loop : keeps.

Lemma keeps_context s request : keeps (_context s request).
Proof. unfold _context. solve_keeps. Qed.

Lemma keeps_run_validation s id plan started intent cancellation :
  keeps (run_validation s id plan started intent cancellation).
Proof.
  unfold run_validation. intros l. apply stable_bind_lift. intros r Hr.
  destruct (validation_reservation_valid _ _ _ _ _ Hr) as [Hv Ha].
  apply stable_bind; [by apply keeps_reserve|]. intros d. solve_keeps.
Qed.
Hint Resolve keeps_run_validation : keeps.

Lemma keeps_start_validation s plan n cancellation : keeps (start_validation s plan n cancellation).
Proof. unfold start_validation. solve_keeps. Qed.
Lemma keeps_validation_verdict s a : keeps (validation_verdict s a).
Proof. unfold validation_verdict. solve_keeps. Qed.
Hint Resolve keeps_start_validation keeps_validation_verdict : keeps.

Lemma keeps_validate s request cancellation : keeps (_validate s request cancellation).
Proof. unfold _validate. solve_keeps. Qed.

Lemma keeps_review_verdict s a : keeps (review_verdict s a).
Proof. unfold review_verdict. solve_keeps. Qed.
Lemma keeps_repair_verdict s a : keeps (repair_verdict s a).
Proof. unfold repair_verdict. solve_keeps. Qed.

Lemma keeps_agent_request prototype id n : keeps (_agent_request (E := E) prototype id n).
Proof. unfold _agent_request. solve_keeps. Qed.
Lemma keeps_agent_side_effects r role request : keeps (_agent_side_effects r role request).
Proof. unfold _agent_side_effects. solve_keeps. Qed.
Lemma keeps_agent_budget s request step : keeps (agent_budget s request step).
Proof.
  unfold agent_budget. intros l. apply stable_bind_lift. intros [d|] _; [apply stable_ret|].
  apply stable_bind; [apply keeps_now|]. intros t. apply stable_bind_lift. intros r Hr.
  destruct (agent_reservation_valid _ _ _ _ _ Hr) as [Hv Ha].
  apply stable_bind; [by apply keeps_reserve|]. intros d. apply stable_ret.
Qed.
Hint Resolve keeps_agent_request keeps_agent_side_effects keeps_agent_budget : keeps.

Lemma keeps_prelaunch s step n prototype adapter d write :
  keeps (_record_prelaunch_blocked_agent s step n prototype adapter d write).
Proof. unfold _record_prelaunch_blocked_agent. solve_keeps. Qed.

Lemma keeps_settle_agent r response step : keeps (settle_agent (E := E) r response step).
Proof.
  unfold settle_agent. intros l. apply stable_bind_lift. intros x Hx.
  by apply keeps_settle, (agent_settlement_wf _ _ _ _ Hx).
Qed.

Lemma keeps_offers_all (adapter : AgentAdapter E Token) ps : keeps (offers_all adapter ps).
Proof. induction ps as [|p ps IH]; cbn [offers_all]; solve_keeps. Qed.

Lemma keeps_repair_input s request : keeps (_repair_input s request).
Proof. pose proof keeps_offers_all. unfold _repair_input. solve_keeps. Qed.

Lemma keeps_reconcile_reservation s attempts r : keeps (reconcile_reservation s attempts r).
Proof.
  unfold reconcile_reservation. intros l. destruct (negb _); [apply stable_ret|].
  apply stable_bind_lift. intros [x|] Hx.
  - by apply keeps_settle, (reconciled_settlement_wf _ _ _ Hx).
  - solve_keeps.
Qed.
Hint Resolve keeps_reconcile_reservation : keeps.

Lemma keeps_reconcile_reservations s attempts rs : keeps (reconcile_reservations s attempts rs).
Proof. induction rs as [|r rs IH]; cbn [reconcile_reservations]; solve_keeps. Qed.
Hint Resolve keeps_reconcile_reservations : keeps.

Lemma keeps_reconcile_telemetry s : keeps (_reconcile_telemetry s).
Proof. unfold _reconcile_telemetry. solve_keeps. Qed.
End stages.

#[export] Hint Resolve keeps_workspace_outcome keeps_workspace keeps_restore_all keeps_context keeps_validate
  keeps_get_package keeps_restore keeps_completion keeps_perform_context keeps_replay_context
  keeps_context_request keeps_context_loop keeps_run_validation keeps_start_validation
  keeps_validation_verdict keeps_reconcile_reservations
  keeps_review_verdict keeps_repair_verdict keeps_agent_request keeps_agent_side_effects
  keeps_agent_budget keeps_prelaunch keeps_settle_agent keeps_repair_input
  keeps_reconcile_telemetry : keeps.

(** ** Invocations *)

Section invocations.
Context {E Token : Type} `{!Collaborators E Token}.
Abbreviation W := (World E).

(** A computation that may hand [q] to an adapter once. *)
Definition spends {A} (q : AgentRequest) (m : M W A) : Prop := forall w,
  write_ahead [q] w -> write_ahead [] (fst (m w)).

Lemma spends_stable {A} q (m : M W A) : stable (write_ahead []) m -> spends q m.
Proof. intros Hm w Hw. by eapply Hm, write_ahead_weaken. Qed.

Lemma spends_bind {A B} q (m : M W A) (f : A -> M W B) :
  keeps m -> (forall a, spends q (f a)) -> spends q (m ≫= f).
Proof.
  intros Hm Hf w Hw. unfold mbind, M_bind. specialize (Hm [q] w Hw).
  destruct (m w) as [w1 [a|e]]; [by apply Hf | by eapply write_ahead_weaken].
Qed.

Lemma spends_invoke {B} q (adapter : AgentAdapter E Token) cancellation (f : AgentResponse -> M W B) :
  (forall r, stable (write_ahead []) (f r)) -> spends q (invoke_adapter adapter q cancellation ≫= f).
Proof.
  intros Hf w [Hwf Hq].
  assert (Hi : write_ahead [] (fst (invoke_adapter adapter q cancellation w))).
  { unfold invoke_adapter, in_env. cbn. destruct (invoke adapter q cancellation (w_env w)).
    split; [done|]. by rewrite app_nil_r. }
  unfold mbind, M_bind. destruct (invoke_adapter adapter q cancellation w) as [w1 [r|e]]; [by apply Hf|done].
Qed.

Lemma spends_assoc {A B C} q (m : M W A) (f : A -> M W B) (g : B -> M W C) :
  spends q (m ≫= fun a => f a ≫= g) -> spends q ((m ≫= f) ≫= g).
Proof.
  intros H w Hw. specialize (H w Hw). unfold mbind, M_bind in *. by destruct (m w) as [w1 [a|e]].
Qed.

Lemma stable_bind_post {A B} P (m : M W A) (f : A -> M W B) :
  stable P m -> (forall w w' a, m w = (w', Ok a) -> stable P (f a)) -> stable P (m ≫= f).
Proof.
  intros Hm Hf w Hw. unfold mbind, M_bind. specialize (Hm w Hw). destruct (m w) as [w1 [a|e]] eqn:Hr; [|done].
  by eapply Hf.
Qed.

(** *** The intent of an attempt carries the request that will be handed over *)

Lemma record_attempt r r' :
  validate_OrchestrationRecord r = Ok r' ->
  rec_stage r' = rec_stage r /\ validate_AttemptEvidence (rec_attempt r) = Ok (rec_attempt r').
Proof.
  unfold validate_OrchestrationRecord. intros H. inv_valid.
  by pose proof (validate_record_id _ _ H) as ->.
Qed.

Lemma agent_fields_request g g' : agent_fields g = Ok g' -> validate_AgentRequest (ag_request g) = Ok (ag_request g').
Proof. unfold agent_fields. intros H. by inv_valid. Qed.

Definition intends (q : AgentRequest) (a : AttemptEvidence) : Prop :=
  validate_AttemptEvidence a = Ok a /\ ag_request <$> agent_of a = Some q.

Lemma agent_evidence_intends step base q adapter_id d write a :
  validate_AgentRequest q = Ok q -> agent_evidence step base q adapter_id d write = Ok a -> intends q a.
Proof.
  intros Hq. unfold agent_evidence. destruct (bool_decide _).
  - destruct (validate_BuildAttempt _) as [b|] eqn:Hb; [|done]. intros [= <-]. split.
    + cbn. by rewrite (idem _ _ Hb).
    + unfold validate_BuildAttempt in Hb. inv_valid. cbn.
      match goal with H : agent_fields _ = Ok _ |- _ => apply agent_fields_request in H; cbn in H end.
      congruence.
  - destruct d as [d|]; [|done]. destruct (validate_RepairAttempt _) as [b|] eqn:Hb; [|done].
    intros [= <-]. split.
    + cbn. by rewrite (idem _ _ Hb).
    + unfold validate_RepairAttempt in Hb. inv_valid. pose proof (validate_repair_id _ _ Hb) as ->. cbn.
      match goal with H : agent_fields _ = Ok _ |- _ => apply agent_fields_request in H; cbn in H end.
      congruence.
Qed.

Lemma review_intends a b q :
  validate_AgentRequest q = Ok q -> ag_request (rv_agent a) = q -> validate_ReviewAttempt a = Ok b ->
  intends q (Review b).
Proof.
  intros Hq <- Hb. split; [cbn; by rewrite (idem _ _ Hb)|]. unfold validate_ReviewAttempt in Hb. inv_valid.
  pose proof (validate_review_id _ _ Hb) as ->. cbn.
  match goal with H : agent_fields _ = Ok _ |- _ => apply agent_fields_request in H end. congruence.
Qed.

Lemma agent_request_valid prototype id n w w' q :
  _agent_request (E := E) prototype id n w = (w', Ok q) -> validate_AgentRequest q = Ok q.
Proof.
  unfold _agent_request. intros H. inv_run. destruct v; [|done]. inv_run.
  match goal with H : validate_AgentRequest _ = Ok q |- _ => by eapply idem, H end.
Qed.

(** *** A created intent pays for one invocation *)

Lemma persist_intent {B} s a q (f : RecordWriteResult -> M W B) :
  intends q a ->
  (forall x, created x = true -> spends q (f x)) ->
  (forall x, created x = false -> stable (write_ahead []) (f x)) ->
  stable (write_ahead []) (_persist s a OrchestrationRecordStage.INTENT ≫= f).
Proof.
  intros [Ha Hq] Hyes Hno w Hw.
  pose proof (keeps_persist s a OrchestrationRecordStage.INTENT [] w Hw) as Hk.
  unfold mbind, M_bind at 1.
  destruct (_persist s a OrchestrationRecordStage.INTENT w) as [w1 [x|e]] eqn:Hp; [|done]. cbn [fst] in Hk.
  destruct (created x) eqn:Hc; [|by apply Hno]. apply Hyes; [done|].
  unfold _persist in Hp. inv_run. unfold in_store in Hp.
  match goal with Hv : validate_OrchestrationRecord ?r0 = Ok ?r |- _ => rename Hv into Hr; rename r into record end.
  match type of Hp with context [persist_orchestration_record s record ?st] =>
    destruct (persist_orchestration_record s record st) as [s1 r1] eqn:Hrun end.
  injection Hp as <- ->. destruct (persist_record_step _ _ _ _ _ Hrun) as (_ & _ & Hout).
  destruct Hk as [Hwf _]. split; [exact Hwf|].
  destruct Hout as [-> _ _ _|]; [|congruence]. cbn [w_store w_invoked] in *.
  match type of Hr with validate_OrchestrationRecord _ = Ok _ => destruct (record_attempt _ _ Hr) as [Hstage Hatt] end.
  cbn [rec_stage rec_attempt] in Hstage, Hatt. rewrite Ha in Hatt. injection Hatt as Hatt.
  assert (Hi : intended_request record = Some q).
  { unfold intended_request, is_intent, has_stage. rewrite Hstage, <- Hatt. by rewrite bool_decide_eq_true_2. }
  unfold intended_requests. cbn [st_records add_record]. rewrite fmap_app, omap_app. cbn. rewrite Hi.
  apply submseteq_skips_r.
  assert (Hl : write_ahead [] w3).
  { replace w3 with (fst (clock_now w0)) by (by rewrite Hv1). apply keeps_now.
    replace w0 with (fst (list_records (run_id (stored_run s)) w)) by (by rewrite Hv). by apply keeps_list. }
  destruct Hl as [_ Hl]. by rewrite app_nil_r in Hl.
Qed.

(** *** The agents *)

Hint Extern 2 (stable (write_ahead []) _) => apply_keeps : keeps.

Lemma spends_launch s step intent q adapter cancellation :
  spends q (launch_agent s step intent q adapter cancellation).
Proof.
  unfold launch_agent. apply spends_bind; [apply keeps_require_current|]. intros _.
  apply spends_bind; [apply keeps_agent_budget|]. intros [d reservation]. cbn [fst snd].
  destruct (negb (allows d)); [apply spends_stable; solve_keeps|].
  destruct reservation as [r|]; [|apply spends_stable, stable_raise].
  apply spends_invoke. intros response. solve_keeps.
Qed.

Lemma spends_fmap {A B} q (f : A -> B) (m : M W A) : spends q m -> spends q (f <$> m).
Proof. intros Hm w Hw. unfold fmap, M_fmap. specialize (Hm w Hw). by destruct (m w) as [w1 [a|e]]. Qed.

Lemma spends_review s q plan result intent cancellation :
  spends q (launch_review s q plan result intent cancellation).
Proof.
  unfold launch_review. apply spends_bind; [apply keeps_require_current|]. intros _.
  apply spends_bind; [apply keeps_agent_budget|]. intros [d reservation]. cbn [fst snd].
  destruct (negb (allows d)); [apply spends_stable; solve_keeps|].
  destruct reservation as [r|]; [|apply spends_stable, stable_raise].
  unfold perform_review. apply spends_assoc, spends_invoke. intros response.
  apply stable_bind; [solve_keeps|]. intros reviewed. solve_keeps.
Qed.

Lemma start_agent_stable s step n prototype adapter id cancellation d write :
  stable (write_ahead []) (start_agent s step n prototype adapter id cancellation d write).
Proof.
  unfold start_agent. apply stable_bind_lift. intros attempt_id _.
  apply stable_bind_post; [apply keeps_agent_request|]. intros w w' q Hq%agent_request_valid.
  apply stable_bind; [apply keeps_now|]. intros t. apply stable_bind_lift. intros a Ha.
  apply (persist_intent _ _ q); [by eapply agent_evidence_intends| |]; intros x ->; cbn [negb].
  - apply spends_fmap, spends_launch.
  - apply stable_ret.
Qed.

Lemma agent_attempt_stable s step n prototype adapter cancellation d write :
  stable (write_ahead []) (_agent_attempt s step n prototype adapter cancellation d write).
Proof.
  unfold _agent_attempt. apply stable_bind; [apply keeps_attempt_records|]. intros existing.
  destruct (ex_outcome existing); [solve_keeps|]. destruct (ex_intent existing); [solve_keeps|].
  apply stable_bind; [apply keeps_env|]. intros c. destruct (negb _); [solve_keeps|].
  apply start_agent_stable.
Qed.

Lemma review_once_stable s request validation n cancellation :
  stable (write_ahead []) (_review_once s request validation n cancellation).
Proof.
  unfold _review_once. apply stable_bind; [apply keeps_env|]. intros c.
  apply stable_bind_lift. intros attempt_id _.
  apply stable_bind_post; [apply keeps_agent_request|]. intros w w' q Hq%agent_request_valid.
  apply stable_bind; [apply keeps_now|]. intros t.
  destruct (va_result validation); [|apply stable_raise]. apply stable_bind_lift. intros a Ha.
  apply (persist_intent _ _ q); [by eapply review_intends; [..|exact Ha]| |]; intros x ->; cbn [negb].
  - apply spends_fmap, spends_review.
  - apply stable_ret.
Qed.
Hint Resolve agent_attempt_stable review_once_stable : keeps.

Lemma build_stable s request cancellation : stable (write_ahead []) (_build s request cancellation).
Proof. unfold _build. solve_keeps. Qed.
Lemma review_stable s request cancellation : stable (write_ahead []) (_review s request cancellation).
Proof. unfold _review. solve_keeps. Qed.
Lemma repair_stable s request cancellation : stable (write_ahead []) (_repair s request cancellation).
Proof. unfold _repair. solve_keeps. Qed.
Hint Resolve build_stable review_stable repair_stable : keeps.

Lemma stage_stable s request cancellation : stable (write_ahead []) (run_stage s request cancellation).
Proof. unfold run_stage, guarded. solve_keeps. Qed.
Hint Resolve stage_stable : keeps.

Lemma coordinate_stable request cancellation : stable (write_ahead []) (coordinate request cancellation).
Proof. unfold coordinate, cancelled. solve_keeps. Qed.
Hint Resolve coordinate_stable : keeps.

Lemma loop_stable n request cancellation :
  stable (write_ahead []) (coordination_loop n request cancellation).
Proof. induction n as [|n IH]; cbn [coordination_loop]; solve_keeps. Qed.
Hint Resolve loop_stable : keeps.

Lemma execute_stable request cancellation : stable (write_ahead []) (execute request cancellation).
Proof. unfold execute. solve_keeps. Qed.

Lemma reconcile_run_keeps request : keeps (reconcile_run request).
Proof. unfold reconcile_run, Reconciliation.reconcile, reconciliation. solve_keeps. Qed.

Lemma cancel_keeps request : keeps (Service.cancel request).
Proof. unfold Service.cancel. solve_keeps. Qed.
End invocations.

#[export] Hint Resolve agent_attempt_stable review_once_stable build_stable review_stable
  repair_stable stage_stable coordinate_stable loop_stable : keeps.
#[export] Hint Extern 2 (stable (write_ahead []) _) => apply_keeps : keeps.

(** ** Everything that can happen to a world *)

Section evolution.
Context {E Token : Type} `{!Collaborators E Token}.

Inductive service_call : Type :=
| Execute (request : OrchestrationRequest) (cancellation : option Token)
| ReconcileRun (request : OrchestrationRequest)
| CancelRun (request : OrchestrationRequest).

Definition service_exec (c : service_call) : M (World E) OrchestrationResult :=
  match c with
  | Execute request cancellation => execute request cancellation
  | ReconcileRun request => reconcile_run request
  | CancelRun request => Service.cancel request
  end.

(** From a store that the repository reached: calls of the service, other
    clients of the store between them, and restarts, which forget the packages
    and may change the environment in any way. *)
Inductive evolves : World E -> Prop :=
| evolves_start store packages env : reachable store -> evolves (mk_World store packages env [])
| evolves_service c w : evolves w -> evolves (fst (service_exec c w))
| evolves_store c w : evolves w -> store_call_wf c ->
    evolves (mk_World (store_exec c (w_store w)) (w_packages w) (w_env w) (w_invoked w))
| evolves_restart packages env w : evolves w ->
    evolves (mk_World (w_store w) packages env (w_invoked w)).

Lemma store_exec_grow c w : records_grow w (store_exec c w).
Proof.
  destruct c as [c|run binding|expected record|id|c]; cbn [store_exec].
  - apply (run_call_only records_grow); intros; unfold records_grow; cbn; reflexivity.
  - apply (bound_run_only records_grow); intros; unfold records_grow; cbn; reflexivity.
  - apply (persist_record_only records_grow). intros row s. by exists [row].
  - rewrite list_records_reads. apply confined_refl.
  - apply telemetry_grow.
Qed.

Lemma evolves_write_ahead w : evolves w -> write_ahead [] w.
Proof.
  induction 1 as [store packages env Hs|c w _ IH|c w _ [Hwf Hl] Hc|packages env w _ IH].
  - split; [by apply reachable_wf | apply submseteq_nil_l].
  - destruct c; [by apply execute_stable | by apply reconcile_run_keeps | by apply cancel_keeps].
  - split; [by apply store_exec_wf|]. cbn. etrans; [exact Hl|].
    apply sublist_submseteq, intended_requests_grow, store_exec_grow.
  - exact IH.
Qed.

(** C2: Whatever the agents, Git, the validation executor and the clock return or
    raise at any call, and however the service is stopped and restarted, every
    request handed to an agent adapter has a durable intent of its own: no agent
    runs without a record of the attempt, and no attempt is launched twice. *)
Theorem launched_at_most_once w (Hw : evolves w) :
  w_invoked w ⊆+ intended_requests (w_store w) /\ store_wf (w_store w) /\
  NoDup (record_boundary <$> st_records (w_store w)).
Proof.
  destruct (evolves_write_ahead w Hw) as [Hwf Hl]. rewrite app_nil_r in Hl.
  split; [done|]. split; [done|]. apply rw_unique, Hwf.
Qed.
End evolution.
