(* ===== verification/ServiceOutcomes.v ===== *)
(** * What a call of the coordinator achieves

    Every turn of the coordination loop answers, raises, or moves the durable
    run one revision forward along the transition table; the repair counter
    bounds the only cycle of that table, so the loop ends long before its static
    bound.  An answer is either a refusal to touch a run that somebody else owns
    or the status of a durably terminal run. *)

From Stdlib Require Import ZArith Lia Ascii String.
From S2P Require Import Prelude Text Domain StateMachine Effects Agents GitPort TelemetryPort Validation ContextPort TelemetryService ReviewGate OrchestrationPorts RepairPolicy Reconciliation RuntimePort Tables Storage RunJournal UsageStore DurableStore Coordination Service WriteAhead.
From stdpp Require Import base option strings numbers gmap sets relations list list_relations.

Open Scope Z_scope.

(** ** Transitions *)

Lemma validate_Run_fields r r' :
  validate_Run r = Ok r' ->
  run_id r' = run_id r /\ run_state r' = run_state r /\ run_budgets r' = run_budgets r /\
  run_attempts r' = run_attempts r.
Proof.
  unfold validate_Run. intros H. inv_valid. apply validate_state_Ok in H as (-> & _). cbn.
  repeat match goal with
  | H : RunId _ = Ok _ |- _ => apply stable_identifier_Ok in H as [-> _]
  | H : validate_BudgetLimits _ = Ok _ |- _ => apply validate_BudgetLimits_id in H as ->
  | H : validate_AttemptCounters _ = Ok _ |- _ => apply validate_AttemptCounters_Ok in H as [-> _]
  end. done.
Qed.

(** What an accepted transition changed of a run. *)
Record moved (r : Run) (d : RunState) (counted : option AttemptCounterKind.t) (r' : Run) : Prop := {
  mv_permitted : permitted (run_state r) d = true;
  mv_id : run_id r' = run_id r;
  mv_state : run_state r' = d;
  mv_budgets : run_budgets r' = run_budgets r;
  mv_attempts : run_attempts r' = next_attempts counted (run_attempts r)
}.

Lemma transition_run_moved r d t reason md gate counted out :
  transition_run r d t reason md gate counted = Ok out -> moved r d counted (res_run out).
Proof.
  unfold transition_run. intros H. inv_ok.
  match goal with H : _validate_pair _ = Ok _ |- _ => apply validate_pair_Ok in H as (-> & _) end.
  match goal with H : validate_Run _ = Ok _ |- _ => apply validate_Run_fields in H as (Hid & Hs & Hb & Ha) end.
  cbn in *. split; cbn; try congruence.
  - by apply negb_false_iff.
  - destruct counted as [k|]; cbn in *; [|by injection Hv1 as <-].
    match goal with H : validate_AttemptCounters _ = Ok _ |- _ => apply validate_AttemptCounters_Ok in H as [-> _] end.
    done.
Qed.

(** ** The measure of a run *)

(** The longest path to a terminal state that avoids a repair. *)
Definition rank (s : RunState) : Z :=
  match s with
  | CREATED => 8
  | PLANNING => 7
  | CONTEXT_PREPARING => 6
  | WORKSPACE_PREPARING => 5
  | BUILDING => 4
  | VALIDATING => 3
  | REVIEWING => 2
  | REPAIRING => 1
  | _ => 0
  end.

(** Repairs left, each worth a whole cycle, and the place in the cycle. *)
Definition measure (r : Run) : Z :=
  3 * (max_repair_attempts (run_budgets r) - repair (run_attempts r)) + rank (run_state r).

Lemma moved_measure r d counted r' :
  moved r d counted r' ->
  (run_state r = REPAIRING -> d = VALIDATING -> counted = Some AttemptCounterKind.REPAIR) ->
  measure r' < measure r.
Proof.
  intros [Hp _ Hs Hb Ha] Hc. unfold measure. rewrite Hs, Hb, Ha.
  assert (Hrank : rank d < rank (run_state r) \/ run_state r = REPAIRING /\ d = VALIDATING).
  { clear -Hp. destruct (run_state r), d; try discriminate Hp; cbn; (left; lia) || (right; done). }
  destruct Hrank as [Hlt|[H1 H2]].
  - destruct counted as [[| |]|]; cbn; lia.
  - rewrite (Hc H1 H2), H1, H2. cbn. lia.
Qed.

Lemma measure_bounds r : Run_wf r -> 0 <= measure r <= 308.
Proof.
  intros Hwf. pose proof (rf_repair _ (Run_wf_facts _ Hwf)) as Hrepair.
  assert (Hmax : max_repair_attempts (run_budgets r) <= 100).
  { unfold Run_wf, validate_Run in Hwf. inv_valid.
    match goal with H : validate_BudgetLimits (run_budgets r) = Ok _ |- _ =>
      unfold validate_BudgetLimits in H; clear -H end.
    inv_valid. unfold in_range in *. lia. }
  assert (Hrank : 0 <= rank (run_state r) <= 8) by (destruct (run_state r); cbn; lia).
  unfold measure. lia.
Qed.

(** ** Durable runs and answers *)

Lemma get_run_wf id st st' s :
  store_wf st -> get_run id st = (st', Ok s) ->
  st' = st /\ Run_wf (stored_run s) /\ run_id (stored_run s) = id.
Proof.
  intros [[j HR] _ _] Hget. destruct (get_run_simulates id _ _ HR) as (st1 & Hsim & _).
  pose proof (reads_run _ _ _ _ (get_run_reads id) Hget) as ->. split; [done|].
  rewrite Hget in Hsim. injection Hsim as _ Hspec. unfold spec_get in Hspec. cbn in Hspec.
  destruct (j_runs j !! id) as [e|] eqn:Hj; [|done]. injection Hspec as ->.
  split; [by eapply entry_wf, (rep_entry _ _ HR) | apply (rep_entry _ _ HR _ _ Hj)].
Qed.

Section outcomes.
Context {E Token : Type} `{!Collaborators E Token}.
Abbreviation W := (World E).

(** The store holds exactly this run at this revision. *)
Definition durable (s : StoredRun) (w : W) : Prop :=
  get_run (run_id (stored_run s)) (w_store w) = (w_store w, Ok s).

(** An answer lists the durable records; it is [STALE], or it is the status of
    the run, which is terminal and durable. *)
Record answered (w : W) (r : OrchestrationResult) : Prop := {
  an_records : list_orchestration_records (run_id (ores_run r)) (w_store w)
               = (w_store w, Ok (ores_records r));
  an_status : ores_status r = OrchestrationStatus.STALE \/
              (terminal_status (run_state (ores_run r)) = Some (ores_status r)
               /\ durable (mk_StoredRun (ores_run r) (ores_revision r)) w)
}.

(** The durable run moved on from [s]. *)
Definition advanced (s : StoredRun) (w : W) : Prop :=
  exists s', durable s' w /\ run_id (stored_run s') = run_id (stored_run s)
    /\ revision s' = revision s + 1 /\ measure (stored_run s') < measure (stored_run s).

(** What a computation that returns guarantees of its value and world. *)
Definition gives {A} (Q : W -> A -> Prop) (m : M W A) : Prop := forall w w' a,
  write_ahead [] w -> m w = (w', Ok a) -> Q w' a.

(** The value of a stage: an answer, or [None] with [N]. *)
Definition either (N : W -> Prop) (w : W) (o : option OrchestrationResult) : Prop :=
  match o with Some r => answered w r | None => N w end.

Definition started (w : W) (o : OrchestrationResult + ValidationAttempt) : Prop :=
  match o with inl r => answered w r | inr _ => True end.

Lemma gives_bind {A B} (Q : W -> B -> Prop) (m : M W A) (f : A -> M W B) :
  stable (write_ahead []) m -> (forall a, gives Q (f a)) -> gives Q (m ≫= f).
Proof.
  intros Hm Hf w w' b Hw H. apply M_bind_Ok in H as (w1 & a & H1 & H2).
  eapply Hf; [|exact H2]. specialize (Hm w Hw). by rewrite H1 in Hm.
Qed.
Lemma gives_bind_with {A B} (R : W -> A -> Prop) (Q : W -> B -> Prop) (m : M W A) (f : A -> M W B) :
  stable (write_ahead []) m -> gives R m ->
  (forall a w w' b, write_ahead [] w -> R w a -> f a w = (w', Ok b) -> Q w' b) -> gives Q (m ≫= f).
Proof.
  intros Hm HR Hf w w' b Hw H. apply M_bind_Ok in H as (w1 & a & H1 & H2).
  specialize (Hm w Hw). rewrite H1 in Hm. eapply Hf; [exact Hm | by eapply HR | exact H2].
Qed.
Lemma gives_lift {A B} (Q : W -> B -> Prop) (r : res A) (f : A -> M W B) :
  (forall a, r = Ok a -> gives Q (f a)) -> gives Q (lift r ≫= f).
Proof. intros Hf w w' b Hw. rewrite lift_bind. destruct r as [a|e]; [by apply Hf | done]. Qed.
Lemma gives_raise {A} (Q : W -> A -> Prop) e : gives Q (raise e).
Proof. by intros w w' a _ [=]. Qed.
Lemma gives_stop N (m : M W OrchestrationResult) : gives answered m -> gives (either N) (stop m).
Proof. intros Hm w w' o Hw H. unfold stop in H. apply M_fmap_Ok in H as (r & H & ->). by eapply Hm. Qed.
Lemma gives_inl (m : M W OrchestrationResult) : gives answered m -> gives started (inl <$> m).
Proof. intros Hm w w' o Hw H. apply M_fmap_Ok in H as (r & H & ->). by eapply Hm. Qed.
Lemma gives_try {A} (Q : W -> A -> Prop) (m : M W A) caught handler :
  stable (write_ahead []) m -> gives Q m -> (forall e, gives Q (handler e)) ->
  gives Q (try_except m caught handler).
Proof.
  intros Hs Hm Hh w w' a Hw H. unfold try_except in H. specialize (Hs w Hw).
  destruct (m w) as [w1 [b|e]] eqn:H1; [injection H as -> ->; by eapply Hm|].
  destruct (caught e); [by eapply (Hh e w1) | done].
Qed.
Lemma gives_early {N} {Q : W -> option OrchestrationResult -> Prop} (m : M W (option OrchestrationResult)) k :
  stable (write_ahead []) m -> gives (either N) m -> (forall w r, answered w r -> Q w (Some r)) ->
  gives Q k ->
  gives Q (m ≫= fun o => match o with Some r => mret (Some r) | None => k end).
Proof.
  intros Hs Hm Hq Hk. eapply gives_bind_with; [exact Hs | exact Hm|].
  intros [r|] w w' b Hw Hr H; [|by eapply Hk]. injection H as <- <-. by apply Hq.
Qed.
Lemma gives_none : gives (either (fun _ => True)) (mret None).
Proof. by intros w w' o _ [= <- <-]. Qed.

(** *** The leaves *)

Lemma result_answer s status reason limit (w w' : W) r :
  write_ahead [] w -> Run_wf (stored_run s) -> _result s status reason limit w = (w', Ok r) ->
  w' = w /\ ores_status r = status /\ ores_run r = stored_run s /\ ores_revision r = revision s /\
  list_orchestration_records (run_id (ores_run r)) (w_store w) = (w_store w, Ok (ores_records r)).
Proof.
  intros [Hwf _] Hrun H. unfold _result in H. inv_run.
  unfold list_records, in_store in Hv. destruct (list_orchestration_records _ _) as [st v'] eqn:Hl.
  pose proof (reads_run _ _ _ _ (list_records_reads _) Hl) as ->. injection Hv as <- ->.
  assert (Hvalid : Forall (fun r => validate_OrchestrationRecord r = Ok r) v).
  { destruct (has_run (run_id (stored_run s)) (w_store w)) eqn:Hh.
    - rewrite (list_records_ok _ _ (sw_records _ Hwf) Hh) in Hl. injection Hl as <-.
      apply stored_records_valid, Hwf.
    - unfold list_orchestration_records, run_exists, mbind, M_bind, gets in Hl. by rewrite Hh in Hl. }
  unfold validate_OrchestrationResult in H. inv_valid.
  apply orchestration_result_id in H as ->. cbn in *.
  rewrite Hrun in Hv. injection Hv as <-. rewrite (traverse_fix _ _ Hvalid) in Hv0. injection Hv0 as <-.
  by destruct w.
Qed.

Lemma transition_durable s d reason gate counted md (w w' : W) s' :
  write_ahead [] w -> _transition s d reason gate counted md w = (w', Ok s') ->
  moved (stored_run s) d counted (stored_run s') /\ revision s' = revision s + 1 /\ durable s' w'.
Proof.
  intros Hw H. unfold _transition in H. inv_run.
  assert (Hw1 : write_ahead [] w0).
  { replace w0 with (fst (clock_now w)) by (by rewrite Hv). by apply keeps_now. }
  destruct Hw1 as [Hwf1 _]. destruct Hwf1 as [[j HR] _ _].
  match goal with H : transition_run _ _ _ _ _ _ _ = Ok _ |- _ => apply transition_run_moved in H as Hmv end.
  match goal with H : transition_event_id _ _ = Ok _ |- _ => apply event_id_valid in H as Hid end.
  match type of H with in_store (persist_transition s ?result ?id) ?w0 = _ =>
    destruct (persist_transition_simulates s result id Hid _ _ HR) as (st & Hst & HR');
    unfold in_store in H; rewrite Hst in H; injection H as <- Hs end.
  destruct (persist_advances _ _ _ _ _ Hs) as (e & He & Hrev & -> & Hrun & _).
  unfold stored_of. cbn. rewrite Hrun. split; [done|]. split; [done|].
  unfold durable. cbn [stored_run w_store]. rewrite (mv_id _ _ _ _ Hmv).
  rewrite (get_run_entry _ _ _ _ HR' He). unfold stored_of. by rewrite Hrun.
Qed.

Lemma gives_stale s reason : Run_wf (stored_run s) -> gives answered (stale_result (E := E) s reason).
Proof.
  intros Hs w w' r Hw H. destruct (result_answer _ _ _ _ _ _ _ Hw Hs H) as (-> & Hst & _ & _ & Hrec).
  split; [done | by left].
Qed.

(** A terminal status reported for a durable run. *)
Lemma gives_reported s status reason limit (w w' : W) r :
  write_ahead [] w -> Run_wf (stored_run s) -> durable s w ->
  terminal_status (run_state (stored_run s)) = Some status ->
  _result s status reason limit w = (w', Ok r) -> answered w' r.
Proof.
  intros Hw Hs Hd Ht H. destruct (result_answer _ _ _ _ _ _ _ Hw Hs H) as (-> & Hst & Hr & Hrev & Hrec).
  split; [done|]. right. rewrite Hst, Hr, Hrev. split; [done|]. by destruct s.
Qed.

Lemma durable_wf s (w : W) : write_ahead [] w -> durable s w -> Run_wf (stored_run s).
Proof. intros [Hwf _] Hd. by destruct (get_run_wf _ _ _ _ Hwf Hd) as (_ & ? & _). Qed.

Lemma transition_write_ahead s d reason gate counted md (w w' : W) s' :
  write_ahead [] w -> _transition s d reason gate counted md w = (w', Ok s') -> write_ahead [] w'.
Proof.
  intros Hw H. replace w' with (fst (_transition s d reason gate counted md w)) by (by rewrite H).
  by apply keeps_transition.
Qed.

Lemma gives_terminate s state reason limit counted md :
  gives answered (_terminate_with s state reason limit counted md).
Proof.
  intros w w' r Hw H. unfold _terminate_with in H. inv_run.
  pose proof (transition_write_ahead _ _ _ _ _ _ _ _ _ Hw Hv) as Hw1.
  destruct (transition_durable _ _ _ _ _ _ _ _ _ Hw Hv) as (Hmv & _ & Hd).
  eapply gives_reported; [exact Hw1 | by eapply durable_wf | exact Hd | | exact H].
  rewrite (mv_state _ _ _ _ Hmv). unfold _status_for_state in Hv0. by destruct state; try done; injection Hv0 as <-.
Qed.

Lemma gives_cancel s counted : gives answered (_cancel s counted).
Proof.
  unfold _cancel. apply gives_bind; [apply keeps_list|]. intros records w w' r Hw H. inv_run.
  pose proof (transition_write_ahead _ _ _ _ _ _ _ _ _ Hw Hv) as Hw1.
  destruct (transition_durable _ _ _ _ _ _ _ _ _ Hw Hv) as (Hmv & _ & Hd).
  eapply gives_reported; [exact Hw1 | by eapply durable_wf | exact Hd | | exact H].
  by rewrite (mv_state _ _ _ _ Hmv).
Qed.

Lemma gives_terminal_result s (w w' : W) r :
  write_ahead [] w -> durable s w -> _terminal_result s w = (w', Ok r) -> answered w' r.
Proof.
  intros Hw Hd H. unfold _terminal_result in H. inv_run. unfold in_store in Hv.
  destruct (list_events _ _) as [st events] eqn:Hl.
  pose proof (reads_run _ _ _ _ (list_events_reads _) Hl) as ->. injection Hv as <- ->.
  assert (Heq : mk_World (w_store w) (w_packages w) (w_env w) (w_invoked w) = w) by (by destruct w).
  rewrite Heq in H. eapply gives_reported; [exact Hw | by eapply durable_wf | exact Hd | | exact H].
  unfold _status_for_state in *. by destruct (run_state _); try done; injection Hv1 as <-.
Qed.

(** A successful transition ends the turn; leaving [REPAIRING] for another
    validation counts a repair. *)
Lemma gives_transition s d reason gate counted md :
  (run_state (stored_run s) = REPAIRING -> d = VALIDATING -> counted = Some AttemptCounterKind.REPAIR) ->
  gives (either (advanced s)) (_transition s d reason gate counted md ;; mret None).
Proof.
  intros Hc w w' o Hw H. inv_run. destruct (transition_durable _ _ _ _ _ _ _ _ _ Hw Hv) as (Hmv & Hrev & Hd).
  exists v. split; [done|]. split; [apply (mv_id _ _ _ _ Hmv)|]. split; [done|]. by eapply moved_measure.
Qed.

(** *** The stages *)

Hint Resolve gives_raise gives_stale gives_terminate gives_cancel : keeps.

Lemma gives_move s d reason :
  run_state (stored_run s) <> REPAIRING -> gives (either (advanced s)) (move s d reason ;; mret None).
Proof. intros Hs. apply gives_transition. by intros. Qed.

Ltac gives_step :=
  match goal with
  | |- gives _ (mbind (fun _ => mret None) (_transition _ _ _ _ _ _)) => apply gives_transition; congruence
  | |- gives _ (mbind (fun _ => mret None) (move _ _ _)) => apply gives_move; congruence
  | |- gives _ (mbind _ (lift _)) => apply gives_lift; intros ? ?
  | |- gives _ (mbind _ _) => apply gives_bind; [solve [solve_keeps]|intros ?]
  | |- gives _ (stop _) => apply gives_stop
  | |- gives _ (inl <$> _) => apply gives_inl
  | |- gives _ (match ?x with _ => _ end) => destruct x eqn:?
  | |- gives answered (exhausted _ _ _) => apply gives_terminate
  | |- gives answered (_terminate _ _ _) => apply gives_terminate
  | |- gives _ (raise _) => apply gives_raise
  | |- gives _ (mret None) => apply gives_none
  | |- gives _ _ => solve [auto with keeps]
  end.
Ltac solve_gives := repeat gives_step.

Section stage.
Context (s : StoredRun) (Hs : Run_wf (stored_run s)) (request : OrchestrationRequest)
        (cancellation : option Token).

Lemma gives_workspace : run_state (stored_run s) = WORKSPACE_PREPARING ->
  gives (either (advanced s)) (_workspace s request).
Proof. intros Hst. unfold _workspace. solve_gives. Qed.

Lemma gives_context_request n q : gives (either (fun _ => True)) (context_request s n q).
Proof. unfold context_request, replay_context, perform_context. solve_gives. Qed.

Lemma gives_context_loop n qs : gives (either (fun _ => True)) (context_loop s n qs).
Proof.
  revert n. induction qs as [|q qs IH]; intros n; cbn [context_loop]; [apply gives_none|].
  eapply gives_early; [solve_keeps | apply gives_context_request | done | apply IH].
Qed.

Lemma gives_context : run_state (stored_run s) = CONTEXT_PREPARING ->
  gives (either (advanced s)) (_context s request).
Proof.
  intros Hst. unfold _context. destruct (existsb _ _); [solve_gives|].
  eapply gives_early; [solve_keeps | apply gives_context_loop | done | apply gives_move; congruence].
Qed.

Lemma gives_build : run_state (stored_run s) = BUILDING ->
  gives (either (advanced s)) (_build s request cancellation).
Proof. intros Hst. unfold _build. solve_gives. Qed.

Lemma gives_validation_verdict a : run_state (stored_run s) = VALIDATING ->
  gives (either (advanced s)) (validation_verdict s a).
Proof. intros Hst. unfold validation_verdict. solve_gives. Qed.

Lemma gives_started a : gives started (mret (inr a)).
Proof. by intros w w' o _ [= <- <-]. Qed.

Lemma gives_run_validation id plan t intent :
  gives started (run_validation s id plan t intent cancellation).
Proof.
  unfold run_validation. apply gives_lift. intros r Hr.
  destruct (validation_reservation_valid _ _ _ _ _ Hr) as [Hv Ha].
  apply gives_bind; [by apply keeps_reserve|]. intros d. solve_gives; apply gives_started.
Qed.

Lemma gives_start_validation plan n : gives started (start_validation s plan n cancellation).
Proof. unfold start_validation. solve_gives; apply gives_run_validation. Qed.

Lemma gives_validate : run_state (stored_run s) = VALIDATING ->
  gives (either (advanced s)) (_validate s request cancellation).
Proof.
  intros Hst. pose proof gives_validation_verdict as Hverdict. unfold _validate.
  apply gives_bind; [solve_keeps|]. intros _. apply gives_bind; [solve_keeps|]. intros n.
  destruct (_ <? _); [solve_gives|]. apply gives_bind; [solve_keeps|]. intros existing.
  destruct (ex_outcome existing) as [r|]; [destruct (rec_attempt r); solve_gives; by apply Hverdict|].
  destruct (ex_intent existing); [solve_gives|]. destruct (_ !! _); [|solve_gives].
  eapply gives_bind_with; [solve_keeps | apply gives_start_validation|].
  intros [r|a] w w' o Hw Ho H; [by injection H as <- <- | by eapply Hverdict].
Qed.

Lemma gives_review_verdict a : run_state (stored_run s) = REVIEWING ->
  gives (either (advanced s)) (review_verdict s a).
Proof. intros Hst. unfold review_verdict. solve_gives. Qed.

Lemma gives_review : run_state (stored_run s) = REVIEWING ->
  gives (either (advanced s)) (_review s request cancellation).
Proof. intros Hst. pose proof gives_review_verdict as Hverdict. unfold _review. solve_gives; by apply Hverdict. Qed.

Lemma gives_repair_verdict a : gives (either (advanced s)) (repair_verdict s a).
Proof. unfold repair_verdict. solve_gives. Qed.

Lemma gives_repair : gives (either (advanced s)) (_repair s request cancellation).
Proof. pose proof gives_repair_verdict as Hverdict. unfold _repair. solve_gives; by apply Hverdict. Qed.

(** Every stage of a run that is not terminal. *)
Lemma gives_stage : is_terminal (run_state (stored_run s)) = false ->
  gives (either (advanced s)) (run_stage s request cancellation).
Proof.
  intros Ht. unfold run_stage, guarded. destruct (run_state (stored_run s)) eqn:Hst; try done;
    try (apply gives_move; congruence);
    try (apply gives_try; [solve_keeps| |intros e; solve_gives]).
  - by apply gives_context.
  - by apply gives_workspace.
  - by apply gives_build.
  - by apply gives_validate.
  - by apply gives_review.
  - by apply gives_repair.
Qed.
End stage.

(** ** The coordination loop *)

Lemma get_run_durable id (w w' : W) s :
  write_ahead [] w -> in_store (get_run id) w = (w', Ok s) ->
  w' = w /\ durable s w /\ Run_wf (stored_run s) /\ run_id (stored_run s) = id.
Proof.
  intros [Hwf _] H. unfold in_store in H. destruct (get_run id (w_store w)) as [st r] eqn:Hg.
  injection H as <- ->. destruct (get_run_wf _ _ _ _ Hwf Hg) as (-> & Hr & Hid).
  split; [by destruct w|]. split; [|done]. unfold durable. by rewrite Hid.
Qed.

Lemma coordinate_turn request cancellation (w w' : W) o :
  write_ahead [] w -> coordinate request cancellation w = (w', Ok o) ->
  exists s, durable s w /\ run_id (stored_run s) = oreq_run_id request /\ either (advanced s) w' o.
Proof.
  intros Hw H. unfold coordinate in H. apply M_bind_Ok in H as (w1 & s & Hget & H).
  destruct (get_run_durable _ _ _ _ Hw Hget) as (-> & Hd & Hs & Hid).
  exists s. split; [done|]. split; [done|].
  destruct (is_terminal (run_state (stored_run s))) eqn:Ht.
  - unfold stop in H. apply M_fmap_Ok in H as (r & H & ->). by eapply gives_terminal_result.
  - revert H. apply (fun (G : gives (either (advanced s)) _) => G w w' o Hw).
    pose proof (gives_stage s Hs request cancellation Ht) as Hstage. unfold cancelled. solve_gives.
    all: try exact Hstage.
    all: apply gives_bind; [destruct cancellation; solve_keeps|intros [|]; [solve_gives|exact Hstage]].
Qed.

(** The loop without a bound: turns until one of them answers or raises. *)
Inductive loop_ends (request : OrchestrationRequest) (cancellation : option Token)
    : W -> W -> res OrchestrationResult -> Prop :=
| ends_answer w w' r :
    coordinate request cancellation w = (w', Ok (Some r)) -> loop_ends request cancellation w w' (Ok r)
| ends_raise w w' e :
    coordinate request cancellation w = (w', Err e) -> loop_ends request cancellation w w' (Err e)
| ends_turn w w1 w' r :
    coordinate request cancellation w = (w1, Ok None) -> loop_ends request cancellation w1 w' r ->
    loop_ends request cancellation w w' r.

Lemma coordinate_stable_run request cancellation (w w' : W) o :
  write_ahead [] w -> coordinate request cancellation w = (w', o) -> write_ahead [] w'.
Proof.
  intros Hw H. replace w' with (fst (coordinate request cancellation w)) by (by rewrite H).
  by apply coordinate_stable.
Qed.

Lemma loop_ends_within request cancellation n (w : W) s :
  write_ahead [] w -> durable s w -> run_id (stored_run s) = oreq_run_id request ->
  measure (stored_run s) < Z.of_nat n ->
  exists w' r, loop_ends request cancellation w w' r /\
    forall k, (n <= k)%nat -> coordination_loop k request cancellation w = (w', r).
Proof.
  revert w s. induction n as [|n IH]; intros w s Hw Hd Hid Hm.
  { pose proof (measure_bounds _ (durable_wf _ _ Hw Hd)). lia. }
  assert (Hstep : forall k, (S n <= k)%nat -> exists k', k = S k' /\ (n <= k')%nat).
  { intros [|k] Hk; [lia|]. exists k. split; [done|lia]. }
  destruct (coordinate request cancellation w) as [w1 [[r|]|e]] eqn:Hc.
  - exists w1, (Ok r). split; [by apply ends_answer|].
    intros k (k' & -> & _)%Hstep. cbn [coordination_loop]. by rewrite (M_bind_run _ _ _ _ _ Hc).
  - destruct (coordinate_turn _ _ _ _ _ Hw Hc) as (s0 & Hd0 & Hid0 & s' & Hd' & Hid' & _ & Hlt).
    assert (s0 = s) as -> by (unfold durable in *; rewrite Hid0, <- Hid in Hd0; congruence).
    destruct (IH w1 s') as (w' & r & Hends & Hloop);
      [by eapply coordinate_stable_run | done | congruence | lia|].
    exists w', r. split; [by eapply ends_turn|].
    intros k (k' & -> & Hk)%Hstep. cbn [coordination_loop]. rewrite (M_bind_run _ _ _ _ _ Hc). by apply Hloop.
  - exists w1, (Err e). split; [by apply ends_raise|].
    intros k (k' & -> & _)%Hstep. cbn [coordination_loop]. by rewrite (M_bind_err _ _ _ _ _ Hc).
Qed.

Lemma loop_gives n request cancellation : gives answered (coordination_loop n request cancellation).
Proof.
  induction n as [|n IH]; cbn [coordination_loop].
  - apply gives_bind; [solve_keeps|]. intros s. apply gives_terminate.
  - intros w w' r Hw H. apply M_bind_Ok in H as (w1 & o & Hc & H).
    destruct (coordinate_turn _ _ _ _ _ Hw Hc) as (s & _ & _ & Ho).
    pose proof (coordinate_stable_run _ _ _ _ _ Hw Hc) as Hw1.
    destruct o as [r'|]; [by injection H as <- <- | by eapply IH].
Qed.

(** *** Telemetry leaves the runs alone *)

Definition runs_are (R : gmap string run_row) (w : W) : Prop := st_runs (w_store w) = R.

Lemma stable_runs_store {A} R (m : M Store A) : only same_runs m -> stable (runs_are R) (in_store m).
Proof.
  intros Hm w Hw. unfold runs_are, in_store in *. destruct (Hm (w_store w)) as (_ & Hr & _).
  destruct (m (w_store w)). cbn in *. congruence.
Qed.
Lemma stable_runs_reads {A} R (m : M Store A) : reads m -> stable (runs_are R) (in_store m).
Proof. intros Hm. apply stable_runs_store, only_reads; [exact _|apply Hm]. Qed.
Lemma stable_runs_env {A} R (m : M E A) : stable (runs_are R) (in_env m).
Proof. intros w Hw. unfold in_env. by destruct (m (w_env w)). Qed.

Lemma settle_same_runs r x rs : only same_runs (service_settle (W := Store) r x rs).
Proof. intros w. by apply (telemetry_only same_runs (SettleReservation r x rs)). Qed.

Lemma reconcile_telemetry_runs R s : stable (runs_are R) (_reconcile_telemetry s).
Proof.
  unfold _reconcile_telemetry. apply stable_bind; [apply stable_runs_reads, list_records_reads|].
  intros records. apply stable_bind; [apply stable_runs_reads, reservations_reads|].
  induction a as [|r rs IH]; cbn [reconcile_reservations]; [apply stable_ret|].
  apply stable_bind; [|intros _; exact IH]. unfold reconcile_reservation.
  destruct (negb _); [apply stable_ret|]. apply stable_bind_lift. intros [x|] _.
  - unfold settle. apply stable_bind; [|intros; apply stable_ret]. apply stable_runs_store, settle_same_runs.
  - apply stable_bind; [apply stable_runs_env|]. intros t. apply stable_bind; [|intros; apply stable_ret].
    apply stable_runs_store. unfold mark_unresolved. apply only_bind; [exact _| |].
    + apply only_reads; [exact _|apply reads_lift].
    + intros x. apply settle_same_runs.
Qed.

Lemma durable_same s (w w' : W) : st_runs (w_store w') = st_runs (w_store w) -> durable s w -> durable s w'.
Proof.
  unfold durable, get_run, transaction, select_run, mbind, M_bind, gets. cbn.
  intros ->. destruct (st_runs (w_store w) !! _) as [row|]; [|done]. unfold lift.
  destruct (_deserialize_run row); [|done]. by intros [= ->].
Qed.

Lemma reconcile_telemetry_durable s (w w' : W) o :
  durable s w -> _reconcile_telemetry s w = (w', o) -> durable s w'.
Proof.
  intros Hd H. eapply durable_same; [|exact Hd].
  pose proof (reconcile_telemetry_runs (st_runs (w_store w)) s w eq_refl) as Hr. by rewrite H in Hr.
Qed.

(** *** Recovery and cancellation only look *)

(** One call of the collaborators that only look: the clock and, where [worktrees], the
    verification of an owned worktree. *)
Inductive asked (worktrees : bool) : E -> E -> Prop :=
| asked_clock e : asked worktrees e (fst (now e))
| asked_worktree id e : worktrees = true -> asked worktrees e (fst (verify_owned_worktree id e)).

(** From [w0] on no agent was invoked, no package was made, and of the collaborators only
    those were called. *)
Definition only_asked (worktrees : bool) (w0 w : W) : Prop :=
  w_invoked w = w_invoked w0 /\ w_packages w = w_packages w0 /\ rtc (asked worktrees) (w_env w0) (w_env w).

Lemma only_asked_refl b w : only_asked b w w.
Proof. by split_and!. Qed.

Lemma stable_asked_store {A} b w0 (m : M Store A) : stable (only_asked b w0) (in_store m).
Proof. intros w Hw. unfold in_store. by destruct (m (w_store w)). Qed.

Lemma stable_asked_env {A} b w0 (m : M E A) : only (rtc (asked b)) m -> stable (only_asked b w0) (in_env m).
Proof.
  intros Hm w (Hi & Hp & He). unfold in_env. specialize (Hm (w_env w)). destruct (m (w_env w)) as [e r].
  split_and!; [done|done|]. by etrans.
Qed.

#[local] Instance rtc_confined b : Confined (rtc (asked b)).
Proof. split; [apply rtc_refl|intros e1 e2 e3; by apply transitivity]. Qed.

Lemma asks_clock b : only (rtc (asked b)) now.
Proof. intros e. apply rtc_once. constructor. Qed.

Lemma asks_reconcile intent t : only (rtc (asked true)) (Reconciliation.reconcile verify_owned_worktree intent t).
Proof.
  unfold Reconciliation.reconcile, reconciliation.
  destruct (rec_attempt intent); try (apply only_reads; [exact _|apply reads_lift]).
  apply only_bind; [exact _|apply only_attempt|intros v]; [intros e; apply rtc_once; by constructor|].
  destruct v as [v|e]; [|destruct (is_GitError e)];
    (apply only_reads; [exact _|first [apply reads_lift|apply reads_raise]]).
Qed.
Hint Resolve stable_asked_store stable_asked_env asks_clock asks_reconcile : keeps.

Ltac unfold_service :=
  unfold _terminate, _terminate_with, _cancel, _terminal_result, _persist_reconciliation, move, _transition,
    stale_result, _result, list_records, clock_now.

Lemma reconcile_run_asks w0 request : stable (only_asked true w0) (reconcile_run request).
Proof. unfold reconcile_run. unfold_service. solve_keeps. Qed.

Lemma cancel_asks w0 request : stable (only_asked false w0) (Service.cancel request).
Proof. unfold Service.cancel. unfold_service. solve_keeps. Qed.

Lemma execute_gives request cancellation : gives answered (execute request cancellation).
Proof.
  intros w w' r Hw H. unfold execute in H. apply M_bind_Ok in H as (w1 & s & Hget & H).
  destruct (get_run_durable _ _ _ _ Hw Hget) as (-> & Hd & Hs & Hid).
  destruct (is_terminal (run_state (stored_run s))) eqn:Ht.
  - apply M_bind_Ok in H as (w1 & [] & Htel & H). destruct (revision_differs request s).
    + injection Htel as <-. by eapply gives_terminal_result.
    + eapply gives_terminal_result; [|by eapply reconcile_telemetry_durable|exact H].
      replace w1 with (fst (_reconcile_telemetry s w)) by (by rewrite Htel). by apply keeps_reconcile_telemetry.
  - revert H. apply (fun (G : gives answered _) => G w w' r Hw).
    pose proof (loop_gives (Z.to_nat MAX_COORDINATION_STEPS) request cancellation) as Hloop.
    destruct (revision_differs request s); [by apply gives_stale|].
    apply gives_bind; [solve_keeps|]. intros _. apply gives_bind; [solve_keeps|].
    intros [|]; [apply gives_terminate|]. apply gives_bind; [destruct (before_context _); solve_keeps|].
    intros [|]; [exact Hloop | apply gives_terminate].
Qed.

Lemma cancel_gives request : gives answered (Service.cancel request).
Proof.
  intros w w' r Hw H. unfold Service.cancel in H. apply M_bind_Ok in H as (w1 & s & Hget & H).
  destruct (get_run_durable _ _ _ _ Hw Hget) as (-> & Hd & Hs & Hid).
  destruct (is_terminal (run_state (stored_run s))); [by eapply gives_terminal_result|].
  destruct (revision_differs request s); [by eapply gives_stale | by eapply gives_cancel].
Qed.

(** ** Properties *)

(** C4: The coordination loop ends: whatever the collaborators return or raise,
    some turn answers or raises, and a loop with any static bound of at least
    309 turns, such as the 1024 of the service, has the same result and the same
    effects as the loop without a bound.  Every other turn moves the durable run
    along the transition table, whose only cycle costs a repair attempt. *)
Theorem coordination_terminates w request cancellation (Hw : evolves w) :
  exists w' r, loop_ends request cancellation w w' r /\
    forall k, (309 <= k)%nat -> coordination_loop k request cancellation w = (w', r).
Proof.
  pose proof (evolves_write_ahead w Hw) as Hwa.
  destruct (in_store (get_run (oreq_run_id request)) w) as [w0 [s|e]] eqn:Hget.
  - destruct (get_run_durable _ _ _ _ Hwa Hget) as (-> & Hd & Hs & Hid).
    eapply loop_ends_within; [done..|]. pose proof (measure_bounds _ Hs). lia.
  - assert (Hc : coordinate request cancellation w = (w0, Err e))
      by (unfold coordinate; by rewrite (M_bind_err _ _ _ _ _ Hget)).
    exists w0, (Err e). split; [by apply ends_raise|]. intros [|k] Hk; [lia|].
    cbn [coordination_loop]. by rewrite (M_bind_err _ _ _ _ _ Hc).
Qed.

(** C13: An answer of [execute] or [cancel] is true of the store at the time of
    the answer: it lists the durable records of the run, and unless it is
    [STALE] the run it shows is stored at the revision it shows, is terminal and
    has the status it reports. *)
Theorem answers_are_durable w w' c r (Hw : evolves w)
  (Hc : match c with ReconcileRun _ => False | _ => True end)
  (Hr : service_exec c w = (w', Ok r)) : answered w' r.
Proof.
  pose proof (evolves_write_ahead w Hw) as Hwa.
  destruct c as [request cancellation|request|request]; [|done|].
  - exact (execute_gives request cancellation w w' r Hwa Hr).
  - exact (cancel_gives request w w' r Hwa Hr).
Qed.

(** C37: Recovery and cancellation replay nothing, whatever the durable records say: no
    request is handed to an agent, no context package is made, and the environment of the
    collaborators goes through calls of the clock and, for recovery, of the verification
    of owned worktrees only - so no worktree is created, no validation is executed, no
    context is selected and no evidence is collected again. *)
Theorem recovery_replays_nothing w request :
  only_asked true w (fst (reconcile_run request w)) /\ only_asked false w (fst (Service.cancel request w)).
Proof. split; [apply reconcile_run_asks|apply cancel_asks]; apply only_asked_refl. Qed.
End outcomes.
