(* ===== verification/ServiceSample.v ===== *)
(** * A run carried to approval

    Concrete collaborators and one request: the coordinator creates the worktree,
    builds, validates, reviews and approves the run, evaluated inside Rocq.  The
    witnesses of the coordinator's theorems are these evaluations. *)

From Stdlib Require Import ZArith Lia Ascii String.
From S2P Require Import Prelude Text Domain StateMachine Effects Sha256 Commands Agents GitPort TelemetryPort Validation ContextPort TelemetryService ValidationRunner ValidationExecution ReviewGate OrchestrationPorts Reconciliation RuntimePort Tables Storage RunJournal UsageStore DurableStore Coordination Service WriteAhead ServiceOutcomes.
From stdpp Require Import base option strings numbers gmap sets list list_relations.

Open Scope Z_scope.

Module ServiceSample.
Import ReconciliationSample.

Definition run : Run := DurableSample.run.
Definition rid : string := "run_" +:+ hex32.
Definition digest : string := ContextSample.digest_abc.

(** ** The request *)

Definition no_discovery : ContextDiscoveryInput := mk_ContextDiscoveryInput [] [] [] None [] [] [] [] [] [].

Definition context_for (role : AgentRole.t) (id : string) : ContextSelectionRequest :=
  mk_ContextSelectionRequest 1 id rid "P4-002" (run_task run) role source "repository" "worktree" []
    no_discovery ContextSample.limits ["Stay within the task."] (utc 0) None.

Definition prototype (role : AgentRole.t) : AgentRequest :=
  mk_AgentRequest 1 ("inv_" +:+ hex32) rid "P4-002" ("attempt_" +:+ hex32) 1 role "Fix the parser"
    ["src/parser.py"] ["secrets"] (mk_WorkspaceReference WorkspaceKind.WORKTREE ("wt_" +:+ hex32) target)
    [] (mk_AgentResponseContract 1 true 16384 32 64) 600 None
    (mk_AgentArtifactPolicy "artifacts" true false 8388608 true) (mk_AgentRouting None None) []
    (mk_ExpectedAgentCapabilities true (bool_decide (role = AgentRole.REVIEWER))
       (negb (bool_decide (role = AgentRole.REVIEWER))) false true false false false) [].

Definition plan : ValidationPlan :=
  mk_ValidationPlan 1 ("vplan_" +:+ hex32) rid "P4-002" (utc 0)
    (mk_WorkspaceReference WorkspaceKind.WORKTREE ("wt_" +:+ hex32) target) [ValidationSample.tests]
    (mk_ValidationExecutionPolicy false true) (mk_ValidationArtifactPolicy "artifacts" None false true).

Definition request : OrchestrationRequest :=
  mk_OrchestrationRequest 1 rid None
    [context_for AgentRole.BUILDER "ctx-builder"; context_for AgentRole.REVIEWER "ctx-reviewer"]
    ReconciliationSample.request (prototype AgentRole.BUILDER) (prototype AgentRole.REVIEWER)
    (prototype AgentRole.BUILDER) None [plan] false.

(** ** The collaborators: the environment is a clock *)

Definition tick : M Z datetime := fun t => (t + 1000, Ok (utc (t + 1000))).

Definition item (role : AgentRole.t) : ContextItem :=
  mk_ContextItem 1
    (context_item_id rid "src/parser.py" ContextAuthority.REPOSITORY_CONTENT
       ContextTrust.UNTRUSTED_REPOSITORY)
    rid "P4-002" (Some "src/parser.py") "src/parser.py" ContextCandidateKind.REPOSITORY_FILE
    ContextSource.TASK_PATH ContextImportance.REQUIRED ContextAuthority.REPOSITORY_CONTENT
    ContextTrust.UNTRUSTED_REPOSITORY role [InclusionReason.EXPLICIT_TASK_PATH] 10 []
    3 3 0 ContextContentState.COMPLETE digest digest RedactionState.NOT_NEEDED None "abc" None.

Definition manifest (role : AgentRole.t) : ContextManifest :=
  mk_ContextManifest 1 ("ctxmanifest_" +:+ sha256_hex (AgentRole.value role)) rid "P4-002" "task" role "repository" "worktree"
    CONTEXT_SELECTION_POLICY_VERSION (utc 0) ContextSample.limits [manifest_fields (item role) 1] []
    0 1 1 0 1 0 0 3 3 0 0 0 BaselineKind.AUTHORIZED_CANDIDATES 3 (float_of_Z 1) true []
    ContextSelectionStatus.COMPLETE.

Definition package (role : AgentRole.t) : ContextPackage :=
  mk_ContextPackage 1 (manifest role) ["Stay within the task."] [item role] [].

Definition offers (role : AgentRole.t) : AgentCapabilities :=
  let writes := negb (bool_decide (role = AgentRole.REVIEWER)) in
  mk_AgentCapabilities 1 "fake" "fake-agent" "1" [role] true (negb writes) writes false true false
    false false AgentAvailability.AVAILABLE None None [].

Definition respond (payload : AgentPayload) (q : AgentRequest) : M Z AgentResponse := fun t =>
  (t + 5000,
   Ok (mk_AgentResponse 1 (ar_invocation_id q) (ar_run_id q) (ar_work_package_id q) (ar_attempt_id q)
         (ar_attempt_number q) (ar_role q) 1 AgentStatus.COMPLETED (utc t) (utc (t + 5000)) 5 "Done"
         "untrusted text" StructuredParseStatus.PARSED (Some payload) [] [] None
         (mk_AgentProviderIdentity "fake" "fake-agent" "1" None) None None)).

Definition adapter (role : AgentRole.t) (payload : AgentPayload) : AgentAdapter Z unit :=
  mk_AgentAdapter _ _ (mret (offers role)) (fun q _ => respond payload q).

Definition building : AgentAdapter Z unit :=
  adapter AgentRole.BUILDER (BuilderPayload "Fixed" ["src/parser.py"] ["src/parser.py"] []).
Definition reviewing : AgentAdapter Z unit :=
  adapter AgentRole.REVIEWER
    (ReviewerPayload (mk_ReviewResult 1 ReviewVerdict.APPROVED "Fine" []) ["src/parser.py"]).

Definition passing (p : ValidationPlan) (started : datetime) : ValidationPlanResult :=
  aggregate_value p
    (result_of p ValidationSample.tests 1 ValidationStatus.PASSED (Some CommandStatus.SUCCESS) started 5
       (Some (mk_Path true ["usr"; "bin"; "python"])) (Some 0) empty_output empty_output None) [].

Definition evidence (p : ValidationPlan) (r : AgentResponse) (t : datetime) : LocalApprovalEvidence :=
  mk_LocalApprovalEvidence 1 rid "P4-002" (plan_id p) (resp_invocation_id r) "fake-agent" t true true
    true true true true true true.

#[export] Instance collaborators : Collaborators Z unit := {|
  now := tick;
  is_cancelled _ := mret false;
  create_worktree _ := mret (mk_WorktreeCreationResult (ownership "revanent/p4") live);
  verify_owned_worktree _ := mret (verification "revanent/p4");
  execute_validation p started _ := fun t => (t + 5000, Ok (passing p started));
  collect p _ r t := mret (evidence p r t);
  select_context q := mret (mk_ContextSelectionResult 1 (Some (package (csq_role q))) None);
  adapters := mk_OrchestrationAdapters _ _ building reviewing building None
|}.

Definition start : World Z := mk_World DurableSample.created_store [] 0 [].
(** The run, and the world after it. *)
Definition executing : service_call (Token := unit) := Execute request None.
Definition finish : World Z := fst (service_exec executing start).

Lemma start_evolves : evolves start.
Proof. apply evolves_start, DurableSample.created_reachable. Qed.
Lemma finish_evolves : evolves finish.
Proof. apply (evolves_service executing), start_evolves. Qed.
End ServiceSample.

#[export] Existing Instance ServiceSample.collaborators.

Lemma request_valid : validate_OrchestrationRequest ServiceSample.request = Ok ServiceSample.request.
Proof. vm_compute. reflexivity. Qed.

(** The run is approved, with one intent and one outcome for each of the two
    contexts, the worktree, the build, the validation and the review, seven
    transitions, and one call of the builder and one of the reviewer. *)
Lemma approved_end_to_end :
  match service_exec ServiceSample.executing ServiceSample.start with
  | (w, Ok r) => ores_status r = OrchestrationStatus.APPROVED /\ length (ores_records r) = 12%nat
                 /\ ores_revision r = 7 /\ length (w_invoked w) = 2%nat
  | (_, Err _) => False
  end.
Proof. vm_compute. repeat split. Qed.

Lemma finish_run : exists r,
  service_exec ServiceSample.executing ServiceSample.start = (ServiceSample.finish, Ok r)
  /\ ores_status r = OrchestrationStatus.APPROVED /\ length (w_invoked ServiceSample.finish) = 2%nat.
Proof.
  pose proof approved_end_to_end as H. unfold ServiceSample.finish.
  destruct (service_exec ServiceSample.executing ServiceSample.start) as [w [r|e]]; [|done].
  exists r. cbn [fst]. by destruct H as (? & _ & _ & ?).
Qed.

(** The builder and the reviewer ran once each, for the two agent intents. *)
Lemma launched_at_most_once_witness :
  length (w_invoked ServiceSample.finish) = 2%nat /\
  w_invoked ServiceSample.finish ⊆+ intended_requests (w_store ServiceSample.finish).
Proof.
  split; [destruct finish_run as (r & _ & _ & H); exact H|].
  exact (proj1 (launched_at_most_once ServiceSample.finish ServiceSample.finish_evolves)).
Defined.

Lemma coordination_terminates_witness :
  exists w' r, loop_ends ServiceSample.request (None (A := unit)) ServiceSample.start w' r.
Proof.
  destruct (coordination_terminates ServiceSample.start ServiceSample.request (None (A := unit))
    ServiceSample.start_evolves) as (w' & r & Hends & _).
  exists w', r. exact Hends.
Defined.

Lemma answers_are_durable_witness :
  exists r, ores_status r = OrchestrationStatus.APPROVED /\ answered ServiceSample.finish r.
Proof.
  destruct finish_run as (r & Hrun & Hstatus & _). exists r. split; [exact Hstatus|].
  exact (answers_are_durable ServiceSample.start ServiceSample.finish ServiceSample.executing r
           ServiceSample.start_evolves I Hrun).
Defined.
