(* ===== verification/Planning.v ===== *)
(** * Properties of what the coordinator derives

    The cap of a validation plan, the derived identifiers, the budget policy of
    a run, and what an approvable review says about interrupted work. *)

From Stdlib Require Import ZArith Lia Ascii String.
From S2P Require Import Prelude Text Domain StateMachine Sha256 Effects Agents GitPort TelemetryPort Validation ContextPort TelemetryService ValidationRunner ValidationExecution ReviewGate OrchestrationPorts Reconciliation Tables Storage RunJournal UsageStore DurableStore Coordination Service WriteAhead ServiceOutcomes ServiceSample.
From stdpp Require Import base option strings numbers gmap sets list list_relations.

Open Scope Z_scope.

(** ** Capping a validation plan *)

(** Follow one computation along another that agrees with it so far. *)
Ltac follow H :=
  let x := fresh "x" in let Hx := fresh "Hx" in
  apply bind_Ok in H as (x & Hx & H); rewrite ?Hx; cbn [mbind result_bind].

Lemma with_timeout_validates n c d :
  1 <= n <= 86400 -> validate_ValidationCommand c = Ok d ->
  validate_ValidationCommand (with_timeout n c) = Ok (with_timeout n d).
Proof.
  intros Hn. assert (Hr : in_range 1 86400 n = true) by (unfold in_range; lia).
  unfold validate_ValidationCommand, with_timeout.
  cbn [vc_id vc_name vc_executable vc_arguments relative_working_directory classification
    security_critical expected_exit_codes timeout_seconds vc_output vc_allowed_environment_names].
  intros H. do 6 follow H. follow H.
  unfold require at 1. rewrite Hr. cbn [negb raise_if mbind result_bind]. follow H.
  pose proof (validate_command_id _ _ H) as ->. unfold _validate_command in *.
  cbn [vc_id vc_name vc_executable vc_arguments relative_working_directory classification
    security_critical expected_exit_codes timeout_seconds vc_output vc_allowed_environment_names] in *.
  do 6 follow H. reflexivity.
Qed.

(** The same command with a timeout of at least a second, no longer than its own. *)
Definition capped_from (c d : ValidationCommand) : Prop :=
  exists n, d = with_timeout n c /\ 1 <= n <= timeout_seconds c.

Lemma command_timeout c : Command_wf c -> 1 <= timeout_seconds c <= 86400.
Proof.
  unfold Command_wf, validate_ValidationCommand. intros H. do 7 (apply bind_Ok in H as (? & ? & H)).
  match goal with Hr : require (in_range _ _ _) _ = Ok _ |- _ => apply require_Ok in Hr; unfold in_range in Hr end.
  lia.
Qed.

Lemma timeouts_at_least cs :
  Forall Command_wf cs -> Z.of_nat (length cs) <= py_sum (timeout_seconds <$> cs).
Proof.
  induction 1 as [|c cs Hc _ IH]; [done|]. apply command_timeout in Hc.
  rewrite fmap_cons. cbn [length py_sum foldr]. fold (py_sum (timeout_seconds <$> cs)). lia.
Qed.

Lemma cap_commands_spec remaining cs :
  Forall Command_wf cs -> Z.of_nat (length cs) <= remaining <= py_sum (timeout_seconds <$> cs) ->
  exists ds, cap_commands remaining cs = Ok ds /\ Forall Command_wf ds /\
    Forall2 capped_from cs ds /\ py_sum (timeout_seconds <$> ds) = remaining.
Proof.
  intros Hcs. revert remaining. induction Hcs as [|c cs Hc Hcs IH]; intros remaining Hr.
  { exists []. cbn in *. repeat split; try constructor. lia. }
  pose proof (command_timeout _ Hc) as Ht. pose proof (timeouts_at_least _ Hcs) as Hmin.
  rewrite fmap_cons in Hr. cbn [length py_sum foldr] in Hr. fold (py_sum (timeout_seconds <$> cs)) in Hr.
  set (n := Z.min (timeout_seconds c) (remaining - Z.of_nat (length cs))).
  destruct (IH (remaining - n)) as (ds & Hds & Hwf & Hcap & Hsum); [lia|].
  exists (with_timeout n c :: ds). cbn [cap_commands]. fold n.
  rewrite (with_timeout_validates n c c) by (done || lia). cbn [mbind result_bind]. rewrite Hds.
  split; [done|]. split; [constructor; [by apply with_timeout_validates; [lia|]|done]|].
  split; [constructor; [exists n; split; [done|lia]|done]|].
  rewrite fmap_cons. cbn [py_sum foldr]. fold (py_sum (timeout_seconds <$> ds)). cbn. lia.
Qed.

(** Whatever does not look at the timeouts is the same on both plans. *)
Lemma capped_fmap {A} (f : ValidationCommand -> A) cs ds :
  (forall n c, f (with_timeout n c) = f c) -> Forall2 capped_from cs ds -> f <$> ds = f <$> cs.
Proof.
  intros Hf. induction 1 as [|c d cs ds (n & -> & _) _ IH]; [done|]. by rewrite !fmap_cons, Hf, IH.
Qed.

Lemma existsb_as_fmap {A} (p : A -> bool) xs : existsb p xs = existsb id (p <$> xs).
Proof. induction xs as [|x xs IH]; [done|]. rewrite fmap_cons. cbn. by rewrite IH. Qed.

Lemma with_commands_wf p ds :
  Plan_wf p -> Forall Command_wf ds -> Forall2 capped_from (plan_commands p) ds ->
  Plan_wf (with_commands ds p).
Proof.
  intros Hp Hds Hcap.
  assert (Hlen : length ds = length (plan_commands p)) by (symmetry; by eapply Forall2_length).
  unfold Plan_wf, validate_ValidationPlan in *. unfold with_commands.
  cbn [plan_schema_version plan_id plan_run_id plan_work_package_id plan_created_at plan_workspace
    plan_commands plan_execution plan_artifacts].
  do 6 follow Hp. apply bind_Ok in Hp as (cs & Hcs & Hp). rewrite (traverse_fix _ _ Hds).
  cbn [mbind result_bind]. follow Hp.
  assert (Hfix : cs = plan_commands p).
  { unfold _validate_plan in Hp. do 6 (apply bind_Ok in Hp as (? & ? & Hp)). unfold mret, result_ret in Hp.
    injection Hp as Hp. by rewrite <- Hp. }
  subst cs. unfold _validate_plan in *. cbn [plan_commands plan_artifacts] in *.
  rewrite Hlen, (existsb_as_fmap (fun c => capture_artifacts (vc_output c)) ds), (existsb_as_fmap is_required ds).
  rewrite (capped_fmap vc_id _ ds), (capped_fmap vc_name _ ds), (capped_fmap command_signature _ ds),
    (capped_fmap (fun c => capture_artifacts (vc_output c)) _ ds), (capped_fmap is_required _ ds) by done.
  rewrite <- !existsb_as_fmap.
  do 6 follow Hp. unfold mret, result_ret in *. injection Hp as Hp. destruct p as [p1 p2 p3 p4 p5 p6 p7 p8 p9].
  cbn [plan_schema_version plan_id plan_run_id plan_work_package_id plan_created_at plan_workspace
    plan_commands plan_execution plan_artifacts] in *. injection Hp as -> -> -> -> -> ->.
  done.
Qed.

(** A validation plan is capped to the run's allowance without losing a
    command: the cap is refused exactly when the allowance, in whole seconds,
    does not give every command a second; otherwise it succeeds, the new plan is
    valid and differs in its timeouts only, every timeout is between one second
    and the declared one, and together they use exactly the smaller of the
    allowance and the declared total. *)
Theorem cap_fits_allowance p allowance_ms (Hp : Plan_wf p) :
  let available := Z.min (allowance_ms / 1000) (total_timeout p) in
  (available < Z.of_nat (length (plan_commands p)) /\ _cap_validation_plan p allowance_ms = Ok None)
  \/ exists q, _cap_validation_plan p allowance_ms = Ok (Some q) /\ Plan_wf q
       /\ q = with_commands (plan_commands q) p
       /\ Forall2 capped_from (plan_commands p) (plan_commands q)
       /\ total_timeout q = available /\ total_timeout q * 1000 <= allowance_ms.
Proof.
  intros available. unfold _cap_validation_plan. fold available.
  destruct (Z.ltb_spec available (Z.of_nat (length (plan_commands p)))) as [Hlt|Hle]; [by left|]. right.
  destruct (cap_commands_spec available (plan_commands p)) as (ds & Hds & Hwf & Hcap & Hsum).
  { apply (pf_commands _ (Plan_wf_facts _ Hp)). }
  { unfold available, total_timeout in *. lia. }
  exists (with_commands ds p). rewrite Hds. cbn [mbind result_bind].
  pose proof (with_commands_wf _ _ Hp Hwf Hcap) as Hq. rewrite Hq.
  split; [done|]. split; [done|]. split; [done|]. split; [done|].
  assert (Ht : total_timeout (with_commands ds p) = available) by exact Hsum.
  split; [done|]. rewrite Ht. unfold available.
  pose proof (Z.div_mod allowance_ms 1000 ltac:(lia)). pose proof (Z.mod_pos_bound allowance_ms 1000 ltac:(lia)).
  lia.
Qed.

(** ** Identifiers and intents *)

Lemma attempt_id_typed run_id step n : exists id,
  ids_attempt_id run_id step n = Ok id /\ OrchestrationAttemptId id = Ok id.
Proof.
  eexists. assert (H := sha256_prefix_matches "oattempt_" 32
    (run_id +:+ ":" +:+ OrchestrationStep.value step +:+ ":" +:+ str_of_Z n) ltac:(lia)).
  unfold ids_attempt_id, OrchestrationAttemptId, _hex, _ATTEMPT_ID. rewrite H. split; [reflexivity|].
  by rewrite H.
Qed.

Lemma record_id_typed id stage : exists record_id,
  ids_record_id id stage = Ok record_id /\ OrchestrationRecordId record_id = Ok record_id.
Proof.
  eexists. assert (H := sha256_prefix_matches "orec_" 64
    (id +:+ ":" +:+ OrchestrationRecordStage.value stage) ltac:(lia)).
  unfold ids_record_id, OrchestrationRecordId, _hex, _RECORD_ID. rewrite H. split; [reflexivity|].
  by rewrite H.
Qed.

Lemma agent_ids_typed id : exists attempt_id invocation_id,
  ids_agent_attempt_id id = Ok attempt_id /\ AgentAttemptId attempt_id = Ok attempt_id /\
  ids_invocation_id id = Ok invocation_id /\ AgentInvocationId invocation_id = Ok invocation_id.
Proof.
  assert (Ha := sha256_prefix_matches "attempt_" 32 (id +:+ ":agent") ltac:(lia)).
  assert (Hi := sha256_prefix_matches "inv_" 32 (id +:+ ":invocation") ltac:(lia)).
  exists ("attempt_" +:+ _hex (id +:+ ":agent") 32), ("inv_" +:+ _hex (id +:+ ":invocation") 32).
  unfold ids_agent_attempt_id, AgentAttemptId, ids_invocation_id, AgentInvocationId.
  split_and!; by apply stable_identifier_Ok.
Qed.

(** The attempt that the service declares before each kind of side effect. *)
Inductive intent_of (base : _AttemptBase) (request : OrchestrationRequest) : AttemptEvidence -> Prop :=
| intent_context q :
    q ∈ context_requests request ->
    intent_of base request (Context (mk_ContextAttempt base (csq_request_id q) (csq_role q) None))
| intent_workspace :
    intent_of base request (Workspace (mk_WorkspaceAttempt base (worktree request) None))
| intent_validation p :
    p ∈ validation_plans request ->
    intent_of base request (Validation_ (mk_ValidationAttempt base p None)).

Lemma run_parts_typed r :
  Run_wf r ->
  RunId (run_id r) = Ok (run_id r)
  /\ WorkPackageId (wp_id (run_work_package r)) = Ok (wp_id (run_work_package r))
  /\ validate_BudgetLimits (run_budgets r) = Ok (run_budgets r).
Proof.
  unfold Run_wf, validate_Run. intros H. do 3 (apply bind_Ok in H as (? & ? & H)).
  apply bind_Ok in H as (w & Hw & H). apply bind_Ok in H as (b & Hb & H). do 4 (apply bind_Ok in H as (? & ? & H)).
  apply validate_state_Ok in H as [Heq _]. rewrite Heq. cbn [run_id run_work_package run_budgets].
  split; [by eapply RunId_idem|]. split; [|pose proof (validate_BudgetLimits_id _ _ Hb) as Hbe; by rewrite <- Hbe in Hb].
  unfold validate_WorkPackage in Hw.
  repeat (apply bind_Ok in Hw as (? & ? & Hw)). injection Hw as <-. by eapply WorkPackageId_idem.
Qed.

Lemma intended_typed s id n t :
  Run_wf (stored_run s) -> OrchestrationAttemptId id = Ok id -> is_utc t = true ->
  base_fields (intended s id n t)
  = (require (in_range 1 100 n) "sequence" ;; mret (intended s id n t)).
Proof.
  intros Hs Hid Ht. destruct (run_parts_typed _ Hs) as (Hr & Hw & _).
  unfold base_fields, intended, orchestration_utc.
  cbn [at_schema_version at_attempt_id at_run_id at_work_package_id at_sequence at_started_at
    at_completed_at at_failure at_status at_side_effects validate_optional].
  rewrite Hid, Hr, Hw, Ht. reflexivity.
Qed.

Lemma request_parts req :
  validate_OrchestrationRequest req = Ok req ->
  Forall (fun q => validate_ContextSelectionRequest q = Ok q) (context_requests req)
  /\ validate_WorktreeCreationRequest (worktree req) = Ok (worktree req)
  /\ Forall (fun p => Plan_wf p /\ plan_run_id p = oreq_run_id req
                      /\ plan_work_package_id p = ar_work_package_id (builder_request req))
       (validation_plans req).
Proof.
  unfold validate_OrchestrationRequest. intros H. do 3 (apply bind_Ok in H as (? & ? & H)).
  apply bind_Ok in H as (cs & Hcs & H). apply bind_Ok in H as (tree & Htree & H).
  do 4 (apply bind_Ok in H as (? & ? & H)). apply bind_Ok in H as (ps & Hps & H).
  pose proof (orchestration_request_id _ _ H) as Heq. unfold _validate_orchestration_request in H.
  do 8 (apply bind_Ok in H as (? & ? & H)). apply bind_Ok in H as (? & Hplans & H). clear H.
  rewrite Heq. cbn [context_requests worktree validation_plans oreq_run_id builder_request] in *.
  split; [by eapply traverse_Ok_fix, (idem (f := traverse validate_ContextSelectionRequest))|].
  split; [by eapply (idem (f := validate_WorktreeCreationRequest))|].
  assert (Hwf : Forall Plan_wf ps) by (by eapply traverse_Ok_fix, (idem (f := traverse validate_ValidationPlan))).
  apply raise_if_Ok in Hplans. rewrite existsb_false in Hplans.
  rewrite Forall_forall in *. intros p Hp. specialize (Hplans _ Hp). cbn beta in Hplans.
  rewrite !orb_false_iff, !negb_false_iff, !String.eqb_eq in Hplans. naive_solver.
Qed.

Lemma request_id_typed q :
  validate_ContextSelectionRequest q = Ok q ->
  pattern_field "request_id" reference_pattern (csq_request_id q) = Ok (csq_request_id q).
Proof.
  unfold validate_ContextSelectionRequest. intros H. apply bind_Ok in H as (? & _ & H).
  apply bind_Ok in H as (i & Hi & H). unfold patterned in Hi. rewrite bind_require_Ok in Hi.
  destruct Hi as [Hm Hi]. injection Hi as <-.
  by apply (pattern_field_safe (in_class "_.:-" is_alnum)).
Qed.

(** C38: The evidence the service declares before a side effect is well typed.
    For a valid run and request that agree on the run and the work package, the
    INTENT record of every context, workspace and validation attempt, with the
    derived identifiers, is a valid record that the constructors give back
    unchanged, as long as the attempt's number is at most 100; the number 101,
    which the plans of a request allow for validations, is refused with a
    validation error. *)
Theorem intents_typed s req id n t k occurred a
    (Hs : Run_wf (stored_run s)) (Hrev : 0 <= revision s)
    (Hreq : validate_OrchestrationRequest req = Ok req)
    (Hrun : oreq_run_id req = run_id (stored_run s))
    (Hwp : ar_work_package_id (builder_request req) = wp_id (run_work_package (stored_run s)))
    (Hid : OrchestrationAttemptId id = Ok id) (Hn : 1 <= n) (Ht : is_utc t = true)
    (Hk : 1 <= k <= MAX_ORCHESTRATION_RECORDS) (Ho : is_utc occurred = true)
    (Ha : intent_of (intended s id n t) req a) :
  exists record_id, ids_record_id id OrchestrationRecordStage.INTENT = Ok record_id /\
  if n <=? 100 then
    let record := mk_OrchestrationRecord ORCHESTRATION_SCHEMA_VERSION record_id (run_id (stored_run s))
      (wp_id (run_work_package (stored_run s))) k (revision s) (run_state (stored_run s))
      OrchestrationRecordStage.INTENT occurred a None in
    validate_OrchestrationRecord record = Ok record
  else validate_AttemptEvidence a = Err (ValueError "sequence").
Proof.
  destruct (record_id_typed id OrchestrationRecordStage.INTENT) as (rid & Hrid & Htyped).
  exists rid. split; [done|]. pose proof (intended_typed s id n t Hs Hid Ht) as Hbase.
  destruct (run_parts_typed _ Hs) as (Hr & Hw & _). destruct (request_parts _ Hreq) as (Hcs & Htree & Hps).
  assert (Hattempt : validate_AttemptEvidence a
    = (require (in_range 1 100 n) "sequence" ;; mret a)).
  { rewrite Forall_forall in Hcs. rewrite Forall_forall in Hps. unfold require. destruct (in_range 1 100 n); cbn [negb raise_if] in *.
    - destruct Ha as [q Hq| |p Hp].
      + unfold validate_AttemptEvidence, validate_ContextAttempt. cbn [ca_base ca_request_id ca_role ca_manifest].
        rewrite Hbase. cbn [mbind result_bind]. by rewrite (request_id_typed q) by auto.
      + unfold validate_AttemptEvidence, validate_WorkspaceAttempt. cbn [wa_base wa_request wa_evidence].
        rewrite Hbase. cbn [mbind result_bind]. rewrite Htree. unfold _validate_workspace.
        cbn. by rewrite String.eqb_refl.
      + destruct (Hps _ Hp) as (Hwf & Hpr & Hpw).
        unfold validate_AttemptEvidence, validate_ValidationAttempt. cbn [va_base va_plan va_result].
        rewrite Hbase. cbn [mbind result_bind]. rewrite Hwf. unfold _validate_validation.
        cbn.
        rewrite Hpr, Hpw, Hrun, Hwp, !String.eqb_refl. reflexivity.
    - destruct Ha; unfold validate_AttemptEvidence, validate_ContextAttempt, validate_WorkspaceAttempt,
        validate_ValidationAttempt; cbn [ca_base wa_base va_base]; by rewrite Hbase. }
  assert (Hbase' : base_of a = intended s id n t) by (by destruct Ha).
  unfold in_range in Hattempt. destruct (n <=? 100) eqn:Hle.
  - unfold validate_OrchestrationRecord, orchestration_utc, _validate_record.
    cbn [rec_schema_version rec_id rec_run_id rec_work_package_id rec_sequence rec_run_revision
      rec_expected_state rec_stage rec_occurred_at rec_attempt rec_reconciliation validate_optional].
    rewrite Htyped, Hr, Hw, Ho, Hattempt.
    assert (in_range 1 MAX_ORCHESTRATION_RECORDS k = true) as -> by (unfold in_range; lia).
    assert (0 <=? revision s = true) as -> by lia.
    assert (1 <=? n = true) as -> by lia.
    cbn. rewrite Hbase'. cbn. by rewrite !String.eqb_refl.
  - rewrite Hattempt. by rewrite andb_false_r.
Qed.

(** ** The budget policy of a run *)

(** Every ceiling of the run's budgets has a place in a telemetry policy. *)
Definition representable (b : BudgetLimits) : bool :=
  match max_remote_tokens b with Some n => n <=? MAX_USAGE_VALUE | None => true end.

Lemma integer_limit_typed metric n :
  1 <= n -> is_currency (_METRIC_UNITS metric) = false ->
  validate_BudgetLimit (mk_BudgetLimit metric (_METRIC_UNITS metric) (Some n) None None)
  = (require (n <=? MAX_USAGE_VALUE) "integer_limit" ;;
     mret (mk_BudgetLimit metric (_METRIC_UNITS metric) (Some n) None None)).
Proof.
  intros Hn Hu. unfold validate_BudgetLimit. cbn [integer_limit decimal_limit bl_currency bl_unit bl_metric].
  unfold optional_range, in_range. assert (1 <=? n = true) as -> by lia.
  destruct metric; (discriminate || reflexivity).
Qed.

Lemma cost_limit_typed d :
  0 < dec_coef d -> dec_digits d <= 12 ->
  let l := mk_BudgetLimit BudgetMetric.ESTIMATED_COST UsageUnit.DECIMAL_CURRENCY None (Some d) (Some "USD") in
  validate_BudgetLimit l = Ok l.
Proof.
  intros Hd Hdig l. unfold validate_BudgetLimit, l. cbn [integer_limit decimal_limit bl_currency bl_unit bl_metric].
  unfold decimal_field. assert ((0 <? dec_coef d) && (dec_digits d <=? 18) = true) as -> by lia. reflexivity.
Qed.

Lemma traverse_app {A B} (f : A -> res B) xs ys :
  traverse f (xs ++ ys) = (x ← traverse f xs ; y ← traverse f ys ; mret (x ++ y)).
Proof.
  induction xs as [|x xs IH]; cbn; [by destruct (traverse f ys)|].
  destruct (f x); cbn; [|done]. rewrite IH. destruct (traverse f xs); cbn; [|done]. by destruct (traverse f ys).
Qed.

Lemma policy_limits_typed b :
  validate_BudgetLimits b = Ok b ->
  traverse validate_BudgetLimit (policy_limits b)
  = if representable b then Ok (policy_limits b) else Err (ValueError "integer_limit").
Proof.
  unfold validate_BudgetLimits. intros H. do 7 (apply bind_Ok in H as (? & ?%require_Ok & H)). clear H.
  unfold policy_limits, representable, attempts_limit, in_range in *.
  assert (Hint : forall metric n, 1 <= n <= MAX_USAGE_VALUE -> is_currency (_METRIC_UNITS metric) = false ->
    validate_BudgetLimit (mk_BudgetLimit metric (_METRIC_UNITS metric) (Some n) None None)
    = Ok (mk_BudgetLimit metric (_METRIC_UNITS metric) (Some n) None None)).
  { intros metric n ? ?. rewrite integer_limit_typed by (done || lia).
    by assert (n <=? MAX_USAGE_VALUE = true) as -> by lia. }
  unfold MAX_USAGE_VALUE in Hint. rewrite !traverse_app.
  rewrite (traverse_fix _ [_; _; _]) by (repeat constructor; apply Hint; (done || lia)).
  rewrite (traverse_fix _ (if 0 <? _ then _ else _))
    by (destruct (Z.ltb_spec 0 (max_repair_attempts b)); repeat constructor; apply Hint; (done || lia)).
  assert (Hcost : forall d, max_estimated_cost_usd b = Some d -> 0 < dec_coef d /\ dec_digits d <= 12).
  { intros d Hd. rewrite Hd in *. lia. }
  rewrite (traverse_fix _ (match max_estimated_cost_usd b with Some _ => _ | None => _ end))
    by (destruct (max_estimated_cost_usd b) as [d|]; repeat constructor; apply cost_limit_typed; naive_solver).
  destruct (max_remote_tokens b) as [n|]; [|done]. cbn [traverse].
  pose proof (integer_limit_typed BudgetMetric.REMOTE_TOKENS n ltac:(lia) eq_refl) as Htok.
  change (_METRIC_UNITS BudgetMetric.REMOTE_TOKENS) with UsageUnit.TOKENS in Htok. rewrite Htok.
  by destruct (n <=? MAX_USAGE_VALUE).
Qed.

Lemma policy_limits_ordered b :
  _ordered (mk_BudgetPolicy TELEMETRY_SCHEMA_VERSION (py_sorted metric_le (policy_limits b)))
  = Ok (mk_BudgetPolicy TELEMETRY_SCHEMA_VERSION (py_sorted metric_le (policy_limits b))).
Proof.
  unfold policy_limits.
  destruct (0 <? max_repair_attempts b), (max_remote_tokens b), (max_estimated_cost_usd b);
    vm_compute; reflexivity.
Qed.

(** The budget policy of a run: for every valid run whose token ceiling is at
    most [MAX_USAGE_VALUE] the coordinator has one policy, with exactly the
    limits its budgets declare, each once, sorted by metric.  The domain also
    accepts larger token ceilings; for such a run the policy is refused and
    every budget decision raises that error without reading or writing. *)
Theorem budget_policy_spec {E} s (w : World E) (Hs : Run_wf (stored_run s)) :
  let b := run_budgets (stored_run s) in
  if representable b then
    exists p, _budget_policy s = Ok p /\ validate_BudgetPolicy p = Ok p /\ limits p ≡ₚ policy_limits b
      /\ NoDup (bl_metric <$> limits p)
  else _duration_budget_decision s w = (w, Err (ValueError "integer_limit")).
Proof.
  intros b. assert (Hb : validate_BudgetLimits b = Ok b) by apply (run_parts_typed _ Hs).
  pose proof (policy_limits_typed _ Hb) as Ht. unfold _duration_budget_decision, _budget_policy. fold b.
  rewrite Ht. destruct (representable b); [|reflexivity]. cbn [mbind result_bind].
  assert (Hperm : py_sorted metric_le (policy_limits b) ≡ₚ policy_limits b) by apply py_sorted_perm.
  exists (mk_BudgetPolicy TELEMETRY_SCHEMA_VERSION (py_sorted metric_le (policy_limits b))).
  assert (Hp : validate_BudgetPolicy (mk_BudgetPolicy TELEMETRY_SCHEMA_VERSION (py_sorted metric_le (policy_limits b)))
               = Ok (mk_BudgetPolicy TELEMETRY_SCHEMA_VERSION (py_sorted metric_le (policy_limits b)))).
  { unfold validate_BudgetPolicy. cbn [bp_schema_version limits].
    rewrite (traverse_fix _ (py_sorted _ _)); [apply policy_limits_ordered|].
    rewrite Hperm. by apply traverse_Ok_fix. }
  cbn [limits]. split; [done|]. split; [done|]. split; [done|].
  rewrite Hperm. unfold policy_limits.
  destruct (0 <? max_repair_attempts b), (max_remote_tokens b), (max_estimated_cost_usd b);
    apply (bool_decide_unpack _); vm_compute; exact I.
Qed.

(** ** What an approvable review says about interrupted work *)

(** An approvable decision found nothing to object to. *)
Lemma approvable_evidence g d :
  evaluate g = Ok d -> gd_status d = ReviewGateStatus.APPROVABLE ->
  exists replay findings dup,
    evidence_reasons g replay = []
    /\ review_reasons g (selected_review (reviewer_response g)) findings dup = [].
Proof.
  intros H Hst. unfold evaluate in H. apply bind_Ok in H as (replay & _ & H).
  apply bind_Ok in H as ([findings dup] & _ & H). exists replay, findings, dup. apply bind_Ok in H as ([[status approval] summary] & _ & H).
  unfold validate_ReviewGateDecision in H. do 11 (apply bind_Ok in H as (? & _ & H)).
  pose proof (validate_decision_id _ _ H) as ->. cbn [gd_status] in Hst. subst status.
  unfold _validate_decision in H. do 3 (apply bind_Ok in H as (? & _ & H)).
  apply bind_Ok in H as (? & H & _). cbn [gd_status gd_reasons gd_approval_gate] in H.
  rewrite bool_decide_eq_true_2 in H by done. apply raise_if_Ok, orb_false_iff in H as [H _].
  apply negb_false_iff, bool_decide_eq_true, dict_fromkeys_nil, app_nil in H. done.
Qed.

Lemma approvable_conditions g d :
  evaluate g = Ok d -> gd_status d = ReviewGateStatus.APPROVABLE ->
  approvable (gi_validation_result g) = true
  /\ resp_status (reviewer_response g) = AgentStatus.COMPLETED
  /\ le_side_effects_reconciled (gi_local_evidence g) = true.
Proof.
  intros Hd Happ. destruct (approvable_evidence _ _ Hd Happ) as (replay & findings & dup & H & Hr).
  unfold evidence_reasons in H. repeat (apply app_nil in H; destruct H as [? H]).
  repeat match goal with H : reason_if _ _ = [] |- _ => apply reason_if_nil in H end. bool_prop.
  split; [done|]. split; [done|]. unfold review_reasons in Hr.
  repeat (apply app_nil in Hr; destruct Hr as [_ Hr]). apply checks_nil in Hr. unfold local_checks in Hr.
  by do 6 apply Forall_cons in Hr as [_ Hr]; apply Forall_cons in Hr as [? _].
Qed.

(** No side effect of a mutating attempt is left open: each intent ended or was
    reconciled from live evidence, and each outcome that could not tell what
    happened was reconciled. *)
Definition effects_resolved (records : list OrchestrationRecord) : Prop :=
  (forall r, r ∈ records -> is_intent r = true -> mutating r = true ->
     exists r', r' ∈ records /\ rec_attempt_id r' = rec_attempt_id r /\ is_outcome r' || continuable r' = true)
  /\ (forall r, r ∈ records -> is_outcome r = true -> mutating r = true -> unresolved_effects r = true ->
     exists r', r' ∈ records /\ rec_attempt_id r' = rec_attempt_id r /\ continuable r' = true).

Lemma in_attempt_ids p id records :
  in_ids id (attempt_ids p records) = true ->
  exists r, r ∈ records /\ rec_attempt_id r = id /\ p r = true.
Proof.
  unfold in_ids, attempt_ids. rewrite bool_decide_eq_true, list_elem_of_fmap.
  intros (r & -> & [Hp Hr]%list_elem_of_filter). by exists r.
Qed.

Lemma unresolved_effects_spec records :
  _has_unresolved_mutating_side_effects records = false -> effects_resolved records.
Proof.
  unfold _has_unresolved_mutating_side_effects.
  destruct (_has_pending_mutating_intent records) eqn:Hp; [done|]. intros Hu.
  unfold _has_pending_mutating_intent in Hp. rewrite existsb_false, Forall_forall in Hp, Hu.
  split.
  - intros r Hr Hi Hm. specialize (Hp _ Hr). cbn beta in Hp. rewrite Hi, Hm in Hp.
    apply in_attempt_ids. by destruct (in_ids _ _).
  - intros r Hr Ho Hm Hx. specialize (Hu _ Hr). cbn beta in Hu. rewrite Ho, Hm, Hx in Hu.
    apply in_attempt_ids. by destruct (in_ids _ _).
Qed.

(** Validation leaves alone what the decision rests on. *)
Lemma plan_result_approvable r r' :
  validate_ValidationPlanResult r = Ok r' -> approvable r' = approvable r.
Proof.
  unfold validate_ValidationPlanResult. intros H. do 9 (apply bind_Ok in H as (? & _ & H)).
  by apply validate_aggregate_id in H as ->.
Qed.

Lemma response_status r r' : validate_AgentResponse r = Ok r' -> resp_status r' = resp_status r.
Proof.
  unfold validate_AgentResponse. intros H. do 20 (apply bind_Ok in H as (? & _ & H)).
  by apply validate_response_id in H as ->.
Qed.

Lemma local_reconciled l l' :
  validate_LocalApprovalEvidence l = Ok l' -> le_side_effects_reconciled l' = le_side_effects_reconciled l.
Proof.
  unfold validate_LocalApprovalEvidence. intros H. do 7 (apply bind_Ok in H as (? & _ & H)).
  by injection H as <-.
Qed.

Lemma decision_status d d' : validate_ReviewGateDecision d = Ok d' -> gd_status d' = gd_status d.
Proof.
  unfold validate_ReviewGateDecision. intros H. do 11 (apply bind_Ok in H as (? & _ & H)).
  by apply validate_decision_id in H as ->.
Qed.

Lemma gate_input_keeps g g' :
  validate_ReviewGateInput g = Ok g' ->
  approvable (gi_validation_result g') = approvable (gi_validation_result g)
  /\ resp_status (reviewer_response g') = resp_status (reviewer_response g)
  /\ le_side_effects_reconciled (gi_local_evidence g') = le_side_effects_reconciled (gi_local_evidence g).
Proof.
  unfold validate_ReviewGateInput. intros H. do 5 (apply bind_Ok in H as (? & _ & H)).
  apply bind_Ok in H as (r & Hr & H). apply bind_Ok in H as (p & Hp & H). apply bind_Ok in H as (l & Hl & H).
  apply bind_Ok in H as (? & _ & H). injection H as <-.
  cbn [gi_validation_result reviewer_response gi_local_evidence].
  by rewrite (plan_result_approvable _ _ Hr), (response_status _ _ Hp), (local_reconciled _ _ Hl).
Qed.

(** What a collector claims does not survive unresolved effects. *)
Lemma reconciled_evidence_true records collected l :
  reconciled_evidence records collected = Ok l -> le_side_effects_reconciled l = true ->
  effects_resolved records.
Proof.
  unfold reconciled_evidence. destruct (_has_unresolved_mutating_side_effects records) eqn:Hu.
  - intros Hl Hr. by rewrite (local_reconciled _ _ Hl) in Hr.
  - intros _ _. by apply unresolved_effects_spec.
Qed.

Lemma review_decision a a' d :
  validate_ReviewAttempt a = Ok a' -> rv_gate_decision a' = Some d ->
  exists d0, rv_gate_decision a = Some d0 /\ gd_status d0 = gd_status d.
Proof.
  unfold validate_ReviewAttempt. intros H Hd. do 6 (apply bind_Ok in H as (? & _ & H)).
  apply bind_Ok in H as (decision & Hv & H). apply bind_Ok in H as (? & _ & H).
  pose proof (validate_review_id _ _ H) as ->. cbn [rv_gate_decision] in Hd. subst decision.
  destruct (rv_gate_decision a) as [d0|]; cbn in Hv; [|done]. exists d0. split; [done|].
  apply bind_Ok in Hv as (d1 & Hv & H1). injection H1 as <-. symmetry. by apply decision_status.
Qed.

Lemma env_keeps {E A} (m : M E A) w w' r :
  in_env m w = (w', r) -> w_store w' = w_store w /\ w_invoked w' = w_invoked w.
Proof. unfold in_env. destruct (m (w_env w)). by intros [= <- _]. Qed.

Lemma list_records_keeps {E} id (w w' : World E) records :
  list_records id w = (w', Ok records) ->
  w' = w /\ list_orchestration_records id (w_store w) = (w_store w, Ok records).
Proof.
  unfold list_records, in_store. destruct (list_orchestration_records id (w_store w)) as [st r] eqn:Hl.
  pose proof (reads_run _ _ _ _ (list_records_reads _) Hl) as ->. intros [= <- ->]. by destruct w.
Qed.

(** C5: An approvable review never hides interrupted work.  When the reviewer's
    evidence is gated as approvable, the store is as before the review, exactly
    one request was handed to an agent, the reviewed validation is approvable,
    the reviewer completed, and in the durable records of the run, whatever the
    evidence collector claimed, every intent of a mutating attempt has an outcome
    or a safe reconciliation, and every outcome with ambiguous or incompatible
    side effects has a safe reconciliation. *)
Theorem approval_needs_reconciled_work {E Token} `{!Collaborators E Token} s q plan result intent
    (c : option Token) (w w' : World E) a response d
    (H : perform_review s q plan result intent c w = (w', Ok (a, response)))
    (Hd : rv_gate_decision a = Some d) (Happ : gd_status d = ReviewGateStatus.APPROVABLE) :
  w_store w' = w_store w /\ w_invoked w' = w_invoked w ++ [q]
  /\ approvable result = true /\ resp_status response = AgentStatus.COMPLETED
  /\ exists records, list_orchestration_records (run_id (stored_run s)) (w_store w) = (w_store w, Ok records)
       /\ effects_resolved records.
Proof.
  unfold perform_review in H. inv_run.
  destruct (review_decision _ _ _ Hv8 Hd) as (d0 & [= ->] & Hst). rewrite <- Hst in Happ.
  destruct (approvable_conditions _ _ Hv6 Happ) as (Ha & Hc & Hr).
  destruct (gate_input_keeps _ _ Hv5) as (Ea & Ec & Er). rewrite Ea in Ha. rewrite Ec in Hc. rewrite Er in Hr.
  cbn [gi_validation_result reviewer_response gi_local_evidence] in Ha, Hc, Hr.
  unfold invoke_adapter in Hv. apply env_keeps in Hv as [S0 I0]. cbn [w_store w_invoked] in S0, I0.
  apply env_keeps in Hv1 as [S1 I1]. apply env_keeps in Hv2 as [S2 I2].
  apply list_records_keeps in Hv3 as [-> Hl]. rewrite S2, S1, S0 in Hl.
  split; [congruence|]. split; [congruence|]. split; [done|]. split; [done|].
  exists v3. split; [done|]. by eapply reconciled_evidence_true.
Qed.

(** ** Witnesses *)

Module PlanningSample.
Import ReconciliationSample ServiceSample.

(** After four turns of the loop: both contexts and the worktree are durable. *)
Definition prepared : World Z :=
  fst ((coordinate request (None : option unit) ;; coordinate request None ;;
        coordinate request None ;; coordinate request None) start).
Definition stored : StoredRun :=
  match snd (get_run rid (w_store prepared)) with Ok s => s | Err _ => mk_StoredRun run 0 end.
Definition reviewer_prototype : AgentRequest := prototype AgentRole.REVIEWER.
Definition result : ValidationPlanResult := passing plan (utc 0).
Definition attempt_id : string := "oattempt_" +:+ hex32.
Definition intent : ReviewAttempt :=
  mk_ReviewAttempt (intended stored attempt_id 1 (utc 0))
    (mk_AgentFields AgentRole.REVIEWER (ar_attempt_id reviewer_prototype)
       (ar_invocation_id reviewer_prototype) "fake-agent" reviewer_prototype None)
    plan result None None.
Definition review : World Z * res (ReviewAttempt * AgentResponse) :=
  perform_review (Token := unit) stored reviewer_prototype plan result intent None prepared.

(** A run whose token ceiling has no place in a telemetry policy. *)
Definition ceiling (n : Z) : Run :=
  let b := run_budgets run in
  mk_Run (run_schema_version run) (run_id run) (run_task run) (run_work_package run)
    (mk_BudgetLimits (budget_schema_version b) (max_duration_seconds b) (max_build_attempts b)
       (max_review_attempts b) (max_repair_attempts b) (Some n) (max_estimated_cost_usd b))
    (run_state run) (run_attempts run) (run_created_at run) (run_updated_at run) (run_approval_gate run).
End PlanningSample.

Lemma cap_fits_allowance_witness : exists q,
  _cap_validation_plan ServiceSample.plan 2500 = Ok (Some q) /\ total_timeout q = 2.
Proof.
  assert (Hp : Plan_wf ServiceSample.plan) by (vm_compute; reflexivity).
  destruct (cap_fits_allowance ServiceSample.plan 2500 Hp) as [[Hlt _]|(q & Hq & _ & _ & _ & Ht & _)].
  - exfalso. revert Hlt. vm_compute. discriminate.
  - exists q. split; [exact Hq|]. rewrite Ht. vm_compute. reflexivity.
Defined.

Lemma intents_typed_witness :
  exists record_id, ids_record_id PlanningSample.attempt_id OrchestrationRecordStage.INTENT = Ok record_id.
Proof.
  destruct (intents_typed PlanningSample.stored ServiceSample.request PlanningSample.attempt_id 1
    (utc 0) 7 (utc 0)
    (Workspace (mk_WorkspaceAttempt (intended PlanningSample.stored PlanningSample.attempt_id 1 (utc 0))
       (worktree ServiceSample.request) None))) as (record_id & H & _).
  - vm_compute. reflexivity.
  - vm_compute. discriminate.
  - apply request_valid.
  - vm_compute. reflexivity.
  - vm_compute. reflexivity.
  - vm_compute. reflexivity.
  - lia.
  - reflexivity.
  - unfold MAX_ORCHESTRATION_RECORDS. lia.
  - reflexivity.
  - constructor.
  - exists record_id. exact H.
Defined.

Lemma budget_policy_spec_witness :
  (exists p, _budget_policy (mk_StoredRun ServiceSample.run 0) = Ok p) /\
  _duration_budget_decision (mk_StoredRun (PlanningSample.ceiling 2000000000000) 0) ServiceSample.start
    = (ServiceSample.start, Err (ValueError "integer_limit")).
Proof.
  split.
  - destruct (budget_policy_spec (mk_StoredRun ServiceSample.run 0) ServiceSample.start) as (p & Hp & _).
    + vm_compute. reflexivity.
    + exists p. exact Hp.
  - apply (budget_policy_spec (mk_StoredRun (PlanningSample.ceiling 2000000000000) 0) ServiceSample.start).
    vm_compute. reflexivity.
Defined.

Lemma approval_needs_reconciled_work_witness : exists records,
  list_orchestration_records ServiceSample.rid (w_store PlanningSample.prepared)
    = (w_store PlanningSample.prepared, Ok records)
  /\ length records = 6%nat /\ effects_resolved records.
Proof.
  assert (H : match PlanningSample.review with
              | (_, Ok (a, _)) => gd_status <$> rv_gate_decision a = Some ReviewGateStatus.APPROVABLE
              | _ => False end) by (vm_compute; reflexivity).
  assert (Hn : match list_orchestration_records ServiceSample.rid (w_store PlanningSample.prepared) with
               | (_, Ok records) => length records = 6%nat | _ => False end) by (vm_compute; reflexivity).
  assert (Hid : run_id (stored_run PlanningSample.stored) = ServiceSample.rid) by (vm_compute; reflexivity).
  destruct PlanningSample.review as [w' [[a response]|e]] eqn:Hrun; [|destruct H].
  destruct (rv_gate_decision a) as [d|] eqn:Hd; [|discriminate H]. injection H as Happ.
  destruct (approval_needs_reconciled_work PlanningSample.stored PlanningSample.reviewer_prototype
    ServiceSample.plan PlanningSample.result PlanningSample.intent None PlanningSample.prepared w' a response
    d Hrun Hd Happ) as (_ & _ & _ & _ & records & Hl & Hr).
  rewrite Hid in Hl. rewrite Hl in Hn. exists records. split; [exact Hl|]. split; [exact Hn|exact Hr].
Defined.
