(* ===== verification/ContextReader.v ===== *)
(** * Reading files for context ([src/src/revanent/context/reader.py])

    The one boundary through which context construction looks at a repository: a
    bounded read of one regular file with evidence that it did not change, and a
    bounded search for named files.  The port is a typeclass; the local reader is
    its implementation over a host. *)

From Stdlib Require Import ZArith Lia Ascii String.
From S2P Require Import Prelude Text Domain Unicode Regex Effects Agents CommandPolicy.
From stdpp Require Import base option strings numbers gmap sets list list_relations.

Open Scope Z_scope.

Module ContextReadStatus.
Inductive t : Type := COMPLETE | MISSING | ESCAPE | SPECIAL | CHANGED | ERROR.
#[export] Instance eq_dec : EqDecision t.
Proof. solve_decision. Defined.
End ContextReadStatus.
#[export] Existing Instance ContextReadStatus.eq_dec.

Record ContextReadResult := mk_ContextReadResult {
  read_status : ContextReadStatus.t;
  read_content : string;
  read_observed_bytes : option Z
}.

(** [ContextFileReaderPort] *)
Class ContextFileReaderPort (E : Type) := {
  read : Path -> string -> Z -> M E ContextReadResult;
  find_named_files : Path -> list string -> list string -> Z -> M E (list string)
}.

(** ** Case folding *)

(** [str.casefold] of the characters beyond ASCII, from the standard library's tables. *)
Class CaseFolding := { unicode_casefold : Z -> list Z }.

Definition fold_point `{!CaseFolding} (n : Z) : list Z :=
  if n <? 128 then [if ascii_upper_case n then n + 32 else n] else unicode_casefold n.

Definition str_casefold `{!CaseFolding} (s : string) : string :=
  text_of (mjoin (fold_point <$> code_points s)).

(** ** The local reader *)

(** [_metadata_identity]: device, inode, size and modification time. *)
Record FileStat := mk_FileStat {
  st_regular : bool;
  st_dev : Z;
  st_ino : Z;
  st_size : Z;
  st_mtime_ns : Z
}.

Definition _metadata_identity (s : FileStat) : Z * Z * Z * Z := (st_dev s, st_ino s, st_size s, st_mtime_ns s).

Definition same_metadata (a b : FileStat) : bool := bool_decide (_metadata_identity a = _metadata_identity b).

Class ReaderHost (E : Type) := {
  rh_files : FileSystem E;
  fs_stat : Path -> M E FileStat;                 (* [path.stat(follow_symlinks=False)] *)
  open_binary : Path -> M E Z;
  fstat : Z -> M E FileStat;
  read_stream : Z -> Z -> M E string;             (* [stream.read(n)] *)
  close_file : Z -> M E unit;
  iterdir : Path -> M E (list string)             (* the names in a directory *)
}.

#[export] Existing Instance rh_files.

(** [FileNotFoundError] is the only subclass of [OSError] told apart. *)
Definition is_not_found : exn -> bool := is_class "FileNotFoundError".
Definition is_any_os_error (e : exn) : bool := is_os_error e || is_not_found e.

Definition _EXCLUDED_DIRECTORY_NAMES : list string :=
  [".git"; ".revanent"; ".venv"; "venv"; "node_modules"; "build"; "dist"; ".pytest_cache"; "__pycache__"].

Definition failed_read (status : ContextReadStatus.t) (observed : option Z) : ContextReadResult :=
  mk_ContextReadResult status "" observed.

Section LocalContextFileReader.
Context {E : Type} `{!ReaderHost E} `{!CaseFolding}.

(** The block of [read] that may raise [OSError]. *)
Definition read_block (root : Path) (path : string) (max_bytes : Z) : M E ContextReadResult :=
  approved_root ← fs_resolve true root ;
  let target := joinpath approved_root (split_slash path) in
  before_resolved ← fs_resolve true target ;
  if negb (_contains approved_root before_resolved) then mret (failed_read ContextReadStatus.ESCAPE None) else
  before ← fs_stat before_resolved ;
  if negb (st_regular before) then mret (failed_read ContextReadStatus.SPECIAL (Some (st_size before))) else
  stream ← open_binary before_resolved ;
  opened ← try_finally
             (opened_before ← fstat stream ;
              content ← read_stream stream (max_bytes + 1) ;
              opened_after ← fstat stream ;
              mret (opened_before, content, opened_after))
             (close_file stream) ;
  let '(opened_before, content, opened_after) := opened in
  after_resolved ← fs_resolve true target ;
  after ← fs_stat after_resolved ;
  mret (if negb (bool_decide (after_resolved = before_resolved)) || negb (same_metadata before after)
           || negb (same_metadata opened_before opened_after) || negb (same_metadata opened_before before)
        then failed_read ContextReadStatus.CHANGED (Some (Z.max (st_size before) (st_size after)))
        else mk_ContextReadResult ContextReadStatus.COMPLETE content (Some (st_size before))).

Definition local_read (root : Path) (path : string) (max_bytes : Z) : M E ContextReadResult :=
  try_except (read_block root path max_bytes) is_any_os_error
    (fun e => mret (failed_read (if is_not_found e then ContextReadStatus.MISSING else ContextReadStatus.ERROR) None)).

(** The state of the search: entries visited, directories pending (the next one
    last), matches found. *)
Record search_state := mk_search { s_visited : Z; s_pending : list Path; s_matches : list string }.

(** One entry of a directory. *)
Definition inspect_entry (approved_root : Path) (wanted : list string) (entry : Path) (s : search_state)
    : M E search_state :=
  try_except
    (entry_resolved ← fs_resolve true entry ;
     link ← (if negb (_contains approved_root entry_resolved) then mret true else fs_is_symlink entry) ;
     if (link : bool) then mret s else
     directory ← fs_is_dir entry ;
     if (directory : bool) then
       mret (if bool_decide (str_casefold (path_name entry) ∈ _EXCLUDED_DIRECTORY_NAMES) then s
             else mk_search (s_visited s) (s_pending s ++ [entry]) (s_matches s))
     else
       file ← fs_is_file entry ;
       if file && bool_decide (path_name entry ∈ wanted) then
         match relative_to entry_resolved approved_root with
         | Some relative =>
             found ← lift (RepositoryPath (path_str relative)) ;
             mret (mk_search (s_visited s) (s_pending s) (s_matches s ++ [found]))
         | None => raise (ValueError "path is not in the subpath")
         end
       else mret s)
    is_any_os_error (fun _ => mret s).

Fixpoint inspect_entries (approved_root : Path) (wanted : list string) (max_entries : Z)
    (entries : list Path) (s : search_state) : M E search_state :=
  match entries with
  | [] => mret s
  | entry :: entries =>
      let s := mk_search (s_visited s + 1) (s_pending s) (s_matches s) in
      if max_entries <? s_visited s then mret s
      else s ← inspect_entry approved_root wanted entry s ; inspect_entries approved_root wanted max_entries entries s
  end.

Definition casefold_le (a b : string) : bool := str_le (str_casefold a) (str_casefold b).

(** The names of a directory in order, or nothing when it is left aside. *)
Definition list_directory (approved_root directory : Path) : M E (option (list Path)) :=
  try_except
    (resolved ← fs_resolve true directory ;
     if negb (_contains approved_root resolved) then mret None else
     names ← iterdir resolved ;
     mret (Some ((fun name => joinpath resolved [name]) <$> py_sorted casefold_le names)))
    is_any_os_error (fun _ => mret None).

Fixpoint search_loop (fuel : nat) (approved_root : Path) (wanted : list string) (max_entries : Z)
    (s : search_state) : M E (option search_state) :=
  match fuel with
  | O => mret None
  | S fuel =>
      match last (s_pending s) with
      | Some directory =>
          if s_visited s <? max_entries then
            let rest := mk_search (s_visited s) (take (length (s_pending s) - 1) (s_pending s)) (s_matches s) in
            entries ← list_directory approved_root directory ;
            match entries with
            | None => search_loop fuel approved_root wanted max_entries rest
            | Some entries =>
                s ← inspect_entries approved_root wanted max_entries entries rest ;
                search_loop fuel approved_root wanted max_entries s
            end
          else mret (Some s)
      | None => mret (Some s)
      end
  end.

Definition path_le (a b : Path) : bool := str_le (path_str a) (path_str b).

(** [sorted(..., reverse=True)] keeps the order of equal paths. *)
Definition path_ge (a b : Path) : bool := path_le b a.

(** Turns of the search: every directory is a search root or an entry visited. *)
Definition search_turns (search_roots : list string) (max_entries : Z) : nat :=
  (length search_roots + Z.to_nat max_entries + 1)%nat.

Definition local_find_named_files (root : Path) (search_roots names : list string) (max_entries : Z)
    : M E (list string) :=
  approved_root ← fs_resolve true root ;
  let start := py_sorted path_ge ((fun item => joinpath approved_root (split_slash item)) <$> search_roots) in
  found ← search_loop (search_turns search_roots max_entries) approved_root names max_entries (mk_search 0 start []) ;
  match found with
  | Some s => mret (sorted_set (s_matches s))
  | None => raise (OtherError "the search ran out of turns")
  end.

Definition LocalContextFileReader : ContextFileReaderPort E := {|
  read := local_read;
  find_named_files := local_find_named_files
|}.

(** ** The search ends *)

(** Directories pending and entries left to visit. *)
Definition search_left (max_entries : Z) (s : search_state) : Z :=
  Z.of_nat (length (s_pending s)) + Z.max 0 (max_entries - s_visited s).

Lemma inspect_entry_left root wanted entry s (w : E) s' :
  snd (inspect_entry root wanted entry s w) = Ok s' ->
  s_visited s' = s_visited s /\ (length (s_pending s') <= length (s_pending s) + 1)%nat.
Proof.
  intros Hrun.
  assert (Hdoes : does (fun _ _ => True) (inspect_entry root wanted entry s) (fun s' =>
    s_visited s' = s_visited s /\ (length (s_pending s') <= length (s_pending s) + 1)%nat)); [|by apply (Hdoes w)].
  clear Hrun. assert (Hsame : forall m : M E search_state, m = mret s -> does (fun _ _ => True) m (fun s' =>
    s_visited s' = s_visited s /\ (length (s_pending s') <= length (s_pending s) + 1)%nat)).
  { intros m ->. apply does_ret; [by split|]. split; [done|lia]. }
  unfold inspect_entry. apply does_try; [by split| |intros _; by apply Hsame].
  eapply does_bind; [by split|by apply does_only|intros resolved _].
  eapply does_bind; [by split|by apply does_only|intros link _]. destruct link; [by apply Hsame|].
  eapply does_bind; [by split|by apply does_only|intros directory _]. destruct directory.
  - apply does_ret; [by split|]. destruct (bool_decide _); cbn; [split; [done|lia]|]. rewrite length_app. cbn. lia.
  - eapply does_bind; [by split|by apply does_only|intros file _]. destruct (file && _); [|by apply Hsame].
    destruct (relative_to _ _); [|by apply does_raise; split].
    eapply does_bind; [by split|by apply does_only|intros found _]. apply does_ret; [by split|]. cbn. split; [done|lia].
Qed.

Lemma inspect_entries_left root wanted max_entries entries s (w : E) s' :
  snd (inspect_entries root wanted max_entries entries s w) = Ok s' ->
  search_left max_entries s' <= search_left max_entries s.
Proof.
  revert s w. induction entries as [|entry entries IH]; intros s w; cbn [inspect_entries].
  - by intros [= <-].
  - cbn [s_visited]. destruct (Z.ltb_spec max_entries (s_visited s + 1)).
    + intros [= <-]. unfold search_left. cbn. lia.
    + unfold mbind, M_bind. destruct (inspect_entry _ _ _ _ w) as [w1 [s1|e]] eqn:He; [|done].
      pose proof (inspect_entry_left root wanted entry (mk_search (s_visited s + 1) (s_pending s) (s_matches s)) w s1) as Hl.
      rewrite He in Hl. destruct (Hl eq_refl) as [Hv Hp]. cbn in Hv, Hp. intros H1%IH.
      unfold search_left in *. lia.
Qed.

(** The search for named files ends within its turns: it visits at most
    [max_entries] entries and never runs out of turns. *)
Lemma search_terminates root wanted max_entries fuel s (w : E) :
  search_left max_entries s < Z.of_nat fuel ->
  snd (search_loop fuel root wanted max_entries s w) <> Ok None.
Proof.
  revert s w. induction fuel as [|fuel IH]; intros s w Hf.
  { unfold search_left in Hf. lia. }
  cbn [search_loop]. destruct (last (s_pending s)) as [directory|] eqn:Hlast; [|done].
  destruct (Z.ltb_spec (s_visited s) max_entries); [|done].
  set (rest := mk_search _ _ _). assert (Hrest : search_left max_entries rest + 1 <= search_left max_entries s).
  { unfold search_left, rest. cbn. rewrite length_take.
    destruct (s_pending s); [done|]. cbn [length]. lia. }
  unfold mbind at 1, M_bind at 1. destruct (list_directory root directory w) as [w1 [[entries|]|e]]; [| |done].
  - unfold mbind, M_bind. destruct (inspect_entries _ _ _ _ _ w1) as [w2 [s2|e]] eqn:He; [|done].
    apply IH. pose proof (inspect_entries_left root wanted max_entries entries rest w1 s2) as Hl.
    rewrite He in Hl. specialize (Hl eq_refl). lia.
  - apply IH. lia.
Qed.

Lemma search_turns_enough search_roots start max_entries :
  length start = length search_roots -> 0 <= max_entries ->
  search_left max_entries (mk_search 0 start []) < Z.of_nat (search_turns search_roots max_entries).
Proof. intros Hl Hm. unfold search_left, search_turns. cbn. lia. Qed.
End LocalContextFileReader.
