(* ===== verification/ContextDiscovery.v ===== *)
(** * Discovering context ([src/src/revanent/context/discovery.py])

    The typed evidence of a request becomes file candidates and inline evidence; the
    Python files among them are expanded to their dependencies and tests through the
    reader.  The import statements of a Python text are [ast]'s ([python_imports]). *)

From Stdlib Require Import ZArith Lia Ascii String.
From S2P Require Import Prelude Text Domain Unicode Regex Effects Agents CommandPolicy Validation ContextPort ContextReader.
From stdpp Require Import base option strings numbers gmap sets list list_relations.

Open Scope Z_scope.

(** ** Keys *)

Definition then_compare (a b : comparison) : comparison := match a with Eq => b | _ => a end.
Definition str_compare (a b : string) : comparison := String.compare a b.
(** [key(a) <= key(b)] for a stable sort. *)
Definition at_most (c : comparison) : bool := match c with Gt => false | _ => true end.

Definition _importance_rank (v : ContextImportance.t) : Z :=
  match v with
  | ContextImportance.REQUIRED => 0
  | ContextImportance.PREFERRED => 1
  | ContextImportance.OPTIONAL => 2
  end.

Definition validation_status_value (s : ValidationStatus.t) : string :=
  match s with
  | ValidationStatus.PASSED => "PASSED"
  | ValidationStatus.PASSED_WITH_ADVISORIES => "PASSED_WITH_ADVISORIES"
  | ValidationStatus.FAILED => "FAILED"
  | ValidationStatus.TIMED_OUT => "TIMED_OUT"
  | ValidationStatus.CANCELLED => "CANCELLED"
  | ValidationStatus.BLOCKED => "BLOCKED"
  | ValidationStatus.UNAVAILABLE => "UNAVAILABLE"
  | ValidationStatus.INVALID => "INVALID"
  | ValidationStatus.NOT_RUN => "NOT_RUN"
  end.

Definition _role_priority (base : Z) (role : AgentRole.t) (source : ContextSource.t) : Z :=
  match role, source with
  | AgentRole.REVIEWER, (ContextSource.CHANGED_PATH | ContextSource.DIFF | ContextSource.VALIDATION)
  | AgentRole.REPAIRER, (ContextSource.REVIEW | ContextSource.VALIDATION | ContextSource.REPAIR_DECISION) =>
      Z.max 0 (base - 10)
  | _, _ => base
  end.

(** ** Candidates *)

Definition every_role : list AgentRole.t := [AgentRole.BUILDER; AgentRole.REPAIRER; AgentRole.REVIEWER].

Definition _file_candidate (path : string) (source : ContextSource.t) (importance : ContextImportance.t)
    (reason : InclusionReason.t) (priority : Z) (authority : ContextAuthority.t) (trust : ContextTrust.t)
    (correlations : list string) (parent : option string) (requires_complete : bool) : res ContextCandidate :=
  validate_ContextCandidate
    (mk_ContextCandidate CONTEXT_SCHEMA_VERSION path source importance authority trust [reason] priority
       every_role (sorted_set correlations) parent requires_complete).

(** A candidate with the default authority and trust. *)
Definition repository_candidate (path : string) (source : ContextSource.t) (importance : ContextImportance.t)
    (reason : InclusionReason.t) (priority : Z) (correlations : list string) (requires_complete : bool)
    : res ContextCandidate :=
  _file_candidate path source importance reason priority ContextAuthority.REPOSITORY_CONTENT
    ContextTrust.UNTRUSTED_REPOSITORY correlations None requires_complete.

Definition is_required (i : ContextImportance.t) : bool := bool_decide (i = ContextImportance.REQUIRED).

Definition path_specs (evidence : ContextDiscoveryInput)
    : list (list string * ContextSource.t * ContextImportance.t * InclusionReason.t * Z) :=
  [(explicit_paths evidence, ContextSource.TASK_PATH, ContextImportance.REQUIRED,
      InclusionReason.EXPLICIT_TASK_PATH, 50);
   (changed_paths evidence, ContextSource.CHANGED_PATH, ContextImportance.PREFERRED,
      InclusionReason.CHANGED_PATH, 60);
   (diff_paths evidence, ContextSource.DIFF, ContextImportance.PREFERRED, InclusionReason.DIFF_PATH, 70)].

(** The nested loops of the sources, each appending to the values. *)
Definition concat_traverse {A B} (f : A -> res (list B)) (xs : list A) : res (list B) :=
  match traverse f xs with Ok lists => Ok (concat lists) | Err e => Err e end.

Definition _path_candidates (evidence : ContextDiscoveryInput) (role : AgentRole.t) : res (list ContextCandidate) :=
  from_paths ← concat_traverse (fun '(paths, source, importance, reason, priority) =>
      traverse (fun path => repository_candidate path source importance reason (_role_priority priority role source)
                              [] (is_required importance)) paths)
    (path_specs evidence) ;
  from_validation ← concat_traverse (fun validation =>
      traverse (fun path => repository_candidate path ContextSource.VALIDATION ContextImportance.REQUIRED
                              InclusionReason.VALIDATION_FAILURE (_role_priority 30 role ContextSource.VALIDATION)
                              [ve_attempt_id validation] true) (ve_affected_paths validation))
    (cd_validation evidence) ;
  from_review ← concat_traverse (fun finding =>
      match re_path finding with
      | Some path =>
          if negb (re_unresolved finding) then mret [] else
          let required := FindingSeverity.is_severe (re_severity finding) in
          candidate ← repository_candidate path ContextSource.REVIEW
                        (if required then ContextImportance.REQUIRED else ContextImportance.PREFERRED)
                        InclusionReason.REVIEW_FINDING
                        (_role_priority (if required then 35 else 75) role ContextSource.REVIEW)
                        (re_finding_id finding :: re_correlation_ids finding) required ;
          mret [candidate]
      | None => mret []
      end) (cd_review evidence) ;
  from_attempts ← concat_traverse (fun attempt =>
      match pa_path attempt with
      | Some path =>
          if negb (pa_unresolved attempt) then mret [] else
          candidate ← repository_candidate path ContextSource.PRIOR_ATTEMPT ContextImportance.PREFERRED
                        InclusionReason.PRIOR_ATTEMPT (_role_priority 110 role ContextSource.PRIOR_ATTEMPT)
                        (pa_attempt_id attempt :: pa_correlation_ids attempt) false ;
          mret [candidate]
      | None => mret []
      end) (prior_attempts evidence) ;
  mret (from_paths ++ from_validation ++ from_review ++ from_attempts).

Definition governing_paths (g : GoverningContext) : list (string * ContextImportance.t * Z) :=
  [(active_work_package g, ContextImportance.REQUIRED, 10)]
  ++ (if include_agents g then [("AGENTS.md", ContextImportance.REQUIRED, 5)] else [])
  ++ (if include_architecture g then [("docs/ARCHITECTURE.md", ContextImportance.PREFERRED, 90)] else [])
  ++ (if include_requirements g then [("docs/REQUIREMENTS.md", ContextImportance.PREFERRED, 91)] else [])
  ++ (if include_security g then [("docs/SECURITY_AND_THREAT_MODEL.md", ContextImportance.PREFERRED, 92)] else [])
  ++ (if include_workflow g then [("docs/WORKFLOW_STATE_MACHINE.md", ContextImportance.PREFERRED, 93)] else [])
  ++ ((fun path => (path, ContextImportance.PREFERRED, 94)) <$> adrs g).

Definition _governing_candidates (governing : option GoverningContext) (role : AgentRole.t)
    : res (list ContextCandidate) :=
  match governing with
  | None => mret []
  | Some g =>
      traverse (fun '(path, importance, priority) =>
          _file_candidate path ContextSource.GOVERNING importance InclusionReason.GOVERNING_INSTRUCTION
            (_role_priority priority role ContextSource.GOVERNING) ContextAuthority.REPOSITORY_GOVERNANCE
            ContextTrust.REPOSITORY_GOVERNANCE [] None (is_required importance))
        (governing_paths g)
  end.

(** ** Inline evidence *)

Definition newline_text : string := String (ascii_of_N 10) "".

Definition command_settled (s : ValidationStatus.t) : bool :=
  match s with
  | ValidationStatus.PASSED | ValidationStatus.PASSED_WITH_ADVISORIES | ValidationStatus.NOT_RUN => true
  | _ => false
  end.

Definition diagnostic (command : ValidationCommandResult) : string :=
  str_join newline_text
    (filter (fun part => part <> "")
       ["command=" +:+ vr_command_id command;
        "status=" +:+ validation_status_value (vr_status command);
        "correlation=" +:+ vr_correlation_id command;
        match vr_failure command with Some failure => "failure=" +:+ vf_code failure | None => "" end;
        vco_text (vr_stderr command);
        vco_text (vr_stdout command)]).

Definition evidence (id : string) (source : ContextSource.t) (importance : ContextImportance.t)
    (authority : ContextAuthority.t) (trust : ContextTrust.t) (reason : InclusionReason.t) (priority : Z)
    (content : string) (path : option string) (role : AgentRole.t) (correlations : list string)
    (requires_complete : bool) : res InlineContextEvidence :=
  validate_InlineContextEvidence
    (mk_InlineContextEvidence CONTEXT_SCHEMA_VERSION id source importance authority trust [reason] priority
       content path [role] (sorted_set correlations) requires_complete).

Definition required_or_preferred (required : bool) : ContextImportance.t :=
  if required then ContextImportance.REQUIRED else ContextImportance.PREFERRED.

Definition validation_command_evidence (wrapped : ValidationContextEvidence) (role : AgentRole.t)
    (command : ValidationCommandResult) : res (list InlineContextEvidence) :=
  if command_settled (vr_status command) then mret [] else
  let required := bool_decide (vr_classification command = ValidationCommandClass.REQUIRED) in
  item ← evidence ("validation." +:+ ve_attempt_id wrapped +:+ "." +:+ vr_command_id command)
           ContextSource.VALIDATION (required_or_preferred required)
           ContextAuthority.LOCAL_DETERMINISTIC_EVIDENCE ContextTrust.UNTRUSTED_DIAGNOSTIC
           InclusionReason.VALIDATION_FAILURE (_role_priority 25 role ContextSource.VALIDATION)
           (diagnostic command) None role [ve_attempt_id wrapped; vr_correlation_id command] required ;
  mret [item].

Definition _validation_evidence (input : ContextDiscoveryInput) (role : AgentRole.t) : res (list InlineContextEvidence) :=
  concat_traverse (fun wrapped =>
      concat_traverse (validation_command_evidence wrapped role) (pr_commands (ve_result wrapped)))
    (cd_validation input).

Definition review_content (finding : ReviewContextEvidence) : string :=
  "finding=" +:+ re_finding_id finding +:+ newline_text
  +:+ "severity=" +:+ FindingSeverity.value (re_severity finding) +:+ newline_text
  +:+ "summary=" +:+ re_summary finding +:+ newline_text
  +:+ "required_change=" +:+ re_required_change finding.

Definition _review_evidence (input : ContextDiscoveryInput) (role : AgentRole.t) : res (list InlineContextEvidence) :=
  concat_traverse (fun finding =>
      if negb (re_unresolved finding) then mret [] else
      let required := FindingSeverity.is_severe (re_severity finding) in
      item ← evidence ("review." +:+ re_finding_id finding) ContextSource.REVIEW (required_or_preferred required)
               ContextAuthority.PROVIDER_CLAIM ContextTrust.UNTRUSTED_PROVIDER InclusionReason.REVIEW_FINDING
               (_role_priority (if required then 30 else 80) role ContextSource.REVIEW)
               (review_content finding) (re_path finding) role
               (re_finding_id finding :: re_correlation_ids finding) required ;
      mret [item]) (cd_review input).

Definition _attempt_evidence (input : ContextDiscoveryInput) (role : AgentRole.t) : res (list InlineContextEvidence) :=
  from_attempts ← concat_traverse (fun attempt =>
      if negb (pa_unresolved attempt) then mret [] else
      item ← evidence ("attempt." +:+ pa_attempt_id attempt) ContextSource.PRIOR_ATTEMPT ContextImportance.PREFERRED
               ContextAuthority.LOCAL_DETERMINISTIC_EVIDENCE ContextTrust.TRUSTED_LOCAL_EVIDENCE
               InclusionReason.PRIOR_ATTEMPT (_role_priority 110 role ContextSource.PRIOR_ATTEMPT)
               (pa_summary attempt) (pa_path attempt) role (pa_attempt_id attempt :: pa_correlation_ids attempt) false ;
      mret [item]) (prior_attempts input) ;
  from_decisions ← concat_traverse (fun decision =>
      if negb (rd_unresolved decision) then mret [] else
      item ← evidence ("decision." +:+ rd_decision_id decision) ContextSource.REPAIR_DECISION
               ContextImportance.REQUIRED ContextAuthority.LOCAL_DETERMINISTIC_EVIDENCE
               ContextTrust.TRUSTED_LOCAL_EVIDENCE InclusionReason.UNRESOLVED_DECISION
               (_role_priority 40 role ContextSource.REPAIR_DECISION)
               (rd_summary decision) None role (rd_decision_id decision :: rd_correlation_ids decision) true ;
      mret [item]) (repair_decisions input) ;
  mret (from_attempts ++ from_decisions).

(** ** Merging *)

Section Merging.
Context `{!CaseFolding}.

Definition compare_candidates (a b : ContextCandidate) : comparison :=
  then_compare (_importance_rank (cand_importance a) ?= _importance_rank (cand_importance b))
    (then_compare (cand_priority a ?= cand_priority b)
       (then_compare (str_compare (ContextSource.value (cand_source a)) (ContextSource.value (cand_source b)))
          (then_compare (str_compare (str_casefold (cand_path a)) (str_casefold (cand_path b)))
             (str_compare (cand_path a) (cand_path b))))).

(** Order by [_candidate_key]. *)
Definition candidate_le (a b : ContextCandidate) : bool := at_most (compare_candidates a b).

Definition importance_min (a b : ContextImportance.t) : ContextImportance.t :=
  if _importance_rank a <=? _importance_rank b then a else b.

(** [tuple(sorted(set(values), key=lambda item: item.value))] *)
Definition sorted_by_value {A} `{EqDecision A} (value : A -> string) (values : list A) : list A :=
  py_sorted (fun a b => str_le (value a) (value b)) (dict_fromkeys values).

Definition merge_pair (existing candidate : ContextCandidate) : res ContextCandidate :=
  let winner := if candidate_le existing candidate then existing else candidate in
  validate_ContextCandidate
    (mk_ContextCandidate CONTEXT_SCHEMA_VERSION (cand_path winner) (cand_source winner)
       (importance_min (cand_importance existing) (cand_importance candidate))
       (cand_authority winner) (cand_trust winner)
       (sorted_by_value InclusionReason.value (cand_reasons existing ++ cand_reasons candidate))
       (Z.min (cand_priority existing) (cand_priority candidate))
       (sorted_by_value AgentRole.value (cand_roles existing ++ cand_roles candidate))
       (sorted_set (cand_correlation_ids existing ++ cand_correlation_ids candidate))
       (cand_parent_path winner)
       (cand_requires_complete existing || cand_requires_complete candidate)).

Fixpoint merge_into (merged : list (string * ContextCandidate)) (values : list ContextCandidate)
    : res (list (string * ContextCandidate)) :=
  match values with
  | [] => mret merged
  | candidate :: values =>
      next ← match dict_get (cand_path candidate) merged with
             | None => mret candidate
             | Some existing => merge_pair existing candidate
             end ;
      merge_into (dict_set (cand_path candidate) next merged) values
  end.

Definition _merge_candidates (values : list ContextCandidate) : res (list ContextCandidate) :=
  merged ← merge_into [] (py_sorted candidate_le values) ;
  mret (py_sorted candidate_le (snd <$> merged)).
End Merging.

Definition compare_inline (a b : InlineContextEvidence) : comparison :=
  then_compare (_importance_rank (ie_importance a) ?= _importance_rank (ie_importance b))
    (then_compare (ie_priority a ?= ie_priority b)
       (then_compare (str_compare (ContextSource.value (ie_source a)) (ContextSource.value (ie_source b)))
          (str_compare (ie_evidence_id a) (ie_evidence_id b)))).

(** Order by [_inline_key]. *)
Definition inline_le (a b : InlineContextEvidence) : bool := at_most (compare_inline a b).

(** ** Python dependencies *)

(** The import statements of a module: [import names] and [from module import names]
    with its level of dots. *)
Inductive import_node : Type :=
| Import (names : list string)
| ImportFrom (level : Z) (module : option string) (names : list string).

(** [ast.walk(ast.parse(text))] restricted to its imports; [None] where parsing raises. *)
Class PythonAst := { python_imports : string -> option (list import_node) }.

(** [PurePosixPath(path).name] and [.stem] *)
Definition posix_name (path : string) : string := default "" (last (split_slash path)).
Definition posix_stem (path : string) : string :=
  let name := posix_name path in
  String.substring 0 (String.length name - String.length (name_suffix name)) name.

(** [PurePosixPath(path).with_suffix("").parts] *)
Definition parts_without_suffix (path : string) : list string :=
  let parts := split_slash path in
  take (length parts - 1) parts ++ [posix_stem path].

Definition dotted (parts : list string) : string := str_join "." parts.

Definition import_modules (package : list string) (node : import_node) : list string :=
  match node with
  | Import names => names
  | ImportFrom level module names =>
      if negb (level =? 0) then
        let relative_prefix := take (Z.to_nat (Z.max 0 (Z.of_nat (length package) - level + 1))) package in
        let base := relative_prefix ++ match module with
                                       | Some m => if String.eqb m "" then [] else split_char "." m
                                       | None => []
                                       end in
        dotted base :: ((fun name => dotted (base ++ [name])) <$> names)
      else match module with
           | Some m => if String.eqb m "" then [] else m :: ((fun name => m +:+ "." +:+ name) <$> names)
           | None => []
           end
  end.

(** The files a module can be: a module or a package, at the root or under [src]. *)
Definition module_paths (module : string) : list string :=
  let parts := filter (fun part => part <> "") (split_char "." module) in
  match last parts with
  | None => []
  | Some name =>
      let front := take (length parts - 1) parts in
      mjoin ((fun prefix : list string =>
        omap (fun suffix : list string =>
            match RepositoryPath (str_join "/" (prefix ++ front ++ suffix)) with Ok path => Some path | Err _ => None end)
          [[name +:+ ".py"]; [name; "__init__.py"]]) <$> [[]; ["src"]])
  end.

Definition _import_paths (parent : string) (nodes : list import_node) : list string :=
  let parts := parts_without_suffix parent in
  let parent_parts := match parts with "src" :: rest => rest | _ => parts end in
  let package := take (length parent_parts - 1) parent_parts in
  sorted_set (mjoin (module_paths <$> sorted_set (mjoin (import_modules package <$> nodes)))).

(** ** The discoverer *)

Section Discoverer.
Context {E : Type} `{!ContextFileReaderPort E} `{!CaseFolding} `{!PythonAst}.

(** The state of the breadth-first expansion. *)
Record expansion := mk_expansion {
  queue : list (string * Z);
  seen : list string;
  discovered : list ContextCandidate
}.

Definition is_python (path : string) : bool := ends_with ".py" path.

Definition expands (c : ContextCandidate) : bool :=
  is_python (cand_path c)
  && match cand_source c with
     | ContextSource.TASK_PATH | ContextSource.CHANGED_PATH | ContextSource.DIFF => true
     | _ => false
     end.

(** The loop over the paths imported by [parent]. *)
Fixpoint follow_imports (root : Path) (role : AgentRole.t) (limits : ContextLimits) (parent : string) (depth : Z)
    (paths : list string) (s : expansion) : M E expansion :=
  match paths with
  | [] => mret s
  | path :: paths =>
      if bool_decide (path ∈ seen s) then follow_imports root role limits parent depth paths s else
      exists_ ← read root path 1 ;
      if negb (bool_decide (read_status exists_ = ContextReadStatus.COMPLETE))
      then follow_imports root role limits parent depth paths s else
      candidate ← lift (_file_candidate path ContextSource.DEPENDENCY ContextImportance.OPTIONAL
                          InclusionReason.DIRECT_DEPENDENCY (_role_priority (120 + depth) role ContextSource.DEPENDENCY)
                          ContextAuthority.REPOSITORY_CONTENT ContextTrust.UNTRUSTED_REPOSITORY [] (Some parent) false) ;
      let s := mk_expansion (queue s ++ [(path, depth + 1)]) (path :: seen s) (discovered s ++ [candidate]) in
      if max_dependencies limits <=? Z.of_nat (length (discovered s)) then mret s
      else follow_imports root role limits parent depth paths s
  end.

Fixpoint expansion_loop (fuel : nat) (root : Path) (role : AgentRole.t) (limits : ContextLimits) (s : expansion)
    : M E (option expansion) :=
  match fuel with
  | O => mret None
  | S fuel =>
      match queue s with
      | [] => mret (Some s)
      | (parent, depth) :: rest =>
          if negb (Z.of_nat (length (discovered s)) <? max_dependencies limits) then mret (Some s) else
          let s := mk_expansion rest (seen s) (discovered s) in
          if max_dependency_depth limits <=? depth then expansion_loop fuel root role limits s else
          result ← read root parent (max_source_bytes limits) ;
          if negb (bool_decide (read_status result = ContextReadStatus.COMPLETE))
             || (max_source_bytes limits <? byte_len (read_content result))
             || negb (utf8_text (read_content result))
          then expansion_loop fuel root role limits s else
          match python_imports (read_content result) with
          | None => expansion_loop fuel root role limits s
          | Some nodes =>
              s ← follow_imports root role limits parent depth (_import_paths parent nodes) s ;
              expansion_loop fuel root role limits s
          end
      end
  end.

Definition expansion_turns (initial : list (string * Z)) (limits : ContextLimits) : nat :=
  (length initial + Z.to_nat (max_dependencies limits) + 1)%nat.

Definition _expand_python_dependencies (root : Path) (candidates : list ContextCandidate) (role : AgentRole.t)
    (limits : ContextLimits) : M E (list ContextCandidate) :=
  if (max_dependency_depth limits =? 0) || (max_dependencies limits =? 0) then mret [] else
  let initial := cand_path <$> filter (fun c => expands c = true) candidates in
  let start := (fun path => (path, 0)) <$> initial in
  ended ← expansion_loop (expansion_turns start limits) root role limits (mk_expansion start initial []) ;
  match ended with
  | Some s => mret (discovered s)
  | None => raise (OtherError "the expansion ran out of turns")
  end.

Definition has_test (c : ContextCandidate) : bool :=
  is_python (cand_path c) && negb (starts_with "test_" (posix_name (cand_path c))).

Definition _discover_tests (root : Path) (candidates : list ContextCandidate) (role : AgentRole.t)
    (limits : ContextLimits) : M E (list ContextCandidate) :=
  let stems := sorted_set ((fun c => posix_stem (cand_path c)) <$> filter (fun c => has_test c = true) candidates) in
  let names := (fun stem => "test_" +:+ stem +:+ ".py") <$> take (Z.to_nat (max_tests limits)) stems in
  if bool_decide (names = []) || (max_tests limits =? 0) then mret [] else
  found ← find_named_files root ["tests"] names (max_test_scan_entries limits) ;
  lift (traverse (fun path =>
      _file_candidate path ContextSource.TEST ContextImportance.PREFERRED InclusionReason.CORRESPONDING_TEST
        (_role_priority 85 role ContextSource.TEST) ContextAuthority.REPOSITORY_CONTENT
        ContextTrust.UNTRUSTED_TEST [] None false)
    (take (Z.to_nat (max_tests limits)) found)).

Record DiscoveredContext := mk_DiscoveredContext {
  dc_candidates : list ContextCandidate;
  dc_inline_evidence : list InlineContextEvidence
}.

Definition discover (root : Path) (role : AgentRole.t) (explicit : list ContextCandidate)
    (input : ContextDiscoveryInput) (limits : ContextLimits) : M E DiscoveredContext :=
  from_paths ← lift (_path_candidates input role) ;
  from_governing ← lift (_governing_candidates (governing input) role) ;
  from_validation ← lift (_validation_evidence input role) ;
  from_review ← lift (_review_evidence input role) ;
  from_attempts ← lift (_attempt_evidence input role) ;
  merged ← lift (_merge_candidates (explicit ++ from_paths ++ from_governing)) ;
  expanded ← _expand_python_dependencies root merged role limits ;
  merged ← lift (_merge_candidates (merged ++ expanded)) ;
  tests ← _discover_tests root merged role limits ;
  merged ← lift (_merge_candidates (merged ++ tests)) ;
  mret (mk_DiscoveredContext merged
          (py_sorted inline_le (inline_evidence input ++ from_validation ++ from_review ++ from_attempts))).
End Discoverer.
