(* ===== verification/ContextSelection.v ===== *)
(** * Context selection ([src/src/revanent/context/selection.py])

    From a request to a package or a failure: discovery, authorization of every
    candidate by role, scope, directory and file name, bounded reads, redaction,
    truncation, de-duplication, the budget of the agent request, the ledger of
    exclusions and the manifest.

    The JSON text that identifies a manifest is the schema layer's ([manifest_json]). *)

From Stdlib Require Import ZArith Lia Ascii String SpecFloat.
From S2P Require Import Prelude Text Domain Sha256 Unicode Regex Redaction Effects Agents CommandPolicy Validation ContextPort ContextReader ContextDiscovery.
From stdpp Require Import base option strings numbers gmap sets list list_relations.

Open Scope Z_scope.

Definition _EXCLUDED_PARTS : list string := _EXCLUDED_DIRECTORY_NAMES.

Definition _TRUNCATION_MARKER : string :=
  newline_text +:+ "[CONTEXT TRUNCATED]" +:+ newline_text.

(** [_UNSAFE_SECRET_CONTENT], with [re.IGNORECASE] and [re.MULTILINE]. *)
Definition any_letter (n : Z) : bool :=
  existsb (fun c => letter c n) (String.list_ascii_of_string "abcdefghijklmnopqrstuvwxyz").
Definition key_class (n : Z) : bool := any_letter n || ascii_digit n || (n =? 32).
Definition base64_class (n : Z) : bool := any_letter n || ascii_digit n || one_of "+/" n.

Definition _UNSAFE_SECRET_CONTENT : re :=
  either
    (sequence [LineStart; word "-----begin ";
               optional_re (sequence [Many key_class 1; one (is_char " ")]); word "private key-----"])
    [sequence [LineStart; word "-----begin openssh private key-----"];
     sequence [LineStart; word "ssh-"; either (word "rsa") [word "dss"; word "ed25519"];
               Many is_space 1; Many base64_class 80]].

Definition _SECRET_PATH_PARTS : list string := [".aws"; ".azure"; ".gcloud"].
Definition _SECRET_FILE_NAMES : list string :=
  ["credentials"; "application_default_credentials.json"; "service-account.json"; "service_account.json"].

(** ** Shell patterns ([fnmatch.fnmatchcase]) *)

Inductive glob : Type :=
| Star
| AnyOne
| OneOf (negated : bool) (items : list (Z * Z))     (* ranges; a character is its own range *)
| Exactly (n : Z).

(** The characters and ranges of a set. *)
Fixpoint set_items (fuel : nat) (l : list Z) : list (Z * Z) :=
  match fuel, l with
  | S fuel, c :: hyphen :: d :: rest =>
      if hyphen =? 45 then (c, d) :: set_items fuel rest else (c, c) :: set_items fuel (hyphen :: d :: rest)
  | S fuel, c :: rest => (c, c) :: set_items fuel rest
  | _, _ => []
  end.

(** The text up to the next closing bracket, and what follows it. *)
Fixpoint until_bracket (l acc : list Z) : option (list Z * list Z) :=
  match l with
  | [] => None
  | c :: l => if c =? 93 then Some (rev acc, l) else until_bracket l (c :: acc)
  end.

(** A set after its opening bracket: a leading [!] negates, a bracket that comes first
    is a member. *)
Definition parse_set (l : list Z) : option (glob * list Z) :=
  let '(negated, l) := match l with 33 :: rest => (true, rest) | _ => (false, l) end in
  match (match l with 93 :: rest => until_bracket rest [93] | _ => until_bracket l [] end) with
  | Some (body, rest) => Some (OneOf negated (set_items (length body) body), rest)
  | None => None
  end.

Fixpoint parse_glob (fuel : nat) (l : list Z) : list glob :=
  match fuel, l with
  | S fuel, c :: l =>
      if c =? 42 then Star :: parse_glob fuel l
      else if c =? 63 then AnyOne :: parse_glob fuel l
      else if c =? 91 then
        match parse_set l with
        | Some (set, rest) => set :: parse_glob fuel rest
        | None => Exactly c :: parse_glob fuel l
        end
      else Exactly c :: parse_glob fuel l
  | _, _ => []
  end.

Definition glob_accepts (g : glob) (n : Z) : bool :=
  match g with
  | Star => false
  | AnyOne => true
  | OneOf negated items => xorb negated (existsb (fun r : Z * Z => in_range r.1 r.2 n) items)
  | Exactly m => n =? m
  end.

Fixpoint glob_match (ps : list glob) (l : list Z) : bool :=
  match ps with
  | [] => match l with [] => true | _ => false end
  | Star :: ps =>
      (fix star (l : list Z) : bool :=
         glob_match ps l || match l with [] => false | _ :: l => star l end) l
  | p :: ps => match l with [] => false | n :: l => glob_accepts p n && glob_match ps l end
  end.

Definition fnmatchcase (name pattern : string) : bool :=
  let points := code_points pattern in
  glob_match (parse_glob (length points) points) (code_points name).

(** ** Scope *)

(** The inner [match] of [_scope_match]; [**] stands for any number of parts. *)
Fixpoint match_parts (pattern path : list string) : bool :=
  match pattern with
  | [] => match path with [] => true | _ => false end
  | current :: pattern =>
      if String.eqb current "**" then
        match pattern with
        | [] => true
        | _ => (fix any (path : list string) : bool :=
                  match_parts pattern path || match path with [] => false | _ :: path => any path end) path
        end
      else match path with
           | [] => false
           | part :: path => fnmatchcase part current && match_parts pattern path
           end
  end.

Section Paths.
Context `{!CaseFolding}.

Definition _scope_match (windows : bool) (path pattern : string) : bool :=
  let spell part := if windows then str_casefold part else part in
  match_parts (spell <$> split_slash pattern) (spell <$> split_slash path).

Definition _scope_reason (windows : bool) (allowed forbidden : list string) (path : string)
    : option ExclusionReason.t :=
  if existsb (_scope_match windows path) forbidden then Some ExclusionReason.FORBIDDEN_SCOPE
  else if negb (existsb (_scope_match windows path) allowed) then Some ExclusionReason.SCOPE_CONFLICT
  else None.

Definition excluded_part (path : string) : bool :=
  existsb (fun part => bool_decide (str_casefold part ∈ _EXCLUDED_PARTS)) (split_slash path).

Definition _secret_path (path : string) : bool :=
  let parts := str_casefold <$> split_slash path in
  let name := default "" (last parts) in
  String.eqb name ".env" || starts_with ".env." name || bool_decide (name ∈ _SECRET_FILE_NAMES)
  || existsb (fun part => bool_decide (part ∈ _SECRET_PATH_PARTS)) parts
  || existsb (fun ending => ends_with ending name) [".pem"; ".key"; ".p12"; ".pfx"].
End Paths.

(** ** Truncation *)

(** [encoded[-n:]] for a positive [n] *)
Definition last_bytes (n : Z) (data : string) : string :=
  let k := Z.min n (byte_len data) in
  String.substring (String.length data - Z.to_nat k) (Z.to_nat k) data.

Definition first_bytes (n : Z) (data : string) : string :=
  String.substring 0 (Z.to_nat (Z.min n (byte_len data))) data.

(** The [while] loop: characters of the tail are dropped until the text fits. *)
Fixpoint fit_tail (head : string) (tail : list Z) (maximum : Z) : option string :=
  let retained := head +:+ _TRUNCATION_MARKER +:+ text_of tail in
  if byte_len retained <=? maximum then Some retained
  else match tail with [] => None | _ :: tail => fit_tail head tail maximum end.

(** [None] would be the loop that never ends. *)
Definition _truncate_utf8 (value : string) (maximum : Z) : option string :=
  let available := maximum - byte_len _TRUNCATION_MARKER in
  let head_size := available * 2 / 3 in
  let tail_size := available - head_size in
  let head := text_of (decode_ignore (first_bytes head_size value)) in
  let tail := if tail_size =? 0 then [] else decode_ignore (last_bytes tail_size value) in
  fit_tail head tail maximum.

(** ** Entries *)

Inductive _Entry : Type :=
| FileEntry (c : ContextCandidate)
| InlineEntry (e : InlineContextEvidence)
| ArtifactEntry (a : ApprovedContextArtifact).

Definition _entry_importance (e : _Entry) : ContextImportance.t :=
  match e with
  | FileEntry c => cand_importance c
  | InlineEntry e => ie_importance e
  | ArtifactEntry a => aca_importance a
  end.

Record entry_key := mk_key { key_rank : Z; key_priority : Z; key_source : string; key_text : string }.

Definition compare_keys (a b : entry_key) : comparison :=
  then_compare (key_rank a ?= key_rank b)
    (then_compare (key_priority a ?= key_priority b)
       (then_compare (str_compare (key_source a) (key_source b)) (str_compare (key_text a) (key_text b)))).

Definition key_le (a b : entry_key) : bool := at_most (compare_keys a b).

Definition _candidate_order (c : ContextCandidate) : entry_key :=
  mk_key (_importance_rank (cand_importance c)) (cand_priority c) (ContextSource.value (cand_source c)) (cand_path c).
Definition _inline_order (e : InlineContextEvidence) : entry_key :=
  mk_key (_importance_rank (ie_importance e)) (ie_priority e) (ContextSource.value (ie_source e)) (ie_evidence_id e).
Definition _artifact_order (a : ApprovedContextArtifact) : entry_key :=
  mk_key (_importance_rank (aca_importance a)) 100 (ContextSource.value ContextSource.ARTIFACT)
    (artifact_key (aca_reference a)).
Definition _item_order (i : ContextItem) : entry_key :=
  mk_key (_importance_rank (ci_importance i)) (ci_priority i) (ContextSource.value (ci_source i)) (ci_reference i).

Definition entry_order (e : _Entry) : entry_key :=
  match e with
  | FileEntry c => _candidate_order c
  | InlineEntry e => _inline_order e
  | ArtifactEntry a => _artifact_order a
  end.

Definition sorted_by {A} (key : A -> entry_key) (xs : list A) : list A :=
  py_sorted (fun a b => key_le (key a) (key b)) xs.

(** Order by [_exclusion_order]. *)
Definition exclusion_le (a b : ContextExclusion) : bool :=
  at_most (then_compare (_importance_rank (ce_importance a) ?= _importance_rank (ce_importance b))
             (then_compare (str_compare (ce_reference a) (ce_reference b))
                (str_compare (ExclusionReason.value (ce_reason a)) (ExclusionReason.value (ce_reason b))))).

(** One entry per identity; the same identity must carry the same value. *)
Fixpoint unique_by {A} `{EqDecision A} (key : A -> string) (message : string) (unique : list (string * A))
    (values : list A) : res (list (string * A)) :=
  match values with
  | [] => mret unique
  | item :: values =>
      match dict_get (key item) unique with
      | None => unique_by key message (dict_set (key item) item unique) values
      | Some existing =>
          raise_if (negb (bool_decide (existing = item))) (ValueError message) ;;
          unique_by key message unique values
      end
  end.

Definition _unique_inline (values : list InlineContextEvidence) : res (list InlineContextEvidence) :=
  unique ← unique_by ie_evidence_id "one inline evidence identity cannot describe different content" []
             (sorted_by _inline_order values) ;
  mret (sorted_by _inline_order (snd <$> unique)).

Definition _unique_artifacts (values : list ApprovedContextArtifact) : res (list ApprovedContextArtifact) :=
  unique ← unique_by (fun a => artifact_key (aca_reference a)) "one artifact identity cannot describe different evidence" []
             (sorted_by _artifact_order values) ;
  mret (sorted_by _artifact_order (snd <$> unique)).

(** ** Exclusions *)

Definition _read_exclusion (r : ContextReadResult) : option ExclusionReason.t :=
  match read_status r with
  | ContextReadStatus.COMPLETE => None
  | ContextReadStatus.MISSING => Some ExclusionReason.MISSING
  | ContextReadStatus.ESCAPE => Some ExclusionReason.SYMLINK_ESCAPE
  | ContextReadStatus.SPECIAL => Some ExclusionReason.SPECIAL_FILE
  | ContextReadStatus.CHANGED => Some ExclusionReason.FILE_CHANGED
  | ContextReadStatus.ERROR => Some ExclusionReason.UNSAFE_PATH
  end.

Definition _candidate_exclusion (c : ContextCandidate) (reason : ExclusionReason.t) (source_bytes : option Z)
    : res ContextExclusion :=
  validate_ContextExclusion
    (mk_ContextExclusion CONTEXT_SCHEMA_VERSION (cand_path c) (Some (cand_path c)) reason (cand_importance c)
       (cand_source c) (cand_authority c) (cand_trust c) source_bytes).

Definition inline_exclusion (e : InlineContextEvidence) (reason : ExclusionReason.t) : res ContextExclusion :=
  validate_ContextExclusion
    (mk_ContextExclusion CONTEXT_SCHEMA_VERSION (ie_evidence_id e) (ie_path e) reason (ie_importance e)
       (ie_source e) (ie_authority e) (ie_trust e) (Some (byte_len (ie_content e)))).

Definition artifact_reference (a : ApprovedContextArtifact) : string :=
  "artifact:" +:+ aar_root_id (aca_reference a) +:+ "/" +:+ aar_relative_path (aca_reference a).

Definition _artifact_exclusion (a : ApprovedContextArtifact) (reason : ExclusionReason.t) (source_bytes : option Z)
    : res ContextExclusion :=
  validate_ContextExclusion
    (mk_ContextExclusion CONTEXT_SCHEMA_VERSION (artifact_reference a) (Some (aar_relative_path (aca_reference a)))
       reason (aca_importance a) ContextSource.ARTIFACT (aca_authority a) (aca_trust a) source_bytes).

Definition _exclusion_from_item (i : ContextItem) (reason : ExclusionReason.t) (observed_bytes : Z)
    : res ContextExclusion :=
  validate_ContextExclusion
    (mk_ContextExclusion CONTEXT_SCHEMA_VERSION (ci_reference i) (ci_path i) reason (ci_importance i)
       (ci_source i) (ci_authority i) (ci_trust i) (Some observed_bytes)).

(** What an entry became. *)
Inductive preparation : Type :=
| Included (item : ContextItem) (observed_bytes : Z)
| Excluded (e : ContextExclusion).

Definition exclude (e : res ContextExclusion) : res preparation := e ← e ; mret (Excluded e).

(** ** Failures *)

Definition failed (code message : string) (category : option ExclusionReason.t) (path : option string)
    (blocking : bool) : res ContextSelectionResult :=
  failure ← validate_ContextSelectionFailure (mk_ContextSelectionFailure code category path message blocking) ;
  validate_ContextSelectionResult (mk_ContextSelectionResult CONTEXT_SCHEMA_VERSION None (Some failure)).

Definition _failure (code message : string) (category : ExclusionReason.t) (blocking : bool)
    : res ContextSelectionResult := failed code message (Some category) None blocking.

Definition is_blocking (reason : ExclusionReason.t) : bool :=
  match reason with
  | ExclusionReason.MISSING | ExclusionReason.ROOT_MISMATCH | ExclusionReason.FILE_CHANGED
  | ExclusionReason.OVERSIZED | ExclusionReason.INCOMPLETE => true
  | _ => false
  end.

Definition _required_failure (e : ContextExclusion) : res ContextSelectionResult :=
  failed "required_context_unavailable" "required context is unavailable, unsafe, incomplete, or out of scope"
    (Some (ce_reason e)) (ce_path e) (is_blocking (ce_reason e)).

Definition is_unc_root (root : Path) : bool := starts_with "\\" (path_str root) || starts_with "//" (path_str root).

(** ** The selector *)

(** [manifest_id] of the manifest's values, as [json.dumps(to_jsonable_python(...))]
    writes them; its own identifier and its creation time are not among them. *)
Class ManifestEncoding := { manifest_json : ContextManifest -> string }.

Definition manifest_id `{!ManifestEncoding} (m : ContextManifest) : string :=
  "ctxmanifest_" +:+ sha256_hex (manifest_json m).

Section Selector.
Context {E : Type} `{!FileSystem E} `{!ContextFileReaderPort E}.
Context `{!UnicodeTables} `{!CaseFolding} `{!PythonAst} `{!ManifestEncoding}.

(** [os.name == "nt"] *)
Variable windows : bool.
Variable redactor : Redactor.
Variable request : ContextSelectionRequest.

Definition limits : ContextLimits := csq_limits request.

Definition unsafe (text : string) : bool := search _UNSAFE_SECRET_CONTENT (code_points text).

(** [_read_with_retry] *)
Fixpoint retry (retries : nat) (reread : M E ContextReadResult) (result : ContextReadResult) : M E ContextReadResult :=
  match retries with
  | O => mret result
  | S retries =>
      if negb (bool_decide (read_status result = ContextReadStatus.CHANGED)) then mret result
      else result ← reread ; retry retries reread result
  end.

Definition _read_with_retry (root : Path) (path : string) (max_bytes retries : Z) : M E ContextReadResult :=
  let reread := read root path max_bytes in
  result ← reread ; retry (Z.to_nat retries) reread result.

(** What the three kinds of entry hand to [_content_item]. *)
Record content_source := mk_content_source {
  cs_reference : string;
  cs_path : option string;
  cs_kind : ContextCandidateKind.t;
  cs_source : ContextSource.t;
  cs_importance : ContextImportance.t;
  cs_authority : ContextAuthority.t;
  cs_trust : ContextTrust.t;
  cs_reasons : list InclusionReason.t;
  cs_priority : Z;
  cs_correlations : list string;
  cs_requires_complete : bool
}.

Definition content_exclusion (s : content_source) (reason : ExclusionReason.t) (observed_bytes : Z) : res preparation :=
  exclude (validate_ContextExclusion
    (mk_ContextExclusion CONTEXT_SCHEMA_VERSION (cs_reference s) (cs_path s) reason (cs_importance s)
       (cs_source s) (cs_authority s) (cs_trust s) (Some observed_bytes))).

Definition build_item (s : content_source) (safe retained : string) (state : ContextContentState.t) (redacted : bool)
    : res ContextItem :=
  validate_ContextItem
    (mk_ContextItem CONTEXT_SCHEMA_VERSION
       (context_item_id (csq_run_id request) (cs_reference s) (cs_authority s) (cs_trust s))
       (csq_run_id request) (csq_work_package_id request) (cs_path s) (cs_reference s) (cs_kind s) (cs_source s)
       (cs_importance s) (cs_authority s) (cs_trust s) (csq_role request) (cs_reasons s) (cs_priority s)
       (cs_correlations s) (byte_len safe) (byte_len retained) (byte_len safe - byte_len retained) state
       (sha256_hex safe) (sha256_hex retained)
       (if redacted then RedactionState.REDACTED else RedactionState.NOT_NEEDED) None retained None).

Definition _content_item (s : content_source) (text : string) (observed_bytes : Z) : res preparation :=
  let safe := redact redactor text false in
  if max_source_bytes limits <? byte_len safe then content_exclusion s ExclusionReason.OVERSIZED observed_bytes else
  if max_item_bytes limits <? byte_len safe then
    if cs_requires_complete s then content_exclusion s ExclusionReason.INCOMPLETE observed_bytes else
    match _truncate_utf8 safe (max_item_bytes limits) with
    | None => Err (OtherError "the truncation loop does not end")
    | Some retained =>
        item ← build_item s safe retained ContextContentState.TRUNCATED (negb (String.eqb safe text)) ;
        mret (Included item observed_bytes)
    end
  else
    item ← build_item s safe safe ContextContentState.COMPLETE (negb (String.eqb safe text)) ;
    mret (Included item observed_bytes).

Definition file_source (c : ContextCandidate) : content_source :=
  mk_content_source (cand_path c) (Some (cand_path c)) ContextCandidateKind.REPOSITORY_FILE (cand_source c)
    (cand_importance c) (cand_authority c) (cand_trust c) (cand_reasons c) (cand_priority c)
    (cand_correlation_ids c) (cand_requires_complete c).

(** The checks before a candidate's file is read. *)
Definition candidate_refusal (allowed forbidden : list string) (c : ContextCandidate) : option ExclusionReason.t :=
  if negb (bool_decide (csq_role request ∈ cand_roles c)) then Some ExclusionReason.ROLE_MISMATCH else
  match _scope_reason windows allowed forbidden (cand_path c) with
  | Some reason => Some reason
  | None =>
      if excluded_part (cand_path c) then Some ExclusionReason.EXCLUDED_DIRECTORY
      else if _secret_path (cand_path c) then Some ExclusionReason.SECRET
      else None
  end.

Definition _prepare_file (root : Path) (allowed forbidden : list string) (c : ContextCandidate) : M E preparation :=
  match candidate_refusal allowed forbidden c with
  | Some reason => lift (exclude (_candidate_exclusion c reason None))
  | None =>
      result ← _read_with_retry root (cand_path c) (max_source_bytes limits) (max_read_retries limits) ;
      let content := read_content result in
      let observed := read_observed_bytes result in
      lift (
        match _read_exclusion result, observed with
        | Some reason, _ => exclude (_candidate_exclusion c reason observed)
        | None, None => exclude (_candidate_exclusion c ExclusionReason.UNSAFE_PATH None)
        | None, Some n =>
            if (max_source_bytes limits <? n) || (max_source_bytes limits <? byte_len content)
            then exclude (_candidate_exclusion c ExclusionReason.OVERSIZED observed)
            else if str_contains nul content then exclude (_candidate_exclusion c ExclusionReason.BINARY observed)
            else if negb (utf8_text content)
            then exclude (_candidate_exclusion c ExclusionReason.UNSUPPORTED_ENCODING observed)
            else if unsafe content then exclude (_candidate_exclusion c ExclusionReason.SECRET observed)
            else _content_item (file_source c) content n
        end)
  end.

Definition inline_source (e : InlineContextEvidence) : content_source :=
  mk_content_source (ie_evidence_id e) (ie_path e) ContextCandidateKind.LOCAL_EVIDENCE (ie_source e)
    (ie_importance e) (ie_authority e) (ie_trust e) (ie_reasons e) (ie_priority e)
    (ie_correlation_ids e) (ie_requires_complete e).

Definition _prepare_inline (allowed forbidden : list string) (e : InlineContextEvidence) : res preparation :=
  match ie_path e ≫= _scope_reason windows allowed forbidden with
  | Some reason => exclude (inline_exclusion e reason)
  | None =>
      if unsafe (ie_content e) then exclude (inline_exclusion e ExclusionReason.SECRET)
      else _content_item (inline_source e) (ie_content e) (byte_len (ie_content e))
  end.

Definition provider_output (kind : AgentArtifactKind.t) : bool :=
  match kind with
  | AgentArtifactKind.RAW_OUTPUT | AgentArtifactKind.PUBLIC_OUTPUT | AgentArtifactKind.REVIEW => true
  | _ => false
  end.

Definition artifact_source (a : ApprovedContextArtifact) : content_source :=
  let claimed := provider_output (aar_kind (aca_reference a)) in
  mk_content_source (artifact_reference a) (Some (aar_relative_path (aca_reference a))) ContextCandidateKind.ARTIFACT
    ContextSource.ARTIFACT (aca_importance a)
    (if claimed then ContextAuthority.PROVIDER_CLAIM else aca_authority a)
    (if claimed then ContextTrust.UNTRUSTED_PROVIDER else aca_trust a)
    [InclusionReason.APPROVED_ARTIFACT] 100 [aca_correlation_id a] (aca_requires_complete a).

(** [ContextItem.model_validate({**item.model_dump(), "artifact": reference})] *)
Definition with_artifact (i : ContextItem) (reference : AgentArtifactReference) : res ContextItem :=
  validate_ContextItem
    (mk_ContextItem (ci_schema_version i) (ci_id i) (ci_run_id i) (ci_work_package_id i) (ci_path i)
       (ci_reference i) (ci_kind i) (ci_source i) (ci_importance i) (ci_authority i) (ci_trust i) (ci_role i)
       (ci_reasons i) (ci_priority i) (ci_correlation_ids i) (ci_source_bytes i) (ci_retained_bytes i)
       (ci_truncated_bytes i) (ci_state i) (ci_source_digest_sha256 i) (ci_retained_digest_sha256 i)
       (ci_redaction i) (ci_duplicate_of i) (ci_content i) (Some reference)).

(** The checks before an artifact is read, each with the bytes it reports. *)
Definition artifact_refusal (a : ApprovedContextArtifact) : option (ExclusionReason.t * option Z) :=
  let reference := aca_reference a in
  let stored := Some (aar_stored_bytes reference) in
  if is_unc_root (aca_root a) then Some (ExclusionReason.ROOT_MISMATCH, None)
  else if negb (String.eqb (aca_run_id a) (csq_run_id request))
          || negb (String.eqb (aca_work_package_id a) (csq_work_package_id request))
  then Some (ExclusionReason.INVALID_ARTIFACT, None)
  else if bool_decide (aar_status reference = AgentArtifactStatus.TRUNCATED) && aca_requires_complete a
  then Some (ExclusionReason.INCOMPLETE, stored)
  else if max_artifact_bytes limits <? aar_stored_bytes reference then Some (ExclusionReason.OVERSIZED, stored)
  else if bool_decide (aar_kind reference = AgentArtifactKind.RAW_OUTPUT) && negb (aar_redacted reference)
  then Some (ExclusionReason.SECRET, stored)
  else None.

Definition optional_differs (observed : option Z) (expected : Z) : bool :=
  negb (bool_decide (observed = Some expected)).

Definition _prepare_artifact (a : ApprovedContextArtifact) : M E preparation :=
  let reference := aca_reference a in
  match artifact_refusal a with
  | Some (reason, bytes) => lift (exclude (_artifact_exclusion a reason bytes))
  | None =>
      result ← _read_with_retry (aca_root a) (aar_relative_path reference) (max_artifact_bytes limits)
                 (max_read_retries limits) ;
      let content := read_content result in
      let observed := read_observed_bytes result in
      lift (
        match _read_exclusion result with
        | Some reason => exclude (_artifact_exclusion a reason observed)
        | None =>
            if optional_differs observed (aar_stored_bytes reference)
               || negb (byte_len content =? aar_stored_bytes reference)
            then exclude (_artifact_exclusion a ExclusionReason.FILE_CHANGED observed)
            else if match aar_sha256 reference with
                    | Some digest => negb (String.eqb (sha256_hex content) digest)
                    | None => false
                    end
            then exclude (_artifact_exclusion a ExclusionReason.FILE_CHANGED observed)
            else if str_contains nul content then exclude (_artifact_exclusion a ExclusionReason.BINARY observed)
            else if negb (utf8_text content)
            then exclude (_artifact_exclusion a ExclusionReason.UNSUPPORTED_ENCODING observed)
            else if unsafe content then exclude (_artifact_exclusion a ExclusionReason.SECRET observed)
            else
              prepared ← _content_item (artifact_source a) content (default 0 observed) ;
              match prepared with
              | Included item n => item ← with_artifact item reference ; mret (Included item n)
              | Excluded e => mret (Excluded e)
              end
        end)
  end.

Definition prepare_entry (root : Path) (allowed forbidden : list string) (e : _Entry) : M E preparation :=
  match e with
  | FileEntry c => _prepare_file root allowed forbidden c
  | InlineEntry e => lift (_prepare_inline allowed forbidden e)
  | ArtifactEntry a => _prepare_artifact a
  end.

(** ** The first pass *)

(** The local variables of the first loop. *)
Record gathered := mk_gathered {
  g_prepared : list (ContextItem * Z);
  g_exclusions : list ContextExclusion;
  g_source_total : Z;
  g_artifact_total : Z
}.

(** The loop over the sorted entries; it ends early with a failure. *)
Fixpoint gather (root : Path) (allowed forbidden : list string) (entries : list _Entry) (s : gathered)
    : M E (gathered + ContextSelectionResult) :=
  match entries with
  | [] => mret (inl s)
  | entry :: entries =>
      result ← prepare_entry root allowed forbidden entry ;
      match result with
      | Excluded e =>
          let total := g_source_total s + default 0 (ce_source_bytes e) in
          if is_required (_entry_importance entry) then inr <$> lift (_required_failure e)
          else gather root allowed forbidden entries
                 (mk_gathered (g_prepared s) (g_exclusions s ++ [e]) total (g_artifact_total s))
      | Included item observed =>
          let total := g_source_total s + observed in
          let is_artifact := bool_decide (ci_kind item = ContextCandidateKind.ARTIFACT) in
          let artifact_total := g_artifact_total s + (if is_artifact then observed else 0) in
          if is_artifact && (max_artifact_total_bytes limits <? artifact_total) then
            e ← lift (_exclusion_from_item item ExclusionReason.AGGREGATE_LIMIT observed) ;
            if is_required (ci_importance item) then inr <$> lift (_required_failure e)
            else gather root allowed forbidden entries
                   (mk_gathered (g_prepared s) (g_exclusions s ++ [e]) total artifact_total)
          else gather root allowed forbidden entries
                 (mk_gathered (g_prepared s ++ [(item, observed)]) (g_exclusions s) total artifact_total)
      end
  end.

(** ** The second pass *)

Definition representative_key : Type := string * ContextAuthority.t * ContextTrust.t.

Definition key_of (i : ContextItem) : representative_key := (ci_source_digest_sha256 i, ci_authority i, ci_trust i).

Record chosen := mk_chosen {
  ch_selected : list ContextItem;
  ch_exclusions : list ContextExclusion;
  ch_retained : Z;
  ch_duplicate : Z;
  ch_representatives : list (representative_key * ContextItem)
}.

(** The item as a reference to its first representative. *)
Definition referenced (i duplicate : ContextItem) : res ContextItem :=
  validate_ContextItem
    (mk_ContextItem (ci_schema_version i) (ci_id i) (ci_run_id i) (ci_work_package_id i) (ci_path i)
       (ci_reference i) (ci_kind i) (ci_source i) (ci_importance i) (ci_authority i) (ci_trust i) (ci_role i)
       (ci_reasons i) (ci_priority i) (ci_correlation_ids i) (ci_source_bytes i) 0 0
       ContextContentState.REFERENCED (ci_source_digest_sha256 i) (sha256_hex "") (ci_redaction i)
       (Some (ci_id duplicate)) "" (ci_artifact i)).

Fixpoint choose_items (agent_item_budget : Z) (prepared : list (ContextItem * Z)) (s : chosen)
    : res (chosen + ContextSelectionResult) :=
  match prepared with
  | [] => mret (inl s)
  | (original, observed) :: prepared =>
      let key := key_of original in
      let duplicate := dict_get key (ch_representatives s) in
      item ← match duplicate with Some d => referenced original d | None => mret original end ;
      let duplicates := ch_duplicate s + (if is_some duplicate then ci_retained_bytes original else 0) in
      let representatives := match duplicate with
                             | Some _ => ch_representatives s
                             | None => dict_set key item (ch_representatives s)
                             end in
      let exceeds_count := Z.min (max_items limits) 63 <=? Z.of_nat (length (ch_selected s)) in
      let exceeds_bytes := agent_item_budget <? ch_retained s + ci_retained_bytes item in
      if exceeds_count || exceeds_bytes then
        e ← _exclusion_from_item item
              (if exceeds_count then ExclusionReason.ITEM_LIMIT else ExclusionReason.AGGREGATE_LIMIT) observed ;
        if is_required (ci_importance item) then failure ← _required_failure e ; mret (inr failure)
        else choose_items agent_item_budget prepared
               (mk_chosen (ch_selected s) (ch_exclusions s ++ [e]) (ch_retained s) duplicates representatives)
      else choose_items agent_item_budget prepared
             (mk_chosen (ch_selected s ++ [item]) (ch_exclusions s) (ch_retained s + ci_retained_bytes item)
                duplicates representatives)
  end.

(** ** The manifest and the package *)

Definition importance_total (entries : list _Entry) (i : ContextImportance.t) : Z :=
  count (fun e => bool_decide (_entry_importance e = i)) entries.

Definition warnings_of (overflow : Z) (selected : list ContextItem) : list string :=
  sorted_strings
    ((if 0 <? overflow then [str_of_Z overflow +:+ " exclusions omitted by the bounded ledger"] else [])
     ++ (if existsb (fun i => bool_decide (ci_state i = ContextContentState.TRUNCATED)) selected
         then ["one or more context items were deterministically truncated"] else [])).

Definition assemble (entries : list _Entry) (controls : list string) (g : gathered) (c : chosen)
    : res ContextSelectionResult :=
  let exclusions := g_exclusions g ++ ch_exclusions c in
  let selected := ch_selected c in
  let bounded_exclusions := take (Z.to_nat (max_exclusions limits)) (py_sorted exclusion_le exclusions) in
  let overflow := Z.max 0 (Z.of_nat (length exclusions) - Z.of_nat (length bounded_exclusions)) in
  items ← manifest_items selected ;
  let baseline := match csq_baseline_bytes request with
                  | Some n => n
                  | None => Z.max (g_source_total g) (ch_retained c)
                  end in
  if baseline <? ch_retained c then
    _failure "invalid_baseline" "injected baseline is smaller than retained context"
      ExclusionReason.UNSAFE_PATH false
  else
    let values id :=
      mk_ContextManifest CONTEXT_SCHEMA_VERSION id (csq_run_id request) (csq_work_package_id request)
        (task_id (csq_task request)) (csq_role request) (csq_repository_reference request)
        (csq_worktree_reference request) CONTEXT_SELECTION_POLICY_VERSION (csq_created_at request) limits
        items bounded_exclusions overflow (Z.of_nat (length entries)) (Z.of_nat (length selected))
        (Z.of_nat (length exclusions)) (importance_total entries ContextImportance.REQUIRED)
        (importance_total entries ContextImportance.PREFERRED)
        (importance_total entries ContextImportance.OPTIONAL) (g_source_total g) (ch_retained c)
        (py_sum ((fun e => default 0 (ce_source_bytes e)) <$> exclusions))
        (py_sum (ci_truncated_bytes <$> selected)) (ch_duplicate c)
        (if is_some (csq_baseline_bytes request) then BaselineKind.INJECTED_REPOSITORY
         else BaselineKind.AUTHORIZED_CANDIDATES)
        baseline (if baseline =? 0 then S754_zero false else true_division (ch_retained c) baseline) true
        (warnings_of overflow selected)
        (if bool_decide (exclusions = []) then ContextSelectionStatus.COMPLETE
         else ContextSelectionStatus.COMPLETE_WITH_EXCLUSIONS) in
    manifest ← validate_ContextManifest (values (manifest_id (values ""))) ;
    package ← validate_ContextPackage
      (mk_ContextPackage CONTEXT_SCHEMA_VERSION manifest controls selected
         (py_sorted (fun a b => str_le (artifact_key a) (artifact_key b)) (omap ci_artifact selected))) ;
    validate_ContextSelectionResult (mk_ContextSelectionResult CONTEXT_SCHEMA_VERSION (Some package) None).

(** The evidence of another run or work package. *)
Definition foreign_evidence : bool :=
  let foreign run package := negb (String.eqb run (csq_run_id request))
                             || negb (String.eqb package (csq_work_package_id request)) in
  let input := csq_discovery request in
  existsb (fun v => foreign (pr_run_id (ve_result v)) (pr_work_package_id (ve_result v))) (cd_validation input)
  || existsb (fun r => foreign (re_run_id r) (re_work_package_id r)) (cd_review input)
  || existsb (fun a => foreign (pa_run_id a) (pa_work_package_id a)) (prior_attempts input)
  || existsb (fun d => foreign (rd_run_id d) (rd_work_package_id d)) (repair_decisions input).

(** What follows the checks of the request. *)
Definition select_in (root : Path) (controls allowed forbidden : list string) (agent_item_budget : Z)
    : M E ContextSelectionResult :=
  found ← discover root (csq_role request) (csq_candidates request) (csq_discovery request) limits ;
  inline ← lift (_unique_inline (dc_inline_evidence found)) ;
  artifacts ← lift (_unique_artifacts (cd_artifacts (csq_discovery request))) ;
  let entries := (FileEntry <$> dc_candidates found) ++ (InlineEntry <$> inline) ++ (ArtifactEntry <$> artifacts) in
  if max_candidates limits <? Z.of_nat (length entries) then
    lift (_failure "candidate_limit" "deterministic discovery exceeded the candidate limit"
            ExclusionReason.DISCOVERY_LIMIT false)
  else
    passed ← gather root allowed forbidden (sorted_by entry_order entries) (mk_gathered [] [] 0 0) ;
    match passed with
    | inr failure => mret failure
    | inl g =>
        lift (
          second ← choose_items agent_item_budget (sorted_by (fun p => _item_order p.1) (g_prepared g)) (mk_chosen [] [] 0 0 []) ;
          match second with
          | inr failure => mret failure
          | inl c => assemble entries controls g c
          end)
    end.

(** [select] *)
Definition select : M E ContextSelectionResult :=
  resolved ← try_except (Some <$> fs_resolve true (csq_root request)) is_any_os_error (fun _ => mret None) ;
  match resolved with
  | None => lift (_failure "context_root_unavailable" "approved context root is unavailable"
                    ExclusionReason.ROOT_MISMATCH true)
  | Some root =>
      if is_unc_root root then
        lift (_failure "context_root_unsupported" "UNC context roots are not authorized" ExclusionReason.ROOT_MISMATCH true)
      else
        let controls := (fun value => redact redactor value false) <$> csq_trusted_controls request in
        if existsb unsafe controls then
          lift (_failure "unsafe_trusted_control" "trusted control contains unsafe credential material"
                  ExclusionReason.SECRET false)
        else
          let control_bytes := byte_len (str_join blank_line controls) in
          if MAX_AGENT_OUTPUT_BYTES <? control_bytes then
            lift (_failure "trusted_control_limit" "trusted controls exceed the agent context byte limit"
                    ExclusionReason.AGGREGATE_LIMIT false)
          else if foreign_evidence then
            lift (_failure "evidence_correlation_mismatch"
                    "context evidence does not belong to the requested run and work package"
                    ExclusionReason.INVALID_ARTIFACT false)
          else
            match traverse ScopePath (allowed_paths (csq_task request)),
                  traverse ScopePath (forbidden_paths (csq_task request)) with
            | Ok allowed, Ok forbidden =>
                select_in root controls allowed forbidden
                  (Z.min (max_total_bytes limits) (MAX_AGENT_OUTPUT_BYTES - control_bytes))
            | _, _ => lift (_failure "invalid_scope_policy"
                              "task scope contains an invalid repository-relative pattern"
                              ExclusionReason.UNSAFE_PATH false)
            end
  end.
End Selector.
