(* ===== verification/ContextSafety.v ===== *)
(** * What context selection lets through

    Every item of a selected package is within the task's scope, carries no configured
    secret and fits its limits; a package never lacks a required entry; the truncation
    loop ends. *)

From Stdlib Require Import ZArith Lia Ascii String SpecFloat.
From S2P Require Import Prelude Text Domain Sha256 Unicode Regex Redaction Effects Agents CommandPolicy LocalRunner LocalRunnerOutput LocalRunnerSafety Validation ContextPort ContextReader ContextDiscovery ContextSelection.
From stdpp Require Import base option strings numbers gmap sets list list_relations.

Open Scope Z_scope.

(** ** Truncation *)

Definition truncation_points : list Z := code_points _TRUNCATION_MARKER.

Lemma truncation_marker_text : text_of truncation_points = _TRUNCATION_MARKER.
Proof. vm_compute. reflexivity. Qed.

Lemma first_bytes_take n data : first_bytes n data = take_bytes n data.
Proof. reflexivity. Qed.

Lemma bytes_of_substring_drop k data :
  (k <= String.length data)%nat ->
  bytes_of (String.substring k (String.length data - k) data) = drop k (bytes_of data).
Proof.
  revert k. induction data as [|c data IH]; intros [|k] Hk; cbn [String.length] in *; try done.
  - cbn. f_equal. specialize (IH 0%nat ltac:(lia)). by rewrite Nat.sub_0_r in IH.
  - cbn [Nat.sub String.substring String.list_ascii_of_string drop]. apply IH. lia.
Qed.

(** Decoding the last bytes of an encoded text gives its last characters. *)
Lemma continuation_skip c l : in_range 128 191 (byte_value c) = true -> decode_one c l = (None, l).
Proof.
  rewrite in_range_spec. intros H. unfold decode_one, lead.
  repeat match goal with
  | |- context [if ?b then _ else _] => destruct b eqn:Hb; rewrite ?Z.ltb_lt, ?in_range_spec, ?Z.eqb_eq in Hb; try lia; clear Hb
  end. done.
Qed.

Lemma encode_one_tail n :
  scalar n = true -> exists c t, encode_one n = c :: t /\ Forall (fun c => in_range 128 191 (byte_value c) = true) t.
Proof.
  intros Hn. assert (Hr : 0 <= n <= 1114111).
  { unfold scalar in Hn. apply orb_true_iff in Hn. rewrite !in_range_spec in Hn. lia. }
  pose proof (Z.mod_pos_bound n 64 ltac:(lia)). pose proof (Z.mod_pos_bound (n / 64) 64 ltac:(lia)).
  pose proof (Z.mod_pos_bound (n / 4096) 64 ltac:(lia)).
  unfold encode_one. destruct (n <? 128); [|destruct (n <? 2048); [|destruct (n <? 65536)]];
    cbn [fmap list_fmap]; eexists _, _; (split; [reflexivity|]);
    repeat constructor; apply in_range_spec; rewrite byte_value_of by lia; lia.
Qed.

Lemma decode_skips t rest fuel :
  Forall (fun c => in_range 128 191 (byte_value c) = true) t -> (length (t ++ rest) <= fuel)%nat ->
  exists fuel', (length rest <= fuel')%nat /\ decode_with [] fuel (t ++ rest) = decode_with [] fuel' rest.
Proof.
  intros Ht. revert fuel. induction Ht as [|c t Hc Ht IH]; intros fuel Hf; [by exists fuel|].
  destruct fuel as [|fuel]; [cbn in Hf; lia|]. cbn [app decode_with].
  rewrite continuation_skip by done. cbn [app]. apply IH. cbn in Hf. lia.
Qed.

Lemma decode_drop points k fuel :
  Forall (fun n => scalar n = true) points -> (length (drop k (encode_bytes points)) <= fuel)%nat ->
  exists j, decode_with [] fuel (drop k (encode_bytes points)) = drop j points
            /\ (length (encode_bytes (drop j points)) <= length (drop k (encode_bytes points)))%nat
            /\ (k <= length (encode_bytes (take j points)))%nat \/ 
            (length (encode_bytes points) < k)%nat.
Proof.
  intros Hp. revert k fuel. induction Hp as [|n points Hn Hp IH]; intros k fuel Hf.
  - destruct k; [exists 0%nat; left; split_and!; [by destruct fuel|cbn; lia|cbn; lia]|].
    exists 0%nat. right. cbn. lia.
  - rewrite encode_bytes_cons in *. destruct k as [|k].
    + exists 0%nat. left. rewrite drop_0 in *. split_and!; [|cbn [drop]; by rewrite encode_bytes_cons|cbn; lia].
      rewrite <- encode_bytes_cons. apply Unicode.decode_encode; [by constructor|exact Hf].
    + destruct (encode_one_tail n Hn) as (c & t & He & Ht). rewrite He in *. cbn [app drop] in *.
      destruct (decide (k <= length t)%nat) as [Hle|Hgt].
      * rewrite drop_app_le in * by done.
        destruct (decode_skips (drop k t) (encode_bytes points) fuel) as (fuel' & Hf' & ->);
          [by apply Forall_drop|done|].
        exists 1%nat. left. cbn [drop take]. rewrite drop_0. split_and!.
        -- by apply Unicode.decode_encode.
        -- rewrite length_app. lia.
        -- rewrite encode_bytes_cons, He. cbn. rewrite length_app. cbn. lia.
      * rewrite drop_app_ge in * by lia. destruct (IH (k - length t)%nat fuel Hf) as (j & Hj).
        exists (S j). destruct Hj as [(-> & Hl & Hk)|Hk]; [left|right].
        -- cbn [drop take]. split_and!; [done|done|]. rewrite encode_bytes_cons, He.
           cbn [length app]. rewrite length_app. lia.
        -- cbn [length]. rewrite length_app. lia.
Qed.

Lemma encode_bytes_app a b : encode_bytes (a ++ b) = encode_bytes a ++ encode_bytes b.
Proof. unfold encode_bytes. by rewrite fmap_app, join_app. Qed.

(** A longer first part has more bytes. *)
Lemma take_order points i j :
  (length (encode_bytes (take i points)) < length (encode_bytes (take j points)))%nat -> (i <= j)%nat.
Proof.
  intros H. destruct (decide (i <= j)%nat) as [|Hji]; [done|]. exfalso.
  rewrite <- (take_drop j (take i points)), encode_bytes_app, length_app in H.
  rewrite take_take, Nat.min_l in H by lia. lia.
Qed.

Lemma last_bytes_drop n data :
  0 <= n <= byte_len data -> bytes_of (last_bytes n data) = drop (String.length data - Z.to_nat n) (bytes_of data).
Proof.
  intros Hn. unfold last_bytes, byte_len in *. rewrite Z.min_l by lia.
  replace (Z.to_nat n) with (String.length data - (String.length data - Z.to_nat n))%nat at 2 by lia.
  apply bytes_of_substring_drop. lia.
Qed.

(** The truncated text fits, and is the text with its middle replaced by the marker. *)
Lemma truncate_spec points maximum :
  Forall (fun n => scalar n = true) points -> 32 <= maximum < byte_len (text_of points) ->
  exists out, _truncate_utf8 (text_of points) maximum = Some (text_of out)
    /\ byte_len (text_of out) <= maximum /\ masked truncation_points points out
    /\ Forall (fun n => scalar n = true) out.
Proof.
  intros Hp Hm. unfold _truncate_utf8.
  assert (Hmark : byte_len _TRUNCATION_MARKER = 21) by (vm_compute; reflexivity). rewrite Hmark.
  set (available := maximum - 21). set (head_size := available * 2 / 3).
  assert (Hhead : 0 <= head_size <= available).
  { subst head_size available. split; [apply Z.div_pos; lia|]. apply Z.div_le_upper_bound; lia. }
  assert (Htail : 0 < available - head_size).
  { subst head_size available. pose proof (Z.div_lt_upper_bound ((maximum - 21) * 2) 3 (maximum - 21)). lia. }
  rewrite (proj2 (Z.eqb_neq (available - head_size) 0)) by lia. rewrite first_bytes_take.
  destruct (cut_bytes points head_size Hp ltac:(lia)) as (i & -> & Hi).
  unfold decode_ignore, decode_bytes. rewrite last_bytes_drop by lia. rewrite bytes_of_text_of.
  rewrite byte_len_text_of in Hi. rewrite byte_len_text_of in Hm.
  assert (Hlen : String.length (text_of points) = length (encode_bytes points)) by by rewrite <- length_bytes, bytes_of_text_of.
  rewrite Hlen. set (k := (length (encode_bytes points) - Z.to_nat (available - head_size))%nat).
  destruct (decode_drop points k _ Hp (le_n _)) as (j & [(-> & Hl & Hk)|Hk]); [|subst k; lia].
  rewrite length_drop in Hl.
  assert (Hij : (i <= j)%nat) by (apply (take_order points); subst k available; lia).
  set (out := take i points ++ truncation_points ++ drop j points).
  assert (Hout : text_of (take i points) +:+ _TRUNCATION_MARKER +:+ text_of (drop j points) = text_of out).
  { subst out. by rewrite !text_of_app, truncation_marker_text. }
  assert (Hfit : byte_len (text_of out) <= maximum).
  { rewrite <- Hout, !byte_len_app, Hmark, !byte_len_text_of. subst k available. lia. }
  exists out. split_and!.
  - destruct (drop j points) eqn:Hd; cbn [fit_tail]; rewrite Hout; by rewrite (proj2 (Z.leb_le _ _)).
  - done.
  - subst out. rewrite <- (take_drop i points) at 1. apply masked_app; [apply masked_refl|].
    rewrite <- (take_drop (j - i) (drop i points)) at 1. rewrite drop_drop.
    replace (i + (j - i))%nat with j by lia. constructor. apply masked_refl.
  - subst out. rewrite !Forall_app. split_and!; [by apply Forall_take| |by apply Forall_drop].
    apply code_points_scalar.
Qed.

(** ** Items *)

(** The configured secrets that overlap neither marker are hidden. *)
Definition hides_configured (configured : list string) (text : string) : Prop :=
  forall s, s ∈ configured -> clear_of marker (code_points s) = true ->
    clear_of truncation_points (code_points s) = true -> hides s text.

Lemma redacted_characters `{!UnicodeTables} configured r text :
  make_Redactor configured = Ok r ->
  exists points, redact r text false = text_of points /\ Forall (fun n => scalar n = true) points
    /\ hides_all configured (text_of points).
Proof.
  intros Hr. exists (redact_points r false (code_points text)). pose proof (secrets_nonempty _ _ Hr) as Hv.
  assert (Hs : Forall (fun n => scalar n = true) (redact_points r false (code_points text))).
  { apply redact_points_scalar; [done|]. apply code_points_scalar. }
  split_and!; [done|done|]. intros s Hin Hc. unfold hides. rewrite code_points_text_of by done.
  apply redact_points_clear; [done| |done]. apply (make_Redactor_secrets _ _ _ Hr). split; [done|]. by intros ->.
Qed.

Lemma truncated_hides configured points out :
  Forall (fun n => scalar n = true) points -> Forall (fun n => scalar n = true) out ->
  masked truncation_points points out -> hides_all configured (text_of points) ->
  hides_configured configured (text_of out).
Proof.
  intros Hp Ho Hm Hh s Hs Hc Ht Hocc. unfold hides in *. rewrite code_points_text_of in Hocc by done.
  apply (Hh s Hs Hc). rewrite code_points_text_of by done. by eapply (masked_occurs truncation_points).
Qed.

(** What a constructed item keeps of the values it was built from. *)
Lemma validated_item i j :
  validate_ContextItem i = Ok j ->
  validate_ContextItem j = Ok j /\ ci_path j = ci_path i /\ ci_kind j = ci_kind i
  /\ ci_importance j = ci_importance i /\ ci_content j = ci_content i /\ ci_retained_bytes j = ci_retained_bytes i
  /\ ci_reference j = ci_reference i.
Proof.
  intros Hj. split; [by eapply idem|]. unfold validate_ContextItem in Hj.
  apply bind_require_Ok in Hj as [_ Hj].
  apply bind_Ok in Hj as (id & _ & Hj). apply bind_Ok in Hj as (run & _ & Hj). apply bind_Ok in Hj as (wp & _ & Hj).
  apply bind_Ok in Hj as (path & Hpath & Hj). apply bind_Ok in Hj as (reference & [-> _]%sized_Ok & Hj).
  do 4 apply bind_require_Ok in Hj as [_ Hj].
  apply bind_Ok in Hj as (d1 & _ & Hj). apply bind_Ok in Hj as (d2 & _ & Hj). apply bind_Ok in Hj as (dup & _ & Hj).
  apply bind_Ok in Hj as (content & Hcontent & Hj). apply bind_Ok in Hj as (a & _ & Hj).
  apply content_accounting_id in Hj as ->. cbn. apply sized_Ok in Hcontent as [-> _].
  assert (path = ci_path i) as ->; [|done].
  destruct (ci_path i) as [p|]; cbn in Hpath; [|by injection Hpath as <-].
  destruct (RepositoryPath p) as [p'|] eqn:Hp; [|done]. injection Hpath as <-.
  unfold RepositoryPath in Hp. apply bind_Ok in Hp as (u & _ & [= <-]). done.
Qed.

Lemma validated_exclusion e f : validate_ContextExclusion e = Ok f ->
  ce_importance f = ce_importance e /\ ce_source_bytes f = ce_source_bytes e.
Proof. unfold validate_ContextExclusion. intros Hf. by inv_valid. Qed.

Lemma Forall_snoc {A} (P : A -> Prop) xs x : Forall P xs -> P x -> Forall P (xs ++ [x]).
Proof. intros. apply Forall_app. split; [done|]. constructor; [done|constructor]. Qed.

Lemma py_sum_app xs ys : py_sum (xs ++ ys) = py_sum xs + py_sum ys.
Proof. unfold py_sum. induction xs as [|x xs IH]; cbn; lia. Qed.

Section Selection.
Context {E : Type} `{!FileSystem E} `{!ContextFileReaderPort E}.
Context {tables : UnicodeTables} {folding : CaseFolding} {ast : PythonAst} {encoding : ManifestEncoding}.
Context (windows : bool) (configured : list string) (redactor : Redactor) (request : ContextSelectionRequest).
Context (Hredactor : make_Redactor configured = Ok redactor).
Context (Hrequest : validate_ContextLimits (csq_limits request) = Ok (csq_limits request)).

Lemma limit_facts :
  32 <= max_item_bytes (csq_limits request) /\ 32 <= max_total_bytes (csq_limits request)
  /\ 1 <= max_items (csq_limits request).
Proof. pose proof Hrequest as Hl. unfold validate_ContextLimits, in_range in Hl. inv_valid. bool_prop. lia. Qed.

(** Within the task's scope; for files of the repository, no excluded directory and
    no file that holds secrets; an artifact is one that the request approved for its run. *)
Definition in_scope (allowed forbidden : list string) (i : ContextItem) : Prop :=
  (ci_kind i <> ContextCandidateKind.ARTIFACT ->
   forall path, ci_path i = Some path -> _scope_reason windows allowed forbidden path = None)
  /\ (ci_kind i = ContextCandidateKind.REPOSITORY_FILE ->
      exists path, ci_path i = Some path /\ excluded_part path = false /\ _secret_path path = false)
  /\ (ci_kind i = ContextCandidateKind.ARTIFACT ->
      exists a, a ∈ cd_artifacts (csq_discovery request) /\ ci_path i = Some (aar_relative_path (aca_reference a))
        /\ aca_run_id a = csq_run_id request /\ aca_work_package_id a = csq_work_package_id request).

Record item_ok (allowed forbidden : list string) (i : ContextItem) : Prop := {
  ok_valid : validate_ContextItem i = Ok i;
  ok_scope : in_scope allowed forbidden i;
  ok_hides : hides_configured configured (ci_content i);
  ok_small : ci_retained_bytes i <= max_item_bytes (csq_limits request)
}.

Lemma hides_all_configured text : hides_all configured text -> hides_configured configured text.
Proof. intros Hh s Hs Hc _. by apply Hh. Qed.

(** What [_content_item] makes of a text. *)
Definition content_ok (s : content_source) (p : preparation) : Prop :=
  match p with
  | Included i _ =>
      validate_ContextItem i = Ok i /\ ci_path i = cs_path s /\ ci_kind i = cs_kind s
      /\ ci_reference i = cs_reference s /\ ci_importance i = cs_importance s /\ hides_configured configured (ci_content i)
      /\ ci_retained_bytes i <= max_item_bytes (csq_limits request)
  | Excluded e => ce_importance e = cs_importance s
  end.

Lemma exclude_Ok e p : exclude e = Ok p -> exists f, e = Ok f /\ p = Excluded f.
Proof. unfold exclude. destruct e as [f|]; [|done]. intros [= <-]. by exists f. Qed.

Lemma content_item_ok s text observed p : _content_item redactor request s text observed = Ok p -> content_ok s p.
Proof.
  unfold _content_item, limits. destruct limit_facts as (Hitem & _ & _). destruct (redacted_characters _ _ text Hredactor) as (points & -> & Hp & Hh).
  assert (Hex : forall reason, content_exclusion s reason observed = Ok p -> content_ok s p).
  { intros reason (f & Hf & ->)%exclude_Ok. by apply validated_exclusion in Hf as [? _]. }
  destruct (max_source_bytes _ <? _); [apply Hex|]. destruct (Z.ltb_spec (max_item_bytes (csq_limits request)) (byte_len (text_of points))).
  - destruct (cs_requires_complete s); [apply Hex|].
    destruct (truncate_spec points (max_item_bytes (csq_limits request)) Hp) as (out & -> & Hfit & Hm & Ho); [lia|].
    intros Hi. apply bind_Ok in Hi as (i & Hi & [= <-]). apply validated_item in Hi as (Hv & Hpath & Hk & Himp & Hc & Hr & Href).
    cbn in Hpath, Hk, Himp, Hc, Hr, Href. cbn [content_ok]. rewrite Hc, Hr. split_and!; try done.
    eapply truncated_hides; [exact Hp|exact Ho|exact Hm|exact Hh].
  - intros Hi. apply bind_Ok in Hi as (i & Hi & [= <-]). apply validated_item in Hi as (Hv & Hpath & Hk & Himp & Hc & Hr & Href).
    cbn in Hpath, Hk, Himp, Hc, Hr, Href. cbn [content_ok]. rewrite Hc, Hr. split_and!; try done.
    by apply hides_all_configured.
Qed.

(** What identifies an entry, and the item it becomes. *)
Definition entry_mark (e : _Entry) : ContextCandidateKind.t * string :=
  match e with
  | FileEntry c => (ContextCandidateKind.REPOSITORY_FILE, cand_path c)
  | InlineEntry e => (ContextCandidateKind.LOCAL_EVIDENCE, ie_evidence_id e)
  | ArtifactEntry a => (ContextCandidateKind.ARTIFACT, artifact_reference a)
  end.

Definition item_mark (i : ContextItem) : ContextCandidateKind.t * string := (ci_kind i, ci_reference i).

(** The artifacts among the entries are the request's. *)
Definition approved_entry (e : _Entry) : Prop :=
  match e with ArtifactEntry a => a ∈ cd_artifacts (csq_discovery request) | _ => True end.

(** What an entry becomes. *)
Definition prepared_ok (allowed forbidden : list string) (entry : _Entry) (p : preparation) : Prop :=
  match p with
  | Included i _ => item_ok allowed forbidden i /\ ci_importance i = _entry_importance entry /\ item_mark i = entry_mark entry
  | Excluded e => ce_importance e = _entry_importance entry
  end.

Lemma candidate_excluded allowed forbidden c reason bytes p :
  exclude (_candidate_exclusion c reason bytes) = Ok p -> prepared_ok allowed forbidden (FileEntry c) p.
Proof. intros (f & Hf & ->)%exclude_Ok. by apply validated_exclusion in Hf as [? _]. Qed.

Lemma prepare_file_ok root allowed forbidden c :
  does anywhere (_prepare_file (E := E) windows redactor request root allowed forbidden c)
    (prepared_ok allowed forbidden (FileEntry c)).
Proof.
  unfold _prepare_file. destruct (candidate_refusal _ _ _ _ c) as [reason|] eqn:Hc.
  { apply does_lift; [exact _|]. intros p. apply candidate_excluded. }
  eapply does_bind; [exact _|by apply does_only|intros result _]. apply does_lift; [exact _|]. intros p.
  destruct (_read_exclusion result); [apply candidate_excluded|].
  destruct (read_observed_bytes result) as [n|]; [|apply candidate_excluded].
  repeat (match goal with |- (if ?b then _ else _) = _ -> _ => destruct b; [apply candidate_excluded|] end).
  intros Hp%content_item_ok. destruct p as [i m|e]; cbn in *; [|done].
  destruct Hp as (Hv & Hpath & Hk & Href & Himp & Hh & Hr). split; [|split; [done|unfold item_mark; by rewrite Hk, Href]].
  split; try done. unfold candidate_refusal in Hc. destruct (negb _); [done|].
  destruct (_scope_reason windows allowed forbidden (cand_path c)) eqn:Hscope; [done|].
  destruct (excluded_part _) eqn:Hex; [done|]. destruct (_secret_path _) eqn:Hsec; [done|].
  unfold in_scope. rewrite Hpath, Hk. split_and!.
  - intros _ path [= <-]. done.
  - intros _. by exists (cand_path c).
  - done.
Qed.

Lemma prepare_inline_ok allowed forbidden e p :
  _prepare_inline windows redactor request allowed forbidden e = Ok p ->
  prepared_ok allowed forbidden (InlineEntry e) p.
Proof.
  unfold _prepare_inline.
  assert (Hexcl : forall reason, exclude (inline_exclusion e reason) = Ok p -> prepared_ok allowed forbidden (InlineEntry e) p).
  { intros reason (f & Hf & ->)%exclude_Ok. by apply validated_exclusion in Hf as [? _]. }
  destruct (ie_path e ≫= _scope_reason windows allowed forbidden) eqn:Hscope; [apply Hexcl|].
  destruct (unsafe (ie_content e)); [apply Hexcl|]. intros Hp%content_item_ok. destruct p as [i m|f]; cbn in *; [|done].
  destruct Hp as (Hv & Hpath & Hk & Href & Himp & Hh & Hr). split; [|split; [done|unfold item_mark; by rewrite Hk, Href]].
  split; try done. unfold in_scope. rewrite Hpath, Hk. split_and!; [|done|done].
  intros _ path Hpath'. by rewrite Hpath' in Hscope.
Qed.

Lemma prepare_artifact_ok allowed forbidden a :
  a ∈ cd_artifacts (csq_discovery request) ->
  does anywhere (_prepare_artifact (E := E) redactor request a) (prepared_ok allowed forbidden (ArtifactEntry a)).
Proof.
  intros Ha. assert (Hexcl : forall reason bytes p, exclude (_artifact_exclusion a reason bytes) = Ok p ->
    prepared_ok allowed forbidden (ArtifactEntry a) p).
  { intros reason bytes p (f & Hf & ->)%exclude_Ok. by apply validated_exclusion in Hf as [? _]. }
  unfold _prepare_artifact. destruct (artifact_refusal request a) as [[reason bytes]|] eqn:Hrefusal.
  { apply does_lift; [exact _|]. intros p. apply Hexcl. }
  eapply does_bind; [exact _|by apply does_only|intros result _]. apply does_lift; [exact _|]. intros p.
  destruct (_read_exclusion result); [apply Hexcl|].
  repeat (match goal with |- (if ?b then _ else _) = _ -> _ => destruct b; [apply Hexcl|] end).
  intros Hp. apply bind_Ok in Hp as (q & Hq%content_item_ok & Hp). destruct q as [i m|f]; cbn in Hq.
  - apply bind_Ok in Hp as (j & Hj & [= <-]). destruct Hq as (_ & Hpath & Hk & Href & Himp & Hh & Hr).
    apply validated_item in Hj as (Hv & Hpath' & Hk' & Himp' & Hc' & Hr' & Href').
    cbn in Hpath', Hk', Himp', Hc', Hr', Href'. cbn.
    split; [|split; [by rewrite Himp'|unfold item_mark; by rewrite Hk', Hk, Href', Href]].
    split; [done| |by rewrite Hc'|by rewrite Hr'].
    unfold in_scope. rewrite Hk', Hk, Hpath', Hpath. split_and!; [done|done|]. intros _. exists a.
    unfold artifact_refusal in Hrefusal. cbv zeta in Hrefusal. destruct (is_unc_root _); [done|].
    destruct (_ || _) eqn:Hown in Hrefusal; [done|]. apply orb_false_iff in Hown as [H1 H2].
    rewrite negb_false_iff in H1, H2. apply String.eqb_eq in H1, H2. done.
  - injection Hp as <-. done.
Qed.

Lemma prepare_entry_ok root allowed forbidden entry :
  approved_entry entry ->
  does anywhere (prepare_entry (E := E) windows redactor request root allowed forbidden entry)
    (prepared_ok allowed forbidden entry).
Proof.
  intros Ha. destruct entry as [c|e|a]; cbn [prepare_entry]; [apply prepare_file_ok| |by apply prepare_artifact_ok].
  apply does_lift; [exact _|]. intros p. apply prepare_inline_ok.
Qed.

(** *** The first pass *)

(** The marks of the required items and of the required entries. *)
Definition required_items (items : list ContextItem) : list (ContextCandidateKind.t * string) :=
  item_mark <$> filter (fun i => is_required (ci_importance i) = true) items.
Definition required_entries (entries : list _Entry) : list (ContextCandidateKind.t * string) :=
  entry_mark <$> filter (fun e => is_required (_entry_importance e) = true) entries.

Lemma required_items_app xs ys : required_items (xs ++ ys) = required_items xs ++ required_items ys.
Proof. unfold required_items. by rewrite filter_app, fmap_app. Qed.

Lemma required_items_one i :
  required_items [i] = if is_required (ci_importance i) then [item_mark i] else [].
Proof. unfold required_items. rewrite filter_cons. by destruct (is_required _). Qed.

Lemma required_entries_cons e entries :
  required_entries (e :: entries)
  = (if is_required (_entry_importance e) then [entry_mark e] else []) ++ required_entries entries.
Proof. unfold required_entries. rewrite filter_cons. by destruct (is_required _). Qed.

Lemma required_failure_fails e r : _required_failure e = Ok r -> csr_package r = None.
Proof.
  unfold _required_failure, failed. intros Hr. apply bind_Ok in Hr as (f & _ & Hr).
  unfold validate_ContextSelectionResult in Hr. cbn [csr_package validate_optional] in Hr. inv_valid.
  match goal with H : _one_outcome _ = Ok _ |- _ => unfold _one_outcome in H end. by inv_valid.
Qed.

Definition gather_ok (allowed forbidden : list string) (required : list (ContextCandidateKind.t * string)) (r : gathered + ContextSelectionResult) : Prop :=
  match r with
  | inl g => Forall (fun p => item_ok allowed forbidden p.1) (g_prepared g)
             /\ required_items (fst <$> g_prepared g) = required
  | inr failure => csr_package failure = None
  end.

Lemma gather_keeps root allowed forbidden entries s :
  Forall approved_entry entries -> Forall (fun p => item_ok allowed forbidden p.1) (g_prepared s) ->
  does anywhere (gather (E := E) windows redactor request root allowed forbidden entries s)
    (gather_ok allowed forbidden (required_items (fst <$> g_prepared s) ++ required_entries entries)).
Proof.
  intros Happroved. assert (Hfail : forall (e : ContextExclusion) n, does (W := E) anywhere (inr <$> lift (_required_failure e)) (gather_ok allowed forbidden n)).
  { intros e n. apply does_fmap. apply does_lift; [exact _|]. intros r. apply required_failure_fails. }
  revert s. induction Happroved as [|entry entries Hentry Happroved IH]; intros s Hs; cbn [gather].
  { apply does_ret; [exact _|]. cbn. split; [done|]. by rewrite app_nil_r. }
  assert (Hskip : forall e total artifact_total, is_required (_entry_importance entry) = false ->
    does anywhere (gather (E := E) windows redactor request root allowed forbidden entries
        (mk_gathered (g_prepared s) (g_exclusions s ++ [e]) total artifact_total))
      (gather_ok allowed forbidden (required_items (fst <$> g_prepared s) ++ required_entries (entry :: entries)))).
  { intros e total artifact_total Hn. eapply does_weaken; [by apply IH|]. intros r. cbn [g_prepared].
    by rewrite required_entries_cons, Hn. }
  eapply does_bind; [exact _|by apply prepare_entry_ok|intros [item observed|e] Hp].
  - destruct Hp as (Hitem & Himp & Hmark). destruct (bool_decide _ && _).
    + eapply does_bind; [exact _|apply does_lift; [exact _|intros e _; exact I]|intros e _].
      rewrite Himp. destruct (is_required (_entry_importance entry)) eqn:Hreq; [apply Hfail|by apply Hskip].
    + eapply does_weaken; [apply IH|].
      * cbn. by apply Forall_snoc.
      * intros r. cbn [g_prepared]. rewrite fmap_app.
        assert (required_items ((fst <$> g_prepared s) ++ (fst <$> [(item, observed)])) ++ required_entries entries
                = required_items (fst <$> g_prepared s) ++ required_entries (entry :: entries)) as ->; [|done].
        change (fst <$> [(item, observed)]) with [item].
        by rewrite required_items_app, required_items_one, required_entries_cons, Himp, Hmark, (assoc_L (++)).
  - destruct (is_required (_entry_importance entry)) eqn:Hreq; [apply Hfail|by apply Hskip].
Qed.

(** *** The second pass *)

Lemma referenced_ok allowed forbidden i d j :
  item_ok allowed forbidden i -> referenced i d = Ok j ->
  item_ok allowed forbidden j /\ ci_importance j = ci_importance i /\ item_mark j = item_mark i.
Proof.
  intros [Hv Hscope Hh Hsmall] Hj. apply validated_item in Hj as (Hv' & Hp & Hk & Hi & Hc & Hr & Href).
  cbn in Hp, Hk, Hi, Hc, Hr, Href. split; [|split; [done|unfold item_mark; by rewrite Hk, Href]]. split.
  - done.
  - unfold in_scope. by rewrite Hp, Hk.
  - rewrite Hc. apply hides_all_configured, hides_all_nil.
  - rewrite Hr. destruct limit_facts. lia.
Qed.

Record chosen_ok (allowed forbidden : list string) (budget : Z) (c : chosen) : Prop := {
  co_items : Forall (item_ok allowed forbidden) (ch_selected c);
  co_retained : ch_retained c = py_sum (ci_retained_bytes <$> ch_selected c);
  co_budget : ch_retained c <= budget;
  co_count : Z.of_nat (length (ch_selected c)) <= Z.min (max_items (csq_limits request)) 63
}.

Lemma choose_keeps allowed forbidden budget prepared s r :
  Forall (fun p => item_ok allowed forbidden p.1) prepared -> chosen_ok allowed forbidden budget s ->
  choose_items request budget prepared s = Ok r ->
  match r with
  | inl c => chosen_ok allowed forbidden budget c
             /\ required_items (ch_selected c) = required_items (ch_selected s) ++ required_items (fst <$> prepared)
  | inr failure => csr_package failure = None
  end.
Proof.
  intros Hp. revert s. induction Hp as [|[original observed] prepared Hitem Hp IH]; intros s Hs; cbn [choose_items].
  { intros [= <-]. split; [done|]. change (required_items (fst <$> [])) with (@nil (ContextCandidateKind.t * string)). by rewrite app_nil_r. }
  cbn in Hitem. intros Hr. apply bind_Ok in Hr as (item & Hi & Hr).
  change (fst <$> (original, observed) :: prepared) with ([original] ++ (fst <$> prepared)).
  assert (item_ok allowed forbidden item /\ ci_importance item = ci_importance original
          /\ item_mark item = item_mark original) as (Hok & Himp & Hmark).
  { destruct (dict_get _ _); [by eapply referenced_ok|]. injection Hi as <-. done. }
  unfold limits in Hr.
  destruct (Z.leb_spec (Z.min (max_items (csq_limits request)) 63) (Z.of_nat (length (ch_selected s))));
    [|destruct (Z.ltb_spec budget (ch_retained s + ci_retained_bytes item))]; cbn [orb] in Hr.
  3:{ apply IH in Hr.
      - destruct r as [c|f]; [|done]. destruct Hr as [Hc Hn]. split; [done|]. rewrite Hn. cbn [ch_selected].
        by rewrite !required_items_app, !required_items_one, Himp, Hmark, (assoc_L (++)).
      - destruct Hs as [Ha Hb Hc Hd]. split; cbn.
        + by apply Forall_snoc.
        + rewrite fmap_app, py_sum_app, Hb. cbn. lia.
        + lia.
        + rewrite length_app. cbn. lia. }
  all: apply bind_Ok in Hr as (e & _ & Hr); rewrite Himp in Hr;
    destruct (is_required (ci_importance original)) eqn:Hreq;
    [ apply bind_Ok in Hr as (f & Hf & Hr); injection Hr as <-; by eapply required_failure_fails
    | apply IH in Hr; [|by destruct Hs]; destruct r as [c|f]; [|done]; destruct Hr as [Hc Hn]; split; [done|];
      rewrite Hn; cbn [ch_selected]; by rewrite required_items_app, required_items_one, Hreq ].
Qed.

(** *** The package *)

Record package_ok (allowed forbidden : list string) (budget : Z) (entries : list _Entry) (p : ContextPackage)
    : Prop := {
  po_items : Forall (item_ok allowed forbidden) (cp_untrusted_items p);
  po_controls : Forall (hides_all configured) (cp_trusted_controls p);
  po_complete : required_items (cp_untrusted_items p) ≡ₚ required_entries entries;
  po_required : cm_required_count (cp_manifest p) = Z.of_nat (length (required_items (cp_untrusted_items p)));
  po_retained : py_sum (ci_retained_bytes <$> cp_untrusted_items p) <= budget;
  po_count : Z.of_nat (length (cp_untrusted_items p)) <= Z.min (max_items (csq_limits request)) 63
}.

Lemma manifest_required m n : validate_ContextManifest m = Ok n -> cm_required_count n = cm_required_count m.
Proof. unfold validate_ContextManifest. intros H. inv_valid. by pose proof (canonical_id _ _ H) as ->. Qed.

Lemma package_keeps p q :
  Forall (fun i => validate_ContextItem i = Ok i) (cp_untrusted_items p) -> validate_ContextPackage p = Ok q ->
  cp_untrusted_items q = cp_untrusted_items p /\ cp_trusted_controls q = cp_trusted_controls p
  /\ cm_required_count (cp_manifest q) = cm_required_count (cp_manifest p).
Proof.
  intros Hitems Hq. unfold validate_ContextPackage in Hq. rewrite (traverse_fix _ _ Hitems) in Hq.
  apply bind_require_Ok in Hq as [_ Hq]. apply bind_Ok in Hq as (m & Hm%manifest_required & Hq).
  apply bind_Ok in Hq as (controls & Hc & Hq). cbn [mbind result_bind] in Hq.
  apply bind_Ok in Hq as (artifacts & _ & Hq%matches_manifest_id). subst q. cbn. split_and!; [done| |done].
  apply traverse_Forall2 in Hc. induction Hc as [|c c' cs cs' Hc Hcs IH]; [done|].
  apply sized_Ok in Hc as [-> _]. by rewrite IH.
Qed.

Lemma result_package p r :
  validate_ContextSelectionResult (mk_ContextSelectionResult CONTEXT_SCHEMA_VERSION (Some p) None) = Ok r ->
  exists q, csr_package r = Some q /\ validate_ContextPackage p = Ok q.
Proof.
  unfold validate_ContextSelectionResult. intros Hr. apply bind_require_Ok in Hr as [_ Hr].
  apply bind_Ok in Hr as (o & Ho & Hr). cbn in Ho. apply bind_Ok in Ho as (q & Hq & [= <-]).
  cbn [mbind result_bind validate_optional csr_failure] in Hr. unfold _one_outcome in Hr. cbn in Hr.
  injection Hr as <-. by exists q.
Qed.

Lemma failure_result code message category path blocking r :
  failed code message category path blocking = Ok r -> csr_package r = None.
Proof.
  unfold failed. intros Hr. apply bind_Ok in Hr as (f & _ & Hr).
  unfold validate_ContextSelectionResult in Hr. cbn [csr_package validate_optional] in Hr. inv_valid.
  match goal with H : _one_outcome _ = Ok _ |- _ => unfold _one_outcome in H end. by inv_valid.
Qed.

(** What a selection of these entries answers. *)
Definition selection_ok (allowed forbidden : list string) (budget : Z) (entries : list _Entry)
    (r : ContextSelectionResult) : Prop :=
  forall p, csr_package r = Some p -> package_ok allowed forbidden budget entries p.

Lemma failed_selection allowed forbidden budget entries r :
  csr_package r = None -> selection_ok allowed forbidden budget entries r.
Proof. intros Hr p Hp. by rewrite Hr in Hp. Qed.

Lemma assemble_ok allowed forbidden budget entries controls g c r :
  chosen_ok allowed forbidden budget c -> required_items (ch_selected c) ≡ₚ required_entries entries ->
  Forall (hides_all configured) controls ->
  assemble request entries controls g c = Ok r -> selection_ok allowed forbidden budget entries r.
Proof.
  intros Hc Hreq Hcontrols. unfold assemble. cbv zeta. intros Hr.
  apply bind_Ok in Hr as (items & _ & Hr).
  match type of Hr with (if ?b then _ else _) = _ => destruct b end.
  { apply failed_selection. by eapply failure_result. }
  apply bind_Ok in Hr as (m & Hm%manifest_required & Hr). apply bind_Ok in Hr as (p & Hp & Hr).
  apply result_package in Hr as (q & Hq & Hpq). intros q' Hq'. rewrite Hq in Hq'. injection Hq' as <-.
  destruct Hc as [Hitems Hsum Hbudget Hcount].
  assert (Hvalid : Forall (fun i => validate_ContextItem i = Ok i) (ch_selected c)).
  { eapply Forall_impl; [exact Hitems|]. intros i Hi. apply Hi. }
  apply package_keeps in Hp as (Hp1 & Hp2 & Hp3); [|exact Hvalid]. cbn in Hp1, Hp2, Hp3.
  apply package_keeps in Hpq as (Hq1 & Hq2 & Hq3); [|by rewrite Hp1].
  split; rewrite ?Hq1, ?Hp1, ?Hq2, ?Hp2, ?Hq3, ?Hp3, ?Hm; try done.
  - rewrite Hreq. unfold required_entries. by rewrite length_fmap.
  - by rewrite <- Hsum.
Qed.

#[local] Instance required_items_perm : Proper ((≡ₚ) ==> (≡ₚ)) required_items.
Proof. intros xs ys Hp. unfold required_items. by rewrite Hp. Qed.

#[local] Instance required_entries_perm : Proper ((≡ₚ) ==> (≡ₚ)) required_entries.
Proof. intros xs ys Hp. unfold required_entries. by rewrite Hp. Qed.

Lemma sorted_by_perm {A} (key : A -> entry_key) xs : sorted_by key xs ≡ₚ xs.
Proof. apply py_sorted_perm. Qed.

(** The entries that a selection considers. *)
Definition entries_of (found : DiscoveredContext) (inline : list InlineContextEvidence)
    (artifacts : list ApprovedContextArtifact) : list _Entry :=
  (FileEntry <$> dc_candidates found) ++ (InlineEntry <$> inline) ++ (ArtifactEntry <$> artifacts).

Definition considered (w : E) (entries : list _Entry) : Prop :=
  exists root w1 w2 found inline artifacts,
    fs_resolve true (csq_root request) w = (w1, Ok root) /\
    discover root (csq_role request) (csq_candidates request) (csq_discovery request) (csq_limits request) w1
      = (w2, Ok found) /\
    _unique_inline (dc_inline_evidence found) = Ok inline /\
    _unique_artifacts (cd_artifacts (csq_discovery request)) = Ok artifacts /\
    entries = entries_of found inline artifacts.

Lemma dict_set_values {A} (key : string) (v : A) d x : x ∈ (dict_set key v d).*2 -> x = v \/ x ∈ d.*2.
Proof.
  induction d as [|[k y] d IH]; cbn.
  - rewrite list_elem_of_singleton. by left.
  - destruct (decide (key = k)); cbn; rewrite !elem_of_cons; [tauto|].
    intros [->|H]; [tauto|]. apply IH in H. tauto.
Qed.

Lemma unique_by_elements {A} `{EqDecision A} (key : A -> string) message unique values out x :
  unique_by key message unique values = Ok out -> x ∈ out.*2 -> x ∈ unique.*2 \/ x ∈ values.
Proof.
  revert unique. induction values as [|v values IH]; intros unique; cbn [unique_by].
  - intros [= <-]. by left.
  - rewrite elem_of_cons. destruct (dict_get (key v) unique).
    + intros H. apply bind_Ok in H as (u & _ & H). intros Hx. destruct (IH _ H Hx); tauto.
    + intros H Hx. destruct (IH _ H Hx) as [Hin|]; [|tauto]. apply dict_set_values in Hin. tauto.
Qed.

Lemma unique_artifacts_elements values out a : _unique_artifacts values = Ok out -> a ∈ out -> a ∈ values.
Proof.
  unfold _unique_artifacts. intros H. apply bind_Ok in H as (unique & Hu & [= <-]).
  rewrite sorted_by_perm. intros Ha. destruct (unique_by_elements _ _ _ _ _ _ Hu Ha) as [H|H]; [by apply not_elem_of_nil in H|].
  by rewrite sorted_by_perm in H.
Qed.

Lemma entries_approved found inline artifacts :
  _unique_artifacts (cd_artifacts (csq_discovery request)) = Ok artifacts ->
  Forall approved_entry (entries_of found inline artifacts).
Proof.
  intros Ha. unfold entries_of. rewrite !Forall_app, !Forall_fmap. split_and!; [by apply Forall_true..|].
  apply Forall_forall. intros a. by apply unique_artifacts_elements.
Qed.

(** What follows the discovery. *)
Lemma select_entries_ok root controls allowed forbidden budget entries :
  Forall (hides_all configured) controls -> 0 <= budget -> Forall approved_entry entries ->
  does anywhere
    (if max_candidates (limits request) <? Z.of_nat (length entries) then
       lift (_failure "candidate_limit" "deterministic discovery exceeded the candidate limit"
               ExclusionReason.DISCOVERY_LIMIT false)
     else
       passed ← gather (E := E) windows redactor request root allowed forbidden (sorted_by entry_order entries)
                  (mk_gathered [] [] 0 0) ;
       match passed with
       | inr failure => mret failure
       | inl g =>
           lift (
             second ← choose_items request budget (sorted_by (fun p => _item_order p.1) (g_prepared g)) (mk_chosen [] [] 0 0 []) ;
             match second with
             | inr failure => mret failure
             | inl c => assemble request entries controls g c
             end)
       end)
    (selection_ok allowed forbidden budget entries).
Proof.
  intros Hcontrols Hbudget Happroved. destruct (max_candidates (limits request) <? _).
  { apply does_lift; [exact _|]. intros r Hr. apply failed_selection. by eapply failure_result. }
  eapply does_bind; [exact _|apply gather_keeps; [by rewrite sorted_by_perm|constructor]|intros [g|failure] Hg].
  - destruct Hg as [Hg Hreq]. apply does_lift; [exact _|]. intros r Hr. apply bind_Ok in Hr as (second & Hs & Hr).
    eapply (choose_keeps allowed forbidden) in Hs.
    + destruct second as [c|failure]; [|injection Hr as <-; by apply failed_selection].
      destruct Hs as [Hc Hn]. eapply assemble_ok; [exact Hc| |done|exact Hr].
      rewrite Hn. cbn [ch_selected]. change (required_items []) with (@nil (ContextCandidateKind.t * string)).
      rewrite app_nil_l, (sorted_by_perm _ (g_prepared g)), Hreq. cbn [g_prepared fmap list_fmap].
      change (required_items []) with (@nil (ContextCandidateKind.t * string)).
      by rewrite app_nil_l, sorted_by_perm.
    + by rewrite sorted_by_perm.
    + split; cbn; [constructor|done|done|]. destruct limit_facts. lia.
  - apply does_ret; [exact _|]. by apply failed_selection.
Qed.

Lemma select_in_entries root controls allowed forbidden budget (w w' : E) r p :
  Forall (hides_all configured) controls -> 0 <= budget ->
  select_in (E := E) windows redactor request root controls allowed forbidden budget w = (w', Ok r) ->
  csr_package r = Some p ->
  exists w2 found inline artifacts,
    discover root (csq_role request) (csq_candidates request) (csq_discovery request) (csq_limits request) w
      = (w2, Ok found) /\
    _unique_inline (dc_inline_evidence found) = Ok inline /\
    _unique_artifacts (cd_artifacts (csq_discovery request)) = Ok artifacts /\
    package_ok allowed forbidden budget (entries_of found inline artifacts) p.
Proof.
  intros Hcontrols Hbudget Hw Hp. unfold select_in in Hw. apply M_bind_Ok in Hw as (w2 & found & Hfound & Hw).
  apply M_bind_Ok in Hw as (? & inline & [-> Hinline]%lift_Ok & Hw).
  apply M_bind_Ok in Hw as (? & artifacts & [-> Hartifacts]%lift_Ok & Hw). cbv zeta in Hw.
  exists w2, found, inline, artifacts. split_and!; [done..|].
  destruct (select_entries_ok root controls allowed forbidden budget (entries_of found inline artifacts)
              Hcontrols Hbudget (entries_approved _ _ _ Hartifacts) w2) as [_ Hok].
  unfold entries_of in Hok at 1 2 3. rewrite Hw in Hok. by apply (Hok r eq_refl).
Qed.

Lemma scope_paths l m : traverse ScopePath l = Ok m -> m = l.
Proof.
  intros Hl. apply traverse_Forall2 in Hl. induction Hl as [|x y xs ys Hx Hxs IH]; [done|].
  unfold ScopePath in Hx. apply bind_Ok in Hx as (u & _ & [= <-]). by rewrite IH.
Qed.

(** The bytes left for items beside the redacted controls. *)
Definition item_budget : Z :=
  Z.min (max_total_bytes (csq_limits request))
    (MAX_AGENT_OUTPUT_BYTES
     - byte_len (str_join blank_line ((fun value => redact redactor value false) <$> csq_trusted_controls request))).

Lemma failure_no_package code message category blocking (w w' : E) r :
  lift (_failure code message category blocking) w = (w', Ok r) -> csr_package r = None.
Proof. intros [_ Hr]%lift_Ok. by eapply failure_result. Qed.

Lemma selected (w w' : E) r p :
  select windows redactor request w = (w', Ok r) -> csr_package r = Some p ->
  exists entries, considered w entries /\
    package_ok (allowed_paths (csq_task request)) (forbidden_paths (csq_task request)) item_budget entries p.
Proof.
  intros Hw Hp. unfold select in Hw. apply M_bind_Ok in Hw as (w1 & resolved & Hresolved & Hw).
  assert (Hfail : forall code message category blocking,
    lift (_failure code message category blocking) w1 = (w', Ok r) -> False).
  { intros code message category blocking H. apply failure_no_package in H. congruence. }
  destruct resolved as [root|]; [|by apply Hfail in Hw].
  assert (Hroot : fs_resolve true (csq_root request) w = (w1, Ok root)).
  { unfold try_except, fmap, M_fmap in Hresolved.
    destruct (fs_resolve true (csq_root request) w) as [w0 [x|e]]; [by injection Hresolved as <- <-|].
    by destruct (is_any_os_error e). }
  destruct (is_unc_root root); [by apply Hfail in Hw|]. destruct (existsb _ _); [by apply Hfail in Hw|].
  destruct (Z.ltb_spec MAX_AGENT_OUTPUT_BYTES (byte_len (str_join blank_line
    ((fun value => redact redactor value false) <$> csq_trusted_controls request)))); [by apply Hfail in Hw|].
  destruct (foreign_evidence request); [by apply Hfail in Hw|].
  destruct (traverse ScopePath (allowed_paths _)) as [allowed|] eqn:Ha; [|by apply Hfail in Hw].
  destruct (traverse ScopePath (forbidden_paths _)) as [forbidden|] eqn:Hf; [|by apply Hfail in Hw].
  apply scope_paths in Ha as ->. apply scope_paths in Hf as ->.
  apply (select_in_entries _ _ _ _ _ _ _ _ p) in Hw as (w2 & found & inline & artifacts & Hfound & Hi & Hu & Hok); [| | |done].
  - exists (entries_of found inline artifacts). split; [|exact Hok]. by exists root, w1, w2, found, inline, artifacts.
  - apply Forall_fmap, Forall_true. intros value. change (hides_all configured (redact redactor value false)).
    destruct (redacted_characters _ _ value Hredactor) as (points & -> & _ & Hh).
    done.
  - destruct limit_facts as (_ & Htotal & _). unfold limits. apply Z.min_glb; [lia|]. by apply Z.le_0_sub.
Qed.

Lemma scope_reason_None allowed forbidden path :
  _scope_reason windows allowed forbidden path = None ->
  (exists pattern, pattern ∈ allowed /\ _scope_match windows path pattern = true)
  /\ (forall pattern, pattern ∈ forbidden -> _scope_match windows path pattern = false).
Proof.
  unfold _scope_reason. destruct (existsb _ forbidden) eqn:Hf; [done|].
  destruct (existsb _ allowed) eqn:Ha; [|done]. intros _. split.
  - apply existsb_exists in Ha as (pattern & Hin%list_elem_of_In & Hm). by exists pattern.
  - intros pattern Hin%list_elem_of_In. apply not_true_iff_false. intros Hm.
    apply not_true_iff_false in Hf. apply Hf, existsb_exists. by exists pattern.
Qed.

(** C29: every path that an item of a selected package carries is an authorized one.
    The path of an item that is not an agent artifact lies in the task's scope (some
    allowed pattern matches it and no forbidden one does), and a file taken from the
    repository lies in no excluded directory and has no name of a file of secrets; an
    artifact, to which the scope is not applied, is one of the artifacts that the request
    lists for its own run and work package. *)
Theorem selection_confined (w w' : E) r p i path
    (Hrun : select windows redactor request w = (w', Ok r)) (Hp : csr_package r = Some p)
    (Hi : i ∈ cp_untrusted_items p) (Hpath : ci_path i = Some path) :
  if bool_decide (ci_kind i = ContextCandidateKind.ARTIFACT) then
    exists a, a ∈ cd_artifacts (csq_discovery request) /\ path = aar_relative_path (aca_reference a) /\
      aca_run_id a = csq_run_id request /\ aca_work_package_id a = csq_work_package_id request
  else
    (exists pattern, pattern ∈ allowed_paths (csq_task request) /\ _scope_match windows path pattern = true)
    /\ (forall pattern, pattern ∈ forbidden_paths (csq_task request) -> _scope_match windows path pattern = false)
    /\ (ci_kind i = ContextCandidateKind.REPOSITORY_FILE -> excluded_part path = false /\ _secret_path path = false).
Proof.
  destruct (selected w w' r p Hrun Hp) as (entries & _ & [Hitems _ _ _ _ _]).
  rewrite Forall_forall in Hitems. destruct (Hitems i Hi) as [_ (Hscope & Hfile & Hartifact) _ _].
  case_bool_decide as Hkind.
  - destruct (Hartifact Hkind) as (a & Ha & Hpath' & Hids). exists a. split; [done|]. split; [congruence|done].
  - destruct (scope_reason_None _ _ _ (Hscope Hkind path Hpath)). split_and!; [done..|].
    intros Hk. destruct (Hfile Hk) as (path' & Hpath' & ? & ?). rewrite Hpath in Hpath'. by injection Hpath' as <-.
Qed.

(** C31: a selection never answers with a package that lacks required evidence: of the
    entries it considered (the files and the evidence that the discovery found, without
    repetitions, and the artifacts of the request), every required one is an item of the
    package, of its kind and under its reference, exactly once and marked as required;
    there are no other required items, and the manifest states their number. *)
Theorem selection_complete (w w' : E) r p
    (Hrun : select windows redactor request w = (w', Ok r)) (Hp : csr_package r = Some p) :
  exists entries, considered w entries /\
    required_items (cp_untrusted_items p) ≡ₚ required_entries entries /\
    cm_required_count (cp_manifest p) = Z.of_nat (length (required_items (cp_untrusted_items p))).
Proof. destruct (selected w w' r p Hrun Hp) as (entries & Hc & [_ _ ? ? _ _]). by exists entries. Qed.

(** A selected package fits the agent request: at most 63 items and no more than the
    configured count, none over the item limit, and together within both the total
    limit and what the trusted controls leave of the agent's output bound. *)
Theorem selection_bounded (w w' : E) r p
    (Hrun : select windows redactor request w = (w', Ok r)) (Hp : csr_package r = Some p) :
  Z.of_nat (length (cp_untrusted_items p)) <= Z.min (max_items (csq_limits request)) 63
  /\ Forall (fun i => byte_len (ci_content i) <= max_item_bytes (csq_limits request)) (cp_untrusted_items p)
  /\ py_sum ((fun i => byte_len (ci_content i)) <$> cp_untrusted_items p) <= item_budget.
Proof.
  destruct (selected w w' r p Hrun Hp) as (entries & _ & [Hitems _ _ _ Hsum Hcount]).
  assert (Hbytes : Forall (fun i => byte_len (ci_content i) = ci_retained_bytes i) (cp_untrusted_items p)).
  { eapply Forall_impl; [exact Hitems|]. intros i [Hv _ _ _]. apply cif_bytes, (validate_ContextItem_facts i i Hv). }
  split_and!; [done| |].
  - rewrite Forall_forall in Hitems, Hbytes |- *. intros i Hi. rewrite (Hbytes i Hi). by apply Hitems.
  - assert ((fun i => byte_len (ci_content i)) <$> cp_untrusted_items p = ci_retained_bytes <$> cp_untrusted_items p) as ->; [|done].
    by apply Forall_fmap_ext_1.
Qed.

(** C30: of the secrets configured, one that cannot overlap the text that replaces a secret
    or the text that marks a cut appears neither in the content of an item of a selected
    package, whether it was cut or kept whole, nor in a trusted control.  (The path and the
    reference of an item are kept as they are.) *)
Theorem selection_hides_secrets (w w' : E) r p s
    (Hrun : select windows redactor request w = (w', Ok r)) (Hp : csr_package r = Some p)
    (Hs : s ∈ configured) (Hm : clear_of marker (code_points s) = true)
    (Ht : clear_of truncation_points (code_points s) = true) :
  Forall (fun i => hides s (ci_content i)) (cp_untrusted_items p)
  /\ Forall (hides s) (cp_trusted_controls p).
Proof.
  destruct (selected w w' r p Hrun Hp) as (entries & _ & [Hitems Hcontrols _ _ _ _]). split.
  - eapply Forall_impl; [exact Hitems|]. intros i [_ _ Hh _]. by apply Hh.
  - eapply Forall_impl; [exact Hcontrols|]. intros control Hh. by apply Hh.
Qed.

(** A file over two mebibytes is not reported as an oversized exclusion: the record of
    the exclusion refuses its own byte count, and the selection of the file raises. *)
Theorem oversized_file_raises root allowed forbidden c (w w' : E) result n
    (Hadmitted : candidate_refusal windows request allowed forbidden c = None)
    (Hread : read root (cand_path c) (max_source_bytes (csq_limits request)) w = (w', Ok result))
    (Hstatus : read_status result = ContextReadStatus.COMPLETE)
    (Hobserved : read_observed_bytes result = Some n) (Hn : 2097152 < n) :
  exists e, _prepare_file windows redactor request root allowed forbidden c w = (w', Err e).
Proof.
  unfold _prepare_file. rewrite Hadmitted. unfold _read_with_retry, limits, mbind, M_bind. rewrite Hread.
  assert (Hretry : forall k reread, retry (E := E) k reread result w' = (w', Ok result)).
  { intros [|k] reread; cbn [retry]; [done|]. by rewrite Hstatus. }
  rewrite Hretry. unfold _read_exclusion. rewrite Hstatus, Hobserved.
  pose proof Hrequest as Hl. unfold validate_ContextLimits, in_range in Hl. inv_valid. bool_prop.
  rewrite (proj2 (Z.ltb_lt (max_source_bytes (csq_limits request)) n)) by lia. cbn [orb].
  unfold exclude, _candidate_exclusion, validate_ContextExclusion. cbn [ce_schema_version ce_reference ce_path ce_source_bytes].
  unfold lift. destruct (sized _ _ _ _) as [reference|e]; cbn; [|by exists e].
  destruct (RepositoryPath _) as [path|e]; cbn; [|by exists e].
  unfold in_range. rewrite (proj2 (Z.leb_gt n 2097152)) by lia. rewrite andb_false_r. cbn. by eexists.
Qed.
End Selection.
