(* ===== verification/ContextSelectionSample.v ===== *)
(** * A repository for the selector

    A small tree of files on which the theorems about context selection are applied: a
    source file that carries a secret and is cut, a file of secrets, a file outside the
    task's scope and a file of three mebibytes. *)

From Stdlib Require Import ZArith Lia Ascii String.
From S2P Require Import Prelude Text Domain Sha256 Unicode Regex Redaction Effects Agents CommandPolicy LocalRunner LocalRunnerOutput Validation ContextPort ContextReader ContextDiscovery ContextSelection ContextSafety.
From stdpp Require Import base option strings numbers gmap sets list list_relations.

Open Scope Z_scope.

Module SelectionSample.
Definition secret : string := "sk-live-4242".

Definition app : string := "API_KEY = 'sk-live-4242'  # used by the client and by nothing else in this file".

(** Each file's text and its size on the disk; a stream is a file's place in the list. *)
Definition tree : list (string * (string * Z)) :=
  [("/repo/src/app.py", (app, byte_len app));
   ("/repo/src/main.py", ("run()", 5));
   ("/repo/src/.env", ("TOKEN=1", 7));
   ("/repo/docs/notes.md", ("notes", 5));
   ("/repo/src/big.bin", ("the first bytes", 3145728))].

Definition place (p : string) : option nat :=
  fst <$> list_find (fun entry : string * (string * Z) => entry.1 = p) tree.
Definition file (n : Z) : string * Z := default ("", 0) (snd <$> tree !! Z.to_nat n).

Definition stat_of (n : Z) : FileStat := mk_FileStat true 1 n (file n).2 7.

#[export] Instance disk : ReaderHost unit := {|
  rh_files := {|
    fs_resolve _ p := mret p;
    fs_is_dir _ := mret false;
    fs_is_file _ := mret true;
    fs_executable _ := mret false;
    fs_exists _ := mret true;
    fs_is_symlink _ := mret false;
    fs_lexists _ := mret true
  |};
  fs_stat p := match place (path_str p) with
               | Some n => mret (stat_of (Z.of_nat n))
               | None => raise (BoundaryError "FileNotFoundError" "no such file")
               end;
  open_binary p := mret (Z.of_nat (default 0%nat (place (path_str p))));
  fstat n := mret (stat_of n);
  read_stream n size := mret (first_bytes size (file n).1);
  close_file _ := mret tt;
  iterdir _ := mret []
|}.

#[export] Instance folding : CaseFolding := {| unicode_casefold n := [n] |}.
#[export] Instance tables : UnicodeTables := {| unicode_alnum _ := false |}.
#[export] Instance parser : PythonAst := {| python_imports _ := Some [] |}.
#[export] Instance encoding : ManifestEncoding := {| manifest_json m := cm_manifest_id m +:+ cm_run_id m |}.
#[export] Instance reader : ContextFileReaderPort unit := LocalContextFileReader.

Definition redactor : Redactor := mk_Redactor [secret].

Definition limits : ContextLimits := mk_ContextLimits 64 8 16 2097152 64 4096 4096 4096 1 8 8 64 1.

Definition evidence (explicit changed : list string) : ContextDiscoveryInput :=
  mk_ContextDiscoveryInput explicit changed [] None [] [] [] [] [] [].

Definition request (explicit changed : list string) : ContextSelectionRequest :=
  mk_ContextSelectionRequest 1 "request-1" "run_00000000000000000000000000000001" "P5-001"
    (mk_TaskSpecification 1 "task_00000000000000000000000000000001" "Repair the client." ["src/**"] ["src/private/**"] ["It works."])
    AgentRole.BUILDER (path_of "/repo") "repository" "worktree" [] (evidence explicit changed) limits
    ["Stay within the task; never print sk-live-4242."] (utc 1000) None.
End SelectionSample.
#[export] Existing Instance SelectionSample.disk.
#[export] Existing Instance SelectionSample.folding.
#[export] Existing Instance SelectionSample.tables.
#[export] Existing Instance SelectionSample.parser.
#[export] Existing Instance SelectionSample.encoding.
#[export] Existing Instance SelectionSample.reader.

Import SelectionSample.

Definition wanted : ContextSelectionRequest := request ["src/main.py"] ["src/app.py"; "src/.env"; "docs/notes.md"].

Example wanted_valid : validate_ContextSelectionRequest wanted = Ok wanted.
Proof. vm_compute. reflexivity. Qed.

Lemma limits_valid : validate_ContextLimits limits = Ok limits.
Proof. vm_compute. reflexivity. Qed.

Lemma redactor_made : make_Redactor [secret] = Ok redactor.
Proof. vm_compute. reflexivity. Qed.

(** What the answer's package holds: the paths and contents of its items and the
    references it left aside. *)
Definition outline (o : res ContextSelectionResult)
    : option (list (option string * string) * list (string * ExclusionReason.t)) :=
  match o with
  | Ok r => p ← csr_package r ;
            Some ((fun i => (ci_path i, ci_content i)) <$> cp_untrusted_items p,
                  (fun e => (ce_reference e, ce_reason e)) <$> cm_exclusions (cp_manifest p))
  | Err _ => None
  end.

(** The required file is whole, the changed one is redacted and cut, the file of secrets
    and the file outside the scope are reported. *)
Example wanted_outline :
  outline (snd (select false redactor wanted tt))
  = Some ([(Some "src/main.py", "run()");
           (Some "src/app.py",
            "API_KEY = [REDACTED]  # used" +:+ newline_text +:+ "[CONTEXT TRUNCATED]" +:+ newline_text
            +:+ "se in this file")],
          [("docs/notes.md", ExclusionReason.SCOPE_CONFLICT); ("src/.env", ExclusionReason.SECRET)]).
Proof. vm_compute. reflexivity. Qed.

(** A required file outside the scope is a failure. *)
Example required_out_of_scope :
  (match snd (select false redactor (request ["docs/notes.md"] []) tt) with
   | Ok r => csf_category <$> csr_failure r
   | Err _ => None
   end) = Some (Some ExclusionReason.SCOPE_CONFLICT).
Proof. vm_compute. reflexivity. Qed.

(** The selection of a file of three mebibytes raises. *)
Example oversized_selection :
  snd (select false redactor (request [] ["src/big.bin"]) tt) = Err (ValueError "source_bytes").
Proof. vm_compute. reflexivity. Qed.

Lemma wanted_answer : exists r p,
  select false redactor wanted tt = (tt, Ok r) /\ csr_package r = Some p
  /\ (fun i => (ci_path i, ci_content i)) <$> cp_untrusted_items p
     = [(Some "src/main.py", "run()");
        (Some "src/app.py", "API_KEY = [REDACTED]  # used" +:+ newline_text +:+ "[CONTEXT TRUNCATED]" +:+ newline_text
                            +:+ "se in this file")]
  /\ Forall (fun i => ci_kind i = ContextCandidateKind.REPOSITORY_FILE) (cp_untrusted_items p).
Proof.
  pose proof wanted_outline as Ho.
  assert (Hk : match snd (select false redactor wanted tt) with
               | Ok r => match csr_package r with
                         | Some p => forallb (fun i => bool_decide (ci_kind i = ContextCandidateKind.REPOSITORY_FILE))
                                       (cp_untrusted_items p)
                         | None => false
                         end
               | Err _ => false end = true) by (vm_compute; reflexivity).
  destruct (select false redactor wanted tt) as [[] [r|e]]; [|done]. cbn [snd outline] in Ho, Hk.
  destruct (csr_package r) as [p|] eqn:Hp; [|done]. exists r, p. injection Ho as Ho _. split_and!; try done.
  apply List.Forall_forall. intros i Hi. rewrite forallb_forall in Hk. by apply Hk, bool_decide_eq_true in Hi.
Qed.

Lemma selection_confined_witness : exists pattern,
  pattern ∈ ["src/**"] /\ _scope_match false "src/main.py" pattern = true.
Proof.
  destruct wanted_answer as (r & p & Hrun & Hp & Hitems & Hkinds).
  destruct (cp_untrusted_items p) as [|i items] eqn:Hi; [discriminate|].
  injection Hitems as Hpath _ _. inversion Hkinds as [|i' items' Hkind _]; subst.
  assert (Hin : i ∈ cp_untrusted_items p) by (rewrite Hi; left).
  pose proof (selection_confined false [secret] redactor wanted redactor_made limits_valid tt tt r p i "src/main.py"
                Hrun Hp Hin Hpath) as H.
  rewrite bool_decide_eq_false_2 in H by (by rewrite Hkind). apply H.
Defined.

(** The required file of the sample is the required item of its package. *)
Lemma selection_complete_witness : exists r p entries,
  select false redactor wanted tt = (tt, Ok r) /\ csr_package r = Some p
  /\ required_items (cp_untrusted_items p) ≡ₚ required_entries entries
  /\ required_items (cp_untrusted_items p) = [(ContextCandidateKind.REPOSITORY_FILE, "src/main.py")].
Proof.
  assert (Hk : match snd (select false redactor wanted tt) with
               | Ok r => match csr_package r with
                         | Some p => bool_decide (required_items (cp_untrusted_items p)
                                       = [(ContextCandidateKind.REPOSITORY_FILE, "src/main.py")])
                         | None => false
                         end
               | Err _ => false end = true) by (vm_compute; reflexivity).
  destruct wanted_answer as (r & p & Hrun & Hp & _).
  destruct (selection_complete false [secret] redactor wanted redactor_made limits_valid tt tt r p Hrun Hp)
    as (entries & _ & Hreq & _).
  exists r, p, entries. split_and!; [exact Hrun|exact Hp|exact Hreq|].
  rewrite Hrun in Hk. cbn [snd] in Hk. rewrite Hp in Hk. by apply bool_decide_eq_true in Hk.
Defined.

Lemma selection_bounded_witness : exists r p,
  select false redactor wanted tt = (tt, Ok r) /\ csr_package r = Some p
  /\ Z.of_nat (length (cp_untrusted_items p)) <= 8
  /\ Forall (fun i => byte_len (ci_content i) <= 64) (cp_untrusted_items p).
Proof.
  destruct wanted_answer as (r & p & Hrun & Hp & _). exists r, p.
  destruct (selection_bounded false [secret] redactor wanted redactor_made limits_valid tt tt r p Hrun Hp) as (H1 & H2 & _).
  split_and!; [exact Hrun|exact Hp|exact H1|exact H2].
Defined.

Lemma selection_hides_secrets_witness : exists r p,
  select false redactor wanted tt = (tt, Ok r) /\ csr_package r = Some p
  /\ Forall (fun i => hides secret (ci_content i)) (cp_untrusted_items p).
Proof.
  destruct wanted_answer as (r & p & Hrun & Hp & _). exists r, p. split_and!; [exact Hrun|exact Hp|].
  apply (selection_hides_secrets false [secret] redactor wanted redactor_made limits_valid tt tt r p secret Hrun Hp);
    [left|vm_compute; reflexivity|vm_compute; reflexivity].
Defined.

Definition big_candidate : ContextCandidate :=
  mk_ContextCandidate 1 "src/big.bin" ContextSource.CHANGED_PATH ContextImportance.PREFERRED
    ContextAuthority.REPOSITORY_CONTENT ContextTrust.UNTRUSTED_REPOSITORY [InclusionReason.CHANGED_PATH] 60
    every_role [] None false.

Lemma oversized_file_raises_witness : exists e,
  _prepare_file false redactor wanted (path_of "/repo") ["src/**"] [] big_candidate tt = (tt, Err e).
Proof.
  apply (oversized_file_raises false redactor wanted limits_valid (path_of "/repo") ["src/**"] [] big_candidate tt tt
    (mk_ContextReadResult ContextReadStatus.COMPLETE "the first bytes" (Some 3145728)) 3145728);
    [vm_compute; reflexivity|vm_compute; reflexivity|reflexivity|reflexivity|lia].
Defined.
