(* ===== verification/Json.v ===== *)
(** * JSON documents ([json.loads] with the hooks of the sources)

    The standard library's JSON reader as the sources call it: duplicate keys and the
    constants [NaN], [Infinity] and [-Infinity] are refused while reading, an integer of
    more than 4300 digits raises the [ValueError] of [int], and nesting beyond the
    interpreter's limit raises [RecursionError].  A text is its list of code points; a
    string of a document may hold a lone surrogate.  A decimal number is kept exactly, as
    a mantissa and an exponent of ten. *)

From Stdlib Require Import ZArith Lia Ascii String.
From S2P Require Import Prelude Text Domain Unicode Regex.
From stdpp Require Import base option strings numbers list list_relations.

Open Scope Z_scope.

#[warnings="-register-all"]
Inductive json : Type :=
| JNull
| JBool (b : bool)
| JInt (n : Z)
| JFloat (mantissa exponent : Z)
| JStr (points : list Z)
| JArr (items : list json)
| JObj (members : list (list Z * json)).

(** Induction with the members of the collections. *)
Definition json_rect_all (P : json -> Prop)
    (Hnull : P JNull) (Hbool : forall b, P (JBool b)) (Hint : forall n, P (JInt n))
    (Hfloat : forall m e, P (JFloat m e)) (Hstr : forall s, P (JStr s))
    (Harr : forall items, Forall P items -> P (JArr items))
    (Hobj : forall members, Forall (fun m => P m.2) members -> P (JObj members)) : forall j, P j :=
  fix go (j : json) : P j :=
    match j with
    | JNull => Hnull
    | JBool b => Hbool b
    | JInt n => Hint n
    | JFloat m e => Hfloat m e
    | JStr s => Hstr s
    | JArr items => Harr items ((fix all (l : list json) : Forall P l :=
        match l with [] => Forall_nil_2 P | x :: l => Forall_cons_2 P x l (go x) (all l) end) items)
    | JObj members => Hobj members ((fix all (l : list (list Z * json)) : Forall (fun m => P m.2) l :=
        match l with
        | [] => Forall_nil_2 _
        | x :: l => Forall_cons_2 _ x l (go x.2) (all l)
        end) members)
    end.

(** What reading a document raises. *)
Inductive json_error : Type :=
| Undecodable         (* [json.JSONDecodeError] *)
| DuplicateKey
| NonStandardNumber
| IntegerTooLong      (* [ValueError] of [int] *)
| TooDeep             (* [RecursionError] *)
| OutOfTurns.         (* never: see [loads_answers] *)

#[export] Instance json_error_eq_dec : EqDecision json_error.
Proof. solve_decision. Defined.

Abbreviation read A := (result json_error A).

(** The nesting at which the interpreter raises [RecursionError]. *)
Class Interpreter := { nesting_limit : nat }.

Definition MAX_INT_DIGITS : Z := 4300.

(** ** Characters *)

Definition json_space (n : Z) : bool := bool_decide (n ∈ [32; 9; 10; 13]).

Fixpoint skip_spaces (l : list Z) : list Z :=
  match l with
  | n :: rest => if json_space n then skip_spaces rest else l
  | [] => []
  end.

Definition hex_value (n : Z) : option Z :=
  if in_range 48 57 n then Some (n - 48)
  else if in_range 65 70 n then Some (n - 55)
  else if in_range 97 102 n then Some (n - 87)
  else None.

(** What follows a character, if the text starts with it. *)
Definition after (c : Z) (l : list Z) : option (list Z) :=
  match l with n :: rest => if n =? c then Some rest else None | [] => None end.

(** Four hexadecimal digits. *)
Definition hex4 (l : list Z) : option (Z * list Z) :=
  match l with
  | a :: b :: c :: d :: rest =>
      match hex_value a, hex_value b, hex_value c, hex_value d with
      | Some a, Some b, Some c, Some d => Some (((a * 16 + b) * 16 + c) * 16 + d, rest)
      | _, _, _, _ => None
      end
  | _ => None
  end.

Definition high_surrogate (n : Z) : bool := in_range 55296 56319 n.
Definition low_surrogate (n : Z) : bool := in_range 56320 57343 n.

(** The second half of a surrogate pair, when the text goes on with one. *)
Definition second_half (l : list Z) : option (Z * list Z) :=
  rest ← after 92 l ;
  rest ← after 117 rest ;
  low ← hex4 rest ;
  if low_surrogate low.1 then Some low else None.

Definition simple_escape (n : Z) : option Z :=
  if n =? 34 then Some 34 else if n =? 92 then Some 92 else if n =? 47 then Some 47
  else if n =? 98 then Some 8 else if n =? 102 then Some 12 else if n =? 110 then Some 10
  else if n =? 114 then Some 13 else if n =? 116 then Some 9 else None.

(** An escape after its backslash. *)
Definition escape (l : list Z) : option (Z * list Z) :=
  match after 117 l with
  | Some rest =>
      unit ← hex4 rest ;
      if high_surrogate unit.1 then
        match second_half unit.2 with
        | Some (m, rest) => Some (65536 + (unit.1 - 55296) * 1024 + (m - 56320), rest)
        | None => Some unit
        end
      else Some unit
  | None => match l with n :: rest => (fun m => (m, rest)) <$> simple_escape n | [] => None end
  end.

(** A string after its opening quote. *)
Fixpoint scan_string (fuel : nat) (acc l : list Z) : read (list Z * list Z) :=
  match fuel with
  | O => Err OutOfTurns
  | S fuel =>
      match l with
      | [] => Err Undecodable
      | n :: rest =>
          if n =? 34 then Ok (rev acc, rest)
          else if n =? 92 then
            match escape rest with
            | Some (m, rest) => scan_string fuel (m :: acc) rest
            | None => Err Undecodable
            end
          else if n <=? 31 then Err Undecodable
          else scan_string fuel (n :: acc) rest
      end
  end.

(** ** Numbers *)

Fixpoint digits (l : list Z) : list Z * list Z :=
  match l with
  | n :: rest => if ascii_digit n then let '(ds, rest) := digits rest in (n :: ds, rest) else ([], l)
  | [] => ([], [])
  end.

Definition number_of (ds : list Z) : Z := fold_left (fun acc d => acc * 10 + (d - 48)) ds 0.

(** [0] or a digit other than zero and more digits. *)
Definition integer_part (l : list Z) : option (list Z * list Z) :=
  match after 48 l with
  | Some rest => Some ([48], rest)
  | None => match digits l with ([], _) => None | parts => Some parts end
  end.

Definition fraction_part (l : list Z) : list Z * list Z :=
  match after 46 l with
  | Some rest => match digits rest with ([], _) => ([], l) | parts => parts end
  | None => ([], l)
  end.

Definition sign_part (l : list Z) : Z * list Z :=
  match after 43 l, after 45 l with
  | Some rest, _ => (1, rest)
  | None, Some rest => (-1, rest)
  | None, None => (1, l)
  end.

Definition exponent_part (l : list Z) : option Z * list Z :=
  match l with
  | n :: rest =>
      if (n =? 101) || (n =? 69) then
        let '(sign, rest) := sign_part rest in
        match digits rest with
        | ([], _) => (None, l)
        | (ds, rest) => (Some (sign * number_of ds), rest)
        end
      else (None, l)
  | [] => (None, l)
  end.

Definition scan_number (sign : Z) (l : list Z) : read (json * list Z) :=
  match integer_part l with
  | None => Err Undecodable
  | Some (whole, rest) =>
      let '(fraction, rest) := fraction_part rest in
      let '(exponent, rest) := exponent_part rest in
      match fraction, exponent with
      | [], None =>
          if MAX_INT_DIGITS <? Z.of_nat (length whole) then Err IntegerTooLong
          else Ok (JInt (sign * number_of whole), rest)
      | _, _ => Ok (JFloat (sign * number_of (whole ++ fraction))
                      (default 0 exponent - Z.of_nat (length fraction)), rest)
      end
  end.

(** ** Values *)

(** A literal word: what follows it, if the text starts with it. *)
Fixpoint literal (w l : list Z) : option (list Z) :=
  match w, l with
  | [], _ => Some l
  | c :: w, n :: l => if c =? n then literal w l else None
  | _ :: _, [] => None
  end.

Definition literals : list (list Z * read json) :=
  [(code_points "null", Ok JNull); (code_points "true", Ok (JBool true)); (code_points "false", Ok (JBool false));
   (code_points "NaN", Err NonStandardNumber); (code_points "Infinity", Err NonStandardNumber);
   (code_points "-Infinity", Err NonStandardNumber)].

Fixpoint scan_literal (words : list (list Z * read json)) (l : list Z) : option (read (json * list Z)) :=
  match words with
  | [] => None
  | (w, outcome) :: words =>
      match literal w l with
      | Some rest => Some (match outcome with Ok j => Ok (j, rest) | Err e => Err e end)
      | None => scan_literal words l
      end
  end.

(** A value without parts. *)
Definition scan_scalar (l : list Z) : read (json * list Z) :=
  match scan_literal literals l with
  | Some outcome => outcome
  | None => match after 45 l with Some rest => scan_number (-1) rest | None => scan_number 1 l end
  end.

(** [object_pairs_hook]: the keys must differ. *)
Definition pairs_hook (members : list (list Z * json)) : read json :=
  if has_duplicates members.*1 then Err DuplicateKey else Ok (JObj members).

Definition with_rest {A} (outcome : read A) (rest : list Z) : read (A * list Z) :=
  match outcome with Ok a => Ok (a, rest) | Err e => Err e end.

Section Reader.
Context `{!Interpreter}.

(** [scan_once], and the loops over the items of an array and the members of an object. *)
Fixpoint scan_value (fuel depth : nat) (l : list Z) : read (json * list Z) :=
  match fuel with
  | O => Err OutOfTurns
  | S fuel =>
      match after 34 l, after 91 l, after 123 l with
      | Some rest, _, _ => s ← scan_string (S (length rest)) [] rest ; mret (JStr s.1, s.2)
      | None, Some rest, _ =>
          if (nesting_limit <=? depth)%nat then Err TooDeep else
          let rest := skip_spaces rest in
          match after 93 rest with
          | Some rest => Ok (JArr [], rest)
          | None => scan_items fuel (S depth) [] rest
          end
      | None, None, Some rest =>
          if (nesting_limit <=? depth)%nat then Err TooDeep else
          let rest := skip_spaces rest in
          match after 125 rest with
          | Some rest => Ok (JObj [], rest)
          | None => scan_members fuel (S depth) [] rest
          end
      | None, None, None => scan_scalar l
      end
  end
with scan_items (fuel depth : nat) (acc : list json) (l : list Z) : read (json * list Z) :=
  match fuel with
  | O => Err OutOfTurns
  | S fuel =>
      v ← scan_value fuel depth l ;
      let rest := skip_spaces v.2 in
      match after 93 rest, after 44 rest with
      | Some rest, _ => Ok (JArr (rev (v.1 :: acc)), rest)
      | None, Some rest => scan_items fuel depth (v.1 :: acc) (skip_spaces rest)
      | None, None => Err Undecodable
      end
  end
with scan_members (fuel depth : nat) (acc : list (list Z * json)) (l : list Z) : read (json * list Z) :=
  match fuel with
  | O => Err OutOfTurns
  | S fuel =>
      match after 34 l with
      | None => Err Undecodable
      | Some rest =>
          key ← scan_string (S (length rest)) [] rest ;
          match after 58 (skip_spaces key.2) with
          | None => Err Undecodable
          | Some rest =>
              v ← scan_value fuel depth (skip_spaces rest) ;
              let rest := skip_spaces v.2 in
              match after 125 rest, after 44 rest with
              | Some rest, _ => with_rest (pairs_hook (rev ((key.1, v.1) :: acc))) rest
              | None, Some rest => scan_members fuel depth ((key.1, v.1) :: acc) (skip_spaces rest)
              | None, None => Err Undecodable
              end
          end
      end
  end.

(** [json.loads]: a byte order mark is refused, and so is anything after the value. *)
Definition json_loads (l : list Z) : read json :=
  match after 65279 l with
  | Some _ => Err Undecodable
  | None =>
      let text := skip_spaces l in
      v ← scan_value (S (2 * length text)) 0 text ;
      match skip_spaces v.2 with [] => mret v.1 | _ => Err Undecodable end
  end.
End Reader.

(** ** Reading answers *)

(** An outcome that is not the end of the turns, and that leaves less than it was given. *)
Definition answers {A} (n : nat) (r : read (A * list Z)) : Prop :=
  match r with Ok (_, rest) => (length rest < n)%nat | Err e => e <> OutOfTurns end.

Lemma after_length c l rest : after c l = Some rest -> length l = S (length rest).
Proof. destruct l as [|n l]; [done|]. cbn. destruct (n =? c); [|done]. by intros [= ->]. Qed.

Lemma skip_spaces_length l : (length (skip_spaces l) <= length l)%nat.
Proof. induction l as [|n l IH]; [done|]. cbn [skip_spaces length]. destruct (json_space n); cbn; lia. Qed.

Lemma hex4_length l n rest : hex4 l = Some (n, rest) -> (length rest < length l)%nat.
Proof.
  destruct l as [|a [|b [|c [|d l]]]]; [done..|]. cbn.
  destruct (hex_value a), (hex_value b), (hex_value c), (hex_value d); try done. intros [= _ <-]. lia.
Qed.

Lemma second_half_length l n rest : second_half l = Some (n, rest) -> (length rest < length l)%nat.
Proof.
  unfold second_half. destruct (after 92 l) as [l1|] eqn:H1; [|done]. cbn. destruct (after 117 l1) as [l2|] eqn:H2; [|done]. cbn.
  destruct (hex4 l2) as [[m l3]|] eqn:H3; [|done]. cbn. destruct (low_surrogate m); [|done]. intros [= _ <-].
  apply after_length in H1, H2. apply hex4_length in H3. lia.
Qed.

Lemma escape_length l n rest : escape l = Some (n, rest) -> (length rest < length l)%nat.
Proof.
  unfold escape. destruct (after 117 l) as [l1|] eqn:H1.
  - apply after_length in H1. destruct (hex4 l1) as [[m l2]|] eqn:H2; [|done]. apply hex4_length in H2. cbn.
    destruct (high_surrogate m); [|intros [= _ <-]; lia].
    destruct (second_half l2) as [[k l3]|] eqn:H3; [apply second_half_length in H3|]; intros [= _ <-]; lia.
  - destruct l as [|m l]; [done|]. destruct (simple_escape m); [|done]. cbn. intros [= _ <-]. lia.
Qed.

Lemma scan_string_answers fuel acc l : (length l < fuel)%nat -> answers (S (length l)) (scan_string fuel acc l).
Proof.
  revert acc l. induction fuel as [|fuel IH]; intros acc l Hf; [lia|]. cbn [scan_string].
  destruct l as [|n l]; [done|]. cbn [length] in *. destruct (n =? 34); [cbn; lia|].
  destruct (n =? 92).
  - destruct (escape l) as [[m rest]|] eqn:He; [|done]. apply escape_length in He.
    specialize (IH (m :: acc) rest ltac:(lia)). destruct (scan_string _ _ rest) as [[s l']|]; [cbn in *; lia|done].
  - destruct (n <=? 31); [done|]. specialize (IH (n :: acc) l ltac:(lia)).
    destruct (scan_string _ _ l) as [[s l']|]; [cbn in *; lia|done].
Qed.

Lemma digits_length l : (length (digits l).1 + length (digits l).2 = length l)%nat.
Proof.
  induction l as [|n l IH]; [done|]. cbn [digits]. destruct (ascii_digit n); [|done].
  destruct (digits l) as [ds rest]. cbn in *. lia.
Qed.

Lemma integer_part_length l ds rest : integer_part l = Some (ds, rest) -> (length rest < length l)%nat.
Proof.
  unfold integer_part. destruct (after 48 l) as [l1|] eqn:H1.
  - apply after_length in H1. intros [= _ <-]. lia.
  - pose proof (digits_length l) as Hl. destruct (digits l) as [[|d ds'] l1]; [done|]. cbn in Hl. intros [= _ <-]. lia.
Qed.

Lemma fraction_part_length l : (length (fraction_part l).2 <= length l)%nat.
Proof.
  unfold fraction_part. destruct (after 46 l) as [l1|] eqn:H1; [|done]. apply after_length in H1.
  pose proof (digits_length l1) as Hl. destruct (digits l1) as [[|d ds] l2]; cbn in *; lia.
Qed.

Lemma sign_part_length l : (length (sign_part l).2 <= length l)%nat.
Proof.
  unfold sign_part. destruct (after 43 l) as [l1|] eqn:H1; [apply after_length in H1; cbn; lia|].
  destruct (after 45 l) as [l1|] eqn:H2; [apply after_length in H2|]; cbn; lia.
Qed.

Lemma exponent_part_length l : (length (exponent_part l).2 <= length l)%nat.
Proof.
  unfold exponent_part. destruct l as [|n l]; [done|]. destruct (_ || _); [|done].
  pose proof (sign_part_length l) as Hs. destruct (sign_part l) as [sign l1]. pose proof (digits_length l1) as Hl.
  destruct (digits l1) as [[|d ds] l2]; cbn in *; lia.
Qed.

Lemma scan_number_answers sign l n : (length l <= n)%nat -> answers n (scan_number sign l).
Proof.
  intros Hn. unfold scan_number. destruct (integer_part l) as [[whole l1]|] eqn:H1; [|done]. apply integer_part_length in H1.
  pose proof (fraction_part_length l1) as H2. destruct (fraction_part l1) as [fraction l2]. cbn in H2.
  pose proof (exponent_part_length l2) as H3. destruct (exponent_part l2) as [exponent l3]. cbn in H3.
  destruct fraction, exponent; cbn; try lia. destruct (MAX_INT_DIGITS <? _); cbn; [done|lia].
Qed.

Lemma literal_length w l rest : literal w l = Some rest -> length l = (length w + length rest)%nat.
Proof.
  revert l. induction w as [|c w IH]; intros [|n l]; cbn; [by intros [= <-]|by intros [= <-]|done|].
  destruct (c =? n); [|done]. intros Hl%IH. lia.
Qed.

Lemma scan_literal_answers words l r :
  Forall (fun w => w.1 <> [] /\ w.2 <> Err OutOfTurns) words -> scan_literal words l = Some r -> answers (length l) r.
Proof.
  induction 1 as [|[w outcome] words [Hw Ho] Hws IH]; [done|]. cbn [scan_literal] in *. cbn in Hw, Ho.
  destruct (literal w l) as [rest|] eqn:Hl; [|exact IH]. apply literal_length in Hl. intros [= <-].
  destruct outcome as [j|e]; [|cbn; by intros ->]. cbn. destruct w; [done|]. cbn in Hl. lia.
Qed.

Lemma scan_scalar_answers l : answers (length l) (scan_scalar l).
Proof.
  unfold scan_scalar. destruct (scan_literal literals l) as [r|] eqn:Hr.
  { eapply scan_literal_answers; [|exact Hr]. repeat constructor; done. }
  destruct (after 45 l) as [l1|] eqn:H1; [apply after_length in H1|]; apply scan_number_answers; lia.
Qed.

Lemma pairs_hook_answers members n rest : (length rest < n)%nat -> answers n (with_rest (pairs_hook members) rest).
Proof. intros Hr. unfold pairs_hook. by destruct (has_duplicates _). Qed.

Lemma answers_weaken {A} n m (r : read (A * list Z)) : answers n r -> (n <= m)%nat -> answers m r.
Proof. destruct r as [[a rest]|e]; cbn; [lia|done]. Qed.

Lemma scan_answers `{!Interpreter} fuel :
  (forall depth l, (2 * length l < fuel)%nat -> answers (length l) (scan_value fuel depth l))
  /\ (forall depth acc l, (2 * length l + 1 < fuel)%nat -> answers (length l) (scan_items fuel depth acc l))
  /\ (forall depth acc l, (2 * length l + 1 < fuel)%nat -> answers (length l) (scan_members fuel depth acc l)).
Proof.
  induction fuel as [|fuel (IHv & IHi & IHm)]; [split_and!; intros; lia|]. split_and!.
  - intros depth l Hf. cbn [scan_value].
    destruct (after 34 l) as [l1|] eqn:H1; [|destruct (after 91 l) as [l1|] eqn:H2; [|destruct (after 123 l) as [l1|] eqn:H3]].
    + apply after_length in H1. pose proof (scan_string_answers (S (length l1)) [] l1 ltac:(lia)) as Hs.
      destruct (scan_string _ _ l1) as [[s rest]|]; [|done]. cbn in *. lia.
    + apply after_length in H2. destruct (_ <=? _)%nat; [done|]. pose proof (skip_spaces_length l1) as Hkl1.
      destruct (after 93 (skip_spaces l1)) as [l2|] eqn:H3; [apply after_length in H3; cbn; lia|].
      eapply answers_weaken; [apply IHi|]; lia.
    + apply after_length in H3. destruct (_ <=? _)%nat; [done|]. pose proof (skip_spaces_length l1) as Hkl1.
      destruct (after 125 (skip_spaces l1)) as [l2|] eqn:H4; [apply after_length in H4; cbn; lia|].
      eapply answers_weaken; [apply IHm|]; lia.
    + apply scan_scalar_answers.
  - intros depth acc l Hf. cbn [scan_items]. pose proof (IHv depth l ltac:(lia)) as Hv.
    destruct (scan_value fuel depth l) as [[j rest]|]; [|done]. cbn in *. pose proof (skip_spaces_length rest) as Hkrest.
    destruct (after 93 (skip_spaces rest)) as [l1|] eqn:H1; [apply after_length in H1; cbn; lia|].
    destruct (after 44 (skip_spaces rest)) as [l1|] eqn:H2; [|done]. apply after_length in H2. pose proof (skip_spaces_length l1) as Hkl1.
    eapply answers_weaken; [apply IHi|]; lia.
  - intros depth acc l Hf. cbn [scan_members]. destruct (after 34 l) as [l1|] eqn:H1; [|done]. apply after_length in H1.
    pose proof (scan_string_answers (S (length l1)) [] l1 ltac:(lia)) as Hs.
    destruct (scan_string _ _ l1) as [[key l2]|]; [|done]. cbn in *. pose proof (skip_spaces_length l2) as Hkl2.
    destruct (after 58 (skip_spaces l2)) as [l3|] eqn:H2; [|done]. apply after_length in H2. pose proof (skip_spaces_length l3) as Hkl3.
    pose proof (IHv depth (skip_spaces l3) ltac:(lia)) as Hv.
    destruct (scan_value fuel depth (skip_spaces l3)) as [[j l4]|]; [|done]. cbn in *. pose proof (skip_spaces_length l4) as Hkl4.
    destruct (after 125 (skip_spaces l4)) as [l5|] eqn:H3; [apply after_length in H3; apply pairs_hook_answers; lia|].
    destruct (after 44 (skip_spaces l4)) as [l5|] eqn:H4; [|done]. apply after_length in H4. pose proof (skip_spaces_length l5) as Hkl5.
    eapply answers_weaken; [apply IHm|]; lia.
Qed.

(** Reading ends. *)
Lemma loads_answers `{!Interpreter} l : json_loads l <> Err OutOfTurns.
Proof.
  unfold json_loads. destruct (after 65279 l); [done|]. set (text := skip_spaces l).
  destruct (scan_answers (S (2 * length text))) as [Hv _]. specialize (Hv 0%nat text ltac:(lia)).
  destruct (scan_value _ _ text) as [[j rest]|e]; cbn in *; [|by intros [= ->]].
  by destruct (skip_spaces rest).
Qed.
