(* ===== verification/AgentOutput.v ===== *)
(** * Untrusted agent output ([src/src/revanent/agents/base.py])

    The parser every adapter uses for what a provider wrote: bounds, JSON without
    duplicate keys or non-standard numbers, redaction of the values an adapter was told
    to keep, the schema, the correlation with the request and the limits of its response
    contract; every rejection becomes an [INVALID_OUTPUT] response.

    The schema layer's construction of a response from a document and the JSON texts it
    writes are parameters. *)

From Stdlib Require Import ZArith Lia Ascii String.
From S2P Require Import Prelude Text Domain Sha256 Unicode Redaction Json Agents.
From stdpp Require Import base option strings numbers gmap list list_relations.

Open Scope Z_scope.

(** What parsing raises: [AgentOutputError], or an exception that is not one. *)
Inductive output_error : Type :=
| AgentOutputError (category : AgentFailureCategory.t) (code message : string)
| Unexpected (e : exn).

Abbreviation output A := (result output_error A).

Definition malformed {A} (code message : string) : output A :=
  Err (AgentOutputError AgentFailureCategory.MALFORMED_OUTPUT code message).

(** [if ...: raise AgentOutputError(...)] *)
Definition reject_if (b : bool) (category : AgentFailureCategory.t) (code message : string) : output unit :=
  if b then Err (AgentOutputError category code message) else Ok tt.

Definition malformed_if (b : bool) : string -> string -> output unit :=
  reject_if b AgentFailureCategory.MALFORMED_OUTPUT.

Definition unexpected {A} (r : res A) : output A :=
  match r with Ok a => Ok a | Err e => Err (Unexpected e) end.

(** What the schema layer does: [AgentResponse.model_validate_json] of the text
    [json.dumps] writes for a document, and the JSON text of a request. *)
Class AgentSchema := {
  response_of_json : json -> option AgentResponse;
  request_json : AgentRequest -> string
}.

Definition agent_request_digest `{!AgentSchema} (request : AgentRequest) : string :=
  sha256_hex (request_json request).

(** ** Limits *)

Definition MAX_AGENT_JSON_DEPTH : Z := 24.

Record AgentOutputLimits := mk_AgentOutputLimits {
  max_input_bytes : Z;
  max_depth : Z;
  max_collection_items : Z
}.

#[export] Instance AgentOutputLimits_eq_dec : EqDecision AgentOutputLimits.
Proof. solve_decision. Defined.

Definition validate_AgentOutputLimits (l : AgentOutputLimits) : res AgentOutputLimits :=
  require (in_range 1 MAX_AGENT_OUTPUT_BYTES (max_input_bytes l)) "max_input_bytes" ;;
  require (in_range 1 MAX_AGENT_JSON_DEPTH (max_depth l)) "max_depth" ;;
  require (in_range 1 MAX_AGENT_COLLECTION_ITEMS (max_collection_items l)) "max_collection_items" ;;
  mret l.

Definition default_AgentOutputLimits : AgentOutputLimits :=
  mk_AgentOutputLimits MAX_AGENT_OUTPUT_BYTES MAX_AGENT_JSON_DEPTH MAX_AGENT_COLLECTION_ITEMS.

(** ** The shape of a document *)

(** The values of a collection, and how many they are; [None] for a scalar. *)
Definition children (j : json) : option (list json) :=
  match j with
  | JArr items => Some items
  | JObj members => Some (snd <$> members)
  | _ => None
  end.

(** The loop over the stack, whose top comes first here. *)
Fixpoint shape_loop (fuel : nat) (limits : AgentOutputLimits) (stack : list (json * Z)) (total_items : Z) : output unit :=
  match fuel with
  | O => Err (Unexpected (OtherError "the traversal ran out of turns"))
  | S fuel =>
      match stack with
      | [] => mret tt
      | (value, depth) :: stack =>
          malformed_if (max_depth limits <? depth) "json_depth_limit"
            "agent output exceeded the configured JSON nesting limit" ;;
          let inner := default [] (children value) in
          let count := Z.of_nat (length inner) in
          malformed_if (max_collection_items limits <? count) "json_collection_limit"
            (match value with
             | JObj _ => "agent output contained an oversized JSON object"
             | _ => "agent output contained an oversized JSON array"
             end) ;;
          let total_items := total_items + count in
          malformed_if (max_collection_items limits * max_depth limits <? total_items) "json_item_limit"
            "agent output exceeded the configured total JSON item limit" ;;
          shape_loop fuel limits (rev ((fun item => (item, depth + 1)) <$> inner) ++ stack) total_items
      end
  end.

(** The values of a document. *)
Fixpoint json_nodes (j : json) : nat :=
  match j with
  | JArr items => S (list_sum (json_nodes <$> items))
  | JObj members => S (list_sum ((fun m => json_nodes m.2) <$> members))
  | _ => 1
  end.

Definition _validate_json_shape (root : json) (limits : AgentOutputLimits) : output unit :=
  shape_loop (S (json_nodes root)) limits [(root, 1)] 0.

(** ** Redaction *)

(** [sorted(secrets, key=len, reverse=True)]; equal lengths keep their order. *)
Definition longest_first (secrets : list string) : list string :=
  py_sorted (fun a b => py_len b <=? py_len a) secrets.

Definition replace_sensitive (secrets : list string) (points : list Z) : list Z :=
  fold_left (fun text secret => replace_secret (code_points secret) text) (longest_first secrets) points.

Fixpoint redact_values (secrets : list string) (value : json) : json :=
  match value with
  | JStr points => JStr (replace_sensitive secrets points)
  | JArr items => JArr (redact_values secrets <$> items)
  | JObj members => JObj ((fun m => (m.1, redact_values secrets m.2)) <$> members)
  | _ => value
  end.

Definition _redact_sensitive_values (value : json) (secrets : list string) : json :=
  match secrets with [] => value | _ => redact_values secrets value end.

Definition _validate_sensitive_values (values : list string) : res (list string) :=
  raise_if ((64 <? Z.of_nat (length values)) || has_duplicates values)
    (ValueError "sensitive values must be unique and limited to 64 entries") ;;
  raise_if (existsb (fun v => bool_decide (v = "") || (4096 <? byte_len v)) values)
    (ValueError "sensitive values must contain 1 to 4096 UTF-8 bytes") ;;
  mret values.

(** ** Numbers *)

(** The float of a decimal is infinite from half a unit above the largest one on. *)
Definition float_overflows (mantissa exponent : Z) : bool :=
  let m := Z.abs mantissa in
  if m =? 0 then false
  else if 400 <? exponent then true
  else if exponent + Z.log2 m <? 0 then false
  else if 0 <=? exponent then 2 ^ 1024 - 2 ^ 970 <=? m * 10 ^ exponent
  else (2 ^ 1024 - 2 ^ 970) * 10 ^ (- exponent) <=? m.

(** The float of a decimal is one: at most half a unit away. *)
Definition float_is_one (mantissa exponent : Z) : bool :=
  if mantissa <=? 0 then false
  else if (0 <? exponent) then false
  else let scale := 10 ^ (- exponent) in
       ((2 ^ 54 - 1) * scale <=? mantissa * 2 ^ 54) && (mantissa * 2 ^ 53 <=? (2 ^ 53 + 1) * scale).

(** [json.dumps(..., allow_nan=False)] raises for an infinite float. *)
Fixpoint compliant (j : json) : bool :=
  match j with
  | JFloat m e => negb (float_overflows m e)
  | JArr items => forallb compliant items
  | JObj members => forallb (fun m => compliant m.2) members
  | _ => true
  end.

(** [value != 1] for what [dict.get] gave: [True] and [1.0] are equal to one. *)
Definition is_one (j : json) : bool :=
  match j with
  | JInt n => n =? 1
  | JBool b => b
  | JFloat m e => float_is_one m e
  | _ => false
  end.

(** [value.get(key)] *)
Definition member (key : string) (j : json) : option json :=
  match j with
  | JObj members => snd <$> find_first (fun m => bool_decide (m.1 = code_points key)) members
  | _ => None
  end.

(** ** Parsing *)

Definition document_of (text : list Z) `{!Interpreter} : output json :=
  match json_loads text with
  | Ok j => Ok j
  | Err DuplicateKey => malformed "duplicate_json_key" "agent output contained a duplicate JSON object key"
  | Err NonStandardNumber => malformed "nonstandard_number" "agent output contained a non-standard numeric value"
  | Err (Undecodable | TooDeep) => malformed "malformed_json" "agent output was not one complete JSON document"
  | Err IntegerTooLong =>
      Err (Unexpected (ValueError "Exceeds the limit (4300 digits) for integer string conversion"))
  | Err OutOfTurns => Err (Unexpected (OtherError "the document could not be read"))
  end.

Definition is_object (j : json) : bool := match j with JObj _ => true | _ => false end.

Section Parsing.
Context `{!AgentSchema} `{!Interpreter}.

Definition parse_agent_response_envelope (raw_output : string) (limits : AgentOutputLimits)
    (sensitive_values : list string) : output AgentResponse :=
  secrets ← unexpected (_validate_sensitive_values sensitive_values) ;
  malformed_if (max_input_bytes limits <? byte_len raw_output) "output_too_large"
    "agent output exceeded the configured parse limit" ;;
  malformed_if (negb (utf8_text raw_output)) "invalid_utf8" "agent output was not valid UTF-8" ;;
  parsed ← document_of (code_points raw_output) ;
  malformed_if (negb (is_object parsed)) "invalid_envelope_type" "agent output envelope must be a JSON object" ;;
  _validate_json_shape parsed limits ;;
  let sanitized := _redact_sensitive_values parsed secrets in
  reject_if (negb (match member "schema_version" sanitized with Some v => is_one v | None => false end))
    AgentFailureCategory.SCHEMA_MISMATCH "unsupported_schema_version"
    "agent output used an unsupported response schema version" ;;
  unexpected (raise_if (negb (compliant sanitized)) (ValueError "Out of range float values are not JSON compliant")) ;;
  match response_of_json sanitized with
  | Some response => mret response
  | None => malformed "invalid_response_schema" "agent output did not satisfy the strict response schema"
  end.

(** ** Checks against the request *)

(** The correlation fields of a response and of the request it should answer. *)
Definition response_correlation (r : AgentResponse) : string * string * string * string * Z * AgentRole.t * Z :=
  (resp_invocation_id r, resp_run_id r, resp_work_package_id r, resp_attempt_id r, resp_attempt_number r,
   resp_role r, expected_response_schema_version r).
Definition request_correlation (r : AgentRequest) : string * string * string * string * Z * AgentRole.t * Z :=
  (ar_invocation_id r, ar_run_id r, ar_work_package_id r, ar_attempt_id r, ar_attempt_number r,
   ar_role r, arc_schema_version (response_contract r)).

Definition validate_agent_response_correlation (response : AgentResponse) (request : AgentRequest) : output unit :=
  reject_if (negb (bool_decide (response_correlation response = request_correlation request)))
    AgentFailureCategory.CORRELATION_MISMATCH "correlation_mismatch"
    "agent response correlation did not match the originating request".

Definition all_artifacts (response : AgentResponse) : list AgentArtifactReference :=
  artifacts response ++ option_list (raw_output_artifact response).

(** The body of the loop over the artifacts. *)
Definition check_artifact (policy : AgentArtifactPolicy) (artifact : AgentArtifactReference) : output unit :=
  malformed_if (negb (String.eqb (aar_root_id artifact) (artifact_root_id policy))) "artifact_root_mismatch"
    "agent artifact referenced an unexpected artifact root" ;;
  malformed_if (max_artifact_bytes policy <? aar_observed_bytes artifact) "artifact_size_limit"
    "agent artifact exceeded the requested byte bound" ;;
  malformed_if (aap_require_redaction policy && negb (aar_redacted artifact)) "artifact_not_redacted"
    "agent artifact did not satisfy the redaction policy" ;;
  malformed_if (bool_decide (aar_kind artifact = AgentArtifactKind.RAW_OUTPUT)
                && negb (allow_raw_output_reference policy)) "raw_output_not_allowed"
    "agent response referenced raw output that was not allowed".

Definition validate_agent_response_semantics (response : AgentResponse) (request : AgentRequest) : output unit :=
  let contract := response_contract request in
  let policy := artifact_policy request in
  malformed_if (arc_max_public_text_bytes contract <? byte_len (public_text response)) "public_text_limit"
    "agent response public text exceeded the requested bound" ;;
  malformed_if (arc_max_artifacts contract <? Z.of_nat (length (artifacts response))) "artifact_count_limit"
    "agent response contained too many artifact references" ;;
  malformed_if (arc_max_diagnostics contract <? Z.of_nat (length (diagnostics response))) "diagnostic_count_limit"
    "agent response contained too many diagnostics" ;;
  malformed_if (negb (bool_decide (all_artifacts response = [])) && negb (allow_artifact_references policy))
    "artifact_not_allowed" "agent response included artifact references that were not allowed" ;;
  traverse (check_artifact policy) (all_artifacts response) ;;
  malformed_if (requires_usage_reporting (expected_capabilities request) && is_none (usage response)) "usage_missing"
    "agent response omitted required reported usage" ;;
  reject_if (match routing_provider_id (routing request) with
             | Some provider => negb (String.eqb (id_provider_id (identity response)) provider)
             | None => false
             end) AgentFailureCategory.CORRELATION_MISMATCH "provider_mismatch"
    "agent response provider did not match the requested route".

(** ** Typed outcomes *)

Definition _duration_ms (started_at completed_at : datetime) : res Z :=
  let delta := instant completed_at - instant started_at in
  let milliseconds := delta / 1000 in
  raise_if (dt_lt completed_at started_at || negb (delta =? 1000 * milliseconds))
    (ValueError "fake/parser timestamps must have a non-negative whole-millisecond delta") ;;
  mret milliseconds.

(** A response without payload that carries the correlation of its request. *)
Definition response_for (request : AgentRequest) (status : AgentStatus.t) (started_at completed_at : datetime)
    (duration_ms : Z) (summary : string) (parse : StructuredParseStatus.t) (identity : AgentProviderIdentity)
    (failure : AgentFailure) : res AgentResponse :=
  validate_AgentResponse
    (mk_AgentResponse 1 (ar_invocation_id request) (ar_run_id request) (ar_work_package_id request)
       (ar_attempt_id request) (ar_attempt_number request) (ar_role request)
       (arc_schema_version (response_contract request)) status started_at completed_at duration_ms summary "" parse
       None [] [] None identity (Some failure) None).

Definition make_failure (category : AgentFailureCategory.t) (code message : string) (retry : RetryDisposition.t)
    (side_effects : SideEffectState.t) : res AgentFailure :=
  validate_AgentFailure (mk_AgentFailure category code message retry side_effects).

Definition invalid_output_response (request : AgentRequest) (identity : AgentProviderIdentity)
    (started_at completed_at : datetime) (category : AgentFailureCategory.t) (code message : string)
    : res AgentResponse :=
  duration_ms ← _duration_ms started_at completed_at ;
  failure ← make_failure category code message RetryDisposition.NOT_RETRYABLE SideEffectState.POSSIBLE ;
  response_for request AgentStatus.INVALID_OUTPUT started_at completed_at duration_ms "Agent output was rejected"
    StructuredParseStatus.FAILED identity failure.

(** The [try] block of [normalize_agent_output]. *)
Definition checked_response (raw_output : string) (request : AgentRequest) (limits : AgentOutputLimits)
    (sensitive_values : list string) : output AgentResponse :=
  response ← parse_agent_response_envelope raw_output limits sensitive_values ;
  validate_agent_response_correlation response request ;;
  validate_agent_response_semantics response request ;;
  mret response.

Definition normalize_agent_output (raw_output : string) (request : AgentRequest) (identity : AgentProviderIdentity)
    (started_at completed_at : datetime) (limits : AgentOutputLimits) (sensitive_values : list string)
    : res AgentResponse :=
  match checked_response raw_output request limits sensitive_values with
  | Ok response => mret response
  | Err (AgentOutputError category code message) =>
      invalid_output_response request identity started_at completed_at category code message
  | Err (Unexpected e) => Err e
  end.
End Parsing.

(** ** Compatibility *)

Definition _unsupported (message : string) : res AgentFailure :=
  make_failure AgentFailureCategory.UNSUPPORTED_CAPABILITY "unsupported_capability" message
    RetryDisposition.NOT_RETRYABLE SideEffectState.NONE.

(** The pairs of a required and a supported capability. *)
Definition capability_checks (required : ExpectedAgentCapabilities) (c : AgentCapabilities) : list (bool * bool) :=
  [(requires_structured_output required, supports_structured_output c);
   (requires_read_only required, supports_read_only c);
   (requires_repository_writes required, supports_repository_writes c);
   (requires_cancellation required, supports_cancellation c);
   (requires_timeout required, supports_timeout c);
   (requires_usage_reporting required, supports_usage_reporting c);
   (requires_artifact_references required, supports_artifact_references c);
   (requires_repair required, supports_repair c)].

Definition request_compatibility_failure (c : AgentCapabilities) (request : AgentRequest) : res (option AgentFailure) :=
  if bool_decide (availability c = AgentAvailability.UNAVAILABLE) then
    Some <$> make_failure AgentFailureCategory.ADAPTER_UNAVAILABLE "adapter_unavailable"
               (match cap_reason c with
                | Some reason => if String.eqb reason "" then "agent adapter is unavailable" else reason
                | None => "agent adapter is unavailable"
                end) RetryDisposition.UNKNOWN SideEffectState.NONE
  else if match routing_provider_id (routing request) with
          | Some provider => negb (String.eqb (cap_provider_id c) provider)
          | None => false
          end
  then Some <$> _unsupported "requested provider does not match adapter capabilities"
  else if negb (bool_decide (ar_role request ∈ supported_roles c))
  then Some <$> _unsupported "requested agent role is not supported"
  else if existsb (fun '(is_required, is_supported) => is_required && negb is_supported)
            (capability_checks (expected_capabilities request) c)
  then Some <$> _unsupported "agent adapter does not support every required capability"
  else mret None.
