(* ===== verification/AgentOutputSafety.v ===== *)
(** * What the parser of agent output guarantees

    The shape check is equivalent to its recursive definition and its loop ends; no
    sensitive value is left in a string of the document; a rejected output becomes a
    response that carries the correlation of its request. *)

From Stdlib Require Import ZArith Lia Ascii String.
From S2P Require Import Prelude Text Domain Sha256 Unicode Redaction Json Effects Agents AgentOutput.
From stdpp Require Import base option strings numbers gmap list list_relations.

Open Scope Z_scope.

(** ** The shape of a document *)

(** Every value is at most as deep as allowed and no collection is too large. *)
Fixpoint within (limits : AgentOutputLimits) (depth : Z) (j : json) : bool :=
  (depth <=? max_depth limits)
  && match j with
     | JArr items => (Z.of_nat (length items) <=? max_collection_items limits)
                     && forallb (within limits (depth + 1)) items
     | JObj members => (Z.of_nat (length members) <=? max_collection_items limits)
                       && forallb (fun m => within limits (depth + 1) m.2) members
     | _ => true
     end.

(** The values inside of collections. *)
Fixpoint item_count (j : json) : Z :=
  match j with
  | JArr items => Z.of_nat (length items) + py_sum (item_count <$> items)
  | JObj members => Z.of_nat (length members) + py_sum ((fun m => item_count m.2) <$> members)
  | _ => 0
  end.

Lemma within_children limits depth j :
  within limits depth j
  = (depth <=? max_depth limits)
    && ((Z.of_nat (length (default [] (children j))) <=? max_collection_items limits)
        || bool_decide (children j = None))
    && forallb (within limits (depth + 1)) (default [] (children j)).
Proof.
  destruct j; cbn; rewrite ?orb_true_r, ?andb_true_r; try done.
  - by rewrite orb_false_r, andb_assoc.
  - rewrite length_map, orb_false_r, andb_assoc. f_equal.
    induction members as [|m members IH]; [done|]. cbn. by rewrite IH.
Qed.

Lemma item_count_children j :
  item_count j = Z.of_nat (length (default [] (children j))) + py_sum (item_count <$> default [] (children j)).
Proof. destruct j; try done. cbn. by rewrite length_fmap, <- list_fmap_compose. Qed.

Lemma json_nodes_children j : json_nodes j = S (list_sum (json_nodes <$> default [] (children j))).
Proof. destruct j; try done. cbn. by rewrite <- list_fmap_compose. Qed.

Lemma item_count_nonneg j : 0 <= item_count j.
Proof.
  induction j using json_rect_all; cbn [item_count]; try lia.
  - assert (0 <= py_sum (item_count <$> items)); [|lia].
    unfold py_sum. induction H as [|x l Hx Hl IH]; cbn in *; lia.
  - assert (0 <= py_sum ((fun m => item_count m.2) <$> members)); [|lia].
    unfold py_sum. induction H as [|x l Hx Hl IH]; cbn in *; lia.
Qed.

Definition stack_nodes (stack : list (json * Z)) : nat := list_sum ((fun p => json_nodes p.1) <$> stack).
Definition stack_items (stack : list (json * Z)) : Z := py_sum ((fun p => item_count p.1) <$> stack).

Lemma list_sum_perm l l' : l ≡ₚ l' -> list_sum l = list_sum l'.
Proof. unfold list_sum. induction 1; cbn; lia. Qed.

Lemma list_sum_app' l l' : list_sum (l ++ l') = (list_sum l + list_sum l')%nat.
Proof. unfold list_sum. induction l as [|x l IH]; cbn; [done|]. rewrite IH. lia. Qed.

Lemma py_sum_app' l l' : py_sum (l ++ l') = py_sum l + py_sum l'.
Proof. unfold py_sum. induction l as [|x l IH]; cbn; lia. Qed.

Lemma stack_items_nonneg stack : 0 <= stack_items stack.
Proof.
  unfold stack_items, py_sum. induction stack as [|[j d] stack IH]; cbn in *; [done|].
  pose proof (item_count_nonneg j). lia.
Qed.

Section Shape.
Context (limits : AgentOutputLimits) (Hlimits : validate_AgentOutputLimits limits = Ok limits).

Definition pushed (inner : list json) (depth : Z) (stack : list (json * Z)) : list (json * Z) :=
  rev ((fun item => (item, depth + 1)) <$> inner) ++ stack.

Lemma pushed_nodes inner depth stack :
  stack_nodes (pushed inner depth stack) = (list_sum (json_nodes <$> inner) + stack_nodes stack)%nat.
Proof.
  unfold stack_nodes, pushed. rewrite fmap_app, list_sum_app'. f_equal.
  rewrite <- (list_sum_perm _ _ (fmap_Permutation _ _ _ (Permutation_rev _))).
  by rewrite <- list_fmap_compose.
Qed.

Lemma pushed_items inner depth stack :
  stack_items (pushed inner depth stack) = py_sum (item_count <$> inner) + stack_items stack.
Proof.
  unfold stack_items, pushed. rewrite fmap_app, py_sum_app'. f_equal.
  rewrite <- (py_sum_perm _ _ (fmap_Permutation _ _ _ (Permutation_rev _))).
  by rewrite <- list_fmap_compose.
Qed.

Lemma pushed_within inner depth stack :
  Forall (fun p => within limits p.2 p.1 = true) (pushed inner depth stack)
  <-> forallb (within limits (depth + 1)) inner = true /\ Forall (fun p => within limits p.2 p.1 = true) stack.
Proof.
  unfold pushed. rewrite Forall_app, <- Permutation_rev, Forall_fmap. f_equiv.
  induction inner as [|x inner IH]; cbn [forallb]; [split; [done|constructor]|].
  rewrite Forall_cons, andb_true_iff, IH. done.
Qed.

Definition item_bound : Z := max_collection_items limits * max_depth limits.

Lemma reject_bind {A} b c m msg (k : output A) x :
  (reject_if b c m msg ;; k) = Ok x <-> b = false /\ k = Ok x.
Proof. unfold reject_if. destruct b; cbn; [split; [done|by intros []]|]. split; [done|by intros []]. Qed.

Lemma shape_loop_spec fuel stack total :
  (stack_nodes stack < fuel)%nat -> total <= item_bound ->
  shape_loop fuel limits stack total = Ok tt
  <-> Forall (fun p => within limits p.2 p.1 = true) stack /\ total + stack_items stack <= item_bound.
Proof.
  revert stack total. induction fuel as [|fuel IH]; intros stack total Hf Ht; [lia|]. cbn [shape_loop].
  destruct stack as [|[j depth] stack].
  { unfold stack_items. cbn. split; [|done]. intros _. split; [constructor|lia]. }
  unfold malformed_if. rewrite !reject_bind. fold item_bound. fold (pushed (default [] (children j)) depth stack).
  rewrite Forall_cons. cbn [fst snd]. rewrite within_children.
  set (inner := default [] (children j)). pose proof (json_nodes_children j) as Hn. fold inner in Hn.
  assert (Hstack : stack_nodes ((j, depth) :: stack) = (json_nodes j + stack_nodes stack)%nat) by done.
  assert (Hitems : stack_items ((j, depth) :: stack) = item_count j + stack_items stack) by done.
  rewrite Hitems, item_count_children. fold inner.
  assert (Hwidth : (Z.of_nat (length inner) <=? max_collection_items limits) || bool_decide (children j = None)
                   = (Z.of_nat (length inner) <=? max_collection_items limits)).
  { subst inner. destruct (children j) eqn:Hc; [by rewrite bool_decide_eq_false_2, orb_false_r by done|].
    cbn. pose proof Hlimits as Hl. unfold validate_AgentOutputLimits, in_range in Hl. inv_valid. bool_prop.
    by rewrite (proj2 (Z.leb_le _ _)) by lia. }
  rewrite Hwidth, !andb_true_iff, !Z.ltb_ge, !Z.leb_le.
  pose proof (stack_items_nonneg (pushed inner depth stack)) as Hpos. rewrite pushed_items in Hpos.
  destruct (decide (total + Z.of_nat (length inner) <= item_bound)) as [Hb|Hb].
  - rewrite IH by (rewrite ?pushed_nodes; lia). rewrite pushed_within, pushed_items.
    split; [intros (? & ? & _ & [? ?] & ?)|intros [[[[? ?] ?] ?] ?]]; split_and!; try done; lia.
  - split; [intros (_ & _ & ? & _); lia|]. intros [_ ?]. lia.
Qed.

(** The shape check accepts a document exactly when no value is nested deeper than
    allowed, no object or array has more members than allowed, and all of them together
    are no more than the product of the two limits; its loop ends on every document. *)
Theorem shape_check_spec root :
  _validate_json_shape root limits = Ok tt
  <-> within limits 1 root = true /\ item_count root <= max_collection_items limits * max_depth limits.
Proof.
  unfold _validate_json_shape. rewrite shape_loop_spec.
  - unfold stack_items. cbn. rewrite Forall_singleton. cbn. unfold item_bound. by rewrite Z.add_0_r.
  - unfold stack_nodes. cbn. lia.
  - pose proof Hlimits as Hl. unfold validate_AgentOutputLimits, in_range in Hl. inv_valid. bool_prop. unfold item_bound. nia.
Qed.
End Shape.

(** ** No sensitive value is left *)

(** The strings of a document that are not keys. *)
Inductive holds_string (points : list Z) : json -> Prop :=
| holds_here : holds_string points (JStr points)
| holds_item items j : j ∈ items -> holds_string points j -> holds_string points (JArr items)
| holds_member members m : m ∈ members -> holds_string points m.2 -> holds_string points (JObj members).

Lemma redacted_strings secrets j points :
  holds_string points (redact_values secrets j) -> exists original, points = replace_sensitive secrets original.
Proof.
  induction j using json_rect_all; cbn [redact_values]; intros Hh; inversion Hh; subst.
  - by exists s.
  - match goal with Hin : _ ∈ _ <$> items |- _ => apply list_elem_of_fmap in Hin as (k & -> & Hin) end.
    rewrite Forall_forall in H. by eapply H.
  - match goal with Hin : _ ∈ _ <$> members |- _ => apply list_elem_of_fmap in Hin as (k & -> & Hin) end.
    rewrite Forall_forall in H. by eapply H.
Qed.

Lemma fold_left_fmap_points (secrets : list string) points :
  fold_left (fun text secret => replace_secret secret text) (code_points <$> secrets) points
  = fold_left (fun text secret => replace_secret (code_points secret) text) secrets points.
Proof. revert points. induction secrets as [|s secrets IH]; intros points; [done|]. apply IH. Qed.

(** A sensitive value occurs in no string of the redacted document. *)
Lemma redacted_document_hides secrets values j points secret :
  _validate_sensitive_values values = Ok secrets -> secret ∈ secrets ->
  clear_of marker (code_points secret) = true ->
  holds_string points (_redact_sensitive_values j secrets) -> ~ occurs (code_points secret) points.
Proof.
  intros Hv Hin Hc Hh. unfold _redact_sensitive_values in Hh. destruct secrets as [|s0 secrets]; [by apply not_elem_of_nil in Hin|].
  apply redacted_strings in Hh as (original & ->). unfold replace_sensitive.
  assert (Hne : forall v, v ∈ s0 :: secrets -> v <> "").
  { unfold _validate_sensitive_values in Hv. inv_valid. intros v Hin' ->.
    match goal with H : existsb _ _ = false |- _ => rewrite existsb_false, Forall_forall in H; specialize (H "" Hin') end.
    done. }
  rewrite <- fold_left_fmap_points. apply fold_replace_removes; [done| |].
  - intros v (w & -> & Hw)%list_elem_of_fmap. apply code_points_nonempty, Hne.
    unfold longest_first in Hw. by rewrite py_sorted_perm in Hw.
  - apply list_elem_of_fmap. exists secret. split; [done|]. unfold longest_first. by rewrite py_sorted_perm.
Qed.

(** ** Responses without payload *)

Lemma correlation_parts request :
  validate_AgentRequest request = Ok request ->
  AgentInvocationId (ar_invocation_id request) = Ok (ar_invocation_id request)
  /\ RunId (ar_run_id request) = Ok (ar_run_id request)
  /\ WorkPackageId (ar_work_package_id request) = Ok (ar_work_package_id request)
  /\ AgentAttemptId (ar_attempt_id request) = Ok (ar_attempt_id request)
  /\ in_range 1 100 (ar_attempt_number request) = true
  /\ arc_schema_version (response_contract request) = 1.
Proof.
  intros H. unfold validate_AgentRequest in H. inv_valid. pose proof (validate_request_id _ _ H) as Hr.
  destruct request; cbn in *. injection Hr as; subst. split_and!; try done.
  match goal with H : validate_AgentResponseContract _ = Ok _ |- _ => unfold validate_AgentResponseContract in H; inv_valid end.
  by apply Z.eqb_eq.
Qed.

Lemma capability_parts c :
  validate_AgentCapabilities c = Ok c ->
  _SafeIdentifier (cap_provider_id c) = Ok (cap_provider_id c)
  /\ _SafeIdentifier (cap_adapter_id c) = Ok (cap_adapter_id c)
  /\ text_field "adapter_version" 1 64 (cap_adapter_version c) = Ok (cap_adapter_version c)
  /\ validate_optional (text_field "reason" 1 512) (cap_reason c) = Ok (cap_reason c)
  /\ validate_optional (text_field "detected_model" 1 128) (detected_model c) = Ok (detected_model c).
Proof.
  intros H. unfold validate_AgentCapabilities, _validate_capabilities in H. inv_valid.
  destruct c; cbn in *. injection H as; subst. done.
Qed.

(** An adapter's capabilities with a model name an identity. *)
Lemma identity_valid c model :
  validate_AgentCapabilities c = Ok c -> validate_optional (text_field "model" 1 128) model = Ok model ->
  validate_AgentProviderIdentity
    (mk_AgentProviderIdentity (cap_provider_id c) (cap_adapter_id c) (cap_adapter_version c) model)
  = Ok (mk_AgentProviderIdentity (cap_provider_id c) (cap_adapter_id c) (cap_adapter_version c) model).
Proof.
  intros Hc Hm. destruct (capability_parts c Hc) as (H1 & H2 & H3 & _). unfold validate_AgentProviderIdentity. cbn.
  rewrite H1. cbn. rewrite H2. cbn. rewrite H3. cbn. by rewrite Hm.
Qed.

Lemma model_field model :
  validate_optional (text_field "detected_model" 1 128) model = Ok model ->
  validate_optional (text_field "model" 1 128) model = Ok model.
Proof.
  destruct model as [m|]; [|done]. cbn. destruct (text_field "detected_model" 1 128 m) as [m'|] eqn:Hm; [|done].
  intros [= ->]. apply text_field_Ok in Hm. assert (text_field "model" 1 128 m = Ok m) as -> by by apply text_field_Ok. done.
Qed.

(** What a response without payload needs of its failure. *)
Definition agrees (status : AgentStatus.t) (parse : StructuredParseStatus.t) (category : AgentFailureCategory.t) : bool :=
  negb (bool_decide (status = AgentStatus.COMPLETED))
  && match expected_categories status with Some cs => bool_decide (category ∈ cs) | None => true end
  && (negb (bool_decide (status = AgentStatus.FAILED)) || bool_decide (category ∈ failed_categories))
  && (negb (bool_decide (status = AgentStatus.INVALID_OUTPUT)) || bool_decide (parse = StructuredParseStatus.FAILED)).

Definition summary_text (s : string) : Prop :=
  text_field "summary" 1 2048 s = Ok s /\ _require_utf8_bytes 2048 "response summary" s = Ok s.

(** The fields of a response that answers for its request. *)
Record answers_for (request : AgentRequest) (status : AgentStatus.t) (identity' : AgentProviderIdentity)
    (failure : AgentFailure) (r : AgentResponse) : Prop := {
  an_valid : validate_AgentResponse r = Ok r;
  an_correlation : response_correlation r = request_correlation request;
  an_status : resp_status r = status;
  an_identity : identity r = identity';
  an_failure : resp_failure r = Some failure;
  an_artifacts : artifacts r = [] /\ raw_output_artifact r = None
}.

Lemma response_for_answers request status started duration summary parse identity' failure :
  validate_AgentRequest request = Ok request -> is_utc started = true -> 0 <= duration <= 86400000 ->
  summary_text summary -> validate_AgentProviderIdentity identity' = Ok identity' ->
  validate_AgentFailure failure = Ok failure -> agrees status parse (af_category failure) = true ->
  exists r, response_for request status started (add_ms started duration) duration summary parse identity' failure = Ok r
            /\ answers_for request status identity' failure r.
Proof.
  intros Hreq Hutc Hdur [Hsum1 Hsum2] Hid Hfail Hagree. destruct (correlation_parts request Hreq) as (H1 & H2 & H3 & H4 & H5 & H6).
  unfold response_for. match goal with |- exists r, validate_AgentResponse ?x = Ok r /\ _ => set (built := x) end.
  assert (Hv : validate_AgentResponse built = Ok built).
  { subst built. unfold validate_AgentResponse. cbn [resp_schema_version resp_invocation_id resp_run_id resp_work_package_id
      resp_attempt_id resp_attempt_number expected_response_schema_version resp_started_at resp_completed_at resp_duration_ms
      resp_summary public_text payload diagnostics artifacts usage identity resp_failure raw_output_artifact].
    rewrite H1, H2, H3, H4, H5, H6. unfold _require_utc. change (is_utc (add_ms started duration)) with (is_utc started). rewrite Hutc.
    unfold in_range, MAX_AGENT_TIMEOUT_SECONDS. rewrite (proj2 (Z.leb_le 0 duration)), (proj2 (Z.leb_le duration _)) by lia.
    cbn [require raise_if negb Z.eqb Pos.eqb andb mbind result_bind mret result_ret]. rewrite Hsum1. cbn [mbind result_bind]. rewrite Hsum2.
    cbn [mbind result_bind validate_optional traverse mret result_ret]. rewrite Hid. cbn [mbind result_bind]. rewrite Hfail.
    cbn [mbind result_bind mret result_ret]. unfold _validate_response.
    cbn [resp_started_at resp_completed_at resp_duration_ms diagnostics artifacts raw_output_artifact].
    assert (Hlt : dt_lt (add_ms started duration) started = false).
    { unfold dt_lt, add_ms. cbn [instant]. apply Z.ltb_ge. lia. }
    rewrite Hlt. assert (Heq : (instant (add_ms started duration) - instant started =? duration * 1000) = true).
    { unfold add_ms. cbn [instant]. apply Z.eqb_eq. lia. }
    rewrite Heq. cbn. unfold agrees in Hagree.
    unfold check_status_evidence, check_failure_category. cbn.
    destruct status; cbn in *; try done;
      repeat (match goal with |- context [bool_decide ?P] => destruct (bool_decide P) end; cbn in *; try done). }
  exists built. split; [exact Hv|]. subst built. split; [exact Hv|..]; done.
Qed.

Lemma failure_summary f : validate_AgentFailure f = Ok f -> summary_text (af_message f).
Proof.
  destruct f as [category code message retry side]. unfold validate_AgentFailure, _validate_retry_safety. cbn.
  intros H. inv_valid. inv_utf8. cbn in *.
  match goal with H : text_field _ _ _ _ = Ok _ |- _ => apply text_field_Ok in H as [Hm Hl] end. split.
  - apply text_field_Ok. split; [done|lia].
  - match goal with H : _require_utf8_bytes 1024 _ _ = Ok _ |- _ => unfold _require_utf8_bytes in H; inv_valid end.
    unfold _require_utf8_bytes. apply bind_raise_if_Ok. split; [|done]. apply orb_false_iff.
    match goal with H : (_ || _) = false |- _ => apply orb_false_iff in H as [H ?]; apply orb_false_iff in H as [? ?] end.
    split; [|done]. apply orb_false_iff. split; [done|]. bool_prop. lia.
Qed.

(** A rejection that can be presented as a failure. *)
Definition presentable (category : AgentFailureCategory.t) (code message : string) : Prop :=
  make_failure category code message RetryDisposition.NOT_RETRYABLE SideEffectState.POSSIBLE
  = Ok (mk_AgentFailure category code message RetryDisposition.NOT_RETRYABLE SideEffectState.POSSIBLE)
  /\ agrees AgentStatus.INVALID_OUTPUT StructuredParseStatus.FAILED category = true.

Definition presents {A} (r : output A) : Prop :=
  forall category code message, r = Err (AgentOutputError category code message) -> presentable category code message.

Lemma presents_bind {A B} (r : output A) (f : A -> output B) :
  presents r -> (forall a, presents (f a)) -> presents (r ≫= f).
Proof. intros Hr Hf. destruct r as [a|e]; [apply Hf|]. intros c code m H. apply Hr. cbn in H. by injection H as ->. Qed.

Lemma presents_reject b category code message :
  presentable category code message -> presents (reject_if b category code message).
Proof. intros Hp. destruct b; [|done]. by intros c k m [= <- <- <-]. Qed.

Lemma presents_malformed {A} code message :
  presentable AgentFailureCategory.MALFORMED_OUTPUT code message -> presents (A := A) (malformed code message).
Proof. intros Hp. by intros c k m [= <- <- <-]. Qed.

Lemma presents_unexpected {A} (r : res A) : presents (unexpected r).
Proof. destruct r; by intros c k m [=]. Qed.

Lemma presents_ret {A} (a : A) : presents (mret a).
Proof. done. Qed.

Lemma presents_traverse {A B} (f : A -> output B) xs : (forall a, presents (f a)) -> presents (traverse f xs).
Proof.
  intros Hf. induction xs as [|x xs IH]; [done|]. cbn. destruct (f x) as [y|e] eqn:Hx; [|intros c k m [= ->]; by eapply Hf].
  destruct (traverse f xs) as [ys|e]; [done|]. intros c k m [= ->]. by eapply IH.
Qed.

Ltac literal_failure := split; vm_compute; reflexivity.

Ltac presents_step :=
  first [ apply presents_ret | apply presents_unexpected | apply presents_reject; literal_failure
        | apply presents_malformed; literal_failure | apply presents_bind; [|intros ?] ].

Lemma shape_presents fuel limits stack total : presents (shape_loop fuel limits stack total).
Proof.
  revert stack total. induction fuel as [|fuel IH]; intros stack total; cbn [shape_loop]; [by intros c k m [=]|].
  destruct stack as [|[j depth] stack]; [done|]. unfold malformed_if.
  presents_step; [presents_step|]. presents_step; [destruct j; presents_step|]. presents_step; [presents_step|]. apply IH.
Qed.

Section Normalize.
Context {schema : AgentSchema} {interpreter : Interpreter}.

Lemma document_presents text : presents (document_of text).
Proof. unfold document_of. destruct (json_loads text) as [j|[]]; try presents_step; by intros c k m [=]. Qed.

Lemma checked_presents raw request limits sensitive : presents (checked_response raw request limits sensitive).
Proof.
  unfold checked_response, parse_agent_response_envelope, validate_agent_response_correlation,
    validate_agent_response_semantics, malformed_if. cbv zeta.
  assert (Hbuilt : forall j, presents match response_of_json j with
      | Some response => mret response
      | None => malformed "invalid_response_schema" "agent output did not satisfy the strict response schema"
      end) by (intros j; destruct (response_of_json j); presents_step).
  repeat first [ apply document_presents | apply shape_presents | apply Hbuilt | presents_step
               | apply presents_traverse; intros ? | unfold check_artifact, malformed_if ].
Qed.

(** What the schema layer constructs satisfies its validators. *)
Context (Hschema : forall j r, response_of_json j = Some r -> validate_AgentResponse r = Ok r).

Lemma compliant_redacted secrets j : compliant (_redact_sensitive_values j secrets) = compliant j.
Proof.
  unfold _redact_sensitive_values. destruct secrets as [|s0 secrets]; [done|].
  induction j using json_rect_all; try done; cbn [redact_values compliant].
  - induction H as [|x l Hx Hl IH]; [done|]. cbn in *. by rewrite Hx, IH.
  - induction H as [|x l Hx Hl IH]; [done|]. cbn in *. by rewrite Hx, IH.
Qed.

Lemma unexpected_bind {A B} (r : res A) (f : A -> output B) x :
  (unexpected r ≫= f) = Ok x <-> exists a, r = Ok a /\ f a = Ok x.
Proof. destruct r; cbn; split; [intros H; by exists a|intros (b & [= ->] & H); done|done|intros (b & [=] & _)]. Qed.

Lemma response_for_correlated request status started completed duration summary parse identity' failure r :
  validate_AgentRequest request = Ok request ->
  response_for request status started completed duration summary parse identity' failure = Ok r ->
  response_correlation r = request_correlation request.
Proof.
  intros Hreq Hr. destruct (correlation_parts request Hreq) as (H1 & H2 & H3 & H4 & H5 & H6).
  unfold response_for, validate_AgentResponse in Hr. cbn in Hr. rewrite H1, H2, H3, H4, H5, H6 in Hr.
  inv_valid. pose proof (validate_response_id _ _ Hr) as ->. unfold response_correlation, request_correlation. cbn. by rewrite H6.
Qed.

Lemma invalid_output_answers request identity' started duration category code message :
  validate_AgentRequest request = Ok request -> is_utc started = true -> 0 <= duration <= 86400000 ->
  validate_AgentProviderIdentity identity' = Ok identity' -> presentable category code message ->
  exists r failure, invalid_output_response request identity' started (add_ms started duration) category code message = Ok r
            /\ answers_for request AgentStatus.INVALID_OUTPUT identity' failure r.
Proof.
  intros Hreq Hutc Hdur Hid [Hf Ha]. unfold invalid_output_response. rewrite Hf.
  assert (Hms : _duration_ms started (add_ms started duration) = Ok duration).
  { unfold _duration_ms, dt_lt, add_ms. cbn [instant].
    replace (instant started + duration * 1000 - instant started) with (duration * 1000) by lia.
    rewrite Z.div_mul by done. rewrite (proj2 (Z.ltb_ge _ _)) by lia.
    rewrite (proj2 (Z.eqb_eq (duration * 1000) (1000 * duration))) by lia. done. }
  rewrite Hms. cbn [mbind result_bind].
  destruct (response_for_answers request AgentStatus.INVALID_OUTPUT started duration "Agent output was rejected"
    StructuredParseStatus.FAILED identity'
    (mk_AgentFailure category code message RetryDisposition.NOT_RETRYABLE SideEffectState.POSSIBLE))
    as (r & Hr & Hans); [done|done|done| |done|exact Hf|exact Ha|].
  - split; vm_compute; reflexivity.
  - exists r. eexists. by rewrite Hr.
Qed.

Lemma checked_facts raw request limits sensitive r :
  checked_response raw request limits sensitive = Ok r ->
  validate_AgentResponse r = Ok r /\ response_correlation r = request_correlation request
  /\ validate_agent_response_semantics r request = Ok tt.
Proof.
  intros Hc. unfold checked_response in Hc.
  apply bind_Ok in Hc as (r' & Hparse & Hc). apply bind_Ok in Hc as ([] & Hcor & Hc). apply bind_Ok in Hc as ([] & Hsem & [= ->]).
  unfold validate_agent_response_correlation, reject_if in Hcor. destruct (negb _) eqn:Hb; [done|]. bool_prop.
  split_and!; [|done|done].
  unfold parse_agent_response_envelope in Hparse. apply unexpected_bind in Hparse as (secrets & _ & Hparse).
  unfold malformed_if in Hparse. do 2 apply reject_bind in Hparse as [_ Hparse]. apply bind_Ok in Hparse as (j & _ & Hparse).
  apply reject_bind in Hparse as [_ Hparse]. apply bind_Ok in Hparse as (u & _ & Hparse). cbv zeta in Hparse.
  apply reject_bind in Hparse as [_ Hparse]. apply unexpected_bind in Hparse as (u' & _ & Hparse).
  destruct (response_of_json _) eqn:Hj; [|done]. injection Hparse as ->. by eapply Hschema.
Qed.

Lemma response_for_facts request status started completed duration summary parse identity' failure r :
  validate_AgentRequest request = Ok request ->
  response_for request status started completed duration summary parse identity' failure = Ok r ->
  validate_AgentResponse r = Ok r /\ response_correlation r = request_correlation request.
Proof.
  intros Hreq Hr. split; [|by eapply response_for_correlated]. unfold response_for in Hr. by eapply idem.
Qed.

Lemma invalid_output_facts request identity' started completed category code message r :
  validate_AgentRequest request = Ok request ->
  invalid_output_response request identity' started completed category code message = Ok r ->
  validate_AgentResponse r = Ok r /\ response_correlation r = request_correlation request.
Proof.
  intros Hreq Hr. unfold invalid_output_response in Hr. apply bind_Ok in Hr as (d & _ & Hr).
  apply bind_Ok in Hr as (f & _ & Hr). by eapply response_for_facts.
Qed.

(** Whatever a normalization returns is a valid response to its request. *)
Lemma normalize_facts raw request identity' started completed limits sensitive r :
  validate_AgentRequest request = Ok request ->
  normalize_agent_output raw request identity' started completed limits sensitive = Ok r ->
  validate_AgentResponse r = Ok r /\ response_correlation r = request_correlation request.
Proof.
  intros Hreq Hr. unfold normalize_agent_output in Hr.
  destruct (checked_response raw request limits sensitive) as [r'|[category code message|e]] eqn:Hc; [| |done].
  - injection Hr as ->. by apply checked_facts in Hc as (? & ? & _).
  - by eapply invalid_output_facts.
Qed.

(** A computation whose unexpected exceptions are of one kind. *)
Definition escapes (P : exn -> Prop) {A} (r : output A) : Prop := forall e, r = Err (Unexpected e) -> P e.

Lemma escapes_bind P {A B} (r : output A) (f : A -> output B) :
  escapes P r -> (forall a, r = Ok a -> escapes P (f a)) -> escapes P (r ≫= f).
Proof. intros Hr Hf. destruct r as [a|e]; [by apply Hf|]. intros e' H. cbn in H. injection H as ->. by apply (Hr e'). Qed.

Lemma escapes_ok P {A} (a : A) : escapes P (Ok a).
Proof. by intros e [=]. Qed.

Lemma escapes_reject P b category code message : escapes P (reject_if b category code message).
Proof. by destruct b. Qed.

Lemma escapes_traverse P {A B} (f : A -> output B) xs : (forall a, escapes P (f a)) -> escapes P (traverse f xs).
Proof.
  intros Hf. induction xs as [|x xs IH]; [done|]. cbn. destruct (f x) as [y|e] eqn:Hx.
  - destruct (traverse f xs) as [ys|e]; [done|]. intros e' [= ->]. by apply (IH e').
  - intros e' [= ->]. by apply (Hf x e').
Qed.

Lemma shape_escapes P limits fuel stack total :
  (stack_nodes stack < fuel)%nat -> escapes P (shape_loop fuel limits stack total).
Proof.
  revert stack total. induction fuel as [|fuel IH]; intros stack total Hf; [lia|]. cbn [shape_loop].
  destruct stack as [|[j depth] stack]; [done|]. unfold malformed_if.
  do 3 (apply escapes_bind; [apply escapes_reject|intros _ _]).
  fold (pushed (default [] (children j)) depth stack). apply IH. rewrite pushed_nodes.
  pose proof (json_nodes_children j) as Hn.
  assert (stack_nodes ((j, depth) :: stack) = (json_nodes j + stack_nodes stack)%nat) by done. lia.
Qed.

(** The two documents whose exceptions are caught nowhere: one with an integer of more than
    4300 digits, and one with a number too large for a float. *)
Definition unreadable_number (raw : string) : Prop :=
  json_loads (code_points raw) = Err IntegerTooLong
  \/ exists j, json_loads (code_points raw) = Ok j /\ compliant j = false.

Definition number_error (raw : string) (e : exn) : Prop := is_ValueError e = true /\ unreadable_number raw.

Lemma document_escapes raw : escapes (number_error raw) (document_of (code_points raw)).
Proof.
  unfold document_of, number_error, unreadable_number. pose proof (loads_answers (code_points raw)) as Hl.
  destruct (json_loads (code_points raw)) as [j|[]]; try done. intros e [= <-]. split; [done|by left].
Qed.

Lemma checked_escapes raw request limits sensitive :
  _validate_sensitive_values sensitive = Ok sensitive -> escapes (number_error raw) (checked_response raw request limits sensitive).
Proof.
  intros Hs. unfold checked_response. apply escapes_bind; [|intros r _].
  - unfold parse_agent_response_envelope, malformed_if. rewrite Hs. cbn [unexpected mbind result_bind].
    do 2 (apply escapes_bind; [apply escapes_reject|intros _ _]).
    apply escapes_bind; [apply document_escapes|intros j Hj].
    apply escapes_bind; [apply escapes_reject|intros _ _].
    apply escapes_bind; [apply shape_escapes; unfold stack_nodes; cbn; lia|intros _ _].
    apply escapes_bind; [apply escapes_reject|intros _ _]. rewrite compliant_redacted.
    destruct (compliant j) eqn:Hc; cbn [negb raise_if unexpected mbind result_bind]; [by destruct (response_of_json _)|].
    intros e [= <-]. split; [done|right]. exists j. split; [|done].
    unfold document_of in Hj. by destruct (json_loads _) as [j'|[]]; try done; injection Hj as ->.
  - apply escapes_bind; [apply escapes_reject|intros _ _]. apply escapes_bind; [|done].
    unfold validate_agent_response_semantics, malformed_if. cbv zeta.
    do 4 (apply escapes_bind; [apply escapes_reject|intros _ _]).
    apply escapes_bind; [|intros _ _].
    { apply escapes_traverse. intros artifact. unfold check_artifact, malformed_if.
      repeat (apply escapes_bind; [apply escapes_reject|intros _ _]). apply escapes_reject. }
    apply escapes_bind; [apply escapes_reject|intros _ _]. apply escapes_reject.
Qed.

(** C35: whatever bytes a provider wrote, normalization gives the adapter a response - one
    that satisfies every validator and carries the correlation of the request, and that
    either says the output was invalid or keeps the limits of the request's response
    contract - or it raises a [ValueError], and then the bytes are a document with an
    integer of more than 4300 digits or with a number too large for a float.  The caller
    has a valid request, a valid identity, valid sensitive values, and passes two instants
    in UTC at most a day of whole milliseconds apart. *)
Theorem normalize_answers raw request identity' started duration limits sensitive
    (Hreq : validate_AgentRequest request = Ok request) (Hutc : is_utc started = true) (Hdur : 0 <= duration <= 86400000)
    (Hid : validate_AgentProviderIdentity identity' = Ok identity')
    (Hsensitive : _validate_sensitive_values sensitive = Ok sensitive) :
  match normalize_agent_output raw request identity' started (add_ms started duration) limits sensitive with
  | Ok r => validate_AgentResponse r = Ok r /\ response_correlation r = request_correlation request
      /\ (resp_status r = AgentStatus.INVALID_OUTPUT /\ identity r = identity' /\ artifacts r = []
          \/ validate_agent_response_semantics r request = Ok tt)
  | Err e => is_ValueError e = true /\ unreadable_number raw
  end.
Proof.
  unfold normalize_agent_output. pose proof (checked_presents raw request limits sensitive) as Hp.
  destruct (checked_response raw request limits sensitive) as [r|[category code message|e]] eqn:Hc.
  - destruct (checked_facts _ _ _ _ _ Hc) as (? & ? & ?). by split_and!; [..|right].
  - destruct (invalid_output_answers request identity' started duration category code message) as (r & f & -> & Hans); try done.
    { by apply Hp. }
    destruct Hans as [Hv Hcor Hs Hi _ [Ha _]]. split_and!; try done. left. done.
  - by apply (checked_escapes raw request limits sensitive Hsensitive).
Qed.

(** An integer of more than 4300 digits is not rejected like other malformed output:
    reading it raises a [ValueError] that is none of the exceptions caught, and that
    leaves the adapter instead of an [INVALID_OUTPUT] response. *)
Theorem long_integer_escapes raw request identity' started completed limits sensitive
    (Hsensitive : _validate_sensitive_values sensitive = Ok sensitive)
    (Hsize : byte_len raw <= max_input_bytes limits) (Hutf8 : utf8_text raw = true)
    (Hlong : json_loads (code_points raw) = Err IntegerTooLong) :
  normalize_agent_output raw request identity' started completed limits sensitive
  = Err (ValueError "Exceeds the limit (4300 digits) for integer string conversion").
Proof.
  unfold normalize_agent_output, checked_response, parse_agent_response_envelope, malformed_if, reject_if.
  rewrite Hsensitive, Hutf8. cbn [unexpected mbind result_bind]. rewrite (proj2 (Z.ltb_ge _ _)) by done.
  cbn [mbind result_bind negb]. unfold document_of. by rewrite Hlong.
Qed.
End Normalize.
