(* ===== verification/FakeAgent.v ===== *)
(** * The scripted agent adapter ([src/src/revanent/agents/fake.py])

    A finite script of steps, each for one exact request: an invocation consumes at most
    one step and always answers with a typed response.  The lock around [invoke] makes
    every invocation one transition of the adapter's state. *)

From Stdlib Require Import ZArith Lia Ascii String.
From S2P Require Import Prelude Text Domain Sha256 Unicode Redaction Json Effects Agents AgentOutput AgentOutputSafety.
From stdpp Require Import base option strings numbers gmap list list_relations.

Open Scope Z_scope.

(** ** Scenarios *)

Record ScriptedResponseOutcome := mk_ScriptedResponseOutcome {
  so_status : AgentStatus.t;
  so_summary : string;
  so_public_text : string;
  so_structured_parse_status : StructuredParseStatus.t;
  so_payload : option AgentPayload;
  so_diagnostics : list AgentDiagnostic;
  so_artifacts : list AgentArtifactReference;
  so_usage : option AgentUsage;
  so_failure : option AgentFailure;
  so_raw_output_artifact : option AgentArtifactReference
}.

Definition _validate_shape (o : ScriptedResponseOutcome) : res ScriptedResponseOutcome :=
  raise_if (65536 <? byte_len (so_public_text o)) (ValueError "scripted public text exceeds the hard byte limit") ;;
  raise_if ((64 <? Z.of_nat (length (so_diagnostics o))) || (64 <? Z.of_nat (length (so_artifacts o))))
    (ValueError "scripted diagnostics and artifacts are limited to 64 entries") ;;
  (if bool_decide (so_status o = AgentStatus.COMPLETED)
   then raise_if (is_none (so_payload o) || is_some (so_failure o))
          (ValueError "completed scripted outcomes require payload and no failure")
   else raise_if (is_some (so_payload o) || is_none (so_failure o))
          (ValueError "non-completed scripted outcomes require failure and no payload")) ;;
  mret o.

Definition validate_ScriptedResponseOutcome (o : ScriptedResponseOutcome) : res ScriptedResponseOutcome :=
  summary ← text_field "summary" 1 2048 (so_summary o) ;
  text ← text_field "public_text" 0 65536 (so_public_text o) ;
  payload ← validate_optional validate_AgentPayload (so_payload o) ;
  diagnostics ← traverse validate_AgentDiagnostic (so_diagnostics o) ;
  artifacts ← traverse validate_AgentArtifactReference (so_artifacts o) ;
  usage ← validate_optional validate_AgentUsage (so_usage o) ;
  failure ← validate_optional validate_AgentFailure (so_failure o) ;
  raw ← validate_optional validate_AgentArtifactReference (so_raw_output_artifact o) ;
  _validate_shape
    (mk_ScriptedResponseOutcome (so_status o) summary text (so_structured_parse_status o) payload diagnostics
       artifacts usage failure raw).

Inductive FakeOutcome : Type :=
| Scripted (o : ScriptedResponseOutcome)
| ScriptedRawOutput (raw_output : string).

Definition validate_FakeOutcome (o : FakeOutcome) : res FakeOutcome :=
  match o with
  | Scripted o => Scripted <$> validate_ScriptedResponseOutcome o
  | ScriptedRawOutput raw =>
      raise_if (1 * 1024 * 1024 <? byte_len raw)
        (ValueError "scripted raw output is limited to the parser hard ceiling") ;;
      mret (ScriptedRawOutput raw)
  end.

Record FakeAgentStep := mk_FakeAgentStep {
  expected_request_sha256 : string;
  step_started_at : datetime;
  step_duration_ms : Z;
  cancellation_checkpoints : Z;
  step_outcome : FakeOutcome
}.

Definition validate_FakeAgentStep (s : FakeAgentStep) : res FakeAgentStep :=
  digest ← pattern_field "expected_request_sha256" _SHA256 (expected_request_sha256 s) ;
  started ← _require_utc (step_started_at s) ;
  require (in_range 0 86400000 (step_duration_ms s)) "duration_ms" ;;
  require (in_range 0 1000 (cancellation_checkpoints s)) "cancellation_checkpoints" ;;
  outcome ← validate_FakeOutcome (step_outcome s) ;
  mret (mk_FakeAgentStep digest started (step_duration_ms s) (cancellation_checkpoints s) outcome).

Record FakeAgentScenario := mk_FakeAgentScenario {
  scenario_schema_version : Z;
  scenario_id : string;
  scenario_capabilities : AgentCapabilities;
  default_timestamp : datetime;
  scenario_steps : list FakeAgentStep;
  scenario_output_limits : AgentOutputLimits
}.

Definition validate_FakeAgentScenario (s : FakeAgentScenario) : res FakeAgentScenario :=
  require (scenario_schema_version s =? 1) "schema_version" ;;
  id ← _SafeIdentifier (scenario_id s) ;
  capabilities ← validate_AgentCapabilities (scenario_capabilities s) ;
  timestamp ← _require_utc (default_timestamp s) ;
  steps ← traverse validate_FakeAgentStep (scenario_steps s) ;
  limits ← validate_AgentOutputLimits (scenario_output_limits s) ;
  raise_if (MAX_AGENT_COLLECTION_ITEMS <? Z.of_nat (length steps))
    (ValueError "fake scenarios are limited to 256 steps") ;;
  mret (mk_FakeAgentScenario (scenario_schema_version s) id capabilities timestamp steps limits).

(** ** The adapter *)

(** Its counters and the world of the cancellation token. *)
Record FakeWorld (E : Type) := mk_FakeWorld {
  fake_position : nat;
  fake_invocation_count : nat;
  fake_env : E
}.
Arguments mk_FakeWorld {E}.
Arguments fake_position {E}.
Arguments fake_invocation_count {E}.
Arguments fake_env {E}.

Section FakeAgentAdapter.
Context {E Token : Type} `{!AgentSchema} `{!Interpreter}.
Variable is_cancelled : Token -> M E bool.
Variable scenario : FakeAgentScenario.

Abbreviation W := (FakeWorld E).

Definition in_token {A} (m : M E A) : M W A := fun w =>
  let '(e, r) := m (fake_env w) in (mk_FakeWorld (fake_position w) (fake_invocation_count w) e, r).

Definition fake_cancelled (cancellation : option Token) : M W bool :=
  match cancellation with Some token => in_token (is_cancelled token) | None => mret false end.

Definition _identity : res AgentProviderIdentity :=
  let c := scenario_capabilities scenario in
  validate_AgentProviderIdentity
    (mk_AgentProviderIdentity (cap_provider_id c) (cap_adapter_id c) (cap_adapter_version c) (detected_model c)).

Definition _failure_response (request : AgentRequest) (status : AgentStatus.t) (failure : AgentFailure)
    (timestamp completed_at : option datetime) : res AgentResponse :=
  let started_at := default (default_timestamp scenario) timestamp in
  let finished_at := default started_at completed_at in
  let duration_ms := (instant finished_at - instant started_at) / 1000 in
  identity ← _identity ;
  response_for request status started_at finished_at duration_ms (af_message failure)
    StructuredParseStatus.NOT_PROVIDED identity failure.

(** A failure that is constructed and presented at once. *)
Definition fail_with (request : AgentRequest) (status : AgentStatus.t) (category : AgentFailureCategory.t)
    (code message : string) (retry : RetryDisposition.t) (side_effects : SideEffectState.t)
    (timestamp completed_at : option datetime) : res AgentResponse :=
  failure ← make_failure category code message retry side_effects ;
  _failure_response request status failure timestamp completed_at.

Definition scripted_response (request : AgentRequest) (step : FakeAgentStep) (o : ScriptedResponseOutcome)
    (identity : AgentProviderIdentity) (completed_at : datetime) : res AgentResponse :=
  validate_AgentResponse
    (mk_AgentResponse 1 (ar_invocation_id request) (ar_run_id request) (ar_work_package_id request)
       (ar_attempt_id request) (ar_attempt_number request) (ar_role request)
       (arc_schema_version (response_contract request)) (so_status o) (step_started_at step) completed_at
       (step_duration_ms step) (so_summary o) (so_public_text o) (so_structured_parse_status o) (so_payload o)
       (so_diagnostics o) (so_artifacts o) (so_usage o) identity (so_failure o) (so_raw_output_artifact o)).

(** [AgentOutputError] raised outside of [normalize_agent_output] is one more exception. *)
Definition raised {A} (o : output A) : res A :=
  match o with
  | Ok a => Ok a
  | Err (AgentOutputError _ _ message) => Err (BoundaryError "AgentOutputError" message)
  | Err (Unexpected e) => Err e
  end.

Definition mismatched_identity (response : AgentResponse) (expected : AgentProviderIdentity) : bool :=
  negb (bool_decide (resp_status response = AgentStatus.INVALID_OUTPUT))
  && negb (bool_decide (identity response = expected)).

Definition _execute_step (request : AgentRequest) (step : FakeAgentStep) (completed_at : datetime) : res AgentResponse :=
  expected ← _identity ;
  match step_outcome step with
  | ScriptedRawOutput raw =>
      response ← normalize_agent_output raw request expected (step_started_at step) completed_at
                   (scenario_output_limits scenario) [] ;
      if mismatched_identity response expected then
        invalid_output_response request expected (step_started_at step) completed_at
          AgentFailureCategory.CORRELATION_MISMATCH "adapter_identity_mismatch"
          "agent response identity did not match the selected adapter"
      else mret response
  | Scripted o =>
      response ← scripted_response request step o expected completed_at ;
      raised (validate_agent_response_semantics response request) ;;
      mret response
  end.

(** The scripted checkpoints: true at the first one that finds the token cancelled. *)
Fixpoint checkpoints (n : nat) (cancellation : option Token) : M W bool :=
  match n with
  | O => mret false
  | S n =>
      stop ← fake_cancelled cancellation ;
      if (stop : bool) then mret true else checkpoints n cancellation
  end.

Definition count_invocation : M W unit := fun w =>
  (mk_FakeWorld (fake_position w) (S (fake_invocation_count w)) (fake_env w), Ok tt).
Definition consume_step : M W unit := fun w =>
  (mk_FakeWorld (S (fake_position w)) (fake_invocation_count w) (fake_env w), Ok tt).

(** What follows the consumption of a step. *)
Definition run_step (request : AgentRequest) (step : FakeAgentStep) (cancellation : option Token) : M W AgentResponse :=
  let started := Some (step_started_at step) in
  let completed_at := add_ms (step_started_at step) (step_duration_ms step) in
  stopped ← checkpoints (Z.to_nat (cancellation_checkpoints step)) cancellation ;
  lift (
    if (stopped : bool) then
      fail_with request AgentStatus.CANCELLED AgentFailureCategory.CANCELLATION "cancelled_during_invocation"
        "agent invocation was cancelled at a scripted boundary" RetryDisposition.UNKNOWN SideEffectState.POSSIBLE
        started (Some completed_at)
    else if ar_timeout_seconds request * 1000 <? step_duration_ms step then
      fail_with request AgentStatus.TIMED_OUT AgentFailureCategory.TIMEOUT "scripted_timeout"
        "agent invocation exceeded its deterministic timeout" RetryDisposition.UNKNOWN SideEffectState.POSSIBLE
        started (Some completed_at)
    else match _execute_step request step completed_at with
         | Ok response => mret response
         | Err _ =>
             fail_with request AgentStatus.FAILED AgentFailureCategory.INTERNAL_ADAPTER_FAILURE "fake_adapter_internal"
               "fake adapter could not normalize the scripted outcome" RetryDisposition.UNKNOWN
               SideEffectState.POSSIBLE started (Some completed_at)
         end).

Definition fake_invoke (request : AgentRequest) (cancellation : option Token) : M W AgentResponse :=
  count_invocation ;;
  cancelled ← fake_cancelled cancellation ;
  if (cancelled : bool) then
    lift (fail_with request AgentStatus.CANCELLED AgentFailureCategory.CANCELLATION "cancelled_before_invocation"
            "agent invocation was cancelled before scripted execution" RetryDisposition.RETRYABLE SideEffectState.NONE
            None None)
  else
    compatibility ← lift (request_compatibility_failure (scenario_capabilities scenario) request) ;
    match compatibility with
    | Some failure =>
        lift (_failure_response request
                (if bool_decide (af_category failure = AgentFailureCategory.ADAPTER_UNAVAILABLE)
                 then AgentStatus.UNAVAILABLE else AgentStatus.FAILED) failure None None)
    | None =>
        position ← gets fake_position ;
        match scenario_steps scenario !! position with
        | None =>
            lift (fail_with request AgentStatus.FAILED AgentFailureCategory.INVOCATION_FAILURE "scenario_exhausted"
                    "deterministic fake scenario has no remaining scripted step" RetryDisposition.NOT_RETRYABLE
                    SideEffectState.NONE None None)
        | Some step =>
            if negb (String.eqb (agent_request_digest request) (expected_request_sha256 step)) then
              lift (fail_with request AgentStatus.FAILED AgentFailureCategory.INVALID_REQUEST "scenario_request_mismatch"
                      "request did not match the next scripted fake expectation" RetryDisposition.NOT_RETRYABLE
                      SideEffectState.NONE (Some (step_started_at step)) None)
            else consume_step ;; run_step request step cancellation
        end
    end.
End FakeAgentAdapter.

(** ** Invocations *)

Section Invocation.
Context {E Token : Type} {schema : AgentSchema} {interpreter : Interpreter}.
Context (is_cancelled : Token -> M E bool).
Context (Htoken : forall token e, exists e' b, is_cancelled token e = (e', Ok b)).
Context (Hschema : forall j r, response_of_json j = Some r -> validate_AgentResponse r = Ok r).
Context (scenario : FakeAgentScenario) (Hscenario : validate_FakeAgentScenario scenario = Ok scenario).
Context (Hreason : forall reason, cap_reason (scenario_capabilities scenario) = Some reason ->
  byte_len reason <= 1024 /\ str_contains nul reason = false).
Context (request : AgentRequest) (Hrequest : validate_AgentRequest request = Ok request).

Abbreviation capabilities := (scenario_capabilities scenario).

(** The identity every response of the adapter names. *)
Definition adapter_identity : AgentProviderIdentity :=
  mk_AgentProviderIdentity (cap_provider_id capabilities) (cap_adapter_id capabilities)
    (cap_adapter_version capabilities) (detected_model capabilities).

Lemma scenario_parts :
  validate_AgentCapabilities capabilities = Ok capabilities
  /\ is_utc (default_timestamp scenario) = true
  /\ Forall (fun s => validate_FakeAgentStep s = Ok s) (scenario_steps scenario).
Proof.
  pose proof Hscenario as H. unfold validate_FakeAgentScenario in H. inv_valid.
  destruct scenario; cbn in *. injection H as; subst.
  split_and!; [done| |by apply traverse_Ok_fix].
  match goal with H : _require_utc _ = Ok _ |- _ => apply require_utc_Ok in H as [_ ?] end. done.
Qed.

Lemma adapter_identity_valid : validate_AgentProviderIdentity adapter_identity = Ok adapter_identity.
Proof.
  destruct scenario_parts as (Hc & _ & _). apply identity_valid; [done|]. apply model_field.
  by apply capability_parts.
Qed.

Lemma identity_answers : _identity scenario = Ok adapter_identity.
Proof. apply adapter_identity_valid. Qed.

(** What every answer is. *)
Definition good_answer (r : AgentResponse) : Prop :=
  validate_AgentResponse r = Ok r /\ response_correlation r = request_correlation request
  /\ (identity r = adapter_identity \/ resp_status r = AgentStatus.INVALID_OUTPUT).

Lemma failure_answers status failure started duration :
  validate_AgentFailure failure = Ok failure -> agrees status StructuredParseStatus.NOT_PROVIDED (af_category failure) = true ->
  is_utc (default (default_timestamp scenario) started) = true -> 0 <= duration <= 86400000 ->
  exists r, _failure_response scenario request status failure started
      (Some (add_ms (default (default_timestamp scenario) started) duration)) = Ok r /\ good_answer r.
Proof.
  intros Hf Ha Hu Hd. unfold _failure_response. set (t := default (default_timestamp scenario) started) in *.
  rewrite identity_answers. change (default t (Some (add_ms t duration))) with (add_ms t duration). cbv zeta.
  assert ((instant (add_ms t duration) - instant t) / 1000 = duration) as ->.
  { unfold add_ms. cbn [instant]. symmetry. apply Z.div_unique_exact; lia. }
  destruct (response_for_answers request status t duration (af_message failure)
    StructuredParseStatus.NOT_PROVIDED adapter_identity failure) as (r & Hr & Hans); try done.
  - by apply failure_summary.
  - apply adapter_identity_valid.
  - exists r. split; [exact Hr|]. destruct Hans as [Hv Hc _ Hi _ _]. split_and!; [done..|by left].
Qed.

Lemma add_no_ms t : add_ms t 0 = t.
Proof. destruct t. unfold add_ms. cbn. f_equal. lia. Qed.

Lemma failure_answers_now status failure started :
  validate_AgentFailure failure = Ok failure -> agrees status StructuredParseStatus.NOT_PROVIDED (af_category failure) = true ->
  is_utc (default (default_timestamp scenario) started) = true ->
  exists r, _failure_response scenario request status failure started None = Ok r /\ good_answer r.
Proof.
  intros Hf Ha Hu. destruct (failure_answers status failure started 0 Hf Ha Hu ltac:(lia)) as (r & Hr & Hg).
  exists r. split; [|done]. unfold _failure_response in *. rewrite add_no_ms in Hr. exact Hr.
Qed.

Lemma execute_good step completed r :
  _execute_step scenario request step completed = Ok r -> good_answer r.
Proof.
  unfold _execute_step. rewrite identity_answers. cbn [mbind result_bind].
  destruct (step_outcome step) as [o|raw].
  - intros Hr. apply bind_Ok in Hr as (r' & Hr' & Hr). apply bind_Ok in Hr as (u & _ & [= ->]).
    unfold scripted_response in Hr'. pose proof (idem _ _ Hr') as Hv. split_and!; [done| |left].
    all: destruct (correlation_parts request Hrequest) as (H1 & H2 & H3 & H4 & H5 & H6);
      unfold validate_AgentResponse in Hr'; cbn in Hr'; rewrite H1, H2, H3, H4, H5, H6 in Hr'; inv_valid;
      pose proof (validate_response_id _ _ Hr') as ->; cbn.
    + unfold response_correlation, request_correlation. cbn. by rewrite H6.
    + by match goal with H : validate_AgentProviderIdentity _ = Ok ?i |- _ =>
        pose proof adapter_identity_valid as Hid; unfold adapter_identity in *; rewrite Hid in H; injection H end.
  - intros Hr. apply bind_Ok in Hr as (r' & Hr' & Hr). apply (normalize_facts Hschema) in Hr' as [Hv Hc]; [|done].
    unfold mismatched_identity in Hr. destruct (_ && _) eqn:Hm.
    + pose proof (invalid_output_facts _ _ _ _ _ _ _ _ Hrequest Hr) as [? ?]. split_and!; [done..|right].
      unfold invalid_output_response in Hr. apply bind_Ok in Hr as (d & _ & Hr). apply bind_Ok in Hr as (f & _ & Hr).
      unfold response_for, validate_AgentResponse in Hr. inv_valid. by pose proof (validate_response_id _ _ Hr) as ->.
    + injection Hr as ->. split_and!; [done..|]. bool_prop.
      apply andb_false_iff in Hm as [Hm|Hm]; bool_prop; [by right|by left].
Qed.

(** Literal failures, presented. *)
Lemma fails_now status category code message retry side started :
  make_failure category code message retry side = Ok (mk_AgentFailure category code message retry side) ->
  agrees status StructuredParseStatus.NOT_PROVIDED category = true ->
  is_utc (default (default_timestamp scenario) started) = true ->
  exists r, fail_with scenario request status category code message retry side started None = Ok r /\ good_answer r.
Proof. intros Hf Ha Hu. unfold fail_with. rewrite Hf. cbn [mbind result_bind]. by apply failure_answers_now. Qed.

Lemma fails_later status category code message retry side started duration :
  make_failure category code message retry side = Ok (mk_AgentFailure category code message retry side) ->
  agrees status StructuredParseStatus.NOT_PROVIDED category = true ->
  is_utc started = true -> 0 <= duration <= 86400000 ->
  exists r, fail_with scenario request status category code message retry side (Some started)
              (Some (add_ms started duration)) = Ok r /\ good_answer r.
Proof.
  intros Hf Ha Hu Hd. unfold fail_with. rewrite Hf. cbn [mbind result_bind].
  by apply (failure_answers status _ (Some started) duration).
Qed.

Lemma compatibility_answers :
  exists o, request_compatibility_failure capabilities request = Ok o
  /\ (forall f, o = Some f -> validate_AgentFailure f = Ok f
        /\ agrees (if bool_decide (af_category f = AgentFailureCategory.ADAPTER_UNAVAILABLE)
                   then AgentStatus.UNAVAILABLE else AgentStatus.FAILED)
             StructuredParseStatus.NOT_PROVIDED (af_category f) = true).
Proof.
  unfold request_compatibility_failure.
  assert (Hlit : forall message, is_ok (_unsupported message) = true -> exists f, _unsupported message = Ok f
     /\ validate_AgentFailure f = Ok f /\ af_category f = AgentFailureCategory.UNSUPPORTED_CAPABILITY).
  { intros message. destruct (_unsupported message) as [f|] eqn:Hf; [|done]. intros _. exists f. split; [done|].
    unfold _unsupported, make_failure in Hf. split; [by eapply idem|].
    unfold validate_AgentFailure, _validate_retry_safety in Hf. by inv_valid. }
  case_bool_decide as Hav.
  - set (message := match cap_reason capabilities with Some _ => _ | None => _ end).
    assert (Hm : make_failure AgentFailureCategory.ADAPTER_UNAVAILABLE "adapter_unavailable" message RetryDisposition.UNKNOWN
                   SideEffectState.NONE
                 = Ok (mk_AgentFailure AgentFailureCategory.ADAPTER_UNAVAILABLE "adapter_unavailable" message
                         RetryDisposition.UNKNOWN SideEffectState.NONE)).
    { subst message. pose proof scenario_parts as (Hcap & _ & _). pose proof Hreason as Hpresent.
      destruct (cap_reason capabilities) as [reason|] eqn:Hc; [|vm_compute; reflexivity].
      destruct (String.eqb_spec reason ""); [vm_compute; reflexivity|].
      apply capability_parts in Hcap as (_ & _ & _ & Hr & _).
      rewrite Hc in Hr. cbn in Hr. apply bind_Ok in Hr as (reason' & Hr & [= ->]). apply text_field_Ok in Hr as [Hs Hl].
      destruct (Hpresent reason eq_refl) as [Hb Hn]. unfold make_failure, validate_AgentFailure. cbn [af_code af_message af_category af_retry af_side_effects].
      assert (pattern_field "code" _SAFE_ID "adapter_unavailable" = Ok "adapter_unavailable") as -> by (vm_compute; reflexivity).
      cbn [mbind result_bind]. assert (text_field "message" 1 1024 reason = Ok reason) as -> by (apply text_field_Ok; split; [done|lia]).
      cbn [mbind result_bind]. unfold _require_utf8_bytes. rewrite Hn, (proj2 (Z.ltb_ge _ _) Hb), bool_decide_eq_false_2 by done.
      reflexivity. }
    rewrite Hm. eexists. split; [reflexivity|]. intros f [= <-]. by split.
  - destruct (match routing_provider_id _ with Some _ => _ | None => _ end); [|destruct (negb _); [|destruct (existsb _ _)]].
    4:{ by exists None. }
    all: match goal with |- context [_unsupported ?m] => destruct (Hlit m) as (f & -> & Hv & Hcat); [vm_compute; reflexivity|] end;
      exists (Some f); (split; [reflexivity|]); intros f' [= <-]; rewrite Hcat; by split.
Qed.

Lemma cancelled_answers cancellation (w : FakeWorld E) :
  exists e' b, fake_cancelled is_cancelled cancellation w = (mk_FakeWorld (fake_position w) (fake_invocation_count w) e', Ok b).
Proof.
  destruct cancellation as [token|]; cbn.
  - destruct (Htoken token (fake_env w)) as (e' & b & Ht). exists e', b. unfold in_token. by rewrite Ht.
  - exists (fake_env w), false. by destruct w.
Qed.

Lemma checkpoints_answer n cancellation (w : FakeWorld E) :
  exists e' b, checkpoints is_cancelled n cancellation w = (mk_FakeWorld (fake_position w) (fake_invocation_count w) e', Ok b).
Proof.
  revert w. induction n as [|n IH]; intros w; cbn [checkpoints].
  - exists (fake_env w), false. by destruct w.
  - destruct (cancelled_answers cancellation w) as (e1 & b1 & H1). unfold mbind, M_bind. rewrite H1.
    destruct b1; [by eexists _, _|]. destruct (IH (mk_FakeWorld (fake_position w) (fake_invocation_count w) e1)) as (e2 & b2 & H2).
    rewrite H2. cbn. by eexists _, _.
Qed.

Lemma run_step_answers step cancellation (w : FakeWorld E) :
  validate_FakeAgentStep step = Ok step ->
  exists e' r, run_step is_cancelled scenario request step cancellation w
               = (mk_FakeWorld (fake_position w) (fake_invocation_count w) e', Ok r) /\ good_answer r.
Proof.
  intros Hstep.
  assert (is_utc (step_started_at step) = true /\ 0 <= step_duration_ms step <= 86400000) as [Hu Hd].
  { unfold validate_FakeAgentStep in Hstep. inv_valid. destruct step; cbn in *. injection Hstep as; subst.
    match goal with H : _require_utc _ = Ok _ |- _ => apply require_utc_Ok in H as [_ ?] end. unfold in_range in *. by bool_prop. }
  unfold run_step. cbv zeta. unfold mbind, M_bind.
  destruct (checkpoints_answer (Z.to_nat (cancellation_checkpoints step)) cancellation w) as (e1 & b & ->).
  unfold lift. destruct b; [|destruct (_ <? _)].
  - edestruct (fails_later AgentStatus.CANCELLED) as (r & Hr & Hg); [| |exact Hu|exact Hd|].
    3:{ exists e1, r. by rewrite Hr. } all: vm_compute; reflexivity.
  - edestruct (fails_later AgentStatus.TIMED_OUT) as (r & Hr & Hg); [| |exact Hu|exact Hd|].
    3:{ exists e1, r. by rewrite Hr. } all: vm_compute; reflexivity.
  - destruct (_execute_step _ _ _ _) as [r|e] eqn:He; [exists e1, r; split; [done|by eapply execute_good]|].
    edestruct (fails_later AgentStatus.FAILED) as (r & Hr & Hg); [| |exact Hu|exact Hd|].
    3:{ exists e1, r. by rewrite Hr. } all: vm_compute; reflexivity.
Qed.

(** Every invocation of the scripted adapter answers, with a valid response that
    carries the correlation of the request and the identity of the adapter (a scripted
    raw output may claim another identity only as an [INVALID_OUTPUT]); it counts one
    invocation and consumes no step or exactly the next one, and only when the digest of
    the request is the one the step expects. *)
Theorem fake_invoke_answers cancellation (w : FakeWorld E) :
  exists w' r, fake_invoke is_cancelled scenario request cancellation w = (w', Ok r) /\ good_answer r
    /\ fake_invocation_count w' = S (fake_invocation_count w)
    /\ (fake_position w' = fake_position w
        \/ fake_position w' = S (fake_position w)
           /\ exists step, scenario_steps scenario !! fake_position w = Some step
                           /\ expected_request_sha256 step = agent_request_digest request).
Proof.
  destruct scenario_parts as (Hcap & Hutc & Hsteps). unfold fake_invoke. unfold mbind at 1, M_bind at 1, count_invocation.
  set (w1 := mk_FakeWorld (fake_position w) (S (fake_invocation_count w)) (fake_env w)).
  unfold mbind, M_bind. destruct (cancelled_answers cancellation w1) as (e2 & b & ->). cbn [fake_position fake_invocation_count w1].
  set (w2 := mk_FakeWorld (fake_position w) (S (fake_invocation_count w)) e2).
  assert (Hstay : forall o, (exists r, o = Ok r /\ good_answer r) ->
    exists w' r, lift (W := FakeWorld E) o w2 = (w', Ok r) /\ good_answer r
      /\ fake_invocation_count w' = S (fake_invocation_count w)
      /\ (fake_position w' = fake_position w \/ fake_position w' = S (fake_position w)
           /\ exists step, scenario_steps scenario !! fake_position w = Some step
                           /\ expected_request_sha256 step = agent_request_digest request)).
  { intros o (r & -> & Hg). exists w2, r. split_and!; [done..|by left]. }
  destruct b; [apply Hstay, fails_now; [vm_compute; reflexivity..|exact Hutc]|].
  destruct compatibility_answers as (o & Ho & Hfail). unfold lift at 1. rewrite Ho.
  destruct o as [failure|].
  { apply Hstay. destruct (Hfail failure eq_refl). by apply failure_answers_now. }
  unfold gets. change (fake_position w2) with (fake_position w).
  destruct (scenario_steps scenario !! fake_position w) as [step|] eqn:Hstep.
  2:{ apply Hstay, fails_now; [vm_compute; reflexivity..|exact Hutc]. }
  pose proof (proj1 (Forall_lookup _ _) Hsteps _ _ Hstep) as Hvalid.
  destruct (String.eqb_spec (agent_request_digest request) (expected_request_sha256 step)) as [Hd|Hd]; cbn [negb].
  - unfold consume_step. destruct (run_step_answers step cancellation
      (mk_FakeWorld (S (fake_position w)) (S (fake_invocation_count w)) e2) Hvalid) as (e3 & r & Hr & Hg).
    cbn [fake_position fake_invocation_count fake_env w2]. rewrite Hr. eexists _, r. split_and!; [done..|].
    right. split; [done|]. by exists step.
  - apply Hstay, fails_now; [vm_compute; reflexivity..|]. cbn.
    unfold validate_FakeAgentStep in Hvalid. inv_valid. destruct step; cbn in *. injection Hvalid as; subst.
    by match goal with H : _require_utc _ = Ok _ |- _ => apply require_utc_Ok in H as [_ ?] end.
Qed.
End Invocation.
