(* ===== verification/Providers.v ===== *)
(** * Controlled live-agent adapters ([src/src/revanent/agents/providers.py])

    What the Codex and OpenCode adapters share: settings, capabilities, probes, the prompt
    and the checks before a launch, the one controlled command of an invocation, and the
    translation of its outcome into a typed response.

    The world of an adapter is its host and the commands it has run.  The JSON text of a
    prompt is the schema layer's; a duration is a rational, as in the command port. *)

From Stdlib Require Import ZArith Lia Ascii String QArith Qround.
From S2P Require Import Prelude Text Domain Sha256 Unicode Redaction Json Effects Agents Commands CommandPolicy ContextReader AgentOutput.
From stdpp Require Import base option strings numbers gmap list list_relations.

Open Scope Z_scope.

Definition ADAPTER_VERSION : string := "1.0.0".

(** [^[A-Za-z0-9][A-Za-z0-9._:/+@-]{0,127}$] *)
Definition _MODEL_ID : list pat := [Cls is_alnum 1 1; Cls (in_class "._:/+@-" is_alnum) 0 127].

Module ProviderCompatibility.
Inductive t : Type := AVAILABLE | UNAVAILABLE | INCOMPATIBLE.
#[export] Instance eq_dec : EqDecision t.
Proof. solve_decision. Defined.
Definition value (c : t) : string :=
  match c with AVAILABLE => "AVAILABLE" | UNAVAILABLE => "UNAVAILABLE" | INCOMPATIBLE => "INCOMPATIBLE" end.
End ProviderCompatibility.
#[export] Existing Instance ProviderCompatibility.eq_dec.

Record ProviderDetection := mk_ProviderDetection {
  det_provider_id : string;
  det_compatibility : ProviderCompatibility.t;
  det_version : option string;
  det_reason : option string;
  det_capabilities : AgentCapabilities;
  det_probes : list string
}.

Record ProviderAdapterSettings := mk_ProviderAdapterSettings {
  settings_environment : list EnvironmentVariable;
  sensitive_values : list string;
  artifact_directory : option Path;
  settings_output_limits : OutputLimits
}.

(** [ProviderAdapterSettings.__post_init__] *)
Definition make_ProviderAdapterSettings (s : ProviderAdapterSettings) : res ProviderAdapterSettings :=
  _validate_sensitive_values (sensitive_values s) ;;
  raise_if (match artifact_directory s with Some d => negb (path_absolute d) | None => false end)
    (ValueError "provider artifact directory must be absolute") ;;
  mret s.

Definition default_output_limits : OutputLimits := mk_OutputLimits (1 * 1024 * 1024) (256 * 1024) (8 * 1024 * 1024).

Definition validate_model_id (model : option string) : res (option string) :=
  raise_if (match model with Some m => negb (matches _MODEL_ID m) | None => false end)
    (ValueError "provider model identifier uses an unsupported spelling") ;;
  mret model.

Definition provider_capabilities (provider adapter : string) (roles : list AgentRole.t) (read_only writes repair : bool)
    (compatibility : ProviderCompatibility.t) (version reason : option string) (surface : string)
    : res AgentCapabilities :=
  validate_AgentCapabilities
    (mk_AgentCapabilities 1 provider adapter ADAPTER_VERSION
       (py_sorted (fun a b => str_le (AgentRole.value a) (AgentRole.value b)) roles)
       true read_only writes true true false false repair
       (if bool_decide (compatibility = ProviderCompatibility.AVAILABLE)
        then AgentAvailability.AVAILABLE else AgentAvailability.UNAVAILABLE)
       reason None
       [mk_CapabilityMetadata "compatibility" (ProviderCompatibility.value compatibility);
        mk_CapabilityMetadata "surface" surface;
        mk_CapabilityMetadata "version"
          (match version with Some v => if String.eqb v "" then "not-detected" else v | None => "not-detected" end)]).

(** ** The host *)

Class ProviderHost (E Token : Type) := {
  provider_files : FileSystem E;
  run_provider : CommandRequest -> option Token -> M E CommandResult;   (* [CommandRunner.run] *)
  provider_now : M E datetime;                                         (* [datetime.now(UTC)] *)
  token_is_cancelled : Token -> M E bool;
  prompt_json : AgentRequest -> string -> AgentProviderIdentity -> string
      (* the canonical JSON of the prompt's document: authority, request, response schema *)
}.

Record ProviderWorld (E : Type) := mk_ProviderWorld { pw_env : E; pw_commands : list CommandRequest }.
Arguments mk_ProviderWorld {E}.
Arguments pw_env {E}.
Arguments pw_commands {E}.

Definition probe_limits : OutputLimits := mk_OutputLimits (64 * 1024) (64 * 1024) (64 * 1024).

Definition newline : string := String (ascii_of_N 10) "".

Definition probe_text (result : CommandResult) : string :=
  let parts := filter (fun value => value <> "") [out_text (cr_stdout result); out_text (cr_stderr result)] in
  String.concat newline parts.

Definition executable_unavailable (result : CommandResult) : bool :=
  bool_decide (cr_status result = CommandStatus.POLICY_REJECTED)
  && match cr_failure result with
     | Some failure => bool_decide (cf_category failure = CommandFailureCategory.EXECUTABLE_UNAVAILABLE)
     | None => false
     end.

(** [_failure], whose retry is [UNKNOWN] unless it is given. *)
Definition _failure (category : AgentFailureCategory.t) (code message : string) (side_effects : SideEffectState.t)
    : res AgentFailure := make_failure category code message RetryDisposition.UNKNOWN side_effects.

Definition identity_for (c : AgentCapabilities) (model : option string) : res AgentProviderIdentity :=
  validate_AgentProviderIdentity
    (mk_AgentProviderIdentity (cap_provider_id c) (cap_adapter_id c) (cap_adapter_version c) model).

(** [min(86_400_000, max(0, int(result.duration_seconds * 1_000)))] *)
Definition milliseconds (result : CommandResult) : Z := Qfloor (cr_duration_seconds result * inject_Z 1000).
Definition provider_duration_ms (result : CommandResult) : Z := Z.min 86400000 (Z.max 0 (milliseconds result)).

(** ** Outcomes *)

Definition failure_response (request : AgentRequest) (identity : AgentProviderIdentity) (result : CommandResult)
    (status : AgentStatus.t) (failure : AgentFailure) : res AgentResponse :=
  let duration := provider_duration_ms result in
  response_for request status (cr_started_at result) (add_ms (cr_started_at result) duration) duration
    (af_message failure) StructuredParseStatus.NOT_PROVIDED identity failure.

(** [mapping[result.status]]; a successful command has no entry. *)
Definition command_failures (status : CommandStatus.t)
    : option (AgentStatus.t * AgentFailureCategory.t * string * string) :=
  match status with
  | CommandStatus.SUCCESS => None
  | CommandStatus.NONZERO_EXIT =>
      Some (AgentStatus.FAILED, AgentFailureCategory.PROVIDER_FAILURE, "provider_nonzero_exit",
            "provider process exited unsuccessfully")
  | CommandStatus.TIMEOUT =>
      Some (AgentStatus.TIMED_OUT, AgentFailureCategory.TIMEOUT, "provider_timeout",
            "provider invocation exceeded its timeout")
  | CommandStatus.CANCELLED =>
      Some (AgentStatus.CANCELLED, AgentFailureCategory.CANCELLATION, "provider_cancelled",
            "provider invocation was cancelled")
  | CommandStatus.LAUNCH_FAILED =>
      Some (AgentStatus.FAILED, AgentFailureCategory.INVOCATION_FAILURE, "provider_launch_failed",
            "provider process could not be launched")
  | CommandStatus.POLICY_REJECTED =>
      Some (AgentStatus.FAILED, AgentFailureCategory.INVOCATION_FAILURE, "provider_policy_rejected",
            "provider invocation was rejected by command policy")
  | CommandStatus.OUTPUT_ARTIFACT_FAILED =>
      Some (AgentStatus.FAILED, AgentFailureCategory.ARTIFACT_FAILURE, "provider_artifact_failed",
            "provider output artifact handling failed")
  | CommandStatus.INTERNAL_ERROR =>
      Some (AgentStatus.FAILED, AgentFailureCategory.INTERNAL_ADAPTER_FAILURE, "provider_command_internal",
            "controlled provider execution failed internally")
  end.

Definition command_failure_response (result : CommandResult) (request : AgentRequest) (identity : AgentProviderIdentity)
    : res (option AgentResponse) :=
  match command_failures (cr_status result) with
  | None => mret None
  | Some (status, category, code, message) =>
      let writes := negb (bool_decide (ar_role request = AgentRole.REVIEWER)) in
      if executable_unavailable result then
        failure ← _failure AgentFailureCategory.ADAPTER_UNAVAILABLE "provider_executable_unavailable"
                    "provider executable is unavailable under the configured command policy" SideEffectState.NONE ;
        Some <$> failure_response request identity result AgentStatus.UNAVAILABLE failure
      else
        failure ← _failure category code message (if writes then SideEffectState.POSSIBLE else SideEffectState.NONE) ;
        Some <$> failure_response request identity result status failure
  end.

(** [response.status is not INVALID_OUTPUT and response.identity != identity] *)
Definition foreign_identity (response : AgentResponse) (expected : AgentProviderIdentity) : bool :=
  negb (bool_decide (resp_status response = AgentStatus.INVALID_OUTPUT))
  && negb (bool_decide (identity response = expected)).

Definition translate_success `{!AgentSchema} `{!Interpreter} (result : CommandResult) (request : AgentRequest)
    (expected : AgentProviderIdentity) (envelope : string) (sensitive : list string) : res AgentResponse :=
  let started := cr_started_at result in
  let completed := add_ms started (provider_duration_ms result) in
  let invalid := invalid_output_response request expected started completed in
  if out_truncated (cr_stdout result) || out_redaction_truncated (cr_stdout result) then
    invalid AgentFailureCategory.MALFORMED_OUTPUT "provider_output_truncated"
      "provider output was truncated before structured translation"
  else
    response ← normalize_agent_output envelope request expected started completed default_AgentOutputLimits sensitive ;
    if foreign_identity response expected then
      invalid AgentFailureCategory.CORRELATION_MISMATCH "adapter_identity_mismatch"
        "agent response identity did not match the selected adapter"
    else if negb (bool_decide (artifacts response = [])) || is_some (raw_output_artifact response) then
      invalid AgentFailureCategory.MALFORMED_OUTPUT "provider_artifact_reference_not_trusted"
        "provider-returned paths cannot establish Revanent artifact references"
    else mret response.

Definition sensitive_material_failure (prompt : string) (arguments : list string) (settings : ProviderAdapterSettings)
    : res (option AgentFailure) :=
  if existsb (fun secret => contains_text secret prompt || existsb (contains_text secret) arguments)
       (sensitive_values settings)
  then Some <$> make_failure AgentFailureCategory.INVALID_REQUEST "sensitive_material_in_invocation"
                  "provider prompt or arguments contained configured sensitive material"
                  RetryDisposition.NOT_RETRYABLE SideEffectState.NONE
  else mret None.

Section ProviderAdapters.
Context {E Token : Type} `{!ProviderHost E Token} `{!AgentSchema} `{!Interpreter}.
Abbreviation W := (ProviderWorld E).

Definition at_provider {A} (m : M E A) : M W A := fun w =>
  let '(e, r) := m (pw_env w) in (mk_ProviderWorld e (pw_commands w), r).

(** [runner.run(CommandRequest(...))] *)
Definition run_recorded (request : CommandRequest) (cancellation : option Token) : M W CommandResult :=
  request ← lift (validate_CommandRequest request) ;
  (fun w => (mk_ProviderWorld (pw_env w) (pw_commands w ++ [request]), Ok tt)) ;;
  at_provider (run_provider request cancellation).

Definition run_probe (executable : string) (arguments : list string) (working_directory : Path)
    (correlation_id : string) : M W CommandResult :=
  run_recorded (mk_CommandRequest executable arguments working_directory correlation_id [] 10 None probe_limits false
                  [0] None COMMAND_SCHEMA_VERSION) None.

Definition deterministic_prompt (request : AgentRequest) (mode : string) (identity : AgentProviderIdentity)
    : res string :=
  let encoded := prompt_json request mode identity in
  raise_if (1 * 1024 * 1024 <? byte_len encoded)
    (ValueError "provider prompt exceeds the controlled-command input limit") ;;
  mret encoded.

Definition invalid_request_failure (code message : string) : res AgentFailure :=
  _failure AgentFailureCategory.INVALID_REQUEST code message SideEffectState.NONE.

Definition validate_invocation_request (request : AgentRequest) (settings : ProviderAdapterSettings)
    : M W (option AgentFailure) :=
  let fail code message := Some <$> lift (invalid_request_failure code message) in
  let root := ws_root (ar_workspace request) in
  if negb (bool_decide (ws_kind (ar_workspace request) = WorkspaceKind.WORKTREE)) then
    fail "owned_worktree_required" "provider invocation requires an approved existing worktree"
  else
    resolved ← try_except (Some <$> at_provider (@fs_resolve E provider_files true root)) is_any_os_error (fun _ => mret None) ;
    match resolved with
    | None => fail "worktree_unavailable" "provider worktree does not exist or cannot be resolved"
    | Some resolved =>
        directory ← at_provider (@fs_is_dir E provider_files resolved) ;
        normalized ← (if (directory : bool)
                      then again ← at_provider (@fs_resolve E provider_files false root) ;
                           mret (bool_decide (resolved = again))
                      else mret false) ;
        if negb normalized then
          fail "worktree_invalid" "provider worktree must be an existing normalized directory"
        else if existsb (fun v => negb (bool_decide (env_key v ∈ allowed_environment_names request)))
                  (settings_environment settings)
        then fail "environment_not_authorized" "provider environment contains a key not authorized by the request"
        else mret None
    end.

Definition prelaunch_failure_response (request : AgentRequest) (identity : AgentProviderIdentity)
    (failure : AgentFailure) (status : AgentStatus.t) : M W AgentResponse :=
  now ← at_provider provider_now ;
  let now := mk_datetime (instant now - instant now mod 1000000) (utcoffset now) in
  lift (response_for request status now now 0 (af_message failure) StructuredParseStatus.NOT_PROVIDED identity failure).

Definition cancellation_before_launch (cancellation : option Token) : M W (option AgentFailure) :=
  cancelled ← match cancellation with Some token => at_provider (token_is_cancelled token) | None => mret false end ;
  if (cancelled : bool) then
    Some <$> lift (make_failure AgentFailureCategory.CANCELLATION "cancelled_before_invocation"
                     "provider invocation was cancelled before launch" RetryDisposition.RETRYABLE SideEffectState.NONE)
  else mret None.

Definition invoke_command (request : AgentRequest) (executable : string) (arguments : list string) (prompt : string)
    (settings : ProviderAdapterSettings) (cancellation : option Token) : M W CommandResult :=
  run_recorded
    (mk_CommandRequest executable arguments (ws_root (ar_workspace request)) (ar_invocation_id request)
       (settings_environment settings) (ar_timeout_seconds request) (Some prompt) (settings_output_limits settings)
       (is_some cancellation) [0]
       (if allow_raw_output_reference (artifact_policy request) && bool_decide (sensitive_values settings = [])
        then artifact_directory settings else None)
       COMMAND_SCHEMA_VERSION) cancellation.

(** ** One invocation *)

(** What distinguishes the adapters: executable, mode, arguments, the framing of the
    output, and the milliseconds a framing error reports. *)
Record surface := mk_surface {
  surface_executable : string;
  surface_mode : string;
  surface_arguments : option string -> res (list string);
  surface_parse : string -> res string;
  surface_duration : CommandResult -> Z;
  surface_message : string
}.

(** [failure = failure or ...] *)
Definition or_else (first : M W (option AgentFailure)) (next : M W (option AgentFailure)) : M W (option AgentFailure) :=
  failure ← first ;
  match failure with Some f => mret (Some f) | None => next end.

(** [_validated_model_or_failure] *)
Definition _validated_model_or_failure (request : AgentRequest) : res (option string + AgentFailure) :=
  match validate_model_id (routing_model (routing request)) with
  | Ok model => mret (inl model)
  | Err e =>
      if is_ValueError e then
        failure ← make_failure AgentFailureCategory.INVALID_REQUEST "invalid_model_identifier"
                    "provider model identifier is invalid" RetryDisposition.NOT_RETRYABLE SideEffectState.NONE ;
        mret (inr failure)
      else Err e
  end.

Definition prelaunch_status (failure : AgentFailure) : AgentStatus.t :=
  match af_category failure with
  | AgentFailureCategory.ADAPTER_UNAVAILABLE => AgentStatus.UNAVAILABLE
  | AgentFailureCategory.CANCELLATION => AgentStatus.CANCELLED
  | _ => AgentStatus.FAILED
  end.

(** The text of a [ValueError]. *)
Definition value_error_text (e : exn) : string := match e with ValueError m => m | _ => "" end.

(** After the command: its failure, the framing, the envelope. *)
Definition translate (s : surface) (result : CommandResult) (request : AgentRequest)
    (identity : AgentProviderIdentity) (settings : ProviderAdapterSettings) : res AgentResponse :=
  normalized ← command_failure_response result request identity ;
  match normalized with
  | Some response => mret response
  | None =>
      match surface_parse s (out_text (cr_stdout result)) with
      | Ok envelope => translate_success result request identity envelope (sensitive_values settings)
      | Err e =>
          if is_ValueError e then
            invalid_output_response request identity (cr_started_at result)
              (add_ms (cr_started_at result) (surface_duration s result)) AgentFailureCategory.MALFORMED_OUTPUT
              (value_error_text e) (surface_message s)
          else Err e
      end
  end.

(** [_invoke_codex] and [OpenCodeBuilderAdapter.invoke] *)
Definition controlled_invoke (s : surface) (c : AgentCapabilities) (settings : ProviderAdapterSettings)
    (request : AgentRequest) (cancellation : option Token) : M W AgentResponse :=
  model_or_failure ← lift (_validated_model_or_failure request) ;
  let model := match model_or_failure with inl model => model | inr _ => None end in
  identity ← lift (identity_for c model) ;
  failure ← or_else (mret (match model_or_failure with inr f => Some f | inl _ => None end))
             (or_else (lift (request_compatibility_failure c request))
                (or_else (validate_invocation_request request settings) (cancellation_before_launch cancellation))) ;
  match failure with
  | Some failure => prelaunch_failure_response request identity failure (prelaunch_status failure)
  | None =>
      match deterministic_prompt request (surface_mode s) identity with
      | Err _ =>
          failure ← lift (make_failure AgentFailureCategory.INVALID_REQUEST "provider_prompt_too_large"
                            "provider prompt is too large" RetryDisposition.NOT_RETRYABLE SideEffectState.NONE) ;
          prelaunch_failure_response request identity failure AgentStatus.FAILED
      | Ok prompt =>
          arguments ← lift (surface_arguments s model) ;
          sensitive ← lift (sensitive_material_failure prompt arguments settings) ;
          match sensitive with
          | Some failure => prelaunch_failure_response request identity failure AgentStatus.FAILED
          | None =>
              result ← invoke_command request (surface_executable s) arguments prompt settings cancellation ;
              lift (translate s result request identity settings)
          end
      end
  end.
End ProviderAdapters.
