(* ===== verification/Codex.v ===== *)
(** * The Codex adapters ([src/src/revanent/agents/codex.py])

    Detection of the installed surface, the frozen arguments of the two sandboxes, the
    grammar of the JSONL events, and the reviewer and repair adapters. *)

From Stdlib Require Import ZArith Lia Ascii String.
From S2P Require Import Prelude Text Domain Unicode Regex Json Effects Agents Commands CommandPolicy ContextReader AgentOutput Providers.
From stdpp Require Import base option strings numbers gmap list list_relations.

Open Scope Z_scope.

Definition CODEX_EXECUTABLE : string := "codex".
Definition CODEX_REVIEW_SURFACE : string := "codex-exec-jsonl-read-only-v1".
Definition CODEX_REPAIR_SURFACE : string := "codex-exec-jsonl-workspace-write-v1".
Definition _SUPPORTED_VERSION_PREFIXES : list string := ["codex-cli 0.146."].
Definition _TOP_HELP_TOKENS : list string := ["exec"; "--ask-for-approval"].
Definition _EXEC_COMMON_TOKENS : list string :=
  ["--json"; "--sandbox"; "--ephemeral"; "--ignore-user-config"; "read-only"].

(** ** Lines of JSON *)

(** The characters [str.splitlines] ends a line at. *)
Definition ends_line (n : Z) : bool := bool_decide (n ∈ [10; 11; 12; 13; 28; 29; 30; 133; 8232; 8233]).

(** [text.splitlines()]: a carriage return and a line feed are one end; nothing follows
    the last one. *)
Fixpoint split_lines (acc l : list Z) : list (list Z) :=
  match l with
  | [] => match acc with [] => [] | _ => [rev acc] end
  | n :: l =>
      if ends_line n then
        if n =? 13 then rev acc :: match l with m :: l' => if m =? 10 then split_lines [] l' else split_lines [] l | [] => [] end
        else rev acc :: split_lines [] l
      else split_lines (n :: acc) l
  end.

(** One line of JSONL: an object. *)
Definition parse_line `{!Interpreter} (line : list Z) : res json :=
  match json_loads line with
  | Ok j => if is_object j then mret j else Err (ValueError "malformed_provider_event")
  | Err _ => Err (ValueError "malformed_jsonl")
  end.

Definition _parse_json_lines `{!Interpreter} (text : string) : res (list json) :=
  raise_if (1 * 1024 * 1024 <? byte_len text) (ValueError "provider_output_too_large") ;;
  let lines := split_lines [] (code_points text) in
  raise_if (bool_decide (lines = []) || existsb (forallb is_space) lines) (ValueError "malformed_jsonl") ;;
  traverse parse_line lines.

(** ** Events *)

(** [value == name] for what [dict.get] gave. *)
Definition text_is (value : option json) (name : string) : bool :=
  match value with Some (JStr points) => bool_decide (points = code_points name) | _ => false end.

(** A list or a dictionary cannot be looked up in a set. *)
Definition unhashable (value : option json) : bool :=
  match value with Some (JArr _ | JObj _) => true | _ => false end.

(** [text.encode("utf-8")] raises for a lone surrogate; the text of the exception names
    its position. *)
Definition encode_text (points : list Z) : res string :=
  if forallb scalar points then mret (text_of points)
  else Err (ValueError "'utf-8' codec can't encode characters: surrogates not allowed").

Definition has_replacement (text : string) : bool := existsb (Z.eqb 65533) (code_points text).

Record turn := mk_turn { terminal_text : option (list Z); turn_started : bool; turn_completed : bool }.

Definition allowed_items : list string := ["reasoning"; "command_execution"; "file_change"].

(** The [item.started] and [item.completed] events. *)
Definition item_event (event : json) (completed_item : bool) (t : turn) : res turn :=
  raise_if (negb (turn_started t) || turn_completed t) (ValueError "malformed_provider_event") ;;
  match member "item" event with
  | Some (JObj _ as item) =>
      match member "type" item with
      | Some (JStr item_type) =>
          if bool_decide (item_type = code_points "agent_message") && completed_item then
            match member "text" item with
            | Some (JStr value) => mret (mk_turn (Some value) (turn_started t) (turn_completed t))
            | _ => Err (ValueError "malformed_provider_event")
            end
          else
            raise_if (negb (existsb (fun name => bool_decide (item_type = code_points name)) allowed_items))
              (ValueError "unknown_provider_event") ;;
            mret t
      | _ => Err (ValueError "malformed_provider_event")
      end
  | _ => Err (ValueError "malformed_provider_event")
  end.

(** The body of the loop over the events. *)
Definition codex_event (event : json) (t : turn) : res turn :=
  let event_type := member "type" event in
  if text_is event_type "thread.started" then
    raise_if (turn_started t || turn_completed t) (ValueError "contradictory_terminal_events") ;; mret t
  else if text_is event_type "turn.started" then
    raise_if (turn_started t || turn_completed t) (ValueError "contradictory_terminal_events") ;;
    mret (mk_turn (terminal_text t) true (turn_completed t))
  else if unhashable event_type then Err (TypeError "unhashable type")
  else if text_is event_type "item.started" then item_event event false t
  else if text_is event_type "item.completed" then item_event event true t
  else if text_is event_type "turn.completed" then
    raise_if (negb (turn_started t) || turn_completed t || is_none (terminal_text t))
      (ValueError "missing_terminal_event") ;;
    mret (mk_turn (terminal_text t) (turn_started t) true)
  else Err (ValueError "unknown_provider_event").

Fixpoint codex_events (events : list json) (t : turn) : res turn :=
  match events with
  | [] => mret t
  | event :: events => t ← codex_event event t ; codex_events events t
  end.

Definition parse_codex_jsonl `{!Interpreter} (text : string) : res string :=
  raise_if (has_replacement text) (ValueError "invalid_utf8") ;;
  events ← _parse_json_lines text ;
  t ← codex_events events (mk_turn None false false) ;
  match terminal_text t with
  | Some points => if turn_completed t then encode_text points else Err (ValueError "missing_terminal_event")
  | None => Err (ValueError "missing_terminal_event")
  end.

(** ** Arguments *)

Definition build_codex_arguments (sandbox : string) (model : option string) : res (list string) :=
  raise_if (negb (bool_decide (sandbox ∈ ["read-only"; "workspace-write"])))
    (ValueError "unsupported Codex sandbox mode") ;;
  with_model ← match model with
               | Some m => model ← validate_model_id (Some m) ; mret ["--model"; default "" model]
               | None => mret []
               end ;
  mret (["--ask-for-approval"; "never"; "exec"; "--ignore-user-config"; "--ephemeral"; "--sandbox"; sandbox;
         "--json"; "--color"; "never"] ++ with_model ++ ["-"]).

Definition codex_surface `{!Interpreter} (mode sandbox : string) : surface :=
  mk_surface CODEX_EXECUTABLE mode (build_codex_arguments sandbox) parse_codex_jsonl provider_duration_ms
    "Codex JSONL output did not satisfy the supported event contract".

(** ** Detection *)

Record CodexDetection := mk_CodexDetection {
  cd_compatibility : ProviderCompatibility.t;
  cd_version : option string;
  cd_reason : option string;
  reviewer_capabilities : AgentCapabilities;
  repair_capabilities : AgentCapabilities;
  repair_surface_verified : bool;
  cd_probes : list string
}.

Definition _detection (compatibility : ProviderCompatibility.t) (version reason : option string) (repair : bool)
    (probes : list string) : res CodexDetection :=
  let unverified := bool_decide (compatibility = ProviderCompatibility.AVAILABLE) && negb repair in
  reviewer ← provider_capabilities "codex" "codex.reviewer" [AgentRole.REVIEWER] true false false compatibility
               version reason CODEX_REVIEW_SURFACE ;
  repairer ← provider_capabilities "codex" "codex.repairer" [AgentRole.REPAIRER] false true true
               (if unverified then ProviderCompatibility.INCOMPATIBLE else compatibility) version
               (if unverified then Some "Codex help does not prove the required workspace-write repair surface"
                else reason) CODEX_REPAIR_SURFACE ;
  mret (mk_CodexDetection compatibility version reason reviewer repairer repair probes).

(** [text.strip().splitlines()[0][:128]] *)
Fixpoint drop_spaces (l : list Z) : list Z :=
  match l with n :: rest => if is_space n then drop_spaces rest else l | [] => [] end.

Definition strip_text (l : list Z) : list Z := rev (drop_spaces (rev (drop_spaces l))).

Definition first_line (text : string) : option string :=
  match split_lines [] (strip_text (code_points text)) with
  | [] => None
  | line :: _ => Some (text_of (take 128 line))
  end.

Section Codex.
Context {E Token : Type} `{!ProviderHost E Token} `{!AgentSchema} `{!Interpreter} `{!CaseFolding}.
Abbreviation W := (ProviderWorld E).

Definition _contains (help_text : string) (tokens : list string) : bool :=
  forallb (fun token => contains_text (str_casefold token) (str_casefold help_text)) tokens.

Definition supported_version (prefixes : list string) (version : option string) : bool :=
  match version with
  | Some v => existsb (fun prefix => starts_with prefix (str_casefold v)) prefixes
  | None => false
  end.

Definition command_succeeded (result : CommandResult) : bool := bool_decide (cr_status result = CommandStatus.SUCCESS).

Definition detect_codex (working_directory : Path) : M W CodexDetection :=
  let probe arguments correlation := run_probe (Token := Token) CODEX_EXECUTABLE arguments working_directory correlation in
  version_result ← probe ["--version"] "detect-codex-version" ;
  if executable_unavailable version_result then
    lift (_detection ProviderCompatibility.UNAVAILABLE None
            (Some "Codex executable was not found on the configured provider PATH") false ["--version"])
  else
    let version := first_line (probe_text version_result) in
    if negb (command_succeeded version_result) then
      lift (_detection ProviderCompatibility.UNAVAILABLE version
              (Some "Codex version probe did not complete successfully") false ["--version"])
    else
      top ← probe ["--help"] "detect-codex-help" ;
      execute ← probe ["exec"; "--help"] "detect-codex-exec-help" ;
      let top_text := probe_text top in
      let exec_text := probe_text execute in
      let common := supported_version _SUPPORTED_VERSION_PREFIXES version && command_succeeded top
                    && command_succeeded execute && _contains top_text _TOP_HELP_TOKENS
                    && _contains exec_text _EXEC_COMMON_TOKENS
                    && contains_text "stdin" (str_casefold exec_text) in
      let repair := common && contains_text "workspace-write" (str_casefold exec_text) in
      let probes := ["--version"; "--help"; "exec --help"] in
      lift (if negb common then
              _detection ProviderCompatibility.INCOMPATIBLE version
                (Some ("Codex is installed but its version/help does not prove the supported "
                       +:+ "noninteractive JSONL read-only surface")) false probes
            else _detection ProviderCompatibility.AVAILABLE version None repair probes).

(** ** Adapters *)

Definition _invoke_codex (c : AgentCapabilities) (settings : ProviderAdapterSettings) (mode sandbox : string)
    (request : AgentRequest) (cancellation : option Token) : M W AgentResponse :=
  controlled_invoke (codex_surface mode sandbox) c settings request cancellation.

(** [CodexReviewerAdapter.invoke] *)
Definition reviewer_invoke (detection : CodexDetection) (settings : ProviderAdapterSettings) (request : AgentRequest)
    (cancellation : option Token) : M W AgentResponse :=
  _invoke_codex (reviewer_capabilities detection) settings "reviewer-read-only" "read-only" request cancellation.

(** [_safe_model] *)
Definition _safe_model (request : AgentRequest) : option string :=
  match validate_model_id (routing_model (routing request)) with Ok model => model | Err _ => None end.

(** [CodexRepairAdapter.invoke] *)
Definition repair_invoke (detection : CodexDetection) (write_authorized : bool) (settings : ProviderAdapterSettings)
    (request : AgentRequest) (cancellation : option Token) : M W AgentResponse :=
  if negb write_authorized then
    identity ← lift (identity_for (repair_capabilities detection) (_safe_model request)) ;
    failure ← lift (make_failure AgentFailureCategory.INVALID_REQUEST "repair_not_authorized"
                      "Codex repair requires explicit write authorization" RetryDisposition.NOT_RETRYABLE
                      SideEffectState.NONE) ;
    prelaunch_failure_response (Token := Token) request identity failure AgentStatus.FAILED
  else
    _invoke_codex (repair_capabilities detection) settings "repairer-explicit-repository-write" "workspace-write"
      request cancellation.
End Codex.
