(* ===== verification/OpenCode.v ===== *)
(** * The OpenCode adapter ([src/src/revanent/agents/opencode.py])

    Detection, the frozen arguments, the grammar of the JSONL events and the builder
    adapter. *)

From Stdlib Require Import ZArith Lia Ascii String.
From S2P Require Import Prelude Text Domain Unicode Regex Json Effects Agents Commands CommandPolicy ContextReader AgentOutput Providers Codex.
From stdpp Require Import base option strings numbers gmap list list_relations.

Open Scope Z_scope.

Definition OPENCODE_EXECUTABLE : string := "opencode".
Definition OPENCODE_SURFACE : string := "opencode-run-jsonl-v1".
Definition opencode_version_prefixes : list string := ["opencode 1."; "opencode version 1."].
Definition opencode_help_tokens : list string := ["run"].
Definition _RUN_HELP_TOKENS : list string := ["--format"; "json"; "--model"; "stdin"].

Definition build_opencode_arguments (model : option string) : res (list string) :=
  with_model ← match model with
               | Some m => model ← validate_model_id (Some m) ; mret ["--model"; default "" model]
               | None => mret []
               end ;
  mret (["run"; "--format"; "json"] ++ with_model ++ ["--"; "-"]).

(** ** Events *)

(** [isinstance(part, dict) and set(part) == {"text"}] with a text. *)
Definition text_part (event : json) : option (list Z) :=
  match member "part" event with
  | Some (JObj members) =>
      match members with
      | [(key, JStr points)] => if bool_decide (key = code_points "text") then Some points else None
      | _ => None
      end
  | _ => None
  end.

(** The body of the loop: the text so far and whether the run has finished. *)
Definition opencode_event (event : json) (s : option (list Z) * bool) : res (option (list Z) * bool) :=
  let '(terminal, finished) := s in
  let event_type := member "type" event in
  if text_is event_type "step_start" then
    raise_if finished (ValueError "contradictory_terminal_events") ;; mret s
  else if text_is event_type "text" then
    match terminal, text_part event with
    | None, Some points => mret (Some points, finished)
    | _, _ => Err (ValueError "malformed_provider_event")
    end
  else if text_is event_type "step_finish" then
    raise_if (finished || is_none terminal) (ValueError "missing_terminal_event") ;; mret (terminal, true)
  else Err (ValueError "unknown_provider_event").

Fixpoint opencode_events (events : list json) (s : option (list Z) * bool) : res (option (list Z) * bool) :=
  match events with
  | [] => mret s
  | event :: events => s ← opencode_event event s ; opencode_events events s
  end.

Definition parse_opencode_jsonl `{!Interpreter} (text : string) : res string :=
  raise_if (has_replacement text) (ValueError "invalid_utf8") ;;
  events ← _parse_json_lines text ;
  s ← opencode_events events (None, false) ;
  match s with
  | (Some points, true) => encode_text points
  | _ => Err (ValueError "missing_terminal_event")
  end.

Definition opencode_surface `{!Interpreter} : surface :=
  mk_surface OPENCODE_EXECUTABLE "builder-repository-write" build_opencode_arguments parse_opencode_jsonl milliseconds
    "OpenCode JSONL output did not satisfy the supported event contract".

(** ** Detection *)

Definition opencode_detection (compatibility : ProviderCompatibility.t) (version reason : option string)
    (probes : list string) : res ProviderDetection :=
  c ← provider_capabilities "opencode" "opencode.builder" [AgentRole.BUILDER] false true false compatibility version
        reason OPENCODE_SURFACE ;
  mret (mk_ProviderDetection "opencode" compatibility version reason c probes).

Section OpenCode.
Context {E Token : Type} `{!ProviderHost E Token} `{!AgentSchema} `{!Interpreter} `{!CaseFolding}.
Abbreviation W := (ProviderWorld E).

Definition detect_opencode (working_directory : Path) : M W ProviderDetection :=
  let probe arguments correlation := run_probe (Token := Token) OPENCODE_EXECUTABLE arguments working_directory correlation in
  version_result ← probe ["--version"] "detect-opencode-version" ;
  if executable_unavailable version_result then
    lift (opencode_detection ProviderCompatibility.UNAVAILABLE None
            (Some "OpenCode executable was not found on the configured provider PATH") ["--version"])
  else
    let version := first_line (probe_text version_result) in
    if negb (command_succeeded version_result) then
      lift (opencode_detection ProviderCompatibility.UNAVAILABLE version
              (Some "OpenCode version probe did not complete successfully") ["--version"])
    else
      top ← probe ["--help"] "detect-opencode-help" ;
      run ← probe ["run"; "--help"] "detect-opencode-run-help" ;
      let compatible := supported_version opencode_version_prefixes version && command_succeeded top
                        && command_succeeded run && _contains (probe_text top) opencode_help_tokens
                        && _contains (probe_text run) _RUN_HELP_TOKENS in
      let probes := ["--version"; "--help"; "run --help"] in
      lift (if negb compatible then
              opencode_detection ProviderCompatibility.INCOMPATIBLE version
                (Some ("OpenCode is installed but its version/help does not prove the supported "
                       +:+ "noninteractive JSONL stdin surface")) probes
            else opencode_detection ProviderCompatibility.AVAILABLE version None probes).

(** [OpenCodeBuilderAdapter.__init__] and its [invoke] *)
Record OpenCodeBuilderAdapter := mk_OpenCodeBuilderAdapter {
  oc_detection : ProviderDetection;
  oc_settings : ProviderAdapterSettings
}.

Definition make_OpenCodeBuilderAdapter (detection : ProviderDetection) (settings : ProviderAdapterSettings)
    : res OpenCodeBuilderAdapter :=
  raise_if (negb (String.eqb (det_provider_id detection) "opencode"))
    (ValueError "OpenCode adapter requires OpenCode capability detection") ;;
  mret (mk_OpenCodeBuilderAdapter detection settings).

Definition builder_invoke (a : OpenCodeBuilderAdapter) (request : AgentRequest) (cancellation : option Token)
    : M W AgentResponse :=
  controlled_invoke opencode_surface (det_capabilities (oc_detection a)) (oc_settings a) request cancellation.
End OpenCode.
