(* ===== verification/AdapterSafety.v ===== *)
(** * What the provider adapters guarantee

    An invocation runs at most one command, and only an authorized one; what it returns
    answers for the request and names the adapter; the event loop of Codex accepts one
    grammar. *)

From Stdlib Require Import ZArith Lia Ascii String.
From S2P Require Import Prelude Text Domain Sha256 Unicode Regex Redaction Json Effects Agents Commands CommandPolicy ContextReader AgentOutput AgentOutputSafety Providers Codex OpenCode.
From stdpp Require Import base option strings numbers gmap list list_relations.

Open Scope Z_scope.

(** ** Commands *)

(** A computation that runs no command. *)
Definition same_commands {E} (w w' : ProviderWorld E) : Prop := pw_commands w' = pw_commands w.

#[export] Instance same_commands_confined {E} : Confined (@same_commands E).
Proof. split; unfold same_commands; congruence. Qed.

(** A computation that runs at most one command, and only one of a kind. *)
Definition launches {E} (P : CommandRequest -> Prop) (w w' : ProviderWorld E) : Prop :=
  same_commands w w' \/ exists command, pw_commands w' = pw_commands w ++ [command] /\ P command.

Section Launch.
Context {E Token : Type} {host : ProviderHost E Token} {schema : AgentSchema} {interpreter : Interpreter}.
Abbreviation W := (ProviderWorld E).

Lemma quiet_at {A} (m : M E A) : only same_commands (at_provider m).
Proof. intros w. unfold at_provider. destruct (m (pw_env w)) as [e r]. done. Qed.

Lemma quiet_lift {A} (r : res A) : only (W := W) same_commands (lift r).
Proof. apply only_reads; [exact _|apply reads_lift]. Qed.

Lemma quiet_ret {A} (a : A) : only (W := W) same_commands (mret a).
Proof. apply only_reads; [exact _|apply reads_ret]. Qed.

Lemma quiet_bind {A B} (m : M W A) (f : A -> M W B) :
  only same_commands m -> (forall a, only same_commands (f a)) -> only same_commands (m ≫= f).
Proof. apply only_bind. exact _. Qed.

Lemma or_else_quiet (a b : M W (option AgentFailure)) :
  only same_commands a -> only same_commands b -> only same_commands (or_else a b).
Proof. intros Ha Hb. apply quiet_bind; [done|]. intros [f|]; [apply quiet_ret|done]. Qed.

(** What a check that finds no failure has established of the state it started in. *)
Definition passes (m : M W (option AgentFailure)) (w : W) (P : Prop) : Prop := snd (m w) = Ok None -> P.

Lemma or_else_passes (a b : M W (option AgentFailure)) w P1 P2 :
  passes a w P1 -> (fst (a w) = w -> passes b w P2) -> reads a -> passes (or_else a b) w (P1 /\ P2).
Proof.
  unfold passes, or_else, mbind, M_bind. intros Ha Hb Hr. specialize (Hr w).
  destruct (a w) as [w1 [[f|]|e]]; cbn in *; try done. subst w1. auto.
Qed.

(** The worktree as the file system of an environment shows it: the root resolves
    strictly, to itself normalized, and is a directory. *)
Definition existing_worktree (root : Path) (h : E) : Prop :=
  exists resolved h1 h2 h3,
    @fs_resolve E provider_files true root h = (h1, Ok resolved)
    /\ @fs_is_dir E provider_files resolved h1 = (h2, Ok true)
    /\ @fs_resolve E provider_files false root h2 = (h3, Ok resolved).

(** The checks that let a request through. *)
Definition in_worktree (request : AgentRequest) (settings : ProviderAdapterSettings) (h : E) : Prop :=
  ws_kind (ar_workspace request) = WorkspaceKind.WORKTREE
  /\ existing_worktree (ws_root (ar_workspace request)) h
  /\ forall v, v ∈ settings_environment settings -> env_key v ∈ allowed_environment_names request.

Lemma invocation_quiet request settings : only same_commands (validate_invocation_request (Token := Token) request settings).
Proof.
  assert (Hfail : forall code message, only (W := W) same_commands (Some <$> lift (invalid_request_failure code message))).
  { intros. apply only_fmap, quiet_lift. }
  unfold validate_invocation_request. case_bool_decide; cbn [negb]; [|apply Hfail].
  apply quiet_bind; [|intros [resolved|]; [|apply Hfail]].
  { apply only_try; [exact _|..]; [apply only_fmap, quiet_at|]. intros e. apply quiet_ret. }
  apply quiet_bind; [apply quiet_at|intros directory]. apply quiet_bind.
  { destruct directory; [|apply quiet_ret]. apply quiet_bind; [apply quiet_at|intros ?; apply quiet_ret]. }
  intros []; cbn [negb]; [|apply Hfail]. destruct (existsb _ _); [apply Hfail|apply quiet_ret].
Qed.

Lemma invocation_checked request settings w :
  passes (validate_invocation_request (Token := Token) request settings) w (in_worktree request settings (pw_env w)).
Proof.
  unfold passes, validate_invocation_request. case_bool_decide as Hk; cbn [negb]; [|by destruct (invalid_request_failure _ _)].
  assert (Hfail : forall code message w', snd ((Some <$> lift (invalid_request_failure code message) : M W (option AgentFailure)) w')
    <> Ok None).
  { intros code message w'. by destruct (invalid_request_failure code message). }
  unfold mbind at 1, M_bind at 1, try_except, at_provider at 1. unfold fmap at 1, M_fmap.
  destruct (fs_resolve true _ _) as [h1 [resolved|e]] eqn:H1; [|destruct (is_any_os_error e); [|done]];
    cbn [pw_env mret M_ret]; [|by intros ?%Hfail].
  unfold mbind at 1, M_bind at 1, at_provider at 1. cbn [pw_env].
  destruct (fs_is_dir resolved h1) as [h2 [[|]|e]] eqn:H2; [| |done].
  2: { unfold mbind, M_bind. cbn [mret M_ret negb]. by intros ?%Hfail. }
  unfold mbind, M_bind, at_provider. cbn [pw_env].
  destruct (fs_resolve false _ h2) as [h3 [again|e]] eqn:H3; [|done]. cbn [mret M_ret].
  case_bool_decide as Ha; cbn [negb]; [|by intros ?%Hfail]. subst again.
  destruct (existsb _ _) eqn:He; [by intros ?%Hfail|]. intros _. split; [done|]. split; [by exists resolved, h1, h2, h3|].
  rewrite existsb_false, Forall_forall in He. intros v Hv. specialize (He v Hv). by bool_prop.
Qed.

Lemma cancellation_quiet (cancellation : option Token) :
  only same_commands (cancellation_before_launch (E := E) cancellation).
Proof.
  unfold cancellation_before_launch. apply quiet_bind.
  - destruct cancellation; [apply quiet_at|apply quiet_ret].
  - intros [|]; [apply only_fmap, quiet_lift|apply quiet_ret].
Qed.

(** What compatibility means. *)
Definition compatible (c : AgentCapabilities) (request : AgentRequest) : Prop :=
  availability c <> AgentAvailability.UNAVAILABLE /\ ar_role request ∈ supported_roles c
  /\ Forall (fun p => implb p.1 p.2 = true) (capability_checks (expected_capabilities request) c).

Lemma compatibility_checked c request :
  request_compatibility_failure c request = Ok None -> compatible c request.
Proof.
  unfold request_compatibility_failure.
  assert (Hs : forall r : res AgentFailure, Some <$> r = Ok None -> False) by (by intros [f|e]).
  case_bool_decide as Ha; [intros H; by apply Hs in H|].
  destruct (match routing_provider_id _ with Some _ => _ | None => _ end); [intros H; by apply Hs in H|].
  case_bool_decide as Hr; cbn [negb]; [|intros H; by apply Hs in H].
  destruct (existsb _ _) eqn:He; [intros H; by apply Hs in H|]. intros _. split_and!; [done..|].
  rewrite existsb_false in He. eapply Forall_impl; [exact He|]. intros [[] []]; done.
Qed.

(** A command an invocation may run. *)
Record authorized (s : surface) (c : AgentCapabilities) (settings : ProviderAdapterSettings) (request : AgentRequest)
    (h : E) (command : CommandRequest) : Prop := {
  al_executable : req_executable command = surface_executable s;
  al_arguments : surface_arguments s (routing_model (routing request)) = Ok (req_arguments command)
                 /\ is_ok (validate_model_id (routing_model (routing request))) = true;
  al_directory : req_working_directory command = ws_root (ar_workspace request);
  al_worktree : in_worktree request settings h /\ req_environment command = settings_environment settings;
  al_compatible : compatible c request;
  al_secrets : forall secret, secret ∈ sensitive_values settings ->
    contains_text secret (default "" (req_stdin command)) = false
    /\ forall argument, argument ∈ req_arguments command -> contains_text secret argument = false;
  al_timeout : req_timeout_seconds command = ar_timeout_seconds request;
  al_artifacts : is_some (req_artifact_directory command) = true -> sensitive_values settings = []
}.

Lemma command_request_id r q : validate_CommandRequest r = Ok q -> q = r.
Proof. unfold validate_CommandRequest. intros. by inv_valid. Qed.

Lemma model_id model m : validate_model_id model = Ok m -> m = model.
Proof. unfold validate_model_id. intros. by inv_valid. Qed.

Lemma prelaunch_quiet request identity failure status :
  only same_commands (prelaunch_failure_response (E := E) (Token := Token) request identity failure status).
Proof.
  unfold prelaunch_failure_response. apply quiet_bind; [apply quiet_at|]. intros now. apply quiet_lift.
Qed.

(** A step before a launch that reads nothing. *)
Lemma lift_then {A B} (P : CommandRequest -> Prop) (r : res A) (f : A -> M W B) w :
  (forall a, r = Ok a -> launches P w (fst (f a w))) -> launches P w (fst ((lift r ≫= f) w)).
Proof. intros Hf. unfold lift, mbind, M_bind. destruct r as [a|e]; [by apply Hf|by left]. Qed.

(** The checks before a launch. *)
Lemma checks_then {B} (P : CommandRequest -> Prop) (m : M W (option AgentFailure)) (f : option AgentFailure -> M W B) w Q :
  only same_commands m -> passes m w Q ->
  (forall o, (o = None -> Q) -> does (launches P) (f o) (fun _ => True)) -> launches P w (fst ((m ≫= f) w)).
Proof.
  intros Hm HQ Hf. specialize (Hm w). unfold passes, mbind, M_bind in *. destruct (m w) as [w1 [o|e]]; cbn in *; [|by left].
  destruct (Hf o) with (w := w1) as [Hl _]; [intros ->; by apply HQ|].
  unfold launches, same_commands in *. destruct Hl as [H|(command & H & HP)]; [left; congruence|].
  right. exists command. split; [congruence|done].
Qed.

(** A quiet step before a launch. *)
Lemma quiet_then {A B} (P : CommandRequest -> Prop) (m : M W A) (f : A -> M W B) Q :
  does same_commands m Q -> (forall a, Q a -> does (launches P) (f a) (fun _ => True)) ->
  does (launches P) (m ≫= f) (fun _ => True).
Proof.
  intros Hm Hf. eapply does_seq; [exact Hm|exact Hf|by left|]. unfold launches, same_commands.
  intros w1 w2 w3 H12 [H|(command & H & HP)]; [left; congruence|right; exists command; split; [congruence|done]].
Qed.

Lemma quiet_end {A} (P : CommandRequest -> Prop) (m : M W A) :
  only same_commands m -> does (launches P) m (fun _ => True).
Proof. intros Hm w. split; [left; apply Hm|done]. Qed.

Lemma recorded_launches (P : CommandRequest -> Prop) command (cancellation : option Token) :
  P command -> does (launches P) (run_recorded command cancellation) (fun _ => True).
Proof.
  intros HP w. split; [|done]. unfold run_recorded, lift, mbind, M_bind, M_ret.
  destruct (validate_CommandRequest command) as [q|e] eqn:Hq; [|by left].
  apply command_request_id in Hq as ->. unfold at_provider. cbn.
  destruct (run_provider command cancellation (pw_env w)) as [e r]. right. by exists command.
Qed.

Lemma lifted {A} (r : res A) : does (W := W) same_commands (lift r) (fun a => r = Ok a).
Proof. by apply does_lift; [exact _|]. Qed.

Lemma no_sensitive_material prompt arguments settings :
  sensitive_material_failure prompt arguments settings = Ok None ->
  forall secret, secret ∈ sensitive_values settings ->
    contains_text secret prompt = false /\ forall argument, argument ∈ arguments -> contains_text secret argument = false.
Proof.
  unfold sensitive_material_failure. destruct (existsb _ _) eqn:He.
  { by destruct (make_failure _ _ _ _ _). }
  intros _ secret Hin. rewrite existsb_false, Forall_forall in He. specialize (He secret Hin).
  apply orb_false_iff in He as [Hp Ha]. split; [done|]. intros argument Hargument.
  rewrite existsb_false, Forall_forall in Ha. by apply Ha.
Qed.

(** The checks of [invoke], in their order. *)
Definition checks {A} (c : AgentCapabilities) (request : AgentRequest) (settings : ProviderAdapterSettings)
    (cancellation : option Token) (model_or_failure : A + AgentFailure) : M W (option AgentFailure) :=
  or_else (mret (match model_or_failure with inr f => Some f | inl _ => None end))
    (or_else (lift (request_compatibility_failure c request))
       (or_else (validate_invocation_request request settings) (cancellation_before_launch cancellation))).

Lemma checks_quiet {A} c request settings cancellation (o : A + AgentFailure) :
  only same_commands (checks c request settings cancellation o).
Proof.
  apply or_else_quiet; [apply quiet_ret|]. apply or_else_quiet; [apply quiet_lift|].
  apply or_else_quiet; [apply invocation_quiet|apply cancellation_quiet].
Qed.

Lemma checks_pass {A} c request settings cancellation (o : A + AgentFailure) w :
  passes (checks c request settings cancellation o) w
    ((exists model, o = inl model) /\ compatible c request /\ in_worktree request settings (pw_env w)).
Proof.
  apply or_else_passes; [unfold passes; destruct o as [model|f]; [by eexists|done]|intros _|apply reads_ret].
  apply or_else_passes; [exact (compatibility_checked c request)|intros _|apply reads_lift].
  unfold passes. intros Hn. apply invocation_checked. revert Hn. unfold or_else, mbind at 1, M_bind at 1.
  by destruct (validate_invocation_request _ _ w) as [w1 [[f|]|e]].
Qed.

Lemma controlled_launches s c settings request (cancellation : option Token) w :
  launches (authorized s c settings request (pw_env w)) w (fst (controlled_invoke s c settings request cancellation w)).
Proof.
  unfold controlled_invoke. apply lift_then. intros model_or_failure Hmodel. apply lift_then. intros identity _.
  eapply checks_then; [apply checks_quiet|apply checks_pass|].
  intros [failure|] Hchecks; [apply quiet_end, prelaunch_quiet|].
  destruct (Hchecks eq_refl) as ([model ->] & Hcompatible & Hworktree). cbn.
  destruct (deterministic_prompt _ _ _) as [prompt|e];
    [|eapply quiet_then; [apply lifted|intros f _; apply quiet_end, prelaunch_quiet]].
  eapply quiet_then; [apply lifted|]. intros arguments Hargs.
  eapply quiet_then; [apply lifted|]. intros [failure|] Hsens; [apply quiet_end, prelaunch_quiet|].
  assert (Hvalid : validate_model_id (routing_model (routing request)) = Ok model).
  { unfold _validated_model_or_failure in Hmodel. destruct (validate_model_id _) as [m|e]; [by injection Hmodel as ->|].
    destruct (is_ValueError e); [|done]. by destruct (make_failure _ _ _ _ _). }
  pose proof (model_id _ _ Hvalid) as ->.
  eapply does_seq with (R1 := launches (authorized s c settings request (pw_env w))) (R2 := same_commands) (P := fun _ => True).
  - apply recorded_launches. constructor; cbn; try done.
    + by rewrite Hvalid.
    + by apply no_sensitive_material.
    + destruct (allow_raw_output_reference _ && bool_decide (sensitive_values settings = [])) eqn:Hb; [|done].
      intros _. by bool_prop.
  - intros result _. eapply does_weaken; [apply lifted|done].
  - done.
  - unfold launches, same_commands. intros w1 w2 w3 [H|(command & H & HP)] H23; [left; congruence|].
    right. exists command. split; [congruence|done].
Qed.

End Launch.

(** ** The three adapters *)

Inductive adapter : Type :=
| CodexReviewer (detection : CodexDetection)
| CodexRepairer (detection : CodexDetection) (write_authorized : bool)
| OpenCodeBuilder (detection : ProviderDetection).

Section Adapters.
Context {E Token : Type} {host : ProviderHost E Token} {schema : AgentSchema} {interpreter : Interpreter}.
Abbreviation W := (ProviderWorld E).

Definition adapter_surface (a : adapter) : surface :=
  match a with
  | CodexReviewer _ => codex_surface "reviewer-read-only" "read-only"
  | CodexRepairer _ _ => codex_surface "repairer-explicit-repository-write" "workspace-write"
  | OpenCodeBuilder _ => opencode_surface
  end.

(** [adapter.capabilities()] *)
Definition adapter_capabilities (a : adapter) : AgentCapabilities :=
  match a with
  | CodexReviewer detection => reviewer_capabilities detection
  | CodexRepairer detection _ => repair_capabilities detection
  | OpenCodeBuilder detection => det_capabilities detection
  end.

(** [adapter.invoke(request, ...)] *)
Definition invoke (a : adapter) (settings : ProviderAdapterSettings) (request : AgentRequest)
    (cancellation : option Token) : M W AgentResponse :=
  match a with
  | CodexReviewer detection => reviewer_invoke detection settings request cancellation
  | CodexRepairer detection write_authorized => repair_invoke detection write_authorized settings request cancellation
  | OpenCodeBuilder detection => builder_invoke (mk_OpenCodeBuilderAdapter detection settings) request cancellation
  end.

(** The whole command line: executable and arguments. *)
Definition model_arguments (model : option string) : list string :=
  match model with Some m => ["--model"; m] | None => [] end.

Definition codex_line (sandbox : string) (model : option string) : list string :=
  ["codex"; "--ask-for-approval"; "never"; "exec"; "--ignore-user-config"; "--ephemeral"; "--sandbox"; sandbox; "--json";
   "--color"; "never"] ++ model_arguments model ++ ["-"].

Definition command_line (a : adapter) (model : option string) : list string :=
  match a with
  | CodexReviewer _ => codex_line "read-only" model
  | CodexRepairer _ _ => codex_line "workspace-write" model
  | OpenCodeBuilder _ => ["opencode"; "run"; "--format"; "json"] ++ model_arguments model ++ ["--"; "-"]
  end.

(** A repair needs the authorization to write. *)
Definition write_granted (a : adapter) : Prop :=
  match a with CodexRepairer _ write_authorized => write_authorized = true | _ => True end.

Lemma frozen_line a model arguments :
  surface_arguments (adapter_surface a) model = Ok arguments ->
  surface_executable (adapter_surface a) :: arguments = command_line a model.
Proof.
  destruct a; cbn; unfold build_codex_arguments, build_opencode_arguments; intros H; inv_valid;
    (destruct model as [m|]; inv_valid; [|by subst]);
    match goal with Hm : validate_model_id _ = Ok _ |- _ => apply model_id in Hm as -> end; by subst.
Qed.

(** What may run for a request. *)
Definition may_run (a : adapter) (settings : ProviderAdapterSettings) (request : AgentRequest) (h : E)
    (command : CommandRequest) : Prop :=
  req_executable command :: req_arguments command = command_line a (routing_model (routing request))
  /\ write_granted a
  /\ authorized (adapter_surface a) (adapter_capabilities a) settings request h command.

(** Every invocation is a controlled one or the refusal of a repair. *)
Definition refusal (a : adapter) (request : AgentRequest) (model : option string) : M W AgentResponse :=
  identity ← lift (identity_for (adapter_capabilities a) model) ;
  failure ← lift (make_failure AgentFailureCategory.INVALID_REQUEST "repair_not_authorized"
                    "Codex repair requires explicit write authorization" RetryDisposition.NOT_RETRYABLE
                    SideEffectState.NONE) ;
  prelaunch_failure_response (Token := Token) request identity failure AgentStatus.FAILED.

Lemma invoke_cases a settings request (cancellation : option Token) :
  invoke a settings request cancellation
  = controlled_invoke (adapter_surface a) (adapter_capabilities a) settings request cancellation
  \/ exists model, invoke a settings request cancellation = refusal a request model.
Proof. destruct a as [d|d [|]|d]; [by left|by left|right; by eexists|by left]. Qed.

Lemma launches_mono (P Q : CommandRequest -> Prop) (w w' : W) :
  (forall command, P command -> Q command) -> launches P w w' -> launches Q w w'.
Proof. intros HPQ [H|(command & H & HP)]; [by left|right; exists command; auto]. Qed.

(** C32: one invocation of an adapter runs at most one command, and that command is the
    frozen command line of the adapter - the read-only sandbox for a review, the writing
    one only for a repair that was authorized to write - in the root of a workspace that is
    a worktree and that, in the environment the invocation starts in, the file system
    resolves strictly, to itself normalized, and shows as a directory; with an environment the request allows, for a request the adapter's
    capabilities cover, without any sensitive value in its input or its arguments and
    without a file for its raw output when there are sensitive values. *)
Theorem provider_launch_authorized a settings request (cancellation : option Token) (w : W) :
  launches (may_run a settings request (pw_env w)) w (fst (invoke a settings request cancellation w)).
Proof.
  assert (Hrun : forall s c, s = adapter_surface a -> c = adapter_capabilities a -> write_granted a ->
    launches (may_run a settings request (pw_env w)) w (fst (controlled_invoke s c settings request cancellation w))).
  { intros s c -> -> Hw. eapply launches_mono; [|apply controlled_launches]. intros command Hc. split_and!; [|done|done].
    destruct Hc as [He [Ha _] _ _ _ _ _ _]. rewrite He. by apply frozen_line. }
  destruct a as [d|d [|]|d]; cbn [invoke]; try (by apply Hrun).
  left. unfold repair_invoke. cbn [negb]. eapply only_does, does_bind; [exact _|apply lifted|intros i _].
  eapply does_bind; [exact _|apply lifted|intros f _]. apply does_only, prelaunch_quiet.
Qed.
End Adapters.

(** ** What an adapter answers *)

(** A response the orchestrator may record for the request. *)
Record trusted (a : adapter) (request : AgentRequest) (r : AgentResponse) : Prop := {
  tr_valid : validate_AgentResponse r = Ok r;
  tr_correlation : response_correlation r = request_correlation request;
  tr_artifacts : artifacts r = [] /\ raw_output_artifact r = None;
  tr_identity : resp_status r = AgentStatus.INVALID_OUTPUT
    \/ id_provider_id (identity r) = cap_provider_id (adapter_capabilities a)
       /\ id_adapter_id (identity r) = cap_adapter_id (adapter_capabilities a)
       /\ id_adapter_version (identity r) = cap_adapter_version (adapter_capabilities a)
}.

Lemma response_for_shape request status started completed duration summary parse identity' failure r :
  response_for request status started completed duration summary parse identity' failure = Ok r ->
  resp_status r = status /\ artifacts r = [] /\ raw_output_artifact r = None
  /\ validate_AgentProviderIdentity identity' = Ok (identity r).
Proof.
  intros Hr. unfold response_for, validate_AgentResponse in Hr. cbn in Hr. inv_valid.
  pose proof (validate_response_id _ _ Hr) as ->. done.
Qed.

Section Answers.
Context {E Token : Type} {host : ProviderHost E Token} {schema : AgentSchema} {interpreter : Interpreter}.
Context (Hschema : forall j r, response_of_json j = Some r -> validate_AgentResponse r = Ok r).
Context (a : adapter) (settings : ProviderAdapterSettings) (request : AgentRequest).
Context (Hrequest : validate_AgentRequest request = Ok request).
Context (Hcapabilities : validate_AgentCapabilities (adapter_capabilities a) = Ok (adapter_capabilities a)).
Abbreviation W := (ProviderWorld E).

(** The identity an adapter gives its answers. *)
Definition own_identity (i : AgentProviderIdentity) : Prop :=
  exists model, identity_for (adapter_capabilities a) model = Ok i.

Lemma own_identity_fields i :
  own_identity i ->
  validate_AgentProviderIdentity i = Ok i
  /\ id_provider_id i = cap_provider_id (adapter_capabilities a)
  /\ id_adapter_id i = cap_adapter_id (adapter_capabilities a)
  /\ id_adapter_version i = cap_adapter_version (adapter_capabilities a).
Proof.
  intros (model & Hi). unfold identity_for in Hi. split; [by eapply idem|].
  destruct (capability_parts _ Hcapabilities) as (H1 & H2 & H3 & _).
  unfold validate_AgentProviderIdentity in Hi. cbn in Hi. rewrite H1 in Hi. cbn in Hi. rewrite H2 in Hi. cbn in Hi.
  rewrite H3 in Hi. cbn in Hi. by inv_valid.
Qed.

Lemma response_trusted i status started completed duration summary parse failure r :
  own_identity i ->
  response_for request status started completed duration summary parse i failure = Ok r ->
  trusted a request r /\ resp_status r = status.
Proof.
  intros Hi Hr. destruct (response_for_facts _ _ _ _ _ _ _ _ _ _ Hrequest Hr) as [Hv Hc].
  destruct (response_for_shape _ _ _ _ _ _ _ _ _ _ Hr) as (Hs & Ha & Hraw & Hid).
  destruct (own_identity_fields i Hi) as (Hvi & Hf). rewrite Hvi in Hid. injection Hid as Hid.
  split; [|done]. split; [done|done|done|right]. by rewrite <- Hid.
Qed.

Lemma invalid_trusted i started completed category code message r :
  own_identity i ->
  invalid_output_response request i started completed category code message = Ok r -> trusted a request r.
Proof.
  intros Hi Hr. unfold invalid_output_response in Hr. apply bind_Ok in Hr as (d & _ & Hr).
  apply bind_Ok in Hr as (f & _ & Hr). by eapply response_trusted in Hr as [? _].
Qed.

Lemma success_trusted result i envelope sensitive r :
  own_identity i -> translate_success result request i envelope sensitive = Ok r -> trusted a request r.
Proof.
  intros Hi Hr. unfold translate_success in Hr. cbv zeta in Hr. destruct (_ || _); [by eapply invalid_trusted|].
  apply bind_Ok in Hr as (response & Hn & Hr).
  destruct (normalize_facts Hschema _ _ _ _ _ _ _ _ Hrequest Hn) as [Hv Hc].
  destruct (foreign_identity response i) eqn:Hf; [by eapply invalid_trusted|].
  destruct (negb _ || _) eqn:Ha; [by eapply invalid_trusted|]. injection Hr as ->.
  apply orb_false_iff in Ha as [Ha Hraw]. bool_prop. split; [done|done| |].
  - split; [done|]. by destruct (raw_output_artifact r).
  - unfold foreign_identity in Hf. apply andb_false_iff in Hf as [Hs|Hid]; bool_prop; [by left|right].
    rewrite Hid. by destruct (own_identity_fields i Hi) as [_ ?].
Qed.

Lemma command_failure_trusted result i o :
  own_identity i -> command_failure_response result request i = Ok o ->
  forall r, o = Some r -> trusted a request r /\ resp_status r <> AgentStatus.COMPLETED.
Proof.
  intros Hi Ho r ->. unfold command_failure_response, failure_response in Ho.
  destruct (command_failures _) as [[[[status category] code] message]|] eqn:Hc; [|done].
  assert (Hstatus : status <> AgentStatus.COMPLETED).
  { unfold command_failures in Hc. by destruct (cr_status result); try done; try (injection Hc as <- _ _ _; done). }
  destruct (executable_unavailable result); apply bind_Ok in Ho as (f & _ & Ho);
    destruct (response_for _ _ _ _ _ _ _ _ _) as [r'|] eqn:Hr; try done; injection Ho as ->;
    eapply response_trusted in Hr as [? ->]; done.
Qed.

Lemma translate_trusted s result i r :
  own_identity i -> translate s result request i settings = Ok r ->
  trusted a request r /\ (resp_status r = AgentStatus.COMPLETED -> cr_status result = CommandStatus.SUCCESS).
Proof.
  intros Hi Hr. unfold translate in Hr. apply bind_Ok in Hr as (o & Ho & Hr).
  destruct o as [r'|].
  { injection Hr as ->. by destruct (command_failure_trusted _ _ _ Hi Ho r eq_refl). }
  assert (Hs : cr_status result = CommandStatus.SUCCESS).
  { unfold command_failure_response in Ho.
    destruct (command_failures _) as [[[[status category] code] message]|] eqn:Hc; [|by destruct (cr_status result)].
    destruct (executable_unavailable result); apply bind_Ok in Ho as (f & _ & Ho);
      by destruct (failure_response _ _ _ _ _). }
  split; [|done]. destruct (surface_parse s _) as [envelope|e]; [by eapply success_trusted|].
  destruct (is_ValueError e); [by eapply invalid_trusted|done].
Qed.

(** A computation whose responses are trusted, and that completes nothing without having
    run a command. *)
Definition concludes (m : M W AgentResponse) : Prop :=
  forall w w' r, m w = (w', Ok r) ->
    trusted a request r /\ (resp_status r = AgentStatus.COMPLETED -> pw_commands w' <> pw_commands w).

Lemma concludes_after {A} (m : M W A) (f : A -> M W AgentResponse) Q :
  does same_commands m Q -> (forall x, Q x -> concludes (f x)) -> concludes (m ≫= f).
Proof.
  intros Hm Hf w w' r Hr. apply M_bind_Ok in Hr as (w1 & x & Hx & Hr). destruct (Hm w) as [H1 H2].
  rewrite Hx in H1, H2. unfold same_commands in H1. cbn in H1, H2.
  destruct (Hf x (H2 x eq_refl) _ _ _ Hr) as [Ht Hc]. split; [done|]. intros Hs. rewrite <- H1. by apply Hc.
Qed.

Lemma prelaunch_concludes i failure status :
  own_identity i -> status <> AgentStatus.COMPLETED ->
  concludes (prelaunch_failure_response (Token := Token) request i failure status).
Proof.
  intros Hi Hs w w' r Hr. unfold prelaunch_failure_response in Hr. apply M_bind_Ok in Hr as (w1 & now & _ & Hr).
  unfold lift in Hr. injection Hr as _ Hr. eapply response_trusted in Hr as [? ->]; done.
Qed.

Lemma prelaunch_status_failed failure : prelaunch_status failure <> AgentStatus.COMPLETED.
Proof. unfold prelaunch_status. by destruct (af_category failure). Qed.

Lemma launch_concludes command (cancellation : option Token) s i :
  own_identity i ->
  concludes (result ← run_recorded command cancellation ; lift (translate s result request i settings)).
Proof.
  intros Hi w w' r Hr. apply M_bind_Ok in Hr as (w1 & result & Hrun & Hr). unfold lift in Hr. injection Hr as -> Hr.
  apply translate_trusted in Hr as [Ht _]; [|done]. split; [done|]. intros _.
  unfold run_recorded, lift, mbind, M_bind in Hrun. destruct (validate_CommandRequest command) as [q|e]; [|done].
  unfold at_provider in Hrun. cbn in Hrun. destruct (run_provider q cancellation (pw_env w)) as [e o].
  injection Hrun as <- _. cbn. intros H. apply (f_equal length) in H. rewrite length_app in H. cbn in H. lia.
Qed.

Lemma controlled_concludes s (cancellation : option Token) :
  concludes (controlled_invoke s (adapter_capabilities a) settings request cancellation).
Proof.
  unfold controlled_invoke. eapply concludes_after; [apply lifted|]. intros model_or_failure _.
  eapply concludes_after; [apply lifted|]. intros i Hi. cbn in Hi.
  assert (Hown : own_identity i) by by eexists.
  assert (Hfail : forall status (r : res AgentFailure), status <> AgentStatus.COMPLETED ->
    concludes (failure ← lift r ; prelaunch_failure_response (Token := Token) request i failure status)).
  { intros status r Hs. eapply concludes_after; [apply lifted|]. intros f _. by apply prelaunch_concludes. }
  eapply concludes_after.
  { apply does_only, (checks_quiet (adapter_capabilities a) request settings cancellation model_or_failure). }
  intros [failure|] _; [apply prelaunch_concludes; [done|apply prelaunch_status_failed]|].
  destruct (deterministic_prompt _ _ _) as [prompt|e]; [|by apply Hfail].
  eapply concludes_after; [apply lifted|]. intros arguments _.
  eapply concludes_after; [apply lifted|]. intros [failure|] _; [by apply prelaunch_concludes|].
  by apply launch_concludes.
Qed.

(** C33: whatever an adapter answers can be recorded for the request: the response
    satisfies every validator, carries the correlation of the request, names no artifact
    the provider chose, and - unless it says that the output was invalid - the identity
    of the adapter; it is a completed one only if a command ran. *)
Theorem provider_response_trusted (cancellation : option Token) (w w' : W) r
    (Hrun : invoke a settings request cancellation w = (w', Ok r)) :
  trusted a request r /\ (resp_status r = AgentStatus.COMPLETED -> pw_commands w' <> pw_commands w).
Proof.
  revert Hrun. enough (Hall : concludes (invoke a settings request cancellation)) by apply Hall.
  destruct (invoke_cases a settings request cancellation) as [->|(model & ->)]; [apply controlled_concludes|].
  eapply concludes_after; [apply lifted|]. intros i Hi. cbn in Hi.
  eapply concludes_after; [apply lifted|]. intros f _. by apply prelaunch_concludes; [eexists|].
Qed.
End Answers.
