(* ===== verification/CodexGrammar.v ===== *)
(** * The grammar of Codex events

    The event loop of [parse_codex_jsonl] as a step relation, and the language of the
    transcripts it accepts. *)

From Stdlib Require Import ZArith Lia Ascii String.
From S2P Require Import Prelude Text Domain Unicode Regex Redaction Json Agents AgentOutput Providers Codex.
From stdpp Require Import base option strings numbers list list_relations.

Open Scope Z_scope.

Definition has_type (event : json) (name : string) : Prop := member "type" event = Some (JStr (code_points name)).

(** An event about an item that carries no message. *)
Definition progress (event : json) : Prop :=
  (has_type event "item.started" \/ has_type event "item.completed")
  /\ exists members name, member "item" event = Some (JObj members)
     /\ member "type" (JObj members) = Some (JStr (code_points name)) /\ name ∈ allowed_items.

(** A completed message of the agent. *)
Definition message (event : json) (points : list Z) : Prop :=
  has_type event "item.completed"
  /\ exists members, member "item" event = Some (JObj members)
     /\ member "type" (JObj members) = Some (JStr (code_points "agent_message"))
     /\ member "text" (JObj members) = Some (JStr points).

(** One event of a run. *)
Inductive codex_step : turn -> json -> turn -> Prop :=
| step_thread event points : has_type event "thread.started" ->
    codex_step (mk_turn points false false) event (mk_turn points false false)
| step_turn event points : has_type event "turn.started" ->
    codex_step (mk_turn points false false) event (mk_turn points true false)
| step_progress event points : progress event -> codex_step (mk_turn points true false) event (mk_turn points true false)
| step_message event points points' : message event points' ->
    codex_step (mk_turn points true false) event (mk_turn (Some points') true false)
| step_done event points : has_type event "turn.completed" ->
    codex_step (mk_turn (Some points) true false) event (mk_turn (Some points) true true).

Lemma text_is_true value name : text_is value name = true <-> value = Some (JStr (code_points name)).
Proof.
  destruct value as [[]|]; cbn; try done. rewrite bool_decide_eq_true. split; [by intros ->|by intros [= ->]].
Qed.

(** Decide a comparison of two literal names. *)
Ltac eval_names :=
  repeat match goal with
  | |- context [text_is (Some (JStr (code_points ?a))) ?b] =>
      let v := eval vm_compute in (text_is (Some (JStr (code_points a))) b) in
      change (text_is (Some (JStr (code_points a))) b) with v
  end; cbn [unhashable].

Lemma item_event_spec event completed_item points t' :
  item_event event completed_item (mk_turn points true false) = Ok t' <->
  exists members item_type, member "item" event = Some (JObj members) /\ member "type" (JObj members) = Some (JStr item_type)
    /\ ((item_type = code_points "agent_message" /\ completed_item = true
         /\ exists value, member "text" (JObj members) = Some (JStr value) /\ t' = mk_turn (Some value) true false)
        \/ (exists name, name ∈ allowed_items /\ item_type = code_points name) /\ t' = mk_turn points true false).
Proof.
  unfold item_event. cbn [turn_started turn_completed negb orb raise_if mbind result_bind].
  destruct (member "item" event) as [[]|]; try (split; [done|by intros (? & ? & [=] & _)]).
  destruct (member "type" (JObj members)) as [[| | | |s| |]|] eqn:Hm; try (split; [done|by intros (? & ? & [= <-] & Ht & _); rewrite Hm in Ht]).
  assert (Hallowed : existsb (fun name => bool_decide (s = code_points name)) allowed_items = true
                     <-> exists name, name ∈ allowed_items /\ s = code_points name).
  { rewrite existsb_exists. setoid_rewrite <- list_elem_of_In. by setoid_rewrite bool_decide_eq_true. }
  destruct (bool_decide (s = code_points "agent_message") && completed_item) eqn:Hb.
  - apply andb_true_iff in Hb as [Hs ->]. bool_prop. subst s. assert (Hno : ~ exists name, name ∈ allowed_items /\ code_points "agent_message" = code_points name).
    { rewrite <- Hallowed. by vm_compute. }
    assert (Hinv : forall t',
      (exists members' item_type, Some (JObj members) = Some (JObj members') /\ member "type" (JObj members') = Some (JStr item_type)
        /\ ((item_type = code_points "agent_message" /\ true = true
              /\ exists value, member "text" (JObj members') = Some (JStr value) /\ t' = mk_turn (Some value) true false)
            \/ (exists name, name ∈ allowed_items /\ item_type = code_points name) /\ t' = mk_turn points true false))
      <-> exists value, member "text" (JObj members) = Some (JStr value) /\ t' = mk_turn (Some value) true false).
    { intros t''. split.
      - intros (? & ? & [= <-] & Ht & Hor). rewrite Hm in Ht. injection Ht as <-. by destruct Hor as [(_ & _ & ?)|[? _]].
      - intros Hv. exists members. eexists. split_and!; [done|exact Hm|by left]. }
    rewrite Hinv. destruct (member "text" (JObj members)) as [[]|]; (split; [|intros (? & Hv & ->); by inversion Hv]); try done.
    + intros [= <-]. by eexists.
  - rewrite bind_raise_if_Ok, negb_false_iff, Hallowed. split.
    + intros [Hn [= <-]]. exists members, s. split_and!; [done|done|by right].
    + intros (? & ? & [= <-] & Ht & Hor). rewrite Hm in Ht. injection Ht as <-.
      destruct Hor as [(Hs & -> & _)|[Hn ->]]; [|done].
      rewrite bool_decide_eq_true_2 in Hb by done. done.
Qed.

(** The loop body takes exactly the steps of the relation. *)
Lemma codex_event_step event t t' : codex_event event t = Ok t' <-> codex_step t event t'.
Proof.
  split.
  - unfold codex_event. destruct (text_is _ "thread.started") eqn:H1; [|destruct (text_is _ "turn.started") eqn:H2].
    + destruct t as [points [] []]; try done. intros [= <-]. constructor. by apply text_is_true.
    + destruct t as [points [] []]; try done. intros [= <-]. constructor. by apply text_is_true.
    + destruct (unhashable _); [done|]. destruct (text_is _ "item.started") eqn:H3; [|destruct (text_is _ "item.completed") eqn:H4].
      * destruct t as [points [] []]; try done. intros (members & ty & Hi & Ht & Hor)%item_event_spec.
        destruct Hor as [(_ & Hf & _)|[(name & Hn & ->) ->]]; [done|]. constructor.
        split; [left; by apply text_is_true|]. by exists members, name.
      * destruct t as [points [] []]; try done. intros (members & ty & Hi & Ht & Hor)%item_event_spec.
        destruct Hor as [(-> & _ & v & Hv & ->)|[(name & Hn & ->) ->]].
        -- constructor. split; [by apply text_is_true|]. by exists members.
        -- constructor. split; [right; by apply text_is_true|]. by exists members, name.
      * destruct (text_is _ "turn.completed") eqn:H5; [|done]. destruct t as [[points|] [] []]; try done.
        intros [= <-]. constructor. by apply text_is_true.
  - intros Hs. destruct Hs as [e p H|e p H|e p [H Hi]|e p p' [H Hi]|e p H]; unfold codex_event; cbv zeta;
      try (rewrite ?H; eval_names; done).
    + destruct H as [H|H]; rewrite ?H; eval_names; apply item_event_spec; destruct Hi as (members & name & ? & ? & ?);
        exists members, (code_points name); (split_and!; [done|done|]); right; (split; [by exists name|done]).
    + rewrite ?H. eval_names. apply item_event_spec. destruct Hi as (members & ? & ? & ?).
      exists members. eexists. split_and!; [done|done|]. left. split_and!; [done|done|]. by eexists.
Qed.

(** ** Whole transcripts *)

(** The events of a turn, with the text of the last message. *)
Inductive turn_items : option (list Z) -> list json -> option (list Z) -> Prop :=
| items_end points : turn_items points [] points
| items_progress points event events last : progress event -> turn_items points events last ->
    turn_items points (event :: events) last
| items_message points event points' events last : message event points' -> turn_items (Some points') events last ->
    turn_items points (event :: events) last.

(** A transcript: threads, the start of the turn, its items with at least one message, and
    the completion, after which nothing follows. *)
Definition transcript (events : list json) (points : list Z) : Prop :=
  exists threads start items completion,
    events = threads ++ [start] ++ items ++ [completion]
    /\ Forall (fun e => has_type e "thread.started") threads /\ has_type start "turn.started"
    /\ turn_items None items (Some points) /\ has_type completion "turn.completed".

Definition finished (events : list json) (t : turn) (points : list Z) : Prop :=
  codex_events events t = Ok (mk_turn (Some points) true true).

Lemma events_cons event events t t' :
  codex_events (event :: events) t = Ok t' <-> exists t1, codex_step t event t1 /\ codex_events events t1 = Ok t'.
Proof. cbn [codex_events]. rewrite bind_Ok. by setoid_rewrite codex_event_step. Qed.

Lemma completed_ends events points t : codex_events events (mk_turn points true true) = Ok t -> events = [].
Proof. destruct events as [|event events]; [done|]. intros (t1 & Hs & _)%events_cons. inversion Hs. Qed.

Lemma items_phase events points last :
  finished events (mk_turn points true false) last
  <-> exists items completion, events = items ++ [completion] /\ turn_items points items (Some last)
      /\ has_type completion "turn.completed".
Proof.
  unfold finished. revert points. induction events as [|event events IH]; intros points.
  { split; [done|]. intros (items & completion & H & _). by destruct items. }
  rewrite events_cons. split.
  - intros (t1 & Hs & Hev). inversion Hs; subst.
    + apply IH in Hev as (items & completion & -> & Hi & Hc). exists (event :: items), completion. by split_and!; [|apply items_progress|].
    + apply IH in Hev as (items & completion & -> & Hi & Hc). exists (event :: items), completion. split_and!; [done| |done]. by eapply items_message.
    + pose proof (completed_ends _ _ _ Hev) as ->. injection Hev as ->. exists [], event. by split_and!; [|constructor|].
  - intros (items & completion & He & Hi & Hc). inversion Hi; subst; cbn in He; injection He as -> ->.
    + exists (mk_turn (Some last) true true). split; [by constructor|done].
    + exists (mk_turn points true false). split; [by constructor|]. apply IH. by eexists _, _.
    + eexists. split; [by apply step_message|]. apply IH. by eexists _, _.
Qed.

Lemma start_phase events last :
  finished events (mk_turn None false false) last <-> transcript events last.
Proof.
  induction events as [|event events IH]; unfold finished.
  { split; [done|]. intros (threads & start & items & completion & H & _). by destruct threads. }
  rewrite events_cons. split.
  - intros (t1 & Hs & Hev). inversion Hs; subst.
    + apply IH in Hev as (threads & start & items & completion & -> & Hf & Hs1 & Hi & Hc).
      exists (event :: threads), start, items, completion. split_and!; [reflexivity|constructor; assumption|assumption..].
    + apply items_phase in Hev as (items & completion & -> & Hi & Hc). exists [], event, items, completion. split_and!; [reflexivity|constructor|assumption..].
  - intros (threads & start & items & completion & He & Hf & Hs & Hi & Hc). destruct threads as [|thread threads]; cbn in He; injection He as -> ->.
    + exists (mk_turn None true false). split; [constructor; assumption|]. apply items_phase. exists items, completion.
      split_and!; [reflexivity|assumption..].
    + apply Forall_cons in Hf as [Ht Hf]. exists (mk_turn None false false). split; [constructor; assumption|].
      apply IH. exists threads, start, items, completion. split_and!; [reflexivity|assumption..].
Qed.

Lemma step_completed t event t' :
  codex_step t event t' -> (turn_completed t = true -> is_some (terminal_text t) = true /\ turn_started t = true) ->
  turn_completed t' = true -> is_some (terminal_text t') = true /\ turn_started t' = true.
Proof. by intros []. Qed.

Lemma events_completed events t t' :
  codex_events events t = Ok t' -> (turn_completed t = true -> is_some (terminal_text t) = true /\ turn_started t = true) ->
  turn_completed t' = true -> is_some (terminal_text t') = true /\ turn_started t' = true.
Proof.
  revert t. induction events as [|event events IH]; intros t; [by intros [= ->]|].
  intros (t1 & Hs & Hev)%events_cons Ht. eapply IH; [exact Hev|]. by eapply step_completed.
Qed.

(** ** Lines *)

(** An end of line before a rest: a carriage return takes a line feed that follows it. *)
Definition line_end (separator rest : list Z) : Prop :=
  separator = [13; 10]
  \/ exists n, separator = [n] /\ ends_line n = true /\ (n = 13 -> head rest <> Some 10).

(** The lines of a text: none is lost, none is added after the last end. *)
Inductive lines_of : list Z -> list (list Z) -> Prop :=
| lines_none : lines_of [] []
| lines_last line : line <> [] -> Forall (fun n => ends_line n = false) line -> lines_of line [line]
| lines_next line separator rest lines : Forall (fun n => ends_line n = false) line -> line_end separator rest ->
    lines_of rest lines -> lines_of (line ++ separator ++ rest) (line :: lines).

Lemma split_prefix acc line l :
  Forall (fun n => ends_line n = false) line -> split_lines acc (line ++ l) = split_lines (rev line ++ acc) l.
Proof.
  intros Hf. revert acc. induction Hf as [|n line Hn Hf IH]; intros acc; [done|]. cbn [app split_lines]. rewrite Hn, IH.
  cbn [rev]. by rewrite <- app_assoc.
Qed.

Lemma split_end acc separator rest :
  line_end separator rest -> split_lines acc (separator ++ rest) = rev acc :: split_lines [] rest.
Proof.
  intros [->|(n & -> & Hn & Hr)]; [done|]. cbn [app split_lines]. rewrite Hn. destruct (Z.eqb_spec n 13) as [->|]; [|done].
  destruct rest as [|m rest]; [done|]. destruct (Z.eqb_spec m 10) as [->|]; [|done]. by destruct (Hr eq_refl).
Qed.

Lemma lines_of_split l lines : lines_of l lines -> split_lines [] l = lines.
Proof.
  induction 1 as [|line Hne Hf|line separator rest lines Hf He _ IH]; [done| |].
  - rewrite <- (app_nil_r line) at 1. rewrite split_prefix by done. rewrite app_nil_r. cbn [split_lines].
    destruct (rev line) as [|n r] eqn:Hr; [|by rewrite <- Hr, rev_involutive].
    apply (f_equal (@rev Z)) in Hr. by rewrite rev_involutive in Hr.
  - rewrite split_prefix by done. rewrite app_nil_r, split_end by done. by rewrite rev_involutive, IH.
Qed.

(** Every text has a first line, the end that follows it, and a shorter rest. *)
Lemma first_line l :
  Forall (fun n => ends_line n = false) l
  \/ exists line separator rest, l = line ++ separator ++ rest /\ Forall (fun n => ends_line n = false) line
       /\ line_end separator rest /\ (length rest < length l)%nat.
Proof.
  induction l as [|n l IH]; [by left|]. destruct (ends_line n) eqn:Hn.
  - right. destruct (decide (n = 13 /\ head l = Some 10)) as [[-> Hh]|Hno].
    + destruct l as [|m l]; [done|]. injection Hh as ->. exists [], [13; 10], l.
      split_and!; [done|constructor|by left|cbn; lia].
    + exists [], [n], l. split_and!; [done|constructor| |cbn; lia]. right. exists n. split_and!; [done..|]. intros -> Hh. by apply Hno.
  - destruct IH as [Hf|(line & separator & rest & -> & Hf & He & Hl)]; [left; by constructor|right].
    exists (n :: line), separator, rest. split_and!; [done|by constructor|done|cbn; lia].
Qed.

Lemma has_lines l : exists lines, lines_of l lines.
Proof.
  enough (Hall : forall n l, (length l < n)%nat -> exists lines, lines_of l lines) by (by apply (Hall (S (length l))); lia).
  clear l. induction n as [|n IH]; intros l Hl; [lia|].
  destruct (first_line l) as [Hf|(line & separator & rest & -> & Hf & He & Hr)].
  - destruct l as [|c l]; [exists []; constructor|exists [c :: l]; by constructor].
  - destruct (IH rest) as [lines Hlines]; [lia|]. exists (line :: lines). by constructor.
Qed.

Lemma split_lines_spec l lines : split_lines [] l = lines <-> lines_of l lines.
Proof.
  split; [|apply lines_of_split]. intros <-. destruct (has_lines l) as [lines Hl].
  by rewrite (lines_of_split _ _ Hl).
Qed.

Section Grammar.
Context {interpreter : Interpreter}.

(** The events of an output: it has lines, none of them blank, and each is the text of one
    JSON object. *)
Definition json_lines (text : string) (events : list json) : Prop :=
  exists lines, lines_of (code_points text) lines /\ lines <> []
    /\ Forall2 (fun line event => Exists (fun n => is_space n = false) line /\ json_loads line = Ok event
                                /\ exists members, event = JObj members) lines events.

Lemma blank_line line : forallb is_space line = false <-> Exists (fun n => is_space n = false) line.
Proof.
  induction line as [|n line IH]; cbn; [by rewrite Exists_nil|]. rewrite andb_false_iff, IH, Exists_cons. done.
Qed.

Lemma parse_line_spec line event :
  parse_line line = Ok event <-> json_loads line = Ok event /\ exists members, event = JObj members.
Proof.
  unfold parse_line. destruct (json_loads line) as [j|e]; [|by split; [|intros [? _]]].
  destruct j; cbn; split; try done; try (by intros [[= <-] [? [=]]]).
  intros [= <-]. split; [done|by eexists].
Qed.

Lemma parse_lines_spec text events :
  _parse_json_lines text = Ok events <-> byte_len text <= 1048576 /\ json_lines text events.
Proof.
  unfold _parse_json_lines. rewrite bind_raise_if_Ok, Z.ltb_ge. apply and_iff_compat_l. cbv zeta.
  rewrite bind_raise_if_Ok, orb_false_iff, bool_decide_eq_false. unfold json_lines.
  setoid_rewrite <- split_lines_spec. split.
  - intros [[Hne Hb] Ht]. eexists. split_and!; [reflexivity|done|]. apply traverse_Forall2 in Ht.
    rewrite existsb_false, Forall_forall in Hb. apply Forall2_same_length_lookup. 
    split; [by eapply Forall2_length|]. intros i line event Hl He. split; [|apply parse_line_spec; by eapply Forall2_lookup_lr in Ht].
    apply blank_line, Hb. by eapply list_elem_of_lookup_2.
  - intros (lines & <- & Hne & Hall). split; [split; [done|]|].
    + rewrite existsb_false, Forall_forall. intros line Hline. apply list_elem_of_lookup in Hline as [i Hi].
      eapply Forall2_lookup_l in Hall as (event & _ & Hx & _); [|exact Hi]. by apply blank_line.
    + apply traverse_Forall2. eapply Forall2_impl; [exact Hall|]. intros line event (_ & H). by apply parse_line_spec.
Qed.

Lemma replacement_spec text : has_replacement text = false <-> 65533 ∉ code_points text.
Proof.
  unfold has_replacement. rewrite existsb_false, Forall_forall. split.
  - intros H Hin. by apply H in Hin.
  - intros H n Hn. apply Z.eqb_neq. by intros <-.
Qed.

Lemma encode_text_spec points envelope :
  encode_text points = Ok envelope <-> Forall (fun n => scalar n = true) points /\ envelope = text_of points.
Proof.
  unfold encode_text. destruct (forallb scalar points) eqn:Hf.
  - rewrite forallb_forall in Hf. split.
    + intros [= <-]. split; [|done]. apply Forall_forall. intros n Hn. apply Hf. by apply list_elem_of_In.
    + by intros [_ ->].
  - split; [done|]. intros [Hall _]. rewrite <- not_true_iff_false, forallb_forall in Hf. destruct Hf.
    intros n Hn. rewrite Forall_forall in Hall. apply Hall. by apply list_elem_of_In.
Qed.

(** C34: the output of Codex is accepted exactly when it holds no U+FFFD (the mark of bytes
    that are not UTF-8), has at most 1048576 bytes, every one of its lines is the text of
    one JSON object, the objects are a transcript - thread announcements, one turn, progress
    and messages, and the completion of the turn as the last event - and the text of the
    last message has no lone surrogate; the envelope is then that text. *)
Theorem codex_grammar text envelope :
  parse_codex_jsonl text = Ok envelope
  <-> 65533 ∉ code_points text /\ byte_len text <= 1048576
      /\ exists events points, json_lines text events /\ transcript events points
         /\ Forall (fun n => scalar n = true) points /\ envelope = text_of points.
Proof.
  unfold parse_codex_jsonl. rewrite bind_raise_if_Ok, bind_Ok, replacement_spec. apply and_iff_compat_l.
  setoid_rewrite parse_lines_spec. split.
  - intros (events & [Hsize Hl] & H). apply bind_Ok in H as (t & Hev & H). split; [done|]. exists events.
    destruct (terminal_text t) as [points|] eqn:Hp; [|done]. destruct (turn_completed t) eqn:Hc; [|done].
    exists points. apply encode_text_spec in H as [Hscalar ->]. split_and!; [done| |done..]. apply start_phase. unfold finished.
    destruct (events_completed _ _ _ Hev) as [_ Hs]; [done|done|]. destruct t; cbn in *; by subst.
  - intros (Hsize & events & points & Hl & Ht & Henc). exists events. split; [done|]. apply bind_Ok.
    exists (mk_turn (Some points) true true). split; [by apply start_phase|by apply encode_text_spec].
Qed.
End Grammar.
