(* ===== verification/AdapterSample.v ===== *)
(** * Sample adapters

    A review by a Codex reviewer, its transcript and a scripted adapter: the theorems
    about agent output and the adapters applied to concrete runs, and the inputs on which
    an exception leaves an adapter. *)

From Stdlib Require Import ZArith Lia Ascii String QArith.
From S2P Require Import Prelude Text Domain Sha256 Unicode Regex Redaction Json Effects Agents Commands CommandPolicy ContextReader AgentOutput AgentOutputSafety FakeAgent Providers Codex OpenCode AdapterSafety CodexGrammar.
From stdpp Require Import base option strings numbers gmap list list_relations.

Open Scope Z_scope.

Module AdapterSample.
(** A text with its apostrophes as quotation marks. *)
Fixpoint quoted (s : string) : string :=
  match s with
  | EmptyString => ""
  | String c s => String (if Ascii.eqb c "'" then ascii_of_N 34 else c) (quoted s)
  end.

Definition response : AgentResponse :=
  let r := AgentSample.response in
  mk_AgentResponse 1 (resp_invocation_id r) (resp_run_id r) (resp_work_package_id r) (resp_attempt_id r) 1
    AgentRole.REVIEWER 1 AgentStatus.COMPLETED (utc 1000000) (utc 1250000) 250 "Reviewed" "text"
    StructuredParseStatus.PARSED (payload r) [] []  None
    (mk_AgentProviderIdentity "codex" "codex.reviewer" "1.0.0" (Some "gpt-5")) None None.

(** The schema reads every object as the sample response; anything else is refused. *)
#[export] Instance schema : AgentSchema := {|
  response_of_json j := if is_object j then Some response else None;
  request_json := ar_invocation_id
|}.
#[export] Instance interpreter : Interpreter := {| nesting_limit := 1000%nat |}.
#[export] Instance folding : CaseFolding := {| unicode_casefold n := [n] |}.

Lemma schema_valid : forall j r, response_of_json j = Some r -> validate_AgentResponse r = Ok r.
Proof. intros j r H. cbn in H. destruct (is_object j); [|discriminate H]. injection H as <-. vm_compute. reflexivity. Qed.

Definition request : AgentRequest :=
  mk_AgentRequest 1 ("inv_" +:+ AgentSample.hex32) ("run_" +:+ AgentSample.hex32) "P4-002" ("attempt_" +:+ AgentSample.hex32) 1
    AgentRole.REVIEWER "Review the change" ["src/**"; "tests/**"] ["secrets"]
    (mk_WorkspaceReference WorkspaceKind.WORKTREE "wt_1" (mk_Path true ["srv"; "wt"])) []
    (mk_AgentResponseContract 1 true 16384 32 64) 600 None
    (mk_AgentArtifactPolicy "artifacts" true false 8388608 true) (mk_AgentRouting None (Some "gpt-5")) []
    (mk_ExpectedAgentCapabilities true true false false true false false false) [].

Lemma review_request_valid : validate_AgentRequest request = Ok request.
Proof. vm_compute. reflexivity. Qed.

Definition events (message : string) : string :=
  String.concat newline
    (quoted <$> ["{'type': 'thread.started'}"; "{'type': 'turn.started'}";
       "{'type': 'item.completed', 'item': {'type': 'reasoning'}}";
       "{'type': 'item.completed', 'item': {'type': 'agent_message', 'text': '" +:+ message +:+ "'}}";
       "{'type': 'turn.completed'}"]).

Definition envelope : string := "{\'schema_version\': 1}".

(** A runner that prints one transcript. *)
Definition answer (output : string) (command : CommandRequest) : CommandResult :=
  mk_CommandResult (req_correlation_id command) (req_executable command) None CommandStatus.SUCCESS (utc 1000000)
    (utc 1250000) (1 # 4) (mk_CapturedOutput output (byte_len output) (byte_len output) false false None)
    (mk_CapturedOutput "" 0 0 false false None) (Some 0) None 1.

Definition host (output : string) : ProviderHost unit unit := {|
  provider_files := {|
    fs_resolve _ p := mret p;
    fs_is_dir _ := mret true;
    fs_is_file _ := mret false;
    fs_executable _ := mret false;
    fs_exists _ := mret true;
    fs_is_symlink _ := mret false;
    fs_lexists _ := mret true
  |};
  run_provider command _ := mret (answer output command);
  provider_now := mret (utc 1000000);
  token_is_cancelled _ := mret false;
  prompt_json request mode _ := mode +:+ ":" +:+ ar_objective request
|}.

Definition detection : CodexDetection :=
  match _detection ProviderCompatibility.AVAILABLE (Some "codex-cli 0.146.0") None true ["--version"] with
  | Ok d => d
  | Err _ => mk_CodexDetection ProviderCompatibility.UNAVAILABLE None None (mk_AgentCapabilities 1 "" "" "" [] false false
      false false false false false false AgentAvailability.UNAVAILABLE None None []) (mk_AgentCapabilities 1 "" "" "" []
      false false false false false false false false AgentAvailability.UNAVAILABLE None None []) false []
  end.

Definition settings : ProviderAdapterSettings := mk_ProviderAdapterSettings [] ["hunter2secret"] None default_output_limits.

Definition start : ProviderWorld unit := mk_ProviderWorld tt [].

Definition review (message : string) : ProviderWorld unit * res AgentResponse :=
  invoke (host := host (events message)) (CodexReviewer detection) settings request None start.

(** A step of a scripted adapter and its scenario. *)
Definition step : FakeAgentStep :=
  mk_FakeAgentStep (agent_request_digest request) (utc 1000000) 250 0
    (Scripted (mk_ScriptedResponseOutcome AgentStatus.COMPLETED "Reviewed" "text" StructuredParseStatus.PARSED
       (Some (ReviewerPayload (mk_ReviewResult 1 ReviewVerdict.APPROVED "Fine" []) ["src/a.py"])) [] [] None None None)).

Definition scenario : FakeAgentScenario :=
  mk_FakeAgentScenario 1 "sample" (reviewer_capabilities detection) (utc 1000000) [step] default_AgentOutputLimits.

Definition token (t : unit) : M unit bool := mret false.
End AdapterSample.
#[export] Existing Instance AdapterSample.schema.
#[export] Existing Instance AdapterSample.interpreter.

(** The reviewer runs one read-only command and takes its answer. *)
Lemma review_runs :
  (let '(w, r) := AdapterSample.review AdapterSample.envelope in ((req_arguments <$> pw_commands w), r))
  = ([["--ask-for-approval"; "never"; "exec"; "--ignore-user-config"; "--ephemeral"; "--sandbox"; "read-only"; "--json";
      "--color"; "never"; "--model"; "gpt-5"; "-"]], Ok AdapterSample.response).
Proof. vm_compute. reflexivity. Qed.

Lemma provider_response_trusted_witness :
  exists w' r, AdapterSample.review AdapterSample.envelope = (w', Ok r) /\ resp_status r = AgentStatus.COMPLETED
    /\ response_correlation r = request_correlation AdapterSample.request /\ pw_commands w' <> [].
Proof.
  pose proof review_runs as Hshape. destruct (AdapterSample.review AdapterSample.envelope) as [w' r] eqn:Hrun.
  injection Hshape as _ Hr. subst r. exists w', AdapterSample.response. split; [reflexivity|].
  pose proof (provider_response_trusted (host := AdapterSample.host (AdapterSample.events AdapterSample.envelope)) AdapterSample.schema_valid
    (CodexReviewer AdapterSample.detection) AdapterSample.settings AdapterSample.request AdapterSample.review_request_valid
    ltac:(vm_compute; reflexivity) None AdapterSample.start w' AdapterSample.response Hrun) as [Ht Hc].
  split; [reflexivity|]. split; [exact (tr_correlation _ _ _ Ht)|]. apply Hc. reflexivity.
Defined.

Lemma shape_check_spec_witness :
  _validate_json_shape (JArr [JNull; JArr []]) default_AgentOutputLimits = Ok tt
  /\ item_count (JArr [JNull; JArr []]) = 2.
Proof.
  split; [|vm_compute; reflexivity].
  apply (shape_check_spec default_AgentOutputLimits ltac:(vm_compute; reflexivity)).
  split; [vm_compute; reflexivity|]. intros H. vm_compute in H. discriminate H.
Defined.

(** Output that is no JSON becomes an [INVALID_OUTPUT] response. *)
Lemma normalize_answers_witness :
  exists r, normalize_agent_output "no json" AdapterSample.request (identity AdapterSample.response) (utc 1000000)
              (add_ms (utc 1000000) 250) default_AgentOutputLimits ["hunter2secret"] = Ok r
            /\ validate_AgentResponse r = Ok r.
Proof.
  assert (Hload : json_loads (code_points "no json") = Err Undecodable) by (vm_compute; reflexivity).
  pose proof (normalize_answers AdapterSample.schema_valid "no json" AdapterSample.request (identity AdapterSample.response) (utc 1000000)
    250 default_AgentOutputLimits ["hunter2secret"] AdapterSample.review_request_valid eq_refl ltac:(split; discriminate)
    ltac:(vm_compute; reflexivity) ltac:(vm_compute; reflexivity)) as Hanswer.
  destruct (normalize_agent_output _ _ _ _ _ _ _) as [r|e].
  - exists r. split; [reflexivity|exact (proj1 Hanswer)].
  - destruct Hanswer as [_ Hn]. unfold unreadable_number in Hn. rewrite Hload in Hn.
    destruct Hn as [Hn|(j & Hn & _)]; discriminate Hn.
Defined.

Definition digits (n : nat) : string := String.concat "" (repeat "9" n).

Lemma long_integer_escapes_witness :
  normalize_agent_output (digits 4301) AdapterSample.request (identity AdapterSample.response) (utc 1000000) (utc 1250000)
    default_AgentOutputLimits []
  = Err (ValueError "Exceeds the limit (4300 digits) for integer string conversion").
Proof.
  apply (long_integer_escapes (digits 4301)).
  - reflexivity.
  - intros H. vm_compute in H. discriminate H.
  - vm_compute. reflexivity.
  - vm_compute. reflexivity.
Defined.

Lemma fake_invoke_answers_witness :
  exists w' r, fake_invoke AdapterSample.token AdapterSample.scenario AdapterSample.request None (mk_FakeWorld 0 0 tt) = (w', Ok r)
    /\ validate_AgentResponse r = Ok r /\ fake_invocation_count w' = 1%nat.
Proof.
  destruct (fake_invoke_answers AdapterSample.token) with (scenario := AdapterSample.scenario) (request := AdapterSample.request)
    (cancellation := None (A := unit)) (w := mk_FakeWorld 0 0 tt) as (w' & r & Hr & (Hv & _) & Hn & _).
  - intros t e. exists e, false. reflexivity.
  - exact AdapterSample.schema_valid.
  - vm_compute. reflexivity.
  - intros reason H. vm_compute in H. discriminate H.
  - exact AdapterSample.review_request_valid.
  - exists w', r. split; [exact Hr|]. split; [exact Hv|exact Hn].
Defined.

(** ** Exceptions that leave an adapter *)

(** An event whose type is a list stops the loop with a [TypeError]. *)
Example unhashable_event_type_escapes :
  parse_codex_jsonl (AdapterSample.quoted "{'type': []}") = Err (TypeError "unhashable type").
Proof. vm_compute. reflexivity. Qed.

(** A message with a lone surrogate: the text of the exception is not a failure code, and
    the response that should report it cannot be built. *)
Example surrogate_message_escapes :
  is_ok (snd (AdapterSample.review "\ud800")) = false.
Proof. vm_compute. reflexivity. Qed.

(** [str.splitlines] ends a line inside of a string that holds a next-line character. *)
Example separator_inside_string :
  parse_codex_jsonl (AdapterSample.events (text_of [133])) = Err (ValueError "malformed_jsonl").
Proof. vm_compute. reflexivity. Qed.
