(* ===== verification/Workflows.v ===== *)
(** * The use cases of the runtime ([src/src/revanent/application/workflows.py])

    Starting, resuming, cancelling and showing a run: each use case is one computation
    over the world of the coordinator - the durable store, the context packages, the
    requests handed to agents and an arbitrary environment - and calls the coordinator of
    [Service.v].  A composition is an instance of a class: the discovery of the
    repository, its root and the three factories. *)

From Stdlib Require Import ZArith Lia Ascii String.
From S2P Require Import Prelude Text Domain StateMachine Effects Commands Agents GitPort TelemetryPort Validation ContextPort TelemetryService ReviewGate OrchestrationPorts RepairPolicy Reconciliation RuntimePort Tables Storage UsageStore Coordination Service.
From stdpp Require Import base option strings numbers gmap sets list list_relations.

Open Scope Z_scope.

Definition RUNTIME_SCHEMA_VERSION : Z := 1.

Module RuntimeActionStatus.
Inductive t : Type := COMPLETED | BLOCKED | FAILED | NOT_FOUND | STALE | INVALID_EVIDENCE.
#[export] Instance eq_dec : EqDecision t.
Proof. solve_decision. Defined.
End RuntimeActionStatus.

Module RuntimeFailureKind.
Inductive t : Type := INVALID_REQUEST | MISSING_RUN | REPOSITORY_MISMATCH | CONCURRENCY | EVIDENCE | INTERNAL.
#[export] Instance eq_dec : EqDecision t.
Proof. solve_decision. Defined.
End RuntimeFailureKind.
#[export] Existing Instances RuntimeActionStatus.eq_dec RuntimeFailureKind.eq_dec.

(** ** Requests and results *)

(** [^[a-z][a-z0-9_.-]{0,63}$] *)
Definition code_pattern : list pat := [Cls is_lower 1 1; Cls (in_class "_.-" (fun c => is_lower c || is_digit c)) 0 63].

Record RuntimeFailure := mk_RuntimeFailure {
  rf_kind : RuntimeFailureKind.t;
  rf_code : string;
  rf_message : string
}.

Definition validate_RuntimeFailure (f : RuntimeFailure) : res RuntimeFailure :=
  code ← pattern_field "code" code_pattern (rf_code f) ;
  message ← text_field "message" 1 512 (rf_message f) ;
  mret (mk_RuntimeFailure (rf_kind f) code message).

Record StartRunRequest := mk_StartRunRequest { start_task : TaskSpecification; start_work_package : WorkPackage }.

(** [ResumeRunRequest] and [CancelRunRequest] *)
Record RunRequest := mk_RunRequest { rq_run_id : string; rq_expected_revision : option Z }.

(** [_Result] *)
Record _Result := mk_Result {
  action_status : RuntimeActionStatus.t;
  result_run_id : option string;
  result_state : option RunState;
  result_revision : option Z;
  work_started : bool;
  result_reason : string;
  next_action : string;
  result_failure : option RuntimeFailure
}.

Definition not_negative (name : string) (value : option Z) : res unit :=
  require (match value with Some n => 0 <=? n | None => true end) name.

Definition validate_Result (r : _Result) : res _Result :=
  id ← validate_optional RunId (result_run_id r) ;
  not_negative "revision" (result_revision r) ;;
  reason ← text_field "reason" 1 512 (result_reason r) ;
  next ← text_field "next_action" 1 256 (next_action r) ;
  failure ← validate_optional validate_RuntimeFailure (result_failure r) ;
  mret (mk_Result (action_status r) id (result_state r) (result_revision r) (work_started r) reason next failure).

Record CancelRunResult := mk_CancelRunResult { cancel_result : _Result; cancelled_now : bool }.

(** ** Parts of a status *)

Record AttemptStatusSummary := mk_AttemptStatusSummary {
  as_build : option AttemptStatus.t;
  as_validation : option AttemptStatus.t;
  as_review : option AttemptStatus.t;
  as_repair : option AttemptStatus.t;
  as_local_repair : option AttemptStatus.t;
  as_codex_repair : option AttemptStatus.t
}.

Record EventStatusSummary := mk_EventStatusSummary {
  es_event_id : string;
  es_source : RunState;
  es_destination : RunState;
  es_occurred_at : datetime
}.

Definition validate_EventStatusSummary (e : EventStatusSummary) : res EventStatusSummary :=
  raise_if (negb (is_utc (es_occurred_at e))) (ValueError "event timestamp must be UTC") ;; mret e.

Record RunAttemptSummary := mk_RunAttemptSummary {
  ras_builder : Z;
  ras_reviewer : Z;
  ras_local_repair : Z;
  ras_codex_repair : Z;
  ras_validation : Z;
  ambiguous_side_effects : bool
}.

Definition validate_RunAttemptSummary (a : RunAttemptSummary) : res RunAttemptSummary :=
  require (forallb (Z.leb 0) [ras_builder a; ras_reviewer a; ras_local_repair a; ras_codex_repair a; ras_validation a])
    "attempts" ;; mret a.

Record ContextStatusSummary := mk_ContextStatusSummary {
  cs_manifest_id : option string;
  cs_retained_bytes : option Z;
  cs_baseline_bytes : option Z;
  cs_required_evidence_complete : option bool;
  cs_status : option ContextSelectionStatus.t
}.

Record ValidationStatusSummary := mk_ValidationStatusSummary {
  vss_plan_id : option string;
  vss_status : option ValidationStatus.t;
  vss_required_commands : Z;
  vss_passed : Z;
  vss_failed : Z;
  vss_timed_out : Z;
  vss_cancelled : Z;
  vss_unavailable : Z;
  vss_evidence_complete : bool
}.

Record ReviewStatusSummary := mk_ReviewStatusSummary {
  rss_decision : option ReviewGateStatus.t;
  low_findings : Z;
  medium_findings : Z;
  high_findings : Z;
  critical_findings : Z;
  unresolved_high_or_critical : Z;
  rss_attempt_status : option AttemptStatus.t;
  approval_gate_present : bool
}.

Record UsageStatusItem := mk_UsageStatusItem {
  ui_metric : UsageMetric.t;
  ui_unit : UsageUnit.t;
  ui_provenance : UsageProvenance.t;
  ui_integer_value : option Z;
  ui_decimal_value : option decimal;
  ui_currency : option string;
  unavailable_count : Z
}.

Definition validate_UsageStatusItem (i : UsageStatusItem) : res UsageStatusItem :=
  not_negative "integer_value" (ui_integer_value i) ;;
  require (match ui_decimal_value i with Some d => 0 <=? dec_coef d | None => true end) "decimal_value" ;;
  currency ← validate_optional (pattern_field "currency" currency_pattern) (ui_currency i) ;
  require (0 <=? unavailable_count i) "unavailable_count" ;;
  mret (mk_UsageStatusItem (ui_metric i) (ui_unit i) (ui_provenance i) (ui_integer_value i) (ui_decimal_value i)
          currency (unavailable_count i)).

Record BudgetStatusSummary := mk_BudgetStatusSummary {
  duration_remaining_ms : Z;
  build_attempts_remaining : Z;
  review_attempts_remaining : Z;
  repair_attempts_remaining : Z;
  remote_tokens_remaining : option Z;
  estimated_cost_remaining : option decimal
}.

Definition validate_BudgetStatusSummary (b : BudgetStatusSummary) : res BudgetStatusSummary :=
  require (forallb (Z.leb 0) [duration_remaining_ms b; build_attempts_remaining b; review_attempts_remaining b;
                              repair_attempts_remaining b]) "remaining" ;;
  not_negative "remote_tokens_remaining" (remote_tokens_remaining b) ;;
  require (match estimated_cost_remaining b with Some d => 0 <=? dec_coef d | None => true end) "estimated_cost_remaining" ;;
  mret b.

Record RunStatusSnapshot := mk_RunStatusSnapshot {
  sn_result : _Result;
  sn_created_at : option datetime;
  sn_updated_at : option datetime;
  sn_work_package_id : option string;
  sn_repository_id : option string;
  sn_worktree_reference : option string;
  sn_current_stage : option RunState;
  sn_latest_event : option EventStatusSummary;
  sn_execution_status : string;
  sn_reason_code : string;
  sn_attempts : RunAttemptSummary;
  sn_latest_attempts : AttemptStatusSummary;
  sn_context : ContextStatusSummary;
  sn_validation : ValidationStatusSummary;
  sn_review : ReviewStatusSummary;
  sn_usage : list UsageStatusItem;
  sn_budgets : option BudgetStatusSummary;
  sn_active_reservations : Z;
  sn_unresolved_reservations : Z;
  cancellation_requested : bool;
  cancellation_terminal : bool;
  in_flight_ambiguity : bool;
  contradiction_codes : list string;
  sn_artifact_references : list string;
  sn_evidence_complete : bool
}.

Definition validate_RunStatusSnapshot (s : RunStatusSnapshot) : res RunStatusSnapshot :=
  base ← validate_Result (sn_result s) ;
  code ← pattern_field "reason_code" code_pattern (sn_reason_code s) ;
  require ((0 <=? sn_active_reservations s) && (0 <=? sn_unresolved_reservations s)) "reservations" ;;
  raise_if (existsb (fun t => match t with Some t => negb (is_utc t) | None => false end)
              [sn_created_at s; sn_updated_at s]) (ValueError "runtime timestamps must be UTC") ;;
  mret (mk_RunStatusSnapshot base (sn_created_at s) (sn_updated_at s) (sn_work_package_id s) (sn_repository_id s)
          (sn_worktree_reference s) (sn_current_stage s) (sn_latest_event s) (sn_execution_status s) code
          (sn_attempts s) (sn_latest_attempts s) (sn_context s) (sn_validation s) (sn_review s) (sn_usage s)
          (sn_budgets s) (sn_active_reservations s) (sn_unresolved_reservations s) (cancellation_requested s)
          (cancellation_terminal s) (in_flight_ambiguity s) (contradiction_codes s) (sn_artifact_references s)
          (sn_evidence_complete s)).

(** The defaults of the parts. *)
Definition no_attempts : RunAttemptSummary := mk_RunAttemptSummary 0 0 0 0 0 false.
Definition no_latest_attempts : AttemptStatusSummary := mk_AttemptStatusSummary None None None None None None.
Definition no_context : ContextStatusSummary := mk_ContextStatusSummary None None None None None.
Definition no_validation : ValidationStatusSummary := mk_ValidationStatusSummary None None 0 0 0 0 0 0 false.
Definition no_review : ReviewStatusSummary := mk_ReviewStatusSummary None 0 0 0 0 0 None false.

Definition bare_snapshot (base : _Result) : RunStatusSnapshot :=
  mk_RunStatusSnapshot base None None None None None None None "INCOMPLETE" "status" no_attempts no_latest_attempts
    no_context no_validation no_review [] None 0 0 false false false [] [] true.

(** ** Projections of a state *)

Definition _status_for_run (state : RunState) : RuntimeActionStatus.t :=
  match state with
  | BLOCKED => RuntimeActionStatus.BLOCKED
  | FAILED => RuntimeActionStatus.FAILED
  | _ => RuntimeActionStatus.COMPLETED
  end.

Definition _next_action (state : RunState) : string :=
  match state with
  | APPROVED => "inspect the approved worktree"
  | CANCELLED => "inspect preserved evidence before any manual recovery"
  | BLOCKED => "inspect status and resolve the reported blocker"
  | FAILED => "inspect status and durable evidence"
  | _ => "revanent resume RUN_ID --repository PATH"
  end.

Definition _execution_status (state : RunState) : string :=
  match state with
  | CREATED => "INCOMPLETE"
  | APPROVED => "TERMINAL"
  | CANCELLED => "CANCELLED"
  | BLOCKED => "BLOCKED"
  | FAILED => "FAILED"
  | _ => "ACTIVE"
  end.

Definition _reason_code (state : RunState) : string :=
  match state with
  | CREATED => "created"
  | APPROVED => "approved"
  | CANCELLED => "cancelled"
  | BLOCKED => "blocked"
  | FAILED => "failed"
  | _ => "in_progress"
  end.

Definition _run_requires_worktree (state : RunState) : bool :=
  bool_decide (state ∈ [BUILDING; VALIDATING; REVIEWING; REPAIRING; APPROVED]).

(** ** Results of the use cases *)

Definition _orchestration_result (result : OrchestrationResult) (started : bool) : res _Result :=
  let run := ores_run result in
  validate_Result
    (mk_Result (if bool_decide (ores_status result = OrchestrationStatus.STALE) then RuntimeActionStatus.STALE
                else _status_for_run (run_state run))
       (Some (run_id run)) (Some (run_state run)) (Some (ores_revision result)) started (ores_reason result)
       (_next_action (run_state run)) None).

Definition _identity_failure_result (s : StoredRun) (failure : RuntimeFailure) : res _Result :=
  validate_Result
    (mk_Result RuntimeActionStatus.BLOCKED (Some (run_id (stored_run s))) (Some (run_state (stored_run s)))
       (Some (revision s)) false (rf_message failure) "inspect repository and owned-worktree identity" (Some failure)).

Definition failure_cause (error : exn) : RuntimeFailureKind.t * RuntimeActionStatus.t * string :=
  match error with
  | RunNotFoundError _ => (RuntimeFailureKind.MISSING_RUN, RuntimeActionStatus.NOT_FOUND, "run_not_found")
  | CorruptStorageError _ => (RuntimeFailureKind.EVIDENCE, RuntimeActionStatus.INVALID_EVIDENCE, "invalid_evidence")
  | _ => (RuntimeFailureKind.INTERNAL, RuntimeActionStatus.FAILED, "runtime_failure")
  end.

Definition _failure_result (run_id : option string) (error : exn) : res _Result :=
  let '(kind, status, code) := failure_cause error in
  failure ← validate_RuntimeFailure (mk_RuntimeFailure kind code "runtime operation could not complete") ;
  validate_Result
    (mk_Result status run_id None None false "runtime operation could not complete" "inspect status" (Some failure)).

Definition _stale_result (s : StoredRun) : res _Result :=
  validate_Result
    (mk_Result RuntimeActionStatus.STALE (Some (run_id (stored_run s))) (Some (run_state (stored_run s)))
       (Some (revision s)) false "run revision changed before this operation" "run status and retry" None).

(** ** What a status shows *)

Definition _context_summary (value : option AttemptEvidence) : ContextStatusSummary :=
  match value with
  | Some (Context a) =>
      match ca_manifest a with
      | Some m => mk_ContextStatusSummary (Some (cm_manifest_id m)) (Some (cm_retained_bytes m)) (Some (cm_baseline_bytes m))
                    (Some (cm_required_evidence_complete m)) (Some (cm_status m))
      | None => no_context
      end
  | _ => no_context
  end.

Definition with_status_count (status : ValidationStatus.t) (results : list ValidationCommandResult) : Z :=
  Z.of_nat (length (filter (fun r => vr_status r = status) results)).

Definition _validation_summary (value : option AttemptEvidence) : ValidationStatusSummary :=
  match value with
  | Some (Validation_ a) =>
      match va_result a with
      | Some r =>
          let results := pr_commands r in
          mk_ValidationStatusSummary (Some (plan_id (va_plan a))) (Some (pr_status r))
            (Z.of_nat (length (filter (fun c => is_required c = true) (plan_commands (va_plan a)))))
            (with_status_count ValidationStatus.PASSED results) (with_status_count ValidationStatus.FAILED results)
            (with_status_count ValidationStatus.TIMED_OUT results) (with_status_count ValidationStatus.CANCELLED results)
            (with_status_count ValidationStatus.UNAVAILABLE results)
            (bool_decide (length results = length (plan_commands (va_plan a))))
      | None => no_validation
      end
  | _ => no_validation
  end.

Definition severity_count (severity : FindingSeverity.t) (findings : list ReviewFindingEvidence) : Z :=
  Z.of_nat (length (filter (fun f => fe_severity f = severity) findings)).

Definition _review_summary (value : option AttemptEvidence) (run : Run) : ReviewStatusSummary :=
  let gate := is_some (run_approval_gate run) in
  match value with
  | Some (Review a) =>
      let findings := match rv_gate_decision a with Some d => gd_finding_evidence d | None => [] end in
      let count severity := severity_count severity findings in
      mk_ReviewStatusSummary (gd_status <$> rv_gate_decision a) (count FindingSeverity.LOW) (count FindingSeverity.MEDIUM)
        (count FindingSeverity.HIGH) (count FindingSeverity.CRITICAL)
        (count FindingSeverity.HIGH + count FindingSeverity.CRITICAL) (Some (at_status (rv_base a))) gate
  | _ => mk_ReviewStatusSummary None 0 0 0 0 0 None gate
  end.

(** *** Usage *)

Definition usage_unit_value (unit : UsageUnit.t) : string :=
  match unit with
  | UsageUnit.BYTES => "BYTES" | UsageUnit.MILLISECONDS => "MILLISECONDS" | UsageUnit.TOKENS => "TOKENS"
  | UsageUnit.ATTEMPTS => "ATTEMPTS" | UsageUnit.COMMANDS => "COMMANDS" | UsageUnit.INVOCATIONS => "INVOCATIONS"
  | UsageUnit.DECIMAL_CURRENCY => "DECIMAL_CURRENCY"
  end.

Definition usage_key : Type := UsageMetric.t * UsageUnit.t * UsageProvenance.t * option string.

Definition key_of_usage (r : UsageRecord) : usage_key := (ur_metric r, ur_unit r, ur_provenance r, ur_currency r).

(** [grouped.setdefault(key, []).append(record)] *)
Definition group_usage (records : list UsageRecord) : list (usage_key * list UsageRecord) :=
  fold_left (fun grouped r => dict_set (key_of_usage r) (default [] (dict_get (key_of_usage r) grouped) ++ [r]) grouped)
    records [].

(** [tuple(str(value) for value in key)] *)
Definition key_texts (key : usage_key) : list string :=
  let '(metric, unit, provenance, currency) := key in
  [UsageMetric.value metric; usage_unit_value unit; UsageProvenance.value provenance; default "None" currency].

(** The order of tuples of texts. *)
Fixpoint texts_le (a b : list string) : bool :=
  match a, b with
  | [], _ => true
  | _ :: _, [] => false
  | x :: a, y :: b => if String.eqb x y then texts_le a b else str_le x y
  end.

Definition is_money (unit : UsageUnit.t) : bool := bool_decide (unit = UsageUnit.DECIMAL_CURRENCY).
Definition is_missing (provenance : UsageProvenance.t) : bool := bool_decide (provenance = UsageProvenance.UNAVAILABLE).

Definition usage_item (group : usage_key * list UsageRecord) : res UsageStatusItem :=
  let '((metric, unit, provenance, currency), items) := group in
  validate_UsageStatusItem
    (mk_UsageStatusItem metric unit provenance
       (if negb (is_missing provenance) && negb (is_money unit)
        then Some (py_sum ((fun r => default 0 (integer_value r)) <$> items)) else None)
       (if is_money unit && negb (is_missing provenance)
        then Some (dec_sum ((fun r => dec_or_zero (decimal_value r)) <$> items)) else None)
       currency
       (if is_missing provenance then Z.of_nat (length items) else 0)).

Definition _usage_summary (records : list UsageRecord) : res (list UsageStatusItem) :=
  traverse usage_item (py_sorted (fun a b => texts_le (key_texts a.1) (key_texts b.1)) (group_usage records)).

(** *** Budgets *)

Definition known_usage (metrics : list UsageMetric.t) (records : list UsageRecord) : list UsageRecord :=
  filter (fun r => ur_metric r ∈ metrics /\ ur_provenance r <> UsageProvenance.UNAVAILABLE) records.

Definition active_reserved (metric : BudgetMetric.t) (reservations : list BudgetReservation) : list BudgetReservation :=
  filter (fun r => br_metric r = metric /\ br_status r = ReservationStatus.ACTIVE) reservations.

Definition usage_total (metrics : list UsageMetric.t) (records : list UsageRecord) : Z :=
  py_sum ((fun r => default 0 (integer_value r)) <$> known_usage metrics records).
Definition reserved_total (metric : BudgetMetric.t) (reservations : list BudgetReservation) : Z :=
  py_sum ((fun r => default 0 (integer_reserved r)) <$> active_reserved metric reservations).

Definition _budget_summary (run : Run) (usage : list UsageRecord) (reservations : list BudgetReservation)
    : res BudgetStatusSummary :=
  let budgets := run_budgets run in
  let attempts := run_attempts run in
  let consumed_duration := usage_total [UsageMetric.PROVIDER_DURATION; UsageMetric.VALIDATION_DURATION] usage in
  let reserved_duration := reserved_total BudgetMetric.TOTAL_DURATION reservations in
  let tokens := usage_total [UsageMetric.TOTAL_TOKENS] usage in
  let reserved_tokens := reserved_total BudgetMetric.REMOTE_TOKENS reservations in
  let cost := dec_sum ((fun r => dec_or_zero (decimal_value r)) <$> known_usage [UsageMetric.ESTIMATED_COST] usage) in
  let reserved_cost :=
    dec_sum ((fun r => dec_or_zero (decimal_reserved r)) <$> active_reserved BudgetMetric.ESTIMATED_COST reservations) in
  validate_BudgetStatusSummary
    (mk_BudgetStatusSummary
       (Z.max 0 (max_duration_seconds budgets * 1000 - consumed_duration - reserved_duration))
       (Z.max 0 (max_build_attempts budgets - build attempts))
       (Z.max 0 (max_review_attempts budgets - review attempts))
       (Z.max 0 (max_repair_attempts budgets - repair attempts))
       ((fun limit => Z.max 0 (limit - tokens - reserved_tokens)) <$> max_remote_tokens budgets)
       ((fun limit => dec_floor (dec_minus (dec_minus limit cost) reserved_cost)) <$> max_estimated_cost_usd budgets)).

(** *** Contradictions *)

Definition review_of (a : AttemptEvidence) : option ReviewAttempt :=
  match a with Review a => Some a | _ => None end.

Definition review_outcomes (records : list OrchestrationRecord) : list ReviewAttempt :=
  omap (fun r => if has_stage OrchestrationRecordStage.OUTCOME r then review_of (rec_attempt r) else None) records.

(** An approved run without the gate of its last review. *)
Definition gate_missing (run : Run) (review : ReviewStatusSummary) (records : list OrchestrationRecord) : bool :=
  match run_approval_gate run, last (review_outcomes records) ≫= rv_gate_decision with
  | Some gate, Some decision =>
      negb (approval_gate_present review) || negb (bool_decide (gd_approval_gate decision = Some gate))
  | _, _ => true
  end.

Definition attempts_of_stages (stages : list OrchestrationRecordStage.t) (records : list OrchestrationRecord)
    : list string :=
  rec_attempt_id <$> filter (fun r => rec_stage r ∈ stages) records.

Definition uncorrelated_review (run : Run) (a : ReviewAttempt) : bool :=
  let plan := rv_validation_plan a in
  let result := rv_validation_result a in
  let id := run_id run in
  let package := wp_id (run_work_package run) in
  let differs x y := negb (String.eqb x y) in
  differs (plan_run_id plan) id || differs (plan_work_package_id plan) package
  || differs (pr_run_id result) id || differs (pr_work_package_id result) package
  || differs (pr_plan_id result) (plan_id plan)
  || match rv_local_evidence a with
     | None => true
     | Some local =>
         differs (le_run_id local) id || differs (le_work_package_id local) package
         || differs (le_validation_plan_id local) (plan_id plan)
         || differs (le_review_invocation_id local) (ag_invocation_id (rv_agent a))
         || differs (le_review_adapter_id local) (ag_adapter_id (rv_agent a))
     end
  || match rv_gate_decision a with
     | None => true
     | Some d =>
         differs (gd_run_id d) id || differs (gd_work_package_id d) package
         || differs (gd_validation_plan_id d) (plan_id plan)
         || differs (gd_review_invocation_id d) (ag_invocation_id (rv_agent a))
     end.

Definition code_if (b : bool) (code : string) : list string := if b then [code] else [].

Definition _contradictions (run : Run) (revision : Z) (events : list RunEvent) (records : list OrchestrationRecord)
    (review : ReviewStatusSummary) : list string :=
  let intents := attempts_of_stages [OrchestrationRecordStage.INTENT] records in
  let outcomes := attempts_of_stages [OrchestrationRecordStage.OUTCOME] records in
  let completed := attempts_of_stages [OrchestrationRecordStage.OUTCOME; OrchestrationRecordStage.RECONCILIATION] records in
  sorted_set
    (code_if (negb (revision =? Z.of_nat (length events))) "event_revision_mismatch"
     ++ code_if (match last events with
                 | Some e => negb (bool_decide (tr_destination (ev_transition e) = run_state run))
                 | None => false
                 end) "terminal_event_state_mismatch"
     ++ code_if (bool_decide (run_state run = APPROVED) && gate_missing run review records) "approval_gate_missing"
     ++ code_if (existsb (fun id => negb (bool_decide (id ∈ intents))) outcomes) "outcome_without_intent"
     ++ code_if (existsb (fun r => revision <? rec_run_revision r) records) "attempt_revision_impossible"
     ++ code_if (negb (bool_decide ((rec_sequence <$> records) = one_to (length records)))) "attempt_sequence_impossible"
     ++ code_if (is_terminal (run_state run) && existsb (fun id => negb (bool_decide (id ∈ completed))) intents)
          "terminal_incomplete_attempt"
     ++ code_if (existsb (uncorrelated_review run) (review_outcomes records)) "review_correlation_mismatch").

(** *** Artifacts *)

Definition response_of (a : AttemptEvidence) : option AgentResponse :=
  match a with
  | Build a => ag_response (ba_agent a)
  | Review a => ag_response (rv_agent a)
  | Repair a => ag_response (ra_agent a)
  | _ => None
  end.

Definition result_of (a : AttemptEvidence) : option ValidationPlanResult :=
  match a with Validation_ a => va_result a | _ => None end.

Definition artifacts_of (a : AttemptEvidence) : list string :=
  match response_of a with
  | Some r => (fun i => aar_root_id i +:+ ":" +:+ aar_relative_path i) <$> artifacts r
  | None => []
  end
  ++ match result_of a with
     | Some r =>
         pr_commands r ≫= fun c =>
           (fun i => va_root_id i +:+ ":" +:+ va_relative_path i)
           <$> option_list (vco_artifact (vr_stdout c)) ++ option_list (vco_artifact (vr_stderr c))
     | None => []
     end.

Definition _artifact_references (records : list OrchestrationRecord) : list string :=
  take 128 (sorted_set (records ≫= fun r => artifacts_of (rec_attempt r))).

Definition _event_summary (e : RunEvent) : res EventStatusSummary :=
  validate_EventStatusSummary
    (mk_EventStatusSummary (ev_id e) (tr_source (ev_transition e)) (tr_destination (ev_transition e)) (ev_occurred_at e)).

(** *** The outcomes of the attempts *)

(** The variables of the loop over the records. *)
Record progress := mk_progress {
  pg_latest : list (OrchestrationStep.t * AttemptStatus.t);
  pg_outcomes : list (OrchestrationStep.t * AttemptEvidence);
  latest_local_repair : option AttemptStatus.t;
  latest_codex_repair : option AttemptStatus.t;
  local_repairs : Z;
  codex_repairs : Z;
  validations : Z;
  pg_ambiguous : bool;
  pg_pending : list string
}.

Definition no_progress : progress := mk_progress [] [] None None 0 0 0 false [].

Definition unsettled (a : AttemptEvidence) : bool :=
  bool_decide (at_side_effects (base_of a) ∈ [ReconciliationState.AMBIGUOUS; ReconciliationState.INCOMPATIBLE]).

Definition without (id : string) (ids : list string) : list string := filter (fun i => i <> id) ids.

(** The counters an outcome advances. *)
Definition count_outcome (a : AttemptEvidence) (p : progress) : progress :=
  match a with
  | Validation_ _ =>
      mk_progress (pg_latest p) (pg_outcomes p) (latest_local_repair p) (latest_codex_repair p) (local_repairs p)
        (codex_repairs p) (validations p + 1) (pg_ambiguous p) (pg_pending p)
  | Repair r =>
      let status := Some (at_status (ra_base r)) in
      if bool_decide (ag_role (ra_agent r) = AgentRole.REPAIRER) then
        mk_progress (pg_latest p) (pg_outcomes p) (latest_local_repair p) status (local_repairs p)
          (codex_repairs p + 1) (validations p) (pg_ambiguous p) (pg_pending p)
      else
        mk_progress (pg_latest p) (pg_outcomes p) status (latest_codex_repair p) (local_repairs p + 1)
          (codex_repairs p) (validations p) (pg_ambiguous p) (pg_pending p)
  | _ => p
  end.

(** The body of the loop. *)
Definition observe_record (p : progress) (r : OrchestrationRecord) : progress :=
  let a := rec_attempt r in
  let id := rec_attempt_id r in
  match rec_stage r with
  | OrchestrationRecordStage.INTENT =>
      mk_progress (pg_latest p) (pg_outcomes p) (latest_local_repair p) (latest_codex_repair p) (local_repairs p)
        (codex_repairs p) (validations p) (pg_ambiguous p) (id :: without id (pg_pending p))
  | OrchestrationRecordStage.OUTCOME =>
      count_outcome a
        (mk_progress (dict_set (kind_of a) (at_status (base_of a)) (pg_latest p)) (dict_set (kind_of a) a (pg_outcomes p))
           (latest_local_repair p) (latest_codex_repair p) (local_repairs p) (codex_repairs p) (validations p)
           (pg_ambiguous p || unsettled a) (without id (pg_pending p)))
  | OrchestrationRecordStage.RECONCILIATION =>
      mk_progress (pg_latest p) (pg_outcomes p) (latest_local_repair p) (latest_codex_repair p) (local_repairs p)
        (codex_repairs p) (validations p) (pg_ambiguous p) (without id (pg_pending p))
  end.

Definition progress_of (records : list OrchestrationRecord) : progress := fold_left observe_record records no_progress.

Definition reservations_in (status : ReservationStatus.t) (reservations : list BudgetReservation) : Z :=
  Z.of_nat (length (filter (fun r => br_status r = status) reservations)).

(** The snapshot of a run whose identity was verified. *)
Definition status_snapshot (s : StoredRun) (binding : RuntimeBinding) (events : list RunEvent)
    (records : list OrchestrationRecord) (usage : list UsageRecord) (reservations : list BudgetReservation)
    : res RunStatusSnapshot :=
  let run := stored_run s in
  let state := run_state run in
  let p := progress_of records in
  let outcome step := dict_get step (pg_outcomes p) in
  let latest step := dict_get step (pg_latest p) in
  let review := _review_summary (outcome OrchestrationStep.REVIEW) run in
  usage_items ← _usage_summary usage ;
  let active := reservations_in ReservationStatus.ACTIVE reservations in
  let unresolved := reservations_in ReservationStatus.UNRESOLVED reservations in
  let codes := _contradictions run (revision s) events records review in
  let contradictory := negb (bool_decide (codes = [])) in
  let pending := negb (bool_decide (pg_pending p = [])) in
  let reason := if contradictory then "durable evidence is internally contradictory" else "durable status projection" in
  failure ← (if contradictory
             then Some <$> validate_RuntimeFailure (mk_RuntimeFailure RuntimeFailureKind.EVIDENCE "invalid_evidence" reason)
             else mret None) ;
  latest_event ← match last events with Some e => Some <$> _event_summary e | None => mret None end ;
  attempts ← validate_RunAttemptSummary
               (mk_RunAttemptSummary (build (run_attempts run)) (Domain.review (run_attempts run)) (local_repairs p)
                  (codex_repairs p) (validations p) (pg_ambiguous p)) ;
  budgets ← _budget_summary run usage reservations ;
  validate_RunStatusSnapshot
    (mk_RunStatusSnapshot
       (mk_Result (if contradictory then RuntimeActionStatus.INVALID_EVIDENCE else _status_for_run state)
          (Some (run_id run)) (Some state) (Some (revision s)) (negb (bool_decide (state = CREATED))) reason
          (_next_action state) failure)
       (Some (run_created_at run)) (Some (run_updated_at run)) (Some (wp_id (run_work_package run)))
       (Some (repository_id (rb_repository binding))) (Some (worktree_relative_path binding)) (Some state) latest_event
       (_execution_status state) (if contradictory then "invalid_evidence" else _reason_code state) attempts
       (mk_AttemptStatusSummary (latest OrchestrationStep.BUILD) (latest OrchestrationStep.VALIDATION)
          (latest OrchestrationStep.REVIEW) (latest OrchestrationStep.REPAIR) (latest_local_repair p)
          (latest_codex_repair p))
       (_context_summary (outcome OrchestrationStep.CONTEXT)) (_validation_summary (outcome OrchestrationStep.VALIDATION))
       review usage_items (Some budgets) active unresolved (bool_decide (state = CANCELLED))
       (bool_decide (state = CANCELLED)) (pg_ambiguous p || pending || (0 <? unresolved)) codes
       (_artifact_references records) (negb pending && negb contradictory && negb (pg_ambiguous p))).

(** ** The use cases *)

(** [RuntimeComposition]: the stores, the coordinator and its collaborators are those of
    [Service.v]; here is the rest. *)
Class RuntimeComposition (E Token : Type) := {
  composed_collaborators :: Collaborators E Token;
  discover : Path -> M E RepositoryIdentity;
  repository_root : Path;
  make_run : StartRunRequest -> M E Run;
  make_binding : Run -> RepositoryIdentity -> M E RuntimeBinding;
  make_request : Run -> option Z -> M (World E) OrchestrationRequest
}.

(** [except (ConcurrentRunUpdateError, DuplicateEventError)] *)
Definition is_conflict (e : exn) : bool :=
  match e with ConcurrentRunUpdateError _ _ _ | DuplicateEventError _ => true | _ => false end.

Definition is_GitError_or_corrupt (e : exn) : bool :=
  is_GitError e || match e with CorruptStorageError _ => true | _ => false end.

(** A verified worktree that is not the one of the run. *)
Definition foreign_worktree (run : Run) (binding : RuntimeBinding) (expected_target : Path)
    (verified : WorktreeVerificationResult) : bool :=
  let record := vres_record verified in
  negb (bool_decide (lifecycle_status record = WorktreeLifecycleStatus.ACTIVE))
  || negb (bool_decide (wor_run_id record = Some (run_id run)))
  || negb (bool_decide (wor_repository record = rb_repository binding))
  || negb (String.eqb (wor_worktree_id record) (rb_worktree_id binding))
  || negb (bool_decide (wor_worktree_path record = expected_target))
  || negb (String.eqb (wor_branch_name record) (rb_branch_name binding))
  || negb (bool_decide (wts_path (vres_worktree verified) = expected_target))
  || negb (bool_decide (wts_branch (vres_worktree verified) = Some (rb_branch_name binding)))
  || negb (bool_decide (rs_identity (vres_repository verified) = rb_repository binding)).

Section UseCases.
Context {E Token : Type} {composition : RuntimeComposition E Token}.
Abbreviation W := (World E).

Definition mismatch (code message : string) : M W (option RuntimeFailure) :=
  Some <$> lift (validate_RuntimeFailure (mk_RuntimeFailure RuntimeFailureKind.REPOSITORY_MISMATCH code message)).

Definition _validate_runtime_identity (run : Run) (verify_worktree : bool) : M W (option RuntimeFailure) :=
  known ← try_except
    (binding ← in_store (get_runtime_binding (run_id run)) ;
     current ← in_env (discover repository_root) ;
     mret (Some (binding, current)))
    is_GitError_or_corrupt (fun _ => mret None) ;
  match known with
  | None => mismatch "repository_identity_unavailable" "repository identity could not be verified safely"
  | Some (binding, current) =>
      if negb (bool_decide (current = rb_repository binding)) then
        mismatch "repository_identity_mismatch" "selected repository does not match the Run repository"
      else if negb verify_worktree then mret None
      else
        verified ← try_except (Some <$> in_env (verify_owned_worktree (rb_worktree_id binding))) is_GitError
                     (fun _ => mret None) ;
        match verified with
        | None => mismatch "worktree_identity_mismatch" "owned worktree identity could not be verified safely"
        | Some verified =>
            if foreign_worktree run binding
                 (joinpath repository_root (relative_parts (worktree_relative_path binding))) verified
            then mismatch "worktree_identity_mismatch" "owned worktree evidence does not match the Run"
            else mret None
        end
  end.

Definition _requires_worktree (run : Run) : M W bool :=
  if _run_requires_worktree (run_state run) then mret true
  else
    records ← list_records (run_id run) ;
    mret (existsb (fun r => has_stage OrchestrationRecordStage.OUTCOME r
                            && match rec_attempt r with
                               | Workspace a => has_attempt_status AttemptStatus.COMPLETED (wa_base a)
                               | _ => false
                               end) records).

(** The check before a run is resumed, cancelled or shown. *)
Definition identity_failure (run : Run) : M W (option RuntimeFailure) :=
  verify_worktree ← _requires_worktree run ;
  _validate_runtime_identity run verify_worktree.

(** [RunApplicationService.start] *)
Definition start (request : StartRunRequest) : M W _Result :=
  run ← in_env (make_run request) ;
  bound ← attempt
    (identity ← in_env (discover repository_root) ;
     binding ← in_env (make_binding run identity) ;
     stored ← in_store (create_bound_run run binding) ;
     reloaded ← in_store (get_run (run_id run)) ;
     durable ← (if negb (bool_decide (reloaded = stored)) then mret false
                else again ← in_store (get_runtime_binding (run_id run)) ; mret (bool_decide (again = binding))) ;
     if negb (durable : bool) then raise (CorruptStorageError "new Run did not reload with its repository binding")
     else mret stored) ;
  match bound with
  | Err error => lift (_failure_result None error)
  | Ok stored =>
      request ← make_request (stored_run stored) (Some (revision stored)) ;
      result ← execute request None ;
      lift (_orchestration_result result true)
  end.

Definition stops_resume (status : OrchestrationStatus.t) : bool :=
  bool_decide (status ∈ [OrchestrationStatus.BLOCKED; OrchestrationStatus.FAILED; OrchestrationStatus.CANCELLED]).

(** The run that is stale, as it is now. *)
Definition stale_now (id : string) : M W _Result :=
  current ← in_store (get_run id) ; lift (_stale_result current).

(** The second [try] block of [resume]: a result, or what the coordinator returned. *)
Definition resume_body (stored : StoredRun) : M W (_Result + OrchestrationResult) :=
  failure ← identity_failure (stored_run stored) ;
  match failure with
  | Some failure => inl <$> lift (_identity_failure_result stored failure)
  | None =>
      request ← make_request (stored_run stored) (Some (revision stored)) ;
      reconciled ← reconcile_run request ;
      if stops_resume (ores_status reconciled) then inl <$> lift (_orchestration_result reconciled false)
      else
        continuation ← make_request (ores_run reconciled) (Some (ores_revision reconciled)) ;
        inr <$> execute continuation None
  end.

(** [ResumeApplicationService.resume] *)
Definition resume (request : RunRequest) : M W _Result :=
  found ← attempt (in_store (get_run (rq_run_id request))) ;
  match found with
  | Err error => lift (_failure_result (Some (rq_run_id request)) error)
  | Ok stored =>
      if match rq_expected_revision request with Some n => negb (n =? revision stored) | None => false end
      then lift (_stale_result stored)
      else
        o ← attempt (resume_body stored) ;
        match o with
        | Err error => if is_conflict error then stale_now (rq_run_id request)
                       else lift (_failure_result (Some (rq_run_id request)) error)
        | Ok (inl result) => mret result
        | Ok (inr result) => lift (_orchestration_result result (negb (is_terminal (run_state (ores_run result)))))
        end
  end.

(** The [try] block of [cancel]. *)
Definition cancel_body (request : RunRequest) (stored : StoredRun) : M W (_Result + OrchestrationResult) :=
  failure ← identity_failure (stored_run stored) ;
  match failure with
  | Some failure => inl <$> lift (_identity_failure_result stored failure)
  | None =>
      cancel_request ← make_request (stored_run stored) (rq_expected_revision request) ;
      inr <$> Service.cancel cancel_request
  end.

(** [CancellationApplicationService.cancel] *)
Definition cancel_run (request : RunRequest) : M W CancelRunResult :=
  found ← attempt (in_store (get_run (rq_run_id request))) ;
  match found with
  | Err error => (fun r => mk_CancelRunResult r false) <$> lift (_failure_result (Some (rq_run_id request)) error)
  | Ok stored =>
      o ← try_except (Some <$> cancel_body request stored) is_conflict (fun _ => mret None) ;
      match o with
      | None => (fun r => mk_CancelRunResult r false) <$> stale_now (rq_run_id request)
      | Some (inl result) => mret (mk_CancelRunResult result false)
      | Some (inr result) =>
          converted ← lift (_orchestration_result result false) ;
          mret (mk_CancelRunResult converted (bool_decide (run_state (ores_run result) = CANCELLED)))
      end
  end.

(** The snapshot of a run whose repository could not be verified. *)
Definition blocked_snapshot (s : StoredRun) (binding : RuntimeBinding) (failure : RuntimeFailure) : res RunStatusSnapshot :=
  let run := stored_run s in
  validate_RunStatusSnapshot
    (mk_RunStatusSnapshot
       (mk_Result RuntimeActionStatus.BLOCKED (Some (run_id run)) (Some (run_state run)) (Some (revision s)) false
          (rf_message failure) "inspect repository and owned-worktree identity" (Some failure))
       (Some (run_created_at run)) (Some (run_updated_at run)) (Some (wp_id (run_work_package run)))
       (Some (repository_id (rb_repository binding))) (Some (worktree_relative_path binding)) (Some (run_state run)) None
       "BLOCKED" (rf_code failure) no_attempts no_latest_attempts no_context no_validation no_review [] None 0 0 false
       false false [] [] false).

(** [StatusApplicationService.status] *)
Definition status (id : string) : M W RunStatusSnapshot :=
  found ← attempt
    (stored ← in_store (get_run id) ;
     binding ← in_store (get_runtime_binding id) ;
     events ← in_store (list_events id) ;
     records ← list_records id ;
     usage ← in_store (list_usage_records id) ;
     reservations ← in_store (list_reservations id) ;
     mret (stored, binding, events, records, usage, reservations)) ;
  match found with
  | Err error => lift (base ← _failure_result (Some id) error ; validate_RunStatusSnapshot (bare_snapshot base))
  | Ok (stored, binding, events, records, usage, reservations) =>
      failure ← identity_failure (stored_run stored) ;
      match failure with
      | Some failure => lift (blocked_snapshot stored binding failure)
      | None => lift (status_snapshot stored binding events records usage reservations)
      end
  end.
End UseCases.
