(* ===== verification/WorkflowSafety.v ===== *)
(** * What the use cases guarantee

    Showing a run changes nothing; nothing runs for a run whose repository was not
    verified; a run and its binding are durable before an agent works for it. *)

From Stdlib Require Import ZArith Lia Ascii String.
From S2P Require Import Prelude Text Domain StateMachine Effects Commands Agents GitPort TelemetryPort Validation ContextPort TelemetryService ReviewGate OrchestrationPorts RepairPolicy Reconciliation RuntimePort Tables Storage RunJournal UsageStore DurableStore Coordination Service WriteAhead ServiceOutcomes Workflows.
From stdpp Require Import base option strings numbers gmap sets list list_relations.

Open Scope Z_scope.

(** Everything but the environment stayed as it was. *)
Definition same_durable {E} (w w' : World E) : Prop :=
  w_store w' = w_store w /\ w_packages w' = w_packages w /\ w_invoked w' = w_invoked w.

#[export] Instance same_durable_confined {E} : Confined (@same_durable E).
Proof.
  split; unfold same_durable; [done|]. intros w1 w2 w3 (-> & -> & ->) (-> & -> & ->). done.
Qed.

(** What a composition promises: to make a request it only reads the store. *)
Class ReadingFactories {E Token} (composition : RuntimeComposition E Token) : Prop :=
  make_request_reads : forall run revision, only same_durable (make_request run revision).

Section UseCases.
Context {E Token : Type} {composition : RuntimeComposition E Token} {factories : ReadingFactories composition}.
Abbreviation W := (World E).

Lemma still_ret {A} (a : A) : only (W := W) same_durable (mret a).
Proof. apply only_reads; [exact _|apply reads_ret]. Qed.

Lemma still_lift {A} (r : res A) : only (W := W) same_durable (lift r).
Proof. apply only_reads; [exact _|apply reads_lift]. Qed.

Lemma still_env {A} (m : M E A) : only same_durable (in_env m).
Proof. intros w. unfold in_env. by destruct (m (w_env w)). Qed.

Lemma still_store {A} (m : M Store A) : reads m -> only (W := W) same_durable (in_store m).
Proof. intros Hm w. unfold in_store. rewrite (surjective_pairing (m (w_store w))), Hm. done. Qed.

Lemma still_records id : only (W := W) same_durable (list_records id).
Proof. apply still_store, list_records_reads. Qed.

Lemma binding_reads id : reads (get_runtime_binding id).
Proof.
  unfold get_runtime_binding. apply transaction_reads. apply reads_bind; [apply reads_gets|].
  intros [row|]; [|apply reads_bind; [apply reads_gets|intros ?; apply reads_raise]].
  repeat (apply reads_bind; [apply reads_lift|intros ?]). apply reads_ret.
Qed.

Lemma still_mismatch code message : only (W := W) same_durable (mismatch code message).
Proof. unfold mismatch. apply only_fmap, still_lift. Qed.

Create HintDb still.
Hint Resolve still_ret still_lift still_env still_store still_records binding_reads get_run_reads list_events_reads
  list_records_reads usage_records_reads reservations_reads still_mismatch : still.

(** One step of a computation that leaves the durable parts alone. *)
Ltac still :=
  repeat first
    [ solve [auto with still]
    | apply only_fmap | apply only_attempt | apply only_bind; [exact _| |intros ?]
    | apply only_try; [exact _| |intros ?] | case_match ].

Lemma still_requires run : only (W := W) same_durable (_requires_worktree run).
Proof. unfold _requires_worktree. still. Qed.

Lemma still_identity run : only same_durable (identity_failure run).
Proof.
  unfold identity_failure, _validate_runtime_identity. apply only_bind; [exact _|apply still_requires|intros needed]. still.
Qed.

(** Showing a run is read-only: whatever the repository answers, neither the store
    nor the context packages change and no agent gets a request. *)
Theorem status_reads_only id (w : W) : same_durable w (fst (status id w)).
Proof.
  revert w. change (only same_durable (status id)). unfold status. apply only_bind; [exact _| |].
  - apply only_attempt. still.
  - intros [[[[[[stored binding] events] records] usage] reservations]|e]; [|apply still_lift].
    apply only_bind; [exact _|apply still_identity|intros [f|]; apply still_lift].
Qed.

(** ** Identity *)

(** A worktree exists once a workspace attempt completed. *)
Definition worktree_needed (run : Run) (store : Store) : Prop :=
  _run_requires_worktree (run_state run) = true
  \/ exists records, snd (list_orchestration_records (run_id run) store) = Ok records
     /\ existsb (fun r => has_stage OrchestrationRecordStage.OUTCOME r
                          && match rec_attempt r with
                             | Workspace a => has_attempt_status AttemptStatus.COMPLETED (wa_base a)
                             | _ => false
                             end) records = true.

(** The repository at hand is the one bound to the run, and its worktree, when there is
    one, is owned by the run. *)
Definition identity_verified (run : Run) (w : W) : Prop :=
  exists binding, snd (get_runtime_binding (run_id run) (w_store w)) = Ok binding
    /\ (exists e e', discover repository_root e = (e', Ok (rb_repository binding)))
    /\ (worktree_needed run (w_store w) ->
        exists e e' verified, verify_owned_worktree (rb_worktree_id binding) e = (e', Ok verified)
          /\ foreign_worktree run binding
               (joinpath repository_root (relative_parts (worktree_relative_path binding))) verified = false).

Lemma in_env_Ok {A} (m : M E A) (w w' : W) a :
  in_env m w = (w', Ok a) -> exists e', m (w_env w) = (e', Ok a).
Proof. unfold in_env. destruct (m (w_env w)) as [e r]. intros [= _ ->]. by exists e. Qed.

Lemma in_store_Ok {A} (m : M Store A) (w w' : W) a : in_store m w = (w', Ok a) -> snd (m (w_store w)) = Ok a.
Proof. unfold in_store. destruct (m (w_store w)) as [s r]. by intros [= _ ->]. Qed.

Lemma still_at {A} (m : M W A) (w w' : W) r : only same_durable m -> m w = (w', r) -> w_store w' = w_store w.
Proof. intros Hm Hr. destruct (Hm w) as [Hs _]. by rewrite Hr in Hs. Qed.

Lemma requires_worktree_spec run (w w' : W) needed :
  _requires_worktree run w = (w', Ok needed) -> worktree_needed run (w_store w) -> needed = true.
Proof.
  unfold _requires_worktree. intros Hn Hw. destruct (_run_requires_worktree (run_state run)) eqn:Hs; [by injection Hn|].
  destruct Hw as [Hw|(records & Hr & He)]; [congruence|].
  apply M_bind_Ok in Hn as (w1 & rs & Hl & Hn). apply in_store_Ok in Hl. rewrite Hl in Hr. injection Hr as ->.
  by injection Hn as _ <-.
Qed.

Lemma caught_known {A} (m : M W (option A)) caught w w' a :
  try_except m caught (fun _ => mret None) w = (w', Ok (Some a)) -> m w = (w', Ok (Some a)).
Proof. unfold try_except. destruct (m w) as [w1 [x|e]]; [done|]. by destruct (caught e). Qed.

Lemma mismatch_answers code message (w w' : W) : mismatch code message w = (w', Ok None) -> False.
Proof. unfold mismatch, fmap, M_fmap, lift. by destruct (validate_RuntimeFailure _). Qed.

Lemma identity_checked run (w w' : W) : identity_failure run w = (w', Ok None) -> identity_verified run w.
Proof.
  unfold identity_failure. intros H. apply M_bind_Ok in H as (w1 & needed & Hneeded & H).
  pose proof (still_at _ _ _ _ (still_requires run) Hneeded) as Hs1.
  unfold _validate_runtime_identity in H. apply M_bind_Ok in H as (w2 & known & Hknown & H).
  destruct known as [[binding current]|]; [|by apply mismatch_answers in H]. apply caught_known in Hknown.
  apply M_bind_Ok in Hknown as (w3 & b & Hb & Hknown). apply M_bind_Ok in Hknown as (w4 & c & Hc & [= -> <- <-]).
  apply in_store_Ok in Hb. rewrite Hs1 in Hb. apply in_env_Ok in Hc as (e & Hc).
  destruct (negb (bool_decide (c = rb_repository b))) eqn:Hd; [by apply mismatch_answers in H|]. bool_prop. subst c.
  exists b. split; [done|]. split; [by eexists _, _|]. intros Hw.
  rewrite (requires_worktree_spec _ _ _ _ Hneeded Hw) in H. cbn [negb] in H.
  apply M_bind_Ok in H as (w5 & verified & Hv & H). destruct verified as [v|]; [|by apply mismatch_answers in H].
  apply caught_known in Hv. apply M_fmap_Ok in Hv as (v' & Hv & [= <-]). apply in_env_Ok in Hv as (e' & Hv).
  destruct (foreign_worktree _ _ _ _) eqn:Hf; [by apply mismatch_answers in H|]. by eexists _, _, _.
Qed.

(** What follows a check of the identity happens only for a verified run. *)
Lemma checked_first {A} run (f : RuntimeFailure -> M W A) (k : M W A) w :
  (forall failure, only same_durable (f failure)) ->
  same_durable w (fst ((failure ← identity_failure run ; match failure with Some failure => f failure | None => k end) w))
  \/ identity_verified run w.
Proof.
  intros Hf. unfold mbind, M_bind. pose proof (still_identity run w) as Hs.
  destruct (identity_failure run w) as [w1 [[failure|]|e]] eqn:Hi; cbn in *; [|right; by eapply identity_checked|by left].
  left. eapply confined_trans; [exact Hs|apply Hf].
Qed.

Lemma still_stale id : only (W := W) same_durable (stale_now id).
Proof. unfold stale_now. still. Qed.

(** The revision the caller saw, when it gave one. *)
Definition expected_matches (request : RunRequest) (s : StoredRun) : Prop :=
  match rq_expected_revision request with Some n => n = revision s | None => True end.

(** After a step, quiet code. *)
Lemma then_quiet {A B} (m : M W A) (f : A -> M W B) (P : Prop) w :
  same_durable w (fst (m w)) \/ P -> (forall a, only same_durable (f a)) -> same_durable w (fst ((m ≫= f) w)) \/ P.
Proof.
  intros [Hm|HP] Hf; [left|by right]. unfold mbind, M_bind. destruct (m w) as [w1 [a|e]]; [|done].
  eapply confined_trans; [exact Hm|apply Hf].
Qed.

Lemma attempted {A} (m : M W A) (P : Prop) w :
  same_durable w (fst (m w)) \/ P -> same_durable w (fst (attempt m w)) \/ P.
Proof. unfold attempt. by destruct (m w). Qed.

(** A use case on a run it has to find first. *)
Lemma found_first {A} id (f : exn -> M W A) (k : StoredRun -> M W A) (P : StoredRun -> Prop) w :
  (forall e, only same_durable (f e)) ->
  (forall s, snd (get_run id (w_store w)) = Ok s -> same_durable w (fst (k s w)) \/ P s) ->
  let m := found ← attempt (in_store (get_run id)) ; match found with Err error => f error | Ok stored => k stored end in
  same_durable w (fst (m w)) \/ exists s, snd (get_run id (w_store w)) = Ok s /\ P s.
Proof.
  intros Hf Hk. cbv zeta. unfold mbind, M_bind, attempt, in_store.
  rewrite (surjective_pairing (get_run id (w_store w))), (get_run_reads id (w_store w)).
  replace (mk_World (w_store w) (w_packages w) (w_env w) (w_invoked w)) with w by by destruct w.
  destruct (snd (get_run id (w_store w))) as [s|e] eqn:Hg; [|left; apply Hf].
  destruct (Hk s eq_refl) as [H|H]; [by left|right; by exists s].
Qed.

(** C8: a run is resumed or cancelled only after its identity was verified: unless the
    store, the packages and the agents' requests stay exactly as they were, the run is
    stored at the revision the caller expects (for a resumption), the discovered
    repository is the one bound to it and its worktree, if it has one, is verified as
    owned by it. *)
Theorem use_cases_verified (w : W) :
  (forall request, same_durable w (fst (resume request w))
     \/ exists s, snd (get_run (rq_run_id request) (w_store w)) = Ok s
          /\ expected_matches request s /\ identity_verified (stored_run s) w)
  /\ (forall request, same_durable w (fst (cancel_run request w))
     \/ exists s, snd (get_run (rq_run_id request) (w_store w)) = Ok s /\ identity_verified (stored_run s) w).
Proof.
  split; intros request.
  - apply (found_first _ _ _ (fun s => expected_matches request s /\ identity_verified (stored_run s) w));
      [intros e; apply still_lift|]. intros s Hs. unfold expected_matches.
    destruct (match rq_expected_revision request with Some n => negb (n =? revision s) | None => false end) eqn:He;
      [left; apply still_lift|].
    destruct (then_quiet (attempt (resume_body s))
      (fun o => match o with
                | Err error => if is_conflict error then stale_now (rq_run_id request)
                               else lift (_failure_result (Some (rq_run_id request)) error)
                | Ok (inl result) => mret result
                | Ok (inr result) => lift (_orchestration_result result (negb (is_terminal (run_state (ores_run result)))))
                end) (identity_verified (stored_run s) w) w) as [H|H]; [| |by left|].
    + apply attempted, checked_first. intros f. apply only_fmap, still_lift.
    + intros [[r|r]|e]; [apply still_ret|apply still_lift|]. destruct (is_conflict e); [apply still_stale|apply still_lift].
    + right. split; [|done]. destruct (rq_expected_revision request) as [n|]; [|done]. bool_prop. done.
  - apply (found_first _ _ _ (fun s => identity_verified (stored_run s) w)); [intros e; apply only_fmap, still_lift|].
    intros s Hs. apply then_quiet.
    + unfold try_except. pose proof (checked_first (stored_run s)
        (fun failure => inl <$> lift (_identity_failure_result s failure))
        (cancel_request ← make_request (stored_run s) (rq_expected_revision request) ; inr <$> Service.cancel cancel_request) w) as Hc.
      destruct Hc as [Hc|Hc]; [intros f; apply only_fmap, still_lift| |by right]. left.
      unfold fmap at 1, M_fmap. fold (cancel_body request s) in Hc.
      change (same_durable w (fst (cancel_body request s w))) in Hc.
      destruct (cancel_body request s w) as [w1 [a|e]]; [done|]. by destruct (is_conflict e).
    + intros [[r|r]|]; [apply still_ret| |apply only_fmap, still_stale]. still.
Qed.

(** ** Starting *)

(** What follows the binding of a run: the request, the coordinator and its answer. *)
Definition run_bound (s : StoredRun) : M W _Result :=
  request ← make_request (stored_run s) (Some (revision s)) ;
  result ← execute request None ;
  lift (_orchestration_result result true).

(** No agent gets a request. *)
Definition same_requests (w w' : W) : Prop := w_invoked w' = w_invoked w.

#[local] Instance same_requests_confined : Confined same_requests.
Proof. split; unfold same_requests; congruence. Qed.

Lemma quiet_store {A} (m : M Store A) : only same_requests (in_store m).
Proof. intros w. unfold in_store. by destruct (m (w_store w)). Qed.

Lemma quiet_env {A} (m : M E A) : only same_requests (in_env m).
Proof. intros w. unfold in_env. by destruct (m (w_env w)). Qed.

Lemma in_store_store {A} (m : M Store A) (w w' : W) a :
  in_store m w = (w', Ok a) -> m (w_store w) = (w_store w', Ok a).
Proof. unfold in_store. destruct (m (w_store w)) as [s r]. by intros [= <- ->]. Qed.

(** The run and its binding as they were written and read back. *)
Definition bind_new_run (run : Run) : M W StoredRun :=
  identity ← in_env (discover repository_root) ;
  binding ← in_env (make_binding run identity) ;
  stored ← in_store (create_bound_run run binding) ;
  reloaded ← in_store (get_run (run_id run)) ;
  durable ← (if negb (bool_decide (reloaded = stored)) then mret false
             else again ← in_store (get_runtime_binding (run_id run)) ; mret (bool_decide (again = binding))) ;
  if negb (durable : bool) then raise (CorruptStorageError "new Run did not reload with its repository binding")
  else mret stored.

Lemma bind_new_run_quiet run : only same_requests (bind_new_run run).
Proof.
  unfold bind_new_run. do 4 (apply only_bind; [exact _|first [apply quiet_store|apply quiet_env]|intros ?]).
  apply only_bind; [exact _| |intros d].
  - case_match; [apply only_reads; [exact _|apply reads_ret]|]. apply only_bind; [exact _|apply quiet_store|intros ?].
    apply only_reads; [exact _|apply reads_ret].
  - case_match; (apply only_reads; [exact _|]); [apply reads_raise|apply reads_ret].
Qed.

Lemma bind_new_run_binds run (w w1 : W) s :
  bind_new_run run w = (w1, Ok s) ->
  exists found binding,
    (exists e e', discover repository_root e = (e', Ok found))
    /\ (exists e e', make_binding run found e = (e', Ok binding))
    /\ create_bound_run run binding (w_store w) = (w_store w1, Ok s)
    /\ snd (get_run (run_id run) (w_store w1)) = Ok s
    /\ snd (get_runtime_binding (run_id run) (w_store w1)) = Ok binding.
Proof.
  intros H. apply M_bind_Ok in H as (w2 & found & Hfound & H). apply M_bind_Ok in H as (w3 & binding & Hbinding & H).
  apply M_bind_Ok in H as (w4 & stored & Hcreate & H). apply M_bind_Ok in H as (w5 & reloaded & Hload & H).
  apply M_bind_Ok in H as (w6 & durable & Hdurable & H).
  destruct durable; cbn [negb] in H; [|done]. injection H as -> ->.
  destruct (negb (bool_decide (reloaded = s))) eqn:Hsame; [done|]. bool_prop. subst reloaded.
  apply M_bind_Ok in Hdurable as (w7 & again & Hagain & Hdurable). injection Hdurable as -> Hdurable. bool_prop. subst again.
  pose proof (still_at _ _ _ _ (still_env _) Hfound) as Hs2. pose proof (still_at _ _ _ _ (still_env _) Hbinding) as Hs3.
  pose proof (still_at _ _ _ _ (still_store _ (get_run_reads _)) Hload) as Hs5.
  pose proof (still_at _ _ _ _ (still_store _ (binding_reads _)) Hagain) as Hs6.
  exists found, binding. split; [|split; [|split; [|split]]].
  - apply in_env_Ok in Hfound as (e & Hfound). by eexists _, _.
  - apply in_env_Ok in Hbinding as (e & Hbinding). by eexists _, _.
  - apply in_store_store in Hcreate. by rewrite Hs6, Hs5, <- Hs2, <- Hs3.
  - apply in_store_Ok in Hload. by rewrite Hs6, Hs5.
  - apply in_store_Ok in Hagain. by rewrite Hs6.
Qed.

Lemma failure_reported id error r : _failure_result id error = Ok r -> is_some (result_failure r) = true.
Proof.
  unfold _failure_result. destruct (failure_cause error) as [[kind st] code]. intros H.
  apply bind_Ok in H as (f & _ & H). unfold validate_Result in H. cbn in H. inv_valid.
  match goal with H : context [validate_RuntimeFailure f] |- _ => destruct (validate_RuntimeFailure f) end; inv_valid; by subst.
Qed.

(** C16: a run is durable and bound to its repository before anything is done for it:
    starting a run hands no request to an agent and reports a failure, or it reaches a
    world in which the new run and the binding made for the discovered repository were
    written by one operation and read back equal, no agent has a request yet, and all
    that happens next is one execution of the coordinator. *)
Theorem start_binds_before_work request (w w' : W) r (Hrun : start request w = (w', r)) :
  w_invoked w' = w_invoked w /\ (forall result, r = Ok result -> is_some (result_failure result) = true)
  \/ exists run found binding s w1,
       (exists e e', make_run request e = (e', Ok run))
       /\ (exists e e', discover repository_root e = (e', Ok found))
       /\ (exists e e', make_binding run found e = (e', Ok binding))
       /\ create_bound_run run binding (w_store w) = (w_store w1, Ok s)
       /\ snd (get_run (run_id run) (w_store w1)) = Ok s
       /\ snd (get_runtime_binding (run_id run) (w_store w1)) = Ok binding
       /\ w_invoked w1 = w_invoked w /\ run_bound s w1 = (w', r).
Proof.
  assert (Heq : start request = (run ← in_env (make_run request) ; bound ← attempt (bind_new_run run) ;
    match bound with Err error => lift (_failure_result None error) | Ok stored => run_bound stored end)) by reflexivity.
  rewrite Heq in Hrun. clear Heq. unfold mbind, M_bind, attempt in Hrun.
  pose proof (still_env (make_run request) w) as (Hs0 & _ & Hi0).
  destruct (in_env (make_run request) w) as [w0 [run|e]] eqn:Hmake; cbn in Hs0, Hi0; [|by injection Hrun as <- <-; left].
  apply in_env_Ok in Hmake as (e0 & Hmake).
  pose proof (bind_new_run_quiet run w0) as Hq. destruct (bind_new_run run w0) as [w1 [s|e]] eqn:Hbound; cbn in Hq.
  - right. destruct (bind_new_run_binds _ _ _ _ Hbound) as (found & binding & H1 & H2 & H3 & H4 & H5).
    rewrite Hs0 in H3. exists run, found, binding, s, w1. unfold same_requests in Hq.
    split_and!; try done; [by eexists _, _|congruence].
  - left. unfold lift in Hrun. injection Hrun as <- <-. unfold same_requests in Hq. split; [congruence|].
    intros result Hr. by eapply failure_reported.
Qed.
End UseCases.
