(* ===== verification/StatusSafety.v ===== *)
(** * What a status of a run means

    A store the repository reached contradicts itself neither in the number of events,
    nor in the state they lead to, nor in the numbers and revisions of the records; the
    usage of a status adds up; its budgets are those the coordinator decides with. *)

From Stdlib Require Import ZArith Lia Ascii String.
From S2P Require Import Prelude Text Domain StateMachine Effects Commands Agents GitPort TelemetryPort Validation ContextPort TelemetryService ReviewGate OrchestrationPorts RepairPolicy Reconciliation RuntimePort Tables Storage RunJournal UsageStore DurableStore Coordination Service Workflows WorkflowSafety.
From stdpp Require Import base option strings numbers gmap sets list list_relations.

Open Scope Z_scope.

(** ** Records are not ahead of their run *)

(** Every record belongs to a stored run whose revision it does not exceed. *)
Definition records_current (w : Store) : Prop := forall row, row ∈ st_records w ->
  exists run, st_runs w !! or_run_id row = Some run /\ or_run_revision row <= rr_revision run.

(** Runs stay and their revisions do not decrease. *)
Definition runs_grow (w w' : Store) : Prop := forall id run, st_runs w !! id = Some run ->
  exists run', st_runs w' !! id = Some run' /\ rr_revision run <= rr_revision run'.

Lemma records_current_grow w w' :
  runs_grow w w' -> st_records w' = st_records w -> records_current w -> records_current w'.
Proof.
  intros Hg Hr Hc row Hin. rewrite Hr in Hin. destruct (Hc row Hin) as (run & Hrun & Hle).
  destruct (Hg _ _ Hrun) as (run' & Hrun' & Hle'). exists run'. split; [done|lia].
Qed.

Lemma spec_exec_grows c j id e :
  j_runs j !! id = Some e ->
  exists e', j_runs (spec_exec c j).1 !! id = Some e' /\ en_revision e <= en_revision e'.
Proof.
  intros He. destruct c as [run|i|i|expected result event_id]; cbn; try (by exists e).
  - unfold spec_create. destruct (negb _); [by exists e|]. destruct (j_runs j !! run_id run) eqn:Hr; cbn; [by exists e|].
    destruct (run_fits _ _); cbn; [|by exists e]. exists e. split; [|done]. rewrite lookup_insert_ne; [done|congruence].
  - unfold spec_persist. destruct (_validate_transition_snapshot expected result); [|by exists e].
    destruct (j_runs j !! run_id (stored_run expected)) as [e0|] eqn:H0; [|by exists e].
    destruct (en_revision e0 =? revision expected).
    + destruct (negb _); [by exists e|]. destruct (is_some _); [by exists e|].
      destruct (negb (run_fits _ _ && _)); [by exists e|]. cbn.
      destruct (decide (run_id (stored_run expected) = id)) as [<-|Hne].
      * rewrite lookup_insert_eq. eexists. split; [done|]. rewrite H0 in He. injection He as ->.
        unfold en_revision. cbn. rewrite length_app. cbn. lia.
      * rewrite lookup_insert_ne by done. by exists e.
    + destruct (j_owner j !! event_id); [|by exists e]. destruct (_ && _); by exists e.
Qed.

Lemma run_call_grows c w j : call_wf c -> represents w j -> runs_grow w (fst (exec c w)).
Proof.
  intros Hc Hj id run Hrun.
  assert (Hj' : represents (fst (exec c w)) (spec_exec c j).1) by exact (proj2 (exec_refines (W := Store) c w j Hc Hj)).
  rewrite (rep_runs _ _ Hj) in Hrun. destruct (j_runs j !! id) as [e|] eqn:He; [|done]. injection Hrun as <-.
  destruct (spec_exec_grows c j id e He) as (e' & He' & Hle).
  pose proof (rep_runs _ _ Hj' id) as Hr. rewrite He' in Hr.
  eexists. split; [exact Hr|exact Hle].
Qed.

Lemma bound_run_grows run binding w : runs_grow w (fst (create_bound_run run binding w)).
Proof.
  unfold create_bound_run. rewrite lift_bind. unfold raise_if.
  destruct (negb (bool_decide _)); [by intros id row Hr; exists row|]. rewrite lift_bind.
  destruct (negb (String.eqb _ _)); [by intros id row Hr; exists row|].
  unfold try_except, transaction, insert_run, write, mbind, M_bind. cbn [rr_run_id row_of_run].
  destruct (has_run (run_id run) w) eqn:Hh; cbn [negb andb is_IntegrityError]; [by intros id row Hr; exists row|].
  destruct (run_fits _ _); cbn [andb is_IntegrityError]; [|by intros id row Hr; exists row].
  unfold insert_binding, write. destruct (_ && _); cbn [is_IntegrityError]; [|by intros id row Hr; exists row].
  intros id row Hr. unfold lift. cbn. exists row. split; [|done]. rewrite lookup_insert_ne; [done|].
  intros <-. unfold has_run in Hh. bool_prop. apply Hh. by exists row.
Qed.

Lemma deserialized_revision row s : _deserialize_run row = Ok s -> revision s = rr_revision row.
Proof. unfold _deserialize_run, __post_init__. intros H. inv_valid. unfold raise_if in H.
  destruct (_ <? 0); cbn in H; [done|]. by injection H as <-. Qed.

Lemma persisted_revision expected record w w' res :
  persist_orchestration_record expected record w = (w', Ok res) -> rec_run_revision record = revision expected.
Proof.
  unfold persist_orchestration_record. rewrite lift_bind. unfold raise_if.
  destruct (_ || _) eqn:Hm; [done|]. intros _. by bool_prop.
Qed.

Lemma persist_error expected record w w' e :
  persist_orchestration_record expected record w = (w', Err e) -> w' = w.
Proof.
  intros H. unfold persist_orchestration_record in H. rewrite lift_bind in H.
  destruct (raise_if _ _); [|by injection H as <- _].
  unfold try_except, transaction in H.
  match type of H with context [match ?m ?w0 with _ => _ end] => destruct (m w0) as [w1 [r1|e1]] end; [done|].
  destruct (is_IntegrityError e1); unfold raise in H; by injection H as <- _.
Qed.

Lemma records_current_exec c w :
  store_call_wf c -> store_wf w -> records_current w -> records_current (store_exec c w).
Proof.
  intros Hc [[j Hj] Hr _] Hcur. destruct c as [c|run binding|expected record|id|c]; cbn [store_exec store_call_wf] in *.
  - eapply records_current_grow, Hcur; [by eapply run_call_grows|]. by apply (run_call_only same_records).
  - eapply records_current_grow, Hcur; [apply bound_run_grows|]. by apply (bound_run_only same_records).
  - destruct (persist_orchestration_record expected record w) as [w' [res|e]] eqn:H; cbn [fst];
      [|apply persist_error in H as ->; done].
    pose proof (persisted_revision _ _ _ _ _ H) as Hrev.
    destruct (persist_record_step _ _ _ _ _ H) as (Hid & (row & Hrow & Hd) & [-> _ _ _|row' -> _ _ _ _ _]); [|done].
    intros row' [Hin|Hin]%elem_of_app; [by apply Hcur|]. apply list_elem_of_singleton in Hin as ->.
    exists row. cbn. rewrite Hid. split; [done|]. rewrite Hrev. apply deserialized_revision in Hd as ->. lia.
  - assert (Hreads : reads (list_orchestration_records id)); [|by rewrite Hreads].
    unfold list_orchestration_records, run_exists. apply reads_bind; [apply reads_gets|].
    intros [|]; cbn; [|apply reads_raise].
    repeat (apply reads_bind; [auto with rev|intros ?]). apply reads_ret.
  - destruct (telemetry_only same_runs c w) as (_ & Hruns & _); try done.
    eapply records_current_grow, Hcur.
    + intros id run Hrun. exists run. by rewrite Hruns.
    + by apply (telemetry_only same_records).
Qed.

Lemma reachable_current w : reachable w -> records_current w.
Proof.
  induction 1 as [|c w Hw IH Hc]; [by intros row Hin%elem_of_nil|].
  apply records_current_exec; [done|by apply reachable_wf|done].
Qed.

(** ** Contradictions that cannot be *)

Definition bookkeeping_codes : list string :=
  ["event_revision_mismatch"; "terminal_event_state_mismatch"; "attempt_revision_impossible"; "attempt_sequence_impossible"].

(** What one reads of a run in a reachable store. *)
Lemma reachable_reads w id s events records :
  reachable w -> snd (get_run id w) = Ok s -> snd (list_events id w) = Ok events ->
  snd (list_orchestration_records id w) = Ok records ->
  revision s = Z.of_nat (length events)
  /\ (forall e, last events = Some e -> tr_destination (ev_transition e) = run_state (stored_run s))
  /\ Forall (fun r => rec_run_revision r <= revision s) records
  /\ (rec_sequence <$> records) = one_to (length records).
Proof.
  intros Hw Hs He Hr. destruct (reachable_wf w Hw) as [[j Hj] Hrec _]. pose proof (reachable_current w Hw) as Hcur.
  destruct (j_runs j !! id) as [e|] eqn:Hent.
  2:{ unfold get_run, transaction in Hs. by rewrite (select_run_None w j Hj _ Hent) in Hs. }
  rewrite (get_run_entry w j id e Hj Hent) in Hs. injection Hs as <-.
  destruct (list_events_simulates id _ _ Hj) as (w2 & Hl & _). cbn in Hl. rewrite Hent in Hl. rewrite Hl in He. injection He as <-.
  assert (Hrun : has_run id w = true) by (rewrite (represents_has_run _ _ Hj), Hent; done).
  rewrite (list_records_ok w id Hrec Hrun) in Hr. injection Hr as <-.
  destruct (rep_entry _ _ Hj _ _ Hent) as [_ [r0 Hh] _]. split; [|split; [|split]].
  - cbn. unfold en_revision. by rewrite length_log_events.
  - intros ev Hev. cbn. rewrite <- (log_transitions id) in Hh.
    destruct (history_last _ _ _ Hh) as [(Hnil & _)|(h' & r1 & tr & Hsnoc & _ & Hf)].
    + apply fmap_nil_inv in Hnil. by rewrite Hnil in Hev.
    + apply (f_equal last) in Hsnoc. rewrite fmap_last, Hev, last_snoc in Hsnoc. cbn in Hsnoc. injection Hsnoc as ->.
      by destruct Hf.
  - apply Forall_forall. intros r Hin. unfold stored_records in Hin. apply list_elem_of_fmap in Hin as (row & -> & Hin).
    destruct (record_rows_wf w id Hrec) as (rs & Hrs & _). rewrite Hrs in Hin.
    pose proof Hin as Hin0. apply list_elem_of_fmap in Hin as (r & -> & _). rewrite <- Hrs in Hin0.
    apply list_elem_of_filter in Hin0 as [Hid%String.eqb_eq Hin0]. destruct (Hcur _ Hin0) as (run & Hrow & Hle).
    rewrite Hid, (rep_runs _ _ Hj), Hent in Hrow. injection Hrow as <-. exact Hle.
  - destruct (record_rows_wf w id Hrec) as (rs & Hrs & _). pose proof (rw_contiguous _ Hrec id) as Hc.
    unfold stored_records. rewrite length_fmap, <- Hc. by rewrite Hrs, <- !list_fmap_compose.
Qed.

Lemma code_if_in b code x : x ∈ code_if b code -> b = true /\ x = code.
Proof. unfold code_if. destruct b; [by intros ->%list_elem_of_singleton|by intros ?%elem_of_nil]. Qed.

Lemma contradictions_bookkeeping run rev events records review :
  rev = Z.of_nat (length events) ->
  (forall e, last events = Some e -> tr_destination (ev_transition e) = run_state run) ->
  Forall (fun r => rec_run_revision r <= rev) records -> (rec_sequence <$> records) = one_to (length records) ->
  forall code, code ∈ _contradictions run rev events records review -> code ∉ bookkeeping_codes.
Proof.
  intros Hrev Hlast Hrecs Hseq code Hin. unfold _contradictions in Hin. cbv zeta in Hin. rewrite elem_of_sorted_set in Hin.
  rewrite !elem_of_app in Hin.
  destruct Hin as [Hin|[Hin|[Hin|[Hin|[Hin|[Hin|[Hin|Hin]]]]]]]; apply code_if_in in Hin as [Hb ->];
    try (by apply (bool_decide_unpack _); vm_compute).
  - by rewrite Hrev, Z.eqb_refl in Hb.
  - destruct (last events) as [e|]; [|done]. bool_prop. by destruct (Hlast e eq_refl).
  - apply existsb_exists in Hb as (r & Hr%list_elem_of_In & Hlt). rewrite Forall_forall in Hrecs.
    specialize (Hrecs r Hr). bool_prop. lia.
  - by rewrite Hseq, bool_decide_eq_true_2 in Hb.
Qed.

Section Status.
Context {E Token : Type} {composition : RuntimeComposition E Token}.
Abbreviation W := (World E).

Lemma snapshot_codes s binding events records usage reservations sn :
  status_snapshot s binding events records usage reservations = Ok sn ->
  contradiction_codes sn
  = _contradictions (stored_run s) (revision s) events records
      (_review_summary (dict_get OrchestrationStep.REVIEW (pg_outcomes (progress_of records))) (stored_run s)).
Proof.
  unfold status_snapshot. cbv zeta. intros H. apply bind_Ok in H as (items & _ & H). apply bind_Ok in H as (failure & _ & H).
  apply bind_Ok in H as (latest & _ & H). apply bind_Ok in H as (attempts & _ & H). apply bind_Ok in H as (budgets & _ & H).
  unfold validate_RunStatusSnapshot in H. inv_valid. by subst.
Qed.

Lemma plain_codes base sn :
  validate_RunStatusSnapshot base = Ok sn -> contradiction_codes sn = contradiction_codes base.
Proof. unfold validate_RunStatusSnapshot. intros H. inv_valid. by subst. Qed.

(** A status is the projection of what the store holds, or it names no contradiction. *)
Lemma status_answer id (w w' : W) sn :
  status id w = (w', Ok sn) ->
  contradiction_codes sn = []
  \/ exists s binding events records usage reservations,
       snd (get_run id (w_store w)) = Ok s /\ snd (list_events id (w_store w)) = Ok events
       /\ snd (list_orchestration_records id (w_store w)) = Ok records
       /\ snd (list_usage_records id (w_store w)) = Ok usage /\ snd (list_reservations id (w_store w)) = Ok reservations
       /\ status_snapshot s binding events records usage reservations = Ok sn.
Proof.
  unfold status. intros H. apply M_bind_Ok in H as (w1 & found & Hfound & H).
  destruct found as [[[[[[s binding] events] records] usage] reservations]|e].
  2:{ left. unfold lift in H. injection H as _ H. apply bind_Ok in H as (base & _ & H). by apply plain_codes in H. }
  unfold attempt in Hfound.
  match type of Hfound with context [let '(w', r) := ?m w in _] => destruct (m w) as [w2 o] eqn:Hread end.
  injection Hfound as -> ->.
  apply M_bind_Ok in Hread as (v1 & x1 & H1 & Hread). apply M_bind_Ok in Hread as (v2 & x2 & H2 & Hread).
  apply M_bind_Ok in Hread as (v3 & x3 & H3 & Hread). apply M_bind_Ok in Hread as (v4 & x4 & H4 & Hread).
  apply M_bind_Ok in Hread as (v5 & x5 & H5 & Hread). apply M_bind_Ok in Hread as (v6 & x6 & H6 & Hread).
  injection Hread as -> <- <- <- <- <- <-.
  pose proof (still_at _ _ _ _ (still_store _ (get_run_reads _)) H1) as S1.
  pose proof (still_at _ _ _ _ (still_store _ (binding_reads _)) H2) as S2.
  pose proof (still_at _ _ _ _ (still_store _ (list_events_reads _)) H3) as S3.
  pose proof (still_at _ _ _ _ (still_records _) H4) as S4.
  pose proof (still_at _ _ _ _ (still_store _ (WriteAhead.usage_records_reads _)) H5) as S5.
  apply in_store_Ok in H1, H3, H4, H5, H6.
  rewrite S1 in *. rewrite S2 in *. rewrite S3 in *. rewrite S4 in *. rewrite S5 in *.
  apply M_bind_Ok in H as (w3 & failure & _ & H). unfold lift in H. destruct failure as [f|]; injection H as _ H.
  - left. unfold blocked_snapshot in H. by apply plain_codes in H.
  - right. by exists x1, x2, x3, x4, x5, x6.
Qed.

(** C23: a status of a run of a reachable store never reports that the number of events is
    not the revision, that the events end in another state, that a record is ahead of its
    run or that the records are not numbered from one: such contradictions mean that the
    store was changed by something else. *)
Theorem status_consistent id (w w' : W) sn (Hw : reachable (w_store w)) (Hrun : status id w = (w', Ok sn)) :
  forall code, code ∈ contradiction_codes sn -> code ∉ bookkeeping_codes.
Proof.
  intros code Hin. destruct (status_answer _ _ _ _ Hrun) as [Hnil|(s & b & events & records & u & r & Hs & He & Hr & _ & _ & Hsn)].
  - rewrite Hnil in Hin. by apply elem_of_nil in Hin.
  - rewrite (snapshot_codes _ _ _ _ _ _ _ Hsn) in Hin.
    destruct (reachable_reads _ _ _ _ _ Hw Hs He Hr) as (H1 & H2 & H3 & H4). by eapply contradictions_bookkeeping.
Qed.
End Status.

(** ** Usage *)

Definition members (key : usage_key) (records : list UsageRecord) : list UsageRecord :=
  filter (fun r => key_of_usage r = key) records.

Lemma members_snoc key records r :
  members key (records ++ [r]) = members key records ++ (if decide (key_of_usage r = key) then [r] else []).
Proof. unfold members. rewrite filter_app, filter_cons, filter_nil. by case_decide. Qed.

Lemma group_usage_spec records :
  NoDup (group_usage records).*1
  /\ (forall key, default [] (dict_get key (group_usage records)) = members key records)
  /\ (forall key, key ∈ (group_usage records).*1 <-> key ∈ key_of_usage <$> records).
Proof.
  induction records as [|r records (Hn & Hg & Hk)] using rev_ind; [split; [constructor|done]|].
  unfold group_usage. rewrite fold_left_app. cbn [fold_left]. fold (group_usage records).
  split; [by apply dict_set_NoDup|]. split.
  - intros key. rewrite dict_get_set, members_snoc. rewrite Hg. case_decide as He; [by subst|]. by rewrite app_nil_r, Hg.
  - intros key. rewrite dict_set_keys, fmap_app, elem_of_app. cbn. rewrite list_elem_of_singleton, <- Hk.
    case_decide as Hin; [|by rewrite elem_of_app, list_elem_of_singleton]. split; [by left|]. by intros [?| ->].
Qed.

Definition key_of_item (i : UsageStatusItem) : usage_key := (ui_metric i, ui_unit i, ui_provenance i, ui_currency i).

(** The totals of the records of a key. *)
Definition totals (i : UsageStatusItem) (group : list UsageRecord) : Prop :=
  ui_integer_value i = (if is_missing (ui_provenance i) || is_money (ui_unit i) then None
                        else Some (py_sum ((fun r => default 0 (integer_value r)) <$> group)))
  /\ ui_decimal_value i = (if is_money (ui_unit i) && negb (is_missing (ui_provenance i))
                           then Some (dec_sum ((fun r => dec_or_zero (decimal_value r)) <$> group)) else None)
  /\ unavailable_count i = if is_missing (ui_provenance i) then Z.of_nat (length group) else 0.

Lemma usage_facts r :
  validate_UsageRecord r = Ok r ->
  0 <= default 0 (integer_value r) /\ 0 <= dec_coef (dec_or_zero (decimal_value r))
  /\ validate_optional (pattern_field "currency" currency_pattern) (ur_currency r) = Ok (ur_currency r).
Proof.
  unfold validate_UsageRecord. intros H. inv_valid. apply valid_usage_id in H.
  pose proof (f_equal ur_currency H) as Hc. cbn [ur_currency] in Hc. clear H. split; [|split; [|congruence]].
  - destruct (integer_value r); [|done]. cbn in *. unfold in_range in *. bool_prop. lia.
  - destruct (decimal_value r) as [d|]; [|done]. unfold decimal_field in *. bool_prop. cbn. destruct (dec_coef d =? 0); [done|]. cbn. lia.
Qed.

Lemma dec_context_nonneg d : 0 <= dec_coef d -> 0 <= dec_coef (dec_context d).
Proof.
  intros Hd. unfold dec_context. destruct (_ <=? 0); [done|].
  set (p := 10 ^ _). assert (Hq : 0 <= half_even (Z.abs (dec_coef d)) p).
  { unfold half_even. destruct (decide (0 < p)) as [Hp|Hp].
    - assert (0 <= Z.abs (dec_coef d) / p) by (apply Z.div_pos; lia). case_match; lia.
    - assert (0 <= p) by (subst p; apply Z.pow_nonneg; lia). assert (p = 0) as -> by lia. cbn. rewrite Z.div_0_r. case_match; lia. }
  destruct (28 <? _); cbn; (apply Z.mul_nonneg_nonneg; [by apply Z.sgn_nonneg|]); [apply Z.div_pos; lia|done].
Qed.

Lemma dec_sum_nonneg xs : Forall (fun d => 0 <= dec_coef d) xs -> 0 <= dec_coef (dec_sum xs).
Proof.
  unfold dec_sum. assert (Hz : 0 <= dec_coef (mk_decimal 0 0)) by done. revert Hz. generalize (mk_decimal 0 0) as acc.
  intros acc Ha Hxs. revert acc Ha. induction Hxs as [|d xs Hd _ IH]; intros acc Ha; [done|]. cbn. apply IH.
  apply dec_context_nonneg. unfold dec_add. destruct (dec_align acc d) as [[x y] e] eqn:Hal.
  unfold dec_align in Hal. injection Hal as <- <- _. cbn.
  apply Z.add_nonneg_nonneg; (apply Z.mul_nonneg_nonneg; [done|apply Z.pow_nonneg; lia]).
Qed.

Lemma py_sum_nonneg xs : Forall (Z.le 0) xs -> 0 <= py_sum xs.
Proof. unfold py_sum. induction 1; cbn in *; lia. Qed.

Lemma usage_item_ok key group :
  group <> [] -> Forall (fun r => validate_UsageRecord r = Ok r /\ key_of_usage r = key) group ->
  exists i, usage_item (key, group) = Ok i /\ key_of_item i = key /\ totals i group.
Proof.
  intros Hne Hg. destruct key as [[[metric unit] provenance] currency].
  assert (Hcurrency : validate_optional (pattern_field "currency" currency_pattern) currency = Ok currency).
  { destruct group as [|r group]; [done|]. apply Forall_cons in Hg as [[Hr Hk] _]. unfold key_of_usage in Hk.
    injection Hk as _ _ _ <-. by apply usage_facts. }
  assert (Hint : 0 <= py_sum ((fun r => default 0 (integer_value r)) <$> group)).
  { apply py_sum_nonneg, Forall_fmap. eapply Forall_impl; [exact Hg|]. intros r [Hr _]. by apply usage_facts. }
  assert (Hdec : 0 <= dec_coef (dec_sum ((fun r => dec_or_zero (decimal_value r)) <$> group))).
  { apply dec_sum_nonneg, Forall_fmap. eapply Forall_impl; [exact Hg|]. intros r [Hr _]. by apply usage_facts. }
  unfold usage_item. match goal with |- exists i, validate_UsageStatusItem ?x = _ /\ _ => exists x end.
  split; [|split; [done|]].
  - unfold validate_UsageStatusItem, not_negative. cbn [ui_metric ui_unit ui_provenance ui_integer_value ui_decimal_value ui_currency unavailable_count].
    destruct (is_missing provenance) eqn:Hp, (is_money unit) eqn:Hu; cbn [negb andb]; rewrite ?Hcurrency;
      rewrite ?(proj2 (Z.leb_le _ _) Hint), ?(proj2 (Z.leb_le _ _) Hdec); cbn; rewrite ?Hcurrency; try done;
      by rewrite (proj2 (Z.leb_le _ _)) by lia.
  - unfold totals. cbn. split; [|done]. by destruct (is_missing provenance), (is_money unit).
Qed.

(** The usage of a status is the usage of the run, grouped: for valid records there is
    one item for every combination of metric, unit, provenance and currency that occurs,
    with the sum of exactly the records of that combination, or their number when they
    carry no value. *)
Theorem usage_summary_adds_up records (Hvalid : Forall (fun r => validate_UsageRecord r = Ok r) records) :
  exists items, _usage_summary records = Ok items /\ NoDup (key_of_item <$> items)
    /\ (forall key, key ∈ key_of_item <$> items <-> key ∈ key_of_usage <$> records)
    /\ Forall (fun i => totals i (members (key_of_item i) records)) items.
Proof.
  destruct (group_usage_spec records) as (Hn & Hg & Hk). unfold _usage_summary.
  set (le := fun a b : usage_key * list UsageRecord => texts_le (key_texts a.1) (key_texts b.1)).
  pose proof (py_sorted_perm le (group_usage records)) as Hperm. set (groups := py_sorted le _) in *.
  assert (Hitem : Forall (fun g => exists i, usage_item g = Ok i /\ key_of_item i = g.1 /\ totals i (members g.1 records)) groups).
  { apply Forall_forall. intros [key group] Hin. rewrite Hperm in Hin.
    assert (Hgroup : group = members key records) by (rewrite <- Hg; by apply dict_get_Some in Hin as ->).
    assert (Hkey : key ∈ key_of_usage <$> records) by (apply Hk, list_elem_of_fmap; by exists (key, group)).
    subst group. destruct (usage_item_ok key (members key records)) as (i & Hi & Hki & Ht); [| |by exists i].
    - apply list_elem_of_fmap in Hkey as (r & -> & Hr). intros Hnil.
      assert (Hm : r ∈ members (key_of_usage r) records) by by apply list_elem_of_filter. rewrite Hnil in Hm.
      by apply elem_of_nil in Hm.
    - apply Forall_forall. intros r [Hr Hin']%list_elem_of_filter.
      rewrite Forall_forall in Hvalid. split; [by apply Hvalid|done]. }
  apply Forall_exists_Forall2_l in Hitem as (items & Hitems). exists items.
  assert (Hkeys : key_of_item <$> items = groups.*1).
  { clear -Hitems. induction Hitems as [|g i groups items (_ & Hki & _) _ IH]; [done|]. by rewrite !fmap_cons, Hki, IH. }
  assert (Hp1 : groups.*1 ≡ₚ (group_usage records).*1) by by rewrite Hperm.
  split; [|split; [by rewrite Hkeys, Hp1|split]].
  - apply traverse_Forall2. eapply Forall2_impl; [exact Hitems|]. by intros g i [? _].
  - intros key. rewrite Hkeys, Hp1. apply Hk.
  - clear -Hitems. induction Hitems as [|g i groups items (_ & Hki & Ht) _ IH]; constructor; [by rewrite Hki|done].
Qed.

(** ** Budgets *)

Lemma filters_agree {A} (P Q : A -> Prop) `{!forall x, Decision (P x)} `{!forall x, Decision (Q x)} (l : list A) :
  (forall x, P x <-> Q x) -> filter P l = filter Q l.
Proof. intros Heq. apply list_filter_iff, Heq. Qed.

Lemma counted (metrics : list UsageMetric.t) metric r :
  (forall m, m ∈ metrics <-> _budget_metric_for_usage m = Some metric) ->
  ur_metric r ∈ metrics /\ ur_provenance r <> UsageProvenance.UNAVAILABLE
  <-> counts_for metric r && negb (is_unavailable r) = true.
Proof.
  intros Hm. rewrite Hm, andb_true_iff, negb_true_iff. unfold counts_for, is_unavailable.
  by rewrite bool_decide_eq_true, bool_decide_eq_false.
Qed.

Lemma tokens_counted records : usage_total [UsageMetric.TOTAL_TOKENS] records = consumed_integer BudgetMetric.REMOTE_TOKENS records.
Proof.
  unfold usage_total, consumed_integer, known_usage, measured_for. do 2 f_equal. apply filters_agree. intros r.
  apply counted. intros m. rewrite list_elem_of_singleton. by destruct m.
Qed.

Lemma reserved_counted metric rs : reserved_total metric rs = reserved_integer metric rs.
Proof.
  unfold reserved_total, reserved_integer, active_reserved, active_for. do 2 f_equal. apply filters_agree. intros r.
  unfold has_reservation_status. rewrite andb_true_iff, !bool_decide_eq_true. tauto.
Qed.

(** What commands outside of providers and validations took. *)
Definition command_duration (records : list UsageRecord) : Z := usage_total [UsageMetric.COMMAND_DURATION] records.

Lemma usage_total_cons metrics r records :
  usage_total metrics (r :: records)
  = (if bool_decide (ur_metric r ∈ metrics) && negb (is_unavailable r) then default 0 (integer_value r) else 0)
    + usage_total metrics records.
Proof.
  unfold usage_total, known_usage, is_unavailable. rewrite filter_cons. case_decide as Hd.
  - destruct Hd as [Hm Hp]. by rewrite (bool_decide_eq_true_2 _ Hm), (bool_decide_eq_false_2 _ Hp).
  - by rewrite <- bool_decide_not, <- bool_decide_and, (bool_decide_eq_false_2 _ Hd).
Qed.

Lemma duration_counted records :
  consumed_integer BudgetMetric.TOTAL_DURATION records
  = usage_total [UsageMetric.PROVIDER_DURATION; UsageMetric.VALIDATION_DURATION] records + command_duration records.
Proof.
  assert (Hall : consumed_integer BudgetMetric.TOTAL_DURATION records
    = usage_total [UsageMetric.PROVIDER_DURATION; UsageMetric.VALIDATION_DURATION; UsageMetric.COMMAND_DURATION] records).
  { unfold usage_total, consumed_integer, known_usage, measured_for. do 2 f_equal. symmetry. apply filters_agree. intros r.
    apply counted. intros m. rewrite !elem_of_cons, elem_of_nil.
    split; [by intros [->|[->|[->|[]]]]|]. destruct m; intros [=]; auto. }
  rewrite Hall. unfold command_duration. clear Hall. induction records as [|r records IH]; [done|].
  rewrite !usage_total_cons, IH. destruct (ur_metric r);
    repeat match goal with |- context [bool_decide ?P] =>
      let b := eval vm_compute in (bool_decide P) in change (bool_decide P) with b end; destruct (is_unavailable r); cbn; lia.
Qed.

(** C24: the budgets of a status are those the telemetry service decides with.  For a run
    with a token ceiling, over the same validated records and reservations, a decision on a
    request for tokens, whether it requires known usage or not, allows it exactly when no
    other reason blocks the budget and the tokens shown as remaining cover it; the duration
    shown is what the decisions count as left, except that the time of commands which are
    neither a provider nor a validation is not subtracted.  (The coordinator denies agents
    under a token ceiling before it would ask for such a decision.) *)
Theorem budgets_shown_are_decided run usage reservations b tokens limit
  (Husage : Forall (fun r => validate_UsageRecord r = Ok r) usage)
  (Hreservations : Forall (fun r => validate_BudgetReservation r = Ok r) reservations)
  (Htokens : max_remote_tokens (run_budgets run) = Some tokens) (Hrange : 1 <= tokens <= MAX_USAGE_VALUE)
  (Hlimit : integer_limit limit = Some tokens)
  (Hb : _budget_summary run usage reservations = Ok b) :
  (exists remaining, remote_tokens_remaining b = Some remaining
    /\ forall n known, 1 <= n -> exists d,
         decide_budget usage reservations BudgetMetric.REMOTE_TOKENS limit (Some n) None known = Ok d
         /\ (bd_status d = BudgetDecisionStatus.ALLOW
             <-> blocked_budget usage reservations BudgetMetric.REMOTE_TOKENS known = false /\ n <= remaining))
  /\ duration_remaining_ms b
     = Z.max 0 (max_duration_seconds (run_budgets run) * 1000 - consumed_integer BudgetMetric.TOTAL_DURATION usage
                - reserved_integer BudgetMetric.TOTAL_DURATION reservations + command_duration usage).
Proof.
  assert (Hb' := Hb). unfold _budget_summary in Hb'. cbv zeta in Hb'. unfold validate_BudgetStatusSummary in Hb'. inv_valid.
  rewrite !reserved_counted, tokens_counted, Htokens. cbn [remote_tokens_remaining duration_remaining_ms fmap option_fmap option_map].
  split; [|f_equal; rewrite duration_counted; lia].
  eexists. split; [done|]. intros n known Hn.
  destruct (integer_decision_spec usage reservations BudgetMetric.REMOTE_TOKENS limit tokens n known)
    as (d & Hd & Hs & _); try done; [lia|].
  exists d. split; [done|]. rewrite Hs. split; intros [H1 H2]; split; try done; lia.
Qed.
