(* ===== verification/WorkflowSample.v ===== *)
(** * A run started, shown and cancelled

    A composition over the collaborators of [ServiceSample.v]; starting a run binds it
    and carries it to approval, and its status shows what it did. *)

From Stdlib Require Import ZArith Lia Ascii String.
From S2P Require Import Prelude Text Domain StateMachine Effects Sha256 Commands Agents GitPort TelemetryPort Validation ContextPort TelemetryService ReviewGate OrchestrationPorts Reconciliation RuntimePort Tables Storage RunJournal UsageStore DurableStore Coordination Service WriteAhead ServiceOutcomes ServiceSample Workflows WorkflowSafety StatusSafety.
From stdpp Require Import base option strings numbers gmap sets list list_relations.

Open Scope Z_scope.

Module WorkflowSample.
Import ReconciliationSample.

(** The worktree of the run is [/srv/wt]. *)
Definition binding : RuntimeBinding :=
  mk_RuntimeBinding 1 ServiceSample.rid identity ("wt_" +:+ hex32) "wt" "revanent/p4" (utc 0).

#[export] Instance composition : RuntimeComposition Z unit := {|
  composed_collaborators := ServiceSample.collaborators;
  discover _ := mret identity;
  repository_root := mk_Path true ["srv"];
  make_run _ := mret DurableSample.run;
  make_binding _ _ := mret binding;
  make_request _ _ := mret ServiceSample.request
|}.

Definition ask : StartRunRequest := mk_StartRunRequest (run_task DurableSample.run) (run_work_package DurableSample.run).
Definition empty : World Z := mk_World empty_store [] 0 [].

(** The run bound and carried to approval. *)
Definition bound_store : Store := store_exec (BoundRun DurableSample.run binding) empty_store.
Definition bound : World Z := mk_World bound_store [] 0 [].
Definition approved : World Z := fst (service_exec ServiceSample.executing bound).

Lemma bound_reachable : reachable bound_store.
Proof. apply reachable_call; [constructor|]. split; [apply DurableSample.run_ok|vm_compute; reflexivity]. Qed.

(** The same run with the intent of its worktree recorded. *)
Definition journaled : World Z :=
  mk_World (store_exec (PersistRecord (mk_StoredRun DurableSample.run 0) DurableSample.record) bound_store) [] 0 [].

Lemma journaled_reachable : reachable (w_store journaled).
Proof. apply reachable_call; [apply bound_reachable|apply DurableSample.record_ok]. Qed.

Lemma approved_evolves : evolves approved.
Proof. apply (evolves_service ServiceSample.executing), evolves_start, bound_reachable. Qed.
End WorkflowSample.

Abbreviation sample := WorkflowSample.composition.

(** Starting carries the run to approval. *)
Lemma started_end_to_end :
  match start (composition := sample) WorkflowSample.ask WorkflowSample.empty with
  | (w, Ok r) => result_failure r = None /\ length (w_invoked w) = 2%nat
  | (_, Err _) => False
  end.
Proof. vm_compute. repeat split. Qed.

(** The status of the approved run: verified, without contradictions. *)
Lemma shown_end_to_end :
  match status (composition := sample) ServiceSample.rid WorkflowSample.approved with
  | (_, Ok sn) => contradiction_codes sn = [] /\ result_failure (sn_result sn) = None
                  /\ sn_current_stage sn = Some APPROVED
  | (_, Err _) => False
  end.
Proof. vm_compute. repeat split. Qed.

(** The status of a run whose worktree was only intended. *)
Lemma journaled_status :
  match status (composition := sample) ServiceSample.rid WorkflowSample.journaled with
  | (_, Ok sn) => sn_current_stage sn = Some CREATED /\ in_flight_ambiguity sn = true
  | (_, Err _) => False
  end.
Proof. vm_compute. repeat split. Qed.

Lemma start_binds_before_work_witness : exists w1 : World Z,
  snd (get_runtime_binding ServiceSample.rid (w_store w1)) = Ok WorkflowSample.binding /\ w_invoked w1 = [].
Proof.
  pose proof started_end_to_end as H.
  destruct (start (composition := sample) WorkflowSample.ask WorkflowSample.empty) as [w' [r|e]] eqn:Hrun; [|destruct H].
  destruct H as [Hf Hi].
  destruct (start_binds_before_work (composition := sample) WorkflowSample.ask WorkflowSample.empty w' (Ok r) Hrun)
    as [[Hq _]|(run & found & binding & s & w1 & (? & ? & Hr) & _ & (? & ? & Hb) & _ & _ & Hg & Hw & _)].
  - exfalso. rewrite Hq in Hi. discriminate Hi.
  - exists w1. injection Hr as _ <-. injection Hb as _ <-. split; [exact Hg|exact Hw].
Defined.

Lemma status_consistent_witness : exists w' sn,
  status (composition := sample) ServiceSample.rid WorkflowSample.journaled = (w', Ok sn)
  /\ forall code, code ∈ contradiction_codes sn -> code ∉ bookkeeping_codes.
Proof.
  pose proof journaled_status as H.
  destruct (status (composition := sample) ServiceSample.rid WorkflowSample.journaled) as [w' [sn|e]] eqn:Hrun; [|destruct H].
  exists w', sn. split; [reflexivity|].
  exact (status_consistent (composition := sample) ServiceSample.rid WorkflowSample.journaled w' sn
           WorkflowSample.journaled_reachable Hrun).
Defined.

Lemma usage_summary_adds_up_witness : exists items,
  _usage_summary [TelemetrySample.command 45000; TelemetrySample.command 15001] = Ok items /\ length items = 1%nat.
Proof.
  destruct (usage_summary_adds_up [TelemetrySample.command 45000; TelemetrySample.command 15001]) as (items & H & _).
  - repeat constructor; vm_compute; reflexivity.
  - exists items. split; [exact H|]. revert H. vm_compute. intros [= <-]. reflexivity.
Defined.

Module BudgetSample.
Definition run : Run :=
  let r := DurableSample.run in
  mk_Run 1 (run_id r) (run_task r) (run_work_package r) (mk_BudgetLimits 1 60 3 3 2 (Some 1000) None) CREATED
    (run_attempts r) (run_created_at r) (run_updated_at r) None.
Definition limit : BudgetLimit := mk_BudgetLimit BudgetMetric.REMOTE_TOKENS UsageUnit.TOKENS (Some 1000) None None.
Definition tokens : UsageRecord :=
  mk_UsageRecord 1 (usage_record_id (run_id run) "c" UsageMetric.TOTAL_TOKENS)
    (run_id run) "P4-002" UsageMetric.TOTAL_TOKENS UsageUnit.TOKENS
    UsageProvenance.PROVIDER_REPORTED UsageSource.AGENT (utc 1) "c" (Some 400) None None None None None None
    None None None.
Definition summary : BudgetStatusSummary := mk_BudgetStatusSummary 60000 3 3 2 (Some 600) None.
End BudgetSample.

Lemma budgets_shown_are_decided_witness : exists d,
  decide_budget [BudgetSample.tokens] [] BudgetMetric.REMOTE_TOKENS BudgetSample.limit (Some 600) None true = Ok d
  /\ bd_status d = BudgetDecisionStatus.ALLOW.
Proof.
  destruct (budgets_shown_are_decided BudgetSample.run [BudgetSample.tokens] [] BudgetSample.summary 1000 BudgetSample.limit)
    as ((remaining & Hr & Hd) & _).
  - repeat constructor; vm_compute; reflexivity.
  - constructor.
  - reflexivity.
  - split; vm_compute; discriminate.
  - reflexivity.
  - vm_compute. reflexivity.
  - injection Hr as <-. destruct (Hd 600 true) as (d & Hd1 & Hd2); [lia|]. exists d. split; [exact Hd1|].
    apply Hd2. split; [vm_compute; reflexivity|lia].
Defined.
