(* ===== verification/Configuration.v ===== *)
(** * Project configuration

    [config/models.py]: the schema of version 1 and its validators; [config/loader.py]: the
    bounded read of the file; [config/project.py]: the repository it belongs to and the
    directories it owns; [application/configuration.py]: the use case.  The parser of YAML
    and the reading of typed fields from its document are parameters. *)

From Stdlib Require Import ZArith Lia Ascii String.
From S2P Require Import Prelude Text Domain StateMachine Effects Commands Agents CommandPolicy Unicode ContextReader.
From stdpp Require Import base option strings numbers gmap sets list list_relations.

Open Scope Z_scope.

(** ** The schema *)

Definition NonEmpty (name s : string) : res string := text_field name 1 256 s.
Definition RelativePath (name s : string) : res string := text_field name 1 512 s.

(** [_validate_relative_path]; a drive or a root makes a [PureWindowsPath] absolute. *)
Definition config_relative_path (value : string) : res string :=
  let normalized := replace_char "\" "/" value in
  raise_if (is_some (drive_rest normalized) || starts_with "/" normalized)
    (ValueError "path must be relative to the target repository") ;;
  raise_if (bool_decide (".." ∈ path_parts (path_of normalized)))
    (ValueError "path cannot traverse above the target repository") ;;
  raise_if (bool_decide (normalized ∈ [""; "."]))
    (ValueError "path must name a repository-relative location") ;;
  mret normalized.

Definition _validate_path_pattern (value : string) : res string :=
  normalized ← config_relative_path value ;
  raise_if (bool_decide (normalized ∈ ["*"; "**"; "**/*"]))
    (ValueError "an allowed path pattern cannot grant repository-wide access") ;;
  mret normalized.

(** A stripped [RelativePath] with its validator. *)
Definition relative_field (name s : string) : res string := s ← RelativePath name s ; config_relative_path s.
Definition pattern_path_field (name s : string) : res string := s ← RelativePath name s ; _validate_path_pattern s.

Record ProjectConfig := mk_ProjectConfig { project_name : string }.

(** [strategy] has one value. *)
Record WorkspaceConfig := mk_WorkspaceConfig { workspace_root : string; preserve_failed : bool }.

(** [provider] has one value. *)
Record BuilderConfig := mk_BuilderConfig {
  builder_model : string;
  builder_max_attempts : Z;
  builder_timeout_seconds : Z
}.

Inductive ReviewerMode := review_only | review_then_repair.

#[export] Instance ReviewerMode_eq_dec : EqDecision ReviewerMode.
Proof. solve_decision. Defined.

Record ReviewerConfig := mk_ReviewerConfig {
  reviewer_mode : ReviewerMode;
  max_reviews : Z;
  max_repairs : Z;
  reviewer_timeout_seconds : Z
}.

Record ValidationCommandConfig := mk_ValidationCommandConfig { vcc_name : string; vcc_command : list string }.

#[export] Instance ValidationCommandConfig_eq_dec : EqDecision ValidationCommandConfig.
Proof. solve_decision. Defined.

Record BudgetsConfig := mk_BudgetsConfig {
  max_total_minutes : Z;
  bc_max_remote_tokens : option Z;
  bc_max_estimated_cost_usd : option decimal
}.

(** [allow_push] and [allow_merge] can only be false. *)
Record PolicyConfig := mk_PolicyConfig {
  pc_allowed_paths : list string;
  pc_forbidden_paths : list string;
  allow_codex_write_repair : bool;
  allow_live_opencode_builder : bool;
  allow_live_codex_reviewer : bool;
  allow_network : bool
}.

Inductive ReportFormat := json_format | markdown_format.

#[export] Instance ReportFormat_eq_dec : EqDecision ReportFormat.
Proof. solve_decision. Defined.

Record ReportingConfig := mk_ReportingConfig { report_directory : string; report_formats : list ReportFormat }.

Record RevanentConfig := mk_RevanentConfig {
  config_schema_version : Z;
  config_project : ProjectConfig;
  config_workspace : WorkspaceConfig;
  config_builder : BuilderConfig;
  config_reviewer : ReviewerConfig;
  config_validation : list ValidationCommandConfig;
  config_budgets : BudgetsConfig;
  config_policy : PolicyConfig;
  config_reporting : ReportingConfig
}.

(** ** Validators *)

Definition validate_ProjectConfig (c : ProjectConfig) : res ProjectConfig :=
  name ← NonEmpty "name" (project_name c) ; mret (mk_ProjectConfig name).

Definition validate_WorkspaceConfig (c : WorkspaceConfig) : res WorkspaceConfig :=
  root ← relative_field "root" (workspace_root c) ; mret (mk_WorkspaceConfig root (preserve_failed c)).

Definition validate_BuilderConfig (c : BuilderConfig) : res BuilderConfig :=
  model ← NonEmpty "model" (builder_model c) ;
  require (in_range 1 100 (builder_max_attempts c)) "max_attempts" ;;
  require (in_range 1 86400 (builder_timeout_seconds c)) "timeout_seconds" ;;
  mret (mk_BuilderConfig model (builder_max_attempts c) (builder_timeout_seconds c)).

Definition _validate_repairs (c : ReviewerConfig) : res ReviewerConfig :=
  raise_if (bool_decide (reviewer_mode c = review_only) && negb (max_repairs c =? 0))
    (ValueError "review_only mode requires max_repairs=0") ;;
  mret c.

Definition validate_ReviewerConfig (c : ReviewerConfig) : res ReviewerConfig :=
  require (in_range 1 100 (max_reviews c)) "max_reviews" ;;
  require (in_range 0 100 (max_repairs c)) "max_repairs" ;;
  require (in_range 1 86400 (reviewer_timeout_seconds c)) "timeout_seconds" ;;
  _validate_repairs c.

(** [^[a-z][a-z0-9_-]{0,63}$] *)
Definition command_name_pattern : list pat :=
  [Cls is_lower 1 1; Cls (in_class "_-" (fun c => is_lower c || is_digit c)) 0 63].

Definition validate_ValidationCommandConfig (c : ValidationCommandConfig) : res ValidationCommandConfig :=
  name ← pattern_field "name" command_name_pattern (vcc_name c) ;
  command ← traverse (NonEmpty "command") (vcc_command c) ;
  raise_if (bool_decide (command = [])) (ValueError "validation command must contain an executable") ;;
  mret (mk_ValidationCommandConfig name command).

(** [ValidationConfig], which holds only the commands. *)
Definition validate_ValidationConfig (commands : list ValidationCommandConfig)
    : res (list ValidationCommandConfig) :=
  commands ← traverse validate_ValidationCommandConfig commands ;
  raise_if (bool_decide (commands = [])) (ValueError "at least one validation command is required") ;;
  raise_if (has_duplicates (vcc_name <$> commands)) (ValueError "validation command names must be unique") ;;
  mret commands.

Definition validate_BudgetsConfig (c : BudgetsConfig) : res BudgetsConfig :=
  require (in_range 1 10080 (max_total_minutes c)) "max_total_minutes" ;;
  require (match bc_max_remote_tokens c with None => true | Some n => 1 <=? n end) "max_remote_tokens" ;;
  require (match bc_max_estimated_cost_usd c with
           | None => true
           | Some d => (0 <? dec_coef d) && (dec_digits d <=? 12)
           end) "max_estimated_cost_usd" ;;
  mret c.

Definition _validate_policy_scope (c : PolicyConfig) : res PolicyConfig :=
  raise_if (bool_decide (pc_allowed_paths c = [])) (ValueError "at least one allowed path is required") ;;
  raise_if (has_duplicates (pc_allowed_paths c)) (ValueError "allowed paths must be unique") ;;
  raise_if (has_duplicates (pc_forbidden_paths c)) (ValueError "forbidden paths must be unique") ;;
  raise_if (existsb (fun p => bool_decide (p ∈ pc_forbidden_paths c)) (pc_allowed_paths c))
    (ValueError "paths cannot be both allowed and forbidden") ;;
  mret c.

Definition validate_PolicyConfig (c : PolicyConfig) : res PolicyConfig :=
  allowed ← traverse (pattern_path_field "allowed_paths") (pc_allowed_paths c) ;
  forbidden ← traverse (relative_field "forbidden_paths") (pc_forbidden_paths c) ;
  _validate_policy_scope
    (mk_PolicyConfig allowed forbidden (allow_codex_write_repair c) (allow_live_opencode_builder c)
       (allow_live_codex_reviewer c) (allow_network c)).

Definition validate_ReportingConfig (c : ReportingConfig) : res ReportingConfig :=
  directory ← relative_field "directory" (report_directory c) ;
  raise_if (bool_decide (report_formats c = [])) (ValueError "at least one reporting format is required") ;;
  raise_if (has_duplicates (report_formats c)) (ValueError "reporting formats must be unique") ;;
  mret (mk_ReportingConfig directory (report_formats c)).

(** A part that folds to [.git]; no character beyond ASCII folds to one of its letters. *)
Definition is_git_part (part : string) : bool := String.eqb (casefold part) ".git".

Definition _validate_internal_paths (c : RevanentConfig) : res RevanentConfig :=
  let workspace := path_of (workspace_root (config_workspace c)) in
  let reports := path_of (report_directory (config_reporting c)) in
  raise_if (bool_decide (workspace = reports)) (ValueError "workspace root and reporting directory must be distinct") ;;
  raise_if (existsb is_git_part (path_parts workspace)) (ValueError "workspace root cannot be located under .git") ;;
  raise_if (existsb is_git_part (path_parts reports)) (ValueError "reporting directory cannot be located under .git") ;;
  mret c.

Definition validate_RevanentConfig (c : RevanentConfig) : res RevanentConfig :=
  require (config_schema_version c =? 1) "schema_version" ;;
  project ← validate_ProjectConfig (config_project c) ;
  workspace ← validate_WorkspaceConfig (config_workspace c) ;
  builder ← validate_BuilderConfig (config_builder c) ;
  reviewer ← validate_ReviewerConfig (config_reviewer c) ;
  validation ← validate_ValidationConfig (config_validation c) ;
  budgets ← validate_BudgetsConfig (config_budgets c) ;
  policy ← validate_PolicyConfig (config_policy c) ;
  reporting ← validate_ReportingConfig (config_reporting c) ;
  _validate_internal_paths
    (mk_RevanentConfig (config_schema_version c) project workspace builder reviewer validation budgets policy reporting).

(** [default_config] *)
Definition default_config (name : string) : res RevanentConfig :=
  validate_RevanentConfig
    (mk_RevanentConfig 1 (mk_ProjectConfig name) (mk_WorkspaceConfig ".revanent/worktrees" true)
       (mk_BuilderConfig "configured-local-model" 3 1800) (mk_ReviewerConfig review_then_repair 3 2 1800)
       [mk_ValidationCommandConfig "tests" ["uv"; "run"; "pytest"];
        mk_ValidationCommandConfig "lint" ["uv"; "run"; "ruff"; "check"; "."];
        mk_ValidationCommandConfig "format" ["uv"; "run"; "ruff"; "format"; "--check"; "."];
        mk_ValidationCommandConfig "types" ["uv"; "run"; "mypy"; "src"; "tests"]]
       (mk_BudgetsConfig 90 None None)
       (mk_PolicyConfig ["src/**"; "tests/**"; "docs/**"] [".git/**"; ".env"; "**/secrets/**"] true false false false)
       (mk_ReportingConfig ".revanent/runs" [json_format; markdown_format])).

(** ** Loading *)

Definition ConfigurationLoadError : string -> exn := BoundaryError "ConfigurationLoadError".
Definition UnsupportedConfigurationVersionError : string -> exn := BoundaryError "UnsupportedConfigurationVersionError".
Definition ConfigurationValidationError : string -> exn := BoundaryError "ConfigurationValidationError".
Definition ProjectConfigurationError : string -> exn := BoundaryError "ProjectConfigurationError".

(** [except ConfigurationError] *)
Definition is_ConfigurationError (e : exn) : bool :=
  existsb (fun class => is_class class e)
    ["ConfigurationLoadError"; "UnsupportedConfigurationVersionError"; "ConfigurationValidationError";
     "ProjectConfigurationError"].

(** The files of a configuration: [path.lstat()] with its [S_ISLNK], the descriptors of the
    reader, and the YAML library with pydantic's reading of the fields of a document. *)
Class ConfigHost (E : Type) := {
  ch_reader :: ReaderHost E;
  lstat : Path -> M E (bool * FileStat);
  Document : Type;
  yaml_load : string -> option Document;        (* [None] where [safe_load] raises *)
  is_mapping : Document -> bool;
  schema_version : Document -> option Z;        (* the value when it is an [int] *)
  config_fields : Document -> res RevanentConfig
}.

Definition MAX_CONFIGURATION_BYTES : Z := 256 * 1024.
Definition CONFIG_SCHEMA_VERSION : Z := 1.

(** [except (OSError, RuntimeError)] and [except (OSError, UnicodeError)] *)
Definition is_unicode_error (e : exn) : bool := is_class "UnicodeDecodeError" e.
Definition unreadable (e : exn) : bool := is_any_os_error e || is_unicode_error e.

Definition error_name (e : exn) : string :=
  match e with BoundaryError class _ => class | _ => "OSError" end.

Section Loading.
Context {E : Type} {host : ConfigHost E}.

(** The loop that reads at most [remaining] bytes, and a turn for each: [None] when the turns run out. *)
Fixpoint read_chunks (turns : nat) (descriptor remaining : Z) (data : string) : M E (option string) :=
  match turns with
  | O => mret None
  | S turns =>
      if remaining =? 0 then mret (Some data) else
      chunk ← read_stream descriptor (Z.min (16 * 1024) remaining) ;
      if String.eqb chunk "" then mret (Some data)
      else read_chunks turns descriptor (remaining - byte_len chunk) (data +:+ chunk)
  end.

Definition read_limit : Z := MAX_CONFIGURATION_BYTES + 1.

(** [_read_configuration] *)
Definition read_bounded (path : Path) : M E string :=
  link ← lstat path ;
  let '(is_link, metadata) := link in
  lift (raise_if (is_link || negb (st_regular metadata)) OSError) ;;
  lift (raise_if (MAX_CONFIGURATION_BYTES <? st_size metadata) OSError) ;;
  descriptor ← open_binary path ;
  data ← try_finally
    (opened ← fstat descriptor ;
     lift (raise_if (negb (st_regular opened) || (MAX_CONFIGURATION_BYTES <? st_size opened)) OSError) ;;
     read_chunks (Z.to_nat (read_limit + 1)) descriptor read_limit "")
    (close_file descriptor) ;
  match data with
  | None => raise (OtherError "the loop does not end")
  | Some data =>
      lift (raise_if (MAX_CONFIGURATION_BYTES <? byte_len data) OSError) ;;
      lift (raise_if (negb (utf8_text data)) (BoundaryError "UnicodeDecodeError" "")) ;;
      mret data
  end.

Definition _read_configuration (path : Path) : M E string :=
  try_except (read_bounded path) unreadable
    (fun e => raise (ConfigurationLoadError ("cannot read configuration: " +:+ error_name e))).

(** The message of a failed validation lists what pydantic found; here it is the first violation. *)
Definition invalid_document (e : exn) : exn :=
  ConfigurationValidationError (match e with ValueError m => m | _ => "" end).

Definition validate_document (document : Document) : res RevanentConfig :=
  match (config ← config_fields document ; validate_RevanentConfig config) with
  | Ok config => Ok config
  | Err e => Err (if is_ValueError e then invalid_document e else e)
  end.

Definition load_config (path : Path) : M E RevanentConfig :=
  raw ← _read_configuration path ;
  match yaml_load raw with
  | None => raise (ConfigurationLoadError "configuration is not valid YAML")
  | Some document =>
      if negb (is_mapping document) then raise (ConfigurationLoadError "configuration root must be a mapping")
      else if negb (bool_decide (schema_version document = Some CONFIG_SCHEMA_VERSION)) then
        raise (UnsupportedConfigurationVersionError "unsupported configuration schema version; expected 1")
      else lift (validate_document document)
  end.

(** ** The project *)

Inductive ConfigurationSource := DEFAULT | PROJECT | CLI.

Record EffectiveConfiguration := mk_EffectiveConfiguration {
  effective_root : Path;
  effective_path : Path;
  effective_config : RevanentConfig;
  max_total_minutes_source : ConfigurationSource
}.

Record ProjectPaths := mk_ProjectPaths { pp_workspace_root : Path; report_root : Path; state_root : Path }.

Definition CONFIGURATION_FILENAME : string := "revanent.yaml".

Definition normalize_repository_root (path : Path) : M E Path :=
  root ← try_except (fs_resolve true path) is_any_os_error
           (fun _ => raise (ProjectConfigurationError "repository path is unavailable")) ;
  directory ← fs_is_dir root ;
  if negb (directory : bool) then raise (ProjectConfigurationError "repository path must be an existing directory")
  else mret root.

Definition configuration_path (repository_root : Path) (explicit_path : option Path) : M E Path :=
  root ← normalize_repository_root repository_root ;
  let expected := joinpath root [CONFIGURATION_FILENAME] in
  match explicit_path with
  | None => mret expected
  | Some explicit =>
      let candidate := if path_absolute explicit then explicit else joinpath root (path_parts explicit) in
      normalized ← try_except (fs_resolve false candidate) is_any_os_error
                     (fun _ => raise (ProjectConfigurationError "configuration path is unavailable")) ;
      if negb (bool_decide (normalized = expected)) then
        raise (ProjectConfigurationError "configuration must be the repository-root revanent.yaml file")
      else mret expected
  end.

(** [budgets["max_total_minutes"] = minutes] *)
Definition with_minutes (minutes : Z) (c : RevanentConfig) : RevanentConfig :=
  let b := config_budgets c in
  mk_RevanentConfig (config_schema_version c) (config_project c) (config_workspace c) (config_builder c)
    (config_reviewer c) (config_validation c)
    (mk_BudgetsConfig minutes (bc_max_remote_tokens b) (bc_max_estimated_cost_usd b)) (config_policy c) (config_reporting c).

Definition override_minutes (minutes : option Z) (c : RevanentConfig) : res (RevanentConfig * ConfigurationSource) :=
  match minutes with
  | None => mret (c, PROJECT)
  | Some minutes =>
      match validate_RevanentConfig (with_minutes minutes c) with
      | Ok c => mret (c, CLI)
      | Err _ => Err (ConfigurationValidationError "budgets.max_total_minutes: override is invalid")
      end
  end.

Definition load_effective_config (repository_root : Path) (explicit_path : option Path) (minutes : option Z)
    : M E EffectiveConfiguration :=
  root ← normalize_repository_root repository_root ;
  path ← configuration_path root explicit_path ;
  config ← load_config path ;
  overridden ← lift (override_minutes minutes config) ;
  mret (mk_EffectiveConfiguration root path overridden.1 overridden.2).

Definition _is_link_or_reparse (path : Path) : M E bool :=
  try_except (link ← lstat path ; mret (link.1 : bool)) is_not_found (fun _ => mret false).

(** No component of the path below [current] is a link. *)
Fixpoint refuse_links (current : Path) (parts : list string) : M E unit :=
  match parts with
  | [] => mret ()
  | part :: parts =>
      let current := joinpath current [part] in
      link ← _is_link_or_reparse current ;
      if (link : bool) then raise (ProjectConfigurationError "configured root cannot use a symbolic link or junction")
      else refuse_links current parts
  end.

Definition _resolve_project_relative (root : Path) (value : string) : M E Path :=
  let escapes := ProjectConfigurationError "configured root escapes the target repository" in
  let parts := path_parts (path_of value) in
  refuse_links root parts ;;
  resolved ← try_except (fs_resolve false (joinpath root parts)) is_any_os_error (fun _ => raise escapes) ;
  if negb (_contains root resolved) then raise escapes else mret resolved.

Context {folding : CaseFolding}.

Definition resolve_project_paths (effective : EffectiveConfiguration) : M E ProjectPaths :=
  let root := effective_root effective in
  let config := effective_config effective in
  workspace ← _resolve_project_relative root (workspace_root (config_workspace config)) ;
  reports ← _resolve_project_relative root (report_directory (config_reporting config)) ;
  state ← _resolve_project_relative root ".revanent/state" ;
  if has_duplicates ((fun path => str_casefold (path_str path)) <$> [workspace; reports; state]) then
    raise (ProjectConfigurationError "workspace, report, and state roots must be distinct")
  else mret (mk_ProjectPaths workspace reports state).

(** ** The use case *)

Record ConfigurationValidationResult := mk_ConfigurationValidationResult {
  cvr_valid : bool;
  cvr_code : string;
  cvr_message : string;
  cvr_effective : option EffectiveConfiguration
}.

(** [s.split()] *)
Fixpoint split_words (fuel : nat) (l word : list ascii) : list (list ascii) :=
  let flush := if bool_decide (word = []) then [] else [word] in
  match fuel, l with
  | S fuel, c :: rest =>
      match drop_one py_whitespace l with
      | Some l => flush ++ split_words fuel l []
      | None => split_words fuel rest (word ++ [c])
      end
  | _, _ => flush
  end.

(** [" ".join(s.split())] *)
Definition squeeze (s : string) : string :=
  let l := String.list_ascii_of_string s in
  String.concat " " (String.string_of_list_ascii <$> split_words (S (length l)) l []).

Definition _safe_message (message : string) : string :=
  let cleaned := text_of (take 512 (code_points (squeeze (replace_char nul " " message)))) in
  if String.eqb cleaned "" then "configuration is invalid" else cleaned.

Definition message_of (e : exn) : string := match e with BoundaryError _ m => m | _ => "" end.

(** [ConfigurationService.validate] *)
Definition validate_configuration (repository_root : Path) (config_path : option Path) (minutes : option Z)
    : M E ConfigurationValidationResult :=
  try_except
    (effective ← load_effective_config repository_root config_path minutes ;
     resolve_project_paths effective ;;
     mret (mk_ConfigurationValidationResult true "valid" "configuration is valid" (Some effective)))
    is_ConfigurationError
    (fun e => mret (mk_ConfigurationValidationResult false "invalid_configuration" (_safe_message (message_of e)) None)).
End Loading.
