(* ===== verification/ConfigurationSafety.v ===== *)
(** * What a valid configuration guarantees

    The paths it names stay below the repository, the file it came from is small, and an
    override changes one budget.  A spelling of the whole repository is not refused. *)

From Stdlib Require Import ZArith Lia Ascii String.
From S2P Require Import Prelude Text Domain StateMachine Effects Commands Agents CommandPolicy Unicode ContextReader Configuration.
From stdpp Require Import base option strings numbers gmap sets list list_relations.

Open Scope Z_scope.

(** ** Paths *)

(** A path that is relative on every platform and never climbs: below any root it names
    exactly the path its parts spell. *)
Definition stays_below (p : string) : Prop :=
  drive_rest p = None /\ path_absolute (path_of p) = false /\ (".." ∉ path_parts (path_of p))
  /\ p <> "" /\ p <> "."
  /\ forall root, relative_to (joinpath root (path_parts (path_of p))) root = Some (path_of p).

Lemma drop_parts_app root parts : drop_parts root (root ++ parts) = Some parts.
Proof. induction root as [|a root IH]; [done|]. cbn. by rewrite bool_decide_eq_true_2. Qed.

Lemma relative_path_stays value p : config_relative_path value = Ok p -> stays_below p.
Proof.
  unfold config_relative_path. cbv zeta. intros H. rewrite !bind_raise_if_Ok in H. destruct H as (H1 & H2 & H3 & [= <-]).
  bool_prop. destruct (drive_rest _) eqn:Hd; [done|].
  assert (Habs : path_absolute (path_of (replace_char "\" "/" value)) = false) by done.
  rewrite not_elem_of_cons, list_elem_of_singleton in H3. destruct H3 as [H3 H4].
  split_and!; try done. intros root. unfold relative_to, joinpath. cbn [path_absolute path_parts].
  rewrite bool_decide_eq_true_2 by done. rewrite drop_parts_app. cbn.
  unfold path_of in *. cbn in Habs. by rewrite Habs.
Qed.

Lemma relative_field_stays name s p : relative_field name s = Ok p -> stays_below p.
Proof. unfold relative_field. intros H. inv_ok. by eapply relative_path_stays. Qed.

Lemma pattern_field_stays name s p : pattern_path_field name s = Ok p -> stays_below p.
Proof. unfold pattern_path_field, _validate_path_pattern. intros H. inv_valid. by eapply relative_path_stays. Qed.

Lemma traversed_all {A} (f : string -> res A) (P : A -> Prop) xs ys :
  (forall x y, f x = Ok y -> P y) -> traverse f xs = Ok ys -> Forall P ys.
Proof. intros Hf H%traverse_Forall2. induction H; constructor; eauto. Qed.

(** The paths a configuration names. *)
Definition configured_paths (c : RevanentConfig) : list string :=
  workspace_root (config_workspace c) :: report_directory (config_reporting c)
  :: pc_allowed_paths (config_policy c) ++ pc_forbidden_paths (config_policy c).

(** Every path of a valid configuration is relative on every platform, never climbs and
    so names something below the repository; the worktrees and the reports are not in one
    directory and neither lies under [.git]; what is allowed is not forbidden. *)
Theorem configured_paths_contained c c' (Hvalid : validate_RevanentConfig c = Ok c') :
  Forall stays_below (configured_paths c')
  /\ path_of (workspace_root (config_workspace c')) <> path_of (report_directory (config_reporting c'))
  /\ (forall p, p ∈ [workspace_root (config_workspace c'); report_directory (config_reporting c')] ->
      existsb is_git_part (path_parts (path_of p)) = false)
  /\ (forall p, p ∈ pc_allowed_paths (config_policy c') -> p ∉ pc_forbidden_paths (config_policy c')).
Proof.
  unfold validate_RevanentConfig in Hvalid. inv_valid. unfold _validate_internal_paths in Hvalid. cbv zeta in Hvalid.
  inv_valid. bool_prop. unfold configured_paths. cbn in *.
  unfold validate_WorkspaceConfig, validate_ReportingConfig, validate_PolicyConfig, _validate_policy_scope in *.
  inv_valid. cbn in *. bool_prop. split_and!; try done.
  - constructor; [by eapply relative_field_stays|]. constructor; [by eapply relative_field_stays|]. apply Forall_app. split.
    + eapply traversed_all; [apply pattern_field_stays|done].
    + eapply traversed_all; [apply relative_field_stays|done].
  - intros p. rewrite elem_of_cons, list_elem_of_singleton. by intros [->| ->].
  - intros p Hin Hforbidden.
    match goal with H : existsb (fun p => bool_decide (p ∈ _)) _ = false |- _ =>
      apply existsb_false in H; rewrite Forall_forall in H; apply H in Hin; bool_prop; done end.
Qed.

(** Refusing the three spellings [*], [**] and [**/*] does not refuse what they mean. *)
Example repository_wide_spelling :
  _validate_path_pattern "**/*" = Err (ValueError "an allowed path pattern cannot grant repository-wide access")
  /\ _validate_path_pattern "./**" = Ok "./**" /\ _validate_path_pattern "**/**" = Ok "**/**".
Proof. vm_compute. repeat split. Qed.

(** ** Loading *)

Section Loading.
Context {E : Type} {host : ConfigHost E}.

(** [os.read] returns no more than it was asked for. *)
Class ShortReads : Prop :=
  short_read : forall descriptor n (w w' : E) data, read_stream descriptor n w = (w', Ok data) -> byte_len data <= n.

Lemma byte_len_nonempty s : s <> "" -> 0 < byte_len s.
Proof. destruct s; [done|]. unfold byte_len. cbn. lia. Qed.

(** The loop ends before its turns run out. *)
Lemma read_chunks_ends {short : ShortReads} turns descriptor remaining data (w w' : E) r :
  0 <= remaining < Z.of_nat turns -> read_chunks turns descriptor remaining data w = (w', Ok r) -> r <> None.
Proof.
  revert remaining data w. induction turns as [|turns IH]; intros remaining data w Hr H; [lia|]. cbn [read_chunks] in H.
  destruct (remaining =? 0) eqn:Hz; [by injection H as _ <-|]. bool_prop.
  apply M_bind_Ok in H as (w1 & chunk & Hread & H). apply short_read in Hread.
  destruct (String.eqb_spec chunk ""); [by injection H as _ <-|].
  pose proof (byte_len_nonempty chunk ltac:(done)). eapply IH; [|exact H]. lia.
Qed.

Lemma attempt_inner {A} (m : M E A) w w' r : attempt m w = (w', Ok r) -> m w = (w', r).
Proof. unfold attempt. destruct (m w). by intros [= -> ->]. Qed.

Lemma try_finally_Ok {A} (m : M E A) cleanup w w' a :
  try_finally m cleanup w = (w', Ok a) -> exists w1, m w = (w1, Ok a).
Proof.
  unfold try_finally. intros H. apply M_bind_Ok in H as (w1 & r & H1 & H). apply attempt_inner in H1.
  apply M_bind_Ok in H as (w2 & u & H2 & H). apply lift_Ok in H as [-> ->]. by exists w1.
Qed.

Lemma raised_Ok {A} (m : M E A) caught (f : exn -> exn) w w' a :
  try_except m caught (fun e => raise (f e)) w = (w', Ok a) -> m w = (w', Ok a).
Proof. unfold try_except. destruct (m w) as [w1 [x|e]]; [done|]. by destruct (caught e). Qed.

Lemma read_configuration_facts path (w w' : E) raw :
  _read_configuration path w = (w', Ok raw) -> byte_len raw <= MAX_CONFIGURATION_BYTES /\ utf8_text raw = true.
Proof.
  intros H. apply (raised_Ok _ _ _ _ _ _) in H. unfold read_bounded in H.
  apply M_bind_Ok in H as (w1 & [is_link metadata] & _ & H). rewrite !lift_bind in H.
  destruct (raise_if (_ || _) _) as [[]|]; [|done]. destruct (raise_if _ _) as [[]|]; [|done].
  apply M_bind_Ok in H as (w2 & descriptor & _ & H). apply M_bind_Ok in H as (w3 & data & _ & H).
  destruct data as [data|]; [|done]. apply M_bind_Ok in H as (w4 & u & H1 & H). apply M_bind_Ok in H as (w5 & u' & H2 & H).
  apply lift_Ok in H1 as [_ H1]. apply lift_Ok in H2 as [_ H2]. injection H as _ <-.
  apply raise_if_Ok in H1, H2. bool_prop. done.
Qed.

(** A configuration in force: read from a small file of text, of version one, and valid. *)
Definition well_loaded (config : RevanentConfig) : Prop := exists raw document fields,
  byte_len raw <= MAX_CONFIGURATION_BYTES /\ utf8_text raw = true
  /\ yaml_load raw = Some document /\ is_mapping document = true /\ schema_version document = Some 1
  /\ config_fields document = Ok fields /\ validate_RevanentConfig fields = Ok config.

Lemma load_config_facts path (w w' : E) config : load_config path w = (w', Ok config) -> well_loaded config.
Proof.
  intros H. apply M_bind_Ok in H as (w1 & raw & Hraw & H). apply read_configuration_facts in Hraw as [H1 H2].
  destruct (yaml_load raw) as [document|] eqn:Hyaml; [|done].
  destruct (is_mapping document) eqn:Hmap; [|done]. cbn [negb] in H.
  destruct (bool_decide (schema_version document = Some CONFIG_SCHEMA_VERSION)) eqn:Hversion; [|done]. cbn [negb] in H.
  apply lift_Ok in H as [_ H]. unfold validate_document in H. bool_prop.
  destruct (config_fields document) as [fields|e] eqn:Hfields; cbn in H; [|by destruct (is_ValueError e)].
  destruct (validate_RevanentConfig fields) as [c|e] eqn:Hc; cbn in H; [|by destruct (is_ValueError e)].
  injection H as ->. by exists raw, document, fields.
Qed.

Lemma normalize_ret root (w w' : E) r : normalize_repository_root root w = (w', Ok r) -> exists w1 w2, fs_resolve true root w1 = (w2, Ok r).
Proof.
  intros H. apply M_bind_Ok in H as (w1 & found & Hf & H). apply (raised_Ok _ _ (fun _ => _)) in Hf.
  apply M_bind_Ok in H as (w2 & d & _ & H). destruct d; [|done]. injection H as _ <-. by eexists _, _.
Qed.

Lemma configuration_path_ret root explicit (w w' : E) path :
  configuration_path root explicit w = (w', Ok path) -> exists r, path = joinpath r [CONFIGURATION_FILENAME].
Proof.
  intros H. apply M_bind_Ok in H as (w1 & r & _ & H). cbv zeta in H. exists r.
  destruct explicit as [e|]; [|by injection H as _ <-].
  apply M_bind_Ok in H as (w2 & normalized & _ & H). destruct (bool_decide _); [|done]. by injection H as _ <-.
Qed.

Lemma minutes_kept minutes base config :
  validate_RevanentConfig (with_minutes minutes base) = Ok config ->
  max_total_minutes (config_budgets config) = minutes /\ in_range 1 10080 minutes = true
  /\ bc_max_remote_tokens (config_budgets config) = bc_max_remote_tokens (config_budgets base)
  /\ bc_max_estimated_cost_usd (config_budgets config) = bc_max_estimated_cost_usd (config_budgets base).
Proof.
  unfold validate_RevanentConfig, with_minutes. intros H. inv_valid. unfold _validate_internal_paths in H. cbv zeta in H.
  inv_valid. subst. cbn. match goal with H : validate_BudgetsConfig _ = Ok _ |- _ => unfold validate_BudgetsConfig in H end.
  inv_valid. by subst.
Qed.

(** A configuration takes effect only when it was read from the file of that name in a
    repository root, from at most 256 KiB of text, with version one and all its
    constraints met; the override of the command line sets the minutes, within their
    range, and neither of the other budgets. *)
Theorem effective_configuration_spec root explicit minutes (w w' : E) e
  (Hload : load_effective_config root explicit minutes w = (w', Ok e)) :
  (exists r, effective_path e = joinpath r ["revanent.yaml"])
  /\ exists base, well_loaded base
       /\ match minutes with
          | None => effective_config e = base /\ max_total_minutes_source e = PROJECT
          | Some n => validate_RevanentConfig (with_minutes n base) = Ok (effective_config e)
                      /\ max_total_minutes (config_budgets (effective_config e)) = n /\ 1 <= n <= 10080
                      /\ bc_max_remote_tokens (config_budgets (effective_config e)) = bc_max_remote_tokens (config_budgets base)
                      /\ bc_max_estimated_cost_usd (config_budgets (effective_config e))
                         = bc_max_estimated_cost_usd (config_budgets base)
                      /\ max_total_minutes_source e = CLI
          end.
Proof.
  apply M_bind_Ok in Hload as (w1 & r & Hr & H). apply M_bind_Ok in H as (w2 & path & Hpath & H).
  apply M_bind_Ok in H as (w3 & config & Hconfig & H). apply M_bind_Ok in H as (w4 & [c source] & Ho & H).
  injection H as _ <-. apply lift_Ok in Ho as [_ Ho]. cbn.
  split; [by eapply configuration_path_ret|]. exists config. split; [by eapply load_config_facts|].
  unfold override_minutes in Ho. destruct minutes as [n|]; [|by injection Ho as <- <-].
  destruct (validate_RevanentConfig (with_minutes n config)) as [c'|] eqn:Hc; [|done]. injection Ho as <- <-.
  destruct (minutes_kept _ _ _ Hc) as (H1 & H2 & H3 & H4). unfold in_range in H2. bool_prop. split_and!; done || lia.
Qed.

(** ** The directories of a project *)

Lemma resolved_below root value (w w' : E) path :
  _resolve_project_relative root value w = (w', Ok path) -> _contains root path = true.
Proof.
  intros H. unfold _resolve_project_relative in H. apply M_bind_Ok in H as (w1 & u & _ & H).
  apply M_bind_Ok in H as (w2 & resolved & _ & H). destruct (_contains root resolved) eqn:Hc; [|done]. by injection H as _ <-.
Qed.

(** The directories the program owns, once resolved, lie below the repository and are
    three different ones, even on a file system that ignores case. *)
Theorem owned_directories_apart {folding : CaseFolding} effective (w w' : E) paths
  (Hpaths : resolve_project_paths effective w = (w', Ok paths)) :
  let owned := [pp_workspace_root paths; report_root paths; state_root paths] in
  Forall (fun path => _contains (effective_root effective) path = true) owned
  /\ NoDup ((fun path => str_casefold (path_str path)) <$> owned).
Proof.
  unfold resolve_project_paths in Hpaths. cbv zeta in Hpaths. apply M_bind_Ok in Hpaths as (w1 & a & Ha & H).
  apply M_bind_Ok in H as (w2 & b & Hb & H). apply M_bind_Ok in H as (w3 & c & Hc & H).
  destruct (has_duplicates _) eqn:Hd; [done|]. injection H as _ <-. cbn [pp_workspace_root report_root state_root].
  split; [|by apply has_duplicates_false]. by repeat (constructor; [by eapply resolved_below|]).
Qed.
End Loading.
