(* ===== verification/RuntimeComposition.v ===== *)
(** * The production composition

    [application/runtime_composition.py] and [application/runtime.py]: the local runner and
    its policies, the checks before a provider may run, the approval evidence a local
    composition claims, and how runs, bindings and requests are made from a configuration. *)

From Stdlib Require Import ZArith Lia Ascii String.
From S2P Require Import Prelude Text Domain StateMachine Effects Commands Agents GitPort TelemetryPort Validation ContextPort CommandPolicy Unicode ContextReader Ownership LocalGit TelemetryService ReviewGate OrchestrationPorts RepairPolicy Reconciliation RuntimePort Tables Storage RunJournal UsageStore DurableStore Coordination Service Providers Workflows Configuration.
From stdpp Require Import base option strings numbers gmap sets list list_relations.

Open Scope Z_scope.

(** ** Local policies *)

Definition RepositoryInspectionError (category message : string) : exn :=
  BoundaryError "RepositoryInspectionError" (category +:+ ": " +:+ message).

Definition _BASELINE_NAMES : list string :=
  ["PATH"; "PATHEXT"; "SYSTEMROOT"; "WINDIR"; "COMSPEC"; "TEMP"; "TMP"; "LANG"; "LC_ALL"].

Definition _GIT_ENVIRONMENT_KEYS : gset string :=
  list_to_set
    ["GIT_CONFIG_NOSYSTEM"; "GIT_CONFIG_GLOBAL"; "GIT_CONFIG_COUNT"; "GIT_CONFIG_KEY_0"; "GIT_CONFIG_VALUE_0";
     "GIT_CONFIG_KEY_1"; "GIT_CONFIG_VALUE_1"; "GIT_ATTR_NOSYSTEM"; "GIT_TERMINAL_PROMPT"; "GCM_INTERACTIVE"; "GIT_PAGER";
     "PAGER"; "GIT_EDITOR"; "GIT_SEQUENCE_EDITOR"; "LC_ALL"; "LANG"].

(** The path and the directories above it, the root of the file system excepted. *)
Fixpoint ancestors (reversed : list string) : list (list string) :=
  match reversed with [] => [] | _ :: rest => reverse reversed :: ancestors rest end.

Definition _inspection_roots (path : Path) : res (list Path) :=
  let roots := mk_Path (path_absolute path) <$> ancestors (reverse (path_parts path)) in
  raise_if (bool_decide (roots = [])) (RepositoryInspectionError "PATH_INVALID" "repository path cannot be a filesystem root") ;;
  mret roots.

(** What a local runner is built from. *)
Record RunnerPolicies := mk_RunnerPolicies {
  rp_executables : ExecutablePolicy;
  rp_paths : PathPolicy;
  rp_environment : EnvironmentPolicy;
  rp_stdin : bool
}.

Section Runner.
Context {E : Type} {files : FileSystem E}.
(** [os.environ] and [os.name] *)
Variables (environ : list (string * string)) (windows : bool).

(** [except ValueError]: the policy errors are its subclasses. *)
Definition is_policy_error (e : exn) : bool :=
  is_ValueError e || is_class "CommandPolicyError" e || is_class "ExecutablePolicyError" e
  || is_class "WorkingDirectoryPolicyError" e || is_class "EnvironmentPolicyError" e.

Definition baseline_environment : list (string * string) :=
  omap (fun name => (fun value => (name, value)) <$> dict_get name environ) _BASELINE_NAMES.

Definition controlled_host_runner (repository_root : Path) (executables : list string) (allow_provider_stdin : bool)
    : M E RunnerPolicies :=
  executable_policy ← try_except
    (from_search_path executables (default "" (dict_get "PATH" environ)) windows [".exe"; ".com"; ".cmd"; ".bat"]
       [repository_root])
    is_policy_error (fun _ => raise (RepositoryInspectionError "PATH_UNAVAILABLE" "no usable configured search path")) ;
  try_except
    (roots ← lift (_inspection_roots repository_root) ;
     paths ← make_PathPolicy (mk_PathPolicy roots [] false false) ;
     environment ← lift (make_EnvironmentPolicy baseline_environment
                           (if bool_decide ("git" ∈ executables) then _GIT_ENVIRONMENT_KEYS else ∅) ∅ ∅ windows) ;
     mret (mk_RunnerPolicies executable_policy paths environment allow_provider_stdin))
    is_policy_error
    (fun _ => raise (RepositoryInspectionError "RUNTIME_POLICY" "safe local command policy could not be constructed")).
End Runner.

(** ** Before providers may run *)

Definition RuntimeDependencyError : string -> exn := BoundaryError "RuntimeDependencyError".

(** [dict.fromkeys(("git", "opencode", "codex", ...))] *)
Definition executable_names (c : RevanentConfig) : list string :=
  dict_fromkeys (["git"; "opencode"; "codex"] ++ ((fun command => hd "" (vcc_command command)) <$> config_validation c)).

(** Whether a prompt may be passed to a provider. *)
Definition live_authorized (require_providers : bool) (p : PolicyConfig) : bool :=
  require_providers && allow_network p && allow_live_opencode_builder p && allow_live_codex_reviewer p.

(** The refusals of [compose_runtime], given what was detected. *)
Definition authorize_providers (require_providers : bool) (p : PolicyConfig)
    (opencode codex : ProviderCompatibility.t) (repair_surface_verified : bool) : res unit :=
  let refuse b message := raise_if (require_providers && b) (RuntimeDependencyError message) in
  refuse (negb (allow_network p)) "live provider network execution is not authorized" ;;
  refuse (negb (allow_live_opencode_builder p)) "live OpenCode builder execution is not authorized" ;;
  refuse (negb (allow_live_codex_reviewer p)) "live Codex reviewer execution is not authorized" ;;
  refuse (negb (bool_decide (opencode = ProviderCompatibility.AVAILABLE))) "required builder capability is unavailable" ;;
  refuse (negb (bool_decide (codex = ProviderCompatibility.AVAILABLE))) "required reviewer capability is unavailable" ;;
  refuse (allow_codex_write_repair p && negb repair_surface_verified) "configured repair capability is unavailable".

(** ** Approval evidence *)

(** [_LocalEvidence.collect] *)
Definition collect_local_evidence (plan : ValidationPlan) (response : AgentResponse) (observed_at : datetime)
    : res LocalApprovalEvidence :=
  validate_LocalApprovalEvidence
    (mk_LocalApprovalEvidence 1 (plan_run_id plan) (plan_work_package_id plan) (plan_id plan)
       (resp_invocation_id response) (id_adapter_id (identity response)) observed_at
       false false false false false false true true).

(** ** Runs, bindings and requests *)

(** The last eight characters of an identifier. *)
Definition last_eight (s : string) : string := String.substring (String.length s - 8) 8 s.

(** [f"{index:032x}"] *)
Fixpoint hex_digits (count : nat) (n : Z) : list ascii :=
  match count with O => [] | S count => hex_digits count (n / 16) ++ [Sha256.hex_digit (n mod 16)] end.
Definition hex32_of (n : Z) : string := String.string_of_list_ascii (hex_digits 32 n).

Definition zeros32 : string := "00000000000000000000000000000000".

(** [range(1, n + 1)] *)
Definition one_through (n : Z) : list Z := Z.of_nat <$> seq 1 (Z.to_nat n).

(** The defaults of [ContextLimits]. *)
Definition default_context_limits : ContextLimits :=
  mk_ContextLimits 128 64 128 262144 32768 262144 65536 131072 1 32 32 2048 1.

Definition no_discovery : ContextDiscoveryInput := mk_ContextDiscoveryInput [] [] [] None [] [] [] [] [] [].

(** [role.value.lower()] *)
Definition role_name (role : AgentRole.t) : string := casefold (AgentRole.value role).

Definition configured_roles (p : PolicyConfig) : list AgentRole.t :=
  py_sorted (fun a b => str_le (AgentRole.value a) (AgentRole.value b))
    ([AgentRole.BUILDER; AgentRole.REVIEWER] ++ if allow_codex_write_repair p then [AgentRole.REPAIRER] else []).

(** The parts of a request that come from the configuration and the run alone. *)
Section Requests.
Variables (effective : EffectiveConfiguration) (run : Run) (binding : RuntimeBinding).
Let config := effective_config effective.
Let source := effective_root effective.
Let target := joinpath source (relative_parts (worktree_relative_path binding)).

Definition worktree_request : res WorktreeCreationRequest :=
  validate_WorktreeCreationRequest
    (mk_WorktreeCreationRequest source target (rb_worktree_id binding) (rb_branch_name binding) "HEAD" (Some (run_id run)) 1).

Definition run_workspace : res WorkspaceReference :=
  validate_WorkspaceReference (mk_WorkspaceReference WorkspaceKind.WORKTREE (rb_worktree_id binding) target).

Definition context_for_role (role : AgentRole.t) (created_at : datetime) : res ContextSelectionRequest :=
  validate_ContextSelectionRequest
    (mk_ContextSelectionRequest 1 ("runtime." +:+ role_name role) (run_id run) (wp_id (run_work_package run)) (run_task run)
       role source (repository_id (rb_repository binding)) (rb_worktree_id binding) [] no_discovery default_context_limits
       ["Task scope and Revanent policy are authoritative."] created_at None).

Definition run_artifacts : res AgentArtifactPolicy :=
  validate_AgentArtifactPolicy (mk_AgentArtifactPolicy ("runtime." +:+ run_id run) true false (8 * 1024 * 1024) true).

(** The nested function [agent] *)
Definition agent_prototype (workspace : WorkspaceReference) (artifacts : AgentArtifactPolicy)
    (role : AgentRole.t) (write : bool) (model : option string) : res AgentRequest :=
  allowed ← traverse ScopePath (allowed_paths (run_task run)) ;
  forbidden ← traverse ScopePath (forbidden_paths (run_task run)) ;
  validate_AgentRequest
    (mk_AgentRequest 1 ("inv_" +:+ zeros32) (run_id run) (wp_id (run_work_package run)) ("attempt_" +:+ zeros32) 1 role
       (task_objective (run_task run)) allowed forbidden workspace [] (mk_AgentResponseContract 1 true 16384 32 64)
       (if bool_decide (role = AgentRole.BUILDER) then builder_timeout_seconds (config_builder config)
        else reviewer_timeout_seconds (config_reviewer config))
       None artifacts (mk_AgentRouting None model) []
       (mk_ExpectedAgentCapabilities true (negb write) write false true false false false) []).

Definition validation_command (item : ValidationCommandConfig) : res ValidationCommand :=
  validate_ValidationCommand
    (mk_ValidationCommand ("vcmd_" +:+ vcc_name item) (vcc_name item) (hd "" (vcc_command item)) (tl (vcc_command item)) None
       ValidationCommandClass.REQUIRED false [0] 300
       (mk_ValidationOutputPolicy 262144 262144 8388608 false false false) []).

Definition validation_plan (workspace : WorkspaceReference) (commands : list ValidationCommand) (index : Z)
    (created_at : datetime) : res ValidationPlan :=
  validate_ValidationPlan
    (mk_ValidationPlan 1 ("vplan_" +:+ hex32_of index) (run_id run) (wp_id (run_work_package run)) created_at workspace commands
       (mk_ValidationExecutionPolicy false false)
       (mk_ValidationArtifactPolicy ("validation." +:+ run_id run) None false true)).

Definition plan_indices : list Z := one_through (max_repair_attempts (run_budgets run) + 1).
End Requests.

Section Composition.
Context {E Token : Type}.
(** The collaborators a composition wires, the evidence excepted; [uuid4().hex] and [git.discover]. *)
Variables (host : Collaborators E Token) (uuid_hex : M E string) (discover_repository : Path -> M E RepositoryIdentity)
  (effective : EffectiveConfiguration).
Let config := effective_config effective.
Abbreviation W := (World E).

#[local] Existing Instance host.

Definition composed_make_run (request : StartRunRequest) : M E Run :=
  t ← now ;
  hex ← uuid_hex ;
  lift (budgets ← validate_BudgetLimits
          (mk_BudgetLimits 1 (max_total_minutes (config_budgets config) * 60) (builder_max_attempts (config_builder config))
             (max_reviews (config_reviewer config)) (max_repairs (config_reviewer config))
             (bc_max_remote_tokens (config_budgets config)) (bc_max_estimated_cost_usd (config_budgets config))) ;
        id ← RunId ("run_" +:+ hex) ;
        validate_Run
          (mk_Run 1 id (start_task request) (start_work_package request) budgets CREATED (mk_AttemptCounters 0 0 0) t t None)).

Definition composed_make_binding (run : Run) (identity : RepositoryIdentity) : M E RuntimeBinding :=
  let relative := path_str (joinpath (path_of (workspace_root (config_workspace config))) [run_id run]) in
  lift (worktree_id ← WorktreeId ("wt_" +:+ remove_prefix "run_" (run_id run)) ;
        validate_RuntimeBinding
          (mk_RuntimeBinding 1 (run_id run) identity worktree_id relative
             ("revanent/" +:+ wp_id (run_work_package run) +:+ "-" +:+ last_eight (run_id run)) (run_created_at run))).

(** Each context and each plan gets its own time. *)
Definition timed {A B} (make : A -> datetime -> res B) (x : A) : M W B := t ← in_env now ; lift (make x t).

Definition composed_make_request (run : Run) (revision : option Z) : M W OrchestrationRequest :=
  let policy := config_policy config in
  binding ← in_store (get_runtime_binding (run_id run)) ;
  worktree ← lift (worktree_request effective run binding) ;
  contexts ← mapM (timed (context_for_role effective run binding)) (configured_roles policy) ;
  workspace ← lift (run_workspace effective binding) ;
  artifacts ← lift (run_artifacts run) ;
  commands ← lift (traverse validation_command (config_validation config)) ;
  plans ← mapM (timed (validation_plan run workspace commands)) (plan_indices run) ;
  let agent := agent_prototype effective run workspace artifacts in
  let model := Some (builder_model (config_builder config)) in
  lift (
    builder ← agent AgentRole.BUILDER true model ;
    reviewer ← agent AgentRole.REVIEWER false None ;
    local_repair ← agent AgentRole.BUILDER true model ;
    codex_repair ← (if allow_codex_write_repair policy then Some <$> agent AgentRole.REPAIRER true None else mret None) ;
    validate_OrchestrationRequest
      (mk_OrchestrationRequest 1 (run_id run) revision contexts worktree builder reviewer local_repair codex_repair plans
         (allow_codex_write_repair policy))).

(** The collaborators of a composed service. *)
Definition production : Collaborators E Token := {|
  Service.now := now;
  is_cancelled := is_cancelled;
  create_worktree := create_worktree;
  verify_owned_worktree := verify_owned_worktree;
  execute_validation := execute_validation;
  collect plan result response observed_at := lift (collect_local_evidence plan response observed_at);
  select_context := select_context;
  adapters := adapters
|}.

(** [compose_runtime] *)
Definition composed : RuntimeComposition E Token := {|
  composed_collaborators := production;
  Workflows.discover := discover_repository;
  repository_root := effective_root effective;
  make_run := composed_make_run;
  make_binding := composed_make_binding;
  make_request := composed_make_request
|}.
End Composition.
