(* ===== verification/CompositionSafety.v ===== *)
(** * What a composed runtime can and cannot do

    A configuration always makes runs that the domain accepts; a request made from it keeps
    the scope of the task; with write repair authorised no request can be made at all. *)

From Stdlib Require Import ZArith Lia Ascii String.
From S2P Require Import Prelude Text Domain StateMachine Effects Commands Agents GitPort TelemetryPort Validation ContextPort CommandPolicy Unicode ContextReader Ownership LocalGit TelemetryService ReviewGate OrchestrationPorts RepairPolicy Reconciliation RuntimePort Tables Storage RunJournal UsageStore DurableStore Coordination Service WriteAhead ServiceOutcomes Providers Workflows WorkflowSafety Configuration ConfigurationSafety RuntimeComposition.
From stdpp Require Import base option strings numbers gmap sets list list_relations.

Open Scope Z_scope.

(** ** Prototypes *)

Lemma scope_path_same s t : ScopePath s = Ok t -> t = s.
Proof. unfold ScopePath. intros H. apply bind_Ok in H as (? & _ & H). by injection H as ->. Qed.

Lemma scope_same xs ys : traverse ScopePath xs = Ok ys -> ys = xs.
Proof. intros H%traverse_Forall2. induction H as [|x y xs ys Hx _ IH]; [done|]. apply scope_path_same in Hx. congruence. Qed.

(** What a prototype keeps of the run, and the authority it asks for. *)
Definition keeps_scope (run : Run) (role : AgentRole.t) (write : bool) (q : AgentRequest) : Prop :=
  ar_role q = role /\ requires_repository_writes (expected_capabilities q) = write
  /\ allowed_scope q = allowed_paths (run_task run) /\ forbidden_scope q = forbidden_paths (run_task run).

Lemma prototype_facts effective run workspace artifacts role write model q :
  agent_prototype effective run workspace artifacts role write model = Ok q ->
  validate_AgentRequest q = Ok q /\ keeps_scope run role write q
  /\ requires_repair (expected_capabilities q) = false /\ ws_root (ar_workspace q) = ws_root workspace
  /\ allowed_scope q = py_sorted str_le (allowed_scope q).
Proof.
  unfold agent_prototype. intros H. apply bind_Ok in H as (allowed & Ha & H). apply bind_Ok in H as (forbidden & Hf & H).
  split; [by eapply idem, H|]. apply scope_same in Ha, Hf. subst. unfold validate_AgentRequest in H. inv_valid.
  pose proof (validate_request_id _ _ H) as ->. cbn [ar_role expected_capabilities allowed_scope forbidden_scope ar_workspace].
  repeat match goal with H : traverse ScopePath _ = Ok _ |- _ => apply scope_same in H; cbn in H; subst end.
  match goal with H : validate_ExpectedAgentCapabilities _ = Ok _ |- _ =>
    unfold validate_ExpectedAgentCapabilities in H; inv_valid; subst end.
  match goal with H : validate_WorkspaceReference _ = Ok _ |- _ => unfold validate_WorkspaceReference in H; inv_valid end.
  unfold _validate_request in *. inv_valid. unfold keeps_scope. cbn in *. split_and!; try done.
  match goal with H : _require_sorted_unique _ "allowed scope" _ = Ok _ |- _ => apply sorted_unique_Ok in H as [H _] end.
  done.
Qed.

Lemma repairer_refused effective run workspace artifacts write model q :
  agent_prototype effective run workspace artifacts AgentRole.REPAIRER write model <> Ok q.
Proof.
  intros H. destruct (prototype_facts _ _ _ _ _ _ _ _ H) as (Hq & (Hrole & _) & Hrepair & _).
  destruct (request_authority _ _ Hq) as (_ & _ & Hr & _). rewrite Hrepair in Hr. by apply Hr in Hrole.
Qed.

Section Composition.
Context {E Token : Type} (host : Collaborators E Token) (uuid_hex : M E string)
  (discover_repository : Path -> M E RepositoryIdentity) (effective : EffectiveConfiguration).
Abbreviation W := (World E).
Abbreviation composition := (composed host uuid_hex discover_repository effective).
Let config := effective_config effective.

(** ** Requests *)

Lemma mapM_still {A B} (f : A -> M W B) xs :
  (forall x, only (W := W) same_durable (f x)) -> only same_durable (mapM f xs).
Proof.
  intros Hf. induction xs as [|x xs IH]; [apply still_ret|]. cbn.
  apply only_bind; [exact _|apply Hf|intros y]. apply only_bind; [exact _|exact IH|intros ys]. apply still_ret.
Qed.

Lemma timed_still {A B} (make : A -> datetime -> res B) x : only (W := W) same_durable (timed host make x).
Proof. unfold timed. apply only_bind; [exact _|apply still_env|intros t]. apply still_lift. Qed.

Lemma composed_request_still run revision : only same_durable (composed_make_request host effective run revision).
Proof.
  unfold composed_make_request. cbv zeta. apply only_bind; [exact _|apply still_store, binding_reads|intros binding].
  repeat (apply only_bind; [exact _| |intros ?]);
    first [apply still_lift | apply mapM_still; intros ?; apply timed_still].
Qed.

#[export] Instance composed_factories : ReadingFactories composition.
Proof. intros run revision. apply composed_request_still. Qed.

Lemma mapM_length {A B} (f : A -> M W B) xs (w w' : W) ys : mapM f xs w = (w', Ok ys) -> length ys = length xs.
Proof.
  revert w w' ys. induction xs as [|x xs IH]; intros w w' ys H; [by injection H as _ <-|]. cbn in H.
  apply M_bind_Ok in H as (w1 & y & _ & H). apply M_bind_Ok in H as (w2 & zs & Hz & H). injection H as _ <-.
  cbn. by rewrite (IH _ _ _ Hz).
Qed.

(** The requests of an orchestration are the prototypes it was made from. *)
Lemma orchestration_parts r q :
  validate_OrchestrationRequest r = Ok q ->
  (forall p, validate_AgentRequest p = Ok p -> builder_request r = p -> builder_request q = p)
  /\ (forall p, validate_AgentRequest p = Ok p -> reviewer_request r = p -> reviewer_request q = p)
  /\ (forall p, validate_AgentRequest p = Ok p -> local_repair_request r = p -> local_repair_request q = p)
  /\ oreq_expected_revision q = oreq_expected_revision r
  /\ length (validation_plans q) = length (validation_plans r)
  /\ codex_repair_authorized q = codex_repair_authorized r
  /\ (codex_repair_request r = None -> codex_repair_request q = None).
Proof.
  unfold validate_OrchestrationRequest. intros H. inv_valid. unfold _validate_orchestration_request in H. cbv zeta in H.
  inv_valid. cbn. split_and!; try (intros p Hp <-; congruence); try done.
  - match goal with H : traverse validate_ValidationPlan _ = Ok _ |- _ => apply traverse_Forall2, Forall2_length in H end. done.
  - intros Hnone. match goal with H : validate_optional _ _ = Ok _ |- _ => rewrite Hnone in H; by injection H as <- end.
Qed.

(** C21: a request made from a configuration gives no agent more than the task: builder,
    reviewer and local repair carry exactly the scope of the task, only the reviewer is
    denied writes, no provider repair is requested or authorised, there is a validation
    plan for the build and each repair the run may make, and making the request changes
    nothing durable; a task whose scope is not in canonical order gets no request. *)
Theorem requests_keep_scope run revision (w w' : W) q
  (Hmake : make_request (RuntimeComposition := composition) run revision w = (w', Ok q)) :
  same_durable w w' /\ oreq_expected_revision q = revision
  /\ keeps_scope run AgentRole.BUILDER true (builder_request q)
  /\ keeps_scope run AgentRole.REVIEWER false (reviewer_request q)
  /\ keeps_scope run AgentRole.BUILDER true (local_repair_request q)
  /\ codex_repair_request q = None /\ codex_repair_authorized q = false
  /\ length (validation_plans q) = Z.to_nat (max_repair_attempts (run_budgets run) + 1)
  /\ allowed_paths (run_task run) = py_sorted str_le (allowed_paths (run_task run)).
Proof.
  cbn in Hmake. pose proof (composed_request_still run revision w) as Hstill. rewrite Hmake in Hstill. split; [exact Hstill|].
  unfold composed_make_request in Hmake. cbv zeta in Hmake.
  apply M_bind_Ok in Hmake as (w1 & binding & _ & H). apply M_bind_Ok in H as (w2 & tree & _ & H).
  apply M_bind_Ok in H as (w3 & contexts & _ & H). apply M_bind_Ok in H as (w4 & workspace & _ & H).
  apply M_bind_Ok in H as (w5 & artifacts & _ & H). apply M_bind_Ok in H as (w6 & commands & _ & H).
  apply M_bind_Ok in H as (w7 & plans & Hplans & H). apply mapM_length in Hplans.
  apply lift_Ok in H as [-> H]. apply bind_Ok in H as (builder & Hb & H). apply bind_Ok in H as (reviewer & Hr & H).
  apply bind_Ok in H as (local & Hl & H). apply bind_Ok in H as (repair & Hrepair & H).
  destruct (prototype_facts _ _ _ _ _ _ _ _ Hb) as (Vb & Kb & _ & _ & Sb).
  destruct (prototype_facts _ _ _ _ _ _ _ _ Hr) as (Vr & Kr & _).
  destruct (prototype_facts _ _ _ _ _ _ _ _ Hl) as (Vl & Kl & _).
  destruct (allow_codex_write_repair (config_policy (effective_config effective))) eqn:Hallow.
  { exfalso. destruct (agent_prototype _ _ _ _ AgentRole.REPAIRER _ _) eqn:Hp in Hrepair; [|done]. by apply repairer_refused in Hp. }
  injection Hrepair as <-. destruct (orchestration_parts _ _ H) as (Eb & Er & El & Erev & Eplans & Eauth & Enone).
  cbn in Eb, Er, El, Erev, Eplans, Eauth, Enone.
  rewrite (Eb _ Vb eq_refl), (Er _ Vr eq_refl), (El _ Vl eq_refl), Erev, Eauth, (Enone eq_refl), Eplans, Hplans.
  split_and!; try done; [|by destruct Kb as (_ & _ & <- & _)].
  unfold plan_indices, one_through. by rewrite length_fmap, length_seq.
Qed.

(** C22: with write repair authorised, as the configuration that initialisation writes has
    it, the runtime can do no work: no request can be made for any run, so starting one
    never hands a request to an agent and never succeeds. *)
Theorem write_repair_never_starts (Hrepair : allow_codex_write_repair (config_policy config) = true) :
  (forall run revision (w w' : W) q, make_request (RuntimeComposition := composition) run revision w <> (w', Ok q))
  /\ (forall request (w w' : W) r, start (composition := composition) request w = (w', r) ->
      w_invoked w' = w_invoked w /\ forall result, r = Ok result -> is_some (result_failure result) = true)
  /\ (forall name c, default_config name = Ok c -> allow_codex_write_repair (config_policy c) = true).
Proof.
  assert (Hmake : forall run revision (w w' : W) q,
    make_request (RuntimeComposition := composition) run revision w <> (w', Ok q)).
  { intros run revision w w' q H. cbn in H. unfold composed_make_request in H. cbv zeta in H.
    do 7 (apply M_bind_Ok in H as (? & ? & _ & H)). apply lift_Ok in H as [_ H].
    do 3 (apply bind_Ok in H as (? & _ & H)). apply bind_Ok in H as (repair & Hr & _). fold config in Hr.
    rewrite Hrepair in Hr. destruct (agent_prototype _ _ _ _ AgentRole.REPAIRER _ _) eqn:Hp in Hr; [|done].
    by apply repairer_refused in Hp. }
  split; [exact Hmake|]. split.
  - intros request w w' r Hrun.
    change (start (composition := composition) request w)
      with ((run ← in_env (make_run (RuntimeComposition := composition) request) ; bound ← attempt (bind_new_run (composition := composition) run) ;
             match bound with Err error => lift (_failure_result None error) | Ok s => run_bound (composition := composition) s end) w) in Hrun.
    unfold mbind, M_bind, attempt in Hrun. pose proof (still_env (make_run (RuntimeComposition := composition) request) w) as (_ & _ & Hi0).
    destruct (in_env (make_run (RuntimeComposition := composition) request) w) as [w0 [run|e]]; cbn in Hi0; [|by injection Hrun as <- <-].
    pose proof (bind_new_run_quiet (composition := composition) run w0) as Hq. unfold same_requests in Hq.
    destruct (bind_new_run (composition := composition) run w0) as [w1 [s|e]]; cbn in Hq.
    + unfold run_bound, mbind, M_bind in Hrun.
      pose proof (make_request_reads (composition := composition) (stored_run s) (Some (revision s)) w1) as (_ & _ & Hi1).
      destruct (make_request (RuntimeComposition := composition) (stored_run s) (Some (revision s)) w1) as [w2 [q|e]] eqn:Hq1; [by apply Hmake in Hq1|].
      injection Hrun as <- <-. cbn in Hi1. split; [congruence|done].
    + unfold lift in Hrun. injection Hrun as <- <-. split; [congruence|]. intros result Hr. by eapply failure_reported.
  - intros name c Hc. unfold default_config, validate_RevanentConfig in Hc. inv_valid.
    unfold _validate_internal_paths in Hc. cbv zeta in Hc. inv_valid. cbn.
    match goal with H : validate_PolicyConfig _ = Ok _ |- _ => unfold validate_PolicyConfig, _validate_policy_scope in H; inv_valid end.
    done.
Qed.

(** ** Runs *)

(** A time in UTC, and the digits of a generated identifier. *)
Class ComposedHost : Prop := {
  clock_is_utc : forall (w w' : E) t, now w = (w', Ok t) -> _require_utc t = Ok t;
  uuid_is_hex : forall (w w' : E) hex, uuid_hex w = (w', Ok hex) -> RunId ("run_" +:+ hex) = Ok ("run_" +:+ hex)
}.

(** The budgets a configuration gives its runs. *)
Definition configured_budgets (c : RevanentConfig) : BudgetLimits :=
  mk_BudgetLimits 1 (max_total_minutes (config_budgets c) * 60) (builder_max_attempts (config_builder c))
    (max_reviews (config_reviewer c)) (max_repairs (config_reviewer c)) (bc_max_remote_tokens (config_budgets c))
    (bc_max_estimated_cost_usd (config_budgets c)).

Lemma configured_budgets_valid fields c :
  validate_RevanentConfig fields = Ok c -> validate_BudgetLimits (configured_budgets c) = Ok (configured_budgets c).
Proof.
  unfold validate_RevanentConfig. intros H. inv_valid. unfold _validate_internal_paths in H. cbv zeta in H. inv_valid.
  unfold validate_BuilderConfig, validate_ReviewerConfig, _validate_repairs, validate_BudgetsConfig in *. inv_valid. subst.
  unfold configured_budgets, validate_BudgetLimits. cbn.
  repeat match goal with H : in_range _ _ _ = true |- _ => unfold in_range in H end. bool_prop.
  unfold in_range. rewrite !(proj2 (Z.leb_le _ _)) by lia. cbn.
  repeat match goal with H : ?b = true |- context [?b] => rewrite H end. done.
Qed.

(** Every valid configuration makes runs: whenever the clock and the generator answer,
    a request with a valid task and work package gets a run that is created, has no
    attempts, and whose budgets are exactly those of the configuration, within the bounds
    of the domain. *)
Theorem configuration_makes_runs {environment : ComposedHost} fields request (w w1 w2 : E) t hex
  (Hconfig : validate_RevanentConfig fields = Ok config)
  (Htask : validate_TaskSpecification (start_task request) = Ok (start_task request))
  (Hpackage : validate_WorkPackage (start_work_package request) = Ok (start_work_package request))
  (Hnow : now w = (w1, Ok t)) (Huuid : uuid_hex w1 = (w2, Ok hex)) :
  exists run, make_run (RuntimeComposition := composition) request w = (w2, Ok run)
    /\ Run_wf run /\ run_id run = "run_" +:+ hex /\ run_state run = CREATED /\ run_attempts run = mk_AttemptCounters 0 0 0
    /\ run_budgets run = configured_budgets config /\ run_task run = start_task request.
Proof.
  pose proof (configured_budgets_valid _ _ Hconfig) as Hb. pose proof (clock_is_utc _ _ _ Hnow) as Ht.
  pose proof (uuid_is_hex _ _ _ Huuid) as Hid.
  set (run := mk_Run 1 ("run_" +:+ hex) (start_task request) (start_work_package request) (configured_budgets config) CREATED
                (mk_AttemptCounters 0 0 0) t t None).
  assert (Hrun : validate_Run run = Ok run).
  { unfold validate_Run, run. cbn [run_schema_version run_id run_task run_work_package run_budgets run_attempts run_created_at
      run_updated_at run_approval_gate run_state]. rewrite Hid, Htask, Hpackage, Hb, Ht. cbn.
    unfold _validate_state. cbn [run_updated_at run_created_at run_state run_approval_gate run_budgets run_attempts].
    assert (Hlt : dt_lt t t = false) by (unfold dt_lt; apply Z.ltb_ge; lia). rewrite Hlt.
    unfold validate_BudgetLimits in Hb. inv_valid. unfold in_range in *. bool_prop. cbn in *.
    rewrite !(proj2 (Z.ltb_ge _ _)) by lia. done. }
  exists run. split; [|by split_and!].
  cbn. unfold composed_make_run. rewrite (M_bind_run _ _ _ _ _ Hnow), (M_bind_run _ _ _ _ _ Huuid).
  fold (configured_budgets (effective_config effective)). fold config. rewrite Hb. cbn -[validate_Run RunId]. rewrite Hid. cbn -[validate_Run].
  fold run. by rewrite Hrun.
Qed.
End Composition.
