(* ===== verification/Approvals.v ===== *)
(** * Nothing is approved without local evidence

    When the local evidence never justifies the scope of a change, as the production
    composition's never does, no review is approvable, so that no call of the coordinator,
    whatever the agents and the environment answer, ever approves a run. *)

From Stdlib Require Import ZArith Lia Ascii String.
From S2P Require Import Prelude Text Domain StateMachine Effects Commands Agents GitPort TelemetryPort Validation ContextPort TelemetryService ValidationRunner ReviewGate OrchestrationPorts RepairPolicy Reconciliation RuntimePort Tables Storage RunJournal UsageStore DurableStore Coordination Service WriteAhead ServiceOutcomes Planning CommandPolicy Unicode ContextReader Ownership LocalGit Providers Workflows WorkflowSafety Configuration ConfigurationSafety RuntimeComposition CompositionSafety.
From stdpp Require Import base option strings numbers gmap sets list list_relations.

Open Scope Z_scope.

(** ** Reviews *)

(** Evidence of an attempt that does not carry an approvable decision. *)
Definition unapprovable (a : AttemptEvidence) : Prop :=
  match a with
  | Review r => forall d, rv_gate_decision r = Some d -> gd_status d <> ReviewGateStatus.APPROVABLE
  | _ => True
  end.

Definition is_review (a : AttemptEvidence) : bool := match a with Review _ => true | _ => false end.

Lemma not_review a : is_review a = false -> unapprovable a.
Proof. by destruct a. Qed.

Lemma validated_review a b : validate_AttemptEvidence a = Ok b -> is_review b = is_review a.
Proof.
  destruct a as [x|x|x|x|x|x]; cbn; intros H;
    match type of H with ?f <$> ?r = _ => destruct r eqn:?; [|done] end; by injection H as <-.
Qed.

Lemma validated_unapprovable a b : validate_AttemptEvidence a = Ok b -> unapprovable a -> unapprovable b.
Proof.
  intros H Ha. destruct (is_review a) eqn:Hr; [|apply not_review; by rewrite (validated_review _ _ H)].
  destruct a as [| | | |r|]; try done. cbn in H. destruct (validate_ReviewAttempt r) as [r'|] eqn:Hv; [|done].
  injection H as <-. intros d Hd. destruct (review_decision _ _ _ Hv Hd) as (d0 & Hd0 & <-). by apply Ha.
Qed.

Lemma concluded_review f response a : is_review (conclude_agent f response a) = is_review a.
Proof. by destruct a. Qed.

Lemma agent_evidence_review step base q adapter_id d write a :
  agent_evidence step base q adapter_id d write = Ok a -> is_review a = false.
Proof.
  unfold agent_evidence. destruct (bool_decide _).
  - destruct (validate_BuildAttempt _); [|done]. by intros [= <-].
  - destruct d; [|done]. destruct (validate_RepairAttempt _); [|done]. by intros [= <-].
Qed.

(** An approvable decision needs the scope to be justified. *)
Lemma approvable_scope g d :
  evaluate g = Ok d -> gd_status d = ReviewGateStatus.APPROVABLE -> le_scope_justified (gi_local_evidence g) = true.
Proof.
  intros Hd Happ. destruct (approvable_evidence _ _ Hd Happ) as (replay & findings & dup & _ & Hr).
  unfold review_reasons in Hr. repeat (apply app_nil in Hr; destruct Hr as [_ Hr]). apply checks_nil in Hr.
  unfold local_checks in Hr. by apply Forall_cons in Hr as [? _].
Qed.

Lemma local_scope l l' : validate_LocalApprovalEvidence l = Ok l' -> le_scope_justified l' = le_scope_justified l.
Proof.
  unfold validate_LocalApprovalEvidence. intros H. do 7 (apply bind_Ok in H as (? & _ & H)). by injection H as <-.
Qed.

Lemma gate_input_scope g g' :
  validate_ReviewGateInput g = Ok g' ->
  le_scope_justified (gi_local_evidence g') = le_scope_justified (gi_local_evidence g).
Proof.
  unfold validate_ReviewGateInput. intros H. do 7 (apply bind_Ok in H as (? & _ & H)).
  apply bind_Ok in H as (l & Hl & H). apply bind_Ok in H as (? & _ & H). injection H as <-. cbn. by apply local_scope.
Qed.

Lemma reconciled_scope records collected l :
  reconciled_evidence records collected = Ok l -> le_scope_justified l = le_scope_justified collected.
Proof.
  unfold reconciled_evidence. destruct (_has_unresolved_mutating_side_effects records); [|by intros [= <-]].
  intros H. by rewrite (local_scope _ _ H).
Qed.

(** ** Stores without approvals *)

Definition unapproved (s : Store) : Prop :=
  (forall id row, st_runs s !! id = Some row -> run_state (rr_payload row) <> APPROVED)
  /\ (forall row, row ∈ st_records s -> unapprovable (rec_attempt (or_payload row))).

Definition stays_unapproved (s s' : Store) : Prop := unapproved s -> unapproved s'.

#[export] Instance stays_unapproved_confined : Confined stays_unapproved.
Proof. split; unfold stays_unapproved; tauto. Qed.

Lemma corrupted_Ok {A} (r : res A) message a : corrupt_on_error r message = Ok a -> r = Ok a.
Proof. unfold corrupt_on_error. destruct r as [x|e]; [done|]. by destruct e. Qed.

Lemma record_decoded row r :
  _deserialize_orchestration_record row = Ok r -> unapprovable (rec_attempt (or_payload row)) -> unapprovable (rec_attempt r).
Proof.
  unfold _deserialize_orchestration_record. intros H Hp. apply bind_Ok in H as (? & _ & H).
  apply bind_Ok in H as (r' & Hr%corrupted_Ok & H). apply bind_Ok in H as (? & _ & H). injection H as <-.
  destruct (record_attempt _ _ Hr) as [_ Ha]. by eapply validated_unapprovable.
Qed.

Lemma run_decoded row s : _deserialize_run row = Ok s -> run_state (stored_run s) = run_state (rr_payload row).
Proof.
  unfold _deserialize_run. intros H. apply bind_Ok in H as (? & _ & H). apply bind_Ok in H as (run & Hr & H).
  apply bind_Ok in H as (? & _ & H). apply corrupted_Ok in Hr, H. unfold __post_init__ in H.
  apply bind_Ok in H as (? & _ & H). injection H as <-. cbn. by destruct (run_construction _ _ Hr) as (_ & _ & _ & ? & _).
Qed.

Lemma added_telemetry (f : Store -> Store) w :
  st_runs (f w) = st_runs w -> st_records (f w) = st_records w -> stays_unapproved w (f w).
Proof. unfold stays_unapproved, unapproved. by intros -> ->. Qed.

Ltac solve_telemetry := apply telemetry_only; [exact _|..]; intros; by apply added_telemetry.

(** ** Worlds without approvals *)

Section Worlds.
Context {E Token : Type} `{!Collaborators E Token}.
Abbreviation W := (World E).

(** The local evidence never justifies the scope. *)
Class ConservativeEvidence : Prop :=
  conservative : forall plan result response t (e e' : E) l,
    collect plan result response t e = (e', Ok l) -> le_scope_justified l = false.

Definition no_approval (w : W) : Prop := unapproved (w_store w).
Abbreviation calm := (stable no_approval).

(** What a computation yields when nothing was approved before it. *)
Definition yields {A} (m : M W A) (Q : A -> Prop) : Prop := forall w, no_approval w ->
  no_approval (fst (m w)) /\ forall a, snd (m w) = Ok a -> Q a.

Lemma yields_calm {A} (m : M W A) Q : yields m Q -> calm m.
Proof. intros Hm w Hw. by apply Hm. Qed.
Lemma yields_bind {A B} (m : M W A) (f : A -> M W B) Q :
  yields m Q -> (forall a, Q a -> calm (f a)) -> calm (m ≫= f).
Proof.
  intros Hm Hf w Hw. unfold mbind, M_bind. destruct (Hm w Hw) as [H1 H2]. destruct (m w) as [w1 [a|e]]; [|done].
  apply Hf; [by apply H2|done].
Qed.
Lemma yields_seq {A B} (m : M W A) (f : A -> M W B) Q R :
  yields m Q -> (forall a, Q a -> yields (f a) R) -> yields (m ≫= f) R.
Proof.
  intros Hm Hf w Hw. unfold mbind, M_bind. destruct (Hm w Hw) as [H1 H2]. destruct (m w) as [w1 [a|e]]; [|done].
  apply Hf; [by apply H2|done].
Qed.
Lemma yields_any {A} (m : M W A) : calm m -> yields m (fun _ => True).
Proof. intros Hm w Hw. split; [by apply Hm|done]. Qed.
Lemma yields_lift {A} (r : res A) (Q : A -> Prop) : (forall a, r = Ok a -> Q a) -> yields (lift r) Q.
Proof. by intros HQ w Hw. Qed.
Lemma yields_ret {A} (a : A) (Q : A -> Prop) : Q a -> yields (mret a) Q.
Proof. intros HQ w Hw. split; [done|]. by intros ? [= <-]. Qed.
Lemma yields_raise {A} e (Q : A -> Prop) : yields (raise e) Q.
Proof. by intros w Hw. Qed.
Lemma yields_fmap {A B} (f : A -> B) (m : M W A) (Q : B -> Prop) : yields m (fun a => Q (f a)) -> yields (f <$> m) Q.
Proof.
  intros Hm w Hw. unfold fmap, M_fmap. destruct (Hm w Hw) as [H1 H2]. destruct (m w) as [w1 [a|e]]; [|done].
  split; [done|]. intros b [= <-]. by apply H2.
Qed.

(** *** The store *)

Lemma calm_env {A} (m : M E A) : calm (in_env m).
Proof. intros w Hw. unfold in_env. by destruct (m (w_env w)). Qed.
Lemma calm_store {A} (m : M Store A) : only stays_unapproved m -> calm (in_store m).
Proof. intros Hm w Hw. unfold in_store. specialize (Hm _ Hw). by destruct (m (w_store w)). Qed.
Lemma calm_reads {A} (m : M Store A) : reads m -> calm (in_store m).
Proof. intros Hm. apply calm_store, only_reads; [exact _|done]. Qed.
Lemma calm_set_package key p : calm (set_package key p).
Proof. by intros w Hw. Qed.

Lemma calm_telemetry {A} (m : M Store A) c : (forall s, telemetry_exec c s = fst (m s)) -> calm (in_store m).
Proof.
  intros Hm. apply calm_store. intros w. rewrite <- Hm. solve_telemetry.
Qed.
Lemma calm_service_reserve r policy n known : calm (in_store (service_reserve r policy n known)).
Proof. by apply (calm_telemetry _ (ReserveIfAllowed r policy n known)). Qed.
Lemma calm_service_settle r s rs : calm (in_store (service_settle r s rs)).
Proof. by apply (calm_telemetry _ (SettleReservation r s rs)). Qed.

Lemma list_yields id : yields (list_records id) (Forall (fun r => unapprovable (rec_attempt r))).
Proof.
  intros w Hw. pose proof (list_records_reads id (w_store w)) as Hr. unfold list_records, in_store.
  destruct (list_orchestration_records id (w_store w)) as [s o] eqn:H. cbn in Hr. subst s. split; [done|].
  cbn. intros records ->. unfold list_orchestration_records in H.
  apply M_bind_Ok in H as (w1 & found & [= <- _] & H). destruct found; [|done]. cbn [negb] in H.
  apply M_bind_Ok in H as (w2 & rows & [= <- <-] & H). apply M_bind_Ok in H as (w3 & decoded & Hd & H).
  apply lift_Ok in Hd as [_ Hd]. apply M_bind_Ok in H as (w4 & u & _ & H). injection H as _ <-.
  apply traverse_Forall2 in Hd. eapply Forall_forall. intros r Hr. apply list_elem_of_lookup in Hr as (i & Hi).
  destruct (Forall2_lookup_r _ _ _ _ _ Hd Hi) as (row & Hrow & Hdec). apply (record_decoded _ _ Hdec).
  destruct Hw as [_ Hw]. apply Hw. apply list_elem_of_lookup_2 in Hrow.
  unfold by_sequence in Hrow. rewrite py_sorted_perm in Hrow. by apply list_elem_of_filter in Hrow as [_ ?].
Qed.

Lemma run_yields id : yields (in_store (get_run id)) (fun s => run_state (stored_run s) <> APPROVED).
Proof.
  intros w Hw. unfold in_store. pose proof (get_run_reads id (w_store w)) as Hr.
  destruct (get_run id (w_store w)) as [s o] eqn:H. cbn in Hr. subst s. split; [done|]. cbn. intros found ->.
  unfold get_run, transaction, select_run, gets, mbind, M_bind in H.
  destruct (st_runs (w_store w) !! id) as [row|] eqn:Hrow; [|done]. unfold lift in H.
  destruct (_deserialize_run row) as [x|] eqn:Hd; [|done]. injection H as <-. rewrite (run_decoded _ _ Hd).
  by eapply (proj1 Hw).
Qed.

(** A write of a run that is not approved, and of a record that approves nothing. *)
Lemma set_run_stays id row w : run_state (rr_payload row) <> APPROVED -> stays_unapproved w (set_runs <[id := row]> w).
Proof.
  intros Hrow [H1 H2]. split; [|done]. intros id' row'. cbn. rewrite lookup_insert_Some. intros [[_ <-]|[_ H]]; [done|].
  by eapply H1.
Qed.

Lemma persist_transition_stays s result event_id :
  run_state (res_run result) <> APPROVED -> only stays_unapproved (persist_transition s result event_id).
Proof.
  intros Hd. unfold persist_transition, select_run, replayed, apply_transition, select_event, next_event_sequence,
    _insert_event. solve_only; [|apply only_write; [exact _|]; intros; by apply added_telemetry].
  intros w. unfold update_run. destruct (st_runs w !! _) as [row|]; [|apply confined_refl].
  destruct (_ && _); [|apply confined_refl]. destruct (run_fits _ _); [|apply confined_refl].
  by apply set_run_stays.
Qed.

Lemma persist_record_stays s record :
  unapprovable (rec_attempt record) -> only stays_unapproved (persist_orchestration_record s record).
Proof.
  intros Hr. unfold persist_orchestration_record, select_run, next_record_sequence, _insert_orchestration_record.
  solve_only. apply only_write; [exact _|]. intros w [H1 H2]. split; [done|]. intros row. cbn.
  rewrite elem_of_app, list_elem_of_singleton. intros [Hin| ->]; [by apply H2|done].
Qed.

Lemma stays_bind_lift {S A B} (R : S -> S -> Prop) `{!Confined R} (r : res A) (f : A -> M S B) :
  (forall a, r = Ok a -> only R (f a)) -> only R (lift r ≫= f).
Proof. intros Hf w. rewrite lift_bind. destruct r as [a|e]; [by apply Hf|apply confined_refl]. Qed.

Lemma bound_run_stays run binding : only stays_unapproved (create_bound_run run binding).
Proof.
  unfold create_bound_run, insert_run, insert_binding. apply stays_bind_lift; [exact _|]. intros u Hu%raise_if_Ok. bool_prop.
  solve_only; (apply only_write; [exact _|]); intros w; [|by apply added_telemetry].
  apply set_run_stays. cbn. by rewrite Hu.
Qed.
End Worlds.

(** ** The coordinator *)

Create HintDb calm.
#[export] Hint Resolve calm_env calm_set_package calm_service_reserve calm_service_settle stable_ret stable_raise
  stable_gets stable_lift : calm.
#[export] Hint Extern 1 (_ <> APPROVED) => first [discriminate | by case_match] : calm.
#[export] Hint Extern 2 (stable _ (in_store _)) => apply calm_reads; auto with sound : calm.

(** Walk through a computation that approves nothing. *)
Ltac calm_step :=
  match goal with
  | |- stable _ (mbind _ (lift _)) => apply stable_bind_lift; intros ? ?
  | |- stable _ (mbind _ (list_records _)) => eapply yields_bind; [apply list_yields|intros ? ?]
  | |- stable _ (mbind _ _) => apply stable_bind; [|intros ?]
  | |- stable _ (fmap _ _) => apply stable_fmap
  | |- stable _ (stop _) => apply stable_fmap
  | |- stable _ (try_except _ _ _) => apply stable_try; [|intros ?]
  | |- stable _ (attempt _) => apply stable_attempt
  | |- stable _ (match ?x with _ => _ end) => destruct x eqn:?
  | |- stable _ _ => solve [auto with calm]
  end.
Ltac solve_calm := repeat calm_step.

Section Service.
Context {E Token : Type} `{!Collaborators E Token}.
Abbreviation W := (World E).
Abbreviation calm := (stable no_approval).

Lemma calm_list id : calm (list_records (E := E) id).
Proof. eapply yields_calm, list_yields. Qed.
Lemma calm_now : calm (clock_now (E := E)).
Proof. apply calm_env. Qed.
Lemma calm_record rs : calm (in_store (E := E) (record rs)).
Proof.
  apply calm_store. induction rs as [|r rs IH]; cbn [record]; [apply only_reads; [exact _|apply reads_ret]|].
  apply only_bind; [exact _| |intros b; apply only_bind; [exact _|exact IH|intros n; apply only_reads; [exact _|apply reads_ret]]].
  intros w. change (stays_unapproved w (telemetry_exec (RecordUsage r) w)). solve_telemetry.
Qed.
Lemma calm_mark r t reason : calm (in_store (E := E) (mark_unresolved r t reason)).
Proof.
  apply calm_store. unfold mark_unresolved. apply stays_bind_lift; [exact _|]. intros settlement _. intros w.
  change (stays_unapproved w (telemetry_exec (SettleReservation r settlement []) w)). solve_telemetry.
Qed.
Hint Resolve calm_list calm_now calm_record calm_mark : calm.

Lemma calm_result s status reason limit : calm (_result (E := E) s status reason limit).
Proof. unfold _result. solve_calm. Qed.
Lemma calm_stale s reason : calm (stale_result (E := E) s reason).
Proof. apply calm_result. Qed.
Hint Resolve calm_result calm_stale : calm.

Lemma calm_transition s d reason gate counted metadata : d <> APPROVED -> calm (_transition s d reason gate counted metadata).
Proof.
  intros Hd. unfold _transition. apply stable_bind; [apply calm_now|]. intros t. apply stable_bind_lift. intros result Hr.
  apply stable_bind_lift. intros id _. apply calm_store, persist_transition_stays.
  by rewrite (mv_state _ _ _ _ (transition_run_moved _ _ _ _ _ _ _ _ Hr)).
Qed.
Hint Resolve calm_transition : calm.

Lemma calm_move s d reason : d <> APPROVED -> calm (move s d reason).
Proof. apply calm_transition. Qed.
Lemma calm_terminate_with s d reason limit counted metadata :
  d <> APPROVED -> calm (_terminate_with s d reason limit counted metadata).
Proof. intros Hd. unfold _terminate_with. solve_calm. Qed.
Lemma calm_terminate s d reason : d <> APPROVED -> calm (_terminate s d reason).
Proof. apply calm_terminate_with. Qed.
Lemma calm_exhausted s reason limit : calm (exhausted s reason limit).
Proof. by apply calm_terminate_with. Qed.
Hint Resolve calm_move calm_terminate_with calm_terminate calm_exhausted : calm.

Lemma calm_cancel s counted : calm (_cancel s counted).
Proof. unfold _cancel. solve_calm. Qed.
Lemma calm_terminal_result s : calm (_terminal_result (E := E) s).
Proof. unfold _terminal_result. solve_calm. Qed.
Hint Resolve calm_cancel calm_terminal_result : calm.

Lemma calm_store_record s r r' :
  validate_OrchestrationRecord r = Ok r' -> unapprovable (rec_attempt r) ->
  calm (in_store (E := E) (persist_orchestration_record s r')).
Proof.
  intros Hr Ha. apply calm_store, persist_record_stays. destruct (record_attempt _ _ Hr) as [_ H].
  by eapply validated_unapprovable.
Qed.

Lemma calm_persist s a stage : unapprovable a -> calm (_persist s a stage).
Proof.
  intros Ha. unfold _persist. apply stable_bind; [apply calm_list|]. intros records. apply stable_bind_lift. intros id _.
  apply stable_bind; [apply calm_now|]. intros t. apply stable_bind_lift. intros record Hr. by eapply calm_store_record.
Qed.

Lemma calm_persist_reconciliation s intent r :
  unapprovable (rec_attempt intent) -> calm (_persist_reconciliation (E := E) s intent r).
Proof.
  intros Ha. unfold _persist_reconciliation. apply stable_bind; [apply calm_list|]. intros records.
  apply stable_bind_lift. intros id _. apply stable_bind_lift. intros record Hr. by eapply calm_store_record.
Qed.
Hint Resolve calm_persist calm_persist_reconciliation : calm.
Hint Extern 1 (unapprovable _) => exact I : calm.

Lemma calm_require_current s : calm (_require_current (E := E) s).
Proof. unfold _require_current. solve_calm. Qed.
Lemma calm_attempt_records s step n : calm (_attempt_records (E := E) s step n).
Proof. unfold _attempt_records. solve_calm. Qed.
Lemma calm_next_sequence s step : calm (_next_attempt_sequence (E := E) s step).
Proof. unfold _next_attempt_sequence. solve_calm. Qed.
Lemma calm_repair_count id : calm (_repair_count (E := E) id).
Proof. unfold _repair_count. solve_calm. Qed.
Lemma calm_latest_validation id : calm (_latest_validation (E := E) id).
Proof. unfold _latest_validation. solve_calm. Qed.
Lemma calm_verify s request : calm (_verify_worktree s request).
Proof. unfold _verify_worktree. solve_calm. Qed.
Lemma calm_duration s : calm (_duration_exhausted s).
Proof. unfold _duration_exhausted. solve_calm. Qed.
Lemma calm_duration_budget s : calm (_duration_budget_decision (E := E) s).
Proof. unfold _duration_budget_decision. solve_calm. Qed.
Lemma calm_unresolved s : calm (_has_unresolved_reservation (E := E) s).
Proof. unfold _has_unresolved_reservation. solve_calm. Qed.
Hint Resolve calm_require_current calm_attempt_records calm_next_sequence calm_repair_count calm_latest_validation
  calm_verify calm_duration calm_duration_budget calm_unresolved : calm.
Lemma calm_allowance s t : calm (_validation_allowance_ms (E := E) s t).
Proof. unfold _validation_allowance_ms. solve_calm. Qed.
Lemma calm_reserve s r : calm (reserve (E := E) s r).
Proof. unfold reserve. solve_calm. Qed.
Lemma calm_settle r x : calm (settle (E := E) r x).
Proof. unfold settle. solve_calm. Qed.
Lemma calm_context_usage m t : calm (record_context_usage (E := E) m t).
Proof. unfold record_context_usage. solve_calm. Qed.
Hint Resolve calm_allowance calm_reserve calm_settle calm_context_usage : calm.

Lemma calm_workspace_outcome s request intent : calm (workspace_outcome s request intent).
Proof. unfold workspace_outcome. solve_calm. Qed.
Hint Resolve calm_workspace_outcome : calm.
Lemma calm_workspace s request : calm (_workspace s request).
Proof. unfold _workspace. solve_calm. Qed.

Lemma calm_get_package key : calm (get_package (E := E) key).
Proof. apply stable_gets. Qed.
Hint Resolve calm_get_package : calm.
Lemma calm_restore request a : calm (_restore_context_package request a).
Proof. unfold _restore_context_package. solve_calm. Qed.
Hint Resolve calm_restore : calm.
Lemma calm_restore_requests outcomes requests : calm (restore_requests outcomes requests).
Proof. induction requests; cbn [restore_requests]; solve_calm. Qed.
Hint Resolve calm_restore_requests : calm.
Lemma calm_restore_all s request : calm (_restore_all_context s request).
Proof. unfold _restore_all_context. solve_calm. Qed.
Lemma calm_completion b : calm (completion_time b).
Proof. unfold completion_time. solve_calm. Qed.
Hint Resolve calm_completion : calm.
Lemma calm_perform_context s request intent : calm (perform_context s request intent).
Proof. unfold perform_context. solve_calm. Qed.
Lemma calm_replay_context s request a : calm (replay_context s request a).
Proof. unfold replay_context. solve_calm. Qed.
Hint Resolve calm_perform_context calm_replay_context : calm.
Lemma calm_context_request s n request : calm (context_request s n request).
Proof. unfold context_request. solve_calm. Qed.
Hint Resolve calm_context_request : calm.
Lemma calm_context_loop s n requests : calm (context_loop s n requests).
Proof. revert n. induction requests; intros n; cbn [context_loop]; solve_calm. Qed.
Hint Resolve calm_context_loop : calm.
Lemma calm_context s request : calm (_context s request).
Proof. unfold _context. solve_calm. Qed.
Lemma calm_run_validation s id plan started intent cancellation :
  calm (run_validation s id plan started intent cancellation).
Proof. unfold run_validation. solve_calm. Qed.
Hint Resolve calm_run_validation : calm.
Lemma calm_start_validation s plan n cancellation : calm (start_validation s plan n cancellation).
Proof. unfold start_validation. solve_calm. Qed.
Lemma calm_validation_verdict s a : calm (validation_verdict s a).
Proof. unfold validation_verdict. solve_calm. Qed.
Hint Resolve calm_start_validation calm_validation_verdict : calm.
Lemma calm_validate s request cancellation : calm (_validate s request cancellation).
Proof. unfold _validate. solve_calm. Qed.
Hint Resolve calm_workspace calm_restore_all calm_context calm_validate : calm.

(** *** Agents *)

Lemma concluded_unapprovable f response a b :
  validate_AttemptEvidence (conclude_agent f response a) = Ok b -> is_review a = false -> unapprovable b.
Proof. intros Hb Ha. apply not_review. by rewrite (validated_review _ _ Hb), concluded_review. Qed.

Lemma calm_agent_request prototype id n : calm (_agent_request (E := E) prototype id n).
Proof. unfold _agent_request. solve_calm. Qed.
Lemma calm_agent_side_effects r role request : calm (_agent_side_effects r role request).
Proof. unfold _agent_side_effects. solve_calm. Qed.
Lemma calm_agent_budget s request step : calm (agent_budget s request step).
Proof. unfold agent_budget. solve_calm. Qed.
Lemma calm_invoke (adapter : AgentAdapter E Token) q cancellation : calm (invoke_adapter adapter q cancellation).
Proof. intros w Hw. unfold invoke_adapter. by apply calm_env. Qed.
Lemma calm_settle_agent r response step : calm (settle_agent (E := E) r response step).
Proof. unfold settle_agent. solve_calm. Qed.
Hint Resolve calm_agent_request calm_agent_side_effects calm_agent_budget calm_invoke calm_settle_agent : calm.
Hint Resolve concluded_unapprovable agent_evidence_review not_review : calm.

Lemma calm_prelaunch s step n prototype adapter d write :
  calm (_record_prelaunch_blocked_agent s step n prototype adapter d write).
Proof.
  unfold _record_prelaunch_blocked_agent. repeat first [calm_step | apply calm_persist; eauto with calm].
Qed.

Lemma calm_launch s step intent q adapter cancellation :
  is_review intent = false -> calm (launch_agent s step intent q adapter cancellation).
Proof. intros Hi. unfold launch_agent. repeat first [calm_step | apply calm_persist; eauto with calm]. Qed.

Lemma calm_start_agent s step n prototype adapter id cancellation d write :
  calm (start_agent s step n prototype adapter id cancellation d write).
Proof.
  unfold start_agent. repeat first [calm_step | apply calm_persist; eauto with calm | apply calm_launch; eauto with calm].
Qed.
Hint Resolve calm_prelaunch calm_start_agent : calm.

Lemma calm_agent_attempt s step n prototype adapter cancellation d write :
  calm (_agent_attempt s step n prototype adapter cancellation d write).
Proof. unfold _agent_attempt. solve_calm. Qed.
Hint Resolve calm_agent_attempt : calm.

Lemma calm_build s request cancellation : calm (_build s request cancellation).
Proof. unfold _build. solve_calm. Qed.

Lemma calm_offers_all (adapter : AgentAdapter E Token) ps : calm (offers_all adapter ps).
Proof. induction ps; cbn [offers_all]; solve_calm. Qed.
Hint Resolve calm_offers_all : calm.
Lemma calm_repair_input s request : calm (_repair_input s request).
Proof. unfold _repair_input. solve_calm. Qed.
Lemma calm_repair_verdict s a : calm (repair_verdict s a).
Proof. unfold repair_verdict. solve_calm. Qed.
Hint Resolve calm_repair_input calm_repair_verdict : calm.
Lemma calm_repair s request cancellation : calm (_repair s request cancellation).
Proof. unfold _repair. solve_calm. Qed.

Lemma calm_reconcile_reservation s attempts r : calm (reconcile_reservation s attempts r).
Proof. unfold reconcile_reservation. solve_calm. Qed.
Hint Resolve calm_reconcile_reservation : calm.
Lemma calm_reconcile_reservations s attempts rs : calm (reconcile_reservations s attempts rs).
Proof. induction rs; cbn [reconcile_reservations]; solve_calm. Qed.
Hint Resolve calm_reconcile_reservations : calm.
Lemma calm_reconcile_telemetry s : calm (_reconcile_telemetry s).
Proof. unfold _reconcile_telemetry. solve_calm. Qed.
Hint Resolve calm_build calm_repair calm_reconcile_telemetry : calm.

(** *** Reviews *)

Context {conservative_evidence : ConservativeEvidence}.

Lemma reviewed_unapprovable a b :
  validate_ReviewAttempt a = Ok b -> unapprovable (Review a) -> unapprovable (Review b).
Proof. intros Hb Ha d Hd. destruct (review_decision _ _ _ Hb Hd) as (d0 & Hd0 & <-). by apply Ha. Qed.

Lemma collect_yields plan result response t :
  yields (in_env (collect plan result response t)) (fun l => le_scope_justified l = false).
Proof.
  intros w Hw. unfold in_env. destruct (collect plan result response t (w_env w)) as [e o] eqn:H. split; [done|].
  cbn. intros l ->. by eapply conservative.
Qed.

Lemma perform_review_yields s q plan result intent cancellation :
  yields (perform_review s q plan result intent cancellation) (fun r => unapprovable (Review (fst r))).
Proof.
  unfold perform_review. eapply yields_seq; [apply yields_any, calm_invoke|]. intros raw _.
  eapply yields_seq; [apply yields_any, stable_lift|]. intros response _. eapply yields_seq; [apply yields_any, calm_now|]. intros t _.
  eapply yields_seq; [apply collect_yields|]. intros collected Hc. eapply yields_seq; [apply yields_any, calm_list|]. intros records _.
  eapply yields_seq; [apply yields_lift; intros l Hl; exact (reconciled_scope _ _ _ Hl)|]. intros l Hl.
  eapply yields_seq; [apply yields_lift; intros g Hg; exact (gate_input_scope _ _ Hg)|]. intros g Hg. cbn in Hg.
  eapply yields_seq; [apply yields_lift; intros d Hd; exact (approvable_scope _ _ Hd)|]. intros d Hd.
  eapply yields_seq; [apply yields_any, stable_lift|]. intros failure _.
  eapply yields_seq; [apply yields_lift; intros terminal Ht; exact (reviewed_unapprovable _ _ Ht)|]. intros terminal Ht.
  apply yields_ret, Ht. intros d' [= <-] Happ. specialize (Hd Happ). congruence.
Qed.

Lemma launch_review_yields s q plan result intent cancellation :
  unapprovable (Review intent) ->
  yields (launch_review s q plan result intent cancellation) (fun r => unapprovable (Review r)).
Proof.
  intros Hi. unfold launch_review. eapply yields_seq; [apply yields_any, calm_require_current|]. intros _ _.
  eapply yields_seq; [apply yields_any, calm_agent_budget|]. intros budget _. destruct (negb (allows (fst budget))).
  - eapply yields_seq; [apply yields_any, calm_now|]. intros t _. eapply yields_seq; [apply yields_any, stable_lift|]. intros failure _.
    eapply yields_seq; [apply yields_lift; intros terminal Ht; exact (reviewed_unapprovable _ _ Ht Hi)|]. intros terminal Ht.
    eapply yields_seq; [by apply yields_any, calm_persist|]. intros _ _. by apply yields_ret.
  - destruct (snd budget) as [reservation|]; [|apply yields_raise].
    eapply yields_seq; [apply perform_review_yields|]. intros [terminal response] Ht. cbn in *.
    eapply yields_seq; [by apply yields_any, calm_persist|]. intros _ _.
    eapply yields_seq; [apply yields_any, calm_settle_agent|]. intros _ _. by apply yields_ret.
Qed.

Lemma review_once_yields s request validation n cancellation :
  yields (_review_once s request validation n cancellation) (fun o => forall r, o = Some r -> unapprovable (Review r)).
Proof.
  unfold _review_once. eapply yields_seq; [apply yields_any, calm_env|]. intros c _.
  eapply yields_seq; [apply yields_any, stable_lift|]. intros id _. eapply yields_seq; [apply yields_any, calm_agent_request|]. intros q _.
  eapply yields_seq; [apply yields_any, calm_now|]. intros t _. destruct (va_result validation); [|apply yields_raise].
  eapply yields_seq; [apply yields_lift; intros intent Hi; exact (reviewed_unapprovable _ _ Hi)|]. intros intent Hi.
  assert (unapprovable (Review intent)) by by apply Hi.
  eapply yields_seq; [by apply yields_any, calm_persist|]. intros written _. destruct (negb _); [by apply yields_ret|].
  apply yields_fmap. intros w Hw. destruct (launch_review_yields s q (va_plan validation) v intent cancellation ltac:(done) w Hw).
  split; [done|]. intros r Hr ? [= <-]. eauto.
Qed.

Lemma calm_review_verdict s a : unapprovable (Review a) -> calm (review_verdict s a).
Proof.
  intros Ha. unfold review_verdict. destruct (rv_gate_decision a) as [d|] eqn:Hd; [|solve_calm].
  specialize (Ha _ Hd). destruct (gd_status d); solve_calm.
Qed.

Lemma attempts_yields s step n : yields (_attempt_records (E := E) s step n) (fun existing =>
  forall r, ex_outcome existing = Some r -> unapprovable (rec_attempt r)).
Proof.
  unfold _attempt_records. apply yields_fmap. intros w Hw. destruct (list_yields (run_id (stored_run s)) w Hw) as [H1 H2].
  split; [done|]. intros records Hr r Hout. specialize (H2 _ Hr). rewrite Forall_forall in H2. apply H2.
  by apply find_first_Some in Hout as [? _].
Qed.

Lemma calm_review s request cancellation : calm (_review s request cancellation).
Proof.
  unfold _review. apply stable_bind; [apply calm_verify|]. intros _. apply stable_bind; [apply calm_env|]. intros c.
  destruct (negb _); [solve_calm|]. apply stable_bind; [apply calm_next_sequence|]. intros n. cbv zeta.
  destruct (_ || _); [solve_calm|]. apply stable_bind; [apply calm_latest_validation|]. intros [validation|]; [|solve_calm].
  destruct (negb _); [solve_calm|]. eapply yields_bind; [apply attempts_yields|]. intros existing He.
  cbv beta in He. destruct (ex_outcome existing) as [r|].
  - specialize (He r eq_refl). destruct (rec_attempt r); try apply stable_raise. by apply calm_review_verdict.
  - destruct (ex_intent existing); [solve_calm|]. eapply yields_bind; [apply review_once_yields|].
    intros [a|] Ha; [apply calm_review_verdict; by apply Ha|solve_calm].
Qed.
Hint Resolve calm_review : calm.

(** *** The public operations *)

Lemma calm_stage s request cancellation : calm (run_stage s request cancellation).
Proof. unfold run_stage, guarded. solve_calm. Qed.
Hint Resolve calm_stage : calm.

Lemma calm_coordinate request cancellation : calm (coordinate request cancellation).
Proof. unfold coordinate, cancelled, failing_state. solve_calm. Qed.
Hint Resolve calm_coordinate : calm.

Lemma calm_loop n request cancellation : calm (coordination_loop n request cancellation).
Proof. induction n as [|n IH]; cbn [coordination_loop]; solve_calm. Qed.
Hint Resolve calm_loop : calm.

Lemma calm_execute request cancellation : calm (execute request cancellation).
Proof. unfold execute. solve_calm. Qed.

Lemma calm_reconcile_run request : calm (reconcile_run request).
Proof.
  unfold reconcile_run, Reconciliation.reconcile, reconciliation. apply stable_bind; [solve_calm|]. intros s.
  destruct (is_terminal _); [solve_calm|]. eapply yields_bind; [apply list_yields|]. intros records Hr.
  destruct (incomplete_intent records) as [intent|] eqn:Hi; [|solve_calm].
  assert (unapprovable (rec_attempt intent)).
  { rewrite Forall_forall in Hr. apply Hr. by apply find_first_Some in Hi as [? _]. }
  solve_calm.
Qed.

Lemma calm_service_cancel request : calm (Service.cancel request).
Proof. unfold Service.cancel. solve_calm. Qed.
End Service.

#[export] Hint Resolve calm_list calm_now calm_execute calm_reconcile_run calm_service_cancel : calm.

(** ** The use cases *)

Section UseCases.
Context {E Token : Type} {composition : RuntimeComposition E Token} {factories : ReadingFactories composition}
  {conservative_evidence : ConservativeEvidence (E := E) (Token := Token)}.
Abbreviation W := (World E).
Abbreviation calm := (stable no_approval).

Lemma calm_still {A} (m : M W A) : only same_durable m -> calm m.
Proof. intros Hm w Hw. unfold no_approval. by destruct (Hm w) as [-> _]. Qed.

Lemma calm_make_request run revision : calm (make_request run revision).
Proof. apply calm_still, make_request_reads. Qed.
Lemma calm_identity run : calm (identity_failure run).
Proof. apply calm_still, still_identity. Qed.
Lemma calm_stale_now id : calm (stale_now (E := E) id).
Proof. apply calm_still, still_stale. Qed.
Lemma calm_binding id : calm (in_store (E := E) (get_runtime_binding id)).
Proof. apply calm_reads, binding_reads. Qed.
Lemma calm_bound_run run binding : calm (in_store (E := E) (create_bound_run run binding)).
Proof. apply calm_store, bound_run_stays. Qed.
Hint Resolve calm_make_request calm_identity calm_stale_now calm_binding calm_bound_run : calm.

Lemma calm_start request : calm (start request).
Proof. unfold start. solve_calm. Qed.
Lemma calm_resume request : calm (resume request).
Proof. unfold resume, resume_body. solve_calm. Qed.
Lemma calm_cancel_run request : calm (cancel_run request).
Proof. unfold cancel_run, cancel_body. solve_calm. Qed.
Lemma calm_status id : calm (status id).
Proof. apply calm_still. intros w. apply status_reads_only. Qed.
End UseCases.

(** ** The production composition *)

Section Production.
Context {E Token : Type}.

Inductive use_case : Type :=
| Start (request : StartRunRequest)
| Resume (request : RunRequest)
| Cancel (request : RunRequest)
| Status (id : string).

(** One call of a use case on a runtime composed from a configuration. *)
Definition perform (composition : RuntimeComposition E Token) (u : use_case) (w : World E) : World E :=
  match u with
  | Start request => fst (start (composition := composition) request w)
  | Resume request => fst (resume (composition := composition) request w)
  | Cancel request => fst (cancel_run (composition := composition) request w)
  | Status id => fst (status (composition := composition) id w)
  end.

(** What the production runtime can reach from a new store: any calls, in any order, each
    on a runtime composed from any configuration over any collaborators, and restarts,
    which forget the packages and may change the environment. *)
Inductive operated : World E -> Prop :=
| operated_new t env : operated (mk_World (new_store t) [] env [])
| operated_call host uuid_hex discover effective u w :
    operated w -> operated (perform (composed host uuid_hex discover effective) u w)
| operated_restart packages env w : operated w -> operated (mk_World (w_store w) packages env (w_invoked w)).

Lemma production_conservative (host : Collaborators E Token) : @ConservativeEvidence E Token (production host).
Proof.
  intros plan result response t e e' l H. apply lift_Ok in H as [_ H]. by rewrite (local_scope _ _ H).
Qed.

(** C6: no run of the production runtime is ever approved: whatever the agents, Git, the
    validation commands and the clock answer, however often runs are started, resumed,
    cancelled and the program restarted, and under whatever configurations, no stored run
    is approved and no recorded review is approvable, because the evidence a production
    composition collects never justifies the scope of a change. *)
Theorem production_never_approves w (Hw : operated w) :
  (forall id s, snd (get_run id (w_store w)) = Ok s -> run_state (stored_run s) <> APPROVED)
  /\ (forall id records r a d, snd (list_orchestration_records id (w_store w)) = Ok records -> r ∈ records ->
      rec_attempt r = Review a -> rv_gate_decision a = Some d -> gd_status d <> ReviewGateStatus.APPROVABLE).
Proof.
  assert (Ha : no_approval w).
  { induction Hw as [t env|host uuid_hex discover effective u w _ IH|packages env w _ IH]; [| |exact IH].
    2:{ pose (composition := composed host uuid_hex discover effective).
      pose proof (production_conservative host
        : @ConservativeEvidence E Token (composed_collaborators (RuntimeComposition := composition))).
      destruct u; cbn.
      - by apply (calm_start (composition := composition)).
      - by apply (calm_resume (composition := composition)).
      - by apply (calm_cancel_run (composition := composition)).
      - by apply (calm_status (composition := composition)). }
    split; [by intros id row H|]. intros row H. by apply not_elem_of_nil in H. }
  split.
  - intros id s Hs. destruct (run_yields id w Ha) as [_ H]. apply H. unfold in_store.
    rewrite (surjective_pairing (get_run id (w_store w))). done.
  - intros id records r a d Hr Hin Hreview Hd. destruct (list_yields id w Ha) as [_ H].
    assert (Hl : snd (list_records id w) = Ok records).
    { unfold list_records, in_store. rewrite (surjective_pairing (list_orchestration_records id (w_store w))). done. }
    specialize (H _ Hl). rewrite Forall_forall in H. specialize (H r Hin). rewrite Hreview in H. by apply H.
Qed.
End Production.
