(* ===== verification/CompositionSample.v ===== *)
(** * A configuration and the runtime composed from it

    The default configuration read from a file of a project at [/srv], the directories it
    owns, and a composition that makes runs and requests for the run of the samples. *)

From Stdlib Require Import ZArith Lia Ascii String.
From S2P Require Import Prelude Text Domain StateMachine Effects Sha256 Commands Agents GitPort TelemetryPort Validation ValidationRunner ValidationExecution ContextPort CommandPolicy Unicode ContextReader Ownership LocalGit TelemetryService ReviewGate OrchestrationPorts RepairPolicy Reconciliation RuntimePort Tables Storage RunJournal UsageStore DurableStore Coordination Service WriteAhead ServiceOutcomes ServiceSample Providers Workflows WorkflowSafety WorkflowSample Configuration ConfigurationSafety RuntimeComposition CompositionSafety Approvals.
From stdpp Require Import base option strings numbers gmap sets list list_relations.

Open Scope Z_scope.

Module CompositionSample.
Import ReconciliationSample.

(** What the file holds, once parsed: the defaults, with write repair as given. *)
Definition fields (write_repair : bool) : RevanentConfig :=
  mk_RevanentConfig 1 (mk_ProjectConfig "demo") (mk_WorkspaceConfig ".revanent/worktrees" true)
    (mk_BuilderConfig "local-model" 3 1800) (mk_ReviewerConfig review_then_repair 3 2 1800)
    [mk_ValidationCommandConfig "tests" ["pytest"; "-q"]]
    (mk_BudgetsConfig 90 None None)
    (mk_PolicyConfig ["src/**"; "tests/**"] [".git/**"; ".env"] write_repair false false false)
    (mk_ReportingConfig ".revanent\runs" [json_format]).

Definition config (write_repair : bool) : RevanentConfig :=
  match validate_RevanentConfig (fields write_repair) with Ok c => c | Err _ => fields write_repair end.

Definition root : Path := mk_Path true ["srv"].
Definition text : string := "schema_version: 1".

(** A disk with one file; the state is the number of bytes read. *)
Definition stat : FileStat := mk_FileStat true 1 7 (byte_len text) 7.

#[export] Instance files : ReaderHost Z := {|
  rh_files := {|
    fs_resolve _ p := mret p;
    fs_is_dir _ := mret true;
    fs_is_file _ := mret true;
    fs_executable _ := mret false;
    fs_exists _ := mret true;
    fs_is_symlink _ := mret false;
    fs_lexists _ := mret true
  |};
  fs_stat _ := mret stat;
  open_binary _ := mret 3;
  fstat _ := mret stat;
  read_stream _ size := fun read => (byte_len text, Ok (if read =? 0 then text else ""));
  close_file _ := mret ();
  iterdir _ := mret []
|}.

#[export] Instance folding : CaseFolding := {| unicode_casefold n := [n] |}.

#[export] Instance disk : ConfigHost Z := {|
  lstat _ := mret (false, stat);
  Document := string;
  yaml_load raw := if String.eqb raw text then Some raw else None;
  is_mapping _ := true;
  Configuration.schema_version _ := Some 1;
  config_fields _ := Ok (fields false)
|}.

(** The runtime composed from the configuration, for the repository [/srv/repo]. *)
Definition effective (write_repair : bool) : EffectiveConfiguration :=
  mk_EffectiveConfiguration source (joinpath source ["revanent.yaml"]) (config write_repair) PROJECT.

(** The worktree of the run, owned and clean. *)
Definition worktree : Path := joinpath source [".revanent"; "worktrees"; "run_" +:+ hex32].
Definition branch : string := "revanent/P4-002-00000001".
Definition owned : WorktreeOwnershipRecord :=
  mk_WorktreeOwnershipRecord ("wt_" +:+ hex32) (Some ("run_" +:+ hex32)) identity worktree branch commit
    commit (utc 0) "0.1.0" WorktreeLifecycleStatus.ACTIVE None None None 1.
Definition live : WorktreeSnapshot := mk_WorktreeSnapshot worktree commit (Some branch) false false None None 1.

(** Collaborators whose work is faultless: the commands pass and the reviewer approves. *)
Definition collaborators : Collaborators Z unit := {|
  Service.now := ServiceSample.tick;
  is_cancelled _ := mret false;
  create_worktree _ := mret (mk_WorktreeCreationResult owned live);
  verify_owned_worktree _ :=
    mret (mk_WorktreeVerificationResult owned live
            (mk_RepositorySnapshot identity (Some branch) false commit None None status [live] 1));
  execute_validation p started _ := fun t =>
    (t + 5000, Ok (aggregate_value p
       (ValidationRunner.result_of p (hd ValidationSample.tests (plan_commands p)) 1 ValidationStatus.PASSED (Some CommandStatus.SUCCESS) started 5
          (Some (mk_Path true ["usr"; "bin"; "pytest"])) (Some 0) empty_output empty_output None) []));
  collect p _ r t := mret (ServiceSample.evidence p r t);
  select_context q := mret (mk_ContextSelectionResult 1 (Some (ServiceSample.package (csq_role q))) None);
  adapters := adapters (Collaborators := ServiceSample.collaborators)
|}.

Definition composition (write_repair : bool) : RuntimeComposition Z unit :=
  composed collaborators (mret hex32) (fun _ => mret identity) (effective write_repair).

Definition run : Run := DurableSample.run.
Definition ask : StartRunRequest := mk_StartRunRequest (run_task run) (run_work_package run).

Lemma host : ComposedHost collaborators (mret hex32).
Proof. split; [intros w w' t [= <- <-]; done|intros w w' hex [= <- <-]; vm_compute; reflexivity]. Qed.
End CompositionSample.

Import CompositionSample.

Lemma sample_valid : validate_RevanentConfig (fields true) = Ok (config true).
Proof. vm_compute. reflexivity. Qed.

Lemma configured_paths_contained_witness :
  stays_below (workspace_root (config_workspace (config true)))
  /\ report_directory (config_reporting (config true)) = ".revanent/runs".
Proof.
  destruct (configured_paths_contained (fields true) (config true) sample_valid) as (H & _).
  split; [exact (proj1 (proj1 (Forall_cons _ _ _) H))|vm_compute; reflexivity].
Defined.

(** Loading with an override of the minutes. *)
Lemma loaded_end_to_end :
  match load_effective_config (host := disk) root None (Some 30) 0 with
  | (_, Ok e) => max_total_minutes (config_budgets (effective_config e)) = 30
  | (_, Err _) => False
  end.
Proof. vm_compute. reflexivity. Qed.

Lemma effective_configuration_spec_witness : exists e,
  max_total_minutes (config_budgets (effective_config e)) = 30 /\ max_total_minutes_source e = CLI.
Proof.
  pose proof loaded_end_to_end as H.
  destruct (load_effective_config (host := disk) root None (Some 30) 0) as [w' [e|]] eqn:Hload; [|destruct H].
  destruct (effective_configuration_spec root None (Some 30) 0 w' e Hload) as (_ & base & _ & _ & H1 & _ & _ & _ & H2).
  exists e. split; [exact H1|exact H2].
Defined.

Lemma owned_end_to_end :
  match resolve_project_paths (effective true) 0 with (_, Ok _) => True | (_, Err _) => False end.
Proof. vm_compute. exact I. Qed.

Lemma owned_directories_apart_witness : exists paths,
  _contains (effective_root (effective true)) (state_root paths) = true.
Proof.
  pose proof owned_end_to_end as H.
  destruct (resolve_project_paths (effective true) 0) as [w' [paths|]] eqn:Hpaths; [|destruct H].
  exists paths. destruct (owned_directories_apart (effective true) 0 w' paths Hpaths) as [Hall _].
  rewrite !Forall_cons in Hall. exact (proj1 (proj2 (proj2 Hall))).
Defined.

(** A request made for the bound run. *)
Lemma request_end_to_end :
  match make_request (RuntimeComposition := composition false) run (Some 0) ServiceSample.start with
  | (_, Ok q) => length (validation_plans q) = 2%nat
  | (_, Err _) => False
  end.
Proof. vm_compute. reflexivity. Qed.

Lemma requests_keep_scope_witness : exists q : OrchestrationRequest,
  allowed_scope (builder_request q) = ["src/parser.py"] /\ codex_repair_request q = None.
Proof.
  pose proof request_end_to_end as H.
  destruct (make_request (RuntimeComposition := composition false) run (Some 0) ServiceSample.start) as [w' [q|]] eqn:Hmake;
    [|destruct H].
  destruct (requests_keep_scope collaborators (mret ReconciliationSample.hex32) (fun _ => mret ReconciliationSample.identity)
              (effective false) run (Some 0) ServiceSample.start w' q Hmake) as (_ & _ & (_ & _ & Ha & _) & _ & _ & Hc & _).
  exists q. split; [exact Ha|exact Hc].
Defined.

Lemma write_repair_never_starts_witness :
  allow_codex_write_repair (config_policy (config true)) = true
  /\ w_invoked (fst (start (composition := composition true) ask WorkflowSample.empty)) = [].
Proof.
  split; [vm_compute; reflexivity|].
  destruct (write_repair_never_starts collaborators (mret ReconciliationSample.hex32)
              (fun _ => mret ReconciliationSample.identity) (effective true)) as (_ & Hstart & _); [vm_compute; reflexivity|].
  destruct (start (composition := composition true) ask WorkflowSample.empty) as [w' o] eqn:Hrun.
  exact (proj1 (Hstart _ _ _ _ Hrun)).
Defined.

Lemma configuration_makes_runs_witness : exists made : Run,
  run_state made = CREATED /\ max_duration_seconds (run_budgets made) = 5400.
Proof.
  destruct (configuration_makes_runs collaborators (mret ReconciliationSample.hex32)
              (fun _ => mret ReconciliationSample.identity) (effective true) (environment := CompositionSample.host)
              (fields true) ask 0 1000 1000 (utc 1000) ReconciliationSample.hex32)
    as (made & _ & _ & _ & Hs & _ & Hb & _); try (vm_compute; reflexivity).
  exists made. split; [exact Hs|rewrite Hb; vm_compute; reflexivity].
Defined.

(** ** A faultless run is not approved *)

(** The build completes, the validation passes and the reviewer approves: the run fails. *)
Definition finished : World Z := perform (composition false) (Start ask) WorkflowSample.empty.

Lemma finished_end_to_end :
  match snd (get_run ServiceSample.rid (w_store finished)) with
  | Ok s => run_state (stored_run s) = FAILED /\ length (w_invoked finished) = 2%nat
            /\ length (st_records (w_store finished)) = 12%nat
  | Err _ => False
  end.
Proof. vm_compute. repeat split. Qed.

Lemma production_never_approves_witness : exists s,
  snd (get_run ServiceSample.rid (w_store finished)) = Ok s /\ run_state (stored_run s) <> APPROVED
  /\ length (w_invoked finished) = 2%nat.
Proof.
  pose proof finished_end_to_end as H.
  destruct (snd (get_run ServiceSample.rid (w_store finished))) as [s|] eqn:Hs; [|destruct H].
  exists s. split; [reflexivity|]. split; [|exact (proj1 (proj2 H))].
  destruct (production_never_approves (Token := unit) finished) as [Hruns _].
  - apply operated_call, operated_new.
  - exact (Hruns _ _ Hs).
Defined.
