(* ===== verification/Reports.v ===== *)
(** * Evidence reports

    [ports/reporting.py] and [application/reports.py]: the report of a run with its parts and
    validators, and its assembly from the status, the stored run and the durable records.
    What the interpreter says of itself and the JSON text of a configuration are parameters. *)

From Stdlib Require Import ZArith Lia Ascii String.
From S2P Require Import Prelude Text Domain StateMachine Effects Sha256 Commands Agents GitPort TelemetryPort Validation ContextPort TelemetryService ReviewGate OrchestrationPorts RepairPolicy Reconciliation RuntimePort Tables Storage RunJournal UsageStore DurableStore Coordination Service Workflows Unicode Configuration.
From stdpp Require Import base option strings numbers gmap sets list list_relations.

Open Scope Z_scope.

(** ** The port *)

Definition EVIDENCE_REPORT_SCHEMA_VERSION : Z := 1.
Definition MAX_REPORT_ATTEMPTS : nat := 128.
Definition MAX_REPORT_ARTIFACTS : nat := 128.
Definition MAX_REPORT_FINDINGS : nat := 128.
Definition MAX_REPORT_WARNINGS : nat := 64.
Definition MAX_REPORT_BYTES : Z := 1048576.

Module EvidenceReportStatus.
Inductive t : Type :=
| COMPLETE | COMPLETE_WITH_WARNINGS | INCOMPLETE | INVALID_EVIDENCE | BLOCKED | NOT_FOUND | OUTPUT_CONFLICT
| INTERNAL_FAILURE.
#[export] Instance eq_dec : EqDecision t.
Proof. solve_decision. Defined.
Definition value (s : t) : string :=
  match s with
  | COMPLETE => "COMPLETE" | COMPLETE_WITH_WARNINGS => "COMPLETE_WITH_WARNINGS" | INCOMPLETE => "INCOMPLETE"
  | INVALID_EVIDENCE => "INVALID_EVIDENCE" | BLOCKED => "BLOCKED" | NOT_FOUND => "NOT_FOUND"
  | OUTPUT_CONFLICT => "OUTPUT_CONFLICT" | INTERNAL_FAILURE => "INTERNAL_FAILURE"
  end.
End EvidenceReportStatus.
#[export] Existing Instance EvidenceReportStatus.eq_dec.

(** A tuple with [max_length]. *)
Definition at_most {A} (n : nat) (name : string) (xs : list A) : res unit :=
  require (length xs <=? n)%nat name.

(** A tuple of stripped texts. *)
Definition texts (n : nat) (name : string) (xs : list string) : res (list string) :=
  at_most n name xs ;; mret (str_strip <$> xs).

(** [str | None] with [max_length] *)
Definition short (name : string) (n : Z) (s : option string) : res (option string) :=
  validate_optional (text_field name 0 n) s.

(** [^[0-9a-f]{64}$] *)
Definition hex64_pattern : list pat := [Cls (in_class "abcdef" is_digit) 64 64].
(** [^report_[0-9a-f]{64}$] *)
Definition report_id_pattern : list pat := Lit "report_" :: hex64_pattern.

(** The timestamp validators. *)
Definition utc_times (ts : list (option datetime)) : res unit :=
  raise_if (existsb (fun t => match t with Some t => negb (is_utc t) | None => false end) ts)
    (ValueError "report timestamps must be UTC").

Record ReportFailure := mk_ReportFailure { rpf_code : string; rpf_message : string }.

Definition validate_ReportFailure (f : ReportFailure) : res ReportFailure :=
  code ← pattern_field "code" code_pattern (rpf_code f) ;
  message ← text_field "message" 1 512 (rpf_message f) ;
  mret (mk_ReportFailure code message).

Record EvidenceSection := mk_EvidenceSection { section_name : string; section_complete : bool; reason_codes : list string }.

Definition validate_EvidenceSection (s : EvidenceSection) : res EvidenceSection :=
  name ← pattern_field "name" code_pattern (section_name s) ;
  codes ← texts MAX_REPORT_WARNINGS "reason_codes" (reason_codes s) ;
  mret (mk_EvidenceSection name (section_complete s) codes).

Record ReportArtifact := mk_ReportArtifact {
  reference : string;
  rpa_content_type : string;
  rpa_observed_bytes : Z;
  rpa_stored_bytes : Z;
  digest_sha256 : option string;
  rpa_complete : bool;
  rpa_correlation : option string
}.

Definition validate_ReportArtifact (a : ReportArtifact) : res ReportArtifact :=
  r ← text_field "reference" 3 512 (reference a) ;
  content ← text_field "content_type" 3 128 (rpa_content_type a) ;
  require (0 <=? rpa_observed_bytes a) "observed_bytes" ;;
  require (0 <=? rpa_stored_bytes a) "stored_bytes" ;;
  digest ← validate_optional (pattern_field "digest_sha256" hex64_pattern) (digest_sha256 a) ;
  correlation ← short "correlation" 128 (rpa_correlation a) ;
  mret (mk_ReportArtifact r content (rpa_observed_bytes a) (rpa_stored_bytes a) digest (rpa_complete a) correlation).

Record ReportAttempt := mk_ReportAttempt {
  rat_attempt_id : string;
  rat_kind : OrchestrationStep.t;
  rat_sequence : Z;
  rat_status : AttemptStatus.t;
  rat_side_effects : ReconciliationState.t;
  rat_started_at : datetime;
  rat_completed_at : option datetime;
  rat_role : option string;
  rat_adapter_id : option string;
  rat_invocation_id : option string;
  rat_artifact_references : list string
}.

Definition validate_ReportAttempt (a : ReportAttempt) : res ReportAttempt :=
  id ← text_field "attempt_id" 1 128 (rat_attempt_id a) ;
  require (in_range 1 100 (rat_sequence a)) "sequence" ;;
  utc_times [Some (rat_started_at a); rat_completed_at a] ;;
  role ← short "role" 32 (rat_role a) ;
  adapter ← short "adapter_id" 128 (rat_adapter_id a) ;
  invocation ← short "invocation_id" 128 (rat_invocation_id a) ;
  references ← texts MAX_REPORT_ARTIFACTS "artifact_references" (rat_artifact_references a) ;
  mret (mk_ReportAttempt id (rat_kind a) (rat_sequence a) (rat_status a) (rat_side_effects a) (rat_started_at a)
          (rat_completed_at a) role adapter invocation references).

Record ReportValidationCommand := mk_ReportValidationCommand {
  rvc_command_id : string;
  rvc_name : string;
  rvc_executable : string;
  rvc_classification : ValidationCommandClass.t;
  rvc_status : ValidationStatus.t;
  rvc_expected_exit_codes : list Z;
  rvc_exit_code : option Z;
  rvc_duration_ms : Z;
  rvc_failure_code : option string;
  rvc_artifact_references : list string
}.

Definition validate_ReportValidationCommand (c : ReportValidationCommand) : res ReportValidationCommand :=
  id ← text_field "command_id" 1 128 (rvc_command_id c) ;
  name ← text_field "name" 1 128 (rvc_name c) ;
  executable ← text_field "executable" 1 128 (rvc_executable c) ;
  not_negative "exit_code" (rvc_exit_code c) ;;
  require (0 <=? rvc_duration_ms c) "duration_ms" ;;
  code ← validate_optional (pattern_field "failure_code" code_pattern) (rvc_failure_code c) ;
  references ← texts MAX_REPORT_ARTIFACTS "artifact_references" (rvc_artifact_references c) ;
  mret (mk_ReportValidationCommand id name executable (rvc_classification c) (rvc_status c) (rvc_expected_exit_codes c)
          (rvc_exit_code c) (rvc_duration_ms c) code references).

Record ReportValidation := mk_ReportValidation {
  rpv_plan_id : option string;
  rpv_status : option ValidationStatus.t;
  rpv_required_commands : Z;
  rpv_passed : Z;
  rpv_failed : Z;
  rpv_timed_out : Z;
  rpv_cancelled : Z;
  rpv_unavailable : Z;
  rpv_evidence_complete : bool;
  rpv_commands : list ReportValidationCommand
}.

Definition validate_ReportValidation (v : ReportValidation) : res ReportValidation :=
  plan ← short "plan_id" 128 (rpv_plan_id v) ;
  require (forallb (Z.leb 0) [rpv_required_commands v; rpv_passed v; rpv_failed v; rpv_timed_out v; rpv_cancelled v;
                              rpv_unavailable v]) "commands" ;;
  at_most 64 "commands" (rpv_commands v) ;;
  mret (mk_ReportValidation plan (rpv_status v) (rpv_required_commands v) (rpv_passed v) (rpv_failed v) (rpv_timed_out v)
          (rpv_cancelled v) (rpv_unavailable v) (rpv_evidence_complete v) (rpv_commands v)).

Record ReportFinding := mk_ReportFinding { rfd_finding_id : string; rfd_severity : string; rfd_summary : string }.

Definition validate_ReportFinding (f : ReportFinding) : res ReportFinding :=
  id ← text_field "finding_id" 1 128 (rfd_finding_id f) ;
  severity ← text_field "severity" 1 32 (rfd_severity f) ;
  summary ← text_field "summary" 1 256 (rfd_summary f) ;
  mret (mk_ReportFinding id severity summary).

Record ReportReview := mk_ReportReview {
  rpr_decision : option string;
  rpr_attempt_status : option AttemptStatus.t;
  rpr_approval_gate_present : bool;
  approval_gate_valid : bool;
  rpr_unresolved_high_or_critical : Z;
  reviewer_adapter_id : option string;
  rpr_findings : list ReportFinding
}.

Definition validate_ReportReview (r : ReportReview) : res ReportReview :=
  decision ← short "decision" 64 (rpr_decision r) ;
  require (0 <=? rpr_unresolved_high_or_critical r) "unresolved_high_or_critical" ;;
  adapter ← short "reviewer_adapter_id" 128 (reviewer_adapter_id r) ;
  at_most MAX_REPORT_FINDINGS "findings" (rpr_findings r) ;;
  mret (mk_ReportReview decision (rpr_attempt_status r) (rpr_approval_gate_present r) (approval_gate_valid r)
          (rpr_unresolved_high_or_critical r) adapter (rpr_findings r)).

Record ReportContext := mk_ReportContext {
  manifest_ids : list string;
  rpc_retained_bytes : Z;
  rpc_baseline_bytes : Z;
  rpc_included_count : Z;
  rpc_excluded_count : Z;
  rpc_required_evidence_complete : bool;
  rpc_complete : bool
}.

Definition validate_ReportContext (c : ReportContext) : res ReportContext :=
  ids ← texts 16 "manifest_ids" (manifest_ids c) ;
  require (forallb (Z.leb 0) [rpc_retained_bytes c; rpc_baseline_bytes c; rpc_included_count c; rpc_excluded_count c])
    "context" ;;
  mret (mk_ReportContext ids (rpc_retained_bytes c) (rpc_baseline_bytes c) (rpc_included_count c) (rpc_excluded_count c)
          (rpc_required_evidence_complete c) (rpc_complete c)).

Record ReportWorkspace := mk_ReportWorkspace {
  rpw_worktree_id : option string;
  rpw_relative_path : option string;
  rpw_branch : option string;
  rpw_lifecycle : option string;
  ownership_verified : bool
}.

Definition validate_ReportWorkspace (w : ReportWorkspace) : res ReportWorkspace :=
  id ← short "worktree_id" 128 (rpw_worktree_id w) ;
  path ← short "relative_path" 512 (rpw_relative_path w) ;
  branch ← short "branch" 255 (rpw_branch w) ;
  lifecycle ← short "lifecycle" 32 (rpw_lifecycle w) ;
  mret (mk_ReportWorkspace id path branch lifecycle (ownership_verified w)).

(** [ReportUsage] has the fields and constraints of [UsageStatusItem]. *)
Definition ReportUsage : Type := UsageStatusItem.
Definition validate_ReportUsage : ReportUsage -> res ReportUsage := validate_UsageStatusItem.

Record ReportReservation := mk_ReportReservation {
  rpn_reservation_id : string;
  rpn_metric : string;
  rpn_status : ReservationStatus.t;
  rpn_integer_reserved : option Z;
  rpn_decimal_reserved : option decimal;
  rpn_currency : option string
}.

Definition validate_ReportReservation (r : ReportReservation) : res ReportReservation :=
  id ← text_field "reservation_id" 1 128 (rpn_reservation_id r) ;
  metric ← text_field "metric" 1 64 (rpn_metric r) ;
  require (match rpn_integer_reserved r with Some n => 1 <=? n | None => true end) "integer_reserved" ;;
  require (match rpn_decimal_reserved r with Some d => 0 <? dec_coef d | None => true end) "decimal_reserved" ;;
  currency ← validate_optional (pattern_field "currency" currency_pattern) (rpn_currency r) ;
  mret (mk_ReportReservation id metric (rpn_status r) (rpn_integer_reserved r) (rpn_decimal_reserved r) currency).

Record ReproductionEvidence := mk_ReproductionEvidence {
  configuration_schema_version : Z;
  configuration_digest_sha256 : string;
  rpe_repository_id : option string;
  rpe_worktree_id : option string;
  rpe_validation_plan_id : option string;
  validation_command_ids : list string;
  rpe_platform : string;
  rpe_python_version : string;
  git_version : string;
  uv_version : string;
  provider_capabilities : list string
}.

Definition validate_ReproductionEvidence (r : ReproductionEvidence) : res ReproductionEvidence :=
  require (1 <=? configuration_schema_version r) "configuration_schema_version" ;;
  digest ← pattern_field "configuration_digest_sha256" hex64_pattern (configuration_digest_sha256 r) ;
  repository ← short "repository_id" 128 (rpe_repository_id r) ;
  worktree ← short "worktree_id" 128 (rpe_worktree_id r) ;
  plan ← short "validation_plan_id" 128 (rpe_validation_plan_id r) ;
  commands ← texts 64 "validation_command_ids" (validation_command_ids r) ;
  platform ← text_field "platform" 1 256 (rpe_platform r) ;
  python ← text_field "python_version" 1 128 (rpe_python_version r) ;
  capabilities ← texts 8 "provider_capabilities" (provider_capabilities r) ;
  mret (mk_ReproductionEvidence (configuration_schema_version r) digest repository worktree plan commands platform python
          (str_strip (git_version r)) (str_strip (uv_version r)) capabilities).

Record VerificationEvidence := mk_VerificationEvidence {
  rvf_validation_status : option ValidationStatus.t;
  rvf_review_decision : option string;
  rvf_approval_gate_present : bool;
  approval_permitted : bool;
  rvf_reason_codes : list string
}.

Definition validate_VerificationEvidence (v : VerificationEvidence) : res VerificationEvidence :=
  decision ← short "review_decision" 64 (rvf_review_decision v) ;
  codes ← texts MAX_REPORT_WARNINGS "reason_codes" (rvf_reason_codes v) ;
  mret (mk_VerificationEvidence (rvf_validation_status v) decision (rvf_approval_gate_present v) (approval_permitted v) codes).

Record EvidenceReport := mk_EvidenceReport {
  report_id : string;
  rep_status : EvidenceReportStatus.t;
  rep_run_id : option string;
  rep_work_package_id : option string;
  generated_at : datetime;
  generator_version : string;
  rep_run_state : option RunState;
  rep_revision : option Z;
  rep_created_at : option datetime;
  rep_updated_at : option datetime;
  rep_repository_id : option string;
  rep_task_id : option string;
  rep_allowed_scope : list string;
  rep_forbidden_scope : list string;
  terminal_reason_code : string;
  rep_cancellation_requested : bool;
  rep_cancellation_terminal : bool;
  rep_evidence_complete : bool;
  contradictory_evidence : bool;
  rep_contradiction_codes : list string;
  sections : list EvidenceSection;
  rep_workspace : ReportWorkspace;
  rep_context : ReportContext;
  rep_attempts : list ReportAttempt;
  rep_validation : ReportValidation;
  rep_review : ReportReview;
  rep_usage : list ReportUsage;
  rep_reservations : list ReportReservation;
  rep_artifacts : list ReportArtifact;
  reproduction : ReproductionEvidence;
  verification : VerificationEvidence;
  limitations : list string;
  rep_failure : option ReportFailure
}.

Definition validate_EvidenceReport (r : EvidenceReport) : res EvidenceReport :=
  id ← pattern_field "report_id" report_id_pattern (report_id r) ;
  package ← short "work_package_id" 128 (rep_work_package_id r) ;
  generator ← text_field "generator_version" 1 64 (generator_version r) ;
  not_negative "revision" (rep_revision r) ;;
  utc_times [Some (generated_at r); rep_created_at r; rep_updated_at r] ;;
  repository ← short "repository_id" 128 (rep_repository_id r) ;
  task ← short "task_id" 128 (rep_task_id r) ;
  allowed ← texts 128 "allowed_scope" (rep_allowed_scope r) ;
  forbidden ← texts 128 "forbidden_scope" (rep_forbidden_scope r) ;
  reason ← pattern_field "terminal_reason_code" code_pattern (terminal_reason_code r) ;
  codes ← texts MAX_REPORT_WARNINGS "contradiction_codes" (rep_contradiction_codes r) ;
  at_most 16 "sections" (sections r) ;;
  at_most MAX_REPORT_ATTEMPTS "attempts" (rep_attempts r) ;;
  at_most 128 "usage" (rep_usage r) ;;
  at_most 128 "reservations" (rep_reservations r) ;;
  at_most MAX_REPORT_ARTIFACTS "artifacts" (rep_artifacts r) ;;
  limits ← texts MAX_REPORT_WARNINGS "limitations" (limitations r) ;
  mret (mk_EvidenceReport id (rep_status r) (rep_run_id r) package (generated_at r) generator (rep_run_state r)
          (rep_revision r) (rep_created_at r) (rep_updated_at r) repository task allowed forbidden reason
          (rep_cancellation_requested r) (rep_cancellation_terminal r) (rep_evidence_complete r)
          (contradictory_evidence r) codes (sections r) (rep_workspace r) (rep_context r) (rep_attempts r)
          (rep_validation r) (rep_review r) (rep_usage r) (rep_reservations r) (rep_artifacts r) (reproduction r)
          (verification r) limits (rep_failure r)).

(** The defaults of the parts. *)
Definition no_workspace : ReportWorkspace := mk_ReportWorkspace None None None None false.
Definition no_report_context : ReportContext := mk_ReportContext [] 0 0 0 0 false false.
Definition no_report_validation : ReportValidation := mk_ReportValidation None None 0 0 0 0 0 0 false [].
Definition no_report_review : ReportReview := mk_ReportReview None None false false 0 None [].

(** ** Projections of the durable records *)

(** [value.isoformat()] *)
Definition isoformat (value : datetime) : string :=
  match utcoffset value with
  | None => local_text (instant value)
  | Some offset => local_text (instant value + offset) +:+ offset_text offset
  end.

Definition _report_id (run_id : string) (revision : Z) (generated : datetime) : string :=
  "report_" +:+ sha256_hex (run_id +:+ ":" +:+ str_of_Z revision +:+ ":" +:+ isoformat generated +:+ ":v"
                            +:+ str_of_Z EVIDENCE_REPORT_SCHEMA_VERSION).

(** [getattr(attempt, "role", None)] and the like *)
Definition context_of (a : AttemptEvidence) : option ContextAttempt := match a with Context a => Some a | _ => None end.
Definition workspace_of (a : AttemptEvidence) : option WorkspaceAttempt := match a with Workspace a => Some a | _ => None end.
Definition validation_of (a : AttemptEvidence) : option ValidationAttempt := match a with Validation_ a => Some a | _ => None end.

Definition _attempt_role (a : AttemptEvidence) : option string :=
  match a with Context c => Some (AgentRole.value (ca_role c)) | _ => (fun g => AgentRole.value (ag_role g)) <$> agent_of a end.
Definition _attempt_invocation (a : AttemptEvidence) : option string := ag_invocation_id <$> agent_of a.
Definition _attempt_adapter (a : AttemptEvidence) : option string := ag_adapter_id <$> agent_of a.

(** The attempts of one kind that have an outcome. *)
Definition outcomes_of {A} (kind : AttemptEvidence -> option A) (records : list OrchestrationRecord) : list A :=
  omap (fun r => if is_outcome r then kind (rec_attempt r) else None) records.

Definition _latest {A} (kind : AttemptEvidence -> option A) (records : list OrchestrationRecord) : option A :=
  last (outcomes_of kind records).

(** The manifests of [_contexts]. *)
Definition _contexts (records : list OrchestrationRecord) : list ContextManifest :=
  omap ca_manifest (outcomes_of context_of records).

Definition _context (manifests : list ContextManifest) : res ReportContext :=
  let some := negb (bool_decide (manifests = [])) in
  validate_ReportContext
    (mk_ReportContext (take 16 (cm_manifest_id <$> manifests)) (py_sum (cm_retained_bytes <$> manifests))
       (py_sum (cm_baseline_bytes <$> manifests)) (py_sum (cm_included_count <$> manifests))
       (py_sum (cm_excluded_count <$> manifests)) (some && forallb cm_required_evidence_complete manifests)
       (some && forallb (fun m => bool_decide (cm_status m = ContextSelectionStatus.COMPLETE)) manifests)).

Definition lifecycle_value (s : WorktreeLifecycleStatus.t) : string :=
  match s with
  | WorktreeLifecycleStatus.CREATING => "CREATING" | WorktreeLifecycleStatus.ACTIVE => "ACTIVE"
  | WorktreeLifecycleStatus.PARTIAL => "PARTIAL" | WorktreeLifecycleStatus.REMOVED => "REMOVED"
  end.

Definition _workspace (records : list OrchestrationRecord) (worktree_id relative_path : string) : res ReportWorkspace :=
  validate_ReportWorkspace
    match _latest workspace_of records ≫= wa_evidence with
    | None => mk_ReportWorkspace (Some worktree_id) (Some relative_path) None None false
    | Some e =>
        mk_ReportWorkspace (Some (we_worktree_id e)) (Some relative_path) (Some (we_branch e))
          (Some (lifecycle_value (we_lifecycle e))) (bool_decide (we_lifecycle e = WorktreeLifecycleStatus.ACTIVE))
    end.

Definition artifact_reference (a : ValidationArtifactReference) : string := va_root_id a +:+ ":" +:+ va_relative_path a.

Definition output_artifacts (c : ValidationCommandResult) : list ValidationArtifactReference :=
  option_list (vco_artifact (vr_stdout c)) ++ option_list (vco_artifact (vr_stderr c)).

Definition report_command (c : ValidationCommandResult) : res ReportValidationCommand :=
  validate_ReportValidationCommand
    (mk_ReportValidationCommand (vr_command_id c) (vr_executable c) (vr_executable c) (vr_classification c) (vr_status c)
       (vr_expected_exit_codes c) (vr_exit_code c) (vr_duration_ms c) (vf_code <$> vr_failure c)
       (sorted_strings (artifact_reference <$> output_artifacts c))).

Definition _validation (value : option ValidationAttempt) (shown : ValidationStatusSummary) : res ReportValidation :=
  let report plan status commands :=
    validate_ReportValidation
      (mk_ReportValidation plan status (vss_required_commands shown) (vss_passed shown) (vss_failed shown)
         (vss_timed_out shown) (vss_cancelled shown) (vss_unavailable shown) (vss_evidence_complete shown) commands) in
  match value with
  | Some a =>
      match va_result a with
      | Some r => commands ← traverse report_command (pr_commands r) ;
                  report (Some (plan_id (va_plan a))) (Some (pr_status r)) commands
      | None => report (vss_plan_id shown) (vss_status shown) []
      end
  | None => report (vss_plan_id shown) (vss_status shown) []
  end.

(** Control characters of ASCII are shown as [?]. *)
Definition _safe_text (value : string) (limit : nat) : string :=
  text_of (take limit ((fun c => if (c <? 32) || (c =? 127) then 63 else c) <$> code_points value)).

Definition report_finding (f : ReviewFindingEvidence) : res ReportFinding :=
  validate_ReportFinding
    (mk_ReportFinding (fe_finding_id f) (FindingSeverity.value (fe_severity f)) (_safe_text (fe_summary f) 256)).

Definition gate_status_value (s : ReviewGateStatus.t) : string :=
  match s with
  | ReviewGateStatus.APPROVABLE => "APPROVABLE" | ReviewGateStatus.CHANGES_REQUIRED => "CHANGES_REQUIRED"
  | ReviewGateStatus.BLOCKED => "BLOCKED" | ReviewGateStatus.INVALID_EVIDENCE => "INVALID_EVIDENCE"
  end.

Definition gate_satisfied (d : ReviewGateDecision) : bool :=
  match gd_approval_gate d with Some gate => is_satisfied gate | None => false end.

Definition _review (value : option ReviewAttempt) (shown : ReviewStatusSummary) : res ReportReview :=
  match value with
  | Some a =>
      match rv_gate_decision a with
      | Some d =>
          findings ← traverse report_finding (take 128 (gd_finding_evidence d)) ;
          validate_ReportReview
            (mk_ReportReview (Some (gate_status_value (gd_status d))) (Some (at_status (rv_base a)))
               (approval_gate_present shown) (gate_satisfied d && approval_gate_present shown)
               (unresolved_high_or_critical shown) (Some (ag_adapter_id (rv_agent a))) findings)
      | None =>
          validate_ReportReview
            (mk_ReportReview (gate_status_value <$> rss_decision shown) (rss_attempt_status shown)
               (approval_gate_present shown) false (unresolved_high_or_critical shown) None [])
      end
  | None =>
      validate_ReportReview
        (mk_ReportReview (gate_status_value <$> rss_decision shown) (rss_attempt_status shown)
           (approval_gate_present shown) false (unresolved_high_or_critical shown) None [])
  end.

Definition agent_reference (a : AgentArtifactReference) : string := aar_root_id a +:+ ":" +:+ aar_relative_path a.

Definition report_attempt (a : AttemptEvidence) : res ReportAttempt :=
  let b := base_of a in
  let references := match response_of a with Some r => sorted_strings (agent_reference <$> artifacts r) | None => [] end in
  validate_ReportAttempt
    (mk_ReportAttempt (at_attempt_id b) (kind_of a) (at_sequence b) (at_status b) (at_side_effects b) (at_started_at b)
       (at_completed_at b) (_attempt_role a) (_attempt_adapter a) (_attempt_invocation a)
       (take MAX_REPORT_ARTIFACTS references)).

(** Every attempt is validated, the first of them are kept. *)
Definition _attempts (records : list OrchestrationRecord) : res (list ReportAttempt) :=
  take MAX_REPORT_ATTEMPTS <$> traverse report_attempt (outcomes_of Some records).

Definition agent_artifact (r : AgentResponse) (a : AgentArtifactReference) : res ReportArtifact :=
  validate_ReportArtifact
    (mk_ReportArtifact (agent_reference a) (aar_content_type a) (aar_observed_bytes a) (aar_stored_bytes a) (aar_sha256 a)
       (bool_decide (aar_status a = AgentArtifactStatus.COMPLETE)) (Some (resp_invocation_id r))).

Definition command_artifact (a : ValidationArtifactReference) : res ReportArtifact :=
  validate_ReportArtifact
    (mk_ReportArtifact (artifact_reference a) "text/plain" (va_observed_source_bytes a) (va_stored_bytes a) None
       (bool_decide (va_status a = ArtifactStatus.COMPLETE)) (Some (va_correlation_id a))).

(** The artifacts of one attempt. *)
Definition attempt_artifacts (a : AttemptEvidence) : res (list ReportArtifact) :=
  responded ← match response_of a with Some r => traverse (agent_artifact r) (artifacts r) | None => mret [] end ;
  ran ← match result_of a with
        | Some r => traverse command_artifact (pr_commands r ≫= output_artifacts)
        | None => mret []
        end ;
  mret (responded ++ ran).

(** One per reference, the last one; in the order of the references. *)
Definition _artifacts (records : list OrchestrationRecord) : res (list ReportArtifact) :=
  values ← traverse attempt_artifacts (outcomes_of Some records) ;
  let unique := fold_left (fun d a => dict_set (reference a) a d) (mjoin values) [] in
  mret (take MAX_REPORT_ARTIFACTS (omap (fun key => dict_get key unique) (sorted_strings (fst <$> unique)))).

(** ** The report *)

Definition section (name : string) (complete : bool) (codes : list string) : res EvidenceSection :=
  validate_EvidenceSection (mk_EvidenceSection name complete codes).

Definition shown_state (sn : RunStatusSnapshot) : option RunState := result_state (sn_result sn).

Definition _sections (context : ReportContext) (validation : ReportValidation) (review : ReportReview)
    (sn : RunStatusSnapshot) (complete : bool) : res (list EvidenceSection) :=
  a ← section "identity" (negb (is_some (result_failure (sn_result sn)))) [] ;
  b ← section "context" (rpc_complete context && rpc_required_evidence_complete context) [] ;
  c ← section "validation" (rpv_evidence_complete validation) [] ;
  d ← section "review" (rpr_approval_gate_present review || negb (bool_decide (shown_state sn = Some APPROVED))) [] ;
  e ← section "telemetry" (sn_unresolved_reservations sn =? 0) [] ;
  f ← section "overall" complete (contradiction_codes sn) ;
  mret [a; b; c; d; e; f].

Definition _report_status (sn : RunStatusSnapshot) (complete : bool) (contradictions : list string)
    : EvidenceReportStatus.t :=
  if negb (bool_decide (contradictions = [])) then EvidenceReportStatus.INVALID_EVIDENCE
  else
    match shown_state sn with
    | Some BLOCKED => EvidenceReportStatus.BLOCKED
    | None => EvidenceReportStatus.INCOMPLETE
    | Some state =>
        if negb (is_terminal state) || negb complete then EvidenceReportStatus.INCOMPLETE
        else if bool_decide (state = APPROVED) then EvidenceReportStatus.COMPLETE
        else EvidenceReportStatus.COMPLETE_WITH_WARNINGS
    end.

Definition _limitations (sn : RunStatusSnapshot) (status : EvidenceReportStatus.t) : list string :=
  sorted_strings
    (["no_live_provider_certification"; "no_operating_system_sandbox"]
     ++ code_if (existsb (fun i => 0 <? unavailable_count i) (sn_usage sn)) "usage_metrics_unavailable"
     ++ code_if (negb (sn_unresolved_reservations sn =? 0)) "telemetry_reservations_unresolved"
     ++ code_if (in_flight_ambiguity sn) "external_side_effects_ambiguous"
     ++ code_if (bool_decide (status = EvidenceReportStatus.INCOMPLETE)) "evidence_incomplete").

(** [value.rsplit("/", 1)[-1]] *)
Definition last_segment (value : string) : string := default "" (last (split_on "/" (String.list_ascii_of_string value) [])).

(** What [platform.platform()], [sys.version], [__version__] and
    [config.model_dump_json()] say, and the clock of the composition. *)
Class ReportHost (E : Type) := {
  report_clock : M E datetime;
  platform_text : string;
  python_version : string;
  package_version : string;
  configuration_json : RevanentConfig -> string
}.

Section Assembly.
Context {E Token : Type} {composition : RuntimeComposition E Token} {host : ReportHost E}.
Abbreviation W := (World E).
Variable effective : EffectiveConfiguration.
Let config := effective_config effective.

Definition _reproduction (sn : RunStatusSnapshot) : res ReproductionEvidence :=
  validate_ReproductionEvidence
    (mk_ReproductionEvidence (config_schema_version config) (sha256_hex (configuration_json config)) (sn_repository_id sn)
       match sn_worktree_reference sn with
       | Some r => if String.eqb r "" then None else Some (last_segment r)
       | None => None
       end
       (vss_plan_id (sn_validation sn)) (vcc_name <$> config_validation config) platform_text python_version
       "NOT_PROBED" "NOT_PROBED" ["opencode:NOT_PROBED"; "codex:NOT_PROBED"]).

(** An approved run without every piece of evidence for it. *)
Definition approval_unproven (sn : RunStatusSnapshot) (validation : ReportValidation) (review : ReportReview) : bool :=
  negb (sn_evidence_complete sn
        && bool_decide (rpv_status validation = Some ValidationStatus.PASSED)
        && rpv_evidence_complete validation
        && approval_gate_valid review
        && bool_decide (rpr_decision review = Some "APPROVABLE")
        && (rpr_unresolved_high_or_critical review =? 0)
        && (sn_unresolved_reservations sn =? 0)
        && negb (in_flight_ambiguity sn)).

Definition report_reservation (r : BudgetReservation) : res ReportReservation :=
  validate_ReportReservation
    (mk_ReportReservation (br_id r) (BudgetMetric.value (br_metric r)) (br_status r) (integer_reserved r)
       (decimal_reserved r) (br_currency r)).

(** [_assemble], once everything was read. *)
Definition assembled (generated : datetime) (sn : RunStatusSnapshot) (s : StoredRun) (binding : RuntimeBinding)
    (records : list OrchestrationRecord) (reservations : list BudgetReservation) : res EvidenceReport :=
  let run := stored_run s in
  let task := run_task run in
  workspace ← _workspace records (rb_worktree_id binding) (worktree_relative_path binding) ;
  validation ← _validation (_latest validation_of records) (sn_validation sn) ;
  review ← _review (_latest review_of records) (sn_review sn) ;
  artifacts ← _artifacts records ;
  let unproven := bool_decide (run_state run = APPROVED) && approval_unproven sn validation review in
  let codes := take 64 (sorted_set (contradiction_codes sn ++ code_if unproven "approval_evidence_incomplete")) in
  let complete := sn_evidence_complete sn && is_terminal (run_state run) && bool_decide (codes = []) in
  let status := _report_status sn complete codes in
  context ← _context (_contexts records) ;
  sections ← _sections context validation review sn complete ;
  attempts ← _attempts records ;
  usage ← traverse validate_ReportUsage (sn_usage sn) ;
  reserved ← traverse report_reservation (take 128 reservations) ;
  reproduction ← _reproduction sn ;
  verification ← validate_VerificationEvidence
    (mk_VerificationEvidence (rpv_status validation) (rpr_decision review) (rpr_approval_gate_present review)
       (bool_decide (run_state run = APPROVED) && bool_decide (status = EvidenceReportStatus.COMPLETE))
       (if bool_decide (codes = []) then [sn_reason_code sn] else codes)) ;
  validate_EvidenceReport
    (mk_EvidenceReport (_report_id (run_id run) (revision s) generated) status (Some (run_id run))
       (Some (wp_id (run_work_package run))) generated package_version (Some (run_state run)) (Some (revision s))
       (Some (run_created_at run)) (Some (run_updated_at run)) (Some (repository_id (rb_repository binding)))
       (Some (task_id task)) (allowed_paths task) (forbidden_paths task) (sn_reason_code sn)
       (cancellation_requested sn) (cancellation_terminal sn) complete (negb (bool_decide (codes = []))) codes sections
       workspace context attempts validation review usage reserved artifacts reproduction verification
       (_limitations sn status) None).

Definition _assemble (id : string) (generated : datetime) (sn : RunStatusSnapshot) : M W EvidenceReport :=
  s ← in_store (get_run id) ;
  binding ← in_store (get_runtime_binding id) ;
  records ← list_records id ;
  reservations ← in_store (service_reservations id) ;
  lift (assembled generated sn s binding records reservations).

Definition _diagnostic (id : string) (generated : datetime) (status : EvidenceReportStatus.t) (sn : RunStatusSnapshot)
    : res EvidenceReport :=
  let base := sn_result sn in
  let code := match result_failure base with Some f => rf_code f | None => sn_reason_code sn end in
  runtime ← section "runtime" false [code] ;
  reproduction ← _reproduction sn ;
  verification ← validate_VerificationEvidence (mk_VerificationEvidence None None false false [code]) ;
  failure ← validate_ReportFailure (mk_ReportFailure code "report evidence could not be verified safely") ;
  validate_EvidenceReport
    (mk_EvidenceReport (_report_id id (default 0 (result_revision base)) generated) status (Some id) None generated
       package_version (result_state base) (result_revision base) None None (sn_repository_id sn) None [] [] code false false
       false (bool_decide (status = EvidenceReportStatus.INVALID_EVIDENCE)) (contradiction_codes sn) [runtime] no_workspace
       no_report_context [] no_report_validation no_report_review [] [] [] reproduction verification
       ["runtime_evidence_unavailable"] (Some failure)).

(** [EvidenceReportService.generate] *)
Definition generate (id : string) : M W EvidenceReport :=
  generated ← in_env report_clock ;
  lift (raise_if (negb (is_utc generated)) (ValueError "report clock must return UTC timestamps")) ;;
  sn ← status id ;
  match action_status (sn_result sn) with
  | RuntimeActionStatus.NOT_FOUND => lift (_diagnostic id generated EvidenceReportStatus.NOT_FOUND sn)
  | RuntimeActionStatus.BLOCKED => lift (_diagnostic id generated EvidenceReportStatus.BLOCKED sn)
  | RuntimeActionStatus.INVALID_EVIDENCE => lift (_diagnostic id generated EvidenceReportStatus.INVALID_EVIDENCE sn)
  | _ =>
      try_except (_assemble id generated sn) (fun _ => true)
        (fun _ => lift (_diagnostic id generated EvidenceReportStatus.INTERNAL_FAILURE sn))
  end.
End Assembly.
