(* ===== verification/ReportSafety.v ===== *)
(** * What an evidence report may say

    Making a report changes nothing; it permits an approval only for an approved run whose
    evidence is complete; for a configuration with more validation commands than a report has
    room for, none is made. *)

From Stdlib Require Import ZArith Lia Ascii String.
From S2P Require Import Prelude Text Domain StateMachine Effects Sha256 Commands Agents GitPort TelemetryPort Validation ContextPort TelemetryService ReviewGate OrchestrationPorts RepairPolicy Reconciliation RuntimePort Tables Storage RunJournal UsageStore DurableStore Coordination Service WriteAhead Workflows WorkflowSafety Unicode Configuration Reports.
From stdpp Require Import base option strings numbers gmap sets list list_relations.

Open Scope Z_scope.

Section Reports.
Context {E Token : Type} {composition : RuntimeComposition E Token} {host : ReportHost E}.
Abbreviation W := (World E).
Variable effective : EffectiveConfiguration.

(** ** A report is read-only *)

Lemma still_assemble id generated sn : only (W := W) same_durable (_assemble effective id generated sn).
Proof.
  unfold _assemble. apply only_bind; [exact _|apply still_store, get_run_reads|intros s].
  apply only_bind; [exact _|apply still_store, binding_reads|intros binding].
  apply only_bind; [exact _|apply still_records|intros records].
  apply only_bind; [exact _|apply still_store, reservations_reads|intros reservations]. apply still_lift.
Qed.

Lemma still_generate id : only (W := W) same_durable (generate effective id).
Proof.
  unfold generate. apply only_bind; [exact _|apply still_env|intros generated].
  apply only_bind; [exact _|apply still_lift|intros _]. apply only_bind; [exact _|intros w; apply status_reads_only|intros sn].
  destruct (action_status (sn_result sn)); try apply still_lift;
    (apply only_try; [exact _|apply still_assemble|intros e; apply still_lift]).
Qed.

(** ** What permits an approval *)

Lemma diagnostic_permits_nothing id generated status sn r :
  _diagnostic effective id generated status sn = Ok r -> approval_permitted (verification r) = false.
Proof.
  unfold _diagnostic. intros H. apply bind_Ok in H as (runtime & _ & H). apply bind_Ok in H as (reproduction & _ & H).
  apply bind_Ok in H as (v & Hv & H). apply bind_Ok in H as (failure & _ & H).
  unfold validate_VerificationEvidence in Hv. inv_valid. unfold validate_EvidenceReport in H. inv_valid. done.
Qed.

(** A generated report is an assembled one or a diagnosis. *)
Lemma generated_report id (w w' : W) r :
  generate effective id w = (w', Ok r) ->
  (exists generated status sn, _diagnostic effective id generated status sn = Ok r)
  \/ exists generated sn w1 w2 w3, w_store w1 = w_store w /\ status id w1 = (w2, Ok sn) /\ w_store w2 = w_store w
       /\ _assemble effective id generated sn w2 = (w3, Ok r).
Proof.
  intros H. unfold generate in H. apply M_bind_Ok in H as (w1 & generated & Hg & H).
  apply M_bind_Ok in H as (w2 & u & Hu & H). apply lift_Ok in Hu as [-> _]. apply M_bind_Ok in H as (w3 & sn & Hs & H).
  pose proof (still_env report_clock w) as (E1 & _). rewrite Hg in E1. cbn in E1.
  pose proof (status_reads_only id w1) as (E2 & _). rewrite Hs in E2. cbn in E2.
  destruct (action_status (sn_result sn));
    try (left; apply lift_Ok in H as [_ H]; by eexists _, _, _);
    (unfold try_except in H; destruct (_assemble effective id generated sn w3) as [w4 [x|e]] eqn:Ha;
       [injection H as -> ->; right; eexists _, _, _, _, _; split; [exact E1|]; split; [exact Hs|]; split; [congruence|exact Ha]
       |left; apply lift_Ok in H as [_ H]; by eexists _, _, _]).
Qed.

Lemma assembled_facts id generated sn (w w' : W) r :
  _assemble effective id generated sn w = (w', Ok r) ->
  exists s binding records reservations, snd (get_run id (w_store w)) = Ok s
    /\ snd (list_orchestration_records id (w_store w)) = Ok records
    /\ snd (list_reservations id (w_store w)) = Ok reservations
    /\ assembled effective generated sn s binding records reservations = Ok r.
Proof.
  unfold _assemble. intros H. apply M_bind_Ok in H as (w1 & s & Hs & H). apply M_bind_Ok in H as (w2 & binding & Hb & H).
  apply M_bind_Ok in H as (w3 & records & Hr & H). apply M_bind_Ok in H as (w4 & reservations & Hv & H).
  apply lift_Ok in H as [_ H]. pose proof (still_at _ _ _ _ (still_store _ (get_run_reads id)) Hs) as E1.
  pose proof (still_at _ _ _ _ (still_store _ (binding_reads id)) Hb) as E2.
  pose proof (still_at _ _ _ _ (still_records id) Hr) as E3.
  apply in_store_Ok in Hs, Hr, Hv. rewrite E2, E1 in Hr. rewrite E3, E2, E1 in Hv. by exists s, binding, records, reservations.
Qed.

(** The review of a report whose gate is valid comes from a recorded decision. *)
Lemma valid_review value shown r :
  _review value shown = Ok r -> approval_gate_valid r = true ->
  exists a d, value = Some a /\ rv_gate_decision a = Some d /\ gate_satisfied d = true
    /\ rpr_decision r = Some (gate_status_value (gd_status d)).
Proof.
  unfold _review. intros H Hg. destruct value as [a|].
  2:{ unfold validate_ReportReview in H. inv_valid. done. }
  destruct (rv_gate_decision a) as [d|] eqn:Hd; [|unfold validate_ReportReview in H; by inv_valid].
  apply bind_Ok in H as (findings & _ & H). unfold validate_ReportReview in H. inv_valid. cbn in *.
  exists a, d. bool_prop. split_and!; try done.
  match goal with H : (text_field _ _ _ (gate_status_value _) ≫= _) = Ok _ |- _ => apply bind_Ok in H as (t & H & [= <-]) end.
  match goal with H : text_field _ _ _ _ = Ok _ |- _ => apply text_field_Ok in H as [-> _] end. by destruct (gd_status d).
Qed.

Lemma complete_status sn complete codes :
  _report_status sn complete codes = EvidenceReportStatus.COMPLETE -> codes = [] /\ complete = true.
Proof.
  unfold _report_status. destruct (bool_decide (codes = [])) eqn:Hc; [|done]. bool_prop. cbn.
  destruct (shown_state sn) as [[]|]; try done; destruct complete; done.
Qed.

Lemma no_codes n xs b code : take (S n) (sorted_set (xs ++ code_if b code)) = [] -> xs = [] /\ b = false.
Proof.
  intros H. assert (Hs : sorted_set (xs ++ code_if b code) = []) by by destruct (sorted_set _).
  assert (Hnone : forall x, x ∉ xs ++ code_if b code).
  { intros x Hx%elem_of_sorted_set. rewrite Hs in Hx. by apply not_elem_of_nil in Hx. }
  split; [destruct xs as [|x xs]; [done|]; by destruct (Hnone x); left|]. destruct b; [|done].
  destruct (Hnone code). apply elem_of_app. right. by left.
Qed.

(** What an assembled report that permits an approval says. *)
Record proven (s : StoredRun) (records : list OrchestrationRecord) (r : EvidenceReport) : Prop := {
  pv_approved : run_state (stored_run s) = APPROVED;
  pv_status : rep_status r = EvidenceReportStatus.COMPLETE;
  pv_complete : rep_evidence_complete r = true;
  pv_consistent : rep_contradiction_codes r = [];
  pv_validation : rpv_status (rep_validation r) = Some ValidationStatus.PASSED;
  pv_findings : rpr_unresolved_high_or_critical (rep_review r) = 0;
  pv_gate : exists a d, last (review_outcomes records) = Some a /\ rv_gate_decision a = Some d
    /\ gd_status d = ReviewGateStatus.APPROVABLE /\ gate_satisfied d = true
}.

Lemma latest_review records : _latest review_of records = last (review_outcomes records).
Proof. done. Qed.

Lemma assembled_proven generated sn s binding records reservations r :
  assembled effective generated sn s binding records reservations = Ok r -> approval_permitted (verification r) = true ->
  proven s records r.
Proof.
  unfold assembled. intros H Hp. apply bind_Ok in H as (workspace & _ & H). apply bind_Ok in H as (validation & _ & H).
  apply bind_Ok in H as (review & Hreview & H). apply bind_Ok in H as (artifacts & _ & H). cbv zeta in H.
  apply bind_Ok in H as (context & _ & H). apply bind_Ok in H as (sections & _ & H). apply bind_Ok in H as (attempts & _ & H).
  apply bind_Ok in H as (usage & _ & H). apply bind_Ok in H as (reserved & _ & H). apply bind_Ok in H as (reproduction & _ & H).
  apply bind_Ok in H as (v & Hv & H). unfold validate_VerificationEvidence in Hv. inv_valid.
  unfold validate_EvidenceReport in H. inv_valid. cbn in *.
  match goal with H : _ && bool_decide (_ = EvidenceReportStatus.COMPLETE) = true |- _ =>
    apply andb_true_iff in H as [Happ%bool_decide_eq_true Hstatus%bool_decide_eq_true] end.
  rewrite Happ in *. cbn in *. pose proof Hstatus as Hst. apply complete_status in Hstatus as [Hcodes Hcomplete]. rewrite Hcodes in *.
  apply no_codes in Hcodes as [Hsn Hunproven]. rewrite bool_decide_eq_true_2 in Hunproven by done.
  unfold approval_unproven in Hunproven. cbn in Hunproven. bool_prop.
  match goal with H : approval_gate_valid review = true |- _ => destruct (valid_review _ _ _ Hreview H) as (a & d & Ha & Hd & Hg & Hs) end.
  split; cbn; try done.
  - by destruct (sn_evidence_complete sn).
  - unfold texts in *. by inv_ok.
  - exists a, d. split_and!; try done.
    match goal with H : rpr_decision review = Some "APPROVABLE" |- _ => rewrite H in Hs end. injection Hs as Hs. by destruct (gd_status d).
Qed.

(** C7: making a report changes nothing and asks no agent; a report permits an approval only
    when the stored run is approved, its last recorded review is approvable with a gate whose
    every check passed, its last validation passed, no serious finding is unresolved, and the
    report itself is complete and free of contradictions. *)
Theorem reports_prove_approval id (w w' : W) r (Hgenerate : generate effective id w = (w', Ok r)) :
  same_durable w w' /\
  (approval_permitted (verification r) = true ->
   exists s records, snd (get_run id (w_store w)) = Ok s
     /\ snd (list_orchestration_records id (w_store w)) = Ok records /\ proven s records r).
Proof.
  split; [pose proof (still_generate id w) as H; by rewrite Hgenerate in H|]. intros Hp.
  destruct (generated_report _ _ _ _ Hgenerate) as [(g & status & sn & Hd)|(g & sn & w1 & w2 & w3 & E1 & _ & E2 & Ha)].
  - by rewrite (diagnostic_permits_nothing _ _ _ _ _ Hd) in Hp.
  - destruct (assembled_facts _ _ _ _ _ _ Ha) as (s & binding & records & reservations & Hs & Hr & _ & Has).
    rewrite E2 in Hs, Hr. exists s, records. split_and!; [done|done|]. by eapply assembled_proven.
Qed.

(** ** Too many commands *)

Lemma no_reproduction sn r :
  (64 < length (config_validation (effective_config effective)))%nat -> _reproduction effective sn <> Ok r.
Proof.
  intros Hlong H. unfold _reproduction, validate_ReproductionEvidence in H. inv_valid.
  match goal with H : texts 64 _ _ = Ok _ |- _ => unfold texts, at_most in H; cbn [validation_command_ids] in H; inv_valid end.
  rewrite length_fmap in *. match goal with H : (_ <=? _)%nat = true |- _ => apply Nat.leb_le in H end. lia.
Qed.

(** The validator of a configuration bounds no list of commands, but a report has room for
    64 of their names, in a diagnosis too: with more, no report is ever made, whatever the
    run, and the caller gets an exception. *)
Theorem too_many_commands_no_report (Hlong : (64 < length (config_validation (effective_config effective)))%nat) :
  forall id (w w' : W) r, generate effective id w <> (w', Ok r).
Proof.
  intros id w w' r H.
  destruct (generated_report _ _ _ _ H) as [(g & status & sn & Hd)|(g & sn & w1 & w2 & w3 & _ & _ & _ & Ha)].
  - unfold _diagnostic in Hd. apply bind_Ok in Hd as (runtime & _ & Hd). apply bind_Ok in Hd as (e & He & _).
    by apply no_reproduction in He.
  - destruct (assembled_facts _ _ _ _ _ _ Ha) as (s & binding & records & reservations & _ & _ & _ & Has).
    unfold assembled in Has. do 4 (apply bind_Ok in Has as (? & _ & Has)). cbv zeta in Has.
    do 5 (apply bind_Ok in Has as (? & _ & Has)). apply bind_Ok in Has as (e & He & _). by apply no_reproduction in He.
Qed.
End Reports.
