(* ===== verification/ReportOutput.v ===== *)
(** * Rendering and writing reports

    [reporting/renderer.py]: the two texts of a report; [reporting/writer.py]: the file that
    holds one, written without replacing another.  The JSON text of a report is the schema
    layer's.  The world of the writer is its host and the entries of the disk, by path; every
    system call on a path may raise. *)

From Stdlib Require Import ZArith Lia Ascii String.
From S2P Require Import Prelude Text Domain StateMachine Effects Sha256 Commands Agents GitPort GitPorcelain TelemetryPort Validation ContextPort CommandPolicy TelemetryService ReviewGate OrchestrationPorts RuntimePort Storage Service Workflows Unicode Configuration Reports.
From stdpp Require Import base option strings numbers gmap sets list list_relations.

Open Scope Z_scope.

Definition ReportRenderError : string -> exn := BoundaryError "ReportRenderError".
Definition ReportArtifactWriteError : string -> exn := BoundaryError "ReportArtifactWriteError".

(** ** Rendering *)

(** [[\x00-\x08\x0b\x0c\x0e-\x1f\x7f-\x9f]] *)
Definition is_control (c : Z) : bool :=
  in_range 0 8 c || in_range 11 12 c || in_range 14 31 c || in_range 127 159 c.

Definition escape_point (c : Z) : list Z :=
  if is_control c then [63] else if (c =? 96) || (c =? 124) then [92; c] else [c].

Definition inline_points (l : list Z) : list Z := l ≫= escape_point.

Definition angle_point (c : Z) : list Z :=
  if c =? 60 then code_points "&lt;" else if c =? 62 then code_points "&gt;" else [c].

Definition _inline (value : string) : string := text_of (inline_points (code_points value)).
Definition _text (value : string) : string := text_of (inline_points (code_points value) ≫= angle_point).

Definition _bounded (value : string) : res string :=
  raise_if (MAX_REPORT_BYTES <? byte_len value) (ReportRenderError "report representation exceeds the byte limit") ;;
  mret value.

(** [str(b).lower()] *)
Definition bool_text (b : bool) : string := if b then "true" else "false".

Definition attempt_status_value (s : AttemptStatus.t) : string :=
  match s with
  | AttemptStatus.INTENDED => "INTENDED" | AttemptStatus.COMPLETED => "COMPLETED" | AttemptStatus.FAILED => "FAILED"
  | AttemptStatus.BLOCKED => "BLOCKED" | AttemptStatus.CANCELLED => "CANCELLED" | AttemptStatus.INVALID => "INVALID"
  | AttemptStatus.AMBIGUOUS => "AMBIGUOUS"
  end.

Definition reconciliation_value (s : ReconciliationState.t) : string :=
  match s with
  | ReconciliationState.KNOWN_NONE => "KNOWN_NONE" | ReconciliationState.KNOWN_PRESENT => "KNOWN_PRESENT"
  | ReconciliationState.AMBIGUOUS => "AMBIGUOUS" | ReconciliationState.INCOMPATIBLE => "INCOMPATIBLE"
  end.

Definition validation_status_value (s : ValidationStatus.t) : string :=
  match s with
  | ValidationStatus.PASSED => "PASSED" | ValidationStatus.PASSED_WITH_ADVISORIES => "PASSED_WITH_ADVISORIES"
  | ValidationStatus.FAILED => "FAILED" | ValidationStatus.TIMED_OUT => "TIMED_OUT"
  | ValidationStatus.CANCELLED => "CANCELLED" | ValidationStatus.BLOCKED => "BLOCKED"
  | ValidationStatus.UNAVAILABLE => "UNAVAILABLE" | ValidationStatus.INVALID => "INVALID" | ValidationStatus.NOT_RUN => "NOT_RUN"
  end.

(** [- Label: `value`] *)
Definition item (label value : string) : string := "- " +:+ label +:+ ": `" +:+ value +:+ "`".

(** [value or "unavailable"] *)
Definition or_unavailable (value : option string) : string :=
  match value with Some s => if String.eqb s "" then "unavailable" else s | None => "unavailable" end.

Definition _validation_status (r : EvidenceReport) : string :=
  default "unavailable" (validation_status_value <$> rvf_validation_status (verification r)).

Definition row (cells : list string) : string := "| " +:+ String.concat " | " cells +:+ " |".

Definition section_line (s : EvidenceSection) : string :=
  let reasons := String.concat ", " ((fun v => "`" +:+ v +:+ "`") <$> reason_codes s) in
  "- `" +:+ section_name s +:+ "`: complete=`" +:+ bool_text (section_complete s) +:+ "`; reasons="
  +:+ (if String.eqb reasons "" then "none" else reasons).

Definition attempt_row (a : ReportAttempt) : string :=
  row [_inline (OrchestrationStep.value (rat_kind a)); str_of_Z (rat_sequence a);
       _inline (attempt_status_value (rat_status a)); _inline (reconciliation_value (rat_side_effects a))].

Definition command_row (c : ReportValidationCommand) : string :=
  row ["`" +:+ _inline (rvc_command_id c) +:+ "`"; "`" +:+ validation_status_value (rvc_status c) +:+ "`";
       str_of_Z (rvc_duration_ms c)].

Definition finding_line (f : ReportFinding) : string :=
  "- `" +:+ _inline (rfd_severity f) +:+ "` `" +:+ _inline (rfd_finding_id f) +:+ "`: " +:+ _text (rfd_summary f).

Definition markdown_lines (r : EvidenceReport) : list string :=
  let v := verification r in
  let p := reproduction r in
  ["# Revanent evidence report"; "";
   item "Report" (report_id r); item "Status" (EvidenceReportStatus.value (rep_status r));
   item "Run" (default "unavailable" (rep_run_id r)); item "Evidence complete" (bool_text (rep_evidence_complete r));
   item "Contradictory evidence" (bool_text (contradictory_evidence r)); ""; "## Run"; "";
   item "State" (default "unavailable" (run_state_value <$> rep_run_state r));
   item "Revision" (default "unavailable" (str_of_Z <$> rep_revision r)); item "Reason" (terminal_reason_code r);
   item "Cancellation terminal" (bool_text (rep_cancellation_terminal r)); ""; "## Verification"; "";
   item "Validation" (_validation_status r); item "Review" (or_unavailable (rvf_review_decision v));
   item "ApprovalGate present" (bool_text (rvf_approval_gate_present v));
   item "Approval permitted" (bool_text (approval_permitted v)); ""; "## Evidence sections"; ""]
  ++ (section_line <$> sections r)
  ++ [""; "## Attempts"; ""; "| Kind | Sequence | Status | Side effects |"; "|---|---:|---|---|"]
  ++ (attempt_row <$> rep_attempts r)
  ++ [""; "## Validation"; ""; "| Command | Status | Duration ms |"; "|---|---|---:|"]
  ++ (command_row <$> rpv_commands (rep_validation r))
  ++ [""; "## Review findings"; ""]
  ++ (if bool_decide (rpr_findings (rep_review r) = []) then ["- None recorded."]
      else finding_line <$> rpr_findings (rep_review r))
  ++ [""; "## Reproduction"; "";
      item "Configuration schema" (str_of_Z (configuration_schema_version p));
      item "Configuration digest" (configuration_digest_sha256 p);
      item "Validation plan" (or_unavailable (rpe_validation_plan_id p));
      item "Platform" (_inline (rpe_platform p)); item "Python" (_inline (rpe_python_version p));
      item "Git" (_inline (git_version p)); item "uv" (_inline (uv_version p)); ""; "## Limitations"; ""]
  ++ ((fun l => "- `" +:+ _inline l +:+ "`") <$> limitations r)
  ++ match rep_failure r with
     | Some f => [""; "## Report failure"; ""; item "Code" (rpf_code f)]
     | None => []
     end.

Definition line_break : string := String (ascii_of_N 10) "".

(** [ReportRenderer.markdown] *)
Definition markdown (r : EvidenceReport) : res string :=
  _bounded (String.concat line_break (markdown_lines r) +:+ line_break).

(** The JSON text that [json.dumps] writes of a dumped report. *)
Class ReportJson := report_json : EvidenceReport -> string.

Definition render `{!ReportJson} (r : EvidenceReport) (format : ReportFormat) : res string :=
  match format with
  | json_format => _bounded (report_json r +:+ line_break)
  | markdown_format => markdown r
  end.

(** *** What a rendered text may hold *)

(** No control character, and a backslash before every backtick and bar. *)
Fixpoint escaped (before : Z) (l : list Z) : Prop :=
  match l with
  | [] => True
  | c :: l => is_control c = false /\ ((c = 96 \/ c = 124) -> before = 92) /\ escaped c l
  end.

Lemma inline_escaped l before : escaped before (inline_points l).
Proof.
  revert before. induction l as [|c l IH]; [done|]. intros before. unfold inline_points. cbn.
  unfold escape_point at 1. destruct (is_control c) eqn:Hc.
  - cbn. split; [done|]. split; [by intros [?|?]|]. apply IH.
  - destruct ((c =? 96) || (c =? 124)) eqn:Hq; cbn.
    + split; [done|]. split; [by intros [?|?]|]. split; [done|]. split; [done|]. apply IH.
    + apply orb_false_iff in Hq as [?%Z.eqb_neq ?%Z.eqb_neq]. split; [done|]. split; [by intros [?|?]|]. apply IH.
Qed.

(** A backslash of the text itself is not escaped: the bar after it is bare again. *)
Example backslash_not_escaped : _inline "a\|b" = "a\\|b".
Proof. vm_compute. reflexivity. Qed.

Lemma render_bounded `{!ReportJson} r format text :
  render r format = Ok text -> byte_len text <= MAX_REPORT_BYTES.
Proof.
  destruct format; unfold render, markdown, _bounded; intros Hr; apply bind_raise_if_Ok in Hr as [Hb [= <-]];
    by apply Z.ltb_ge in Hb.
Qed.

(** ** Writing *)

(** An entry of the disk. *)
Inductive node : Type := File (data : string) | Folder | Symlink (dangling : bool) | Device.

#[export] Instance node_eq_dec : EqDecision node.
Proof. solve_decision. Defined.

#[export] Instance Path_countable : Countable Path.
Proof.
  apply (inj_countable' (fun p => (path_absolute p, path_parts p)) (fun '(a, parts) => mk_Path a parts)). by intros [].
Defined.

(** [path.resolve(strict=True)]; a system call on a path; the random part of a temporary name. *)
Class DiskHost (E : Type) := {
  resolve_root : Path -> M E Path;
  disk_call : string -> Path -> M E unit;
  random_part : M E string
}.

Record DiskWorld (E : Type) := mk_DiskWorld { disk_host : E; nodes : gmap Path node }.
Arguments mk_DiskWorld {E}.
Arguments disk_host {E}.
Arguments nodes {E}.

Record ReportArtifactWriteResult := mk_ReportArtifactWriteResult { written_artifact : ReportArtifact; written_created : bool }.

(** [except FileExistsError] and [suppress(OSError)] *)
Definition FileExistsError : exn := BoundaryError "FileExistsError" "".
Definition is_file_exists : exn -> bool := is_class "FileExistsError".
Definition is_disk_error (e : exn) : bool := is_os_error e || is_file_exists e.

Section Writer.
Context {E : Type} {host : DiskHost E}.
Abbreviation W := (DiskWorld E).

Definition on_disk {A} (m : M E A) : M W A := fun w =>
  let '(e, r) := m (disk_host w) in (mk_DiskWorld e (nodes w), r).
Definition call (name : string) (p : Path) : M W unit := on_disk (disk_call name p).
Definition node_at (p : Path) : M W (option node) := gets (fun w => nodes w !! p).
Definition set_node (p : Path) (n : node) : M W unit := fun w =>
  (mk_DiskWorld (disk_host w) (<[p := n]> (nodes w)), Ok tt).
Definition delete_node (p : Path) : M W unit := fun w =>
  (mk_DiskWorld (disk_host w) (delete p (nodes w)), Ok tt).

(** [path.exists()], which follows links, and [path.is_symlink()] *)
Definition node_exists (n : option node) : bool :=
  match n with None | Some (Symlink true) => false | Some _ => true end.
Definition is_link (n : option node) : bool := match n with Some (Symlink _) => true | _ => false end.

(** [_linked]; [path.lstat()] raises for a path that is not there. *)
Definition _linked (p : Path) : M W bool :=
  call "lstat" p ;; n ← node_at p ;
  match n with None => raise (BoundaryError "FileNotFoundError" "") | Some _ => mret (is_link n) end.

Definition _target (root : Path) (relative_path : string) : M W (Path * Path) :=
  lift (raise_if (String.eqb relative_path "" || (512 <? byte_len relative_path))
          (ReportArtifactWriteError "report output name is invalid")) ;;
  let value := path_of relative_path in
  lift (raise_if (path_absolute value || bool_decide (".." ∈ path_parts value) || bool_decide (path_parts value = []))
          (ReportArtifactWriteError "report output must be relative to the report root")) ;;
  lift (raise_if (existsb is_git_part (path_parts value)) (ReportArtifactWriteError "report output cannot target .git")) ;;
  resolved_root ← on_disk (resolve_root root) ;
  call "stat" resolved_root ;;
  n ← node_at resolved_root ;
  linked ← (if bool_decide (n = Some Folder) then _linked resolved_root else mret true) ;
  lift (raise_if linked (ReportArtifactWriteError "report root is unavailable or unsafe")) ;;
  let target := joinpath resolved_root (path_parts value) in
  lift (raise_if (negb (_contains resolved_root (path_parent target)))
          (ReportArtifactWriteError "report output escapes the report root")) ;;
  mret (resolved_root, target).

(** [current.mkdir()] *)
Definition make_directory (p : Path) : M W unit :=
  call "mkdir" p ;; n ← node_at p ;
  match n with None => set_node p Folder | Some _ => raise FileExistsError end.

(** The directories between the root and the file, made where they are missing. *)
Fixpoint ensure_directories (current : Path) (parts : list string) : M W unit :=
  match parts with
  | [] => mret tt
  | part :: parts =>
      let current := joinpath current [part] in
      n ← node_at current ;
      (if node_exists n then
         linked ← _linked current ;
         lift (raise_if (linked || negb (bool_decide (n = Some Folder)))
                 (ReportArtifactWriteError "report output parent is unsafe"))
       else make_directory current) ;;
      ensure_directories current parts
  end.

Definition _ensure_parent (root target : Path) : M W unit :=
  resolved ← on_disk (resolve_root root) ;
  match relative_to (path_parent target) resolved with
  | None => raise (ValueError "relative_to")
  | Some relative =>
      current ← on_disk (resolve_root root) ;
      ensure_directories current (path_parts relative)
  end.

(** [_existing] *)
Definition _existing (target : Path) (data : string) (artifact : ReportArtifact) : M W ReportArtifactWriteResult :=
  call "lstat" target ;;
  n ← node_at target ;
  match n with
  | None => raise (BoundaryError "FileNotFoundError" "")
  | Some (File found) =>
      call "read" target ;;
      if negb (String.eqb found data) then raise (ReportArtifactWriteError "report output conflicts with existing content")
      else mret (mk_ReportArtifactWriteResult artifact false)
  | Some _ => raise (ReportArtifactWriteError "report output collision is unsafe")
  end.

Definition temporary_path (target : Path) (middle : string) : Path :=
  joinpath (path_parent target) ["." +:+ path_name target +:+ "." +:+ middle +:+ ".tmp"].

(** The random part is that of the name [mkstemp] settles on.
    [tempfile.mkstemp(prefix=f".{target.name}.", suffix=".tmp", dir=target.parent)] *)
Definition make_temporary (target : Path) : M W Path :=
  middle ← on_disk random_part ;
  let temporary := temporary_path target middle in
  n ← node_at temporary ;
  lift (raise_if (is_some n) FileExistsError) ;;
  call "open" temporary ;;
  set_node temporary (File "") ;;
  mret temporary.

(** [os.link(temporary, target)]: fails when the target is there. *)
Definition link_file (temporary target : Path) : M W unit :=
  call "link" target ;;
  n ← node_at target ;
  m ← node_at temporary ;
  match n, m with
  | Some _, _ => raise FileExistsError
  | None, Some m => set_node target m
  | None, None => raise (BoundaryError "FileNotFoundError" "")
  end.

Definition write_body (temporary target : Path) (data : string) (artifact : ReportArtifact)
    : M W ReportArtifactWriteResult :=
  suppress is_disk_error (call "chmod" temporary) ;;
  call "write" temporary ;;
  set_node temporary (File data) ;;
  call "flush" temporary ;;
  call "fsync" temporary ;;
  linked ← try_except (link_file temporary target ;; mret true) is_file_exists (fun _ => mret false) ;
  if (linked : bool) then mret (mk_ReportArtifactWriteResult artifact true) else _existing target data artifact.

Definition remove_temporary (temporary : Path) : M W unit :=
  suppress is_disk_error (call "unlink" temporary ;; delete_node temporary).

(** The file itself, once its directory is there. *)
Definition place (target : Path) (data : string) (artifact : ReportArtifact) : M W ReportArtifactWriteResult :=
  n ← node_at target ;
  if node_exists n || is_link n then _existing target data artifact
  else
    temporary ← make_temporary target ;
    try_finally (write_body temporary target data artifact) (remove_temporary temporary).

(** [LocalReportArtifactWriter.write] *)
Definition write (root : Path) (relative_path data content_type correlation : string) : M W ReportArtifactWriteResult :=
  found ← _target root relative_path ;
  let target := found.2 in
  _ensure_parent root target ;;
  artifact ← lift (validate_ReportArtifact
    (mk_ReportArtifact (replace_char "\" "/" relative_path) content_type (byte_len data) (byte_len data)
       (Some (sha256_hex data)) true (Some correlation))) ;
  place target data artifact.

(** *** What writing a report changes *)

(** Outside [private], entries stay as they were; new ones are directories or hold all of [data]. *)
Definition kept (private : Path -> Prop) (data : string) (w w' : W) : Prop :=
  forall q, ~ private q ->
    nodes w' !! q = nodes w !! q \/ (nodes w !! q = None /\ (nodes w' !! q = Some Folder \/ nodes w' !! q = Some (File data))).

#[export] Instance kept_confined private data : Confined (kept private data).
Proof.
  split; [by left|]. intros w1 w2 w3 H12 H23 q Hq.
  destruct (H12 q Hq) as [Ha|[Ha Hb]], (H23 q Hq) as [Ha'|[Ha' Hb']]; [left; congruence|right|right|].
  - split; [congruence|done].
  - split; [done|]. by rewrite Ha'.
  - destruct Hb; congruence.
Qed.

Definition same_nodes (w w' : W) : Prop := nodes w' = nodes w.
#[export] Instance same_nodes_confined : Confined same_nodes.
Proof. unfold same_nodes. split; [done|]. congruence. Qed.

Lemma only_weaken {A} (R R' : W -> W -> Prop) (m : M W A) :
  (forall w w', R w w' -> R' w w') -> only R m -> only R' m.
Proof. intros HR Hm w. apply HR, Hm. Qed.

Lemma same_kept private data w w' : same_nodes w w' -> kept private data w w'.
Proof. intros H q _. left. by rewrite H. Qed.

Lemma same_on_disk {A} (m : M E A) : only same_nodes (on_disk m).
Proof. intros w. unfold on_disk. by destruct (m (disk_host w)). Qed.
Lemma same_call name p : only same_nodes (call name p).
Proof. apply same_on_disk. Qed.
Lemma same_node_at p : only same_nodes (node_at p).
Proof. done. Qed.
Lemma same_lift {A} (r : res A) : only same_nodes (lift r).
Proof. done. Qed.
Lemma same_raise {A} e : only same_nodes (raise (A := A) e).
Proof. done. Qed.
Lemma same_ret {A} (a : A) : only same_nodes (mret a).
Proof. done. Qed.

Ltac frame :=
  repeat first
    [ apply same_on_disk | apply same_call | apply same_node_at | apply same_lift | apply same_raise | apply same_ret
    | apply only_bind; [exact _| |intros ?] | progress cbv zeta | case_match ].

Lemma same_linked p : only same_nodes (_linked p).
Proof. unfold _linked. frame. Qed.

Lemma same_target root relative_path : only same_nodes (_target root relative_path).
Proof. unfold _target. frame; apply same_linked. Qed.

Lemma same_existing target data artifact : only same_nodes (_existing target data artifact).
Proof. unfold _existing. frame. Qed.


Abbreviation nothing := (fun _ : Path => False).

Lemma call_runs name p w : exists w1, (call name p w = (w1, Ok tt) \/ exists e, call name p w = (w1, Err e)) /\ same_nodes w w1.
Proof.
  pose proof (same_call name p w) as H. destruct (call name p w) as [w1 [[]|e]]; exists w1; split; eauto.
Qed.

Lemma kept_make_directory data p : only (kept nothing data) (make_directory p).
Proof.
  intros w. unfold make_directory, mbind, M_bind, node_at, gets.
  destruct (call_runs "mkdir" p w) as (w1 & [->|[e ->]] & Hw); [|by apply same_kept].
  destruct (nodes w1 !! p) as [n|] eqn:Hn; [by apply same_kept|]. intros q _. cbn. rewrite Hw in Hn.
  destruct (decide (q = p)) as [->|Hq]; [|left; rewrite lookup_insert_ne by done; by rewrite Hw].
  right. split; [done|]. left. apply lookup_insert_eq.
Qed.

Lemma kept_ensure_directories data current parts : only (kept nothing data) (ensure_directories current parts).
Proof.
  revert current. induction parts as [|part parts IH]; intros current; [apply only_weaken with same_nodes, same_ret; apply same_kept|].
  cbn [ensure_directories]. apply only_bind; [exact _|apply only_weaken with same_nodes, same_node_at; apply same_kept|intros n].
  apply only_bind; [exact _| |intros _; apply IH]. destruct (node_exists n); [|apply kept_make_directory].
  apply only_weaken with same_nodes; [apply same_kept|]. apply only_bind; [exact _|apply same_linked|intros linked; apply same_lift].
Qed.

Lemma kept_ensure_parent data root target : only (kept nothing data) (_ensure_parent root target).
Proof.
  unfold _ensure_parent. apply only_bind; [exact _|apply only_weaken with same_nodes, same_on_disk; apply same_kept|intros resolved].
  destruct (relative_to _ _); [|apply only_weaken with same_nodes, same_raise; apply same_kept].
  apply only_bind; [exact _|apply only_weaken with same_nodes, same_on_disk; apply same_kept|intros current].
  apply kept_ensure_directories.
Qed.

(** What [_existing] found when it returned. *)
Lemma existing_found target data artifact w w' r :
  _existing target data artifact w = (w', Ok r) ->
  nodes w !! target = Some (File data) /\ written_created r = false /\ written_artifact r = artifact.
Proof.
  unfold _existing, mbind, M_bind, node_at, gets, raise.
  destruct (call_runs "lstat" target w) as (w1 & [->|[e ->]] & Hw); [|done]. rewrite Hw.
  destruct (nodes w !! target) as [[found| | |]|]; [|done..].
  destruct (call_runs "read" target w1) as (w2 & [->|[e ->]] & _); [|done].
  destruct (String.eqb_spec found data) as [->|]; [|done]. by intros [= <- <-].
Qed.

(** A temporary name is longer than the name of the report. *)
Lemma temporary_apart target middle : path_parts target <> [] -> temporary_path target middle <> target.
Proof.
  intros Hne Ht. apply (f_equal path_name) in Ht. unfold path_name, temporary_path, joinpath in Ht. cbn [path_parts] in Ht.
  rewrite last_snoc in Ht. cbn [default] in Ht. apply (f_equal String.length) in Ht. revert Ht.
  fold (path_name target). unfold id. rewrite !length_append. cbn [String.length]. lia.
Qed.

Lemma make_temporary_spec target w w' r :
  make_temporary target w = (w', r) ->
  match r with
  | Ok t => nodes w !! t = None /\ nodes w' = <[t := File ""]> (nodes w) /\ exists middle, t = temporary_path target middle
  | Err _ => same_nodes w w'
  end.
Proof.
  unfold make_temporary, mbind, M_bind, node_at, gets, lift, raise_if, set_node, mret, M_ret.
  pose proof (same_on_disk random_part w) as Hw. destruct (on_disk random_part w) as [w1 [middle|e]]; [|by intros [= <- <-]].
  cbn [fst] in Hw. set (t := temporary_path target middle).
  destruct (nodes w1 !! t) eqn:Ht; cbn [is_some]; [by intros [= <- <-]|].
  destruct (call_runs "open" t w1) as (w2 & [->|[e ->]] & Hw2); intros [= <- <-]; [|unfold same_nodes in *; congruence].
  cbn. unfold same_nodes in *. split_and!; [congruence|congruence|by exists middle].
Qed.

(** Linking leaves the disk alone, or makes [target] what the temporary file is. *)
Lemma link_file_spec t target data w w' r :
  link_file t target w = (w', r) -> nodes w !! t = Some (File data) ->
  match r with
  | Ok _ => nodes w !! target = None /\ nodes w' = <[target := File data]> (nodes w)
  | Err _ => same_nodes w w'
  end.
Proof.
  unfold link_file, mbind, M_bind, node_at, gets, raise, set_node. intros H Ht. revert H.
  destruct (call_runs "link" target w) as (w1 & [->|[e ->]] & Hw); [|by intros [= <- <-]]. unfold same_nodes in Hw. rewrite Hw, Ht.
  destruct (nodes w !! target) eqn:Hn; intros [= <- <-]; [done|]. cbn. by rewrite Hw.
Qed.

(** What the target holds once a report was written. *)
Definition reported (target : Path) (data : string) (artifact : ReportArtifact) (w w' : W)
    (r : res ReportArtifactWriteResult) : Prop :=
  match r with
  | Ok r => nodes w' !! target = Some (File data) /\ written_artifact r = artifact
      /\ (written_created r = false -> nodes w !! target = Some (File data))
  | Err _ => True
  end.

Lemma write_body_spec t target data artifact w w' r :
  write_body t target data artifact w = (w', r) -> t <> target ->
  kept (eq t) data w w' /\ reported target data artifact w w' r.
Proof.
  unfold write_body. intros H Ht. unfold mbind at 1, M_bind at 1 in H.
  assert (Hchmod : exists w1, suppress is_disk_error (call "chmod" t) w = (w1, Ok tt) /\ same_nodes w w1
    \/ exists e, suppress is_disk_error (call "chmod" t) w = (w1, Err e) /\ same_nodes w w1).
  { unfold suppress, try_except. destruct (call_runs "chmod" t w) as (w1 & [->|[e ->]] & Hw); exists w1; [by left|].
    destruct (is_disk_error e); [by left|right; by exists e]. }
  destruct Hchmod as [w1 [[E1 H1]|(e & E1 & H1)]]; rewrite E1 in H; [|injection H as <- <-; split; [by apply same_kept|done]].
  unfold mbind at 1, M_bind at 1 in H. destruct (call_runs "write" t w1) as (w2 & [E2|[e E2]] & H2); rewrite E2 in H;
    [|injection H as <- <-; split; [apply same_kept; unfold same_nodes in *; congruence|done]].
  unfold mbind at 1, M_bind at 1, set_node at 1 in H. set (w3 := mk_DiskWorld _ _) in H.
  assert (H3 : nodes w3 = <[t := File data]> (nodes w)) by (cbn; unfold same_nodes in *; congruence).
  assert (K3 : forall w4, same_nodes w3 w4 -> kept (eq t) data w w4).
  { intros w4 H4 q Hq. left. rewrite H4, H3. by apply lookup_insert_ne. }
  unfold mbind at 1, M_bind at 1 in H. destruct (call_runs "flush" t w3) as (w4 & [E4|[e E4]] & H4); rewrite E4 in H;
    [|injection H as <- <-; split; [by apply K3|done]].
  unfold mbind at 1, M_bind at 1 in H. destruct (call_runs "fsync" t w4) as (w5 & [E5|[e E5]] & H5); rewrite E5 in H;
    assert (H35 : same_nodes w3 w5) by (unfold same_nodes in *; congruence);
    [|injection H as <- <-; split; [by apply K3|done]].
  unfold mbind at 1, M_bind at 1, try_except at 1 in H. unfold mbind at 1, M_bind at 1 in H.
  assert (Htarget : nodes w5 !! target = nodes w !! target) by (rewrite H35, H3; by apply lookup_insert_ne).
  destruct (link_file t target w5) as [w6 [[]|e]] eqn:E6; pose proof (link_file_spec _ _ data _ _ _ E6) as H6;
    (specialize (H6 ltac:(rewrite H35, H3; apply lookup_insert_eq))).
  - destruct H6 as [Hnone H6]. injection H as <- <-. split; [|split; [rewrite H6; apply lookup_insert_eq|done]].
    intros q Hq. rewrite H6. destruct (decide (q = target)) as [->|Hqt].
    + right. rewrite lookup_insert_eq. split; [congruence|by right].
    + left. rewrite lookup_insert_ne by done. rewrite H35, H3. by apply lookup_insert_ne.
  - assert (H36 : same_nodes w3 w6) by (unfold same_nodes in *; congruence).
    destruct (is_file_exists e); [|injection H as <- <-; split; [by apply K3|done]]. cbn in H.
    pose proof (same_existing target data artifact w6) as H7. rewrite H in H7. cbn in H7.
    split; [apply K3; unfold same_nodes in *; congruence|]. destruct r as [r|]; [|done].
    apply existing_found in H as (Hf & Hc & Ha). split_and!; [unfold same_nodes in *; congruence|done|].
    intros _. unfold same_nodes in *. congruence.
Qed.

Lemma target_spec root relative_path w w' found :
  _target root relative_path w = (w', Ok found) ->
  same_nodes w w' /\ (exists h h', resolve_root root h = (h', Ok found.1)) /\ nodes w !! found.1 = Some Folder
  /\ found.2 = joinpath found.1 (path_parts (path_of relative_path))
  /\ path_parts (path_of relative_path) <> [] /\ (".." ∉ path_parts (path_of relative_path))
  /\ existsb is_git_part (path_parts (path_of relative_path)) = false.
Proof.
  intros H. split; [pose proof (same_target root relative_path w) as K; by rewrite H in K|]. revert H.
  unfold _target. cbv zeta. intros H. apply M_bind_Ok in H as (? & ? & [-> Hb]%lift_Ok & H). apply raise_if_Ok in Hb.
  apply M_bind_Ok in H as (? & ? & [-> Hc]%lift_Ok & H). apply raise_if_Ok in Hc.
  apply M_bind_Ok in H as (? & ? & [-> Hd]%lift_Ok & H). apply raise_if_Ok in Hd.
  apply M_bind_Ok in H as (w1 & resolved & Hr & H). pose proof (same_on_disk (resolve_root root) w) as K1. rewrite Hr in K1.
  apply M_bind_Ok in H as (w2 & ? & Hs & H). pose proof (same_call "stat" resolved w1) as K2. rewrite Hs in K2.
  apply M_bind_Ok in H as (w3 & n & Hn & H). injection Hn as <- <-. apply M_bind_Ok in H as (w4 & linked & Hl & H).
  apply M_bind_Ok in H as (? & ? & [-> He]%lift_Ok & H). apply raise_if_Ok in He as ->.
  apply M_bind_Ok in H as (? & ? & [-> _]%lift_Ok & H). injection H as _ <-. cbn in *. unfold same_nodes in *.
  apply orb_false_iff in Hc as [[_ Hc1]%orb_false_iff Hc2]. bool_prop. case_bool_decide; [|done].
  split; [|split_and!; congruence]. unfold on_disk in Hr. destruct (resolve_root root (disk_host w)) as [h o] eqn:Ho.
  injection Hr as _ ->. by exists (disk_host w), h.
Qed.

(** A digest passes its field as it is. *)
Lemma digest_field name s v : pattern_field name hex64_pattern (sha256_hex s) = Ok v -> v = sha256_hex s.
Proof.
  intros H. apply pattern_field_Ok in H as [-> _].
  apply (matches_strip is_hex _SHA256); [vm_compute; reflexivity..|apply sha256_hex_matches].
Qed.

Lemma digest_not_empty s : String.eqb (sha256_hex s) "" = false.
Proof.
  apply String.eqb_neq. intros H. pose proof (sha256_hex_matches s) as Hm. rewrite H in Hm. by vm_compute in Hm.
Qed.

(** The digest of the artifact that the writer declares. *)
Lemma declared_digest reference content_type n data correlation artifact :
  validate_ReportArtifact (mk_ReportArtifact reference content_type n n (Some (sha256_hex data)) true correlation) = Ok artifact ->
  digest_sha256 artifact = Some (sha256_hex data).
Proof.
  unfold validate_ReportArtifact. cbn [digest_sha256]. intros H. apply bind_Ok in H as (r & _ & H).
  apply bind_Ok in H as (c & _ & H). apply bind_Ok in H as (? & _ & H). apply bind_Ok in H as (? & _ & H).
  apply bind_Ok in H as (digest & Hd & H). apply bind_Ok in H as (? & _ & [= <-]). cbn [digest_sha256].
  unfold validate_optional in Hd. apply bind_Ok in Hd as (t & Ht & [= <-]). f_equal. by eapply digest_field.
Qed.

(** Removing the temporary file touches nothing else. *)
Lemma remove_temporary_spec t w q : q <> t -> nodes (fst (remove_temporary t w)) !! q = nodes w !! q.
Proof.
  intros Hq. unfold remove_temporary, suppress, try_except, mbind, M_bind, delete_node.
  destruct (call_runs "unlink" t w) as (w1 & [->|[e ->]] & Hw); cbn.
  - rewrite lookup_delete_ne by done. by rewrite Hw.
  - destruct (is_disk_error e); cbn; by rewrite Hw.
Qed.

(** At most one name is private, and it was free. *)
Definition changed (data : string) (w w' : W) : Prop :=
  exists private : option Path, (forall p, private = Some p -> nodes w !! p = None)
    /\ kept (fun p => private = Some p) data w w'.

Lemma changed_nothing data w w' : kept nothing data w w' -> changed data w w'.
Proof. intros Hk. exists None. split; [done|]. intros q _. apply Hk. by intros []. Qed.

Lemma changed_after data w w1 w' : kept nothing data w w1 -> changed data w1 w' -> changed data w w'.
Proof.
  intros Hk (private & Hfree & Hp). exists private. split.
  - intros p Hq%Hfree. destruct (Hk p) as [<-|[]]; [by intros []|done..].
  - apply confined_trans with w1; [|done]. intros q _. apply Hk. by intros [].
Qed.

Lemma changed_spec data w w' :
  changed data w w' ->
  (forall q n, nodes w !! q = Some n -> nodes w' !! q = Some n) /\
  (exists temporary, forall q n, nodes w' !! q = Some n -> temporary <> Some q ->
     nodes w !! q = Some n \/ n = Folder \/ n = File data).
Proof.
  intros (private & Hfree & Hk). split.
  - intros q n Hq. destruct (Hk q) as [->|[Hn _]]; [|done|congruence]. intros H%Hfree. congruence.
  - exists private. intros q n Hq Hp. destruct (Hk q Hp) as [<-|[_ [?|?]]]; [by left|right; left; congruence|right; right; congruence].
Qed.

Lemma place_spec target data artifact w w' r :
  path_parts target <> [] -> place target data artifact w = (w', r) ->
  changed data w w' /\ reported target data artifact w w' r.
Proof.
  intros Hne H. unfold place, mbind at 1, M_bind at 1, node_at, gets in H. destruct (_ || _).
  - pose proof (same_existing target data artifact w) as K. rewrite H in K. cbn in K.
    split; [by apply changed_nothing, same_kept|].
    destruct r as [r|]; [|done]. apply existing_found in H as (Hf & Hc & Ha). split_and!; [by rewrite K|done..].
  - unfold mbind at 1, M_bind at 1 in H. destruct (make_temporary target w) as [w1 [t|e]] eqn:Et;
      apply make_temporary_spec in Et; [|injection H as <- <-; split; [by apply changed_nothing, same_kept|done]].
    destruct Et as (Hnone & H1 & middle & Ht). assert (Hapart : t <> target) by (rewrite Ht; by apply temporary_apart).
    assert (K1 : forall q, q <> t -> nodes w1 !! q = nodes w !! q) by (intros q Hq; rewrite H1; by apply lookup_insert_ne).
    unfold try_finally, attempt, mbind, M_bind in H. destruct (write_body t target data artifact w1) as [w2 o] eqn:Eb.
    apply write_body_spec in Eb as [Kb Ho]; [|done]. pose proof (fun q => remove_temporary_spec t w2 q) as Kr.
    assert (K : forall w3, (forall q, q <> t -> nodes w3 !! q = nodes w2 !! q) -> changed data w w3).
    { intros w3 H3. exists (Some t). split; [by intros ? [= <-]|]. intros q Hq. assert (q <> t) by congruence.
      rewrite H3 by done. rewrite <- (K1 q) by done. by apply Kb. }
    destruct (remove_temporary t w2) as [w3 [u|e]]; cbn in Kr, H; injection H as <- <-; (split; [by apply K|]); [|done].
    destruct o as [o|]; [|done]. destruct Ho as (Hd & Ha & Hc). cbn. rewrite Kr by done. split_and!; [done..|].
    intros Hf. rewrite <- (K1 target) by done. by apply Hc.
Qed.

(** A report is written whole and over nothing.  Whatever the outcome, every entry of the
    disk that was there before is there unchanged; what is new is a directory, a file that
    holds exactly the given bytes, or one temporary file; when the call returns, the file of
    the requested name, inside the report root and outside [.git], holds exactly the given
    bytes and the artifact carries their digest; and a report that is said to have been there
    already was there before, with the same bytes. *)
Lemma write_spec root relative_path data content_type correlation w w' r
    (Hwrite : write root relative_path data content_type correlation w = (w', r)) :
  (forall q n, nodes w !! q = Some n -> nodes w' !! q = Some n) /\
  (exists temporary, forall q n, nodes w' !! q = Some n -> temporary <> Some q ->
     nodes w !! q = Some n \/ n = Folder \/ n = File data) /\
  match r with
  | Ok r => exists resolved, let target := joinpath resolved (path_parts (path_of relative_path)) in
      (exists h h', resolve_root root h = (h', Ok resolved)) /\ nodes w !! resolved = Some Folder /\ (".." ∉ path_parts (path_of relative_path))
      /\ existsb is_git_part (path_parts (path_of relative_path)) = false
      /\ nodes w' !! target = Some (File data)
      /\ digest_sha256 (written_artifact r) = Some (sha256_hex data)
      /\ (written_created r = false -> nodes w !! target = Some (File data))
  | Err _ => True
  end.
Proof.
  unfold write in Hwrite. cbv zeta in Hwrite. pose proof (same_target root relative_path w) as K1.
  destruct (_target root relative_path w) as [w1 [found|e]] eqn:Et; cbn in K1.
  2:{ rewrite (M_bind_err _ _ _ _ _ Et) in Hwrite. injection Hwrite as <- <-.
      destruct (changed_spec data w w1) as [A B]; [by apply changed_nothing, same_kept|done]. }
  rewrite (M_bind_run _ _ _ _ _ Et) in Hwrite. destruct (target_spec _ _ _ _ _ Et) as (_ & Hroot & Hfolder & Htarget & Hne & Hdots & Hgit).
  set (target := found.2) in *. pose proof (kept_ensure_parent data root target w1) as K2.
  destruct (_ensure_parent root target w1) as [w2 [u|e]] eqn:Ep; cbn in K2;
    (assert (K : kept nothing data w w2) by (eapply confined_trans; [by apply same_kept|done])).
  2:{ rewrite (M_bind_err _ _ _ _ _ Ep) in Hwrite. injection Hwrite as <- <-.
      destruct (changed_spec data w w2) as [A B]; [by apply changed_nothing|done]. }
  rewrite (M_bind_run _ _ _ _ _ Ep), lift_bind in Hwrite. destruct (validate_ReportArtifact _) as [artifact|e] eqn:Ea.
  2:{ injection Hwrite as <- <-. destruct (changed_spec data w w2) as [A B]; [by apply changed_nothing|done]. }
  apply place_spec in Hwrite as [Hc Ho]; [|rewrite Htarget; cbn; by destruct (path_parts found.1)].
  destruct (changed_spec data w w') as [A B]; [by apply changed_after with w2|]. split_and!; [done|done|].
  destruct r as [r|]; [|done]. destruct Ho as (Hd & Ha & Hf). exists found.1. cbv zeta. rewrite <- Htarget. fold target.
  rewrite Ha. split_and!; try done; [by eapply declared_digest|].
  intros H%Hf. pose proof (kept_ensure_parent (data +:+ "x") root target w1) as K3. rewrite Ep in K3. cbn in K3.
  destruct (K3 target) as [E3|[_ [?|E3]]]; [by intros []|rewrite <- K1; congruence|congruence|]. rewrite H in E3. injection E3 as E3.
  apply (f_equal String.length) in E3. rewrite length_append in E3. cbn in E3. lia.
Qed.

(** The host is only asked. *)
Section Host.
Context (R : E -> E -> Prop) `{!Confined R}.
Context (resolve_asks : forall p, only R (resolve_root p)) (call_asks : forall name p, only R (disk_call name p))
  (random_asks : only R random_part).

Definition host_within (w w' : W) : Prop := R (disk_host w) (disk_host w').
#[export] Instance host_within_confined : Confined host_within.
Proof.
  split; unfold host_within; [intros w; apply (confined_refl (R := R))|]. intros w1 w2 w3. apply (confined_trans (R := R)).
Qed.

Lemma asks_on_disk {A} (m : M E A) : only R m -> only host_within (on_disk m).
Proof. intros Hm w. unfold on_disk, host_within. specialize (Hm (disk_host w)). by destruct (m (disk_host w)). Qed.
Lemma asks_call name p : only host_within (call name p).
Proof. apply asks_on_disk, call_asks. Qed.
Lemma asks_still {A} (m : M W A) : (forall w, disk_host (fst (m w)) = disk_host w) -> only host_within m.
Proof. intros Hm w. unfold host_within. rewrite Hm. apply (confined_refl (R := R)). Qed.

Ltac ask :=
  repeat first
    [ apply asks_on_disk; solve [auto] | apply asks_call | apply asks_still; intros ?; reflexivity
    | apply only_try_finally; [exact _| |] | apply only_try; [exact _| |intros ?]
    | apply only_bind; [exact _| |intros ?] | progress cbv zeta | case_match ].

Lemma asks_ensure_directories current parts : only host_within (ensure_directories current parts).
Proof.
  revert current. induction parts as [|part parts IH]; intros current; [by apply asks_still|]. cbn [ensure_directories].
  unfold make_directory, _linked. ask. apply IH.
Qed.

Lemma write_asks root relative_path data content_type correlation :
  only host_within (write root relative_path data content_type correlation).
Proof.
  unfold write, _target, _ensure_parent, place, make_temporary, write_body, remove_temporary, link_file, _existing, suppress, _linked.
  ask; apply asks_ensure_directories.
Qed.
End Host.
End Writer.
