(* ===== verification/ReportCommand.v ===== *)
(** * The report command

    [application/report_command.py]: one report made, rendered and, when an output name is
    given, written below the report directory of the configuration.  The disk of the writer
    is beside the world of the runtime, whose operations leave it alone. *)

From Stdlib Require Import ZArith Lia Ascii String.
From S2P Require Import Prelude Text Domain StateMachine Effects Sha256 Commands Agents GitPort GitPorcelain TelemetryPort Validation ContextPort CommandPolicy ContextReader TelemetryService ReviewGate OrchestrationPorts RuntimePort Tables Storage DurableStore Service WriteAhead Workflows WorkflowSafety Unicode Configuration Reports ReportSafety ReportOutput.
From stdpp Require Import base option strings numbers gmap sets list list_relations.

Open Scope Z_scope.

(** ** The data *)

Record ReportCommandRequest := mk_ReportCommandRequest {
  rcr_run_id : string;
  rcr_format : ReportFormat;
  rcr_output : option string
}.

Definition validate_ReportCommandRequest (r : ReportCommandRequest) : res ReportCommandRequest :=
  run_id ← pattern_field "run_id" RunId_pattern (rcr_run_id r) ;
  output ← validate_optional (text_field "output" 1 512) (rcr_output r) ;
  mret (mk_ReportCommandRequest run_id (rcr_format r) output).

Record EvidenceReportManifest := mk_EvidenceReportManifest {
  erm_report_id : string;
  erm_format : ReportFormat;
  erm_source_revision : option Z;
  erm_generated_at : datetime;
  erm_artifact_reference : string;
  erm_content_bytes : Z;
  erm_content_sha256 : string;
  erm_evidence_complete : bool
}.

Definition validate_EvidenceReportManifest (m : EvidenceReportManifest) : res EvidenceReportManifest :=
  id ← pattern_field "report_id" report_id_pattern (erm_report_id m) ;
  not_negative "source_revision" (erm_source_revision m) ;;
  utc_times [Some (erm_generated_at m)] ;;
  reference ← text_field "artifact_reference" 3 512 (erm_artifact_reference m) ;
  require (in_range 0 MAX_REPORT_BYTES (erm_content_bytes m)) "content_bytes" ;;
  digest ← pattern_field "content_sha256" hex64_pattern (erm_content_sha256 m) ;
  mret (mk_EvidenceReportManifest id (erm_format m) (erm_source_revision m) (erm_generated_at m) reference
          (erm_content_bytes m) digest (erm_evidence_complete m)).

Record ReportCommandResult := mk_ReportCommandResult {
  rcs_status : EvidenceReportStatus.t;
  rcs_report : EvidenceReport;
  rcs_content : string;
  rcs_artifact : option ReportArtifactWriteResult;
  rcs_manifest : option EvidenceReportManifest
}.

Definition is_write_error : exn -> bool := is_class "ReportArtifactWriteError".

Definition zeros64 : string := String.string_of_list_ascii (repeat "0"%char 64).

Section Command.
Context {E Token : Type} {composition : RuntimeComposition E Token} {host : ReportHost E} {config_host : ConfigHost E}
  {folding : CaseFolding} {disk : DiskHost E} {json : ReportJson}.
Abbreviation W := (World E).
Abbreviation D := (DiskWorld W).
Variable effective : EffectiveConfiguration.

(** The writer's host is part of the runtime's environment. *)
#[export] Instance world_disk : DiskHost W := {|
  resolve_root p := in_env (resolve_root p);
  disk_call name p := in_env (disk_call name p);
  random_part := in_env random_part
|}.

Definition content_type (format : ReportFormat) : string :=
  match format with json_format => "application/json" | markdown_format => "text/markdown" end.

(** The artifact and its manifest. *)
Definition write_report (format : ReportFormat) (output data : string) (r : EvidenceReport)
    : M D (ReportArtifactWriteResult * EvidenceReportManifest) :=
  paths ← on_disk (in_env (resolve_project_paths effective)) ;
  written ← write (report_root paths) output data (content_type format) (report_id r) ;
  let a := written_artifact written in
  manifest ← lift (validate_EvidenceReportManifest
    (mk_EvidenceReportManifest (report_id r) format (rep_revision r) (generated_at r) (reference a) (rpa_stored_bytes a)
       (match digest_sha256 a with Some d => if String.eqb d "" then zeros64 else d | None => zeros64 end)
       (rep_evidence_complete r))) ;
  mret (written, manifest).

(** [ReportCommandService.generate] *)
Definition generate_command (request : ReportCommandRequest) : M D ReportCommandResult :=
  r ← on_disk (run_id ← lift (RunId (rcr_run_id request)) ; generate effective run_id) ;
  data ← lift (render r (rcr_format request)) ;
  match rcr_output request with
  | None => mret (mk_ReportCommandResult (rep_status r) r data None None)
  | Some output =>
      try_except
        (written ← write_report (rcr_format request) output data r ;
         mret (mk_ReportCommandResult (rep_status r) r data (Some written.1) (Some written.2)))
        is_write_error
        (fun _ => mret (mk_ReportCommandResult EvidenceReportStatus.OUTPUT_CONFLICT r data None None))
  end.

(** ** What the command does *)

Abbreviation durable_within := (host_within (E := W) same_durable).

Lemma still_write root relative_path data content correlation :
  only durable_within (write root relative_path data content correlation).
Proof. apply write_asks; [exact _|intros p|intros name p|]; apply still_env. Qed.

Lemma still_write_report format output data r : only durable_within (write_report format output data r).
Proof.
  unfold write_report. apply only_bind; [exact _|apply asks_on_disk, still_env|intros paths].
  apply only_bind; [exact _|apply still_write|intros written]. cbv zeta.
  apply only_bind; [exact _|apply asks_still; [exact _|done]|intros manifest]. by apply asks_still; [exact _|].
Qed.

Lemma still_command request : only durable_within (generate_command request).
Proof.
  unfold generate_command. apply only_bind; [exact _| |intros r].
  { apply asks_on_disk, only_bind; [exact _|apply still_lift|intros id; apply still_generate]. }
  apply only_bind; [exact _|by apply asks_still; [exact _|]|intros data]. destruct (rcr_output request); [|by apply asks_still; [exact _|]].
  apply only_try; [exact _| |intros e; by apply asks_still; [exact _|]].
  apply only_bind; [exact _|apply still_write_report|intros written]. by apply asks_still; [exact _|].
Qed.

(** What may have changed on the disk, and the file of a written report. *)
Definition disk_kept (data : string) (w w' : D) : Prop :=
  (forall q n, nodes w !! q = Some n -> nodes w' !! q = Some n) /\
  (exists temporary, forall q n, nodes w' !! q = Some n -> temporary <> Some q ->
     nodes w !! q = Some n \/ n = Folder \/ n = File data).

(** The file named [output] holds the whole content, under the digest of the manifest.  It
    lies below the report directory of the configuration, as the host resolved it: a
    directory that was there before. *)
Definition file_written (output content : string) (m : EvidenceReportManifest) (w w' : D) : Prop :=
  erm_content_sha256 m = sha256_hex content
  /\ exists paths resolved,
     (exists h h', resolve_project_paths effective h = (h', Ok paths))
     /\ (exists h h', resolve_root (E := E) (report_root paths) h = (h', Ok resolved))
     /\ nodes w !! resolved = Some Folder
     /\ nodes w' !! joinpath resolved (path_parts (path_of output)) = Some (File content)
     /\ (".." ∉ path_parts (path_of output)) /\ existsb is_git_part (path_parts (path_of output)) = false.

Lemma disk_unchanged data (w w' : D) : nodes w' = nodes w -> disk_kept data w w'.
Proof. intros H. unfold disk_kept. rewrite H. split; [done|]. exists None. by left. Qed.

Lemma write_report_spec format output data r (w w' : D) o :
  write_report format output data r w = (w', o) ->
  disk_kept data w w' /\ match o with Ok written => file_written output data written.2 w w' | Err _ => True end.
Proof.
  intros H. unfold write_report in H. pose proof (same_on_disk (in_env (resolve_project_paths effective)) w) as K.
  destruct (on_disk (in_env (resolve_project_paths effective)) w) as [w1 [paths|e]] eqn:Ep; cbn in K.
  2:{ rewrite (M_bind_err _ _ _ _ _ Ep) in H. injection H as <- <-. split; [by apply disk_unchanged|done]. }
  rewrite (M_bind_run _ _ _ _ _ Ep) in H.
  destruct (write (report_root paths) output data (content_type format) (report_id r) w1) as [w2 [a|e]] eqn:Ew;
    pose proof (write_spec _ _ _ _ _ _ _ _ Ew) as (A & B & C); unfold same_nodes in K; rewrite K in A, B.
  2:{ rewrite (M_bind_err _ _ _ _ _ Ew) in H. injection H as <- <-. done. }
  rewrite (M_bind_run _ _ _ _ _ Ew) in H. cbv zeta in H. destruct C as (resolved & Hroot & Hfolder & Hdots & Hgit & Hfile & Hdigest & _).
  rewrite lift_bind, Hdigest in H. destruct (validate_EvidenceReportManifest _) as [m|e] eqn:Em; injection H as <- <-; [|done].
  split; [done|]. cbn [snd]. split.
  2:{ exists paths, resolved. split_and!; [| |by rewrite <- K|done..].
      - unfold on_disk, in_env in Ep. destruct (resolve_project_paths effective _) as [h p] eqn:Hp.
        injection Ep as _ ->. eauto.
      - destruct Hroot as (h & h' & Hroot). unfold resolve_root, world_disk, in_env in Hroot.
        destruct (resolve_root _ (w_env h)) as [h1 p] eqn:Hp. injection Hroot as _ ->. eauto. }
  rewrite digest_not_empty in Em.
  unfold validate_EvidenceReportManifest in Em. cbn [erm_content_sha256] in Em. inv_valid. cbn [erm_content_sha256].
  match goal with H : pattern_field "content_sha256" _ _ = Ok _ |- _ => by apply digest_field in H end.
Qed.

(** C19: the report command is safe to run at any time.  It changes nothing durable and asks
    no agent; every entry of the disk that was there before is there unchanged, and without
    an output name nothing is added; a result holds at most the byte limit, and, when an output
    name was given, either a file of that name, inside the report directory that the
    configuration resolves to and outside [.git], that holds exactly the shown content under
    the digest of the manifest, or the status that says the output was refused. *)
Theorem report_command_safe request (w w' : D) o (Hrun : generate_command request w = (w', o)) :
  same_durable (disk_host w) (disk_host w') /\
  (forall q n, nodes w !! q = Some n -> nodes w' !! q = Some n) /\
  (rcr_output request = None -> nodes w' = nodes w) /\
  forall r, o = Ok r ->
    byte_len (rcs_content r) <= MAX_REPORT_BYTES /\
    forall output, rcr_output request = Some output ->
      rcs_status r = EvidenceReportStatus.OUTPUT_CONFLICT \/
      exists a m, rcs_artifact r = Some a /\ rcs_manifest r = Some m /\ file_written output (rcs_content r) m w w'.
Proof.
  split; [pose proof (still_command request w) as H; by rewrite Hrun in H|]. unfold generate_command in Hrun.
  set (make := on_disk _) in Hrun. assert (K : nodes (fst (make w)) = nodes w) by apply same_on_disk.
  destruct (make w) as [w1 [report|e]] eqn:Em; cbn in K.
  2:{ rewrite (M_bind_err _ _ _ _ _ Em) in Hrun. injection Hrun as <- <-. rewrite K. done. }
  rewrite (M_bind_run _ _ _ _ _ Em), lift_bind in Hrun. destruct (render report (rcr_format request)) as [data|e] eqn:Er.
  2:{ injection Hrun as <- <-. rewrite K. done. }
  apply render_bounded in Er. destruct (rcr_output request) as [output|].
  2:{ injection Hrun as <- <-. rewrite K. split_and!; [done..|]. by intros r [= <-]. }
  unfold try_except in Hrun. destruct (write_report (rcr_format request) output data report w1) as [w2 [written|e]] eqn:Ew;
    pose proof (write_report_spec _ _ _ _ _ _ _ Ew) as [[A _] B]; rewrite K in A; unfold file_written in B; rewrite ?K in B.
  - rewrite (M_bind_run _ _ _ _ _ Ew) in Hrun. injection Hrun as <- <-. split_and!; [done..|]. intros r [= <-]. split; [done|].
    intros ? [= <-]. right. by exists written.1, written.2.
  - rewrite (M_bind_err _ _ _ _ _ Ew) in Hrun. destruct (is_write_error e); injection Hrun as <- <-; (split_and!; [done..|]); [|done].
    intros r [= <-]. split; [done|]. intros ? [= <-]. by left.
Qed.
End Command.
