(* ===== verification/ReportSample.v ===== *)
(** * A report of the approved run

    The run that [WorkflowSample] carries to approval is reported under the configuration of
    [CompositionSample]; the report permits the approval, is written to an empty report
    directory, and is found there when the command runs again. *)

From Stdlib Require Import ZArith Lia Ascii String.
From S2P Require Import Prelude Text Domain StateMachine Effects Sha256 Commands Agents GitPort TelemetryPort Validation ContextPort CommandPolicy ReviewGate OrchestrationPorts Reconciliation RuntimePort Tables Storage RunJournal UsageStore DurableStore Coordination Service WriteAhead ServiceOutcomes ServiceSample Workflows WorkflowSafety WorkflowSample Unicode Configuration RuntimeComposition CompositionSample Reports ReportSafety ReportOutput ReportCommand.
From stdpp Require Import base option strings numbers gmap sets list list_relations.

Open Scope Z_scope.

Module ReportSample.
Import CompositionSample.

#[export] Instance interpreter : ReportHost Z := {|
  report_clock := fun t => (t, Ok (utc 9000));
  platform_text := "Linux-6.1-x86_64";
  python_version := "3.12.3";
  package_version := "0.1.0";
  configuration_json c := project_name (config_project c)
|}.

#[export] Instance json : ReportJson := fun r => report_id r.

#[export] Instance printer : DiskHost Z := {|
  resolve_root p := mret p;
  disk_call _ _ := mret tt;
  random_part := mret "tmp0"
|}.

Definition effective : EffectiveConfiguration := CompositionSample.effective true.

(** A configuration with one validation command too many. *)
Definition crowded : EffectiveConfiguration :=
  let c := config true in
  mk_EffectiveConfiguration (effective_root effective) (joinpath (effective_root effective) ["revanent.yaml"])
    (mk_RevanentConfig (config_schema_version c) (config_project c) (config_workspace c) (config_builder c) (config_reviewer c)
       ((fun n => mk_ValidationCommandConfig ("test " +:+ str_of_Z n) ["pytest"; str_of_Z n]) <$> seqZ 0 65)
       (config_budgets c) (config_policy c) (config_reporting c)) PROJECT.

(** The disk with the report directory of the project. *)
Definition reports : Path := joinpath (effective_root effective) [".revanent"; "runs"].
Definition disk : DiskWorld (World Z) := mk_DiskWorld WorkflowSample.approved {[ reports := Folder ]}.
Definition request : ReportCommandRequest :=
  mk_ReportCommandRequest ServiceSample.rid markdown_format (Some "first/report.md").
Definition command (w : DiskWorld (World Z)) : DiskWorld (World Z) * res ReportCommandResult :=
  generate_command (composition := sample) effective request w.
Definition target : Path := joinpath reports ["first"; "report.md"].
End ReportSample.
Import ReportSample.

(** The report of the approved run permits its approval. *)
Lemma reported_end_to_end :
  match generate (composition := sample) ReportSample.effective ServiceSample.rid WorkflowSample.approved with
  | (_, Ok r) => rep_status r = EvidenceReportStatus.COMPLETE /\ approval_permitted (verification r) = true
      /\ length (rep_attempts r) = 6%nat
  | (_, Err _) => False
  end.
Proof. vm_compute. repeat split. Qed.

Lemma reports_prove_approval_witness : exists s : StoredRun,
  snd (get_run ServiceSample.rid (w_store WorkflowSample.approved)) = Ok s /\ run_state (stored_run s) = APPROVED.
Proof.
  pose proof reported_end_to_end as H.
  destruct (generate (composition := sample) ReportSample.effective ServiceSample.rid WorkflowSample.approved)
    as [w' [r|e]] eqn:Hrun; [|destruct H].
  destruct (reports_prove_approval ReportSample.effective ServiceSample.rid WorkflowSample.approved w' r Hrun) as [_ Hp].
  destruct (Hp (proj1 (proj2 H))) as (s & records & Hs & _ & Hv). exists s. split; [exact Hs|exact (pv_approved _ _ _ Hv)].
Defined.

(** The second time the same file is found. *)
Lemma command_end_to_end :
  match command disk with
  | (w, Ok r) => (written_created <$> rcs_artifact r) = Some true /\ nodes w !! target = Some (File (rcs_content r))
      /\ size (nodes w) = 3%nat
      /\ (match snd (command w) with Ok r => written_created <$> rcs_artifact r | Err _ => None end) = Some false
  | (_, Err _) => False
  end.
Proof. vm_compute. repeat split. Qed.

Lemma report_command_safe_witness : exists w' : DiskWorld (World Z),
  nodes w' !! reports = Some Folder /\ same_durable WorkflowSample.approved (disk_host w').
Proof.
  destruct (command disk) as [w' o] eqn:Hrun.
  destruct (report_command_safe ReportSample.effective request disk w' o Hrun) as (Hsame & Hkept & _).
  exists w'. split; [|exact Hsame]. apply (Hkept reports Folder). vm_compute. reflexivity.
Defined.

Lemma too_many_commands_no_report_witness :
  (64 < length (config_validation (effective_config crowded)))%nat
  /\ is_ok (snd (generate (composition := sample) crowded ServiceSample.rid WorkflowSample.approved)) = false.
Proof.
  split; [vm_compute; repeat constructor|].
  destruct (generate (composition := sample) crowded ServiceSample.rid WorkflowSample.approved) as [w' [r|e]] eqn:Hrun;
    [|reflexivity].
  destruct (too_many_commands_no_report (composition := sample) crowded ltac:(vm_compute; repeat constructor)
              ServiceSample.rid WorkflowSample.approved w' r Hrun).
Defined.
