(* ===== verification/Initialization.v ===== *)
(** * Repository initialisation

    [application/initialization.py] with the inspections of [application/runtime.py]: a plan
    that looks at the repository and the disk, and its application, which creates the missing
    directories and the configuration file and replaces nothing.  The text of the default
    configuration is the YAML library's. *)

From Stdlib Require Import ZArith Lia Ascii String.
From S2P Require Import Prelude Text Domain Effects Commands GitPort GitPorcelain CommandPolicy GitPolicy ContextReader Ownership LocalGit Reconciliation Configuration RuntimeComposition Reports ReportOutput.
From stdpp Require Import base option strings numbers gmap sets list list_relations.

Open Scope Z_scope.

(** ** Inspections *)

Definition git_category_value (c : GitErrorCategory.t) : string :=
  match c with
  | GitErrorCategory.GIT_UNAVAILABLE => "GIT_UNAVAILABLE" | GitErrorCategory.NOT_A_REPOSITORY => "NOT_A_REPOSITORY"
  | GitErrorCategory.UNSUPPORTED_REPOSITORY => "UNSUPPORTED_REPOSITORY"
  | GitErrorCategory.REPOSITORY_STATE_UNSAFE => "REPOSITORY_STATE_UNSAFE" | GitErrorCategory.DIRTY_STATE => "DIRTY_STATE"
  | GitErrorCategory.PROTECTED_BRANCH => "PROTECTED_BRANCH" | GitErrorCategory.INVALID_REFERENCE => "INVALID_REFERENCE"
  | GitErrorCategory.WORKTREE_COLLISION => "WORKTREE_COLLISION" | GitErrorCategory.BRANCH_COLLISION => "BRANCH_COLLISION"
  | GitErrorCategory.OWNERSHIP_RECORD_CONFLICT => "OWNERSHIP_RECORD_CONFLICT"
  | GitErrorCategory.OWNERSHIP_MISMATCH => "OWNERSHIP_MISMATCH" | GitErrorCategory.UNOWNED_WORKTREE => "UNOWNED_WORKTREE"
  | GitErrorCategory.STALE_OWNERSHIP_RECORD => "STALE_OWNERSHIP_RECORD" | GitErrorCategory.PATH_POLICY => "PATH_POLICY"
  | GitErrorCategory.GIT_COMMAND => "GIT_COMMAND" | GitErrorCategory.PARTIAL_CREATION => "PARTIAL_CREATION"
  | GitErrorCategory.CLEANUP_REFUSED => "CLEANUP_REFUSED" | GitErrorCategory.MALFORMED_OUTPUT => "MALFORMED_OUTPUT"
  | GitErrorCategory.MALFORMED_OWNERSHIP_RECORD => "MALFORMED_OWNERSHIP_RECORD"
  end.

(** [except GitError as error: ...; except ValueError as error: ...] *)
Definition inspection_failure (rejected : string) (e : exn) : option exn :=
  match e with
  | GitError message => Some (RepositoryInspectionError "GIT_COMMAND" message)
  | GitSubclassError category message => Some (RepositoryInspectionError (git_category_value category) message)
  | _ => if is_policy_error e then Some (RepositoryInspectionError "RUNTIME_POLICY" rejected) else None
  end.

Section Inspection.
Context {E : Type} {git : GitHost E}.
(** [os.environ] and [os.name] *)
Variables (environ : list (string * string)) (windows : bool).
Abbreviation G := (GitWorld E).

(** The adapter of one inspection and what it is asked, its exceptions translated. *)
Definition inspected {A} (root : Path) (rejected : string) (ask : LocalGitRepository -> M G A) : M G A :=
  on_host (controlled_host_runner environ windows root ["git"] false) ;;
  try_except
    (roots ← lift (_inspection_roots root) ;
     paths ← on_host (make_PathPolicy (mk_PathPolicy roots [] false false)) ;
     ownership ← make_WorktreeOwnershipStore root false ;
     adapter ← make_LocalGitRepository paths root ownership None "git" _GIT_TIMEOUT_SECONDS false ;
     ask adapter)
    (fun e => is_some (inspection_failure rejected e))
    (fun e => raise (default e (inspection_failure rejected e))).

Definition inspect_repository (repository_path : Path) : M G RepositorySnapshot :=
  requested ← try_except (on_host (fs_resolve true repository_path)) is_any_os_error
    (fun _ => raise (RepositoryInspectionError "PATH_UNAVAILABLE" "repository path is unavailable")) ;
  directory ← on_host (fs_is_dir requested) ;
  lift (raise_if (negb directory) (RepositoryInspectionError "PATH_INVALID" "repository path must be a directory")) ;;
  inspected requested "repository inspection policy rejected" (fun adapter => inspect adapter requested).

Definition repository_path_is_ignored (repository_root relative_path : Path) : M G bool :=
  inspected repository_root "ignored-path inspection was rejected"
    (fun adapter => is_path_ignored adapter repository_root relative_path).
End Inspection.

(** ** The plan *)

Inductive InitializationAction := CREATE | REUSE | REFUSE.

#[export] Instance InitializationAction_eq_dec : EqDecision InitializationAction.
Proof. solve_decision. Defined.

Record InitializationResource := mk_InitializationResource {
  ir_relative_path : string;
  ir_action : InitializationAction;
  ir_reason : string
}.

Record InitializationPlan := mk_InitializationPlan {
  ip_repository_root : Path;
  ip_resources : list InitializationResource;
  ip_configuration : string
}.

Definition allowed (p : InitializationPlan) : bool :=
  forallb (fun r => negb (bool_decide (ir_action r = REFUSE))) (ip_resources p).

Record InitializationResult := mk_InitializationResult {
  init_succeeded : bool;
  init_code : string;
  init_message : string;
  init_changed : bool;
  init_plan : option InitializationPlan
}.

(** [InitializationSafetyError]: its code and its message *)
Definition InitializationSafetyError (code message : string) : exn :=
  BoundaryError "InitializationSafetyError" (code +:+ ": " +:+ message).
Definition is_safety_error : exn -> bool := is_class "InitializationSafetyError".
Definition is_inspection_error : exn -> bool := is_class "RepositoryInspectionError".

(** The code and the message of an exception that carries both: neither code has a colon. *)
Fixpoint split_colon (s : string) : string * string :=
  match s with
  | EmptyString => ("", "")
  | String c rest =>
      if Ascii.eqb c ":" then ("", String.substring 1 (String.length rest) rest)
      else let '(code, message) := split_colon rest in (String c code, message)
  end.

Definition failed_with (e : exn) (changed : bool) (plan : option InitializationPlan) : InitializationResult :=
  let '(code, message) := split_colon (message_of e) in mk_InitializationResult false code message changed plan.

(** [_only_configuration_is_untracked] *)
Definition _only_configuration_is_untracked (s : RepositorySnapshot) : bool :=
  bool_decide (staged_paths (rs_status s) = []) && bool_decide (unstaged_paths (rs_status s) = [])
  && bool_decide (conflicted_paths (rs_status s) = [])
  && bool_decide (untracked_paths (rs_status s) = [CONFIGURATION_FILENAME]).

(** What [yaml.safe_dump] writes of the dumped configuration. *)
Class ConfigYaml := config_yaml : RevanentConfig -> string.

(** [render_default_config(root.name or "revanent-project")] *)
Definition render_default_config `{!ConfigYaml} (root : Path) : res string :=
  let name := path_name root in
  config_yaml <$> default_config (if String.eqb name "" then "revanent-project" else name).

Section Initialization.
Context {E : Type} {git : GitHost E} {disk : DiskHost E} {yaml : ConfigYaml}.
Variables (environ : list (string * string)) (windows : bool).
Abbreviation G := (GitWorld E).
Abbreviation D := (DiskWorld G).

(** The disk is looked at and written beside the world of the Git adapter. *)
#[export] Instance git_disk : DiskHost G := {|
  resolve_root p := on_host (resolve_root p);
  disk_call name p := on_host (disk_call name p);
  random_part := on_host random_part
|}.

(** [path.resolve(strict=False)] *)
Definition resolved (p : Path) : M D Path := on_disk (on_host (fs_resolve false p)).

(** [os.path.lexists(path)] *)
Definition lexists (p : Path) : M D bool :=
  try_except (call "lstat" p ;; n ← node_at p ; mret (is_some n)) is_disk_error (fun _ => mret false).

(** [path.lstat()] *)
Definition lstat_node (p : Path) : M D node :=
  call "lstat" p ;; n ← node_at p ;
  match n with Some n => mret n | None => raise (BoundaryError "FileNotFoundError" "") end.

(** [except OSError] with its subclasses *)
Definition is_file_error (e : exn) : bool := is_disk_error e || is_not_found e.

(** The components below the root, none of them a link. *)
Fixpoint refuse_linked (current : Path) (parts : list string) : M D unit :=
  match parts with
  | [] => mret tt
  | part :: parts =>
      let current := joinpath current [part] in
      exists_ ← lexists current ;
      (if (exists_ : bool) then
         n ← try_except (lstat_node current) is_file_error
               (fun _ => raise (InitializationSafetyError "PATH_UNAVAILABLE" "initialization path is unavailable")) ;
         lift (raise_if (is_link (Some n))
                 (InitializationSafetyError "PATH_LINK_REFUSED" "initialization refuses symbolic links or junctions"))
       else mret tt) ;;
      refuse_linked current parts
  end.

Definition _safe_child (root relative : Path) : M D Path :=
  lift (raise_if (path_absolute relative || bool_decide (".." ∈ path_parts (path_of (replace_char "\" "/" (path_str relative)))))
          (InitializationSafetyError "PATH_INVALID" "initialization path must be repository-relative")) ;;
  refuse_linked root (path_parts relative) ;;
  let escapes := InitializationSafetyError "PATH_ESCAPE" "initialization path escapes the repository" in
  normalized ← try_except (resolved (joinpath root (path_parts relative))) (fun e => is_any_os_error e || is_ValueError e) (fun _ => raise escapes) ;
  lift (raise_if (negb (_contains root normalized)) escapes) ;;
  lift (raise_if (bool_decide (path_parts normalized !! length (path_parts root) = Some ".git"))
          (InitializationSafetyError "PATH_GIT_REFUSED" "initialization paths cannot be inside .git")) ;;
  mret (joinpath root (path_parts relative)).

Definition _require_distinct (paths : list Path) : M D unit :=
  normalized ← mapM resolved paths ;
  lift (raise_if (has_duplicates (path_str <$> normalized))
          (InitializationSafetyError "PATH_COLLISION" "workspace, report, and state roots must be distinct")).

(** [_relative]; the paths are made below the root. *)
Definition _relative (root path : Path) : string := path_str (mk_Path false (drop (length (path_parts root)) (path_parts path))).

Definition _file_resource (root path : Path) (expected : string) : M D InitializationResource :=
  let resource := mk_InitializationResource (_relative root path) in
  exists_ ← lexists path ;
  if negb exists_ then mret (resource CREATE "configuration will be created") else
  try_except
    (n ← lstat_node path ;
     match n with
     | File data =>
         lift (raise_if (MAX_CONFIGURATION_BYTES <? byte_len data) OSError) ;;
         call "read" path ;;
         mret (if String.eqb data expected then resource REUSE "existing configuration is identical"
               else resource REFUSE "existing configuration differs")
     | _ => raise OSError
     end)
    is_file_error (fun _ => mret (resource REFUSE "existing configuration is unsafe")).

Definition _directory_resource (root path : Path) : M D InitializationResource :=
  let resource := mk_InitializationResource (_relative root path) in
  exists_ ← lexists path ;
  if negb exists_ then mret (resource CREATE "directory will be created") else
  try_except
    (n ← lstat_node path ;
     mret (if bool_decide (n = Folder) then resource REUSE "existing compatible directory will be reused"
           else resource REFUSE "existing path is not a safe directory"))
    is_file_error (fun _ => mret (resource REFUSE "existing directory is unavailable")).

(** The names of the entries of a directory. *)
Definition entry_names (p : Path) : M D (list string) :=
  gets (fun w => path_name <$> filter (fun q => q <> p /\ path_parent q = p) ((map_to_list (nodes w)).*1)).

Definition _owned_root_is_compatible (p : Path) : M D bool :=
  try_except
    (call "iterdir" p ;; names ← entry_names p ;
     mret (forallb (fun name => bool_decide (name ∈ ["worktrees"; "runs"; "state"])) names))
    is_file_error (fun _ => mret false).

Definition refused_root (r : InitializationResource) : InitializationResource :=
  if String.eqb (ir_relative_path r) ".revanent"
  then mk_InitializationResource (ir_relative_path r) REFUSE "the Revanent-owned root has unexpected entries" else r.

Definition _plan_for_root (root : Path) (configuration : string) : M D InitializationResult :=
  config_path ← _safe_child root (path_of CONFIGURATION_FILENAME) ;
  workspace ← _safe_child root (path_of ".revanent/worktrees") ;
  reports ← _safe_child root (path_of ".revanent/runs") ;
  state ← _safe_child root (path_of ".revanent/state") ;
  owned_root ← _safe_child root (path_of ".revanent") ;
  _require_distinct [workspace; reports; state] ;;
  ignored ← attempt (on_disk (repository_path_is_ignored environ windows root (path_of ".revanent"))) ;
  match ignored with
  | Err e => if is_inspection_error e then mret (failed_with e false None) else raise e
  | Ok false =>
      mret (mk_InitializationResult false "OWNED_ROOT_NOT_IGNORED"
              ("the in-repository .revanent root must already be ignored; "
               +:+ "initialization does not edit .gitignore") false None)
  | Ok true =>
      a ← _file_resource root config_path configuration ;
      b ← _directory_resource root owned_root ;
      c ← _directory_resource root workspace ;
      d ← _directory_resource root reports ;
      e ← _directory_resource root state ;
      n ← node_at owned_root ;
      compatible ← (if node_exists n then _owned_root_is_compatible owned_root else mret true) ;
      let resources := [a; b; c; d; e] in
      let resources := if (compatible : bool) then resources else refused_root <$> resources in
      mret (mk_InitializationResult true "planned" "initialization plan is valid" false
              (Some (mk_InitializationPlan root resources configuration)))
  end.

(** [InitializationService.plan] *)
Definition plan (repository_path : Path) : M D InitializationResult :=
  found ← attempt (on_disk (inspect_repository environ windows repository_path)) ;
  match found with
  | Err e => if is_inspection_error e then mret (failed_with e false None) else raise e
  | Ok snapshot =>
      let root := worktree_root (rs_identity snapshot) in
      configuration ← lift (render_default_config root) ;
      if operation_in_progress (rs_status snapshot)
         || (has_changes (rs_status snapshot) && negb (_only_configuration_is_untracked snapshot))
      then mret (mk_InitializationResult false "REPOSITORY_UNSAFE"
                   "initialization requires a clean repository with no active Git operation" false None)
      else try_except (_plan_for_root root configuration) is_safety_error (fun e => mret (failed_with e false None))
  end.

(** ** Its application *)

Definition resource_le (a b : InitializationResource) : bool :=
  let depth r := length (path_parts (path_of (ir_relative_path r))) in
  (depth a <? depth b)%nat || ((depth a =? depth b)%nat && str_le (ir_relative_path a) (ir_relative_path b)).

Definition _directory_resources (p : InitializationPlan) : list InitializationResource :=
  py_sorted resource_le (filter (fun r => ir_relative_path r <> CONFIGURATION_FILENAME) (ip_resources p)).

(** [os.mkdir(path, 0o700)]; the directory must be there already when the name is taken. *)
Definition _create_directory (p : Path) : M D unit :=
  made ← attempt (make_directory p) ;
  match made with
  | Ok _ => mret tt
  | Err e =>
      if is_file_exists e then
        r ← _directory_resource (path_parent p) p ;
        lift (raise_if (negb (bool_decide (ir_action r = REUSE)))
                (InitializationSafetyError "INITIALIZATION_CONFLICT" "concurrent directory conflict"))
      else if is_file_error e then
        raise (InitializationSafetyError "INITIALIZATION_WRITE_FAILED" "could not create owned directory")
      else raise e
  end.

(** The random part is that of the name [mkstemp] settles on. *)
Definition init_temporary_path (target : Path) (middle : string) : Path :=
  joinpath (path_parent target) [".revanent-init-" +:+ middle +:+ ".tmp"].

Definition make_init_temporary (target : Path) : M D Path :=
  middle ← on_disk random_part ;
  let temporary := init_temporary_path target middle in
  n ← node_at temporary ;
  lift (raise_if (is_some n) FileExistsError) ;;
  call "open" temporary ;;
  set_node temporary (File "") ;;
  mret temporary.

Definition fill_and_link (temporary target : Path) (data : string) : M D unit :=
  call "write" temporary ;;
  set_node temporary (File data) ;;
  call "flush" temporary ;;
  call "fsync" temporary ;;
  link_file temporary target.

(** The handlers of [_create_file_exclusive]. *)
Definition create_failure (e : exn) : exn :=
  if is_file_exists e then InitializationSafetyError "INITIALIZATION_CONFLICT" "configuration appeared concurrently"
  else if is_file_error e then
    InitializationSafetyError "INITIALIZATION_WRITE_FAILED" "could not create configuration safely"
  else e.

Definition translated {A} (m : M D A) : M D A := try_except m (fun _ => true) (fun e => raise (create_failure e)).

Definition _create_file_exclusive (target : Path) (data : string) : M D unit :=
  temporary ← translated (make_init_temporary target) ;
  try_finally (translated (fill_and_link temporary target data)) (remove_temporary temporary).

(** The directories that the plan creates, in order, and whether one was created. *)
Fixpoint create_directories (root : Path) (resources : list InitializationResource) (changed : bool)
    : M D (bool * option exn) :=
  match resources with
  | [] => mret (changed, None)
  | r :: resources =>
      if bool_decide (ir_action r = CREATE) then
        made ← attempt (_create_directory (joinpath root (path_parts (path_of (ir_relative_path r))))) ;
        match made with
        | Ok _ => create_directories root resources true
        | Err e => if is_safety_error e then mret (changed, Some e) else raise e
        end
      else create_directories root resources changed
  end.

Definition initialized (p : InitializationPlan) (changed : bool) : InitializationResult :=
  mk_InitializationResult true "initialized" "initialization completed safely" changed (Some p).

(** The body of [initialize], for an allowed plan. *)
Definition apply_plan (p : InitializationPlan) : M D InitializationResult :=
  directories ← create_directories (ip_repository_root p) (_directory_resources p) false ;
  let '(changed, failure) := directories in
  match failure with
  | Some e => mret (failed_with e changed (Some p))
  | None =>
      match List.find (fun r => String.eqb (ir_relative_path r) CONFIGURATION_FILENAME) (ip_resources p) with
      | None => raise (BoundaryError "StopIteration" "")
      | Some r =>
          if bool_decide (ir_action r = CREATE) then
            made ← attempt (_create_file_exclusive (joinpath (ip_repository_root p) [CONFIGURATION_FILENAME]) (ip_configuration p)) ;
            match made with
            | Ok _ => mret (initialized p true)
            | Err e => if is_safety_error e then mret (failed_with e changed (Some p)) else raise e
            end
          else mret (initialized p changed)
      end
  end.

(** [InitializationService.initialize] *)
Definition initialize (repository_path : Path) : M D InitializationResult :=
  planned ← plan repository_path ;
  match init_plan planned with
  | Some p =>
      if negb (init_succeeded planned) then mret planned
      else if negb (allowed p) then
        mret (mk_InitializationResult false "INITIALIZATION_CONFLICT"
                "initialization refused because an existing path is incompatible" false (Some p))
      else apply_plan p
  | None => mret planned
  end.
End Initialization.
