(* ===== verification/InitializationSafety.v ===== *)
(** * What initialisation does to a repository

    Initialising changes nothing that was there; what it reports as done is in place; and an
    initialised repository is left as it is. *)

From Stdlib Require Import ZArith Lia Ascii String.
From S2P Require Import Prelude Text Domain Effects Commands GitPort GitPorcelain CommandPolicy GitPolicy ContextReader Ownership LocalGit Reconciliation Configuration RuntimeComposition Reports ReportOutput Initialization.
From stdpp Require Import base option strings numbers gmap sets list list_relations.

Open Scope Z_scope.

Section Safety.
Context {E : Type} {git : GitHost E} {disk : DiskHost E} {yaml : ConfigYaml}.
Variables (environ : list (string * string)) (windows : bool).
Abbreviation G := (GitWorld E).
Abbreviation D := (DiskWorld G).
Abbreviation nothing := (fun _ : Path => False).

(** ** The plan only looks *)

Create HintDb looks.
#[local] Hint Resolve same_on_disk same_call same_node_at same_lift same_raise same_ret : looks.

Ltac look :=
  repeat first
    [ solve [auto with looks]
    | apply only_bind; [exact _| |intros ?] | apply only_try; [exact _| |intros ?] | apply only_attempt
    | progress cbv zeta | case_match ].

Lemma same_lexists p : only (W := D) same_nodes (lexists p).
Proof. unfold lexists. look. Qed.
Lemma same_lstat p : only (W := D) same_nodes (lstat_node p).
Proof. unfold lstat_node. look. Qed.
Lemma same_resolved p : only (W := D) same_nodes (resolved p).
Proof. apply same_on_disk. Qed.
#[local] Hint Resolve same_lexists same_lstat same_resolved : looks.

Lemma same_refuse_linked current parts : only (W := D) same_nodes (refuse_linked current parts).
Proof.
  revert current. induction parts as [|part parts IH]; intros current; [done|]. cbn [refuse_linked]. look.
Qed.
#[local] Hint Resolve same_refuse_linked : looks.

Lemma same_safe_child root relative : only (W := D) same_nodes (_safe_child root relative).
Proof. unfold _safe_child. look. Qed.

Lemma same_mapM {A B} (f : A -> M D B) xs : (forall x, only same_nodes (f x)) -> only same_nodes (mapM f xs).
Proof. intros Hf. induction xs as [|x xs IH]; cbn; [done|]. look; apply Hf. Qed.

Lemma same_distinct paths : only (W := D) same_nodes (_require_distinct paths).
Proof. unfold _require_distinct. look. apply same_mapM, same_resolved. Qed.
Lemma same_file_resource root p expected : only (W := D) same_nodes (_file_resource root p expected).
Proof. unfold _file_resource. look. Qed.
Lemma same_directory_resource root p : only (W := D) same_nodes (_directory_resource root p).
Proof. unfold _directory_resource. look. Qed.
Lemma same_compatible p : only (W := D) same_nodes (_owned_root_is_compatible p).
Proof. unfold _owned_root_is_compatible, entry_names. look. done. Qed.
#[local] Hint Resolve same_safe_child same_distinct same_file_resource same_directory_resource same_compatible : looks.

Lemma same_plan_for_root root configuration :
  only (W := D) same_nodes (_plan_for_root environ windows root configuration).
Proof. unfold _plan_for_root. look. Qed.
#[local] Hint Resolve same_plan_for_root : looks.

Lemma same_plan p : only (W := D) same_nodes (plan environ windows p).
Proof. unfold plan. look. Qed.

(** ** What the plan found *)

(** The system calls of the disk succeed. *)
Definition quiet_disk : Prop := forall name p e, exists e', disk_call (DiskHost := disk) name p e = (e', Ok tt).

Lemma quiet_call name p (w : D) : quiet_disk -> exists w', call name p w = (w', Ok tt) /\ same_nodes w w'.
Proof.
  intros Hq. unfold call, on_disk. cbn. unfold on_host. destruct (Hq name p (Ownership.host (disk_host w))) as [e' ->].
  by eexists.
Qed.

Lemma lexists_true p (w w' : D) : lexists p w = (w', Ok true) -> is_some (nodes w !! p) = true.
Proof.
  unfold lexists, try_except, mbind, M_bind, node_at, gets, mret, M_ret.
  destruct (call_runs "lstat" p w) as (w1 & [->|[e ->]] & Hw); [|by destruct (is_disk_error e)]. rewrite Hw. by intros [= _ <-].
Qed.

Lemma lexists_quiet p (w : D) : quiet_disk -> exists w', lexists p w = (w', Ok (is_some (nodes w !! p))) /\ same_nodes w w'.
Proof.
  intros Hq. unfold lexists, try_except, mbind, M_bind, node_at, gets, mret, M_ret.
  destruct (quiet_call "lstat" p w Hq) as (w1 & -> & Hw). exists w1. by rewrite Hw.
Qed.

Lemma lstat_found p (w w' : D) n : lstat_node p w = (w', Ok n) -> nodes w !! p = Some n.
Proof.
  unfold lstat_node, mbind, M_bind, node_at, gets, mret, M_ret, raise.
  destruct (call_runs "lstat" p w) as (w1 & [->|[e ->]] & Hw); [|done]. rewrite Hw.
  destruct (nodes w !! p); [|done]. by intros [= _ <-].
Qed.

Lemma relative_below root parts : _relative root (joinpath root parts) = path_str (mk_Path false parts).
Proof. unfold _relative, joinpath. cbn [path_parts]. by rewrite drop_app_length. Qed.

Lemma directory_resource_spec root p (w w' : D) r :
  _directory_resource root p w = (w', Ok r) ->
  ir_relative_path r = _relative root p
  /\ (ir_action r = REUSE -> nodes w !! p = Some Folder)
  /\ (quiet_disk -> is_some (nodes w !! p) = true -> ir_action r <> CREATE).
Proof.
  intros H. unfold _directory_resource in H. cbv zeta in H. apply M_bind_Ok in H as (w1 & b & Hb & H).
  pose proof (same_lexists p w) as K. rewrite Hb in K. cbn in K.
  destruct b; cbn [negb] in H.
  2:{ injection H as _ <-. split_and!; [done|done|]. intros Hq Hn. destruct (lexists_quiet p w Hq) as (w2 & E2 & _). congruence. }
  unfold try_except, mbind, M_bind in H. destruct (lstat_node p w1) as [w2 [n|e]] eqn:El.
  - apply lstat_found in El. rewrite K in El. injection H as _ <-. rewrite El. case_bool_decide; by subst.
  - destruct (is_file_error e); [|done]. by injection H as _ <-.
Qed.

Lemma file_resource_spec root p expected (w w' : D) r :
  _file_resource root p expected w = (w', Ok r) ->
  ir_relative_path r = _relative root p
  /\ (ir_action r = REUSE -> nodes w !! p = Some (File expected))
  /\ (quiet_disk -> is_some (nodes w !! p) = true -> ir_action r <> CREATE).
Proof.
  intros H. unfold _file_resource in H. cbv zeta in H. apply M_bind_Ok in H as (w1 & b & Hb & H).
  pose proof (same_lexists p w) as K. rewrite Hb in K. cbn in K. destruct b; cbn [negb] in H.
  2:{ injection H as _ <-. split_and!; [done|done|]. intros Hq Hn. destruct (lexists_quiet p w Hq) as (w2 & E2 & _). congruence. }
  unfold try_except in H. unfold mbind at 1, M_bind at 1 in H. destruct (lstat_node p w1) as [w2 [n|e]] eqn:El.
  - apply lstat_found in El. rewrite K in El. rewrite El. destruct n as [data| | |]; [|by injection H as _ <-..].
    unfold mbind, M_bind, lift, raise_if in H. destruct (MAX_CONFIGURATION_BYTES <? byte_len data); [by injection H as _ <-|].
    destruct (call_runs "read" p w2) as (w3 & [E3|[e E3]] & _); rewrite E3 in H.
    + injection H as _ <-. by destruct (String.eqb_spec data expected) as [->|].
    + destruct (is_file_error e); [|done]. by injection H as _ <-.
  - destruct (is_file_error e); [|done]. by injection H as _ <-.
Qed.

Lemma safe_child_Ok root relative (w w' : D) p :
  _safe_child root relative w = (w', Ok p) -> same_nodes w w' /\ p = joinpath root (path_parts relative).
Proof.
  intros H. split; [pose proof (same_safe_child root relative w) as K; by rewrite H in K|]. unfold _safe_child in H. cbv zeta in H.
  repeat (apply M_bind_Ok in H as (? & ? & _ & H)). by injection H.
Qed.

(** What a planned directory says of the disk it was planned on. *)
Definition directory_planned (root : Path) (w : D) (name : string) (parts : list string) (r : InitializationResource) : Prop :=
  ir_relative_path r = name /\ (ir_action r = REUSE -> nodes w !! joinpath root parts = Some Folder)
  /\ (quiet_disk -> is_some (nodes w !! joinpath root parts) = true -> ir_action r <> CREATE).

(** The resources of a plan that does not refuse its own root. *)
Record planned (root : Path) (configuration : string) (w : D) (p : InitializationPlan) : Prop := {
  pl_root : ip_repository_root p = root;
  pl_configuration : ip_configuration p = configuration;
  pl_resources : exists a b c d e, ip_resources p = [a; b; c; d; e]
    /\ ir_relative_path a = CONFIGURATION_FILENAME
    /\ (ir_action a = REUSE -> nodes w !! joinpath root [CONFIGURATION_FILENAME] = Some (File configuration))
    /\ (quiet_disk -> is_some (nodes w !! joinpath root [CONFIGURATION_FILENAME]) = true -> ir_action a <> CREATE)
    /\ directory_planned root w ".revanent" [".revanent"] b
    /\ directory_planned root w ".revanent/worktrees" [".revanent"; "worktrees"] c
    /\ directory_planned root w ".revanent/runs" [".revanent"; "runs"] d
    /\ directory_planned root w ".revanent/state" [".revanent"; "state"] e
}.

Lemma directory_planned_at root parts name (w w1 w2 : D) r :
  _directory_resource root (joinpath root parts) w1 = (w2, Ok r) -> same_nodes w w1 ->
  path_str (mk_Path false parts) = name -> directory_planned root w name parts r /\ same_nodes w w2.
Proof.
  intros H K Hname. pose proof (same_directory_resource root (joinpath root parts) w1) as K2. rewrite H in K2. cbn in K2.
  split; [|unfold same_nodes in *; congruence]. apply directory_resource_spec in H as (Ha & Hb & Hc).
  rewrite relative_below, Hname in Ha. unfold same_nodes in K. rewrite K in Hb, Hc. done.
Qed.

Lemma plan_for_root_spec root configuration (w w' : D) r p :
  _plan_for_root environ windows root configuration w = (w', Ok r) -> init_plan r = Some p -> allowed p = true ->
  planned root configuration w p.
Proof.
  intros H Hp Hallowed. unfold _plan_for_root in H. cbv zeta in H.
  apply M_bind_Ok in H as (w1 & config & H1 & H). apply safe_child_Ok in H1 as [K1 ->].
  apply M_bind_Ok in H as (w2 & workspace & H2 & H). apply safe_child_Ok in H2 as [K2 ->].
  apply M_bind_Ok in H as (w3 & reports & H3 & H). apply safe_child_Ok in H3 as [K3 ->].
  apply M_bind_Ok in H as (w4 & state & H4 & H). apply safe_child_Ok in H4 as [K4 ->].
  apply M_bind_Ok in H as (w5 & owned & H5 & H). apply safe_child_Ok in H5 as [K5 ->].
  apply M_bind_Ok in H as (w6 & u & H6 & H). lazymatch type of H6 with _require_distinct ?l _ = _ => pose proof (same_distinct l w5) as K6 end. rewrite H6 in K6. cbn in K6.
  apply M_bind_Ok in H as (w7 & ignored & H7 & H).
  pose proof (only_attempt same_nodes _ (same_on_disk (repository_path_is_ignored environ windows root (path_of ".revanent"))) w6) as K7.
  rewrite H7 in K7. cbn in K7.
  assert (K : same_nodes w w7) by (unfold same_nodes in *; congruence). clear K1 K2 K3 K4 K5 K6 K7 H6 H7.
  destruct ignored as [[|]|e]; [|injection H as _ <-; done|destruct (is_inspection_error e); [|done]; injection H as _ <-].
  2:{ unfold failed_with in Hp. by destruct (split_colon _). }
  apply M_bind_Ok in H as (w8 & a & Ha & H). pose proof (same_file_resource root (joinpath root (path_parts (path_of CONFIGURATION_FILENAME))) configuration w7) as K8.
  rewrite Ha in K8. cbn in K8. apply file_resource_spec in Ha as (Ha1 & Ha2 & Ha3). unfold same_nodes in K. rewrite K in Ha2, Ha3.
  rewrite relative_below in Ha1.
  assert (K' : same_nodes w w8) by (unfold same_nodes in *; congruence).
  apply M_bind_Ok in H as (w9 & b & Hb & H). apply directory_planned_at with (w := w) (name := ".revanent") in Hb as [Hb K9]; [|done|done].
  apply M_bind_Ok in H as (w10 & c & Hc & H).
  apply directory_planned_at with (w := w) (name := ".revanent/worktrees") in Hc as [Hc K10]; [|done|done].
  apply M_bind_Ok in H as (w11 & d & Hd & H).
  apply directory_planned_at with (w := w) (name := ".revanent/runs") in Hd as [Hd K11]; [|done|done].
  apply M_bind_Ok in H as (w12 & e & He & H).
  apply directory_planned_at with (w := w) (name := ".revanent/state") in He as [He K12]; [|done|done].
  apply M_bind_Ok in H as (w13 & n & _ & H). apply M_bind_Ok in H as (w14 & compatible & _ & H). injection H as _ <-.
  cbn in Hp. injection Hp as <-. destruct compatible; [by split; cbn; [done|done|exists a, b, c, d, e]|].
  exfalso. unfold allowed in Hallowed. rewrite forallb_forall in Hallowed.
  specialize (Hallowed (refused_root b) ltac:(cbn; auto)). unfold refused_root in Hallowed. destruct Hb as [Hb _].
  by rewrite Hb in Hallowed.
Qed.

(** A plan to initialise belongs to a repository root and to the text rendered for it. *)
Lemma plan_spec path (w w' : D) r p :
  plan environ windows path w = (w', Ok r) -> init_plan r = Some p -> allowed p = true ->
  exists root configuration w1, render_default_config root = Ok configuration /\ same_nodes w w1 /\ planned root configuration w1 p.
Proof.
  intros H Hp Hallowed. unfold plan in H. apply M_bind_Ok in H as (w1 & found & H1 & H).
  pose proof (only_attempt same_nodes _ (same_on_disk (inspect_repository environ windows path)) w) as K. rewrite H1 in K. cbn in K.
  destruct found as [snapshot|e].
  2:{ destruct (is_inspection_error e); [|done]. injection H as _ <-. unfold failed_with in Hp. by destruct (split_colon _). }
  cbv zeta in H. apply M_bind_Ok in H as (w2 & configuration & [-> Hc]%lift_Ok & H).
  destruct (_ || _); [by injection H as _ <-|]. unfold try_except in H.
  destruct (_plan_for_root _ _ _ _ w1) as [w3 [r'|e]] eqn:Er.
  - injection H as -> ->. eexists _, _, w1. split; [exact Hc|]. split; [done|]. by eapply plan_for_root_spec.
  - destruct (is_safety_error e); [|done]. injection H as _ <-. unfold failed_with in Hp. by destruct (split_colon _).
Qed.

(** ** Directories *)

Lemma made_directory p (w w' : D) : make_directory p w = (w', Ok tt) -> nodes w' !! p = Some Folder.
Proof.
  unfold make_directory, mbind, M_bind, node_at, gets, set_node, raise.
  destruct (call_runs "mkdir" p w) as (w1 & [->|[e ->]] & _); [|done]. destruct (nodes w1 !! p); [done|].
  intros [= <-]. cbn. apply lookup_insert_eq.
Qed.

Lemma present_kept data p n (w w' : D) : kept nothing data w w' -> nodes w !! p = Some n -> nodes w' !! p = Some n.
Proof. intros Hk Hn. destruct (Hk p) as [->|[]]; [by intros []|done|congruence]. Qed.

Lemma kept_create_directory data p : only (W := D) (kept nothing data) (_create_directory p).
Proof.
  unfold _create_directory. apply only_bind; [exact _|apply only_attempt, kept_make_directory|intros made].
  assert (forall A (m : M D A), only same_nodes m -> only (kept nothing data) m) as Hw.
  { intros A m. apply only_weaken, same_kept. }
  destruct made as [[]|e]; [apply Hw, same_ret|]. destruct (is_file_exists e).
  - apply only_bind; [exact _|apply Hw, same_directory_resource|intros r; apply Hw, same_lift].
  - destruct (is_file_error e); apply Hw, same_raise.
Qed.

Lemma created_directory p (w w' : D) u : _create_directory p w = (w', Ok u) -> nodes w' !! p = Some Folder.
Proof.
  intros H. unfold _create_directory in H. apply M_bind_Ok in H as (w1 & made & H1 & H). unfold attempt in H1.
  destruct (make_directory p w) as [w2 o] eqn:Em. injection H1 as -> <-. destruct o as [[]|e].
  - injection H as <- _. by apply made_directory in Em.
  - destruct (is_file_exists e); [|by destruct (is_file_error e)]. apply M_bind_Ok in H as (w3 & r & Hr & H).
    apply lift_Ok in H as [-> H]. apply raise_if_Ok in H. pose proof (same_directory_resource (path_parent p) p w1) as K.
    rewrite Hr in K. cbn in K. apply directory_resource_spec in Hr as (_ & Hr & _). rewrite K. apply Hr.
    by case_bool_decide.
Qed.

Definition resource_path (root : Path) (r : InitializationResource) : Path :=
  joinpath root (path_parts (path_of (ir_relative_path r))).

Lemma create_directories_spec data root rs changed (w w' : D) o :
  create_directories root rs changed w = (w', o) ->
  kept nothing data w w' /\
  (forall c, o = Ok (c, None) -> forall r, r ∈ rs -> ir_action r = CREATE -> nodes w' !! resource_path root r = Some Folder) /\
  ((forall r, r ∈ rs -> ir_action r <> CREATE) -> w' = w /\ o = Ok (changed, None)).
Proof.
  revert changed w. induction rs as [|r rs IH]; intros changed w H; cbn [create_directories] in H.
  { injection H as <- <-. split_and!; [apply confined_refl|by intros c _ r Hr%not_elem_of_nil|done]. }
  fold (resource_path root r) in H. case_bool_decide as Hr.
  2:{ destruct (IH _ _ H) as (A & B & C). split_and!; [done| |].
      - intros c Hc q [->|Hq]%elem_of_cons Ha; [done|by eapply B].
      - intros Hnone. apply C. intros q Hq. apply Hnone. by right. }
  unfold mbind, M_bind, attempt in H. pose proof (kept_create_directory data (resource_path root r) w) as K.
  destruct (_create_directory (resource_path root r) w) as [w1 [u|e]] eqn:Ec; cbn in K.
  - destruct (IH _ _ H) as (A & B & C). split_and!; [by eapply confined_trans| |].
    + intros c Hc q [->|Hq]%elem_of_cons Ha; [|by eapply B]. apply created_directory in Ec. by eapply present_kept.
    + intros Hnone. by destruct (Hnone r); [left|].
  - split_and!; [|intros c Hc|intros Hnone; by destruct (Hnone r); [left|]].
    + destruct (is_safety_error e); by injection H as <- <-.
    + destruct (is_safety_error e); injection H as <- <-; done.
Qed.

(** ** The configuration file *)

Lemma init_temporary_apart root name middle :
  String.prefix ".revanent-init-" name = false -> init_temporary_path (joinpath root [name]) middle <> joinpath root [name].
Proof.
  intros Hname H. apply (f_equal path_name) in H. unfold path_name, init_temporary_path, joinpath in H. cbn [path_parts] in H.
  rewrite !last_snoc in H. unfold default, id in H. subst name. cbn in Hname. by destruct middle.
Qed.

Lemma make_init_temporary_spec target (w w' : D) r :
  make_init_temporary target w = (w', r) ->
  match r with
  | Ok t => nodes w !! t = None /\ nodes w' = <[t := File ""]> (nodes w) /\ exists middle, t = init_temporary_path target middle
  | Err _ => same_nodes w w'
  end.
Proof.
  unfold make_init_temporary, mbind, M_bind, node_at, gets, lift, raise_if, set_node, mret, M_ret.
  pose proof (same_on_disk random_part w) as Hw. destruct (on_disk random_part w) as [w1 [middle|e]]; [|by intros [= <- <-]].
  cbn [fst] in Hw. cbv zeta. set (t := init_temporary_path target middle).
  destruct (nodes w1 !! t) eqn:Ht; cbn [is_some]; [by intros [= <- <-]|].
  destruct (call_runs "open" t w1) as (w2 & [->|[e ->]] & Hw2); intros [= <- <-]; [|unfold same_nodes in *; congruence].
  cbn. unfold same_nodes in *. split_and!; [congruence|congruence|by exists middle].
Qed.

Lemma translated_run {A} (m : M D A) (w w' : D) r :
  translated m w = (w', r) -> exists r', m w = (w', r') /\ forall a, r = Ok a <-> r' = Ok a.
Proof.
  unfold translated, try_except. destruct (m w) as [w1 [a|e]]; intros [= <- <-]; eexists; (split; [done|]); [done|].
  by split.
Qed.

(** Whatever fails, only the temporary file and the whole target are new. *)
Lemma fill_and_link_spec t target data (w w' : D) r :
  fill_and_link t target data w = (w', r) -> t <> target ->
  kept (eq t) data w w' /\ (r = Ok tt -> nodes w' !! target = Some (File data)).
Proof.
  unfold fill_and_link. intros H Ht.
  unfold mbind at 1, M_bind at 1 in H. destruct (call_runs "write" t w) as (w2 & [E2|[e E2]] & H2); rewrite E2 in H;
    [|injection H as <- <-; split; [by apply same_kept|done]].
  unfold mbind at 1, M_bind at 1, set_node at 1 in H. set (w3 := mk_DiskWorld _ _) in H.
  assert (H3 : nodes w3 = <[t := File data]> (nodes w)) by (cbn; unfold same_nodes in *; congruence).
  assert (K3 : forall w4, same_nodes w3 w4 -> kept (eq t) data w w4).
  { intros w4 H4 q Hq. left. rewrite H4, H3. by apply lookup_insert_ne. }
  unfold mbind at 1, M_bind at 1 in H. destruct (call_runs "flush" t w3) as (w4 & [E4|[e E4]] & H4); rewrite E4 in H;
    [|injection H as <- <-; split; [by apply K3|done]].
  unfold mbind at 1, M_bind at 1 in H. destruct (call_runs "fsync" t w4) as (w5 & [E5|[e E5]] & H5); rewrite E5 in H;
    assert (H35 : same_nodes w3 w5) by (unfold same_nodes in *; congruence);
    [|injection H as <- <-; split; [by apply K3|done]].
  apply (link_file_spec _ _ data) in H; [|rewrite H35, H3; apply lookup_insert_eq].
  destruct r as [[]|e]; [|split; [apply K3; unfold same_nodes in *; congruence|done]].
  destruct H as [Hnone H6]. split; [|intros _; rewrite H6; apply lookup_insert_eq].
  intros q Hq. rewrite H6. rewrite H35, H3 in Hnone. rewrite lookup_insert_ne in Hnone by done.
  destruct (decide (q = target)) as [->|Hqt].
  - right. rewrite lookup_insert_eq. split; [done|by right].
  - left. rewrite lookup_insert_ne by done. rewrite H35, H3. by apply lookup_insert_ne.
Qed.

Lemma create_file_spec root name data (w w' : D) r :
  String.prefix ".revanent-init-" name = false ->
  _create_file_exclusive (joinpath root [name]) data w = (w', r) ->
  changed data w w' /\ (r = Ok tt -> nodes w' !! joinpath root [name] = Some (File data)).
Proof.
  intros Hname H. set (target := joinpath root [name]) in *. unfold _create_file_exclusive, mbind at 1, M_bind at 1 in H.
  destruct (translated (make_init_temporary target) w) as [w1 o] eqn:Et. apply translated_run in Et as (o' & Et & Ho).
  apply make_init_temporary_spec in Et. destruct o as [t|e].
  2:{ injection H as <- <-. destruct o' as [t|e']; [discriminate (proj2 (Ho t) eq_refl)|]. split; [by apply changed_nothing, same_kept|done]. }
  rewrite (proj1 (Ho t) eq_refl) in Et. clear Ho o'. destruct Et as (Hnone & H1 & middle & Ht).
  assert (Hapart : t <> target) by (rewrite Ht; by apply init_temporary_apart).
  assert (K1 : forall q, q <> t -> nodes w1 !! q = nodes w !! q) by (intros q Hq; rewrite H1; by apply lookup_insert_ne).
  unfold try_finally, attempt, mbind, M_bind in H.
  destruct (translated (fill_and_link t target data) w1) as [w2 o] eqn:Eb. apply translated_run in Eb as (o' & Eb & Ho).
  apply fill_and_link_spec in Eb as [Kb Hb]; [|done]. pose proof (fun q => remove_temporary_spec t w2 q) as Kr.
  assert (K : forall w3, (forall q, q <> t -> nodes w3 !! q = nodes w2 !! q) -> changed data w w3).
  { intros w3 H3. exists (Some t). split; [by intros ? [= <-]|]. intros q Hq. assert (q <> t) by congruence.
    rewrite H3 by done. rewrite <- (K1 q) by done. by apply Kb. }
  destruct (remove_temporary t w2) as [w3 [u|e]]; cbn in Kr, H; injection H as <- <-; (split; [by apply K|]); [|done].
  intros Hr. rewrite Kr by done. apply Hb, Ho. exact Hr.
Qed.

(** ** Properties *)

(** The directories and the configuration of an initialised repository. *)
Record in_place (root : Path) (configuration : string) (w : D) : Prop := {
  ip_file : nodes w !! joinpath root [CONFIGURATION_FILENAME] = Some (File configuration);
  ip_owned : nodes w !! joinpath root [".revanent"] = Some Folder;
  ip_worktrees : nodes w !! joinpath root [".revanent"; "worktrees"] = Some Folder;
  ip_runs : nodes w !! joinpath root [".revanent"; "runs"] = Some Folder;
  ip_state : nodes w !! joinpath root [".revanent"; "state"] = Some Folder
}.

Lemma planned_directory root name parts (w w' : D) (rs : list InitializationResource) r data :
  directory_planned root w name parts r -> path_parts (path_of name) = parts -> r ∈ rs -> ir_action r <> REFUSE ->
  kept nothing data w w' ->
  (forall q, q ∈ rs -> ir_action q = CREATE -> nodes w' !! resource_path root q = Some Folder) ->
  nodes w' !! joinpath root parts = Some Folder.
Proof.
  intros (Hname & Hreuse & _) Hparts Hr Hrefuse Hk Hcreated. destruct (ir_action r) eqn:Ha; [| |done].
  - specialize (Hcreated r Hr Ha). unfold resource_path in Hcreated. by rewrite Hname, Hparts in Hcreated.
  - by eapply present_kept, Hreuse.
Qed.

Lemma sorted_directories p r :
  r ∈ _directory_resources p <-> r ∈ ip_resources p /\ ir_relative_path r <> CONFIGURATION_FILENAME.
Proof. unfold _directory_resources. rewrite py_sorted_perm, list_elem_of_filter. naive_solver. Qed.

(** An allowed plan refuses nothing; in an initialised repository it creates nothing. *)
Lemma planned_actions root configuration p (w : D) :
  planned root configuration w p -> allowed p = true -> forall r, r ∈ ip_resources p ->
  ir_action r <> REFUSE /\ (quiet_disk -> in_place root configuration w -> ir_action r <> CREATE).
Proof.
  intros [_ _ (a & b & c & d & e & Hrs & _ & _ & Ha & Hb & Hc & Hd & He)] Hallowed r Hr. split.
  - unfold allowed in Hallowed. apply forallb_true, Forall_forall with (x := r) in Hallowed; [|done]. by case_bool_decide.
  - intros Hq [P0 P1 P2 P3 P4]. rewrite Hrs, !elem_of_cons, elem_of_nil in Hr.
    destruct Hr as [->|[->|[->|[->|[->|[]]]]]]; [apply Ha|apply Hb|apply Hc|apply Hd|apply He]; try done;
      by rewrite ?P0, ?P1, ?P2, ?P3, ?P4.
Qed.

(** Once the planned directories are created, the file completes the repository. *)
Lemma planned_completed root configuration p (w w1 w2 : D) :
  planned root configuration w p -> allowed p = true -> kept nothing configuration w w1 ->
  (forall q, q ∈ _directory_resources p -> ir_action q = CREATE -> nodes w1 !! resource_path root q = Some Folder) ->
  changed configuration w1 w2 -> nodes w2 !! joinpath root [CONFIGURATION_FILENAME] = Some (File configuration) ->
  in_place root configuration w2.
Proof.
  intros Hplanned Hallowed Hk Hcreated Hw2 Hfile. pose proof (planned_actions _ _ _ _ Hplanned Hallowed) as Hact.
  destruct Hplanned as [_ _ (a & b & c & d & e & Hrs & _ & _ & _ & Hb & Hc & Hd & He)].
  assert (Hat : forall name parts r, directory_planned root w name parts r -> path_parts (path_of name) = parts ->
    name <> CONFIGURATION_FILENAME -> r ∈ [b; c; d; e] -> nodes w1 !! joinpath root parts = Some Folder).
  { intros name parts r Hr Hparts Hname Hbr. assert (r ∈ ip_resources p) by (rewrite Hrs; by right).
    eapply planned_directory; [exact Hr|exact Hparts| |by apply Hact|exact Hk|exact Hcreated].
    apply sorted_directories. destruct Hr as [-> _]. done. }
  apply changed_spec in Hw2 as [Hw2 _].
  split; [done|apply Hw2, (Hat _ _ _ Hb)|apply Hw2, (Hat _ _ _ Hc)|apply Hw2, (Hat _ _ _ Hd)|apply Hw2, (Hat _ _ _ He)];
    try done; rewrite !elem_of_cons; auto.
Qed.

Lemma apply_plan_spec root configuration p (w w' : D) o :
  planned root configuration w p -> allowed p = true -> apply_plan p w = (w', o) ->
  changed configuration w w' /\
  (forall r, o = Ok r -> init_plan r = Some p /\ (init_succeeded r = true -> in_place root configuration w')) /\
  (quiet_disk -> in_place root configuration w ->
   nodes w' = nodes w /\ forall r, o = Ok r -> init_changed r = false).
Proof.
  intros Hplanned Hallowed H. pose proof (planned_actions _ _ _ _ Hplanned Hallowed) as Hact.
  pose proof (fun w1 w2 => planned_completed _ _ _ _ w1 w2 Hplanned Hallowed) as Hdone.
  destruct Hplanned as [Hroot Hconf (a & b & c & d & e & Hrs & Ha & Ha2 & _)].
  assert (Hin : a ∈ ip_resources p) by (rewrite Hrs; by left).
  unfold apply_plan in H. rewrite Hroot, Hconf in H. unfold mbind at 1, M_bind at 1 in H.
  destruct (create_directories root (_directory_resources p) false w) as [w1 o1] eqn:Ed.
  destruct (create_directories_spec configuration _ _ _ _ _ _ Ed) as (Hk & Hcreated & Hnone).
  assert (Hquiet : quiet_disk -> in_place root configuration w -> w1 = w /\ o1 = Ok (false, None)).
  { intros Hq Hp. apply Hnone. intros r [Hr _]%sorted_directories. by apply Hact. }
  assert (Hfails : forall e ch, init_plan (failed_with e ch (Some p)) = Some p
    /\ (init_succeeded (failed_with e ch (Some p)) = true -> in_place root configuration w')).
  { intros x ch. unfold failed_with. by destruct (split_colon _). }
  destruct o1 as [[ch [e'|]]|e'].
  - injection H as <- <-. split_and!; [by apply changed_nothing|intros r [= <-]; apply Hfails|].
    intros Hq Hp. by destruct (Hquiet Hq Hp).
  - specialize (Hdone w1 w' Hk (Hcreated ch eq_refl)).
    rewrite Hrs in H. cbn [List.find] in H. rewrite Ha, String.eqb_refl in H. case_bool_decide as Hcreate.
    + unfold mbind at 1, M_bind at 1, attempt at 1 in H. destruct (_create_file_exclusive _ _ w1) as [w2 o2] eqn:Ef.
      apply create_file_spec in Ef as [Kf Hf]; [|done].
      assert (Hidle : quiet_disk -> in_place root configuration w -> False) by (intros Hq Hp; by apply (Hact a Hin)).
      destruct o2 as [[]|e']; [|destruct (is_safety_error e')]; injection H as <- <-;
        (split; [by eapply changed_after|]); (split; [|intros Hq Hp; by destruct (Hidle Hq Hp)]); intros r [= <-]; [|apply Hfails].
      split; [done|]. intros _. by apply Hdone; [|apply Hf].
    + injection H as <- <-. split_and!; [by apply changed_nothing| |].
      * intros r [= <-]. split; [done|]. intros _. apply Hdone; [apply changed_nothing, confined_refl|].
        eapply present_kept; [done|]. apply Ha2. destruct (Hact a Hin) as [Hrefuse _]. by destruct (ir_action a).
      * intros Hq Hp. destruct (Hquiet Hq Hp) as [-> [= ->]]. split; [done|]. by intros r [= <-].
  - injection H as <- <-. split_and!; [by apply changed_nothing|done|]. intros Hq Hp. by destruct (Hquiet Hq Hp).
Qed.

(** A plan that succeeds is there, and looking for it changes nothing. *)
Lemma plan_result path (w w' : D) r :
  plan environ windows path w = (w', Ok r) -> init_changed r = false /\ (init_plan r = None -> init_succeeded r = false).
Proof.
  assert (Hfailed : forall e, init_changed (failed_with e false None) = false /\ init_succeeded (failed_with e false None) = false).
  { intros e. unfold failed_with. by destruct (split_colon _). }
  intros H. unfold plan in H. apply M_bind_Ok in H as (w1 & found & _ & H). destruct found as [snapshot|e].
  2:{ destruct (is_inspection_error e); [|done]. injection H as _ <-. destruct (Hfailed e). by split. }
  cbv zeta in H. apply M_bind_Ok in H as (w2 & configuration & _ & H). destruct (_ || _); [by injection H as _ <-|].
  unfold try_except in H. destruct (_plan_for_root _ _ _ _ w2) as [w3 [r'|e]] eqn:Er.
  2:{ destruct (is_safety_error e); [|done]. injection H as _ <-. destruct (Hfailed e). by split. }
  injection H as -> ->. unfold _plan_for_root in Er. cbv zeta in Er. do 6 (apply M_bind_Ok in Er as (? & ? & _ & Er)).
  apply M_bind_Ok in Er as (w4 & ignored & _ & Er). destruct ignored as [[|]|e].
  - do 7 (apply M_bind_Ok in Er as (? & ? & _ & Er)). by injection Er as _ <-.
  - by injection Er as _ <-.
  - destruct (is_inspection_error e); [|done]. injection Er as _ <-. destruct (Hfailed e). by split.
Qed.

(** Initialising looks, and then applies an allowed plan. *)
Lemma initialize_spec path (w w' : D) o :
  initialize environ windows path w = (w', o) ->
  (same_nodes w w' /\ forall r, o = Ok r -> init_changed r = false /\ init_succeeded r = false) \/
  exists root configuration p w1 w2, render_default_config root = Ok configuration /\ same_nodes w w1 /\ same_nodes w w2
    /\ planned root configuration w1 p /\ allowed p = true /\ apply_plan p w2 = (w', o).
Proof.
  intros H. unfold initialize in H. pose proof (same_plan path w) as K.
  destruct (plan environ windows path w) as [w1 [r|e]] eqn:Ep; cbn in K.
  2:{ rewrite (M_bind_err _ _ _ _ _ Ep) in H. injection H as <- <-. by left. }
  rewrite (M_bind_run _ _ _ _ _ Ep) in H. destruct (plan_result _ _ _ _ Ep) as [Hc Hs].
  destruct (init_plan r) as [p|] eqn:Hp; [|injection H as <- <-; left; split; [done|]; intros r' [= <-]; auto].
  destruct (init_succeeded r) eqn:Hr; cbn [negb] in H; [|injection H as <- <-; left; split; [done|]; by intros r' [= <-]].
  destruct (allowed p) eqn:Ha; cbn [negb] in H; [|injection H as <- <-; left; split; [done|]; by intros r' [= <-]].
  destruct (plan_spec _ _ _ _ _ Ep Hp Ha) as (root & configuration & w2 & Hcfg & K2 & Hplanned). right.
  by exists root, configuration, p, w2, w1.
Qed.

(** What was planned on a disk holds of another with the same entries. *)
Lemma planned_same root configuration (w w' : D) p : same_nodes w w' -> planned root configuration w p -> planned root configuration w' p.
Proof. unfold same_nodes. intros K [A B C]. split; [done|done|]. unfold directory_planned in *. by rewrite K. Qed.

(** C20: initialising a repository is conservative and idempotent.  Whatever happens, every
    entry of the disk that was there is there unchanged, and what is new is a directory, a
    file of one fixed content or one temporary file; a success means that the four directories
    and the rendered configuration are in place; and when the system calls of the disk
    succeed, initialising the same root again changes nothing and says so. *)
Theorem initialization_conservative path (w w' : D) o (Hrun : initialize environ windows path w = (w', o)) :
  (forall q n, nodes w !! q = Some n -> nodes w' !! q = Some n) /\
  (exists data temporary, forall q n, nodes w' !! q = Some n -> temporary <> Some q ->
     nodes w !! q = Some n \/ n = Folder \/ n = File data) /\
  forall r, o = Ok r -> init_succeeded r = true ->
    exists p configuration, init_plan r = Some p /\ render_default_config (ip_repository_root p) = Ok configuration
      /\ in_place (ip_repository_root p) configuration w'
      /\ (quiet_disk -> forall again (v v' : D) r', nodes v = nodes w' -> initialize environ windows again v = (v', Ok r') ->
          (forall p', init_plan r' = Some p' -> ip_repository_root p' = ip_repository_root p) ->
          nodes v' = nodes v /\ init_changed r' = false).
Proof.
  destruct (initialize_spec _ _ _ _ Hrun) as [[K Hfail]|(root & configuration & p & w1 & w2 & Hcfg & K1 & K2 & Hplanned & Ha & Happly)].
  { destruct (changed_spec "" w w') as [A B]; [by apply changed_nothing, same_kept|]. split; [done|]. split; [by exists ""|].
    intros r Hr Hs. destruct (Hfail r Hr). congruence. }
  apply (planned_same _ _ w1 w2) in Hplanned; [|unfold same_nodes in *; congruence].
  destruct (apply_plan_spec _ _ _ _ _ _ Hplanned Ha Happly) as (Hc & Hs & _).
  destruct (changed_spec configuration w w') as [A B]; [apply changed_after with w2; [by apply same_kept|done]|].
  split; [done|]. split; [by exists configuration|]. intros r Hr Hok. destruct (Hs r Hr) as [Hp Hplace]. specialize (Hplace Hok).
  exists p, configuration. rewrite (pl_root _ _ _ _ Hplanned). split_and!; [done..|].
  intros Hq again v v' r' Hv Hagain Hsame.
  destruct (initialize_spec _ _ _ _ Hagain) as [[K Hfail]|(root' & configuration' & p' & v1 & v2 & Hcfg' & J1 & J2 & Hplanned' & Ha' & Happly')].
  { split; [done|]. by apply Hfail. }
  apply (planned_same _ _ v1 v2) in Hplanned'; [|unfold same_nodes in *; congruence].
  destruct (apply_plan_spec _ _ _ _ _ _ Hplanned' Ha' Happly') as (_ & Hs' & Hidem).
  destruct (Hs' r' eq_refl) as [Hp' _]. specialize (Hsame _ Hp'). rewrite (pl_root _ _ _ _ Hplanned') in Hsame.
  subst root'. assert (configuration' = configuration) as -> by congruence. unfold same_nodes in J2.
  destruct Hidem as [E2 E3]; [done|destruct Hplace; split; congruence|]. split; [congruence|by apply E3].
Qed.
End Safety.
