(* ===== verification/InitializationSample.v ===== *)
(** * Initialising the sample repository

    The repository of [LocalGitSample], in which [.revanent] is ignored, is initialised, and
    initialised again. *)

From Stdlib Require Import ZArith Lia Ascii String QArith_base.
From S2P Require Import Prelude Text Domain Effects Commands GitPort CommandPolicy GitPolicy Ownership LocalGit LocalGitSample Configuration RuntimeComposition Reports ReportOutput Initialization InitializationSafety.
From stdpp Require Import base option strings numbers gmap sets list list_relations.

Open Scope Z_scope.

Module InitializationSample.

(** The commands of the sample, and one that says that a path is ignored. *)
Definition run (request : CommandRequest) : M bool CommandResult := fun added =>
  if GitSample.contains "check-ignore" (req_arguments request) then
    (added, Ok (mk_CommandResult (req_correlation_id request) (req_executable request) None CommandStatus.SUCCESS
                  (utc 0) (utc 0) 0%Q (GitSample.output "") (GitSample.output "") (Some 0) None COMMAND_SCHEMA_VERSION))
  else GitSample.run request added.

Definition host_of : GitHost bool := {|
  gh_files := GitSample.files;
  run_command := run;
  random_hex := mret "00112233445566ff";
  random_name := mret "abcdefgh";
  utc_now := mret (utc 0);
  system_call _ _ := mret tt;
  record_json := GitSample.stage;
  parse_record _ := reject "not a record";
  Ownership.package_version := "0.1.0"
|}.

Definition yaml : ConfigYaml := fun c => "project: " +:+ project_name (config_project c).

Definition printer : DiskHost bool := {|
  resolve_root p := mret p;
  disk_call _ _ := mret tt;
  random_part := mret "tmp0"
|}.

Definition environ : list (string * string) := [("PATH", "/usr/bin:/bin")].

(** The disk knows the root of the repository and a file in it. *)
Definition fresh : DiskWorld (GitWorld bool) :=
  mk_DiskWorld (mk_GitWorld false [] ∅)
    {[ GitSample.repository := Folder; joinpath GitSample.repository ["README.md"] := File "demo" ]}.

Definition call (w : DiskWorld (GitWorld bool)) : DiskWorld (GitWorld bool) * res InitializationResult :=
  initialize (git := host_of) (disk := printer) (yaml := yaml) environ false GitSample.repository w.
End InitializationSample.

Import InitializationSample.

(** Everything is made the first time, nothing the second. *)
Lemma initialized_end_to_end :
  match call fresh with
  | (w, Ok r) => init_succeeded r = true /\ init_changed r = true /\ size (nodes w) = 7%nat
      /\ (init_changed <$> snd (call w)) = Ok false
  | (_, Err _) => False
  end.
Proof. vm_compute. repeat split. Qed.

Lemma initialization_conservative_witness : exists (w : DiskWorld (GitWorld bool)) p configuration,
  nodes w !! joinpath GitSample.repository ["README.md"] = Some (File "demo")
  /\ in_place (ip_repository_root p) configuration w.
Proof.
  pose proof initialized_end_to_end as H. destruct (call fresh) as [w [r|e]] eqn:Hrun; [|destruct H].
  destruct (initialization_conservative (git := host_of) (disk := printer) (yaml := yaml) environ false GitSample.repository
              fresh w (Ok r) Hrun) as (Hkept & _ & Hdone).
  destruct (Hdone r eq_refl (proj1 H)) as (p & configuration & _ & _ & Hplace & _).
  exists w, p, configuration. split; [|exact Hplace]. apply Hkept. vm_compute. reflexivity.
Defined.
